(* ===== verification/_CoqProject ===== *)
-Q . S2P
Prelude.v
IrcProtocol.v
Led.v
MsgManager.v
FlashNor.v
Ota.v
OtaPut.v
OtaGet.v
OtaSafe.v
Nvram.v
BtStorage.v
HostPatch.v
HostCcc.v
Llcc.v
Mmio.v
SwIrc.v
IrcHal.v
Power.v
Gatt.v
Racp.v
RacpSpec.v
RacpTypes.v
Cgms.v
CgmsSession.v
CgmsTypes.v
Gls.v
Keys.v
Rmc.v
RmcSpec.v
RmcUse.v
CString.v
Loader.v
AtMisc.v
AtLine.v
Module.v
ModuleScan.v
ModuleData.v
ModuleUse.v
Ancs.v
AncsShow.v
AncsDisc.v
AudioIn.v
Hrs.v
Epb.v
EpbMm.v
Airsync.v
Timer.v
HwIrc.v
AudioOut.v
Cscs.v
Rscs.v
