(* ===== verification/Prelude.v ===== *)
(** * A verification library for the firmware of the ATB110x Bluetooth LE chips

    The repository (CubieBLE) is the part of a Zephyr-based SDK that runs from flash: kernel
    patches, drivers, a small application framework (messages, keys, LEDs, infrared, update
    over the air) and patches of a Bluetooth host that is itself in ROM.  This library models
    the parts of it that keep state and take decisions, one file per component, and proves
    what each of them promises to the others.  This file is the common prelude; its
    definitions come after this description.

    ** How the program is put together

    - Interrupt handlers and the host's receive thread produce work: a captured infrared wave
      ([sw_irc_acts.c]), an attribute written by a peer ([ota_profile.c]), a command of the
      controller core ([llc_hci.c]).
    - The application's main loop takes messages from one queue ([msg_manager.c]) and
      dispatches them: OTA events to [ota_profile.c], keys, timers, voice and link events to
      the application, of which the voice remote control, the serial module and the
      notification client are modelled.
    - Keys come from the matrix or the resistor ladder through [input_manager.c], which
      suppresses repeats, calls the application back and posts a message.
    - GATT services register with the host; the record services ([cgms.c], [gls.c]) collect
      measurements from a timer and report them on request from a work item.
    - Shared services sit below: LEDs ([led_hal.c], [led_manager.c]), flash
      ([xspi_nor_acts.c]), named settings ([nvram_config.c], a prebuilt library), bonding
      data ([storage.c]) and the client configurations ([bt_host_patch.c]) on top of the
      settings, the infrared service ([irc_hal.c]) on top of its driver, the recognisers
      ([irc_protocol.c]) and the settings.
    - When nothing is left to do the idle loop asks [soc_pm.c] whether to go to deep sleep.

    ** Conventions

    - A C integer of w bits is a [Z] in range; every operation that can leave the range is
      followed by the wrap [u8], [u16] or [u32].  Pulse tables, buffers and structures that
      are copied as bytes are lists; [rd] and [wr] fail outside an object.
    - Effects are the state monad [M S A] with failure.  [None] is undefined behaviour (an
      access outside an object, an over-wide shift, a call through a null pointer, the use of
      an uninitialised buffer) or a loop that outlived its fuel.  [ends m s P] says that [m]
      run from [s] is defined and ends in [P], so a theorem in this form includes memory
      safety and termination; [ends_if] is the partial version, used where undefinedness is
      excluded elsewhere.
    - Calls into code outside the sources are recorded in a log in the order they are made;
      what such a call answers is a parameter of the section.  Configuration macros are
      parameters where both settings are meaningful, and are named in the file otherwise.
    - A definition has the name of the C function it translates; loops of a function are
      separate fixpoints.  The interfaces [NetBuf], [MsgQueue] (MsgManager), [Flash]
      (FlashNor) and [Nvram] (Nvram) are type classes with the documented laws of code that
      is not in the sources; each has a concrete instance, at which the examples are run.

    ** The files

    - IrcProtocol: [hal/irc_protocol.c], and [check_irc_wave] of [hal/irc_hal.c].  The state
      is the pulse table.  The recognisers of the pulse-distance codes accept exactly the
      tables that fit some code word and normalise them (C10); every generated wave is
      recognised again (C11).  Further: regenerating an SC7461 frame shifts past the width of
      its type; the RC5 decoder stays inside its table and ends, the RC6 decoder can read one
      entry past it.
    - Led: [hal/led_hal.c], [framework/led_manager.c].  One LED's [led_device] refines a set
      of requests (C22); the pin follows the set; a reset leaves old periods behind.
    - MsgManager: [framework/msg_manager.c] over [NetBuf]; it implements [MsgQueue].
      Messages arrive in order, each once, and no buffer leaks (C20); a send without a free
      buffer is lost silently.
    - FlashNor: [drivers/flash/xspi_nor_acts.c] and the [Flash] interface, with a NOR chip
      that honours its block protection as the instance.
    - Ota, OtaPut, OtaGet, OtaSafe: [ota/ota.c], [ota_profile.c], [ota_dc.c], [ota_ft.c],
      [ota_storage.c].  [write_ota] is the receive thread's entry, [ota_event_handle] the
      main loop's, [ota_run] any interleaving of both.  An upload stores exactly the bytes
      sent, whatever is interleaved (C1); verification compares the right checksum (C2); a
      download sends the region (C16); every run keeps the control block well formed (C9).
      Defects: a stale data event moves a later upload, short requests are parsed past
      their end, a long version overruns the response, and one dropped wake-up silences the
      control characteristic for good.
    - Nvram: [nvram_config.h] and the driver's initialisation.
    - BtStorage: [host/storage.c], both implementations; keys are the bytes of
      [struct bt_keys].  Bonds come back for their own address only (C28); two missing
      breaks lose keys; an evicted element keeps the old device's keys.
    - HostPatch, HostCcc: [host/bt_host_patch.c].  The connection update is not starved;
      a bonding pairing ends stored and clean; the table of client configurations is
      a bounded finite map (C30) and survives a restart.
    - Llcc: [hci/llc_hci.c], [hci/llcc.c].  The checksum detects every burst of eight bits;
      a damaged packet is re-checked and sent again, except that an unaligned
      one is re-checked over the wrong bytes; a corrupted command has no effect; the
      trim upload proceeds as long as the controller accepts.
    - Mmio: the bus every register access goes through, for any behaviour of the hardware.
    - SwIrc: [irc/sw_irc_acts.c] over Mmio.  The busy wait is exact; a capture always
      ends (C40) but overruns its table at the 51st burst; a key plays its table.
    - IrcHal: [hal/irc_hal.c].  A learnt key is replayed as captured (C38); a key that was
      never learnt sends the previous one.
    - Power: [soc_pm.c], [kernel/device.c] over Mmio.  Deep sleep is entered exactly when
      nothing forbids it and everything is restored on return (C34).
    - Gatt: [gatt/types_encode.h], [date_time.h], [iso_ieee_11073.h] under
      [samples/bluetooth], and the frame of a GATT service: [server] is a service's variables
      with the notifications, indications and pauses it made; what the host answers to the
      n-th call is the parameter [answer].
    - Racp, RacpSpec, RacpTypes: the record access control point of [gatt/cgms.c] with the
      record store of [cgms_db.c], for any record type with the operations of the class
      [RecordService].  The store is an array with a count ([packed]: the first entries are
      in use); [racp_handle] is the work item that executes a request, [others] whatever
      happens while a report sleeps.  A report sends exactly the selected records (C5), a
      count is the number a report would send, every request is answered (C39), an
      abort stops a report, deleting the first record drops the newest.
    - Cgms, CgmsSession, CgmsTypes: [gatt/cgms.c], the continuous glucose monitoring service,
      an instance of [RecordService].  The checksum is the reflected CRC-16; a session
      is reported as measured (C7); every variable keeps the range of its type (C19).
    - Gls: [gatt/gls.c], [gls_db.c], the glucose service: the second instance.  Its copy of
      the engine differs only in names, which Gls gives; records decode to themselves
      and are stored in the order of their numbers.
    - Keys: [mxkeypad_acts.c], [key_hal.c], [input_manager.c], and the resistor-ladder keys of
      the remote control ([adckey_acts.c], [adckey_hal.c]).  The drivers' reports are events,
      [deliver] gives them to the input manager.  Presses and releases alternate (C25), a key
      does not stick, the ladder's reports are bracketed.
    - Rmc, RmcSpec, RmcUse: the voice remote control, [samples/voice_rcu/src/peripheral_rmc]
      and [gatt/hid/hog.c].  [rmc_sm_execute] is the state machine of [system_app_sm.c],
      [handle_msg] one pass of the main loop of [main.c], [run] any entry point of the
      application and [enabled] when its environment may enter there.  No reachable state
      has an undefined step (C3); reports leave only on a secured link (C12); keys reach the
      host, also those pressed before the link (C31); voice is reported as encoded
     ; a lost link is advertised three times.
    - CString: the C strings, character classes and [atoi] of the applications' library.
    - Loader: the second-stage loader ([voice_rcu/src/loader/main.c], [uart_adfu.c]).  [main]
      ends in what it starts.  It runs the newest image of the type asked for, and only a
      verified one (C4); a changed word stops an image (C26); the reboot call's type
      decides what runs next (C27).
    - AtMisc, AtLine, Module, ModuleScan, ModuleData, ModuleUse: the serial module
      [samples/ble_module].  AtLine collects command lines ([at_cmd_rx_isr]), which are one
      queue (C13), and splits them.  Module has the commands of [at_cmd.c], the link of
      [app_ble.c] and the messages of [main.c]; what the host answers to a call is a function
      of the calls made before.  ModuleScan: the list of devices stays well formed (C23)
      and its strongest device is chosen.  ModuleData: bytes of the UART become packets
      (C14) and come out of the peer (C6).  ModuleUse: settings survive a restart (C17).
    - Ancs, AncsShow, AncsDisc: the client of the phone's notifications, [samples/ancs].
      [ancs_parse_data] decodes answers cut into fragments anywhere; what is announced is
      shown (C8).  Discovery is a sequence of turns of host and main loop, after which
      the module is subscribed and its handles are stored (C18).

    - AudioIn: [drivers/audio/audio_in_acts.c], [hal/audioin_hal.c] and the consumer in
      [system_app_audio.c].  The interrupts of the microphone's DMA and the application's
      work are the steps of [capture_run]; blocks arrive in order and unchanged but for
      reported losses, and no buffer is leaked (C32).  A stop between two interrupts frees a
      buffer twice.
    - AudioOut: [drivers/audio/audio_out_acts.c], [hal/audio_out_hal.c] and the playback of
      [system_app_audio-out.c] over Mmio.  The DMA and the work queue are steps of
      [play_run]; a recording is heard in order to its end but for two flaws: old samples
      come after the first block and the last block is never heard (C33).
    - Timer: [drivers/timer/timer_acts.c] over Mmio: an abstract timer (C35).
    - HwIrc: [drivers/irc/irc_acts.c] over Mmio: power, clock, pin and code of a transmission
      (C36); switching the receiver breaks into one.
    - Hrs: [gatt/hrs.c] under [samples/bluetooth], with its simulated sensors; what it
      notifies decodes to the measurement of the specification (C37).
    - Cscs, Rscs: [gatt/cscs.c] and [gatt/rscs.c].  Both control points refine one abstract
      control point, the running one but for the request that overruns its response; the
      measurements decode to what was encoded.
    - Epb, EpbMm, Airsync: the WeChat transport [samples/bluetooth/airsync].  Epb is the
      codec [epb.c]: what a message says is found in it (C21).  EpbMm has the messages of
      [epb_MmBp.c] over the memory pool: a request is packed exactly when it fits (C29), and
      responses are unpacked by their fields.  Airsync has the checksum, the packets
      ([wechat_protocol.c]), the service of twenty-byte indications ([wechat_service.c]) and
      the main loop ([main.c]): a packet may come in any pieces (C24) and the handshake comes
      to its end (C15).  Defects: a refusal is read after it was freed, a second packet in a
      fragment is lost, any packet advances the handshake.

    ** Bounds and fuel

    - [gen_code] has one round per bit of its 32-bit mask and [check_code] one per bit of the
      code word; the RC5 and RC6 loops get three rounds per entry of the table, and
      [is_rc5_total] shows that RC5 never needs more.
    - [verify_fuel] is one more than the number of 256-byte pages of the region.
    - [delay_loop], [burst_loop] and [space_loop] get fuel in timer ticks: a running timer
      advances by at least one tick per access, so the ticks to wait bound the rounds; 51
      rounds bound the capture.  [wait_channel] and [wait_bits] wait for the other core and
      for oscillators: their fuel is a parameter and the theorems say which behaviour of the
      hardware makes it enough.
    - [report_loop] gets two rounds more than the store has entries; [greater_or_equal_loop]
      and [count_loop] one more than there are records; [delete_last_loop] one more than the
      store has entries, after which its index has left the array.
    - [sm_execute] gets depth two: the only action that runs the state machine again does so
      with events whose actions do not ([inner_action]).  [send_frames] gets four rounds of
      twenty bytes for a buffer of eighty.
    - [parse_loop] gets three rounds per byte of a fragment and four more: the header, the
      identifier, the length and a piece of text are separate rounds, of which only an empty
      text consumes nothing.  The UART handler's loop gets one round more than there are
      bytes; [adfu_attempts] has the code's one; [turns] gets twenty, discovery needs ten at most.
    - [varint_loop] gets five rounds, the code's own bound; [skip_varint] and [tag_loop] one
      round more than there are bytes; [find_loop] one round per byte of the message and one more,
      since every round consumes a byte.  [send_loop] gets one round more than there are
      bytes, of which each round sends up to twenty.
    - The CCC table, the bond pool, the message pools and the LED slots have the sizes the
      code gives them or that the configuration leaves open.

    ** What is not modelled

    The Bluetooth host, the controller, the kernel proper, the settings library and the voice
    codecs are in ROM or prebuilt.  The remaining drivers (ADC, PWM, SPI, UART, RTC, I2C,
    GPIO, DMA) are registrations of drivers in ROM and short register sequences; the shell
    and the start-up code are glue; the samples other than those named above repeat the
    services and applications that are modelled.  Of the remote control the LED patterns,
    the storage test and the infrared self-test are left out.  The patch tables and linker
    symbols are data of the build.  Interrupt masking does not show in the sequential
    models: each handler and each entry point runs as one step, and interleavings are
    sequences of such steps. *)
From Stdlib Require Export ZArith Lia.
From stdpp Require Export base list gmap strings numbers.
(** The list lemmas that share a name with the Standard Library's are stdpp's. *)
Export list_basics.list list_misc.list list_monad.list list_relations.list list_numbers.list.

#[global] Open Scope Z_scope.

(** ** Machine integers.  A [w]-bit C integer is a [Z] kept in range by an
    explicit wrap after every operation that may leave it. *)
Definition u8 (z : Z) : Z := z mod 2 ^ 8.
Definition u16 (z : Z) : Z := z mod 2 ^ 16.
Definition u32 (z : Z) : Z := z mod 2 ^ 32.
Definition u64 (z : Z) : Z := z mod 2 ^ 64.

(** Signed reinterpretation of the low [w] bits. *)
Definition sext (w z : Z) : Z :=
  let r := z mod 2 ^ w in if r <? 2 ^ (w - 1) then r else r - 2 ^ w.
Definition s8 (z : Z) : Z := sext 8 z.
Definition s16 (z : Z) : Z := sext 16 z.
Definition s32 (z : Z) : Z := sext 32 z.

(** C's truth value of an integer and the integer of a C comparison. *)
Definition truthy (z : Z) : bool := negb (z =? 0).
Definition b2z (b : bool) : Z := if b then 1 else 0.

(** [1UL << n] on a 32-bit [unsigned long]: undefined when the shift count
    is not smaller than the width. *)
Definition shl_ul (x n : Z) : option Z :=
  if (0 <=? n) && (n <? 32) then Some (u32 (Z.shiftl x n)) else None.

(** ** Fallible computations.  [None] is undefined behaviour of the C code
    (an access outside an object, an over-wide shift, a call through a null
    pointer) or a loop that did not end within its fuel. *)
Definition M (S A : Type) : Type := S -> option (A * S).

#[export] Instance M_ret {S} : MRet (M S) := fun A a s => Some (a, s).
#[export] Instance M_bind {S} : MBind (M S) := fun A B k m s =>
  match m s with Some (a, s') => k a s' | None => None end.

Definition get {S} : M S S := fun s => Some (s, s).
Definition put {S} (s : S) : M S unit := fun _ => Some (tt, s).
Definition modify {S} (f : S -> S) : M S unit := fun s => Some (tt, f s).
Definition gets {S A} (f : S -> A) : M S A := fun s => Some (f s, s).
Definition ub {S A} : M S A := fun _ => None.
Definition lift {S A} (o : option A) : M S A := fun s =>
  match o with Some a => Some (a, s) | None => None end.
Definition when {S} (b : bool) (m : M S unit) : M S unit :=
  if b then m else mret tt.

(** Hoare-style reasoning: [m] run from [s] is defined and ends in [P]. *)
Definition ends {S A} (m : M S A) (s : S) (P : A -> S -> Prop) : Prop :=
  match m s with Some (a, s') => P a s' | None => False end.
(** If [m] run from [s] is defined, it ends in [P]. *)
Definition ends_if {S A} (m : M S A) (s : S) (P : A -> S -> Prop) : Prop :=
  match m s with Some (a, s') => P a s' | None => True end.

Lemma ends_inv {S A} (m : M S A) s (P : A -> S -> Prop) :
  ends m s P -> exists a s', m s = Some (a, s') /\ P a s'.
Proof. unfold ends. destruct (m s) as [[a s']|]; [eauto|done]. Qed.
Lemma ends_bind {S A B} (m : M S A) (k : A -> M S B) s Q :
  ends m s (fun a s' => ends (k a) s' Q) -> ends (m ≫= k) s Q.
Proof. unfold ends, mbind, M_bind. by destruct (m s) as [[a s']|]. Qed.
Lemma ends_bind_assoc {S A B C} (m : M S A) (k : A -> M S B) (j : B -> M S C) s Q :
  ends (m ≫= k) s (fun b s' => ends (j b) s' Q) -> ends (x ← m; y ← k x; j y) s Q.
Proof. unfold ends, mbind, M_bind. destruct (m s) as [[a s']|]; [|done]. by destruct (k a s') as [[b s'']|]. Qed.
Lemma ends_ret {S A} (a : A) (s : S) (Q : A -> S -> Prop) : Q a s -> ends (mret a) s Q.
Proof. done. Qed.
Lemma ends_get {S} (s : S) (Q : S -> S -> Prop) : Q s s -> ends get s Q.
Proof. done. Qed.
Lemma ends_gets {S A} (f : S -> A) (s : S) (Q : A -> S -> Prop) : Q (f s) s -> ends (gets f) s Q.
Proof. done. Qed.
Lemma ends_modify {S} (f : S -> S) (s : S) (Q : unit -> S -> Prop) : Q tt (f s) -> ends (modify f) s Q.
Proof. done. Qed.
Lemma ends_lift {S A} (o : option A) a (s : S) (Q : A -> S -> Prop) :
  o = Some a -> Q a s -> ends (lift o) s Q.
Proof. by intros ->. Qed.
Lemma ends_when {S} (b : bool) (m : M S unit) s Q :
  (b = true -> ends m s Q) -> (b = false -> Q tt s) -> ends (when b m) s Q.
Proof. intros H1 H2. destruct b; [by apply H1|by apply H2]. Qed.
Lemma ends_mono {S A} (m : M S A) s (P Q : A -> S -> Prop) :
  ends m s P -> (forall a s', P a s' -> Q a s') -> ends m s Q.
Proof. unfold ends. destruct (m s) as [[a s']|]; auto. Qed.

Lemma ends_if_bind {S A B} (m : M S A) (k : A -> M S B) s Q :
  ends_if m s (fun a s' => ends_if (k a) s' Q) -> ends_if (m ≫= k) s Q.
Proof. unfold ends_if, mbind, M_bind. by destruct (m s) as [[a s']|]. Qed.
Lemma ends_if_ret {S A} (a : A) (s : S) (Q : A -> S -> Prop) : Q a s -> ends_if (mret a) s Q.
Proof. done. Qed.
Lemma ends_if_get {S} (s : S) (Q : S -> S -> Prop) : Q s s -> ends_if get s Q.
Proof. done. Qed.
Lemma ends_if_gets {S A} (f : S -> A) (s : S) (Q : A -> S -> Prop) :
  Q (f s) s -> ends_if (gets f) s Q.
Proof. done. Qed.
Lemma ends_if_modify {S} (f : S -> S) (s : S) (Q : unit -> S -> Prop) :
  Q tt (f s) -> ends_if (modify f) s Q.
Proof. done. Qed.
Lemma ends_if_lift {S A} (o : option A) (s : S) (Q : A -> S -> Prop) :
  (forall a, o = Some a -> Q a s) -> ends_if (lift o) s Q.
Proof. unfold ends_if, lift. destruct o; auto. Qed.
Lemma ends_if_when {S} (b : bool) (m : M S unit) s Q :
  (b = true -> ends_if m s Q) -> (b = false -> Q tt s) -> ends_if (when b m) s Q.
Proof. intros H1 H2. destruct b; [by apply H1|by apply H2]. Qed.
Lemma ends_if_mono {S A} (m : M S A) s (P Q : A -> S -> Prop) :
  ends_if m s P -> (forall a s', P a s' -> Q a s') -> ends_if m s Q.
Proof. unfold ends_if. destruct (m s) as [[a s']|]; auto. Qed.
Lemma ends_ends_if {S A} (m : M S A) s (P : A -> S -> Prop) : ends m s P -> ends_if m s P.
Proof. unfold ends, ends_if. by destruct (m s) as [[a s']|]. Qed.

(** ** Record update: [s <| field := v |>].  Each record declares its
    eta-expansion once; the setter of a field is found by abstracting the
    field's projection in it. *)
Class EtaRecord (R : Type) := eta_record : R -> R.
Class FieldSetter {R T : Type} (proj : R -> T) := set_field : (T -> T) -> R -> R.

Ltac solve_field_setter :=
  match goal with
  | |- @FieldSetter ?R ?T ?proj =>
      let e := constr:(_ : EtaRecord R) in
      let body := eval hnf in e in
      let f := fresh "f" in
      let r := fresh "r" in
      unfold FieldSetter; intros f r;
      let br := eval cbv beta in (body r) in
      match eval pattern (proj r) in br with
      | ?g _ => let t := eval cbv beta in (g (f (proj r))) in exact t
      end
  end.
#[export] Hint Extern 1 (FieldSetter _) => solve_field_setter : typeclass_instances.

Declare Scope record_scope.
Notation "r <| proj := v |>" := (set_field (proj := proj) (fun _ => v) r)
  (at level 1, left associativity, format "r  <| proj  :=  v |>") : record_scope.
Notation "r <| proj ::= f |>" := (set_field (proj := proj) f r)
  (at level 1, left associativity, format "r  <| proj  ::=  f |>") : record_scope.
#[global] Open Scope record_scope.

(** ** C arrays.  An index outside the object is undefined behaviour. *)
Definition rd {A} (l : list A) (i : Z) : option A :=
  if 0 <=? i then l !! Z.to_nat i else None.
Definition wr {A} (l : list A) (i : Z) (v : A) : option (list A) :=
  if (0 <=? i) && (i <? Z.of_nat (length l))
  then Some (<[Z.to_nat i := v]> l) else None.

Lemma rd_app_here {A} (pre suf : list A) (x : A) (i : Z) :
  i = Z.of_nat (length pre) -> rd (pre ++ x :: suf) i = Some x.
Proof.
  intros ->. unfold rd. rewrite Nat2Z.id.
  destruct (Z.leb_spec 0 (Z.of_nat (length pre))); [|lia].
  by rewrite list_lookup_middle.
Qed.

Lemma wr_app_here {A} (pre suf : list A) (x y : A) (i : Z) :
  i = Z.of_nat (length pre) ->
  wr (pre ++ x :: suf) i y = Some (pre ++ y :: suf).
Proof.
  intros ->. unfold wr. rewrite Nat2Z.id, length_app. cbn [length].
  destruct (Z.leb_spec 0 (Z.of_nat (length pre))); [|lia].
  destruct (Z.ltb_spec (Z.of_nat (length pre)) (Z.of_nat (length pre + S (length suf))));
    [|lia]. cbn. f_equal.
  rewrite insert_app_r_alt by lia. by rewrite Nat.sub_diag.
Qed.

Lemma rd_Some_bound {A} (l : list A) i x :
  rd l i = Some x -> 0 <= i < Z.of_nat (length l).
Proof.
  unfold rd. destruct (Z.leb_spec 0 i); [|done].
  intros H1%lookup_lt_Some. lia.
Qed.

Lemma rd_in_bound {A} (l : list A) i :
  0 <= i < Z.of_nat (length l) -> exists x, rd l i = Some x.
Proof.
  intros Hi. unfold rd. destruct (Z.leb_spec 0 i); [|lia].
  destruct (lookup_lt_is_Some_2 l (Z.to_nat i)) as [x Hx]; [lia|]. eauto.
Qed.

Lemma wr_in_bound {A} (l : list A) i v :
  0 <= i < Z.of_nat (length l) -> wr l i v = Some (<[Z.to_nat i := v]> l).
Proof.
  intros Hi. unfold wr.
  destruct (Z.leb_spec 0 i); [|lia].
  by destruct (Z.ltb_spec i (Z.of_nat (length l))); [|lia].
Qed.

Lemma wr_Some_length {A} (l l' : list A) i v :
  wr l i v = Some l' -> length l' = length l.
Proof.
  unfold wr. destruct (_ && _); intros [= <-]. apply length_insert.
Qed.

(** ** Wrap-around facts. *)
Lemma u8_small z : 0 <= z < 256 -> u8 z = z.
Proof. intros. by apply Z.mod_small. Qed.
Lemma u16_small z : 0 <= z < 65536 -> u16 z = z.
Proof. intros. by apply Z.mod_small. Qed.
Lemma u32_small z : 0 <= z < 2 ^ 32 -> u32 z = z.
Proof. intros. by apply Z.mod_small. Qed.
Lemma u8_range z : 0 <= u8 z < 256.
Proof. by apply Z.mod_pos_bound. Qed.
Lemma u16_range z : 0 <= u16 z < 65536.
Proof. by apply Z.mod_pos_bound. Qed.
Lemma u32_range z : 0 <= u32 z < 2 ^ 32.
Proof. by apply Z.mod_pos_bound. Qed.

(** Splitting a list at a known length. *)
Lemma split_at {A} (l : list A) (n : nat) :
  (n <= length l)%nat -> exists l1 l2, l = l1 ++ l2 /\ length l1 = n.
Proof.
  intros Hn. exists (take n l), (drop n l).
  split; [by rewrite take_drop | rewrite length_take; lia].
Qed.

(** An optional value as a list. *)
Definition opt_list {A} (o : option A) : list A := match o with Some x => [x] | None => [] end.

(** [out] is what is left of [inp] in order, [n] elements fewer. *)
Definition keeps_order {A} (out inp : list A) (n : nat) : Prop := out `sublist_of` inp /\ (length out + n = length inp)%nat.
Lemma keeps_order_refl {A} (l : list A) : keeps_order l l 0.
Proof. split; [done|lia]. Qed.
Lemma keeps_order_trans {A} (a b c : list A) n m : keeps_order a b n -> keeps_order b c m -> keeps_order a c (n + m).
Proof. intros [? ?] [? ?]. split; [by etrans|lia]. Qed.
Lemma keeps_order_app {A} (a b c d : list A) n m : keeps_order a b n -> keeps_order c d m -> keeps_order (a ++ c) (b ++ d) (n + m).
Proof. intros [? ?] [? ?]. split; [by apply sublist_app|rewrite !length_app; lia]. Qed.
Lemma keeps_order_lost {A} (out inp : list A) x n : keeps_order out inp n -> keeps_order out (inp ++ [x]) (n + 1).
Proof. intros [K1 K2]. split; [by apply sublist_inserts_r|rewrite length_app; cbn; lia]. Qed.
(** When nothing is lost, everything has come out. *)
Lemma nothing_lost {A} (out inp : list A) : keeps_order out inp 0 -> out = inp.
Proof.
  intros [Hs Hl]. rewrite Nat.add_0_r in Hl. induction Hs as [|x l1 l2 Hs IH|x l1 l2 Hs IH]; cbn in Hl; [done|f_equal; apply IH; lia|].
  apply sublist_length in Hs. lia.
Qed.

(** A boolean property of a bounded range, decided by evaluation. *)
Lemma forallb_range (f : Z -> bool) (n : Z) :
  forallb f (seqZ 0 n) = true -> forall x, 0 <= x < n -> f x = true.
Proof.
  intros Hf x Hx. apply (proj1 (forallb_forall _ _) Hf).
  apply list_elem_of_In, elem_of_seqZ. lia.
Qed.

(** Testing one bit with a mask. *)
Lemma land_pow2_truthy data k :
  0 <= k -> truthy (Z.land data (2 ^ k)) = Z.testbit data k.
Proof.
  intros Hk. unfold truthy. destruct (Z.testbit data k) eqn:Hb.
  - destruct (Z.eqb_spec (Z.land data (2 ^ k)) 0) as [E|]; [|done].
    assert (Z.testbit (Z.land data (2 ^ k)) k = false) as Hf by (by rewrite E, Z.bits_0).
    rewrite Z.land_spec, Hb, Z.pow2_bits_true in Hf by lia. done.
  - replace (Z.land data (2 ^ k)) with 0; [done|].
    symmetry. apply Z.bits_inj_iff. intros j. rewrite Z.land_spec, Z.bits_0.
    destruct (Z.eq_dec k j) as [<-|]; [by rewrite Hb|].
    by rewrite Z.pow2_bits_false, andb_false_r by done.
Qed.

(** ** Proof automation. *)
Create HintDb cwrap.
Create Rewrite HintDb cwrap.
#[export] Hint Rewrite u8_small u16_small u32_small using lia : cwrap.
#[export] Hint Resolve u8_range u16_range u32_range : cwrap.

(** Case analysis on the innermost comparison of the goal. *)
Ltac case_cmp :=
  match goal with
  | |- context [?a =? ?b] => destruct (Z.eqb_spec a b)
  | |- context [?a <? ?b] => destruct (Z.ltb_spec a b)
  | |- context [?a <=? ?b] => destruct (Z.leb_spec a b)
  end.
(** The same in a hypothesis. *)
Ltac case_cmp_in H :=
  match type of H with
  | context [?a =? ?b] => destruct (Z.eqb_spec a b)
  | context [?a <? ?b] => destruct (Z.ltb_spec a b)
  | context [?a <=? ?b] => destruct (Z.leb_spec a b)
  end.
(** One step of a Hoare-style derivation. *)
Ltac hoare1 :=
  lazymatch goal with
  | |- ends (_ ≫= _) _ _ => apply ends_bind
  | |- ends (match (_, _) with pair _ _ => _ end) _ _ => cbv iota
  | |- ends_if (match (_, _) with pair _ _ => _ end) _ _ => cbv iota
  | |- ends (mret _) _ _ => apply ends_ret
  | |- ends get _ _ => apply ends_get
  | |- ends (gets _) _ _ => apply ends_gets
  | |- ends (modify _) _ _ => apply ends_modify
  | |- ends_if (_ ≫= _) _ _ => apply ends_if_bind
  | |- ends_if (mret _) _ _ => apply ends_if_ret
  | |- ends_if get _ _ => apply ends_if_get
  | |- ends_if (gets _) _ _ => apply ends_if_gets
  | |- ends_if (modify _) _ _ => apply ends_if_modify
  | |- ends_if (lift _) _ _ => apply ends_if_lift
  | |- ends_if (when _ _) _ _ => apply ends_if_when
  end; cbv beta.
Ltac hoare := repeat hoare1.
(** Unfold the monad's plumbing. *)
Ltac munfold := unfold mbind, M_bind, mret, M_ret, get, put, modify, gets, ub, lift, when.
Ltac munfold_in H :=
  unfold mbind, M_bind, mret, M_ret, get, put, modify, gets, ub, lift, when in H.
