(* ===== verification/IrcProtocol.v ===== *)
(** * IR waveform recognition (ext/lib/actions/hal/irc_protocol.c)

    The recognisers of the learning remote: a captured table of pulse widths
    (in microseconds) is checked against a protocol's timing, decoded, and, for
    the pulse-distance protocols, rewritten in place with the nominal timing.
    The state is the pulse table ([u16_t pulse_tab[]]); a read or write outside
    it is undefined behaviour.  [unsigned long] has 32 bits on this target. *)
From S2P Require Import Prelude.

(** ** Timing constants (irc_protocol.h) *)
Definition NEC_LDC_0 : Z := 9000.
Definition NEC_LDC_1 : Z := 4500.
Definition NEC_LOGIC_1 : Z := 1690.
Definition NEC_LOGIC_0 : Z := 560.
Definition NEC_COM : Z := 560.
Definition NEC_CODE_NUM : Z := 32.
Definition _9012_LDC_0 : Z := 4500.
Definition _9012_LDC_1 : Z := 4500.
Definition _9012_LOGIC_1 : Z := 1690.
Definition _9012_LOGIC_0 : Z := 560.
Definition _9012_COM : Z := 560.
Definition _9012_CODE_NUM : Z := 32.
Definition RC5_COM : Z := 844.
Definition RC5_CODE_NUM : Z := 11.
Definition RC6_LDC_0 : Z := 2666.
Definition RC6_LDC_1 : Z := 889.
Definition RC6_COM : Z := 444.
Definition RC6_CODE_NUM : Z := 15.
Definition _50462_LOGIC_1 : Z := 1799.
Definition _50462_LOGIC_0 : Z := 780.
Definition _50462_COM : Z := 260.
Definition _50462_CODE_NUM : Z := 16.
Definition _7461_LDC_0 : Z := 9000.
Definition _7461_LDC_1 : Z := 4500.
Definition _7461_LOGIC_1 : Z := 1680.
Definition _7461_LOGIC_0 : Z := 560.
Definition _7461_COM : Z := 560.
Definition _7461_CODE_NUM : Z := 42.
Definition _50560_LDC_0 : Z := 8000.
Definition _50560_LDC_1 : Z := 4000.
Definition _50560_LOGIC_1 : Z := 1560.
Definition _50560_LOGIC_0 : Z := 520.
Definition _50560_COM : Z := 520.
Definition _50560_CODE_NUM : Z := 16.
Definition MIN_FIRST_CODE_NUM : Z := 20.

Definition ESP : Z := 20.
Definition ESP_L : Z := 100 - ESP.
Definition ESP_R : Z := 100 + ESP.
Definition VAL_ESP_L (a : Z) : Z := a * ESP_L / 100.
Definition VAL_ESP_R (a : Z) : Z := a * ESP_R / 100.

(** [(p > VAL_ESP_L(v)) && (p < VAL_ESP_R(v))] *)
Definition in_window (p v : Z) : bool := (VAL_ESP_L v <? p) && (p <? VAL_ESP_R v).

(** [pulse_tab[i]] and [pulse_tab[i] = v] *)
Definition rd_pulse (i : Z) : M (list Z) Z := fun tab =>
  match rd tab i with Some p => Some (p, tab) | None => None end.
Definition wr_pulse (i v : Z) : M (list Z) unit := fun tab =>
  match wr tab i v with Some tab' => Some (tt, tab') | None => None end.

(** ** The pulse-distance protocols.  [generate_nec_wave], [generate_9012_wave],
    [generate_50462_wave], [generate_7461_wave] and their recognisers are the same
    code at different constants: a leader of zero or two pulses, [code_num] bits of
    a common mark and a space that carries the bit, and a stop mark. *)
Record wave_fmt := WaveFmt {
  ldc : list Z;
  com : Z;
  logic_1 : Z;
  logic_0 : Z;
  code_num : Z;
  data_wrap : Z -> Z   (* u32_t data, or u64_t for 7461 *)
}.

Definition nec_fmt := WaveFmt [NEC_LDC_0; NEC_LDC_1] NEC_COM NEC_LOGIC_1 NEC_LOGIC_0 NEC_CODE_NUM u32.
Definition _9012_fmt :=
  WaveFmt [_9012_LDC_0; _9012_LDC_1] _9012_COM _9012_LOGIC_1 _9012_LOGIC_0 _9012_CODE_NUM u32.
Definition _50462_fmt := WaveFmt [] _50462_COM _50462_LOGIC_1 _50462_LOGIC_0 _50462_CODE_NUM u32.
Definition _7461_fmt :=
  WaveFmt [_7461_LDC_0; _7461_LDC_1] _7461_COM _7461_LOGIC_1 _7461_LOGIC_0 _7461_CODE_NUM u64.

(** [pulse_tab[i++] = LDC_0; pulse_tab[i++] = LDC_1;] *)
Fixpoint gen_header (hdr : list Z) (i : Z) : M (list Z) Z :=
  match hdr with
  | [] => mret i
  | h :: hdr' => _ ← wr_pulse i h; gen_header hdr' (u8 (i + 1))
  end.

(** [for (mask = ...; mask; mask >>= 1)]: a 32-bit mask needs at most 32 rounds. *)
Fixpoint gen_code (fuel : nat) (f : wave_fmt) (data mask i : Z) : M (list Z) Z :=
  if mask =? 0 then mret i else
  match fuel with
  | O => ub
  | S fuel' =>
      _ ← wr_pulse i (com f);
      _ ← wr_pulse (u8 (i + 1))
            (if truthy (Z.land data mask) then logic_1 f else logic_0 f);
      gen_code fuel' f data (Z.shiftr mask 1) (u8 (u8 (i + 1) + 1))
  end.

Definition generate_wave (f : wave_fmt) (data bits_of_data : Z) : M (list Z) unit :=
  i ← gen_header (ldc f) 0;
  mask ← lift (shl_ul 1 (bits_of_data - 1));
  i ← gen_code 32 f data mask i;
  wr_pulse i (com f).

(** [/* check LDC0 */ ... /* check LDC1 */] *)
Fixpoint check_header (hdr : list Z) (i : Z) : M (list Z) bool :=
  match hdr with
  | [] => mret true
  | h :: hdr' =>
      p ← rd_pulse i;
      if in_window p h then check_header hdr' (i + 1) else mret false
  end.

(** [/* check cmd */ for (i = 0; i < CODE_NUM * 2; i = i + 2)]; [None] is the early
    [return false], [Some data] the decoded word. *)
Fixpoint check_code (fuel : nat) (f : wave_fmt) (base i data : Z) : M (list Z) (option Z) :=
  if i <? code_num f * 2 then
    match fuel with
    | O => ub
    | S fuel' =>
        p ← rd_pulse (i + base);
        if negb (in_window p (com f)) then mret None else
        q ← rd_pulse (i + base + 1);
        if in_window q (logic_0 f)
        then check_code fuel' f base (u8 (i + 2)) (data_wrap f (Z.lor (Z.shiftl data 1) 0))
        else if in_window q (logic_1 f)
        then check_code fuel' f base (u8 (i + 2)) (data_wrap f (Z.lor (Z.shiftl data 1) 1))
        else mret None
    end
  else mret (Some data).

Definition is_wave (f : wave_fmt) (tab_len : Z) : M (list Z) bool :=
  let base := Z.of_nat (length (ldc f)) in
  if negb (tab_len =? code_num f * 2 + base + 1) then mret false else
  hdr_ok ← check_header (ldc f) 0;
  if negb hdr_ok then mret false else
  r ← check_code (Z.to_nat (code_num f)) f base 0 0;
  match r with
  | None => mret false
  | Some data => _ ← generate_wave f data (code_num f); mret true
  end.

Definition generate_nec_wave := generate_wave nec_fmt.
Definition is_nec_wave := is_wave nec_fmt.
Definition generate_9012_wave := generate_wave _9012_fmt.
Definition is_9012_protocol := is_wave _9012_fmt.
Definition generate_50462_wave := generate_wave _50462_fmt.
Definition is_50462_protocol := is_wave _50462_fmt.
Definition generate_7461_wave := generate_wave _7461_fmt.
Definition is_7461_protocol := is_wave _7461_fmt.

(** ** The bi-phase protocols *)
Definition SPACE_LEVEL : Z := 0.
Definition CARRIER_LEVEL : Z := 1.

(** [get_pulse_level(pulse_tab[offset], &offset, &used_len, RC_COM)]: the level, the
    new [offset] and the new [used_len]; -1 leaves both unchanged. *)
Definition get_pulse_level (pulse_width offset used_len RC_COM : Z) : Z * Z * Z :=
  let pulse_level := if truthy (offset mod 2) then SPACE_LEVEL else CARRIER_LEVEL in
  let consume len :=
    let used := u8 (used_len + 1) in
    if len <=? used then (pulse_level, u8 (offset + 1), 0) else (pulse_level, offset, used) in
  if in_window pulse_width RC_COM then consume 1
  else if in_window pulse_width (RC_COM * 2) then consume 2
  else if in_window pulse_width (RC_COM * 3) then consume 3
  else (-1, offset, used_len).

(** The call with its argument [pulse_tab[offset]]. *)
Definition level_at (rc offset used_len : Z) : M (list Z) (Z * Z * Z) :=
  p ← rd_pulse offset; mret (get_pulse_level p offset used_len rc).

(** The decoding loop of [is_rc5_protocol]. *)
Fixpoint rc5_loop (fuel : nat) (tab_len offset used_len data : Z) : M (list Z) bool :=
  if offset <? tab_len then
    match fuel with
    | O => ub
    | S fuel' =>
        '(levelA, offset, used_len) ← level_at RC5_COM offset used_len;
        '(levelB, offset, used_len) ←
          (if offset =? tab_len then mret (SPACE_LEVEL, offset, used_len)
           else level_at RC5_COM offset used_len);
        if (levelA =? SPACE_LEVEL) && (levelB =? CARRIER_LEVEL)
        then rc5_loop fuel' tab_len offset used_len (u32 (Z.lor (Z.shiftl data 1) 1))
        else if (levelA =? CARRIER_LEVEL) && (levelB =? SPACE_LEVEL)
        then rc5_loop fuel' tab_len offset used_len (u32 (Z.lor (Z.shiftl data 1) 0))
        else mret false
    end
  else mret true.

Definition is_rc5_protocol (tab_len : Z) : M (list Z) bool :=
  if tab_len <? RC5_CODE_NUM + 2 then mret false else
  '(l, offset, used_len) ← level_at RC5_COM 0 0;
  if negb (l =? CARRIER_LEVEL) then mret false else
  '(l, offset, used_len) ← level_at RC5_COM offset used_len;
  if negb (l =? SPACE_LEVEL) then mret false else
  '(l, offset, used_len) ← level_at RC5_COM offset used_len;
  if negb (l =? CARRIER_LEVEL) then mret false else
  rc5_loop (Z.to_nat (3 * tab_len)) tab_len offset used_len 0.

(** The decoding loop of [is_rc6_protocol]; bit 3 is the double-length toggle bit. *)
Fixpoint rc6_loop (fuel : nat) (tab_len i offset used_len data : Z) : M (list Z) bool :=
  if offset <? tab_len then
    match fuel with
    | O => ub
    | S fuel' =>
        '(levelA, offset, used_len) ← level_at RC6_COM offset used_len;
        '(okA, offset, used_len) ←
          (if i =? 3 then
             '(l, offset, used_len) ← level_at RC6_COM offset used_len;
             mret (levelA =? l, offset, used_len)
           else mret (true, offset, used_len));
        if negb okA then mret false else
        '(levelB, offset, used_len) ← level_at RC6_COM offset used_len;
        '(okB, offset, used_len) ←
          (if i =? 3 then
             '(l, offset, used_len) ← level_at RC6_COM offset used_len;
             mret (levelB =? l, offset, used_len)
           else mret (true, offset, used_len));
        if negb okB then mret false else
        if (levelA =? CARRIER_LEVEL) && (levelB =? SPACE_LEVEL)
        then rc6_loop fuel' tab_len (u8 (i + 1)) offset used_len (u32 (Z.lor (Z.shiftl data 1) 1))
        else if (levelA =? SPACE_LEVEL) && (levelB =? CARRIER_LEVEL)
        then rc6_loop fuel' tab_len (u8 (i + 1)) offset used_len (u32 (Z.lor (Z.shiftl data 1) 0))
        else mret false
    end
  else mret true.

Definition is_rc6_protocol (tab_len : Z) : M (list Z) bool :=
  if tab_len <? RC6_CODE_NUM then mret false else
  p ← rd_pulse 0;
  if negb (in_window p RC6_LDC_0) then mret false else
  p ← rd_pulse 1;
  if negb (in_window p RC6_LDC_1) then mret false else
  '(l, offset, used_len) ← level_at RC6_COM 2 0;
  if negb (l =? CARRIER_LEVEL) then mret false else
  '(l, offset, used_len) ← level_at RC6_COM offset used_len;
  if negb (l =? SPACE_LEVEL) then mret false else
  rc6_loop (Z.to_nat (3 * tab_len)) tab_len 0 offset used_len 0.

(** ** SC50560: two groups of eight bits around a segment code at pulse 18. *)
Fixpoint gen_50560_code (fuel : nat) (data mask i : Z) : M (list Z) Z :=
  if mask =? 0 then mret i else
  match fuel with
  | O => ub
  | S fuel' =>
      let i := if i =? 18 then u8 (i + 2) else i in
      _ ← wr_pulse i _50560_COM;
      _ ← wr_pulse (u8 (i + 1))
            (if truthy (Z.land data mask) then _50560_LOGIC_1 else _50560_LOGIC_0);
      gen_50560_code fuel' data (Z.shiftr mask 1) (u8 (u8 (i + 1) + 1))
  end.

Definition generate_50560_wave (data bits_of_data : Z) : M (list Z) unit :=
  i ← gen_header [_50560_LDC_0; _50560_LDC_1] 0;
  mask ← lift (shl_ul 1 (bits_of_data - 1));
  i ← gen_50560_code 32 data mask i;
  wr_pulse i _50560_COM.

Fixpoint check_50560_code (fuel : nat) (tab_len i data : Z) : M (list Z) (option Z) :=
  if i <? tab_len - 1 then
    match fuel with
    | O => ub
    | S fuel' =>
        let i := if i =? 18 then u8 (i + 2) else i in
        p ← rd_pulse i;
        if negb (in_window p _50560_COM) then mret None else
        q ← rd_pulse (i + 1);
        if in_window q _50560_LOGIC_0
        then check_50560_code fuel' tab_len (u8 (i + 2)) (u32 (Z.lor (Z.shiftl data 1) 0))
        else if in_window q _50560_LOGIC_1
        then check_50560_code fuel' tab_len (u8 (i + 2)) (u32 (Z.lor (Z.shiftl data 1) 1))
        else mret None
    end
  else mret (Some data).

Definition is_50560_protocol (tab_len : Z) : M (list Z) bool :=
  if negb (tab_len =? _50560_CODE_NUM * 2 + 2 + 2 + 1) then mret false else
  hdr_ok ← check_header [_50560_LDC_0; _50560_LDC_1] 0;
  if negb hdr_ok then mret false else
  r ← check_50560_code 32 tab_len 2 0;
  match r with
  | None => mret false
  | Some _ => mret true   (* the regeneration call is commented out *)
  end.

(** ** irc_hal.c: the learner's classification *)
Definition IR_LEARN_SUCCESS : Z := 0.
Definition IR_LEARN_FAILED : Z := 1.
Definition IR_LEARN_TIMEOUT : Z := 2.
Definition IR_LEARN_READY : Z := 3.

Definition check_irc_wave (tab_len : Z) : M (list Z) Z :=
  ok ← is_nec_wave tab_len; if (ok : bool) then mret IR_LEARN_SUCCESS else
  ok ← is_9012_protocol tab_len; if (ok : bool) then mret IR_LEARN_SUCCESS else
  ok ← is_rc5_protocol tab_len; if (ok : bool) then mret IR_LEARN_SUCCESS else
  ok ← is_rc6_protocol tab_len; if (ok : bool) then mret IR_LEARN_SUCCESS else
  ok ← is_7461_protocol tab_len; if (ok : bool) then mret IR_LEARN_SUCCESS else
  ok ← is_50560_protocol tab_len; if (ok : bool) then mret IR_LEARN_SUCCESS else
  ok ← is_50462_protocol tab_len; if (ok : bool) then mret IR_LEARN_SUCCESS else
  mret IR_LEARN_FAILED.

(** * Theorems *)

(** ** Reference wave: what a word looks like on the air, most significant bit
    first. *)
Fixpoint wave_bits (f : wave_fmt) (data : Z) (n : nat) : list Z :=
  match n with
  | O => []
  | S k => com f :: (if Z.testbit data (Z.of_nat k) then logic_1 f else logic_0 f)
           :: wave_bits f data k
  end.
Definition wave_of (f : wave_fmt) (data : Z) : list Z :=
  ldc f ++ wave_bits f data (Z.to_nat (code_num f)) ++ [com f].
Definition wave_len (f : wave_fmt) : Z := code_num f * 2 + Z.of_nat (length (ldc f)) + 1.

(** What makes a format usable: it fits the [u8_t] index and the 32-bit mask, and
    its bit windows tell the bits apart. *)
Definition fmt_ok (f : wave_fmt) : bool :=
  (1 <=? code_num f) && (code_num f <=? 32) && (wave_len f <? 256) &&
  forallb (fun h => in_window h h) (ldc f) &&
  in_window (com f) (com f) && in_window (logic_0 f) (logic_0 f) &&
  in_window (logic_1 f) (logic_1 f) && (VAL_ESP_R (logic_0 f) <=? VAL_ESP_L (logic_1 f)).

Lemma length_wave_bits f data n : length (wave_bits f data n) = (2 * n)%nat.
Proof. induction n; cbn; lia. Qed.

Lemma rd_pulse_here pre p suf i :
  i = Z.of_nat (length pre) -> rd_pulse i (pre ++ p :: suf) = Some (p, pre ++ p :: suf).
Proof. intros. unfold rd_pulse. by rewrite rd_app_here. Qed.

Lemma wr_pulse_here pre p suf i v :
  i = Z.of_nat (length pre) -> wr_pulse i v (pre ++ p :: suf) = Some (tt, pre ++ v :: suf).
Proof. intros. unfold wr_pulse. by rewrite wr_app_here. Qed.

(** ** Generation *)
Lemma gen_header_spec hdr : forall pre mid suf i,
  i = Z.of_nat (length pre) -> length mid = length hdr ->
  Z.of_nat (length pre + length hdr) < 256 ->
  gen_header hdr i (pre ++ mid ++ suf)
  = Some (i + Z.of_nat (length hdr), pre ++ hdr ++ suf).
Proof.
  induction hdr as [|h hdr IH]; intros pre mid suf i Hi Hm Hb.
  - destruct mid; [|done]. cbn [length]. by rewrite Z.add_0_r.
  - destruct mid as [|m mid]; [done|]. cbn [gen_header app]. munfold.
    rewrite wr_pulse_here by done. rewrite u8_small by (cbn [length] in Hb; lia).
    pose proof (IH (pre ++ [h]) mid suf (i + 1)) as IH'.
    rewrite length_app, <- !app_assoc in IH'. cbn [app length] in IH', Hm, Hb |- *.
    rewrite IH' by lia. cbn [length]. do 2 f_equal. lia.
Qed.

(** The loop mask of the [n] low bits: [1 << (n - 1)], and 0 when the loop ends. *)
Definition mask_of (n : nat) : Z := match n with O => 0 | S k => 2 ^ Z.of_nat k end.

Lemma mask_of_shiftr k : Z.shiftr (2 ^ Z.of_nat k) 1 = mask_of k.
Proof.
  destruct k as [|k]; [done|]. cbn [mask_of].
  rewrite Z.shiftr_div_pow2, Nat2Z.inj_succ, Z.pow_succ_r by lia.
  change (2 ^ 1) with 2. rewrite Z.mul_comm. by rewrite Z.div_mul.
Qed.

Lemma gen_code_spec f data n : forall fuel pre mid suf i,
  (n <= fuel)%nat -> i = Z.of_nat (length pre) -> length mid = (2 * n)%nat ->
  i + Z.of_nat (2 * n) < 256 ->
  gen_code fuel f data (mask_of n) i (pre ++ mid ++ suf)
  = Some (i + Z.of_nat (2 * n), pre ++ wave_bits f data n ++ suf).
Proof.
  induction n as [|n IH]; intros fuel pre mid suf i Hfuel Hi Hm Hb.
  - destruct mid; [|done]. rewrite Z.add_0_r. by destruct fuel.
  - destruct mid as [|m1 [|m2 mid]]; [done|cbn in Hm; lia|].
    destruct fuel as [|fuel]; [lia|]. cbn [gen_code mask_of].
    destruct (Z.eqb_spec (2 ^ Z.of_nat n) 0) as [E|_];
      [pose proof (Z.pow_pos_nonneg 2 (Z.of_nat n)); lia|].
    munfold. cbn [app]. rewrite wr_pulse_here by done.
    rewrite u8_small, land_pow2_truthy, mask_of_shiftr by lia.
    change (pre ++ com f :: m2 :: mid ++ suf) with (pre ++ [com f] ++ m2 :: mid ++ suf).
    rewrite (app_assoc pre), wr_pulse_here by (rewrite length_app; cbn; lia).
    rewrite u8_small by lia.
    pose proof (IH fuel ((pre ++ [com f]) ++ [if Z.testbit data (Z.of_nat n)
      then logic_1 f else logic_0 f]) mid suf (i + 1 + 1)) as IH'.
    rewrite !length_app, <- !app_assoc in IH'. cbn [app length] in IH', Hm.
    rewrite <- !app_assoc. cbn [app]. rewrite IH' by lia.
    cbn [wave_bits app]. do 2 f_equal. lia.
Qed.

Lemma shl_ul_mask n : (1 <= n <= 32)%nat -> shl_ul 1 (Z.of_nat n - 1) = Some (mask_of n).
Proof.
  intros Hn. unfold shl_ul.
  destruct (Z.leb_spec 0 (Z.of_nat n - 1)); [|lia].
  destruct (Z.ltb_spec (Z.of_nat n - 1) 32); [|lia]. cbn [andb]. f_equal.
  destruct n as [|k]; [lia|]. cbn [mask_of].
  replace (Z.of_nat (S k) - 1) with (Z.of_nat k) by lia.
  rewrite Z.shiftl_1_l. apply u32_small. split; [lia|]. apply Z.pow_lt_mono_r; lia.
Qed.

Lemma fmt_ok_elim f : fmt_ok f = true ->
  1 <= code_num f <= 32 /\ wave_len f < 256 /\
  Forall (fun h => in_window h h = true) (ldc f) /\
  in_window (com f) (com f) = true /\ in_window (logic_0 f) (logic_0 f) = true /\
  in_window (logic_1 f) (logic_1 f) = true /\ VAL_ESP_R (logic_0 f) <= VAL_ESP_L (logic_1 f).
Proof.
  unfold fmt_ok. rewrite !andb_true_iff, !Z.leb_le, Z.ltb_lt.
  intros [[[[[[[? ?] ?] Hh] ?] ?] ?] ?]. split_and!; try done.
  apply List.Forall_forall. intros h Hin. by apply (proj1 (forallb_forall _ _) Hh).
Qed.

Lemma length_wave_of f data : 1 <= code_num f ->
  Z.of_nat (length (wave_of f data)) = wave_len f.
Proof.
  intros. unfold wave_of, wave_len. rewrite !length_app, length_wave_bits. cbn. lia.
Qed.

Lemma generate_wave_spec f data tab :
  fmt_ok f = true -> wave_len f <= Z.of_nat (length tab) ->
  generate_wave f data (code_num f) tab
  = Some (tt, wave_of f data ++ drop (Z.to_nat (wave_len f)) tab).
Proof.
  intros (Hn & Hl & _)%fmt_ok_elim Hlen. unfold wave_len in *.
  set (n := Z.to_nat (code_num f)). assert (code_num f = Z.of_nat n) as Hcn by lia.
  destruct (split_at tab (length (ldc f))) as (h & r & -> & Hh); [lia|].
  rewrite length_app in Hlen.
  destruct (split_at r (2 * n)) as (b & r' & -> & Hb); [lia|].
  rewrite length_app in Hlen. destruct r' as [|s r']; [cbn in Hlen; lia|].
  unfold generate_wave. munfold.
  pose proof (gen_header_spec (ldc f) [] h (b ++ s :: r') 0) as Hgh. cbn [app length] in Hgh.
  rewrite Hgh by lia. rewrite Hcn, shl_ul_mask by lia.
  rewrite (gen_code_spec f data n 32 (ldc f) b (s :: r')) by lia.
  rewrite app_assoc, wr_pulse_here by (rewrite length_app, length_wave_bits; lia).
  unfold wave_of. rewrite <- Hcn. fold n. do 2 f_equal.
  rewrite <- !app_assoc. do 2 f_equal. cbn [app]. f_equal.
  rewrite (app_assoc h b), drop_app_ge by (rewrite length_app; lia).
  rewrite length_app, Hh, Hb.
  replace (_ - _)%nat with 1%nat by lia. done.
Qed.

(** ** Recognition *)
(** Every pulse of [ps] lies in the tolerance window of its nominal width. *)
Fixpoint windows (ps cs : list Z) : bool :=
  match ps, cs with
  | [], [] => true
  | p :: ps', c :: cs' => in_window p c && windows ps' cs'
  | _, _ => false
  end.

Lemma windows_app ps1 cs1 ps2 cs2 : length ps1 = length cs1 ->
  windows (ps1 ++ ps2) (cs1 ++ cs2) = windows ps1 cs1 && windows ps2 cs2.
Proof.
  revert cs1. induction ps1 as [|p ps IH]; intros [|c cs] Hl; try done.
  cbn. rewrite IH by (cbn in Hl; lia). by rewrite andb_assoc.
Qed.

(** The decoding loop as a function of the pulses it reads. *)
Fixpoint decode_bits (f : wave_fmt) (l : list Z) (data : Z) : option Z :=
  match l with
  | p :: q :: rest =>
      if negb (in_window p (com f)) then None else
      if in_window q (logic_0 f) then decode_bits f rest (data_wrap f (Z.lor (Z.shiftl data 1) 0))
      else if in_window q (logic_1 f)
      then decode_bits f rest (data_wrap f (Z.lor (Z.shiftl data 1) 1)) else None
  | _ => Some data
  end.

Lemma check_header_spec hdr : forall pre mid suf i,
  i = Z.of_nat (length pre) -> length mid = length hdr ->
  check_header hdr i (pre ++ mid ++ suf) = Some (windows mid hdr, pre ++ mid ++ suf).
Proof.
  induction hdr as [|h hdr IH]; intros pre [|m mid] suf i Hi Hm; try done.
  cbn [check_header app windows]. munfold. rewrite rd_pulse_here by done.
  destruct (in_window m h); [|done]. cbn [andb].
  pose proof (IH (pre ++ [m]) mid suf (i + 1)) as IH'.
  rewrite length_app, <- !app_assoc in IH'. cbn [app length] in IH', Hm.
  apply IH'; lia.
Qed.

Lemma check_code_spec f base n : forall fuel pre mid suf i data,
  (n <= fuel)%nat -> i + base = Z.of_nat (length pre) -> length mid = (2 * n)%nat ->
  0 <= i -> i + Z.of_nat (2 * n) = code_num f * 2 -> code_num f * 2 < 256 ->
  check_code fuel f base i data (pre ++ mid ++ suf)
  = Some (decode_bits f mid data, pre ++ mid ++ suf).
Proof.
  induction n as [|n IH]; intros fuel pre mid suf i data Hfuel Hi Hm Hi0 He Hb.
  - destruct mid; [|done]. destruct fuel; cbn [check_code];
      (destruct (Z.ltb_spec i (code_num f * 2)); [lia|done]).
  - destruct mid as [|p [|q mid]]; [done|cbn in Hm; lia|].
    destruct fuel as [|fuel]; [lia|]. cbn [check_code decode_bits].
    destruct (Z.ltb_spec i (code_num f * 2)); [|lia].
    munfold. cbn [app]. rewrite rd_pulse_here by done.
    destruct (in_window p (com f)); [|done]. cbn [negb].
    change (pre ++ p :: q :: mid ++ suf) with (pre ++ [p] ++ q :: mid ++ suf).
    rewrite (app_assoc pre), rd_pulse_here by (rewrite length_app; cbn; lia).
    rewrite u8_small by lia.
    pose proof (fun d => IH fuel ((pre ++ [p]) ++ [q]) mid suf (i + 2) d) as IH'.
    rewrite !length_app, <- !app_assoc in IH'. cbn [app length] in IH', Hm.
    rewrite <- !app_assoc. cbn [app].
    destruct (in_window q (logic_0 f)); [apply IH'; lia|].
    destruct (in_window q (logic_1 f)); [apply IH'; lia|done].
Qed.

Lemma in_window_disjoint q a b :
  VAL_ESP_R a <= VAL_ESP_L b -> in_window q a = true -> in_window q b = false.
Proof. unfold in_window. rewrite andb_true_iff, andb_false_iff, !Z.ltb_lt, !Z.ltb_ge. lia. Qed.

(** A shifted-in bit, without the bitwise operations. *)
Lemma lor_shift_bit d (b : bool) :
  0 <= d -> Z.lor (Z.shiftl d 1) (b2z b) = 2 * d + b2z b.
Proof.
  intros Hd.
  rewrite Z.shiftl_mul_pow2 by lia. change (2 ^ 1) with 2. rewrite Z.mul_comm.
  destruct b; [|by rewrite Z.lor_0_r, Z.add_0_r]. cbn [b2z].
  destruct d; done.
Qed.

Lemma testbit_odd_div d n : 0 <= n -> Z.testbit d n = Z.odd (d / 2 ^ n).
Proof. intros. by rewrite <- Z.shiftr_div_pow2, <- Z.bit0_odd, Z.shiftr_spec, Z.add_0_l. Qed.

(** The accumulator grows by one bit: [x = 2 d0 + b] says the same as [x / 2 = d0]
    with parity [b]. *)
Lemma half_parity x d0 (b : bool) : x = 2 * d0 + b2z b <-> x / 2 = d0 /\ Z.odd x = b.
Proof.
  rewrite (Z.div_mod x 2) at 1 by lia. rewrite Zmod_odd.
  destruct (Z.odd x), b; cbn; intuition (try lia; try congruence).
Qed.

(** The decoder finds exactly the words whose wave fits the pulses. *)
Lemma decode_bits_iff f (Hok : fmt_ok f = true) (Hw : data_wrap f = u32) n : forall l data d,
  length l = (2 * n)%nat -> (n <= 32)%nat -> 0 <= data < 2 ^ (32 - Z.of_nat n) ->
  decode_bits f l data = Some d <->
  d / 2 ^ Z.of_nat n = data /\ 0 <= d /\ windows l (wave_bits f d n) = true.
Proof.
  destruct (fmt_ok_elim f Hok) as (_ & _ & _ & _ & _ & _ & Hdis).
  induction n as [|n IH]; intros l data d Hl Hn Hd.
  - destruct l; [|done]. cbn. rewrite Z.div_1_r.
    split; [intros [= <-]; intuition lia | intros [-> _]; done].
  - destruct l as [|p [|q l]]; [done|cbn in Hl; lia|].
    cbn [decode_bits wave_bits windows]. rewrite Hw.
    destruct (in_window p (com f)); cbn [negb andb]; [|intuition congruence].
    assert (2 ^ (32 - Z.of_nat n) = 2 * 2 ^ (32 - Z.of_nat (S n))) as Hp.
    { rewrite <- Z.pow_succ_r by lia. f_equal. lia. }
    assert (2 ^ (32 - Z.of_nat n) <= 2 ^ 32) as Hp32 by (apply Z.pow_le_mono_r; lia).
    rewrite testbit_odd_div by lia.
    rewrite Nat2Z.inj_succ, Z.pow_succ_r, (Z.mul_comm 2), <- Z.div_div by lia.
    set (x := d / 2 ^ Z.of_nat n).
    pose proof (lor_shift_bit data false ltac:(lia)) as H0.
    pose proof (lor_shift_bit data true ltac:(lia)) as H1.
    cbn [b2z] in H0, H1. rewrite H0, H1, !u32_small by lia. cbn [length] in Hl.
    pose proof (half_parity x data) as HP.
    destruct (in_window q (logic_0 f)) eqn:E0.
    + pose proof (in_window_disjoint _ _ _ Hdis E0) as E1. rewrite IH by lia. fold x.
      specialize (HP false). cbn [b2z] in HP. rewrite HP.
      destruct (Z.odd x); rewrite ?E0, ?E1; cbn [andb]; intuition congruence.
    + destruct (in_window q (logic_1 f)) eqn:E1.
      * rewrite IH by lia. fold x. specialize (HP true). cbn [b2z] in HP. rewrite HP.
        destruct (Z.odd x); rewrite ?E0, ?E1; cbn [andb]; intuition congruence.
      * destruct (Z.odd x); rewrite ?E0, ?E1; cbn [andb]; intuition congruence.
Qed.

(** The pulses before the stop mark lie in the windows of word [d]'s wave. *)
Definition fits (f : wave_fmt) (tab : list Z) (d : Z) : bool :=
  windows (take (Z.to_nat (wave_len f - 1)) tab)
    (ldc f ++ wave_bits f d (Z.to_nat (code_num f))).

(** The formats whose recogniser also rewrites the table. *)
Definition learnable : list wave_fmt := [nec_fmt; _9012_fmt; _50462_fmt].

Lemma learnable_ok f : f ∈ learnable -> fmt_ok f = true /\ data_wrap f = u32.
Proof. by intros [->|[->|[->|[]%not_elem_of_nil]%elem_of_cons]%elem_of_cons]%elem_of_cons. Qed.

(** The recogniser as a function of the three parts of the table. *)
Lemma is_wave_parts f h b s r :
  fmt_ok f = true -> length h = length (ldc f) ->
  length b = (2 * Z.to_nat (code_num f))%nat ->
  is_wave f (wave_len f) (h ++ b ++ s :: r) =
  Some (match windows h (ldc f), decode_bits f b 0 with
        | true, Some d => (true, wave_of f d ++ r)
        | _, _ => (false, h ++ b ++ s :: r)
        end).
Proof.
  intros Hok Hh Hb. destruct (fmt_ok_elim f Hok) as (Hn & Hl & _).
  unfold is_wave. fold (wave_len f).
  destruct (Z.eqb_spec (wave_len f) (wave_len f)); [|done]. cbn [negb]. munfold.
  pose proof (check_header_spec (ldc f) [] h (b ++ s :: r) 0 eq_refl Hh) as E.
  cbn [app] in E. rewrite E.
  destruct (windows h (ldc f)); [|done]. cbn [negb].
  rewrite (check_code_spec f _ (Z.to_nat (code_num f)))
    by (unfold wave_len in *; lia).
  destruct (decode_bits f b 0) as [d|]; [|done].
  rewrite generate_wave_spec; [|done|rewrite !length_app; cbn [length]; unfold wave_len; lia].
  do 3 f_equal. rewrite app_assoc, drop_app_ge by (rewrite length_app; unfold wave_len; lia).
  replace (_ - _)%nat with 1%nat by (rewrite length_app; unfold wave_len; lia). done.
Qed.

Lemma fits_parts f h b s r d :
  1 <= code_num f -> length h = length (ldc f) ->
  length b = (2 * Z.to_nat (code_num f))%nat ->
  fits f (h ++ b ++ s :: r) d
  = windows h (ldc f) && windows b (wave_bits f d (Z.to_nat (code_num f))).
Proof.
  intros Hn Hh Hb. unfold fits, wave_len.
  rewrite app_assoc, take_app_length' by (rewrite length_app; lia).
  by rewrite windows_app by done.
Qed.

Lemma table_parts f (tab : list Z) :
  1 <= code_num f -> wave_len f <= Z.of_nat (length tab) ->
  exists h b s r, tab = h ++ b ++ s :: r /\ length h = length (ldc f) /\
    length b = (2 * Z.to_nat (code_num f))%nat /\ r = drop (Z.to_nat (wave_len f)) tab.
Proof.
  intros Hn Hl. unfold wave_len in *.
  destruct (split_at tab (length (ldc f))) as (h & t & -> & Hh); [lia|].
  rewrite length_app in Hl.
  destruct (split_at t (2 * Z.to_nat (code_num f))) as (b & t' & -> & Hb); [lia|].
  rewrite length_app in Hl. destruct t' as [|s r]; [cbn in Hl; lia|].
  exists h, b, s, r. split_and!; try done.
  rewrite app_assoc, drop_app_ge by (rewrite length_app; lia).
  replace (_ - _)%nat with 1%nat by (rewrite length_app; lia). done.
Qed.

(** A table is recognised exactly when it fits a word of the protocol. *)
Lemma is_wave_spec f (tab : list Z) :
  fmt_ok f = true -> data_wrap f = u32 -> wave_len f <= Z.of_nat (length tab) ->
  (exists d, 0 <= d < 2 ^ code_num f /\ fits f tab d = true /\
     is_wave f (wave_len f) tab
     = Some (true, wave_of f d ++ drop (Z.to_nat (wave_len f)) tab)) \/
  ((forall d, 0 <= d < 2 ^ code_num f -> fits f tab d = false) /\
     is_wave f (wave_len f) tab = Some (false, tab)).
Proof.
  intros Hok Hw Hl. destruct (fmt_ok_elim f Hok) as (Hn & _).
  destruct (table_parts f tab ltac:(lia) Hl) as (h & b & s & r & Ht & Hh & Hb & Hr).
  pose proof (is_wave_parts f h b s r Hok Hh Hb) as HP. rewrite <- Hr.
  pose proof (fun d => fits_parts f h b s r d ltac:(lia) Hh Hb) as HF. rewrite <- Ht in HP, HF.
  assert (forall d, 0 <= d < 2 ^ code_num f -> fits f tab d = true ->
            decode_bits f b 0 = Some d) as Hdec.
  { intros d Hd. rewrite HF. intros [_ Hwin]%andb_prop.
    apply (decode_bits_iff f Hok Hw _ _ _ _ Hb); [lia|lia|].
    rewrite Z2Nat.id by lia. split; [by apply Z.div_small|]. by split; [lia|]. }
  destruct (windows h (ldc f)) eqn:Eh; cbn [andb] in HF;
    [|right; split; [intros; apply HF|done]].
  destruct (decode_bits f b 0) as [d|] eqn:Ed.
  - apply (decode_bits_iff f Hok Hw _ _ _ _ Hb) in Ed as (Hdiv & Hd0 & Hwin); [|lia|lia].
    rewrite Z2Nat.id in Hdiv by lia.
    left. exists d. split_and!; [done| |by rewrite HF|done].
    apply Z.div_small_iff in Hdiv as [?|?]; lia.
  - right. split; [|done]. intros d Hd.
    destruct (fits f tab d) eqn:E; [|done]. by specialize (Hdec d Hd E).
Qed.

Lemma windows_refl l : Forall (fun h => in_window h h = true) l -> windows l l = true.
Proof. induction 1 as [|h l Hh _ IH]; [done|]. cbn. by rewrite Hh, IH. Qed.

Lemma fits_wave_of f d rest : fmt_ok f = true -> fits f (wave_of f d ++ rest) d = true.
Proof.
  intros Hok. destruct (fmt_ok_elim f Hok) as (Hn & _ & Hh & Hc & H0 & H1 & _).
  unfold wave_of. rewrite <- !app_assoc. cbn [app].
  rewrite fits_parts by (rewrite ?length_wave_bits; lia).
  rewrite windows_refl by done. cbn [andb]. apply windows_refl.
  generalize (Z.to_nat (code_num f)) as n. induction n as [|n IH]; [constructor|].
  cbn [wave_bits]. repeat constructor; [done| |done]. by destruct (Z.testbit d _).
Qed.

(** Two words with the same fitting table are equal. *)
Lemma fits_inj f (tab : list Z) d d' :
  fmt_ok f = true -> data_wrap f = u32 -> wave_len f <= Z.of_nat (length tab) ->
  0 <= d < 2 ^ code_num f -> 0 <= d' < 2 ^ code_num f ->
  fits f tab d = true -> fits f tab d' = true -> d = d'.
Proof.
  intros Hok Hw Hl Hd Hd'. destruct (fmt_ok_elim f Hok) as (Hn & _).
  destruct (table_parts f tab ltac:(lia) Hl) as (h & b & s & r & -> & Hh & Hb & _).
  rewrite !fits_parts by lia. intros [_ H1]%andb_prop [_ H2]%andb_prop.
  assert (forall x, 0 <= x < 2 ^ code_num f ->
    windows b (wave_bits f x (Z.to_nat (code_num f))) = true ->
    decode_bits f b 0 = Some x) as Hx.
  { intros x Hx Hwx. apply (decode_bits_iff f Hok Hw _ _ _ _ Hb); [lia|lia|].
    rewrite Z2Nat.id by lia. split; [by apply Z.div_small|]. by split; [lia|]. }
  pose proof (Hx d Hd H1). pose proof (Hx d' Hd' H2). congruence.
Qed.

(** ** Properties *)

(** C10.  The NEC, TC9012 and M50462 recognisers are total on tables that hold the
    frame, accept exactly the tables whose pulses lie within 20% of the wave of some
    word of the protocol, and then replace the frame with that word's nominal wave;
    a rejected table is left as it was. *)
Theorem is_wave_normalises f (tab : list Z) :
  f ∈ learnable -> wave_len f <= Z.of_nat (length tab) ->
  exists ok tab', is_wave f (wave_len f) tab = Some (ok, tab') /\
    (ok = true <-> exists d, 0 <= d < 2 ^ code_num f /\ fits f tab d = true) /\
    (ok = false -> tab' = tab) /\
    (forall d, 0 <= d < 2 ^ code_num f -> fits f tab d = true ->
       tab' = wave_of f d ++ drop (Z.to_nat (wave_len f)) tab).
Proof.
  intros [Hok Hw]%learnable_ok Hl.
  destruct (is_wave_spec f tab Hok Hw Hl) as [(d & Hd & Hf & ->)|[Hnone ->]].
  - eexists true, _. split_and!; [done|split; eauto|done|].
    intros d' Hd' Hf'. by rewrite (fits_inj f tab d' d).
  - eexists false, _. split_and!; [done| |done|].
    + split; [done|]. intros (d & Hd & Hf). by rewrite Hnone in Hf.
    + intros d Hd Hf. by rewrite Hnone in Hf.
Qed.

Definition noisy_nec : list Z :=
  (fun p => p + 37) <$> (wave_of nec_fmt 0xA55A3CC3 ++ replicate 33 0).

Lemma is_wave_normalises_witness :
  exists ok tab', is_wave nec_fmt 67 noisy_nec = Some (ok, tab') /\
    (ok = true <-> exists d, 0 <= d < 2 ^ 32 /\ fits nec_fmt noisy_nec d = true) /\
    (ok = false -> tab' = noisy_nec) /\
    (forall d, 0 <= d < 2 ^ 32 -> fits nec_fmt noisy_nec d = true ->
       tab' = wave_of nec_fmt d ++ drop 67 noisy_nec).
Proof.
  apply (is_wave_normalises nec_fmt noisy_nec);
    [by apply list_elem_of_In; left | by vm_compute].
Defined.



(** ** The 42-bit protocol *)
Lemma decode_bits_fits f d n : forall l data,
  windows l (wave_bits f d n) = true -> exists d', decode_bits f l data = Some d'.
Proof.
  induction n as [|n IH]; intros [|p [|q l]] data Hw; cbn in Hw |- *; try done; eauto.
  destruct (in_window p (com f)); [|done]. cbn [negb andb] in *.
  apply andb_prop in Hw as [Hq Hw].
  destruct (in_window q (logic_0 f)) eqn:E0; [by apply IH|].
  destruct (Z.testbit d (Z.of_nat n)); [rewrite Hq; by apply IH|congruence].
Qed.

(** The uPD7461 recogniser never completes on a well-formed frame: its mask is
    a 32-bit [1UL << 41], so every table that fits a 42-bit word runs into an
    over-wide shift instead of being accepted. *)
Theorem is_7461_shift_overflow d (tab : list Z) :
  wave_len _7461_fmt <= Z.of_nat (length tab) -> fits _7461_fmt tab d = true ->
  is_7461_protocol (wave_len _7461_fmt) tab = None.
Proof.
  intros Hl. destruct (table_parts _7461_fmt tab ltac:(done) Hl)
    as (h & b & s & r & -> & Hh & Hb & _).
  rewrite fits_parts by done. intros [Hw1 Hw2]%andb_prop.
  destruct (decode_bits_fits _7461_fmt _ _ _ 0 Hw2) as [d' Hd].
  unfold is_7461_protocol, is_wave. fold (wave_len _7461_fmt). rewrite Z.eqb_refl.
  cbn [negb]. munfold.
  pose proof (check_header_spec (ldc _7461_fmt) [] h (b ++ s :: r) 0 eq_refl Hh) as E.
  cbn [app] in E. rewrite E, Hw1. cbn [negb].
  rewrite (check_code_spec _7461_fmt _ 42) by (done || lia). rewrite Hd.
  unfold generate_wave. munfold.
  pose proof (gen_header_spec (ldc _7461_fmt) [] h (b ++ s :: r) 0 eq_refl Hh ltac:(done)) as G.
  cbn [app] in G. by rewrite G.
Qed.

Lemma is_7461_shift_overflow_witness :
  is_7461_protocol 87 (wave_of _7461_fmt 0x123456789 ++ replicate 13 0) = None.
Proof.
  apply (is_7461_shift_overflow 0x123456789
           (wave_of _7461_fmt 0x123456789 ++ replicate 13 0)); by vm_compute.
Defined.

(** ** The bi-phase recognisers *)
Lemma get_pulse_level_cases p offset used rc l o' u' :
  get_pulse_level p offset used rc = (l, o', u') -> 0 <= offset < 255 -> 0 <= used <= 2 ->
  (l = -1 /\ o' = offset /\ u' = used) \/
  ((l = SPACE_LEVEL \/ l = CARRIER_LEVEL) /\
   ((o' = offset + 1 /\ u' = 0) \/ (o' = offset /\ u' = used + 1 /\ u' <= 2))).
Proof.
  unfold get_pulse_level. intros H Ho Hu.
  rewrite (u8_small (used + 1)), (u8_small (offset + 1)) in H by lia.
  assert (forall len : Z, 1 <= len <= 3 ->
    (let used0 := used + 1 in
     if len <=? used0
     then (if truthy (offset mod 2) then SPACE_LEVEL else CARRIER_LEVEL, offset + 1, 0)
     else (if truthy (offset mod 2) then SPACE_LEVEL else CARRIER_LEVEL, offset, used0))
    = (l, o', u') ->
    (l = SPACE_LEVEL \/ l = CARRIER_LEVEL) /\
    (o' = offset + 1 /\ u' = 0 \/ o' = offset /\ u' = used + 1 /\ u' <= 2)) as Hc.
  { intros len Hlen. cbn zeta. destruct (Z.leb_spec len (used + 1)); intros [= <- <- <-];
      (split; [destruct (truthy _); auto | lia]). }
  destruct (in_window p rc); [right; by apply (Hc 1)|].
  destruct (in_window p (rc * 2)); [right; by apply (Hc 2)|].
  destruct (in_window p (rc * 3)); [right; by apply (Hc 3)|].
  left. by injection H as <- <- <-.
Qed.

(** A level read inside the table: it leaves the table alone and either fails or
    consumes part of a pulse. *)
Lemma level_at_cases rc offset used (tab : list Z) :
  0 <= offset < Z.of_nat (length tab) -> offset < 255 -> 0 <= used <= 2 ->
  exists l o' u', level_at rc offset used tab = Some ((l, o', u'), tab) /\
    ((l = -1 /\ o' = offset /\ u' = used) \/
     ((l = SPACE_LEVEL \/ l = CARRIER_LEVEL) /\
      ((o' = offset + 1 /\ u' = 0) \/ (o' = offset /\ u' = used + 1 /\ u' <= 2)))).
Proof.
  intros Hr Ho Hu. destruct (rd_in_bound tab offset Hr) as [p Hp].
  unfold level_at, rd_pulse. munfold. rewrite Hp.
  destruct (get_pulse_level p offset used rc) as [[l o'] u'] eqn:E.
  eexists _, _, _. split; [done|]. apply (get_pulse_level_cases p offset used rc l o' u' E); lia.
Qed.

(** Run the next level read of the goal and case on its outcome. *)
Ltac level_step tab :=
  match goal with
  | |- context [level_at ?rc ?o ?u tab] =>
      let l := fresh "l" in let o' := fresh "o" in let u' := fresh "u" in
      let E := fresh "E" in let H := fresh "Hc" in
      destruct (level_at_cases rc o u tab) as (l & o' & u' & E & H); [lia..|];
      rewrite E; cbn beta iota
  end.

Lemma rc5_loop_total (tab : list Z) tab_len fuel : forall offset used data,
  tab_len <= Z.of_nat (length tab) -> tab_len <= 255 ->
  0 <= offset <= tab_len -> 0 <= used <= 2 ->
  3 * (tab_len - offset) - used <= Z.of_nat fuel ->
  exists b, rc5_loop fuel tab_len offset used data tab = Some (b, tab).
Proof.
  induction fuel as [|fuel IH]; intros offset used data Hl H255 Ho Hu Hf; cbn [rc5_loop];
    (destruct (Z.ltb_spec offset tab_len); [|eauto]); [lia|].
  munfold. level_step tab. destruct (Z.eqb_spec o tab_len).
  - destruct Hc as [(-> & _ & _)|[[->| ->] Hc]]; cbn; [eauto|eauto|].
    apply IH; lia.
  - destruct Hc as [(-> & -> & ->)|[_ Hc]]; level_step tab; [cbn; eauto|].
    destruct (_ && _); [|destruct (_ && _); [|eauto]];
      (destruct Hc0 as [(-> & -> & ->)|[_ Hc0]]; apply IH; lia).
Qed.

(** The RC5 recogniser terminates and stays inside the captured pulses, for every
    table of up to 255 pulses. *)
Theorem is_rc5_total (tab : list Z) tab_len :
  0 <= tab_len <= Z.of_nat (length tab) -> tab_len <= 255 ->
  exists ok, is_rc5_protocol tab_len tab = Some (ok, tab).
Proof.
  intros Hl H255. unfold is_rc5_protocol.
  destruct (Z.ltb_spec tab_len (RC5_CODE_NUM + 2)) as [?|H13]; [eauto|].
  unfold RC5_CODE_NUM in H13. munfold.
  level_step tab. destruct (l =? CARRIER_LEVEL); cbn [negb]; [|eauto].
  level_step tab. destruct (l0 =? SPACE_LEVEL); cbn [negb]; [|eauto].
  level_step tab. destruct (l1 =? CARRIER_LEVEL); cbn [negb]; [|eauto].
  apply rc5_loop_total; lia.
Qed.

Lemma is_rc5_total_witness : exists ok, is_rc5_protocol 100 (replicate 100 844)
  = Some (ok, replicate 100 844).
Proof. apply (is_rc5_total (replicate 100 844) 100); by vm_compute. Defined.

(** Close one decoded bit of the RC6 loop with the induction hypothesis [IH] and the
    outcome [Hc] of its first level read. *)
Ltac rc6_bit IH Hc :=
  repeat match goal with
  | |- context [if ?c && ?d then _ else _] => destruct (c && d) eqn:?
  end; eauto;
  (destruct Hc as [(-> & _)|[_ Hc]];
   [unfold CARRIER_LEVEL, SPACE_LEVEL in *; lia | apply IH; lia]).

Lemma rc6_loop_total (tab : list Z) tab_len fuel : forall i offset used data,
  tab_len + 3 <= Z.of_nat (length tab) -> tab_len + 3 <= 255 ->
  0 <= offset <= tab_len + 3 -> 0 <= used <= 2 ->
  3 * (tab_len - offset) - used <= Z.of_nat fuel ->
  exists b, rc6_loop fuel tab_len i offset used data tab = Some (b, tab).
Proof.
  induction fuel as [|fuel IH]; intros i offset used data Hl H255 Ho Hu Hf; cbn [rc6_loop];
    (destruct (Z.ltb_spec offset tab_len); [|eauto]); [lia|].
  munfold. level_step tab.
  destruct (Z.eqb_spec i 3).
  - level_step tab. destruct (l =? l0) eqn:El; cbn [negb]; [|eauto].
    level_step tab. level_step tab. destruct (l1 =? l2); cbn [negb]; [|eauto].
    rc6_bit IH Hc.
  - cbn [negb]. level_step tab. cbn [negb]. rc6_bit IH Hc.
Qed.

(** A frame of MAX_PULSE_LEN pulses whose last bit ends in a space: the closing space
    is not a captured pulse, so the recogniser looks for it behind the table. *)
Definition rc6_full_table : list Z :=
  [2666; 889; 444; 444; 444; 444; 444; 444; 444; 444; 888; 888; 444; 888; 444]
  ++ replicate 85 444.

(** The RC6 recogniser reads up to three pulses past the captured ones: it is
    total when the buffer has three spare entries, and on a full 100-pulse capture it
    reads outside [pulse_width_tab]. *)
Theorem is_rc6_overread :
  (forall (tab : list Z) tab_len, 0 <= tab_len -> tab_len + 3 <= Z.of_nat (length tab) ->
     tab_len <= 252 -> exists ok, is_rc6_protocol tab_len tab = Some (ok, tab)) /\
  length rc6_full_table = 100%nat /\ is_rc6_protocol 100 rc6_full_table = None.
Proof.
  split; [|by vm_compute].
  intros tab tab_len H0 Hl H252. unfold is_rc6_protocol.
  destruct (Z.ltb_spec tab_len RC6_CODE_NUM) as [?|H15]; [eauto|].
  unfold RC6_CODE_NUM in H15. munfold. unfold rd_pulse at 1.
  destruct (rd_in_bound tab 0) as [p0 ->]; [lia|].
  destruct (in_window p0 RC6_LDC_0); cbn [negb]; [|eauto]. unfold rd_pulse at 1.
  destruct (rd_in_bound tab 1) as [p1 ->]; [lia|].
  destruct (in_window p1 RC6_LDC_1); cbn [negb]; [|eauto].
  level_step tab. destruct (l =? CARRIER_LEVEL); cbn [negb]; [|eauto].
  level_step tab. destruct (l0 =? SPACE_LEVEL); cbn [negb]; [|eauto].
  apply rc6_loop_total; lia.
Qed.
