(* ===== verification/Led.v ===== *)
(** * LEDs (ext/lib/actions/hal/led_hal.c, ext/lib/actions/framework/led_manager.c)

    A LED keeps a set of up to four blink requests and one steady-on request; it is
    on while any request is pending and blinks with the shortest period.  The state of
    one LED is [led_device]; calls into the GPIO, PWM, timer and pin-mux drivers are
    recorded in order in a log, and the interrupt mask is part of the environment. *)
From S2P Require Import Prelude.

Definition LED_OFF : Z := 1.
Definition LED_ON : Z := 0.
Definition MAX_BLINK_NUM : Z := 4.
Definition NONE_PWM_CHAN : Z := 255.

Record led_config := LedConfig {
  cfg_led_pin : Z;
  cfg_led_pwm : Z;
  cfg_led_pol : Z
}.

Record led_device := LedDevice {
  led_dev : option nat;       (* struct device * *)
  blink_state : Z;            (* u8_t *)
  led_pin : Z;
  led_pwm : Z;
  led_pol : Z;
  led_state : Z;              (* u8_t *)
  on_mask : Z;                (* u32_t *)
  blink_period : list Z       (* u32_t [MAX_BLINK_NUM] *)
}.
#[export] Instance eta_led_device : EtaRecord led_device := fun r =>
  LedDevice (led_dev r) (blink_state r) (led_pin r) (led_pwm r) (led_pol r) (led_state r)
    (on_mask r) (blink_period r).

(** Driver calls. *)
Inductive led_eff :=
| GpioConfigure (dev : option nat) (pin : Z) (output inverted : bool)
| GpioConfigureInPullUp (dev : option nat) (pin : Z)
| GpioWrite (dev : option nat) (pin value : Z)
| PwmPolSet (dev : option nat) (chan pol : Z)
| PwmSetCycles (dev : option nat) (chan period pulse : Z)
| PinmuxSet (pin mode : Z)
| PinmuxPull (pin : Z) (up : bool)
| TimerInit (pin : Z)
| TimerStart (pin duration period : Z)
| TimerStop (pin : Z).

Record led_env := LedEnv {
  irq_masked : bool;
  calls : list led_eff
}.
#[export] Instance eta_led_env : EtaRecord led_env := fun r =>
  LedEnv (irq_masked r) (calls r).

Definition call (c : led_eff) (e : led_env) : led_env := e <| calls ::= (fun l => l ++ [c]) |>.

(** [irq_lock] returns the previous mask; [irq_unlock] restores it. *)
Definition irq_lock (e : led_env) : bool * led_env := (irq_masked e, e <| irq_masked := true |>).
Definition irq_unlock (key : bool) (e : led_env) : led_env := e <| irq_masked := key |>.

(** [memset(words, 0, n)] on an array of 32-bit little-endian words. *)
Fixpoint memset0_u32 (l : list Z) (n : Z) : list Z :=
  match l with
  | [] => []
  | w :: r =>
      let c := 8 * Z.min 4 (Z.max 0 n) in
      Z.shiftl (Z.shiftr w c) c :: memset0_u32 r (n - 4)
  end.

Section Led.
(** CONFIG_USE_PWM_LED, CONFIG_USE_GPIO_LED and [device_get_binding] of the two
    drivers. *)
Context (use_pwm use_gpio : bool) (pwm_binding gpio_binding : option nat).

Definition __led_blink_event (led : led_device) (e : led_env) : led_device * led_env :=
  let led := led <| blink_state := b2z (negb (truthy (blink_state led))) |> in
  (led, call (GpioWrite (led_dev led) (led_pin led)
          (if negb (truthy (led_pol led)) then blink_state led
           else b2z (negb (truthy (blink_state led))))) e).

Definition reset_led_state (led : led_device) (e : led_env) : led_device * led_env :=
  let led := led <| on_mask := 0 |>
                 <| blink_period := memset0_u32 (blink_period led) MAX_BLINK_NUM |> in
  (led, if (led_pwm led =? NONE_PWM_CHAN) && use_gpio
        then call (TimerStop (led_pin led)) e else e).

Definition led_device_init (cfg : led_config) (led : led_device) (e : led_env)
  : led_device * led_env :=
  if negb (cfg_led_pwm cfg =? NONE_PWM_CHAN) then
    if use_pwm then
      let led := led <| led_dev := pwm_binding |> in
      match pwm_binding with
      | None => (led, e)
      | Some _ =>
          let led := led <| led_pin := cfg_led_pin cfg |> <| led_pwm := cfg_led_pwm cfg |>
                         <| led_pol := cfg_led_pol cfg |> <| on_mask := 0 |> in
          reset_led_state led (call (PwmPolSet (led_dev led) (cfg_led_pwm cfg) (cfg_led_pol cfg)) e)
      end
    else reset_led_state led e
  else
    if use_gpio then
      let led := led <| led_dev := gpio_binding |> in
      match gpio_binding with
      | None => (led, e)
      | Some _ =>
          let led := led <| led_pin := cfg_led_pin cfg |> <| led_pwm := cfg_led_pwm cfg |>
                         <| led_pol := cfg_led_pol cfg |> <| on_mask := 0 |> in
          let e := call (TimerInit (led_pin led)) e in
          reset_led_state led
            (call (GpioConfigure (led_dev led) (led_pin led) true (truthy (led_pol led))) e)
      end
    else reset_led_state led e.

Definition get_led_status (led : led_device) : Z := led_state led.

(** First index of [blink_period] holding the value, -1 if none. *)
Fixpoint find_period (l : list Z) (p i : Z) : Z :=
  match l with
  | [] => -1
  | x :: l' => if p =? x then i else find_period l' p (i + 1)
  end.
Definition find_blink_period (led : led_device) (p : Z) : Z := find_period (blink_period led) p 0.

Definition select_fast_blink_period (led : led_device) : Z :=
  let ref_val := foldl (fun r p => if truthy p && (p <? r) then p else r) 0xFFFF (blink_period led) in
  if ref_val =? 0xFFFF then 0 else ref_val.

Definition clear_bit (mask i : Z) : Z := Z.land mask (u32 (Z.lnot (Z.shiftl 1 i))).
Definition set_bit (mask i : Z) : Z := Z.lor mask (Z.shiftl 1 i).

Definition clear_on_state (led : led_device) (p : Z) : led_device :=
  if p =? 0 then led <| on_mask ::= (fun m => clear_bit m MAX_BLINK_NUM) |>
  else
    let index := find_blink_period led p in
    if 0 <=? index then
      led <| blink_period ::= <[Z.to_nat index := 0]> |>
          <| on_mask ::= (fun m => clear_bit m index) |>
    else led.

Definition set_on_state (led : led_device) (p : Z) : led_device :=
  if p =? 0 then led <| on_mask ::= (fun m => set_bit m MAX_BLINK_NUM) |>
  else if find_blink_period led p <? 0 then
    (* the loop stops at the first free slot *)
    let i := find_blink_period led 0 in
    if 0 <=? i then
      led <| blink_period ::= <[Z.to_nat i := p]> |>
          <| on_mask ::= (fun m => set_bit m i) |>
    else led
  else led.

(** The hardware part of [set_led_status] for a LED that is on. *)
Definition drive_on (led : led_device) (e : led_env) : led_device * led_env :=
  let period := select_fast_blink_period led in
  if period =? 0 then
    (led,
     if negb (led_pwm led =? NONE_PWM_CHAN) then
       if use_pwm then
         call (PwmSetCycles (led_dev led) (led_pwm led) 10 (10 - 1))
           (call (PinmuxSet (led_pin led) 2) e)
       else e
     else
       if use_gpio then
         call (GpioWrite (led_dev led) (led_pin led) LED_ON) (call (TimerStop (led_pin led)) e)
       else e)
  else
    let led := led <| blink_state := 0 |> in
    (led,
     if negb (led_pwm led =? NONE_PWM_CHAN) then
       if use_pwm then
         call (PwmSetCycles (led_dev led) (led_pwm led) period (period / 2))
           (call (PinmuxSet (led_pin led) 2) e)
       else e
     else
       if use_gpio then
         call (TimerStart (led_pin led) (period / 2) (period / 2))
           (call (TimerStop (led_pin led)) e)
       else e).

Definition drive_off (led : led_device) (e : led_env) : led_env :=
  if negb (led_pwm led =? NONE_PWM_CHAN) then
    if use_pwm then
      call (PinmuxPull (led_pin led) (negb (truthy (led_pol led))))
        (call (PwmSetCycles (led_dev led) (led_pwm led) 10 0) e)
    else e
  else
    if use_gpio then
      call (GpioWrite (led_dev led) (led_pin led) LED_OFF) (call (TimerStop (led_pin led)) e)
    else e.

(** The second half of [set_led_status]: store the state, drive the output and
    restore the interrupt mask. *)
Definition led_apply (key : bool) (led : led_device) (state : Z) (e : led_env)
  : led_device * led_env :=
  let led := led <| led_state := state |> in
  let '(led, e) :=
    if led_state led =? LED_ON then drive_on led e
    else if led_state led =? LED_OFF then (led, drive_off led e)
    else (led, e) in
  (led, irq_unlock key e).

Definition set_led_status (state p : Z) (led : led_device) (e : led_env)
  : led_device * led_env :=
  let '(key, e) := irq_lock e in
  if state =? LED_ON then led_apply key (set_on_state led p) state e
  else if state =? LED_OFF then
    let led := clear_on_state led p in
    led_apply key led (if negb (on_mask led =? 0) then LED_ON else state) e
  else (led, e).    (* unknown state: returns with interrupts still locked *)

Definition led_device_uninit (led : led_device) (e : led_env) : led_env :=
  if use_gpio then call (GpioConfigureInPullUp (led_dev led) (led_pin led)) e else e.

(** ** led_manager.c: the array [led_mng] *)
Fixpoint led_manager_init (cfgs : list led_config) (leds : list led_device) (e : led_env)
  : list led_device * led_env :=
  match cfgs, leds with
  | c :: cfgs', l :: leds' =>
      let '(l, e) := led_device_init c l e in
      let '(leds', e) := led_manager_init cfgs' leds' e in (l :: leds', e)
  | _, _ => (leds, e)
  end.

Fixpoint led_manager_uninit (leds : list led_device) (e : led_env) : led_env :=
  match leds with
  | [] => e
  | l :: leds' => led_manager_uninit leds' (led_device_uninit l e)
  end.

(** The scan does not stop at the first match: the last LED on the pin wins. *)
Fixpoint find_led (leds : list led_device) (led_id : Z) (i : nat) (found : option nat)
  : option nat :=
  match leds with
  | [] => found
  | l :: leds' => find_led leds' led_id (S i) (if led_pin l =? led_id then Some i else found)
  end.

Definition led_set_state (led_id state p : Z) (leds : list led_device) (e : led_env)
  : list led_device * led_env :=
  match find_led leds led_id 0 None with
  | Some i =>
      match leds !! i with
      | Some l =>
          let '(l, e) := set_led_status (u8 state) (u32 p) l e in (<[i := l]> leds, e)
      | None => (leds, e)
      end
  | None => (leds, e)      (* "led not config" *)
  end.
End Led.

(** * Theorems *)

(** ** Abstraction: a steady request and a set of blink periods *)
Abbreviation nonzero := (fun p : Z => p <> 0).
Definition steady (led : led_device) : bool := Z.testbit (on_mask led) MAX_BLINK_NUM.
Definition periods (led : led_device) : gset Z :=
  list_to_set (filter nonzero (blink_period led)).

(** What a LED promises: a request is added or withdrawn; at most four periods are
    remembered and a fifth one is ignored. *)
Definition spec_request (state p : Z) (req : bool * gset Z) : bool * gset Z :=
  let '(s, ps) := req in
  if state =? LED_ON then
    if p =? 0 then (true, ps)
    else (s, if bool_decide (p ∈ ps) || (Z.of_nat (size ps) <? MAX_BLINK_NUM)
             then {[p]} ∪ ps else ps)
  else
    if p =? 0 then (false, ps) else (s, ps ∖ {[p]}).
Definition spec_lit (req : bool * gset Z) : bool := fst req || negb (bool_decide (snd req = ∅)).

(** The representation invariant: the mask bit of a slot tells whether the slot is in
    use, bit 4 is the steady request, and no period is stored twice. *)
Record led_inv (led : led_device) : Prop := {
  inv_len : length (blink_period led) = 4%nat;
  inv_range : Forall (fun p => 0 <= p < 2 ^ 32) (blink_period led);
  inv_bit : forall k p, blink_period led !! k = Some p ->
              Z.testbit (on_mask led) (Z.of_nat k) = truthy p;
  inv_high : forall k, 5 <= k -> Z.testbit (on_mask led) k = false;
  inv_nodup : NoDup (filter nonzero (blink_period led))
}.

(** ** Bits *)
#[local] Arguments set_bit : simpl never.
#[local] Arguments clear_bit : simpl never.

Lemma set_bit_spec m i k : 0 <= i -> 0 <= k ->
  Z.testbit (set_bit m i) k = (i =? k) || Z.testbit m k.
Proof.
  intros Hi Hk. unfold set_bit. rewrite Z.lor_spec, Z.shiftl_1_l, Z.pow2_bits_eqb by done.
  apply orb_comm.
Qed.

Lemma clear_bit_spec m i k : 0 <= i < 32 -> 0 <= k < 32 ->
  Z.testbit (clear_bit m i) k = negb (i =? k) && Z.testbit m k.
Proof.
  intros Hi Hk. unfold clear_bit, u32.
  rewrite Z.land_spec, Z.mod_pow2_bits_low, Z.lnot_spec, Z.shiftl_1_l, Z.pow2_bits_eqb by lia.
  apply andb_comm.
Qed.

Lemma clear_bit_high m i k :
  0 <= k -> Z.testbit m k = false -> Z.testbit (clear_bit m i) k = false.
Proof. intros Hk Hm. unfold clear_bit. by rewrite Z.land_spec, Hm. Qed.

(** ** Slots *)
Lemma find_period_spec l p : forall i,
  ((p ∉ l) /\ find_period l p i = -1) \/
  (exists l1 l2, l = l1 ++ p :: l2 /\ (p ∉ l1) /\
     find_period l p i = i + Z.of_nat (length l1)).
Proof.
  induction l as [|x l IH]; intros i; [left; split; [apply not_elem_of_nil|done]|].
  cbn [find_period]. destruct (Z.eqb_spec p x) as [->|Hne].
  - right. exists [], l. split_and!; [done|apply not_elem_of_nil|cbn; lia].
  - destruct (IH (i + 1)) as [[Hn ->]|(l1 & l2 & -> & Hn & ->)].
    + left. split; [by apply not_elem_of_cons|done].
    + right. exists (x :: l1), l2. split_and!; [done|by apply not_elem_of_cons|cbn [length]; lia].
Qed.

Lemma nonzero_mid (l1 l2 : list Z) x :
  filter nonzero (l1 ++ x :: l2)
  = filter nonzero l1 ++ (if decide (x <> 0) then [x] else []) ++ filter nonzero l2.
Proof. rewrite filter_app, filter_cons. by destruct (decide _). Qed.

Lemma nonzero_mid_0 (l1 l2 : list Z) :
  filter nonzero (l1 ++ 0 :: l2) = filter nonzero l1 ++ filter nonzero l2.
Proof. rewrite nonzero_mid. by destruct (decide (0 <> 0)). Qed.

Lemma nonzero_mid_pos (l1 l2 : list Z) x : x <> 0 ->
  filter nonzero (l1 ++ x :: l2) = filter nonzero l1 ++ x :: filter nonzero l2.
Proof. intros. rewrite nonzero_mid. by destruct (decide (x <> 0)). Qed.

Lemma nonzero_all (l : list Z) : 0 ∉ l -> filter nonzero l = l.
Proof.
  induction l as [|x l IH]; [done|]. rewrite not_elem_of_cons. intros [Hx Hl].
  by rewrite filter_cons, decide_True, IH by done.
Qed.

Lemma elem_nonzero (l : list Z) p : p <> 0 -> p ∈ filter nonzero l <-> p ∈ l.
Proof. intros. rewrite list_elem_of_filter. tauto. Qed.

Lemma periods_size led : led_inv led ->
  size (periods led) = length (filter nonzero (blink_period led)).
Proof. intros []. unfold periods. by apply size_list_to_set. Qed.

Lemma inv_bit_split led l1 x l2 y m :
  led_inv led -> blink_period led = l1 ++ x :: l2 ->
  (forall k : nat, (k < 4)%nat ->
     Z.testbit m (Z.of_nat k)
     = if decide (k = length l1) then truthy y else Z.testbit (on_mask led) (Z.of_nat k)) ->
  forall k p, (l1 ++ y :: l2) !! k = Some p -> Z.testbit m (Z.of_nat k) = truthy p.
Proof.
  intros [Hlen _ Hbit _ _] Hbp Hm k p Hk. rewrite Hbp in Hlen, Hbit.
  rewrite length_app in Hlen. cbn [length] in Hlen.
  pose proof (lookup_lt_Some _ _ _ Hk) as Hlt. rewrite length_app in Hlt. cbn [length] in Hlt.
  rewrite Hm by lia. destruct (decide (k = length l1)) as [->|Hne].
  - rewrite list_lookup_middle in Hk by done. by injection Hk as ->.
  - apply Hbit. rewrite <- Hk. destruct (decide (k < length l1)%nat).
    + by rewrite !lookup_app_l by done.
    + rewrite !lookup_app_r by lia.
      by destruct (k - length l1)%nat eqn:E; [lia|].
Qed.

(** Replacing the contents of one slot, with the mask bit to match. *)
Lemma led_inv_slot led led' l1 x l2 y :
  led_inv led -> blink_period led = l1 ++ x :: l2 -> 0 <= y < 2 ^ 32 ->
  blink_period led' = l1 ++ y :: l2 ->
  (forall k, 0 <= k -> Z.testbit (on_mask led') k
     = if decide (k = Z.of_nat (length l1)) then truthy y else Z.testbit (on_mask led) k) ->
  (y <> 0 -> y ∉ blink_period led) ->
  led_inv led'.
Proof.
  intros Hinv Hbp Hy Hbp' Hm Hnew. pose proof Hinv as [Hlen Hr _ Hh Hnd].
  rewrite Hbp in Hlen, Hr, Hnd. rewrite length_app in Hlen. cbn [length] in Hlen.
  constructor; rewrite ?Hbp'.
  - rewrite length_app. cbn. lia.
  - rewrite !Forall_app, !Forall_cons in Hr |- *. tauto.
  - apply (inv_bit_split led l1 x l2 y _ Hinv Hbp).
    intros k Hk. rewrite Hm by lia. by do 2 destruct (decide _); try lia.
  - intros k Hk. rewrite Hm by lia. destruct (decide _); [lia|]. apply Hh. lia.
  - rewrite nonzero_mid in Hnd |- *.
    assert (NoDup (filter nonzero l1 ++ filter nonzero l2)) as Hnd'.
    { rewrite !NoDup_app in Hnd. rewrite NoDup_app.
      destruct Hnd as (? & Hd & _ & _ & ?). split_and!; [done| |done].
      intros z Hz. specialize (Hd z Hz). rewrite elem_of_app in Hd. tauto. }
    destruct (decide (y <> 0)) as [Hy0|]; [|done]. cbn [app].
    specialize (Hnew Hy0). rewrite Hbp, elem_of_app, elem_of_cons in Hnew.
    rewrite NoDup_app in Hnd' |- *. rewrite NoDup_cons, elem_nonzero by done.
    destruct Hnd' as (? & Hd & ?). split_and!; [done| |tauto|done].
    intros z Hz [->|Hz2]%elem_of_cons; [|by apply (Hd z)].
    rewrite elem_nonzero in Hz by done. tauto.
Qed.

Lemma led_inv_ext led led' :
  blink_period led' = blink_period led -> on_mask led' = on_mask led ->
  led_inv led -> led_inv led'.
Proof. intros Hb Hm []. constructor; rewrite ?Hb, ?Hm; auto. Qed.

(** Only bit 4 of the mask changes. *)
Lemma led_inv_steady led led' (b : bool) :
  led_inv led -> blink_period led' = blink_period led ->
  (forall k, 0 <= k -> Z.testbit (on_mask led') k
     = if decide (k = MAX_BLINK_NUM) then b else Z.testbit (on_mask led) k) ->
  led_inv led'.
Proof.
  intros [Hlen Hr Hb Hh Hnd] Hbp Hm. constructor; rewrite ?Hbp; try done.
  - intros k p Hk. pose proof (lookup_lt_Some _ _ _ Hk). rewrite Hm by lia.
    unfold MAX_BLINK_NUM. destruct (decide _); [lia|]. by apply Hb.
  - intros k Hk. rewrite Hm by lia. unfold MAX_BLINK_NUM.
    destruct (decide _); [lia|]. by apply Hh.
Qed.

Lemma testbit_set m i k : 0 <= i -> 0 <= k ->
  Z.testbit (set_bit m i) k = if decide (k = i) then true else Z.testbit m k.
Proof.
  intros. rewrite set_bit_spec by done.
  destruct (Z.eqb_spec i k), (decide (k = i)); try done; lia.
Qed.

Lemma testbit_clear led i k : led_inv led -> 0 <= i < 32 -> 0 <= k ->
  Z.testbit (clear_bit (on_mask led) i) k
  = if decide (k = i) then false else Z.testbit (on_mask led) k.
Proof.
  intros Hinv Hi Hk. destruct (decide (k < 32)).
  - rewrite clear_bit_spec by lia. by destruct (Z.eqb_spec i k), (decide (k = i)); try lia.
  - rewrite (inv_high led Hinv) by lia. destruct (decide _); [lia|].
    apply clear_bit_high; [done|]. apply (inv_high led Hinv). lia.
Qed.

(** The steady flag does not see a change of a slot bit. *)
Lemma steady_slot led led' (j : nat) (b : bool) :
  (j < 4)%nat ->
  (forall k, 0 <= k -> Z.testbit (on_mask led') k
     = if decide (k = Z.of_nat j) then b else Z.testbit (on_mask led) k) ->
  steady led' = steady led.
Proof.
  intros Hj Hm. unfold steady, MAX_BLINK_NUM. rewrite Hm by lia.
  by destruct (decide _); [lia|].
Qed.

Lemma slot_lt4 led l1 x l2 :
  led_inv led -> blink_period led = l1 ++ x :: l2 -> (length l1 < 4)%nat.
Proof. intros [Hl _ _ _ _] Hb. rewrite Hb, length_app in Hl. cbn in Hl. lia. Qed.

Lemma set_on_state_spec led p : led_inv led -> 0 <= p < 2 ^ 32 ->
  led_inv (set_on_state led p) /\
  (steady (set_on_state led p), periods (set_on_state led p))
  = spec_request LED_ON p (steady led, periods led).
Proof.
  intros Hinv Hp. unfold set_on_state, spec_request.
  change (LED_ON =? LED_ON) with true. cbn iota.
  destruct (Z.eqb_spec p 0) as [->|Hp0].
  { split.
    - apply (led_inv_steady led _ true Hinv); [done|].
      intros k Hk. cbn. by apply testbit_set.
    - f_equal. by apply (testbit_set (on_mask led) MAX_BLINK_NUM MAX_BLINK_NUM). }
  unfold find_blink_period.
  destruct (find_period_spec (blink_period led) p 0) as [[Hn ->]|(l1 & l2 & Hb & _ & ->)].
  2: { destruct (Z.ltb_spec (0 + Z.of_nat (length l1)) 0); [lia|]. split; [done|].
       f_equal. rewrite bool_decide_true; [cbn|].
       - symmetry. apply subseteq_union_1_L. unfold periods.
         intros z ->%elem_of_singleton. rewrite elem_of_list_to_set, elem_nonzero, Hb by done.
         apply elem_of_app. right. by left.
       - unfold periods. rewrite elem_of_list_to_set, elem_nonzero, Hb by done.
         apply elem_of_app. right. by left. }
  cbn [Z.ltb Z.compare].
  assert (bool_decide (p ∈ periods led) = false) as ->.
  { apply bool_decide_false. unfold periods. by rewrite elem_of_list_to_set, elem_nonzero. }
  rewrite periods_size by done. cbn [orb].
  destruct (find_period_spec (blink_period led) 0 0) as [[Hn0 ->]|(l1 & l2 & Hb & _ & ->)].
  - cbn [Z.leb Z.compare]. split; [done|]. f_equal.
    assert (filter nonzero (blink_period led) = blink_period led) as ->.
    { by apply nonzero_all. }
    by rewrite (inv_len led Hinv).
  - pose proof (slot_lt4 led l1 0 l2 Hinv Hb) as Hl4.
    destruct (Z.leb_spec 0 (0 + Z.of_nat (length l1))); [|lia].
    set (led' := (led <| blink_period ::= _ |>) <| on_mask ::= _ |>).
    assert (blink_period led' = l1 ++ p :: l2) as Hb'.
    { subst led'. cbn. rewrite Hb. rewrite insert_app_r_alt by lia.
      by replace (_ - _)%nat with 0%nat by lia. }
    assert (forall k, 0 <= k -> Z.testbit (on_mask led') k
      = if decide (k = Z.of_nat (length l1)) then truthy p else Z.testbit (on_mask led) k) as Hm.
    { intros k Hk. subst led'. cbn. rewrite testbit_set by lia.
      unfold truthy. destruct (Z.eqb_spec p 0); [done|]. rewrite Z.add_0_l.
      by destruct (decide (k = _)). }
    split; [by apply (led_inv_slot led led' l1 0 l2 p)|].
    rewrite (steady_slot led led' (length l1) (truthy p)) by done. f_equal.
    unfold periods. rewrite Hb', Hb, nonzero_mid_0, nonzero_mid_pos by done.
    destruct (Z.ltb_spec (Z.of_nat (length (filter nonzero l1 ++ filter nonzero l2))) MAX_BLINK_NUM)
      as [_|Hge].
    + rewrite !list_to_set_app_L, list_to_set_cons.
      by rewrite !(assoc_L (∪)), (comm_L (∪) {[p]}).
    + exfalso. pose proof (inv_len led Hinv) as Hlen. rewrite Hb, length_app in Hlen.
      cbn [length] in Hlen. rewrite length_app in Hge. unfold MAX_BLINK_NUM in Hge.
      pose proof (length_filter nonzero l1). pose proof (length_filter nonzero l2). lia.
Qed.

Lemma clear_on_state_spec led p : led_inv led -> 0 <= p < 2 ^ 32 ->
  led_inv (clear_on_state led p) /\
  (steady (clear_on_state led p), periods (clear_on_state led p))
  = spec_request LED_OFF p (steady led, periods led).
Proof.
  intros Hinv Hp. unfold clear_on_state, spec_request.
  change (LED_OFF =? LED_ON) with false. cbn iota.
  destruct (Z.eqb_spec p 0) as [->|Hp0].
  { assert (forall k, 0 <= k -> Z.testbit (clear_bit (on_mask led) MAX_BLINK_NUM) k
      = if decide (k = MAX_BLINK_NUM) then false else Z.testbit (on_mask led) k) as Hm.
    { intros k Hk. by apply testbit_clear. }
    split; [by apply (led_inv_steady led _ false Hinv)|].
    f_equal. by apply Hm. }
  unfold find_blink_period.
  destruct (find_period_spec (blink_period led) p 0) as [[Hn ->]|(l1 & l2 & Hb & Hn1 & ->)].
  { cbn [Z.leb Z.compare]. split; [done|]. f_equal. unfold periods.
    assert (p ∉ filter nonzero (blink_period led)) by (by rewrite elem_nonzero).
    symmetry. apply difference_disjoint_L. set_solver. }
  pose proof (slot_lt4 led l1 p l2 Hinv Hb) as Hl4.
  destruct (Z.leb_spec 0 (0 + Z.of_nat (length l1))); [|lia].
  set (led' := (led <| blink_period ::= _ |>) <| on_mask ::= _ |>).
  assert (blink_period led' = l1 ++ 0 :: l2) as Hb'.
  { subst led'. cbn. rewrite Hb. rewrite insert_app_r_alt by lia.
    by replace (_ - _)%nat with 0%nat by lia. }
  assert (forall k, 0 <= k -> Z.testbit (on_mask led') k
    = if decide (k = Z.of_nat (length l1)) then truthy 0 else Z.testbit (on_mask led) k) as Hm.
  { intros k Hk. subst led'. cbn. rewrite (testbit_clear led) by (done || lia).
    rewrite Z.add_0_l. by destruct (decide (k = _)). }
  split; [by apply (led_inv_slot led led' l1 p l2 0)|].
  rewrite (steady_slot led led' (length l1) (truthy 0)) by done. f_equal.
  pose proof (inv_nodup led Hinv) as Hnd. unfold periods. rewrite Hb', Hb in *.
  rewrite nonzero_mid_0, nonzero_mid_pos in * by done.
  apply NoDup_app in Hnd as (_ & Hd & [Hp2 _]%NoDup_cons).
  assert (p ∉ filter nonzero l1) as Hp1 by (by rewrite elem_nonzero).
  rewrite !list_to_set_app_L, list_to_set_cons.
  rewrite <- (elem_of_list_to_set (C := gset Z)) in Hp1, Hp2.
  apply set_eq. intros z. rewrite elem_of_difference, !elem_of_union, elem_of_singleton.
  split; [|tauto]. intros Hz. split; [tauto|]. intros ->. tauto.
Qed.

(** A LED with a pending request has a non-zero mask. *)
Lemma on_mask_lit led : led_inv led ->
  negb (on_mask led =? 0) = spec_lit (steady led, periods led).
Proof.
  intros Hinv. unfold spec_lit. cbn [fst snd].
  destruct (Z.eqb_spec (on_mask led) 0) as [Hz|Hnz]; cbn [negb]; symmetry.
  - apply orb_false_iff. split; [unfold steady; by rewrite Hz, Z.bits_0|].
    apply negb_false_iff, bool_decide_eq_true. unfold periods.
    apply elem_of_equiv_empty_L. intros p. rewrite elem_of_list_to_set, list_elem_of_filter.
    intros [Hp [k Hk]%list_elem_of_lookup]. pose proof (inv_bit led Hinv k p Hk) as Hb.
    rewrite Hz, Z.bits_0 in Hb. unfold truthy in Hb. by destruct (Z.eqb_spec p 0).
  - apply orb_true_iff. destruct (steady led) eqn:Hs; [by left|]. right.
    apply negb_true_iff, bool_decide_eq_false. intros He. apply Hnz.
    apply Z.bits_inj_0. intros k. destruct (decide (k < 0)); [by apply Z.testbit_neg_r|].
    destruct (decide (5 <= k)); [by apply (inv_high led Hinv)|].
    destruct (decide (k = 4)) as [->|]; [done|].
    destruct (lookup_lt_is_Some_2 (blink_period led) (Z.to_nat k)) as [p Hp];
      [rewrite (inv_len led Hinv); lia|].
    pose proof (inv_bit led Hinv _ p Hp) as Hb. rewrite Z2Nat.id in Hb by lia.
    rewrite Hb. unfold truthy. destruct (Z.eqb_spec p 0) as [|Hp0]; [done|].
    exfalso. assert (p ∈ periods led) as Hin; [|by rewrite He in Hin; apply not_elem_of_empty in Hin].
    unfold periods. rewrite elem_of_list_to_set, elem_nonzero by done.
    by eapply list_elem_of_lookup_2.
Qed.

(** ** The blink period *)
Lemma fast_fold l : forall r,
  let m := foldl (fun r p => if truthy p && (p <? r) then p else r) r l in
  (m = r \/ (m ∈ l /\ m <> 0)) /\ m <= r /\ forall p, p ∈ l -> p <> 0 -> m <= p.
Proof.
  induction l as [|x l IH]; intros r m; subst m; cbn [foldl].
  { split_and!; [by left|lia|]. intros p []%not_elem_of_nil. }
  unfold truthy at 2 4 6. destruct (IH (if negb (x =? 0) && (x <? r) then x else r)) as (Hin & Hr & Hp).
  set (m := foldl _ _ l) in *. split_and!.
  - destruct Hin as [->|[??]]; [|right; split; [by right|done]].
    case_cmp; [by left|]. case_cmp; [right; split; [by left|done]|by left].
  - revert Hr. repeat case_cmp; cbn; lia.
  - intros p [->|Hpl]%elem_of_cons Hp0; [|by apply Hp].
    revert Hr. repeat case_cmp; cbn; lia.
Qed.

(** The shortest pending period, 0 when none is shorter than 0xFFFF. *)
Definition fastest (ps : gset Z) (t : Z) : Prop :=
  (t = 0 /\ forall q, q ∈ ps -> 0xFFFF <= q) \/
  (t ∈ ps /\ t < 0xFFFF /\ forall q, q ∈ ps -> t <= q).

Lemma select_fastest led : fastest (periods led) (select_fast_blink_period led).
Proof.
  unfold select_fast_blink_period, fastest.
  destruct (fast_fold (blink_period led) 0xFFFF) as (Hin & Hr & Hp).
  set (m := foldl _ _ _) in *.
  assert (forall q, q ∈ periods led -> m <= q) as Hq.
  { intros q. unfold periods. rewrite elem_of_list_to_set, list_elem_of_filter.
    intros [??]. by apply Hp. }
  destruct (Z.eqb_spec m 0xFFFF) as [E|Hne]; [left; split; [done|]|right].
  - intros q Hq'. specialize (Hq q Hq'). lia.
  - destruct Hin as [?|[Hin Hm0]]; [done|]. split_and!; [|lia|done].
    unfold periods. by rewrite elem_of_list_to_set, elem_nonzero.
Qed.

(** ** One request *)
Lemma drive_on_keeps pw gp led e :
  let '(led', e') := drive_on pw gp led e in
  blink_period led' = blink_period led /\ on_mask led' = on_mask led /\
  led_state led' = led_state led /\ irq_masked e' = irq_masked e.
Proof.
  unfold drive_on. destruct (_ =? 0); cbn; split_and!; try done;
    by destruct (negb _), pw, gp.
Qed.

Lemma drive_off_keeps pw gp led e : irq_masked (drive_off pw gp led e) = irq_masked e.
Proof. unfold drive_off. by destruct (negb _), pw, gp. Qed.

Lemma spec_request_on_lit p s ps : spec_lit (spec_request LED_ON p (s, ps)) = true.
Proof.
  unfold spec_lit, spec_request. change (LED_ON =? LED_ON) with true. cbn iota.
  destruct (Z.eqb_spec p 0); [done|]. cbn [fst snd]. apply orb_true_iff. right.
  apply negb_true_iff, bool_decide_eq_false. intros He.
  destruct (bool_decide (p ∈ ps) || (Z.of_nat (size ps) <? MAX_BLINK_NUM)) eqn:E.
  - assert (p ∈ {[p]} ∪ ps) as Hp by (apply elem_of_union_l, elem_of_singleton_2; done).
    rewrite He in Hp. by apply not_elem_of_empty in Hp.
  - rewrite He, size_empty in E. by rewrite orb_true_r in E.
Qed.

Definition abs_led (led : led_device) : bool * gset Z := (steady led, periods led).
Definition lit_state (b : bool) : Z := if b then LED_ON else LED_OFF.

Lemma led_apply_spec pw gp key led st e :
  led_inv led -> st = lit_state (spec_lit (abs_led led)) ->
  let '(led', e') := led_apply pw gp key led st e in
  led_inv led' /\ abs_led led' = abs_led led /\
  led_state led' = lit_state (spec_lit (abs_led led')) /\ irq_masked e' = key.
Proof.
  intros Hinv Hst. unfold led_apply. cbn zeta. set (led1 := led <| led_state := st |>).
  destruct (_ =? LED_ON).
  - pose proof (drive_on_keeps pw gp led1 e) as Hk. destruct (drive_on _ _ _ _) as [led2 e2].
    destruct Hk as (Hb & Hm & Hs & _).
    assert (abs_led led2 = abs_led led) as Ha
      by (unfold abs_led, steady, periods; by rewrite Hb, Hm).
    split_and!; [by apply (led_inv_ext led)|done|by rewrite Ha, Hs|done].
  - destruct (_ =? LED_OFF); split_and!; try done; by apply (led_inv_ext led).
Qed.

Lemma set_led_status_step pw gp state p led e :
  led_inv led -> state = LED_ON \/ state = LED_OFF -> 0 <= p < 2 ^ 32 ->
  let '(led', e') := set_led_status pw gp state p led e in
  led_inv led' /\ abs_led led' = spec_request state p (abs_led led) /\
  led_state led' = lit_state (spec_lit (abs_led led')) /\
  irq_masked e' = irq_masked e.
Proof.
  intros Hinv Hst Hp. unfold set_led_status, irq_lock.
  destruct Hst as [->| ->]; cbn [Z.eqb LED_ON LED_OFF Pos.eqb].
  - destruct (set_on_state_spec led p Hinv Hp) as [Hi1 Ha1].
    pose proof (led_apply_spec pw gp (irq_masked e) (set_on_state led p) LED_ON
      (e <| irq_masked := true |>) Hi1) as Hap.
    destruct (led_apply _ _ _ _ _ _) as [led' e']. destruct Hap as (? & Ha & ? & ?).
    { unfold abs_led. by rewrite Ha1, spec_request_on_lit. }
    split_and!; [done|rewrite Ha; exact Ha1|done|done].
  - destruct (clear_on_state_spec led p Hinv Hp) as [Hi1 Ha1].
    rewrite (on_mask_lit _ Hi1).
    pose proof (led_apply_spec pw gp (irq_masked e) (clear_on_state led p)
      (lit_state (spec_lit (abs_led (clear_on_state led p))))
      (e <| irq_masked := true |>) Hi1 eq_refl) as Hap.
    unfold lit_state at 1, abs_led at 1 in Hap.
    destruct (led_apply _ _ _ _ _ _) as [led' e']. destruct Hap as (? & Ha & ? & ?).
    split_and!; [done|rewrite Ha; exact Ha1|done|done].
Qed.

(** ** Output of a LED on a GPIO *)
Lemma gpio_led_calls pw state p led e :
  state = LED_ON \/ state = LED_OFF -> led_pwm led = NONE_PWM_CHAN ->
  let '(led', e') := set_led_status pw true state p led e in
  calls e' = calls e ++ TimerStop (led_pin led) ::
    [if led_state led' =? LED_ON then
       if select_fast_blink_period led' =? 0 then GpioWrite (led_dev led) (led_pin led) LED_ON
       else TimerStart (led_pin led) (select_fast_blink_period led' / 2)
              (select_fast_blink_period led' / 2)
     else GpioWrite (led_dev led) (led_pin led) LED_OFF].
Proof.
  intros Hst Hpwm. unfold set_led_status, irq_lock.
  assert (Hap : forall led1 st key, st = LED_ON \/ st = LED_OFF ->
    led_pwm led1 = NONE_PWM_CHAN -> led_pin led1 = led_pin led -> led_dev led1 = led_dev led ->
    let '(led', e') := led_apply pw true key led1 st (e <| irq_masked := true |>) in
    calls e' = calls e ++ TimerStop (led_pin led) ::
      [if led_state led' =? LED_ON then
         if select_fast_blink_period led' =? 0 then GpioWrite (led_dev led) (led_pin led) LED_ON
         else TimerStart (led_pin led) (select_fast_blink_period led' / 2)
                (select_fast_blink_period led' / 2)
       else GpioWrite (led_dev led) (led_pin led) LED_OFF]).
  { intros led1 st key Hs Hp1 <- <-. unfold led_apply, drive_on, drive_off.
    destruct Hs as [->| ->]; cbn -[select_fast_blink_period]; rewrite Hp1; cbn -[select_fast_blink_period].
    - set (t := select_fast_blink_period (led1 <| led_state := LED_ON |>)).
      destruct (Z.eqb_spec t 0) as [E|E].
      + cbn -[select_fast_blink_period]. fold t. rewrite E. cbn. by rewrite <- (assoc_L (++)).
      + cbn -[select_fast_blink_period].
        change (select_fast_blink_period _) with t at 1 2 3.
        destruct (Z.eqb_spec t 0); [done|]. by rewrite <- (assoc_L (++)).
    - by rewrite <- (assoc_L (++)). }
  destruct Hst as [->| ->]; cbn [Z.eqb LED_ON LED_OFF Pos.eqb].
  - apply Hap; [by left| | |]; unfold set_on_state;
      repeat match goal with |- context [if ?b then _ else _] => destruct b end; done.
  - apply Hap; [by destruct (negb _); [left|right]| | |]; unfold clear_on_state;
      repeat match goal with |- context [if ?b then _ else _] => destruct b end; done.
Qed.

(** A steady-on request leaves the slots alone. *)
Lemma set_on_0_keeps pw gp led e :
  let '(led', _) := set_led_status pw gp LED_ON 0 led e in
  blink_period led' = blink_period led /\ led_state led' = LED_ON.
Proof.
  unfold set_led_status, led_apply, irq_lock, drive_on. cbn -[select_fast_blink_period].
  by destruct (_ =? 0).
Qed.

Lemma memset0_first a b c d :
  Forall (fun p => 0 <= p < 2 ^ 32) [a; b; c; d] ->
  memset0_u32 [a; b; c; d] MAX_BLINK_NUM = [0; b; c; d].
Proof.
  intros H. rewrite !Forall_cons in H. destruct H as (Ha & _).
  change (memset0_u32 [a; b; c; d] MAX_BLINK_NUM)
    with [Z.shiftl (Z.shiftr a 32) 32; Z.shiftl (Z.shiftr b 0) 0;
          Z.shiftl (Z.shiftr c 0) 0; Z.shiftl (Z.shiftr d 0) 0].
  rewrite !Z.shiftr_0_r, !Z.shiftl_0_r, (Z.shiftr_div_pow2 a 32), Z.div_small by lia. done.
Qed.

(** ** Sequences of requests *)
Definition led_requests (pw gp : bool) (rs : list (Z * Z)) (led : led_device) (e : led_env)
  : led_device * led_env :=
  foldl (fun '(led, e) '(state, p) => set_led_status pw gp state p led e) (led, e) rs.
Definition valid_request (r : Z * Z) : Prop :=
  (r.1 = LED_ON \/ r.1 = LED_OFF) /\ 0 <= r.2 < 2 ^ 32.

Lemma led_requests_app pw gp rs r led e :
  led_requests pw gp (rs ++ [r]) led e
  = let '(led1, e1) := led_requests pw gp rs led e in set_led_status pw gp r.1 r.2 led1 e1.
Proof.
  unfold led_requests. rewrite foldl_app. cbn [foldl]. destruct (foldl _ _ rs), r; done.
Qed.

(** C22.  The LED implements its abstract specification: after any sequence of on/off
    requests, started in a state that satisfies the representation invariant, the stored
    requests are those of the specification (one steady request and a set of at most four
    blink periods), the invariant still holds, the reported status is ON exactly when a
    request is pending, and the interrupt mask is the one the caller had. *)
Theorem led_requests_refine pw gp rs r led e :
  led_inv led -> Forall valid_request (rs ++ [r]) ->
  let '(led', e') := led_requests pw gp (rs ++ [r]) led e in
  led_inv led' /\
  abs_led led' = foldl (fun a '(state, p) => spec_request state p a) (abs_led led) (rs ++ [r]) /\
  get_led_status led' = lit_state (spec_lit (abs_led led')) /\
  irq_masked e' = irq_masked e.
Proof.
  revert r. induction rs as [|r0 rs IH] using rev_ind; intros r Hinv Hv.
  - apply Forall_singleton in Hv as [??]. destruct r as [state p].
    pose proof (set_led_status_step pw gp state p led e Hinv) as Hs. unfold led_requests.
    cbn [app foldl fst snd] in *.
    destruct (set_led_status _ _ _ _ _ _). by apply Hs.
  - apply Forall_app in Hv as [Hv Hr]. specialize (IH r0 Hinv Hv).
    rewrite led_requests_app, foldl_app. destruct (led_requests _ _ _ _ _) as [led1 e1].
    destruct IH as (Hi1 & Ha1 & _ & He1). apply Forall_singleton in Hr as [Hr1 Hr2].
    destruct r as [state p].
    pose proof (set_led_status_step pw gp state p led1 e1 Hi1) as Hs.
    cbn [foldl fst snd] in *.
    destruct (set_led_status _ _ _ _ _ _). rewrite <- Ha1, <- He1. by apply Hs.
Qed.

(** A LED after reset with a cleared slot array. *)
Definition led0 : led_device := LedDevice (Some 0%nat) 0 5 NONE_PWM_CHAN 0 LED_OFF 0 [0; 0; 0; 0].
Definition env0 : led_env := LedEnv false [].

Lemma led0_inv : led_inv led0.
Proof.
  constructor; try done.
  - repeat constructor; lia.
  - intros k p Hk. cbn [on_mask led0]. rewrite Z.bits_0.
    by do 4 (destruct k as [|k]; [by injection Hk as <-|]).
  - intros. apply Z.bits_0.
  - cbn. constructor.
Qed.

Lemma led_requests_refine_witness :
  let '(led', e') := led_requests false true ([(0, 500); (0, 0); (1, 0)] ++ [(0, 200)]) led0 env0 in
  led_inv led' /\ blink_period led' = [500; 200; 0; 0].
Proof.
  pose proof (led_requests_refine false true [(0, 500); (0, 0); (1, 0)] (0, 200) led0 env0 led0_inv)
    as H. destruct (led_requests _ _ _ _ _) as [led' e'] eqn:E. split.
  - apply H. repeat (constructor; [split; [by (left + right)|cbn; lia]|]). constructor.
  - vm_compute in E. by injection E as <- <-.
Defined.

(** A LED on a GPIO is driven by its pending requests: every on/off request stops the
    blink timer and then either restarts it with half the shortest pending period, writes
    the steady-on level when no period below 0xFFFF is pending, or writes the off level. *)
Theorem gpio_led_output pw state p led e :
  led_inv led -> state = LED_ON \/ state = LED_OFF -> 0 <= p < 2 ^ 32 ->
  led_pwm led = NONE_PWM_CHAN ->
  let '(led', e') := set_led_status pw true state p led e in
  exists t, fastest (periods led') t /\
  calls e' = calls e ++ TimerStop (led_pin led) ::
    [if spec_lit (abs_led led') then
       if t =? 0 then GpioWrite (led_dev led) (led_pin led) LED_ON
       else TimerStart (led_pin led) (t / 2) (t / 2)
     else GpioWrite (led_dev led) (led_pin led) LED_OFF].
Proof.
  intros Hinv Hst Hp Hpwm.
  pose proof (set_led_status_step pw true state p led e Hinv Hst Hp) as Hs.
  pose proof (gpio_led_calls pw state p led e Hst Hpwm) as Hc.
  destruct (set_led_status _ _ _ _ _ _) as [led' e'].
  destruct Hs as (_ & _ & Hst' & _). exists (select_fast_blink_period led').
  split; [apply select_fastest|]. rewrite Hc, Hst'. by destruct (spec_lit _).
Qed.

Lemma gpio_led_output_witness :
  exists t, fastest {[500]} t /\
    calls (set_led_status false true LED_ON 500 led0 env0).2
    = [TimerStop 5; if t =? 0 then GpioWrite (Some 0%nat) 5 LED_ON else TimerStart 5 (t / 2) (t / 2)].
Proof.
  pose proof (gpio_led_output false LED_ON 500 led0 env0 led0_inv (or_introl eq_refl)) as H.
  exists 500. split; [right; split_and!; [set_solver|lia|set_solver]|].
  destruct (set_led_status _ _ _ _ _ _) as [led' e'] eqn:E.
  destruct H as (t & Ht & Hc); [lia|done|].
  vm_compute in E. injection E as <- <-. reflexivity.
Defined.

(** Defect: [reset_led_state] clears four bytes of the sixteen of [blink_period], so
    the periods of slots 1 to 3 survive a reset (and [led_device_init]): the first
    steady-on request after it makes the LED blink with a stale period. *)
Theorem reset_keeps_stale_periods pw led e a b c d :
  blink_period led = [a; b; c; d] -> Forall (fun p => 0 <= p < 2 ^ 32) [a; b; c; d] ->
  led_pwm led = NONE_PWM_CHAN -> 0 < b < 0xFFFF ->
  let '(led1, e1) := reset_led_state true led e in
  let '(led2, e2) := set_led_status pw true LED_ON 0 led1 e1 in
  on_mask led1 = 0 /\ blink_period led1 = [0; b; c; d] /\
  exists t, 0 < t <= b /\
    calls e2 = calls e1 ++ [TimerStop (led_pin led); TimerStart (led_pin led) (t / 2) (t / 2)].
Proof.
  intros Hb Hr Hpwm Hb0. unfold reset_led_state. cbv zeta.
  set (led1 := (led <| on_mask := 0 |>) <| blink_period := _ |>).
  replace (led_pwm led1) with NONE_PWM_CHAN by done. cbn [Z.eqb NONE_PWM_CHAN Pos.eqb andb].
  set (e1 := call _ e).
  assert (blink_period led1 = [0; b; c; d]) as Hb1.
  { subst led1. cbn -[memset0_u32]. rewrite Hb. by apply memset0_first. }
  pose proof (gpio_led_calls pw LED_ON 0 led1 e1 (or_introl eq_refl) Hpwm) as Hc.
  pose proof (set_on_0_keeps pw true led1 e1) as Hk.
  destruct (set_led_status _ _ _ _ _ _) as [led2 e2]. destruct Hk as [Hk1 Hk2].
  split_and!; [done|done|]. exists (select_fast_blink_period led2).
  assert (0 < select_fast_blink_period led2 <= b) as Ht.
  { pose proof (select_fastest led2) as [[_ Hall]|(Hin & Hlt & Hle)].
    - exfalso. assert (0xFFFF <= b); [|lia]. apply Hall. unfold periods.
      rewrite Hk1, Hb1, elem_of_list_to_set, elem_nonzero by lia. right. by left.
    - split.
      + unfold periods in Hin. rewrite Hk1, Hb1, elem_of_list_to_set, list_elem_of_filter in Hin.
        destruct Hin as [Hn0 Hin]. rewrite !Forall_cons in Hr.
        rewrite !elem_of_cons in Hin. destruct Hin as [|[|[|[|[]%not_elem_of_nil]]]]; lia.
      + apply Hle. unfold periods.
        rewrite Hk1, Hb1, elem_of_list_to_set, elem_nonzero by lia. right. by left. }
  split; [done|]. rewrite Hc, Hk2. change (LED_ON =? LED_ON) with true. cbn iota.
  by destruct (Z.eqb_spec (select_fast_blink_period led2) 0); [lia|].
Qed.

Definition led_stale : led_device :=
  LedDevice (Some 0%nat) 0 5 NONE_PWM_CHAN 0 LED_ON 3 [300; 500; 0; 0].
Lemma reset_keeps_stale_periods_witness :
  let '(led1, e1) := reset_led_state true led_stale env0 in
  let '(led2, e2) := set_led_status false true LED_ON 0 led1 e1 in
  blink_period led1 = [0; 500; 0; 0] /\
  calls e2 = [TimerStop 5; TimerStop 5; TimerStart 5 250 250].
Proof.
  pose proof (reset_keeps_stale_periods false led_stale env0 300 500 0 0 eq_refl) as H.
  destruct (reset_led_state _ _ _) as [led1 e1] eqn:E1.
  destruct (set_led_status _ _ _ _ _ _) as [led2 e2] eqn:E2.
  destruct H as (_ & Hb & _); [repeat constructor; lia|done|lia|]. split; [done|].
  vm_compute in E1. injection E1 as <- <-. vm_compute in E2. by injection E2 as <- <-.
Defined.

(** An unknown state is rejected, but the interrupt mask of [irq_lock] stays. *)
Lemma set_led_status_unknown pw gp state p led e :
  state <> LED_ON -> state <> LED_OFF ->
  set_led_status pw gp state p led e = (led, e <| irq_masked := true |>).
Proof.
  intros H1 H2. unfold set_led_status, irq_lock.
  by destruct (Z.eqb_spec state LED_ON), (Z.eqb_spec state LED_OFF).
Qed.

(** The manager finds the last LED on the pin. *)
Lemma find_led_spec leds id : forall i found,
  find_led leds id i found = found /\ Forall (fun l => led_pin l <> id) leds \/
  exists j l, find_led leds id i found = Some (i + j)%nat /\ leds !! j = Some l /\ led_pin l = id.
Proof.
  induction leds as [|l leds IH]; intros i found; [by left|]. cbn [find_led].
  destruct (IH (S i) (if led_pin l =? id then Some i else found)) as [[Hf Hall]|(j & l' & Hf & Hj & Hp)].
  - rewrite Hf. destruct (Z.eqb_spec (led_pin l) id).
    + right. exists 0%nat, l. by rewrite Nat.add_0_r.
    + left. split; [done|]. by constructor.
  - right. exists (S j), l'. split_and!; [rewrite Hf; f_equal; lia|done|done].
Qed.

(** A request for a pin reaches only LEDs on that pin. *)
Lemma led_set_state_frame pw gp id state p leds e k l :
  leds !! k = Some l -> led_pin l <> id ->
  (led_set_state pw gp id state p leds e).1 !! k = Some l.
Proof.
  intros Hk Hl. unfold led_set_state.
  destruct (find_led_spec leds id 0 None) as [[-> _]|(j & l' & -> & Hj & Hp)]; [done|].
  cbn [Nat.add]. rewrite Hj. destruct (set_led_status _ _ _ _ _ _). cbn [fst].
  rewrite list_lookup_insert_ne; [done|]. intros ->. congruence.
Qed.
