(* ===== verification/MsgManager.v ===== *)
(** * Application messages (ext/lib/actions/framework/msg_manager.c)

    Messages are copied into network buffers of two pools of eight and passed through
    one FIFO.  The buffer library is not part of the sources: it is the class [NetBuf],
    an interface with the behaviour its header documents, and the message manager is
    proved against it.  What the manager promises to its own clients is [MsgQueue]. *)
From stdpp Require Import finite.
From S2P Require Import Prelude.

Definition K_NO_WAIT : Z := 0.
Definition MSG_POOL_COUNT : nat := 8.

Record app_msg := AppMsg {
  sender : Z;
  type : Z;
  cmd : Z;
  reserve : Z;
  value : Z;
  callback : Z
}.
#[export] Instance app_msg_eq : EqDecision app_msg.
Proof. solve_decision. Defined.

Inductive msg_pool := PoolAsync | PoolSync.
#[export] Instance msg_pool_eq : EqDecision msg_pool.
Proof. solve_decision. Defined.

(** ** The buffer library: net_buf_alloc, net_buf_put, net_buf_get, net_buf_unref *)
Class NetBuf (T B : Type) := {
  net_buf_alloc : msg_pool -> Z -> T -> option B * T;
  net_buf_put : B -> T -> T;
  net_buf_get : Z -> T -> option B * T;
  net_buf_unref : B -> T -> T;
  buf_data : T -> B -> app_msg;             (* what buf->data holds *)
  buf_store : B -> app_msg -> T -> T        (* memcpy(buf->data, ...) *)
}.

(** Its documented behaviour, over the observations [fifo] (buffers queued, oldest
    first), [used] (buffers out of a pool) and [pool_of]. *)
Class NetBufLaws (T B : Type) `{NetBuf T B} := {
  fifo : T -> list B;
  used : T -> B -> Prop;
  pool_of : B -> msg_pool;
  in_pool : T -> msg_pool -> nat;           (* avail_count *)
  nb_alloc_some : forall p t n b n', net_buf_alloc p t n = (Some b, n') ->
    ~ used n b /\ (forall c, used n' c <-> used n c \/ c = b) /\ fifo n' = fifo n /\
    (forall c, used n c -> buf_data n' c = buf_data n c) /\ pool_of b = p /\
    in_pool n p = S (in_pool n' p) /\ (forall q, q <> p -> in_pool n' q = in_pool n q);
  nb_alloc_none : forall p t n n', net_buf_alloc p t n = (None, n') ->
    n' = n /\ in_pool n p = 0%nat;
  nb_put_fifo : forall b n, fifo (net_buf_put b n) = fifo n ++ [b];
  nb_put_used : forall b n c, used (net_buf_put b n) c <-> used n c;
  nb_put_data : forall b n c, buf_data (net_buf_put b n) c = buf_data n c;
  nb_put_pool : forall b n p, in_pool (net_buf_put b n) p = in_pool n p;
  nb_get_nil : forall t n, fifo n = [] -> net_buf_get t n = (None, n);
  nb_get_cons : forall t n b bs, fifo n = b :: bs -> exists n', net_buf_get t n = (Some b, n') /\
    fifo n' = bs /\ (forall c, used n' c <-> used n c) /\
    (forall c, buf_data n' c = buf_data n c) /\ forall p, in_pool n' p = in_pool n p;
  nb_unref_fifo : forall b n, fifo (net_buf_unref b n) = fifo n;
  nb_unref_used : forall b n c, used (net_buf_unref b n) c <-> used n c /\ c <> b;
  nb_unref_data : forall b n c, c <> b -> buf_data (net_buf_unref b n) c = buf_data n c;
  nb_unref_pool : forall b n p, used n b ->
    in_pool (net_buf_unref b n) p
    = (in_pool n p + (if bool_decide (pool_of b = p) then 1 else 0))%nat;
  nb_store_fifo : forall b m n, fifo (buf_store b m n) = fifo n;
  nb_store_used : forall b m n c, used (buf_store b m n) c <-> used n c;
  nb_store_here : forall b m n, buf_data (buf_store b m n) b = m;
  nb_store_other : forall b m n c, c <> b -> buf_data (buf_store b m n) c = buf_data n c;
  nb_store_pool : forall b m n p, in_pool (buf_store b m n) p = in_pool n p
}.

(** ** The message manager *)
Section Manager.
Context `{NB : NetBuf T B}.

Definition msg_manager_init : bool := true.

Definition pool_for (timeout : Z) : msg_pool := if timeout =? K_NO_WAIT then PoolAsync else PoolSync.

Definition msg_buf_get (timeout : Z) (n : T) : option B * T :=
  if timeout =? K_NO_WAIT then net_buf_alloc PoolAsync timeout n
  else net_buf_alloc PoolSync timeout n.

Definition send_msg (msg : app_msg) (timeout : Z) (n : T) : bool * T :=
  let '(buf, n) := msg_buf_get timeout n in
  match buf with
  | None => (false, n)
  | Some b => (true, net_buf_put b (buf_store b msg n))
  end.

(** The caller's [*msg] is the result's first component, [None] when nothing was
    received. *)
Definition receive_msg (timeout : Z) (n : T) : option app_msg * T :=
  let '(buf, n) := net_buf_get timeout n in
  match buf with
  | None => (None, n)
  | Some b => let m := buf_data n b in (Some m, net_buf_unref b n)
  end.
End Manager.

(** ** What clients rely on: a bounded FIFO of messages *)
Class MsgQueue (Q : Type) := {
  mq_send : app_msg -> Z -> Q -> bool * Q;
  mq_recv : Z -> Q -> option app_msg * Q;
  mq_view : Q -> list app_msg;
  mq_ok : Q -> Prop;
  mq_send_ok : forall m t q, mq_ok q -> mq_ok (mq_send m t q).2;
  mq_recv_ok : forall t q, mq_ok q -> mq_ok (mq_recv t q).2;
  mq_send_view : forall m t q, mq_ok q ->
    mq_view (mq_send m t q).2 = mq_view q ++ (if (mq_send m t q).1 then [m] else []);
  mq_recv_view : forall t q, mq_ok q ->
    (mq_recv t q).1 = head (mq_view q) /\ mq_view (mq_recv t q).2 = tail (mq_view q)
}.

(** * Theorems *)
Section Proofs.
Context `{NBL : NetBufLaws T B} `{!EqDecision B}.

(** The queued messages, oldest first. *)
Definition queued (n : T) : list app_msg := buf_data n <$> fifo n.
(** Queued buffers are distinct and in use, no other buffer is in use, and a pool's free
    and used buffers add up to eight. *)
Record msgs_ok (n : T) : Prop := {
  ok_nodup : NoDup (fifo n);
  ok_used : forall b, used n b <-> b ∈ fifo n;
  ok_count : forall p,
    (in_pool n p + length (filter (fun b => pool_of b = p) (fifo n)))%nat = MSG_POOL_COUNT
}.

Lemma msg_buf_get_pool t n : msg_buf_get t n = net_buf_alloc (pool_for t) t n.
Proof. unfold msg_buf_get, pool_for. by case_cmp. Qed.

Lemma queued_ext n n' (l : list B) :
  (forall b, b ∈ l -> buf_data n' b = buf_data n b) -> buf_data n' <$> l = buf_data n <$> l.
Proof. intros H1. apply list_fmap_ext. intros i x Hx. apply H1. by eapply list_elem_of_lookup_2. Qed.

Lemma send_spec m t n : msgs_ok n ->
  let '(r, n') := send_msg m t n in
  msgs_ok n' /\ queued n' = queued n ++ (if r then [m] else []) /\
  (r = false <-> in_pool n (pool_for t) = 0%nat).
Proof.
  intros [Hnd Hu Hc]. unfold send_msg. rewrite msg_buf_get_pool.
  destruct (net_buf_alloc _ _ _) as [[b|] n1] eqn:E.
  2: { apply nb_alloc_none in E as [-> Hz]. split_and!; [by constructor| |done].
       by rewrite app_nil_r. }
  apply nb_alloc_some in E as (Hfree & Hu1 & Hf1 & Hd1 & Hp & Hin & Hoth).
  assert (b ∉ fifo n) as Hb by (by rewrite <- Hu).
  split_and!; [constructor| |].
  - rewrite nb_put_fifo, nb_store_fifo, Hf1. apply NoDup_app. split_and!; [done| |apply NoDup_singleton].
    intros x Hx ->%list_elem_of_singleton. done.
  - intros c. rewrite nb_put_used, nb_store_used, Hu1, nb_put_fifo, nb_store_fifo, Hf1, Hu.
    by rewrite elem_of_app, list_elem_of_singleton.
  - intros p. rewrite nb_put_pool, nb_store_pool, nb_put_fifo, nb_store_fifo, Hf1.
    rewrite filter_app, length_app, filter_cons, filter_nil. specialize (Hc p).
    destruct (decide (pool_of b = p)) as [<-|Hne]; cbn [length].
    + rewrite Hp in Hc |- *. lia.
    + rewrite Hoth by congruence. cbn [length]. lia.
  - unfold queued. rewrite nb_put_fifo, nb_store_fifo, Hf1, fmap_app. f_equal.
    + apply queued_ext. intros c Hc'. rewrite nb_put_data, nb_store_other by (intros ->; done).
      apply Hd1. by apply Hu.
    + cbn. by rewrite nb_put_data, nb_store_here.
  - split; [done|]. rewrite Hin. done.
Qed.

Lemma receive_spec t n : msgs_ok n ->
  let '(r, n') := receive_msg t n in
  msgs_ok n' /\ r = head (queued n) /\ queued n' = tail (queued n).
Proof.
  intros Hok. pose proof Hok as [Hnd Hu Hc]. unfold receive_msg, queued.
  destruct (fifo n) as [|b bs] eqn:Ef.
  { rewrite nb_get_nil by done. split_and!; [done|done|by rewrite Ef]. }
  destruct (nb_get_cons t n b bs Ef) as (n1 & -> & Hf1 & Hu1 & Hd1 & Hp1).
  apply NoDup_cons in Hnd as [Hb Hnd].
  assert (used n1 b) as Hub by (rewrite Hu1, Hu; by left).
  split_and!; [constructor| |].
  - by rewrite nb_unref_fifo, Hf1.
  - intros c. rewrite nb_unref_used, Hu1, Hu, nb_unref_fifo, Hf1, elem_of_cons.
    split; [tauto|]. intros Hc'. split; [tauto|]. by intros ->.
  - intros p. rewrite nb_unref_pool, nb_unref_fifo, Hf1, Hp1 by done.
    specialize (Hc p). rewrite filter_cons in Hc.
    case_bool_decide; destruct (decide (pool_of b = p)); try done; cbn [length] in Hc; lia.
  - cbn. by rewrite Hd1.
  - rewrite nb_unref_fifo, Hf1. cbn. apply queued_ext.
    intros c Hc'. rewrite nb_unref_data, Hd1; [done|]. by intros ->.
Qed.

Lemma send_view m t n : msgs_ok n ->
  queued (send_msg m t n).2 = queued n ++ (if (send_msg m t n).1 then [m] else []).
Proof. intros Hok. pose proof (send_spec m t n Hok) as Hs. destruct (send_msg _ _ _). apply Hs. Qed.

(** The manager is a FIFO, whatever buffer library it is linked with. *)
#[export, refine] Instance msg_manager_queue : MsgQueue T := {|
  mq_send := send_msg; mq_recv := receive_msg; mq_view := queued; mq_ok := msgs_ok |}.
Proof.
  - intros m t q Hq. pose proof (send_spec m t q Hq) as Hs. destruct (send_msg _ _ _). apply Hs.
  - intros t q Hq. pose proof (receive_spec t q Hq) as Hs. destruct (receive_msg _ _). apply Hs.
  - apply send_view.
  - intros t q Hq. pose proof (receive_spec t q Hq) as Hs. destruct (receive_msg _ _). apply Hs.
Defined.
End Proofs.

Section Facts.
Context `{NBL : NetBufLaws T B} `{!EqDecision B}.

(** Sends and receives, in order. *)
Inductive msg_op := Send (m : app_msg) (timeout : Z) | Receive (timeout : Z).
(** The state after a sequence, the messages accepted and the messages delivered. *)
Fixpoint run_msgs (ops : list msg_op) (n : T) : T * list app_msg * list app_msg :=
  match ops with
  | [] => (n, [], [])
  | Send m t :: ops' =>
      let '(r, n1) := send_msg m t n in
      let '(n2, acc, dlv) := run_msgs ops' n1 in (n2, (if r then m :: acc else acc), dlv)
  | Receive t :: ops' =>
      let '(r, n1) := receive_msg t n in
      let '(n2, acc, dlv) := run_msgs ops' n1 in
      (n2, acc, match r with Some m => m :: dlv | None => dlv end)
  end.

(** C20.  The message manager is a reliable FIFO with 2 x 8 places, for any buffer library
    with the documented behaviour: over any interleaving of sends and receives, the
    messages delivered followed by those still queued are exactly the messages that were
    queued at the start followed by those accepted, in order (nothing is lost, duplicated
    or reordered once [send_msg] returned true), and no pool has more than eight messages
    queued. *)
Theorem msg_fifo ops (n : T) :
  msgs_ok n ->
  let '(n', acc, dlv) := run_msgs ops n in
  msgs_ok n' /\ dlv ++ queued n' = queued n ++ acc /\
  forall p, (length (filter (fun b => pool_of b = p) (fifo n')) <= MSG_POOL_COUNT)%nat.
Proof.
  revert n. induction ops as [|[m t|t] ops IH]; intros n Hok; cbn [run_msgs].
  - split_and!; [done|by rewrite app_nil_r|]. intros p. pose proof (ok_count n Hok p). lia.
  - pose proof (send_spec m t n Hok) as Hs. destruct (send_msg m t n) as [r n1].
    destruct Hs as (Hok1 & Hq & _). specialize (IH n1 Hok1).
    destruct (run_msgs ops n1) as [[n2 acc] dlv]. destruct IH as (? & Hd & ?).
    split_and!; [done| |done]. rewrite Hd, Hq. destruct r; by rewrite <- (assoc_L (++)).
  - pose proof (receive_spec t n Hok) as Hs. destruct (receive_msg t n) as [r n1].
    destruct Hs as (Hok1 & -> & Hq). specialize (IH n1 Hok1).
    destruct (run_msgs ops n1) as [[n2 acc] dlv]. destruct IH as (? & Hd & ?).
    split_and!; [done| |done]. rewrite Hq in Hd. destruct (queued n); cbn in *; by rewrite <- Hd.
Qed.

(** [send_msg] drops a message exactly when the eight buffers of its pool (the
    asynchronous pool for K_NO_WAIT, the synchronous one otherwise) are all queued;
    a dropped message changes nothing. *)
Theorem send_msg_drops m t (n : T) :
  msgs_ok n ->
  ((send_msg m t n).1 = false <->
   length (filter (fun b => pool_of b = pool_for t) (fifo n)) = MSG_POOL_COUNT) /\
  ((send_msg m t n).1 = false -> (send_msg m t n).2 = n).
Proof.
  intros Hok. pose proof (send_spec m t n Hok) as Hs.
  pose proof (ok_count n Hok (pool_for t)) as Hc.
  assert ((send_msg m t n).1 = false -> (send_msg m t n).2 = n) as Hsame.
  { unfold send_msg. rewrite msg_buf_get_pool. destruct (net_buf_alloc _ _ _) as [[b|] n1] eqn:E; [done|].
    apply nb_alloc_none in E as [-> _]. done. }
  destruct (send_msg m t n) as [r n1]. destruct Hs as (_ & _ & Hz). cbn [fst snd] in *.
  split; [|done]. rewrite Hz. lia.
Qed.
End Facts.

(** ** A buffer library: two pools of eight buffers, with the set of those in use *)
Module Pools.
#[export] Instance msg_pool_countable : Countable msg_pool.
Proof.
  apply (inj_countable' (fun p => match p with PoolAsync => true | PoolSync => false end)
           (fun b : bool => if b then PoolAsync else PoolSync)). by intros [].
Defined.
Abbreviation pbuf := (msg_pool * fin MSG_POOL_COUNT)%type.
Record pools := mkPools {
  pl_fifo : list pbuf;
  pl_used : gset pbuf;
  pl_data : gmap pbuf app_msg
}.
Definition msg0 : app_msg := AppMsg 0 0 0 0 0 0.
Definition pool_bufs (p : msg_pool) : gset pbuf := list_to_set ((fun i => (p, i)) <$> enum (fin MSG_POOL_COUNT)).
Definition free_of (s : pools) (p : msg_pool) : gset pbuf := pool_bufs p ∖ pl_used s.

#[export] Instance pools_netbuf : NetBuf pools pbuf := {|
  net_buf_alloc p _ s :=
    match elements (free_of s p) with
    | [] => (None, s)
    | b :: _ => (Some b, mkPools (pl_fifo s) ({[b]} ∪ pl_used s) (pl_data s))
    end;
  net_buf_put b s := mkPools (pl_fifo s ++ [b]) (pl_used s) (pl_data s);
  net_buf_get _ s :=
    match pl_fifo s with
    | [] => (None, s)
    | b :: bs => (Some b, mkPools bs (pl_used s) (pl_data s))
    end;
  net_buf_unref b s := mkPools (pl_fifo s) (pl_used s ∖ {[b]}) (pl_data s);
  buf_data s b := default msg0 (pl_data s !! b);
  buf_store b m s := mkPools (pl_fifo s) (pl_used s) (<[b := m]> (pl_data s))
|}.

Lemma elem_of_pool_bufs p b : b ∈ pool_bufs p <-> b.1 = p.
Proof.
  unfold pool_bufs. rewrite elem_of_list_to_set, list_elem_of_fmap. split.
  - by intros (i & -> & _).
  - destruct b as [q i]. cbn [fst]. intros ->. exists i. split; [done|apply elem_of_enum].
Qed.

Lemma free_take s p b : b ∈ free_of s p ->
  size (free_of s p) = S (size (pool_bufs p ∖ ({[b]} ∪ pl_used s))).
Proof.
  unfold free_of. intros Hb.
  replace (pool_bufs p ∖ ({[b]} ∪ pl_used s)) with ((pool_bufs p ∖ pl_used s) ∖ {[b]}).
  - rewrite (union_difference_singleton_L b (pool_bufs p ∖ pl_used s)) at 1 by done.
    rewrite size_union, size_singleton; [done|]. apply disjoint_difference_r1. set_solver.
  - apply set_eq. intros x. rewrite !elem_of_difference, elem_of_union, elem_of_singleton. tauto.
Qed.

#[export] Instance pools_laws : NetBufLaws pools pbuf.
Proof.
  refine {| fifo := pl_fifo; used s b := b ∈ pl_used s; pool_of := fst;
            in_pool s p := size (free_of s p) |};
    cbn -[size]; try done.
  - intros p t s b s' E. destruct (elements (free_of s p)) as [|x l] eqn:El; [done|].
    injection E as <- <-. cbn.
    assert (x ∈ free_of s p) as Hx by (rewrite <- elem_of_elements, El; by left).
    pose proof (free_take s p x Hx) as Ht.
    unfold free_of in Hx. rewrite elem_of_difference, elem_of_pool_bufs in Hx.
    destruct Hx as [Hp Hn]. split_and!; [done| |done|done|done|done|].
    + intros c. rewrite elem_of_union, elem_of_singleton. tauto.
    + intros q Hq. f_equal. apply set_eq. intros c. unfold free_of. cbn [pl_used].
      rewrite !elem_of_difference, elem_of_union, elem_of_singleton, elem_of_pool_bufs.
      split; [tauto|]. intros [Hc Hu]. split; [done|]. intros [->|]; congruence.
  - intros p t s s' E. destruct (elements (free_of s p)) as [|x l] eqn:El; [|done].
    injection E as <-. split; [done|]. by apply elements_empty_inv, leibniz_equiv in El as ->.
  - intros t n E. by rewrite E.
  - intros t n b bs E. rewrite E. eexists. split; [done|]. done.
  - intros b n c. rewrite elem_of_difference, elem_of_singleton. done.
  - intros b s p Hb. unfold free_of. cbn [pl_used]. case_bool_decide as Hp.
    + replace (pool_bufs p ∖ (pl_used s ∖ {[b]})) with ({[b]} ∪ (pool_bufs p ∖ pl_used s)).
      * rewrite size_union, size_singleton; [lia|]. apply disjoint_singleton_l.
        rewrite elem_of_difference. tauto.
      * apply set_eq. intros c.
        rewrite elem_of_union, !elem_of_difference, elem_of_singleton, elem_of_pool_bufs.
        destruct (decide (c = b)) as [->|]; tauto.
    + rewrite Nat.add_0_r. f_equal. apply set_eq. intros c.
      rewrite !elem_of_difference, elem_of_singleton, elem_of_pool_bufs.
      destruct (decide (c = b)) as [->|]; tauto.
  - intros b m n. by rewrite lookup_insert_eq.
  - intros b m n c Hc. by rewrite lookup_insert_ne.
Defined.

Definition pools_init : pools := mkPools [] ∅ ∅.
Lemma pools_init_ok : msgs_ok pools_init.
Proof.
  constructor; [constructor| |].
  - intros b. cbn. split; [intros []%not_elem_of_empty|intros []%not_elem_of_nil].
  - intros p. cbn. rewrite Nat.add_0_r. by destruct p; vm_compute.
Qed.
End Pools.
Import Pools.

Definition msg_n (k : Z) : app_msg := AppMsg 0 1 0 0 k 0.

Lemma msg_fifo_witness :
  let '(n', acc, dlv) :=
    run_msgs [Send (msg_n 1) 100; Send (msg_n 2) 0; Receive 0; Send (msg_n 3) 100; Receive 0] pools_init in
  dlv = [msg_n 1; msg_n 2] /\ dlv ++ queued n' = acc.
Proof.
  pose proof (msg_fifo [Send (msg_n 1) 100; Send (msg_n 2) 0; Receive 0; Send (msg_n 3) 100; Receive 0]
    pools_init pools_init_ok) as H.
  destruct (run_msgs _ _) as [[n' acc] dlv] eqn:E. destruct H as (_ & H & _). split; [|done].
  vm_compute in E. by injection E as <- <- <-.
Defined.

(** Eight queued messages fill the pool. *)
Definition pools_full : pools := (run_msgs (replicate 8 (Send (msg_n 7) 100)) pools_init).1.1.
Lemma pools_full_ok : msgs_ok pools_full.
Proof.
  unfold pools_full. generalize (replicate 8 (Send (msg_n 7) 100)). intros ops.
  revert ops. generalize pools_init_ok. generalize pools_init. intros n Hok ops.
  revert n Hok. induction ops as [|[m t|t] ops IH]; intros n Hok; cbn [run_msgs]; [done| |].
  - pose proof (mq_send_ok m t n Hok) as H. cbn in H. destruct (send_msg m t n) as [r n1].
    specialize (IH n1 H). by destruct (run_msgs ops n1) as [[??]?].
  - pose proof (mq_recv_ok t n Hok) as H. cbn in H. destruct (receive_msg t n) as [r n1].
    specialize (IH n1 H). by destruct (run_msgs ops n1) as [[??]?].
Qed.
Lemma send_msg_drops_witness :
  (send_msg (msg_n 9) 100 pools_full).1 = false /\ (send_msg (msg_n 9) 100 pools_full).2 = pools_full.
Proof.
  pose proof (send_msg_drops (msg_n 9) 100 pools_full pools_full_ok) as [_ H].
  assert ((send_msg (msg_n 9) 100 pools_full).1 = false) as E by (vm_compute; reflexivity).
  split; [exact E|exact (H E)].
Defined.
