(* ===== verification/FlashNor.v ===== *)
(** * The flash device (include/flash.h, drivers/flash/xspi_nor_acts.c)

    The interface the flash clients use ([Flash], with what they rely on in [FlashLaws])
    and the driver's block protection.  Reading, programming and erasing are done by the
    boot ROM: here they act on the cells of a NOR chip that honours its status register,
    which is the instance the interface is inhabited by. *)
From S2P Require Import Prelude.

(** ** Interface *)
Class Flash (F : Type) := {
  flash_read : Z -> Z -> F -> list Z;
  flash_write : Z -> list Z -> F -> F;
  flash_erase : Z -> Z -> F -> F;
  flash_unlock : Z -> Z -> F -> F
}.

(** Its behaviour: bytes at addresses below [fl_size]; a write to erased bytes (0xFF) of
    a writable device stores the data and touches nothing else. *)
Class FlashLaws (F : Type) `{Flash F} := {
  fl_byte : F -> Z -> Z;
  fl_size : Z;
  fl_writable : F -> Prop;
  fl_size_range : 0 <= fl_size <= 2 ^ 32;
  fl_read : forall a n f, 0 <= a -> 0 <= n -> a + n <= fl_size ->
    flash_read a n f = fl_byte f <$> seqZ a n;
  fl_write : forall a d f, fl_writable f -> 0 <= a -> a + Z.of_nat (length d) <= fl_size ->
    Forall (fun x => 0 <= x < 256) d ->
    (forall i, a <= i < a + Z.of_nat (length d) -> fl_byte f i = 0xFF) ->
    fl_writable (flash_write a d f) /\
    forall i, 0 <= i < fl_size ->
      fl_byte (flash_write a d f) i
      = if (a <=? i) && (i <? a + Z.of_nat (length d))
        then nth (Z.to_nat (i - a)) d 0 else fl_byte f i;
  fl_unlock : forall f, fl_writable (flash_unlock 0 (2 ^ 32 - 1) f) /\
    forall i, fl_byte (flash_unlock 0 (2 ^ 32 - 1) f) i = fl_byte f i;
  fl_erase : forall a n f, fl_writable f -> 0 <= a -> 0 <= n -> a + n <= fl_size ->
    a mod 4096 = 0 -> n mod 4096 = 0 ->
    fl_writable (flash_erase a n f) /\
    forall i, 0 <= i < fl_size ->
      fl_byte (flash_erase a n f) i
      = if (a <=? i) && (i <? a + n) then 0xFF else fl_byte f i
}.

(** ** The driver *)
Definition JEDEC_ID_ATB1103_MGD : Z := 0x1364c8.
Definition SR_BP0 : Z := 4.
Definition SR_BP1 : Z := 8.
Definition SR_BP2 : Z := 0x10.
Definition NOR_SIZE : Z := 0x80000.

(** The chip: its status register and its cells. *)
Record nor_chip := NorChip { nor_sr : Z; nor_cell : Z -> Z }.
#[export] Instance eta_nor_chip : EtaRecord nor_chip := fun r => NorChip (nor_sr r) (nor_cell r).

(** Command 0x01 of [xspi_nor_write_data] writes the status register. *)
Definition xspi_nor_write_data (cmd data : Z) (c : nor_chip) : nor_chip :=
  if cmd =? 1 then c <| nor_sr := data |> else c.

(** The first address that is not write protected, by the table of the driver. *)
Definition protected_end (sr : Z) : Z :=
  match Z.to_nat (Z.land (Z.shiftr sr 2) 7) with
  | 0%nat => 0
  | 1%nat => 0x7E000
  | 2%nat => 0x7C000
  | 3%nat => 0x78000
  | 4%nat => 0x70000
  | 5%nat => 0x60000
  | 6%nat => 0x40000
  | _ => 0x80000
  end.

Definition xspi_nor_lock (chipid offset : Z) (c : nor_chip) : Z * nor_chip :=
  (0, if chipid =? JEDEC_ID_ATB1103_MGD then
        if offset =? 0 then
          let status := Z.lor (Z.lor SR_BP2 SR_BP1) SR_BP0 in
          xspi_nor_write_data 1 status c
        else c
      else c).

Definition xspi_nor_unlock (chipid offset : Z) (c : nor_chip) : Z * nor_chip :=
  (0, if chipid =? JEDEC_ID_ATB1103_MGD then
        if offset =? 0 then xspi_nor_write_data 1 0 c
        else if offset =? 0x70000 then xspi_nor_write_data 1 SR_BP2 c
        else c
      else c).

(** The variant without XIP: [ret] is the result of the boot ROM's initialisation.  With
    CONFIG_XSPI_NOR_LOCK it ends with the whole chip locked. *)
Definition acts_xspi_nor_init_new (nor_lock : bool) (chipid ret : Z) (c : nor_chip) : Z * nor_chip :=
  (ret, if nor_lock then (xspi_nor_lock chipid 0 c).2 else c).

(** Suspend and resume gate the SPI clock unless the code runs from the flash. *)
Inductive nor_eff := NorSuspend | NorResume | NorClockOn | NorClockOff.
Inductive pm_state := PmSuspend | PmActive | PmOther.
Definition acts_xspi_nor_device_ctrl (xip suspend_resume : bool) (is_set_power : bool)
    (st : pm_state) : Z * list nor_eff :=
  (0,
   if is_set_power then
     match st with
     | PmSuspend => (if suspend_resume then [NorSuspend] else []) ++ (if xip then [] else [NorClockOff])
     | PmActive => (if xip then [] else [NorClockOn]) ++ (if suspend_resume then [NorResume] else [])
     | PmOther => []
     end
   else []).

(** ** NOR cells: programming clears bits, erasing a sector sets them, and protected
    cells keep their value *)
Definition cell_write (a : Z) (d : list Z) (c : nor_chip) : nor_chip :=
  c <| nor_cell := fun i =>
    if (a <=? i) && (i <? a + Z.of_nat (length d)) && (protected_end (nor_sr c) <=? i)
    then Z.land (nor_cell c i) (nth (Z.to_nat (i - a)) d 0) else nor_cell c i |>.
Definition cell_erase (a n : Z) (c : nor_chip) : nor_chip :=
  c <| nor_cell := fun i =>
    if (a / 4096 * 4096 <=? i) && (i <? (a + n + 4095) / 4096 * 4096) && (protected_end (nor_sr c) <=? i)
    then 0xFF else nor_cell c i |>.

#[export] Instance nor_flash : Flash nor_chip := {|
  flash_read a n c := nor_cell c <$> seqZ a n;
  flash_write := cell_write;
  flash_erase := cell_erase;
  flash_unlock off _ c := (xspi_nor_unlock JEDEC_ID_ATB1103_MGD off c).2
|}.

(** * Theorems *)
Lemma land_ff x : 0 <= x < 256 -> Z.land 0xFF x = x.
Proof. intros. rewrite Z.land_comm. change 0xFF with (Z.ones 8). rewrite Z.land_ones by lia. by apply Z.mod_small. Qed.

#[export] Instance nor_laws : FlashLaws nor_chip.
Proof.
  refine {| fl_byte := nor_cell; fl_size := NOR_SIZE; fl_writable c := protected_end (nor_sr c) = 0 |}.
  - unfold NOR_SIZE. lia.
  - done.
  - intros a d f Hw Ha Hn Hd He. split; [done|]. intros i Hi. cbn. rewrite Hw.
    destruct ((a <=? i) && (i <? a + Z.of_nat (length d))) eqn:E; cbn [andb]; [|done].
    destruct (Z.leb_spec 0 i); [|lia]. rewrite He by lia. apply land_ff.
    apply (Forall_nth (fun x => 0 <= x < 256)); [done|lia].
  - intros f. split; reflexivity.
  - intros a n f Hw Ha Hn Hs H1 H2. split; [done|]. intros i Hi. cbn. rewrite Hw.
    replace (a / 4096 * 4096) with a by (Z.div_mod_to_equations; lia).
    replace ((a + n + 4095) / 4096 * 4096) with (a + n) by (Z.div_mod_to_equations; lia).
    destruct (Z.leb_spec 0 i); [|lia]. by rewrite andb_true_r.
Defined.

(**  Block protection of the supported chip: after an initialisation with
    CONFIG_XSPI_NOR_LOCK a write changes no cell unless [flash_unlock] was called at offset
    0 or 0x70000 since, and the latter leaves everything below 0x70000 (loader,
    applications) protected. *)
Theorem lock_protects ret c off a d i :
  0 <= i < NOR_SIZE -> off <> 0 -> (off = 0x70000 -> i < 0x70000) ->
  let c1 := (acts_xspi_nor_init_new true JEDEC_ID_ATB1103_MGD ret c).2 in
  let c2 := (xspi_nor_unlock JEDEC_ID_ATB1103_MGD off c1).2 in
  nor_cell (flash_write a d c1) i = nor_cell c i /\
  nor_cell (flash_write a d c2) i = nor_cell c i.
Proof.
  intros Hi H0 H7 c1 c2. unfold NOR_SIZE in Hi.
  assert (Hkeep : forall c' e, nor_cell c' = nor_cell c -> protected_end (nor_sr c') = e -> i < e ->
    nor_cell (flash_write a d c') i = nor_cell c i).
  { intros c' e Hc He Hlt. cbn. rewrite He, Hc. destruct (Z.leb_spec e i); [lia|].
    by rewrite andb_false_r. }
  split; [apply (Hkeep c1 0x80000); [done|done|lia]|].
  subst c2. unfold xspi_nor_unlock. rewrite Z.eqb_refl. cbn iota.
  destruct (Z.eqb_spec off 0); [done|].
  destruct (Z.eqb_spec off 0x70000) as [E|E].
  - apply (Hkeep _ 0x70000); auto.
  - apply (Hkeep _ 0x80000); [done|done|lia].
Qed.

Definition chip0 : nor_chip := NorChip 0 (fun _ => 0xFF).
Lemma lock_protects_witness :
  nor_cell (flash_write 0x6FFFF [1; 2]
    (xspi_nor_unlock JEDEC_ID_ATB1103_MGD 0x70000
      (acts_xspi_nor_init_new true JEDEC_ID_ATB1103_MGD 0 chip0).2).2) 0x6FFFF = 0xFF.
Proof. refine (proj2 (lock_protects 0 chip0 0x70000 0x6FFFF [1; 2] 0x6FFFF _ _ _)); [unfold NOR_SIZE; lia|lia|lia]. Defined.
