(* ===== verification/Ota.v ===== *)
(** * Over-the-air update (ext/lib/actions/ota/: ota.c, ota_profile.c, ota_dc.c, ota_ft.c,
    ota_storage.c)

    A GATT service with a device-configuration, a file-transfer-control (FTC) and a
    file-transfer-data (FTD) characteristic.  Writes arrive in the Bluetooth receive
    thread ([write_ota]); responses and data are sent from the application's message
    loop ([ota_event_handle]), which the service wakes through the message manager.
    The state of the service is [world]; the flash device and the message queue are used
    through their interfaces, and calls into the Bluetooth host and the power manager are
    recorded in order. *)
From S2P Require Import Prelude MsgManager FlashNor.

(** ** Constants (ota_defs.h, ota.h, ota_profile.h, att.h) *)
Definition OTA_DC_HDR_LEN : Z := 2.
Definition OTA_DC_OP_GET : Z := 1.
Definition OTA_DC_OP_SET : Z := 2.
Definition OTA_DC_ID_CONN_UPDATE_REQ : Z := 1.
Definition OTA_DC_ID_CONN_PARAM : Z := 2.
Definition OTA_DC_LEN_CONN_PARAM_REQ : Z := 8.
Definition OTA_FTC_HDR_LEN : Z := 1.
Definition OTA_FTC_HANDLE_LEN : Z := 2.
Definition OTA_FTC_OP_NONE : Z := 0x00.
Definition OTA_FTC_OP_GET_REQ : Z := 0x01.
Definition OTA_FTC_OP_GET_RSP : Z := 0x02.
Definition OTA_FTC_OP_PUT_REQ : Z := 0x03.
Definition OTA_FTC_OP_PUT_RSP : Z := 0x04.
Definition OTA_FTC_OP_ERASE_REQ : Z := 0x05.
Definition OTA_FTC_OP_ERASE_RSP : Z := 0x06.
Definition OTA_FTC_OP_VERIFY_REQ : Z := 0x07.
Definition OTA_FTC_OP_VERIFY_RSP : Z := 0x08.
Definition OTA_FTC_OP_ABORT : Z := 0x09.
Definition OTA_FTC_OP_EOF : Z := 0x0a.
Definition OTA_FTC_OP_PACKET_RECEIVED : Z := 0x0b.
Definition OTA_FTC_OP_SYSTEM_RESET : Z := 0x0c.
Definition OTA_FTC_OP_GET_VERSION_REQ : Z := 0x0d.
Definition OTA_FTC_OP_GET_VERSION_RSP : Z := 0x0e.
Definition OTA_FTC_ST_SUCCESS : Z := 0.
Definition OTA_FTC_ST_IN_PROGRESS : Z := 4.
Definition OTA_FTC_ST_VERIFICATION : Z := 5.
Definition OTA_FTD_HDR_LEN : Z := 0.
Definition OTA_TX_MASK_FTC_BIT : Z := 4.
Definition OTA_TX_MASK_FTD_BIT : Z := 8.
Definition OTA_TX_MASK_FTC_ASYNC_BIT : Z := 32.
Definition OTA_DC_CONN_PARMA_UPDATE_BIT : Z := 64.
Definition OTA_DC_CONN_DISCONNECT_BIT : Z := 128.
Definition OTA_DC_HDL : Z := 2.
Definition OTA_FTC_HDL : Z := 5.
Definition OTA_FTD_HDL : Z := 8.
Definition OTA_AU_HDL : Z := 11.
Definition BT_ATT_ERR_INVALID_HANDLE : Z := 0x01.
Definition BT_ATT_ERR_INVALID_OFFSET : Z := 0x07.
Definition BT_ATT_ERR_INVALID_ATTRIBUTE_LEN : Z := 0x0d.
Definition BT_ATT_ERR_UNLIKELY : Z := 0x0e.
Definition BT_ATT_ERR_OUT_OF_RANGE : Z := 0xff.
Definition BT_HCI_ERR_REMOTE_USER_TERM_CONN : Z := 0x13.
Definition BT_GATT_CCC_NOTIFY : Z := 1.
Definition OTA_WAKEUP_TIMEOUT : Z := 120000.
Definition FTC_MSG_BUF_SIZE : Z := 20.
(** [sizeof(struct partition_table)] of boot.h: a 16-byte header, 15 entries of 24 bytes
    and 8 bytes. *)
Definition SIZEOF_PARTITION_TABLE : Z := 16 + 15 * 24 + 8.

(** ** Byte streams (bstream.h).  Reading past the last byte is undefined. *)
Definition BSTREAM_TO_UINT8 (p : list Z) : option (Z * list Z) :=
  match p with a :: r => Some (a, r) | _ => None end.
Definition BSTREAM_TO_UINT16 (p : list Z) : option (Z * list Z) :=
  match p with a :: b :: r => Some (u16 (a + Z.shiftl b 8), r) | _ => None end.
Definition BSTREAM_TO_UINT32 (p : list Z) : option (Z * list Z) :=
  match p with
  | a :: b :: c :: d :: r =>
      Some (u32 (a + Z.shiftl b 8 + Z.shiftl c 16 + Z.shiftl d 24), r)
  | _ => None
  end.
Definition UINT8_TO_BSTREAM (n : Z) : list Z := [u8 n].
Definition UINT16_TO_BSTREAM (n : Z) : list Z := [u8 n; u8 (Z.shiftr n 8)].

(** ** State *)
Record conn_param := ConnParam {
  interval_min : Z; interval_max : Z; latency : Z; timeout : Z
}.
#[export] Instance eta_conn_param : EtaRecord conn_param := fun r =>
  ConnParam (interval_min r) (interval_max r) (latency r) (timeout r).

Record otaCb_t := OtaCb {
  tx_ready_mask : Z;         (* u8_t *)
  ft_addr : Z;               (* u32_t *)
  ft_len : Z;                (* u32_t *)
  ft_crc : Z;                (* u32_t *)
  ft_handle : Z;             (* u16_t *)
  ftc_msg_len : Z;           (* u16_t *)
  ftc_msg_buf : list Z;      (* u8_t [20] *)
  ft_in_progress : Z;        (* u8_t *)
  wakeup_flag : bool;
  pending_count : Z;         (* u32_t *)
  send_count : Z;            (* u32_t *)
  conn : option nat;
  storage : option nat
}.
#[export] Instance eta_otaCb_t : EtaRecord otaCb_t := fun r =>
  OtaCb (tx_ready_mask r) (ft_addr r) (ft_len r) (ft_crc r) (ft_handle r) (ftc_msg_len r)
    (ftc_msg_buf r) (ft_in_progress r) (wakeup_flag r) (pending_count r) (send_count r)
    (conn r) (storage r).

(** Calls into the Bluetooth host, the timers and the power manager. *)
Inductive ota_eff :=
| Notify (c : option nat) (handle : Z) (data : list Z)
| ConnParamUpdate (c : option nat) (p : conn_param)
| Disconnect (c : option nat) (reason : Z)
| ServiceRegister
| WakeLock
| WakeUnlock
| WakeTimerInit
| WakeTimerStart (ms : Z).

Record world {F Q : Type} := World {
  cb : otaCb_t;
  param : conn_param;
  ota_dc : Z; ota_ftc : Z; ota_ftd : Z; ota_au : Z;   (* notification enabled *)
  p_write_cback : bool;                               (* a callback is registered *)
  ota_need_reset : Z;
  flash_unlock_flag : bool;
  flash : F;
  msgq : Q;
  out : list ota_eff
}.
#[global] Arguments world : clear implicits.
#[global] Arguments World {F Q}.
#[export] Instance eta_world {F Q} : EtaRecord (world F Q) := fun r =>
  World (cb r) (param r) (ota_dc r) (ota_ftc r) (ota_ftd r) (ota_au r) (p_write_cback r)
    (ota_need_reset r) (flash_unlock_flag r) (flash r) (msgq r) (out r).

Section Ota.
Context `{FL : Flash F} `{MQ : MsgQueue Q}.
(** CONFIG_XSPI_NOR_LOCK, CONFIG_SPI0_XIP; the application's message type; the version
    string; the word at PARTITION_TABLE_ADDR; the ATT MTU of a connection; the boot ROM's
    crc32; the binding of the flash device. *)
Context (nor_lock spi0_xip : bool) (MSG_OTA_EVENT : Z) (sys_version : list Z)
  (partition_addr : Z) (bt_gatt_get_mtu : nat -> Z) (crc32 : list Z -> Z -> Z)
  (nvram_dev : option nat).

#[local] Abbreviation OM := (M (world F Q)).

Definition upd_cb (f : otaCb_t -> otaCb_t) : OM unit := modify (fun w => w <| cb ::= f |>).
Definition emit (e : ota_eff) : OM unit := modify (fun w => w <| out ::= (fun l => l ++ [e]) |>).
Definition tx_set (b : Z) : OM unit := upd_cb (fun c => c <| tx_ready_mask ::= (fun m => Z.lor m b) |>).
Definition tx_clear (b : Z) : OM unit :=
  upd_cb (fun c => c <| tx_ready_mask ::= (fun m => Z.land m (u8 (Z.lnot b))) |>).

(** ** ota_storage.c *)
Definition unlock_flash : OM unit :=
  if nor_lock then
    fl ← gets flash_unlock_flag;
    if (fl : bool) then mret tt
    else modify (fun w => w <| flash ::= flash_unlock 0 (2 ^ 32 - 1) |> <| flash_unlock_flag := true |>)
  else mret tt.

Definition ota_storage_write (dev : option nat) (addr : Z) (buf : list Z) (len : Z) : OM Z :=
  match dev with
  | None => mret 0
  | Some _ =>
      unlock_flash;;
      modify (fun w => w <| flash ::= flash_write addr (take (Z.to_nat (u32 len)) buf) |>);;
      mret 0
  end.

(** The bytes stored in the caller's buffer; [None] when the buffer is left as it was. *)
Definition ota_storage_read (dev : option nat) (addr len : Z) : OM (option (list Z)) :=
  match dev with
  | None => mret None
  | Some _ => f ← gets flash; mret (Some (flash_read addr (u32 len) f))
  end.

Definition ota_storage_erase (dev : option nat) (addr size : Z) : OM Z :=
  match dev with
  | None => mret 0
  | Some _ => unlock_flash;; modify (fun w => w <| flash ::= flash_erase addr (u32 size) |>);; mret 0
  end.

Definition ota_storage_init : OM (option nat) := mret nvram_dev.

(** ** ota_profile.c *)
Definition ccc_value (value : Z) : Z := if value =? BT_GATT_CCC_NOTIFY then 1 else 0.
Definition ota_dc_ccc_cfg_changed (value : Z) : OM unit := modify (fun w => w <| ota_dc := ccc_value value |>).
Definition ota_ftc_ccc_cfg_changed (value : Z) : OM unit := modify (fun w => w <| ota_ftc := ccc_value value |>).
Definition ota_ftd_ccc_cfg_changed (value : Z) : OM unit := modify (fun w => w <| ota_ftd := ccc_value value |>).
Definition ota_au_ccc_cfg_changed (value : Z) : OM unit := modify (fun w => w <| ota_au := ccc_value value |>).

Definition is_need_writeCb (attr_id : Z) : bool :=
  (attr_id =? OTA_DC_HDL) || (attr_id =? OTA_FTC_HDL) || (attr_id =? OTA_FTD_HDL)
  || (attr_id =? OTA_AU_HDL).

Definition ota_init : OM unit := emit ServiceRegister.

Definition ota_ccc_enabled (handle : Z) : OM bool :=
  w ← get;
  mret (if handle =? OTA_DC_HDL then truthy (ota_dc w)
        else if handle =? OTA_FTC_HDL then truthy (ota_ftc w)
        else if handle =? OTA_FTD_HDL then truthy (ota_ftd w)
        else if handle =? OTA_AU_HDL then truthy (ota_au w)
        else true).

Definition ota_send_notify (c : option nat) (handle : Z) (p_value : list Z) : OM unit :=
  emit (Notify c handle p_value).

Definition ota_register : OM unit := modify (fun w => w <| p_write_cback := true |>).

(** ** ota.c: waking the message loop *)
Definition ota_msg (event : Z) : app_msg := AppMsg 0 MSG_OTA_EVENT 0 0 event 0.

(** The result of [send_msg] is not looked at. *)
Definition ota_send_event (event : Z) : OM unit :=
  w ← get;
  let '(_, q) := mq_send (ota_msg event) 100 (msgq w) in
  modify (fun w => w <| msgq := q |>).

(** ** ota_ft.c *)
Definition ota_ftc_send (c : option nat) : OM unit :=
  en ← ota_ccc_enabled OTA_FTC_HDL;
  w ← get;
  when en (ota_send_notify c OTA_FTC_HDL
             (take (Z.to_nat (ftc_msg_len (cb w))) (ftc_msg_buf (cb w))));;
  tx_clear OTA_TX_MASK_FTC_BIT.

Definition ota_fdc_async_send (c : option nat) : OM unit :=
  w ← get;
  let b := cb w in
  if pending_count b =? send_count b then mret tt
  else
    let count := u16 (pending_count b - send_count b) in
    upd_cb (fun c => c <| send_count := pending_count c |>);;
    let msg := UINT8_TO_BSTREAM OTA_FTC_OP_PACKET_RECEIVED ++ UINT16_TO_BSTREAM (ft_handle b)
               ++ UINT8_TO_BSTREAM 0 ++ UINT16_TO_BSTREAM count in
    en ← ota_ccc_enabled OTA_FTC_HDL;
    when en (ota_send_notify c OTA_FTC_HDL msg);;
    tx_clear OTA_TX_MASK_FTC_ASYNC_BIT.

(** Storing [msg] at the start of the 20-byte message buffer. *)
Definition store_msg (msg buf : list Z) : option (list Z) :=
  if Z.of_nat (length msg) <=? FTC_MSG_BUF_SIZE then Some (msg ++ drop (length msg) buf) else None.

Definition ota_ftc_send_rsp (c : option nat) (op handle status extra_info : Z) : OM unit :=
  w ← get;
  if truthy (Z.land (tx_ready_mask (cb w)) OTA_TX_MASK_FTC_BIT) then mret tt
  else
    let msg := UINT8_TO_BSTREAM op ++ UINT16_TO_BSTREAM handle ++ UINT8_TO_BSTREAM status
               ++ (if op =? OTA_FTC_OP_PACKET_RECEIVED then UINT16_TO_BSTREAM extra_info
                   else if op =? OTA_FTC_OP_GET_VERSION_RSP then sys_version
                   else []) in
    buf ← lift (store_msg msg (ftc_msg_buf (cb w)));
    upd_cb (fun c => c <| ftc_msg_buf := buf |> <| ftc_msg_len := u16 (Z.of_nat (length msg)) |>);;
    tx_set OTA_TX_MASK_FTC_BIT;;
    upd_cb (fun b => b <| conn := c |>);;
    ota_send_event OTA_TX_MASK_FTC_BIT.

Definition SPI0_XIP_CRC_ALIGN (x : Z) : Z := u32 (x * 34) / 32.

Definition ota_ftc_proc_get_req (c : nat) (handle : Z) (p_value : list Z) : OM unit :=
  w ← get;
  status ←
    (if negb (ft_in_progress (cb w) =? OTA_FTC_OP_NONE) then mret OTA_FTC_ST_IN_PROGRESS
     else
       '(addr, p) ← lift (BSTREAM_TO_UINT32 p_value);
       upd_cb (fun b => b <| ft_addr := addr |>);;
       '(len, p) ← lift (BSTREAM_TO_UINT32 p);
       upd_cb (fun b => b <| ft_len := len |>);;
       when (handle =? 0)
         (upd_cb (fun b => b <| ft_addr := partition_addr |> <| ft_len := SIZEOF_PARTITION_TABLE |>);;
          when spi0_xip (upd_cb (fun b => b <| ft_len ::= SPI0_XIP_CRC_ALIGN |>)));;
       upd_cb (fun b => b <| ft_handle := handle |> <| ft_in_progress := OTA_FTC_OP_GET_REQ |>);;
       mret OTA_FTC_ST_SUCCESS);
  ota_ftc_send_rsp (Some c) OTA_FTC_OP_GET_RSP handle status 0;;
  when (status =? OTA_FTC_ST_SUCCESS)
    (upd_cb (fun b => b <| conn := Some c |>);;
     ota_send_event OTA_TX_MASK_FTD_BIT).

Definition ota_ftc_proc_put_req (c : nat) (handle : Z) (p_value : list Z) : OM unit :=
  w ← get;
  status ←
    (if negb (ft_in_progress (cb w) =? OTA_FTC_OP_NONE) then mret OTA_FTC_ST_IN_PROGRESS
     else
       upd_cb (fun b => b <| ft_handle := handle |>);;
       '(addr, p) ← lift (BSTREAM_TO_UINT32 p_value);
       upd_cb (fun b => b <| ft_addr := addr |>);;
       '(len, p) ← lift (BSTREAM_TO_UINT32 p);
       upd_cb (fun b => b <| ft_len := len |>);;
       upd_cb (fun b => b <| ft_handle := handle |> <| ft_in_progress := OTA_FTC_OP_PUT_REQ |>
                          <| pending_count := 0 |> <| send_count := 0 |>);;
       mret OTA_FTC_ST_SUCCESS);
  ota_ftc_send_rsp (Some c) OTA_FTC_OP_PUT_RSP handle status 0.

(** The page loop of a verification: [None] if it does not end within [fuel] rounds. *)
Fixpoint verify_loop (fuel : nat) (off crc : Z) : OM Z :=
  match fuel with
  | O => ub
  | S fuel' =>
      w ← get;
      let b := cb w in
      if off <? ft_len b then
        let read_len := if 256 <? u32 (ft_len b - off) then 256 else u32 (ft_len b - off) in
        page ← ota_storage_read (storage b) (u32 (ft_addr b + off)) read_len;
        match page with
        | None => ub     (* the crc of an uninitialised buffer *)
        | Some page => verify_loop fuel' (u32 (off + read_len)) (crc32 page crc)
        end
      else mret crc
  end.
Definition verify_fuel (len : Z) : nat := S (Z.to_nat ((len + 255) / 256)).

Definition ota_ftc_proc_verify_req (c : nat) (handle : Z) (p_value : list Z) : OM unit :=
  w ← get;
  status ←
    (if negb (ft_in_progress (cb w) =? OTA_FTC_OP_NONE) then mret OTA_FTC_ST_IN_PROGRESS
     else
       upd_cb (fun b => b <| ft_handle := handle |>);;
       '(addr, p) ← lift (BSTREAM_TO_UINT32 p_value);
       upd_cb (fun b => b <| ft_addr := addr |>);;
       '(len, p) ← lift (BSTREAM_TO_UINT32 p);
       upd_cb (fun b => b <| ft_len := len |>);;
       '(fcrc, p) ← lift (BSTREAM_TO_UINT32 p);
       upd_cb (fun b => b <| ft_crc := fcrc |>);;
       crc ← verify_loop (verify_fuel len) 0 0;
       mret (if crc =? fcrc then OTA_FTC_ST_SUCCESS else OTA_FTC_ST_VERIFICATION));
  ota_ftc_send_rsp (Some c) OTA_FTC_OP_VERIFY_RSP handle status 0.

Definition ota_ftc_proc_erase_req (c : nat) (handle : Z) (p_value : list Z) : OM unit :=
  w ← get;
  status ←
    (if negb (ft_in_progress (cb w) =? OTA_FTC_OP_NONE) then mret OTA_FTC_ST_IN_PROGRESS
     else
       upd_cb (fun b => b <| ft_handle := handle |>);;
       '(addr, p) ← lift (BSTREAM_TO_UINT32 p_value);
       upd_cb (fun b => b <| ft_addr := addr |>);;
       '(len, p) ← lift (BSTREAM_TO_UINT32 p);
       upd_cb (fun b => b <| ft_len := len |>);;
       w ← get;
       ota_storage_erase (storage (cb w)) (ft_addr (cb w)) (s32 (ft_len (cb w)));;
       mret OTA_FTC_ST_SUCCESS);
  ota_ftc_send_rsp (Some c) OTA_FTC_OP_ERASE_RSP handle status 0.

Definition ota_ftc_proc_abort : OM unit :=
  w ← get;
  when (negb (ft_in_progress (cb w) =? OTA_FTC_OP_NONE))
    (upd_cb (fun b => b <| ft_in_progress := OTA_FTC_OP_NONE |> <| ft_len := 0 |> <| ft_addr := 0 |>)).

Definition ota_ftc_proc_get_version_req (c : nat) (handle : Z) : OM unit :=
  ota_ftc_send_rsp (Some c) OTA_FTC_OP_GET_VERSION_RSP handle OTA_FTC_ST_SUCCESS 0.

Definition ota_ftc_proc_reset : OM unit :=
  modify (fun w => w <| ota_need_reset := 1 |>);;
  ota_send_event OTA_DC_CONN_DISCONNECT_BIT.

Definition ota_ftd_write (c : nat) (len : Z) (p_value : list Z) : OM Z :=
  w ← get;
  let b := cb w in
  if negb (ft_in_progress b =? OTA_FTC_OP_PUT_REQ) then mret BT_ATT_ERR_UNLIKELY
  else if len <=? OTA_FTD_HDR_LEN then mret BT_ATT_ERR_INVALID_ATTRIBUTE_LEN
  else
    when (len <=? ft_len b)
      (ota_storage_write (storage b) (ft_addr b) p_value len;;
       upd_cb (fun b => b <| ft_addr ::= (fun a => u32 (a + len)) |>
                          <| ft_len ::= (fun l => u32 (l - len)) |>
                          <| pending_count ::= (fun n => u32 (n + len)) |>
                          <| conn := Some c |>);;
       w ← get;
       if ft_len (cb w) =? 0 then
         upd_cb (fun b => b <| ft_in_progress := OTA_FTC_OP_NONE |>);;
         ota_send_event OTA_TX_MASK_FTC_ASYNC_BIT;;
         ota_ftc_send_rsp (Some c) OTA_FTC_OP_EOF (ft_handle (cb w)) 0 0
       else
         when (negb (truthy (Z.land (tx_ready_mask (cb w)) OTA_TX_MASK_FTC_ASYNC_BIT)))
           (tx_set OTA_TX_MASK_FTC_ASYNC_BIT;; ota_send_event OTA_TX_MASK_FTC_ASYNC_BIT));;
    mret 0.

Definition ota_ftc_write (c : nat) (len : Z) (p_value : list Z) : OM Z :=
  if len <? OTA_FTC_HDR_LEN + OTA_FTC_HANDLE_LEN then mret BT_ATT_ERR_INVALID_ATTRIBUTE_LEN
  else
    '(op, p) ← lift (BSTREAM_TO_UINT8 p_value);
    '(handle, p) ← lift (BSTREAM_TO_UINT16 p);
    (if op =? OTA_FTC_OP_GET_REQ then ota_ftc_proc_get_req c handle p
     else if op =? OTA_FTC_OP_PUT_REQ then ota_ftc_proc_put_req c handle p
     else if op =? OTA_FTC_OP_VERIFY_REQ then ota_ftc_proc_verify_req c handle p
     else if op =? OTA_FTC_OP_ERASE_REQ then ota_ftc_proc_erase_req c handle p
     else if op =? OTA_FTC_OP_ABORT then ota_ftc_proc_abort
     else if op =? OTA_FTC_OP_SYSTEM_RESET then ota_ftc_proc_reset
     else if op =? OTA_FTC_OP_GET_VERSION_REQ then ota_ftc_proc_get_version_req c handle
     else mret tt);;
    mret 0.

Definition FTD_CHUNK : Z := 20.

Definition ota_ftd_send (c : option nat) : OM unit :=
  en ← ota_ccc_enabled OTA_FTD_HDL;
  when en
    (w ← get;
     let b := cb w in
     let readLen := if FTD_CHUNK <? ft_len b then FTD_CHUNK else ft_len b in
     (if truthy readLen then
        page ← ota_storage_read (storage b) (ft_addr b) readLen;
        match page with
        | None => ub     (* an uninitialised buffer would be sent *)
        | Some page =>
            upd_cb (fun b => b <| ft_len ::= (fun l => u32 (l - readLen)) |>
                               <| ft_addr ::= (fun a => u32 (a + readLen)) |>);;
            ota_send_notify c OTA_FTD_HDL page
        end
      else mret tt);;
     w ← get;
     if (ft_len (cb w) =? 0) || (readLen =? 0) then
       upd_cb (fun b => b <| ft_in_progress := OTA_FTC_OP_NONE |>);;
       tx_clear OTA_TX_MASK_FTD_BIT;;
       ota_ftc_send_rsp c OTA_FTC_OP_EOF (ft_handle (cb w)) 0 0
     else
       upd_cb (fun b => b <| conn := c |>);;
       ota_send_event OTA_TX_MASK_FTD_BIT).

(** ** ota_dc.c *)
Definition ota_dc_conn_param_update (c : option nat) : OM unit :=
  w ← get; emit (ConnParamUpdate c (param w)).

Definition ota_dc_set_conn_param_req (c : nat) (len : Z) (p_value : list Z) : OM Z :=
  if negb (len =? OTA_DC_LEN_CONN_PARAM_REQ) then mret BT_ATT_ERR_INVALID_ATTRIBUTE_LEN
  else
    '(a, p) ← lift (BSTREAM_TO_UINT16 p_value);
    '(b, p) ← lift (BSTREAM_TO_UINT16 p);
    '(l, p) ← lift (BSTREAM_TO_UINT16 p);
    '(t, p) ← lift (BSTREAM_TO_UINT16 p);
    modify (fun w => w <| param := ConnParam a b l t |>);;
    upd_cb (fun b => b <| conn := Some c |>);;
    ota_send_event OTA_DC_CONN_PARMA_UPDATE_BIT;;
    mret 0.

Definition ota_dc_get_conn_param : OM Z := mret 0.

Definition ota_dc_write (c : nat) (len : Z) (p_value : list Z) : OM Z :=
  if len <? OTA_DC_HDR_LEN then mret BT_ATT_ERR_INVALID_ATTRIBUTE_LEN
  else
    '(op, p) ← lift (BSTREAM_TO_UINT8 p_value);
    '(id, p) ← lift (BSTREAM_TO_UINT8 p);
    let len := u16 (len - OTA_DC_HDR_LEN) in
    if op =? OTA_DC_OP_SET then
      if id =? OTA_DC_ID_CONN_UPDATE_REQ then ota_dc_set_conn_param_req c len p
      else mret BT_ATT_ERR_OUT_OF_RANGE
    else if op =? OTA_DC_OP_GET then
      if id =? OTA_DC_ID_CONN_PARAM then ota_dc_get_conn_param
      else mret BT_ATT_ERR_OUT_OF_RANGE
    else mret BT_ATT_ERR_OUT_OF_RANGE.

(** ** ota.c: the write callback, the events and the wake-up timer *)
Definition ota_event_handle (event : Z) : OM unit :=
  w ← get;
  let c := conn (cb w) in
  if event =? OTA_TX_MASK_FTD_BIT then ota_ftd_send c
  else if event =? OTA_TX_MASK_FTC_BIT then ota_ftc_send c
  else if event =? OTA_TX_MASK_FTC_ASYNC_BIT then ota_fdc_async_send c
  else if event =? OTA_DC_CONN_PARMA_UPDATE_BIT then ota_dc_conn_param_update c
  else if event =? OTA_DC_CONN_DISCONNECT_BIT then
    emit (Disconnect c BT_HCI_ERR_REMOTE_USER_TERM_CONN)
  else mret tt.

Definition ota_write_cback (c : nat) (handle len : Z) (p_value : list Z) : OM Z :=
  w ← get;
  when (negb (wakeup_flag (cb w)))
    (emit WakeLock;; emit (WakeTimerStart OTA_WAKEUP_TIMEOUT);;
     upd_cb (fun b => b <| wakeup_flag := true |>));;
  if handle =? OTA_DC_HDL then ota_dc_write c len p_value
  else if handle =? OTA_FTC_HDL then ota_ftc_write c len p_value
  else if handle =? OTA_FTD_HDL then ota_ftd_write c len p_value
  else mret BT_ATT_ERR_INVALID_HANDLE.

Definition ota_wakeup_timeout_handler : OM unit :=
  w ← get;
  when (wakeup_flag (cb w))
    (emit WakeUnlock;; upd_cb (fun b => b <| wakeup_flag := false |>)).

(** The attribute write handler; the callback's status is dropped.  [buf] holds the
    [len] bytes of the request. *)
Definition write_ota (c : nat) (attr_id offset : Z) (buf : list Z) : OM Z :=
  let len := Z.of_nat (length buf) in
  if bt_gatt_get_mtu c - 3 <? offset + len then mret (- BT_ATT_ERR_INVALID_OFFSET)
  else
    w ← get;
    (if p_write_cback w && is_need_writeCb attr_id then ota_write_cback c attr_id len buf
     else mret 0);;
    mret len.

Definition otaCb_zero : otaCb_t := OtaCb 0 0 0 0 0 0 (replicate 20 0) 0 false 0 0 None None.
Definition ota_profile_init : OM unit :=
  upd_cb (fun _ => otaCb_zero);;
  ota_register;;
  ota_init;;
  dev ← ota_storage_init;
  upd_cb (fun b => b <| storage := dev |>);;
  emit WakeTimerInit.

(** ** What can happen to the service *)
Inductive ota_act :=
| GattWrite (c : nat) (attr_id offset : Z) (buf : list Z)
| CccChanged (handle value : Z)
| MsgLoop                          (* the message loop takes one message *)
| WakeTimeout.

Definition ota_step (a : ota_act) : OM unit :=
  match a with
  | GattWrite c attr off buf => write_ota c attr off buf;; mret tt
  | CccChanged h v =>
      if h =? OTA_DC_HDL then ota_dc_ccc_cfg_changed v
      else if h =? OTA_FTC_HDL then ota_ftc_ccc_cfg_changed v
      else if h =? OTA_FTD_HDL then ota_ftd_ccc_cfg_changed v
      else ota_au_ccc_cfg_changed v
  | MsgLoop =>
      w ← get;
      let '(m, q) := mq_recv (-1) (msgq w) in
      modify (fun w => w <| msgq := q |>);;
      match m with
      | Some m => when (type m =? MSG_OTA_EVENT) (ota_event_handle (value m))
      | None => mret tt
      end
  | WakeTimeout => ota_wakeup_timeout_handler
  end.

Fixpoint ota_run (acts : list ota_act) : OM unit :=
  match acts with
  | [] => mret tt
  | a :: acts' => ota_step a;; ota_run acts'
  end.
End Ota.
