(* ===== verification/OtaPut.v ===== *)
(** * Over-the-air update: the upload (PUT) session

    While a PUT is in progress every request other than an abort, and every event of the
    message loop, is "quiet": it leaves the transfer and the flash alone.  Hence the data
    of the FTD writes, and only that, ends up in the flash, whatever is interleaved. *)
From S2P Require Import Prelude MsgManager FlashNor Ota.

(** ** Encodings *)
Definition le16 (n : Z) : list Z := [u8 n; u8 (n / 2 ^ 8)].
Definition le32 (n : Z) : list Z := [u8 n; u8 (n / 2 ^ 8); u8 (n / 2 ^ 16); u8 (n / 2 ^ 24)].

Lemma stream16_le n r : 0 <= n < 2 ^ 16 -> BSTREAM_TO_UINT16 (le16 n ++ r) = Some (n, r).
Proof.
  intros Hn. cbn [le16 app BSTREAM_TO_UINT16]. do 2 f_equal.
  rewrite Z.shiftl_mul_pow2 by lia. unfold u8, u16. rewrite Z.mod_small;
  Z.div_mod_to_equations; lia.
Qed.

Lemma stream32_le n r : 0 <= n < 2 ^ 32 -> BSTREAM_TO_UINT32 (le32 n ++ r) = Some (n, r).
Proof.
  intros Hn. cbn [le32 app BSTREAM_TO_UINT32]. do 2 f_equal.
  rewrite !Z.shiftl_mul_pow2 by lia. unfold u8, u32.
  rewrite (Z.mod_small (_ + _ + _ + _)); Z.div_mod_to_equations; lia.
Qed.

Section Put.
Context `{FL : FlashLaws F} `{MQ : MsgQueue Q}.
Context (nor_lock spi0_xip : bool) (MSG_OTA_EVENT : Z) (sys_version : list Z)
  (partition_addr : Z) (bt_gatt_get_mtu : nat -> Z) (crc32 : list Z -> Z -> Z)
  (nvram_dev : option nat).
(** The version string fits the 20-byte message buffer behind its 4-byte header. *)
Context (version_fits : Z.of_nat (length sys_version) <= 16).

#[local] Abbreviation W := (world F Q).
#[local] Abbreviation step :=
  (ota_step nor_lock spi0_xip MSG_OTA_EVENT sys_version partition_addr bt_gatt_get_mtu crc32).
#[local] Abbreviation run :=
  (ota_run nor_lock spi0_xip MSG_OTA_EVENT sys_version partition_addr bt_gatt_get_mtu crc32).
#[local] Abbreviation event := (ota_send_event MSG_OTA_EVENT).
#[local] Abbreviation send_rsp := (ota_ftc_send_rsp MSG_OTA_EVENT sys_version).

(** ** Queues without a pending FTD event *)
Definition is_ftd (m : app_msg) : Prop := type m = MSG_OTA_EVENT /\ value m = OTA_TX_MASK_FTD_BIT.
Definition no_ftd (q : Q) : Prop := Forall (fun m => ~ is_ftd m) (mq_view q).

(** ** Quiet steps *)
Record quiet (w w' : W) : Prop := {
  q_flash : flash w' = flash w;
  q_unlock : flash_unlock_flag w' = flash_unlock_flag w;
  q_cback : p_write_cback w' = p_write_cback w;
  q_addr : ft_addr (cb w') = ft_addr (cb w);
  q_len : ft_len (cb w') = ft_len (cb w);
  q_prog : ft_in_progress (cb w') = ft_in_progress (cb w);
  q_storage : storage (cb w') = storage (cb w);
  q_mq : mq_ok (msgq w) -> mq_ok (msgq w') /\ (no_ftd (msgq w) -> no_ftd (msgq w'))
}.

#[export] Instance quiet_refl : Reflexive quiet.
Proof. intros w. by constructor. Qed.
#[export] Instance quiet_trans : Transitive quiet.
Proof.
  intros w1 w2 w3 [] []. constructor; try congruence.
  intros Hok. destruct q_mq0 as [Hok2 Hf2]; [done|]. destruct q_mq1 as [Hok3 Hf3]; [done|]. auto.
Qed.

(** [m] from [w] is defined and quiet. *)
Definition runs_quiet {A} (m : M W A) (w : W) : Prop := ends m w (fun _ w' => quiet w w').

Lemma rq_bind {A B} (m : M W A) (k : A -> M W B) w :
  runs_quiet m w -> (forall a w', quiet w w' -> runs_quiet (k a) w') -> runs_quiet (m ≫= k) w.
Proof.
  intros Hm Hk. apply ends_bind. eapply ends_mono; [exact Hm|]. intros a w1 Hq.
  eapply ends_mono; [exact (Hk a w1 Hq)|]. intros b w2 Hq2. cbv beta in *. by transitivity w1.
Qed.

(** A bind whose first part only reads the state. *)
Lemma rq_get {B} (k : W -> M W B) w : runs_quiet (k w) w -> runs_quiet (get ≫= k) w.
Proof. intros Hk. apply ends_bind, ends_get. exact Hk. Qed.

Lemma rq_lift {A B} (o : option A) a (k : A -> M W B) w :
  o = Some a -> runs_quiet (k a) w -> runs_quiet (lift o ≫= k) w.
Proof. intros -> Hk. exact Hk. Qed.

Lemma rq_ret {A} (a : A) w : runs_quiet (mret a : M W A) w.
Proof. by apply ends_ret. Qed.

Lemma rq_when b (m : M W unit) w : (b = true -> runs_quiet m w) -> runs_quiet (when b m) w.
Proof. intros Hm. apply ends_when; [done|]. by intros _. Qed.

Lemma rq_emit e w : runs_quiet (emit e) w.
Proof. by apply ends_modify; constructor. Qed.

(** An update of the control block that leaves the transfer's fields alone. *)
Lemma rq_upd_cb f w :
  ft_addr (f (cb w)) = ft_addr (cb w) -> ft_len (f (cb w)) = ft_len (cb w) ->
  ft_in_progress (f (cb w)) = ft_in_progress (cb w) -> storage (f (cb w)) = storage (cb w) ->
  runs_quiet (upd_cb f) w.
Proof. intros. by apply ends_modify; constructor. Qed.

Lemma rq_event ev w : ev <> OTA_TX_MASK_FTD_BIT -> runs_quiet (event ev) w.
Proof.
  intros Hev. unfold ota_send_event. apply rq_get.
  pose proof (mq_send_ok (ota_msg MSG_OTA_EVENT ev) 100 (msgq w)) as Hok.
  pose proof (mq_send_view (ota_msg MSG_OTA_EVENT ev) 100 (msgq w)) as Hv.
  destruct (mq_send _ _ _) as [r q]. apply ends_modify. constructor; try done.
  intros Hq. split; [by apply Hok|]. unfold no_ftd. intros Hn. cbn in *. rewrite (Hv Hq).
  apply Forall_app. split; [done|]. destruct r; [|done]. apply Forall_singleton. by intros [_ ?].
Qed.

#[local] Ltac quiet_step :=
  lazymatch goal with
  | |- runs_quiet (get ≫= _) _ => apply rq_get
  | |- runs_quiet (_ ≫= _) _ => apply rq_bind; [|intros ? ? ?]
  | |- runs_quiet (mret _) _ => apply rq_ret
  | |- runs_quiet (when _ _) _ => apply rq_when; intros ?
  | |- runs_quiet (emit _) _ => apply rq_emit
  | |- runs_quiet (ota_send_notify _ _ _) _ => apply rq_emit
  | |- runs_quiet (tx_set _) _ => by apply rq_upd_cb
  | |- runs_quiet (tx_clear _) _ => by apply rq_upd_cb
  | |- runs_quiet (upd_cb _) _ => by apply rq_upd_cb
  | |- runs_quiet (ota_send_event _ _) _ => by apply rq_event
  | |- runs_quiet (ota_ccc_enabled _) _ => apply rq_get, rq_ret
  | |- runs_quiet (modify _) _ => by apply ends_modify; constructor
  | |- runs_quiet (if ?b then _ else _) _ => destruct b eqn:?
  end.
#[local] Ltac quiet_steps := repeat quiet_step.

(** The response buffer takes every message but an over-long version. *)
Lemma rq_send_rsp c op h st x w : runs_quiet (send_rsp c op h st x) w.
Proof.
  unfold ota_ftc_send_rsp. apply rq_get. quiet_step; [apply rq_ret|].
  set (msg := UINT8_TO_BSTREAM op ++ _).
  assert (Z.of_nat (length msg) <= 20) as Hl.
  { subst msg. rewrite !length_app. cbn [length UINT8_TO_BSTREAM UINT16_TO_BSTREAM].
    destruct (op =? OTA_FTC_OP_PACKET_RECEIVED); [cbn; lia|].
    destruct (op =? OTA_FTC_OP_GET_VERSION_RSP); cbn; lia. }
  apply rq_bind.
  - unfold store_msg, FTC_MSG_BUF_SIZE. destruct (Z.leb_spec (Z.of_nat (length msg)) 20); [|lia].
    by eapply ends_lift.
  - intros buf w' _. quiet_steps.
Qed.

(** Requests while an operation is in progress are refused without being parsed. *)
Lemma rq_ftc_write c len p w :
  ft_in_progress (cb w) <> OTA_FTC_OP_NONE ->
  Z.of_nat (length p) = len -> (0 < len -> head p <> Some OTA_FTC_OP_ABORT) ->
  runs_quiet (ota_ftc_write nor_lock spi0_xip MSG_OTA_EVENT sys_version partition_addr crc32 c len p) w.
Proof.
  intros Hp Hl Hab. unfold ota_ftc_write. quiet_step; [apply rq_ret|].
  unfold OTA_FTC_HDR_LEN, OTA_FTC_HANDLE_LEN in *.
  destruct p as [|op [|a [|b p]]]; cbn [length] in Hl; try lia.
  cbn [BSTREAM_TO_UINT8 BSTREAM_TO_UINT16]. eapply rq_lift; [done|].
  eapply rq_lift; [done|].
  assert (negb (ft_in_progress (cb w) =? OTA_FTC_OP_NONE) = true) as Hb
    by (by destruct (Z.eqb_spec (ft_in_progress (cb w)) OTA_FTC_OP_NONE)).
  apply rq_bind; [|intros; apply rq_ret].
  repeat (quiet_step; [first
    [ unfold ota_ftc_proc_get_req, ota_ftc_proc_put_req, ota_ftc_proc_verify_req,
        ota_ftc_proc_erase_req; apply rq_get; rewrite Hb;
      apply ends_bind, ends_ret;
      first [apply rq_bind; [apply rq_send_rsp|by intros; apply rq_when] | apply rq_send_rsp]
    | exfalso; apply Hab; [lia|]; cbn; f_equal; lia
    | solve [unfold ota_ftc_proc_reset; quiet_steps]
    | apply (rq_send_rsp (Some c)) ]|]).
  apply rq_ret.
Qed.

Lemma rq_dc_write c len p w :
  Z.of_nat (length p) = len -> len < 2 ^ 16 -> runs_quiet (ota_dc_write MSG_OTA_EVENT c len p) w.
Proof.
  intros Hl Hs. unfold ota_dc_write. quiet_step; [apply rq_ret|].
  unfold OTA_DC_HDR_LEN in *.
  destruct p as [|op [|id p]]; cbn [length] in Hl; try lia.
  cbn [BSTREAM_TO_UINT8]. eapply rq_lift; [done|].
  eapply rq_lift; [done|]. cbv beta iota zeta.
  quiet_step; [|unfold ota_dc_get_conn_param; quiet_steps].
  quiet_step; [|apply rq_ret].
  unfold ota_dc_set_conn_param_req. quiet_step; [apply rq_ret|].
  unfold OTA_DC_LEN_CONN_PARAM_REQ in *. rewrite u16_small in * by lia.
  destruct p as [|x0 [|x1 [|x2 [|x3 [|x4 [|x5 [|x6 [|x7 p]]]]]]]]; cbn [length] in *; try lia.
  cbn [BSTREAM_TO_UINT16]. do 4 (eapply rq_lift; [done|]; cbv beta iota). quiet_steps.
Qed.

Lemma rq_event_handle ev w : ev <> OTA_TX_MASK_FTD_BIT -> runs_quiet (ota_event_handle MSG_OTA_EVENT sys_version ev) w.
Proof.
  intros Hev. unfold ota_event_handle. apply rq_get. quiet_step.
  { apply Z.eqb_eq in Heqb. done. }
  unfold ota_ftc_send, ota_fdc_async_send, ota_dc_conn_param_update. quiet_steps.
Qed.

Lemma rq_msg_loop w : mq_ok (msgq w) -> no_ftd (msgq w) -> runs_quiet (step MsgLoop) w.
Proof.
  intros Hok Hn. cbn [ota_step]. apply rq_get.
  pose proof (mq_recv_ok (-1) (msgq w) Hok) as Hok'.
  pose proof (mq_recv_view (-1) (msgq w) Hok) as [Hm Hv].
  destruct (mq_recv (-1) (msgq w)) as [m q]. cbn [fst snd] in *. subst m.
  unfold no_ftd in Hn. apply rq_bind.
  - apply ends_modify. constructor; try done. intros _. split; [done|].
    intros _. unfold no_ftd. cbn. rewrite Hv. destruct (mq_view (msgq w)); [done|].
    by inversion Hn.
  - intros _ w' _. destruct (mq_view (msgq w)) as [|m ms]; cbn [head]; [apply rq_ret|].
    apply rq_when. intros Ht%Z.eqb_eq. apply rq_event_handle. intros Hv'.
    apply Forall_cons in Hn as [Hn _]. by apply Hn.
Qed.

(** What is not the data of the upload: neither an FTD write nor an abort. *)
Definition beside_put (a : ota_act) : Prop :=
  match a with
  | GattWrite c attr off buf =>
      attr <> OTA_FTD_HDL /\ Z.of_nat (length buf) < 2 ^ 16 /\
      (attr = OTA_FTC_HDL -> head buf <> Some OTA_FTC_OP_ABORT)
  | _ => True
  end.

Lemma rq_beside a w :
  ft_in_progress (cb w) <> OTA_FTC_OP_NONE -> mq_ok (msgq w) -> no_ftd (msgq w) ->
  beside_put a -> runs_quiet (step a) w.
Proof.
  intros Hp Hok Hn Ha. destruct a as [c attr off buf|h v| |].
  - destruct Ha as (Hftd & Hlen & Hab). cbn [ota_step]. apply rq_bind; [|intros; apply rq_ret].
    unfold write_ota. cbv zeta. quiet_step; [apply rq_ret|]. apply rq_get.
    apply rq_bind; [|intros; apply rq_ret]. quiet_step; [|apply rq_ret].
    unfold ota_write_cback. apply rq_get. apply rq_bind; [quiet_steps|]. intros _ w' Hq.
    quiet_step; [by apply rq_dc_write|]. quiet_step.
    + apply rq_ftc_write; [by rewrite (q_prog _ _ Hq)|done|].
      intros _. apply Hab. lia.
    + quiet_step; [lia|apply rq_ret].
  - cbn [ota_step]. unfold ota_dc_ccc_cfg_changed, ota_ftc_ccc_cfg_changed,
      ota_ftd_ccc_cfg_changed, ota_au_ccc_cfg_changed. quiet_steps.
  - by apply rq_msg_loop.
  - cbn [ota_step]. unfold ota_wakeup_timeout_handler. quiet_steps.
Qed.

(** ** The transfer *)
Section Transfer.
(** The announced region, the storage device and the flash before the transfer. *)
Context (addr total : Z) (dev : nat) (f0 : F).
Context (in_flash : 0 <= addr /\ 0 < total /\ addr + total <= fl_size)
  (addr_fits : addr + total < 2 ^ 32)
  (erased : forall i, addr <= i < addr + total -> fl_byte f0 i = 0xFF).

(** The flash holds [dn] at the start of the region and is otherwise unchanged. *)
Definition flash_holds (f : F) (dn : list Z) : Prop :=
  forall i, 0 <= i < fl_size ->
    fl_byte f i = if (addr <=? i) && (i <? addr + Z.of_nat (length dn))
                  then nth (Z.to_nat (i - addr)) dn 0 else fl_byte f0 i.

(** The device accepts writes, now or once it is unlocked. *)
Definition may_write (w : W) : Prop :=
  fl_writable (flash w) \/ (nor_lock = true /\ flash_unlock_flag w = false).

Record put_inv (prog : Z) (w : W) (dn : list Z) : Prop := {
  pi_prog : ft_in_progress (cb w) = prog;
  pi_addr : ft_addr (cb w) = addr + Z.of_nat (length dn);
  pi_len : ft_len (cb w) = total - Z.of_nat (length dn);
  pi_storage : storage (cb w) = Some dev;
  pi_flash : flash_holds (flash w) dn;
  pi_write : may_write w;
  pi_ok : mq_ok (msgq w);
  pi_noftd : no_ftd (msgq w);
  pi_cback : p_write_cback w = true
}.

Lemma put_inv_quiet prog w w' dn : put_inv prog w dn -> quiet w w' -> put_inv prog w' dn.
Proof.
  intros [Hp Ha Hl Hs Hf Hw Ho Hn Hc] [Qf Qu Qc Qa Ql Qp Qs Qm]. destruct (Qm Ho) as [Ho' Hn'].
  constructor; try congruence; [by rewrite Qf| |auto].
  unfold may_write in *. by rewrite Qf, Qu.
Qed.

Lemma flash_holds_write f f1 dn chunk :
  flash_holds f dn -> (forall i, fl_byte f1 i = fl_byte f i) -> fl_writable f1 ->
  Forall (fun x => 0 <= x < 256) chunk ->
  Z.of_nat (length dn) + Z.of_nat (length chunk) <= total ->
  let f2 := flash_write (addr + Z.of_nat (length dn)) chunk f1 in
  fl_writable f2 /\ flash_holds f2 (dn ++ chunk).
Proof.
  intros Hh Hsame Hw Hb Hlen f2.
  destruct (fl_write (addr + Z.of_nat (length dn)) chunk f1 Hw) as [Hw2 H2]; [lia|lia|done| |].
  { intros i Hi. rewrite Hsame, Hh by lia. repeat case_cmp; try lia. apply erased. lia. }
  split; [done|]. intros i Hi. subst f2. rewrite H2, Hsame, Hh by done.
  rewrite length_app. repeat case_cmp; cbn; try lia; try done.
  - rewrite app_nth1 by lia. done.
  - rewrite app_nth2 by lia. f_equal. lia.
Qed.

Lemma storage_write_spec buf w :
  may_write w ->
  ends (ota_storage_write nor_lock (Some dev) (ft_addr (cb w)) buf (Z.of_nat (length buf))) w
    (fun _ w' => exists f1 fl,
       w' = (w <| flash := flash_write (ft_addr (cb w)) (take (Z.to_nat (u32 (Z.of_nat (length buf)))) buf) f1 |>)
              <| flash_unlock_flag := fl |> /\
       fl_writable f1 /\ forall i, fl_byte f1 i = fl_byte (flash w) i).
Proof.
  intros Hw. unfold ota_storage_write. hoare. unfold unlock_flash.
  destruct nor_lock eqn:En; [hoare; destruct (flash_unlock_flag w) eqn:Ef|]; hoare.
  - exists (flash w), (flash_unlock_flag w). split; [by destruct w|].
    destruct Hw as [?|[_ ?]]; [done|congruence].
  - exists (flash_unlock 0 (2 ^ 32 - 1) (flash w)), true. split; [by destruct w|]. apply fl_unlock.
  - exists (flash w), (flash_unlock_flag w). split; [by destruct w|].
    destruct Hw as [?|[? _]]; [done|congruence].
Qed.

(** One data packet: stored behind the previous ones; the last one ends the transfer. *)
Lemma ftd_write_spec c chunk w dn :
  put_inv OTA_FTC_OP_PUT_REQ w dn -> chunk <> [] -> Forall (fun x => 0 <= x < 256) chunk ->
  Z.of_nat (length chunk) < 2 ^ 16 ->
  Z.of_nat (length (dn ++ chunk)) <= total ->
  ends (ota_ftd_write nor_lock MSG_OTA_EVENT sys_version c (Z.of_nat (length chunk)) chunk) w
    (fun _ w' => put_inv (if Z.of_nat (length (dn ++ chunk)) =? total
                          then OTA_FTC_OP_NONE else OTA_FTC_OP_PUT_REQ) w' (dn ++ chunk)).
Proof.
  intros Hi Hne Hb Hl16 Hlen. pose proof Hi as [Hp Ha Hl Hs Hf Hw Ho Hn Hc].
  assert (0 < Z.of_nat (length chunk)) as Hpos by (destruct chunk; [done|cbn; lia]).
  rewrite length_app in *. unfold ota_ftd_write. hoare1. hoare1. rewrite Hp, Hs, Hl.
  cbn [negb Z.eqb OTA_FTC_OP_PUT_REQ Pos.eqb]. unfold OTA_FTD_HDR_LEN.
  destruct (Z.leb_spec (Z.of_nat (length chunk)) 0); [lia|].
  destruct (Z.leb_spec (Z.of_nat (length chunk)) (total - Z.of_nat (length dn))); [|lia].
  unfold when. hoare1. hoare1. eapply ends_mono; [by apply storage_write_spec|].
  intros _ w1 (f1 & fl & -> & Hw1 & Hsame). rewrite u32_small, Nat2Z.id, firstn_all by lia.
  hoare1. unfold upd_cb at 1. hoare1. hoare1. hoare1.
  set (w2 := set_field _ _).
  assert (put_inv OTA_FTC_OP_PUT_REQ w2 (dn ++ chunk)) as H2.
  { destruct (flash_holds_write (flash w) f1 dn chunk) as [Hw2 Hh2]; try done; [lia|].
    subst w2. rewrite Ha. constructor; cbn; try done.
    - rewrite Ha, length_app. rewrite u32_small by lia. lia.
    - rewrite Hl, length_app. rewrite u32_small by lia. lia.
    - by left. }
  clearbody w2. clear Hi. rewrite (pi_len _ _ _ H2), length_app.
  destruct (Z.eqb_spec (total - Z.of_nat (length dn + length chunk)) 0) as [E|E].
  - destruct (Z.eqb_spec (Z.of_nat (length dn + length chunk)) total); [|lia].
    hoare1. apply ends_modify. cbv beta.
    match goal with |- ends _ ?w _ => set (w3 := w) end.
    assert (put_inv OTA_FTC_OP_NONE w3 (dn ++ chunk)) as H3 by (by destruct H2; constructor).
    apply (ends_mono _ _ (fun _ w' => quiet w3 w'));
      [|intros _ w4 H4; apply ends_ret; exact (put_inv_quiet _ _ _ _ H3 H4)].
    apply rq_bind; [by apply rq_event|intros; apply rq_send_rsp].
  - destruct (Z.eqb_spec (Z.of_nat (length dn + length chunk)) total); [lia|].
    apply (ends_mono _ _ (fun _ w' => quiet w2 w'));
      [|intros _ w4 H4; apply ends_ret; exact (put_inv_quiet _ _ _ _ H2 H4)].
    apply rq_when. intros _. quiet_steps.
Qed.

(** An action of a session: data, or something beside it. *)
Definition put_data (a : ota_act) : list Z :=
  match a with GattWrite _ attr _ buf => if attr =? OTA_FTD_HDL then buf else [] | _ => [] end.
Definition data_write (a : ota_act) : Prop :=
  exists c off buf, a = GattWrite c OTA_FTD_HDL off buf /\ buf <> [] /\
    Forall (fun x => 0 <= x < 256) buf /\ Z.of_nat (length buf) < 2 ^ 16 /\
    off + Z.of_nat (length buf) <= bt_gatt_get_mtu c - 3.

Lemma beside_no_data a : beside_put a -> put_data a = [].
Proof. destruct a; try done. intros (Hn & _). cbn. by destruct (Z.eqb_spec attr_id OTA_FTD_HDL). Qed.

(** The handler of an FTD write, below the attribute layer. *)
Lemma ftd_step_spec a w dn :
  put_inv OTA_FTC_OP_PUT_REQ w dn -> data_write a ->
  Z.of_nat (length (dn ++ put_data a)) <= total ->
  ends (step a) w
    (fun _ w' => put_inv (if Z.of_nat (length (dn ++ put_data a)) =? total
                          then OTA_FTC_OP_NONE else OTA_FTC_OP_PUT_REQ) w' (dn ++ put_data a)).
Proof.
  intros Hi (c & off & buf & -> & Hne & Hb & Hl & Hm) Hlen. cbn [ota_step put_data] in *.
  change (OTA_FTD_HDL =? OTA_FTD_HDL) with true in *. cbn iota in *.
  hoare1. unfold write_ota. cbv zeta.
  destruct (Z.ltb_spec (bt_gatt_get_mtu c - 3) (off + Z.of_nat (length buf))); [lia|].
  hoare1. hoare1. rewrite (pi_cback _ _ _ Hi). cbn [andb is_need_writeCb].
  change (is_need_writeCb OTA_FTD_HDL) with true. cbn iota. hoare1. unfold ota_write_cback.
  hoare1. hoare1. hoare1.
  apply (ends_mono _ _ (fun _ w' => quiet w w')); [apply rq_when; intros _; quiet_steps|].
  intros _ w1 Hq. change (OTA_FTD_HDL =? OTA_DC_HDL) with false.
  change (OTA_FTD_HDL =? OTA_FTC_HDL) with false. change (OTA_FTD_HDL =? OTA_FTD_HDL) with true.
  cbn iota. pose proof (put_inv_quiet _ _ _ _ Hi Hq) as Hi1.
  eapply ends_mono; [by apply (ftd_write_spec c buf w1 dn)|].
  intros r w2 H2. cbv beta in *. by repeat hoare1.
Qed.

Lemma put_run_spec acts : forall w dn,
  put_inv OTA_FTC_OP_PUT_REQ w dn ->
  Forall (fun a => beside_put a \/ data_write a) acts ->
  Z.of_nat (length (dn ++ concat (put_data <$> acts))) < total ->
  ends (run acts) w (fun _ w' => put_inv OTA_FTC_OP_PUT_REQ w' (dn ++ concat (put_data <$> acts))).
Proof.
  induction acts as [|a acts IH]; intros w dn Hi Ha Hl.
  { cbn. by rewrite app_nil_r. }
  cbn [ota_run]. rewrite fmap_cons in *. cbn [concat] in *. rewrite (assoc_L (++)) in *.
  apply Forall_cons in Ha as [Ha Has]. hoare1.
  assert (Hk : Z.of_nat (length (dn ++ put_data a)) < total) by (rewrite length_app in Hl; lia).
  apply (ends_mono _ _ (fun _ w' => put_inv OTA_FTC_OP_PUT_REQ w' (dn ++ put_data a)));
    [|intros _ w' Hi'; by apply IH].
  destruct Ha as [Ha|Ha].
  - rewrite (beside_no_data a Ha), app_nil_r.
    apply (ends_mono _ _ (fun _ w' => quiet w w')); [|intros _ w' Hq; by apply (put_inv_quiet _ w)].
    apply rq_beside; [by rewrite (pi_prog _ _ _ Hi)|apply Hi|apply Hi|done].
  - eapply ends_mono; [apply (ftd_step_spec a w dn Hi Ha); lia|].
    intros ? w' Hi'. cbv beta in *. by destruct (Z.eqb_spec (Z.of_nat (length (dn ++ put_data a))) total); [lia|].
Qed.

Lemma run_app acts1 acts2 w (P : unit -> W -> Prop) :
  ends (run acts1) w (fun _ w' => ends (run acts2) w' P) -> ends (run (acts1 ++ acts2)) w P.
Proof.
  revert w. induction acts1 as [|a acts1 IH]; intros w Hr; [exact Hr|]. cbn [app ota_run] in *.
  hoare1. unfold ends in *. munfold_in Hr. destruct (step a w) as [[[] w']|]; [|done]. by apply IH.
Qed.

(** The PUT request itself. *)
Lemma put_req_spec c handle w :
  ft_in_progress (cb w) = OTA_FTC_OP_NONE -> storage (cb w) = Some dev -> flash w = f0 ->
  may_write w -> mq_ok (msgq w) -> no_ftd (msgq w) -> p_write_cback w = true ->
  0 <= handle < 2 ^ 16 -> 14 <= bt_gatt_get_mtu c ->
  ends (step (GattWrite c OTA_FTC_HDL 0
          (OTA_FTC_OP_PUT_REQ :: le16 handle ++ le32 addr ++ le32 total))) w
    (fun _ w' => put_inv OTA_FTC_OP_PUT_REQ w' []).
Proof.
  intros Hp Hs Hf Hw Ho Hn Hc Hh Hm. cbn [ota_step]. hoare1. unfold write_ota. cbv zeta.
  match goal with |- context [length ?l] => set (buf := l); change (Z.of_nat (length buf)) with 11 end.
  destruct (Z.ltb_spec (bt_gatt_get_mtu c - 3) (0 + 11)); [lia|]. hoare1. hoare1. rewrite Hc.
  change (true && is_need_writeCb OTA_FTC_HDL) with true. cbn iota. hoare1. unfold ota_write_cback.
  hoare1. hoare1. hoare1.
  apply (ends_mono _ _ (fun _ w' => quiet w w')); [apply rq_when; intros _; quiet_steps|].
  intros _ w1 [Qf Qu Qc Qa Ql Qp Qs Qm]. destruct (Qm Ho) as [Ho1 Hn1]. specialize (Hn1 Hn).
  change (OTA_FTC_HDL =? OTA_DC_HDL) with false. change (OTA_FTC_HDL =? OTA_FTC_HDL) with true.
  cbn iota. unfold ota_ftc_write. change (11 <? OTA_FTC_HDR_LEN + OTA_FTC_HANDLE_LEN) with false.
  cbn iota. hoare1. eapply ends_lift; [subst buf; reflexivity|]. cbv beta iota.
  hoare1. eapply ends_lift; [by apply stream16_le|]. cbv beta iota.
  hoare1. change (OTA_FTC_OP_PUT_REQ =? OTA_FTC_OP_GET_REQ) with false.
  change (OTA_FTC_OP_PUT_REQ =? OTA_FTC_OP_PUT_REQ) with true. cbn iota.
  unfold ota_ftc_proc_put_req. hoare1. hoare1. hoare1. rewrite Qp, Hp.
  cbn [Z.eqb OTA_FTC_OP_NONE negb]. hoare1. unfold upd_cb at 1. hoare1.
  hoare1. eapply ends_lift; [apply stream32_le; lia|]. cbv beta iota. hoare1. unfold upd_cb at 1. hoare1.
  hoare1. eapply ends_lift; [rewrite <- (app_nil_r (le32 total)); apply stream32_le; lia|].
  cbv beta iota. hoare1. unfold upd_cb at 1. hoare1. hoare1. unfold upd_cb at 1. hoare1. hoare1.
  match goal with |- ends _ ?w _ => set (w2 := w) end.
  assert (put_inv OTA_FTC_OP_PUT_REQ w2 []) as H2.
  { subst w2. constructor; cbn; try done; try congruence.
    - lia.
    - lia.
    - unfold flash_holds. intros i Hi. cbn [length]. repeat case_cmp; cbn; try lia; by rewrite Qf, Hf.
    - unfold may_write in *. cbn. by rewrite Qf, Qu. }
  apply (ends_mono _ _ (fun _ w' => quiet w2 w')); [apply rq_send_rsp|].
  intros _ w3 Hq. cbv beta in *. repeat hoare1. by apply (put_inv_quiet _ w2).
Qed.
End Transfer.

(** C1.  An upload stores exactly the announced data, whatever else happens meanwhile.
    Starting from an idle service with an erased region, a PUT request for [total] bytes
    at [addr] followed by data packets whose bytes add up to [data] (the last action being
    the packet that completes them), interleaved in any order with message-loop
    iterations, notification-configuration writes, wake-up timeouts, device-configuration
    writes and other control requests (all but an abort): no handler reads or writes out
    of bounds, afterwards the region holds [data], every other byte of the flash is
    unchanged, and the service is idle again. *)
Theorem put_session addr total dev handle c0 w acts last :
  0 <= addr -> 0 < total -> addr + total <= fl_size -> addr + total < 2 ^ 32 ->
  (forall i, addr <= i < addr + total -> fl_byte (flash w) i = 0xFF) ->
  ft_in_progress (cb w) = OTA_FTC_OP_NONE -> storage (cb w) = Some dev ->
  may_write w -> mq_ok (msgq w) -> no_ftd (msgq w) -> p_write_cback w = true ->
  0 <= handle < 2 ^ 16 -> 14 <= bt_gatt_get_mtu c0 ->
  Forall (fun a => beside_put a \/ data_write a) acts -> data_write last ->
  Z.of_nat (length (concat (put_data <$> acts ++ [last]))) = total ->
  ends (run (GattWrite c0 OTA_FTC_HDL 0 (OTA_FTC_OP_PUT_REQ :: le16 handle ++ le32 addr ++ le32 total)
             :: acts ++ [last])) w
    (fun _ w' =>
       ft_in_progress (cb w') = OTA_FTC_OP_NONE /\ ft_len (cb w') = 0 /\
       forall i, 0 <= i < fl_size ->
         fl_byte (flash w') i
         = if (addr <=? i) && (i <? addr + total)
           then nth (Z.to_nat (i - addr)) (concat (put_data <$> acts ++ [last])) 0
           else fl_byte (flash w) i).
Proof.
  intros Ha0 Ht Hfs H32 Her Hp Hs Hw Ho Hn Hc Hh Hm Has Hlast Hlen. cbn [ota_run]. hoare1.
  eapply ends_mono; [by apply (put_req_spec addr total dev (flash w) (conj Ha0 (conj Ht Hfs)) H32 c0 handle w)|].
  intros ? w1 H1. cbv beta in *. apply run_app.
  rewrite fmap_app, concat_app in Hlen |- *. cbn [fmap list_fmap concat] in *. rewrite app_nil_r in *.
  assert (put_data last <> []) as Hne.
  { destruct Hlast as (c & off & buf & -> & Hne & _). exact Hne. }
  assert (0 < Z.of_nat (length (put_data last))) by (destruct (put_data last); [done|cbn; lia]).
  eapply ends_mono; [apply (put_run_spec addr total dev (flash w) (conj Ha0 (conj Ht Hfs)) H32 Her acts w1 [] H1 Has)|].
  { rewrite length_app in Hlen. cbn [app]. lia. }
  intros ? w2 H2. cbv beta in *. cbn [app ota_run] in *. hoare1.
  eapply ends_mono; [apply (ftd_step_spec addr total dev (flash w) (conj Ha0 (conj Ht Hfs)) H32 Her last w2 _ H2 Hlast); lia|].
  intros ? w3 H3. cbv beta in *. rewrite Hlen in H3. rewrite Z.eqb_refl in H3. hoare.
  destruct H3 as [Hp3 _ Hl3 _ Hf3 _ _ _ _]. split_and!; [done|lia|].
  intros i Hi. rewrite (Hf3 i Hi). by rewrite Hlen.
Qed.
End Put.

Import Pools.
(** ** A concrete session: a locked NOR chip and the message manager's pools *)
Definition W0 : world nor_chip Pools.pools :=
  World (otaCb_zero <| storage := Some 0%nat |>) (ConnParam 0 0 0 0) 0 1 1 0 true 0 false
    (acts_xspi_nor_init_new true JEDEC_ID_ATB1103_MGD 0 chip0).2 Pools.pools_init [].
Definition mtu0 : nat -> Z := fun _ => 23.
Definition acts0 : list ota_act :=
  [MsgLoop; GattWrite 1 OTA_FTD_HDL 0 [10; 11]; GattWrite 1 OTA_FTC_HDL 0 [OTA_FTC_OP_ERASE_REQ; 0; 0];
   MsgLoop; CccChanged OTA_FTC_HDL 0; WakeTimeout].
Definition last0 : ota_act := GattWrite 1 OTA_FTD_HDL 0 [12].

Lemma acts0_ok : Forall (fun a => beside_put a \/ data_write mtu0 a) acts0.
Proof.
  apply Forall_cons; split; [by left|]. apply Forall_cons; split.
  { right. exists 1%nat, 0, [10; 11]. unfold mtu0. split_and!; try done; repeat constructor; lia. }
  apply Forall_cons; split; [left; split_and!; [done|cbn; lia|done]|].
  repeat (apply Forall_cons; split; [by left|]). apply Forall_nil_2.
Qed.
Lemma last0_ok : data_write mtu0 last0.
Proof. exists 1%nat, 0, [12]. unfold mtu0. split_and!; try done; repeat constructor; lia. Qed.

Lemma put_session_witness :
  exists w', ota_run true false 9 [49] 0 mtu0 (fun _ c => c)
    (GattWrite 1 OTA_FTC_HDL 0 (OTA_FTC_OP_PUT_REQ :: le16 7 ++ le32 4096 ++ le32 3)
     :: acts0 ++ [last0]) W0 = Some (tt, w') /\
    (fl_byte (flash w') <$> [4095; 4096; 4097; 4098; 4099]) = [255; 10; 11; 12; 255].
Proof.
  pose proof (put_session true false 9 [49] 0 mtu0 (fun _ c => c) ltac:(cbn; lia)
    4096 3 0%nat 7 1%nat W0 acts0 last0 ltac:(lia) ltac:(lia) ltac:(by vm_compute) ltac:(lia)
    (fun i _ => eq_refl) eq_refl eq_refl (or_intror (conj eq_refl eq_refl)) pools_init_ok
    (Forall_nil_2 _) eq_refl ltac:(lia) ltac:(unfold mtu0; lia) acts0_ok last0_ok eq_refl) as H.
  apply ends_inv in H as ([] & w' & Hr & _ & _ & Hb). exists w'. split; [exact Hr|].
  cbn [fmap list_fmap].
  rewrite !Hb by (cbn [fl_size nor_laws]; unfold NOR_SIZE; lia). reflexivity.
Defined.
