(* ===== verification/OtaGet.v ===== *)
(** * Over-the-air update: verification and download, and what goes wrong

    The page loop of a verification, the download of a region, and four defects of the
    service: a data event left over from an aborted download corrupts the following
    upload, short control requests are parsed past their end, a version string longer
    than 16 bytes overruns the response buffer, and a response whose wake-up message was
    dropped blocks all later responses. *)
From S2P Require Import Prelude MsgManager FlashNor Ota OtaPut.
Import Pools.

(** ** Arithmetic of page and packet loops *)
Lemma seqZ_split a n k : 0 <= k <= n -> seqZ a n = seqZ a k ++ seqZ (a + k) (n - k).
Proof. intros. replace n with (k + (n - k)) at 1 by lia. apply seqZ_app; lia. Qed.

Section Get.
Context `{FL : FlashLaws F} `{MQ : MsgQueue Q}.
Context (nor_lock spi0_xip : bool) (MSG_OTA_EVENT : Z) (sys_version : list Z)
  (partition_addr : Z) (crc32 : list Z -> Z -> Z).
#[local] Abbreviation W := (world F Q).

(** The bytes of a region. *)
Definition region (f : F) (a n : Z) : list Z := fl_byte f <$> seqZ a n.

Lemma region_split f a n k : 0 <= k <= n -> region f a n = region f a k ++ region f (a + k) (n - k).
Proof. intros. unfold region. by rewrite (seqZ_split a n k), fmap_app. Qed.

Lemma storage_read_spec d a n w (P : option (list Z) -> W -> Prop) :
  0 <= a -> 0 <= n < 2 ^ 32 -> a + n <= fl_size -> P (Some (region (flash w) a n)) w ->
  ends (ota_storage_read (Some d) a n) w P.
Proof.
  intros Ha Hn Hs HP. unfold ota_storage_read. hoare. rewrite u32_small by lia.
  by rewrite fl_read by lia.
Qed.

(** ** Verification *)
(** The chunked CRC of the boot ROM: feeding a buffer in two parts. *)
Definition crc_chunked : Prop :=
  (forall i, crc32 [] i = i) /\ forall x y i, crc32 (x ++ y) i = crc32 y (crc32 x i).

Lemma verify_loop_spec (Hcrc : crc_chunked) d (w : W) fuel : forall off crc,
  storage (cb w) = Some d -> 0 <= ft_addr (cb w) -> 0 <= off <= ft_len (cb w) ->
  ft_len (cb w) < 2 ^ 32 -> ft_addr (cb w) + ft_len (cb w) <= fl_size ->
  (ft_len (cb w) - off + 255) / 256 < Z.of_nat fuel ->
  ends (verify_loop crc32 fuel off crc) w
    (fun r w' => w' = w /\
       r = crc32 (region (flash w) (ft_addr (cb w) + off) (ft_len (cb w) - off)) crc).
Proof.
  pose proof (@fl_size_range F _ _) as Hfs. destruct Hcrc as [Hnil Happ].
  induction fuel as [|fuel IH]; intros off crc Hs Ha Ho Hl Hf Hfuel;
    [Z.div_mod_to_equations; lia|].
  cbn [verify_loop]. hoare1. hoare1. rewrite Hs.
  destruct (Z.ltb_spec off (ft_len (cb w))).
  2: { hoare. split; [done|]. replace (ft_len (cb w) - off) with 0 by lia. unfold region. cbn.
       by rewrite Hnil. }
  rewrite (u32_small (ft_len (cb w) - off)), (u32_small (ft_addr (cb w) + off)) by lia. hoare1.
  set (n := if 256 <? _ then _ else _).
  assert (0 < n /\ n <= ft_len (cb w) - off /\ n <= 256 /\ (n = 256 \/ n = ft_len (cb w) - off)) as Hn
    by (subst n; case_cmp; lia).
  clearbody n. apply storage_read_spec; [lia|lia|lia|]. rewrite u32_small by lia.
  eapply ends_mono; [apply IH; try done; try lia|].
  { Z.div_mod_to_equations; lia. }
  intros r w' [-> ->]. split; [done|]. rewrite <- Happ. f_equal.
  rewrite (region_split _ _ (ft_len (cb w) - off) n) by lia. f_equal; f_equal; lia.
Qed.

(** The response left in the message buffer. *)
Definition response (w : W) : list Z := take (Z.to_nat (ftc_msg_len (cb w))) (ftc_msg_buf (cb w)).

Lemma send_rsp_spec c op h st x (w : W) :
  op <> OTA_FTC_OP_GET_VERSION_RSP -> op <> OTA_FTC_OP_PACKET_RECEIVED ->
  Z.land (tx_ready_mask (cb w)) OTA_TX_MASK_FTC_BIT = 0 ->
  ends (ota_ftc_send_rsp MSG_OTA_EVENT sys_version c op h st x) w
    (fun _ w' => response w' = [u8 op; u8 h; u8 (Z.shiftr h 8); u8 st] /\
       flash w' = flash w /\ ft_in_progress (cb w') = ft_in_progress (cb w) /\
       ft_len (cb w') = ft_len (cb w) /\ ft_addr (cb w') = ft_addr (cb w) /\ out w' = out w).
Proof.
  intros H1 H2 Hm. unfold ota_ftc_send_rsp. hoare1. hoare1. rewrite Hm. cbn [truthy Z.eqb negb].
  destruct (Z.eqb_spec op OTA_FTC_OP_PACKET_RECEIVED); [done|].
  destruct (Z.eqb_spec op OTA_FTC_OP_GET_VERSION_RSP); [done|].
  hoare1. eapply ends_lift; [done|]. unfold tx_set, upd_cb, ota_send_event. hoare.
  destruct (mq_send _ _ _) as [r q]. hoare. by cbn.
Qed.

(** A response, sent or dropped, does not touch the transfer. *)
Lemma send_rsp_frame c op h st x (w : W) :
  op <> OTA_FTC_OP_GET_VERSION_RSP -> op <> OTA_FTC_OP_PACKET_RECEIVED ->
  ends (ota_ftc_send_rsp MSG_OTA_EVENT sys_version c op h st x) w
    (fun _ w' => flash w' = flash w /\ ft_in_progress (cb w') = ft_in_progress (cb w) /\
       ft_len (cb w') = ft_len (cb w) /\ ft_addr (cb w') = ft_addr (cb w) /\ out w' = out w /\
       storage (cb w') = storage (cb w) /\ ota_ftd w' = ota_ftd w).
Proof.
  intros H1 H2. unfold ota_ftc_send_rsp. hoare1. hoare1. destruct (truthy _); [by hoare|].
  destruct (Z.eqb_spec op OTA_FTC_OP_PACKET_RECEIVED); [done|].
  destruct (Z.eqb_spec op OTA_FTC_OP_GET_VERSION_RSP); [done|].
  hoare1. eapply ends_lift; [done|]. unfold tx_set, upd_cb, ota_send_event. hoare.
  destruct (mq_send _ _ _) as [r q]. by hoare.
Qed.

(** C2.  Verification: for any announced region of the flash the page loop ends, reads
    every byte of the region exactly once and in order, and the response reports success
    exactly when the CRC of the whole region equals the announced one; the flash is not
    modified. *)
Theorem verify_correct c handle addr len crc d (w : W) :
  crc_chunked -> storage (cb w) = Some d -> ft_in_progress (cb w) = OTA_FTC_OP_NONE ->
  Z.land (tx_ready_mask (cb w)) OTA_TX_MASK_FTC_BIT = 0 ->
  0 <= addr -> 0 <= len -> addr + len <= fl_size -> addr < 2 ^ 32 -> len < 2 ^ 32 -> 0 <= crc < 2 ^ 32 ->
  ends (ota_ftc_proc_verify_req MSG_OTA_EVENT sys_version crc32 c handle
          (le32 addr ++ le32 len ++ le32 crc)) w
    (fun _ w' =>
       response w' = [OTA_FTC_OP_VERIFY_RSP; u8 handle; u8 (Z.shiftr handle 8);
                      if crc32 (region (flash w) addr len) 0 =? crc
                      then OTA_FTC_ST_SUCCESS else OTA_FTC_ST_VERIFICATION] /\
       flash w' = flash w /\ ft_in_progress (cb w') = OTA_FTC_OP_NONE).
Proof.
  intros Hcrc Hs Hp Hm Ha Hl Hf Ha32 Hl32 Hc32. unfold ota_ftc_proc_verify_req.
  hoare1. hoare1. hoare1. rewrite Hp. cbn [Z.eqb OTA_FTC_OP_NONE negb]. hoare1. unfold upd_cb at 1. hoare1.
  hoare1. eapply ends_lift; [by apply stream32_le|]. cbv beta iota. hoare1. unfold upd_cb at 1. hoare1.
  hoare1. eapply ends_lift; [by apply stream32_le|]. cbv beta iota. hoare1. unfold upd_cb at 1. hoare1.
  hoare1. eapply ends_lift; [rewrite <- (app_nil_r (le32 crc)); by apply stream32_le|].
  cbv beta iota. hoare1. unfold upd_cb at 1. hoare1. hoare1.
  match goal with |- ends _ ?w _ => set (w1 := w) end.
  eapply ends_mono; [apply (verify_loop_spec Hcrc d w1 _ 0 0); subst w1; cbn; try done; try lia|].
  { unfold verify_fuel. rewrite Nat2Z.inj_succ. rewrite Z2Nat.id by (Z.div_mod_to_equations; lia).
    rewrite Z.sub_0_r. lia. }
  intros r w2 [-> ->]. hoare.
  replace (crc32 (region (flash w1) (ft_addr (cb w1) + 0) (ft_len (cb w1) - 0)) 0)
    with (crc32 (region (flash w) addr len) 0) by (subst w1; cbn [cb ft_addr ft_len flash set_field]; do 2 f_equal; cbn; lia).
  eapply ends_mono; [by apply send_rsp_spec|]. intros [] w3 (Hr & Hfl & Hp3 & _).
  rewrite Hr, Hfl, Hp3. subst w1. split_and!; [|done|exact Hp].
  by destruct (_ =? crc).
Qed.

(** ** Download *)
(** [k] data events in a row. *)
Fixpoint ftd_events (k : nat) (c : option nat) : M W unit :=
  match k with
  | O => mret tt
  | S k' => ota_ftd_send MSG_OTA_EVENT sys_version c;; ftd_events k' c
  end.

(** The data of the notifications on the FTD characteristic. *)
Definition ftd_payload (e : ota_eff) : option (list Z) :=
  match e with Notify _ h p => if h =? OTA_FTD_HDL then Some p else None | _ => None end.

Lemma ftd_send_spec c d (w : W) :
  storage (cb w) = Some d -> truthy (ota_ftd w) = true -> 0 <= ft_addr (cb w) -> 0 < ft_len (cb w) ->
  ft_addr (cb w) + ft_len (cb w) <= fl_size -> ft_addr (cb w) + ft_len (cb w) < 2 ^ 32 ->
  let n := Z.min FTD_CHUNK (ft_len (cb w)) in
  ends (ota_ftd_send MSG_OTA_EVENT sys_version c) w
    (fun _ w' => out w' = out w ++ [Notify c OTA_FTD_HDL (region (flash w) (ft_addr (cb w)) n)] /\
       flash w' = flash w /\ storage (cb w') = Some d /\ ota_ftd w' = ota_ftd w /\
       ft_addr (cb w') = ft_addr (cb w) + n /\ ft_len (cb w') = ft_len (cb w) - n /\
       ft_in_progress (cb w') = if ft_len (cb w) - n =? 0 then OTA_FTC_OP_NONE else ft_in_progress (cb w)).
Proof.
  intros Hs He Ha Hl Hf H32 n. unfold ota_ftd_send, ota_ccc_enabled. repeat hoare1.
  change (OTA_FTD_HDL =? OTA_DC_HDL) with false. change (OTA_FTD_HDL =? OTA_FTC_HDL) with false.
  change (OTA_FTD_HDL =? OTA_FTD_HDL) with true. cbn iota. rewrite He. unfold when at 1.
  hoare1. hoare1. rewrite Hs.
  replace (if FTD_CHUNK <? ft_len (cb w) then FTD_CHUNK else ft_len (cb w)) with n
    by (subst n; unfold FTD_CHUNK; case_cmp; lia).
  assert (0 < n /\ n <= 20 /\ n <= ft_len (cb w)) as Hn by (subst n; unfold FTD_CHUNK; lia).
  clearbody n. unfold truthy. destruct (Z.eqb_spec n 0); [lia|]. cbn [negb]. hoare1. hoare1.
  apply storage_read_spec; [lia|lia|lia|]. unfold upd_cb at 1, ota_send_notify, emit. repeat hoare1.
  match goal with |- ends (if (ft_len (cb ?w) =? 0) || _ then _ else _) _ _ => set (w1 := w) end.
  assert (ft_len (cb w1) = ft_len (cb w) - n) as Hl1 by (subst w1; cbn; rewrite u32_small by lia; lia).
  assert (ft_addr (cb w1) = ft_addr (cb w) + n) as Ha1 by (subst w1; cbn; rewrite u32_small by lia; lia).
  rewrite Hl1. rewrite orb_false_r.
  destruct (Z.eqb_spec (ft_len (cb w) - n) 0) as [E|E].
  - unfold tx_clear, upd_cb. repeat hoare1. eapply ends_mono; [by apply send_rsp_frame|].
    intros [] w2 (-> & -> & -> & -> & -> & -> & ->). cbn. split_and!; try done; lia.
  - unfold upd_cb, ota_send_event. repeat hoare1. destruct (mq_send _ _ _) as [r q]. repeat hoare1.
    cbn. split_and!; try done; lia.
Qed.

(** C16.  Download: with notifications on the data characteristic enabled, the data events
    of a GET of [n] bytes send the region exactly once and in order, in packets of at most
    20 bytes, and the [ceil (n / 20)]-th event ends the operation; nothing is written to
    the flash. *)
Theorem get_sends_region c d k : forall (w : W),
  storage (cb w) = Some d -> truthy (ota_ftd w) = true -> 0 <= ft_addr (cb w) -> 0 < ft_len (cb w) ->
  ft_addr (cb w) + ft_len (cb w) <= fl_size -> ft_addr (cb w) + ft_len (cb w) < 2 ^ 32 ->
  Z.of_nat k = (ft_len (cb w) + 19) / 20 ->
  ends (ftd_events k c) w
    (fun _ w' => exists packets, out w' = out w ++ (Notify c OTA_FTD_HDL <$> packets) /\
       concat packets = region (flash w) (ft_addr (cb w)) (ft_len (cb w)) /\
       Forall (fun p => 0 < Z.of_nat (length p) <= FTD_CHUNK) packets /\
       flash w' = flash w /\ ft_in_progress (cb w') = OTA_FTC_OP_NONE /\ ft_len (cb w') = 0).
Proof.
  induction k as [|k IH]; intros w Hs He Ha Hl Hf H32 Hk; [Z.div_mod_to_equations; lia|].
  cbn [ftd_events]. hoare1. eapply ends_mono; [by apply ftd_send_spec|].
  set (n := Z.min FTD_CHUNK (ft_len (cb w))).
  assert (0 < n <= 20 /\ n <= ft_len (cb w) /\ (n = 20 \/ n = ft_len (cb w))) as Hn
    by (subst n; unfold FTD_CHUNK; lia).
  clearbody n. intros [] w1 (Ho1 & Hf1 & Hs1 & He1 & Ha1 & Hl1 & Hp1). cbv beta.
  assert (0 < Z.of_nat (length (region (flash w) (ft_addr (cb w)) n)) <= FTD_CHUNK) as Hlen.
  { unfold region, FTD_CHUNK. rewrite length_fmap, length_seqZ. lia. }
  destruct (Z.eqb_spec (ft_len (cb w) - n) 0) as [E|E].
  - assert (k = 0%nat) as -> by (Z.div_mod_to_equations; lia). cbn [ftd_events]. hoare.
    exists [region (flash w) (ft_addr (cb w)) n]. split_and!; try done.
    + cbn. rewrite app_nil_r. f_equal. lia.
    + by apply Forall_singleton.
    + lia.
  - eapply ends_mono; [apply IH; try done; rewrite ?Ha1, ?Hl1, ?He1; try done; try lia|].
    { Z.div_mod_to_equations; lia. }
    intros [] w2 (ps & Ho2 & Hc2 & Hps & Hf2 & Hp2 & Hl2).
    exists (region (flash w) (ft_addr (cb w)) n :: ps). split_and!; try done.
    + rewrite Ho2, Ho1. by rewrite <- (assoc_L (++)).
    + cbn [concat]. rewrite Hc2, Hf1, Ha1, Hl1.
      symmetry. apply region_split. lia.
    + by constructor.
    + by rewrite Hf2.
Qed.

(** ** Defects *)

(** Defect: a data event does not check that a download is in progress.  A pending
    event of an aborted GET that is handled after a PUT request was accepted moves the
    write position of the upload by up to 20 bytes and shortens it by as much: the next
    data packet is stored at the wrong address. *)
Theorem stale_data_event_moves_upload c' d (w : W) chunk :
  storage (cb w) = Some d -> truthy (ota_ftd w) = true -> 0 <= ft_addr (cb w) ->
  FTD_CHUNK < ft_len (cb w) -> ft_in_progress (cb w) = OTA_FTC_OP_PUT_REQ ->
  ft_addr (cb w) + ft_len (cb w) <= fl_size -> ft_addr (cb w) + ft_len (cb w) < 2 ^ 32 ->
  0 < Z.of_nat (length chunk) < 2 ^ 16 -> Z.of_nat (length chunk) + FTD_CHUNK < ft_len (cb w) ->
  ends (ota_event_handle MSG_OTA_EVENT sys_version OTA_TX_MASK_FTD_BIT;;
        ota_ftd_write false MSG_OTA_EVENT sys_version c' (Z.of_nat (length chunk)) chunk) w
    (fun r w' => r = 0 /\ flash w' = flash_write (ft_addr (cb w) + FTD_CHUNK) chunk (flash w) /\
       ft_in_progress (cb w') = OTA_FTC_OP_PUT_REQ /\
       ft_len (cb w') = ft_len (cb w) - FTD_CHUNK - Z.of_nat (length chunk) /\
       exists p, out w' = out w ++ [Notify (conn (cb w)) OTA_FTD_HDL p]).
Proof.
  intros Hs He Ha Hl Hp Hf H32 Hc Hcl. unfold FTD_CHUNK in *. hoare1. unfold ota_event_handle.
  hoare1. hoare1. change (OTA_TX_MASK_FTD_BIT =? OTA_TX_MASK_FTD_BIT) with true. cbn iota.
  eapply ends_mono; [apply (ftd_send_spec _ d); try done; lia|].
  replace (Z.min FTD_CHUNK (ft_len (cb w))) with 20 by (unfold FTD_CHUNK; lia).
  intros [] w1 (Ho1 & Hf1 & Hs1 & He1 & Ha1 & Hl1 & Hp1). cbv beta.
  destruct (Z.eqb_spec (ft_len (cb w) - 20) 0); [lia|]. rewrite Hp in Hp1.
  unfold ota_ftd_write. hoare1. hoare1. rewrite Hp1, Hs1, Hl1, Ha1.
  change (negb (OTA_FTC_OP_PUT_REQ =? OTA_FTC_OP_PUT_REQ)) with false. cbn iota. unfold OTA_FTD_HDR_LEN.
  destruct (Z.leb_spec (Z.of_nat (length chunk)) 0); [lia|].
  destruct (Z.leb_spec (Z.of_nat (length chunk)) (ft_len (cb w) - 20)); [|lia].
  unfold when at 1. hoare1. hoare1. unfold ota_storage_write, unlock_flash, upd_cb. repeat hoare1.
  rewrite u32_small, Nat2Z.id, firstn_all by lia.
  match goal with |- ends (if ft_len (cb ?w) =? 0 then _ else _) _ _ => set (w2 := w) end.
  assert (ft_len (cb w2) = ft_len (cb w) - 20 - Z.of_nat (length chunk)) as Hl2.
  { subst w2. cbn. rewrite Hl1, u32_small by lia. lia. }
  rewrite Hl2. destruct (Z.eqb_spec (ft_len (cb w) - 20 - Z.of_nat (length chunk)) 0); [lia|].
  assert (Hgoal : flash w2 = flash_write (ft_addr (cb w) + 20) chunk (flash w) /\
    ft_in_progress (cb w2) = OTA_FTC_OP_PUT_REQ /\ out w2 = out w1).
  { subst w2. cbn. by rewrite Hf1, Hp1. }
  clearbody w2. destruct Hgoal as (Hg1 & Hg2 & Hg3).
  unfold tx_set, upd_cb, ota_send_event, when. destruct (negb _); repeat hoare1.
  - destruct (mq_send _ _ _) as [r q]. repeat hoare1. cbn. split_and!; try done.
    eexists. by rewrite Hg3, Ho1.
  - split_and!; try done. eexists. by rewrite Hg3, Ho1.
Qed.

(** Defect: control requests are not checked for length.  On an idle service, a GET,
    PUT, VERIFY or ERASE request whose payload is shorter than its operands reads past the
    end of the received buffer. *)
Theorem short_request_overreads c op h0 h1 payload (w : W) :
  ft_in_progress (cb w) = OTA_FTC_OP_NONE ->
  (op = OTA_FTC_OP_GET_REQ \/ op = OTA_FTC_OP_PUT_REQ \/ op = OTA_FTC_OP_ERASE_REQ) /\
    (length payload < 8)%nat
  \/ op = OTA_FTC_OP_VERIFY_REQ /\ (length payload < 12)%nat ->
  ota_ftc_write nor_lock spi0_xip MSG_OTA_EVENT sys_version partition_addr crc32 c
    (Z.of_nat (length (op :: h0 :: h1 :: payload))) (op :: h0 :: h1 :: payload) w = None.
Proof.
  intros Hp Hop. unfold ota_ftc_write.
  destruct (Z.ltb_spec (Z.of_nat (length (op :: h0 :: h1 :: payload)))
              (OTA_FTC_HDR_LEN + OTA_FTC_HANDLE_LEN)) as [Hlt|_].
  { cbn [length] in Hlt. unfold OTA_FTC_HDR_LEN, OTA_FTC_HANDLE_LEN in Hlt. lia. }
  destruct Hop as [[Hop Hlen]|[-> Hlen]]; [destruct Hop as [-> |[-> | ->]]|];
    unfold ota_ftc_proc_get_req, ota_ftc_proc_put_req, ota_ftc_proc_erase_req, ota_ftc_proc_verify_req,
      upd_cb; munfold;
    cbn [BSTREAM_TO_UINT8 BSTREAM_TO_UINT16 Z.eqb Pos.eqb OTA_FTC_OP_GET_REQ OTA_FTC_OP_PUT_REQ
         OTA_FTC_OP_ERASE_REQ OTA_FTC_OP_VERIFY_REQ]; rewrite Hp;
    destruct payload as [|x0 [|x1 [|x2 [|x3 [|x4 [|x5 [|x6 [|x7
      [|x8 [|x9 [|x10 [|x11 payload]]]]]]]]]]]];
    try reflexivity; cbn [length] in Hlen; lia.
Qed.

(** Defect: [ota_ftc_send_rsp] copies the whole version string into the 20-byte
    message buffer, so a version of more than 16 bytes overruns it. *)
Theorem long_version_overruns c handle (w : W) :
  Z.land (tx_ready_mask (cb w)) OTA_TX_MASK_FTC_BIT = 0 ->
  16 < Z.of_nat (length sys_version) ->
  ota_ftc_proc_get_version_req MSG_OTA_EVENT sys_version c handle w = None.
Proof.
  intros Hm Hv. unfold ota_ftc_proc_get_version_req, ota_ftc_send_rsp. munfold. rewrite Hm.
  cbn [truthy Z.eqb negb]. unfold store_msg.
  set (msg := _ ++ _). assert (20 < Z.of_nat (length msg)).
  { subst msg. rewrite !length_app. cbn [length UINT8_TO_BSTREAM UINT16_TO_BSTREAM].
    change (OTA_FTC_OP_GET_VERSION_RSP =? OTA_FTC_OP_PACKET_RECEIVED) with false.
    rewrite Z.eqb_refl. lia. }
  unfold FTC_MSG_BUF_SIZE. by destruct (Z.leb_spec (Z.of_nat (length msg)) 20); [lia|].
Qed.
End Get.

(** ** Concrete instances *)
Definition crc_sum (l : list Z) (i : Z) : Z := foldl (fun a x => u32 (a * 31 + x)) i l.
Lemma crc_sum_chunked : crc_chunked crc_sum.
Proof. split; [done|]. intros x y i. unfold crc_sum. apply foldl_app. Qed.

Lemma in_nor n : n <= 0x80000 -> n <= fl_size (F := nor_chip).
Proof. done. Qed.

Lemma verify_correct_witness :
  exists w', ota_ftc_proc_verify_req 9 [49] crc_sum 1 7 (le32 4096 ++ le32 3 ++ le32 253215) W0
             = Some (tt, w') /\ response w' = [OTA_FTC_OP_VERIFY_RSP; 7; 0; OTA_FTC_ST_SUCCESS].
Proof.
  pose proof (verify_correct 9 [49] crc_sum 1%nat 7 4096 3 253215 0%nat W0 crc_sum_chunked eq_refl eq_refl
    eq_refl ltac:(lia) ltac:(lia) (in_nor 4099 ltac:(lia)) ltac:(lia) ltac:(lia) ltac:(lia)) as H.
  apply ends_inv in H as ([] & w' & Hr & Hresp & _). exists w'. split; [exact Hr|].
  rewrite Hresp. vm_compute. reflexivity.
Defined.

(** A download of 45 bytes: three packets. *)
Definition W_get : world nor_chip pools :=
  W0 <| cb ::= fun b => b <| ft_in_progress := OTA_FTC_OP_GET_REQ |> <| ft_addr := 100 |> <| ft_len := 45 |> |>.
Lemma get_sends_region_witness :
  exists w' packets, ftd_events 9 [49] 3 (Some 1%nat) W_get = Some (tt, w') /\
    out w' = Notify (Some 1%nat) OTA_FTD_HDL <$> packets /\ concat packets = replicate 45 255.
Proof.
  pose proof (get_sends_region 9 [49] crc_sum (Some 1%nat) 0%nat 3 W_get eq_refl eq_refl ltac:(by cbn)
    ltac:(by cbn) (in_nor 145 ltac:(lia)) ltac:(by cbn) eq_refl) as H.
  apply ends_inv in H as ([] & w' & Hr & ps & Ho & Hc & _).
  exists w', ps. split_and!; [exact Hr|exact Ho|]. rewrite Hc. vm_compute. reflexivity.
Defined.

Definition W_put : world nor_chip pools :=
  W0 <| cb ::= fun b => b <| ft_in_progress := OTA_FTC_OP_PUT_REQ |> <| ft_addr := 4096 |> <| ft_len := 64 |> |>.
Lemma stale_data_event_moves_upload_witness :
  exists w', (ota_event_handle 9 [49] OTA_TX_MASK_FTD_BIT;; ota_ftd_write false 9 [49] 1 2 [10; 11]) W_put
             = Some (0, w') /\ ft_len (cb w') = 42 /\ flash w' = flash_write 4116 [10; 11] (flash W_put).
Proof.
  pose proof (stale_data_event_moves_upload 9 [49] 1%nat 0%nat W_put [10; 11] eq_refl eq_refl
    ltac:(by cbn) ltac:(by cbn) eq_refl (in_nor 4160 ltac:(lia)) ltac:(by cbn)
    ltac:(cbn; lia) ltac:(by cbn)) as H.
  apply ends_inv in H as (r & w' & Hr & -> & Hf & _ & Hl & _). exists w'.
  split_and!; [exact Hr|exact Hl|exact Hf].
Defined.

Lemma short_request_overreads_witness :
  ota_ftc_write true false 9 [49] 0 (fun _ c => c) 1 5 [OTA_FTC_OP_PUT_REQ; 0; 0; 1; 2] W0 = None.
Proof. apply (short_request_overreads true false 9 [49] 0 (fun _ c => c) 1%nat OTA_FTC_OP_PUT_REQ 0 0 [1; 2] W0); [done|]. left. split; [tauto|cbn; lia]. Defined.

Lemma long_version_overruns_witness :
  ota_ftc_proc_get_version_req 9 (replicate 17 65) 1 0 W0 = None.
Proof. apply (long_version_overruns 9 (replicate 17 65) 1%nat 0 W0); [done|cbn; lia]. Defined.
