(* ===== verification/OtaSafe.v ===== *)
(** * Over-the-air update: invariants of every run

    The control block stays well formed under every action, and a response whose wake-up
    message was dropped silences the control characteristic for good. *)
From S2P Require Import Prelude MsgManager FlashNor Ota OtaPut.
Import Pools.

(** ** Preservation of a predicate, handler by handler *)
Section Preserve.
Context {W : Type} (I : W -> Prop).
Definition pres {A} (m : M W A) (w : W) : Prop := I w -> ends_if m w (fun _ w' => I w').

Lemma pres_bind {A B} (m : M W A) (k : A -> M W B) w :
  pres m w -> (forall a w', pres (k a) w') -> pres (m ≫= k) w.
Proof.
  intros Hm Hk Hi. apply ends_if_bind. eapply ends_if_mono; [by apply Hm|].
  intros a w' Hi'. by apply Hk.
Qed.
Lemma pres_get {B} (k : W -> M W B) w : (I w -> pres (k w) w) -> pres (get ≫= k) w.
Proof. intros Hk Hi. by apply Hk. Qed.
Lemma pres_gets {A B} (f : W -> A) (k : A -> M W B) w : (I w -> pres (k (f w)) w) -> pres (gets f ≫= k) w.
Proof. intros Hk Hi. by apply Hk. Qed.
Lemma pres_ret {A} (a : A) w : pres (mret a) w.
Proof. by intros Hi. Qed.
Lemma pres_ub {A} w : pres (ub : M W A) w.
Proof. done. Qed.
Lemma pres_modify f w : (I w -> I (f w)) -> pres (modify f) w.
Proof. intros Hf Hi. by apply Hf. Qed.
Lemma pres_when b (m : M W unit) w : (b = true -> pres m w) -> pres (when b m) w.
Proof. intros Hm. destruct b; [by apply Hm|by intros Hi]. Qed.
Lemma pres_lift {A B} (o : option A) (k : A -> M W B) w :
  (forall a, o = Some a -> pres (k a) w) -> pres (lift o ≫= k) w.
Proof. intros Hk Hi. destruct o as [a|]; [by apply Hk|done]. Qed.
End Preserve.

Section Safe.
Context `{FL : Flash F} `{MQ : MsgQueue Q}.
Context (nor_lock spi0_xip : bool) (MSG_OTA_EVENT : Z) (sys_version : list Z)
  (partition_addr : Z) (bt_gatt_get_mtu : nat -> Z) (crc32 : list Z -> Z -> Z).
#[local] Abbreviation W := (world F Q).
#[local] Abbreviation step :=
  (ota_step nor_lock spi0_xip MSG_OTA_EVENT sys_version partition_addr bt_gatt_get_mtu crc32).
#[local] Abbreviation run :=
  (ota_run nor_lock spi0_xip MSG_OTA_EVENT sys_version partition_addr bt_gatt_get_mtu crc32).

Lemma verify_loop_pres (I : W -> Prop) fuel : forall off crc w, pres I (verify_loop crc32 fuel off crc) w.
Proof.
  induction fuel as [|fuel IH]; intros off crc w; cbn [verify_loop]; [apply pres_ub|].
  apply pres_get. intros _. destruct (off <? ft_len (cb w)); [|apply pres_ret].
  apply pres_bind; [|intros [page|] ?; [apply IH|apply pres_ub]].
  unfold ota_storage_read. destruct (storage (cb w)); [|apply pres_ret].
  apply pres_gets. intros _. apply pres_ret.
Qed.

(** A run preserves what every step preserves. *)
Lemma run_pres (I : W -> Prop) acts : (forall a w, pres I (step a) w) -> forall w, pres I (run acts) w.
Proof.
  intros Hs. induction acts as [|a acts IH]; intros w; cbn [ota_run]; [apply pres_ret|].
  apply pres_bind; auto.
Qed.

#[local] Ltac pres_step leaf :=
  lazymatch goal with
  | |- pres _ (get ≫= _) _ => apply pres_get; intros ?
  | |- pres _ (gets _ ≫= _) _ => apply pres_gets; intros ?
  | |- pres _ (lift _ ≫= _) _ => apply pres_lift; intros ? ?
  | |- pres _ (_ ≫= _) _ => apply pres_bind; [|intros ? ?]
  | |- pres _ (mret _) _ => apply pres_ret
  | |- pres _ ub _ => apply pres_ub
  | |- pres _ (when _ _) _ => apply pres_when; intros ?
  | |- pres _ (verify_loop _ _ _ _) _ => apply verify_loop_pres
  | |- pres _ (if ?b then _ else _) _ => destruct b eqn:?
  | |- pres _ (match ?x with _ => _ end) _ => destruct x eqn:?
  | |- pres _ (let '(_, _) := ?x in _) _ => destruct x eqn:?
  | |- _ => leaf
  end.

(** ** Well-formedness of the control block *)
Record ota_inv (w : W) : Prop := {
  oi_addr : 0 <= ft_addr (cb w) < 2 ^ 32;
  oi_len : 0 <= ft_len (cb w) < 2 ^ 32;
  oi_handle : 0 <= ft_handle (cb w) < 2 ^ 16;
  oi_pending : 0 <= pending_count (cb w) < 2 ^ 32;
  oi_prog : ft_in_progress (cb w) = OTA_FTC_OP_NONE \/ ft_in_progress (cb w) = OTA_FTC_OP_GET_REQ
            \/ ft_in_progress (cb w) = OTA_FTC_OP_PUT_REQ;
  oi_buf : Z.of_nat (length (ftc_msg_buf (cb w))) = FTC_MSG_BUF_SIZE;
  oi_msg : 0 <= ftc_msg_len (cb w) <= FTC_MSG_BUF_SIZE;
  oi_mq : mq_ok (msgq w);
  oi_notify : Forall (fun e => match e with
      | Notify _ h p => h = OTA_FTC_HDL -> Z.of_nat (length p) <= FTC_MSG_BUF_SIZE | _ => True end) (out w)
}.

Context (partition_range : 0 <= partition_addr < 2 ^ 32).

Lemma stream16_range p n r : BSTREAM_TO_UINT16 p = Some (n, r) -> 0 <= n < 2 ^ 16.
Proof. destruct p as [|a [|b p]]; try done. intros [= <- _]. apply u16_range. Qed.
Lemma stream32_range p n r : BSTREAM_TO_UINT32 p = Some (n, r) -> 0 <= n < 2 ^ 32.
Proof. destruct p as [|a [|b [|c [|d p]]]]; try done. intros [= <- _]. apply u32_range. Qed.

Lemma oi_emit e w :
  match e with Notify _ h p => h = OTA_FTC_HDL -> Z.of_nat (length p) <= FTC_MSG_BUF_SIZE | _ => True end ->
  pres ota_inv (emit e) w.
Proof.
  intros He. apply pres_modify. intros []. constructor; try done. cbn.
  apply Forall_app. split; [done|by apply Forall_singleton].
Qed.

Lemma oi_upd f w :
  (ota_inv w -> ota_inv (w <| cb ::= f |>)) -> pres ota_inv (upd_cb f) w.
Proof. intros Hf. by apply pres_modify. Qed.

Lemma oi_event ev w : pres ota_inv (ota_send_event MSG_OTA_EVENT ev) w.
Proof.
  unfold ota_send_event. apply pres_get. intros [].
  pose proof (mq_send_ok (ota_msg MSG_OTA_EVENT ev) 100 (msgq w) oi_mq0) as Hok'.
  destruct (mq_send _ _ _) as [r q]. apply pres_modify. intros []. by constructor.
Qed.

Lemma oi_modify f w :
  (cb (f w) = cb w /\ msgq (f w) = msgq w /\ out (f w) = out w) -> pres ota_inv (modify f) w.
Proof.
  intros (H1 & H2 & H3). apply pres_modify. intros []. constructor; by rewrite ?H1, ?H2, ?H3.
Qed.

Lemma oi_rsp c op h st x w : pres ota_inv (ota_ftc_send_rsp MSG_OTA_EVENT sys_version c op h st x) w.
Proof.
  unfold ota_ftc_send_rsp. apply pres_get. intros Hi. destruct (truthy _); [apply pres_ret|].
  set (msg := UINT8_TO_BSTREAM op ++ _). clearbody msg. apply pres_lift. intros buf Hb.
  unfold store_msg, FTC_MSG_BUF_SIZE in Hb. destruct (Z.leb_spec (Z.of_nat (length msg)) 20); [|done].
  injection Hb as <-. pose proof (oi_buf w Hi) as Hbuf. unfold FTC_MSG_BUF_SIZE in Hbuf.
  apply pres_bind.
  - apply oi_upd. intros []. constructor; cbn; try done; unfold FTC_MSG_BUF_SIZE.
    + rewrite length_app, length_drop. lia.
    + rewrite u16_small by lia. lia.
  - intros _ w1. apply pres_bind; [apply oi_upd; intros []; by constructor|]. intros _ w2.
    apply pres_bind; [apply oi_upd; intros []; by constructor|]. intros _ w3. apply oi_event.
Qed.

Lemma xip_range x : 0 <= SPI0_XIP_CRC_ALIGN x < 2 ^ 32.
Proof. unfold SPI0_XIP_CRC_ALIGN. pose proof (u32_range (x * 34)). Z.div_mod_to_equations. lia. Qed.

(** The fields an update stores, range by range. *)
#[local] Ltac oi_field :=
  let Hi := fresh in intros Hi; destruct Hi; constructor; cbn; try done;
  try apply u32_range; try (left + right; done);
  unfold OTA_FTC_OP_NONE, OTA_FTC_OP_GET_REQ, OTA_FTC_OP_PUT_REQ, SIZEOF_PARTITION_TABLE in *; try lia;
  eauto using stream32_range, stream16_range, xip_range.
#[local] Ltac oi_leaf :=
  idtac; lazymatch goal with
  | |- pres _ (ota_ftc_send_rsp _ _ _ _ _ _ _) _ => apply oi_rsp
  | |- pres _ (ota_send_event _ _) _ => apply oi_event
  | |- pres _ (emit _) _ => by apply oi_emit
  | |- pres _ (ota_send_notify _ _ _) _ => by apply oi_emit
  | |- pres _ (tx_clear _) _ => apply oi_upd; oi_field
  | |- pres _ (tx_set _) _ => apply oi_upd; oi_field
  | |- pres _ (upd_cb _) _ => apply oi_upd; oi_field
  | |- pres _ (modify _) _ => by apply oi_modify
  end.
#[local] Ltac oi_steps := repeat pres_step oi_leaf.

Lemma oi_ftd_write c len p w : pres ota_inv (ota_ftd_write nor_lock MSG_OTA_EVENT sys_version c len p) w.
Proof. unfold ota_ftd_write, ota_storage_write, unlock_flash. oi_steps. Qed.

Lemma oi_ftd_send c w : pres ota_inv (ota_ftd_send MSG_OTA_EVENT sys_version c) w.
Proof. unfold ota_ftd_send, ota_ccc_enabled, ota_storage_read. oi_steps. Qed.

Lemma oi_get_req c h p w : 0 <= h < 2 ^ 16 ->
  pres ota_inv (ota_ftc_proc_get_req spi0_xip MSG_OTA_EVENT sys_version partition_addr c h p) w.
Proof. intros Hh. unfold ota_ftc_proc_get_req. oi_steps. Qed.

Lemma oi_put_req c h p w : 0 <= h < 2 ^ 16 ->
  pres ota_inv (ota_ftc_proc_put_req MSG_OTA_EVENT sys_version c h p) w.
Proof. intros Hh. unfold ota_ftc_proc_put_req. oi_steps. Qed.

Lemma oi_verify_req c h p w : 0 <= h < 2 ^ 16 ->
  pres ota_inv (ota_ftc_proc_verify_req MSG_OTA_EVENT sys_version crc32 c h p) w.
Proof. intros Hh. unfold ota_ftc_proc_verify_req. oi_steps. Qed.

Lemma oi_erase_req c h p w : 0 <= h < 2 ^ 16 ->
  pres ota_inv (ota_ftc_proc_erase_req nor_lock MSG_OTA_EVENT sys_version c h p) w.
Proof. intros Hh. unfold ota_ftc_proc_erase_req, ota_storage_erase, unlock_flash. oi_steps. Qed.

Lemma oi_ftc_write c len p w :
  pres ota_inv (ota_ftc_write nor_lock spi0_xip MSG_OTA_EVENT sys_version partition_addr crc32 c len p) w.
Proof.
  unfold ota_ftc_write, ota_ftc_proc_abort, ota_ftc_proc_reset, ota_ftc_proc_get_version_req.
  destruct (len <? _); [apply pres_ret|]. apply pres_lift. intros [op p1] _.
  apply pres_lift. intros [h p2] Hh%stream16_range. cbv beta iota.
  apply pres_bind; [|intros; apply pres_ret].
  destruct (op =? OTA_FTC_OP_GET_REQ); [by apply oi_get_req|].
  destruct (op =? OTA_FTC_OP_PUT_REQ); [by apply oi_put_req|].
  destruct (op =? OTA_FTC_OP_VERIFY_REQ); [by apply oi_verify_req|].
  destruct (op =? OTA_FTC_OP_ERASE_REQ); [by apply oi_erase_req|].
  oi_steps.
Qed.

Lemma oi_dc_write c len p w : pres ota_inv (ota_dc_write MSG_OTA_EVENT c len p) w.
Proof. unfold ota_dc_write, ota_dc_set_conn_param_req, ota_dc_get_conn_param. oi_steps. Qed.

Lemma oi_ftc_send c w : pres ota_inv (ota_ftc_send c) w.
Proof.
  unfold ota_ftc_send, ota_ccc_enabled. apply pres_bind; [oi_steps|]. intros en w1.
  apply pres_get. intros [_ _ _ _ _ Hb Hm _ _]. apply pres_bind; [|intros ? ?; oi_leaf].
  apply pres_when. intros _. apply oi_emit. intros _. rewrite length_take. lia.
Qed.

Lemma oi_async_send c w : pres ota_inv (ota_fdc_async_send c) w.
Proof.
  unfold ota_fdc_async_send, ota_ccc_enabled. apply pres_get. intros _.
  destruct (_ =? _); [apply pres_ret|]. cbv zeta. set (msg := _ ++ _).
  assert (length msg = 6%nat) as Hl by done. clearbody msg.
  apply pres_bind; [oi_leaf|]. intros _ w1. apply pres_bind; [oi_steps|]. intros en w2.
  apply pres_bind; [|intros ? ?; oi_leaf]. apply pres_when. intros _. apply oi_emit. intros _.
  rewrite Hl. done.
Qed.

Lemma oi_event_handle ev w : pres ota_inv (ota_event_handle MSG_OTA_EVENT sys_version ev) w.
Proof.
  unfold ota_event_handle. apply pres_get. intros _.
  destruct (ev =? OTA_TX_MASK_FTD_BIT); [apply oi_ftd_send|].
  destruct (ev =? OTA_TX_MASK_FTC_BIT); [apply oi_ftc_send|].
  destruct (ev =? OTA_TX_MASK_FTC_ASYNC_BIT); [apply oi_async_send|].
  unfold ota_dc_conn_param_update. oi_steps.
Qed.

Lemma oi_step a w : pres ota_inv (step a) w.
Proof.
  destruct a as [c attr off buf|h v| |]; cbn [ota_step].
  - apply pres_bind; [|intros; apply pres_ret]. unfold write_ota, ota_write_cback. cbv zeta.
    repeat pres_step ltac:(idtac; lazymatch goal with
      | |- pres _ (ota_dc_write _ _ _ _) _ => apply oi_dc_write
      | |- pres _ (ota_ftc_write _ _ _ _ _ _ _ _ _) _ => apply oi_ftc_write
      | |- pres _ (ota_ftd_write _ _ _ _ _ _) _ => apply oi_ftd_write
      | |- _ => oi_leaf end).
  - unfold ota_dc_ccc_cfg_changed, ota_ftc_ccc_cfg_changed, ota_ftd_ccc_cfg_changed,
      ota_au_ccc_cfg_changed. oi_steps.
  - apply pres_get. intros Hi. pose proof (mq_recv_ok (-1) (msgq w) (oi_mq w Hi)) as Hok'.
    destruct (mq_recv (-1) (msgq w)) as [m q]. apply pres_bind.
    + apply pres_modify. intros []. by constructor.
    + intros _ w1. destruct m; [|apply pres_ret]. apply pres_when. intros _. apply oi_event_handle.
  - unfold ota_wakeup_timeout_handler. oi_steps.
Qed.


(** ** The stuck response *)
Definition no_ftc (q : Q) : Prop :=
  Forall (fun m => ~ (type m = MSG_OTA_EVENT /\ value m = OTA_TX_MASK_FTC_BIT)) (mq_view q).
(** Not a response: another call, another characteristic, or a flow-control report. *)
Definition not_rsp (e : ota_eff) : Prop :=
  match e with
  | Notify _ h p => h = OTA_FTC_HDL -> head p = Some OTA_FTC_OP_PACKET_RECEIVED
  | _ => True
  end.
Record stuck (out0 : list ota_eff) (w : W) : Prop := {
  st_bit : Z.testbit (tx_ready_mask (cb w)) 2 = true;
  st_ok : mq_ok (msgq w);
  st_noftc : no_ftc (msgq w);
  st_out : exists l, out w = out0 ++ l /\ Forall not_rsp l
}.

Lemma land4_bit m : truthy (Z.land m OTA_TX_MASK_FTC_BIT) = Z.testbit m 2.
Proof.
  change OTA_TX_MASK_FTC_BIT with (2 ^ 2). unfold truthy.
  destruct (Z.eqb_spec (Z.land m (2 ^ 2)) 0) as [E|E]; cbn [negb].
  - assert (Z.testbit (Z.land m (2 ^ 2)) 2 = false) as H by (by rewrite E).
    rewrite Z.land_spec, Z.pow2_bits_true in H by lia. by rewrite andb_true_r in H.
  - destruct (Z.testbit m 2) eqn:Hb; [done|]. destruct E. apply Z.bits_inj_0. intros k.
    rewrite Z.land_spec, Z.pow2_bits_eqb by lia. destruct (Z.eqb_spec 2 k) as [<-|]; [by rewrite Hb|].
    apply andb_false_r.
Qed.

Lemma bit2_clear m b : (b = OTA_TX_MASK_FTD_BIT \/ b = OTA_TX_MASK_FTC_ASYNC_BIT) ->
  Z.testbit (Z.land m (u8 (Z.lnot b))) 2 = Z.testbit m 2.
Proof. intros Hb. rewrite Z.land_spec. destruct Hb as [->| ->]; apply andb_true_r. Qed.

Lemma bit2_set m : Z.testbit (Z.lor m OTA_TX_MASK_FTC_ASYNC_BIT) 2 = Z.testbit m 2.
Proof. rewrite Z.lor_spec. apply orb_false_r. Qed.

Section Stuck.
Context (out0 : list ota_eff).
#[local] Abbreviation St := (stuck out0).

Lemma stuck_emit e w : not_rsp e -> pres St (emit e) w.
Proof.
  intros He. apply pres_modify. intros [? ? ? (l & Hl & Hf)]. constructor; try done. exists (l ++ [e]).
  split; [cbn; by rewrite Hl, (assoc_L (++))|]. apply Forall_app. split; [done|by apply Forall_singleton].
Qed.

Lemma stuck_upd f w :
  Z.testbit (tx_ready_mask (f (cb w))) 2 = Z.testbit (tx_ready_mask (cb w)) 2 -> pres St (upd_cb f) w.
Proof. intros Hf. apply pres_modify. intros []. constructor; try done.
  change (Z.testbit (tx_ready_mask (f (cb w))) 2 = true). by rewrite Hf.
Qed.

Lemma stuck_event ev w : ev <> OTA_TX_MASK_FTC_BIT -> pres St (ota_send_event MSG_OTA_EVENT ev) w.
Proof.
  intros Hev. unfold ota_send_event. apply pres_get. intros [? Hok Hn ?].
  pose proof (mq_send_ok (ota_msg MSG_OTA_EVENT ev) 100 (msgq w) Hok) as Hok'.
  pose proof (mq_send_view (ota_msg MSG_OTA_EVENT ev) 100 (msgq w) Hok) as Hv.
  destruct (mq_send _ _ _) as [r q]. apply pres_modify. intros _. constructor; try done.
  unfold no_ftc in *. cbn in *. rewrite Hv. apply Forall_app. split; [done|].
  destruct r; [|done]. apply Forall_singleton. by intros [_ ?].
Qed.

Lemma stuck_modify f w :
  (cb (f w) = cb w /\ msgq (f w) = msgq w /\ out (f w) = out w) -> pres St (modify f) w.
Proof.
  intros (H1 & H2 & H3). apply pres_modify. intros [? ? ? ?]. constructor; by rewrite ?H1, ?H2, ?H3.
Qed.

(** A response is dropped: the mask says one is pending. *)
Lemma stuck_rsp c op h st x w : pres St (ota_ftc_send_rsp MSG_OTA_EVENT sys_version c op h st x) w.
Proof.
  unfold ota_ftc_send_rsp. apply pres_get. intros Hs. rewrite land4_bit, (st_bit _ _ Hs). apply pres_ret.
Qed.

#[local] Ltac stuck_leaf :=
  idtac; lazymatch goal with
  | |- pres _ (ota_ftc_send_rsp _ _ _ _ _ _ _) _ => apply stuck_rsp
  | |- pres _ (ota_send_event _ _) _ => by apply stuck_event
  | |- pres _ (emit _) _ => by apply stuck_emit
  | |- pres _ (ota_send_notify _ _ _) _ => by apply stuck_emit
  | |- pres _ (tx_clear _) _ => apply stuck_upd; apply bit2_clear; by (left + right)
  | |- pres _ (tx_set _) _ => apply stuck_upd; apply bit2_set
  | |- pres _ (upd_cb _) _ => by apply stuck_upd
  | |- pres _ (modify _) _ => by apply stuck_modify
  end.
#[local] Ltac stuck_steps := repeat pres_step stuck_leaf.

Lemma stuck_ftd_send c w : pres St (ota_ftd_send MSG_OTA_EVENT sys_version c) w.
Proof. unfold ota_ftd_send, ota_ccc_enabled, ota_storage_read. stuck_steps. Qed.

Lemma stuck_ftc_write c len p w :
  pres St (ota_ftc_write nor_lock spi0_xip MSG_OTA_EVENT sys_version partition_addr crc32 c len p) w.
Proof.
  unfold ota_ftc_write, ota_ftc_proc_get_req, ota_ftc_proc_put_req, ota_ftc_proc_verify_req,
    ota_ftc_proc_erase_req, ota_ftc_proc_abort, ota_ftc_proc_reset, ota_ftc_proc_get_version_req,
    ota_storage_erase, unlock_flash. stuck_steps.
Qed.

Lemma stuck_ftd_write c len p w : pres St (ota_ftd_write nor_lock MSG_OTA_EVENT sys_version c len p) w.
Proof. unfold ota_ftd_write, ota_storage_write, unlock_flash. stuck_steps. Qed.

Lemma stuck_dc_write c len p w : pres St (ota_dc_write MSG_OTA_EVENT c len p) w.
Proof. unfold ota_dc_write, ota_dc_set_conn_param_req, ota_dc_get_conn_param. stuck_steps. Qed.

Lemma stuck_event_handle ev w : ev <> OTA_TX_MASK_FTC_BIT -> pres St (ota_event_handle MSG_OTA_EVENT sys_version ev) w.
Proof.
  intros Hev. unfold ota_event_handle. apply pres_get. intros _.
  destruct (ev =? OTA_TX_MASK_FTD_BIT); [apply stuck_ftd_send|].
  destruct (Z.eqb_spec ev OTA_TX_MASK_FTC_BIT); [done|].
  unfold ota_fdc_async_send, ota_ccc_enabled, ota_dc_conn_param_update. stuck_steps.
Qed.

Lemma stuck_step a w : pres St (step a) w.
Proof.
  destruct a as [c attr off buf|h v| |]; cbn [ota_step].
  - apply pres_bind; [|intros; apply pres_ret]. unfold write_ota, ota_write_cback. cbv zeta.
    repeat pres_step ltac:(first [apply stuck_dc_write|apply stuck_ftc_write|apply stuck_ftd_write|stuck_leaf]).
  - unfold ota_dc_ccc_cfg_changed, ota_ftc_ccc_cfg_changed, ota_ftd_ccc_cfg_changed,
      ota_au_ccc_cfg_changed. stuck_steps.
  - intros Hs. pose proof Hs as [_ Hok Hn _].
    pose proof (mq_recv_ok (-1) (msgq w) Hok) as Hok'.
    pose proof (mq_recv_view (-1) (msgq w) Hok) as [Hm Hv].
    apply ends_if_bind, ends_if_get. destruct (mq_recv (-1) (msgq w)) as [m q]. cbn [fst snd] in *.
    subst m. unfold no_ftc in Hn. apply ends_if_bind, ends_if_modify.
    assert (St (w <| msgq := q |>)) as Hs'.
    { destruct Hs. constructor; try done. unfold no_ftc. cbn. rewrite Hv.
      destruct (mq_view (msgq w)); [done|]. by inversion Hn. }
    destruct (mq_view (msgq w)) as [|m ms]; [exact Hs'|]. cbn [head].
    apply ends_if_when; [|done]. intros Ht%Z.eqb_eq. apply stuck_event_handle; [|done].
    intros Hv'. apply Forall_cons in Hn as [Hn _]. by apply Hn.
  - unfold ota_wakeup_timeout_handler. stuck_steps.
Qed.
End Stuck.

(** Defect: once a response is marked as pending (FTC bit) and its wake-up message
    was dropped because the message pool was full, the control characteristic never
    answers again: whatever requests, data, configuration writes, timer and message-loop
    actions follow, every later response is discarded and only flow-control reports and
    other traffic are sent. *)
Theorem dropped_wakeup_silences_ftc acts (w : W) :
  Z.testbit (tx_ready_mask (cb w)) 2 = true -> mq_ok (msgq w) -> no_ftc (msgq w) ->
  ends_if (run acts) w
    (fun _ w' => Z.testbit (tx_ready_mask (cb w')) 2 = true /\
       exists l, out w' = out w ++ l /\ Forall not_rsp l).
Proof.
  intros Hb Hok Hn. eapply ends_if_mono.
  - apply (run_pres (stuck (out w)) acts); [by apply stuck_step|].
    constructor; try done. exists []. by rewrite app_nil_r.
  - by intros [] w' [].
Qed.
End Safe.


(** A pending response without a message, in an otherwise idle service. *)
Definition W_stuck : world nor_chip pools := W0 <| cb ::= fun b => b <| tx_ready_mask := OTA_TX_MASK_FTC_BIT |> |>.
Lemma dropped_wakeup_silences_ftc_witness :
  ends_if (ota_run true false 9 [49] 0 mtu0 (fun _ c => c) (acts0 ++ [last0])) W_stuck
    (fun _ w' => Z.testbit (tx_ready_mask (cb w')) 2 = true /\
       exists l, out w' = out W_stuck ++ l /\ Forall not_rsp l).
Proof. apply (dropped_wakeup_silences_ftc true false 9 [49] 0 mtu0 (fun _ c => c) (acts0 ++ [last0]) W_stuck); [done|exact pools_init_ok|apply Forall_nil_2]. Defined.

(** The state arises: with eight messages queued, a version request is marked as pending
    and its event is lost. *)
Example wakeup_can_be_dropped :
  match ota_run true false 9 [49] 0 mtu0 (fun _ c => c) [GattWrite 1 OTA_FTC_HDL 0 [OTA_FTC_OP_GET_VERSION_REQ; 0; 0]]
          (W0 <| msgq := pools_full |>) with
  | Some (_, w') => Z.testbit (tx_ready_mask (cb w')) 2 = true /\ queued (msgq w') = queued pools_full
  | None => False
  end.
Proof. vm_compute. split; reflexivity. Qed.
