(* ===== verification/Nvram.v ===== *)
(** * Named settings (include/nvram_config.h, drivers/nvram/nvram_config.c)

    The settings store is a prebuilt library: [Nvram] is its interface, [NvramLaws] what
    its clients rely on, and a finite map the instance.  The driver's initialisation
    unlocks the flash behind the code area. *)
From S2P Require Import Prelude FlashNor.

Class Nvram (NS : Type) := {
  (* result code and the bytes stored into the caller's buffer *)
  nvram_config_get : string -> Z -> NS -> Z * list Z;
  nvram_config_set : string -> list Z -> NS -> Z * NS
}.
Class NvramLaws (NS : Type) `{Nvram NS} := {
  nv_view : NS -> string -> option (list Z);
  nv_get_some : forall k m n d, nv_view n k = Some d -> Z.of_nat (length d) <= m ->
    nvram_config_get k m n = (Z.of_nat (length d), d);
  nv_get_none : forall k m n, nv_view n k = None -> (nvram_config_get k m n).1 < 0 /\
    (nvram_config_get k m n).2 = [];
  nv_set_ok : forall k d n, 0 <= (nvram_config_set k d n).1 ->
    nv_view (nvram_config_set k d n).2 k = Some d;
  nv_set_other : forall k d n k', k' <> k ->
    nv_view (nvram_config_set k d n).2 k' = nv_view n k';
  nv_set_fail : forall k d n, (nvram_config_set k d n).1 < 0 ->
    nv_view (nvram_config_set k d n).2 k = nv_view n k
}.

#[export] Instance nv_map : Nvram (gmap string (list Z)) := {|
  nvram_config_get k m n :=
    match n !! k with
    | Some d => if Z.of_nat (length d) <=? m then (Z.of_nat (length d), d) else (-1, [])
    | None => (-2, [])
    end;
  nvram_config_set k d n := (0, <[k := d]> n)
|}.
#[export] Instance nv_map_laws : NvramLaws (gmap string (list Z)).
Proof.
  refine {| nv_view n k := n !! k |}; cbn.
  - intros k m n d -> Hl. by destruct (Z.leb_spec (Z.of_nat (length d)) m); [|lia].
  - by intros k m n ->.
  - intros k d n _. apply lookup_insert_eq.
  - intros k d n k' Hk. by apply lookup_insert_ne.
  - lia.
Defined.

(** Driver initialisation: [ret] is the library's result, [dev] the binding of the storage
    device, [base] and the sizes the configured regions. *)
Definition acts_nvram_config_init `{Flash F} (nor_lock : bool) (ret : Z) (dev : option nat)
    (base factory_size user_size : Z) (f : F) : Z * F :=
  (ret, if nor_lock && (ret =? 0) then
          match dev with
          | None => f
          | Some _ => flash_unlock base (factory_size + user_size) f
          end
        else f).

(** Overwriting part of an object: [memcpy(obj + off, d, length d)]. *)
Definition blit (off : Z) (d l : list Z) : option (list Z) :=
  if (0 <=? off) && (off + Z.of_nat (length d) <=? Z.of_nat (length l))
  then Some (take (Z.to_nat off) l ++ d ++ drop (Z.to_nat off + length d) l) else None.
(** [n] bytes at [off]. *)
Definition field (off n : Z) (l : list Z) : list Z := take (Z.to_nat n) (drop (Z.to_nat off) l).

Lemma blit_Some off d l : 0 <= off -> off + Z.of_nat (length d) <= Z.of_nat (length l) ->
  exists l', blit off d l = Some l' /\ length l' = length l /\
    field off (Z.of_nat (length d)) l' = d /\
    forall o n, 0 <= o -> 0 <= n -> (o + n <= off \/ off + Z.of_nat (length d) <= o) ->
      field o n l' = field o n l.
Proof.
  intros Ho Hl. unfold blit.
  destruct (Z.leb_spec 0 off); [|lia].
  destruct (Z.leb_spec (off + Z.of_nat (length d)) (Z.of_nat (length l))); [|lia].
  eexists. split; [done|]. split_and!.
  - rewrite !length_app, length_take, length_drop. lia.
  - unfold field. rewrite Nat2Z.id. rewrite drop_app_length' by (rewrite length_take; lia).
    by rewrite take_app_length.
  - intros o n Ho' Hn [Hb|Ha]; unfold field; apply list_eq; intros i;
      (destruct (decide (i < Z.to_nat n)%nat) as [Hi|Hi];
       [rewrite !lookup_take_lt by lia|by rewrite !lookup_take_ge by lia]); rewrite !lookup_drop.
    + rewrite lookup_app_l by (rewrite length_take; lia). by rewrite lookup_take_lt by lia.
    + rewrite lookup_app_r by (rewrite length_take; lia).
      rewrite lookup_app_r by (rewrite length_take; lia).
      rewrite lookup_drop, length_take. f_equal. lia.
Qed.

Lemma blit_whole d l : length d = length l -> blit 0 d l = Some d.
Proof.
  intros Hl. unfold blit. rewrite Hl, Z.add_0_l. destruct (Z.leb_spec (Z.of_nat (length l)) (Z.of_nat (length l))); [|lia].
  cbn [Z.leb Z.compare andb Z.to_nat take app Nat.add]. rewrite take_0. cbn. rewrite Nat.add_0_l, drop_all. by rewrite app_nil_r.
Qed.
