(* ===== verification/BtStorage.v ===== *)
(** * Persistent bonding data (subsys/bluetooth/host/storage.c)

    The two implementations of the host's [struct bt_storage]: one entry in the settings
    store (single connection), or a pool of two keys in RAM.  [struct bt_keys] is the byte
    string of its memory layout, so that the copies of the code are copies of bytes at
    offsets; the caller's buffer has exactly the announced length, and a copy past its end
    is undefined. *)
From S2P Require Import Prelude FlashNor Nvram.

(** Storage keys (include/bluetooth/storage.h) *)
Definition BT_STORAGE_ID_ADDR : Z := 0.
Definition BT_STORAGE_LOCAL_IRK : Z := 1.
Definition BT_STORAGE_SLAVE_LTK : Z := 3.
Definition BT_STORAGE_LTK : Z := 4.
Definition BT_STORAGE_LOCAL_CSRK : Z := 6.
Definition BT_STORAGE_REMOTE_CSRK : Z := 7.
Definition BT_STORAGE_LTK_P256 : Z := 8.
Definition BT_STORAGE_BT_KEYS : Z := 9.

(** ** struct bt_keys (keys.h), laid out for a 32-bit ABI with 8-byte alignment of u64_t *)
Definition ADDR_LE_SIZE : Z := 7.
Definition OFF_KEYS : Z := 12.
Definition OFF_LTK : Z := 16.
Definition OFF_IRK : Z := 48.
Definition OFF_RPA : Z := 64.
Definition OFF_LOCAL_CSRK : Z := 72.
Definition OFF_REMOTE_CSRK : Z := 92.
Definition OFF_SLAVE_LTK : Z := 112.
Definition LTK_SIZE : Z := 32.
Definition CSRK_SIZE : Z := 20.
Definition KEYS_SIZE : Z := 144.
Definition BT_KEYS_IRK : Z := 2.
Definition BT_ADDR_LE_RANDOM : Z := 1.
Definition BT_ADDR_LE_ANY : list Z := [0; 0; 0; 0; 0; 0; 0].

Definition k_addr (k : list Z) : list Z := field 0 ADDR_LE_SIZE k.
Definition k_keys (k : list Z) : Z := nth 12 k 0 + 256 * nth 13 k 0.
Definition k_irk (k : list Z) : list Z := field OFF_IRK 16 k.
Definition k_rpa (k : list Z) : list Z := field OFF_RPA 6 k.

(** A [bt_addr_le_t] is a type byte and six address bytes, least significant first. *)
Definition bt_addr_le_is_rpa (addr : list Z) : bool :=
  (nth 0 addr 0 =? BT_ADDR_LE_RANDOM) && (Z.land (nth 6 addr 0) 0xc0 =? 0x40).
Definition addr_a (addr : list Z) : list Z := drop 1 addr.

Section Storage.
(** The resolving function of the Bluetooth host's crypto. *)
Context (bt_rpa_irk_matches : list Z -> list Z -> bool).

(** ** The settings store: one bond *)
Section NvramStorage.
Context `{NV : Nvram NS}.

(** [keys] is the caller's buffer, which must hold a whole [struct bt_keys]. *)
Definition addr_match_bt_keys (addr keys : list Z) : option (Z * list Z) :=
  if Z.of_nat (length keys) <? KEYS_SIZE then None
  else if negb (bt_addr_le_is_rpa addr) then
    Some (if bool_decide (k_addr keys = addr) then 1 else 0, keys)
  else
    let ret := if bool_decide (addr_a addr = k_rpa keys) then 1 else 0 in
    if bt_rpa_irk_matches (k_irk keys) (addr_a addr) then
      match blit OFF_RPA (addr_a addr) keys with Some keys' => Some (1, keys') | None => None end
    else Some (ret, keys).

(** Result and the buffer's contents afterwards. *)
Definition nv_storage_read (addr : option (list Z)) (key : Z) (data : list Z)
  : M NS (Z * list Z) :=
  let name := if key =? BT_STORAGE_ID_ADDR then Some "BT_ADDR"%string
              else if key =? BT_STORAGE_LOCAL_IRK then Some "LOCAL_IRK"%string
              else if key =? BT_STORAGE_BT_KEYS then Some "BT_KEYS"%string else None in
  n ← get;
  '(ret, data) ←
    match name with
    | None => mret (0, data)
    | Some name =>
        let '(ret, bytes) := nvram_config_get name (Z.of_nat (length data)) n in
        data ← lift (blit 0 bytes data); mret (ret, data)
    end;
  if ret <? 0 then mret (ret, data)
  else
    match addr with
    | None => mret (ret, data)
    | Some addr =>
        '(m, data) ← lift (addr_match_bt_keys addr data);
        mret (if truthy m then ret else 0, data)
    end.

Definition nv_set (name : string) (data : list Z) : M NS Z := fun n => Some (nvram_config_set name data n).

Definition nv_storage_write (addr : option (list Z)) (key : Z) (data : list Z) : M NS Z :=
  if key =? BT_STORAGE_ID_ADDR then nv_set "BT_ADDR" data
  else if (key =? BT_STORAGE_LOCAL_IRK) || (key =? BT_STORAGE_BT_KEYS) then
    (* the LOCAL_IRK case falls through and its name is overwritten *)
    n ← get;
    let '(ret, tmp) := nvram_config_get "BT_KEYS" KEYS_SIZE n in
    if 0 <=? ret then
      (* memcmp reads past a shorter buffer, or uninitialised bytes of [tmp_bt_keys] *)
      if (Z.of_nat (length data) <? KEYS_SIZE) || (Z.of_nat (length tmp) <? KEYS_SIZE) then ub
      else if bool_decide (tmp = take (Z.to_nat KEYS_SIZE) data) then mret ret
      else nv_set "BT_KEYS" data
    else nv_set "BT_KEYS" data
  else mret 0.

Definition nv_storage_clear (addr : option (list Z)) : M NS Z :=
  nv_set "BT_KEYS" (replicate (Z.to_nat KEYS_SIZE) 0).
End NvramStorage.

(** ** The pool: two bonds in RAM *)
Definition key_pool_count : Z := 2.
Record pool := Pool {
  storage_key_pool : list (list Z);
  storage_local_bt_addr : list Z;
  storage_local_irk : list Z;
  removeCnt : Z
}.
#[export] Instance eta_pool : EtaRecord pool := fun r =>
  Pool (storage_key_pool r) (storage_local_bt_addr r) (storage_local_irk r) (removeCnt r).

Inductive storage_access := STORAGE_READ | STORAGE_WRITE.

(** The first pool element with the address; the first that resolves a private address,
    remembering the address. *)
Fixpoint find_addr (l : list (list Z)) (addr : list Z) (i : nat) : option nat :=
  match l with
  | [] => None
  | k :: l' => if bool_decide (k_addr k = addr) then Some i else find_addr l' addr (S i)
  end.
Fixpoint find_rpa (l : list (list Z)) (a : list Z) (i : nat) : option (nat * bool) :=
  match l with
  | [] => None
  | k :: l' =>
      if negb (truthy (Z.land (k_keys k) BT_KEYS_IRK)) then find_rpa l' a (S i)
      else if bool_decide (a = k_rpa k) then Some (i, false)
      else if bt_rpa_irk_matches (k_irk k) a then Some (i, true)
      else find_rpa l' a (S i)
  end.

Definition set_keys (i : nat) (k : list Z) : M pool unit :=
  modify (fun s => s <| storage_key_pool ::= <[i := k]> |>).
(** Overwrite bytes of element [i]. *)
Definition store_keys (i : nat) (off : Z) (d : list Z) : M pool unit :=
  s ← get;
  k ← lift (storage_key_pool s !! i);
  k ← lift (blit off d k);
  set_keys i k.

Definition find_bt_keys (addr : list Z) (access : storage_access) : M pool (option nat) :=
  s ← get;
  found ←
    (if negb (bt_addr_le_is_rpa addr) then mret (find_addr (storage_key_pool s) addr 0)
     else
       match find_rpa (storage_key_pool s) (addr_a addr) 0 with
       | None => mret None
       | Some (i, false) => mret (Some i)
       | Some (i, true) => store_keys i OFF_RPA (addr_a addr);; mret (Some i)
       end);
  match found, access with
  | Some i, _ => mret (Some i)
  | None, STORAGE_READ => mret None
  | None, STORAGE_WRITE =>
      match find_addr (storage_key_pool s) BT_ADDR_LE_ANY 0 with
      | Some i => store_keys i 0 addr;; mret (Some i)
      | None =>
          let i := Z.to_nat (removeCnt s mod key_pool_count) in
          (if removeCnt s =? 2 ^ 31 - 1 then ub
           else modify (fun s => s <| removeCnt ::= (fun c => c + 1) |>));;
          store_keys i 0 addr;; mret (Some i)
      end
  end.

(** [ret = sizeof(field); memcpy(data, &keys->field, ret)] when there are keys. *)
Definition load_field (keys : option nat) (off n : Z) (r : Z * list Z) : M pool (Z * list Z) :=
  match keys with
  | None => mret r
  | Some i =>
      s ← get;
      k ← lift (storage_key_pool s !! i);
      data ← lift (blit 0 (field off n k) r.2);
      mret (n, data)
  end.

Definition pool_storage_read (addr : option (list Z)) (key : Z) (data : list Z)
  : M pool (Z * list Z) :=
  keys ← match addr with Some a => find_bt_keys a STORAGE_READ | None => mret None end;
  s ← get;
  if key =? BT_STORAGE_ID_ADDR then
    data ← lift (blit 0 (storage_local_bt_addr s) data); mret (ADDR_LE_SIZE, data)
  else if key =? BT_STORAGE_LOCAL_IRK then
    data ← lift (blit 0 (storage_local_irk s) data);
    load_field keys OFF_SLAVE_LTK LTK_SIZE (16, data)            (* falls through *)
  else if key =? BT_STORAGE_SLAVE_LTK then load_field keys OFF_SLAVE_LTK LTK_SIZE (0, data)
  else if key =? BT_STORAGE_LTK then load_field keys OFF_LTK LTK_SIZE (0, data)
  else if key =? BT_STORAGE_LOCAL_CSRK then load_field keys OFF_LOCAL_CSRK CSRK_SIZE (0, data)
  else if key =? BT_STORAGE_REMOTE_CSRK then
    r ← load_field keys OFF_REMOTE_CSRK CSRK_SIZE (0, data);
    load_field keys OFF_LTK LTK_SIZE r                           (* falls through *)
  else if key =? BT_STORAGE_LTK_P256 then load_field keys OFF_LTK LTK_SIZE (0, data)
  else if key =? BT_STORAGE_BT_KEYS then load_field keys 0 KEYS_SIZE (0, data)
  else mret (0, data).

Definition save_field (keys : option nat) (off : Z) (data : list Z) (ret : Z) : M pool Z :=
  match keys with
  | None => mret ret
  | Some i => store_keys i off data;; mret (Z.of_nat (length data))
  end.

Definition pool_storage_write (addr : option (list Z)) (key : Z) (data : list Z) : M pool Z :=
  keys ← match addr with Some a => find_bt_keys a STORAGE_WRITE | None => mret None end;
  s ← get;
  if key =? BT_STORAGE_ID_ADDR then
    (if Z.of_nat (length data) <? ADDR_LE_SIZE then ub
     else modify (fun s => s <| storage_local_bt_addr := take (Z.to_nat ADDR_LE_SIZE) data |>));;
    mret ADDR_LE_SIZE
  else if key =? BT_STORAGE_LOCAL_IRK then
    irk ← lift (blit 0 data (storage_local_irk s));
    modify (fun s => s <| storage_local_irk := irk |>);;
    save_field keys OFF_SLAVE_LTK data (Z.of_nat (length data))  (* falls through *)
  else if key =? BT_STORAGE_SLAVE_LTK then save_field keys OFF_SLAVE_LTK data 0
  else if key =? BT_STORAGE_LTK then save_field keys OFF_LTK data 0
  else if key =? BT_STORAGE_LOCAL_CSRK then save_field keys OFF_LOCAL_CSRK data 0
  else if key =? BT_STORAGE_REMOTE_CSRK then
    ret ← save_field keys OFF_REMOTE_CSRK data 0;
    save_field keys OFF_LTK data ret                             (* falls through *)
  else if key =? BT_STORAGE_LTK_P256 then save_field keys OFF_LTK data 0
  else if key =? BT_STORAGE_BT_KEYS then save_field keys 0 data 0
  else mret 0.

Definition pool_storage_clear (addr : option (list Z)) : M pool Z :=
  keys ← match addr with Some a => find_bt_keys a STORAGE_READ | None => mret None end;
  match keys with
  | Some i => set_keys i (replicate (Z.to_nat KEYS_SIZE) 0);; mret 0
  | None => mret 0
  end.

Definition pool_storage_init : M pool Z :=
  modify (fun s => s <| storage_local_bt_addr := [BT_ADDR_LE_RANDOM; 0xAA; 0xBB; 0xCC; 0xDD; 0xEE; 0xFF] |>
                     <| storage_local_irk := seqZ 0 16 |>);;
  mret 0.
Definition pool0 : pool :=
  Pool (replicate (Z.to_nat key_pool_count) (replicate (Z.to_nat KEYS_SIZE) 0)) (replicate 7 0) (replicate 16 0) 0.
End Storage.

(** * Theorems *)
Section NvramFacts.
Context (irk_matches : list Z -> list Z -> bool) `{NL : NvramLaws NS}.

Lemma match_identity a keys : Z.of_nat (length keys) = KEYS_SIZE -> bt_addr_le_is_rpa a = false ->
  addr_match_bt_keys irk_matches a keys = Some (if bool_decide (k_addr keys = a) then 1 else 0, keys).
Proof. intros Hl Ha. unfold addr_match_bt_keys. rewrite Hl, Ha. done. Qed.

(** C28.  One bond in the settings store survives a power cycle: after the keys were
    written, a read for an identity address returns them when the address is the bond's
    and reports nothing when it is another one, whatever was stored before. *)
Theorem nv_bond_roundtrip addr a keys buf (n : NS) :
  Z.of_nat (length keys) = KEYS_SIZE -> Z.of_nat (length buf) = KEYS_SIZE ->
  0 <= (nvram_config_set "BT_KEYS" keys n).1 ->
  (nv_view n "BT_KEYS" = None \/ exists d, nv_view n "BT_KEYS" = Some d /\ Z.of_nat (length d) = KEYS_SIZE) ->
  bt_addr_le_is_rpa a = false ->
  ends (nv_storage_write addr BT_STORAGE_BT_KEYS keys;;
        nv_storage_read irk_matches (Some a) BT_STORAGE_BT_KEYS buf) n
    (fun r n' => r = (if bool_decide (k_addr keys = a) then KEYS_SIZE else 0, keys) /\
       forall name, name <> "BT_KEYS"%string -> nv_view n' name = nv_view n name).
Proof.
  intros Hk Hb Hset Hold Ha.
  assert (Hread : forall n1, nv_view n1 "BT_KEYS" = Some keys ->
    (forall name, name <> "BT_KEYS"%string -> nv_view n1 name = nv_view n name) ->
    ends (nv_storage_read irk_matches (Some a) BT_STORAGE_BT_KEYS buf) n1
      (fun r n' => r = (if bool_decide (k_addr keys = a) then KEYS_SIZE else 0, keys) /\
         forall name, name <> "BT_KEYS"%string -> nv_view n' name = nv_view n name)).
  { intros n1 Hv Ho. unfold nv_storage_read. hoare1. hoare1.
    change (BT_STORAGE_BT_KEYS =? BT_STORAGE_ID_ADDR) with false.
    change (BT_STORAGE_BT_KEYS =? BT_STORAGE_LOCAL_IRK) with false.
    change (BT_STORAGE_BT_KEYS =? BT_STORAGE_BT_KEYS) with true. cbn iota.
    rewrite (nv_get_some "BT_KEYS" _ n1 keys Hv) by lia. hoare1. hoare1.
    eapply ends_lift; [apply blit_whole; lia|]. hoare1.
    destruct (Z.ltb_spec (Z.of_nat (length keys)) 0); [lia|]. hoare1.
    eapply ends_lift; [by apply match_identity|]. hoare1. split; [|done].
    rewrite Hk. by case_bool_decide. }
  hoare1. unfold nv_storage_write.
  change (BT_STORAGE_BT_KEYS =? BT_STORAGE_ID_ADDR) with false.
  change ((BT_STORAGE_BT_KEYS =? BT_STORAGE_LOCAL_IRK) || (BT_STORAGE_BT_KEYS =? BT_STORAGE_BT_KEYS)) with true.
  cbn iota. hoare1. hoare1.
  assert (Hwr : ends (nv_set "BT_KEYS" keys) n (fun _ s' =>
    ends (nv_storage_read irk_matches (Some a) BT_STORAGE_BT_KEYS buf) s'
      (fun r n' => r = (if bool_decide (k_addr keys = a) then KEYS_SIZE else 0, keys) /\
         forall name, name <> "BT_KEYS"%string -> nv_view n' name = nv_view n name))).
  { pose proof (nv_set_ok "BT_KEYS" keys n Hset) as Hv.
    pose proof (nv_set_other "BT_KEYS" keys n) as Ho. unfold ends at 1, nv_set.
    destruct (nvram_config_set "BT_KEYS" keys n) as [r n1]. apply Hread; auto. }
  destruct Hold as [Hnone|(d & Hd & Hdl)].
  - destruct (nv_get_none "BT_KEYS" KEYS_SIZE n Hnone) as [Hneg _].
    destruct (nvram_config_get "BT_KEYS" KEYS_SIZE n) as [ret tmp]. cbn [fst] in Hneg.
    by destruct (Z.leb_spec 0 ret); [lia|].
  - rewrite (nv_get_some "BT_KEYS" KEYS_SIZE n d Hd) by lia.
    destruct (Z.leb_spec 0 (Z.of_nat (length d))); [|lia].
    rewrite Hk, Hdl. cbn [orb Z.ltb Z.compare KEYS_SIZE Pos.compare Pos.compare_cont].
    destruct (bool_decide_reflect (d = take (Z.to_nat KEYS_SIZE) keys)) as [E|E]; [|exact Hwr]. hoare1. apply Hread; [|done].
    rewrite firstn_all2 in E by lia. by subst d.
Qed.

(** Defect: the missing [break] of the LOCAL_IRK case.  The local identity resolving
    key is never stored under its own name: without a bond it is stored as the bond, and
    with one the comparison with the stored bond reads past the 16-byte key. *)
Theorem nv_local_irk_lost addr irk (n : NS) :
  Z.of_nat (length irk) = 16 ->
  (forall r n', nv_storage_write addr BT_STORAGE_LOCAL_IRK irk n = Some (r, n') ->
     nv_view n' "LOCAL_IRK" = nv_view n "LOCAL_IRK") /\
  (nv_view n "BT_KEYS" = None -> 0 <= (nvram_config_set "BT_KEYS" irk n).1 ->
     ends (nv_storage_write addr BT_STORAGE_LOCAL_IRK irk) n (fun _ n' => nv_view n' "BT_KEYS" = Some irk)) /\
  (forall d, nv_view n "BT_KEYS" = Some d -> Z.of_nat (length d) = KEYS_SIZE ->
     nv_storage_write addr BT_STORAGE_LOCAL_IRK irk n = None).
Proof.
  intros Hl. unfold nv_storage_write.
  change (BT_STORAGE_LOCAL_IRK =? BT_STORAGE_ID_ADDR) with false.
  change ((BT_STORAGE_LOCAL_IRK =? BT_STORAGE_LOCAL_IRK) || (BT_STORAGE_LOCAL_IRK =? BT_STORAGE_BT_KEYS)) with true.
  cbn iota. unfold ends, nv_set. munfold. rewrite Hl.
  pose proof (nv_set_other "BT_KEYS" irk n "LOCAL_IRK" ltac:(discriminate)) as Ho.
  split_and!.
  - intros r n'. destruct (nvram_config_get "BT_KEYS" KEYS_SIZE n) as [ret tmp].
    destruct (0 <=? ret); [done|]. intros [= Hs]. by rewrite Hs in Ho.
  - intros Hn Hset. destruct (nv_get_none "BT_KEYS" KEYS_SIZE n Hn) as [Hneg _].
    destruct (nvram_config_get "BT_KEYS" KEYS_SIZE n) as [ret tmp]. cbn [fst] in Hneg.
    destruct (Z.leb_spec 0 ret); [lia|]. pose proof (nv_set_ok "BT_KEYS" irk n Hset) as Hv.
    by destruct (nvram_config_set "BT_KEYS" irk n).
  - intros d Hd Hdl. rewrite (nv_get_some "BT_KEYS" KEYS_SIZE n d Hd) by lia.
    by destruct (Z.leb_spec 0 (Z.of_nat (length d))); [|lia].
Qed.
End NvramFacts.

Section PoolFacts.
Context (irk_matches : list Z -> list Z -> bool).

Record pool_ok (s : pool) : Prop := {
  po_len : length (storage_key_pool s) = 2%nat;
  po_size : Forall (fun k => Z.of_nat (length k) = KEYS_SIZE) (storage_key_pool s);
  po_cnt : 0 <= removeCnt s < 2 ^ 31 - 1
}.

Lemma find_addr_spec l a : forall i,
  (find_addr l a i = None /\ Forall (fun k => k_addr k <> a) l) \/
  (exists j k, find_addr l a i = Some (i + j)%nat /\ l !! j = Some k /\ k_addr k = a /\
     forall j' k', l !! j' = Some k' -> (j' < j)%nat -> k_addr k' <> a).
Proof.
  induction l as [|k l IH]; intros i; cbn [find_addr]; [by left|].
  case_bool_decide as E.
  - right. exists 0%nat, k. split_and!; [f_equal; lia|done|done|]. intros j' k' _ Hj. lia.
  - destruct (IH (S i)) as [[-> Hall]|(j & k' & -> & Hj & Hk & Hmin)]; [left; split; [done|by constructor]|].
    right. exists (S j), k'. split_and!; [f_equal; lia|done|done|].
    intros [|j'] k'' Hj' Hlt; cbn in Hj'; [by injection Hj' as <-|]. apply (Hmin j' k''); [done|lia].
Qed.

Lemma store_keys_spec i k off d s :
  storage_key_pool s !! i = Some k -> 0 <= off -> off + Z.of_nat (length d) <= Z.of_nat (length k) ->
  ends (store_keys i off d) s (fun _ s' => exists k', blit off d k = Some k' /\
    s' = s <| storage_key_pool := <[i := k']> (storage_key_pool s) |>).
Proof.
  intros Hk Ho Hl. destruct (blit_Some off d k Ho Hl) as (k' & Hb & _). unfold store_keys, set_keys.
  hoare1. hoare1. hoare1. eapply ends_lift; [done|]. hoare1. eapply ends_lift; [done|]. hoare1.
  exists k'. by destruct s.
Qed.

Lemma k_addr_blit a k k' : length a = 7%nat -> blit 0 a k = Some k' -> Z.of_nat (length k) = KEYS_SIZE ->
  k_addr k' = a /\ length k' = length k /\
  forall o n, 7 <= o -> 0 <= n -> field o n k' = field o n k.
Proof.
  intros Ha Hb Hk. destruct (blit_Some 0 a k) as (k2 & Hb2 & Hl & Hf & Hoth);
    [lia|rewrite Ha, Hk; unfold KEYS_SIZE; lia|].
  rewrite Hb in Hb2. injection Hb2 as <-. split_and!; [|done|].
  - unfold k_addr, ADDR_LE_SIZE. by rewrite Ha in Hf.
  - intros o n Ho Hn. apply Hoth; lia.
Qed.

Lemma find_addr_insert l a i k : (i < length l)%nat -> k_addr k = a -> Forall (fun k => k_addr k <> a) l ->
  find_addr (<[i := k]> l) a 0 = Some i.
Proof.
  intros Hi Hk Hall. destruct (find_addr_spec (<[i := k]> l) a 0) as [[_ Hno]|(j & k' & -> & Hj & Hk' & Hmin)].
  - exfalso. rewrite Forall_lookup in Hno. apply (Hno i k); [by rewrite list_lookup_insert_eq|done].
  - f_equal. cbn. destruct (decide (j = i)) as [|Hne]; [done|]. exfalso.
    rewrite list_lookup_insert_ne in Hj by done. rewrite Forall_lookup in Hall. by apply (Hall j k').
Qed.

(** [find_bt_keys] for writing, at an identity address: the element [i] found or taken
    then holds the address, is the one a later search finds, and keeps its key material. *)
Record taken (a : list Z) (s : pool) (i : nat) (k0 : list Z) (s' : pool) : Prop := {
  tk_old : storage_key_pool s !! i = Some k0;
  tk_new : exists k, storage_key_pool s' = <[i := k]> (storage_key_pool s) /\ k_addr k = a /\
             length k = length k0 /\ forall o n, 7 <= o -> 0 <= n -> field o n k = field o n k0;
  tk_find : find_addr (storage_key_pool s') a 0 = Some i;
  tk_cnt : 0 <= removeCnt s' <= removeCnt s + 1
}.

Lemma take_elem a s i k0 : pool_ok s -> length a = 7%nat ->
  storage_key_pool s !! i = Some k0 -> Forall (fun k => k_addr k <> a) (storage_key_pool s) ->
  forall s1, storage_key_pool s1 = storage_key_pool s -> 0 <= removeCnt s1 <= removeCnt s + 1 ->
  ends (store_keys i 0 a) s1 (fun _ s' => taken a s i k0 s').
Proof.
  intros [Hl Hs Hc] Ha Hk0 Hno s1 Hs1 Hc1.
  assert (Z.of_nat (length k0) = KEYS_SIZE) as Hkl by (rewrite Forall_lookup in Hs; by apply (Hs i)).
  eapply ends_mono; [apply store_keys_spec; [by rewrite Hs1|lia|rewrite Ha, Hkl; unfold KEYS_SIZE; lia]|].
  intros [] s' (k & Hb & ->). destruct (k_addr_blit a k0 k Ha Hb Hkl) as (Hka & Hlen & Hf).
  constructor; cbn; [done| | |done].
  - exists k. by rewrite Hs1.
  - rewrite Hs1. apply find_addr_insert; [by apply lookup_lt_Some in Hk0|done|done].
Qed.

Lemma find_write_spec a s : pool_ok s -> length a = 7%nat -> bt_addr_le_is_rpa a = false ->
  ends (find_bt_keys irk_matches a STORAGE_WRITE) s (fun r s' => exists i k0, r = Some i /\ taken a s i k0 s').
Proof.
  intros Hok Ha Hrpa. pose proof Hok as [Hl Hs Hc]. unfold find_bt_keys. hoare1. hoare1. rewrite Hrpa. cbn [negb].
  hoare1. hoare1. destruct (find_addr_spec (storage_key_pool s) a 0) as [[Hnf Hno]|(j & k & Hf & Hj & Hk & _)].
  2: { rewrite Hf. hoare. exists j, k. split; [done|]. constructor; [done| |done|lia].
       exists k. split; [by rewrite list_insert_id|done]. }
  rewrite Hnf. destruct (find_addr_spec (storage_key_pool s) BT_ADDR_LE_ANY 0)
    as [[-> _]|(j & k & -> & Hj & _ & _)].
  - assert (0 <= removeCnt s mod key_pool_count < 2) as Hm by (apply Z.mod_pos_bound; done).
    destruct (lookup_lt_is_Some_2 (storage_key_pool s) (Z.to_nat (removeCnt s mod key_pool_count))) as [k0 Hk0]; [lia|].
    destruct (Z.eqb_spec (removeCnt s) (2 ^ 31 - 1)); [lia|]. hoare1. hoare1. hoare1.
    eapply ends_mono; [by apply (take_elem a s _ k0); [..|cbn; lia]|].
    intros [] s' Ht. hoare. eauto.
  - hoare1. eapply ends_mono; [by apply (take_elem a s _ k); [..|lia]|].
    intros [] s' Ht. hoare. eauto.
Qed.

Lemma taken_size a s i k0 s' : pool_ok s -> taken a s i k0 s' ->
  Z.of_nat (length k0) = KEYS_SIZE.
Proof. intros [_ Hs _] [Hk _ _ _]. rewrite Forall_lookup in Hs. by apply (Hs i). Qed.

(** Reading back an element by its address. *)
Lemma read_field_spec a s i k off n data : bt_addr_le_is_rpa a = false ->
  find_addr (storage_key_pool s) a 0 = Some i -> storage_key_pool s !! i = Some k ->
  0 <= off -> 0 <= n -> off + n <= Z.of_nat (length k) -> Z.of_nat (length data) = n ->
  ends (keys ← find_bt_keys irk_matches a STORAGE_READ; s ← get; load_field keys off n (0, data)) s
    (fun r s' => r = (n, field off n k) /\ s' = s).
Proof.
  intros Hrpa Hf Hk Ho Hn Hl Hd. unfold find_bt_keys. repeat hoare1. rewrite Hrpa. cbn [negb].
  hoare1. rewrite Hf. repeat hoare1. unfold load_field. repeat hoare1. eapply ends_lift; [done|].
  hoare1. eapply ends_lift; [apply blit_whole|by hoare1]. unfold field.
  rewrite length_take, length_drop. cbn. lia.
Qed.

Lemma find_addr_same l i k k' a : k_addr k = k_addr k' -> forall j,
  find_addr (<[i := k]> l) a j = find_addr (<[i := k']> l) a j.
Proof.
  intros Hk. revert i. induction l as [|x l IH]; intros [|i] j; cbn [find_addr insert list_insert]; try done.
  - by rewrite Hk.
  - by rewrite IH.
Qed.

(** The fields that survive a write and a read of their own key. *)
Definition key_field (key : Z) : option (Z * Z) :=
  if key =? BT_STORAGE_SLAVE_LTK then Some (OFF_SLAVE_LTK, LTK_SIZE)
  else if key =? BT_STORAGE_LTK then Some (OFF_LTK, LTK_SIZE)
  else if key =? BT_STORAGE_LOCAL_CSRK then Some (OFF_LOCAL_CSRK, CSRK_SIZE)
  else if key =? BT_STORAGE_LTK_P256 then Some (OFF_LTK, LTK_SIZE)
  else None.

Lemma key_field_cases key off n : key_field key = Some (off, n) ->
  (forall addr data, pool_storage_write irk_matches addr key data =
     (keys ← match addr with Some a => find_bt_keys irk_matches a STORAGE_WRITE | None => mret None end;
      s ← get; save_field keys off data 0)) /\
  (forall addr data, pool_storage_read irk_matches addr key data =
     (keys ← match addr with Some a => find_bt_keys irk_matches a STORAGE_READ | None => mret None end;
      s ← get; load_field keys off n (0, data))) /\ 7 <= off /\ 0 < n /\ off + n <= KEYS_SIZE.
Proof.
  unfold key_field. intros Hkf. repeat (case_cmp_in Hkf; [subst key; injection Hkf as <- <-; done|]). done.
Qed.

(** The pool returns what was written: for an identity address and each of the four
    well-behaved keys (slave LTK, LTK, local CSRK, P-256 LTK), a write, whether it finds
    the bond, takes a free element or evicts one, followed by a read of the same key
    returns the data. *)
Theorem pool_roundtrip a key off n data buf s :
  pool_ok s -> length a = 7%nat -> bt_addr_le_is_rpa a = false ->
  key_field key = Some (off, n) -> Z.of_nat (length data) = n -> Z.of_nat (length buf) = n ->
  ends (pool_storage_write irk_matches (Some a) key data;;
        pool_storage_read irk_matches (Some a) key buf) s
    (fun r _ => r = (n, data)).
Proof.
  intros Hok Ha Hrpa Hkf Hd Hb. destruct (key_field_cases key off n Hkf) as (Hw & Hr & Ho & Hn & Hs).
  rewrite Hw, Hr. hoare1. hoare1. eapply ends_mono; [by apply find_write_spec|].
  intros r s1 (i & k0 & -> & Ht). pose proof (taken_size a s i k0 s1 Hok Ht) as Hk0.
  destruct Ht as [Hold (k & Hp & Hka & Hlk & Hfk) Hf Hc]. hoare1. hoare1. unfold save_field. hoare1.
  assert (storage_key_pool s1 !! i = Some k) as Hki
    by (rewrite Hp; apply list_lookup_insert_eq; by apply lookup_lt_Some in Hold).
  eapply ends_mono; [by apply (store_keys_spec i k); [|lia..]|]. intros [] s2 (k2 & Hb2 & ->). hoare1.
  destruct (blit_Some off data k) as (k2' & Hb2' & Hl2 & Hf2 & Hoth); [lia|lia|].
  rewrite Hb2 in Hb2'. injection Hb2' as <-. rewrite Hd in Hf2, Hoth.
  assert (k_addr k2 = a) as Hka2 by (unfold k_addr, ADDR_LE_SIZE in *; rewrite Hoth; [done|lia..]).
  eapply ends_mono; [apply (read_field_spec a _ i k2 off n buf)|]; cbn; try done; try lia.
  - rewrite <- Hf. rewrite Hp. rewrite list_insert_insert_eq. apply find_addr_same; congruence.
  - apply list_lookup_insert_eq. by apply lookup_lt_Some in Hki.
  - intros r s3 [-> _]. by rewrite Hf2.
Qed.

(** A write below [off] after taking an element: the element and its contents. *)
Lemma write_elem a off data s (s1 : pool) i k0 : pool_ok s -> taken a s i k0 s1 -> length a = 7%nat ->
  7 <= off -> off + Z.of_nat (length data) <= KEYS_SIZE ->
  ends (store_keys i off data) s1 (fun _ s2 => exists k,
    storage_key_pool s2 !! i = Some k /\ k_addr k = a /\ find_addr (storage_key_pool s2) a 0 = Some i /\
    Z.of_nat (length k) = KEYS_SIZE /\ field off (Z.of_nat (length data)) k = data /\
    forall o n, 7 <= o -> 0 <= n -> o + n <= off \/ off + Z.of_nat (length data) <= o ->
      field o n k = field o n k0).
Proof.
  intros Hok Ht Ha Ho Hs. pose proof (taken_size a s i k0 s1 Hok Ht) as Hk0.
  destruct Ht as [Hold (k & Hp & Hka & Hlk & Hfk) Hf Hc].
  assert (storage_key_pool s1 !! i = Some k) as Hki
    by (rewrite Hp; apply list_lookup_insert_eq; by apply lookup_lt_Some in Hold).
  eapply ends_mono; [by apply (store_keys_spec i k); [|lia..]|]. intros [] s2 (k2 & Hb2 & ->).
  destruct (blit_Some off data k) as (k2' & Hb2' & Hl2 & Hf2 & Hoth); [lia|lia|].
  rewrite Hb2 in Hb2'. injection Hb2' as <-.
  assert (k_addr k2 = a) as Hka2 by (unfold k_addr, ADDR_LE_SIZE in *; rewrite Hoth; [done|lia..]).
  exists k2. cbn. split_and!; [|done| |lia|done|].
  - apply list_lookup_insert_eq. by apply lookup_lt_Some in Hki.
  - rewrite <- Hf. rewrite Hp. rewrite list_insert_insert_eq. apply find_addr_same; congruence.
  - intros o n Ho' Hn Hd. by rewrite Hoth, Hfk by lia.
Qed.

(** Defect: the missing [break] of the REMOTE_CSRK case.  Writing a peer's signature
    key also overwrites the first bytes of its long-term key, so that the link can no
    longer be encrypted, and reading it back copies the 32-byte long-term key over the
    caller's 20-byte buffer. *)
Theorem remote_csrk_overwrites_ltk a d buf s :
  pool_ok s -> length a = 7%nat -> bt_addr_le_is_rpa a = false ->
  Z.of_nat (length d) = CSRK_SIZE -> Z.of_nat (length buf) = CSRK_SIZE ->
  ends (pool_storage_write irk_matches (Some a) BT_STORAGE_REMOTE_CSRK d) s
    (fun _ s' => exists i k, storage_key_pool s' !! i = Some k /\ k_addr k = a /\
       field OFF_REMOTE_CSRK CSRK_SIZE k = d /\ field OFF_LTK CSRK_SIZE k = d /\
       pool_storage_read irk_matches (Some a) BT_STORAGE_REMOTE_CSRK buf s' = None).
Proof.
  intros Hok Ha Hrpa Hd Hb. unfold pool_storage_write. hoare1.
  eapply ends_mono; [by apply find_write_spec|]. intros r s1 (i & k0 & -> & Ht). hoare1. hoare1.
  cbn [Z.eqb Pos.eqb BT_STORAGE_ID_ADDR BT_STORAGE_LOCAL_IRK BT_STORAGE_SLAVE_LTK BT_STORAGE_LTK
       BT_STORAGE_LOCAL_CSRK BT_STORAGE_REMOTE_CSRK].
  unfold save_field. hoare1. hoare1.
  eapply ends_mono; [apply (write_elem a OFF_REMOTE_CSRK d s s1 i k0); try done; rewrite Hd; done|].
  intros [] s2 (k & Hk & Hka & Hfa & Hkl & Hfd & _). rewrite Hd in Hfd. hoare1. hoare1.
  eapply ends_mono; [apply (store_keys_spec i k); [done|done|rewrite Hd, Hkl; done]|].
  intros [] s3 (k3 & Hb3 & ->). hoare1.
  destruct (blit_Some OFF_LTK d k) as (k3' & Hb3' & Hl3 & Hf3 & Hoth); [done|rewrite Hd, Hkl; done|].
  rewrite Hb3 in Hb3'. injection Hb3' as <-. rewrite Hd in Hf3, Hoth.
  assert (k_addr k3 = a) as Hka3
    by (unfold k_addr, ADDR_LE_SIZE, OFF_LTK in *; rewrite Hoth; [done|lia..]).
  assert (storage_key_pool s2 !! i = Some k /\ (i < length (storage_key_pool s2))%nat) as [_ Hlt]
    by (split; [done|by apply lookup_lt_Some in Hk]).
  exists i, k3. cbn [storage_key_pool set_field]. split_and!; [by apply list_lookup_insert_eq|done| |done|].
  - unfold OFF_REMOTE_CSRK, OFF_LTK, CSRK_SIZE in *. rewrite Hoth; [done|lia..].
  - unfold pool_storage_read, find_bt_keys. munfold. rewrite Hrpa. cbn [negb storage_key_pool set_field].
    rewrite (find_addr_same _ i k3 k) by congruence. rewrite list_insert_id by done. rewrite Hfa.
    cbn [Z.eqb Pos.eqb BT_STORAGE_ID_ADDR BT_STORAGE_LOCAL_IRK BT_STORAGE_SLAVE_LTK BT_STORAGE_LTK
       BT_STORAGE_LOCAL_CSRK BT_STORAGE_REMOTE_CSRK]. unfold load_field. munfold.
    cbn [storage_key_pool set_field snd]. rewrite list_lookup_insert_eq by done.
    rewrite blit_whole by (unfold field; rewrite length_take, length_drop; cbn -[OFF_REMOTE_CSRK CSRK_SIZE];
      unfold OFF_REMOTE_CSRK, CSRK_SIZE, KEYS_SIZE in *; lia).
    cbn [snd storage_key_pool set_field]. rewrite list_lookup_insert_eq by done.
    unfold blit. change (0 <=? 0) with true. cbn [andb].
    match goal with |- context [?x <=? ?y] => destruct (Z.leb_spec x y) as [Hle|]; [|done] end.
    exfalso. unfold field in Hle. rewrite !length_take, !length_drop in Hle.
    unfold OFF_REMOTE_CSRK, OFF_LTK, LTK_SIZE, CSRK_SIZE, KEYS_SIZE in *. lia.
Qed.

(** Defect: when the pool is full, the element taken for a new device only gets the
    new address; the key material of the evicted bond stays.  After the new device's
    long-term key was written, its slave long-term key reads back as the evicted
    device's. *)
Theorem eviction_keeps_keys a ltk buf s k0 :
  pool_ok s -> length a = 7%nat -> bt_addr_le_is_rpa a = false ->
  Forall (fun k => k_addr k <> a /\ k_addr k <> BT_ADDR_LE_ANY) (storage_key_pool s) ->
  storage_key_pool s !! Z.to_nat (removeCnt s mod key_pool_count) = Some k0 ->
  Z.of_nat (length ltk) = LTK_SIZE -> Z.of_nat (length buf) = LTK_SIZE ->
  ends (pool_storage_write irk_matches (Some a) BT_STORAGE_LTK ltk;;
        pool_storage_read irk_matches (Some a) BT_STORAGE_SLAVE_LTK buf) s
    (fun r _ => r = (LTK_SIZE, field OFF_SLAVE_LTK LTK_SIZE k0)).
Proof.
  intros Hok Ha Hrpa Hfull Hk0 Hl Hb. pose proof Hok as [Hlen Hs Hc].
  assert (Forall (fun k => k_addr k <> a) (storage_key_pool s)) as Hna
    by (eapply Forall_impl; [exact Hfull|]; cbn; tauto).
  hoare1. destruct (key_field_cases BT_STORAGE_LTK _ _ eq_refl) as (Hw & _).
  destruct (key_field_cases BT_STORAGE_SLAVE_LTK _ _ eq_refl) as (_ & Hr & _). rewrite Hw, Hr.
  assert (Hfind : ends (find_bt_keys irk_matches a STORAGE_WRITE) s (fun r s' =>
    r = Some (Z.to_nat (removeCnt s mod key_pool_count)) /\
    taken a s (Z.to_nat (removeCnt s mod key_pool_count)) k0 s')).
  { unfold find_bt_keys. repeat hoare1. rewrite Hrpa. cbn [negb]. repeat hoare1.
    destruct (find_addr_spec (storage_key_pool s) a 0) as [[-> _]|(j & k & _ & Hj & Hk & _)].
    2: { exfalso. rewrite Forall_lookup in Hna. by apply (Hna j k). }
    destruct (find_addr_spec (storage_key_pool s) BT_ADDR_LE_ANY 0) as [[-> _]|(j & k & _ & Hj & Hk & _)].
    2: { exfalso. rewrite Forall_lookup in Hfull. by apply (Hfull j k Hj). }
    destruct (Z.eqb_spec (removeCnt s) (2 ^ 31 - 1)); [lia|]. repeat hoare1.
    eapply ends_mono; [by apply (take_elem a s _ k0); [..|cbn; lia]|].
    intros [] s' Ht. by hoare. }
  hoare1. eapply ends_mono; [exact Hfind|]. intros r s1 [-> Ht]. hoare1. hoare1. unfold save_field. hoare1.
  eapply ends_mono; [apply (write_elem a OFF_LTK ltk s s1 _ k0); try done; rewrite Hl; done|].
  intros [] s2 (k & Hk & Hka & Hfa & Hkl & _ & Hoth). hoare1.
  eapply ends_mono; [apply (read_field_spec a s2 (Z.to_nat (removeCnt s mod key_pool_count)) k OFF_SLAVE_LTK LTK_SIZE buf); try done; by rewrite Hkl|].
  intros r s3 [-> _]. f_equal. rewrite Hl in Hoth. apply Hoth; unfold OFF_SLAVE_LTK, OFF_LTK, LTK_SIZE; lia.
Qed.
End PoolFacts.

(** ** Concrete instances *)
Definition addr1 : list Z := [0; 1; 2; 3; 4; 5; 6].
Definition addr2 : list Z := [0; 9; 9; 9; 9; 9; 9].
Definition keys_of (a : list Z) (x : Z) : list Z := a ++ replicate 137 x.
Definition never : list Z -> list Z -> bool := fun _ _ => false.

Lemma nv_bond_roundtrip_witness :
  ends (nv_storage_write None BT_STORAGE_BT_KEYS (keys_of addr1 5);;
        nv_storage_read never (Some addr1) BT_STORAGE_BT_KEYS (replicate 144 0)) (∅ : gmap string (list Z))
    (fun r n' => r = (KEYS_SIZE, keys_of addr1 5)).
Proof.
  eapply ends_mono; [apply (nv_bond_roundtrip never None addr1 (keys_of addr1 5) (replicate 144 0) (∅ : gmap string (list Z)));
    [done|done|done|by left|done]|].
  intros r n' [-> _]. reflexivity.
Defined.

Lemma nv_local_irk_lost_witness :
  ends (nv_storage_write None BT_STORAGE_LOCAL_IRK (replicate 16 7)) (∅ : gmap string (list Z))
    (fun _ n' => nv_view n' "BT_KEYS" = Some (replicate 16 7)).
Proof. destruct (nv_local_irk_lost None (replicate 16 7) (∅ : gmap string (list Z)) eq_refl) as (_ & H & _). by apply H. Defined.

Lemma pool0_ok : pool_ok pool0.
Proof. constructor; [done|by repeat constructor|cbn; lia]. Qed.
Definition pool_full : pool := pool0 <| storage_key_pool := [keys_of addr1 5; keys_of addr2 6] |>.
Lemma pool_full_ok : pool_ok pool_full.
Proof. constructor; [done|by repeat constructor|cbn; lia]. Qed.

Lemma pool_roundtrip_witness :
  ends (pool_storage_write never (Some addr1) BT_STORAGE_LTK (replicate 32 3);;
        pool_storage_read never (Some addr1) BT_STORAGE_LTK (replicate 32 0)) pool0
    (fun r _ => r = (32, replicate 32 3)).
Proof. apply (pool_roundtrip never addr1 BT_STORAGE_LTK OFF_LTK LTK_SIZE); try done. exact pool0_ok. Defined.

Lemma remote_csrk_overwrites_ltk_witness :
  ends (pool_storage_write never (Some addr1) BT_STORAGE_REMOTE_CSRK (replicate 20 3)) pool_full
    (fun _ s' => exists i k, storage_key_pool s' !! i = Some k /\ k_addr k = addr1 /\
       field OFF_REMOTE_CSRK CSRK_SIZE k = replicate 20 3 /\ field OFF_LTK CSRK_SIZE k = replicate 20 3 /\
       pool_storage_read never (Some addr1) BT_STORAGE_REMOTE_CSRK (replicate 20 0) s' = None).
Proof. apply (remote_csrk_overwrites_ltk never addr1 (replicate 20 3) (replicate 20 0) pool_full pool_full_ok); done. Defined.

Lemma eviction_keeps_keys_witness :
  ends (pool_storage_write never (Some [0; 7; 7; 7; 7; 7; 7]) BT_STORAGE_LTK (replicate 32 3);;
        pool_storage_read never (Some [0; 7; 7; 7; 7; 7; 7]) BT_STORAGE_SLAVE_LTK (replicate 32 0)) pool_full
    (fun r _ => r = (LTK_SIZE, field OFF_SLAVE_LTK LTK_SIZE (keys_of addr1 5))).
Proof.
  apply (eviction_keeps_keys never [0; 7; 7; 7; 7; 7; 7] (replicate 32 3) (replicate 32 0) pool_full (keys_of addr1 5) pool_full_ok);
    try done. by repeat constructor.
Defined.
