(* ===== verification/HostPatch.v ===== *)
(** * Patches of the Bluetooth host (subsys/bluetooth/host/bt_host_patch.c)

    The delayed connection-parameter update, the end of a pairing, the persistence of
    client characteristic configurations (CCC) and the local LE features.  The host's own
    objects appear as the records of the fields the patches use; its calls are recorded. *)
From S2P Require Import Prelude FlashNor Nvram BtStorage.

(** ** Connection parameter update *)
Definition BT_HCI_ROLE_MASTER : Z := 0.
Definition UPDATE_DELAY_MAX : Z := 30.

Inductive le_eff :=
| LeDisconnect
| LeResubmit (delay : Z)            (* k_delayed_work_submit(&conn->le.update_work, ..) *)
| LeParamUpdate (from_config : bool).

(** [update_delay_times] is a u8_t counter shared by all connections. *)
Definition update_conn_param_new (role bt_conn_update_timeout : Z) : le_eff :=
  LeResubmit (if role =? BT_HCI_ROLE_MASTER then 0 else bt_conn_update_timeout).

Definition le_conn_update_new (connecting : bool) (app_ready : option bool) (has_cfg : bool)
    (role timeout : Z) (update_delay_times : Z) : le_eff * Z :=
  if connecting then (LeDisconnect, update_delay_times)
  else
    match app_ready with
    | Some false =>
        (* the counter is incremented by the comparison itself *)
        if update_delay_times <? UPDATE_DELAY_MAX
        then (update_conn_param_new role timeout, u8 (update_delay_times + 1))
        else (LeParamUpdate has_cfg, 0)
    | _ => (LeParamUpdate has_cfg, 0)
    end.

(** ** ATT: releasing the transmit semaphore *)
Inductive att_eff := SemGive | StartTimeout (ms : Z).
Definition ATT_TIMEOUT : Z := 30000.
Definition att_cfm_sent_new (att : bool) : list att_eff := if att then [SemGive] else [].
Definition att_rsp_sent_new (att : bool) : list att_eff := if att then [SemGive] else [].
Definition att_req_sent_new (att req : bool) : list att_eff :=
  if att then SemGive :: (if req then [StartTimeout ATT_TIMEOUT] else []) else [].

(** ** The end of a pairing *)
Definition SMP_FLAG_BOND : Z := 10.
Definition BT_SMP_CMD_PAIRING_REQ : Z := 0x01.
Definition BT_SMP_CMD_SECURITY_REQUEST : Z := 0x0b.
Definition JUST_WORKS : Z := 0.

Record smp_state {NS : Type} := SmpState {
  smp_flags : Z;               (* atomic_t [] *)
  allowed_cmds : Z;            (* atomic_t *)
  smp_method : Z;
  smp_timer : bool;            (* the timeout work is pending *)
  smp_role : Z;
  sec_level : Z;
  required_sec_level : Z;
  smp_keys : list Z;           (* conn->le.keys *)
  smp_nv : NS
}.
#[global] Arguments smp_state : clear implicits.
#[global] Arguments SmpState {NS}.
#[export] Instance eta_smp_state {NS} : EtaRecord (smp_state NS) := fun r =>
  SmpState (smp_flags r) (allowed_cmds r) (smp_method r) (smp_timer r) (smp_role r) (sec_level r)
    (required_sec_level r) (smp_keys r) (smp_nv r).

Section Host.
Context `{NV : Nvram NS}.

Definition smp_reset_new : M (smp_state NS) unit :=
  s ← get;
  when (Z.testbit (smp_flags s) SMP_FLAG_BOND)
    (fun s => match nv_storage_write (Some (k_addr (smp_keys s))) BT_STORAGE_BT_KEYS (smp_keys s) (smp_nv s) with
              | Some (_, n) => Some (tt, s <| smp_nv := n |>)
              | None => None
              end);;
  modify (fun s => s <| smp_timer := false |> <| smp_method := JUST_WORKS |>
                     <| allowed_cmds := 0 |> <| smp_flags := 0 |>);;
  s ← get;
  when (negb (required_sec_level s =? sec_level s))
    (modify (fun s => s <| required_sec_level := sec_level s |>));;
  if smp_role s =? BT_HCI_ROLE_MASTER then
    modify (fun s => s <| allowed_cmds ::= (fun a => Z.lor a (Z.shiftl 1 BT_SMP_CMD_SECURITY_REQUEST)) |>)
  else
    modify (fun s => s <| allowed_cmds ::= (fun a => Z.lor a (Z.shiftl 1 BT_SMP_CMD_PAIRING_REQ)) |>).

(** ** Client characteristic configurations *)
(** CONFIG_CCC_STORE_MAX *)
Context (CCC_STORE_MAX : Z).

Record ccc_save := CccSave {
  cs_addr : list Z;               (* bt_addr_le_t *)
  cs_store : list (Z * Z);        (* handle, value *)
  cs_count : Z                    (* size_t *)
}.
#[export] Instance eta_ccc_save : EtaRecord ccc_save := fun r => CccSave (cs_addr r) (cs_store r) (cs_count r).

Definition ccc_zero : ccc_save :=
  CccSave BT_ADDR_LE_ANY (replicate (Z.to_nat CCC_STORE_MAX) (0, 0)) 0.

(** The structure's memory image, which is what the settings store holds. *)
Definition le16 (n : Z) : list Z := [u8 n; u8 (Z.shiftr n 8)].
Definition le32 (n : Z) : list Z := [u8 n; u8 (Z.shiftr n 8); u8 (Z.shiftr n 16); u8 (Z.shiftr n 24)].
Definition encode_ccc (c : ccc_save) : list Z :=
  cs_addr c ++ [0] ++ concat ((fun e => le16 e.1 ++ le16 e.2) <$> cs_store c) ++ le32 (cs_count c).
Definition rd16 (l : list Z) (o : nat) : Z := nth o l 0 + 256 * nth (o + 1) l 0.
Definition rd32 (l : list Z) (o : nat) : Z := rd16 l o + 65536 * rd16 l (o + 2).
Definition decode_ccc (l : list Z) : ccc_save :=
  CccSave (take 7 l)
    ((fun i => (rd16 l (8 + 4 * i), rd16 l (8 + 4 * i + 2))) <$> seq 0 (Z.to_nat CCC_STORE_MAX))
    (rd32 l (8 + 4 * Z.to_nat CCC_STORE_MAX)).
Definition CCC_SAVE_SIZE : Z := 8 + 4 * CCC_STORE_MAX + 4.

(** An attribute of the local GATT database and its CCC, if it is one. *)
Record gatt_attr := GattAttr {
  ga_handle : Z;
  ga_is_ccc : bool;                  (* attr->write == bt_gatt_attr_write_ccc *)
  ga_cfg : list (list Z * Z);        (* ccc->cfg[]: peer and value *)
  ga_value : Z;                      (* ccc->value *)
  ga_has_cb : bool                   (* ccc->cfg_changed != NULL *)
}.
#[export] Instance eta_gatt_attr : EtaRecord gatt_attr := fun r =>
  GattAttr (ga_handle r) (ga_is_ccc r) (ga_cfg r) (ga_value r) (ga_has_cb r).

Record host := Host {
  ccc_save_storage : ccc_save;
  gatt : list gatt_attr;
  cfg_changed : list (Z * Z);        (* callbacks made: handle and value *)
  host_nv : NS
}.
#[export] Instance eta_host : EtaRecord host := fun r =>
  Host (ccc_save_storage r) (gatt r) (cfg_changed r) (host_nv r).

(** CONFIG_NVRAM_CONFIG; the host's attribute iterator and its bond lookup. *)
Context (nvram_config : bool) (bt_gatt_foreach_attr : (nat -> M host Z) -> M host unit)
  (bt_addr_le_is_bonded : list Z -> bool).

Definition set_ccc (f : ccc_save -> ccc_save) : M host unit := modify (fun s => s <| ccc_save_storage ::= f |>).

(** The scan of the first [n] entries; it is undefined when it runs off the table. *)
Fixpoint find_handle (l : list (Z * Z)) (n : nat) (h i : Z) : option (option Z) :=
  match n with
  | O => Some None
  | S n' =>
      match l with
      | [] => None
      | e :: l' => if e.1 =? h then Some (Some i) else find_handle l' n' h (i + 1)
      end
  end.

(** -1 when the handle is new and the table is full. *)
Definition ccc_store_find (handle : Z) : M host Z :=
  s ← get;
  let c := ccc_save_storage s in
  found ← lift (find_handle (cs_store c) (Z.to_nat (cs_count c)) handle 0);
  match found with
  | Some i => mret i
  | None =>
      if cs_count c <? CCC_STORE_MAX then
        set_ccc (fun c => c <| cs_count ::= (fun n => n + 1) |>);; mret (cs_count c)
      else mret (-1)
  end.

Definition save_ccc : M host Z := fun s =>
  let '(r, n) := nvram_config_set "BT_CCC" (encode_ccc (ccc_save_storage s)) (host_nv s) in
  Some (r, s <| host_nv := n |>).

Definition bt_gatt_store_ccc (addr : list Z) (p : Z * Z) : M host unit :=
  s ← get;
  when (negb (bool_decide (addr = cs_addr (ccc_save_storage s))))
    (set_ccc (fun _ => ccc_zero);; set_ccc (fun c => c <| cs_addr := addr |>));;
  i ← ccc_store_find p.1;
  if 0 <=? i then
    s ← get;
    e ← lift (rd (cs_store (ccc_save_storage s)) i);
    when (negb (bool_decide (e = p)))
      (st ← lift (wr (cs_store (ccc_save_storage s)) i p);
       set_ccc (fun c => c <| cs_store := st |>);;
       when nvram_config (save_ccc;; mret tt))
  else mret tt.

Definition BT_GATT_ITER_STOP : Z := 0.
Definition BT_GATT_ITER_CONTINUE : Z := 1.

Definition set_attr (j : nat) (a : gatt_attr) : M host unit := modify (fun s => s <| gatt ::= <[j := a]> |>).
Definition call_changed (a : gatt_attr) (v : Z) : M host unit :=
  if ga_has_cb a then modify (fun s => s <| cfg_changed ::= (fun l => l ++ [(ga_handle a, v)]) |>) else ub.

(** [cfg[0]] of an attribute. *)
Definition set_cfg0 (f : list Z * Z -> list Z * Z) (a : gatt_attr) : option gatt_attr :=
  match ga_cfg a with e :: r => Some (a <| ga_cfg := f e :: r |>) | [] => None end.

(** The iterator's callback at the [j]-th attribute. *)
Definition ccc_load (j : nat) : M host Z :=
  s ← get;
  a ← lift (gatt s !! j);
  let load := ccc_save_storage s in
  if negb (ga_is_ccc a) then mret BT_GATT_ITER_CONTINUE
  else if cs_count load =? 0 then mret BT_GATT_ITER_STOP
  else
    found ← lift (find_handle (cs_store load) (Z.to_nat (cs_count load)) (ga_handle a) 0);
    match found with
    | None => mret BT_GATT_ITER_CONTINUE
    | Some i =>
        e ← lift (rd (cs_store load) i);
        a ← lift (set_cfg0 (fun _ => (cs_addr load, e.2)) a);
        let a := a <| ga_value := e.2 |> in
        set_attr j a;;
        call_changed a e.2;;
        mret BT_GATT_ITER_CONTINUE
    end.

(** Loading the saved table over the one in RAM. *)
Definition load_save : M host Z := fun s =>
  if nvram_config then
    let '(ret, bytes) := nvram_config_get "BT_CCC" CCC_SAVE_SIZE (host_nv s) in
    match blit 0 bytes (encode_ccc (ccc_save_storage s)) with
    | Some img => Some (ret, if 0 <=? ret then s <| ccc_save_storage := decode_ccc img |> else s)
    | None => None
    end
  else Some (0, s).

Definition bt_gatt_load_ccc : M host unit :=
  ret ← load_save;
  when (0 <=? ret) (bt_gatt_foreach_attr ccc_load).

Definition ccc_clear (j : nat) : M host Z :=
  s ← get;
  a ← lift (gatt s !! j);
  if negb (ga_is_ccc a) then mret BT_GATT_ITER_CONTINUE
  else
    match ga_cfg a with
    | [] => ub
    | (peer, v) :: r =>
        when (ga_has_cb a && (truthy (ga_value a) || truthy v))
          (set_attr j (a <| ga_value := 0 |> <| ga_cfg := (peer, 0) :: r |>);;
           call_changed a 0);;
        mret BT_GATT_ITER_CONTINUE
    end.

Definition bt_gatt_clear_ccc : M host unit :=
  when nvram_config (set_ccc (fun _ => ccc_zero);; save_ccc;; mret tt);;
  bt_gatt_foreach_attr ccc_clear.

(** The largest value any peer configured. *)
Definition max_value (cfg : list (list Z * Z)) : Z := foldl (fun v e => if v <? e.2 then e.2 else v) 0 cfg.

Definition gatt_ccc_changed_new (j : nat) : M host unit :=
  s ← get;
  a ← lift (gatt s !! j);
  let value := max_value (ga_cfg a) in
  when (negb (value =? ga_value a))
    (let a := a <| ga_value := value |> in
     set_attr j a;;
     call_changed a value;;
     match ga_cfg a with
     | [] => ub
     | (peer, _) :: _ => when (bt_addr_le_is_bonded peer) (bt_gatt_store_ccc peer (ga_handle a, value))
     end).
End Host.

(** ** Local LE features *)
Definition ENOBUFS : Z := 55.
Inductive feat_eff := SetFeatures (f : list Z) | UnrefRsp.
(** [read] is the answer to the read command: an error, or a status and eight feature
    bytes; [bufs] tells whether a command buffer is available, [send] the result of the
    set command. *)
Definition hci_vs_set_local_feat (bufs : bool) (send : Z) (feat : list Z) : Z * list feat_eff :=
  if bufs then (send, [SetFeatures feat]) else (- ENOBUFS, []).

Definition hci_set_le_local_feat (read : Z * Z * list Z) (bufs : bool) (send feat flag : Z)
  : option (list feat_eff) :=
  let '(err, status, features) := read in
  if truthy err then Some []
  else if truthy status then Some []          (* the response buffer is not released *)
  else
    match rd features (Z.shiftr feat 3) with
    | None => None
    | Some b =>
        let bit := Z.shiftl 1 (Z.land feat 7) in
        let b' := if truthy flag then u8 (Z.lor b bit) else u8 (Z.land b (Z.lnot bit)) in
        match wr features (Z.shiftr feat 3) b' with
        | None => None
        | Some f => Some ((hci_vs_set_local_feat bufs send f).2 ++ [UnrefRsp])
        end
    end.

(** * Theorems *)

(** ** The deferred update *)
(** [k] expiries of the update timer while the application is not ready. *)
Fixpoint expiries (k : nat) (role timeout times : Z) : list le_eff * Z :=
  match k with
  | O => ([], times)
  | S k' =>
      let '(e, times) := le_conn_update_new false (Some false) true role timeout times in
      let '(es, times) := expiries k' role timeout times in (e :: es, times)
  end.

Lemma expiries_S k role timeout times :
  expiries (S k) role timeout times
  = let '(e, times) := le_conn_update_new false (Some false) true role timeout times in
    let '(es, times) := expiries k role timeout times in (e :: es, times).
Proof. done. Qed.

(**  An application that is never ready delays the connection-parameter update, but
    not for ever: starting from any counter value the update is submitted again at most
    [30 - counter] times, the next expiry sends the request and the counter restarts. *)
Theorem conn_update_not_starved role timeout times :
  0 <= times < 256 ->
  let k := Z.to_nat (UPDATE_DELAY_MAX - times) in
  expiries (S k) role timeout times
  = (replicate k (update_conn_param_new role timeout) ++ [LeParamUpdate true], 0).
Proof.
  intros Ht k. assert (Z.of_nat k = Z.max 0 (UPDATE_DELAY_MAX - times)) as Hk by (subst k; lia).
  clearbody k. revert times Ht Hk. unfold UPDATE_DELAY_MAX.
  induction k as [|k IH]; intros times Ht Hk; rewrite expiries_S; cbn [le_conn_update_new].
  - unfold UPDATE_DELAY_MAX. destruct (Z.ltb_spec times 30); [lia|done].
  - unfold UPDATE_DELAY_MAX at 1. destruct (Z.ltb_spec times 30); [|lia].
    rewrite u8_small, IH by lia. done.
Qed.

Lemma conn_update_not_starved_witness :
  expiries 3 1 5000 28 = ([LeResubmit 5000; LeResubmit 5000; LeParamUpdate true], 0).
Proof. exact (conn_update_not_starved 1 5000 28 ltac:(lia)). Defined.

Section HostFacts.
Context `{NL : NvramLaws NS}.

(**  The end of a pairing with bonding makes the bond persistent and leaves a clean
    pairing state: the settings store holds the keys (unless the store fails), nothing
    else in it changed, the timer is stopped, no flag is left, the required security level
    is the one reached, and only the role's first pairing command is accepted next. *)
Theorem smp_reset_persists_bond (s : smp_state NS) :
  Z.of_nat (length (smp_keys s)) = KEYS_SIZE ->
  Z.testbit (smp_flags s) SMP_FLAG_BOND = true ->
  0 <= (nvram_config_set "BT_KEYS" (smp_keys s) (smp_nv s)).1 ->
  (nv_view (smp_nv s) "BT_KEYS" = None \/
   exists d, nv_view (smp_nv s) "BT_KEYS" = Some d /\ Z.of_nat (length d) = KEYS_SIZE) ->
  ends smp_reset_new s (fun _ s' =>
    nv_view (smp_nv s') "BT_KEYS" = Some (smp_keys s) /\
    (forall name, name <> "BT_KEYS"%string -> nv_view (smp_nv s') name = nv_view (smp_nv s) name) /\
    smp_timer s' = false /\ smp_flags s' = 0 /\ smp_method s' = JUST_WORKS /\
    required_sec_level s' = sec_level s /\ sec_level s' = sec_level s /\
    allowed_cmds s' = if smp_role s =? BT_HCI_ROLE_MASTER then 2 ^ 11 else 2 ^ 1).
Proof.
  intros Hk Hbond Hset Hold. unfold smp_reset_new. hoare1. hoare1. hoare1. rewrite Hbond. unfold when at 1.
  assert (Hw : exists r n, nv_storage_write (Some (k_addr (smp_keys s))) BT_STORAGE_BT_KEYS (smp_keys s) (smp_nv s)
    = Some (r, n) /\ nv_view n "BT_KEYS" = Some (smp_keys s) /\
    forall name, name <> "BT_KEYS"%string -> nv_view n name = nv_view (smp_nv s) name).
  { unfold nv_storage_write, nv_set. munfold.
    change (BT_STORAGE_BT_KEYS =? BT_STORAGE_ID_ADDR) with false.
    change ((BT_STORAGE_BT_KEYS =? BT_STORAGE_LOCAL_IRK) || (BT_STORAGE_BT_KEYS =? BT_STORAGE_BT_KEYS)) with true.
    cbn iota. pose proof (nv_set_ok "BT_KEYS" _ _ Hset) as Hv.
    pose proof (nv_set_other "BT_KEYS" (smp_keys s) (smp_nv s)) as Ho.
    destruct (nvram_config_set "BT_KEYS" (smp_keys s) (smp_nv s)) as [r n] eqn:En. cbn [fst snd] in *.
    destruct Hold as [Hnone|(d & Hd & Hdl)].
    - destruct (nv_get_none "BT_KEYS" KEYS_SIZE _ Hnone) as [Hneg _].
      destruct (nvram_config_get "BT_KEYS" KEYS_SIZE (smp_nv s)) as [ret tmp]. cbn [fst] in Hneg.
      destruct (Z.leb_spec 0 ret); [lia|]. exists r, n. by rewrite En.
    - rewrite (nv_get_some "BT_KEYS" KEYS_SIZE _ d Hd) by lia.
      destruct (Z.leb_spec 0 (Z.of_nat (length d))); [|lia].
      rewrite Hk, Hdl. cbn [orb Z.ltb Z.compare KEYS_SIZE Pos.compare Pos.compare_cont].
      destruct (bool_decide_reflect (d = take (Z.to_nat KEYS_SIZE) (smp_keys s))) as [E|E];
        [|exists r, n; by rewrite En].
      eexists _, _. split; [done|]. split; [|done]. rewrite firstn_all2 in E by lia. by subst d. }
  destruct Hw as (r & n & Hw & Hv & Ho). unfold ends at 1. rewrite Hw. hoare1. hoare1. hoare1. hoare1. hoare1.
  cbn [required_sec_level sec_level set_field smp_nv].
  apply ends_when; intros Hr; [hoare1; cbn [smp_role set_field]|];
    cbn [smp_role set_field]; destruct (smp_role s =? BT_HCI_ROLE_MASTER); hoare1; cbn; split_and!; try done;
    by destruct (Z.eqb_spec (required_sec_level s) (sec_level s)).
Qed.
End HostFacts.

Definition smp0 : smp_state (gmap string (list Z)) :=
  SmpState (2 ^ 10 + 8) 0x7f 3 true 1 2 3 (keys_of addr1 5) ∅.
Lemma smp_reset_persists_bond_witness :
  ends smp_reset_new smp0 (fun _ s' => nv_view (smp_nv s') "BT_KEYS" = Some (keys_of addr1 5) /\ allowed_cmds s' = 2).
Proof.
  eapply ends_mono; [apply (smp_reset_persists_bond smp0); [done|done|done|by left]|].
  intros [] s' (H1 & _ & _ & _ & _ & _ & _ & H2). by split.
Defined.
