(* ===== verification/HostCcc.v ===== *)
(** * Client characteristic configurations survive (bt_host_patch.c, part two)

    The table of configurations is a finite map from attribute handles to values for one
    bonded peer, and its image in the settings store brings it back after a restart. *)
From S2P Require Import Prelude FlashNor Nvram BtStorage HostPatch.

(** ** The image *)
Lemma le16_length n : length (le16 n) = 2%nat. Proof. done. Qed.
Lemma rd16_le16 n r : 0 <= n < 2 ^ 16 -> rd16 (le16 n ++ r) 0 = n.
Proof.
  intros Hn. unfold rd16, le16, u8. cbn [nth app Nat.add]. rewrite Z.shiftr_div_pow2 by lia.
  Z.div_mod_to_equations. lia.
Qed.
Lemma rd32_le32 n r : 0 <= n < 2 ^ 32 -> rd32 (le32 n ++ r) 0 = n.
Proof.
  intros Hn. unfold rd32, rd16, le32, u8. cbn [nth app Nat.add].
  rewrite !Z.shiftr_div_pow2 by lia. Z.div_mod_to_equations. lia.
Qed.
Lemma rd16_app l r o : rd16 (l ++ r) (length l + o) = rd16 r o.
Proof.
  unfold rd16. replace (length l + o + 1)%nat with (length l + (o + 1))%nat by lia.
  by rewrite !app_nth2_plus.
Qed.
Lemma rd32_app l r o : rd32 (l ++ r) (length l + o) = rd32 r o.
Proof. unfold rd32. rewrite <- Nat.add_assoc. by rewrite !rd16_app. Qed.

Definition entries (l : list (Z * Z)) : list Z := concat ((fun e => le16 e.1 ++ le16 e.2) <$> l).
Lemma entries_length l : length (entries l) = (4 * length l)%nat.
Proof. induction l; [done|]. unfold entries in *. cbn in *. lia. Qed.

Lemma decode_entries l r : Forall (fun e => 0 <= e.1 < 2 ^ 16 /\ 0 <= e.2 < 2 ^ 16) l ->
  forall pre, ((fun i => (rd16 (pre ++ entries l ++ r) (length pre + 4 * i),
                         rd16 (pre ++ entries l ++ r) (length pre + 4 * i + 2))) <$> seq 0 (length l)) = l.
Proof.
  intros Hf. induction Hf as [|[h v] l [Hh Hv] Hf IH]; intros pre; [done|].
  cbn [length seq fmap list_fmap]. f_equal.
  - cbn [fst snd] in *. rewrite Nat.mul_0_r, <- Nat.add_assoc, !rd16_app. cbn [Nat.add].
    unfold entries. rewrite fmap_cons. cbn [concat fst snd]. rewrite <- !(assoc_L (++)), rd16_le16 by done.
    f_equal. change 2%nat with (length (le16 h) + 0)%nat. by rewrite rd16_app, rd16_le16.
  - etrans; [|apply (IH (pre ++ le16 h ++ le16 v))]. rewrite <- fmap_S_seq, <- list_fmap_compose.
    apply list_fmap_ext. intros i x _. unfold compose, entries. rewrite fmap_cons.
    cbn [concat fst snd]. rewrite !length_app. cbn [length le16].
    rewrite <- !(assoc_L (++)). f_equal; f_equal; lia.
Qed.

Section Ccc.
Context `{NL : NvramLaws NS}.
Context (CCC_STORE_MAX : Z) (max_range : 0 < CCC_STORE_MAX < 2 ^ 16).
Context (nvram_config : bool) (bt_gatt_foreach_attr : (nat -> M (host (NS := NS)) Z) -> M (host (NS := NS)) unit)
  (bt_addr_le_is_bonded : list Z -> bool).
#[local] Abbreviation HS := (host (NS := NS)).

(** A well-formed table: distinct handles in use, unused entries zero. *)
Record ccc_wf (c : ccc_save) : Prop := {
  cw_addr : length (cs_addr c) = 7%nat;
  cw_len : Z.of_nat (length (cs_store c)) = CCC_STORE_MAX;
  cw_count : 0 <= cs_count c <= CCC_STORE_MAX;
  cw_range : Forall (fun e => 0 <= e.1 < 2 ^ 16 /\ 0 <= e.2 < 2 ^ 16) (cs_store c);
  cw_nodup : NoDup (take (Z.to_nat (cs_count c)) (cs_store c)).*1;
  cw_zero : Forall (fun e => e = (0, 0)) (drop (Z.to_nat (cs_count c)) (cs_store c))
}.

Lemma decode_encode c : ccc_wf c -> decode_ccc CCC_STORE_MAX (encode_ccc c) = c.
Proof.
  intros [Ha Hl Hc Hr _ _]. unfold decode_ccc, encode_ccc.
  fold (entries (cs_store c)). destruct c as [a st n]. cbn [cs_addr cs_store cs_count] in *. f_equal.
  - by rewrite take_app_length' by done.
  - rewrite <- Hl, Nat2Z.id. rewrite (assoc_L (++) a).
    rewrite <- (decode_entries st (le32 n) Hr (a ++ [0])) at 2.
    assert (length (a ++ [0%Z]) = 8%nat) as -> by (rewrite length_app, Ha; done). done.
  - rewrite <- Hl, Nat2Z.id.
    replace (8 + 4 * length st)%nat with (length ((a ++ [0%Z]) ++ entries st) + 0)%nat
      by (rewrite !length_app, Ha, entries_length; cbn; lia).
    rewrite !(assoc_L (++)), rd32_app. rewrite <- (app_nil_r (le32 n)). apply rd32_le32. lia.
Qed.

Lemma encode_length c : ccc_wf c -> Z.of_nat (length (encode_ccc c)) = CCC_SAVE_SIZE CCC_STORE_MAX.
Proof.
  intros [Ha Hl _ _ _ _]. unfold encode_ccc, CCC_SAVE_SIZE. fold (entries (cs_store c)).
  rewrite !length_app, Ha, entries_length. cbn. lia.
Qed.

Lemma ccc_zero_wf : ccc_wf (ccc_zero CCC_STORE_MAX).
Proof.
  constructor; cbn; try done; try lia.
  - rewrite length_replicate. lia.
  - apply Forall_replicate. cbn. lia.
  - constructor.
  - rewrite drop_0. by apply Forall_replicate.
Qed.

(** ** The map of a table *)
Definition ccc_map (c : ccc_save) : gmap Z Z := list_to_map (take (Z.to_nat (cs_count c)) (cs_store c)).

(** What storing promises: one peer's map of at most CCC_STORE_MAX entries; another peer's
    request starts a new map. *)
Definition spec_store (addr : list Z) (h v : Z) (a : list Z) (m : gmap Z Z) : gmap Z Z :=
  if bool_decide (addr = a) then
    if bool_decide (is_Some (m !! h)) || (Z.of_nat (size m) <? CCC_STORE_MAX) then <[h := v]> m else m
  else {[h := v]}.

Lemma find_handle_spec l h : forall n i, (n <= length l)%nat ->
  (find_handle l n h i = Some None /\ (h ∉ (take n l).*1)) \/
  exists l1 v l2, l = l1 ++ (h, v) :: l2 /\ (length l1 < n)%nat /\ (h ∉ l1.*1) /\
    find_handle l n h i = Some (Some (i + Z.of_nat (length l1))).
Proof.
  induction l as [|[h' v'] l IH]; intros [|n] i Hn; cbn in Hn; try lia;
    try (left; split; [done|apply not_elem_of_nil]).
  cbn [find_handle fst]. destruct (Z.eqb_spec h' h) as [->|Hne].
  - right. exists [], v', l. split_and!; [done|cbn; lia|apply not_elem_of_nil|]. do 2 f_equal. cbn. lia.
  - destruct (IH n (i + 1) ltac:(lia)) as [[-> Hn1]|(l1 & v & l2 & -> & Hl & Hn1 & ->)].
    + left. split; [done|]. cbn. by apply not_elem_of_cons.
    + right. exists ((h', v') :: l1), v, l2. split_and!; [done|cbn; lia|by apply not_elem_of_cons|].
      do 2 f_equal. cbn [length]. lia.
Qed.

Lemma map_replace (l1 l2 : list (Z * Z)) h v v0 : h ∉ l1.*1 ->
  list_to_map (M := gmap Z Z) (l1 ++ (h, v) :: l2)
  = <[h := v]> (list_to_map (M := gmap Z Z) (l1 ++ (h, v0) :: l2)).
Proof.
  intros Hn. assert ((list_to_map l1 : gmap Z Z) !! h = None) as Hno by by apply not_elem_of_list_to_map_1.
  rewrite !list_to_map_app, !list_to_map_cons. cbn [fst snd].
  rewrite <- !insert_union_r by done. by rewrite insert_insert_eq.
Qed.

Lemma ccc_size c : ccc_wf c -> Z.of_nat (size (ccc_map c)) = cs_count c.
Proof.
  intros [_ Hl Hc _ Hn _]. unfold ccc_map. rewrite map_size_list_to_map by done.
  rewrite length_take. lia.
Qed.

Lemma take_split_in (l1 : list (Z * Z)) e l2 n : (length l1 < n)%nat ->
  take n (l1 ++ e :: l2) = l1 ++ e :: take (n - length l1 - 1) l2.
Proof.
  intros Hn. rewrite take_app, (take_ge l1) by lia. f_equal.
  destruct (n - length l1)%nat as [|m] eqn:E; [lia|]. cbn. by rewrite Nat.sub_0_r.
Qed.
Lemma drop_split_in (l1 : list (Z * Z)) e l2 n : (length l1 < n)%nat ->
  drop n (l1 ++ e :: l2) = drop (n - length l1 - 1) l2.
Proof.
  intros Hn. rewrite drop_app, (drop_ge l1) by lia.
  destruct (n - length l1)%nat as [|m] eqn:E; [lia|]. cbn. by rewrite Nat.sub_0_r.
Qed.

(** Overwriting the entry in use for [h]. *)
Lemma wf_replace c l1 h v0 v l2 : ccc_wf c -> cs_store c = l1 ++ (h, v0) :: l2 ->
  (length l1 < Z.to_nat (cs_count c))%nat -> h ∉ l1.*1 -> 0 <= h < 2 ^ 16 -> 0 <= v < 2 ^ 16 ->
  let c' := c <| cs_store := l1 ++ (h, v) :: l2 |> in
  ccc_wf c' /\ ccc_map c' = <[h := v]> (ccc_map c).
Proof.
  intros [Ha Hl Hc Hr Hn Hz] Hst Hlt Hnin Hh Hv c'. rewrite Hst in *. split.
  - constructor; cbn; try done.
    + rewrite length_app in *. cbn [length] in *. lia.
    + rewrite Forall_app, Forall_cons in *. tauto.
    + rewrite take_split_in, fmap_app in Hn |- * by done. exact Hn.
    + by rewrite drop_split_in in Hz |- * by done.
  - unfold ccc_map. cbn. rewrite Hst, !take_split_in by done. by apply map_replace.
Qed.

(** Using the first free entry. *)
Lemma wf_append c h v : ccc_wf c -> cs_count c < CCC_STORE_MAX -> 0 <= h < 2 ^ 16 -> 0 <= v < 2 ^ 16 ->
  h ∉ (take (Z.to_nat (cs_count c)) (cs_store c)).*1 ->
  let c' := c <| cs_count ::= (fun n => n + 1) |> <| cs_store := <[Z.to_nat (cs_count c) := (h, v)]> (cs_store c) |> in
  ccc_wf c' /\ ccc_map c' = <[h := v]> (ccc_map c).
Proof.
  intros [Ha Hl Hc Hr Hn Hz] Hlt Hh Hv Hnin c'.
  set (n := Z.to_nat (cs_count c)) in *.
  assert (Hn1 : Z.to_nat (cs_count c + 1) = S n) by (subst n; lia).
  assert (n < length (cs_store c))%nat as Hnl by (subst n; lia).
  assert (Htake : take (S n) (<[n := (h, v)]> (cs_store c)) = take n (cs_store c) ++ [(h, v)]).
  { rewrite (take_S_r _ _ (h, v)) by (by apply list_lookup_insert_eq).
    by rewrite take_insert_ge by lia. }
  split.
  - constructor; cbn [cs_addr cs_store cs_count set_field c']; rewrite ?Hn1, ?Htake; try done.
    + by rewrite length_insert.
    + lia.
    + by apply Forall_insert.
    + rewrite fmap_app. apply NoDup_app. split_and!; [done| |apply NoDup_singleton].
      intros x Hx ->%list_elem_of_singleton. done.
    + rewrite drop_insert_lt by lia. rewrite (drop_S _ _ _ (list_lookup_lookup_total_lt _ _ Hnl)) in Hz.
      by apply Forall_cons in Hz as [_ Hz].
  - unfold ccc_map. cbn [cs_store cs_count set_field c']. rewrite Hn1, Htake, list_to_map_app. cbn.
    rewrite insert_empty, insert_union_singleton_l, map_union_comm; [done|].
    apply map_disjoint_singleton_r. by apply not_elem_of_list_to_map_1.
Qed.

(** How a store relates the old and the new table and the settings store: either nothing
    changed, or the new image was written (unless the settings store is configured out, or
    the handle is the invalid handle 0). *)
Definition stored (h : Z) (c c' : ccc_save) (n n' : NS) : Prop :=
  c' = c /\ n' = n \/ n' = (nvram_config_set "BT_CCC" (encode_ccc c') n).2 \/ nvram_config = false \/ h = 0.

(** The part of [bt_gatt_store_ccc] after the peer check. *)
Definition store_rest (p : Z * Z) : M HS unit :=
  i ← ccc_store_find CCC_STORE_MAX p.1;
  if 0 <=? i then
    s ← get;
    e ← lift (rd (cs_store (ccc_save_storage s)) i);
    when (negb (bool_decide (e = p)))
      (st ← lift (wr (cs_store (ccc_save_storage s)) i p);
       set_ccc (fun c => c <| cs_store := st |>);;
       when nvram_config (save_ccc;; mret tt))
  else mret tt.

(** Overwriting entry [i] when it differs. *)
Lemma store_at (s : HS) i p e : rd (cs_store (ccc_save_storage s)) i = Some e ->
  ends (s ← get;
        e ← lift (rd (cs_store (ccc_save_storage s)) i);
        when (negb (bool_decide (e = p)))
          (st ← lift (wr (cs_store (ccc_save_storage s)) i p);
           set_ccc (fun c => c <| cs_store := st |>);;
           when nvram_config (save_ccc;; mret tt))) s
    (fun _ s' => ccc_save_storage s' = (ccc_save_storage s) <| cs_store ::= <[Z.to_nat i := p]> |> /\
       gatt s' = gatt s /\ cfg_changed s' = cfg_changed s /\
       (e = p /\ host_nv s' = host_nv s \/
        host_nv s' = (nvram_config_set "BT_CCC" (encode_ccc (ccc_save_storage s')) (host_nv s)).2 \/
        nvram_config = false)).
Proof.
  intros He. pose proof (rd_Some_bound _ _ _ He) as Hb.
  assert (cs_store (ccc_save_storage s) !! Z.to_nat i = Some e) as Hl.
  { unfold rd in He. by destruct (Z.leb_spec 0 i); [|lia]. }
  hoare1. hoare1. hoare1. eapply ends_lift; [done|]. destruct (bool_decide_reflect (e = p)) as [->|Hne]; cbn [negb when].
  - hoare1. split_and!; [|done|done|by left]. destruct s as [[a st c] g ch nv]. cbn in *.
    unfold set_field. cbn. by rewrite list_insert_id.
  - hoare1. eapply ends_lift; [by apply wr_in_bound|]. unfold set_ccc. hoare1. hoare1.
    apply ends_when; intros Hn.
    + hoare1. unfold ends at 1, save_ccc. cbn.
      destruct (nvram_config_set _ _ _) as [r n] eqn:En. unfold ends, mret, M_ret. cbn.
      split_and!; [by destruct s as [[]]|done|done|]. right. left. by rewrite En.
    + cbn. split_and!; [by destruct s as [[]]|done|done|]. by right; right.
Qed.

Lemma store_rest_spec (s : HS) h v :
  ccc_wf (ccc_save_storage s) -> 0 <= h < 2 ^ 16 -> 0 <= v < 2 ^ 16 ->
  ends (store_rest (h, v)) s (fun _ s' =>
    ccc_wf (ccc_save_storage s') /\ cs_addr (ccc_save_storage s') = cs_addr (ccc_save_storage s) /\
    ccc_map (ccc_save_storage s')
    = spec_store (cs_addr (ccc_save_storage s)) h v (cs_addr (ccc_save_storage s)) (ccc_map (ccc_save_storage s)) /\
    gatt s' = gatt s /\ cfg_changed s' = cfg_changed s /\
    stored h (ccc_save_storage s) (ccc_save_storage s') (host_nv s) (host_nv s')).
Proof.
  intros Hwf Hh Hv. pose proof Hwf as [Ha Hl Hc Hr Hn Hz]. set (c := ccc_save_storage s) in *.
  unfold store_rest, ccc_store_find, spec_store. rewrite (bool_decide_true (cs_addr c = cs_addr c)) by done.
  rewrite ccc_size by done. hoare1. hoare1. hoare1. cbn [fst]. fold c. hoare1.
  destruct (find_handle_spec (cs_store c) h (Z.to_nat (cs_count c)) 0 ltac:(lia))
    as [[Hf Hnin]|(l1 & v0 & l2 & Hst & Hlt & Hnin & Hf)]; (eapply ends_lift; [exact Hf|]).
  - assert (ccc_map c !! h = None) as Hnone by by apply not_elem_of_list_to_map_1.
    rewrite (bool_decide_false (is_Some _)) by (rewrite Hnone; by intros []). cbn [orb].
    destruct (Z.ltb_spec (cs_count c) CCC_STORE_MAX) as [Hlt|].
    2: { hoare1. cbn [Z.leb Z.compare]. hoare1. split_and!; try done. by left. }
    unfold set_ccc. hoare1. hoare1. hoare1.
    destruct (Z.leb_spec 0 (cs_count c)); [|lia].
    destruct (rd_in_bound (cs_store c) (cs_count c) ltac:(lia)) as [e He].
    assert (e = (0, 0)) as ->.
    { unfold rd in He. destruct (Z.leb_spec 0 (cs_count c)); [|lia].
      rewrite Forall_lookup in Hz. apply (Hz 0%nat). by rewrite lookup_drop, Nat.add_0_r. }
    eapply ends_mono; [by apply (store_at _ _ (h, v) (0, 0))|]. intros [] s' (Hcs & Hg & Hch & Hs).
    destruct (wf_append c h v Hwf Hlt Hh Hv Hnin) as [Hwf' Hm'].
    replace (ccc_save_storage s') with ((c <| cs_count ::= (fun n => n + 1) |>)
      <| cs_store := <[Z.to_nat (cs_count c) := (h, v)]> (cs_store c) |>) in *
      by (rewrite Hcs; reflexivity).
    split_and!; try done. cbn in Hs. destruct Hs as [[[= <- <-] _]|[Hs|Hs]]; unfold stored; auto.
  - assert (is_Some (ccc_map c !! h)) as Hsome.
    { unfold ccc_map. rewrite Hst, take_split_in by done. rewrite list_to_map_app, list_to_map_cons. cbn [fst snd].
      rewrite lookup_union_r by by apply not_elem_of_list_to_map_1. rewrite lookup_insert_eq. eauto. }
    rewrite (bool_decide_true _ Hsome). cbn [orb]. hoare1.
    destruct (Z.leb_spec 0 (0 + Z.of_nat (length l1))); [|lia]. rewrite Z.add_0_l.
    assert (rd (cs_store c) (Z.of_nat (length l1)) = Some (h, v0)) as He by (rewrite Hst; by apply rd_app_here).
    eapply ends_mono; [by apply (store_at _ _ (h, v) (h, v0))|]. intros [] s' (Hcs & Hg & Hch & Hs).
    destruct (wf_replace c l1 h v0 v l2 Hwf Hst Hlt Hnin Hh Hv) as [Hwf' Hm'].
    replace (ccc_save_storage s') with (c <| cs_store := l1 ++ (h, v) :: l2 |>) in *.
    2: { rewrite Hcs. fold c. rewrite Nat2Z.id. destruct c as [a st n]. cbn in Hst. subst st.
         unfold set_field. cbn. by rewrite insert_app_r_alt, Nat.sub_diag by lia. }
    split_and!; try done. destruct Hs as [[[= ->] Hs]|[Hs|Hs]]; unfold stored; auto.
    left. split; [|done]. destruct c as [a st n]. cbn in *. by subst st.
Qed.

Lemma store_step (s : HS) addr h v :
  ccc_wf (ccc_save_storage s) -> length addr = 7%nat -> 0 <= h < 2 ^ 16 -> 0 <= v < 2 ^ 16 ->
  ends (bt_gatt_store_ccc CCC_STORE_MAX nvram_config addr (h, v)) s (fun _ s' =>
    ccc_wf (ccc_save_storage s') /\ cs_addr (ccc_save_storage s') = addr /\
    ccc_map (ccc_save_storage s')
    = spec_store addr h v (cs_addr (ccc_save_storage s)) (ccc_map (ccc_save_storage s)) /\
    gatt s' = gatt s /\ cfg_changed s' = cfg_changed s /\
    stored h (ccc_save_storage s) (ccc_save_storage s') (host_nv s) (host_nv s')).
Proof.
  intros Hwf Ha Hh Hv. unfold bt_gatt_store_ccc. hoare1. hoare1. hoare1.
  destruct (bool_decide_reflect (addr = cs_addr (ccc_save_storage s))) as [E|E]; cbn [negb when].
  - hoare1. subst addr. by apply store_rest_spec.
  - unfold set_ccc. hoare1. hoare1. hoare1.
    match goal with |- ends _ ?s1 _ => set (s1' := s1) end.
    assert (ccc_save_storage s1' = (ccc_zero CCC_STORE_MAX) <| cs_addr := addr |>) as Hs1 by done.
    assert (ccc_wf (ccc_save_storage s1')) as Hwf1.
    { rewrite Hs1. destruct ccc_zero_wf. by constructor. }
    assert (ccc_map (ccc_save_storage s1') = ∅) as Hm1 by (rewrite Hs1; unfold ccc_map; cbn; by rewrite take_0).
    eapply ends_mono; [by apply (store_rest_spec s1' h v)|]. rewrite Hm1, Hs1.
    intros [] s' (Hwf' & Ha' & Hm' & Hg & Hch & Hs). unfold spec_store in *.
    rewrite bool_decide_true in Hm' by done. rewrite lookup_empty, map_size_empty in Hm'.
    rewrite (bool_decide_false (is_Some _)) in Hm' by by intros [].
    destruct (Z.ltb_spec (Z.of_nat 0) CCC_STORE_MAX); [|lia]. cbn [orb] in Hm'. rewrite insert_empty in Hm'.
    rewrite (bool_decide_false (addr = _)) by done. split_and!; try done.
    destruct Hs as [[Hc' _]|Hs]; [|by right]. exfalso. rewrite Hc' in Hm'.
    rewrite <- Hs1, Hm1 in Hm'. symmetry in Hm'. by apply map_non_empty_singleton in Hm'.
Qed.

(** C30.  The table of client configurations is a finite map: storing the value a peer
    configured at a handle adds or replaces that entry when the table holds the handle or
    has room, is ignored when it is full, and starts an empty map when the peer changed;
    nothing else of the host is touched and no access leaves the table. *)
Theorem ccc_store_refines (s : HS) addr h v :
  ccc_wf (ccc_save_storage s) -> length addr = 7%nat -> 0 <= h < 2 ^ 16 -> 0 <= v < 2 ^ 16 ->
  ends (bt_gatt_store_ccc CCC_STORE_MAX nvram_config addr (h, v)) s (fun _ s' =>
    ccc_wf (ccc_save_storage s') /\ cs_addr (ccc_save_storage s') = addr /\
    ccc_map (ccc_save_storage s')
    = spec_store addr h v (cs_addr (ccc_save_storage s)) (ccc_map (ccc_save_storage s)) /\
    gatt s' = gatt s /\ cfg_changed s' = cfg_changed s).
Proof.
  intros. eapply ends_mono; [by apply store_step|]. cbv beta. intros [] s' Hs.
  destruct Hs as (? & ? & ? & ? & ? & _). by split_and!.
Qed.

(** The settings store holds the image of the table. *)
Definition ccc_synced (s : HS) : Prop :=
  nv_view (host_nv s) "BT_CCC" = Some (encode_ccc (ccc_save_storage s)).

(**  Client configurations survive a restart: while the settings store accepts
    writes, every store keeps the saved image equal to the table in RAM, and loading the
    image over a zeroed table gives the same table again. *)
Theorem ccc_survives_restart (s : HS) addr h v gatt1 :
  nvram_config = true -> (forall k d n, 0 <= (nvram_config_set (NS := NS) k d n).1) ->
  ccc_wf (ccc_save_storage s) -> ccc_synced s ->
  length addr = 7%nat -> 0 < h < 2 ^ 16 -> 0 <= v < 2 ^ 16 ->
  ends (bt_gatt_store_ccc CCC_STORE_MAX nvram_config addr (h, v)) s (fun _ s' =>
    ccc_synced s' /\
    ends (load_save CCC_STORE_MAX nvram_config) (Host (ccc_zero CCC_STORE_MAX) gatt1 [] (host_nv s'))
      (fun ret s2 => 0 <= ret /\ ccc_save_storage s2 = ccc_save_storage s' /\ gatt s2 = gatt1)).
Proof.
  intros Hcfg Hset Hwf Hsync Ha Hh Hv.
  eapply ends_mono; [apply (store_step s addr h v Hwf Ha); lia|]. cbv beta.
  intros [] s' (Hwf' & _ & _ & _ & _ & Hst).
  assert (ccc_synced s') as Hs'.
  { destruct Hst as [[Hc Hn]|[Hn|[Hn|Hn]]]; [|by unfold ccc_synced; rewrite Hn; apply nv_set_ok|congruence|lia].
    unfold ccc_synced. by rewrite Hc, Hn. }
  split; [done|]. unfold ends, load_save. rewrite Hcfg. cbn [host_nv ccc_save_storage].
  rewrite (nv_get_some "BT_CCC" _ _ _ Hs') by (rewrite encode_length by done; lia).
  rewrite blit_whole by (apply Nat2Z.inj; rewrite !encode_length by (done || apply ccc_zero_wf); done).
  destruct (Z.leb_spec 0 (Z.of_nat (length (encode_ccc (ccc_save_storage s'))))); [|lia].
  split_and!; [lia| |done]. cbn. by apply decode_encode.
Qed.
End Ccc.

(** ** Concrete instance: ten entries, the map as settings store *)
Definition host0 : host (NS := gmap string (list Z)) :=
  Host (ccc_zero 10) [] [] {[ "BT_CCC"%string := encode_ccc (ccc_zero 10) ]}.

Lemma ccc_store_refines_witness :
  ends (bt_gatt_store_ccc 10 true addr1 (18, 1)) host0 (fun _ s' => ccc_map (ccc_save_storage s') = {[18 := 1]}).
Proof.
  eapply ends_mono; [apply (ccc_store_refines 10 ltac:(lia) true host0 addr1 18 1 (ccc_zero_wf 10 ltac:(lia)) eq_refl); lia|].
  intros [] s' (_ & _ & Hm & _). rewrite Hm. unfold spec_store.
  by rewrite bool_decide_false.
Defined.

Lemma ccc_survives_restart_witness :
  ends (bt_gatt_store_ccc 10 true addr1 (18, 1)) host0 (fun _ s' =>
    ccc_synced s' /\
    ends (load_save 10 true) (Host (ccc_zero 10) [] [] (host_nv s'))
      (fun ret s2 => 0 <= ret /\ ccc_save_storage s2 = ccc_save_storage s' /\ gatt s2 = [])).
Proof.
  apply (ccc_survives_restart 10 ltac:(lia) true host0 addr1 18 1 []); [done| |exact (ccc_zero_wf 10 ltac:(lia))|done|done|lia|lia].
  intros k d n. cbn. lia.
Defined.
