(* ===== verification/Llcc.v ===== *)
(** * The link to the Bluetooth controller (drivers/bluetooth/hci/llc_hci.c, llcc.c)

    The host core and the controller core exchange packets by commands of eight bytes.  The
    repository replaces some functions of the driver in ROM: the transmission of a packet,
    the handling of a received command, the upload of the trim data at start and the
    handling of a controller reset.  The ROM functions that these call are outside the
    sources: a call is recorded in [calls] and its effect on the driver's control block is
    the parameter [rom]. *)
From S2P Require Import Prelude.

(** ** Checksums *)
Definition crc8_table : list Z := [
  0x00; 0x1d; 0x3a; 0x27; 0x74; 0x69; 0x4e; 0x53; 0xe8; 0xf5; 0xd2; 0xcf; 0x9c; 0x81; 0xa6; 0xbb;
  0xcd; 0xd0; 0xf7; 0xea; 0xb9; 0xa4; 0x83; 0x9e; 0x25; 0x38; 0x1f; 0x02; 0x51; 0x4c; 0x6b; 0x76;
  0x87; 0x9a; 0xbd; 0xa0; 0xf3; 0xee; 0xc9; 0xd4; 0x6f; 0x72; 0x55; 0x48; 0x1b; 0x06; 0x21; 0x3c;
  0x4a; 0x57; 0x70; 0x6d; 0x3e; 0x23; 0x04; 0x19; 0xa2; 0xbf; 0x98; 0x85; 0xd6; 0xcb; 0xec; 0xf1;
  0x13; 0x0e; 0x29; 0x34; 0x67; 0x7a; 0x5d; 0x40; 0xfb; 0xe6; 0xc1; 0xdc; 0x8f; 0x92; 0xb5; 0xa8;
  0xde; 0xc3; 0xe4; 0xf9; 0xaa; 0xb7; 0x90; 0x8d; 0x36; 0x2b; 0x0c; 0x11; 0x42; 0x5f; 0x78; 0x65;
  0x94; 0x89; 0xae; 0xb3; 0xe0; 0xfd; 0xda; 0xc7; 0x7c; 0x61; 0x46; 0x5b; 0x08; 0x15; 0x32; 0x2f;
  0x59; 0x44; 0x63; 0x7e; 0x2d; 0x30; 0x17; 0x0a; 0xb1; 0xac; 0x8b; 0x96; 0xc5; 0xd8; 0xff; 0xe2;
  0x26; 0x3b; 0x1c; 0x01; 0x52; 0x4f; 0x68; 0x75; 0xce; 0xd3; 0xf4; 0xe9; 0xba; 0xa7; 0x80; 0x9d;
  0xeb; 0xf6; 0xd1; 0xcc; 0x9f; 0x82; 0xa5; 0xb8; 0x03; 0x1e; 0x39; 0x24; 0x77; 0x6a; 0x4d; 0x50;
  0xa1; 0xbc; 0x9b; 0x86; 0xd5; 0xc8; 0xef; 0xf2; 0x49; 0x54; 0x73; 0x6e; 0x3d; 0x20; 0x07; 0x1a;
  0x6c; 0x71; 0x56; 0x4b; 0x18; 0x05; 0x22; 0x3f; 0x84; 0x99; 0xbe; 0xa3; 0xf0; 0xed; 0xca; 0xd7;
  0x35; 0x28; 0x0f; 0x12; 0x41; 0x5c; 0x7b; 0x66; 0xdd; 0xc0; 0xe7; 0xfa; 0xa9; 0xb4; 0x93; 0x8e;
  0xf8; 0xe5; 0xc2; 0xdf; 0x8c; 0x91; 0xb6; 0xab; 0x10; 0x0d; 0x2a; 0x37; 0x64; 0x79; 0x5e; 0x43;
  0xb2; 0xaf; 0x88; 0x95; 0xc6; 0xdb; 0xfc; 0xe1; 0x5a; 0x47; 0x60; 0x7d; 0x2e; 0x33; 0x14; 0x09;
  0x7f; 0x62; 0x45; 0x58; 0x0b; 0x16; 0x31; 0x2c; 0x97; 0x8a; 0xad; 0xb0; 0xe3; 0xfe; 0xd9; 0xc4].

(** The loop of [crc8_compute], from a running value. *)
Fixpoint crc8_loop (crc : Z) (data : list Z) : option Z :=
  match data with
  | [] => Some crc
  | b :: data' => crc' ← rd crc8_table (Z.lxor b crc); crc8_loop crc' data'
  end.
Definition crc8_compute (data : list Z) : option Z := crc8_loop 0 data.

(** The [len] bytes of memory at [ptr]. *)
Definition bytes_at (mem : Z -> Z) (ptr len : Z) : list Z :=
  (fun i => mem (ptr + i)) <$> seqZ 0 len.
Definition compute_checksum (mem : Z -> Z) (ptr len : Z) : option Z :=
  crc8_compute (bytes_at mem ptr len).

(** ** The control block *)
Definition HCI_CMD_TYPE : Z := 1.
Definition HCI_ACL_TYPE : Z := 2.
Definition HCI_EVT_TYPE : Z := 4.
Definition LLCC_STATE_IDLE : Z := 0.
Definition LLCC_STATE_READY : Z := 2.
Definition LLCC_CMD_SOFT_RESET : Z := 1.
Definition LLCC_CMD_SOFT_RESET_ACK : Z := 2.
Definition LLCC_CMD2_ERROR : Z := 14.
Definition LLCC_ERROR2_HDR_ERR : Z := 1.
Definition LLCC_ERROR2_DATA_ERR : Z := 3.
Definition LLCC_CMD_SOFT_RESET_XFER2_FLAG0 : Z := 0x5a.
Definition LLCC_CMD_SOFT_RESET_XFER2_FLAG1 : Z := 0xa5.
Definition LLCC_CMD_SOFT_RESET_CRC_FLAG2 : Z := 0xbe.
Definition LLCC_MAX_CONSECUTIVE_ERR : Z := 250.
Definition REBOOT_TYPE_GOTO_APP : Z := 0x1400.

(** The calls out of the modelled code, to the ROM and to the power management. *)
Inductive rom_call :=
| WakeLockInc
| WdogTxEna (ticks : Z)
| TxXferReq2 (type align len checksum seq : Z)
| TxXferReq (type align len : Z)
| DmaSetupTx (addr len : Z)
| TxCmdCrc (cmd : list Z)
| TxError2 (code0 code1 : Z)
| LlccInit
| TxRetryHelper (consecutive_counts : bool)
| RxCmdValid (data0 data1 : Z)
| VsReadDone (type : Z) (data : list Z) (len : Z)
| PmReboot (type : Z).
#[export] Instance rom_call_dec : EqDecision rom_call.
Proof. solve_decision. Defined.

(** struct llcc_xfer_data_t *)
Record xfer := Xfer {
  p_buf : Z;
  x_align : Z;       (* u8_t *)
  checksum : Z;      (* u8_t *)
  x_len : Z;         (* u16_t, in words *)
  x_type : Z;        (* u16_t *)
  seq_num : Z        (* u8_t *)
}.
#[export] Instance eta_xfer : EtaRecord xfer := fun r =>
  Xfer (p_buf r) (x_align r) (checksum r) (x_len r) (x_type r) (seq_num r).

(** The counters of struct hci_pkt_stats_t that the modelled code moves (u16_t). *)
Record pkt_stats := PktStats {
  num_data_out : Z;
  num_evt_out : Z;
  num_cmd_out : Z;
  num_hdr_crc_err_rx : Z;
  num_data_crc_err_tx : Z;
  num_tx_buffer_err : Z
}.
#[export] Instance eta_pkt_stats : EtaRecord pkt_stats := fun r =>
  PktStats (num_data_out r) (num_evt_out r) (num_cmd_out r) (num_hdr_crc_err_rx r)
    (num_data_crc_err_tx r) (num_tx_buffer_err r).

(** llc_hci_cb.llcc with the statistics, memory and the calls made so far. *)
Record llcc := Llcc {
  tx_busy_flag : bool;
  state : Z;
  use_xfer2 : bool;
  consecutive_err : Z;
  wdog_timeout_ticks : Z;
  tx : xfer;
  p_tx_context : Z;
  hci_stats : pkt_stats;
  memory : Z -> Z;
  calls : list rom_call
}.
#[export] Instance eta_llcc : EtaRecord llcc := fun r =>
  Llcc (tx_busy_flag r) (state r) (use_xfer2 r) (consecutive_err r) (wdog_timeout_ticks r)
    (tx r) (p_tx_context r) (hci_stats r) (memory r) (calls r).

Definition inc16 (z : Z) : Z := u16 (z + 1).

Section Llcc.
(** What a call does to the control block. *)
Context (rom : rom_call -> llcc -> llcc).
(** What the interrupts that run while the transmitter waits do to it. *)
Context (isr : llcc -> llcc).
(** The bytes of the command that [llcc_tx_soft_reset_ack_cmd_new] leaves unset. *)
Context (stack : list Z).

Definition call (c : rom_call) : M llcc unit :=
  modify (fun s => (rom c s) <| calls := calls s ++ [c] |>).

Definition llcc_tx_soft_reset_ack_cmd_new : M llcc unit :=
  call (TxCmdCrc ([LLCC_CMD_SOFT_RESET_ACK; LLCC_CMD_SOFT_RESET_XFER2_FLAG0;
                   LLCC_CMD_SOFT_RESET_XFER2_FLAG1; LLCC_CMD_SOFT_RESET_CRC_FLAG2] ++ take 4 stack)).

Definition channel_busy (s : llcc) : bool :=
  negb (state s =? LLCC_STATE_READY) || tx_busy_flag s.

(** Wait for the channel to become free; [n] bounds the number of waits. *)
Fixpoint wait_channel (n : nat) : M llcc unit :=
  s ← get;
  if channel_busy s
  then match n with O => ub | S n' => modify isr;; wait_channel n' end
  else mret tt.

Definition count_out (cmd : Z) (st : pkt_stats) : pkt_stats :=
  if cmd =? HCI_ACL_TYPE then st <| num_data_out ::= inc16 |>
  else if cmd =? HCI_EVT_TYPE then st <| num_evt_out ::= inc16 |>
  else if cmd =? HCI_CMD_TYPE then st <| num_cmd_out ::= inc16 |>
  else st.

Definition upd_tx (f : xfer -> xfer) : M llcc unit := modify (fun s => s <| tx ::= f |>).

Definition llcc_write_new (fuel : nat) (cmd p_data len p_context : Z) : M llcc unit :=
  let align := Z.land p_data 3 in
  wait_channel fuel;;
  s ← get;
  when (negb (tx_busy_flag s))
    (call WakeLockInc;; modify (fun s => s <| tx_busy_flag := true |>));;
  modify (fun s => s <| hci_stats ::= count_out cmd |>);;
  upd_tx (fun t => t <| p_buf := p_data |>);;
  s ← get;
  csum ← (if use_xfer2 s then lift (compute_checksum (memory s) p_data len) else mret 0);
  let tlen := u16 ((len + 3) / 4) in
  let p_data' := p_data - align in
  upd_tx (fun t => t <| x_type := u16 cmd |> <| x_align := Z.land align 3 |>
                     <| x_len := tlen |> <| checksum := csum |>);;
  modify (fun s => s <| p_tx_context := p_context |>);;
  (* a negative difference is shifted as the two's complement it is stored in *)
  s ← get;
  if use_xfer2 s then
    upd_tx (fun t => t <| x_align ::= (fun a => u8 (Z.lor a (Z.shiftl (tlen * 4 - len - align) 2))) |>);;
    upd_tx (fun t => t <| seq_num ::= (fun q => u8 (q + 1)) |>);;
    s ← get; call (WdogTxEna (wdog_timeout_ticks s));;
    s ← get;
    let t := tx s in
    call (TxXferReq2 (u8 (x_type t)) (x_align t) (x_len t) (checksum t) (seq_num t))
  else
    s ← get; call (TxXferReq (u8 cmd) (x_align (tx s)) (x_len (tx s)));;
    s ← get; call (DmaSetupTx p_data' (x_len (tx s))).

(** The bytes of the two command words. *)
Definition word_bytes (w : Z) : list Z :=
  (fun k => Z.land (Z.shiftr w (8 * k)) 255) <$> [0; 1; 2; 3].
Definition header_sum (cmd : list Z) : Z := foldl (fun c b => u8 (c + b)) 255 (take 7 cmd).

(** A payload the controller says arrived damaged. *)
Definition rx_data_err : M llcc unit :=
  s ← get;
  if negb (tx_busy_flag s) then mret tt
  else
    let t := tx s in
    let ptr := p_buf t + Z.land (x_align t) 3 in
    let len := u16 (x_len t * 4 - Z.land (x_align t) 3 - Z.land (Z.shiftr (x_align t) 2) 3) in
    csum ← lift (compute_checksum (memory s) ptr len);
    if negb (csum =? checksum t) then
      modify (fun s => s <| hci_stats ::= (fun st => st <| num_tx_buffer_err ::= inc16 |>) |>
                         <| consecutive_err := LLCC_MAX_CONSECUTIVE_ERR |>);;
      call (TxRetryHelper true)
    else
      modify (fun s => s <| hci_stats ::= (fun st => st <| num_data_crc_err_tx ::= inc16 |>) |>);;
      call (TxRetryHelper true).

Definition llcc_rx_cmd_valid_handler_new (data0 data1 : Z) : M llcc unit :=
  let cmd := word_bytes data0 ++ word_bytes data1 in
  c7 ← lift (rd cmd 7);
  type ← lift (rd cmd 0);
  pad0 ← lift (rd cmd 1);
  pad1 ← lift (rd cmd 2);
  s ← get;
  if use_xfer2 s && negb (header_sum cmd =? c7) then
    modify (fun s => s <| hci_stats ::= (fun st => st <| num_hdr_crc_err_rx ::= inc16 |>) |>);;
    call (TxError2 LLCC_ERROR2_HDR_ERR 0)
  else if type =? LLCC_CMD_SOFT_RESET then
    call LlccInit;;
    modify (fun s => s <| state := LLCC_STATE_READY |>);;
    upd_tx (fun t => t <| seq_num := 0 |>);;
    modify (fun s => s <| use_xfer2 := (pad0 =? LLCC_CMD_SOFT_RESET_XFER2_FLAG0)
                                         && (pad1 =? LLCC_CMD_SOFT_RESET_XFER2_FLAG1) |>);;
    llcc_tx_soft_reset_ack_cmd_new
  else if (type =? LLCC_CMD2_ERROR) && (pad0 =? LLCC_ERROR2_DATA_ERR) then rx_data_err
  else call (RxCmdValid data0 data1).

Definition llcc_rxcmd_valid_handler_new (data0 data1 : Z) : M llcc unit :=
  llcc_rx_cmd_valid_handler_new data0 data1.

(** The boot event of the controller with power-on as the reason of the reset. *)
Definition power_on_event (type : Z) (p_data : list Z) : option bool :=
  if type =? HCI_EVT_TYPE then
    e0 ← rd p_data 0;
    if negb (e0 =? 0xff) then Some false else
    e1 ← rd p_data 1;
    if negb (e1 =? 0x3e) then Some false else
    e2 ← rd p_data 2;
    if negb (e2 =? 0x80) then Some false else
    e3 ← rd p_data 3;
    if negb (e3 =? 0xfe) then Some false else
    e7 ← rd p_data 7;
    Some (e7 =? 1)
  else Some false.

(** [sys_pm_reboot] does not return. *)
Definition hci_vs_read_done_new (type : Z) (p_data : list Z) (len : Z) : M llcc unit :=
  b ← lift (power_on_event type p_data);
  if (b : bool) then call (PmReboot REBOOT_TYPE_GOTO_APP) else call (VsReadDone type p_data len).

Definition hci_tx_failure_new : M llcc unit := call (PmReboot REBOOT_TYPE_GOTO_APP).
End Llcc.

(** ** The trim data (llcc.c) *)
Definition IC_TRIM_DATA_LEN : Z := 32.
Definition BOARD_TRIM_DATA_LEN : Z := 32.
Definition BLE_TRIM_TYPE_IC : Z := 0x0A.
Definition HCI_CMD_HDR_LEN : Z := 3.
Definition HCI_SUCCESS : Z := 0x00.
Definition HCI_OGF_VENDOR_SPEC : Z := 0x3F.
Definition HCI_CMD_CMPL_EVT : Z := 0x0E.
Definition BLE_BOOT_OCF_BASE : Z := 0.
Definition BLE_EXT_STATUS_SUCCESS : Z := 0x00.
Definition HCI_OPCODE (ogf ocf : Z) : Z := Z.shiftl ogf 10 + ocf.
Definition BLE_BOOT_OPCODE_TRIM_LOAD : Z := HCI_OPCODE HCI_OGF_VENDOR_SPEC (BLE_BOOT_OCF_BASE + 3).
Definition BLE_BOOT_OPCODE_TRIM_DATA : Z := HCI_OPCODE HCI_OGF_VENDOR_SPEC (BLE_BOOT_OCF_BASE + 4).
Definition BLE_BOOT_LEN_TRIM_LOAD : Z := 4.

(** A part of a trim image: its offset and size in the image, and where its bytes come
    from, the efuse or (where [efuse_offset] is 0xff) a table of the program. *)
Inductive trim_source := FromEfuse | ExtBoardTrim | SleepClkAccuracy | RetryTimeout | RuntimeTx | ExtTxTrim.
Record trim_efuse_t := TrimEfuse {
  te_valid : Z; te_trim_offset : Z; te_efuse_offset : Z; te_size : Z; te_addr : trim_source
}.
Definition outer_ic_trim_efuse : list trim_efuse_t := [
  TrimEfuse 1 0 9 4 FromEfuse;
  TrimEfuse 1 4 0xff 8 FromEfuse;
  TrimEfuse 1 12 13 20 FromEfuse;
  TrimEfuse 1 30 0xff 2 FromEfuse].
Definition EXT_BOARD_TRIM_DATA_LEN : Z := 8.
Definition ext_board_trim : list Z := [0x16; 0x05; 0x07; 0x20; 0x0B; 0x00; 0x01; 0x00].
Definition sleep_clk_accuracy : Z := 20.
Definition retry_timeout : Z := 50.
Definition outer_board_trim_efuse : list trim_efuse_t := [
  TrimEfuse 1 0 0xff EXT_BOARD_TRIM_DATA_LEN ExtBoardTrim;
  TrimEfuse 1 8 31 24 FromEfuse;
  TrimEfuse 1 12 0xff 2 SleepClkAccuracy;
  TrimEfuse 1 31 0xff 1 RetryTimeout].
Definition outer_final_board_trim_efuse : list trim_efuse_t := [
  TrimEfuse 0 18 111 2 FromEfuse;
  TrimEfuse 0 20 113 4 FromEfuse;
  TrimEfuse 0 24 117 4 FromEfuse].
Definition EXT_TX_TRIM_DATA_LEN : Z := 40.
Definition runtime_tx : list Z :=
  [0x0F; 0x0F; 0x0F; 0x0F; 0x0F; 0x0F; 0x0F; 0x0F; 0x00; 0xFD; 0xFA; 0xF7; 0xF4; 0xF1; 0xEE; 0xEB].
Definition outer_tx_trim_efuse : list trim_efuse_t := [
  TrimEfuse 1 0 0xff 4 FromEfuse;
  TrimEfuse 1 4 54 8 FromEfuse;
  TrimEfuse 1 12 0xff 16 RuntimeTx;
  TrimEfuse 1 28 78 4 FromEfuse;
  TrimEfuse 1 30 0xff 1 FromEfuse;
  TrimEfuse 1 31 0xff EXT_TX_TRIM_DATA_LEN ExtTxTrim;
  TrimEfuse 1 71 0xff 40 FromEfuse;
  TrimEfuse 1 111 80 4 FromEfuse;
  TrimEfuse 1 113 0xff 3 FromEfuse].
Definition outer_tx_trim_aband_efuse : list trim_efuse_t := [
  TrimEfuse 1 116 103 1 FromEfuse;
  TrimEfuse 1 120 104 1 FromEfuse;
  TrimEfuse 1 124 105 1 FromEfuse;
  TrimEfuse 1 128 106 1 FromEfuse;
  TrimEfuse 1 132 107 1 FromEfuse;
  TrimEfuse 1 117 0xff 3 FromEfuse].

(** What the start-up code did: interrupts connected, functions patched, supply changes,
    messages to the controller, replies freed, the ROM's own uploads. *)
Inductive boot_event :=
| IrqConnect (irq prio : Z)
| SetTables (ic board final_board tx tx_aband : list trim_efuse_t)
| PatchTrimAndWrite
| WdgUseSystick
| SetTimers
| Vd12BeforeEfuse
| Vd12AfterEfuse
| TxMessage (type : Z) (data : list Z)
| ReplyFreed
| UploadBoard
| UploadTx.
Abbreviation boot := (list boot_event).
Definition emit (e : boot_event) : M boot unit := modify (fun l => l ++ [e]).

Section Trim.
(** The controller's answer to a message, given everything before it. *)
Context (reply : boot -> Z * list Z).
(** The ROM's composition of an image and its uploads of the other two. *)
Context (llcc_compose_trim : list trim_efuse_t -> list Z).
Context (upload_board upload_tx : bool).

Definition tx_status (vs_command : bool) (type : Z) (p : list Z) : option bool :=
  if negb (type =? HCI_EVT_TYPE) then Some false else
  evt_code ← rd p 0;
  if negb (evt_code =? HCI_CMD_CMPL_EVT) then Some false else
  status ← rd p 5;
  if vs_command then
    ext_status ← rd p 6;
    Some ((status =? HCI_SUCCESS) && (ext_status =? BLE_EXT_STATUS_SUCCESS))
  else Some (status =? HCI_SUCCESS).

Definition llc_init_tx_command (type : Z) (data : list Z) (wait_complete vs_command : bool) : M boot bool :=
  emit (TxMessage type data);;
  if negb wait_complete then mret true
  else
    l ← get;
    ok ← lift (tx_status vs_command (reply l).1 (reply l).2);
    emit ReplyFreed;;
    mret ok.

Definition uint16_bytes (n : Z) : list Z := [u8 n; u8 (Z.shiftr n 8)].

(** [tmp_buf] has 256 bytes. *)
Definition p_llc_init_trim_up_load_new (type len : Z) (buf : list Z) : M boot bool :=
  ok ← llc_init_tx_command HCI_CMD_TYPE
         (uint16_bytes BLE_BOOT_OPCODE_TRIM_LOAD ++ [u8 BLE_BOOT_LEN_TRIM_LOAD]
            ++ uint16_bytes type ++ uint16_bytes len) true true;
  if negb (ok : bool) then mret false
  else if (HCI_CMD_HDR_LEN + len <=? 256) && (len <=? Z.of_nat (length buf)) then
    llc_init_tx_command HCI_CMD_TYPE
      (uint16_bytes BLE_BOOT_OPCODE_TRIM_DATA ++ [u8 len] ++ take (Z.to_nat len) buf) true true
  else ub.

Definition llcc_upload_ic_trim_new : M boot bool :=
  let ic_trim := llcc_compose_trim outer_ic_trim_efuse in
  b ← lift (rd ic_trim 28);
  ic_trim' ← lift (wr ic_trim 28 (u8 (b - Z.shiftl 5 2)));
  p_llc_init_trim_up_load_new BLE_TRIM_TYPE_IC IC_TRIM_DATA_LEN ic_trim'.

Definition llc_init_all_trim_upload_new : M boot bool :=
  emit Vd12BeforeEfuse;;
  ret ← llcc_upload_ic_trim_new;
  ret ← (if ret : bool then
           emit UploadBoard;;
           if upload_board then emit UploadTx;; mret upload_tx else mret false
         else mret false);
  emit Vd12AfterEfuse;;
  mret ret.
End Trim.

Definition patch_llc_init_all_trim_upload : M boot unit :=
  emit (SetTables outer_ic_trim_efuse outer_board_trim_efuse outer_final_board_trim_efuse
          outer_tx_trim_efuse outer_tx_trim_aband_efuse);;
  emit PatchTrimAndWrite.

Definition LlcIrqConnect : M boot unit :=
  emit (IrqConnect 4 1);; emit (IrqConnect 5 1);; emit (IrqConnect 8 1);; emit (IrqConnect 9 1);;
  emit (IrqConnect 12 0);;
  emit WdgUseSystick;; emit SetTimers;;
  patch_llc_init_all_trim_upload.

(** * Theorems *)
(** ** The checksum *)
Definition is_byte (b : Z) : Prop := 0 <= b < 256.

(** One bit of the division by x^8 + x^4 + x^3 + x^2 + 1. *)
Definition poly_step (c : Z) : Z :=
  if Z.testbit c 7 then Z.lxor (Z.land (Z.shiftl c 1) 255) 0x1d else Z.shiftl c 1.
Lemma crc8_table_is_polynomial : crc8_table = (fun c => Nat.iter 8 poly_step c) <$> seqZ 0 256.
Proof. by vm_compute. Qed.

Definition tab (x : Z) : Z := default 0 (rd crc8_table x).

Lemma lxor_byte a b : is_byte a -> is_byte b -> is_byte (Z.lxor a b).
Proof.
  intros [Ha1 Ha2] [Hb1 Hb2]. assert (0 <= Z.lxor a b) as Hn by (by apply Z.lxor_nonneg).
  split; [done|]. destruct (Z.eq_dec (Z.lxor a b) 0) as [->|Hz]; [lia|].
  apply (Z.log2_lt_pow2 _ 8); [lia|].
  pose proof (Z.log2_lxor a b Ha1 Hb1).
  assert (forall x, 0 <= x < 256 -> Z.log2 x < 8) as Hl.
  { intros x Hx. destruct (Z.eq_dec x 0) as [->|]; [done|]. apply Z.log2_lt_pow2; lia. }
  pose proof (Hl a). pose proof (Hl b). lia.
Qed.

Lemma tab_facts x : is_byte x ->
  rd crc8_table x = Some (tab x) /\ is_byte (tab x) /\ (tab x = 0 -> x = 0).
Proof.
  intros Hx.
  assert (forallb (fun x => match rd crc8_table x with
    | Some t => (0 <=? t) && (t <? 256) && (negb (t =? 0) || (x =? 0)) | None => false end)
    (seqZ 0 256) = true) as Hf by (by vm_compute).
  pose proof (forallb_range _ 256 Hf x Hx) as H. cbv beta in H.
  unfold tab. destruct (rd crc8_table x) as [t|]; [|done].
  apply andb_true_iff in H as [[H1%Z.leb_le H2%Z.ltb_lt]%andb_true_iff H3].
  cbn [default from_option]. unfold is_byte. unfold id. split_and!; [done..|]. intros ->. cbn in H3. by apply Z.eqb_eq in H3.
Qed.

Lemma tab_lxor x y : is_byte x -> is_byte y -> tab (Z.lxor x y) = Z.lxor (tab x) (tab y).
Proof.
  intros Hx Hy.
  assert (forallb (fun x => forallb (fun y => tab (Z.lxor x y) =? Z.lxor (tab x) (tab y)) (seqZ 0 256))
    (seqZ 0 256) = true) as Hf by (by vm_compute).
  pose proof (forallb_range _ 256 Hf x Hx) as H. cbv beta in H.
  pose proof (forallb_range _ 256 H y Hy) as H'. by apply Z.eqb_eq in H'.
Qed.

Lemma tab_inj x y : is_byte x -> is_byte y -> tab x = tab y -> x = y.
Proof.
  intros Hx Hy E. apply Z.lxor_eq. apply tab_facts; [by apply lxor_byte|].
  rewrite tab_lxor by done. rewrite E. apply Z.lxor_nilpotent.
Qed.

(** The loop on bytes is a fold that never leaves the table. *)
Definition crc_fold (c : Z) (l : list Z) : Z := foldl (fun c b => tab (Z.lxor b c)) c l.
Lemma crc8_loop_fold l : forall c, is_byte c -> Forall is_byte l ->
  crc8_loop c l = Some (crc_fold c l) /\ is_byte (crc_fold c l).
Proof.
  induction l as [|b l IH]; intros c Hc Hl; [done|].
  apply Forall_cons in Hl as [Hb Hl].
  destruct (tab_facts (Z.lxor b c)) as (E & Ht & _); [by apply lxor_byte|].
  cbn [crc8_loop]. rewrite E. cbn [mbind option_bind]. by apply IH.
Qed.
Lemma crc_fold_inj l : forall c d, is_byte c -> is_byte d -> Forall is_byte l ->
  crc_fold c l = crc_fold d l -> c = d.
Proof.
  induction l as [|b l IH]; intros c d Hc Hd Hl E; [done|].
  apply Forall_cons in Hl as [Hb Hl].
  apply IH in E; [|by apply tab_facts, lxor_byte..|done].
  apply tab_inj in E; [|by apply lxor_byte..].
  rewrite <- (Z.lxor_0_l c), <- (Z.lxor_0_l d), <- (Z.lxor_nilpotent b), !Z.lxor_assoc. by f_equal.
Qed.

(** No burst of at most eight bits is its own remainder. *)
Lemma burst_remainder d1 d2 w k :
  0 <= k <= 8 -> 0 < w < 256 -> is_byte d1 -> is_byte d2 -> d1 * 256 + d2 = w * 2 ^ k -> tab d1 <> d2.
Proof.
  intros Hk Hw H1 H2 E.
  assert (forallb (fun k => forallb (fun w => (w =? 0) ||
    (negb (tab (w * 2 ^ k / 256) =? (w * 2 ^ k) mod 256))) (seqZ 0 256)) (seqZ 0 9) = true) as Hf
    by (by vm_compute).
  pose proof (forallb_range _ 9 Hf k ltac:(lia)) as H. cbv beta in H.
  pose proof (forallb_range _ 256 H w ltac:(lia)) as H'. cbv beta in H'. unfold is_byte in *.
  rewrite <- E in H'. rewrite Z.div_add_l, Z.div_small, Z.add_0_r in H' by lia.
  rewrite Z.add_comm, Z.mod_add, Z.mod_small in H' by lia.
  destruct (Z.eqb_spec w 0); [lia|]. cbn in H'. intros Et. rewrite Et, Z.eqb_refl in H'. done.
Qed.

(**  The payload checksum tells two messages of bytes apart whenever they differ in a
    single burst of at most eight bits, wherever it lies and also across a byte boundary:
    the checksums are then both defined and different.  In particular every change of one
    byte is detected. *)
Theorem crc8_detects_bursts (pre suf : list Z) (a b a' b' w k : Z)
  (Hpre : Forall is_byte pre) (Hsuf : Forall is_byte suf)
  (Hb : Forall is_byte [a; b; a'; b'])
  (Hk : 0 <= k <= 8) (Hw : 0 < w < 256)
  (Hburst : Z.lxor a a' * 256 + Z.lxor b b' = w * 2 ^ k) :
  exists c c',
    crc8_compute (pre ++ [a; b] ++ suf) = Some c /\
    crc8_compute (pre ++ [a'; b'] ++ suf) = Some c' /\ c <> c'.
Proof.
  rewrite !Forall_cons in Hb. destruct Hb as (Ha & Hb & Ha' & Hb' & _).
  assert (is_byte 0) as H0 by done.
  destruct (crc8_loop_fold (pre ++ [a; b] ++ suf) 0) as [E _]; [done|rewrite !Forall_app, !Forall_cons; auto|].
  destruct (crc8_loop_fold (pre ++ [a'; b'] ++ suf) 0) as [E' _]; [done|rewrite !Forall_app, !Forall_cons; auto|].
  destruct (crc8_loop_fold pre 0 H0 Hpre) as [_ Hc].
  eexists _, _. split_and!; [exact E|exact E'|].
  unfold crc_fold in Hc |- *. rewrite !foldl_app. cbn [foldl]. set (c := foldl _ 0 pre) in *.
  intros Heq. apply crc_fold_inj in Heq; [|by repeat (apply tab_facts || apply lxor_byte)..|done].
  apply tab_inj in Heq; [|by repeat (apply tab_facts || apply lxor_byte)..].
  apply (burst_remainder (Z.lxor a a') (Z.lxor b b') w k); [done|done|by apply lxor_byte..|done|].
  assert (tab (Z.lxor a a') = Z.lxor (tab (Z.lxor a c)) (tab (Z.lxor a' c))) as ->.
  { rewrite <- tab_lxor by (by apply lxor_byte). f_equal.
    apply Z.bits_inj'. intros i _. rewrite !Z.lxor_spec.
    by destruct (Z.testbit a i), (Z.testbit a' i), (Z.testbit c i). }
  apply Z.bits_inj'. intros i _. apply (f_equal (fun z => Z.testbit z i)) in Heq. revert Heq.
  rewrite !Z.lxor_spec.
  by destruct (Z.testbit b i), (Z.testbit b' i), (Z.testbit (tab (Z.lxor a c)) i),
    (Z.testbit (tab (Z.lxor a' c)) i).
Qed.

Lemma crc8_detects_bursts_witness : exists c c',
  crc8_compute [1; 2; 3] = Some c /\ crc8_compute [1; 3; 131] = Some c' /\ c <> c'.
Proof.
  apply (crc8_detects_bursts [1] [] 2 3 3 131 3 7); [repeat constructor; unfold is_byte; lia..|lia|lia|reflexivity].
Defined.

(** ** Retransmission after a damaged payload *)
(** The calls that only drive the hardware. *)
Definition rom_output (c : rom_call) : bool :=
  match c with WakeLockInc | WdogTxEna _ | TxXferReq2 _ _ _ _ _ => true | _ => false end.
(** A command with a good header that reports a damaged payload. *)
Definition data_err_frame (data0 data1 : Z) : bool :=
  let cmd := word_bytes data0 ++ word_bytes data1 in
  bool_decide (cmd !! 0%nat = Some LLCC_CMD2_ERROR) && bool_decide (cmd !! 1%nat = Some LLCC_ERROR2_DATA_ERR)
    && bool_decide (cmd !! 7%nat = Some (header_sum cmd)).

(** The words of a transfer, the unused bytes at their end, and the alignment byte. *)
Definition words (len : Z) : Z := (len + 3) / 4.
Definition align_byte (a len : Z) : Z := u8 (Z.lor a (Z.shiftl (words len * 4 - len - a) 2)).
(** The length the receiver, and the transmitter's own re-check, derive from them. *)
Definition checked_len (a len : Z) : Z :=
  if a <=? words len * 4 - len then len else u16 (len - 4).

Lemma align_byte_fields a len : 0 <= a < 4 ->
  Z.land (align_byte a len) 3 = a /\
  Z.land (Z.shiftr (align_byte a len) 2) 3 = (words len * 4 - len - a) mod 4.
Proof.
  intros Ha. unfold align_byte, u8. set (d := words len * 4 - len - a).
  rewrite <- (Z.land_ones _ 8) by lia. change 3 with (Z.ones 2). split.
  - rewrite <- Z.land_assoc. change (Z.land (Z.ones 8) (Z.ones 2)) with (Z.ones 2).
    rewrite Z.land_lor_distr_l, !Z.land_ones, Z.shiftl_mul_pow2, Z.mod_mul by lia.
    by rewrite Z.lor_0_r, Z.mod_small.
  - rewrite Z.shiftr_land, Z.shiftr_lor, Z.shiftr_shiftl_l by lia.
    rewrite <- Z.land_assoc. change (Z.land (Z.shiftr (Z.ones 8) 2) (Z.ones 2)) with (Z.ones 2).
    rewrite (Z.shiftr_div_pow2 a), Z.div_small, Z.lor_0_l by lia. change (2 - 2) with 0.
    by rewrite Z.shiftl_0_r, Z.land_ones.
Qed.

Lemma checked_len_spec a len : 0 <= a < 4 -> 0 <= len < 65536 ->
  u16 (words len * 4 - a - (words len * 4 - len - a) mod 4) = checked_len a len.
Proof.
  intros Ha Hl. unfold checked_len, words.
  pose proof (Z.div_mod (len + 3) 4 ltac:(lia)). pose proof (Z.mod_pos_bound (len + 3) 4 ltac:(lia)).
  set (q := (len + 3) / 4) in *. destruct (Z.leb_spec a (q * 4 - len)).
  - rewrite (Z.mod_small (q * 4 - len - a)) by lia. rewrite <- (u16_small len) at 2 by lia. f_equal. lia.
  - f_equal. replace (q * 4 - len - a) with (q * 4 - len - a + 4 + (-1) * 4) by lia.
    rewrite Z.mod_add, Z.mod_small by lia. lia.
Qed.

#[local] Arguments ends : simpl never.
Section Resend.
Context (rom : rom_call -> llcc -> llcc) (isr : llcc -> llcc) (stack : list Z).
Context (Hrom : forall c s, rom_output c = true -> rom c s = s).

(** The control block after a write. *)
Definition written (s : llcc) (cmd p len ctx csum : Z) : llcc :=
  Llcc true (state s) (use_xfer2 s) (consecutive_err s) (wdog_timeout_ticks s)
    (Xfer p (align_byte (p mod 4) len) csum (words len) (u16 cmd) (u8 (seq_num (tx s) + 1)))
    ctx (count_out cmd (hci_stats s)) (memory s)
    (calls s ++ [WakeLockInc; WdogTxEna (wdog_timeout_ticks s);
                 TxXferReq2 (u8 cmd) (align_byte (p mod 4) len) (words len) csum (u8 (seq_num (tx s) + 1))]).

Lemma call_output c s (Q : unit -> llcc -> Prop) :
  rom_output c = true -> Q tt (s <| calls := calls s ++ [c] |>) -> ends (call rom c) s Q.
Proof. intros Hc HQ. unfold call. apply ends_modify. by rewrite Hrom. Qed.

Lemma u8_u16 z : u8 (u16 z) = u8 z.
Proof. unfold u8, u16. apply Z.mod_mod_divide. by exists 256. Qed.

Lemma write_ends s cmd p len ctx csum :
  state s = LLCC_STATE_READY -> tx_busy_flag s = false -> use_xfer2 s = true ->
  0 <= len < 65536 -> compute_checksum (memory s) p len = Some csum ->
  ends (llcc_write_new rom isr 0 cmd p len ctx) s (fun _ s' => s' = written s cmd p len ctx csum).
Proof.
  intros Hst Hb Hx Hl Hc. destruct s as [busy st x2 ce wd t pc hs mem cs]. cbn in Hst, Hb, Hx, Hc. subst.
  assert (Z.land p 3 = p mod 4) as Ep by (by apply (Z.land_ones p 2)).
  assert (u16 ((len + 3) / 4) = words len) as Ew.
  { unfold words. apply u16_small. pose proof (Z.div_mod (len + 3) 4 ltac:(lia)).
    pose proof (Z.mod_pos_bound (len + 3) 4 ltac:(lia)). lia. }
  unfold llcc_write_new, upd_tx. rewrite Ep, Ew. cbn [wait_channel]. hoare. cbn. hoare. cbn. hoare.
  apply call_output; [done|]. cbn. hoare. cbn. hoare. eapply ends_lift; [exact Hc|]. cbn. hoare. cbn. hoare.
  apply call_output; [done|]. cbn. hoare. cbn. apply call_output; [done|]. cbn.
  unfold written, align_byte. cbn. rewrite u8_u16, <- !app_assoc. cbn.
  replace (Z.land (p mod 4) 3) with (p mod 4); [done|].
  change 3 with (Z.ones 2). rewrite Z.land_ones by lia. by rewrite Z.mod_mod.
Qed.

(** The two outcomes of a report of damage. *)
Definition resend (good : bool) (s : llcc) : llcc :=
  let s' := if good
            then s <| hci_stats ::= (fun st => st <| num_data_crc_err_tx ::= inc16 |>) |>
            else s <| hci_stats ::= (fun st => st <| num_tx_buffer_err ::= inc16 |>) |>
                   <| consecutive_err := LLCC_MAX_CONSECUTIVE_ERR |> in
  (rom (TxRetryHelper true) s') <| calls := calls s' ++ [TxRetryHelper true] |>.

Lemma data_err_ends s cmd p len ctx csum csum' mem d0 d1 :
  0 <= len < 65536 -> data_err_frame d0 d1 = true ->
  compute_checksum mem (p + p mod 4) (checked_len (p mod 4) len) = Some csum' ->
  ends (llcc_rx_cmd_valid_handler_new rom stack d0 d1) ((written s cmd p len ctx csum) <| memory := mem |>)
    (fun _ s' => s' = resend (csum' =? csum) ((written s cmd p len ctx csum) <| memory := mem |>)).
Proof.
  intros Hl Hf Hc. pose proof (Z.mod_pos_bound p 4 ltac:(lia)) as Ha.
  destruct (align_byte_fields (p mod 4) len Ha) as [E1 E2].
  apply andb_true_iff in Hf as [[H0%bool_decide_eq_true H1%bool_decide_eq_true]%andb_true_iff
    H7%bool_decide_eq_true].
  unfold llcc_rx_cmd_valid_handler_new. set (c := word_bytes d0 ++ word_bytes d1) in *.
  hoare. eapply ends_lift; [exact H7|]. hoare. eapply ends_lift; [exact H0|].
  hoare. eapply ends_lift; [exact H1|]. hoare.
  assert (exists b2, rd c 2 = Some b2) as [b2 H2] by (eexists; reflexivity).
  eapply ends_lift; [exact H2|]. hoare. rewrite Z.eqb_refl, andb_false_r. cbn.
  unfold rx_data_err. hoare. cbn [tx_busy_flag written set_field negb tx p_buf x_align x_len memory].
  rewrite E1, E2, checked_len_spec by done. hoare. eapply ends_lift; [exact Hc|].
  unfold resend. cbn [checksum]. destruct (csum' =? csum); cbn [negb]; hoare; unfold call; by apply ends_modify.
Qed.

(**  Transmission of a word-aligned packet, and the report that it arrived damaged.
    The write takes the channel and announces the words, the unused bytes and the CRC of the
    payload under the next sequence number.  When the controller reports a damaged payload
    the driver computes the CRC of exactly the packet's bytes again: if the buffer is as it
    was the packet is sent again and the error count of the link is left to the ROM; if it
    was overwritten meanwhile the transfer counts as failed for good. *)
Theorem aligned_resend (s : llcc) (cmd p len ctx csum csum' : Z) (mem : Z -> Z) (d0 d1 : Z)
  (Hst : state s = LLCC_STATE_READY) (Hbusy : tx_busy_flag s = false) (Hx : use_xfer2 s = true)
  (Hp : p mod 4 = 0) (Hlen : 0 <= len < 65536)
  (Hc : compute_checksum (memory s) p len = Some csum)
  (Hc' : compute_checksum mem p len = Some csum')
  (Hf : data_err_frame d0 d1 = true) :
  ends (llcc_write_new rom isr 0 cmd p len ctx) s (fun _ s1 =>
    s1 = written s cmd p len ctx csum /\
    ends (llcc_rx_cmd_valid_handler_new rom stack d0 d1) (s1 <| memory := mem |>) (fun _ s2 =>
      s2 = resend (csum' =? csum) (s1 <| memory := mem |>))).
Proof.
  eapply ends_mono; [by apply write_ends|]. intros ? s1 ->. split; [done|].
  apply data_err_ends; [done..|]. rewrite Hp, Z.add_0_r. unfold checked_len, words.
  pose proof (Z.div_mod (len + 3) 4 ltac:(lia)). pose proof (Z.mod_pos_bound (len + 3) 4 ltac:(lia)).
  destruct (Z.leb_spec 0 ((len + 3) / 4 * 4 - len)); [done|lia].
Qed.

(** The same for a packet that is not word-aligned: the driver keeps the packet's own
    address in [p_buf] and adds the alignment to it again, so the CRC is computed again over
    bytes that start [p mod 4] late and, unless the last word had room for the shift, over
    four bytes too few.  The buffer never changed here; whether the packet is sent again or
    the link is given up depends on the bytes behind it. *)
Theorem unaligned_resend_checks_wrong_bytes (s : llcc) (cmd p len ctx csum csum' : Z) (d0 d1 : Z)
  (Hst : state s = LLCC_STATE_READY) (Hbusy : tx_busy_flag s = false) (Hx : use_xfer2 s = true)
  (Hp : p mod 4 <> 0) (Hlen : 4 <= len < 65536)
  (Hc : compute_checksum (memory s) p len = Some csum)
  (Hc' : compute_checksum (memory s) (p + p mod 4)
           (if p mod 4 <=? (len + 3) / 4 * 4 - len then len else len - 4) = Some csum')
  (Hf : data_err_frame d0 d1 = true) :
  ends (llcc_write_new rom isr 0 cmd p len ctx) s (fun _ s1 =>
    s1 = written s cmd p len ctx csum /\
    ends (llcc_rx_cmd_valid_handler_new rom stack d0 d1) s1 (fun _ s2 =>
      s2 = resend (csum' =? csum) s1)).
Proof.
  eapply ends_mono; [apply write_ends; try done; lia|]. intros ? s1 ->. split; [done|].
  change (written s cmd p len ctx csum) with
    ((written s cmd p len ctx csum) <| memory := memory (written s cmd p len ctx csum) |>).
  apply data_err_ends; [lia|done|]. unfold checked_len, words. rewrite u16_small by lia. exact Hc'.
Qed.
End Resend.

Definition idle_link (mem : Z -> Z) : llcc :=
  Llcc false LLCC_STATE_READY true 0 5 (Xfer 0 0 0 0 0 0) 0 (PktStats 0 0 0 0 0 0) mem [].

Lemma aligned_resend_witness :
  ends (llcc_write_new (fun _ s => s) id 0 HCI_ACL_TYPE 0x100 5 7) (idle_link (fun a => a mod 256))
    (fun _ s1 => ends (llcc_rx_cmd_valid_handler_new (fun _ s => s) [] 0x30E 0x10000000)
       (s1 <| memory := fun _ => 0 |>)
       (fun _ s2 => consecutive_err s2 = 250 /\ num_tx_buffer_err (hci_stats s2) = 1)).
Proof.
  eapply ends_mono.
  - apply (aligned_resend (fun _ s => s) id []) with (len := 5) (mem := fun _ => 0) (d0 := 0x30E)
      (d1 := 0x10000000); [done..|vm_compute; reflexivity|vm_compute; reflexivity|vm_compute; reflexivity].
  - intros ? s1 [-> H]. eapply ends_mono; [exact H|]. intros ? s2 ->. by vm_compute.
Defined.

Lemma unaligned_resend_checks_wrong_bytes_witness :
  ends (llcc_write_new (fun _ s => s) id 0 HCI_ACL_TYPE 0x101 5 7) (idle_link (fun a => a mod 256))
    (fun _ s1 => ends (llcc_rx_cmd_valid_handler_new (fun _ s => s) [] 0x30E 0x10000000) s1
       (fun _ s2 => consecutive_err s2 = 250 /\ num_tx_buffer_err (hci_stats s2) = 1)).
Proof.
  eapply ends_mono.
  - apply (unaligned_resend_checks_wrong_bytes (fun _ s => s) id []) with (len := 5) (d0 := 0x30E)
      (d1 := 0x10000000);
      [done|done|done|done|done|lia|vm_compute; reflexivity|vm_compute; reflexivity|vm_compute; reflexivity].
  - intros ? s1 [-> H]. eapply ends_mono; [exact H|]. intros ? s2 ->. by vm_compute.
Defined.

(** The literal indices of a read. *)
Ltac rd_literals :=
  change (Z.to_nat 0) with 0%nat; change (Z.to_nat 1) with 1%nat; change (Z.to_nat 2) with 2%nat;
  change (Z.to_nat 5) with 5%nat; change (Z.to_nat 6) with 6%nat; change (Z.to_nat 7) with 7%nat.

(** ** Received commands *)
Definition word_of (l : list Z) : Z := foldr (fun b acc => b + 256 * acc) 0 l.

Lemma word_of_bytes b0 b1 b2 b3 :
  is_byte b0 -> is_byte b1 -> is_byte b2 -> is_byte b3 ->
  word_bytes (word_of [b0; b1; b2; b3]) = [b0; b1; b2; b3].
Proof.
  unfold is_byte, word_bytes, word_of. intros. cbn [foldr fmap list_fmap].
  change 255 with (Z.ones 8). rewrite !Z.land_ones, !Z.shiftr_div_pow2 by lia.
  change (2 ^ (8 * 0)) with 1. change (2 ^ (8 * 1)) with 256. change (2 ^ (8 * 2)) with 65536.
  change (2 ^ (8 * 3)) with 16777216. change (2 ^ 8) with 256.
  repeat f_equal; Z.div_mod_to_equations; lia.
Qed.

Lemma sum8_loop l : forall c, foldl (fun c b => u8 (c + b)) (u8 c) l = u8 (c + foldr Z.add 0 l).
Proof.
  induction l as [|b l IH]; intros c; cbn [foldl foldr]; [by rewrite Z.add_0_r|].
  replace (u8 (u8 c + b)) with (u8 (c + b)); [rewrite IH; by rewrite Z.add_assoc|].
  unfold u8. by rewrite Z.add_mod_idemp_l.
Qed.
Lemma header_sum_cons b0 b1 b2 b3 b4 b5 b6 b7 :
  header_sum [b0; b1; b2; b3; b4; b5; b6; b7] = (255 + b0 + b1 + b2 + b3 + b4 + b5 + b6) mod 256.
Proof.
  unfold header_sum. change 255 with (u8 255) at 1. rewrite sum8_loop. cbn [take foldr].
  unfold u8. f_equal. lia.
Qed.

(**  With the second transfer protocol in use, a command that left the controller with a
    good header and had any one of its eight bytes changed on the way is refused: whatever
    the change makes it look like (a reset of the link included), the driver only counts the
    error and asks for the command again. *)
Theorem rx_header_checked (rom : rom_call -> llcc -> llcc) (stack cmd : list Z) (i : nat) (b : Z) (s : llcc)
  (Hx : use_xfer2 s = true) (Hlen : length cmd = 8%nat) (Hcmd : Forall is_byte cmd)
  (Hsum : cmd !! 7%nat = Some (header_sum cmd))
  (Hi : (i < 8)%nat) (Hb : is_byte b) (Hne : cmd !! i <> Some b) :
  let bad := <[i := b]> cmd in
  let counted := s <| hci_stats ::= (fun st => st <| num_hdr_crc_err_rx ::= inc16 |>) |> in
  llcc_rx_cmd_valid_handler_new rom stack (word_of (take 4 bad)) (word_of (drop 4 bad)) s =
    Some (tt, (rom (TxError2 LLCC_ERROR2_HDR_ERR 0) counted)
                <| calls := calls s ++ [TxError2 LLCC_ERROR2_HDR_ERR 0] |>).
Proof.
  cbv zeta. set (bad := <[i := b]> cmd).
  assert (exists b0 b1 b2 b3 b4 b5 b6 b7, bad = [b0; b1; b2; b3; b4; b5; b6; b7] /\
    Forall is_byte [b0; b1; b2; b3; b4; b5; b6; b7] /\ header_sum bad <> b7) as Hbad.
  { destruct cmd as [|c0 [|c1 [|c2 [|c3 [|c4 [|c5 [|c6 [|c7 [|]]]]]]]]]; try done. clear Hlen.
    rewrite header_sum_cons in Hsum. injection Hsum as Hs.
    assert (Forall is_byte bad) as HF by (by apply Forall_insert).
    rewrite !Forall_cons in Hcmd. unfold is_byte in *.
    assert (Hcase : exists b0 b1 b2 b3 b4 b5 b6 b7, bad = [b0; b1; b2; b3; b4; b5; b6; b7] /\
      (255 + b0 + b1 + b2 + b3 + b4 + b5 + b6) mod 256 <> b7).
    { unfold bad. do 8 (destruct i as [|i];
        [cbn in Hne |- *; do 8 eexists; split; [reflexivity|];
         assert (forall c, Some c <> Some b -> c <> b) as Hc by congruence; apply Hc in Hne; clear Hc;
         Z.div_mod_to_equations; lia|]). lia. }
    destruct Hcase as (b0 & b1 & b2 & b3 & b4 & b5 & b6 & b7 & E & Hn).
    exists b0, b1, b2, b3, b4, b5, b6, b7. rewrite E in HF |- *. by rewrite header_sum_cons. }
  destruct Hbad as (b0 & b1 & b2 & b3 & b4 & b5 & b6 & b7 & E & HF & Hn).
  rewrite !Forall_cons in HF. rewrite E in *. cbn [take drop].
  unfold llcc_rx_cmd_valid_handler_new. rewrite !word_of_bytes by tauto.
  change ([b0; b1; b2; b3] ++ [b4; b5; b6; b7]) with [b0; b1; b2; b3; b4; b5; b6; b7].
  unfold call, rd. munfold. apply Z.eqb_neq in Hn. cbn -[header_sum].
  rd_literals. cbn -[header_sum]. rewrite Hx. cbn -[header_sum]. by rewrite Hn.
Qed.

(** A soft reset with one bit of its type lost. *)
Lemma rx_header_checked_witness :
  num_hdr_crc_err_rx <$> (hci_stats <$> (snd <$>
    llcc_rx_cmd_valid_handler_new (fun _ s => s) [] (word_of [3; 0x5a; 0xa5; 0]) (word_of [0; 0; 0; 0xff])
      (idle_link (fun _ => 0)))) = Some 1.
Proof.
  change (llcc_rx_cmd_valid_handler_new (fun _ s => s) [] (word_of [3; 0x5a; 0xa5; 0]) (word_of [0; 0; 0; 0xff]))
    with (llcc_rx_cmd_valid_handler_new (fun _ s => s) []
            (word_of (take 4 (<[0%nat := 3]> [1; 0x5a; 0xa5; 0; 0; 0; 0; 0xff])))
            (word_of (drop 4 (<[0%nat := 3]> [1; 0x5a; 0xa5; 0; 0; 0; 0; 0xff])))).
  rewrite (rx_header_checked (fun _ s => s) [] [1; 0x5a; 0xa5; 0; 0; 0; 0; 0xff] 0 3);
    [reflexivity|reflexivity|reflexivity|repeat constructor; unfold is_byte; lia
    |vm_compute; reflexivity|lia|unfold is_byte; lia|done].
Defined.

(** ** The trim upload *)
(** The controller accepted a vendor command. *)
Definition accepted (r : Z * list Z) : bool :=
  (r.1 =? HCI_EVT_TYPE) && bool_decide (r.2 !! 0%nat = Some HCI_CMD_CMPL_EVT)
    && bool_decide (r.2 !! 5%nat = Some HCI_SUCCESS) && bool_decide (r.2 !! 6%nat = Some BLE_EXT_STATUS_SUCCESS).

Lemma tx_status_accepted r : (7 <= length r.2)%nat -> tx_status true r.1 r.2 = Some (accepted r).
Proof.
  destruct r as [t p]. cbn [fst snd]. intros Hl.
  destruct p as [|e0 [|e1 [|e2 [|e3 [|e4 [|e5 [|e6 p]]]]]]]; try (cbn in Hl; lia).
  unfold tx_status, accepted. cbn [fst snd].
  assert (forall (a b : Z), bool_decide (Some a = Some b) = (a =? b)) as Hd.
  { intros a b. destruct (Z.eqb_spec a b); [apply bool_decide_true|apply bool_decide_false]; congruence. }
  destruct (t =? HCI_EVT_TYPE); [|done]. unfold rd.
  cbn -[HCI_CMD_CMPL_EVT HCI_SUCCESS BLE_EXT_STATUS_SUCCESS bool_decide Z.eqb].
  rd_literals. cbn -[HCI_CMD_CMPL_EVT HCI_SUCCESS BLE_EXT_STATUS_SUCCESS bool_decide Z.eqb]. rewrite !Hd.
  by destruct (e0 =? HCI_CMD_CMPL_EVT).
Qed.

Lemma tx_command_ends reply type data (l : boot) :
  (7 <= length (reply (l ++ [TxMessage type data])).2)%nat ->
  ends (llc_init_tx_command reply type data true true) l (fun ok l' =>
    ok = accepted (reply (l ++ [TxMessage type data])) /\ l' = l ++ [TxMessage type data; ReplyFreed]).
Proof.
  intros Hl. unfold llc_init_tx_command, emit. hoare. cbn [negb]. hoare.
  eapply ends_lift; [by apply tx_status_accepted|]. hoare. split; [done|]. by rewrite <- app_assoc.
Qed.

(** The two messages of the image's upload. *)
Definition ic_load : boot_event := TxMessage HCI_CMD_TYPE [0x03; 0xFC; 4; 0x0A; 0; 32; 0].
Definition ic_data (ic : list Z) : boot_event := TxMessage HCI_CMD_TYPE ([0x04; 0xFC; 32] ++ ic).

(** The start-up upload of the trim data.  Between lowering and restoring the supply,
    which happens on every path, the driver announces the IC trim (type 0x0A, 32 bytes),
    sends the composed image with its byte 28 lowered by 0x14, and then lets the ROM upload
    the board and the transmit trim; it goes on exactly as long as the controller accepts,
    frees every reply, and returns true exactly when all four were accepted. *)
Theorem trim_upload (reply : boot -> Z * list Z) (compose : list trim_efuse_t -> list Z) (board tx : bool)
  (l : boot) (b28 : Z)
  (Hreply : forall l, (7 <= length (reply l).2)%nat)
  (Hlen : length (compose outer_ic_trim_efuse) = 32%nat)
  (H28 : compose outer_ic_trim_efuse !! 28%nat = Some b28) :
  let ic := <[28%nat := u8 (b28 - 0x14)]> (compose outer_ic_trim_efuse) in
  let l1 := l ++ [Vd12BeforeEfuse; ic_load] in
  let l2 := l1 ++ [ReplyFreed; ic_data ic] in
  let ok1 := accepted (reply l1) in
  let ok2 := accepted (reply l2) in
  ends (llc_init_all_trim_upload_new reply compose board tx) l (fun ret l' =>
    ret = ok1 && ok2 && board && tx /\
    l' = (if ok1 then l2 ++ [ReplyFreed] ++ (if ok2 then UploadBoard :: (if board then [UploadTx] else []) else [])
          else l1 ++ [ReplyFreed]) ++ [Vd12AfterEfuse]).
Proof.
  unfold llc_init_all_trim_upload_new, llcc_upload_ic_trim_new, p_llc_init_trim_up_load_new. cbv zeta.
  unfold emit. hoare. eapply ends_lift; [unfold rd; exact H28|]. hoare.
  eapply ends_lift; [apply wr_in_bound; rewrite Hlen; lia|]. hoare.
  eapply ends_mono; [by apply tx_command_ends|]. intros ok1 l1 [-> ->].
  rewrite <- !app_assoc. change (Z.shiftl 5 2) with 0x14. change (Z.to_nat 28) with 28%nat.
  change (TxMessage HCI_CMD_TYPE (uint16_bytes BLE_BOOT_OPCODE_TRIM_LOAD ++ _)) with ic_load.
  destruct (accepted _); cbn [negb].
  2: { unfold emit. hoare. split; [done|]. by rewrite <- !app_assoc. }
  rewrite length_insert, Hlen. 
  change ((HCI_CMD_HDR_LEN + IC_TRIM_DATA_LEN <=? 256) && (IC_TRIM_DATA_LEN <=? Z.of_nat 32)) with true. cbv iota.
  eapply ends_mono; [by apply tx_command_ends|]. intros ok2 l2 [-> ->].
  rewrite (take_ge _ (Z.to_nat IC_TRIM_DATA_LEN)) by (rewrite length_insert, Hlen; done).
  change (TxMessage HCI_CMD_TYPE (uint16_bytes BLE_BOOT_OPCODE_TRIM_DATA ++ _)) with
    (ic_data (<[28%nat:=u8 (b28 - 20)]> (compose outer_ic_trim_efuse))).
  rewrite <- !app_assoc. cbn [app andb].
  destruct (accepted _); unfold emit; [destruct board|]; hoare; cbn [andb]; split; try done;
    by rewrite <- ?app_assoc.
Qed.

Lemma trim_upload_witness :
  ends (llc_init_all_trim_upload_new (fun _ => (HCI_EVT_TYPE, [0x0E; 5; 1; 3; 0xFC; 0; 0]))
          (fun _ => replicate 32 7) true false) []
    (fun ret l' => ret = false /\ last l' = Some Vd12AfterEfuse /\ length l' = 8%nat).
Proof.
  eapply ends_mono.
  - apply (trim_upload (fun _ => (HCI_EVT_TYPE, [0x0E; 5; 1; 3; 0xFC; 0; 0])) (fun _ => replicate 32 7) true false [] 7);
      [intros; cbn; lia|reflexivity|reflexivity].
  - intros ret l' [-> ->]. by vm_compute.
Defined.
