(* ===== verification/Mmio.v ===== *)
(** * Memory-mapped devices

    A driver is a state of its own and a bus.  Every access to a register and every call
    into the clock, reset, pin, interrupt and power management code is an event of the bus's
    trace; what a register reads as is decided by the parameter [world], which gives the
    value for the n-th read and its address, so that a theorem that holds for every [world]
    holds for every behaviour of the hardware. *)
From S2P Require Import Prelude.

Inductive bus_event :=
| RdReg (addr v : Z)
| WrReg (addr v : Z)
| ClockEnable (id : Z)
| ClockDisable (id : Z)
| ResetPeripheral (id : Z)
| IrqEnable (irq : Z)
| IrqDisable (irq : Z)
| BusyWait (us : Z)
| PinmuxSet (pin v : Z)
| GpioConfigure (pin flags : Z)
| GpioWrite (pin v : Z)
| PwmSetCycles (chan period pulse : Z)
| DeviceBusy (busy : bool)
(* any other call out of the modelled code, with its integer arguments *)
| Ext (f : string) (args : list Z).
#[export] Instance bus_event_dec : EqDecision bus_event.
Proof. solve_decision. Defined.

Record driver (D : Type) := Driver { dev : D; nreads : nat; trace : list bus_event }.
#[global] Arguments Driver {D}.
#[global] Arguments dev {D}.
#[global] Arguments nreads {D}.
#[global] Arguments trace {D}.
#[export] Instance eta_driver {D} : EtaRecord (driver D) := fun r => Driver (dev r) (nreads r) (trace r).

Section Bus.
Context {D : Type} (world : nat -> Z -> Z).

Definition log (e : bus_event) : M (driver D) unit := modify (fun s => s <| trace ::= (fun t => t ++ [e]) |>).
Definition sys_write32 (v addr : Z) : M (driver D) unit := log (WrReg addr (u32 v)).
Definition sys_read32 (addr : Z) : M (driver D) Z := fun s =>
  let v := u32 (world (nreads s) addr) in
  Some (v, s <| nreads ::= S |> <| trace ::= (fun t => t ++ [RdReg addr v]) |>).

(** The driver's own state. *)
Definition get_dev : M (driver D) D := gets dev.
Definition upd_dev (f : D -> D) : M (driver D) unit := modify (fun s => s <| dev ::= f |>).
End Bus.

(** Hoare rules for the two primitives. *)
Lemma ends_log {D} e (s : driver D) (Q : unit -> driver D -> Prop) :
  Q tt (Driver (dev s) (nreads s) (trace s ++ [e])) -> ends (log e) s Q.
Proof. done. Qed.
Lemma ends_read {D} world a (s : driver D) (Q : Z -> driver D -> Prop) :
  (forall v, v = u32 (world (nreads s) a) -> Q v (Driver (dev s) (S (nreads s)) (trace s ++ [RdReg a v]))) ->
  ends (sys_read32 world a) s Q.
Proof. intros H. by apply H. Qed.
Lemma ends_if_log {D} e (s : driver D) (Q : unit -> driver D -> Prop) :
  Q tt (Driver (dev s) (nreads s) (trace s ++ [e])) -> ends_if (log e) s Q.
Proof. done. Qed.
Lemma ends_if_read {D} world a (s : driver D) (Q : Z -> driver D -> Prop) :
  (forall v, 0 <= v < 2 ^ 32 -> Q v (Driver (dev s) (S (nreads s)) (trace s ++ [RdReg a v]))) ->
  ends_if (sys_read32 world a) s Q.
Proof. intros H. apply H, u32_range. Qed.
Lemma ends_upd_dev {D} (f : D -> D) (s : driver D) (Q : unit -> driver D -> Prop) :
  Q tt (Driver (f (dev s)) (nreads s) (trace s)) -> ends (upd_dev f) s Q.
Proof. done. Qed.
Lemma ends_if_upd_dev {D} (f : D -> D) (s : driver D) (Q : unit -> driver D -> Prop) :
  Q tt (Driver (f (dev s)) (nreads s) (trace s)) -> ends_if (upd_dev f) s Q.
Proof. done. Qed.

(** Hoare steps of a driver. *)
Ltac bus1 :=
  lazymatch goal with
  | |- ends (log _) _ _ => apply ends_log
  | |- ends (sys_write32 _ _) _ _ => apply ends_log
  | |- ends (sys_read32 _ _) _ _ => apply ends_read; let v := fresh "v" in let E := fresh "E" in intros v E
  | |- ends (upd_dev _) _ _ => apply ends_upd_dev
  | |- ends get_dev _ _ => apply ends_gets
  | |- ends_if (log _) _ _ => apply ends_if_log
  | |- ends_if (sys_write32 _ _) _ _ => apply ends_if_log
  | |- ends_if (sys_read32 _ _) _ _ => apply ends_if_read; let v := fresh "v" in let E := fresh "E" in intros v E
  | |- ends_if (upd_dev _) _ _ => apply ends_if_upd_dev
  | |- ends_if get_dev _ _ => apply ends_if_gets
  | _ => hoare1
  end; cbn [dev nreads trace]; cbv beta.
Ltac bus := repeat bus1.
