(* ===== verification/SwIrc.v ===== *)
(** * The software infrared driver (drivers/irc/sw_irc_acts.c)

    Learning measures the bursts and spaces of a remote control with a free-running timer;
    sending plays a table of them with PWM, a pin and the same timer.  The driver is
    compiled without CONFIG_USE_TIMER3_FOR_DBEUG. *)
From S2P Require Import Prelude Mmio.

Definition TIMER_REG_BASE : Z := 0x40004100.
Definition CMU_DIGITAL_BASE : Z := 0x40002000.
Definition CAP_TIMER_CTL : Z := TIMER_REG_BASE + 0x80.      (* T2 *)
Definition CAP_TIMER_VAL : Z := TIMER_REG_BASE + 0x84.
Definition COMMON_TIMER_CTL : Z := TIMER_REG_BASE + 0xC0.   (* T3 *)
Definition COMMON_TIMER_VAL : Z := TIMER_REG_BASE + 0xC4.
Definition COMMON_TIMER_CNT : Z := TIMER_REG_BASE + 0xC8.
Definition CAP_TIMER_CMU_CLK : Z := CMU_DIGITAL_BASE + 0x44.
Definition COMMON_TIMER_CMU_CLK : Z := CMU_DIGITAL_BASE + 0x48.
Definition CMU_PWM3CLK : Z := 0x40002030.
Definition IRC_REG_BASE : Z := 0x40010000.
Definition IRC_ANA_CTL : Z := IRC_REG_BASE + 0x10.
Definition IO_MFP_BASE : Z := 0x40016000.
Definition GPIO_REG_CTL (base pin : Z) : Z := base + 4 + pin * 4.
Definition CAP_TIMER_CLOCK_ID : Z := 22.
Definition COMMON_TIMER_CLOCK_ID : Z := 23.
Definition CAP_TIMER_IRQ_ID : Z := 29.
Definition COMMON_TIMER_IRQ_ID : Z := 30.
Definition CLOCK_ID_IRC_RXCLK : Z := 30.
Definition CLOCK_ID_IRC_CLK : Z := 31.
Definition RESET_ID_IRC : Z := 31.
Definition GPIO_DIR_OUT : Z := 1.
Definition COUNTER_1_US : Z := 32.
Definition TIMER_VALUE_SET : Z := 0xffffff00.
Definition TX_CARRIER_FREQ_DEFAULT : Z := 38000.
Definition TX_REPEAT_GAP_TIME_DEFAULT : Z := 108 * 1000.
Definition MAX_PULSE_LEN : Z := 100.
Definition IR_KEY_DOWN : Z := 1.

(** struct ir_input_value, with the pulses its pointer reaches. *)
Record ir_input_value := IrInput {
  ir_code : Z; ir_value : Z; pluse_tab : list Z; pluse_tab_len : Z
}.

(** struct sw_acts_irc_data with the two tables' globals. *)
Record sw_irc := SwIrc {
  busy : Z;
  key_state : Z;
  learn_mode : Z;
  key_code : Z;
  pre_key_code : Z;
  old_mfp_ctl : Z;
  notify : bool;                    (* a callback is registered *)
  notified : list (list Z * Z);     (* its calls: the table's content and length *)
  gpio_dev : bool;                  (* the bindings found so far *)
  pwm_dev : bool;
  p_pulse_tab : bool;               (* points to pulse_width_tab *)
  pulse_tab_len : Z;
  cur_read_pulse_tab_index : Z;
  pulse_width_tab : list Z;         (* u16_t [MAX_PULSE_LEN] *)
  pulse_width_tab_len : Z
}.
#[export] Instance eta_sw_irc : EtaRecord sw_irc := fun r =>
  SwIrc (busy r) (key_state r) (learn_mode r) (key_code r) (pre_key_code r) (old_mfp_ctl r)
    (notify r) (notified r) (gpio_dev r) (pwm_dev r) (p_pulse_tab r) (pulse_tab_len r)
    (cur_read_pulse_tab_index r) (pulse_width_tab r) (pulse_width_tab_len r).

Section SwIrc.
Context (world : nat -> Z -> Z).
(** CONFIG_IRC_TX_PIN, CONFIG_IRC_RX_PIN; the bindings that device_get_binding finds. *)
Context (TX_PIN RX_PIN : Z) (gpio_bound pwm_bound : bool).
#[local] Abbreviation IM := (M (driver sw_irc)).
#[local] Abbreviation read := (sys_read32 (D := sw_irc) world).
Definition IR_TX_IO_CTL : Z := GPIO_REG_CTL IO_MFP_BASE TX_PIN.
Definition IR_RX_IO_CTL : Z := GPIO_REG_CTL IO_MFP_BASE RX_PIN.

(** ** Time *)
Definition timer_read : IM Z := read COMMON_TIMER_CNT.
Definition cap_lvl_read : IM Z :=
  v ← read CAP_TIMER_CTL; mret (Z.land (Z.shiftr v 12) 1).

(** The wait loop; [stop t] is the exit condition of the branch. *)
Fixpoint delay_loop (fuel : nat) (stop : Z -> bool) (cnt_check : Z) : IM unit :=
  match fuel with
  | O => ub
  | S fuel' =>
      t_cnt ← read COMMON_TIMER_CNT;
      if stop t_cnt then mret tt
      else if cnt_check =? t_cnt then mret tt
      else delay_loop fuel' stop t_cnt
  end.
Definition delay_stop (counter_start counter t_cnt : Z) : bool :=
  if counter <=? counter_start then
    let counter_end := u32 (counter_start - counter) in
    (t_cnt <=? counter_end) || (counter_start <? t_cnt)
  else
    let counter_end := u32 (TIMER_VALUE_SET - u32 (counter - counter_start)) in
    (counter_start <? t_cnt) && (t_cnt <=? counter_end).
Definition us_delay (fuel : nat) (num : Z) : IM unit :=
  let counter := u32 (COUNTER_1_US * num) in
  counter_start ← read COMMON_TIMER_CNT;
  delay_loop fuel (delay_stop counter_start counter) counter_start.

Definition get_time_count (counter_start counter_end : Z) : Z :=
  if counter_end <=? counter_start then u32 (counter_start - counter_end)
  else u32 (TIMER_VALUE_SET - counter_end + counter_start).

(** ** Timers *)
Definition timer_cfg (enable : bool) : IM unit :=
  if enable then
    log (ClockEnable COMMON_TIMER_CLOCK_ID);;
    sys_write32 0 COMMON_TIMER_CMU_CLK;;
    sys_write32 1 COMMON_TIMER_CTL;;
    sys_write32 TIMER_VALUE_SET COMMON_TIMER_VAL;;
    sys_write32 0x24 COMMON_TIMER_CTL
  else
    sys_write32 1 COMMON_TIMER_CTL;;
    sys_write32 0 COMMON_TIMER_VAL;;
    log (ClockDisable COMMON_TIMER_CLOCK_ID).

Definition start_common_timer (delay_time : Z) : IM unit :=
  log (IrqEnable COMMON_TIMER_IRQ_ID);;
  log (ClockEnable COMMON_TIMER_CLOCK_ID);;
  sys_write32 0 COMMON_TIMER_CMU_CLK;;
  sys_write32 1 COMMON_TIMER_CTL;;
  sys_write32 (delay_time * COUNTER_1_US) COMMON_TIMER_VAL;;
  sys_write32 0x22 COMMON_TIMER_CTL.

Definition stop_common_timer : IM unit :=
  sys_write32 1 COMMON_TIMER_CTL;;
  sys_write32 0 COMMON_TIMER_VAL;;
  log (ClockDisable COMMON_TIMER_CLOCK_ID);;
  log (IrqDisable COMMON_TIMER_IRQ_ID).

Definition capture_cfg (enable : bool) : IM unit :=
  if enable then
    log (ClockEnable CAP_TIMER_CLOCK_ID);;
    sys_write32 0 CAP_TIMER_CMU_CLK;;
    sys_write32 1 CAP_TIMER_CTL;;
    sys_write32 0x24A2 CAP_TIMER_CTL
  else
    sys_write32 1 CAP_TIMER_CTL;;
    sys_write32 0 CAP_TIMER_VAL;;
    log (ClockDisable CAP_TIMER_CLOCK_ID).

Definition start_irc_tx_timer (delay_time : Z) : IM unit :=
  log (ClockEnable CAP_TIMER_CLOCK_ID);;
  sys_write32 0 CAP_TIMER_CMU_CLK;;
  sys_write32 1 CAP_TIMER_CTL;;
  sys_write32 (delay_time * COUNTER_1_US) CAP_TIMER_VAL;;
  sys_write32 0x22 CAP_TIMER_CTL.

Definition stop_irc_tx_timer : IM unit :=
  sys_write32 1 CAP_TIMER_CTL;;
  sys_write32 0 CAP_TIMER_VAL;;
  log (ClockDisable CAP_TIMER_CLOCK_ID).

(** ** Learning *)
(** [Overrun] is the write past the end of [pulse_width_tab]. *)
Inductive cap_result := Captured | Rejected | Overrun.

(** [*p_pluse_wth++ = w]; the pointer always stands at the count of pulses. *)
Definition pluse_push (bit_wth w : Z) : IM bool :=
  d ← get_dev;
  match wr (pulse_width_tab d) bit_wth (u16 w) with
  | Some tab => upd_dev (fun d => d <| pulse_width_tab := tab |>);; mret true
  | None => mret false
  end.

(** Counting equal samples; the first one marks the start of the space. *)
Definition burst_sample (cnt1 cnt0 cnt_to space_timer_start : Z) : IM (Z * Z) :=
  if cnt1 =? cnt0 then
    let cnt_to := u32 (cnt_to + 1) in
    if cnt_to =? 1 then t ← timer_read; mret (cnt_to, t) else mret (cnt_to, space_timer_start)
  else mret (0, space_timer_start).

(** A burst: until [check_to] samples in a row saw the same level.  [None]: the whole
    sequence timed out. *)
Fixpoint burst_loop (F fuel : nat) (check_period check_to seq_to_counter seq_start check_counter cnt0 cnt_to
    space_timer_start : Z) : IM (option Z) :=
  match fuel with
  | O => ub
  | S fuel' =>
      cnt1 ← cap_lvl_read;
      '(cnt_to, space_timer_start) ← burst_sample cnt1 cnt0 cnt_to space_timer_start;
      if check_to <=? cnt_to then mret (Some space_timer_start)
      else
        us_delay F check_period;;
        seq_end ← timer_read;
        if check_counter =? seq_end then mret (Some space_timer_start)
        else if seq_to_counter <=? get_time_count seq_start seq_end then mret None
        else burst_loop F fuel' check_period check_to seq_to_counter seq_start seq_end cnt1 cnt_to
               space_timer_start
  end.

(** A space: until the level changes; [true]: the sequence timed out instead. *)
Fixpoint space_loop (F fuel : nat) (check_period seq_to_counter seq_start check_counter cnt0 : Z) : IM bool :=
  match fuel with
  | O => ub
  | S fuel' =>
      lvl ← cap_lvl_read;
      if negb (lvl =? cnt0) then mret false
      else
        us_delay F check_period;;
        seq_end ← timer_read;
        if check_counter =? seq_end then mret false
        else if seq_to_counter <=? get_time_count seq_start seq_end then mret true
        else space_loop F fuel' check_period seq_to_counter seq_start seq_end cnt0
  end.

(** One round of the outer loop: the space before a burst, the burst, the wait for the next. *)
Definition cap_pulse (F : nat) (check_period check_to seq_to_counter bit_wth space_timer_start : Z)
    : IM (cap_result + Z * Z) :=
  carrier_timer_start ← timer_read;
  '(ok, bit_wth) ←
    (if negb (bit_wth =? 0) then
       ok ← pluse_push bit_wth (get_time_count space_timer_start carrier_timer_start / COUNTER_1_US);
       mret (ok : bool, bit_wth + 1)
     else mret (true, bit_wth));
  if negb ok then mret (inl Overrun) else
  cnt0 ← cap_lvl_read;
  seq_start ← timer_read;
  r ← burst_loop F F check_period check_to seq_to_counter seq_start seq_start cnt0 0 space_timer_start;
  match r with
  | None => mret (inl Rejected)
  | Some space_timer_start =>
      ok ← pluse_push bit_wth (get_time_count carrier_timer_start space_timer_start / COUNTER_1_US);
      if negb (ok : bool) then mret (inl Overrun) else
      let bit_wth := bit_wth + 1 in
      seq_start ← timer_read;
      cnt0 ← cap_lvl_read;
      timeout ← space_loop F F check_period seq_to_counter seq_start seq_start cnt0;
      if timeout : bool then
        if negb (bit_wth =? 0) then
          upd_dev (fun d => d <| pulse_width_tab_len := u16 bit_wth |>);;
          d ← get_dev;
          w ← lift (rd (pulse_width_tab d) 0);
          tab ← lift (wr (pulse_width_tab d) 0 (u16 (w + 50)));
          upd_dev (fun d => d <| pulse_width_tab := tab |>);;
          mret (inl Captured)
        else mret (inl Rejected)
      else if MAX_PULSE_LEN <? bit_wth then mret (inl Rejected)
      else mret (inr (bit_wth, space_timer_start))
  end.

Fixpoint cap_loop (F fuel : nat) (check_period check_to seq_to_counter bit_wth space_timer_start : Z)
    : IM cap_result :=
  match fuel with
  | O => ub
  | S fuel' =>
      r ← cap_pulse F check_period check_to seq_to_counter bit_wth space_timer_start;
      match r with
      | inl res => mret res
      | inr (bit_wth, space_timer_start) =>
          cap_loop F fuel' check_period check_to seq_to_counter bit_wth space_timer_start
      end
  end.

(** [stack] is the initial value of the uninitialised [space_timer_start]. *)
Definition cap_irc (F fuel : nat) (stack seq_to_ms check_period_us check_to_us : Z) : IM cap_result :=
  upd_dev (fun d => d <| pulse_width_tab_len := 0 |>);;
  cap_loop F fuel check_period_us (check_to_us / check_period_us) (seq_to_ms * 1000 * COUNTER_1_US) 0 stack.

Definition cap_analysis : IM unit :=
  d ← get_dev;
  when (notify d)
    (upd_dev (fun d => d <| notified ::= (fun l => l ++ [(pulse_width_tab d, pulse_width_tab_len d)]) |>)).

(** ** Sending *)
Definition pwm_output_carrier (freq time : Z) : IM unit :=
  let temp := 32000000 / freq in
  log (PinmuxSet TX_PIN (Z.lor 2 (Z.shiftl 3 12)));;
  log (PwmSetCycles 4 temp (temp / 2));;
  start_common_timer time.

Definition pwm_output_lowlevel (time : Z) : IM unit :=
  log (PinmuxSet TX_PIN (Z.shiftl 1 6));;
  log (GpioWrite TX_PIN 0);;
  start_common_timer time.

(** [drv_data->p_pulse_tab[drv_data->cur_read_pulse_tab_index]] *)
Definition current_pulse : IM Z :=
  d ← get_dev;
  if p_pulse_tab d then lift (rd (pulse_width_tab d) (cur_read_pulse_tab_index d)) else ub.

Definition common_timer_isr : IM unit :=
  upd_dev (fun d => d <| cur_read_pulse_tab_index ::= (fun i => u16 (i + 1)) |>);;
  d ← get_dev;
  w ← current_pulse;
  (if cur_read_pulse_tab_index d mod 2 =? 0 then pwm_output_carrier TX_CARRIER_FREQ_DEFAULT w
   else pwm_output_lowlevel w);;
  v ← read COMMON_TIMER_CTL;
  sys_write32 (Z.lor 1 v) COMMON_TIMER_CTL;;
  d ← get_dev;
  when (pulse_tab_len d <=? cur_read_pulse_tab_index d)
    (log (PwmSetCycles 4 0 0);;
     stop_common_timer;;
     start_irc_tx_timer TX_REPEAT_GAP_TIME_DEFAULT).

(** Always called with [pulse_width_tab] and [pulse_width_tab_len]. *)
Definition sw_irc_output_ircode : IM unit :=
  d ← get_dev;
  when (negb (gpio_dev d)) (upd_dev (fun d => d <| gpio_dev := gpio_bound |>));;
  d ← get_dev;
  if negb (gpio_dev d) then mret tt else
  when (negb (pwm_dev d)) (upd_dev (fun d => d <| pwm_dev := pwm_bound |>));;
  d ← get_dev;
  if negb (pwm_dev d) then mret tt else
  sys_write32 0 CMU_PWM3CLK;;
  log (GpioConfigure TX_PIN GPIO_DIR_OUT);;
  log (GpioWrite TX_PIN 0);;
  upd_dev (fun d => d <| cur_read_pulse_tab_index := 0 |> <| p_pulse_tab := true |>
                      <| pulse_tab_len := pulse_width_tab_len d |>);;
  w ← current_pulse;
  pwm_output_carrier TX_CARRIER_FREQ_DEFAULT w.

(** ** Switching learning on and off *)
Definition sw_irc_input_acts_enable : IM unit :=
  d ← get_dev;
  when (truthy (busy d))
    (upd_dev (fun d => d <| busy := 0 |>);;
     sys_write32 (old_mfp_ctl d) IR_TX_IO_CTL;;
     log (DeviceBusy false);;
     (if pwm_dev d then log (PwmSetCycles 4 0 0) else ub);;
     stop_common_timer;;
     stop_irc_tx_timer;;
     upd_dev (fun d => d <| cur_read_pulse_tab_index := 0 |>));;
  log (ResetPeripheral RESET_ID_IRC);;
  log (ClockEnable CLOCK_ID_IRC_CLK);;
  log (ClockEnable CLOCK_ID_IRC_RXCLK);;
  sys_write32 0x91 IR_RX_IO_CTL;;
  v ← read IRC_ANA_CTL; sys_write32 (Z.lor v 2) IRC_ANA_CTL;;
  v ← read IRC_ANA_CTL; sys_write32 (Z.lor v 4) IRC_ANA_CTL;;
  log (BusyWait 1000);;
  v ← read IRC_ANA_CTL; sys_write32 (Z.land v (Z.lnot 4)) IRC_ANA_CTL;;
  v ← read IRC_ANA_CTL; sys_write32 (Z.lor v 1) IRC_ANA_CTL;;
  v ← read IRC_ANA_CTL; sys_write32 (Z.lor v 0x2aa0) IRC_ANA_CTL;;
  timer_cfg true;;
  capture_cfg true;;
  log (DeviceBusy true);;
  upd_dev (fun d => d <| learn_mode := 1 |>).

Definition sw_irc_input_acts_disable : IM unit :=
  log (ClockDisable CLOCK_ID_IRC_RXCLK);;
  log (ClockDisable CLOCK_ID_IRC_CLK);;
  log (ResetPeripheral RESET_ID_IRC);;
  sys_write32 0 IR_RX_IO_CTL;;
  capture_cfg false;;
  timer_cfg false;;
  log (DeviceBusy false);;
  upd_dev (fun d => d <| learn_mode := 0 |>).

Definition sw_irc_input_acts_register_notify : IM unit := upd_dev (fun d => d <| notify := true |>).
Definition sw_irc_input_acts_unregister_notify : IM unit := upd_dev (fun d => d <| notify := false |>).

(** The memcpy of [len] pulses into [pulse_width_tab]. *)
Definition copy_pulses (src : list Z) (len : Z) (tab : list Z) : option (list Z) :=
  if (len <=? Z.of_nat (length src)) && (len <=? Z.of_nat (length tab))
  then Some (take (Z.to_nat len) src ++ drop (Z.to_nat len) tab) else None.

Definition sw_irc_acts_output_key (val : ir_input_value) : IM Z :=
  d ← get_dev;
  when (learn_mode d =? 1) sw_irc_input_acts_disable;;
  upd_dev (fun d => d <| key_state := u8 (ir_value val) |> <| key_code := u16 (ir_code val) |>);;
  d ← get_dev;
  when ((key_state d =? IR_KEY_DOWN) && (busy d =? 0))
    (when (truthy (pluse_tab_len val))
       (upd_dev (fun d => d <| pulse_width_tab_len := pluse_tab_len val |>);;
        d ← get_dev;
        tab ← lift (copy_pulses (pluse_tab val) (pluse_tab_len val) (pulse_width_tab d));
        upd_dev (fun d => d <| pulse_width_tab := tab |>);;
        log (DeviceBusy true);;
        v ← read IR_TX_IO_CTL;
        upd_dev (fun d => d <| old_mfp_ctl := v |>);;
        sw_irc_output_ircode;;
        upd_dev (fun d => d <| busy := 1 |> <| pre_key_code := key_code d |>)));;
  mret 0.

(** The capture timer: an edge while learning, the repeat gap while sending. *)
Definition sw_irc_acts_isr (F fuel : nat) (stack : Z) : IM unit :=
  d ← get_dev;
  if truthy (learn_mode d) then
    r ← cap_irc F fuel stack 20 5 150;
    (match r with Captured => cap_analysis | Rejected => mret tt | Overrun => ub end);;
    v ← read CAP_TIMER_CTL;
    sys_write32 (Z.lor v (Z.shiftl 1 8)) CAP_TIMER_CTL;;
    sys_write32 1 CAP_TIMER_CTL;;
    sys_write32 0x24A2 CAP_TIMER_CTL;;
    _ ← read CAP_TIMER_CTL;                   (* printed *)
    mret tt
  else
    (if key_state d =? IR_KEY_DOWN then
       sw_irc_output_ircode;;
       start_irc_tx_timer TX_REPEAT_GAP_TIME_DEFAULT;;
       upd_dev (fun d => d <| busy := 1 |>)
     else
       upd_dev (fun d => d <| busy := 0 |>);;
       sys_write32 (old_mfp_ctl d) IR_TX_IO_CTL;;
       log (DeviceBusy false));;
    upd_dev (fun d => d <| pre_key_code := key_code d |>);;
    v ← read CAP_TIMER_CTL;
    sys_write32 (Z.lor 1 v) CAP_TIMER_CTL.

Definition sw_irc_acts_init : IM unit :=
  log (IrqEnable CAP_TIMER_IRQ_ID);;
  log (IrqEnable COMMON_TIMER_IRQ_ID).
End SwIrc.

(** * Theorems *)
(** ** A running timer

    The timer counts [TIMER_VALUE_SET] states down and starts over; [e n] is the time, in
    its ticks, of the n-th access of the processor.  Time passes between two accesses, and
    less than half a second of it. *)
Definition STEP_MAX : Z := 2 ^ 24.
Definition live_timer (world : nat -> Z -> Z) (e : nat -> Z) : Prop :=
  (forall n, e n + 1 <= e (S n) <= e n + STEP_MAX) /\
  (forall n, world n COMMON_TIMER_CNT = (- e n) mod TIMER_VALUE_SET).

Lemma get_time_count_elapsed a b :
  0 <= b - a < TIMER_VALUE_SET ->
  get_time_count ((- a) mod TIMER_VALUE_SET) ((- b) mod TIMER_VALUE_SET) = b - a.
Proof.
  unfold get_time_count, TIMER_VALUE_SET. intros H.
  set (x := (- a) mod _). set (y := (- b) mod _).
  assert (0 <= x < 4294967040 /\ 0 <= y < 4294967040) by (subst x y; split; apply Z.mod_pos_bound; lia).
  assert (exists k, x - y = b - a + k * 4294967040) as [k Hk].
  { exists ((- b) / 4294967040 - (- a) / 4294967040).
    pose proof (Z.div_mod (- a) 4294967040 ltac:(lia)). pose proof (Z.div_mod (- b) 4294967040 ltac:(lia)).
    subst x y. lia. }
  destruct (Z.leb_spec y x); rewrite u32_small; lia.
Qed.

(** The exit condition of the wait loop reads the elapsed time off the counter. *)
Lemma delay_stop_elapsed a b counter :
  0 <= b - a < TIMER_VALUE_SET -> 0 < counter < TIMER_VALUE_SET ->
  delay_stop ((- a) mod TIMER_VALUE_SET) counter ((- b) mod TIMER_VALUE_SET) = (counter <=? b - a).
Proof.
  intros H Hc. pose proof (get_time_count_elapsed a b H) as Ht. revert Ht H Hc.
  unfold get_time_count, delay_stop, TIMER_VALUE_SET.
  set (x := (- a) mod _). set (y := (- b) mod _).
  assert (0 <= x < 4294967040 /\ 0 <= y < 4294967040) as [Hx Hy]
    by (subst x y; split; apply Z.mod_pos_bound; lia).
  clearbody x y. intros Ht H Hc.
  destruct (Z.leb_spec y x); rewrite u32_small in Ht by lia;
    (destruct (Z.leb_spec counter x);
      [rewrite u32_small by lia | rewrite (u32_small (counter - x)), u32_small by lia]);
    repeat case_cmp; cbn; lia.
Qed.

Section Live.
Context (world : nat -> Z -> Z) (e : nat -> Z) (Hlive : live_timer world e).

Lemma e_le n m : (n <= m)%nat -> e n + Z.of_nat (m - n) <= e m.
Proof.
  destruct Hlive as [He _]. induction 1 as [|m Hm IH]; [lia|]. specialize (He m). lia.
Qed.

Lemma timer_read_ends (s : driver sw_irc) (Q : Z -> driver sw_irc -> Prop) :
  Q ((- e (nreads s)) mod TIMER_VALUE_SET)
    (Driver (dev s) (S (nreads s)) (trace s ++ [RdReg COMMON_TIMER_CNT ((- e (nreads s)) mod TIMER_VALUE_SET)])) ->
  ends (timer_read world) s Q.
Proof.
  intros HQ. apply ends_read. intros v E. destruct Hlive as [_ Hw]. rewrite Hw, u32_small in E; [by subst|].
  unfold TIMER_VALUE_SET. pose proof (Z.mod_pos_bound (- e (nreads s)) 4294967040). lia.
Qed.

(** The loop from its start at access [n0], with the last access before the current one. *)
Lemma delay_loop_ends n0 counter fuel : forall s : driver sw_irc,
  0 < counter <= 2 ^ 31 -> (n0 < nreads s)%nat -> e (pred (nreads s)) - e n0 < counter ->
  counter - (e (nreads s) - e n0) < Z.of_nat fuel -> (0 < fuel)%nat ->
  ends (delay_loop world fuel (delay_stop ((- e n0) mod TIMER_VALUE_SET) counter)
          ((- e (pred (nreads s))) mod TIMER_VALUE_SET)) s
    (fun _ s' => exists n, (nreads s <= n)%nat /\ nreads s' = S n /\ dev s' = dev s /\
       counter <= e n - e n0 /\ e (pred n) - e n0 < counter).
Proof.
  induction fuel as [|fuel IH]; [lia|]. intros s Hc Hn Hp Hf _. cbn [delay_loop]. hoare.
  apply timer_read_ends. destruct (nreads s) as [|n] eqn:En; [lia|]. cbn [pred] in *.
  destruct Hlive as [He _]. pose proof (He n) as Hs. unfold STEP_MAX in Hs.
  pose proof (e_le n0 n ltac:(lia)) as Hle.
  rewrite delay_stop_elapsed by (unfold TIMER_VALUE_SET; lia).
  destruct (Z.leb_spec counter (e (S n) - e n0)).
  - apply ends_ret. exists (S n). cbn. split_and!; [lia|done..|lia].
  - destruct (Z.eqb_spec ((- e n) mod TIMER_VALUE_SET) ((- e (S n)) mod TIMER_VALUE_SET)) as [E|_].
    { exfalso. assert (get_time_count ((- e n) mod TIMER_VALUE_SET) ((- e (S n)) mod TIMER_VALUE_SET)
        = e (S n) - e n) as Ht by (apply get_time_count_elapsed; unfold TIMER_VALUE_SET; lia).
      unfold get_time_count in Ht. rewrite E, Z.leb_refl, Z.sub_diag in Ht. change (u32 0) with 0 in Ht. lia. }
    pose proof (He (S n)).
    eapply ends_mono.
    + refine (IH (Driver (dev s) (S (S n)) _) _ _ _ _ _); cbn; try lia.
    + cbn. intros ? s' (m & H1 & H2 & H3 & H4). exists m. split_and!; [lia|tauto..].
Qed.

Lemma us_delay_ends (fuel : nat) (num : Z) (s : driver sw_irc)
  (Hnum : 0 < num <= 2 ^ 26) (Hfuel : COUNTER_1_US * num <= Z.of_nat fuel) :
  ends (us_delay world fuel num) s (fun _ s' => exists n,
    (nreads s < n)%nat /\ nreads s' = S n /\ dev s' = dev s /\
    COUNTER_1_US * num <= e n - e (nreads s) /\ e (pred n) - e (nreads s) < COUNTER_1_US * num).
Proof.
  unfold us_delay, COUNTER_1_US in *. cbv zeta. rewrite u32_small by lia. hoare. apply timer_read_ends.
  pose proof (e_le (nreads s) (S (nreads s)) ltac:(lia)).
  eapply ends_mono.
  - apply (delay_loop_ends (nreads s) (32 * num) fuel (Driver (dev s) (S (nreads s)) _)); cbn; lia.
  - cbn. intros ? s' (n & H1 & H2 & H3 & H4). exists n. split_and!; [lia|tauto..].
Qed.
End Live.

Lemma live_example : live_timer (fun n _ => (- (40 * Z.of_nat n)) mod TIMER_VALUE_SET) (fun n => 40 * Z.of_nat n).
Proof. split; [unfold STEP_MAX; intros; lia|done]. Defined.

(** ** Capturing *)
Section Capture.
Context (world : nat -> Z -> Z) (e : nat -> Z) (Hlive : live_timer world e).
Context (F : nat) (period check_to seq : Z).
Context (Hperiod : 0 < period <= 2 ^ 20) (Hseq : 0 < seq <= 2 ^ 30).
Context (HF : COUNTER_1_US * period + seq + 2 <= Z.of_nat F).

(** Time went on and the driver's state is as it was. *)
Definition later (s : driver sw_irc) (ticks : Z) (s' : driver sw_irc) : Prop :=
  dev s' = dev s /\ (nreads s <= nreads s')%nat /\ e (nreads s') - e (nreads s) <= ticks.

Lemma cap_lvl_read_ends (s : driver sw_irc) (Q : Z -> driver sw_irc -> Prop) :
  (forall v s', later s STEP_MAX s' -> nreads s' = S (nreads s) -> Q v s') ->
  ends (cap_lvl_read world) s Q.
Proof.
  intros HQ. unfold cap_lvl_read. bus. destruct Hlive as [He _]. specialize (He (nreads s)).
  apply HQ; [|done]. split_and!; cbn; [done|lia..].
Qed.

Lemma burst_sample_ends cnt1 cnt0 cnt_to sp s :
  ends (burst_sample world cnt1 cnt0 cnt_to sp) s (fun _ s' => later s STEP_MAX s').
Proof.
  assert (later s STEP_MAX s) as H0 by (split_and!; [done|lia|unfold STEP_MAX; lia]).
  unfold burst_sample. destruct (cnt1 =? cnt0); [|by hoare]. cbv zeta.
  destruct (u32 (cnt_to + 1) =? 1); [|by hoare]. hoare. apply (timer_read_ends world e Hlive). hoare.
  destruct Hlive as [He _]. specialize (He (nreads s)). split_and!; cbn; [done|lia..].
Qed.

(** A wait of the period and the read of the timer after it, which is access [n]. *)
Lemma wait_read_ends {A} s (k : Z -> M (driver sw_irc) A) (Q : A -> driver sw_irc -> Prop) :
  (forall n s', (nreads s < n)%nat -> nreads s' = S n -> dev s' = dev s ->
     e n - e (nreads s) <= 2 ^ 25 + 2 * STEP_MAX -> ends (k ((- e n) mod TIMER_VALUE_SET)) s' Q) ->
  ends (us_delay world F period;; x ← timer_read world; k x) s Q.
Proof.
  intros HQ. hoare. eapply ends_mono.
  { apply (us_delay_ends world e Hlive); [lia|unfold COUNTER_1_US in *; lia]. }
  cbn. intros _ s' (n & H1 & H2 & H3 & H4 & H5). hoare. apply (timer_read_ends world e Hlive).
  apply HQ; cbn; [lia|lia|done|]. destruct Hlive as [He _].
  pose proof (He n). pose proof (He (pred n)). rewrite H2.
  replace (S (pred n)) with n in * by lia. unfold COUNTER_1_US, STEP_MAX in *. lia.
Qed.

Lemma burst_loop_ends n0 fuel : forall s check_counter cnt0 cnt_to sp,
  (n0 <= nreads s)%nat -> e (nreads s) - e n0 <= seq + 2 * STEP_MAX ->
  1 + Z.max 0 (seq - (e (nreads s) - e n0)) <= Z.of_nat fuel ->
  ends (burst_loop world F fuel period check_to seq ((- e n0) mod TIMER_VALUE_SET) check_counter cnt0 cnt_to sp) s
    (fun _ s' => dev s' = dev s /\ (nreads s <= nreads s')%nat).
Proof.
  induction fuel as [|fuel IH]; [lia|]. intros s cc cnt0 cnt_to sp Hn He Hf. cbn [burst_loop]. hoare.
  apply cap_lvl_read_ends. intros cnt1 s1 (D1 & N1 & T1) _. hoare.
  eapply ends_mono; [apply burst_sample_ends|]. intros [cnt_to' sp'] s2 (D2 & N2 & T2). cbv iota beta.
  destruct (check_to <=? cnt_to'); [hoare; split; [congruence|lia]|].
  apply wait_read_ends. intros m s3 Hm Hs3 D3 T3.
  destruct (_ =? _); [hoare; split; [congruence|lia]|].
  destruct Hlive as [Hstep _]. pose proof (Hstep m) as Hsm.
  pose proof (e_le world e Hlive n0 m ltac:(lia)). unfold STEP_MAX in *.
  rewrite get_time_count_elapsed by (unfold TIMER_VALUE_SET; lia).
  destruct (Z.leb_spec seq (e m - e n0)); [hoare; split; [congruence|lia]|].
  pose proof (e_le world e Hlive (nreads s) m ltac:(lia)). rewrite <- Hs3 in Hsm.
  eapply ends_mono; [apply IH; lia|]. intros ? s4 [D4 N4]. split; [congruence|lia].
Qed.

Lemma space_loop_ends n0 fuel : forall s check_counter cnt0,
  (n0 <= nreads s)%nat -> e (nreads s) - e n0 <= seq + 2 * STEP_MAX ->
  1 + Z.max 0 (seq - (e (nreads s) - e n0)) <= Z.of_nat fuel ->
  ends (space_loop world F fuel period seq ((- e n0) mod TIMER_VALUE_SET) check_counter cnt0) s
    (fun _ s' => dev s' = dev s).
Proof.
  induction fuel as [|fuel IH]; [lia|]. intros s cc cnt0 Hn He Hf. cbn [space_loop]. hoare.
  apply cap_lvl_read_ends. intros lvl s1 (D1 & N1 & T1) _.
  destruct (negb (lvl =? cnt0)); [by hoare|].
  apply wait_read_ends. intros m s3 Hm Hs3 D3 T3.
  destruct (_ =? _); [hoare; congruence|].
  destruct Hlive as [Hstep _]. pose proof (Hstep m) as Hsm.
  pose proof (e_le world e Hlive n0 m ltac:(lia)). unfold STEP_MAX in *.
  rewrite get_time_count_elapsed by (unfold TIMER_VALUE_SET; lia).
  destruct (Z.leb_spec seq (e m - e n0)); [hoare; congruence|].
  pose proof (e_le world e Hlive (nreads s) m ltac:(lia)). rewrite <- Hs3 in Hsm.
  eapply ends_mono; [apply IH; lia|]. cbn. intros ? s4 D4. congruence.
Qed.

Lemma pluse_push_ends i w (s : driver sw_irc) (Q : bool -> driver sw_irc -> Prop) :
  0 <= i -> length (pulse_width_tab (dev s)) = Z.to_nat MAX_PULSE_LEN ->
  (forall s', nreads s' = nreads s -> length (pulse_width_tab (dev s')) = Z.to_nat MAX_PULSE_LEN ->
     Q (i <? MAX_PULSE_LEN) s') ->
  ends (pluse_push i w) s Q.
Proof.
  intros Hi Hl HQ. unfold pluse_push, get_dev. hoare. destruct (wr _ _ _) as [tab|] eqn:E.
  - pose proof (wr_Some_length _ _ _ _ E) as El. bus.
    replace true with (i <? MAX_PULSE_LEN); [apply HQ; cbn; congruence|].
    apply Z.ltb_lt. unfold wr in E. destruct (Z.ltb_spec i (Z.of_nat (length (pulse_width_tab (dev s))))) as [H|H];
      [rewrite Hl in H; exact H|]. by rewrite andb_false_r in E.
  - bus. replace false with (i <? MAX_PULSE_LEN); [by apply HQ|].
    apply Z.ltb_ge. apply Z.nlt_ge. intros H. by rewrite wr_in_bound in E by (rewrite Hl; unfold MAX_PULSE_LEN in *; lia).
Qed.

(** What a round does to the count of pulses. *)
Definition next_width (b : Z) : Z := if b =? 0 then 1 else b + 2.
Definition width_ok (b : Z) : Prop := b = 0 \/ Z.odd b = true /\ 0 < b <= 99.
Definition captured_ok (d : sw_irc) : Prop :=
  Z.odd (pulse_width_tab_len d) = true /\ 1 <= pulse_width_tab_len d <= 99.

Lemma next_width_odd b : width_ok b -> Z.odd (next_width b) = true /\ 0 < next_width b <= 101.
Proof.
  unfold width_ok, next_width. intros [->|[Ho Hb]]; [done|]. destruct (Z.eqb_spec b 0); [lia|].
  rewrite Z.odd_add, Ho. split; [done|lia].
Qed.

(** The second half of a round, from the end of the burst. *)
Lemma cap_pulse_ends b sp s :
  width_ok b -> length (pulse_width_tab (dev s)) = Z.to_nat MAX_PULSE_LEN ->
  ends (cap_pulse world F period check_to seq b sp) s (fun r s' =>
    length (pulse_width_tab (dev s')) = Z.to_nat MAX_PULSE_LEN /\
    match r with
    | inl Captured => b <= 97 /\ captured_ok (dev s')
    | inl _ => True
    | inr (b', _) => b <= 97 /\ b' = next_width b
    end).
Proof.
  intros Hb Hl. pose proof (next_width_odd b Hb) as [Ho Hw].
  assert (HF' : 32 * period + seq + 2 <= Z.of_nat F) by exact HF.
  assert (HS : STEP_MAX = 16777216) by done.
  unfold cap_pulse. hoare. apply (timer_read_ends world e Hlive). hoare. set (s0 := Driver _ _ _).
  assert (Hl0 : length (pulse_width_tab (dev s0)) = Z.to_nat MAX_PULSE_LEN) by done. clearbody s0.
  eapply ends_mono with (P := fun p s1 => p = (true, next_width b - 1) /\
    length (pulse_width_tab (dev s1)) = Z.to_nat MAX_PULSE_LEN).
  { unfold next_width. destruct (Z.eqb_spec b 0) as [->|]; cbn [negb]; [by hoare|]. hoare.
    apply pluse_push_ends; [unfold width_ok in Hb; lia|done|]. intros s1 _ Hl1. hoare. split; [|done].
    destruct (Z.ltb_spec b MAX_PULSE_LEN); [f_equal; lia|].
    unfold width_ok, MAX_PULSE_LEN in *; lia. }
  intros [ok b'] s1 [[= -> ->] Hl1]. cbv iota. cbn [negb]. hoare.
  apply cap_lvl_read_ends. intros cnt0 s2 (D2 & _ & _) _. hoare.
  apply (timer_read_ends world e Hlive). hoare. set (n0 := nreads s2).
  destruct Hlive as [Hstep Hw0]. pose proof (Hstep n0) as Hn0.
  eapply ends_mono; [apply burst_loop_ends; cbn [nreads]; lia|]. cbn [dev nreads]. intros r s3 [D3 N3].
  assert (Hl3 : length (pulse_width_tab (dev s3)) = Z.to_nat MAX_PULSE_LEN) by congruence.
  destruct r as [sp'|]; [|by hoare]. hoare.
  apply pluse_push_ends; [lia|done|]. intros s4 E4 Hl4.
  destruct (Z.ltb_spec (next_width b - 1) MAX_PULSE_LEN) as [Hlt|]; cbn [negb]; [|by hoare].
  rewrite Z.sub_add. hoare. apply (timer_read_ends world e Hlive). hoare. set (n1 := nreads s4).
  pose proof (Hstep n1) as Hn1.
  apply cap_lvl_read_ends. cbn [dev nreads]. intros lvl s5 (D5 & N5 & T5) E5. cbn [dev nreads] in D5, N5, T5. hoare.
  pose proof (e_le world e (conj Hstep Hw0) n1 (nreads s5) ltac:(lia)).
  eapply ends_mono; [apply (space_loop_ends n1); lia|]. cbn [dev nreads]. intros timeout s6 D6.
  assert (Hl6 : length (pulse_width_tab (dev s6)) = Z.to_nat MAX_PULSE_LEN) by congruence.
  assert (next_width b <= 99).
  { unfold MAX_PULSE_LEN in Hlt. destruct (Z.eq_dec (next_width b) 100) as [E|]; [by rewrite E in Ho|lia]. }
  destruct timeout.
  - destruct (Z.eqb_spec (next_width b) 0); [lia|]. cbn [negb]. unfold get_dev. bus.
    destruct (rd_in_bound (pulse_width_tab (dev s6)) 0) as [w Hrd]; [rewrite Hl6; done|].
    eapply ends_lift; [exact Hrd|]. bus. eapply ends_lift; [apply (wr_in_bound (pulse_width_tab (dev s6)) 0); rewrite Hl6; done|]. bus. cbn.
    rewrite length_insert. split; [done|].
    split; [unfold next_width in *; destruct (Z.eqb_spec b 0); lia|]. unfold captured_ok. cbn. rewrite u16_small by lia. split; [done|lia].
  - destruct (Z.ltb_spec MAX_PULSE_LEN (next_width b)); [unfold MAX_PULSE_LEN in *; lia|]. hoare. split; [done|].
    split; [|done]. unfold next_width in *. destruct (Z.eqb_spec b 0); lia.
Qed.

Lemma cap_loop_ends fuel : forall b sp s,
  width_ok b -> length (pulse_width_tab (dev s)) = Z.to_nat MAX_PULSE_LEN ->
  51 <= Z.of_nat fuel + (b + 1) / 2 ->
  ends (cap_loop world F fuel period check_to seq b sp) s (fun r s' =>
    length (pulse_width_tab (dev s')) = Z.to_nat MAX_PULSE_LEN /\ (r = Captured -> captured_ok (dev s'))).
Proof.
  induction fuel as [|fuel IH]; intros b sp s Hb Hl Hf.
  { exfalso. assert ((b + 1) / 2 <= 50); [|lia]. unfold width_ok in Hb. Z.div_mod_to_equations. lia. }
  cbn [cap_loop]. hoare. eapply ends_mono; [by apply cap_pulse_ends|]. intros r s' [Hl' Hr].
  destruct r as [res|[b' sp']]; [hoare; split; [done|]; intros ->; tauto|].
  destruct Hr as [Hb97 ->]. apply IH; [|done|].
  - right. pose proof (next_width_odd b Hb) as [Ho Hw]. split; [done|].
    unfold next_width in *. destruct (b =? 0); lia.
  - unfold next_width. destruct (Z.eqb_spec b 0) as [->|].
    + change ((0 + 1) / 2) with 0 in Hf. change ((1 + 1) / 2) with 1. lia.
    + replace (b + 2 + 1) with (b + 1 + 1 * 2) by lia. rewrite Z.div_add by lia. lia.
Qed.
End Capture.

(** While the timer runs, [us_delay] waits exactly as long as asked: it returns after
    the first read of the timer at which [num] microseconds have passed since its call,
    across the counter's reload as well, and needs at most one loop iteration per tick. *)
Theorem us_delay_exact (world : nat -> Z -> Z) (e : nat -> Z) (fuel : nat) (num : Z) (s : driver sw_irc)
  (Hlive : live_timer world e)
  (Hnum : 0 < num <= 2 ^ 26) (Hfuel : COUNTER_1_US * num <= Z.of_nat fuel) :
  ends (us_delay world fuel num) s (fun _ s' => exists n,
    (nreads s < n)%nat /\ nreads s' = S n /\ dev s' = dev s /\
    COUNTER_1_US * num <= e n - e (nreads s) /\ e (pred n) - e (nreads s) < COUNTER_1_US * num).
Proof. by apply us_delay_ends. Qed.

Definition sw_idle (tab : list Z) : driver sw_irc :=
  Driver (SwIrc 0 0 0 0 0 0 true [] true true false 0 0 tab 0) 0 [].

Lemma us_delay_exact_witness :
  ends (us_delay (fun n _ => (- (40 * Z.of_nat n)) mod TIMER_VALUE_SET) 160 5) (sw_idle []) (fun _ s' =>
    exists n, (0 < n)%nat /\ nreads s' = S n /\ 160 <= 40 * Z.of_nat n).
Proof.
  eapply ends_mono.
  - apply (us_delay_exact _ (fun n => 40 * Z.of_nat n) 160 5 (sw_idle []) live_example); unfold COUNTER_1_US; lia.
  - intros ? s' (n & H1 & H2 & H3 & H4 & H5). exists n. unfold COUNTER_1_US in H4. cbn in H1, H4. split_and!; [lia|done|lia].
Defined.


(** The level changes every 160 accesses. *)
Definition square_wave (n : nat) (a : Z) : Z :=
  if a =? COMMON_TIMER_CNT then (- (200 * Z.of_nat n)) mod TIMER_VALUE_SET
  else Z.shiftl (Z.of_nat n / 160 mod 2) 12.
Lemma square_wave_live : live_timer square_wave (fun n => 200 * Z.of_nat n).
Proof. split; [unfold STEP_MAX; intros; lia|done]. Defined.


(** The bound check of the capture comes after the writes: the round that starts with
    99 pulses fills the last entry with a space and, if its burst ends, writes the burst past
    the end of the table.  No signal makes it go on or succeed, so the check
    [bit_wth > MAX_PULSE_LEN] is never what stops a capture. *)
Theorem capture_overruns_at_51st_burst (world : nat -> Z -> Z) (e : nat -> Z) (F : nat)
  (period check_to seq space : Z) (s : driver sw_irc)
  (Hlive : live_timer world e) (Hperiod : 0 < period <= 2 ^ 20) (Hseq : 0 < seq <= 2 ^ 30)
  (HF : COUNTER_1_US * period + seq + 2 <= Z.of_nat F)
  (Htab : length (pulse_width_tab (dev s)) = Z.to_nat MAX_PULSE_LEN) :
  ends (cap_pulse world F period check_to seq 99 space) s (fun r _ =>
    r = inl Overrun \/ r = inl Rejected).
Proof.
  eapply ends_mono; [apply (cap_pulse_ends world e Hlive); try done; right; split; [done|lia]|].
  intros [[| |]|[b sp]] s' [_ H]; [lia|by right|by left|lia].
Qed.

(** 51 bursts of a square wave: the last one is written past the end. *)
Lemma capture_overruns_at_51st_burst_witness :
  ends (cap_pulse square_wave (Z.to_nat 640200) 5 30 640000 99 0) (sw_idle (replicate 100 0)) (fun r _ =>
    r = inl Overrun \/ r = inl Rejected) /\
  fst <$> cap_irc square_wave 1000 51 0 20 5 150 (sw_idle (replicate 100 0)) = Some Overrun.
Proof.
  split; [|by vm_compute].
  apply (capture_overruns_at_51st_burst square_wave _ (Z.to_nat 640200) 5 30 640000 0 (sw_idle (replicate 100 0)) square_wave_live);
    [lia|lia|unfold COUNTER_1_US; lia|done].
Defined.

(** ** What a receiver hears

    Read off the trace: the pin multiplexer selects carrier or low level, the timer's value
    register holds the length of the segment to come, writing 0x22 to its control register
    starts the segment, and disabling its interrupt cuts the one just started off. *)
Definition hear (h : bool * Z * list (bool * Z)) (ev : bus_event) : bool * Z * list (bool * Z) :=
  let '(level, pending, acc) := h in
  match ev with
  | PinmuxSet _ v => (v =? 0x3002, pending, acc)
  | WrReg a v =>
      if a =? COMMON_TIMER_VAL then (level, v, acc)
      else if (a =? COMMON_TIMER_CTL) && (v =? 0x22) then (level, pending, acc ++ [(level, pending / COUNTER_1_US)])
      else h
  | IrqDisable irq => if irq =? COMMON_TIMER_IRQ_ID then (level, pending, removelast acc) else h
  | _ => h
  end.
Definition heard (t : list bus_event) : list (bool * Z) := (foldl hear (false, 0, []) t).2.

Lemma hear_snoc t ev : foldl hear (false, 0, []) (t ++ [ev]) = hear (foldl hear (false, 0, []) t) ev.
Proof. by rewrite foldl_app. Qed.

(** Events that neither start nor cut a segment. *)
Definition quiet (ev : bus_event) : bool :=
  match ev with WrReg _ v => negb (v =? 0x22) | IrqDisable _ => false | _ => true end.
Lemma heard_quiet t ev : quiet ev = true -> heard (t ++ [ev]) = heard t.
Proof.
  unfold heard. rewrite hear_snoc. destruct (foldl _ _ t) as [[level pending] acc].
  destruct ev; cbn [quiet hear snd]; try done. intros ->%negb_true_iff. rewrite andb_false_r.
  by destruct (addr =? COMMON_TIMER_VAL).
Qed.

(** Evaluate [hear] on known registers. *)
Ltac hear_known :=
  repeat (cbn [hear andb]; cbv iota beta;
    match goal with
    | |- context [?a =? ?b] =>
        let r := eval vm_compute in (a =? b) in
        lazymatch r with true => change (a =? b) with true | false => change (a =? b) with false end
    end); cbn [hear andb]; cbv iota beta.

(** A table as the segments it stands for. *)
Definition segments (tab : list Z) : list (bool * Z) := imap (fun i w => (Nat.even i, w)) tab.
Lemma segments_snoc tab w : segments (tab ++ [w]) = segments tab ++ [(Nat.even (length tab), w)].
Proof. unfold segments. rewrite imap_app. cbn. by rewrite Nat.add_0_r. Qed.

Fixpoint repeat_m {S} (n : nat) (m : M S unit) : M S unit :=
  match n with O => mret tt | S n' => m;; repeat_m n' m end.

Section Tx.
Context (world : nat -> Z -> Z) (TX_PIN RX_PIN : Z).

Lemma start_common_timer_ends w (s : driver sw_irc) level pending acc :
  0 <= w < 65536 -> foldl hear (false, 0, []) (trace s) = (level, pending, acc) ->
  ends (start_common_timer w) s (fun _ s' => dev s' = dev s /\
    foldl hear (false, 0, []) (trace s') = (level, w * COUNTER_1_US, acc ++ [(level, w)])).
Proof.
  intros Hw Hs. unfold start_common_timer. bus. split; [done|].
  rewrite !hear_snoc, Hs. hear_known. rewrite (u32_small (w * COUNTER_1_US)) by (unfold COUNTER_1_US; lia).
  by rewrite Z.div_mul.
Qed.

Lemma output_segment_ends (carrier : bool) w (s : driver sw_irc) level pending acc :
  0 <= w < 65536 -> foldl hear (false, 0, []) (trace s) = (level, pending, acc) ->
  ends (if carrier then pwm_output_carrier TX_PIN TX_CARRIER_FREQ_DEFAULT w else pwm_output_lowlevel TX_PIN w) s
    (fun _ s' => dev s' = dev s /\
      foldl hear (false, 0, []) (trace s') = (carrier, w * COUNTER_1_US, acc ++ [(carrier, w)])).
Proof.
  intros Hw Hs. destruct carrier; unfold pwm_output_carrier, pwm_output_lowlevel; bus;
    (eapply ends_mono; [eapply start_common_timer_ends; [done|]; cbn [trace]; rewrite !hear_snoc, Hs; hear_known; reflexivity|]);
    intros ? s' H; exact H.
Qed.

(** The driver in the middle of a table. *)
Definition playing (n i : nat) (tab : list Z) (acc : list (bool * Z)) (s : driver sw_irc) : Prop :=
  let d := dev s in
  p_pulse_tab d = true /\ pulse_tab_len d = Z.of_nat n /\ cur_read_pulse_tab_index d = Z.of_nat i /\
  pulse_width_tab d = tab /\ busy d = 1 /\
  heard (trace s) = acc ++ segments (take (S i) tab).

Lemma ack_ends (s : driver sw_irc) (Q : unit -> driver sw_irc -> Prop) :
  (forall s', dev s' = dev s -> heard (trace s') = heard (trace s) ->
     (foldl hear (false, 0, []) (trace s')) = (foldl hear (false, 0, []) (trace s)) -> Q tt s') ->
  ends (v ← sys_read32 world COMMON_TIMER_CTL; sys_write32 (Z.lor 1 v) COMMON_TIMER_CTL) s Q.
Proof.
  intros HQ. bus. assert ((u32 (Z.lor 1 v) =? 0x22) = false) as Hne.
  { apply Z.eqb_neq. intros H. apply (f_equal (fun z => Z.testbit z 0)) in H.
    unfold u32 in H. rewrite Z.mod_pow2_bits_low, Z.lor_spec in H by lia. done. }
  assert (forall h, hear (hear h (RdReg COMMON_TIMER_CTL v)) (WrReg COMMON_TIMER_CTL (u32 (Z.lor 1 v))) = h) as Hh.
  { intros [[l p] a]. cbn -[u32 Z.lor]. by rewrite Hne. }
  apply HQ; cbn [dev trace]; [done|unfold heard|]; by rewrite !hear_snoc, Hh.
Qed.

Lemma even_mod k : (Z.of_nat k mod 2 =? 0) = Nat.even k.
Proof.
  destruct (Nat.Even_or_Odd k) as [[j ->]|[j ->]].
  - rewrite Nat.even_even. apply Z.eqb_eq. Z.div_mod_to_equations; lia.
  - rewrite Nat.even_odd. apply Z.eqb_neq. Z.div_mod_to_equations; lia.
Qed.

(** A pulse's interrupt: the next segment starts, or, after the last, the stale one behind it
    is cut and the repeat gap starts. *)
Lemma isr_ends n i tab acc w s :
  (S i <= n)%nat -> Z.of_nat n < 65536 -> tab !! S i = Some w -> 0 <= w < 65536 -> playing n i tab acc s ->
  ends (common_timer_isr world TX_PIN) s (fun _ s' =>
    if decide (S i < n)%nat then playing n (S i) tab acc s'
    else busy (dev s') = 1 /\ heard (trace s') = acc ++ segments (take n tab) /\
      exists t, trace s' = t ++ [WrReg CAP_TIMER_VAL (108000 * 32); WrReg CAP_TIMER_CTL 0x22]).
Proof.
  intros Hi Hn Hw Hr (H1 & H2 & H3 & H4 & H5 & H6). unfold common_timer_isr, current_pulse, get_dev. bus.
  cbn [set_field p_pulse_tab pulse_width_tab cur_read_pulse_tab_index]. rewrite H1, H3, H4.
  rewrite u16_small by lia. replace (Z.of_nat i + 1) with (Z.of_nat (S i)) by lia. bus.
  eapply ends_lift; [unfold rd; rewrite Nat2Z.id; destruct (Z.leb_spec 0 (Z.of_nat (S i))); [exact Hw|lia]|].
  rewrite even_mod. unfold heard in H6.
  destruct (foldl hear (false, 0, []) (trace s)) as [[level pending] acc0] eqn:Eh. cbn in H6. subst acc0.
  bus. eapply ends_mono; [eapply (output_segment_ends (Nat.even (S i))); [done|exact Eh]|].
  intros ? s1 [D1 E1]. cbn [dev] in D1.
  apply ends_bind_assoc, ack_ends. intros s2 D2 _ E2. unfold get_dev. bus. rewrite D2, D1.
  assert (Hseg : segments (take (S i) tab) ++ [(Nat.even (S i), w)] = segments (take (S (S i)) tab)).
  { rewrite (take_S_r _ _ _ Hw), segments_snoc, length_take, Nat.min_l; [done|].
    apply lookup_lt_Some in Hw. lia. }
  cbn [set_field pulse_tab_len cur_read_pulse_tab_index]. rewrite H2, H3, u16_small by lia.
  apply ends_when; intros Hlast; [apply Z.leb_le in Hlast|apply Z.leb_gt in Hlast]; case_decide; try lia.
  - assert (n = S i) as -> by lia. unfold stop_common_timer, start_irc_tx_timer. bus. rewrite D2, D1. cbn. split; [done|].
    split.
    + unfold heard. rewrite !hear_snoc, E2, E1. hear_known. cbn [snd]. by rewrite removelast_last.
    + eexists. rewrite <- app_assoc. reflexivity.
  - unfold playing. rewrite D2, D1. cbn. split_and!; [done|done|rewrite H3, u16_small; lia|done|done|].
    unfold heard. rewrite E2, E1. cbn [snd]. rewrite <- app_assoc. by rewrite Hseg.
Qed.

Lemma isrs_end n tab acc : (n < length tab)%nat -> Z.of_nat (length tab) < 65536 ->
  Forall (fun w => 0 <= w < 65536) tab -> forall k i s,
  (i + k = n)%nat -> (0 < k)%nat -> playing n i tab acc s ->
  ends (repeat_m k (common_timer_isr world TX_PIN)) s (fun _ s' =>
    busy (dev s') = 1 /\ heard (trace s') = acc ++ segments (take n tab) /\
    exists t, trace s' = t ++ [WrReg CAP_TIMER_VAL (108000 * 32); WrReg CAP_TIMER_CTL 0x22]).
Proof.
  intros Hn Ht HF. induction k as [|k IH]; [lia|]. intros i s Hk _ Hp. cbn [repeat_m]. hoare.
  destruct (lookup_lt_is_Some_2 tab (S i) ltac:(lia)) as [w Hw].
  eapply ends_mono; [eapply isr_ends; [| |exact Hw| |exact Hp]; [lia|lia|]|].
  { apply (Forall_lookup_1 _ _ _ _ HF Hw). }
  intros ? s' H. case_decide; [apply (IH (S i)); [lia|lia|done]|].
  assert (k = 0%nat) as -> by lia. by apply ends_ret.
Qed.

Lemma output_ircode_ends w tab n (s : driver sw_irc) :
  pulse_width_tab (dev s) = tab -> pulse_width_tab_len (dev s) = Z.of_nat n ->
  tab !! 0%nat = Some w -> 0 <= w < 65536 ->
  ends (sw_irc_output_ircode TX_PIN true true) s (fun _ s' =>
    playing n 0 tab (heard (trace s)) (s' <| dev ::= (fun d => d <| busy := 1 |>) |>)).
Proof.
  intros Htab Hn Hw Hr. unfold sw_irc_output_ircode, current_pulse, get_dev. bus.
  apply ends_mono with (P := fun _ s1 => s1 = s <| dev ::= (fun d => d <| gpio_dev := true |>) |>).
  { destruct s as [[] ? ?]. cbn. destruct gpio_dev0; by bus. }
  intros ? s1 ->. bus. cbn. bus.
  apply ends_mono with (P := fun _ s1 => s1 = s <| dev ::= (fun d => d <| gpio_dev := true |> <| pwm_dev := true |>) |>).
  { destruct s as [[] ? ?]. cbn. destruct pwm_dev0; by bus. }
  intros ? s2 ->. bus. cbn. bus. cbn. rewrite Htab. bus.
  eapply ends_lift; [unfold rd; exact Hw|].
  set (s3 := Driver _ _ _).
  assert (H3 : heard (trace s3) = heard (trace s)) by (unfold s3; cbn [trace]; by rewrite !heard_quiet by reflexivity).
  destruct (foldl hear (false, 0, []) (trace s3)) as [[level pending] acc] eqn:Eh.
  eapply ends_mono; [apply (output_segment_ends true w s3 level pending acc Hr Eh)|].
  intros ? s4 [D4 E4]. unfold playing. cbn. rewrite D4. cbn. split_and!; [done|done|done|done|done|].
  unfold heard at 1. rewrite E4. cbn [snd]. rewrite <- H3. unfold heard. rewrite Eh.
  by destruct tab as [|w' tab]; [done|]; injection Hw as ->.
Qed.
End Tx.

(**  Sending a key: from an idle driver the table of [n] pulses the caller passed (at most
    99) is played pulse by pulse, carrier and low level in turn and each for its length, one
    timer interrupt per pulse; after the n-th interrupt the output is off, the entry behind
    the table that the handler starts is cut at once, and the gap of 108 ms to the repeat is
    running. *)
Theorem key_plays_table (world : nat -> Z -> Z) (TX_PIN RX_PIN : Z) (val : ir_input_value) (n : nat)
  (s : driver sw_irc)
  (Hbusy : busy (dev s) = 0) (Hval : ir_value val = IR_KEY_DOWN)
  (Htab : length (pulse_width_tab (dev s)) = Z.to_nat MAX_PULSE_LEN)
  (Hu16 : Forall (fun w => 0 <= w < 65536) (pulse_width_tab (dev s)))
  (Hsrc : Forall (fun w => 0 <= w < 65536) (pluse_tab val))
  (Hlen : pluse_tab_len val = Z.of_nat n) (Hn : (1 <= n <= 99)%nat) (Hn' : (n <= length (pluse_tab val))%nat) :
  ends (sw_irc_acts_output_key world TX_PIN RX_PIN true true val;;
        repeat_m n (common_timer_isr world TX_PIN)) s (fun _ s' =>
    busy (dev s') = 1 /\
    heard (trace s') = heard (trace s) ++ segments (take n (pluse_tab val)) /\
    exists t, trace s' = t ++ [WrReg CAP_TIMER_VAL (108000 * 32); WrReg CAP_TIMER_CTL 0x22]).
Proof.
  destruct n as [|n]; [lia|]. unfold sw_irc_acts_output_key, get_dev. bus.
  apply ends_mono with (P := fun _ s1 => heard (trace s1) = heard (trace s) /\
    exists lm, dev s1 = (dev s) <| learn_mode := lm |>).
  { apply ends_when; intros _; [|split; [done|]; exists (learn_mode (dev s)); by destruct (dev s)].
    unfold sw_irc_input_acts_disable, capture_cfg, timer_cfg. bus. split.
    - by rewrite !heard_quiet by reflexivity.
    - by eexists. }
  intros ? s1 (E1 & lm & D1). destruct s1 as [d1 n1 t1]. cbn [dev trace] in *. subst d1. bus.
  cbn [set_field key_state busy]. rewrite Hval, Hbusy. change ((u8 IR_KEY_DOWN =? IR_KEY_DOWN) && (0 =? 0)) with true.
  cbn [when]. rewrite Hlen. assert (truthy (Z.of_nat (S n)) = true) as ->
    by (unfold truthy; destruct (Z.eqb_spec (Z.of_nat (S n)) 0); [lia|reflexivity]). cbn [when]. bus.
  cbn [set_field pulse_width_tab].
  assert (Hcopy : copy_pulses (pluse_tab val) (Z.of_nat (S n)) (pulse_width_tab (dev s)) =
    Some (take (S n) (pluse_tab val) ++ drop (S n) (pulse_width_tab (dev s)))).
  { unfold copy_pulses. rewrite Htab, Nat2Z.id.
    destruct (Z.leb_spec (Z.of_nat (S n)) (Z.of_nat (length (pluse_tab val)))); [|lia].
    by destruct (Z.leb_spec (Z.of_nat (S n)) (Z.of_nat (Z.to_nat MAX_PULSE_LEN))); [|unfold MAX_PULSE_LEN in *; lia]. }
  eapply ends_lift; [exact Hcopy|]. set (tab := take _ _ ++ drop _ _) in *.
  assert (Ht : length tab = 100%nat).
  { unfold tab. rewrite length_app, length_take, length_drop, Htab. change (Z.to_nat MAX_PULSE_LEN) with 100%nat. lia. }
  assert (Hf : Forall (fun w => 0 <= w < 65536) tab) by (apply Forall_app; split; [by apply Forall_take|by apply Forall_drop]).
  destruct (lookup_lt_is_Some_2 tab 0 ltac:(lia)) as [w Hw].
  bus. set (s2 := Driver _ _ _).
  assert (H2 : heard (trace s2) = heard (trace s)) by (unfold s2; cbn [trace]; by rewrite !heard_quiet by reflexivity).
  eapply ends_mono.
  { apply (output_ircode_ends TX_PIN w tab (S n) s2); [done|done|exact Hw|apply (Forall_lookup_1 _ _ _ _ Hf Hw)]. }
  intros ? s3 Hp. rewrite H2 in Hp. bus. eapply ends_mono.
  - apply (isrs_end world TX_PIN (S n) tab (heard (trace s))) with (i := 0%nat); [lia|lia|done|lia|lia|exact Hp].
  - intros ? s4 (B & Hh & Ht4). split; [done|]. split; [|done]. rewrite Hh. unfold tab.
    by rewrite take_app_le, take_take, Nat.min_id by (rewrite length_take; lia).
Qed.

Lemma key_plays_table_witness :
  ends (sw_irc_acts_output_key (fun _ _ => 0) 4 5 true true (IrInput 0x12 1 [9000; 4500; 560] 3);;
        repeat_m 3 (common_timer_isr (fun _ _ => 0) 4)) (sw_idle (replicate 100 0)) (fun _ s' =>
    heard (trace s') = [(true, 9000); (false, 4500); (true, 560)]).
Proof.
  eapply ends_mono.
  - apply (key_plays_table (fun _ _ => 0) 4 5 (IrInput 0x12 1 [9000; 4500; 560] 3) 3 (sw_idle (replicate 100 0)));
      [done|done|done|by apply Forall_replicate|repeat constructor; lia|done|lia|cbn; lia].
  - intros ? s' (_ & H & _). exact H.
Defined.
