(* ===== verification/IrcHal.v ===== *)
(** * The infrared service (ext/lib/actions/hal/irc_hal.c)

    The application's interface to the remote control: sending keys and the learning mode,
    in which a key of another remote control is captured by the driver, normalised by the
    protocol recognisers and stored in the settings under the key's name, to be sent later.
    Compiled with CONFIG_IRC_SW_RX and CONFIG_NVRAM_CONFIG and without CONFIG_IRC_RX. *)
From S2P Require Import Prelude IrcProtocol Nvram SwIrc.

Definition IR_FORMAT_PULSE_TAB : Z := 7.
Definition CONFIG_IRC_LEARN_MODE_TIMEOUT : Z := 15.

(** struct nv_key_map *)
Record nv_key_map := NvKeyMap { learn_key_code : Z; nv_key_name : string; def_code : Z }.

(** struct flash_pulse_tab_t and its bytes in memory. *)
Record flash_pulse_tab_t := FlashPulseTab {
  flash_pulse_width_tab : list Z;        (* u16_t [MAX_PULSE_LEN] *)
  flash_pulse_width_tab_len : Z          (* u16_t *)
}.
Definition pulse_bytes (w : Z) : list Z := [w mod 256; w / 256].
Definition encode_tab (t : flash_pulse_tab_t) : list Z :=
  concat (pulse_bytes <$> flash_pulse_width_tab t) ++ pulse_bytes (flash_pulse_width_tab_len t).
Fixpoint decode16 (l : list Z) : list Z :=
  match l with b0 :: b1 :: l' => (b0 + 256 * b1) :: decode16 l' | _ => [] end.
Definition decode_tab (l : list Z) : flash_pulse_tab_t :=
  let ws := decode16 l in
  FlashPulseTab (take (Z.to_nat MAX_PULSE_LEN) ws) (default 0 (ws !! Z.to_nat MAX_PULSE_LEN)).
Definition FLASH_PULSE_TAB_SIZE : Z := 2 * MAX_PULSE_LEN + 2.

(** Calls to the drivers, the kernel's timer and the application. *)
Inductive hal_event :=
| InputEnable
| InputDisable
| RegisterNotify
| UnregisterNotify
| TimerStart (seconds : Z)
| TimerStop
| AppEvent (learn_state : Z)
(* the hardware or the software driver; the pulses when the message carries them *)
| OutputKey (sw : bool) (code value : Z) (pulses : option (list Z * Z)).

(** struct irc_handle, the table in RAM, the driver's table that messages point to, and the
    settings. *)
Record hal (NS : Type) := Hal {
  irc_dev : bool;
  sw_irc_dev : bool;
  event_cb : bool;
  cur_learn_keycode : Z;
  cur_learn_state : Z;
  has_set_learn_key : Z;
  sw_ir_learn_mode : Z;
  irc_state : Z;
  flash_pulse_tab : flash_pulse_tab_t;
  driver_tab : list Z;
  hal_nv : NS;
  hal_log : list hal_event
}.
#[global] Arguments Hal {NS}.
#[global] Arguments irc_dev {NS}.
#[global] Arguments sw_irc_dev {NS}.
#[global] Arguments event_cb {NS}.
#[global] Arguments cur_learn_keycode {NS}.
#[global] Arguments cur_learn_state {NS}.
#[global] Arguments has_set_learn_key {NS}.
#[global] Arguments sw_ir_learn_mode {NS}.
#[global] Arguments irc_state {NS}.
#[global] Arguments flash_pulse_tab {NS}.
#[global] Arguments driver_tab {NS}.
#[global] Arguments hal_nv {NS}.
#[global] Arguments hal_log {NS}.
#[export] Instance eta_hal {NS} : EtaRecord (hal NS) := fun r =>
  Hal (irc_dev r) (sw_irc_dev r) (event_cb r) (cur_learn_keycode r) (cur_learn_state r)
    (has_set_learn_key r) (sw_ir_learn_mode r) (irc_state r) (flash_pulse_tab r) (driver_tab r)
    (hal_nv r) (hal_log r).

Section Hal.
Context `{NV : Nvram NS}.
(** NV_KEY_MAPS, and the devices that exist. *)
Context (acts_nv_key_maps : list nv_key_map) (irc_bound sw_irc_bound : bool).
#[local] Abbreviation HM := (M (hal NS)).

Definition ev (e : hal_event) : HM unit := modify (fun h => h <| hal_log ::= (fun l => l ++ [e]) |>).
Definition set (f : hal NS -> hal NS) : HM unit := modify f.

Definition acts_get_nv_keycode (key_code : Z) : option string :=
  (fun p => nv_key_name p.2) <$> list_find (fun m => learn_key_code m = key_code) acts_nv_key_maps.

Definition irc_device_disable_rx : HM unit :=
  ev InputDisable;;
  ev UnregisterNotify;;
  set (fun h => h <| sw_ir_learn_mode := 0 |> <| cur_learn_keycode := 0 |> <| has_set_learn_key := 0 |>).

Definition irc_device_enable_rx (cb : bool) : HM unit :=
  ev InputEnable;;
  set (fun h => h <| event_cb := cb |>);;
  ev RegisterNotify;;
  set (fun h => h <| sw_ir_learn_mode := 1 |> <| cur_learn_keycode := 0 |> <| has_set_learn_key := 0 |>);;
  ev (TimerStart CONFIG_IRC_LEARN_MODE_TIMEOUT).

(** Tell the application; [val] carries nothing it may read. *)
Definition notify_app (state : Z) : HM unit :=
  h ← get;
  when (event_cb h)
    (set (fun h => h <| cur_learn_state := state |>);; ev (AppEvent state)).

Definition __irc_learn_timeout_event : HM unit :=
  h ← get;
  when (truthy (sw_ir_learn_mode h)) irc_device_disable_rx;;
  notify_app IR_LEARN_TIMEOUT.

Definition irc_device_exit_learn_mode : HM unit :=
  h ← get;
  when (truthy (sw_ir_learn_mode h))
    (irc_device_disable_rx;;
     ev TimerStop;;
     notify_app IR_LEARN_TIMEOUT).

(** A message of the driver: its type and the count of pulses in the driver's table. *)
Definition irc_hal_event_handle (type pluse_tab_len : Z) : HM unit :=
  h ← get;
  if negb (truthy (has_set_learn_key h)) || negb (truthy (sw_ir_learn_mode h)) then mret tt
  else if negb (type =? IR_FORMAT_PULSE_TAB) then mret tt
  else
    match acts_get_nv_keycode (cur_learn_keycode h) with
    | None => mret tt
    | Some nvram_key_name =>
        if pluse_tab_len <? MIN_FIRST_CODE_NUM then mret tt
        else
          ev TimerStop;;
          ev (TimerStart CONFIG_IRC_LEARN_MODE_TIMEOUT);;
          '(r, tab) ← lift (check_irc_wave pluse_tab_len (driver_tab h));
          set (fun h => h <| driver_tab := tab |> <| cur_learn_state := r |>);;
          h ← get;
          tab' ← lift (copy_pulses tab pluse_tab_len (flash_pulse_width_tab (flash_pulse_tab h)));
          set (fun h => h <| flash_pulse_tab := FlashPulseTab tab' pluse_tab_len |>);;
          set (fun h => h <| hal_nv ::= (fun n =>
                 (nvram_config_set nvram_key_name (encode_tab (flash_pulse_tab h)) n).2) |>);;
          set (fun h => h <| has_set_learn_key := 0 |>);;
          h ← get;
          when (event_cb h) (ev (AppEvent (cur_learn_state h)))
    end.

Definition irc_device_open : HM bool :=
  set (fun h => h <| irc_dev := irc_bound |>);;
  if negb irc_bound then mret false
  else
    set (fun h => h <| sw_irc_dev := sw_irc_bound |>);;
    if negb sw_irc_bound then mret false
    else mret true.

Definition irc_device_send_key (key_code key_state : Z) : HM unit :=
  ev (OutputKey false (u16 key_code) key_state None);;
  set (fun h => h <| irc_state := key_state |>).

(** The settings store writes into the table in RAM. *)
Definition load_pulse_tab (name : string) : HM unit :=
  h ← get;
  bytes ← lift (blit 0 (nvram_config_get name FLASH_PULSE_TAB_SIZE (hal_nv h)).2 (encode_tab (flash_pulse_tab h)));
  set (fun h => h <| flash_pulse_tab := decode_tab bytes |>).

Definition irc_device_send_learn_key (key_code key_state : Z) : HM unit :=
  match acts_get_nv_keycode key_code with
  | None => mret tt
  | Some name =>
      h ← get;
      if truthy (sw_ir_learn_mode h) then
        when (key_state =? IR_KEY_DOWN)
          (when (has_set_learn_key h =? 0)
             (ev TimerStop;; ev (TimerStart CONFIG_IRC_LEARN_MODE_TIMEOUT));;
           set (fun h => h <| has_set_learn_key := 1 |> <| cur_learn_keycode := key_code |>
                           <| cur_learn_state := IR_LEARN_READY |>);;
           if event_cb h then ev (AppEvent IR_LEARN_READY) else ub)
      else
        (if key_state =? IR_KEY_DOWN then
           load_pulse_tab name;;
           h ← get;
           let t := flash_pulse_tab h in
           ev (OutputKey true (u16 key_code) key_state
                 (Some (flash_pulse_width_tab t, flash_pulse_width_tab_len t)))
         else ev (OutputKey true (u16 key_code) key_state None));;
        set (fun h => h <| irc_state := key_state |>)
  end.

Definition irc_device_state_get (h : hal NS) : Z := irc_state h.
End Hal.

(** * Theorems *)
Definition is_u16 (w : Z) : Prop := 0 <= w < 65536.
Definition tab_ok (t : flash_pulse_tab_t) : Prop :=
  length (flash_pulse_width_tab t) = Z.to_nat MAX_PULSE_LEN /\
  Forall is_u16 (flash_pulse_width_tab t) /\ is_u16 (flash_pulse_width_tab_len t).

Lemma decode16_concat ws r : Forall is_u16 ws -> decode16 (concat (pulse_bytes <$> ws) ++ r) = ws ++ decode16 r.
Proof.
  induction 1 as [|w ws Hw _ IH]; [done|]. cbn. rewrite IH. f_equal. unfold is_u16 in Hw.
  rewrite (Z.div_mod w 256) at 3 by lia. lia.
Qed.
Lemma length_pulse_bytes ws : length (concat (pulse_bytes <$> ws)) = (2 * length ws)%nat.
Proof. induction ws as [|w ws IH]; [done|]. cbn. rewrite IH. lia. Qed.
Lemma length_encode_tab t : tab_ok t -> Z.of_nat (length (encode_tab t)) = FLASH_PULSE_TAB_SIZE.
Proof. intros (Hl & _). unfold encode_tab. by rewrite length_app, length_pulse_bytes, Hl. Qed.
Lemma decode_encode_tab t : tab_ok t -> decode_tab (encode_tab t) = t.
Proof.
  destruct t as [ws n]. intros (Hl & Hws & Hn). cbn in *. unfold decode_tab, encode_tab. cbn [flash_pulse_width_tab flash_pulse_width_tab_len].
  rewrite decode16_concat by done. rewrite <- Hl at 1. rewrite take_app_length, <- Hl.
  rewrite lookup_app_r, Nat.sub_diag by done. cbn [decode16 pulse_bytes lookup list_lookup default]. f_equal.
  unfold is_u16 in Hn. unfold id. rewrite (Z.div_mod n 256) at 3 by lia. lia.
Qed.

(** What the application was told. *)
Definition app_events (l : list hal_event) : list Z :=
  omap (fun e => match e with AppEvent s => Some s | _ => None end) l.
Lemma app_events_snoc l e : app_events (l ++ [e]) =
  app_events l ++ match e with AppEvent s => [s] | _ => [] end.
Proof. unfold app_events. rewrite omap_app. f_equal. by destruct e. Qed.

#[local] Arguments app_events : simpl never.
Section HalTheorems.
Context `{NV : Nvram NS} {NVL : NvramLaws NS} (maps : list nv_key_map).
#[local] Arguments ends : simpl never.

(** One key chosen for learning. *)
Lemma choose_key_ends code name (h : hal NS) :
  acts_get_nv_keycode maps code = Some name -> sw_ir_learn_mode h = 1 -> event_cb h = true ->
  ends (irc_device_send_learn_key maps code IR_KEY_DOWN) h (fun _ h' =>
    app_events (hal_log h') = app_events (hal_log h) ++ [IR_LEARN_READY] /\
    exists l, h' = h <| has_set_learn_key := 1 |> <| cur_learn_keycode := code |>
                     <| cur_learn_state := IR_LEARN_READY |> <| hal_log := l |>).
Proof.
  intros Hname Hmode Hcb. unfold irc_device_send_learn_key, ev, set. rewrite Hname. hoare. rewrite Hmode.
  cbn [truthy Z.eqb negb IR_KEY_DOWN Pos.eqb]. unfold when at 1. cbn [Z.eqb Pos.eqb].
  hoare. apply ends_mono with (P := fun _ h1 => app_events (hal_log h1) = app_events (hal_log h) /\
    exists l, h1 = h <| hal_log := l |>).
  { apply ends_when; intros _; [hoare|]; (split; [cbn; by rewrite ?app_events_snoc, ?app_nil_r|]).
    - eexists. destruct h; reflexivity.
    - exists (hal_log h). by destruct h. }
  intros ? h1 [E [l ->]]. hoare. cbn. rewrite Hcb. hoare. cbn. cbn in E. rewrite app_events_snoc, E. split; [done|].
  eexists. reflexivity.
Qed.

(** A capture for the chosen key. *)
Lemma capture_ends code name len r tab (h : hal NS) :
  acts_get_nv_keycode maps code = Some name -> sw_ir_learn_mode h = 1 -> event_cb h = true ->
  has_set_learn_key h = 1 -> cur_learn_keycode h = code ->
  MIN_FIRST_CODE_NUM <= len <= MAX_PULSE_LEN ->
  check_irc_wave len (driver_tab h) = Some (r, tab) -> length tab = Z.to_nat MAX_PULSE_LEN ->
  length (flash_pulse_width_tab (flash_pulse_tab h)) = Z.to_nat MAX_PULSE_LEN ->
  let t := FlashPulseTab (take (Z.to_nat len) tab ++ drop (Z.to_nat len) (flash_pulse_width_tab (flash_pulse_tab h))) len in
  ends (irc_hal_event_handle maps IR_FORMAT_PULSE_TAB len) h (fun _ h' =>
    sw_ir_learn_mode h' = 1 /\ event_cb h' = true /\ flash_pulse_tab h' = t /\
    hal_nv h' = (nvram_config_set name (encode_tab t) (hal_nv h)).2 /\
    app_events (hal_log h') = app_events (hal_log h) ++ [r]).
Proof.
  intros Hname Hmode Hcb Hset Hcode Hlen Hchk Htab Hfl t. unfold irc_hal_event_handle, ev, set. hoare.
  rewrite Hset, Hmode, Hcode, Hname. change (negb (truthy 1) || negb (truthy 1)) with false.
  change (negb (IR_FORMAT_PULSE_TAB =? IR_FORMAT_PULSE_TAB)) with false.
  destruct (Z.ltb_spec len MIN_FIRST_CODE_NUM); [lia|]. hoare.
  eapply ends_lift; [exact Hchk|]. hoare.
  assert (copy_pulses tab len (flash_pulse_width_tab (flash_pulse_tab h)) = Some (flash_pulse_width_tab t)) as Hcopy.
  { unfold copy_pulses, MIN_FIRST_CODE_NUM, MAX_PULSE_LEN in *. rewrite Htab, Hfl.
    change (Z.of_nat (Z.to_nat 100)) with 100. by destruct (Z.leb_spec len 100); [|lia]. }
  eapply ends_lift; [exact Hcopy|]. hoare.
  apply ends_when; cbn; [|congruence]. intros _. apply ends_modify. cbn.
  split_and!; [done|done|done|done|]. by rewrite !app_events_snoc, !app_nil_r.
Qed.

Lemma exit_ends (h : hal NS) : sw_ir_learn_mode h = 1 -> event_cb h = true ->
  ends irc_device_exit_learn_mode h (fun _ h' =>
    sw_ir_learn_mode h' = 0 /\ hal_nv h' = hal_nv h /\
    app_events (hal_log h') = app_events (hal_log h) ++ [IR_LEARN_TIMEOUT]).
Proof.
  intros Hm Hcb. unfold irc_device_exit_learn_mode, irc_device_disable_rx, notify_app, ev, set. hoare.
  rewrite Hm. cbn [when truthy Z.eqb negb]. hoare. apply ends_when; cbn; [|congruence]. intros _. hoare. cbn.
  split_and!; [done|done|]. by rewrite !app_events_snoc, !app_nil_r.
Qed.

(** Sending outside the learning mode: the stored table, or what is in RAM. *)
Lemma send_ends code name (h : hal NS) t :
  acts_get_nv_keycode maps code = Some name -> sw_ir_learn_mode h = 0 -> tab_ok (flash_pulse_tab h) ->
  match nv_view (hal_nv h) name with
  | Some d => d = encode_tab t /\ tab_ok t
  | None => t = flash_pulse_tab h
  end ->
  ends (irc_device_send_learn_key maps code IR_KEY_DOWN) h (fun _ h' =>
    irc_state h' = IR_KEY_DOWN /\
    hal_log h' = hal_log h ++ [OutputKey true (u16 code) IR_KEY_DOWN
                                 (Some (flash_pulse_width_tab t, flash_pulse_width_tab_len t))]).
Proof.
  intros Hname Hm Hok Ht. unfold irc_device_send_learn_key, load_pulse_tab, ev, set. rewrite Hname. hoare. rewrite Hm.
  change (truthy 0) with false. change (IR_KEY_DOWN =? IR_KEY_DOWN) with true. cbv iota. hoare.
  assert (blit 0 (nvram_config_get name FLASH_PULSE_TAB_SIZE (hal_nv h)).2 (encode_tab (flash_pulse_tab h))
    = Some (encode_tab t) /\ decode_tab (encode_tab t) = t) as [Hb Hd].
  { destruct (nv_view (hal_nv h) name) as [d|] eqn:Ev.
    - destruct Ht as [-> Ht]. pose proof (length_encode_tab t Ht) as Hl. pose proof (length_encode_tab _ Hok) as Hl'.
      rewrite (nv_get_some _ _ _ _ Ev) by lia. cbn [snd]. rewrite blit_whole by lia. by rewrite decode_encode_tab.
    - subst t. destruct (nv_get_none _ FLASH_PULSE_TAB_SIZE _ Ev) as [_ ->].
      rewrite decode_encode_tab by done. split; [|done]. unfold blit. change (Z.of_nat (@length Z [])) with 0.
      destruct (Z.leb_spec (0 + 0) (Z.of_nat (length (encode_tab (flash_pulse_tab h))))); [reflexivity|lia]. }
  eapply ends_lift; [exact Hb|]. rewrite Hd. by hoare.
Qed.

(** C38.  Learning and replay.  In the learning mode the application names a key and the
    driver captures a wave of 20 to 100 pulses.  The application is told that the driver is
    ready, then the verdict of the recognisers, and at the end that the mode was left.  From
    then on, in whatever state the service is later (restarts included, as long as the key's
    setting is kept), pressing the key makes the driver send exactly the learnt pulses, as
    the recognisers normalised them: also when the verdict was that learning failed. *)
Theorem learned_key_replays (h : hal NS) (code : Z) (name : string) (len r : Z) (tab : list Z)
  (Hname : acts_get_nv_keycode maps code = Some name)
  (Hmode : sw_ir_learn_mode h = 1) (Hcb : event_cb h = true) (Hflash : tab_ok (flash_pulse_tab h))
  (Hlen : MIN_FIRST_CODE_NUM <= len <= MAX_PULSE_LEN)
  (Hchk : check_irc_wave len (driver_tab h) = Some (r, tab))
  (Htab : length tab = Z.to_nat MAX_PULSE_LEN) (Hu16 : Forall is_u16 tab)
  (Hset : forall d, 0 <= (nvram_config_set name d (hal_nv h)).1) :
  ends (irc_device_send_learn_key maps code IR_KEY_DOWN;;
        irc_hal_event_handle maps IR_FORMAT_PULSE_TAB len;;
        irc_device_exit_learn_mode) h (fun _ h1 =>
    app_events (hal_log h1) = app_events (hal_log h) ++ [IR_LEARN_READY; r; IR_LEARN_TIMEOUT] /\
    forall h2 : hal NS, sw_ir_learn_mode h2 = 0 -> tab_ok (flash_pulse_tab h2) ->
      nv_view (hal_nv h2) name = nv_view (hal_nv h1) name ->
      ends (irc_device_send_learn_key maps code IR_KEY_DOWN) h2 (fun _ h3 => exists pulses,
        take (Z.to_nat len) pulses = take (Z.to_nat len) tab /\
        hal_log h3 = hal_log h2 ++ [OutputKey true (u16 code) IR_KEY_DOWN (Some (pulses, len))])).
Proof.
  hoare. eapply ends_mono; [by eapply choose_key_ends|]. intros ? h1 [E1 [l ->]]. hoare.
  eapply ends_mono; [eapply (capture_ends code); try done; apply Hflash|]. cbn.
  set (t := FlashPulseTab _ _). intros ? h2 (M2 & C2 & F2 & N2 & E2).
  eapply ends_mono; [by apply exit_ends|]. intros ? h3 (M3 & N3 & E3).
  split; [rewrite E3, E2; cbn in E1; rewrite E1; by rewrite <- !app_assoc|].
  intros h4 M4 Hok4 Hv. rewrite N3, N2, nv_set_ok in Hv by apply Hset.
  assert (Ht : tab_ok t).
  { destruct Hflash as (L & U & _). unfold MIN_FIRST_CODE_NUM, MAX_PULSE_LEN in *. split_and!; unfold t; cbn.
    - rewrite length_app, length_take, length_drop, Htab, L. unfold MAX_PULSE_LEN. lia.
    - apply Forall_app. split; [by apply Forall_take|by apply Forall_drop].
    - unfold is_u16. lia. }
  eapply ends_mono; [apply (send_ends code name h4 t Hname M4 Hok4); by rewrite Hv|].
  intros ? h5 [_ E5]. exists (flash_pulse_width_tab t). split; [|exact E5]. unfold t. cbn.
  unfold MIN_FIRST_CODE_NUM, MAX_PULSE_LEN in *.
  by rewrite take_app_le, take_take, Nat.min_id by (rewrite length_take; lia).
Qed.

(** A learnable key that was never learnt: the failure of the settings store is not
    checked, and pressing the key sends the table that happens to be in RAM, that of the key
    learnt or sent before. *)
Theorem unlearned_key_sends_previous (h : hal NS) (code : Z) (name : string)
  (Hname : acts_get_nv_keycode maps code = Some name)
  (Hmode : sw_ir_learn_mode h = 0) (Hflash : tab_ok (flash_pulse_tab h))
  (Hnone : nv_view (hal_nv h) name = None) :
  ends (irc_device_send_learn_key maps code IR_KEY_DOWN) h (fun _ h' =>
    irc_state h' = IR_KEY_DOWN /\
    hal_log h' = hal_log h ++ [OutputKey true (u16 code) IR_KEY_DOWN
      (Some (flash_pulse_width_tab (flash_pulse_tab h), flash_pulse_width_tab_len (flash_pulse_tab h)))]).
Proof. apply (send_ends code name h); [done..|]. by rewrite Hnone. Qed.
End HalTheorems.

Definition example_hal (mode : Z) : hal (gmap string (list Z)) :=
  Hal true true true 0 0 0 mode 0 (FlashPulseTab (replicate 100 7) 33) (replicate 100 560) ∅ [].
Definition example_maps : list nv_key_map := [NvKeyMap 1 "IRC_POWER" 0x12; NvKeyMap 2 "IRC_MUTE" 0x13].

Lemma learned_key_replays_witness :
  ends (irc_device_send_learn_key example_maps 2 IR_KEY_DOWN;;
        irc_hal_event_handle example_maps IR_FORMAT_PULSE_TAB 33;;
        irc_device_exit_learn_mode) (example_hal 1) (fun _ h1 =>
    app_events (hal_log h1) = [IR_LEARN_READY; IR_LEARN_FAILED; IR_LEARN_TIMEOUT]).
Proof.
  eapply ends_mono.
  - apply (learned_key_replays example_maps (example_hal 1) 2 "IRC_MUTE" 33 IR_LEARN_FAILED (replicate 100 560));
      [reflexivity|reflexivity|reflexivity|..].
    + split_and!; [reflexivity|apply Forall_replicate; unfold is_u16; lia|unfold is_u16; cbn; lia].
    + unfold MIN_FIRST_CODE_NUM, MAX_PULSE_LEN. lia.
    + vm_compute. reflexivity.
    + reflexivity.
    + apply Forall_replicate. unfold is_u16. lia.
    + intros d. cbn. lia.
  - intros ? h1 [H _]. exact H.
Defined.

Lemma unlearned_key_sends_previous_witness :
  ends (irc_device_send_learn_key example_maps 1 IR_KEY_DOWN) (example_hal 0) (fun _ h' =>
    hal_log h' = [OutputKey true 1 IR_KEY_DOWN (Some (replicate 100 7, 33))]).
Proof.
  eapply ends_mono.
  - apply (unlearned_key_sends_previous example_maps (example_hal 0) 1 "IRC_POWER"); [reflexivity|reflexivity|..].
    + split_and!; [reflexivity|apply Forall_replicate; unfold is_u16; lia|unfold is_u16; cbn; lia].
    + reflexivity.
  - intros ? h' [_ H]. exact H.
Defined.
