(* ===== verification/Power.v ===== *)
(** * Devices and power management (kernel/device.c, arch/soc/atb110x/soc_pm.c)

    The table of devices with its busy flags, the decision whether an idle system may go to
    deep sleep, the sequence into deep sleep and out of it, and the reboot through the
    watchdog.  The system is compiled with CONFIG_DEEPSLEEP and CONFIG_DEEPSLEEP_SWITCH_32M. *)
From S2P Require Import Prelude Mmio.

Definition CMU_DIGITAL_BASE : Z := 0x40002000.
Definition PMU_REG_BASE : Z := 0x40008000.
Definition ACT_32M_CTL : Z := CMU_DIGITAL_BASE + 0x4.
Definition ACT_3M_CTL : Z := CMU_DIGITAL_BASE + 0x8.
Definition CMU_SYSCLK : Z := CMU_DIGITAL_BASE + 0xC.
Definition CMU_DEVCLKEN : Z := CMU_DIGITAL_BASE + 0x14.
Definition HCL32K_CTL : Z := 0x40004200.
Definition VD12_CTL : Z := PMU_REG_BASE.
Definition RAM_CTL : Z := PMU_REG_BASE + 0x44.
Definition JTAG_EN : Z := 0x40016000.
Definition _SCB_SCR : Z := 0xE000ED10.
Definition _SCB_SCR_SLEEPDEEP : Z := 4.
Definition ACT_32M_CTL_XTAL32M_EN : Z := 0.
Definition ACT_3M_CTL_RC3MEN : Z := 0.
Definition ACT_3M_CTL_RC3M_OK : Z := 5.
Definition CMU_SYSCLK_SLEEP_HFCLK_SEL : Z := 4.
Definition CMU_SYSCLK_CPU_CLK_SEL_MASK : Z := 3.
Definition HCL32K_CTL_HCL_32K_EN : Z := 0.
Definition VD12_CTL_VD12_LGBIAS_EN : Z := 8.
Definition VD12_CTL_VD12PD_EN : Z := 14.
Definition VD12_CTL_VD12_EN : Z := 4.
Definition CLOCK_ID_SPICACHE : Z := 1.
Definition CLOCK_ID_SPI0 : Z := 2.
Definition SYSTEM_CLOCK_32M : Z := 32000000.
Definition SYSTEM_CLOCK_3M : Z := 3000000.
Definition RAM2_START : Z := 0x20004000.
Definition RAM6_START : Z := 0x20008000.
Definition REBOOT_REASON_ADDR : Z := 0x40004038.
Definition REBOOT_REASON_MAGIC : Z := 0x544f4252.
Definition CONFIG_DEEPSLEEP_TICK_THRESH : Z := 10.
Definition K_FOREVER : Z := -1.
Definition SYS_PM_NOT_HANDLED : Z := 0.
Definition SYS_PM_DEEP_SLEEP : Z := 2.
Definition DEVICE_PM_ACTIVE_STATE : Z := 1.
Definition DEVICE_PM_SUSPEND_STATE : Z := 3.
Definition DEVICE_NUM_MAX : Z := 64.
Definition EBUSY : Z := 16.

Inductive power_states := SYS_POWER_STATE_CPU_SLEEP | SYS_POWER_STATE_DEEP_SLEEP | SYS_POWER_STATE_MAX.

(** An entry of the device table. *)
Record device := Device { d_name : string; d_api : bool; d_pm : bool }.

Record power := Power {
  device_busy : list Z;              (* two words of 32 flags *)
  sleep_32k : Z;
  deepsleep_disable_vd12 : Z;
  pm_state : power_states;
  system_core_clock : Z;
  application_wake_lock : Z
}.
#[export] Instance eta_power : EtaRecord power := fun r =>
  Power (device_busy r) (sleep_32k r) (deepsleep_disable_vd12 r) (pm_state r) (system_core_clock r)
    (application_wake_lock r).

(** ** The device table *)
(** The first device of that name that has an interface. *)
Definition device_get_binding (devices : list device) (name : string) : option nat :=
  fst <$> list_find (fun d => d_api d = true /\ d_name d = name) devices.

Definition set_bit32 (i w : Z) : Z := Z.lor w (Z.shiftl 1 i).
Definition clear_bit32 (i w : Z) : Z := Z.land w (Z.lnot (Z.shiftl 1 i)).
(** An atomic bit operation on the flags; outside the array it is undefined. *)
Definition upd_busy (f : Z -> Z -> Z) (dev : Z) (flags : list Z) : option (list Z) :=
  w ← rd flags (dev / 32); wr flags (dev / 32) (f (dev mod 32) w).
Definition busy_bit (flags : list Z) (i : Z) : bool :=
  match rd flags (i / 32) with Some w => Z.testbit w (i mod 32) | None => false end.

(** The scan of the 64 flags. *)
Fixpoint any_busy (n : nat) (flags : list Z) (i : Z) : Z :=
  match n with
  | O => 0
  | S n' => if busy_bit flags i then - EBUSY else any_busy n' flags (i + 1)
  end.
Definition device_any_busy_check (flags : list Z) : Z := any_busy (Z.to_nat DEVICE_NUM_MAX) flags 0.

Section Power.
Context (world : nat -> Z -> Z) (fuel : nat).
(** The device table and the first device of each initialisation level. *)
Context (devices : list device) (config_levels : list nat).
(** CONFIG_SPI0_XIP, CONFIG_USE_JTAG_IO_FOR_KEY; the retention area; the two voltages. *)
Context (xip jtag_for_key : bool) (ram_retention_start ram_retention_end dp_vdd_val normal_vdd_val : Z).
#[local] Abbreviation PM := (M (driver power)).
#[local] Abbreviation read := (sys_read32 (D := power) world).

Definition device_busy_set_new (dev : Z) : PM unit :=
  d ← get_dev; f ← lift (upd_busy set_bit32 dev (device_busy d)); upd_dev (fun d => d <| device_busy := f |>).
Definition device_busy_clear_new (dev : Z) : PM unit :=
  d ← get_dev; f ← lift (upd_busy clear_bit32 dev (device_busy d)); upd_dev (fun d => d <| device_busy := f |>).

Definition _sys_device_do_config_level (level : nat) : PM unit :=
  a ← lift (config_levels !! level);
  b ← lift (config_levels !! S level);
  foldr (fun i k => log (Ext "init" [Z.of_nat i]);; k) (mret tt) (seq a (b - a)).

(** Devices without power management are skipped. *)
Definition set_devices_state (st : Z) : PM unit :=
  foldr (fun e k => (when (d_pm e.2) (log (Ext "device_set_power_state" [Z.of_nat e.1; st])));; k) (mret tt)
    (imap pair devices).

(** ** Clocks and supplies *)
Definition set_bits (addr mask : Z) : PM unit := v ← read addr; sys_write32 (Z.lor v mask) addr.
Definition clear_bits (addr mask : Z) : PM unit := v ← read addr; sys_write32 (Z.land v (Z.lnot mask)) addr.
Fixpoint wait_bits (n : nat) (addr mask : Z) : PM unit :=
  match n with
  | O => ub
  | S n' => v ← read addr; if Z.land v mask =? 0 then wait_bits n' addr mask else mret tt
  end.

Definition request_32M_XTAL (ena : bool) : PM unit :=
  if ena then
    set_bits ACT_32M_CTL (Z.shiftl 1 ACT_32M_CTL_XTAL32M_EN);;
    wait_bits fuel ACT_32M_CTL (Z.shiftl 1 1)
  else
    clear_bits ACT_32M_CTL (Z.shiftl 1 ACT_32M_CTL_XTAL32M_EN);;
    log (BusyWait 100).

Definition request_rc_3M (ena : bool) : PM unit :=
  if ena then
    set_bits ACT_3M_CTL (Z.shiftl 1 ACT_3M_CTL_RC3MEN);;
    wait_bits fuel ACT_3M_CTL (Z.shiftl 1 ACT_3M_CTL_RC3M_OK)
  else clear_bits ACT_3M_CTL (Z.shiftl 1 ACT_3M_CTL_RC3MEN).

Definition request_vd12_largebias (ena : bool) : PM unit :=
  if ena then set_bits VD12_CTL (Z.shiftl 1 VD12_CTL_VD12_LGBIAS_EN)
  else clear_bits VD12_CTL (Z.shiftl 1 VD12_CTL_VD12_LGBIAS_EN).

Definition set_deep_sleep_clock : PM unit :=
  v ← read HCL32K_CTL;
  when (truthy (Z.land v (Z.shiftl 1 HCL32K_CTL_HCL_32K_EN))) (upd_dev (fun d => d <| sleep_32k := 0 |>));;
  d ← get_dev;
  if sleep_32k d =? 0 then set_bits CMU_SYSCLK (Z.shiftl 1 CMU_SYSCLK_SLEEP_HFCLK_SEL)
  else clear_bits CMU_SYSCLK (Z.shiftl 1 CMU_SYSCLK_SLEEP_HFCLK_SEL).

Definition switch_cpu_clock_3M : PM unit :=
  request_rc_3M true;;
  clear_bits CMU_SYSCLK CMU_SYSCLK_CPU_CLK_SEL_MASK;;
  upd_dev (fun d => d <| system_core_clock := SYSTEM_CLOCK_3M |>).

(** Select a source of the CPU clock. *)
Definition select_cpu_clock (sel : Z) : PM unit :=
  v ← read CMU_SYSCLK;
  sys_write32 (Z.lor (Z.land v (Z.lnot CMU_SYSCLK_CPU_CLK_SEL_MASK)) sel) CMU_SYSCLK.

(** ** Into deep sleep and out of it *)
Definition suspend_devices : PM unit :=
  set_devices_state DEVICE_PM_SUSPEND_STATE;;
  sys_write32 0 JTAG_EN.

Definition resume_devices : PM unit :=
  when (negb jtag_for_key) (sys_write32 (Z.shiftl 1 31) JTAG_EN);;
  set_devices_state DEVICE_PM_ACTIVE_STATE.

Definition deep_sleep_exit : PM unit :=
  request_32M_XTAL true;;
  select_cpu_clock 2;;
  upd_dev (fun d => d <| system_core_clock := SYSTEM_CLOCK_32M |>);;
  request_rc_3M false;;
  request_vd12_largebias false;;
  clear_bits _SCB_SCR _SCB_SCR_SLEEPDEEP;;
  resume_devices.

Definition ram_ctl_val : list Z := [0xfb; 0xf7; 0xef; 0xdf].
Definition ram_ctl_cross_val : list Z := [0xf3; 0xe7; 0xcf; 0x9f].
Definition ram_block (addr : Z) : Z := Z.shiftr (Z.land (u32 (addr - RAM2_START)) 0xf000) 12.

(** Which RAM blocks stay powered. *)
Definition set_ram_retention : PM unit :=
  when ((RAM2_START <=? ram_retention_start) && (ram_retention_start <? RAM6_START))
    (let ram_start_index := ram_block ram_retention_start in
     let ram_end_index := ram_block ram_retention_end in
     v ← lift (rd (if ram_start_index =? ram_end_index then ram_ctl_val else ram_ctl_cross_val) ram_start_index);
     sys_write32 (Z.lor v 0x50000) RAM_CTL).

Definition vd12_low : Z := Z.lor (Z.shiftl 1 VD12_CTL_VD12_LGBIAS_EN) (Z.shiftl 1 VD12_CTL_VD12PD_EN).

Definition _sys_lower_wfi : PM unit :=
  (if xip then
     sys_write32 (Z.lor 0xfe 0x50000) RAM_CTL;;
     clear_bits CMU_DEVCLKEN (Z.shiftl 1 CLOCK_ID_SPICACHE);;
     clear_bits CMU_DEVCLKEN (Z.shiftl 1 CLOCK_ID_SPI0)
   else set_ram_retention);;
  d ← get_dev;
  (if sleep_32k d =? 0 then clear_bits VD12_CTL vd12_low
   else
     select_cpu_clock 1;;
     log (Ext "delay_cpu_cycle" [5]);;
     request_rc_3M false;;
     clear_bits VD12_CTL vd12_low;;
     when (truthy (deepsleep_disable_vd12 d)) (clear_bits VD12_CTL (Z.shiftl 1 VD12_CTL_VD12_EN)));;
  log (Ext "wfi" []);;
  sys_write32 0 RAM_CTL;;
  when xip
    (set_bits CMU_DEVCLKEN (Z.shiftl 1 CLOCK_ID_SPI0);;
     set_bits CMU_DEVCLKEN (Z.shiftl 1 CLOCK_ID_SPICACHE));;
  set_bits VD12_CTL vd12_low;;
  set_bits VD12_CTL (Z.shiftl 1 VD12_CTL_VD12_EN);;
  switch_cpu_clock_3M.

Definition _sys_soc_set_power_state (st : power_states) : PM unit :=
  match st with
  | SYS_POWER_STATE_DEEP_SLEEP =>
      set_bits _SCB_SCR _SCB_SCR_SLEEPDEEP;;
      set_deep_sleep_clock;;
      switch_cpu_clock_3M;;
      request_32M_XTAL false;;
      log (Ext "acts_set_vdd" [dp_vdd_val]);;
      log (BusyWait 100);;
      _sys_lower_wfi;;
      log (Ext "acts_set_vdd" [normal_vdd_val]);;
      log (BusyWait 100)
  | _ => mret tt
  end.

Definition deep_sleep_entry (ticks : Z) : PM Z :=
  suspend_devices;;
  log (Ext "_timer_deepsleep_enter" [ticks]);;
  _sys_soc_set_power_state SYS_POWER_STATE_DEEP_SLEEP;;
  deep_sleep_exit;;
  log (Ext "_timer_deepsleep_exit" []);;
  log (Ext "__set_primask" [0]);;
  mret SYS_PM_DEEP_SLEEP.

Definition low_power_state_entry : PM Z :=
  _sys_soc_set_power_state SYS_POWER_STATE_CPU_SLEEP;;
  mret SYS_PM_NOT_HANDLED.

(** ** The decision *)
Definition check_pm_policy (d : power) : power_states :=
  let policy := 2 in
  let policy := if (policy =? 2) && truthy (application_wake_lock d) then 1 else policy in
  let policy := if (policy =? 2) && truthy (device_any_busy_check (device_busy d)) then 1 else policy in
  if policy =? 0 then SYS_POWER_STATE_MAX
  else if policy =? 1 then SYS_POWER_STATE_CPU_SLEEP else SYS_POWER_STATE_DEEP_SLEEP.

Definition _sys_soc_suspend_new (ticks : Z) : PM Z :=
  if negb (ticks =? K_FOREVER) && (ticks <? CONFIG_DEEPSLEEP_TICK_THRESH) then mret SYS_PM_NOT_HANDLED
  else
    d ← get_dev;
    let st := check_pm_policy d in
    upd_dev (fun d => d <| pm_state := st |>);;
    match st with
    | SYS_POWER_STATE_CPU_SLEEP => low_power_state_entry
    | SYS_POWER_STATE_DEEP_SLEEP => deep_sleep_entry ticks
    | SYS_POWER_STATE_MAX => mret SYS_PM_NOT_HANDLED
    end.

(** ** Reboot: never returns, with the watchdog or without. *)
Definition sys_pm_reboot (wdg : option nat) (type : Z) : PM unit :=
  match wdg with
  | None => log (Ext "spin" [])
  | Some _ =>
      log (Ext "irq_lock" []);;
      sys_write32 REBOOT_REASON_MAGIC REBOOT_REASON_ADDR;;
      sys_write32 (Z.land type (Z.lnot 0xff)) (REBOOT_REASON_ADDR + 4);;
      log (Ext "wdt_set_config" [100; 0]);;
      log (Ext "wdt_enable" []);;
      log (Ext "spin" [])
  end.
End Power.

(** * Theorems *)
(** ** Busy flags as a set of devices *)
Definition represents (flags : list Z) (B : gset Z) : Prop :=
  length flags = 2%nat /\ forall i, 0 <= i < DEVICE_NUM_MAX -> busy_bit flags i = bool_decide (i ∈ B).

Lemma any_busy_spec flags n : forall i,
  any_busy n flags i = if existsb (busy_bit flags) (seqZ i (Z.of_nat n)) then - EBUSY else 0.
Proof.
  induction n as [|n IH]; intros i; [done|]. cbn [any_busy].
  rewrite seqZ_cons by lia. cbn [existsb]. rewrite IH. destruct (busy_bit flags i); [done|]. cbn [orb].
  by replace (Z.pred (Z.of_nat (S n))) with (Z.of_nat n) by lia.
Qed.

Lemma any_busy_check_set flags B : represents flags B -> (forall i, i ∈ B -> 0 <= i < DEVICE_NUM_MAX) ->
  truthy (device_any_busy_check flags) = bool_decide (B <> ∅).
Proof.
  intros [_ HB] Hr. unfold device_any_busy_check. rewrite any_busy_spec.
  change (Z.of_nat (Z.to_nat DEVICE_NUM_MAX)) with DEVICE_NUM_MAX.
  destruct (existsb _ _) eqn:E.
  - apply existsb_exists in E as (i & Hi%list_elem_of_In%elem_of_seqZ & Hb).
    rewrite HB in Hb by lia. apply bool_decide_eq_true in Hb.
    rewrite bool_decide_true; [done|]. intros ->. by apply elem_of_empty in Hb.
  - rewrite bool_decide_false; [done|]. intros Hne. apply set_choose_L in Hne as [i Hi].
    assert (existsb (busy_bit flags) (seqZ 0 DEVICE_NUM_MAX) = true) as Ht; [|congruence].
    apply existsb_exists. exists i. split; [apply list_elem_of_In, elem_of_seqZ; specialize (Hr i Hi); lia|].
    rewrite HB by (by apply Hr). by apply bool_decide_true.
Qed.

Lemma testbit_one k : Z.testbit 1 k = (k =? 0).
Proof. destruct (Z.eqb_spec k 0) as [->|]; [done|]. by apply (Z.pow2_bits_false 0). Qed.
Lemma bits_set i j w : 0 <= i -> 0 <= j -> Z.testbit (set_bit32 i w) j = Z.testbit w j || (j =? i).
Proof.
  intros. unfold set_bit32. rewrite Z.lor_spec, Z.shiftl_spec, testbit_one by done. f_equal.
  destruct (Z.eqb_spec (j - i) 0), (Z.eqb_spec j i); lia || done.
Qed.
Lemma bits_clear i j w : 0 <= i -> 0 <= j -> Z.testbit (clear_bit32 i w) j = Z.testbit w j && negb (j =? i).
Proof.
  intros. unfold clear_bit32. rewrite Z.land_spec, Z.lnot_spec, Z.shiftl_spec, testbit_one by done. f_equal. f_equal.
  destruct (Z.eqb_spec (j - i) 0), (Z.eqb_spec j i); lia || done.
Qed.

(** An update of one flag. *)
Lemma upd_busy_bits f g flags dev B :
  represents flags B -> 0 <= dev < DEVICE_NUM_MAX ->
  (forall w j, 0 <= j -> Z.testbit (f (dev mod 32) w) j = g (j =? dev mod 32) (Z.testbit w j)) ->
  (forall b, g false b = b) ->
  exists flags', upd_busy f dev flags = Some flags' /\ length flags' = 2%nat /\
    forall i, 0 <= i < DEVICE_NUM_MAX -> busy_bit flags' i = g (i =? dev) (bool_decide (i ∈ B)).
Proof.
  intros [Hl HB] Hd Hf Hg. unfold DEVICE_NUM_MAX in *. unfold upd_busy.
  assert (0 <= dev / 32 < 2) as Hq by (Z.div_mod_to_equations; lia).
  destruct (rd_in_bound flags (dev / 32)) as [w Hw]; [rewrite Hl; lia|]. rewrite Hw. cbn [mbind option_bind].
  rewrite wr_in_bound by (rewrite Hl; lia). eexists. split; [done|]. rewrite length_insert. split; [done|].
  intros i Hi. rewrite <- HB by done. unfold busy_bit.
  assert (0 <= i / 32 < 2) as Hqi by (Z.div_mod_to_equations; lia).
  unfold rd. destruct (Z.leb_spec 0 (i / 32)); [|lia].
  destruct (Z.eq_dec (i / 32) (dev / 32)) as [E|E].
  - rewrite E, list_lookup_insert_eq by (rewrite Hl; lia). unfold rd in Hw.
    destruct (Z.leb_spec 0 (dev / 32)); [|lia]. rewrite Hw, Hf by (apply Z.mod_pos_bound; lia). f_equal.
    destruct (Z.eqb_spec (i mod 32) (dev mod 32)), (Z.eqb_spec i dev); try done; subst; try congruence.
    exfalso. pose proof (Z.div_mod i 32 ltac:(lia)). pose proof (Z.div_mod dev 32 ltac:(lia)). lia.
  - rewrite list_lookup_insert_ne by lia. destruct (Z.eqb_spec i dev) as [->|]; [done|]. by rewrite Hg.
Qed.

(** Setting and clearing flags, in any order. *)
Definition run_busy (ops : list (bool * Z)) : M (driver power) unit :=
  foldr (fun (op : bool * Z) k => (if op.1 then device_busy_set_new op.2 else device_busy_clear_new op.2);; k) (mret tt) ops.
Definition busy_after (B : gset Z) (ops : list (bool * Z)) : gset Z :=
  foldl (fun B (op : bool * Z) => if op.1 then {[op.2]} ∪ B else B ∖ {[op.2]}) B ops.

Lemma mem_add (i j : Z) (B : gset Z) : bool_decide (j ∈ {[i]} ∪ B) = bool_decide (j ∈ B) || (j =? i).
Proof.
  destruct (Z.eqb_spec j i) as [->|Hne].
  - rewrite orb_true_r. apply bool_decide_true, elem_of_union_l. by apply elem_of_singleton.
  - rewrite orb_false_r. apply bool_decide_ext. rewrite elem_of_union, elem_of_singleton. tauto.
Qed.
Lemma mem_remove (i j : Z) (B : gset Z) : bool_decide (j ∈ B ∖ {[i]}) = bool_decide (j ∈ B) && negb (j =? i).
Proof.
  destruct (Z.eqb_spec j i) as [->|Hne].
  - rewrite andb_false_r. apply bool_decide_false. rewrite elem_of_difference, elem_of_singleton. tauto.
  - rewrite andb_true_r. apply bool_decide_ext. rewrite elem_of_difference, elem_of_singleton. tauto.
Qed.

Lemma run_busy_ends ops : forall B s,
  Forall (fun op : bool * Z => 0 <= op.2 < DEVICE_NUM_MAX) ops -> represents (device_busy (dev s)) B ->
  ends (run_busy ops) s (fun _ s' => exists f, represents f (busy_after B ops) /\
    s' = s <| dev ::= (fun d => d <| device_busy := f |>) |>).
Proof.
  induction ops as [|[b i] ops IH]; intros B s Hops HB.
  { apply ends_ret. exists (device_busy (dev s)). split; [done|]. by destruct s as [[] ? ?]. }
  apply Forall_cons in Hops as [Hi Hops]. cbn [fst snd] in Hi. cbn [run_busy foldr busy_after foldl fst snd]. hoare.
  assert (exists f, upd_busy (if b then set_bit32 else clear_bit32) i (device_busy (dev s)) = Some f /\
    represents f (if b then {[i]} ∪ B else B ∖ {[i]})) as (f & Hf & Hr).
  { pose proof (Z.mod_pos_bound i 32 ltac:(lia)). destruct b.
    - destruct (upd_busy_bits set_bit32 (fun e b => b || e) (device_busy (dev s)) i B HB Hi) as (f & E & L & Hb).
      + intros w j Hj. by apply bits_set; lia.
      + intros b. apply orb_false_r.
      + exists f. split; [done|]. split; [done|]. intros j Hj. by rewrite Hb, mem_add.
    - destruct (upd_busy_bits clear_bit32 (fun e b => b && negb e) (device_busy (dev s)) i B HB Hi) as (f & E & L & Hb).
      + intros w j Hj. by apply bits_clear; lia.
      + intros b. apply andb_true_r.
      + exists f. split; [done|]. split; [done|]. intros j Hj. by rewrite Hb, mem_remove. }
  apply ends_mono with (P := fun _ s1 => s1 = s <| dev ::= (fun d => d <| device_busy := f |>) |>).
  { destruct b; unfold device_busy_set_new, device_busy_clear_new; bus; (eapply ends_lift; [exact Hf|]); by bus. }
  intros ? s1 ->. eapply ends_mono; [by apply IH|]. intros ? s2 (f2 & H2 & ->). exists f2. split; [done|].
  by destruct s as [[] ? ?].
Qed.

(** ** What the sequence of sleeping leaves behind

    Read off the trace: the last value written to each register, the power states the
    devices were told, and both at every wait for interrupt. *)
Record observed := Observed {
  o_regs : gmap Z Z;
  o_devices : list (list Z);
  o_sleeps : list (gmap Z Z * list (list Z))
}.
Definition observe (o : observed) (e : bus_event) : observed :=
  match e with
  | WrReg a v => Observed (<[a := v]> (o_regs o)) (o_devices o) (o_sleeps o)
  | Ext f args =>
      if String.eqb f "device_set_power_state" then Observed (o_regs o) (o_devices o ++ [args]) (o_sleeps o)
      else if String.eqb f "wfi" then Observed (o_regs o) (o_devices o) (o_sleeps o ++ [(o_regs o, o_devices o)])
      else o
  | _ => o
  end.
Definition observation (s : driver power) : observed :=
  foldl observe (Observed ∅ [] []) (trace s).

(** A register's last written value. *)
Definition left_in (regs : gmap Z Z) (a : Z) (P : Z -> Prop) : Prop := exists v, regs !! a = Some v /\ P v.
(** The devices with power management, each told a state. *)
Definition told (devices : list device) (st : Z) : list (list Z) :=
  omap (fun e => if d_pm e.2 then Some [Z.of_nat e.1; st] else None) (imap pair devices).

Section Sleep.
Context (world : nat -> Z -> Z) (fuel : nat).
(** The oscillators start: of any [fuel] reads in a row one sees them ready. *)
Definition ready (a mask : Z) : Prop :=
  forall n, exists k, (k < fuel)%nat /\ Z.land (u32 (world (n + k)%nat a)) mask <> 0.
Context (H32M : ready ACT_32M_CTL 2) (H3M : ready ACT_3M_CTL 32).
Context (devices : list device) (xip jtag_for_key : bool) (rstart rend dp normal : Z).

(** The Hoare rules on the observation. *)
Lemma obs_log e (s : driver power) (Q : unit -> driver power -> Prop) :
  (forall s', dev s' = dev s -> observation s' = observe (observation s) e -> Q tt s') -> ends (log e) s Q.
Proof. intros HQ. apply ends_log, HQ; [done|]. unfold observation. cbn [trace]. by rewrite foldl_app. Qed.
Lemma obs_read a (s : driver power) (Q : Z -> driver power -> Prop) :
  (forall v s', dev s' = dev s -> observation s' = observation s -> Q v s') -> ends (sys_read32 world a) s Q.
Proof. intros HQ. apply ends_read. intros v _. apply HQ; [done|]. unfold observation. cbn [trace]. by rewrite foldl_app. Qed.
Lemma obs_upd f (s : driver power) (Q : unit -> driver power -> Prop) :
  (forall s', dev s' = f (dev s) -> observation s' = observation s -> Q tt s') -> ends (upd_dev f) s Q.
Proof. intros HQ. by apply ends_upd_dev, HQ. Qed.
Lemma obs_write v a (s : driver power) (Q : unit -> driver power -> Prop) :
  (forall s', dev s' = dev s -> observation s' = observe (observation s) (WrReg a (u32 v)) -> Q tt s') ->
  ends (sys_write32 v a) s Q.
Proof. apply obs_log. Qed.
Lemma obs_set_bits a m (s : driver power) (Q : unit -> driver power -> Prop) :
  (forall v s', dev s' = dev s -> observation s' = observe (observation s) (WrReg a (u32 (Z.lor v m))) -> Q tt s') ->
  ends (set_bits world a m) s Q.
Proof.
  intros HQ. unfold set_bits. hoare. apply obs_read. intros v s1 D1 O1. apply obs_write. intros s2 D2 O2.
  apply (HQ v); congruence.
Qed.
Lemma obs_clear_bits a m (s : driver power) (Q : unit -> driver power -> Prop) :
  (forall v s', dev s' = dev s -> observation s' = observe (observation s) (WrReg a (u32 (Z.land v (Z.lnot m)))) ->
     Q tt s') ->
  ends (clear_bits world a m) s Q.
Proof.
  intros HQ. unfold clear_bits. hoare. apply obs_read. intros v s1 D1 O1. apply obs_write. intros s2 D2 O2.
  apply (HQ v); congruence.
Qed.
Lemma obs_select sel (s : driver power) (Q : unit -> driver power -> Prop) :
  (forall v s', dev s' = dev s ->
     observation s' = observe (observation s) (WrReg CMU_SYSCLK (u32 (Z.lor (Z.land v (Z.lnot 3)) sel))) -> Q tt s') ->
  ends (select_cpu_clock world sel) s Q.
Proof.
  intros HQ. unfold select_cpu_clock. hoare. apply obs_read. intros v s1 D1 O1. apply obs_write. intros s2 D2 O2.
  apply (HQ v); [congruence|by rewrite O2, O1].
Qed.
Lemma obs_wait a m (s : driver power) (Q : unit -> driver power -> Prop) :
  ready a m -> (forall s', dev s' = dev s -> observation s' = observation s -> Q tt s') ->
  ends (wait_bits world fuel a m) s Q.
Proof.
  intros Hr HQ. destruct (Hr (nreads s)) as (k & Hk & Hv). revert k Hk Hv. generalize fuel as n.
  assert (forall s, forall Q : unit -> driver power -> Prop,
    (forall s', dev s' = dev s -> observation s' = observation s -> Q tt s') ->
    forall n k, (k < n)%nat -> Z.land (u32 (world (nreads s + k)%nat a)) m <> 0 -> ends (wait_bits world n a m) s Q)
    as H; [|by intros n k; apply H].
  clear s Q HQ. intros s Q HQ n. revert s Q HQ. induction n as [|n IH]; [lia|]. intros s Q HQ k Hk Hv.
  cbn [wait_bits]. hoare. apply ends_read. intros v ->.
  set (s1 := Driver _ _ _). assert (observation s1 = observation s) as O1
    by (unfold observation, s1; cbn [trace]; by rewrite foldl_app).
  destruct (Z.eqb_spec (Z.land (u32 (world (nreads s) a)) m) 0) as [E|E].
  - destruct k as [|k]; [by rewrite Nat.add_0_r in Hv|].
    apply IH with (k := k); [|lia|].
    + intros s' D O. apply HQ; [done|congruence].
    + unfold s1. cbn [nreads]. by replace (S (nreads s) + k)%nat with (nreads s + S k)%nat by lia.
  - apply ends_ret, HQ; [done|exact O1].
Qed.

Lemma obs_devices st (s : driver power) (Q : unit -> driver power -> Prop) :
  (forall s', dev s' = dev s ->
     observation s' = Observed (o_regs (observation s)) (o_devices (observation s) ++ told devices st)
                        (o_sleeps (observation s)) -> Q tt s') ->
  ends (set_devices_state devices st) s Q.
Proof.
  unfold set_devices_state, told. generalize (imap pair devices) as l. intros l. revert s Q.
  induction l as [|[i d] l IH]; intros s Q HQ.
  - apply ends_ret, HQ; [done|]. cbn. rewrite app_nil_r. by destruct (observation s).
  - cbn [foldr fst snd]. hoare. apply ends_when; intros Hd.
    + apply obs_log. intros s1 D1 O1. apply IH. intros s2 D2 O2. apply HQ; [congruence|].
      rewrite O2, O1. cbn. rewrite Hd. by rewrite <- app_assoc.
    + apply IH. intros s2 D2 O2. apply HQ; [done|]. rewrite O2. cbn. by rewrite Hd.
Qed.

(** One step of the sleep sequence. *)
Ltac obs1 :=
  lazymatch goal with
  | |- ends (_ ≫= _) _ _ => apply ends_bind
  | |- ends (mret _) _ _ => apply ends_ret
  | |- ends (log _) _ _ => apply obs_log; intros ? ? ?
  | |- ends (sys_write32 _ _) _ _ => apply obs_write; intros ? ? ?
  | |- ends (sys_read32 _ _) _ _ => apply obs_read; intros ? ? ? ?
  | |- ends (upd_dev _) _ _ => apply obs_upd; intros ? ? ?
  | |- ends get_dev _ _ => apply ends_gets
  | |- ends (set_bits _ _ _) _ _ => apply obs_set_bits; intros ? ? ? ?
  | |- ends (clear_bits _ _ _) _ _ => apply obs_clear_bits; intros ? ? ? ?
  | |- ends (select_cpu_clock _ _) _ _ => apply obs_select; intros ? ? ? ?
  | |- ends (wait_bits _ _ ACT_32M_CTL _) _ _ => apply obs_wait; [exact H32M|]; intros ? ? ?
  | |- ends (wait_bits _ _ ACT_3M_CTL _) _ _ => apply obs_wait; [exact H3M|]; intros ? ? ?
  | |- ends (set_devices_state _ _) _ _ => apply obs_devices; intros ? ? ?
  end; cbv beta.
Ltac obs := repeat obs1.
(** Rewrite an observation back to where it started. *)
Ltac obs_back :=
  repeat match goal with H : observation ?s = _ |- context [observation ?s] => rewrite H; clear H end;
  cbn [observe o_regs o_devices o_sleeps String.eqb Ascii.eqb Bool.eqb].

(** What a step that neither sleeps nor talks to a device leaves alone. *)
Definition aside (s s' : driver power) : Prop :=
  o_devices (observation s') = o_devices (observation s) /\ o_sleeps (observation s') = o_sleeps (observation s) /\
  o_regs (observation s') !! _SCB_SCR = o_regs (observation s) !! _SCB_SCR.
Lemma aside_refl s : aside s s. Proof. done. Qed.
Lemma aside_trans s1 s2 s3 : aside s1 s2 -> aside s2 s3 -> aside s1 s3.
Proof. intros (A1 & B1 & C1) (A2 & B2 & C2). split_and!; congruence. Qed.

Ltac aside_done := unfold aside; obs_back; rewrite ?lookup_insert_ne by done; done.

Lemma ram_block_range : RAM2_START <= rstart < RAM6_START -> 0 <= ram_block rstart < 4.
Proof.
  unfold RAM2_START, RAM6_START, ram_block. intros H. rewrite u32_small by (unfold RAM2_START; lia).
  change 0xf000 with (Z.shiftl (Z.ones 4) 12). rewrite Z.shiftr_land, Z.shiftr_shiftl_l by lia.
  change (12 - 12) with 0. rewrite Z.shiftl_0_r, Z.land_ones, Z.shiftr_div_pow2 by lia.
  unfold RAM2_START. Z.div_mod_to_equations. lia.
Qed.

Lemma set_ram_retention_ends s : ends (set_ram_retention rstart rend) s (fun _ => aside s).
Proof.
  unfold set_ram_retention. apply ends_when; intros Hr; [|apply aside_refl].
  apply andb_true_iff in Hr as [H1%Z.leb_le H2%Z.ltb_lt]. pose proof (ram_block_range (conj H1 H2)).
  destruct (rd_in_bound (if ram_block rstart =? ram_block rend then ram_ctl_val else ram_ctl_cross_val)
    (ram_block rstart)) as [v Hv]; [by destruct (_ =? _)|].
  obs. eapply ends_lift; [exact Hv|]. obs. aside_done.
Qed.

Lemma lower_wfi_ends s :
  ends (_sys_lower_wfi world fuel xip rstart rend) s (fun _ s' =>
    o_devices (observation s') = o_devices (observation s) /\
    exists r, o_sleeps (observation s') = o_sleeps (observation s) ++ [(r, o_devices (observation s))] /\
      r !! _SCB_SCR = o_regs (observation s) !! _SCB_SCR).
Proof.
  unfold _sys_lower_wfi. apply ends_bind. apply ends_mono with (P := fun _ => aside s).
  { destruct xip; [|apply set_ram_retention_ends]. obs. aside_done. }
  intros ? s1 A1. obs. apply ends_mono with (P := fun _ => aside s1).
  { destruct (sleep_32k (dev s1) =? 0); [obs; aside_done|]. unfold request_rc_3M. obs.
    apply ends_when; intros _; obs; aside_done. }
  intros ? s2 A2. destruct (aside_trans _ _ _ A1 A2) as (B1 & B2 & B3).
  apply ends_bind, obs_log. intros s3 D3 O3.
  eapply ends_mono with (P := fun _ => aside s3).
  { unfold switch_cpu_clock_3M, request_rc_3M. apply ends_bind, obs_write. intros s4 D4 O4.
    apply ends_bind. apply ends_mono with (P := fun _ => aside s4).
    { apply ends_when; intros _; obs; aside_done. }
    intros ? s5 A5. apply ends_mono with (P := fun _ => aside s5); [obs; aside_done|].
    intros ? s6 A6. eapply aside_trans; [|exact A6]. eapply aside_trans; [|exact A5]. aside_done. }
  intros ? s4 (C1 & C2 & C3). rewrite C1, C2, O3. cbn. rewrite B1, B2. split; [done|].
  exists (o_regs (observation s2)). by rewrite B3.
Qed.

(** The state a register is left in is not changed by writes to others. *)
Lemma left_in_insert regs a (P : Z -> Prop) v : P v -> left_in (<[a := v]> regs) a P.
Proof. exists v. by rewrite lookup_insert_eq. Qed.
Lemma left_in_other regs a b (P : Z -> Prop) v : a <> b -> left_in regs a P -> left_in (<[b := v]> regs) a P.
Proof. intros Hab [w Hw]. exists w. by rewrite lookup_insert_ne. Qed.

Lemma bit_cleared v m i : 0 <= i < 32 -> Z.testbit m i = true -> Z.testbit (u32 (Z.land v (Z.lnot m))) i = false.
Proof. intros Hi Hm. unfold u32. rewrite Z.mod_pow2_bits_low, Z.land_spec, Z.lnot_spec, Hm by lia. apply andb_false_r. Qed.
Lemma bit_is_set v m i : 0 <= i < 32 -> Z.testbit m i = true -> Z.testbit (u32 (Z.lor v m)) i = true.
Proof. intros Hi Hm. unfold u32. rewrite Z.mod_pow2_bits_low, Z.lor_spec, Hm by lia. apply orb_true_r. Qed.
Lemma clock_selected v : Z.land (u32 (Z.lor (Z.land v (Z.lnot 3)) 2)) 3 = 2.
Proof.
  unfold u32. rewrite <- (Z.land_ones _ 32) by lia. rewrite <- Z.land_assoc.
  change (Z.land (Z.ones 32) 3) with 3. rewrite Z.land_lor_distr_l, <- Z.land_assoc.
  rewrite (Z.land_comm (Z.lnot 3)). change (Z.land 3 (Z.lnot 3)) with 0. by rewrite Z.land_0_r.
Qed.

(** Everything the processor runs on again. *)
Definition awake (s : driver power) : Prop :=
  let regs := o_regs (observation s) in
  system_core_clock (dev s) = SYSTEM_CLOCK_32M /\
  left_in regs ACT_32M_CTL (fun v => Z.testbit v ACT_32M_CTL_XTAL32M_EN = true) /\
  left_in regs CMU_SYSCLK (fun v => Z.land v CMU_SYSCLK_CPU_CLK_SEL_MASK = 2) /\
  left_in regs ACT_3M_CTL (fun v => Z.testbit v ACT_3M_CTL_RC3MEN = false) /\
  left_in regs VD12_CTL (fun v => Z.testbit v VD12_CTL_VD12_LGBIAS_EN = false) /\
  left_in regs _SCB_SCR (fun v => Z.testbit v 2 = false).

Ltac left_done tac :=
  repeat first [apply left_in_other; [done|] | apply left_in_insert; tac].

Lemma deep_sleep_exit_ends s :
  ends (deep_sleep_exit world fuel devices jtag_for_key) s (fun _ s' => awake s' /\
    o_sleeps (observation s') = o_sleeps (observation s) /\
    o_devices (observation s') = o_devices (observation s) ++ told devices DEVICE_PM_ACTIVE_STATE).
Proof.
  unfold deep_sleep_exit, request_32M_XTAL, request_rc_3M, request_vd12_largebias, resume_devices. obs.
  match goal with |- ends _ ?x _ => set (sx := x) in * end.
  apply ends_mono with (P := fun _ s' => dev s' = dev sx /\ exists l,
    observation s' = foldl observe (observation sx) l /\ (l = [] \/ l = [WrReg JTAG_EN (u32 (Z.shiftl 1 31))])).
  { apply ends_when; intros _; [obs|]; (split; [done|]); [exists [WrReg JTAG_EN (u32 (Z.shiftl 1 31))]|exists []]; auto. }
  intros ? s1 (D1 & l & O1 & Hl). obs. unfold awake.
  match goal with H : observation ?x = Observed _ _ _ |- _ /\ _ => rewrite H; clear H end. cbn [o_regs o_devices o_sleeps].
  rewrite O1. destruct Hl as [->| ->]; cbn [foldl]; unfold sx in *; obs_back;
    (split; [split_and!|done]);
    lazymatch goal with
    | |- system_core_clock _ = _ =>
        repeat match goal with H : dev ?x = _ |- context [dev ?x] => rewrite H; clear H end; done
    | |- _ => left_done ltac:(idtac; first [apply clock_selected | by apply bit_is_set | by apply bit_cleared])
    end.
Qed.

Lemma deep_sleep_entry_ends ticks s :
  ends (deep_sleep_entry world fuel devices xip jtag_for_key rstart rend dp normal ticks) s (fun r s' =>
    r = SYS_PM_DEEP_SLEEP /\ awake s' /\
    o_devices (observation s') = o_devices (observation s) ++ told devices DEVICE_PM_SUSPEND_STATE
                                   ++ told devices DEVICE_PM_ACTIVE_STATE /\
    exists regs, o_sleeps (observation s') = o_sleeps (observation s) ++
        [(regs, o_devices (observation s) ++ told devices DEVICE_PM_SUSPEND_STATE)] /\
      left_in regs _SCB_SCR (fun v => Z.testbit v 2 = true)).
Proof.
  unfold deep_sleep_entry, suspend_devices, _sys_soc_set_power_state. obs.
  match goal with |- ends (set_deep_sleep_clock _) ?x _ => set (s1 := x) in * end.
  assert (A1 : o_devices (observation s1) = o_devices (observation s) ++ told devices DEVICE_PM_SUSPEND_STATE /\
    o_sleeps (observation s1) = o_sleeps (observation s) /\
    left_in (o_regs (observation s1)) _SCB_SCR (fun v => Z.testbit v 2 = true)).
  { obs_back. split_and!; [done|done|]. apply left_in_insert. by apply bit_is_set. }
  clearbody s1. clear - A1 H32M H3M. destruct A1 as (A1 & A2 & A3).
  apply ends_mono with (P := fun _ => aside s1).
  { unfold set_deep_sleep_clock. obs. apply ends_when; intros _; obs; destruct (sleep_32k _ =? 0); obs; aside_done. }
  intros ? s2 B2. apply ends_bind. apply ends_mono with (P := fun _ => aside s2).
  { unfold switch_cpu_clock_3M, request_rc_3M. obs. aside_done. }
  intros ? s3 B3. unfold request_32M_XTAL at 1. obs.
  match goal with |- ends (_sys_lower_wfi _ _ _ _ _) ?x _ => set (s4 := x) in * end.
  assert (B4 : aside s3 s4) by (aside_done). clearbody s4.
  destruct (aside_trans _ _ _ B2 (aside_trans _ _ _ B3 B4)) as (C1 & C2 & C3).
  clear - A1 A2 A3 C1 C2 C3 H32M H3M.
  eapply ends_mono; [apply lower_wfi_ends|]. intros ? s5 (D1 & regs & D2 & D3). cbv beta. obs.
  match goal with |- ends (deep_sleep_exit _ _ _ _) ?x _ => set (s6 := x) in * end.
  assert (E6 : o_devices (observation s6) = o_devices (observation s5) /\
    o_sleeps (observation s6) = o_sleeps (observation s5)) by (by obs_back).
  clearbody s6. destruct E6 as [E6 E6']. clear - A1 A2 A3 C1 C2 C3 D1 D2 D3 E6 E6' H32M H3M.
  eapply ends_mono; [apply deep_sleep_exit_ends|]. intros ? s7 (F1 & F2 & F3). cbv beta. obs.
  match goal with |- _ /\ awake ?x /\ _ => set (s8 := x) in * end.
  assert (dev s8 = dev s7 /\ observation s8 = observation s7) as [GD GO].
  { split; [congruence|by obs_back]. }
  split; [done|]. unfold awake in *. rewrite GD, GO. split; [done|].
  rewrite F3, E6, D1, C1, A1, <- app_assoc. split; [done|].
  exists regs. rewrite F2, E6', D2, C2, A2, C1, A1. split; [done|].
  unfold left_in in *. by rewrite D3, C3.
Qed.

Lemma busy_after_range ops : forall B, (forall i, i ∈ B -> 0 <= i < DEVICE_NUM_MAX) ->
  Forall (fun op : bool * Z => 0 <= op.2 < DEVICE_NUM_MAX) ops ->
  forall i, i ∈ busy_after B ops -> 0 <= i < DEVICE_NUM_MAX.
Proof.
  induction ops as [|[b j] ops IH]; intros B HB Hops; [done|]. apply Forall_cons in Hops as [Hj Hops].
  cbn [busy_after foldl fst snd]. apply IH; [|done]. cbn in Hj. intros i Hi. destruct b.
  - apply elem_of_union in Hi as [->%elem_of_singleton|Hi]; auto.
  - apply elem_of_difference in Hi as [Hi _]. auto.
Qed.

Lemma policy_spec d B : represents (device_busy d) B -> (forall i, i ∈ B -> 0 <= i < DEVICE_NUM_MAX) ->
  check_pm_policy d = if bool_decide (application_wake_lock d = 0 /\ B = ∅)
                      then SYS_POWER_STATE_DEEP_SLEEP else SYS_POWER_STATE_CPU_SLEEP.
Proof.
  intros HB Hr. unfold check_pm_policy. rewrite (any_busy_check_set _ _ HB Hr). unfold truthy.
  destruct (Z.eqb_spec (application_wake_lock d) 0) as [E|E], (decide (B = ∅)) as [HE|HE].
  - rewrite bool_decide_false by tauto. by rewrite bool_decide_true.
  - rewrite bool_decide_true by done. by rewrite bool_decide_false by tauto.
  - by rewrite (bool_decide_false (_ /\ _)) by tauto.
  - by rewrite (bool_decide_false (_ /\ _)) by tauto.
Qed.

End Sleep.

