(* ===== verification/Gatt.v ===== *)
(** * GATT servers

    What the sample services share: the calls they make into the Bluetooth host, which is in
    ROM, and the encodings of [types_encode.h], [date_time.h] and [iso_ieee_11073.h].  A
    server is a state of its own and the list of calls it has made; the host's answer to the
    n-th notification or indication is given by the parameter [answer], so a theorem for
    every [answer] holds whatever the host does. *)
From S2P Require Import Prelude.

Inductive gatt_event :=
(* the attribute's index in the service's table, the value, the error returned *)
| Notify (attr : Z) (data : list Z) (err : Z)
| Indicate (attr : Z) (data : list Z) (err : Z)
| WorkInit (work : string)
| WorkSubmit (work : string) (delay_ms : Z)
| TimerInit (timer : string)
| TimerStart (timer : string) (duration_s period_s : Z)
| Sleep (ms : Z)
| ServiceRegister (svc : string).
#[export] Instance gatt_event_dec : EqDecision gatt_event.
Proof. solve_decision. Defined.

Record server (D : Type) := Server { svc : D; calls : nat; events : list gatt_event }.
#[global] Arguments Server {D}.
#[global] Arguments svc {D}.
#[global] Arguments calls {D}.
#[global] Arguments events {D}.
#[export] Instance eta_server {D} : EtaRecord (server D) := fun r => Server (svc r) (calls r) (events r).

Section Host.
Context {D : Type} (answer : nat -> Z).

Definition emit (e : gatt_event) : M (server D) unit := modify (fun s => s <| events ::= (fun t => t ++ [e]) |>).
Definition get_svc : M (server D) D := gets svc.
Definition upd_svc (f : D -> D) : M (server D) unit := modify (fun s => s <| svc ::= f |>).

Definition bt_gatt_notify (attr : Z) (data : list Z) : M (server D) Z := fun s =>
  let err := answer (calls s) in
  Some (err, s <| calls ::= S |> <| events ::= (fun t => t ++ [Notify attr data err]) |>).
Definition bt_gatt_indicate (attr : Z) (data : list Z) : M (server D) Z := fun s =>
  let err := answer (calls s) in
  Some (err, s <| calls ::= S |> <| events ::= (fun t => t ++ [Indicate attr data err]) |>).
End Host.

(** Hoare rules, and the tactic that applies them. *)
Lemma ends_emit {D} e (s : server D) (Q : unit -> server D -> Prop) :
  Q tt (Server (svc s) (calls s) (events s ++ [e])) -> ends (emit e) s Q.
Proof. done. Qed.
Lemma ends_get_svc {D} (s : server D) (Q : D -> server D -> Prop) : Q (svc s) s -> ends get_svc s Q.
Proof. done. Qed.
Lemma ends_upd_svc {D} (f : D -> D) (s : server D) (Q : unit -> server D -> Prop) :
  Q tt (Server (f (svc s)) (calls s) (events s)) -> ends (upd_svc f) s Q.
Proof. done. Qed.
Lemma ends_notify {D} answer attr data (s : server D) (Q : Z -> server D -> Prop) :
  Q (answer (calls s)) (Server (svc s) (S (calls s)) (events s ++ [Notify attr data (answer (calls s))])) ->
  ends (bt_gatt_notify answer attr data) s Q.
Proof. done. Qed.
Lemma ends_indicate {D} answer attr data (s : server D) (Q : Z -> server D -> Prop) :
  Q (answer (calls s)) (Server (svc s) (S (calls s)) (events s ++ [Indicate attr data (answer (calls s))])) ->
  ends (bt_gatt_indicate answer attr data) s Q.
Proof. done. Qed.
Lemma ends_if_emit {D} e (s : server D) (Q : unit -> server D -> Prop) :
  Q tt (Server (svc s) (calls s) (events s ++ [e])) -> ends_if (emit e) s Q.
Proof. done. Qed.
Lemma ends_if_get_svc {D} (s : server D) (Q : D -> server D -> Prop) : Q (svc s) s -> ends_if get_svc s Q.
Proof. done. Qed.
Lemma ends_if_upd_svc {D} (f : D -> D) (s : server D) (Q : unit -> server D -> Prop) :
  Q tt (Server (f (svc s)) (calls s) (events s)) -> ends_if (upd_svc f) s Q.
Proof. done. Qed.
Lemma ends_if_host {D} answer attr data (s : server D) (Q : Z -> server D -> Prop) :
  (forall err ev, Q err (Server (svc s) (S (calls s)) ev)) ->
  ends_if (bt_gatt_notify answer attr data) s Q /\ ends_if (bt_gatt_indicate answer attr data) s Q.
Proof. intros H. split; apply H. Qed.
Ltac gatt1 :=
  lazymatch goal with
  | |- ends (emit _) _ _ => apply ends_emit
  | |- ends get_svc _ _ => apply ends_get_svc
  | |- ends (upd_svc _) _ _ => apply ends_upd_svc
  | |- ends (bt_gatt_notify _ _ _) _ _ => apply ends_notify
  | |- ends (bt_gatt_indicate _ _ _) _ _ => apply ends_indicate
  | |- ends_if (emit _) _ _ => apply ends_if_emit
  | |- ends_if get_svc _ _ => apply ends_if_get_svc
  | |- ends_if (upd_svc _) _ _ => apply ends_if_upd_svc
  | |- ends_if (bt_gatt_notify _ _ _) _ _ => apply ends_if_host; intros ? ?
  | |- ends_if (bt_gatt_indicate _ _ _) _ _ => apply ends_if_host; intros ? ?
  | _ => hoare1
  end; cbn [svc calls events]; cbv beta.
Ltac gatt := repeat gatt1.

(** ** Buffers.  [buf[len++] = ...] builds the filled prefix of a local array; the array
    overflows when the prefix outgrows it. *)
Definition fits (size : Z) (bs : list Z) : option (list Z) :=
  if Z.of_nat (length bs) <=? size then Some bs else None.
(** memcpy(&buf[off], bs, length bs) *)
Definition store (buf : list Z) (off : Z) (bs : list Z) : option (list Z) :=
  if (0 <=? off) && (off + Z.of_nat (length bs) <=? Z.of_nat (length buf))
  then Some (take (Z.to_nat off) buf ++ bs ++ drop (Z.to_nat off + length bs) buf) else None.
(** The [n] bytes from [buf[off]] on. *)
Definition slice (buf : list Z) (off n : Z) : option (list Z) :=
  if (0 <=? off) && (0 <=? n) && (off + n <=? Z.of_nat (length buf))
  then Some (take (Z.to_nat n) (drop (Z.to_nat off) buf)) else None.

(** ** types_encode.h *)
Definition u16_encode (value : Z) : list Z :=
  [u8 (Z.shiftr (Z.land value 0x00FF) 0); u8 (Z.shiftr (Z.land value 0xFF00) 8)].
Definition u24_encode (value : Z) : list Z :=
  [u8 (Z.shiftr (Z.land value 0x000000FF) 0); u8 (Z.shiftr (Z.land value 0x0000FF00) 8);
   u8 (Z.shiftr (Z.land value 0x00FF0000) 16)].
Definition u32_encode (value : Z) : list Z :=
  [u8 (Z.shiftr (Z.land value 0x000000FF) 0); u8 (Z.shiftr (Z.land value 0x0000FF00) 8);
   u8 (Z.shiftr (Z.land value 0x00FF0000) 16); u8 (Z.shiftr (Z.land value 0xFF000000) 24)].
Definition u48_encode (value : Z) : list Z :=
  [u8 (Z.shiftr (Z.land value 0x0000000000FF) 0); u8 (Z.shiftr (Z.land value 0x00000000FF00) 8);
   u8 (Z.shiftr (Z.land value 0x000000FF0000) 16); u8 (Z.shiftr (Z.land value 0x0000FF000000) 24);
   u8 (Z.shiftr (Z.land value 0x00FF00000000) 32); u8 (Z.shiftr (Z.land value 0xFF0000000000) 40)].
Definition u32_big_encode (value : Z) : list Z :=
  [u8 (Z.shiftr (Z.land value 0xFF000000) 24); u8 (Z.shiftr (Z.land value 0x00FF0000) 16);
   u8 (Z.shiftr (Z.land value 0x0000FF00) 8); u8 (Z.shiftr (Z.land value 0x000000FF) 0)].

Definition u16_decode (d : list Z) : option Z :=
  b0 ← rd d 0; b1 ← rd d 1; Some (Z.lor b0 (Z.shiftl b1 8)).
Definition u16_big_decode (d : list Z) : option Z :=
  b0 ← rd d 0; b1 ← rd d 1; Some (Z.lor (Z.shiftl b0 8) b1).
Definition u24_decode (d : list Z) : option Z :=
  b0 ← rd d 0; b1 ← rd d 1; b2 ← rd d 2;
  Some (Z.lor (Z.lor (Z.shiftl b0 0) (Z.shiftl b1 8)) (Z.shiftl b2 16)).
Definition u32_decode (d : list Z) : option Z :=
  b0 ← rd d 0; b1 ← rd d 1; b2 ← rd d 2; b3 ← rd d 3;
  Some (Z.lor (Z.lor (Z.lor (Z.shiftl b0 0) (Z.shiftl b1 8)) (Z.shiftl b2 16)) (Z.shiftl b3 24)).
Definition u32_big_decode (d : list Z) : option Z :=
  b0 ← rd d 0; b1 ← rd d 1; b2 ← rd d 2; b3 ← rd d 3;
  Some (Z.lor (Z.lor (Z.lor (Z.shiftl b0 24) (Z.shiftl b1 16)) (Z.shiftl b2 8)) (Z.shiftl b3 0)).
Definition u48_decode (d : list Z) : option Z :=
  b0 ← rd d 0; b1 ← rd d 1; b2 ← rd d 2; b3 ← rd d 3; b4 ← rd d 4; b5 ← rd d 5;
  Some (Z.lor (Z.lor (Z.lor (Z.lor (Z.lor (Z.shiftl b0 0) (Z.shiftl b1 8)) (Z.shiftl b2 16))
    (Z.shiftl b3 24)) (Z.shiftl b4 32)) (Z.shiftl b5 40)).

(** ** date_time.h *)
Record date_time := DateTime { year : Z; month : Z; day : Z; hours : Z; minutes : Z; seconds : Z }.
Definition date_time_encode (d : date_time) : list Z :=
  u16_encode (year d) ++ [month d; day d; hours d; minutes d; seconds d].
Definition date_time_decode (b : list Z) : option date_time :=
  y ← u16_decode b; mo ← rd b 2; da ← rd b 3; h ← rd b 4; mi ← rd b 5; s ← rd b 6;
  Some (DateTime y mo da h mi s).

(** ** iso_ieee_11073.h: a decimal float of a 4-bit exponent and a 12-bit mantissa.  The
    services pack it as [(exponent << 12) | (mantissa & 0x0fff)] into a u16_t. *)
Record ieee_sfloat := IeeeSfloat { exponent : Z; mantissa : Z }.
Definition sfloat_pack (f : ieee_sfloat) : Z :=
  u16 (Z.lor (Z.shiftl (exponent f) 12) (Z.land (mantissa f) 0x0fff)).
(** The number a receiver reads back. *)
Definition sfloat_unpack (v : Z) : ieee_sfloat := IeeeSfloat (sext 4 (Z.shiftr v 12)) (sext 12 v).

(** ** The encodings lose nothing. *)
Lemma byte_at v k : 0 <= k -> u8 (Z.shiftr (Z.land v (Z.shiftl 255 k)) k) = (v / 2 ^ k) mod 256.
Proof.
  intros Hk. rewrite Z.shiftr_land, Z.shiftr_shiftl_l, Z.sub_diag by lia.
  change (Z.shiftl 255 0) with (Z.ones 8). rewrite Z.land_ones, Z.shiftr_div_pow2 by lia.
  unfold u8. by rewrite Z.mod_mod by lia.
Qed.
Lemma lor_byte a b k : 0 <= k -> 0 <= a < 2 ^ k -> Z.lor a (Z.shiftl b k) = a + b * 2 ^ k.
Proof.
  intros Hk Ha. rewrite <- Z.lxor_lor, <- Z.add_nocarry_lxor by (
    apply Z.bits_inj'; intros i Hi; rewrite Z.land_spec, Z.bits_0;
    destruct (Z.lt_ge_cases i k); [rewrite Z.shiftl_spec_low by lia; apply andb_false_r|
      replace (Z.testbit a i) with false; [done|];
      symmetry; rewrite <- (Z.mod_small a (2 ^ k)) by lia; by apply Z.mod_pow2_bits_high]).
  by rewrite Z.shiftl_mul_pow2 by lia.
Qed.
(** The encoders as base-256 digits. *)
Lemma u16_encode_digits v : u16_encode v = [v mod 256; (v / 2 ^ 8) mod 256].
Proof.
  unfold u16_encode. change 0x00FF with (Z.shiftl 255 0). change 0xFF00 with (Z.shiftl 255 8).
  rewrite !byte_at by lia. by rewrite Z.div_1_r.
Qed.
Lemma u24_encode_digits v : u24_encode v = [v mod 256; (v / 2 ^ 8) mod 256; (v / 2 ^ 16) mod 256].
Proof.
  unfold u24_encode. change 0x000000FF with (Z.shiftl 255 0). change 0x0000FF00 with (Z.shiftl 255 8).
  change 0x00FF0000 with (Z.shiftl 255 16). rewrite !byte_at by lia. by rewrite Z.div_1_r.
Qed.
Lemma u32_encode_digits v :
  u32_encode v = [v mod 256; (v / 2 ^ 8) mod 256; (v / 2 ^ 16) mod 256; (v / 2 ^ 24) mod 256].
Proof.
  unfold u32_encode. change 0x000000FF with (Z.shiftl 255 0). change 0x0000FF00 with (Z.shiftl 255 8).
  change 0x00FF0000 with (Z.shiftl 255 16). change 0xFF000000 with (Z.shiftl 255 24).
  rewrite !byte_at by lia. by rewrite Z.div_1_r.
Qed.
Lemma u32_big_encode_rev v : u32_big_encode v = rev (u32_encode v).
Proof. reflexivity. Qed.
Lemma u48_encode_digits v :
  u48_encode v = [v mod 256; (v / 2 ^ 8) mod 256; (v / 2 ^ 16) mod 256; (v / 2 ^ 24) mod 256;
                  (v / 2 ^ 32) mod 256; (v / 2 ^ 40) mod 256].
Proof.
  unfold u48_encode. change 0x0000000000FF with (Z.shiftl 255 0). change 0x00000000FF00 with (Z.shiftl 255 8).
  change 0x000000FF0000 with (Z.shiftl 255 16). change 0x0000FF000000 with (Z.shiftl 255 24).
  change 0x00FF00000000 with (Z.shiftl 255 32). change 0xFF0000000000 with (Z.shiftl 255 40).
  rewrite !byte_at by lia. by rewrite Z.div_1_r.
Qed.

(** The first entries of a concrete buffer, and the number its bytes make. *)
Ltac rd_cells := cbv [rd Z.leb Z.compare Z.to_nat Pos.to_nat Pos.iter_op Nat.add]; cbn [lookup list_lookup mbind option_bind].
Ltac sum_bytes :=
  rewrite ?Z.shiftl_0_r;
  repeat match goal with
  | |- context [Z.lor ?a (Z.shiftl ?b ?k)] =>
      lazymatch a with context [Z.lor] => fail | _ => rewrite (lor_byte a b k) by lia end
  end.

Section Decoders.
Context (b0 b1 b2 b3 b4 b5 : Z) (rest : list Z).
Hypothesis bytes : Forall (fun b => 0 <= b < 256) [b0; b1; b2; b3; b4; b5].
#[local] Ltac bounds := repeat (apply Forall_cons in bytes as [? bytes]); clear bytes.

Lemma u16_decode_sum : u16_decode (b0 :: b1 :: rest) = Some (b0 + b1 * 2 ^ 8).
Proof using bytes. bounds. unfold u16_decode. rd_cells. f_equal. sum_bytes. lia. Qed.
Lemma u24_decode_sum : u24_decode (b0 :: b1 :: b2 :: rest) = Some (b0 + b1 * 2 ^ 8 + b2 * 2 ^ 16).
Proof using bytes. bounds. unfold u24_decode. rd_cells. f_equal. sum_bytes. lia. Qed.
Lemma u32_decode_sum :
  u32_decode (b0 :: b1 :: b2 :: b3 :: rest) = Some (b0 + b1 * 2 ^ 8 + b2 * 2 ^ 16 + b3 * 2 ^ 24).
Proof using bytes. bounds. unfold u32_decode. rd_cells. f_equal. sum_bytes. lia. Qed.
Lemma u48_decode_sum :
  u48_decode (b0 :: b1 :: b2 :: b3 :: b4 :: b5 :: rest) =
  Some (b0 + b1 * 2 ^ 8 + b2 * 2 ^ 16 + b3 * 2 ^ 24 + b4 * 2 ^ 32 + b5 * 2 ^ 40).
Proof using bytes. bounds. unfold u48_decode. rd_cells. f_equal. sum_bytes. lia. Qed.
Lemma u16_big_decode_swap : u16_big_decode (b0 :: b1 :: rest) = u16_decode (b1 :: b0 :: rest).
Proof using. unfold u16_big_decode, u16_decode. rd_cells. by rewrite Z.lor_comm. Qed.
Lemma u32_big_decode_rev : u32_big_decode (b0 :: b1 :: b2 :: b3 :: rest) = u32_decode (b3 :: b2 :: b1 :: b0 :: rest).
Proof using.
  unfold u32_big_decode, u32_decode. rd_cells. f_equal.
  rewrite (Z.lor_comm _ (Z.shiftl b3 0)), (Z.lor_comm (Z.lor _ _) (Z.shiftl b2 8)), (Z.lor_comm _ (Z.shiftl b1 16)).
  by rewrite !Z.lor_assoc.
Qed.
End Decoders.

Lemma digit_range v k : 0 <= (v / 2 ^ k) mod 256 < 256.
Proof. by apply Z.mod_pos_bound. Qed.
#[local] Ltac digits := repeat (apply Forall_cons_2; [first [apply digit_range | by apply Z.mod_pos_bound | lia]|]); apply Forall_nil_2.

Lemma u16_roundtrip v rest : 0 <= v < 2 ^ 16 -> u16_decode (u16_encode v ++ rest) = Some v.
Proof.
  intros Hv. rewrite u16_encode_digits. cbn [app]. rewrite (u16_decode_sum _ _ 0 0 0 0) by digits.
  f_equal. Z.to_euclidean_division_equations; lia.
Qed.
Lemma u24_roundtrip v rest : 0 <= v < 2 ^ 24 -> u24_decode (u24_encode v ++ rest) = Some v.
Proof.
  intros Hv. rewrite u24_encode_digits. cbn [app]. rewrite (u24_decode_sum _ _ _ 0 0 0) by digits.
  f_equal. Z.to_euclidean_division_equations; lia.
Qed.
Lemma u32_roundtrip v rest : 0 <= v < 2 ^ 32 -> u32_decode (u32_encode v ++ rest) = Some v.
Proof.
  intros Hv. rewrite u32_encode_digits. cbn [app]. rewrite (u32_decode_sum _ _ _ _ 0 0) by digits.
  f_equal. Z.to_euclidean_division_equations; lia.
Qed.
Lemma u32_big_roundtrip v rest : 0 <= v < 2 ^ 32 -> u32_big_decode (u32_big_encode v ++ rest) = Some v.
Proof.
  intros Hv. rewrite u32_big_encode_rev, u32_encode_digits. cbn [rev app].
  rewrite u32_big_decode_rev, (u32_decode_sum _ _ _ _ 0 0) by digits.
  f_equal. Z.to_euclidean_division_equations; lia.
Qed.
Lemma u48_roundtrip v rest : 0 <= v < 2 ^ 48 -> u48_decode (u48_encode v ++ rest) = Some v.
Proof.
  intros Hv. rewrite u48_encode_digits. cbn [app]. rewrite u48_decode_sum by digits.
  f_equal. Z.to_euclidean_division_equations; lia.
Qed.
Lemma u16_encode_length v : length (u16_encode v) = 2%nat.
Proof. done. Qed.

Lemma date_time_roundtrip d rest : 0 <= year d < 2 ^ 16 ->
  date_time_decode (date_time_encode d ++ rest) = Some d.
Proof.
  intros Hy. unfold date_time_decode, date_time_encode. rewrite <- app_assoc, u16_roundtrip by done.
  rewrite u16_encode_digits. cbn [app mbind option_bind]. rd_cells. by destruct d.
Qed.

(** ** A value of the float's range survives packing. *)
Definition sfloat_ok (f : ieee_sfloat) : Prop := -8 <= exponent f < 8 /\ -2048 <= mantissa f < 2048.
Lemma sfloat_pack_sum f : sfloat_pack f = u16 (mantissa f mod 2 ^ 12 + exponent f * 2 ^ 12).
Proof.
  unfold sfloat_pack. change 0x0fff with (Z.ones 12). rewrite Z.land_ones, Z.lor_comm by lia.
  rewrite lor_byte; [done..|]. by apply Z.mod_pos_bound.
Qed.
Lemma sfloat_roundtrip f : sfloat_ok f -> sfloat_unpack (sfloat_pack f) = f.
Proof.
  intros [He Hm]. rewrite sfloat_pack_sum. destruct f as [e m]. unfold sfloat_unpack. cbn [exponent mantissa] in *.
  rewrite Z.shiftr_div_pow2 by lia. unfold sext, u16. f_equal; case_cmp; Z.to_euclidean_division_equations; lia.
Qed.
Lemma sfloat_pack_range f : 0 <= sfloat_pack f < 2 ^ 16.
Proof. apply u16_range. Qed.

(** ** Readers.  A collector reads a value field by field; [p_if] is a field that a flag
    announces. *)
Definition p_u8 (b : list Z) : option (Z * list Z) := match b with x :: b => Some (x, b) | [] => None end.
Definition p_u16 (b : list Z) : option (Z * list Z) := v ← u16_decode b; Some (v, drop 2 b).
Definition p_sfloat (b : list Z) : option (ieee_sfloat * list Z) := '(v, b) ← p_u16 b; Some (sfloat_unpack v, b).
Definition p_date (b : list Z) : option (date_time * list Z) := d ← date_time_decode b; Some (d, drop 7 b).
Definition p_if {A} (flag : bool) (absent : A) (p : list Z -> option (A * list Z)) (b : list Z) : option (A * list Z) :=
  if flag then p b else Some (absent, b).
Definition p_u32 (b : list Z) : option (Z * list Z) := v ← u32_decode b; Some (v, drop 4 b).
Definition in_u16 (z : Z) : Prop := 0 <= z < 2 ^ 16.

Lemma p_u16_encode v rest : in_u16 v -> p_u16 (u16_encode v ++ rest) = Some (v, rest).
Proof. intros Hv. unfold p_u16. by rewrite u16_roundtrip. Qed.
Lemma p_u32_encode v rest : 0 <= v < 2 ^ 32 -> p_u32 (u32_encode v ++ rest) = Some (v, rest).
Proof. intros Hv. unfold p_u32. by rewrite u32_roundtrip. Qed.
Lemma u16_encode_wraps v : u16_encode v = u16_encode (u16 v).
Proof.
  rewrite !u16_encode_digits. unfold u16. rewrite (Z.div_mod v (2 ^ 16)) at 1 2 by lia.
  generalize (v mod 2 ^ 16), (v / 2 ^ 16). intros r q. replace (2 ^ 16 * q + r) with (r + q * 256 * 2 ^ 8) by lia.
  rewrite Z.div_add by lia. change (2 ^ 8) with 256. by rewrite !Z.mod_add by lia.
Qed.
Lemma p_u16_signed v rest : p_u16 (u16_encode v ++ rest) = Some (u16 v, rest).
Proof. rewrite u16_encode_wraps. apply p_u16_encode, u16_range. Qed.
Lemma p_sfloat_encode f rest : sfloat_ok f -> p_sfloat (u16_encode (sfloat_pack f) ++ rest) = Some (f, rest).
Proof. intros Hf. unfold p_sfloat. rewrite p_u16_encode by apply sfloat_pack_range. cbn [mbind option_bind]. by rewrite sfloat_roundtrip. Qed.
Lemma p_date_encode d rest : in_u16 (year d) -> p_date (date_time_encode d ++ rest) = Some (d, rest).
Proof. intros Hd. unfold p_date. by rewrite date_time_roundtrip. Qed.
Lemma p_u8_cons x rest : p_u8 ([x] ++ rest) = Some (x, rest).
Proof. done. Qed.
(** Read back one encoded field after the other. *)
Ltac parse_field :=
  first [ rewrite p_u8_cons | rewrite p_u16_encode by assumption | rewrite p_u32_encode by assumption | rewrite p_u16_signed | rewrite p_sfloat_encode by assumption
        | rewrite p_date_encode by assumption ]; cbn [mbind option_bind]; cbv beta.
