(* ===== verification/Racp.v ===== *)
(** * The record access control point

    [cgms.c] and [gls.c] contain the same record database and the same engine that answers
    a peer's requests about stored records; they differ in the record, the attribute and how
    one record is sent.  This file is that common code, as a section over the record type
    and the class [RecordService] of what differs; the files Cgms and Gls instantiate it.

    A request arrives in the write handler of the control point and is worked off by a
    delayed work item.  While a report sleeps between two records other threads run: they
    are the parameter [others], run at every sleep. *)
From S2P Require Import Prelude Gatt.

Definition EINVAL : Z := 22.
Definition ENOMEM : Z := 12.

(** ** The database (cgms_db.c, gls_db.c): a fixed array of entries and a count. *)
Definition CGMS_DB_MAX_RECORDS : nat := 20.

Record database_entry (R : Type) := Entry { is_in_use : bool; record : R }.
#[global] Arguments Entry {R}.
#[global] Arguments is_in_use {R}.
#[global] Arguments record {R}.
#[export] Instance eta_entry {R} : EtaRecord (database_entry R) := fun r => Entry (is_in_use r) (record r).

Record db (R : Type) := Db { database : list (database_entry R); records_num : Z }.
#[global] Arguments Db {R}.
#[global] Arguments database {R}.
#[global] Arguments records_num {R}.
#[export] Instance eta_db {R} : EtaRecord (db R) := fun r => Db (database r) (records_num r).

Section Database.
Context {R : Type}.
Implicit Types (d : db R) (r : R).

Definition free_entry (e : database_entry R) : database_entry R := e <| is_in_use := false |>.

Definition db_init d : db R := Db (free_entry <$> database d) 0.
Definition db_num_records_get d : Z := records_num d.

(** [inl] is the error code. *)
Definition db_record_get (rec_idx : Z) d : option (Z + R) :=
  if records_num d <=? rec_idx then Some (inl (- EINVAL))
  else e ← rd (database d) rec_idx; Some (inr (record e)).

(** The first free entry takes the record. *)
Fixpoint add_first_free r (l : list (database_entry R)) : option (list (database_entry R)) :=
  match l with
  | [] => None
  | e :: l' => if is_in_use e then cons e <$> add_first_free r l' else Some (Entry true r :: l')
  end.
Definition db_record_add r d : Z * db R :=
  if records_num d =? Z.of_nat CGMS_DB_MAX_RECORDS then (- ENOMEM, d)
  else match add_first_free r (database d) with
       | Some l => (0, Db l (u16 (records_num d + 1)))
       | None => (- ENOMEM, d)
       end.

Definition db_record_delete (rec_idx : Z) d : option (Z * db R) :=
  if records_num d <=? rec_idx then Some (- EINVAL, d)
  else e ← rd (database d) rec_idx;
       l ← wr (database d) rec_idx (free_entry e);
       Some (0, Db l (u16 (records_num d - 1))).

Fixpoint free_first_used (l : list (database_entry R)) : option (list (database_entry R)) :=
  match l with
  | [] => None
  | e :: l' => if is_in_use e then Some (free_entry e :: l') else cons e <$> free_first_used l'
  end.
Definition db_record_delete_first d : Z * db R :=
  match free_first_used (database d) with
  | Some l => (0, Db l (u16 (records_num d - 1)))
  | None => (-1, d)
  end.

(** The loop of delete_last starts at the last entry and counts up. *)
Fixpoint delete_last_loop (fuel : nat) (i : Z) d : option (Z * db R) :=
  match fuel with
  | O => None
  | S fuel =>
    if 0 <=? i then
      e ← rd (database d) i;
      if is_in_use e then
        l ← wr (database d) i (free_entry e); Some (0, Db l (u16 (records_num d - 1)))
      else delete_last_loop fuel (i + 1) d
    else Some (-1, d)
  end.
Definition db_record_delete_last d : option (Z * db R) :=
  delete_last_loop (S CGMS_DB_MAX_RECORDS) (Z.of_nat CGMS_DB_MAX_RECORDS - 1) d.

Definition db_record_delete_all d : db R := Db (free_entry <$> database d) 0.
End Database.

(** ** Requests *)
Definition RACP_OPCODE_REPORT_RECS : Z := 1.
Definition RACP_OPCODE_DELETE_RECS : Z := 2.
Definition RACP_OPCODE_ABORT_OPERATION : Z := 3.
Definition RACP_OPCODE_REPORT_NUM_RECS : Z := 4.
Definition RACP_OPCODE_NUM_RECS_RESPONSE : Z := 5.
Definition RACP_OPCODE_RESPONSE_CODE : Z := 6.
Definition RACP_OPERATOR_NULL : Z := 0.
Definition RACP_OPERATOR_ALL : Z := 1.
Definition RACP_OPERATOR_LESS_OR_EQUAL : Z := 2.
Definition RACP_OPERATOR_GREATER_OR_EQUAL : Z := 3.
Definition RACP_OPERATOR_RANGE : Z := 4.
Definition RACP_OPERATOR_FIRST : Z := 5.
Definition RACP_OPERATOR_LAST : Z := 6.
Definition RACP_OPERATOR_RFU_START : Z := 7.
Definition RACP_RESPONSE_RESERVED : Z := 0.
Definition RACP_RESPONSE_SUCCESS : Z := 1.
Definition RACP_RESPONSE_OPCODE_UNSUPPORTED : Z := 2.
Definition RACP_RESPONSE_INVALID_OPERATOR : Z := 3.
Definition RACP_RESPONSE_OPERATOR_UNSUPPORTED : Z := 4.
Definition RACP_RESPONSE_INVALID_OPERAND : Z := 5.
Definition RACP_RESPONSE_NO_RECORDS_FOUND : Z := 6.
Definition RACP_RESPONSE_ABORT_FAILED : Z := 7.
Definition RACP_RESPONSE_OPERAND_UNSUPPORTED : Z := 9.
Definition OPERAND_FILTER_TYPE_SEQ_NUM : Z := 0x01.
Definition OPERAND_FILTER_TYPE_FACING_TIME : Z := 0x02.
Definition OPERAND_FILTER_TYPE_RFU_START : Z := 0x07.

Definition BT_ATT_ERR_INVALID_OFFSET : Z := 0x07.
Definition BT_ATT_ERR_CCC_IMPROPER_CONF : Z := 0xfd.
Definition BT_ATT_ERR_PROCEDURE_IN_PROGRESS : Z := 0xfe.
Definition BT_ATT_ERR_OUT_OF_RANGE : Z := 0xff.
Definition BT_GATT_ERR (att_err : Z) : Z := - att_err.
Definition BT_GATT_CCC_NOTIFY : Z := 1.
Definition BT_GATT_CCC_INDICATE : Z := 2.

Record cgms_racp := Racp { opcode : Z; operator : Z; operand_len : Z; operand : list Z (* u8_t [6] *) }.
#[export] Instance eta_racp : EtaRecord cgms_racp := fun r =>
  Racp (opcode r) (operator r) (operand_len r) (operand r).

(** [data_len] is a u8_t. *)
Definition racp_decode (data_len : Z) (buf : list Z) (v : cgms_racp) : option cgms_racp :=
  let v := v <| opcode := 0xFF |> <| operator := 0xFF |> <| operand_len := 0 |> in
  v ← (if 0 <? data_len then b ← rd buf 0; Some (v <| opcode := b |>) else Some v);
  v ← (if 1 <? data_len then b ← rd buf 1; Some (v <| operator := b |>) else Some v);
  if 2 <? data_len then
    let n := u8 (data_len - 2) in
    src ← slice buf 2 n;
    o ← store (operand v) 0 src;
    Some (v <| operand_len := n |> <| operand := o |>)
  else Some v.

(** The bytes written to the buffer, which is not NULL at the call sites. *)
Definition racp_encode (v : cgms_racp) : option (list Z) :=
  o ← slice (operand v) 0 (operand_len v);
  Some ([opcode v; operator v] ++ o).

(** ** The engine *)
Inductive comm_state := STATE_NO_COMM | STATE_RACP_PROC_ACTIVE.
#[export] Instance comm_state_dec : EqDecision comm_state.
Proof. solve_decision. Defined.

(** The static variables of a service file that the engine uses; [ext] is the rest. *)
Record engine (R X : Type) := Engine {
  rec_db : db R;
  racp_ccc : Z;
  racp_indicating : Z;
  racp_buf : list Z;
  racp_request : cgms_racp;
  racp_response_code : Z;
  racp_state : comm_state;
  racp_proc_operator : Z;
  racp_proc_key : Z;              (* racp_proc_time_offset, racp_proc_seq_num *)
  racp_proc_record_idx : Z;
  racp_proc_records_reported : Z;
  ext : X
}.
#[global] Arguments Engine {R X}.
#[global] Arguments rec_db {R X}.
#[global] Arguments racp_ccc {R X}.
#[global] Arguments racp_indicating {R X}.
#[global] Arguments racp_buf {R X}.
#[global] Arguments racp_request {R X}.
#[global] Arguments racp_response_code {R X}.
#[global] Arguments racp_state {R X}.
#[global] Arguments racp_proc_operator {R X}.
#[global] Arguments racp_proc_key {R X}.
#[global] Arguments racp_proc_record_idx {R X}.
#[global] Arguments racp_proc_records_reported {R X}.
#[global] Arguments ext {R X}.
#[export] Instance eta_engine {R X} : EtaRecord (engine R X) := fun r =>
  Engine (rec_db r) (racp_ccc r) (racp_indicating r) (racp_buf r) (racp_request r) (racp_response_code r)
    (racp_state r) (racp_proc_operator r) (racp_proc_key r) (racp_proc_record_idx r)
    (racp_proc_records_reported r) (ext r).

(** What differs between the services. *)
Class RecordService (R X : Type) := {
  rec_key : R -> Z;                                                  (* the value filters compare *)
  rec_send : (nat -> Z) -> R -> M (server (engine R X)) Z;           (* cgm_meas_send, glucose_meas_send *)
  rec_sleep : Z;                                                     (* pause between records, in ms *)
  racp_attr : Z;                                                     (* the control point's attribute *)
  racp_buf_size : Z
}.

Section Engine.
Context `{RS : RecordService R X} (answer : nat -> Z) (others : M (server (engine R X)) unit).
#[local] Abbreviation EM := (M (server (engine R X))).

Definition state_set (new_state : comm_state) : EM unit := upd_svc (fun e => e <| racp_state := new_state |>).

(** The confirmation of an indication. *)
Definition indicate_rsp : EM unit :=
  upd_svc (fun e => e <| racp_indicating := 0 |>);;
  state_set STATE_NO_COMM.

Definition racp_send (v : cgms_racp) : EM unit :=
  e ← get_svc;
  when (truthy (racp_ccc e) && negb (truthy (racp_indicating e)))
    (upd_svc (fun e => e <| racp_buf := replicate (Z.to_nat racp_buf_size) 0 |>);;
     data ← lift (racp_encode v);
     e ← get_svc;
     buf ← lift (store (racp_buf e) 0 data);
     upd_svc (fun e => e <| racp_buf := buf |>);;
     err ← bt_gatt_indicate answer racp_attr (take (length data) buf);
     when (err =? 0) (upd_svc (fun e => e <| racp_indicating := 1 |>))).

(** A local struct cgms_racp whose operand starts with the bytes given; the others are not
    initialised and never sent. *)
Definition racp_local (op opr : Z) (bytes : list Z) : cgms_racp :=
  Racp op opr (Z.of_nat (length bytes)) (bytes ++ replicate (6 - length bytes) 0).

Definition racp_response_code_send (op value : Z) : EM unit :=
  racp_send (racp_local RACP_OPCODE_RESPONSE_CODE RACP_OPERATOR_NULL [op; value]).

Definition racp_report_records_all : EM Z :=
  e ← get_svc;
  let total_records := db_num_records_get (rec_db e) in
  if total_records <=? racp_proc_record_idx e then state_set STATE_NO_COMM;; mret 0
  else
    got ← lift (db_record_get (racp_proc_record_idx e) (rec_db e));
    match got with
    | inl err => mret err
    | inr rec =>
      err ← rec_send answer rec;
      if truthy err then mret err
      else emit (Sleep rec_sleep);; others;; mret 0
    end.

Definition racp_report_records_first_last : EM Z :=
  e ← get_svc;
  let total_records := db_num_records_get (rec_db e) in
  if truthy (racp_proc_records_reported e) || (total_records =? 0) then state_set STATE_NO_COMM;; mret 0
  else
    got ← (if racp_proc_operator e =? RACP_OPERATOR_FIRST then lift (db_record_get 0 (rec_db e))
           else if racp_proc_operator e =? RACP_OPERATOR_LAST
                then lift (db_record_get (u8 (total_records - 1)) (rec_db e))
           else ub);
    match got with
    | inl err => mret err
    | inr rec => rec_send answer rec
    end.

(** [inl]: the loop returned this error; [inr]: it was left. *)
Fixpoint greater_or_equal_loop (fuel : nat) (total_records : Z) : EM (Z + unit) :=
  match fuel with
  | O => ub
  | S fuel =>
    e ← get_svc;
    if racp_proc_record_idx e <? total_records then
      got ← lift (db_record_get (racp_proc_record_idx e) (rec_db e));
      match got with
      | inl err => mret (inl err)
      | inr rec =>
        if racp_proc_key e <=? rec_key rec then
          err ← rec_send answer rec;
          if truthy err then mret (inl err) else mret (inr tt)
        else
          upd_svc (fun e => e <| racp_proc_record_idx ::= (fun i => u8 (i + 1)) |>);;
          greater_or_equal_loop fuel total_records
      end
    else mret (inr tt)
  end.
Definition racp_report_records_greater_or_equal : EM Z :=
  e ← get_svc;
  let total_records := db_num_records_get (rec_db e) in
  out ← greater_or_equal_loop (S (Z.to_nat total_records)) total_records;
  match out with
  | inl err => mret err
  | inr _ =>
    e ← get_svc;
    when (racp_proc_record_idx e =? total_records) (state_set STATE_NO_COMM);;
    mret 0
  end.

Definition racp_report_records_completed : EM unit :=
  e ← get_svc;
  let resp_code_value :=
    if 0 <? racp_proc_records_reported e then RACP_RESPONSE_SUCCESS else RACP_RESPONSE_NO_RECORDS_FOUND in
  racp_response_code_send RACP_OPCODE_REPORT_RECS resp_code_value.

(** The procedure of an operator, unless it has none. *)
Definition report_step (op : Z) : option (EM Z) :=
  if op =? RACP_OPERATOR_ALL then Some racp_report_records_all
  else if (op =? RACP_OPERATOR_FIRST) || (op =? RACP_OPERATOR_LAST) then Some racp_report_records_first_last
  else if op =? RACP_OPERATOR_GREATER_OR_EQUAL then Some racp_report_records_greater_or_equal
  else None.

Fixpoint report_loop (fuel : nat) : EM unit :=
  match fuel with
  | O => ub
  | S fuel =>
    e ← get_svc;
    if decide (racp_state e = STATE_RACP_PROC_ACTIVE) then
      if negb (opcode (racp_request e) =? RACP_OPCODE_REPORT_RECS) then mret tt
      else
        match report_step (racp_proc_operator e) with
        | None => state_set STATE_NO_COMM
        | Some step =>
          err ← step;
          e ← get_svc;
          (if err =? 0 then
             if decide (racp_state e = STATE_RACP_PROC_ACTIVE)
             then upd_svc (fun e => e <| racp_proc_record_idx ::= (fun i => u8 (i + 1)) |>)
             else racp_report_records_completed
           else state_set STATE_NO_COMM);;
          report_loop fuel
        end
    else mret tt
  end.
Definition racp_report_records_procedure : EM unit := report_loop (CGMS_DB_MAX_RECORDS + 2).

(** The response code written, and whether the request is to be executed. *)
Definition operator_refused (opr : Z) : Z :=
  if RACP_OPERATOR_RFU_START <=? opr then RACP_RESPONSE_OPERATOR_UNSUPPORTED else RACP_RESPONSE_INVALID_OPERATOR.
Definition no_operand (q : cgms_racp) : Z :=
  if truthy (operand_len q) then RACP_RESPONSE_INVALID_OPERAND else RACP_RESPONSE_RESERVED.
Definition is_unfiltered (opr : Z) : bool :=
  (opr =? RACP_OPERATOR_ALL) || (opr =? RACP_OPERATOR_FIRST) || (opr =? RACP_OPERATOR_LAST).

Definition report_response_code (q : cgms_racp) : option Z :=
  if is_unfiltered (operator q) then Some (no_operand q)
  else if operator q =? RACP_OPERATOR_GREATER_OR_EQUAL then
    filter_type ← rd (operand q) 0;
    Some (if filter_type =? OPERAND_FILTER_TYPE_SEQ_NUM then
            if negb (operand_len q =? 3) then RACP_RESPONSE_INVALID_OPERAND else RACP_RESPONSE_RESERVED
          else if filter_type =? OPERAND_FILTER_TYPE_FACING_TIME then RACP_RESPONSE_OPERAND_UNSUPPORTED
          else if OPERAND_FILTER_TYPE_RFU_START <=? filter_type then RACP_RESPONSE_OPERAND_UNSUPPORTED
          else RACP_RESPONSE_INVALID_OPERAND)
  else if (operator q =? RACP_OPERATOR_LESS_OR_EQUAL) || (operator q =? RACP_OPERATOR_RANGE)
       then Some RACP_RESPONSE_OPERATOR_UNSUPPORTED
  else Some (operator_refused (operator q)).

Definition delete_response_code (q : cgms_racp) : Z :=
  if is_unfiltered (operator q) then no_operand q
  else if (operator q =? RACP_OPERATOR_GREATER_OR_EQUAL) || (operator q =? RACP_OPERATOR_LESS_OR_EQUAL)
          || (operator q =? RACP_OPERATOR_RANGE)
       then RACP_RESPONSE_OPERATOR_UNSUPPORTED
  else operator_refused (operator q).

Definition is_request_to_be_executed (q : cgms_racp) (st : comm_state) : option (bool * Z) :=
  let executed (code : Z) := (code =? RACP_RESPONSE_RESERVED, code) in
  if opcode q =? RACP_OPCODE_ABORT_OPERATION then
    Some (executed (
      if decide (st = STATE_RACP_PROC_ACTIVE) then
        if negb (operator q =? RACP_OPERATOR_NULL) then RACP_RESPONSE_INVALID_OPERATOR
        else if truthy (operand_len q) then RACP_RESPONSE_INVALID_OPERAND
        else RACP_RESPONSE_SUCCESS
      else RACP_RESPONSE_ABORT_FAILED))
  else if decide (st <> STATE_NO_COMM) then Some (false, RACP_RESPONSE_RESERVED)
  else if (opcode q =? RACP_OPCODE_REPORT_RECS) || (opcode q =? RACP_OPCODE_REPORT_NUM_RECS)
       then executed <$> report_response_code q
  else if opcode q =? RACP_OPCODE_DELETE_RECS then Some (executed (delete_response_code q))
  else Some (executed RACP_RESPONSE_OPCODE_UNSUPPORTED).

(** operand[1] and operand[2] as the filter's value *)
Definition filter_value (q : cgms_racp) : option Z :=
  b2 ← rd (operand q) 2; b1 ← rd (operand q) 1; Some (u16 (Z.lor (Z.shiftl b2 8) b1)).

Definition report_records_request_execute (q : cgms_racp) : EM unit :=
  key ← lift (filter_value q);
  state_set STATE_RACP_PROC_ACTIVE;;
  upd_svc (fun e => e <| racp_proc_record_idx := 0 |> <| racp_proc_operator := operator q |>
                      <| racp_proc_records_reported := 0 |> <| racp_proc_key := key |>);;
  racp_report_records_procedure.

Definition delete_records_request_execute (q : cgms_racp) : EM unit :=
  e ← get_svc;
  let total_records := db_num_records_get (rec_db e) in
  del_num_records ←
    (if operator q =? RACP_OPERATOR_ALL then
       upd_svc (fun e => e <| rec_db ::= db_record_delete_all |>);; mret total_records
     else if operator q =? RACP_OPERATOR_FIRST then
       let '(err, d) := db_record_delete_first (rec_db e) in
       upd_svc (fun e => e <| rec_db := d |>);; mret (if err =? 0 then 1 else 0)
     else if operator q =? RACP_OPERATOR_LAST then
       '(err, d) ← lift (db_record_delete_last (rec_db e));
       upd_svc (fun e => e <| rec_db := d |>);; mret (if err =? 0 then 1 else 0)
     else mret 0);
  let resp_code_value := if 0 <? del_num_records then RACP_RESPONSE_SUCCESS else RACP_RESPONSE_NO_RECORDS_FOUND in
  racp_send (racp_local RACP_OPCODE_RESPONSE_CODE RACP_OPERATOR_NULL [RACP_OPCODE_DELETE_RECS; resp_code_value]).

(** The records of an index [>= i] whose key reaches the filter; [None] in the result when
    a record could not be read. *)
Fixpoint count_loop (fuel : nat) (i total_records key num_records : Z) (d : db R) : option (option Z) :=
  match fuel with
  | O => None
  | S fuel =>
    if i <? total_records then
      got ← db_record_get (u8 i) d;
      match got with
      | inl _ => Some None
      | inr rec =>
        count_loop fuel (i + 1) total_records key
          (if key <=? rec_key rec then u16 (num_records + 1) else num_records) d
      end
    else Some (Some num_records)
  end.
Definition report_num_records_request_execute (q : cgms_racp) : EM unit :=
  e ← get_svc;
  let total_records := db_num_records_get (rec_db e) in
  num ←
    (if operator q =? RACP_OPERATOR_ALL then mret (Some total_records)
     else if operator q =? RACP_OPERATOR_GREATER_OR_EQUAL then
       key ← lift (filter_value q);
       lift (count_loop (S (Z.to_nat total_records)) 0 total_records key 0 (rec_db e))
     else if (operator q =? RACP_OPERATOR_FIRST) || (operator q =? RACP_OPERATOR_LAST)
          then mret (Some (if 0 <? total_records then 1 else 0))
     else mret (Some 0));
  match num with
  | None => mret tt
  | Some num_records =>
    racp_send (racp_local RACP_OPCODE_NUM_RECS_RESPONSE RACP_OPERATOR_NULL
                 [Z.land num_records 0xFF; Z.shiftr num_records 8])
  end.

Definition racp_handle : EM unit :=
  e ← get_svc;
  '(execute, code) ← lift (is_request_to_be_executed (racp_request e) (racp_state e));
  upd_svc (fun e => e <| racp_response_code := code |>);;
  let q := racp_request e in
  if (execute : bool) then
    if opcode q =? RACP_OPCODE_REPORT_RECS then report_records_request_execute q
    else if opcode q =? RACP_OPCODE_REPORT_NUM_RECS then report_num_records_request_execute q
    else when (opcode q =? RACP_OPCODE_DELETE_RECS) (delete_records_request_execute q)
  else if negb (code =? RACP_RESPONSE_RESERVED) then
    state_set STATE_NO_COMM;;
    racp_response_code_send (opcode q) code
  else mret tt.

(** The write handler once its own checks have passed. *)
Definition racp_accept (work : string) (busy_error len : Z) (buf : list Z) : EM Z :=
  e ← get_svc;
  q ← lift (racp_decode (u8 len) buf (racp_request e));
  upd_svc (fun e => e <| racp_request := q |>);;
  if negb (opcode q =? RACP_OPCODE_ABORT_OPERATION) && negb (bool_decide (racp_state e = STATE_NO_COMM))
  then mret (BT_GATT_ERR busy_error)
  else emit (WorkSubmit work 400);; mret len.
End Engine.
