(* ===== verification/RacpSpec.v ===== *)
(** * What the record access control point promises

    The database as a list of records, the selection an operator makes, and the theorems
    that reporting, counting, aborting, deleting and refusing do what a peer expects; proved
    against the class [RecordServiceLaws] of what a service must guarantee about sending one
    record. *)
From S2P Require Import Prelude Gatt Racp.

(** ** Specification *)
Section DatabaseFacts.
Context {R : Type}.
Implicit Types (d : db R) (r : R) (l : list R).

(** The first [length l] entries hold [l]; the others are free. *)
Definition packed l d : Prop :=
  exists rest, database d = (Entry true <$> l) ++ rest /\ Forall (fun e => is_in_use e = false) rest /\
    length (database d) = CGMS_DB_MAX_RECORDS /\ records_num d = Z.of_nat (length l).

Lemma packed_length l d : packed l d -> (length l <= CGMS_DB_MAX_RECORDS)%nat.
Proof. intros (rest & Hd & _ & Hl & _). rewrite Hd, length_app, length_fmap in Hl. lia. Qed.

Lemma packed_num l d : packed l d -> records_num d = Z.of_nat (length l).
Proof. by intros (rest & _ & _ & _ & ?). Qed.
Lemma free_all (es : list (database_entry R)) : Forall (fun e => is_in_use e = false) (free_entry <$> es).
Proof. apply Forall_fmap, Forall_true. done. Qed.
Lemma packed_init d : length (database d) = CGMS_DB_MAX_RECORDS -> packed [] (db_init d).
Proof. intros H. exists (free_entry <$> database d). split_and!; [done|apply free_all|cbn; by rewrite length_fmap|done]. Qed.
Lemma packed_delete_all l d : packed l d -> packed [] (db_record_delete_all d).
Proof. intros (rest & _ & _ & H & _). by apply packed_init. Qed.

Lemma packed_get l d i : packed l d -> 0 <= i ->
  db_record_get i d = Some (if bool_decide (i < Z.of_nat (length l))
                            then match l !! Z.to_nat i with Some r => inr r | None => inl (- EINVAL) end
                            else inl (- EINVAL)).
Proof.
  intros (rest & Hd & _ & _ & Hn) Hi. unfold db_record_get. rewrite Hn.
  destruct (Z.leb_spec (Z.of_nat (length l)) i); [by rewrite bool_decide_eq_false_2 by lia|].
  rewrite bool_decide_eq_true_2 by lia. destruct (lookup_lt_is_Some_2 l (Z.to_nat i)) as [r Hr]; [lia|].
  unfold rd. rewrite Hd, (proj2 (Z.leb_le 0 i)), Hr by lia.
  rewrite lookup_app_l by (rewrite length_fmap; lia). by rewrite list_lookup_fmap, Hr.
Qed.
Lemma packed_get_at l d i r : packed l d -> l !! i = Some r -> db_record_get (Z.of_nat i) d = Some (inr r).
Proof.
  intros Hp Hr. rewrite (packed_get l) by (done || lia). pose proof (lookup_lt_Some _ _ _ Hr).
  rewrite bool_decide_eq_true_2 by lia. by rewrite Nat2Z.id, Hr.
Qed.

Lemma add_first_free_app r l rest :
  add_first_free r ((Entry true <$> l) ++ rest) = app (Entry true <$> l) <$> add_first_free r rest.
Proof.
  induction l as [|x l IH]; [cbn; destruct (add_first_free r rest); reflexivity|].
  rewrite fmap_cons. cbn [app add_first_free is_in_use]. rewrite IH. destruct (add_first_free r rest); reflexivity.
Qed.
Lemma packed_add l d r : packed l d -> (length l < CGMS_DB_MAX_RECORDS)%nat ->
  exists d', db_record_add r d = (0, d') /\ packed (l ++ [r]) d'.
Proof.
  intros (rest & Hd & Hf & Hl & Hn) Hlt. unfold db_record_add. rewrite Hn, Hd.
  destruct (Z.eqb_spec (Z.of_nat (length l)) (Z.of_nat CGMS_DB_MAX_RECORDS)); [lia|].
  rewrite add_first_free_app. destruct rest as [|e rest].
  { exfalso. rewrite Hd, length_app, length_fmap in Hl. cbn in Hl. lia. }
  apply Forall_cons in Hf as [He Hf]. cbn [add_first_free]. rewrite He. cbn [fmap option_fmap option_map].
  eexists; split; [reflexivity|]. exists rest. cbn [database records_num].
  rewrite Hd, length_app, length_fmap in Hl. cbn [length] in Hl.
  split_and!; [by rewrite fmap_app, <- app_assoc|done| |].
  - rewrite length_app, length_fmap. cbn [length]. lia.
  - rewrite length_app. cbn [length]. rewrite u16_small; unfold CGMS_DB_MAX_RECORDS in *; lia.
Qed.
Lemma packed_add_full l d r : packed l d -> length l = CGMS_DB_MAX_RECORDS -> db_record_add r d = (- ENOMEM, d).
Proof. intros (rest & _ & _ & _ & Hn) Hl. unfold db_record_add. by rewrite Hn, Hl. Qed.

(** What a reader of the database sees; a packed database shows its records. *)
Definition readable l d : Prop :=
  (length l <= CGMS_DB_MAX_RECORDS)%nat /\ records_num d = Z.of_nat (length l) /\
  forall i r, l !! i = Some r -> db_record_get (Z.of_nat i) d = Some (inr r).
Lemma packed_readable l d : packed l d -> readable l d.
Proof.
  intros Hp. split_and!; [by eapply packed_length|by apply packed_num|]. intros i r. by apply packed_get_at.
Qed.
Lemma readable_length l d : readable l d -> (length l <= CGMS_DB_MAX_RECORDS)%nat.
Proof. by intros (? & _). Qed.
Lemma readable_num l d : readable l d -> records_num d = Z.of_nat (length l).
Proof. by intros (_ & ? & _). Qed.
Lemma readable_get l d i r : readable l d -> l !! i = Some r -> db_record_get (Z.of_nat i) d = Some (inr r).
Proof. intros (_ & _ & H). apply H. Qed.

(** Deleting the last record starts at the last entry and counts up, so it frees a record
    only when all entries are in use; otherwise it leaves the array. *)
Lemma delete_last_full l d r : packed (l ++ [r]) d -> length (l ++ [r]) = CGMS_DB_MAX_RECORDS ->
  exists d', db_record_delete_last d = Some (0, d') /\ packed l d'.
Proof.
  intros (rest & Hd & Hf & Hl & Hn) Hlen. rewrite length_app in Hlen. cbn in Hlen.
  unfold CGMS_DB_MAX_RECORDS in *.
  assert (rest = []) as ->.
  { rewrite Hd, length_app, length_fmap, length_app in Hl. destruct rest; [done|cbn in Hl; lia]. }
  rewrite app_nil_r, fmap_app in Hd. change (Entry true <$> [r]) with [Entry true r] in Hd.
  unfold db_record_delete_last, delete_last_loop, CGMS_DB_MAX_RECORDS.
  change (Z.of_nat 20 - 1) with 19. change (0 <=? 19) with true. cbn [mbind option_bind].
  assert (19 = Z.of_nat (length (Entry true <$> l))) as Hi by (rewrite length_fmap; lia).
  rewrite Hd, (rd_app_here _ _ _ _ Hi). cbn [mbind option_bind is_in_use]. rewrite (wr_app_here _ _ _ _ _ Hi). eexists; split; [reflexivity|].
  eexists; split_and!; [reflexivity|by repeat constructor| |].
  - cbn [database]. rewrite length_app, length_fmap. exact Hlen.
  - cbn [records_num]. rewrite Hn, length_app. cbn [length]. rewrite u16_small; lia.
Qed.
Lemma delete_last_overruns l d : packed l d -> (length l < CGMS_DB_MAX_RECORDS)%nat -> db_record_delete_last d = None.
Proof.
  intros (rest & Hd & Hf & Hl & _) Hlt. unfold CGMS_DB_MAX_RECORDS in *.
  assert (rd (database d) (Z.of_nat 20) = None) as Hout.
  { unfold rd. rewrite (proj2 (Z.leb_le _ _)) by lia. apply lookup_ge_None_2. lia. }
  destruct (rd_in_bound (database d) (Z.of_nat 20 - 1)) as [e He]; [lia|].
  assert (is_in_use e = false) as Hu.
  { unfold rd in He. rewrite (proj2 (Z.leb_le _ _)), Hd in He by lia.
    rewrite lookup_app_r in He by (rewrite length_fmap; lia).
    by apply (Forall_lookup_1 _ _ _ _ Hf He). }
  unfold db_record_delete_last, CGMS_DB_MAX_RECORDS. cbn [delete_last_loop].
  change (0 <=? Z.of_nat 20 - 1) with true. rewrite He. cbn [mbind option_bind]. rewrite Hu.
  change (Z.of_nat 20 - 1 + 1) with (Z.of_nat 20). change (0 <=? Z.of_nat 20) with true. by rewrite Hout.
Qed.

(** Deleting the first record frees its entry but moves nothing: the deleted record is still
    the first one read and the newest one can no longer be read. *)
Lemma delete_first_stale l d r : packed (r :: l) d ->
  exists d', db_record_delete_first d = (0, d') /\ readable (take (length l) (r :: l)) d'.
Proof.
  intros Hp. pose proof (packed_length _ _ Hp). destruct Hp as (rest & Hd & _ & _ & Hn).
  unfold db_record_delete_first. rewrite Hd. cbn [fmap list_fmap app free_first_used is_in_use].
  eexists; split; [reflexivity|]. cbn [length] in *. unfold CGMS_DB_MAX_RECORDS in *.
  assert (length (take (length l) (r :: l)) = length l) as Hlen by (rewrite length_take; cbn; lia).
  split_and!; [rewrite Hlen; unfold CGMS_DB_MAX_RECORDS; lia|cbn [records_num]; rewrite Hlen, Hn, u16_small; lia|].
  intros i x Hx. pose proof (lookup_lt_Some _ _ _ Hx). rewrite lookup_take_lt in Hx by lia.
  unfold db_record_get, rd. cbn [records_num database]. rewrite Hn, u16_small by lia.
  rewrite (proj2 (Z.leb_gt _ _)), (proj2 (Z.leb_le 0 (Z.of_nat i))), Nat2Z.id by lia.
  destruct i as [|i]; [by injection Hx as ->|].
  assert (((Entry true <$> l) ++ rest) !! i = Some (Entry true x)) as E.
  { rewrite lookup_app_l by (rewrite length_fmap; lia). rewrite list_lookup_fmap. change (l !! i = Some x) in Hx. by rewrite Hx. }
  exact (f_equal (fun o => o ≫= (fun e => Some (inr (record e)))) E).
Qed.
End DatabaseFacts.

(** What is heard on the air. *)
Definition is_traffic (e : gatt_event) : Prop :=
  match e with Notify _ _ _ | Indicate _ _ _ => True | _ => False end.
#[export] Instance is_traffic_dec e : Decision (is_traffic e).
Proof. destruct e; apply _. Defined.
Definition traffic (l : list gatt_event) : list gatt_event := filter is_traffic l.
Lemma traffic_app l1 l2 : traffic (l1 ++ l2) = traffic l1 ++ traffic l2.
Proof. apply filter_app. Qed.
Definition notifs (out : list (Z * list Z)) : list gatt_event := (fun p => Notify p.1 p.2 0) <$> out.
Lemma traffic_notifs out : traffic (notifs out) = notifs out.
Proof.
  induction out as [|p out IH]; [done|]. unfold traffic, notifs in *.
  rewrite fmap_cons, filter_cons_True by done. by rewrite IH.
Qed.

(** The host accepts the calls [c], ..., [c + n - 1]. *)
Definition accepted (answer : nat -> Z) (c n : nat) : Prop := forall k, (c <= k < c + n)%nat -> answer k = 0.
Lemma accepted_app answer c n m : accepted answer c (n + m) <-> accepted answer c n /\ accepted answer (c + n) m.
Proof.
  split; [intros H; split; intros k Hk; apply H; lia|]. intros [H1 H2] k Hk.
  destruct (decide (k < c + n)%nat); [apply H1|apply H2]; lia.
Qed.

(** What the engine relies on: a well-formed record is sent as the notifications [rec_out],
    is counted once, and nothing else changes. *)
Class RecordServiceLaws (R X : Type) {RS : RecordService R X} := {
  rec_out : X -> R -> list (Z * list Z);
  rec_ok : X -> R -> Prop;
  racp_buf_enough : 8 <= racp_buf_size;
  rec_send_ok : forall answer r (s : server (engine R X)),
    rec_ok (ext (svc s)) r -> accepted answer (calls s) (length (rec_out (ext (svc s)) r)) ->
    ends (rec_send answer r) s (fun err s' => err = 0 /\
      s' = Server ((svc s) <| racp_proc_records_reported ::= (fun n => u8 (n + 1)) |>)
             (calls s + length (rec_out (ext (svc s)) r)) (events s ++ notifs (rec_out (ext (svc s)) r)))
}.

(** The records an operator with a filter value selects, in the order stored. *)
Definition selected `{RecordService R X} (op key : Z) (l : list R) : list R :=
  if op =? RACP_OPERATOR_ALL then l
  else if op =? RACP_OPERATOR_FIRST then take 1 l
  else if op =? RACP_OPERATOR_LAST then drop (length l - 1) l
  else if op =? RACP_OPERATOR_GREATER_OR_EQUAL then filter (fun r => key <= rec_key r) l
  else [].

Lemma slice_0 (bs rest : list Z) : slice (bs ++ rest) 0 (Z.of_nat (length bs)) = Some bs.
Proof.
  unfold slice. rewrite length_app. cbn [Z.leb Z.compare andb].
  destruct (Z.leb_spec 0 (Z.of_nat (length bs))); [|lia].
  destruct (Z.leb_spec (0 + Z.of_nat (length bs)) (Z.of_nat (length bs + length rest))); [|lia].
  cbn [andb]. rewrite Nat2Z.id. change (Z.to_nat 0) with 0%nat. by rewrite drop_0, take_app_length.
Qed.
Lemma store_0 (buf bs : list Z) : (length bs <= length buf)%nat ->
  store buf 0 bs = Some (bs ++ drop (length bs) buf).
Proof. intros H. unfold store. rewrite (proj2 (Z.leb_le (0 + _) _)) by lia. done. Qed.

Section EngineFacts.
Context `{RL : RecordServiceLaws R X} (answer : nat -> Z).
Implicit Types (s : server (engine R X)) (e : engine R X).
#[local] Arguments ends : simpl never.

(** A response goes out when the peer has asked for indications and the last one is
    confirmed. *)
Definition responds e : bool := truthy (racp_ccc e) && negb (truthy (racp_indicating e)).
Definition response (data : list Z) s : list gatt_event :=
  if responds (svc s) then [Indicate racp_attr data (answer (calls s))] else [].

Lemma racp_send_ok op opr bytes s : (length bytes <= 6)%nat ->
  ends (racp_send answer (racp_local op opr bytes)) s (fun _ s' =>
    events s' = events s ++ response ([op; opr] ++ bytes) s /\
    svc s' = (svc s) <| racp_buf := racp_buf (svc s') |> <| racp_indicating := racp_indicating (svc s') |>).
Proof using RL.
  intros Hb. unfold racp_send, response, responds. gatt. apply ends_when; intros Hon; rewrite Hon.
  2: { cbn. rewrite app_nil_r. split; [done|]. by destruct (svc s). }
  gatt. eapply ends_lift.
  { unfold racp_encode, racp_local. cbn [operand operand_len opcode operator]. by rewrite slice_0. }
  gatt. eapply ends_lift.
  { cbn [set_field racp_buf]. apply store_0. rewrite length_replicate. pose proof racp_buf_enough. cbn. lia. }
  gatt. rewrite take_app_length. apply ends_when; intros _; [gatt|]; done.
Qed.

(** ** One step of a report sends the next selected record. *)
Section Reporting.
Context (others : M (server (engine R X)) unit) (allowed : cgms_racp -> Prop).
(** Other threads may replace the request while the report sleeps. *)
Hypothesis others_ok : forall s, allowed (racp_request (svc s)) ->
  ends others s (fun _ s' => calls s' = calls s /\ traffic (events s') = traffic (events s) /\
    exists q, allowed q /\ svc s' = (svc s) <| racp_request := q |>).
Context (l : list R) (op key : Z).

(** What is still to be sent. *)
Definition remaining e : list R :=
  if op =? RACP_OPERATOR_ALL then drop (Z.to_nat (racp_proc_record_idx e)) l
  else if op =? RACP_OPERATOR_GREATER_OR_EQUAL
       then filter (fun r => key <= rec_key r) (drop (Z.to_nat (racp_proc_record_idx e)) l)
  else if racp_proc_records_reported e =? 0 then selected op key l else [].

Record cursor (todo : list R) e : Prop := {
  cur_db : readable l (rec_db e);
  cur_op : racp_proc_operator e = op;
  cur_key : racp_proc_key e = key;
  cur_state : racp_state e = STATE_RACP_PROC_ACTIVE;
  cur_idx : 0 <= racp_proc_record_idx e <= Z.of_nat (length l);
  cur_rep : 0 <= racp_proc_records_reported e <= racp_proc_record_idx e;
  cur_one : op <> RACP_OPERATOR_ALL -> op <> RACP_OPERATOR_GREATER_OR_EQUAL ->
    racp_proc_record_idx e = racp_proc_records_reported e;
  cur_todo : remaining e = todo
}.

Definition out e r := rec_out (ext e) r.

(** The step's effect: nothing left ends the procedure, otherwise the next record is sent. *)
Definition stepped s (todo : list R) s' : Prop :=
  match todo with
  | [] => calls s' = calls s /\ traffic (events s') = traffic (events s) /\
      exists i, svc s' = (svc s) <| racp_state := STATE_NO_COMM |> <| racp_proc_record_idx := i |>
  | r :: todo' => calls s' = (calls s + length (out (svc s) r))%nat /\
      traffic (events s') = traffic (events s) ++ notifs (out (svc s) r) /\
      exists i q, allowed q /\
        svc s' = (svc s) <| racp_proc_record_idx := i |> <| racp_proc_records_reported ::= (fun n => u8 (n + 1)) |>
                         <| racp_request := q |> /\
        cursor todo' ((svc s') <| racp_proc_record_idx ::= (fun i => u8 (i + 1)) |>)
  end.

Definition sendable s (todo : list R) : Prop :=
  match todo with [] => True | r :: _ => rec_ok (ext (svc s)) r /\ accepted answer (calls s) (length (out (svc s) r)) end.

(** The cursor after the record at index [i] is out. *)
Lemma cursor_next e i todo' q :
  readable l (rec_db e) -> racp_proc_operator e = op -> racp_proc_key e = key ->
  racp_state e = STATE_RACP_PROC_ACTIVE -> (i < length l)%nat ->
  0 <= racp_proc_records_reported e <= Z.of_nat i ->
  (op = RACP_OPERATOR_ALL -> todo' = drop (S i) l) ->
  (op = RACP_OPERATOR_GREATER_OR_EQUAL -> todo' = filter (fun r => key <= rec_key r) (drop (S i) l)) ->
  (op <> RACP_OPERATOR_ALL -> op <> RACP_OPERATOR_GREATER_OR_EQUAL -> todo' = [] /\ racp_proc_records_reported e = Z.of_nat i) ->
  cursor todo' ((e <| racp_proc_record_idx := Z.of_nat i |> <| racp_proc_records_reported ::= (fun n => u8 (n + 1)) |>
                   <| racp_request := q |>) <| racp_proc_record_idx ::= (fun i => u8 (i + 1)) |>).
Proof using RL.
  intros Hp Hop Hkey Hst Hi Hrep H1 H2 H3. pose proof (readable_length _ _ Hp) as Hl. unfold CGMS_DB_MAX_RECORDS in Hl.
  constructor; cbn [set_field rec_db racp_proc_operator racp_proc_key racp_state racp_proc_record_idx
    racp_proc_records_reported]; try done; rewrite ?u8_small by lia; try lia.
  unfold remaining. cbn [set_field racp_proc_record_idx racp_proc_records_reported]. rewrite !u8_small by lia.
  replace (Z.to_nat (Z.of_nat i + 1)) with (S i) by lia.
  destruct (Z.eqb_spec op RACP_OPERATOR_ALL); [by rewrite H1|].
  destruct (Z.eqb_spec op RACP_OPERATOR_GREATER_OR_EQUAL); [by rewrite H2|].
  destruct H3 as [-> _]; [done..|]. destruct (Z.eqb_spec (racp_proc_records_reported e + 1) 0); [lia|done].
Qed.

(** Sending the record at index [i], after the index was moved there. *)
Lemma send_stepped s e i r todo' :
  cursor (r :: todo') (svc s) -> allowed (racp_request (svc s)) ->
  e = (svc s) <| racp_proc_record_idx := Z.of_nat i |> -> (i < length l)%nat ->
  0 <= racp_proc_records_reported (svc s) <= Z.of_nat i ->
  (op = RACP_OPERATOR_ALL -> todo' = drop (S i) l) ->
  (op = RACP_OPERATOR_GREATER_OR_EQUAL -> todo' = filter (fun r => key <= rec_key r) (drop (S i) l)) ->
  (op <> RACP_OPERATOR_ALL -> op <> RACP_OPERATOR_GREATER_OR_EQUAL -> todo' = [] /\ racp_proc_records_reported (svc s) = Z.of_nat i) ->
  sendable s (r :: todo') ->
  ends (rec_send answer r) (Server e (calls s) (events s)) (fun err s' => err = 0 /\ stepped s (r :: todo') s' /\
    racp_state (svc s') = STATE_RACP_PROC_ACTIVE /\ racp_request (svc s') = racp_request (svc s) /\
    racp_proc_record_idx (svc s') = Z.of_nat i).
Proof using RL.
  intros Hc Hq -> Hi Hrep H1 H2 H3 [Hok Hacc]. destruct Hc as [Hp Hop Hkey Hst _ _ _ _].
  eapply ends_mono; [apply rec_send_ok; [exact Hok|exact Hacc]|]. intros err s' [-> ->]. split; [done|].
  cbn [svc calls events set_field ext].
  split; [|by cbn]. unfold stepped, out. cbn [svc calls events set_field ext]. split_and!; [done|by rewrite traffic_app, traffic_notifs|].
  eexists (Z.of_nat i), (racp_request (svc s)). split; [done|]. split; [reflexivity|].
  by apply (cursor_next (svc s)).
Qed.

Lemma all_step s todo : op = RACP_OPERATOR_ALL ->
  cursor todo (svc s) -> allowed (racp_request (svc s)) -> sendable s todo ->
  ends (racp_report_records_all answer others) s (fun err s' => err = 0 /\ stepped s todo s').
Proof using RL others_ok.
  intros Hop Hc Hq Hs. pose proof Hc as [Hp _ _ Hst Hidx Hrep _ Htodo].
  unfold remaining in Htodo. rewrite Hop in Htodo. cbn in Htodo.
  unfold racp_report_records_all, db_num_records_get, state_set. gatt. cbv zeta.
  rewrite (readable_num _ _ Hp).
  destruct (Z.leb_spec (Z.of_nat (length l)) (racp_proc_record_idx (svc s))).
  - gatt. rewrite drop_ge in Htodo by lia. subst todo. split; [done|]. cbn. split_and!; [done..|].
    exists (racp_proc_record_idx (svc s)). by destruct (svc s).
  - destruct (lookup_lt_is_Some_2 l (Z.to_nat (racp_proc_record_idx (svc s)))) as [r Hr]; [lia|].
    rewrite (drop_S l r) in Htodo by done. subst todo.
    gatt. eapply ends_lift.
    { rewrite <- (Z2Nat.id (racp_proc_record_idx (svc s))) at 1 by lia. by apply (readable_get l). }
    cbv beta iota. gatt. destruct s as [e c ev]. cbn [svc] in *. eapply ends_mono.
    { apply (send_stepped (Server e c ev) e (Z.to_nat (racp_proc_record_idx e)) r _ Hc Hq); cbn [svc]; try done; try lia.
      - rewrite Z2Nat.id by lia. by destruct e.
      - by rewrite Hop. }
    intros err s1 (-> & Hst1 & Hact & Hreq & _). change (truthy 0) with false. cbv iota. gatt.
    eapply ends_mono; [apply others_ok; cbn; by rewrite Hreq|]. cbn [svc calls events].
    intros _ s2 (Hcalls & Htr & q & Hal & Hsvc). gatt. split; [done|].
    destruct Hst1 as (Hc1 & Ht1 & i & q1 & _ & Hs1 & Hcur). split_and!; [by rewrite Hcalls| |].
    + rewrite Htr, traffic_app. cbn. by rewrite app_nil_r.
    + exists i, q. split; [done|]. rewrite Hsvc, Hs1 in *. split; [by cbn|].
      destruct Hcur as [A1 A2 A3 A4 A5 A6 A7 A8]. constructor; [exact A1|exact A2|exact A3|exact A4|exact A5|exact A6|exact A7|].
      rewrite <- A8. reflexivity.
Qed.

Lemma first_last_step s todo : op = RACP_OPERATOR_FIRST \/ op = RACP_OPERATOR_LAST ->
  cursor todo (svc s) -> allowed (racp_request (svc s)) -> sendable s todo ->
  ends (racp_report_records_first_last answer) s (fun err s' => err = 0 /\ stepped s todo s').
Proof using RL.
  intros Hop Hc Hq Hs. pose proof Hc as [Hp Hcop _ Hst Hidx Hrep Hone Htodo].
  assert (op <> RACP_OPERATOR_ALL /\ op <> RACP_OPERATOR_GREATER_OR_EQUAL) as [Hna Hng] by (destruct Hop as [-> | ->]; done).
  specialize (Hone Hna Hng).
  unfold remaining in Htodo. rewrite (proj2 (Z.eqb_neq _ _) Hna), (proj2 (Z.eqb_neq _ _) Hng) in Htodo.
  unfold racp_report_records_first_last, db_num_records_get, state_set. gatt. cbv zeta.
  rewrite (readable_num _ _ Hp). pose proof (readable_length _ _ Hp) as Hlen. unfold CGMS_DB_MAX_RECORDS in Hlen.
  assert (truthy (racp_proc_records_reported (svc s)) || (Z.of_nat (length l) =? 0) = false ->
    exists r, todo = [r] /\ racp_proc_records_reported (svc s) = 0 /\
      exists i, l !! i = Some r /\ (op = RACP_OPERATOR_FIRST -> i = 0%nat) /\ (op = RACP_OPERATOR_LAST -> i = (length l - 1)%nat)) as Hsel.
  { intros [H1 H2]%orb_false_iff. unfold truthy in H1. apply negb_false_iff in H1. rewrite H1 in Htodo.
    apply Z.eqb_eq in H1. apply Z.eqb_neq in H2. subst todo. destruct Hop as [-> | ->].
    - destruct l as [|r l']; [done|]. exists r. split_and!; [done..|]. by exists 0%nat.
    - destruct (lookup_lt_is_Some_2 l (length l - 1)) as [r Hr]; [lia|]. exists r. split_and!; [|done|].
      + change (drop (length l - 1) l = [r]). rewrite (drop_S l r) by done. by rewrite drop_ge by lia.
      + exists (length l - 1)%nat. split_and!; done. }
  destruct (truthy _ || _) eqn:Hdone.
  - gatt. split; [done|]. replace todo with (@nil R).
    + cbn. split_and!; [done..|]. exists (racp_proc_record_idx (svc s)). by destruct (svc s).
    + subst todo. apply orb_true_iff in Hdone as [H|H].
      * unfold truthy in H. apply negb_true_iff in H. by rewrite H.
      * apply Z.eqb_eq in H. destruct l; [|done]. by destruct (_ =? 0), Hop as [-> | ->].
  - destruct (Hsel eq_refl) as (r & -> & Hrep0 & i & Hi & Hi1 & Hi2).
    pose proof (lookup_lt_Some _ _ _ Hi). apply ends_bind.
    eapply (ends_mono _ _ (fun got s' => got = inr r /\ s' = s)).
    { rewrite Hcop. destruct Hop as [-> | ->]; cbn [Z.eqb RACP_OPERATOR_FIRST RACP_OPERATOR_LAST Pos.eqb].
      - eapply ends_lift; [|done]. change 0 with (Z.of_nat 0). rewrite <- (Hi1 eq_refl). by apply (readable_get l).
      - eapply ends_lift; [|done]. rewrite u8_small by lia.
        replace (Z.of_nat (length l) - 1) with (Z.of_nat i) by (rewrite (Hi2 eq_refl); lia). by apply (readable_get l). }
    intros got s' [-> ->]. destruct s as [e c ev]. cbn [svc] in *.
    eapply ends_mono; [apply (send_stepped (Server e c ev) e (Z.to_nat (racp_proc_record_idx e)) r [] Hc Hq);
      cbn [svc]; try done; try lia|].
    + rewrite Z2Nat.id by lia. by destruct e.
    + intros _ _. split; [done|lia].
    + by intros err s' (-> & ? & _).
Qed.

(** The search loop stops at the next record that passes the filter, or at the end. *)
Lemma greater_or_equal_loop_ok n : forall i e c ev Q,
  readable l (rec_db e) -> racp_proc_key e = key -> racp_proc_record_idx e = Z.of_nat i ->
  (i <= length l)%nat -> (length l - i < n)%nat ->
  (filter (fun r => key <= rec_key r) (drop i l) = [] ->
     Q (inr tt) (Server (e <| racp_proc_record_idx := Z.of_nat (length l) |>) c ev)) ->
  (forall j r, (i <= j)%nat -> l !! j = Some r ->
     filter (fun r => key <= rec_key r) (drop i l) = r :: filter (fun r => key <= rec_key r) (drop (S j) l) ->
     ends (rec_send answer r) (Server (e <| racp_proc_record_idx := Z.of_nat j |>) c ev)
       (fun err s' => err = 0 /\ Q (inr tt) s')) ->
  ends (greater_or_equal_loop answer n (Z.of_nat (length l))) (Server e c ev) Q.
Proof using RL.
  induction n as [|n IH]; intros i e c ev Q Hp Hkey Hi Hle Hn Hnone Hsome; [lia|].
  pose proof (readable_length _ _ Hp) as Hlen. unfold CGMS_DB_MAX_RECORDS in Hlen.
  assert (e = e <| racp_proc_record_idx := Z.of_nat i |>) as He by (rewrite <- Hi; by destruct e).
  cbn [greater_or_equal_loop]. gatt. rewrite Hi.
  destruct (Z.ltb_spec (Z.of_nat i) (Z.of_nat (length l))).
  2: { gatt. replace (length l) with i in Hnone by lia. rewrite <- He in Hnone. apply Hnone. by rewrite drop_ge by lia. }
  destruct (lookup_lt_is_Some_2 l i) as [r Hr]; [lia|]. gatt.
  eapply ends_lift; [by apply (readable_get l)|]. cbv beta iota. rewrite Hkey.
  rewrite (drop_S l r i Hr) in Hnone, Hsome.
  destruct (Z.leb_spec key (rec_key r)).
  - gatt. rewrite filter_cons_True in Hsome by done. specialize (Hsome i r ltac:(lia) Hr eq_refl). rewrite <- He in Hsome.
    eapply ends_mono; [exact Hsome|]. intros err s' [-> HQ]. change (truthy 0) with false. cbv iota. gatt. exact HQ.
  - rewrite filter_cons_False in Hnone, Hsome by lia. gatt. apply (IH (S i)); try done; cbn [set_field racp_proc_record_idx]; try lia.
    + rewrite Hi, u8_small by lia. lia.
    + intros j r' Hj. apply Hsome. lia.
Qed.

Lemma greater_or_equal_step s todo : op = RACP_OPERATOR_GREATER_OR_EQUAL ->
  cursor todo (svc s) -> allowed (racp_request (svc s)) -> sendable s todo ->
  ends (racp_report_records_greater_or_equal answer) s (fun err s' => err = 0 /\ stepped s todo s').
Proof using RL.
  intros Hop Hc Hq Hs. pose proof Hc as [Hp _ Hkey Hst Hidx Hrep _ Htodo].
  unfold remaining in Htodo. rewrite Hop in Htodo. cbn in Htodo.
  unfold racp_report_records_greater_or_equal, db_num_records_get, state_set. gatt. cbv zeta.
  rewrite (readable_num _ _ Hp), Nat2Z.id. destruct s as [e c ev]. cbn [svc calls events] in *.
  apply (greater_or_equal_loop_ok _ (Z.to_nat (racp_proc_record_idx e))); [done|done|lia|lia|lia| |].
  - intros Hnone. rewrite Hnone in Htodo. subst todo. gatt. cbn [set_field racp_proc_record_idx]. rewrite Z.eqb_refl.
    cbn [when]. gatt. split; [done|]. cbn. split_and!; [done..|]. by exists (Z.of_nat (length l)).
  - intros j r Hj Hr Hf. rewrite Hf in Htodo. subst todo. pose proof (lookup_lt_Some _ _ _ Hr).
    eapply ends_mono; [apply (send_stepped (Server e c ev) _ j r _ Hc Hq); cbn [svc]; try done; try lia; by rewrite Hop|].
    intros err s' (-> & Hst' & Hact & _ & Hidx'). split; [done|]. gatt.
    rewrite Hidx'. destruct (Z.eqb_spec (Z.of_nat j) (Z.of_nat (length l))); [lia|]. cbn [when]. gatt. by split.
Qed.

(** Every operator. *)
Lemma step_ok s todo : cursor todo (svc s) -> allowed (racp_request (svc s)) -> sendable s todo ->
  is_unfiltered op || (op =? RACP_OPERATOR_GREATER_OR_EQUAL) = true ->
  exists step, report_step answer others op = Some step /\ ends step s (fun err s' => err = 0 /\ stepped s todo s').
Proof using RL others_ok.
  intros Hc Hq Hs Hop. unfold report_step, is_unfiltered in *.
  destruct (Z.eqb_spec op RACP_OPERATOR_ALL); [eexists; split; [done|by apply all_step]|].
  destruct ((op =? RACP_OPERATOR_FIRST) || (op =? RACP_OPERATOR_LAST)) eqn:Hfl.
  - eexists; split; [done|]. apply first_last_step; try done.
    apply orb_true_iff in Hfl as [H|H]; apply Z.eqb_eq in H; auto.
  - cbn [orb] in Hop. rewrite Hfl in Hop. cbn [orb] in Hop. rewrite Hop. eexists; split; [done|].
    apply greater_or_equal_step; try done. by apply Z.eqb_eq.
Qed.

(** ** The whole report. *)
Definition outs e (todo : list R) : list (Z * list Z) := concat (out e <$> todo).

Definition completion (n : Z) s : list gatt_event :=
  response [RACP_OPCODE_RESPONSE_CODE; RACP_OPERATOR_NULL; RACP_OPCODE_REPORT_RECS;
            if 0 <? n then RACP_RESPONSE_SUCCESS else RACP_RESPONSE_NO_RECORDS_FOUND] s.

(** Records are sent from the cursor on; when the request was replaced meanwhile the report
    stops and the procedure stays active, otherwise it is completed. *)
Definition reported s (todo : list R) s' : Prop :=
  exists sent unsent, todo = sent ++ unsent /\
    rec_db (svc s') = rec_db (svc s) /\ racp_ccc (svc s') = racp_ccc (svc s) /\ allowed (racp_request (svc s')) /\
    let e := svc s in
    (opcode (racp_request (svc s')) <> RACP_OPCODE_REPORT_RECS /\ racp_state (svc s') = STATE_RACP_PROC_ACTIVE /\
       racp_indicating (svc s') = racp_indicating e /\
       traffic (events s') = traffic (events s) ++ notifs (outs e sent) \/
     unsent = [] /\ racp_state (svc s') = STATE_NO_COMM /\ opcode (racp_request (svc s')) = RACP_OPCODE_REPORT_RECS /\
       traffic (events s') = traffic (events s) ++ notifs (outs e sent) ++
         completion (racp_proc_records_reported e + Z.of_nat (length todo))
           (Server e (calls s + length (outs e todo)) [])).

(** One record out, then the rest: the report's descriptions compose. *)
Lemma reported_cons s s1 r todo s' : let s2 := Server ((svc s1) <| racp_proc_record_idx ::= (fun i => u8 (i + 1)) |>) (calls s1) (events s1) in
  cursor (r :: todo) (svc s) -> stepped s (r :: todo) s1 -> reported s2 todo s' -> reported s (r :: todo) s'.
Proof using RL.
  intros s2 Hc (Hc1 & Ht1 & i & q & Hal & Hs1 & Hcur) (sent & unsent & -> & Hdb & Hccc & Hal' & Hend).
  pose proof (readable_length _ _ (cur_db _ _ Hc)) as Hlen. unfold CGMS_DB_MAX_RECORDS in Hlen.
  pose proof (cur_rep _ _ Hc). pose proof (cur_idx _ _ Hc).
  assert (svc s2 = (svc s1) <| racp_proc_record_idx ::= (fun i => u8 (i + 1)) |>) as Es2 by done.
  exists (r :: sent), unsent. rewrite Es2, Hs1 in Hdb, Hccc, Hend. cbn [set_field rec_db racp_ccc] in Hdb, Hccc.
  split_and!; [done..|]. cbv zeta in *. destruct Hend as [(Hop & Hst & Hind & Htr)|(-> & Hst & Hop & Htr)]; [left|right].
  - split_and!; [done..|]. rewrite Htr. cbn [s2 events]. rewrite Ht1, <- app_assoc. f_equal.
    unfold outs, notifs. rewrite fmap_cons. cbn [concat]. by rewrite fmap_app.
  - split_and!; [done..|]. rewrite app_nil_r in *. rewrite Htr. cbn [s2 events calls]. rewrite Ht1, Hc1, <- app_assoc. f_equal.
    unfold outs, notifs. rewrite fmap_cons. cbn [concat]. rewrite fmap_app, <- app_assoc. do 2 f_equal.
    cbn [set_field racp_proc_records_reported]. rewrite u8_small by lia.
    unfold completion, response, responds. cbn [svc calls set_field racp_ccc racp_indicating length]. rewrite length_app.
    replace (racp_proc_records_reported (svc s) + 1 + Z.of_nat (length sent))
      with (racp_proc_records_reported (svc s) + Z.of_nat (S (length sent))) by lia.
    by rewrite Nat.add_assoc.
Qed.

Lemma report_loop_ok todo : forall fuel s,
  is_unfiltered op || (op =? RACP_OPERATOR_GREATER_OR_EQUAL) = true ->
  cursor todo (svc s) -> allowed (racp_request (svc s)) ->
  opcode (racp_request (svc s)) = RACP_OPCODE_REPORT_RECS ->
  Forall (rec_ok (ext (svc s))) todo -> accepted answer (calls s) (length (outs (svc s) todo)) ->
  (length todo + 2 <= fuel)%nat ->
  ends (report_loop answer others fuel) s (fun _ s' => reported s todo s').
Proof using RL others_ok.
  induction todo as [|r todo IH]; intros fuel s Hop Hc Hq Hreq Hok Hacc Hfuel;
    (destruct fuel as [|fuel]; [cbn in Hfuel; lia|]).
  - destruct fuel as [|fuel]; [cbn in Hfuel; lia|]. cbn [report_loop]. gatt. rewrite (cur_state _ _ Hc), decide_True by done.
    rewrite Hreq, Z.eqb_refl. cbn [negb]. rewrite (cur_op _ _ Hc).
    destruct (step_ok s [] Hc Hq I Hop) as (step & -> & Hstep). gatt.
    eapply ends_mono; [exact Hstep|]. intros err s1 [-> (Hc1 & Ht1 & i & Hs1)]. rewrite Z.eqb_refl. gatt.
    rewrite decide_False by (by rewrite Hs1). unfold racp_report_records_completed. gatt. cbv zeta.
    unfold racp_response_code_send. eapply ends_mono; [apply racp_send_ok; cbn; lia|].
    intros _ s2 [Hev Hs2]. gatt. rewrite Hs2, Hs1. cbn [set_field racp_state]. rewrite decide_False by done. gatt.
    exists [], []. rewrite Hs2, Hs1. cbn [set_field rec_db racp_ccc racp_request]. split_and!; [done..|]. right.
    split_and!; [done..|]. rewrite Hev, traffic_app, Ht1. cbn [notifs outs concat fmap list_fmap app length].
    f_equal. unfold response, responds, completion. rewrite Hs1. cbn [set_field racp_ccc racp_indicating racp_proc_records_reported].
    rewrite Hc1, Z.add_0_r, Nat.add_0_r. unfold response, responds. cbn [svc calls]. by destruct (_ && _).
  - cbn [report_loop]. gatt. rewrite (cur_state _ _ Hc), decide_True by done.
    rewrite Hreq, Z.eqb_refl. cbn [negb]. rewrite (cur_op _ _ Hc).
    apply Forall_cons in Hok as [Hr Hok]. unfold outs in Hacc. rewrite fmap_cons in Hacc. cbn [concat] in Hacc.
    rewrite length_app in Hacc. apply accepted_app in Hacc as [Hacc1 Hacc2].
    destruct (step_ok s (r :: todo) Hc Hq (conj Hr Hacc1) Hop) as (step & -> & Hstep). gatt.
    eapply ends_mono; [exact Hstep|]. intros err s1 [-> Hst1]. rewrite Z.eqb_refl. gatt.
    pose proof Hst1 as (Hc1 & Ht1 & i & q & Hal & Hs1 & Hcur).
    rewrite decide_True by exact (cur_state _ _ Hcur). gatt.
    destruct (decide (opcode q = RACP_OPCODE_REPORT_RECS)) as [Hq1|Hq1].
    + eapply ends_mono; [apply (IH fuel); cbn [svc calls events]|].
      * done. * exact Hcur. * by rewrite Hs1. * by rewrite Hs1. * by rewrite Hs1.
      * rewrite Hs1, Hc1. exact Hacc2. * cbn in Hfuel. lia.
      * intros u s' Hrep. exact (reported_cons s s1 r todo s' Hc Hst1 Hrep).
    + destruct fuel as [|fuel]; [cbn in Hfuel; lia|]. cbn [report_loop].
      gatt. rewrite decide_True by exact (cur_state _ _ Hcur). rewrite Hs1. cbn [set_field racp_request].
      rewrite (proj2 (Z.eqb_neq _ _) Hq1). cbn [negb]. gatt. exists [r], todo. cbn [svc set_field rec_db racp_ccc racp_request].
      split_and!; [done..|]. left. pose proof (cur_state _ _ Hcur) as Hact. rewrite Hs1 in Hact.
      cbn [set_field racp_state racp_indicating events] in *. split_and!; [done..|].
      rewrite Ht1. unfold outs. cbn [fmap list_fmap concat]. by rewrite app_nil_r.
Qed.
End Reporting.

Lemma filter_value_ok q : length (operand q) = 6%nat -> exists key, filter_value q = Some key.
Proof using.
  intros H. unfold filter_value. destruct (rd_in_bound (operand q) 2) as [b2 ->]; [lia|].
  destruct (rd_in_bound (operand q) 1) as [b1 ->]; [lia|]. by eexists.
Qed.

(** A report or count request that passes the checks names an operator the engine has. *)
Lemma executed_operator q : opcode q = RACP_OPCODE_REPORT_RECS \/ opcode q = RACP_OPCODE_REPORT_NUM_RECS ->
  is_request_to_be_executed q STATE_NO_COMM = Some (true, RACP_RESPONSE_RESERVED) ->
  is_unfiltered (operator q) || (operator q =? RACP_OPERATOR_GREATER_OR_EQUAL) = true.
Proof using.
  intros Hop. unfold is_request_to_be_executed, report_response_code.
  replace (opcode q =? RACP_OPCODE_ABORT_OPERATION) with false by (destruct Hop as [-> | ->]; done).
  replace ((opcode q =? RACP_OPCODE_REPORT_RECS) || _) with true by (destruct Hop as [-> | ->]; done).
  rewrite decide_False by (intros N; by apply N).
  destruct (is_unfiltered (operator q)); [done|]. destruct (_ =? RACP_OPERATOR_GREATER_OR_EQUAL); [done|].
  destruct (_ || _); [done|]. unfold operator_refused. by destruct (_ <=? _).
Qed.

Lemma initial_cursor l q key e :
  is_unfiltered (operator q) || (operator q =? RACP_OPERATOR_GREATER_OR_EQUAL) = true ->
  readable l (rec_db e) -> racp_state e = STATE_RACP_PROC_ACTIVE -> racp_proc_record_idx e = 0 ->
  racp_proc_records_reported e = 0 -> racp_proc_operator e = operator q -> racp_proc_key e = key ->
  cursor l (operator q) key (selected (operator q) key l) e.
Proof using.
  intros Hop Hp Hst Hi Hr Ho Hk. constructor; try done; rewrite ?Hi, ?Hr; try lia.
  unfold remaining, selected. rewrite Hi, Hr. change (Z.to_nat 0) with 0%nat. rewrite !drop_0.
  destruct (operator q =? RACP_OPERATOR_ALL); [done|].
  destruct (Z.eqb_spec (operator q) RACP_OPERATOR_GREATER_OR_EQUAL) as [->|]; done.
Qed.

Lemma selected_length op key l : (length (selected op key l) <= length l)%nat.
Proof using.
  unfold selected. repeat case_match; rewrite ?length_take, ?length_drop; try lia; [apply length_filter|cbn; lia].
Qed.

(** The service is at rest and a request is pending. *)
Record pending (l : list R) (q : cgms_racp) s : Prop := {
  pend_db : readable l (rec_db (svc s));
  pend_state : racp_state (svc s) = STATE_NO_COMM;
  pend_request : racp_request (svc s) = q;
  pend_operand : length (operand q) = 6%nat
}.

(** What a report of the records [todo] that began in [s] has done by [s']. *)
Definition report_outcome s (todo : list R) s' : Prop :=
  exists sent unsent, todo = sent ++ unsent /\ rec_db (svc s') = rec_db (svc s) /\ racp_ccc (svc s') = racp_ccc (svc s) /\
    (opcode (racp_request (svc s')) <> RACP_OPCODE_REPORT_RECS /\ racp_state (svc s') = STATE_RACP_PROC_ACTIVE /\
       racp_indicating (svc s') = racp_indicating (svc s) /\
       traffic (events s') = traffic (events s) ++ notifs (outs (svc s) sent) \/
     unsent = [] /\ racp_state (svc s') = STATE_NO_COMM /\ opcode (racp_request (svc s')) = RACP_OPCODE_REPORT_RECS /\
       traffic (events s') = traffic (events s) ++ notifs (outs (svc s) todo) ++
         completion (Z.of_nat (length todo)) (Server (svc s) (calls s + length (outs (svc s) todo)) [])).

Section Handling.
Context (others : M (server (engine R X)) unit) (allowed : cgms_racp -> Prop).
Hypothesis others_ok : forall s, allowed (racp_request (svc s)) ->
  ends others s (fun _ s' => calls s' = calls s /\ traffic (events s') = traffic (events s) /\
    exists q, allowed q /\ svc s' = (svc s) <| racp_request := q |>).

Lemma handle_report l q s key : pending l q s -> allowed q -> opcode q = RACP_OPCODE_REPORT_RECS ->
  is_request_to_be_executed q STATE_NO_COMM = Some (true, RACP_RESPONSE_RESERVED) ->
  filter_value q = Some key ->
  Forall (rec_ok (ext (svc s))) (selected (operator q) key l) ->
  accepted answer (calls s) (length (outs (svc s) (selected (operator q) key l))) ->
  ends (racp_handle answer others) s (fun _ s' =>
    allowed (racp_request (svc s')) /\ report_outcome s (selected (operator q) key l) s').
Proof using RL others_ok.
  intros [Hp Hst Hreq Hlen] Hq Hop Hex Hkey Hok Hacc. pose proof (readable_length _ _ Hp) as Hl.
  pose proof (executed_operator _ (or_introl Hop) Hex) as Hknown.
  unfold racp_handle. gatt. rewrite Hreq, Hst, Hex. eapply ends_lift; [done|]. cbv beta iota zeta. gatt.
  rewrite Hop, Z.eqb_refl. unfold report_records_request_execute, racp_report_records_procedure, state_set. gatt.
  rewrite Hkey. eapply ends_lift; [done|]. gatt. eapply ends_mono.
  { eapply (report_loop_ok others allowed others_ok l (operator q) key); cbn [svc calls events set_field racp_request ext].
    - done. - by apply initial_cursor.
    - by rewrite Hreq. - by rewrite Hreq. - exact Hok. - exact Hacc.
    - pose proof (selected_length (operator q) key l). lia. }
  intros u s' (sent & unsent & Htodo & Hdb & Hccc & Hal & Hend). split; [done|]. exists sent, unsent.
  rewrite Hdb, Hccc. split_and!; [done..|]. cbv zeta in Hend. cbn [svc set_field racp_indicating] in Hend.
  destruct Hend as [(? & ? & ? & Htr)|(-> & ? & ? & Htr)]; [left|right]; split_and!; try done.
  rewrite app_nil_r in Htodo. by rewrite Htr, Htodo.
Qed.
End Handling.

(** ** Counting and deleting *)
Lemma count_loop_ok l d key n : forall i acc, readable l d -> (i <= length l)%nat -> (length l - i < n)%nat ->
  0 <= acc -> acc + Z.of_nat (length l - i) < 65536 ->
  count_loop n (Z.of_nat i) (Z.of_nat (length l)) key acc d =
  Some (Some (acc + Z.of_nat (length (filter (fun r => key <= rec_key r) (drop i l))))).
Proof using.
  induction n as [|n IH]; intros i acc Hd Hi Hn Ha Hlt; [lia|]. cbn [count_loop].
  pose proof (readable_length _ _ Hd) as Hlen. unfold CGMS_DB_MAX_RECORDS in Hlen.
  destruct (Z.ltb_spec (Z.of_nat i) (Z.of_nat (length l))).
  2: { rewrite drop_ge by lia. cbn. by rewrite Z.add_0_r. }
  destruct (lookup_lt_is_Some_2 l i) as [r Hr]; [lia|].
  rewrite u8_small by lia. rewrite (readable_get _ _ _ _ Hd Hr). cbn [mbind option_bind].
  replace (Z.of_nat i + 1) with (Z.of_nat (S i)) by lia. rewrite (drop_S l r i Hr).
  destruct (Z.leb_spec key (rec_key r)).
  - rewrite filter_cons_True by done. rewrite IH by (done || lia || rewrite u16_small; lia).
    rewrite u16_small by lia. cbn [length]. do 2 f_equal. lia.
  - rewrite filter_cons_False by lia. rewrite IH by (done || lia). done.
Qed.


(** The number reported is the number of records a report would send. *)
Lemma handle_num l q s key others : pending l q s -> opcode q = RACP_OPCODE_REPORT_NUM_RECS ->
  is_request_to_be_executed q STATE_NO_COMM = Some (true, RACP_RESPONSE_RESERVED) -> filter_value q = Some key ->
  ends (racp_handle answer others) s (fun _ s' =>
    rec_db (svc s') = rec_db (svc s) /\ racp_state (svc s') = STATE_NO_COMM /\
    let n := Z.of_nat (length (selected (operator q) key l)) in
    events s' = events s ++ response [RACP_OPCODE_NUM_RECS_RESPONSE; RACP_OPERATOR_NULL; n mod 256; n / 256] s).
Proof using RL.
  intros [Hp Hst Hreq Hlen] Hop Hex Hkey. pose proof (readable_length _ _ Hp) as Hl. unfold CGMS_DB_MAX_RECORDS in Hl.
  unfold racp_handle. gatt. rewrite Hreq, Hst, Hex. eapply ends_lift; [done|]. cbv beta iota zeta. gatt.
  rewrite Hop. cbn [Z.eqb Pos.eqb RACP_OPCODE_REPORT_RECS RACP_OPCODE_REPORT_NUM_RECS].
  unfold report_num_records_request_execute, db_num_records_get. gatt. cbn [set_field rec_db].
  rewrite (readable_num _ _ Hp), Nat2Z.id.
  set (n := Z.of_nat (length (selected (operator q) key l))).
  assert (0 <= n < 65536) as Hn by (pose proof (selected_length (operator q) key l); lia).
  set (s1 := Server _ _ _). eapply (ends_mono _ _ (fun num s' => num = Some n /\ s' = s1)).
  { unfold n, selected. destruct (operator q =? RACP_OPERATOR_ALL) eqn:Ha; [by gatt|].
    destruct (operator q =? RACP_OPERATOR_GREATER_OR_EQUAL) eqn:Hg.
    - apply Z.eqb_eq in Hg. rewrite Hg. gatt. rewrite Hkey. eapply ends_lift; [done|]. cbn [Z.eqb Pos.eqb RACP_OPERATOR_FIRST RACP_OPERATOR_LAST RACP_OPERATOR_GREATER_OR_EQUAL].
      eapply ends_lift; [|done]. change 0 with (Z.of_nat 0) at 1. rewrite (count_loop_ok l) by (done || lia).
      by rewrite drop_0, Z.add_0_l.
    - destruct (operator q =? RACP_OPERATOR_FIRST) eqn:Hf; [gatt|destruct (operator q =? RACP_OPERATOR_LAST) eqn:Hla; gatt];
        (split; [|done]); f_equal; [rewrite length_take; case_cmp; lia|rewrite length_drop; case_cmp; lia]. }
  intros num s' [-> ->]. eapply ends_mono; [apply racp_send_ok; cbn; lia|]. intros u s2 [Hev Hs2]. rewrite Hs2.
  split_and!; [done..|]. cbv zeta. rewrite Hev. cbn [app]. f_equal.
  match goal with |- response ?d s1 = _ => change (response d s1) with (response d s) end. f_equal.
  change 0xFF with (Z.ones 8). rewrite Z.land_ones, Z.shiftr_div_pow2 by lia. reflexivity.
Qed.

(** A request that is not executed is answered with its code and leaves the service idle. *)
Lemma handle_refused l q s code others : pending l q s ->
  is_request_to_be_executed q STATE_NO_COMM = Some (false, code) -> code <> RACP_RESPONSE_RESERVED ->
  ends (racp_handle answer others) s (fun _ s' =>
    rec_db (svc s') = rec_db (svc s) /\ racp_state (svc s') = STATE_NO_COMM /\
    events s' = events s ++ response [RACP_OPCODE_RESPONSE_CODE; RACP_OPERATOR_NULL; opcode q; code] s).
Proof using RL.
  intros [Hp Hst Hreq Hlen] Hex Hcode. unfold racp_handle, state_set. gatt. rewrite Hreq, Hst, Hex.
  eapply ends_lift; [done|]. cbv beta iota zeta. gatt. rewrite (proj2 (Z.eqb_neq _ _) Hcode). cbn [negb]. gatt.
  unfold racp_response_code_send. eapply ends_mono; [apply racp_send_ok; cbn; lia|]. intros u s2 [Hev Hs2].
  rewrite Hs2. by split_and!.
Qed.

(** An abort during a report: acknowledged, and the procedure is over. *)
Definition is_abort (q : cgms_racp) : Prop :=
  opcode q = RACP_OPCODE_ABORT_OPERATION /\ operator q = RACP_OPERATOR_NULL /\ operand_len q = 0.
Lemma handle_abort s others : is_abort (racp_request (svc s)) -> racp_state (svc s) = STATE_RACP_PROC_ACTIVE ->
  ends (racp_handle answer others) s (fun _ s' =>
    rec_db (svc s') = rec_db (svc s) /\ racp_state (svc s') = STATE_NO_COMM /\
    events s' = events s ++ response [RACP_OPCODE_RESPONSE_CODE; RACP_OPERATOR_NULL; RACP_OPCODE_ABORT_OPERATION; RACP_RESPONSE_SUCCESS] s).
Proof using RL.
  intros (Hop & Hopr & Hlen) Hst. unfold racp_handle, state_set. gatt. rewrite Hst. eapply ends_lift.
  { unfold is_request_to_be_executed. rewrite Hop, Hopr, Hlen. cbn. by rewrite decide_True. }
  cbv beta iota zeta. gatt. rewrite Hop. cbn. gatt.
  unfold racp_response_code_send. eapply ends_mono; [apply racp_send_ok; cbn; lia|]. intros u s2 [Hev Hs2].
  rewrite Hs2. by split_and!.
Qed.

(** Deleting: what the response says and what is left to read. *)
Definition after_delete (op : Z) (l : list R) (d : db R) : Prop :=
  if op =? RACP_OPERATOR_ALL then packed [] d
  else if op =? RACP_OPERATOR_FIRST then readable (take (length l - 1) l) d
  else packed (take (length l - 1) l) d.
Definition deletable (op : Z) (l : list R) : Prop := op = RACP_OPERATOR_LAST -> length l = CGMS_DB_MAX_RECORDS.
Definition delete_code (l : list R) : Z :=
  if bool_decide (l = []) then RACP_RESPONSE_NO_RECORDS_FOUND else RACP_RESPONSE_SUCCESS.

Lemma free_first_used_none (es : list (database_entry R)) :
  Forall (fun x => is_in_use x = false) es -> free_first_used es = None.
Proof using. induction 1 as [|x es Hx _ IH]; [done|]. cbn. by rewrite Hx, IH. Qed.

Lemma delete_first_code l d : packed l d -> exists err d', db_record_delete_first d = (err, d') /\
  (if 0 <? (if err =? 0 then 1 else 0) then RACP_RESPONSE_SUCCESS else RACP_RESPONSE_NO_RECORDS_FOUND) = delete_code l /\
  readable (take (length l - 1) l) d'.
Proof using.
  intros Hp. destruct l as [|r l].
  - exists (-1), d. pose proof Hp as (rest & Hd & Hf & _). unfold db_record_delete_first. rewrite Hd.
    cbn [fmap list_fmap app]. rewrite free_first_used_none by done. split_and!; [done..|by apply packed_readable].
  - destruct (delete_first_stale _ _ _ Hp) as (d' & -> & Hr). exists 0, d'. split_and!; [done..|].
    cbn [length]. by rewrite Nat.sub_succ, Nat.sub_0_r.
Qed.

Lemma handle_delete l q s others : pending l q s -> packed l (rec_db (svc s)) -> opcode q = RACP_OPCODE_DELETE_RECS ->
  is_request_to_be_executed q STATE_NO_COMM = Some (true, RACP_RESPONSE_RESERVED) -> deletable (operator q) l ->
  ends (racp_handle answer others) s (fun _ s' =>
    after_delete (operator q) l (rec_db (svc s')) /\ racp_state (svc s') = STATE_NO_COMM /\
    events s' = events s ++ response [RACP_OPCODE_RESPONSE_CODE; RACP_OPERATOR_NULL; RACP_OPCODE_DELETE_RECS; delete_code l] s).
Proof using RL.
  intros [_ Hst Hreq Hlen] Hp Hop Hex Hdel. unfold racp_handle. gatt. rewrite Hreq, Hst, Hex.
  eapply ends_lift; [done|]. cbv beta iota zeta. gatt. rewrite Hop.
  cbn [Z.eqb Pos.eqb RACP_OPCODE_REPORT_RECS RACP_OPCODE_REPORT_NUM_RECS RACP_OPCODE_DELETE_RECS when].
  unfold delete_records_request_execute, db_num_records_get. gatt. cbn [set_field rec_db].
  eapply (ends_mono _ _ (fun n s1 => (if 0 <? n then RACP_RESPONSE_SUCCESS else RACP_RESPONSE_NO_RECORDS_FOUND) = delete_code l /\
    after_delete (operator q) l (rec_db (svc s1)) /\
    svc s1 = (svc s) <| racp_response_code := RACP_RESPONSE_RESERVED |> <| rec_db := rec_db (svc s1) |> /\
    calls s1 = calls s /\ events s1 = events s)).
  - unfold after_delete. destruct (Z.eqb_spec (operator q) RACP_OPERATOR_ALL) as [|Na].
    { gatt. split_and!; [|by eapply packed_delete_all|done..]. rewrite (packed_num _ _ Hp). by destruct l. }
    destruct (Z.eqb_spec (operator q) RACP_OPERATOR_FIRST) as [|Nf].
    { destruct (delete_first_code _ _ Hp) as (err & d' & -> & Hcode & Hr). cbv zeta beta iota. gatt. by split_and!. }
    destruct (Z.eqb_spec (operator q) RACP_OPERATOR_LAST) as [El|Nl].
    + specialize (Hdel El). destruct (exists_last (l := l)) as (l' & r & ->); [by intros ->|].
      destruct (delete_last_full _ _ _ Hp Hdel) as (d' & Hd' & Hp'). gatt. eapply ends_lift; [exact Hd'|]. cbv beta iota. gatt.
      split_and!; [by destruct l'|..|done|done|done]. rewrite length_app. cbn [length]. by rewrite Nat.add_sub, take_app_length.
    + exfalso. unfold is_request_to_be_executed in Hex. rewrite Hop in Hex. cbn in Hex.
      rewrite decide_False in Hex by (intros N; by apply N).
      unfold delete_response_code, is_unfiltered in Hex.
      rewrite (proj2 (Z.eqb_neq _ _) Na), (proj2 (Z.eqb_neq _ _) Nf), (proj2 (Z.eqb_neq _ _) Nl) in Hex. cbn [orb] in Hex.
      unfold operator_refused in Hex. by repeat case_match.
  - intros n s1 (Hcode & Hd & Hs1 & Hc1 & Hev1). rewrite Hcode. eapply ends_mono; [apply racp_send_ok; cbn; lia|].
    intros u s2 [Hev Hs2]. rewrite Hs2. cbn [set_field rec_db racp_state]. split_and!; [done|by rewrite Hs1|].
    rewrite Hev, Hev1. f_equal. unfold response, responds. rewrite Hs1, Hc1. done.
Qed.

#[local] Arguments db_record_delete_last : simpl never.
(** With a free entry left, deleting the last record reads past the array. *)
Lemma handle_delete_last_overruns l q s others : pending l q s -> packed l (rec_db (svc s)) ->
  opcode q = RACP_OPCODE_DELETE_RECS -> operator q = RACP_OPERATOR_LAST -> operand_len q = 0 ->
  (length l < CGMS_DB_MAX_RECORDS)%nat -> racp_handle answer others s = None.
Proof using.
  intros [_ Hst Hreq Hlen] Hp Hop Hopr Hol Hlt. unfold racp_handle, get_svc, upd_svc, delete_records_request_execute. munfold.
  rewrite Hreq, Hst. unfold is_request_to_be_executed, delete_response_code, no_operand. rewrite Hop, Hopr, Hol. cbn.
  rewrite decide_False by (intros N; by apply N). cbn. change (rec_db (set_field _ (svc s))) with (rec_db (svc s)). by rewrite (delete_last_overruns _ _ Hp Hlt).
Qed.

(** ** What a service promises its peer *)

(** Other threads leave the service alone while a report sleeps. *)
Definition quiet (others : M (server (engine R X)) unit) : Prop := forall s,
  ends others s (fun _ s' => calls s' = calls s /\ traffic (events s') = traffic (events s) /\ svc s' = svc s).
(** They may replace the request, as the write handler does. *)
Definition writes_requests (others : M (server (engine R X)) unit) : Prop := forall s,
  ends others s (fun _ s' => calls s' = calls s /\ traffic (events s') = traffic (events s) /\
    exists q, svc s' = (svc s) <| racp_request := q |>).

(** The report of an undisturbed service. *)
Lemma handle_report_quiet others l q s key : quiet others -> pending l q s ->
  opcode q = RACP_OPCODE_REPORT_RECS ->
  is_request_to_be_executed q STATE_NO_COMM = Some (true, RACP_RESPONSE_RESERVED) -> filter_value q = Some key ->
  let todo := selected (operator q) key l in
  Forall (rec_ok (ext (svc s))) todo -> accepted answer (calls s) (length (outs (svc s) todo)) ->
  ends (racp_handle answer others) s (fun _ s' =>
    rec_db (svc s') = rec_db (svc s) /\ racp_state (svc s') = STATE_NO_COMM /\
    traffic (events s') = traffic (events s) ++ notifs (outs (svc s) todo) ++
      completion (Z.of_nat (length todo)) (Server (svc s) (calls s + length (outs (svc s) todo)) [])).
Proof using RL.
  intros Hquiet Hp Hop Hex Hkey todo Hok Hacc. eapply ends_mono.
  - apply (handle_report others (fun q' => q' = q)) with (l := l) (q := q) (key := key); try done.
    intros s0 Hq0. eapply ends_mono; [apply Hquiet|]. intros u s1 (H1 & H2 & H3). split_and!; [done..|].
    exists q. split; [done|]. rewrite H3, <- Hq0. by destruct (svc s0).
  - intros u s' [Hq (sent & unsent & _ & Hdb & _ & [(N & _)|(_ & Hst & _ & Htr)])]; [by rewrite Hq in N|]. done.
Qed.

(** C5. Reporting refines selection: when a valid report request is worked off and nothing
    interferes, the peer is sent exactly the notifications of the records its operator and
    filter select, in the order stored, then one response that says whether there were any;
    the records are untouched and the service is idle again. *)
Theorem report_sends_selected others l q s key : quiet others -> pending l q s ->
  opcode q = RACP_OPCODE_REPORT_RECS ->
  is_request_to_be_executed q STATE_NO_COMM = Some (true, RACP_RESPONSE_RESERVED) -> filter_value q = Some key ->
  let todo := selected (operator q) key l in
  Forall (rec_ok (ext (svc s))) todo -> accepted answer (calls s) (length (outs (svc s) todo)) ->
  ends (racp_handle answer others) s (fun _ s' =>
    rec_db (svc s') = rec_db (svc s) /\ racp_state (svc s') = STATE_NO_COMM /\
    traffic (events s') = traffic (events s) ++ notifs (outs (svc s) todo) ++
      completion (Z.of_nat (length todo)) (Server (svc s) (calls s + length (outs (svc s) todo)) [])).
Proof using RL. apply handle_report_quiet. Qed.

(** Aborting: when a request to abort arrives while a report sleeps, the report stops
    after the records already sent, without a completion; working off the abort acknowledges
    it and leaves the service idle, the records untouched. *)
Theorem abort_stops_report others l q s key : writes_requests others -> pending l q s ->
  opcode q = RACP_OPCODE_REPORT_RECS ->
  is_request_to_be_executed q STATE_NO_COMM = Some (true, RACP_RESPONSE_RESERVED) -> filter_value q = Some key ->
  let todo := selected (operator q) key l in
  Forall (rec_ok (ext (svc s))) todo -> accepted answer (calls s) (length (outs (svc s) todo)) ->
  ends (racp_handle answer others) s (fun _ s1 => is_abort (racp_request (svc s1)) ->
    ends (racp_handle answer others) s1 (fun _ s2 =>
      rec_db (svc s2) = rec_db (svc s) /\ racp_state (svc s2) = STATE_NO_COMM /\
      exists sent unsent, todo = sent ++ unsent /\
        traffic (events s2) = traffic (events s) ++ notifs (outs (svc s) sent) ++
          response [RACP_OPCODE_RESPONSE_CODE; RACP_OPERATOR_NULL; RACP_OPCODE_ABORT_OPERATION; RACP_RESPONSE_SUCCESS]
            (Server (svc s) (calls s1) []))).
Proof using RL.
  intros Hw Hp Hop Hex Hkey todo Hok Hacc. eapply ends_mono.
  - apply (handle_report others (fun _ => True)) with (l := l) (q := q) (key := key); try done.
    intros s0 _. eapply ends_mono; [apply Hw|]. intros u s1 (H1 & H2 & q' & H3). split_and!; [done..|]. by exists q'.
  - intros u s1 [_ (sent & unsent & Htodo & Hdb & Hccc & Hend)] Hab.
    destruct Hend as [(_ & Hst & Hind & Htr)|(_ & _ & N & _)]; [|by rewrite (proj1 Hab) in N].
    eapply ends_mono; [by apply handle_abort|]. intros u2 s2 (Hdb2 & Hst2 & Hev2).
    split_and!; [by rewrite Hdb2|done|]. exists sent, unsent. split; [done|].
    rewrite Hev2, traffic_app, Htr, <- app_assoc. do 2 f_equal. unfold response, responds. rewrite Hccc, Hind. cbn [svc calls].
    by destruct (_ && _).
Qed.

(** Counting agrees with reporting: the answer to a request for the number of records
    carries, low byte first, the number of records the same filter would have reported. *)
Theorem count_matches_report others l q s key : pending l q s -> opcode q = RACP_OPCODE_REPORT_NUM_RECS ->
  is_request_to_be_executed q STATE_NO_COMM = Some (true, RACP_RESPONSE_RESERVED) -> filter_value q = Some key ->
  ends (racp_handle answer others) s (fun _ s' =>
    rec_db (svc s') = rec_db (svc s) /\ racp_state (svc s') = STATE_NO_COMM /\
    let n := Z.of_nat (length (selected (operator q) key l)) in
    events s' = events s ++ response [RACP_OPCODE_NUM_RECS_RESPONSE; RACP_OPERATOR_NULL; n mod 256; n / 256] s).
Proof using RL. apply handle_num. Qed.

Lemma request_checked q : length (operand q) = 6%nat ->
  (exists code, is_request_to_be_executed q STATE_NO_COMM = Some (false, code) /\ code <> RACP_RESPONSE_RESERVED) \/
  is_request_to_be_executed q STATE_NO_COMM = Some (true, RACP_RESPONSE_RESERVED) /\
    (opcode q = RACP_OPCODE_REPORT_RECS \/ opcode q = RACP_OPCODE_REPORT_NUM_RECS \/ opcode q = RACP_OPCODE_DELETE_RECS).
Proof using.
  intros Hlen. unfold is_request_to_be_executed.
  assert (forall code, (exists c, Some (code =? RACP_RESPONSE_RESERVED, code) = Some (false, c) /\ c <> RACP_RESPONSE_RESERVED) \/
    Some (code =? RACP_RESPONSE_RESERVED, code) = Some (true, RACP_RESPONSE_RESERVED)) as Hcode.
  { intros code. destruct (Z.eqb_spec code RACP_RESPONSE_RESERVED) as [->|]; [by right|left; by exists code]. }
  destruct (opcode q =? RACP_OPCODE_ABORT_OPERATION); [left; by eexists|].
  rewrite decide_False by (intros N; by apply N).
  destruct (_ || _) eqn:Hrep.
  - assert (exists code, report_response_code q = Some code) as [code ->].
    { unfold report_response_code. destruct (rd_in_bound (operand q) 0) as [b ->]; [lia|]. cbn [mbind option_bind].
      repeat case_match; eauto. }
    cbn [fmap option_fmap option_map]. destruct (Hcode code) as [?|H]; [by left|right]. split; [exact H|].
    apply orb_true_iff in Hrep as [E|E]; apply Z.eqb_eq in E; auto.
  - destruct (Z.eqb_spec (opcode q) RACP_OPCODE_DELETE_RECS); [|left; by eexists].
    destruct (Hcode (delete_response_code q)) as [?|H]; [by left|right]. split; [exact H|auto].
Qed.


(** Deleting the first record of a packed store answers with success and frees its
    entry, but the readers index the array from 0: the deleted record is still counted and
    reported as the first one and the newest record is gone instead. *)
Theorem delete_first_drops_newest l r q s others : pending (r :: l) q s -> packed (r :: l) (rec_db (svc s)) ->
  opcode q = RACP_OPCODE_DELETE_RECS -> operator q = RACP_OPERATOR_FIRST -> operand_len q = 0 ->
  ends (racp_handle answer others) s (fun _ s' => readable (take (length l) (r :: l)) (rec_db (svc s')) /\
    events s' = events s ++ response [RACP_OPCODE_RESPONSE_CODE; RACP_OPERATOR_NULL; RACP_OPCODE_DELETE_RECS; RACP_RESPONSE_SUCCESS] s).
Proof using RL.
  intros Hp Hpk Hop Hopr Hol. eapply ends_mono.
  - apply (handle_delete (r :: l) q s); try done; [|by rewrite Hopr].
    unfold is_request_to_be_executed, delete_response_code, no_operand. rewrite Hop, Hopr, Hol. cbn.
    by rewrite decide_False by (intros N; by apply N).
  - intros u s' (Hd & _ & Hev). split; [|exact Hev]. unfold after_delete in Hd. rewrite Hopr in Hd. cbn [Z.eqb Pos.eqb RACP_OPERATOR_ALL RACP_OPERATOR_FIRST] in Hd.
    cbn [length] in Hd. by rewrite Nat.sub_succ, Nat.sub_0_r in Hd.
Qed.
End EngineFacts.
