(* ===== verification/RacpTypes.v ===== *)
(** * Types of the record access control point

    The invariant of the engine's state - every variable in the range of its C type, arrays of
    their lengths, the count equal to the entries in use - and the computations that keep it.
    The lemmas about the monad's building blocks are hints, and the tactic [keeps] decomposes
    a handler with them. *)
From S2P Require Import Prelude Gatt Racp.

(** ** The engine's invariant: every variable keeps its C type, the array its length, and
    the count is the number of entries in use. *)
Definition byte (b : Z) : Prop := 0 <= b < 256.
Definition bytes_ok (n : nat) (bs : list Z) : Prop := length bs = n /\ Forall byte bs.
Definition used {R} (l : list (database_entry R)) : nat := length (filter (fun e => is_in_use e = true) l).

Section Invariant.
Context `{RS : RecordService R X} (rec_typed : R -> Prop) (ext_typed : X -> Prop).

Record db_typed (d : db R) : Prop := {
  db_size : length (database d) = CGMS_DB_MAX_RECORDS;
  db_count : records_num d = Z.of_nat (used (database d));
  db_records : Forall (fun e => rec_typed (record e)) (database d)
}.
Record engine_typed (e : engine R X) : Prop := {
  ty_db : db_typed (rec_db e);
  ty_request : bytes_ok 6 (operand (racp_request e)) /\ byte (opcode (racp_request e)) /\
    byte (operator (racp_request e)) /\ byte (operand_len (racp_request e));
  ty_idx : byte (racp_proc_record_idx e);
  ty_reported : byte (racp_proc_records_reported e);
  ty_key : 0 <= racp_proc_key e < 65536;
  ty_operator : byte (racp_proc_operator e);
  ty_buf : length (racp_buf e) = Z.to_nat racp_buf_size;
  ty_ext : ext_typed (ext e)
}.

Lemma used_le (l : list (database_entry R)) : (used l <= length l)%nat.
Proof using. apply length_filter. Qed.
Lemma used_cons (x : database_entry R) l : used (x :: l) = ((if is_in_use x then 1 else 0) + used l)%nat.
Proof using. unfold used. rewrite filter_cons. by destruct (is_in_use x). Qed.
Lemma used_free_all (l : list (database_entry R)) : used (free_entry <$> l) = 0%nat.
Proof using. induction l as [|x l IH]; [done|]. rewrite fmap_cons, used_cons. by rewrite IH. Qed.

Lemma db_typed_free_all (d : db R) : db_typed d -> db_typed (Db (free_entry <$> database d) 0).
Proof using.
  intros [H1 H2 H3]. constructor; cbn [database records_num]; [by rewrite length_fmap|by rewrite used_free_all|].
  apply Forall_fmap. eapply Forall_impl; [exact H3|]. done.
Qed.
Lemma add_first_free_typed r l l' : add_first_free r l = Some l' -> rec_typed r ->
  Forall (fun e => rec_typed (record e)) l ->
  length l' = length l /\ used l' = S (used l) /\ Forall (fun e => rec_typed (record e)) l'.
Proof using.
  revert l'. induction l as [|x l IH]; intros l' Hl Hr Hf; [done|]. cbn in Hl. apply Forall_cons in Hf as [Hx Hf].
  destruct (is_in_use x) eqn:Hu.
  - destruct (add_first_free r l) as [l1|]; [|done]. injection Hl as <-. destruct (IH l1 eq_refl Hr Hf) as (? & Hused & ?).
    rewrite !used_cons, Hu, Hused. cbn. split_and!; [lia|lia|by constructor].
  - injection Hl as <-. rewrite !used_cons, Hu. cbn. split_and!; [done|done|by constructor].
Qed.
Lemma free_first_used_typed l l' : free_first_used l = Some l' -> Forall (fun e => rec_typed (record e)) l ->
  length l' = length l /\ used l = S (used l') /\ Forall (fun e => rec_typed (record e)) l'.
Proof using.
  revert l'. induction l as [|x l IH]; intros l' Hl Hf; [done|]. cbn in Hl. apply Forall_cons in Hf as [Hx Hf].
  destruct (is_in_use x) eqn:Hu.
  - injection Hl as <-. rewrite !used_cons, Hu. cbn. split_and!; [done|done|by constructor].
  - destruct (free_first_used l) as [l1|]; [|done]. injection Hl as <-. destruct (IH l1 eq_refl Hf) as (? & Hused & ?).
    rewrite !used_cons, Hu, Hused. cbn. split_and!; [lia|lia|by constructor].
Qed.
Lemma db_typed_add r d : db_typed d -> rec_typed r -> db_typed (db_record_add r d).2.
Proof using.
  intros Hd Hr. pose proof Hd as [H1 H2 H3]. unfold db_record_add. destruct (_ =? _); [done|].
  destruct (add_first_free r (database d)) as [l|] eqn:Hl; [|done].
  destruct (add_first_free_typed _ _ _ Hl Hr H3) as (L & U & F). pose proof (used_le l).
  constructor; cbn [database records_num snd]; [by rewrite L| |done]. unfold CGMS_DB_MAX_RECORDS in *. rewrite u16_small; lia.
Qed.
Lemma db_typed_delete_first d : db_typed d -> db_typed (db_record_delete_first d).2.
Proof using.
  intros Hd. pose proof Hd as [H1 H2 H3]. unfold db_record_delete_first.
  destruct (free_first_used (database d)) as [l|] eqn:Hl; [|done].
  destruct (free_first_used_typed _ _ Hl H3) as (L & U & F). pose proof (used_le (database d)).
  constructor; cbn [database records_num snd]; [by rewrite L| |done]. unfold CGMS_DB_MAX_RECORDS in *. rewrite u16_small; lia.
Qed.
Lemma used_insert (l : list (database_entry R)) (i : nat) x : l !! i = Some x -> is_in_use x = true -> used l = S (used (<[i := free_entry x]> l)).
Proof using.
  revert i. induction l as [|y l IH]; intros [|i] Hi Hx; cbn in Hi; try done.
  - injection Hi as ->. cbn [insert list_insert]. rewrite !used_cons, Hx. done.
  - change (<[S i := free_entry x]> (y :: l)) with (y :: <[i := free_entry x]> l).
    pose proof (IH i Hi Hx). rewrite !used_cons. lia.
Qed.
Lemma delete_last_loop_typed fuel : forall i d err d', delete_last_loop fuel i d = Some (err, d') -> db_typed d -> db_typed d'.
Proof using.
  induction fuel as [|fuel IH]; intros i d err d' Hrun Hd; [done|]. cbn in Hrun.
  destruct (0 <=? i); [|by injection Hrun as <- <-].
  destruct (rd (database d) i) as [x|] eqn:Hx; [|done]. cbn in Hrun.
  destruct (is_in_use x) eqn:Hu; [|by eapply IH]. pose proof (rd_Some_bound _ _ _ Hx).
  rewrite wr_in_bound in Hrun by done. cbn in Hrun. injection Hrun as <- <-. destruct Hd as [H1 H2 H3].
  unfold rd in Hx. rewrite (proj2 (Z.leb_le 0 i)) in Hx by lia. pose proof (used_insert _ _ _ Hx Hu) as Hused.
  pose proof (used_le (database d)).
  constructor; cbn [database records_num]; [by rewrite length_insert|unfold CGMS_DB_MAX_RECORDS in *; rewrite u16_small; lia|].
  apply Forall_insert; [done|]. by apply (Forall_lookup_1 _ _ _ _ H3 Hx).
Qed.

(** *** Computations that keep the invariant *)
Definition keeps {A} (m : M (server (engine R X)) A) : Prop := forall s,
  engine_typed (svc s) -> ends_if m s (fun _ s' => engine_typed (svc s')).

Lemma keeps_bind {A B} (m : M (server (engine R X)) A) (k : A -> M (server (engine R X)) B) :
  keeps m -> (forall a, keeps (k a)) -> keeps (m ≫= k).
Proof using.
  intros Hm Hk s Hs. apply ends_if_bind. eapply ends_if_mono; [by apply Hm|]. intros a s' Hs'. by apply Hk.
Qed.
(** The value of a state is that of a typed state. *)
Lemma keeps_get_svc {B} (k : engine R X -> M (server (engine R X)) B) :
  (forall e, engine_typed e -> keeps (k e)) -> keeps (e ← get_svc; k e).
Proof using. intros Hk s Hs. apply ends_if_bind, ends_if_get_svc. by apply Hk. Qed.
Lemma keeps_lift {A B} (o : option A) (k : A -> M (server (engine R X)) B) :
  (forall a, o = Some a -> keeps (k a)) -> keeps (a ← lift o; k a).
Proof using. intros Hk s Hs. apply ends_if_bind, ends_if_lift. intros a Ha. by apply Hk. Qed.
Lemma keeps_lifted {A} (o : option A) : keeps (lift o).
Proof using. intros s Hs. by apply ends_if_lift. Qed.
Lemma keeps_ret {A} (a : A) : keeps (mret a).
Proof using. intros s Hs. exact Hs. Qed.
Lemma keeps_ub {A} : keeps (ub (A := A)).
Proof using. intros s Hs. exact I. Qed.
Lemma keeps_upd f : (forall e, engine_typed e -> engine_typed (f e)) -> keeps (upd_svc f).
Proof using. intros Hf s Hs. apply ends_if_upd_svc. by apply Hf. Qed.
Lemma keeps_emit ev : keeps (emit ev).
Proof using. intros s Hs. exact Hs. Qed.
Lemma keeps_when (b : bool) m : keeps m -> keeps (when b m).
Proof using. destruct b; [done|]. intros _. apply keeps_ret. Qed.
Lemma keeps_notify answer attr data : keeps (bt_gatt_notify answer attr data).
Proof using. intros s Hs. exact Hs. Qed.
Lemma keeps_indicate answer attr data : keeps (bt_gatt_indicate answer attr data).
Proof using. intros s Hs. exact Hs. Qed.
Lemma keeps_state_set st : keeps (state_set st).
Proof using. apply keeps_upd. intros e [? ? ? ? ? ? ? ?]. by constructor. Qed.
Lemma keeps_advance : keeps (upd_svc (fun e => e <| racp_proc_record_idx ::= (fun i => u8 (i + 1)) |>)).
Proof using. apply keeps_upd. intros e [? ? ? ? ? ? ? ?]. constructor; try done. apply u8_range. Qed.
Lemma keeps_indicating i : keeps (upd_svc (fun e => e <| racp_indicating := i |>)).
Proof using. apply keeps_upd. intros e [? ? ? ? ? ? ? ?]. by constructor. Qed.
Lemma keeps_code c : keeps (upd_svc (fun e => e <| racp_response_code := c |>)).
Proof using. apply keeps_upd. intros e [? ? ? ? ? ? ? ?]. by constructor. Qed.
Lemma keeps_buf b : length b = Z.to_nat racp_buf_size -> keeps (upd_svc (fun e => e <| racp_buf := b |>)).
Proof using. intros Hb. apply keeps_upd. intros e [? ? ? ? ? ? ? ?]. by constructor. Qed.
Lemma keeps_db f : (forall d, db_typed d -> db_typed (f d)) -> keeps (upd_svc (fun e => e <| rec_db ::= f |>)).
Proof using. intros Hf. apply keeps_upd. intros e [? ? ? ? ? ? ? ?]. constructor; try done. by apply Hf. Qed.
Lemma keeps_ext f : (forall x, ext_typed x -> ext_typed (f x)) -> keeps (upd_svc (fun e => e <| ext ::= f |>)).
Proof using. intros Hf. apply keeps_upd. intros e [? ? ? ? ? ? ? ?]. constructor; try done. by apply Hf. Qed.
Lemma keeps_counted : keeps (upd_svc (fun e => e <| racp_proc_records_reported ::= (fun n => u8 (n + 1)) |>)).
Proof using. apply keeps_upd. intros e [? ? ? ? ? ? ? ?]. constructor; try done. apply u8_range. Qed.

(** *** ... and are defined on every typed state: [sound] is progress and preservation. *)
Definition sound {A} (m : M (server (engine R X)) A) : Prop := forall s,
  engine_typed (svc s) -> ends m s (fun _ s' => engine_typed (svc s')).
Lemma sound_keeps {A} (m : M (server (engine R X)) A) : sound m -> keeps m.
Proof using. intros H s Hs. by apply ends_ends_if, H. Qed.
Lemma sound_bind {A B} (m : M (server (engine R X)) A) (k : A -> M (server (engine R X)) B) :
  sound m -> (forall a, sound (k a)) -> sound (m ≫= k).
Proof using.
  intros Hm Hk s Hs. apply ends_bind. eapply ends_mono; [by apply Hm|]. intros a s' Hs'. by apply Hk.
Qed.
Lemma sound_get_svc {B} (k : engine R X -> M (server (engine R X)) B) :
  (forall e, engine_typed e -> sound (k e)) -> sound (e ← get_svc; k e).
Proof using. intros Hk s Hs. apply ends_bind, ends_get_svc. by apply Hk. Qed.
Lemma sound_lift {A B} (o : option A) (k : A -> M (server (engine R X)) B) :
  is_Some o -> (forall a, o = Some a -> sound (k a)) -> sound (a ← lift o; k a).
Proof using. intros [a Ha] Hk s Hs. apply ends_bind. eapply ends_lift; [exact Ha|]. by apply Hk. Qed.
Lemma sound_lifted {A} (o : option A) : is_Some o -> sound (lift o).
Proof using. intros [a Ha] s Hs. by eapply ends_lift. Qed.
Lemma sound_upd f : keeps (upd_svc f) -> sound (upd_svc f).
Proof using. intros H s Hs. apply ends_upd_svc. exact (H s Hs). Qed.
Lemma sound_ret {A} (a : A) : sound (mret a).
Proof using. intros s Hs. exact Hs. Qed.
Lemma sound_emit ev : sound (emit ev).
Proof using. intros s Hs. exact Hs. Qed.
Lemma sound_when (b : bool) m : sound m -> sound (when b m).
Proof using. destruct b; [done|]. intros _. apply sound_ret. Qed.
Lemma sound_notify answer attr data : sound (bt_gatt_notify answer attr data).
Proof using. intros s Hs. exact Hs. Qed.
Lemma sound_indicate answer attr data : sound (bt_gatt_indicate answer attr data).
Proof using. intros s Hs. exact Hs. Qed.
Lemma sound_state_set st : sound (state_set st).
Proof using. apply sound_upd, keeps_state_set. Qed.
End Invariant.

Create HintDb sound.
#[export] Hint Resolve sound_ret sound_emit sound_when sound_notify sound_indicate sound_state_set : sound.
Create HintDb keeps.
#[export] Hint Resolve keeps_lifted keeps_ret keeps_ub keeps_emit keeps_when keeps_notify keeps_indicate keeps_state_set keeps_advance
  keeps_indicating keeps_code keeps_counted : keeps.
(** Decompose a computation; what is left are the updates that need an argument. *)
Ltac keeps1 :=
  first
    [ solve [auto 2 with keeps]
    | apply keeps_get_svc; let e := fresh "e" in let He := fresh "He" in intros e He
    | apply keeps_lift; let a := fresh "a" in let Ha := fresh "Ha" in intros a Ha
    | apply keeps_bind; [|let a := fresh "a" in intros a]
    | apply keeps_when
    | match goal with |- keeps _ _ (if decide _ then _ else _) => case_decide end
    | match goal with |- keeps _ _ (if ?b then _ else _) => destruct b end
    | match goal with |- keeps _ _ (match ?x with inl _ => _ | inr _ => _ end) => destruct x end
    | match goal with |- keeps _ _ (let '(_, _) := ?x in _) => destruct x end ].
Ltac keeps := cbv zeta; repeat (keeps1; cbv zeta beta).

(** The same for [sound]; what is left besides are the lookups that must succeed. *)
Ltac sound1 :=
  first
    [ solve [auto 2 with sound]
    | apply sound_get_svc; let e := fresh "e" in let He := fresh "He" in intros e He
    | apply sound_lift; [|let a := fresh "a" in let Ha := fresh "Ha" in intros a Ha]
    | apply sound_lifted
    | apply sound_bind; [|let a := fresh "a" in intros a]
    | apply sound_when
    | match goal with |- sound _ _ (if decide _ then _ else _) => case_decide end
    | match goal with |- sound _ _ (if ?b then _ else _) => let H := fresh "Hb" in destruct b eqn:H end
    | match goal with |- sound _ _ (match ?x with inl _ => _ | inr _ => _ end) => destruct x end
    | match goal with |- sound _ _ (let '(_, _) := ?x in _) => destruct x end
    | lazymatch goal with |- sound _ _ (upd_svc _) => apply sound_upd end ].
Ltac sound := cbv zeta; repeat (sound1; cbv zeta beta).

Lemma store_length buf off bs b : store buf off bs = Some b -> length b = length buf.
Proof.
  unfold store. destruct (Z.leb_spec 0 off); [|done]. destruct (Z.leb_spec (off + Z.of_nat (length bs)) (Z.of_nat (length buf))); [|done].
  cbn [andb]. intros [= <-]. rewrite !length_app, length_take, length_drop. lia.
Qed.
Lemma store_bytes buf off bs b : store buf off bs = Some b -> Forall byte buf -> Forall byte bs -> Forall byte b.
Proof.
  unfold store. destruct (_ && _); [|done]. intros [= <-] H1 H2.
  apply Forall_app; split; [by apply Forall_take|]. apply Forall_app; split; [done|by apply Forall_drop].
Qed.
Lemma store_fits buf off bs : 0 <= off -> off + Z.of_nat (length bs) <= Z.of_nat (length buf) -> is_Some (store buf off bs).
Proof. intros H1 H2. unfold store. rewrite (proj2 (Z.leb_le _ _) H1), (proj2 (Z.leb_le _ _) H2). by eexists. Qed.
Lemma slice_fits buf off n : 0 <= off -> 0 <= n -> off + n <= Z.of_nat (length buf) -> is_Some (slice buf off n).
Proof. intros H1 H2 H3. unfold slice. rewrite (proj2 (Z.leb_le _ _) H1), (proj2 (Z.leb_le _ _) H2), (proj2 (Z.leb_le _ _) H3). by eexists. Qed.
Lemma slice_length buf off n b : slice buf off n = Some b -> Z.of_nat (length b) = n.
Proof.
  unfold slice. destruct (Z.leb_spec 0 off), (Z.leb_spec 0 n), (Z.leb_spec (off + n) (Z.of_nat (length buf))); cbn [andb]; try done.
  intros [= <-]. rewrite length_take, length_drop. lia.
Qed.
Lemma rd_fits {A} (l : list A) i : 0 <= i < Z.of_nat (length l) -> is_Some (rd l i).
Proof. intros H. by destruct (rd_in_bound l i H) as [x ->]. Qed.
Lemma slice_bytes buf off n b : slice buf off n = Some b -> Forall byte buf -> Forall byte b.
Proof. unfold slice. destruct (_ && _); [|done]. intros [= <-] H. by apply Forall_take, Forall_drop. Qed.
Lemma rd_byte l i b : rd l i = Some b -> Forall byte l -> byte b.
Proof. unfold rd. destruct (0 <=? i); [|done]. intros Hb Hl. by apply (Forall_lookup_1 _ _ _ _ Hl Hb). Qed.

Section EngineKeeps.
Context `{RS : RecordService R X} (rec_typed : R -> Prop) (ext_typed : X -> Prop) (answer : nat -> Z)
  (others : M (server (engine R X)) unit).
#[local] Abbreviation keeps := (keeps rec_typed ext_typed).
Hypothesis send_keeps : forall r, keeps (rec_send answer r).
Hypothesis others_keeps : keeps others.
#[local] Hint Resolve send_keeps others_keeps : keeps.

Lemma racp_send_keeps v : keeps (racp_send answer v).
Proof using.
  unfold racp_send. keeps.
  - apply keeps_buf. by rewrite length_replicate.
  - apply keeps_buf. rewrite (store_length _ _ _ _ Ha0). by apply ty_buf in He0.
Qed.
#[local] Hint Resolve racp_send_keeps : keeps.
Lemma racp_response_code_send_keeps op v : keeps (racp_response_code_send answer op v).
Proof using. apply racp_send_keeps. Qed.
#[local] Hint Resolve racp_response_code_send_keeps : keeps.
Lemma racp_report_records_all_keeps : keeps (racp_report_records_all answer others).
Proof using send_keeps others_keeps. unfold racp_report_records_all. keeps. Qed.
Lemma racp_report_records_first_last_keeps : keeps (racp_report_records_first_last answer).
Proof using send_keeps.
  unfold racp_report_records_first_last. keeps.
Qed.
Lemma greater_or_equal_loop_keeps n total : keeps (greater_or_equal_loop answer n total).
Proof using send_keeps. induction n as [|n IH]; cbn [greater_or_equal_loop]; keeps. Qed.
#[local] Hint Resolve greater_or_equal_loop_keeps racp_report_records_all_keeps racp_report_records_first_last_keeps : keeps.
Lemma report_step_keeps op step : report_step answer others op = Some step -> keeps step.
Proof using send_keeps others_keeps.
  unfold report_step. repeat case_match; intros [= <-]; try (by auto with keeps).
  unfold racp_report_records_greater_or_equal. keeps.
Qed.
Lemma report_loop_keeps n : keeps (report_loop answer others n).
Proof using send_keeps others_keeps.
  induction n as [|n IH]; cbn [report_loop]; keeps.
  destruct (report_step answer others (racp_proc_operator e)) as [step|] eqn:Hstep; [|auto with keeps].
  apply report_step_keeps in Hstep. unfold racp_report_records_completed. keeps.
Qed.
#[local] Hint Resolve report_loop_keeps : keeps.

Definition request_typed (q : cgms_racp) : Prop :=
  bytes_ok 6 (operand q) /\ byte (opcode q) /\ byte (operator q) /\ byte (operand_len q).
Lemma racp_decode_typed n buf v q : racp_decode n buf v = Some q -> request_typed v -> Forall byte buf -> request_typed q.
Proof using.
  unfold racp_decode. cbv zeta. intros Hq ([Hl Ho] & _ & _ & _) Hbuf.
  assert (byte 0xFF /\ byte 0) as [HFF H00] by (split; split; lia).
  apply bind_Some in Hq as (v1 & H1 & Hq). apply bind_Some in Hq as (v2 & H2 & Hq).
  assert (operand v1 = operand v /\ operator v1 = 0xFF /\ operand_len v1 = 0 /\ byte (opcode v1)) as (E1 & E2 & E3 & B1).
  { destruct (0 <? n); [apply bind_Some in H1 as (b & Hb & [= <-]); cbn; split_and!; try done; by eapply rd_byte|].
    injection H1 as <-. by split_and!. }
  assert (operand v2 = operand v /\ operand_len v2 = 0 /\ byte (opcode v2) /\ byte (operator v2)) as (F1 & F2 & B2 & B3).
  { destruct (1 <? n); [apply bind_Some in H2 as (b & Hb & [= <-]); cbn; split_and!; try done; by eapply rd_byte|].
    injection H2 as <-. split_and!; try done. by rewrite E2. }
  destruct (2 <? n).
  - apply bind_Some in Hq as (src & Hsrc & Hq). apply bind_Some in Hq as (o & Hst & [= <-]). rewrite F1 in Hst.
    split; [|split_and!; try done; apply u8_range]. split; cbn; [by rewrite (store_length _ _ _ _ Hst)|].
    apply (store_bytes _ _ _ _ Hst Ho). by apply (slice_bytes _ _ _ _ Hsrc).
  - injection Hq as <-. unfold request_typed, bytes_ok. rewrite F1, F2. by split_and!.
Qed.
(** What the write handler copies into the operand of six bytes must fit it. *)
Lemma racp_decode_fits n buf v : 0 <= n <= 8 -> n <= Z.of_nat (length buf) -> length (operand v) = 6%nat ->
  is_Some (racp_decode n buf v).
Proof using.
  intros Hn Hbuf Hv. unfold racp_decode. cbv zeta.
  assert (exists v1, (if 0 <? n then b ← rd buf 0; Some (v <| opcode := 0xFF |> <| operator := 0xFF |> <| operand_len := 0 |> <| opcode := b |>)
    else Some (v <| opcode := 0xFF |> <| operator := 0xFF |> <| operand_len := 0 |>)) = Some v1 /\ operand v1 = operand v) as (v1 & -> & H1).
  { destruct (Z.ltb_spec 0 n); [destruct (rd_in_bound buf 0 ltac:(lia)) as [b ->]|]; by eexists. }
  cbn [mbind option_bind].
  assert (exists v2, (if 1 <? n then b ← rd buf 1; Some (v1 <| operator := b |>) else Some v1) = Some v2 /\ operand v2 = operand v) as (v2 & -> & H2).
  { destruct (Z.ltb_spec 1 n); [destruct (rd_in_bound buf 1 ltac:(lia)) as [b ->]|]; by eexists. }
  cbn [mbind option_bind]. destruct (Z.ltb_spec 2 n); [|by eexists].
  rewrite u8_small by lia. destruct (slice_fits buf 2 (n - 2)) as [src Hsrc]; [lia..|]. rewrite Hsrc. cbn [mbind option_bind].
  destruct (store_fits (operand v2) 0 src) as [o ->]; [done| |by eexists].
  rewrite (slice_length _ _ _ _ Hsrc), H2, Hv. lia.
Qed.
Lemma racp_accept_sound work err len buf : Forall byte buf -> 0 <= len <= 8 -> len <= Z.of_nat (length buf) ->
  sound rec_typed ext_typed (racp_accept work err len buf).
Proof using.
  intros Hbuf Hlen Hl. unfold racp_accept. sound.
  - rewrite u8_small by lia. apply racp_decode_fits; [done..|]. apply (ty_request _ _ _ He).
  - apply keeps_upd. intros e' [? ? ? ? ? ? ? ?]. constructor; try done. cbn.
    apply (racp_decode_typed _ _ _ _ Ha); [exact (ty_request _ _ _ He)|done].
Qed.

Lemma report_records_request_execute_keeps q : request_typed q -> keeps (report_records_request_execute answer others q).
Proof using send_keeps others_keeps.
  intros (_ & _ & Hopr & _). unfold report_records_request_execute, racp_report_records_procedure. keeps.
  apply keeps_upd. intros e [? ? ? ? ? ? ? ?]. constructor; try done; cbn; try (split; lia).
  unfold filter_value in Ha. apply bind_Some in Ha as (? & _ & Ha). apply bind_Some in Ha as (? & _ & [= <-]). apply u16_range.
Qed.
Lemma delete_records_request_execute_keeps q : keeps (delete_records_request_execute answer q).
Proof using.
  unfold delete_records_request_execute. apply keeps_get_svc. intros e He. cbv zeta. apply keeps_bind; [|intros n; auto with keeps].
  destruct (operator q =? RACP_OPERATOR_ALL).
  { keeps. apply keeps_db. intros d. apply db_typed_free_all. }
  destruct (operator q =? RACP_OPERATOR_FIRST).
  { pose proof (db_typed_delete_first _ _ (ty_db _ _ _ He)) as Hd. destruct (db_record_delete_first (rec_db e)) as [err d].
    keeps. by apply (keeps_db _ _ (fun _ => d)). }
  destruct (operator q =? RACP_OPERATOR_LAST); [|keeps].
  apply keeps_lift. intros [err d] Hdel. keeps. apply (keeps_db _ _ (fun _ => d)). intros _ _.
  apply (delete_last_loop_typed _ _ _ _ _ _ Hdel). by apply ty_db in He.
Qed.
Lemma report_num_records_request_execute_keeps q : keeps (report_num_records_request_execute answer q).
Proof using.
  unfold report_num_records_request_execute. keeps. destruct a; keeps.
Qed.
Lemma racp_handle_keeps : keeps (racp_handle answer others).
Proof using send_keeps others_keeps.
  unfold racp_handle. apply keeps_get_svc. intros e He. apply keeps_lift. intros [execute code] _.
  pose proof (report_records_request_execute_keeps _ (ty_request _ _ _ He)).
  pose proof (report_num_records_request_execute_keeps (racp_request e)).
  pose proof (delete_records_request_execute_keeps (racp_request e)). keeps.
Qed.
Lemma indicate_rsp_sound : sound rec_typed ext_typed (indicate_rsp (R := R) (X := X)).
Proof using. unfold indicate_rsp. sound. apply keeps_indicating. Qed.
End EngineKeeps.
