(* ===== verification/Cgms.v ===== *)
(** * The continuous glucose monitoring service (samples/bluetooth/gatt/cgms.c)

    The service's own part: the end-to-end checksum, the encoded measurement, the status,
    start time and run time characteristics, the specific operations control point and the
    timer that simulates measurements.  The record access control point is the engine of
    Racp, instantiated here.  A read handler is the value it hands to [bt_gatt_attr_read],
    which cuts out the part asked for. *)
From S2P Require Import Prelude Gatt Racp RacpSpec RacpTypes.

(** ** The checksum *)

(** The loop of an inversion: bit [i] of the source sets bit [n - 1 - i]. *)
Definition invert_bits (n : nat) (src : Z) : Z :=
  foldl (fun tmp i => if truthy (Z.land src (Z.shiftl 1 i)) then Z.lor tmp (Z.shiftl 1 (Z.of_nat n - 1 - i)) else tmp)
    0 (seqZ 0 (Z.of_nat n)).
Definition invert_u8 (src : Z) : Z := u8 (invert_bits 8 src).
Definition invert_u16 (src : Z) : Z := u16 (invert_bits 16 src).

Definition crc_poly_step (crcin : Z) : Z :=
  if truthy (Z.land crcin 0x8000) then u16 (Z.lxor (Z.shiftl crcin 1) 0x1021) else u16 (Z.shiftl crcin 1).
Fixpoint crc_bits (n : nat) (crcin : Z) : Z :=
  match n with O => crcin | S n => crc_bits n (crc_poly_step crcin) end.
Definition crc_byte (crcin c : Z) : Z := crc_bits 8 (u16 (Z.lxor crcin (Z.shiftl (invert_u8 c) 8))).
Definition crc16_ccitt (push_msg : list Z) : Z := invert_u16 (foldl crc_byte 0xffff push_msg).

(** ** Constants *)
Definition CGMS_ERR_MISSING_CRC : Z := 0x80.
Definition CGMS_ERR_INVALID_CRC : Z := 0x81.
Definition CGM_TREND_INFORMATION_PRESENT : Z := Z.shiftl 1 0.
Definition CGM_QUALITY_PRESENT : Z := Z.shiftl 1 1.
Definition CGM_SENSOR_STAT_ANNU_WARNING_OCTET_PRESENT : Z := Z.shiftl 1 5.
Definition CGM_SENSOR_STAT_ANNU_CAL_OR_TEMP_OCTET_PRESENT : Z := Z.shiftl 1 6.
Definition CGM_SENSOR_STAT_ANNU_STAT_OCTET_PRESENT : Z := Z.shiftl 1 7.
Definition CGM_MEAS_TIME_SYNCHRONIZATION_REQUIRED : Z := Z.shiftl 1 8.
Definition CGM_FEAT_PATIENT_HIGH_LOW_ALERTS_SUPPORTED : Z := Z.shiftl 1 1.
Definition CGM_FEAT_SENSOR_MALFUNCTION_DETECTION_SUPPORTED : Z := Z.shiftl 1 6.
Definition CGM_FEAT_SENSOR_TEMPERATURE_HIGH_LOW_DETECTION_SUPPORTED : Z := Z.shiftl 1 7.
Definition CGM_FEAT_SENSOR_RESULT_HIGH_LOW_DETECTION_SUPPORTED : Z := Z.shiftl 1 8.
Definition CGM_FEAT_SENSOR_TYPE_ERROR_DETECTION_SUPPORTED : Z := Z.shiftl 1 10.
Definition CGM_FEAT_GENERAL_DEVICE_FAULT_SUPPORTED : Z := Z.shiftl 1 11.
Definition CGM_FEAT_E2E_CRC_SUPPORTED : Z := Z.shiftl 1 12.
Definition CGM_FEAT_MULTIPLE_SESSIONS_SUPPORTED : Z := Z.shiftl 1 14.
Definition CGM_FEAT_CGM_TREND_INFORMATION_SUPPORTED : Z := Z.shiftl 1 15.
Definition CGM_FEAT_CGM_QUALITY_SUPPORTED : Z := Z.shiftl 1 16.
Definition CGM_TYPE_CAPILLARY_WHOLE_BLOOD : Z := 1.
Definition CGM_SAMPLE_LOCAL_FINGER : Z := 1.
Definition DST_OFFSET_STANDARD_TIME : Z := 0.
Definition CGM_MEAS_MAX_SIZE : Z := 18.
Definition CGM_STATUS_MAX_SIZE : Z := 7.
Definition SOCP_OPCODE_SET_CGM_COMMUNICATION_INTERVAL : Z := 1.
Definition SOCP_OPCODE_GET_CGM_COMMUNICATION_INTERVAL : Z := 2.
Definition SOCP_OPCODE_CGM_COMMUNICATION_INTERVAL_RESPONSE : Z := 3.
Definition SOCP_OPCODE_START_THE_SESSION : Z := 26.
Definition SOCP_OPCODE_RESPONSE_CODE : Z := 28.
Definition SOCP_RESPONSE_SUCCESS : Z := 1.
Definition SOCP_RESPONSE_OPCODE_UNSUPPORTED : Z := 2.
Definition SOCP_RESPONSE_INVALID_OPERAND : Z := 3.
Definition CGM_SOCP_MAX_OPERAND_LEN : Z := 10.

(** ** Data *)
Record cgms_cgm_measurement := Meas {
  meas_size : Z; flag : Z; cgm_glucose_concentration : ieee_sfloat; time_offset : Z;
  sensor_status_annunciation : Z; cgm_trend_information : ieee_sfloat; cgm_quality : ieee_sfloat;
  meas_e2e_crc : Z
}.
#[export] Instance eta_meas : EtaRecord cgms_cgm_measurement := fun r =>
  Meas (meas_size r) (flag r) (cgm_glucose_concentration r) (time_offset r) (sensor_status_annunciation r)
    (cgm_trend_information r) (cgm_quality r) (meas_e2e_crc r).

Record cgms_cgm_feature := Feature { feature_bits : Z; cgm_type_sample_location : Z; feature_e2e_crc : Z }.
#[export] Instance eta_feature : EtaRecord cgms_cgm_feature := fun r =>
  Feature (feature_bits r) (cgm_type_sample_location r) (feature_e2e_crc r).
Record cgms_cgm_status := Status { status_time_offset : Z; sensor_status : Z; status_e2e_crc : Z }.
#[export] Instance eta_status : EtaRecord cgms_cgm_status := fun r =>
  Status (status_time_offset r) (sensor_status r) (status_e2e_crc r).
Record cgm_socp := Socp { socp_opcode : Z; socp_operand : list Z (* u8_t [10] *); socp_operand_len : Z; socp_e2e_crc : Z }.
#[export] Instance eta_socp : EtaRecord cgm_socp := fun r =>
  Socp (socp_opcode r) (socp_operand r) (socp_operand_len r) (socp_e2e_crc r).

(** struct cgms_cgm_session_start_time is packed and written as bytes: the date, the time
    zone, the daylight saving offset and the checksum, low byte first. *)
Definition START_TIME_SIZE : Z := 11.

(** struct bt_gatt_cgms without racp_ccc, and the file's other variables. *)
Record cgms := Cgms {
  cgm_meas : cgms_cgm_measurement;
  cgm_meas_ccc : Z;
  cgm_feature : cgms_cgm_feature;
  cgm_status : cgms_cgm_status;
  cgm_session_start_time : list Z;
  cgm_session_run_time : Z;
  run_time_e2e_crc : Z;
  socp_ccc : Z;
  communication_interval : Z;
  socp_indicating : Z;
  socp_buf : list Z;
  start_session : bool;
  socp_response : cgm_socp;
  session_run_time : Z
}.
#[export] Instance eta_cgms : EtaRecord cgms := fun r =>
  Cgms (cgm_meas r) (cgm_meas_ccc r) (cgm_feature r) (cgm_status r) (cgm_session_start_time r)
    (cgm_session_run_time r) (run_time_e2e_crc r) (socp_ccc r) (communication_interval r) (socp_indicating r)
    (socp_buf r) (start_session r) (socp_response r) (session_run_time r).

Record cgms_record := CgmsRecord { meas : cgms_cgm_measurement }.
#[local] Abbreviation CM := (M (server (engine cgms_record cgms))).

Definition get_cgms : CM cgms := gets (fun s => ext (svc s)).
Definition upd_cgms (f : cgms -> cgms) : CM unit := upd_svc (fun e => e <| ext ::= f |>).
Definition crc_supported (g : cgms) : bool := truthy (Z.land (feature_bits (cgm_feature g)) CGM_FEAT_E2E_CRC_SUPPORTED).

(** ** Measurements *)

(** The bytes written to [buf] and the measurement, whose size and checksum are updated.
    The octets of the status are those of the current measurement [gatt_cgms.cgm_meas]. *)
Definition cgms_meas_encode (g : cgms) (m : cgms_cgm_measurement) : list Z * cgms_cgm_measurement :=
  let octet (present mask sh : Z) : list Z :=
    if truthy (Z.land (flag (cgm_meas g)) present)
    then [u8 (Z.shiftr (Z.land (sensor_status_annunciation (cgm_meas g)) mask) sh)] else [] in
  let buf := [meas_size m; flag m] ++ u16_encode (sfloat_pack (cgm_glucose_concentration m)) ++ u16_encode (time_offset m)
    ++ octet CGM_SENSOR_STAT_ANNU_STAT_OCTET_PRESENT 0x000000ff 0
    ++ octet CGM_SENSOR_STAT_ANNU_CAL_OR_TEMP_OCTET_PRESENT 0x0000ff00 8
    ++ octet CGM_SENSOR_STAT_ANNU_WARNING_OCTET_PRESENT 0x00ff0000 16
    ++ (if truthy (Z.land (flag m) CGM_TREND_INFORMATION_PRESENT) then u16_encode (sfloat_pack (cgm_trend_information m)) else [])
    ++ (if truthy (Z.land (flag m) CGM_QUALITY_PRESENT) then u16_encode (sfloat_pack (cgm_quality m)) else []) in
  let '(buf, m) :=
    if crc_supported g
    then let crc := crc16_ccitt buf in (buf ++ u16_encode crc, m <| meas_e2e_crc := crc |>)
    else (buf, m) in
  let m := m <| meas_size := u8 (Z.of_nat (length buf)) |> in
  (<[0%nat := meas_size m]> buf, m).

(** The record is a copy on the stack. *)
Definition cgm_meas_send (answer : nat -> Z) (rec : cgms_record) : CM Z :=
  g ← get_cgms;
  buf ← lift (fits CGM_MEAS_MAX_SIZE (cgms_meas_encode g (meas rec)).1);
  err ← bt_gatt_notify answer 2 buf;
  when (err =? 0) (upd_svc (fun e => e <| racp_proc_records_reported ::= (fun n => u8 (n + 1)) |>));;
  mret err.

#[export] Instance cgms_service : RecordService cgms_record cgms := {
  rec_key r := time_offset (meas r);
  rec_send := cgm_meas_send;
  rec_sleep := 300;
  racp_attr := 13;
  racp_buf_size := CGM_MEAS_MAX_SIZE
}.

(** ** Characteristics *)
Section Handlers.
Context (answer : nat -> Z).

Definition cgms_cgm_meas_ccc_cfg_changed (value : Z) : CM unit :=
  upd_cgms (fun g => g <| cgm_meas_ccc := b2z (value =? BT_GATT_CCC_NOTIFY) |>).
Definition cgms_racp_ccc_cfg_changed (value : Z) : CM unit :=
  upd_svc (fun e => e <| racp_ccc := b2z (value =? BT_GATT_CCC_INDICATE) |>).
Definition cgms_cgm_spec_ops_ctrl_point_ccc_cfg_changed (value : Z) : CM unit :=
  upd_cgms (fun g => g <| socp_ccc := b2z (value =? BT_GATT_CCC_INDICATE) |>).

Definition cgms_cgm_feature_read : CM (list Z) :=
  g ← get_cgms;
  lift (fits 6 (u24_encode (feature_bits (cgm_feature g)) ++ [cgm_type_sample_location (cgm_feature g)]
    ++ u16_encode (status_e2e_crc (cgm_status g)))).

Definition cgms_cgm_status_read : CM (list Z) :=
  g ← get_cgms;
  lift (fits CGM_STATUS_MAX_SIZE (u16_encode (status_time_offset (cgm_status g)) ++ u24_encode (sensor_status (cgm_status g))
    ++ (if crc_supported g then u16_encode (status_e2e_crc (cgm_status g)) else []))).

Definition cgms_cgm_start_time_read : CM (list Z) :=
  g ← get_cgms;
  let size := START_TIME_SIZE - 2 in
  let size := if crc_supported g then size + 2 else size in
  mret (take (Z.to_nat size) (cgm_session_start_time g)).

(** struct cgms_cgm_session_run_time is the run time and the checksum, low byte first. *)
Definition cgms_cgm_run_time_read : CM (list Z) :=
  g ← get_cgms;
  when (crc_supported g)
    (upd_cgms (fun g => g <| run_time_e2e_crc := crc16_ccitt (u16_encode (cgm_session_run_time g)) |>));;
  g ← get_cgms;
  mret (u16_encode (cgm_session_run_time g) ++ (if crc_supported g then u16_encode (run_time_e2e_crc g) else [])).

Definition cgms_cgm_start_time_write (buf : list Z) (len offset : Z) : CM Z :=
  g ← get_cgms;
  zone ← lift (rd buf 7);
  let time_zone := s8 zone in
  if (time_zone <? -48) || (56 <? time_zone) then mret (BT_GATT_ERR BT_ATT_ERR_OUT_OF_RANGE)
  else
    bad ← (if crc_supported g then
             if offset + len =? START_TIME_SIZE - 2 then mret (Some (BT_GATT_ERR CGMS_ERR_MISSING_CRC))
             else if offset + len =? START_TIME_SIZE then
               let crc := crc16_ccitt (take 9 (cgm_session_start_time g)) in
               lo ← lift (rd buf 9); hi ← lift (rd buf 10);
               mret (if negb (crc =? lo + 256 * hi) then Some (BT_GATT_ERR CGMS_ERR_INVALID_CRC) else None)
             else mret None
           else mret None);
    match bad with
    | Some err => mret err
    | None =>
      if START_TIME_SIZE <? offset + len then mret (BT_GATT_ERR BT_ATT_ERR_INVALID_OFFSET)
      else
        src ← lift (slice buf 0 len);
        value ← lift (store (cgm_session_start_time g) offset src);
        upd_cgms (fun g => g <| cgm_session_start_time := value |>);;
        mret len
    end.

(** ** The session *)
Definition cgmss_timer_init : CM unit := emit (TimerInit "cgms_timer").
Definition cgmss_timer_start : CM unit := emit (TimerStart "cgms_timer" 1 1).
Definition cgm_measurement_delete : CM unit := upd_svc (fun e => e <| rec_db ::= db_record_delete_all |>).

Definition cgms_crc_enable (enable : bool) : CM unit :=
  upd_cgms (fun g => g <| cgm_feature ::= (fun f => f <| feature_bits ::=
    (fun b => if enable then u32 (Z.lor b CGM_FEAT_E2E_CRC_SUPPORTED)
              else u32 (Z.land b (Z.lnot CGM_FEAT_E2E_CRC_SUPPORTED))) |>) |>).

(** 2018-04-19 14:42:22, eight hours east. *)
Definition session_start : list Z :=
  date_time_encode (DateTime 2018 4 19 14 42 22) ++ [8 * 4; DST_OFFSET_STANDARD_TIME].
Definition cgms_set_session_start_time : CM unit :=
  g ← get_cgms;
  let old_crc := drop 9 (cgm_session_start_time g) in
  upd_cgms (fun g => g <| cgm_session_start_time :=
    session_start ++ (if crc_supported g then u16_encode (crc16_ccitt session_start) else old_crc) |>);;
  upd_cgms (fun g => g <| session_run_time := 0 |>);;
  cgmss_timer_start;;
  cgm_measurement_delete.

(** ** The specific operations control point *)

(** A decoded request; its operand is a local array that is not initialised. *)
Definition cgms_socp_decode (data_len : Z) (buf : list Z) (v : cgm_socp) : option cgm_socp :=
  let v := v <| socp_opcode := 0xff |> <| socp_operand_len := 0 |> in
  v ← (if 0 <? data_len then b ← rd buf 0; Some (v <| socp_opcode := b |>) else Some v);
  if 1 <? data_len then
    let n := u8 (data_len - 1) in
    src ← slice buf 1 n;
    o ← store (socp_operand v) 0 src;
    Some (v <| socp_operand_len := n |> <| socp_operand := o |>)
  else Some v.

Definition cgms_socp_encode (g : cgms) (v : cgm_socp) : option (list Z) :=
  o ← slice (socp_operand v) 0 (socp_operand_len v);
  Some ([socp_opcode v] ++ o ++ (if crc_supported g then u16_encode (socp_e2e_crc v) else [])).

Definition socp_indicate_rsp : CM unit := upd_cgms (fun g => g <| socp_indicating := 0 |>).

Definition socp_send (v : cgm_socp) : CM unit :=
  g ← get_cgms;
  when (negb (truthy (socp_indicating g)))
    (upd_cgms (fun g => g <| socp_buf := replicate (Z.to_nat (CGM_SOCP_MAX_OPERAND_LEN + 1)) 0 |>);;
     g ← get_cgms;
     data ← lift (cgms_socp_encode g v);
     buf ← lift (store (socp_buf g) 0 data);
     upd_cgms (fun g => g <| socp_buf := buf |>);;
     err ← bt_gatt_indicate answer 16 (take (length data) buf);
     when (err =? 0) (upd_cgms (fun g => g <| socp_indicating := 1 |>))).
Definition cgms_socp_handle : CM unit := g ← get_cgms; socp_send (socp_response g).

(** Fill in the response: opcode, the first operand bytes, their number. *)
Definition respond (op : Z) (bytes : list Z) : CM unit :=
  upd_cgms (fun g => g <| socp_response ::= (fun r =>
    r <| socp_opcode := op |> <| socp_operand_len := Z.of_nat (length bytes) |>
      <| socp_operand ::= (fun o => bytes ++ drop (length bytes) o) |>) |>).

Definition cgms_cgm_spec_ops_ctrl_point_write (buf : list Z) (len : Z) : CM Z :=
  let request := Socp 0 (replicate (Z.to_nat CGM_SOCP_MAX_OPERAND_LEN) 0) 0 0 in
  q ← lift (cgms_socp_decode (u8 len) buf request);
  (if socp_opcode q =? SOCP_OPCODE_SET_CGM_COMMUNICATION_INTERVAL then
     respond SOCP_OPCODE_RESPONSE_CODE [SOCP_OPCODE_SET_CGM_COMMUNICATION_INTERVAL; SOCP_RESPONSE_SUCCESS];;
     if socp_operand_len q =? 1
     then v ← lift (rd buf 1); upd_cgms (fun g => g <| communication_interval := v |>)
     else respond SOCP_OPCODE_RESPONSE_CODE [SOCP_RESPONSE_INVALID_OPERAND]
   else if socp_opcode q =? SOCP_OPCODE_GET_CGM_COMMUNICATION_INTERVAL then
     g ← get_cgms;
     respond SOCP_OPCODE_CGM_COMMUNICATION_INTERVAL_RESPONSE
       [if socp_operand_len q =? 0 then communication_interval g else SOCP_RESPONSE_INVALID_OPERAND]
   else if socp_opcode q =? SOCP_OPCODE_START_THE_SESSION then
     (if socp_operand_len q =? 0 then
        respond SOCP_OPCODE_START_THE_SESSION [SOCP_RESPONSE_SUCCESS];;
        upd_cgms (fun g => g <| start_session := true |>);;
        cgms_set_session_start_time
      else respond SOCP_OPCODE_START_THE_SESSION [SOCP_RESPONSE_INVALID_OPERAND])
   else respond SOCP_OPCODE_RESPONSE_CODE [SOCP_RESPONSE_OPCODE_UNSUPPORTED]);;
  g ← get_cgms;
  when (crc_supported g)
    (o ← lift (slice (socp_operand (socp_response g)) 0 (socp_operand_len (socp_response g)));
     upd_cgms (fun g => g <| socp_response ::= (fun r =>
       r <| socp_e2e_crc := crc16_ccitt (socp_opcode r :: o) |>) |>));;
  emit (WorkSubmit "cgms_socp_work_item" 400);;
  mret len.

(** ** The record access control point *)
Definition cgms_racp_write (buf : list Z) (len : Z) : CM Z :=
  e ← get_svc;
  if negb (truthy (racp_ccc e)) then mret (BT_GATT_ERR BT_ATT_ERR_CCC_IMPROPER_CONF)
  else racp_accept "cgms_racp_work_item" BT_ATT_ERR_PROCEDURE_IN_PROGRESS len buf.
Definition cgms_racp_handle (others : CM unit) : CM unit := racp_handle answer others.

(** ** Simulated measurements *)
Definition cgm_measurement_simulation : CM unit :=
  upd_cgms (fun g => g <| cgm_meas ::= (fun m =>
    m <| flag := Z.lor (Z.lor (Z.lor (Z.lor CGM_TREND_INFORMATION_PRESENT CGM_QUALITY_PRESENT)
                   CGM_SENSOR_STAT_ANNU_WARNING_OCTET_PRESENT) CGM_SENSOR_STAT_ANNU_CAL_OR_TEMP_OCTET_PRESENT)
                   CGM_SENSOR_STAT_ANNU_STAT_OCTET_PRESENT |>
      <| cgm_glucose_concentration := IeeeSfloat 0 90 |>              (* 18.02 * 5 *)
      <| time_offset := session_run_time g |>
      <| sensor_status_annunciation := Z.lor 0 CGM_MEAS_TIME_SYNCHRONIZATION_REQUIRED |>
      <| cgm_trend_information := IeeeSfloat 0 3 |>
      <| cgm_quality := IeeeSfloat 0 4 |>) |>);;
  g ← get_cgms;
  let m := cgm_meas g in
  let status := u8 (Z.land (sensor_status_annunciation m) 0x000000ff) in
  let cal_temp := u8 (Z.shiftr (Z.land (sensor_status_annunciation m) 0x0000ff00) 8) in
  let warning := u8 (Z.shiftr (Z.land (sensor_status_annunciation m) 0x00ff0000) 16) in
  let buf := u16_encode (time_offset m) ++ [status; cal_temp; warning] in
  upd_cgms (fun g => g <| cgm_status ::= (fun st =>
    st <| status_time_offset := time_offset m |>
       <| sensor_status := Z.lor (Z.lor (Z.shiftl warning 16) (Z.shiftl cal_temp 8)) status |>) |>);;
  when (crc_supported g) (upd_cgms (fun g => g <| cgm_status ::= (fun st => st <| status_e2e_crc := crc16_ccitt buf |>) |>));;
  upd_svc (fun e => e <| rec_db ::= (fun d => (db_record_add (CgmsRecord m) d).2) |>).

Definition cgm_measurement_notify : CM unit :=
  g ← get_cgms;
  when (truthy (cgm_meas_ccc g))
    (let '(data, m) := cgms_meas_encode g (cgm_meas g) in
     upd_cgms (fun g => g <| cgm_meas := m |>);;
     buf ← lift (fits CGM_MEAS_MAX_SIZE data);
     err ← bt_gatt_notify answer 2 buf;
     mret tt).

Definition cgms_timer_handler : CM unit :=
  upd_cgms (fun g => g <| session_run_time ::= (fun t => u16 (t + 1)) |>);;
  e ← get_svc;
  when ((session_run_time (ext e) mod 5 =? 0) && (db_num_records_get (rec_db e) <? Z.of_nat CGMS_DB_MAX_RECORDS))
    cgm_measurement_simulation;;
  g ← get_cgms;
  (if communication_interval g =? 0xff then cgm_measurement_notify
   else when (truthy (communication_interval g) && (session_run_time g mod communication_interval g =? 0))
          cgm_measurement_notify);;
  upd_cgms (fun g => g <| cgm_session_run_time := session_run_time g / 60 |>).

Definition feature_value : Z :=
  foldl Z.lor CGM_FEAT_PATIENT_HIGH_LOW_ALERTS_SUPPORTED
    [CGM_FEAT_SENSOR_MALFUNCTION_DETECTION_SUPPORTED; CGM_FEAT_SENSOR_TEMPERATURE_HIGH_LOW_DETECTION_SUPPORTED;
     CGM_FEAT_SENSOR_RESULT_HIGH_LOW_DETECTION_SUPPORTED; CGM_FEAT_SENSOR_TYPE_ERROR_DETECTION_SUPPORTED;
     CGM_FEAT_GENERAL_DEVICE_FAULT_SUPPORTED; CGM_FEAT_MULTIPLE_SESSIONS_SUPPORTED;
     CGM_FEAT_CGM_TREND_INFORMATION_SUPPORTED; CGM_FEAT_CGM_QUALITY_SUPPORTED].

(** The value has no checksum bit, so the branch that would compute one is dead. *)
Definition cgms_init : CM unit :=
  upd_cgms (fun g => g <| cgm_feature ::= (fun f =>
    f <| feature_bits := feature_value |>
      <| cgm_type_sample_location := Z.lor (Z.shiftl CGM_TYPE_CAPILLARY_WHOLE_BLOOD 4) CGM_SAMPLE_LOCAL_FINGER |>) |>);;
  g ← get_cgms;
  when (crc_supported g)
    (upd_cgms (fun g => g <| cgm_feature ::= (fun f => f <| feature_e2e_crc :=
      crc16_ccitt (u32_encode (feature_bits f) ++ [cgm_type_sample_location f]) |>) |>));;
  upd_svc (fun e => e <| rec_db ::= db_init |>);;
  state_set STATE_NO_COMM;;
  emit (ServiceRegister "cgms_svc");;
  emit (WorkInit "cgms_racp_work_item");;
  emit (WorkInit "cgms_socp_work_item");;
  cgmss_timer_init.
End Handlers.

(** The variables at power on: the linker's zeros. *)
Definition meas_zero : cgms_cgm_measurement := Meas 0 0 (IeeeSfloat 0 0) 0 0 (IeeeSfloat 0 0) (IeeeSfloat 0 0) 0.
Definition cgms_zero : engine cgms_record cgms :=
  Engine (Db (replicate CGMS_DB_MAX_RECORDS (Entry false (CgmsRecord meas_zero))) 0) 0 0
    (replicate (Z.to_nat CGM_MEAS_MAX_SIZE) 0) (Racp 0 0 0 (replicate 6 0)) 0 STATE_NO_COMM 0 0 0 0
    (Cgms meas_zero 0 (Feature 0 0 0) (Status 0 0 0) (replicate (Z.to_nat START_TIME_SIZE) 0) 0 0 0 0 0
       (replicate (Z.to_nat (CGM_SOCP_MAX_OPERAND_LEN + 1)) 0) false
       (Socp 0 (replicate (Z.to_nat CGM_SOCP_MAX_OPERAND_LEN) 0) 0 0) 0).

(** ** The checksum is the bit-reflected one *)

Lemma truthy_land_bit src j : 0 <= j -> truthy (Z.land src (Z.shiftl 1 j)) = Z.testbit src j.
Proof.
  intros Hj. rewrite Z.shiftl_1_l. by apply land_pow2_truthy.
Qed.

Lemma invert_loop_bit n src js : forall acc i, Forall (fun j => 0 <= j < n) js -> 0 <= i ->
  Z.testbit (foldl (fun tmp k => if truthy (Z.land src (Z.shiftl 1 k)) then Z.lor tmp (Z.shiftl 1 (n - 1 - k)) else tmp) acc js) i =
  Z.testbit acc i || existsb (fun j => Z.testbit src j && (i =? n - 1 - j)) js.
Proof.
  induction js as [|j js IH]; intros acc i Hjs Hi; cbn [foldl existsb]; [by rewrite orb_false_r|].
  apply Forall_cons in Hjs as [Hj Hjs]. rewrite IH by done. rewrite truthy_land_bit by lia. rewrite orb_assoc. f_equal.
  destruct (Z.testbit src j); cbn [andb]; [|by rewrite orb_false_r].
  rewrite Z.lor_spec, Z.shiftl_spec by lia. f_equal.
  destruct (Z.eqb_spec i (n - 1 - j)) as [->|]; [by rewrite Z.sub_diag|].
  destruct (Z.lt_ge_cases i (n - 1 - j)); [by apply Z.testbit_neg_r; lia|].
  change 1 with (2 ^ 0). apply Z.pow2_bits_false. lia.
Qed.

(** Inversion mirrors the bits. *)
Lemma invert_bits_spec n src i : 0 <= i ->
  Z.testbit (invert_bits n src) i = (i <? Z.of_nat n) && Z.testbit src (Z.of_nat n - 1 - i).
Proof.
  intros Hi. unfold invert_bits. rewrite invert_loop_bit; [|apply Forall_forall; intros j; rewrite elem_of_seqZ; lia|done].
  rewrite Z.bits_0. cbn [orb]. destruct (Z.ltb_spec i (Z.of_nat n)); cbn [andb].
  - destruct (Z.testbit src (Z.of_nat n - 1 - i)) eqn:Hb.
    + apply existsb_exists. exists (Z.of_nat n - 1 - i). split; [apply list_elem_of_In, elem_of_seqZ; lia|].
      rewrite Hb. apply Z.eqb_eq. lia.
    + apply not_true_is_false. intros (j & _ & [Hj E%Z.eqb_eq]%andb_true_iff)%existsb_exists.
      replace j with (Z.of_nat n - 1 - i) in Hj by lia. congruence.
  - apply not_true_is_false. intros (j & Hin & [_ E%Z.eqb_eq]%andb_true_iff)%existsb_exists.
    apply list_elem_of_In, elem_of_seqZ in Hin. lia.
Qed.

Lemma invert_bits_range n src : 0 <= invert_bits n src < 2 ^ Z.of_nat n.
Proof.
  assert (invert_bits n src mod 2 ^ Z.of_nat n = invert_bits n src) as <-; [|by apply Z.mod_pos_bound, Z.pow_pos_nonneg; lia].
  apply Z.bits_inj'. intros i Hi. destruct (Z.lt_ge_cases i (Z.of_nat n)).
  - by rewrite Z.mod_pow2_bits_low by lia.
  - rewrite Z.mod_pow2_bits_high, invert_bits_spec by lia. by rewrite (proj2 (Z.ltb_ge _ _)) by lia.
Qed.
Lemma invert_u16_bits src : invert_u16 src = invert_bits 16 src.
Proof. apply u16_small. apply (invert_bits_range 16). Qed.
Lemma invert_u16_lxor a b : invert_u16 (Z.lxor a b) = Z.lxor (invert_u16 a) (invert_u16 b).
Proof.
  rewrite !invert_u16_bits. apply Z.bits_inj'. intros i Hi. rewrite Z.lxor_spec, !invert_bits_spec, Z.lxor_spec by done.
  by destruct (i <? _).
Qed.
Lemma lxor_range16 a b : 0 <= a < 2 ^ 16 -> 0 <= b < 2 ^ 16 -> 0 <= Z.lxor a b < 2 ^ 16.
Proof.
  intros Ha Hb. assert (Z.lxor a b mod 2 ^ 16 = Z.lxor a b) as <-; [|by apply Z.mod_pos_bound].
  rewrite <- (Z.mod_small a (2 ^ 16)), <- (Z.mod_small b (2 ^ 16)) by lia.
  apply Z.bits_inj'. intros i Hi. destruct (Z.lt_ge_cases i 16).
  - by rewrite Z.mod_pow2_bits_low by lia.
  - rewrite Z.mod_pow2_bits_high, Z.lxor_spec, !Z.mod_pow2_bits_high by lia. done.
Qed.

(** The usual form of the algorithm: least significant bit first, polynomial 0x8408. *)
Definition crc_reflected_step (c : Z) : Z :=
  if Z.testbit c 0 then Z.lxor (Z.shiftr c 1) 0x8408 else Z.shiftr c 1.
Definition crc_reflected_byte (c b : Z) : Z := Nat.iter 8 crc_reflected_step (Z.lxor c b).
Definition crc_reflected (msg : list Z) : Z := foldl crc_reflected_byte 0xffff msg.

Lemma shift_mirrored x : invert_u16 (u16 (Z.shiftl x 1)) = Z.shiftr (invert_u16 x) 1.
Proof.
  rewrite !invert_u16_bits. apply Z.bits_inj'. intros i Hi. unfold u16.
  rewrite Z.shiftr_spec, !invert_bits_spec by lia. change (Z.of_nat 16) with 16.
  destruct (Z.ltb_spec i 16), (Z.ltb_spec (i + 1) 16); try lia; cbn [andb]; try done.
  - rewrite Z.mod_pow2_bits_low, Z.shiftl_spec by lia. f_equal. lia.
  - replace (16 - 1 - i) with 0 by lia. rewrite Z.mod_pow2_bits_low by lia. by apply Z.shiftl_spec_low.
Qed.
Lemma u16_lxor a b : u16 (Z.lxor a b) = Z.lxor (u16 a) (u16 b).
Proof.
  apply Z.bits_inj'. intros i Hi. unfold u16. rewrite Z.lxor_spec.
  destruct (Z.lt_ge_cases i 16); [by rewrite !Z.mod_pow2_bits_low, Z.lxor_spec by lia|by rewrite !Z.mod_pow2_bits_high by lia].
Qed.
Lemma step_mirrored x : invert_u16 (crc_poly_step x) = crc_reflected_step (invert_u16 x).
Proof.
  unfold crc_poly_step, crc_reflected_step. change 0x8000 with (2 ^ 15). rewrite land_pow2_truthy by lia.
  assert (Z.testbit (invert_u16 x) 0 = Z.testbit x 15) as -> by (by rewrite invert_u16_bits, invert_bits_spec).
  destruct (Z.testbit x 15); [|apply shift_mirrored].
  by rewrite u16_lxor, invert_u16_lxor, shift_mirrored.
Qed.
Lemma byte_mirrored c : 0 <= c < 256 -> invert_u16 (Z.shiftl (invert_u8 c) 8) = c.
Proof.
  intros Hc. apply Z.eqb_eq. revert c Hc. apply (forallb_range (fun c => invert_u16 (Z.shiftl (invert_u8 c) 8) =? c)).
  by vm_compute.
Qed.
Lemma crc_poly_step_range x : 0 <= crc_poly_step x < 2 ^ 16.
Proof. unfold crc_poly_step. case_match; apply u16_range. Qed.

Lemma crc_bits_mirrored n : forall x, 0 <= x < 2 ^ 16 ->
  invert_u16 (crc_bits n x) = Nat.iter n crc_reflected_step (invert_u16 x) /\ 0 <= crc_bits n x < 2 ^ 16.
Proof.
  induction n as [|n IH]; intros x Hx; [cbn [crc_bits Nat.iter]; split; [reflexivity|exact Hx]|]. cbn [crc_bits].
  destruct (IH (crc_poly_step x) (crc_poly_step_range x)) as [IH1 IH2]. split; [|done].
  rewrite IH1, step_mirrored. symmetry. rewrite Nat.iter_succ. by rewrite Nat.iter_swap.
Qed.
Lemma crc_byte_mirrored x c : 0 <= x < 2 ^ 16 -> 0 <= c < 256 ->
  invert_u16 (crc_byte x c) = crc_reflected_byte (invert_u16 x) c /\ 0 <= crc_byte x c < 2 ^ 16.
Proof.
  intros Hx Hc. unfold crc_byte, crc_reflected_byte.
  assert (0 <= Z.shiftl (invert_u8 c) 8 < 2 ^ 16) as Hs.
  { rewrite Z.shiftl_mul_pow2 by lia. pose proof (u8_range (invert_bits 8 c)). unfold invert_u8. lia. }
  rewrite (u16_small (Z.lxor _ _)) by by apply lxor_range16.
  destruct (crc_bits_mirrored 8 _ (lxor_range16 _ _ Hx Hs)) as [-> ?]. split; [|done].
  by rewrite invert_u16_lxor, byte_mirrored.
Qed.
Lemma crc16_mirrored msg : Forall (fun b => 0 <= b < 256) msg -> forall x, 0 <= x < 2 ^ 16 ->
  invert_u16 (foldl crc_byte x msg) = foldl crc_reflected_byte (invert_u16 x) msg.
Proof.
  induction 1 as [|b msg Hb _ IH]; intros x Hx; cbn [foldl]; [reflexivity|].
  destruct (crc_byte_mirrored x b Hx Hb) as [E ?]. by rewrite IH, E.
Qed.

(** The checksum computed with bit inversions is the reflected CRC-16 of the message,
    least significant bit first with polynomial 0x8408 and initial value 0xffff. *)
Theorem crc16_is_reflected msg : Forall (fun b => 0 <= b < 256) msg -> crc16_ccitt msg = crc_reflected msg.
Proof. intros H. unfold crc16_ccitt, crc_reflected. by rewrite crc16_mirrored. Qed.

(** ** Measurements on the air *)
Lemma cgms_meas_encode_length g m : (2 <= length (cgms_meas_encode g m).1 <= 15)%nat.
Proof.
  unfold cgms_meas_encode. cbv zeta.
  destruct (crc_supported g); cbn [fst]; rewrite length_insert, ?length_app; repeat case_match; cbn [length u16_encode]; lia.
Qed.

(** ** What the checksums miss *)
#[local] Arguments crc16_ccitt : simpl never.
(** The feature characteristic carries the checksum of the status. *)
Lemma feature_read_sends_status_crc s : ends cgms_cgm_feature_read s (fun data _ =>
  data = u24_encode (feature_bits (cgm_feature (ext (svc s)))) ++ [cgm_type_sample_location (cgm_feature (ext (svc s)))] ++
    u16_encode (status_e2e_crc (cgm_status (ext (svc s))))).
Proof. unfold cgms_cgm_feature_read, get_cgms. gatt. by eapply ends_lift. Qed.

(** A new start time with a correct checksum is refused when the checksum is not that of the
    time it replaces. *)
Lemma start_time_checks_old_value s date crc_bytes : crc_supported (ext (svc s)) = true -> length date = 9%nat ->
  date !! 7%nat = Some 0 -> crc_bytes = u16_encode (crc16_ccitt date) ->
  crc16_ccitt (take 9 (cgm_session_start_time (ext (svc s)))) <> crc16_ccitt date ->
  ends (cgms_cgm_start_time_write (date ++ crc_bytes) 11 0) s (fun r s' => r = BT_GATT_ERR CGMS_ERR_INVALID_CRC /\ s' = s).
Proof.
  intros Hc Hl Hz -> Hne. unfold cgms_cgm_start_time_write, get_cgms. gatt.
  eapply ends_lift; [unfold rd; cbn [Z.leb Z.compare]; rewrite lookup_app_l by (rewrite Hl; change (Z.to_nat 7) with 7%nat; lia); exact Hz|].
  cbn [orb]. change (s8 0) with 0. change ((0 <? -48) || (56 <? 0)) with false. cbv iota. rewrite Hc.
  change (0 + 11 =? START_TIME_SIZE - 2) with false. change (0 + 11 =? START_TIME_SIZE) with true. cbv iota zeta.
  pose proof (u16_encode_digits (crc16_ccitt date)) as Hd.
  assert (0 <= crc16_ccitt date < 65536) as Hr by apply u16_range.
  rewrite Hd. gatt. eapply ends_lift; [apply (rd_app_here _ _ _ 9); rewrite Hl; reflexivity|].
  eapply ends_bind. change [_; _] with ([crc16_ccitt date mod 256] ++ [(crc16_ccitt date / 2 ^ 8) mod 256]) at 1. rewrite app_assoc.
  eapply ends_lift; [apply (rd_app_here _ _ _ 10); rewrite length_app, Hl; reflexivity|]. gatt.
  replace (crc16_ccitt date mod 256 + 256 * ((crc16_ccitt date / 2 ^ 8) mod 256)) with (crc16_ccitt date)
    by (Z.to_euclidean_division_equations; lia).
  rewrite (proj2 (Z.eqb_neq _ _) Hne). cbn [negb]. by gatt.
Qed.

(** With checksums enabled the first notification after power on does not check: its checksum
    was computed before the size byte was filled in. *)
Definition first_measurement : cgms := (ext cgms_zero) <| cgm_feature := Feature CGM_FEAT_E2E_CRC_SUPPORTED 0 0 |>.
Lemma measurement_crc_stale :
  let data := (cgms_meas_encode first_measurement (cgm_meas first_measurement)).1 in
  length data = 8%nat /\ drop 6 data <> u16_encode (crc16_ccitt (take 6 data)).
Proof. split; [vm_compute; reflexivity|]. vm_compute. discriminate. Qed.
