(* ===== verification/CgmsSession.v ===== *)
(** * Glucose monitoring sessions

    What the simulated session stores second by second, and what a report of the record
    access control point then sends: the engine's theorems at the service of Cgms. *)
From S2P Require Import Prelude Gatt Racp RacpSpec RacpTypes Cgms.
#[local] Abbreviation CM := (M (server (engine cgms_record cgms))).

(** ** One record on the air *)
#[export, program] Instance cgms_laws : RecordServiceLaws cgms_record cgms := {
  rec_out g r := [(2, (cgms_meas_encode g (meas r)).1)];
  rec_ok _ _ := True
}.
Next Obligation. done. Qed.
Next Obligation.
  intros answer r s _ Hacc. cbn [rec_send cgms_service]. unfold cgm_meas_send, get_cgms. gatt.
  eapply ends_lift; [unfold fits; rewrite (proj2 (Z.leb_le _ _)); [reflexivity|]|].
  { pose proof (cgms_meas_encode_length (ext (svc s)) (meas r)). unfold CGM_MEAS_MAX_SIZE. lia. }
  gatt. rewrite (Hacc (calls s)) by (cbn [length]; lia). cbn [Z.eqb when]. gatt. split; [done|].
  cbn [length notifs fmap list_fmap fst snd]. by rewrite Nat.add_1_r.
Qed.

(** ** A session: the records a running session has stored.  After [n] seconds there is one
    every five seconds, until the store is full. *)
Definition stored_times (n : Z) : list Z :=
  (fun k => 5 * (k + 1)) <$> seqZ 0 (Z.min (n / 5) (Z.of_nat CGMS_DB_MAX_RECORDS)).

Lemma stored_times_length n : 0 <= n -> length (stored_times n) = Z.to_nat (Z.min (n / 5) (Z.of_nat CGMS_DB_MAX_RECORDS)).
Proof. intros Hn. unfold stored_times. by rewrite length_fmap, length_seqZ. Qed.
Lemma stored_times_same n : 0 <= n -> (n + 1) mod 5 <> 0 \/ n / 5 >= Z.of_nat CGMS_DB_MAX_RECORDS -> stored_times (n + 1) = stored_times n.
Proof.
  intros Hn H. unfold stored_times. do 2 f_equal. unfold CGMS_DB_MAX_RECORDS in *.
  Z.to_euclidean_division_equations; lia.
Qed.
Lemma stored_times_next n : 0 <= n -> (n + 1) mod 5 = 0 -> n / 5 < Z.of_nat CGMS_DB_MAX_RECORDS ->
  stored_times (n + 1) = stored_times n ++ [n + 1].
Proof.
  intros Hn H Hlt. unfold stored_times. unfold CGMS_DB_MAX_RECORDS in *.
  replace (Z.min ((n + 1) / 5) (Z.of_nat 20)) with (Z.min (n / 5) (Z.of_nat 20) + 1) by (Z.to_euclidean_division_equations; lia).
  rewrite seqZ_app by (Z.to_euclidean_division_equations; lia). rewrite fmap_app. f_equal.
  rewrite Z.add_0_l, Z.min_l by lia. generalize (Z.div_mod (n + 1) 5 ltac:(lia)), (Z.div_mod n 5 ltac:(lia)), (Z.mod_pos_bound n 5 ltac:(lia)).
  rewrite H. generalize (n / 5), (n mod 5), ((n + 1) / 5). intros q r q' H1 H2 H3. unfold seqZ. change (Z.to_nat 1) with 1%nat. cbn [seq fmap list_fmap]. f_equal. lia.
Qed.

(** The peer has subscribed to the control point and nothing is going on there. *)
Definition ready (e : engine cgms_record cgms) : Prop :=
  responds e = true /\ racp_state e = STATE_NO_COMM /\ length (operand (racp_request e)) = 6%nat.
(** The store holds measurements of the session's times. *)
Definition in_session (n : Z) (e : engine cgms_record cgms) : Prop :=
  ready e /\ session_run_time (ext e) = n /\ 0 <= n < 65536 /\
  exists l, packed l (rec_db e) /\ (fun r => time_offset (meas r)) <$> l = stored_times n.

Lemma start_in_session s l : ready (svc s) -> packed l (rec_db (svc s)) ->
  ends cgms_set_session_start_time s (fun _ s' => in_session 0 (svc s')).
Proof.
  intros Hr Hp. unfold cgms_set_session_start_time, get_cgms, upd_cgms, cgmss_timer_start, cgm_measurement_delete. gatt. cbv zeta. gatt.
  cbn [set_field ext rec_db]. split; [exact Hr|]. split; [done|]. split; [lia|]. exists []. split; [by eapply packed_delete_all|done].
Qed.

(** What the timer leaves alone. *)
Definition untouched (e e' : engine cgms_record cgms) : Prop :=
  racp_ccc e' = racp_ccc e /\ racp_indicating e' = racp_indicating e /\ racp_state e' = racp_state e /\ racp_request e' = racp_request e.
Lemma untouched_ready e e' : untouched e e' -> ready e -> ready e'.
Proof. intros (E1 & E2 & E3 & E4). unfold ready, responds. by rewrite E1, E2, E3, E4. Qed.
(** One more simulated measurement, with the time it was taken at. *)
Lemma simulation_adds s : ends cgm_measurement_simulation s (fun _ s' => exists m,
  time_offset m = session_run_time (ext (svc s)) /\ rec_db (svc s') = (db_record_add (CgmsRecord m) (rec_db (svc s))).2 /\
  session_run_time (ext (svc s')) = session_run_time (ext (svc s)) /\ untouched (svc s) (svc s')).
Proof.
  unfold cgm_measurement_simulation, get_cgms, upd_cgms. gatt. cbv zeta. gatt. apply ends_when; intros _; gatt;
    (eexists; refine (conj _ (conj eq_refl _)); [reflexivity|by repeat split]).
Qed.
Lemma notify_frame answer s : ends (cgm_measurement_notify answer) s (fun _ s' =>
  rec_db (svc s') = rec_db (svc s) /\ session_run_time (ext (svc s')) = session_run_time (ext (svc s)) /\ untouched (svc s) (svc s')).
Proof.
  unfold cgm_measurement_notify, get_cgms, upd_cgms. destruct s as [[] c ev]. gatt. apply ends_when; intros _; [|done].
  match goal with |- context [cgms_meas_encode ?g ?m] => pose proof (cgms_meas_encode_length g m) as Hl; destruct (cgms_meas_encode g m) as [data m'] end.
  cbn [fst] in Hl. gatt.
  eapply ends_lift; [unfold fits; rewrite (proj2 (Z.leb_le _ _)); [reflexivity|unfold CGM_MEAS_MAX_SIZE; lia]|]. gatt. done.
Qed.

(** One second later. *)
Lemma tick_in_session answer s n : in_session n (svc s) -> n + 1 < 65536 ->
  ends (cgms_timer_handler answer) s (fun _ s' => in_session (n + 1) (svc s')).
Proof.
  intros (Hr & Ht & Hn & l & Hp & Hl) Hlt. unfold cgms_timer_handler, get_cgms, upd_cgms, db_num_records_get. gatt.
  cbn [set_field ext rec_db session_run_time]. rewrite Ht, u16_small by lia.
  eapply (ends_mono _ _ (fun _ s1 => in_session (n + 1) (svc s1))).
  - pose proof (f_equal (@length Z) Hl) as Hlen. rewrite length_fmap, stored_times_length in Hlen by lia.
    rewrite (packed_num _ _ Hp). apply ends_when.
    + intros [Hm%Z.eqb_eq Hc%Z.ltb_lt]%andb_true_iff. eapply ends_mono; [apply simulation_adds|].
      intros u s1 (m & Hm1 & Hdb & Ht1 & Hun). cbn [svc set_field ext session_run_time rec_db] in *. rewrite u16_small in Hm1, Ht1 by lia.
      destruct (packed_add l (rec_db (svc s)) (CgmsRecord m) Hp ltac:(lia)) as (d' & Hadd & Hp').
      split; [by eapply untouched_ready|]. split; [lia|]. split; [lia|]. exists (l ++ [CgmsRecord m]). rewrite Hdb, Hadd. split; [done|].
      assert (n / 5 < Z.of_nat CGMS_DB_MAX_RECORDS) by (unfold CGMS_DB_MAX_RECORDS in *; Z.to_euclidean_division_equations; lia).
      rewrite fmap_app, Hl, stored_times_next by (done || lia). cbn. by rewrite Hm1, Ht.
    + intros Hc. split; [exact Hr|]. split; [cbn; rewrite Ht, u16_small; lia|]. split; [lia|]. exists l. split; [done|]. rewrite stored_times_same; [done|lia|].
      apply andb_false_iff in Hc as [Hm%Z.eqb_neq|Hf%Z.ltb_ge]; [by left|right].
      unfold CGMS_DB_MAX_RECORDS in *. Z.to_euclidean_division_equations; lia.
  - intros u s1 Hs1. gatt. eapply (ends_mono _ _ (fun _ s2 => in_session (n + 1) (svc s2))).
    + assert (ends (cgm_measurement_notify answer) s1 (fun _ s2 => in_session (n + 1) (svc s2))) as Hnot.
      { eapply ends_mono; [apply notify_frame|]. intros v s2 (Hdb & Ht2 & Hun). destruct Hs1 as (R & A & B & l1 & C & D).
        split; [by eapply untouched_ready|]. split; [by rewrite Ht2|]. split; [done|]. exists l1. by rewrite Hdb. }
      destruct (_ =? 0xff); [exact Hnot|]. apply ends_when; intros _; [exact Hnot|exact Hs1].
    + intros v s2 Hs2. gatt. exact Hs2.
Qed.

Fixpoint ticks (answer : nat -> Z) (n : nat) : CM unit :=
  match n with O => mret tt | S n => cgms_timer_handler answer;; ticks answer n end.
Lemma ticks_in_session answer k : forall s n, in_session n (svc s) -> n + Z.of_nat k < 65536 ->
  ends (ticks answer k) s (fun _ s' => in_session (n + Z.of_nat k) (svc s')).
Proof.
  induction k as [|k IH]; intros s n Hs Hlt; cbn [ticks].
  - gatt. by rewrite Z.add_0_r.
  - gatt. eapply ends_mono; [apply tick_in_session; [exact Hs|lia]|]. intros u s1 Hs1.
    replace (n + Z.of_nat (S k)) with (n + 1 + Z.of_nat k) by lia. apply IH; [done|lia].
Qed.

(** A peer's request for the records from time [key] on: written, then worked off. *)
Definition request_since (key : Z) : list Z :=
  [RACP_OPCODE_REPORT_RECS; RACP_OPERATOR_GREATER_OR_EQUAL; OPERAND_FILTER_TYPE_SEQ_NUM; key mod 256; key / 256].
Definition report_since (answer : nat -> Z) (others : CM unit) (key : Z) : CM unit :=
  cgms_racp_write (request_since key) 5;;
  cgms_racp_handle answer others.


Lemma decode_since key q : length (operand q) = 6%nat -> exists rest, length rest = 3%nat /\
  racp_decode 5 (request_since key) q =
  Some (Racp RACP_OPCODE_REPORT_RECS RACP_OPERATOR_GREATER_OR_EQUAL 3 (OPERAND_FILTER_TYPE_SEQ_NUM :: key mod 256 :: key / 256 :: rest)).
Proof.
  intros Hl. destruct q as [a b c o]. cbn [operand] in Hl.
  destruct o as [|x0 [|x1 [|x2 [|x3 [|x4 [|x5 [|]]]]]]]; try done. exists [x3; x4; x5]. split; [done|]. reflexivity.
Qed.
Lemma selected_times key (l : list cgms_record) ts : (fun r => time_offset (meas r)) <$> l = ts ->
  (fun r => time_offset (meas r)) <$> selected RACP_OPERATOR_GREATER_OR_EQUAL key l = filter (fun t => key <= t) ts.
Proof.
  intros <-. change (selected _ key l) with (filter (fun r : cgms_record => key <= rec_key r) l).
  induction l as [|r l IH]; [done|]. rewrite fmap_cons, !filter_cons. change (rec_key r) with (time_offset (meas r)).
  destruct (decide (key <= time_offset (meas r))); [by rewrite fmap_cons, IH|done].
Qed.

Lemma notifs_outs (e : engine cgms_record cgms) (l : list cgms_record) :
  notifs (outs e l) = (fun r => Notify 2 (cgms_meas_encode (ext e) (meas r)).1 0) <$> l.
Proof. induction l as [|r l IH]; [done|]. rewrite fmap_cons, <- IH. reflexivity. Qed.


(** ** Examples: a store of two measurements, taken at 5 and 10 seconds. *)
Definition example_records : list cgms_record :=
  [CgmsRecord (meas_zero <| time_offset := 5 |>); CgmsRecord (meas_zero <| time_offset := 10 |>)].
Definition example_db : db cgms_record :=
  Db ((Entry true <$> example_records) ++ replicate 18 (Entry false (CgmsRecord meas_zero))) 2.
Definition example (q : cgms_racp) : server (engine cgms_record cgms) :=
  Server (cgms_zero <| racp_ccc := 1 |> <| rec_db := example_db |> <| racp_request := q |>) 0 [].
Definition report_from_10 : cgms_racp := Racp RACP_OPCODE_REPORT_RECS RACP_OPERATOR_GREATER_OR_EQUAL 3 [1; 10; 0; 0; 0; 0].
Definition report_all : cgms_racp := Racp RACP_OPCODE_REPORT_RECS RACP_OPERATOR_ALL 0 [0; 0; 0; 0; 0; 0].
Definition count_from_10 : cgms_racp := report_from_10 <| opcode := RACP_OPCODE_REPORT_NUM_RECS |>.
Definition delete_first : cgms_racp := Racp RACP_OPCODE_DELETE_RECS RACP_OPERATOR_FIRST 0 [0; 0; 0; 0; 0; 0].
Definition abort : cgms_racp := Racp RACP_OPCODE_ABORT_OPERATION RACP_OPERATOR_NULL 0 [0; 0; 0; 0; 0; 0].

Lemma example_packed q : packed example_records (rec_db (svc (example q))).
Proof. eexists. split_and!; [reflexivity| |done..]. by repeat constructor. Qed.
Lemma example_pending q : length (operand q) = 6%nat -> pending example_records q (example q).
Proof. intros Hq. constructor; [apply packed_readable, example_packed|done..]. Qed.
Lemma nothing_quiet : quiet (R := cgms_record) (X := cgms) (mret tt).
Proof. intros s. by hoare. Qed.
Lemma aborting_writes : writes_requests (R := cgms_record) (X := cgms) (upd_svc (fun e => e <| racp_request := abort |>)).
Proof. intros s. gatt. split_and!; [done..|]. by eexists. Qed.

Lemma report_sends_selected_witness :
  let s := example report_from_10 in let todo := selected (operator report_from_10) 10 example_records in
  (fun r => time_offset (meas r)) <$> todo = [10] /\
  ends (racp_handle (fun _ => 0) (mret tt)) s (fun _ s' =>
    rec_db (svc s') = rec_db (svc s) /\ racp_state (svc s') = STATE_NO_COMM /\
    traffic (events s') = traffic (events s) ++ notifs (outs (svc s) todo) ++
      completion (fun _ => 0) (Z.of_nat (length todo)) (Server (svc s) (calls s + length (outs (svc s) todo)) [])).
Proof.
  split; [reflexivity|].
  apply (report_sends_selected (fun _ => 0) (mret tt) example_records report_from_10 (example report_from_10) 10 nothing_quiet);
    [by apply example_pending|reflexivity|reflexivity|reflexivity|by repeat constructor|intros k _; reflexivity].
Defined.
Lemma abort_stops_report_witness :
  let others := upd_svc (fun e : engine cgms_record cgms => e <| racp_request := abort |>) in let s := example report_all in
  ends (racp_handle (fun _ => 0) others) s (fun _ s1 => is_abort (racp_request (svc s1)) ->
    ends (racp_handle (fun _ => 0) others) s1 (fun _ s2 =>
      rec_db (svc s2) = rec_db (svc s) /\ racp_state (svc s2) = STATE_NO_COMM /\
      exists sent unsent, selected (operator report_all) 0 example_records = sent ++ unsent /\
        traffic (events s2) = traffic (events s) ++ notifs (outs (svc s) sent) ++
          response (fun _ => 0) [RACP_OPCODE_RESPONSE_CODE; RACP_OPERATOR_NULL; RACP_OPCODE_ABORT_OPERATION; RACP_RESPONSE_SUCCESS]
            (Server (svc s) (calls s1) []))).
Proof.
  apply (abort_stops_report (fun _ => 0) _ example_records report_all (example report_all) 0 aborting_writes);
    [by apply example_pending|reflexivity|reflexivity|reflexivity|by repeat constructor|intros k _; reflexivity].
Defined.
Lemma count_matches_report_witness :
  let s := example count_from_10 in
  ends (racp_handle (fun _ => 0) (mret tt)) s (fun _ s' => rec_db (svc s') = rec_db (svc s) /\ racp_state (svc s') = STATE_NO_COMM /\
    let n := Z.of_nat (length (selected (operator count_from_10) 10 example_records)) in
    events s' = events s ++ response (fun _ => 0) [RACP_OPCODE_NUM_RECS_RESPONSE; RACP_OPERATOR_NULL; n mod 256; n / 256] s).
Proof.
  apply (count_matches_report (fun _ => 0) (mret tt) example_records count_from_10 (example count_from_10) 10);
    [by apply example_pending|reflexivity..].
Defined.
Lemma delete_first_drops_newest_witness :
  let s := example delete_first in
  ends (racp_handle (fun _ => 0) (mret tt)) s (fun _ s' => readable (take 1 example_records) (rec_db (svc s')) /\
    events s' = events s ++ response (fun _ => 0)
      [RACP_OPCODE_RESPONSE_CODE; RACP_OPERATOR_NULL; RACP_OPCODE_DELETE_RECS; RACP_RESPONSE_SUCCESS] s).
Proof.
  apply (delete_first_drops_newest (fun _ => 0) [CgmsRecord (meas_zero <| time_offset := 10 |>)] _ delete_first (example delete_first) (mret tt));
    [by apply example_pending|apply example_packed|reflexivity..].
Defined.
Lemma crc16_is_reflected_witness : crc16_ccitt [0x31; 0x32; 0x33] = crc_reflected [0x31; 0x32; 0x33].
Proof. apply crc16_is_reflected. repeat (apply Forall_cons; split; [lia|]). by apply Forall_nil. Defined.

(** When the first notification of a report fails the report ends without a response. *)
Lemma failed_report_is_silent answer others s l r : pending (r :: l) report_all s -> answer (calls s) <> 0 ->
  ends (racp_handle answer others) s (fun _ s' => racp_state (svc s') = STATE_NO_COMM /\
    events s' = events s ++ [Notify 2 (cgms_meas_encode (ext (svc s)) (meas r)).1 (answer (calls s))]).
Proof.
  intros [Hdb Hst Hreq _] Herr. unfold racp_handle. gatt. rewrite Hreq, Hst. eapply ends_lift; [reflexivity|]. cbv beta iota zeta. gatt.
  cbn [report_all opcode Z.eqb Pos.eqb RACP_OPCODE_REPORT_RECS]. unfold report_records_request_execute, racp_report_records_procedure, state_set. apply ends_bind.
  eapply ends_lift; [reflexivity|]. gatt.
  change (CGMS_DB_MAX_RECORDS + 2)%nat with (S (S 20)). generalize 20%nat. intros n. cbn [report_loop].
  match goal with |- ends _ (Server ?e ?c ?ev) _ => set (e1 := e) end. gatt. rewrite decide_True by done.
  change (racp_request e1) with (racp_request (svc s)). rewrite Hreq. change (racp_proc_operator e1) with RACP_OPERATOR_ALL.
  cbn [report_all opcode Z.eqb Pos.eqb negb RACP_OPCODE_REPORT_RECS report_step RACP_OPERATOR_ALL].
  unfold racp_report_records_all, db_num_records_get. gatt.
  change (rec_db e1) with (rec_db (svc s)). change (racp_proc_record_idx e1) with 0. rewrite (readable_num _ _ Hdb).
  cbn [length]. rewrite (proj2 (Z.leb_gt _ _)) by lia. gatt.
  eapply ends_lift; [exact (readable_get _ _ 0 r Hdb eq_refl)|]. cbn [rec_send cgms_service]. unfold cgm_meas_send, get_cgms. gatt.
  destruct (fits CGM_MEAS_MAX_SIZE (cgms_meas_encode (ext (svc s)) (meas r)).1) as [buf|] eqn:Hfits.
  2: { unfold fits in Hfits. pose proof (cgms_meas_encode_length (ext (svc s)) (meas r)). unfold CGM_MEAS_MAX_SIZE in Hfits.
       rewrite (proj2 (Z.leb_le _ _)) in Hfits by lia. done. }
  eapply ends_lift; [exact Hfits|]. assert (buf = (cgms_meas_encode (ext (svc s)) (meas r)).1) as -> by (unfold fits in Hfits; destruct (_ <=? _); [by injection Hfits as <-|done]).
  gatt. apply Z.eqb_neq in Herr. rewrite Herr. cbn [when]. gatt. unfold truthy. rewrite Herr. cbn [negb]. gatt. rewrite Herr. gatt.
  unfold state_set. gatt. rewrite decide_False by done. by gatt.
Qed.
