(* ===== verification/CgmsTypes.v ===== *)
(** * Types of the glucose monitoring service

    Every handler of Cgms, the engine's included, keeps every variable in the range of its C
    type and every array at its length. *)
From S2P Require Import Prelude Gatt Racp RacpTypes Cgms.
#[local] Abbreviation CM := (M (server (engine cgms_record cgms))).

(** ** Types: every handler keeps every variable in its C type *)
Definition in_u32 (z : Z) : Prop := 0 <= z < 2 ^ 32.
Definition sfloat_typed (f : ieee_sfloat) : Prop := -128 <= exponent f < 128 /\ -32768 <= mantissa f < 32768.
Record meas_typed (m : cgms_cgm_measurement) : Prop := {
  mt_size : byte (meas_size m); mt_flag : byte (flag m); mt_conc : sfloat_typed (cgm_glucose_concentration m);
  mt_time : in_u16 (time_offset m); mt_status : in_u32 (sensor_status_annunciation m);
  mt_trend : sfloat_typed (cgm_trend_information m); mt_quality : sfloat_typed (cgm_quality m); mt_crc : in_u16 (meas_e2e_crc m)
}.
Record socp_typed (v : cgm_socp) : Prop := {
  so_opcode : byte (socp_opcode v); so_operand : bytes_ok 10 (socp_operand v);
  so_len : 0 <= socp_operand_len v <= 2; so_crc : in_u16 (socp_e2e_crc v)
}.
Record cgms_typed (g : cgms) : Prop := {
  ct_meas : meas_typed (cgm_meas g);
  ct_feature : in_u32 (feature_bits (cgm_feature g)) /\ byte (cgm_type_sample_location (cgm_feature g)) /\ in_u16 (feature_e2e_crc (cgm_feature g));
  ct_status : in_u16 (status_time_offset (cgm_status g)) /\ in_u32 (sensor_status (cgm_status g)) /\ in_u16 (status_e2e_crc (cgm_status g));
  ct_start : bytes_ok 11 (cgm_session_start_time g);
  ct_run : in_u16 (cgm_session_run_time g) /\ in_u16 (run_time_e2e_crc g);
  ct_interval : byte (communication_interval g);
  ct_buf : length (socp_buf g) = 11%nat;
  ct_response : socp_typed (socp_response g);
  ct_time : in_u16 (session_run_time g)
}.
Definition rec_typed (r : cgms_record) : Prop := meas_typed (meas r).
Definition service_typed : engine cgms_record cgms -> Prop := engine_typed rec_typed cgms_typed.
#[local] Abbreviation sound := (sound rec_typed cgms_typed).
#[local] Abbreviation keeps := (keeps rec_typed cgms_typed).

Lemma crc16_typed msg : in_u16 (crc16_ccitt msg).
Proof. apply u16_range. Qed.
Lemma u16_encode_bytes v : Forall byte (u16_encode v).
Proof. rewrite u16_encode_digits. repeat constructor; by apply Z.mod_pos_bound. Qed.

Lemma sound_get_cgms {B} (k : cgms -> M _ B) : (forall g, cgms_typed g -> sound (k g)) -> sound (g ← get_cgms; k g).
Proof. intros Hk s Hs. apply ends_bind, ends_gets, Hk; [|done]. by apply ty_ext in Hs. Qed.
Lemma keeps_cgms f : (forall g, cgms_typed g -> cgms_typed (f g)) -> keeps (upd_cgms f).
Proof. apply keeps_ext. Qed.
Lemma sound_cgms f : (forall g, cgms_typed g -> cgms_typed (f g)) -> sound (upd_cgms f).
Proof. intros H. by apply sound_upd, keeps_cgms. Qed.
(** An update of the service's own variables: the fields it does not touch keep their types. *)
#[local] Ltac upd :=
  apply sound_cgms; let g := fresh "g" in intros g [? ? ? ? ? ? ? ? ?];
  constructor; try done; cbn [set_field cgm_meas cgm_feature cgm_status cgm_session_start_time cgm_session_run_time run_time_e2e_crc
    communication_interval socp_buf socp_response session_run_time].
#[local] Ltac sound := cbv zeta;
  repeat (first
    [ lazymatch goal with |- RacpTypes.sound _ _ (get_cgms ≫= _) => idtac end;
      apply sound_get_cgms; let g := fresh "g" in let Hg := fresh "Hg" in intros g Hg
    | lazymatch goal with |- RacpTypes.sound _ _ (upd_cgms _) => fail | |- RacpTypes.sound _ _ (upd_svc _) => fail | _ => idtac end; sound1];
    cbv zeta beta).
#[local] Ltac fits := match goal with |- is_Some (fits ?n ?l) => unfold fits; rewrite (proj2 (Z.leb_le _ _)); [by eexists|] end.
#[local] Ltac bytes := repeat (apply Forall_cons_2; [split; vm_compute; congruence|]); by apply Forall_nil_2.

Lemma meas_encode_fits g m : is_Some (fits CGM_MEAS_MAX_SIZE (cgms_meas_encode g m).1).
Proof. fits. pose proof (cgms_meas_encode_length g m). unfold CGM_MEAS_MAX_SIZE. lia. Qed.
Lemma cgm_meas_send_sound answer r : sound (cgm_meas_send answer r).
Proof. unfold cgm_meas_send. sound; [apply meas_encode_fits|apply sound_upd, keeps_counted]. Qed.
Lemma meas_encode_typed g m : meas_typed m -> meas_typed (cgms_meas_encode g m).2.
Proof.
  intros [? ? ? ? ? ? ? ?]. unfold cgms_meas_encode. cbv zeta.
  destruct (crc_supported g); constructor; cbn [set_field snd meas_size meas_e2e_crc]; try done; [apply u8_range|apply u16_range|apply u8_range].
Qed.

(** *** Configurations and reads *)
Lemma meas_ccc_sound v : sound (cgms_cgm_meas_ccc_cfg_changed v).
Proof. upd. Qed.
Lemma socp_ccc_sound v : sound (cgms_cgm_spec_ops_ctrl_point_ccc_cfg_changed v).
Proof. upd. Qed.
Lemma racp_ccc_sound v : sound (cgms_racp_ccc_cfg_changed v).
Proof. apply sound_upd, keeps_upd. intros e [? ? ? ? ? ? ? ?]. by constructor. Qed.
Lemma feature_read_sound : sound cgms_cgm_feature_read.
Proof. unfold cgms_cgm_feature_read. sound. Qed.
Lemma status_read_sound : sound cgms_cgm_status_read.
Proof. unfold cgms_cgm_status_read. sound. destruct (crc_supported g); by eexists. Qed.
Lemma start_time_read_sound : sound cgms_cgm_start_time_read.
Proof. unfold cgms_cgm_start_time_read. sound. Qed.
Lemma run_time_read_sound : sound cgms_cgm_run_time_read.
Proof. unfold cgms_cgm_run_time_read. sound. upd. split; [tauto|apply crc16_typed]. Qed.

(** *** The session *)
Lemma crc_enable_sound b : sound (cgms_crc_enable b).
Proof. unfold cgms_crc_enable. upd. cbn. split_and!; try tauto. destruct b; apply u32_range. Qed.
Lemma session_start_bytes : bytes_ok 9 session_start.
Proof. split; [done|]. bytes. Qed.
Lemma set_start_sound : sound cgms_set_session_start_time.
Proof.
  unfold cgms_set_session_start_time, cgmss_timer_start, cgm_measurement_delete. sound.
  - upd. destruct session_start_bytes as [L B]. destruct (ct_start _ Hg) as [L2 B2]. split.
    + rewrite length_app, L. destruct (crc_supported _); [done|]. rewrite length_drop, L2. done.
    + apply Forall_app. split; [done|]. destruct (crc_supported _); [apply u16_encode_bytes|by apply Forall_drop].
  - upd.
  - apply sound_upd, keeps_db. intros d. apply db_typed_free_all.
Qed.
Lemma start_time_write_sound buf len off : Forall byte buf -> START_TIME_SIZE <= Z.of_nat (length buf) ->
  0 <= len <= Z.of_nat (length buf) -> 0 <= off -> sound (cgms_cgm_start_time_write buf len off).
Proof.
  intros Hb Hl Hlen Hoff. unfold START_TIME_SIZE in *. unfold cgms_cgm_start_time_write. sound; try (apply rd_fits; lia).
  destruct a0; sound.
  - apply slice_fits; lia.
  - destruct (ct_start _ Hg) as [L B]. apply store_fits; [done|]. rewrite L, (slice_length _ _ _ _ Ha0).
    match goal with H : (START_TIME_SIZE <? _) = false |- _ => apply Z.ltb_ge in H; unfold START_TIME_SIZE in H end. lia.
  - upd. destruct (ct_start _ Hg) as [L B]. split; [by rewrite (store_length _ _ _ _ Ha1)|].
    apply (store_bytes _ _ _ _ Ha1 B). by apply (slice_bytes _ _ _ _ Ha0).
Qed.

(** *** The specific operations control point *)
Lemma socp_encode_fits g v : socp_typed v -> exists data, cgms_socp_encode g v = Some data /\ (length data <= 11)%nat.
Proof.
  intros [_ [L _] Hl _]. unfold cgms_socp_encode. destruct (slice_fits (socp_operand v) 0 (socp_operand_len v)) as [o Ho]; [lia..|].
  rewrite Ho. cbn [mbind option_bind]. eexists; split; [done|]. apply slice_length in Ho.
  rewrite !length_app. cbn [length]. destruct (crc_supported g); rewrite ?u16_encode_length; cbn [length]; lia.
Qed.
Lemma socp_send_sound answer v : socp_typed v -> sound (socp_send answer v).
Proof.
  intros Hv. unfold socp_send. apply sound_get_cgms. intros g Hg. apply sound_when, sound_bind; [upd|]. intros _.
  apply sound_get_cgms. intros g1 Hg1. destruct (socp_encode_fits g1 v Hv) as (data & -> & Hdata).
  pose proof (ct_buf _ Hg1) as Hb. sound.
  - injection Ha as <-. apply store_fits; [done|]. lia.
  - upd. by rewrite (store_length _ _ _ _ Ha0).
  - upd.
Qed.
Lemma socp_handle_sound answer : sound (cgms_socp_handle answer).
Proof. unfold cgms_socp_handle. apply sound_get_cgms. intros g Hg. by apply socp_send_sound, ct_response. Qed.
Lemma socp_rsp_sound : sound socp_indicate_rsp.
Proof. unfold socp_indicate_rsp. upd. Qed.
Lemma respond_sound op bytes : byte op -> Forall byte bytes -> (length bytes <= 2)%nat -> sound (respond op bytes).
Proof.
  intros Ho Hb Hl. unfold respond. upd. destruct ct_response0 as [? [L B] ? ?].
  constructor; cbn [set_field socp_opcode socp_operand socp_operand_len socp_e2e_crc]; try done; [|lia].
  split; [rewrite length_app, length_drop; lia|]. apply Forall_app. split; [done|by apply Forall_drop].
Qed.
Lemma interval_sound v : byte v -> sound (upd_cgms (fun g => g <| communication_interval := v |>)).
Proof. intros Hv. upd. Qed.
Lemma socp_decode_fits n buf v : 0 <= n <= 11 -> n <= Z.of_nat (length buf) -> length (socp_operand v) = 10%nat ->
  is_Some (cgms_socp_decode n buf v).
Proof.
  intros Hn Hbuf Hv. unfold cgms_socp_decode. cbv zeta.
  destruct (Z.ltb_spec 0 n); [destruct (rd_in_bound buf 0 ltac:(lia)) as [b ->]|]; cbn [mbind option_bind];
    (destruct (Z.ltb_spec 1 n); [|by eexists]); [|lia].
  rewrite u8_small by lia. destruct (slice_fits buf 1 (n - 1)) as [src Hsrc]; [lia..|]. rewrite Hsrc. cbn [mbind option_bind].
  match goal with |- is_Some (store ?o _ _ ≫= _) => destruct (store_fits o 0 src) as [? ->]; [done| |by eexists] end.
  cbn [set_field socp_operand]. rewrite (slice_length _ _ _ _ Hsrc), Hv. lia.
Qed.
Lemma socp_decode_long n buf v q : cgms_socp_decode n buf v = Some q -> socp_operand_len q = 1 -> 1 < n.
Proof.
  unfold cgms_socp_decode. cbv zeta. intros Hq Hl. apply bind_Some in Hq as (v1 & H1 & Hq).
  destruct (Z.ltb_spec 1 n); [done|]. injection Hq as <-.
  destruct (0 <? n); [apply bind_Some in H1 as (b & _ & [= <-])|injection H1 as <-]; done.
Qed.
#[local] Hint Extern 1 (byte _) => (split; vm_compute; congruence) : sound.
#[local] Hint Extern 1 (Forall byte _) => bytes : sound.
#[local] Hint Extern 1 (_ <= _)%nat => (cbn; lia) : sound.
#[local] Hint Resolve set_start_sound respond_sound : sound.
Lemma ops_write_sound buf len : Forall byte buf -> 0 <= len <= 11 -> len <= Z.of_nat (length buf) ->
  sound (cgms_cgm_spec_ops_ctrl_point_write buf len).
Proof.
  intros Hb Hlen Hl. unfold cgms_cgm_spec_ops_ctrl_point_write. sound.
  - rewrite u8_small by lia. by apply socp_decode_fits.
  - apply Z.eqb_eq in Hb1. apply (socp_decode_long _ _ _ _ Ha) in Hb1. rewrite u8_small in Hb1 by lia. apply rd_fits. lia.
  - apply interval_sound. by eapply rd_byte.
  - apply respond_sound; auto with sound. apply Forall_cons_2; [|by apply Forall_nil_2].
    destruct (_ =? 0); [by apply ct_interval in Hg|auto with sound].
  - upd.
  - destruct (ct_response _ Hg) as [_ [L _] ? _]. apply slice_fits; lia.
  - upd. destruct ct_response0. constructor; try done. apply crc16_typed.
Qed.

(** *** The timer *)
Lemma lor_in_u32 a b : in_u32 a -> in_u32 b -> in_u32 (Z.lor a b).
Proof.
  unfold in_u32. intros Ha Hb. assert (Z.lor a b mod 2 ^ 32 = Z.lor a b) as <-; [|by apply Z.mod_pos_bound].
  rewrite <- (Z.mod_small a (2 ^ 32)), <- (Z.mod_small b (2 ^ 32)), <- !Z.land_ones, <- Z.land_lor_distr_l by lia.
  by rewrite <- Z.land_assoc, Z.land_diag.
Qed.
Lemma octet_in_u32 z k : 0 <= k <= 16 -> in_u32 (Z.shiftl (u8 z) k).
Proof.
  intros Hk. unfold in_u32. rewrite Z.shiftl_mul_pow2 by lia. pose proof (u8_range z).
  assert (2 ^ k <= 2 ^ 16) by (apply Z.pow_le_mono_r; lia). assert (0 < 2 ^ k) by (apply Z.pow_pos_nonneg; lia). nia.
Qed.
Lemma simulation_sound : sound cgm_measurement_simulation.
Proof.
  unfold cgm_measurement_simulation. sound.
  - upd. destruct ct_meas0. by constructor.
  - upd. destruct ct_status0 as (? & ? & ?), (ct_meas _ Hg). split_and!; [done| |done].
    repeat apply lor_in_u32; try (by apply octet_in_u32). apply (octet_in_u32 _ 0). lia.
  - upd. destruct ct_status0 as (? & ? & ?). split_and!; [done..|apply crc16_typed].
  - apply sound_upd, keeps_db. intros d Hd. apply db_typed_add; [done|]. by apply ct_meas in Hg.
Qed.
Lemma notify_sound answer : sound (cgm_measurement_notify answer).
Proof.
  unfold cgm_measurement_notify. apply sound_get_cgms. intros g Hg. apply sound_when.
  pose proof (meas_encode_typed g _ (ct_meas _ Hg)) as Hm. pose proof (meas_encode_fits g (cgm_meas g)) as Hf.
  destruct (cgms_meas_encode g (cgm_meas g)) as [data m]. sound. upd.
Qed.
#[local] Hint Resolve simulation_sound notify_sound : sound.
Lemma timer_sound answer : sound (cgms_timer_handler answer).
Proof.
  unfold cgms_timer_handler. sound.
  - upd. apply u16_range.
  - upd. split; [|tauto]. unfold in_u16 in *. split; [apply Z.div_pos; lia|]. apply Z.div_lt_upper_bound; lia.
Qed.
Lemma init_sound : sound cgms_init.
Proof.
  unfold cgms_init, cgmss_timer_init. sound.
  - upd. destruct ct_feature0 as (? & ? & ?). split_and!; [..|done]; split; vm_compute; congruence.
  - upd. destruct ct_feature0 as (? & ? & ?). split_and!; [done..|apply crc16_typed].
  - apply keeps_db. intros d. apply db_typed_free_all.
Qed.

(** *** Sequences of events *)

(** What the stack and the timers call; a write comes with the bytes the stack holds, its
    length and offset. *)
Inductive cgms_event :=
| MeasConfigured (value : Z) | SocpConfigured (value : Z) | RacpConfigured (value : Z)
| FeatureRead | StatusRead | StartTimeRead | RunTimeRead
| StartTimeWritten (buf : list Z) (len offset : Z)
| SocpWritten (buf : list Z) (len : Z) | SocpWork | SocpConfirmed
| RacpWritten (buf : list Z) (len : Z) | RacpConfirmed
| CrcEnabled (enable : bool) | SessionStarted | Tick.
(** The work item of the control point runs for long; other events happen at its pauses. *)
Inductive cgms_op := Event (e : cgms_event) | RacpWork (during : nat -> list cgms_event).

Definition run_event (answer : nat -> Z) (e : cgms_event) : CM unit :=
  match e with
  | MeasConfigured v => cgms_cgm_meas_ccc_cfg_changed v
  | SocpConfigured v => cgms_cgm_spec_ops_ctrl_point_ccc_cfg_changed v
  | RacpConfigured v => cgms_racp_ccc_cfg_changed v
  | FeatureRead => cgms_cgm_feature_read;; mret tt
  | StatusRead => cgms_cgm_status_read;; mret tt
  | StartTimeRead => cgms_cgm_start_time_read;; mret tt
  | RunTimeRead => cgms_cgm_run_time_read;; mret tt
  | StartTimeWritten buf len offset => cgms_cgm_start_time_write buf len offset;; mret tt
  | SocpWritten buf len => cgms_cgm_spec_ops_ctrl_point_write buf len;; mret tt
  | SocpWork => cgms_socp_handle answer
  | SocpConfirmed => socp_indicate_rsp
  | RacpWritten buf len => cgms_racp_write buf len;; mret tt
  | RacpConfirmed => indicate_rsp
  | CrcEnabled b => cgms_crc_enable b
  | SessionStarted => cgms_set_session_start_time
  | Tick => cgms_timer_handler answer
  end.
Fixpoint run_events answer (es : list cgms_event) : CM unit :=
  match es with [] => mret tt | e :: es => run_event answer e;; run_events answer es end.
(** The events at a pause are those of the number of calls made so far. *)
Definition run_op answer (o : cgms_op) : CM unit :=
  match o with
  | Event e => run_event answer e
  | RacpWork during => cgms_racp_handle answer (n ← gets calls; run_events answer (during n))
  end.
Fixpoint run_ops answer (os : list cgms_op) : CM unit :=
  match os with [] => mret tt | o :: os => run_op answer o;; run_ops answer os end.

(** Writes the handlers have room for. *)
Definition event_fits (e : cgms_event) : Prop :=
  match e with
  | StartTimeWritten buf len offset => Forall byte buf /\ START_TIME_SIZE <= Z.of_nat (length buf) /\
      0 <= len <= Z.of_nat (length buf) /\ 0 <= offset
  | SocpWritten buf len => Forall byte buf /\ 0 <= len <= 11 /\ len <= Z.of_nat (length buf)
  | RacpWritten buf len => Forall byte buf /\ 0 <= len <= 8 /\ len <= Z.of_nat (length buf)
  | _ => True
  end.
Definition op_fits (o : cgms_op) : Prop :=
  match o with Event e => event_fits e | RacpWork during => forall n, Forall event_fits (during n) end.

Lemma racp_write_sound buf len : Forall byte buf -> 0 <= len <= 8 -> len <= Z.of_nat (length buf) -> sound (cgms_racp_write buf len).
Proof.
  intros Hb H1 H2. unfold cgms_racp_write.
  pose proof (racp_accept_sound rec_typed cgms_typed "cgms_racp_work_item" BT_ATT_ERR_PROCEDURE_IN_PROGRESS len buf Hb H1 H2). sound.
Qed.
#[local] Hint Resolve meas_ccc_sound socp_ccc_sound racp_ccc_sound feature_read_sound status_read_sound start_time_read_sound
  run_time_read_sound start_time_write_sound ops_write_sound socp_handle_sound socp_rsp_sound racp_write_sound
  crc_enable_sound timer_sound indicate_rsp_sound : sound.
Lemma run_event_sound answer e : event_fits e -> sound (run_event answer e).
Proof.
  destruct e; cbn [event_fits run_event]; intros; destruct_and?; auto with sound; (apply sound_bind; [auto with sound|]; intros; apply sound_ret).
Qed.
Lemma run_events_sound answer es : Forall event_fits es -> sound (run_events answer es).
Proof.
  induction 1 as [|e es He _ IH]; cbn [run_events]; [apply sound_ret|]. apply sound_bind; [by apply run_event_sound|done].
Qed.
Lemma run_op_keeps answer o : op_fits o -> keeps (run_op answer o).
Proof.
  destruct o as [e|during]; cbn [op_fits run_op]; intros H; [by apply sound_keeps, run_event_sound|].
  apply racp_handle_keeps.
  - intros r. apply sound_keeps, cgm_meas_send_sound.
  - intros s Hs. apply ends_if_bind, ends_if_gets. by apply sound_keeps; [apply run_events_sound|].
Qed.


Lemma bytes_zero n : Forall byte (replicate n 0).
Proof. by apply Forall_replicate. Qed.
Lemma cgms_zero_typed : service_typed cgms_zero.
Proof.
  assert (in_u16 0 /\ in_u32 0 /\ byte 0) as (? & ? & ?) by (repeat split; done).
  assert (meas_typed meas_zero) as Hm by (by repeat constructor).
  constructor; cbn [cgms_zero rec_db racp_request racp_proc_record_idx racp_proc_records_reported racp_proc_key racp_proc_operator racp_buf ext];
    try done; try (split; done).
  - constructor; [done|done|]. by apply Forall_replicate.
  - split_and!; try done. split; [done|apply bytes_zero].
  - constructor; try done; try (split_and!; done); [split; [done|apply bytes_zero]|].
    constructor; try done. split; [done|apply bytes_zero].
Qed.
