(* ===== verification/Gls.v ===== *)
(** * The glucose service (samples/bluetooth/gatt/gls.c)

    Discrete glucose measurements with an optional context, numbered as they are taken, and
    the record access control point of Racp over them.  The functions of gls.c that are those
    of cgms.c up to names are the engine's, named here at this service. *)
From Stdlib Require Import Sorting.Sorted.
From S2P Require Import Prelude Gatt Racp RacpSpec.

(** ** Constants *)
Definition GLS_ERR_CCC_IMPROPER_CONF : Z := 0x81.
Definition GLS_ERR_PROCEDURE_IN_PROGRESS : Z := 0x80.
Definition GLS_BUF_SIZE : Z := 32.
Definition GLS_MEAS_FLAG_TIME_OFFSET : Z := 0x01.
Definition GLS_MEAS_FLAG_CONC_TYPE_LOC : Z := 0x02.
Definition GLS_MEAS_FLAG_UNITS_KG_L : Z := 0x00.
Definition GLS_MEAS_FLAG_UNITS_MOL_L : Z := 0x04.
Definition GLS_MEAS_FLAG_SENSOR_STATUS : Z := 0x08.
Definition GLS_MEAS_FLAG_CONTEXT_INFO : Z := 0x10.
Definition GLS_MEAS_TYPE_VEN_BLOOD : Z := 3.
Definition GLS_MEAS_LOC_FINGER : Z := 1.
Definition GLS_CONTEXT_FLAG_CARB : Z := 0x01.
Definition GLS_CONTEXT_FLAG_MEAL : Z := 0x02.
Definition GLS_CONTEXT_FLAG_TESTER : Z := 0x04.
Definition GLS_CONTEXT_FLAG_EXERCISE : Z := 0x08.
Definition GLS_CONTEXT_FLAG_MED : Z := 0x10.
Definition GLS_CONTEXT_FLAG_MED_KG : Z := 0x00.
Definition GLS_CONTEXT_FLAG_MED_L : Z := 0x20.
Definition GLS_CONTEXT_FLAG_HBA1C : Z := 0x40.
Definition GLS_CONTEXT_FLAG_EXT : Z := 0x80.
Definition GLS_CONTEXT_CARB_ID_BREAKFAST : Z := 1.
Definition GLS_CONTEXT_MEAL_PREPRANDIAL : Z := 1.
Definition GLS_CONTEXT_TESTER_SELF : Z := 1.
Definition GLS_CONTEXT_HEALTH_NONE : Z := 5.
Definition GLS_CONTEXT_MED_ID_RAPID : Z := 1.
Definition GLS_FEATURE_LOW_BATT : Z := 0x0001.
Definition GLS_FEATURE_MALFUNC : Z := 0x0002.
Definition GLS_FEATURE_RES_HIGH_LOW : Z := 0x0020.
Definition GLS_FEATURE_GENERAL_FAULT : Z := 0x0100.
Definition GLS_FEATURE_TIME_FAULT : Z := 0x0200.
Definition GLS_FEATURE_MULTI_BOND : Z := 0x0400.
Definition GLS_RACP_SIZE : Z := 9.        (* sizeof(struct gls_racp), packed *)

(** ** Data *)
Record gls_glucose_meas := GlsMeas {
  flags : Z; sequence_number : Z; base_time : date_time; time_offset : Z; glucose_concentration : ieee_sfloat;
  type : Z; sample_location : Z; sensor_status_annunciation : Z
}.
#[export] Instance eta_gls_meas : EtaRecord gls_glucose_meas := fun r =>
  GlsMeas (flags r) (sequence_number r) (base_time r) (time_offset r) (glucose_concentration r) (type r)
    (sample_location r) (sensor_status_annunciation r).

Record gls_meas_context := GlsContext {
  ctx_flags : Z; ctx_sequence_number : Z; extended_flags : Z; carbohydrate_id : Z; carbohydrate : ieee_sfloat;
  meal : Z; tester_and_health : Z; exercise_duration : Z; exercise_intensity : Z; medication_id : Z;
  medication : ieee_sfloat; hba1c : ieee_sfloat
}.
Record gls_record := GlsRecord { meas : gls_glucose_meas; context : gls_meas_context }.

(** The file's variables that are not the engine's. *)
Record gls := Gls {
  glucose_meas : gls_glucose_meas;
  glucose_meas_ccc : Z;
  gls_context : gls_meas_context;
  context_ccc : Z;
  glucose_feature : Z;
  systick : Z;
  record_next_seq_num : Z
}.
#[export] Instance eta_gls : EtaRecord gls := fun r =>
  Gls (glucose_meas r) (glucose_meas_ccc r) (gls_context r) (context_ccc r) (glucose_feature r) (systick r)
    (record_next_seq_num r).
#[local] Abbreviation GM := (M (server (engine gls_record gls))).
Definition get_gls : GM gls := gets (fun s => ext (svc s)).
Definition upd_gls (f : gls -> gls) : GM unit := upd_svc (fun e => e <| ext ::= f |>).

(** ** Measurements *)

(** The tests of the flags are [flags | FLAG], written [Z.lor] here as there. *)
Definition gls_meas_encode (m : gls_glucose_meas) : list Z :=
  [flags m] ++ u16_encode (sequence_number m) ++ date_time_encode (base_time m)
  ++ (if truthy (Z.lor (flags m) GLS_MEAS_FLAG_TIME_OFFSET) then u16_encode (time_offset m) else [])
  ++ (if truthy (Z.lor (flags m) GLS_MEAS_FLAG_CONC_TYPE_LOC)
      then u16_encode (sfloat_pack (glucose_concentration m)) ++ [u8 (Z.lor (Z.shiftl (type m) 4) (sample_location m))] else [])
  ++ (if truthy (Z.lor (flags m) GLS_MEAS_FLAG_SENSOR_STATUS) then u16_encode (sensor_status_annunciation m) else []).

Definition gls_meas_context_encode (c : gls_meas_context) : list Z :=
  [ctx_flags c] ++ u16_encode (ctx_sequence_number c)
  ++ (if truthy (Z.lor (ctx_flags c) GLS_CONTEXT_FLAG_EXT) then [extended_flags c] else [])
  ++ (if truthy (Z.lor (ctx_flags c) GLS_CONTEXT_FLAG_CARB)
      then [carbohydrate_id c] ++ u16_encode (sfloat_pack (carbohydrate c)) else [])
  ++ (if truthy (Z.lor (ctx_flags c) GLS_CONTEXT_FLAG_MEAL) then [meal c] else [])
  ++ (if truthy (Z.lor (ctx_flags c) GLS_CONTEXT_FLAG_TESTER) then [tester_and_health c] else [])
  ++ (if truthy (Z.lor (ctx_flags c) GLS_CONTEXT_FLAG_EXERCISE)
      then u16_encode (exercise_duration c) ++ [exercise_intensity c] else [])
  ++ (if truthy (Z.lor (ctx_flags c) GLS_CONTEXT_FLAG_MED)
      then [medication_id c] ++ u16_encode (sfloat_pack (medication c)) else [])
  ++ (if truthy (Z.lor (ctx_flags c) GLS_CONTEXT_FLAG_HBA1C) then u16_encode (sfloat_pack (hba1c c)) else []).

Definition glucose_meas_send (answer : nat -> Z) (rec : gls_record) : GM Z :=
  buf ← lift (fits GLS_BUF_SIZE (gls_meas_encode (meas rec)));
  err ← bt_gatt_notify answer 2 buf;
  when (err =? 0) (upd_svc (fun e => e <| racp_proc_records_reported ::= (fun n => u8 (n + 1)) |>));;
  buf ← lift (fits GLS_BUF_SIZE (gls_meas_context_encode (context rec)));
  if truthy (Z.land (flags (meas rec)) GLS_MEAS_FLAG_CONTEXT_INFO) then bt_gatt_notify answer 5 buf else mret err.

#[export] Instance gls_service : RecordService gls_record gls := {
  rec_key r := sequence_number (meas r);
  rec_send := glucose_meas_send;
  rec_sleep := 200;
  racp_attr := 10;
  racp_buf_size := GLS_BUF_SIZE
}.

(** ** Handlers *)
Section Handlers.
Context (answer : nat -> Z) (others : GM unit).

Definition gls_glucose_meas_ccc_cfg_changed (value : Z) : GM unit :=
  upd_gls (fun g => g <| glucose_meas_ccc := b2z (value =? BT_GATT_CCC_NOTIFY) |>).
Definition gls_glucose_meas_context_ccc_cfg_changed (value : Z) : GM unit :=
  upd_gls (fun g => g <| context_ccc := b2z (value =? BT_GATT_CCC_NOTIFY) |>).
Definition gls_racp_ccc_cfg_changed (value : Z) : GM unit :=
  upd_svc (fun e => e <| racp_ccc := b2z (value =? BT_GATT_CCC_INDICATE) |>).
Definition gls_glucose_feature_read : GM (list Z) := g ← get_gls; mret (u16_encode (glucose_feature g)).

(** The engine's functions under the names they have in gls.c and gls_db.c. *)
Definition gls_db_init : db gls_record -> db gls_record := db_init.
Definition gls_db_record_get : Z -> db gls_record -> option (Z + gls_record) := db_record_get.
Definition gls_db_record_add : gls_record -> db gls_record -> Z * db gls_record := db_record_add.
Definition gls_db_record_delete : Z -> db gls_record -> option (Z * db gls_record) := db_record_delete.
Definition gls_db_record_delete_first : db gls_record -> Z * db gls_record := db_record_delete_first.
Definition gls_db_record_delete_last : db gls_record -> option (Z * db gls_record) := db_record_delete_last.
Definition gls_db_record_delete_all : db gls_record -> db gls_record := db_record_delete_all.
Definition gls_racp_decode : Z -> list Z -> cgms_racp -> option cgms_racp := racp_decode.
Definition gls_racp_encode : cgms_racp -> option (list Z) := racp_encode.
Definition gls_indicate_rsp : GM unit := indicate_rsp.
Definition gls_racp_send : cgms_racp -> GM unit := racp_send answer.
Definition gls_racp_response_code_send : Z -> Z -> GM unit := racp_response_code_send answer.
Definition gls_report_records_all : GM Z := racp_report_records_all answer others.
Definition gls_report_records_first_last : GM Z := racp_report_records_first_last answer.
Definition gls_report_records_greater_or_equal : GM Z := racp_report_records_greater_or_equal answer.
Definition gls_report_records_completed : GM unit := racp_report_records_completed answer.
Definition gls_report_records_procedure : GM unit := racp_report_records_procedure answer others.
Definition gls_is_request_to_be_executed : cgms_racp -> comm_state -> option (bool * Z) := is_request_to_be_executed.
Definition gls_report_records_request_execute : cgms_racp -> GM unit := report_records_request_execute answer others.
Definition gls_delete_records_request_execute : cgms_racp -> GM unit := delete_records_request_execute answer.
Definition gls_report_num_records_request_execute : cgms_racp -> GM unit := report_num_records_request_execute answer.
Definition gls_racp_handle : GM unit := racp_handle answer others.

Definition gls_racp_write (buf : list Z) (len offset : Z) : GM Z :=
  e ← get_svc;
  if negb (truthy (racp_ccc e)) then mret (BT_GATT_ERR GLS_ERR_CCC_IMPROPER_CONF)
  else if GLS_RACP_SIZE <? offset + len then mret (BT_GATT_ERR BT_ATT_ERR_INVALID_OFFSET)
  else racp_accept "gls_delay_work_item" GLS_ERR_PROCEDURE_IN_PROGRESS len buf.

(** ** Measuring *)
Definition next_sequence_number_set : GM Z :=
  e ← get_svc;
  let num_records := db_num_records_get (rec_db e) in
  if 0 <? num_records then
    got ← lift (db_record_get (u8 (num_records - 1)) (rec_db e));
    match got with
    | inl err => mret err
    | inr rec =>
      upd_gls (fun g => g <| record_next_seq_num := u16 (sequence_number (meas rec) + 1) |>);; mret 0
    end
  else upd_gls (fun g => g <| record_next_seq_num := 0 |>);; mret 0.

Definition set_base_time : date_time := DateTime 2018 4 11 16 6 18.
Inductive gls_unit := UNIT_KG_L | UNIT_MOL_L.

(** The measurement with its number and time, before the context flag. *)
Definition simulated_meas (unit : gls_unit) (seq_num now : Z) : gls_glucose_meas :=
  let '(conc, unit_val) :=
    match unit with
    | UNIT_KG_L => (IeeeSfloat (-5) 5, GLS_MEAS_FLAG_UNITS_KG_L)
    | UNIT_MOL_L => (IeeeSfloat (-3) 5, GLS_MEAS_FLAG_UNITS_MOL_L)
    end in
  GlsMeas (Z.lor (Z.lor (Z.lor GLS_MEAS_FLAG_TIME_OFFSET GLS_MEAS_FLAG_CONC_TYPE_LOC) unit_val) GLS_MEAS_FLAG_SENSOR_STATUS)
    seq_num set_base_time now conc GLS_MEAS_TYPE_VEN_BLOOD GLS_MEAS_LOC_FINGER 0.
Definition simulated_context (unit : gls_unit) (seq_num : Z) : gls_meas_context :=
  let ctx := foldl Z.lor GLS_CONTEXT_FLAG_CARB
    [GLS_CONTEXT_FLAG_MEAL; GLS_CONTEXT_FLAG_TESTER; GLS_CONTEXT_FLAG_EXERCISE; GLS_CONTEXT_FLAG_MED;
     GLS_CONTEXT_FLAG_HBA1C; GLS_CONTEXT_FLAG_EXT] in
  GlsContext (Z.lor ctx (match unit with UNIT_KG_L => GLS_CONTEXT_FLAG_MED_KG | UNIT_MOL_L => GLS_CONTEXT_FLAG_MED_L end))
    seq_num 0 GLS_CONTEXT_CARB_ID_BREAKFAST (IeeeSfloat (-3) 90) GLS_CONTEXT_MEAL_PREPRANDIAL
    (Z.lor (Z.shiftl GLS_CONTEXT_HEALTH_NONE 4) GLS_CONTEXT_TESTER_SELF) 1800 70 GLS_CONTEXT_MED_ID_RAPID
    (IeeeSfloat (-3) 3) (IeeeSfloat 0 5).
Definition no_context : gls_meas_context :=
  GlsContext 0 0 0 0 (IeeeSfloat 0 0) 0 0 0 0 0 (IeeeSfloat 0 0) (IeeeSfloat 0 0).

Definition glucose_measurement_simulation (unit : gls_unit) (with_context : bool) : GM Z :=
  upd_gls (fun g => g <| record_next_seq_num ::= (fun n => u16 (n + 1)) |>);;
  g ← get_gls;
  let m := simulated_meas unit (record_next_seq_num g) (systick g) in
  upd_gls (fun g => g <| glucose_meas := m |>);;
  new_record ←
    (if with_context then
       let m := m <| flags ::= (fun f => Z.lor f GLS_MEAS_FLAG_CONTEXT_INFO) |> in
       let c := simulated_context unit (sequence_number m) in
       upd_gls (fun g => g <| glucose_meas := m |> <| gls_context := c |>);;
       mret (GlsRecord m c)
     else mret (GlsRecord m no_context));
  upd_svc (fun e => e <| rec_db ::= (fun d => (db_record_add new_record d).2) |>);;
  mret 0.

Definition glucose_measurement_delete : GM unit := upd_svc (fun e => e <| rec_db ::= db_record_delete_all |>).
Definition gls_state_reset : GM unit := state_set STATE_NO_COMM.

Definition gls_timer_handler : GM unit :=
  upd_gls (fun g => g <| systick ::= (fun t => s16 (t + 1)) |>);;
  e ← get_svc;
  when ((Z.rem (systick (ext e)) 5 =? 0) && (db_num_records_get (rec_db e) <? Z.of_nat CGMS_DB_MAX_RECORDS))
    (err ← glucose_measurement_simulation UNIT_MOL_L false; mret tt).

Definition gls_timer_init : GM unit := emit (TimerInit "gls_timer");; emit (TimerStart "gls_timer" 1 1).

Definition gls_init : GM Z :=
  upd_svc (fun e => e <| racp_ccc := 0 |> <| ext ::= (fun g =>
    g <| glucose_meas := GlsMeas 0 0 (DateTime 0 0 0 0 0 0) 0 (IeeeSfloat 0 0) 0 0 0 |> <| glucose_meas_ccc := 0 |>
      <| gls_context := no_context |> <| context_ccc := 0 |>) |>);;
  upd_gls (fun g => g <| glucose_feature := foldl Z.lor GLS_FEATURE_LOW_BATT
    [GLS_FEATURE_MALFUNC; GLS_FEATURE_RES_HIGH_LOW; GLS_FEATURE_GENERAL_FAULT; GLS_FEATURE_TIME_FAULT; GLS_FEATURE_MULTI_BOND] |>);;
  upd_svc (fun e => e <| rec_db ::= db_init |>);;
  err ← next_sequence_number_set;
  if truthy err then mret err
  else
    emit (ServiceRegister "gls_svc");;
    gls_timer_init;;
    emit (WorkInit "gls_delay_work_item");;
    state_set STATE_NO_COMM;;
    mret 0.
End Handlers.

(** The variables at power on. *)
Definition gls_zero : engine gls_record gls :=
  let m := GlsMeas 0 0 (DateTime 0 0 0 0 0 0) 0 (IeeeSfloat 0 0) 0 0 0 in
  Engine (Db (replicate CGMS_DB_MAX_RECORDS (Entry false (GlsRecord m no_context))) 0) 0 0
    (replicate (Z.to_nat GLS_BUF_SIZE) 0) (Racp 0 0 0 (replicate 6 0)) 0 STATE_NO_COMM 0 0 0 0
    (Gls m 0 no_context 0 0 0 0).

(** ** One record on the air *)

(** The tests of the flags never fail. *)
Lemma lor_flag f flag : flag <> 0 -> truthy (Z.lor f flag) = true.
Proof.
  intros H. unfold truthy. apply negb_true_iff, Z.eqb_neq. rewrite Z.lor_eq_0_iff. tauto.
Qed.
Lemma gls_meas_encode_all m : gls_meas_encode m =
  [flags m] ++ u16_encode (sequence_number m) ++ date_time_encode (base_time m) ++ u16_encode (time_offset m)
  ++ u16_encode (sfloat_pack (glucose_concentration m)) ++ [u8 (Z.lor (Z.shiftl (type m) 4) (sample_location m))]
  ++ u16_encode (sensor_status_annunciation m).
Proof. unfold gls_meas_encode. by rewrite !lor_flag by done. Qed.
Lemma gls_meas_context_encode_all c : gls_meas_context_encode c =
  [ctx_flags c] ++ u16_encode (ctx_sequence_number c) ++ [extended_flags c] ++ [carbohydrate_id c]
  ++ u16_encode (sfloat_pack (carbohydrate c)) ++ [meal c] ++ [tester_and_health c] ++ u16_encode (exercise_duration c)
  ++ [exercise_intensity c] ++ [medication_id c] ++ u16_encode (sfloat_pack (medication c)) ++ u16_encode (sfloat_pack (hba1c c)).
Proof. unfold gls_meas_context_encode. rewrite !lor_flag by done. by rewrite <- !app_assoc. Qed.
(** So the size does not depend on the flags. *)
Lemma gls_meas_ignores_flags m c : length (gls_meas_encode m) = 17%nat /\ length (gls_meas_context_encode c) = 17%nat.
Proof. rewrite gls_meas_encode_all, gls_meas_context_encode_all. done. Qed.

#[export, program] Instance gls_laws : RecordServiceLaws gls_record gls := {
  rec_out _ r := (2, gls_meas_encode (meas r)) ::
    (if truthy (Z.land (flags (meas r)) GLS_MEAS_FLAG_CONTEXT_INFO) then [(5, gls_meas_context_encode (context r))] else []);
  rec_ok _ _ := True
}.
Next Obligation. done. Qed.
Next Obligation.
  intros answer r s _. destruct (gls_meas_ignores_flags (meas r) (context r)) as [L1 L2]. cbn [rec_send gls_service]. unfold glucose_meas_send.
  destruct (truthy (Z.land (flags (meas r)) GLS_MEAS_FLAG_CONTEXT_INFO)); intros Hacc; gatt;
    (eapply ends_lift; [unfold fits; rewrite L1; reflexivity|]); gatt; rewrite (Hacc (calls s)) by (cbn [length]; lia);
    cbn [Z.eqb when]; gatt; (eapply ends_lift; [unfold fits; rewrite L2; reflexivity|]); gatt.
  - rewrite (Hacc (S (calls s))) by (cbn [length]; lia). split; [done|]. cbn [length notifs fmap list_fmap fst snd].
    rewrite <- app_assoc. f_equal. lia.
  - split; [done|]. cbn [length notifs fmap list_fmap fst snd]. by rewrite Nat.add_1_r.
Qed.

(** *** What a collector reads back: the fields the flags announce, in order. *)
Definition gls_meas_parse (b : list Z) : option (gls_glucose_meas * list Z) :=
  '(f, b) ← p_u8 b; '(n, b) ← p_u16 b; '(t, b) ← p_date b;
  '(off, b) ← p_if (Z.testbit f 0) 0 p_u16 b;
  '(conc, b) ← p_if (Z.testbit f 1) (IeeeSfloat 0 0) p_sfloat b;
  '(tl, b) ← p_if (Z.testbit f 1) 0 p_u8 b;
  '(st, b) ← p_if (Z.testbit f 3) 0 p_u16 b;
  Some (GlsMeas f n t (s16 off) conc (Z.shiftr tl 4) (Z.land tl 0xf) st, b).
Definition gls_context_parse (b : list Z) : option (gls_meas_context * list Z) :=
  '(f, b) ← p_u8 b; '(n, b) ← p_u16 b;
  '(ext, b) ← p_if (Z.testbit f 7) 0 p_u8 b;
  '(cid, b) ← p_if (Z.testbit f 0) 0 p_u8 b;
  '(carb, b) ← p_if (Z.testbit f 0) (IeeeSfloat 0 0) p_sfloat b;
  '(ml, b) ← p_if (Z.testbit f 1) 0 p_u8 b;
  '(th, b) ← p_if (Z.testbit f 2) 0 p_u8 b;
  '(du, b) ← p_if (Z.testbit f 3) 0 p_u16 b;
  '(ex, b) ← p_if (Z.testbit f 3) 0 p_u8 b;
  '(mid, b) ← p_if (Z.testbit f 4) 0 p_u8 b;
  '(med, b) ← p_if (Z.testbit f 4) (IeeeSfloat 0 0) p_sfloat b;
  '(hb, b) ← p_if (Z.testbit f 6) (IeeeSfloat 0 0) p_sfloat b;
  Some (GlsContext f n ext cid carb ml th du ex mid med hb, b).

(** Values in range, every optional field announced. *)
Record full_meas (m : gls_glucose_meas) : Prop := {
  fm_flags : Z.testbit (flags m) 0 = true /\ Z.testbit (flags m) 1 = true /\ Z.testbit (flags m) 3 = true;
  fm_number : in_u16 (sequence_number m);
  fm_year : in_u16 (year (base_time m));
  fm_offset : -32768 <= time_offset m < 32768;
  fm_conc : sfloat_ok (glucose_concentration m);
  fm_type : 0 <= type m < 16 /\ 0 <= sample_location m < 16;
  fm_status : in_u16 (sensor_status_annunciation m)
}.
Record full_context (c : gls_meas_context) : Prop := {
  fc_flags : Forall (fun i => Z.testbit (ctx_flags c) i = true) [0; 1; 2; 3; 4; 6; 7];
  fc_number : in_u16 (ctx_sequence_number c);
  fc_carb : sfloat_ok (carbohydrate c);
  fc_duration : in_u16 (exercise_duration c);
  fc_med : sfloat_ok (medication c);
  fc_hba1c : sfloat_ok (hba1c c)
}.

Lemma s16_u16 v : -32768 <= v < 32768 -> s16 (u16 v) = v.
Proof.
  intros Hv. unfold s16, sext, u16. rewrite Z.mod_mod by lia. destruct (Z.lt_ge_cases v 0).
  - rewrite <- (Z.mod_add v 1), Z.mod_small by lia. case_cmp; lia.
  - rewrite Z.mod_small by lia. case_cmp; lia.
Qed.
#[local] Arguments u16_encode : simpl never.
#[local] Arguments date_time_encode : simpl never.
#[local] Arguments app : simpl never.
Lemma nibbles t l : 0 <= t < 16 -> 0 <= l < 16 ->
  Z.shiftr (u8 (Z.lor (Z.shiftl t 4) l)) 4 = t /\ Z.land (u8 (Z.lor (Z.shiftl t 4) l)) 0xf = l.
Proof.
  intros Ht Hl. rewrite Z.lor_comm, lor_byte, u8_small by lia. change 0xf with (Z.ones 4). rewrite Z.land_ones, Z.shiftr_div_pow2 by lia.
  split; Z.to_euclidean_division_equations; lia.
Qed.
(** A collector reads back what was measured: a measurement or context whose flags
    announce every optional field, decoded by the flags, is the one encoded. *)
Theorem gls_record_roundtrip r rest : full_meas (meas r) -> full_context (context r) ->
  gls_meas_parse (gls_meas_encode (meas r) ++ rest) = Some (meas r, rest) /\
  gls_context_parse (gls_meas_context_encode (context r) ++ rest) = Some (context r, rest).
Proof.
  destruct r as [m c]. cbn [meas context]. intros [Hf ? ? ? ? [Ht Hl] ?] [Hcf ? ? ? ? ?]. rewrite gls_meas_encode_all, gls_meas_context_encode_all.
  rewrite <- !app_assoc. split.
  - destruct Hf as (F0 & F1 & F3). unfold gls_meas_parse, p_if. parse_field. rewrite F0, F1, F3. repeat parse_field.
    destruct (nibbles _ _ Ht Hl) as [-> ->]. rewrite s16_u16 by done. by destruct m.
  - repeat (apply Forall_cons in Hcf as [? Hcf]). clear Hcf. unfold gls_context_parse, p_if. parse_field.
    repeat match goal with H : Z.testbit _ _ = true |- _ => rewrite H; clear H end. repeat parse_field. by destruct c.
Qed.
Lemma gls_record_roundtrip_witness :
  let r := GlsRecord ((simulated_meas UNIT_MOL_L 7 (-60)) <| flags ::= (fun f => Z.lor f GLS_MEAS_FLAG_CONTEXT_INFO) |>)
             (simulated_context UNIT_MOL_L 7) in
  gls_meas_parse (gls_meas_encode (meas r) ++ [1]) = Some (meas r, [1]) /\
  gls_context_parse (gls_meas_context_encode (context r) ++ [1]) = Some (context r, [1]).
Proof.
  apply gls_record_roundtrip; constructor; try (repeat split; vm_compute; congruence).
  repeat (apply Forall_cons; split; [reflexivity|]). by apply Forall_nil.
Defined.

(** ** Numbers *)

(** The stored records carry increasing numbers, none above the last one given. *)
Definition numbered (e : engine gls_record gls) : Prop := exists l, packed l (rec_db e) /\
  StronglySorted Z.lt ((fun r => sequence_number (meas r)) <$> l) /\
  Forall (fun r => sequence_number (meas r) <= record_next_seq_num (ext e)) l.

Lemma sorted_snoc (l : list Z) x : StronglySorted Z.lt l -> Forall (fun y => y < x) l -> StronglySorted Z.lt (l ++ [x]).
Proof.
  induction 1 as [|y l Hl IH Hy]; intros Hx; cbn [app]; [by repeat constructor|]. apply Forall_cons in Hx as [? Hx].
  constructor; [by apply IH|]. apply Forall_app. split; [done|by repeat constructor].
Qed.
Lemma filter_all {A} (P : A -> Prop) `{forall x, Decision (P x)} l : Forall P l -> filter P l = l.
Proof. induction 1 as [|x l Hx _ IH]; [done|]. by rewrite filter_cons_True, IH. Qed.
Lemma numbered_newest (l : list gls_record) key : StronglySorted Z.lt ((fun r => sequence_number (meas r)) <$> l) ->
  exists k, selected RACP_OPERATOR_GREATER_OR_EQUAL key l = drop k l.
Proof.
  change (selected _ key l) with (filter (fun r : gls_record => key <= rec_key r) l).
  induction l as [|r l IH]; intros Hs; [by exists 0%nat|]. rewrite fmap_cons in Hs. apply StronglySorted_inv in Hs as [Hs Hr].
  rewrite filter_cons. change (rec_key r) with (sequence_number (meas r)). case_decide as Hk.
  - exists 0%nat. cbn [drop]. f_equal. apply filter_all. rewrite Forall_fmap in Hr.
    eapply Forall_impl; [exact Hr|]. intros r' Hr'. cbn in Hr'. cbn. lia.
  - destruct (IH Hs) as [k ->]. by exists (S k).
Qed.

(** What the timer and the application do between requests. *)
Inductive gls_event := Ticked | Measured (unit : gls_unit) (with_context : bool) | Deleted.
Definition gls_step (ev : gls_event) : GM unit :=
  match ev with
  | Ticked => gls_timer_handler
  | Measured u c => glucose_measurement_simulation u c;; mret tt
  | Deleted => glucose_measurement_delete
  end.
Fixpoint gls_run (evs : list gls_event) : GM unit :=
  match evs with [] => mret tt | ev :: evs => gls_step ev;; gls_run evs end.

Lemma simulation_numbered u c s : numbered (svc s) -> 0 <= record_next_seq_num (ext (svc s)) -> record_next_seq_num (ext (svc s)) + 1 < 2 ^ 16 ->
  ends (glucose_measurement_simulation u c) s (fun _ s' => numbered (svc s') /\
    record_next_seq_num (ext (svc s')) = record_next_seq_num (ext (svc s)) + 1).
Proof.
  intros (l & Hp & Hs & Hb) H0 Hn. unfold glucose_measurement_simulation, get_gls, upd_gls. gatt. cbv zeta.
  cbn [set_field ext record_next_seq_num]. rewrite u16_small by lia.
  set (n := record_next_seq_num (ext (svc s)) + 1) in *.
  eapply (ends_mono _ _ (fun r s1 => sequence_number (meas r) = n /\ rec_db (svc s1) = rec_db (svc s) /\ record_next_seq_num (ext (svc s1)) = n)).
  - destruct c; gatt; (split; [by destruct u|split; [done|]]); cbn [set_field ext record_next_seq_num]; rewrite u16_small by lia; done.
  - intros r s1 (Hr & Hdb & Hnext). gatt. cbn [set_field ext rec_db]. split; [|done].
    assert (Forall (fun r => sequence_number (meas r) < n) l) as Hlt by (eapply Forall_impl; [exact Hb|]; cbn; lia).
    destruct (decide (length l < CGMS_DB_MAX_RECORDS)%nat) as [Hl|Hl].
    + destruct (packed_add l (rec_db (svc s)) r Hp Hl) as (d & Hadd & Hp'). exists (l ++ [r]). cbn [set_field rec_db ext].
      rewrite Hdb, Hadd, Hnext. split_and!; [done| |].
      * rewrite fmap_app. cbn [fmap list_fmap]. rewrite Hr. apply sorted_snoc; [done|]. by apply Forall_fmap.
      * apply Forall_app. split; [eapply Forall_impl; [exact Hlt|]; cbn; lia|]. repeat constructor. lia.
    + pose proof (packed_length _ _ Hp). exists l. cbn [set_field rec_db ext]. rewrite Hdb, (packed_add_full l) by (done || lia).
      rewrite Hnext. split_and!; [done..|]. eapply Forall_impl; [exact Hlt|]; cbn; lia.
Qed.
Lemma step_numbered ev s : numbered (svc s) -> 0 <= record_next_seq_num (ext (svc s)) -> record_next_seq_num (ext (svc s)) + 1 < 2 ^ 16 ->
  ends (gls_step ev) s (fun _ s' => numbered (svc s') /\
    record_next_seq_num (ext (svc s)) <= record_next_seq_num (ext (svc s')) <= record_next_seq_num (ext (svc s)) + 1).
Proof.
  intros Hs H0 Hn. destruct ev as [|u c|]; cbn [gls_step].
  - unfold gls_timer_handler, upd_gls, get_svc. gatt. apply ends_when; intros _; [|split; [exact Hs|cbn; lia]]. gatt.
    eapply ends_mono; [by apply simulation_numbered|]. intros r s' [H E]. gatt. split; [done|]. cbn in E. lia.
  - gatt. eapply ends_mono; [by apply simulation_numbered|]. intros r s' [H E]. gatt. split; [done|]. lia.
  - unfold glucose_measurement_delete. gatt. cbn [set_field rec_db ext]. split; [|lia]. destruct Hs as (l & Hp & _).
    exists []. split_and!; [by eapply packed_delete_all|constructor|constructor].
Qed.

(** Numbers increase: through ticks, measurements and deletions, as long as fewer than
    65536 numbers have been given, the records are stored in the order of their numbers; so
    what a collector is sent when it asks for the records from a number on is the newest
    part of the store. *)
Theorem gls_numbers_increase evs : forall s, numbered (svc s) -> 0 <= record_next_seq_num (ext (svc s)) ->
  record_next_seq_num (ext (svc s)) + Z.of_nat (length evs) < 2 ^ 16 ->
  ends (gls_run evs) s (fun _ s' => exists l, packed l (rec_db (svc s')) /\
    StronglySorted Z.lt ((fun r => sequence_number (meas r)) <$> l) /\
    forall key, exists k, selected RACP_OPERATOR_GREATER_OR_EQUAL key l = drop k l).
Proof.
  induction evs as [|ev evs IH]; intros s Hs H0 Hn; cbn [gls_run length] in *.
  - gatt. destruct Hs as (l & Hp & Hl & _). exists l. split_and!; [done..|]. intros key. by apply numbered_newest.
  - gatt. eapply ends_mono; [apply step_numbered; [done..|lia]|]. intros u s' [Hs' ?]. apply IH; [done|lia|lia].
Qed.
Lemma gls_numbers_increase_witness :
  ends (gls_run [Ticked; Measured UNIT_KG_L true; Deleted; Measured UNIT_MOL_L false]) (Server gls_zero 0 []) (fun _ s' =>
    exists l, packed l (rec_db (svc s')) /\ StronglySorted Z.lt ((fun r => sequence_number (meas r)) <$> l) /\
      forall key, exists k, selected RACP_OPERATOR_GREATER_OR_EQUAL key l = drop k l).
Proof.
  apply (gls_numbers_increase _ (Server gls_zero 0 [])); [|cbn; lia|cbn; lia]. exists []. split_and!; [|constructor|constructor].
  eexists. split_and!; [reflexivity|by repeat constructor|done|done].
Defined.
(** At the 65536th number the sequence starts over, so a newer record has a lower number
    (gls.h: it cannot roll over). *)
Lemma gls_numbers_roll_over s : record_next_seq_num (ext (svc s)) = 65535 ->
  ends (glucose_measurement_simulation UNIT_MOL_L false) s (fun _ s' => record_next_seq_num (ext (svc s')) = 0).
Proof.
  intros Hs. unfold glucose_measurement_simulation, get_gls, upd_gls. gatt. cbv zeta. cbn [set_field ext record_next_seq_num]. gatt.
  cbn [set_field ext record_next_seq_num]. by rewrite Hs.
Qed.
