(* ===== verification/Keys.v ===== *)
(** * Keys: keypad drivers and the input manager

    [drivers/input/mxkeypad_acts.c] (matrix keypad), [drivers/adckey_acts.c] of the voice
    remote control (keys on a resistor ladder, debounced by counting samples), their HAL and
    [framework/input_manager.c], which turns the drivers' reports into messages.

    A driver's reports are recorded in its trace; [deliver] hands them to the input manager.
    The ROM's decoder of a key matrix is the parameter [get_keycode]. *)
From Stdlib Require Import Floats.SpecFloat.
From S2P Require Import Prelude Mmio Power.

Definition KEY_VALUE_DOWN : Z := 1.
Definition KEY_VALUE_UP : Z := 0.
Definition KEY_TYPE_DOWN : Z := 0x20000000.
Definition KEY_TYPE_UP : Z := 0x10000000.
Definition EV_KEY : Z := 0x01.
Definition DEVICE_PM_SET_POWER_STATE : Z := 1.

(** ** The matrix keypad *)
Inductive keypad_event :=
| Reported (code value : Z)                  (* mxkeypad_acts_report_key *)
| PollStopped | PollStarted (ms : Z)
| PendingCleared
| WakeupEnabled.
#[export] Instance keypad_event_dec : EqDecision keypad_event.
Proof. solve_decision. Defined.

Record keypad := Keypad {
  save_scan_key : list Z;                    (* u32_t [3] *)
  last_key_down : list Z;
  prev_stable_keycode : Z;
  kp_trace : list keypad_event
}.
#[export] Instance eta_keypad : EtaRecord keypad := fun r =>
  Keypad (save_scan_key r) (last_key_down r) (prev_stable_keycode r) (kp_trace r).
Definition sample_of (l : list Z) : Prop := length l = 3%nat.
Definition no_scan : list Z := [0; 0; 0].
Definition poll_interval_ms : Z := 100.

Section Matrix.
Context (get_keycode : list Z -> Z).
#[local] Abbreviation KM := (M keypad).

Definition kp_emit (e : keypad_event) : KM unit := modify (fun k => k <| kp_trace ::= (fun t => t ++ [e]) |>).

Definition mxkeypad_acts_scan_key_new : KM unit :=
  k ← get;
  let key_down := save_scan_key k in
  modify (fun k => k <| save_scan_key := no_scan |>);;
  let keycode := get_keycode key_down in
  when (negb (prev_stable_keycode k =? 0) && negb (bool_decide (last_key_down k = key_down)))
    (kp_emit (Reported (prev_stable_keycode k) 0));;
  when (negb (keycode =? 0)) (kp_emit (Reported keycode 1));;
  modify (fun k => k <| prev_stable_keycode := keycode |> <| last_key_down := key_down |>);;
  when (negb (bool_decide (key_down = no_scan)))
    (kp_emit PollStopped;; kp_emit (PollStarted poll_interval_ms)).

Definition mxkeypad_acts_poll_new : KM unit := mxkeypad_acts_scan_key_new.

(** [info] is what the three scan registers hold. *)
Definition mxkeypad_acts_isr_new (info : list Z) : KM unit :=
  kp_emit PendingCleared;;
  modify (fun k => k <| save_scan_key := info |>);;
  mxkeypad_acts_scan_key_new.

Definition mxkeypad_devcie_ctrl (ctrl_command state : Z) : KM Z :=
  when ((ctrl_command =? DEVICE_PM_SET_POWER_STATE) && (state =? DEVICE_PM_SUSPEND_STATE)) (kp_emit WakeupEnabled);;
  mret 0.
End Matrix.

(** ** Keys on a resistor ladder *)
Definition ADC_KEY_RESERVED : Z := 0.        (* KEY_RESERVED, redefined in adckey_acts.c *)
Definition CONFIG_ADCKEY_TIMER_INTERVER : Z := 30.
Definition CONFIG_ADCKEY_SAMPLE_FILTER_DEP : Z := 2.
Definition CONFIG_ADCKEY_CH_NUM : nat := 2.
Definition CONFIG_ADCKEY_POLL_NO_KEY_CNT : Z := 8.

(** (u16_t)(((float)BAT_VAL / 3600) * 60) in single precision. *)
Definition float32_of (z : Z) : spec_float := binary_normalize 24 128 z 0 false.
Definition truncate (f : spec_float) : Z :=
  match f with
  | S754_finite s m e => (if s then Z.opp else (fun z => z)) (if 0 <=? e then Z.shiftl (Zpos m) e else Z.shiftr (Zpos m) (- e))
  | _ => 0
  end.
Definition CONFIG_ADCKEY_VAL_MARGIN (bat_val : Z) : Z :=
  u16 (truncate (SFmul 24 128 (SFdiv 24 128 (float32_of bat_val) (float32_of 3600)) (float32_of 60))).

Record adckey_map := AdckeyMap { adc_div : Z; adc_val : Z; key_code : Z }.
#[export] Instance eta_adckey_map : EtaRecord adckey_map := fun r => AdckeyMap (adc_div r) (adc_val r) (key_code r).

Record adckey_data := AdckeyData { scan_count : Z; prev_keycode : Z; adc_stable_keycode : Z; notify : bool }.
#[export] Instance eta_adckey_data : EtaRecord adckey_data := fun r =>
  AdckeyData (scan_count r) (prev_keycode r) (adc_stable_keycode r) (notify r).

(** A slot; the device is its index in the device table, [None] a null pointer. *)
Record adckey_dev := AdckeyDev { adev : option Z; avalible : bool }.
#[export] Instance eta_adckey_dev : EtaRecord adckey_dev := fun r => AdckeyDev (adev r) (avalible r).

Inductive adckey_event :=
| AdcReported (dev code value : Z)
| AdcRead (dev : Z)
| TimerOn | TimerOff
| AdcWakeupEnabled.
#[export] Instance adckey_event_dec : EqDecision adckey_event.
Proof. solve_decision. Defined.

Record adckeys := Adckeys {
  adckey_devs : list adckey_dev;
  adckey_datas : gmap Z adckey_data;         (* driver_data of a device *)
  key_maps : list adckey_map;
  no_key_cnt : Z;
  adckey_timer_start_flag : bool;
  busy : list Z;                             (* device_busy *)
  adc_trace : list adckey_event
}.
#[export] Instance eta_adckeys : EtaRecord adckeys := fun r =>
  Adckeys (adckey_devs r) (adckey_datas r) (key_maps r) (no_key_cnt r) (adckey_timer_start_flag r) (busy r) (adc_trace r).

Section Ladder.
#[local] Abbreviation AM := (M adckeys).
Definition adc_emit (e : adckey_event) : AM unit := modify (fun s => s <| adc_trace ::= (fun t => t ++ [e]) |>).
Definition get_data (dev : Z) : AM adckey_data := s ← get; lift (adckey_datas s !! dev).
Definition upd_data (dev : Z) (f : adckey_data -> adckey_data) : AM unit :=
  modify (fun s => s <| adckey_datas ::= alter f dev |>).
(** device_busy_set and device_busy_clear of a pointer that may be null *)
Definition upd_device_busy (f : Z -> Z -> Z) (dev : option Z) : AM unit :=
  i ← lift dev; s ← get; b ← lift (upd_busy f i (busy s)); modify (fun s => s <| busy := b |>).

Definition adckey_timer_start : AM unit :=
  s ← get;
  when (negb (adckey_timer_start_flag s)) (modify (fun s => s <| adckey_timer_start_flag := true |>);; adc_emit TimerOn).
Definition adckey_timer_stop : AM unit :=
  s ← get;
  when (adckey_timer_start_flag s) (modify (fun s => s <| adckey_timer_start_flag := false |>);; adc_emit TimerOff).

Definition update_adckey_map (bat_val : Z) (map : list adckey_map) : list adckey_map :=
  (fun m => m <| adc_val := u16 (adc_div m * bat_val / 1000) |>) <$> map.
Definition keycode_of (margin adcval : Z) (map : list adckey_map) : Z :=
  match list_find (fun m => adcval < adc_val m + margin) map with Some (_, m) => key_code m | None => ADC_KEY_RESERVED end.
Definition adckey_acts_get_keycode_new (bat_val adcval : Z) : AM Z :=
  modify (fun s => s <| key_maps ::= update_adckey_map bat_val |>);;
  s ← get;
  mret (keycode_of (CONFIG_ADCKEY_VAL_MARGIN bat_val) adcval (key_maps s)).

Definition adckey_acts_report_key_new (dev code value : Z) : AM unit :=
  d ← get_data dev;
  when (notify d) (adc_emit (AdcReported dev code value)).

(** The clearing of the busy flags, slot by slot. *)
Definition clear_busy : AM unit :=
  s ← get;
  foldr (fun slot k => upd_device_busy clear_bit32 (adev slot);; k) (mret tt) (adckey_devs s).

(** One slot's turn, with the battery's and the converter's values. *)
Definition poll_slot (bat_val adcval dev : Z) : AM unit :=
  adc_emit (AdcRead dev);;
  keycode ← adckey_acts_get_keycode_new bat_val adcval;
  when (negb (keycode =? ADC_KEY_RESERVED)) (modify (fun s => s <| no_key_cnt := 0 |>));;
  d ← get_data dev;
  if (keycode =? ADC_KEY_RESERVED) && (adc_stable_keycode d =? ADC_KEY_RESERVED) then
    modify (fun s => s <| no_key_cnt ::= (fun n => u8 (n + 1)) |>);;
    s ← get;
    when (CONFIG_ADCKEY_POLL_NO_KEY_CNT <=? no_key_cnt s)
      (modify (fun s => s <| no_key_cnt := 0 |>);; clear_busy)
  else if keycode =? prev_keycode d then
    upd_data dev (fun d => d <| scan_count ::= (fun n => n + 1) |>);;
    when (scan_count d + 1 =? CONFIG_ADCKEY_SAMPLE_FILTER_DEP)
      (when (negb (adc_stable_keycode d =? ADC_KEY_RESERVED) && negb (keycode =? adc_stable_keycode d))
         (adckey_acts_report_key_new dev (adc_stable_keycode d) 0);;
       when (negb (keycode =? ADC_KEY_RESERVED)) (adckey_acts_report_key_new dev keycode 1);;
       upd_data dev (fun d => d <| adc_stable_keycode := keycode |> <| scan_count := 0 |>))
  else upd_data dev (fun d => d <| prev_keycode := keycode |> <| scan_count := 1 |>).

Fixpoint poll_slots (bat_val : Z) (sample : Z -> Z) (slots : list adckey_dev) : AM unit :=
  match slots with
  | [] => mret tt
  | slot :: slots =>
    when (avalible slot) (dev ← lift (adev slot); poll_slot bat_val (sample dev) dev);;
    poll_slots bat_val sample slots
  end.
Definition adckey_acts_poll_new (bat_val : Z) (sample : Z -> Z) : AM unit :=
  s ← get; poll_slots bat_val sample (adckey_devs s).

Fixpoint fill_slot (dev : Z) (slots : list adckey_dev) : option (list adckey_dev) :=
  match slots with
  | [] => None
  | s :: slots => if avalible s then cons s <$> fill_slot dev slots else Some (AdckeyDev (Some dev) true :: slots)
  end.
Definition add_adckey (dev : Z) : AM unit :=
  s ← get;
  match fill_slot dev (adckey_devs s) with
  | Some slots => modify (fun s => s <| adckey_devs := slots |>);; adckey_timer_start
  | None => mret tt
  end.
Fixpoint free_slot (dev : Z) (slots : list adckey_dev) : list adckey_dev :=
  match slots with
  | [] => []
  | s :: slots => if bool_decide (adev s = Some dev) then s <| avalible := false |> :: slots else s :: free_slot dev slots
  end.
Definition remove_adckey (dev : Z) : AM unit := modify (fun s => s <| adckey_devs ::= free_slot dev |>).

Definition ADC_ID_CH0 : Z := 2.
Definition adckey_acts_enable_new (dev adc_chan : Z) : AM unit := when (ADC_ID_CH0 <=? adc_chan) (add_adckey dev).
Definition adckey_acts_disable_new (dev : Z) : AM unit :=
  upd_data dev (fun d => d <| notify := false |>);; remove_adckey dev.
Definition adckey_acts_register_notify_new (dev : Z) : AM unit := upd_data dev (fun d => d <| notify := true |>).
Definition adckey_acts_unregister_notify_new (dev : Z) : AM unit := upd_data dev (fun d => d <| notify := false |>).
Definition adckey_acts_suspend_device : AM Z := adckey_timer_stop;; adc_emit AdcWakeupEnabled;; mret 0.
Definition adckey_acts_resume_device_from_suspend (dev : Z) : AM Z :=
  adckey_timer_start;; upd_device_busy set_bit32 (Some dev);; mret 0.
Definition adckey_device_ctrl (dev ctrl_command state : Z) : AM Z :=
  if ctrl_command =? DEVICE_PM_SET_POWER_STATE then
    if state =? DEVICE_PM_SUSPEND_STATE then adckey_acts_suspend_device
    else if state =? DEVICE_PM_ACTIVE_STATE then adckey_acts_resume_device_from_suspend dev
    else mret 0
  else mret 0.
End Ladder.

(** ** Opening the devices (key_hal.c, adckey_hal.c) *)
Inductive hal_event := DevEnabled (dev : Z) | DevDisabled (dev : Z) | NotifySet (dev : Z) | NotifyCleared (dev : Z).
Record key_handle := KeyHandle { input_dev : option Z; key_notify : bool; is_init : bool }.
#[export] Instance eta_key_handle : EtaRecord key_handle := fun r => KeyHandle (input_dev r) (key_notify r) (is_init r).
Record key_hal := KeyHal { key_entity : key_handle; adckey_entity : list key_handle; hal_trace : list hal_event }.
#[export] Instance eta_key_hal : EtaRecord key_hal := fun r => KeyHal (key_entity r) (adckey_entity r) (hal_trace r).

Section Hal.
Context (devices : list device).
#[local] Abbreviation HM := (M key_hal).
Definition hal_emit (e : hal_event) : HM unit := modify (fun h => h <| hal_trace ::= (fun t => t ++ [e]) |>).
Definition binding (name : string) : option Z := Z.of_nat <$> device_get_binding devices name.

(** The result says whether a handle, rather than NULL, was returned. *)
Definition key_device_open (dev_name : string) : HM bool :=
  let dev := binding dev_name in
  modify (fun h => h <| key_entity ::= (fun k => k <| input_dev := dev |>) |>);;
  match dev with
  | None => mret false
  | Some d =>
    hal_emit (DevEnabled d);;
    hal_emit (NotifySet d);;
    modify (fun h => h <| key_entity ::= (fun k => k <| key_notify := true |>) |>);;
    mret true
  end.
Definition key_device_close : HM unit :=
  h ← get; d ← lift (input_dev (key_entity h));
  hal_emit (NotifyCleared d);; hal_emit (DevDisabled d).

(** The first handle that is not in use; its address is dereferenced without a test. *)
Definition get_adckey_handle (hs : list key_handle) : option nat := fst <$> list_find (fun h => is_init h = false) hs.
Definition adckey_device_open (dev_name : string) : HM (option nat) :=
  h ← get;
  i ← lift (get_adckey_handle (adckey_entity h));
  let dev := binding dev_name in
  modify (fun h => h <| adckey_entity ::= alter (fun k => k <| input_dev := dev |>) i |>);;
  match dev with
  | None => mret None
  | Some d =>
    hal_emit (DevEnabled d);;
    hal_emit (NotifySet d);;
    modify (fun h => h <| adckey_entity ::= alter (fun k => k <| key_notify := true |> <| is_init := true |>) i |>);;
    mret (Some i)
  end.
Definition adckey_device_close (i : nat) : HM unit :=
  h ← get; k ← lift (adckey_entity h !! i); d ← lift (input_dev k);
  hal_emit (NotifyCleared d);; hal_emit (DevDisabled d).
End Hal.

(** ** The input manager *)
Inductive input_event := EventCallback (key_value : Z) | KeyMessage (key_value : Z).
#[export] Instance input_event_dec : EqDecision input_event.
Proof. solve_decision. Defined.

Record input_manager_info := InputManager {
  event_cb : bool;                           (* a callback is registered *)
  is_need_report_hold_key : option (Z -> bool);
  press_type : Z;
  press_code : Z;
  report_key_value : Z;
  input_lock : bool;
  im_trace : list input_event
}.
#[export] Instance eta_input : EtaRecord input_manager_info := fun r =>
  InputManager (event_cb r) (is_need_report_hold_key r) (press_type r) (press_code r) (report_key_value r)
    (input_lock r) (im_trace r).
#[local] Abbreviation IM := (M input_manager_info).

Definition im_emit (e : input_event) : IM unit := modify (fun s => s <| im_trace ::= (fun t => t ++ [e]) |>).
Definition input_event_lock : IM bool := modify (fun s => s <| input_lock := true |>);; mret true.
Definition input_event_unlock : IM bool := modify (fun s => s <| input_lock := false |>);; mret true.
Definition input_event_islock : IM bool := gets input_lock.
Definition report_key_event : IM unit := s ← get; im_emit (KeyMessage (report_key_value s)).
Definition is_need_report_hold_defalt (key_code : Z) : bool := true.

Definition key_event_handle (type code value : Z) : IM unit :=
  if negb (type =? EV_KEY) then mret tt
  else
    s ← get;
    need_report ←
      (if value =? KEY_VALUE_UP then
         modify (fun s => s <| press_code := code |> <| press_type := KEY_TYPE_UP |>);; mret true
       else if value =? KEY_VALUE_DOWN then
         if negb (code =? press_code s) || negb (press_type s =? KEY_TYPE_DOWN) then
           modify (fun s => s <| press_code := code |> <| press_type := KEY_TYPE_DOWN |>);; mret true
         else mret (match is_need_report_hold_key s with Some f => f (press_code s) | None => false end)
       else mret false);
    when need_report
      (modify (fun s => s <| report_key_value := Z.lor (press_type s) (press_code s) |>);;
       s ← get;
       when (event_cb s) (im_emit (EventCallback (report_key_value s)));;
       locked ← input_event_islock;
       when (negb locked) report_key_event).

(** [found] says which of the two devices exist. *)
Definition input_manager_init (found_matrix found_adckey cb : bool) (hold : option (Z -> bool)) : IM bool :=
  if negb found_matrix then mret false
  else if negb found_adckey then mret false
  else
    modify (fun s => s <| event_cb := cb |>
      <| is_need_report_hold_key := Some (match hold with Some f => f | None => is_need_report_hold_defalt end) |>);;
    input_event_lock;;
    mret true.

(** Reports arrive in the order a driver made them. *)
Fixpoint deliver (reports : list (Z * Z)) : IM unit :=
  match reports with [] => mret tt | (code, value) :: rs => key_event_handle EV_KEY code value;; deliver rs end.

(** ** Reports are well bracketed *)

(** One key at a time is down: a key that is down may be reported down again (a repeat), and
    goes up before another goes down. *)
Definition follow (held : Z) (r : Z * Z) : option Z :=
  let '(code, value) := r in
  if code =? 0 then None
  else if value =? KEY_VALUE_UP then if held =? code then Some 0 else None
  else if value =? KEY_VALUE_DOWN then if (held =? 0) || (held =? code) then Some code else None
  else None.
Fixpoint follows (held : Z) (rs : list (Z * Z)) : option Z :=
  match rs with [] => Some held | r :: rs => held ← follow held r; follows held rs end.
Lemma follows_app held rs rs' : follows held (rs ++ rs') = h ← follows held rs; follows h rs'.
Proof.
  revert held. induction rs as [|r rs IH]; intros held; [done|]. cbn [follows app].
  destruct (follow held r); cbn [mbind option_bind]; [apply IH|done].
Qed.
Lemma follow_up c : c <> 0 -> follow c (c, 0) = Some 0.
Proof. intros H. unfold follow. rewrite (proj2 (Z.eqb_neq _ _) H). cbn. by rewrite Z.eqb_refl. Qed.
Lemma follow_down h c : c <> 0 -> h = 0 \/ h = c -> follow h (c, 1) = Some c.
Proof.
  intros H Hh. unfold follow. rewrite (proj2 (Z.eqb_neq _ _) H). cbn.
  destruct Hh as [->| ->]; rewrite ?Z.eqb_refl; [done|by rewrite orb_true_r].
Qed.

(** *** The matrix keypad *)
Definition reports (t : list keypad_event) : list (Z * Z) :=
  omap (fun e => match e with Reported c v => Some (c, v) | _ => None end) t.
Lemma reports_app t t' : reports (t ++ t') = reports t ++ reports t'.
Proof. apply omap_app. Qed.

Section MatrixFacts.
Context (get_keycode : list Z -> Z).
(** The ROM's decoder reports no key for a scan without a contact. *)
Hypothesis no_key : get_keycode no_scan = 0.

(** The stable key is the one of the last scan, and a timer runs unless that scan was empty. *)
Definition armed (t : list keypad_event) : Prop := exists t0, t = t0 ++ [PollStopped; PollStarted poll_interval_ms].
Record keypad_ok (k : keypad) : Prop := {
  kp_stable : prev_stable_keycode k = get_keycode (last_key_down k);
  kp_saved : save_scan_key k = no_scan;
  kp_reports : follows 0 (reports (kp_trace k)) = Some (prev_stable_keycode k);
  kp_timer : last_key_down k <> no_scan -> armed (kp_trace k)
}.

Lemma scan_ok k : prev_stable_keycode k = get_keycode (last_key_down k) ->
  follows 0 (reports (kp_trace k)) = Some (prev_stable_keycode k) ->
  ends (mxkeypad_acts_scan_key_new get_keycode) k (fun _ k' => keypad_ok k' /\ last_key_down k' = save_scan_key k).
Proof using.
  intros Hst Hrep. unfold mxkeypad_acts_scan_key_new, kp_emit. apply ends_bind, ends_get. cbv zeta. set (c := get_keycode (save_scan_key k)).
  apply ends_bind, ends_modify, ends_bind.
  eapply (ends_mono _ _ (fun _ k1 => exists t h, k1 = k <| save_scan_key := no_scan |> <| kp_trace := t |> /\
    follows 0 (reports t) = Some h /\ (h = 0 \/ h = c))).
  { apply ends_when; intros Hb.
    - apply ends_modify. apply andb_true_iff in Hb as [Hb%negb_true_iff%Z.eqb_neq _].
      eexists _, 0. split; [reflexivity|]. split; [|by left]. cbn [set_field kp_trace]. rewrite reports_app, follows_app, Hrep. cbn [mbind option_bind reports omap list_omap follows].
      by rewrite follow_up.
    - exists (kp_trace k), (prev_stable_keycode k). split; [by destruct k|]. split; [done|].
      apply andb_false_iff in Hb as [Hb%negb_false_iff%Z.eqb_eq|Hb%negb_false_iff%bool_decide_eq_true]; [by left|right]. by rewrite Hst, Hb. }
  intros u k1 (t & h & -> & Ht & Hh). apply ends_bind.
  eapply (ends_mono _ _ (fun _ k2 => exists t, k2 = k <| save_scan_key := no_scan |> <| kp_trace := t |> /\ follows 0 (reports t) = Some c)).
  { apply ends_when; intros Hb.
    - apply ends_modify. apply negb_true_iff, Z.eqb_neq in Hb. eexists. split; [reflexivity|].
      cbn [set_field kp_trace]. rewrite reports_app, follows_app, Ht. cbn [mbind option_bind reports omap list_omap follows]. by rewrite follow_down.
    - apply negb_false_iff, Z.eqb_eq in Hb. exists t. split; [done|]. rewrite Ht. f_equal. destruct Hh; congruence. }
  intros v k2 (t2 & -> & Ht2). hoare. apply ends_when; intros Hb; hoare; (split; [constructor|done]);
    cbn [set_field prev_stable_keycode last_key_down save_scan_key kp_trace]; try done.
  - rewrite !reports_app, !follows_app, Ht2. done.
  - intros _. exists t2. by rewrite <- app_assoc.
  - intros N. apply negb_false_iff, bool_decide_eq_true in Hb. done.
Qed.

(** Scans by interrupt and by timer, in any order. *)
Inductive keypad_step := KeyInterrupt (info : list Z) | KeyTimer.
Definition run_keypad_step (ev : keypad_step) : M keypad unit :=
  match ev with KeyInterrupt info => mxkeypad_acts_isr_new get_keycode info | KeyTimer => mxkeypad_acts_poll_new get_keycode end.
Fixpoint run_keypad (evs : list keypad_step) : M keypad unit :=
  match evs with [] => mret tt | ev :: evs => run_keypad_step ev;; run_keypad evs end.

Lemma keypad_step_ok ev k : keypad_ok k -> ends (run_keypad_step ev) k (fun _ k' => keypad_ok k' /\
  last_key_down k' = match ev with KeyInterrupt info => info | KeyTimer => no_scan end).
Proof using.
  intros [Hst Hs Hr _]. destruct ev as [info|]; cbn [run_keypad_step].
  - unfold mxkeypad_acts_isr_new, kp_emit. hoare. eapply ends_mono; [apply scan_ok|]; [exact Hst| |done].
    cbn [set_field kp_trace]. rewrite reports_app, follows_app. cbn [set_field kp_trace prev_stable_keycode]. by rewrite Hr.
  - unfold mxkeypad_acts_poll_new. eapply ends_mono; [by apply scan_ok|]. intros u k' [H E]. by rewrite E.
Qed.
Lemma run_keypad_ok evs : forall k, keypad_ok k -> ends (run_keypad evs) k (fun _ => keypad_ok).
Proof using.
  induction evs as [|ev evs IH]; intros k Hk; cbn [run_keypad]; hoare; [done|].
  eapply ends_mono; [by apply keypad_step_ok|]. intros u k' [H _]. by apply IH.
Qed.
End MatrixFacts.

(** *** Through the input manager *)

(** A key goes down only when none is down, and only the key that is down goes up. *)
Definition alternate (held : Z) (r : Z * Z) : option Z :=
  let '(code, value) := r in
  if value =? KEY_VALUE_UP then if held =? code then Some 0 else None
  else if held =? 0 then Some code else None.
Fixpoint alternates (held : Z) (rs : list (Z * Z)) : option Z :=
  match rs with [] => Some held | r :: rs => held ← alternate held r; alternates held rs end.
Definition key_value (r : Z * Z) : Z := Z.lor (if r.2 =? KEY_VALUE_UP then KEY_TYPE_UP else KEY_TYPE_DOWN) r.1.
Definition messages (t : list input_event) : list Z := omap (fun e => match e with KeyMessage v => Some v | _ => None end) t.
Lemma messages_app t t' : messages (t ++ t') = messages t ++ messages t'.
Proof. apply omap_app. Qed.

(** The manager remembers the key that is down. *)
Record manager_ok (held : Z) (s : input_manager_info) : Prop := {
  im_lock : input_lock s = false;
  im_hold : is_need_report_hold_key s = Some (fun _ => false);
  im_held : if held =? 0 then press_type s <> KEY_TYPE_DOWN else press_type s = KEY_TYPE_DOWN /\ press_code s = held
}.
Lemma event_ok held held' code value s : manager_ok held s -> follow held (code, value) = Some held' ->
  ends (key_event_handle EV_KEY code value) s (fun _ s' => manager_ok held' s' /\
    exists rs, messages (im_trace s') = messages (im_trace s) ++ (key_value <$> rs) /\ alternates held rs = Some held').
Proof.
  intros [Hlock Hhold Hheld] Hf. unfold key_event_handle, input_event_islock, report_key_event, im_emit. cbn [negb Z.eqb Pos.eqb EV_KEY].
  unfold follow in Hf. destruct (Z.eqb_spec code 0) as [|Hc]; [done|].
  destruct (Z.eqb_spec value KEY_VALUE_UP) as [->|Hv].
  - destruct (Z.eqb_spec held code) as [->|]; [|done]. injection Hf as <-. hoare. cbn [when]. hoare.
    apply ends_when; intros _; hoare; cbn [set_field input_lock]; rewrite Hlock; cbn [negb when]; hoare; (split; [constructor; done|]);
      exists [(code, 0)]; cbn [set_field im_trace alternates alternate Z.eqb KEY_VALUE_UP mbind option_bind]; rewrite Z.eqb_refl;
      (split; [|done]); rewrite ?messages_app, <- ?app_assoc; reflexivity.
  - destruct (Z.eqb_spec value KEY_VALUE_DOWN) as [->|]; [|done]. cbv zeta. hoare. destruct (Z.eqb_spec held 0) as [->|Hh].
    + cbn [orb Z.eqb] in *. injection Hf as <-. replace (press_type s =? KEY_TYPE_DOWN) with false by (symmetry; by apply Z.eqb_neq).
      cbn [negb]. rewrite orb_true_r. hoare. cbn [when]. hoare.
      apply ends_when; intros _; hoare; cbn [set_field input_lock]; rewrite Hlock; cbn [negb when]; hoare;
        (split; [constructor; try done; cbn [set_field press_type press_code]; by rewrite (proj2 (Z.eqb_neq _ _) Hc)|]);
        exists [(code, 1)]; cbn [set_field im_trace]; (split; [|done]); rewrite ?messages_app, <- ?app_assoc; reflexivity.
    + cbn [orb] in Hf. destruct (Z.eqb_spec held code) as [->|]; [|done]. injection Hf as <-.
      assert (press_type s = KEY_TYPE_DOWN /\ press_code s = code) as [Ht Hp] by (by repeat case_match).
      rewrite Ht, Hp, !Z.eqb_refl, Hhold. cbn [negb orb]. hoare. cbn [when]. hoare.
      split; [constructor; try done; by rewrite (proj2 (Z.eqb_neq _ _) Hc)|]. exists []. by rewrite app_nil_r.
Qed.
Lemma alternates_app held rs rs' : alternates held (rs ++ rs') = h ← alternates held rs; alternates h rs'.
Proof.
  revert held. induction rs as [|r rs IH]; intros held; [done|]. cbn [alternates app].
  destruct (alternate held r); cbn [mbind option_bind]; [apply IH|done].
Qed.
Lemma deliver_ok rs : forall held held' s, manager_ok held s -> follows held rs = Some held' ->
  ends (deliver rs) s (fun _ s' => manager_ok held' s' /\
    exists out, messages (im_trace s') = messages (im_trace s) ++ (key_value <$> out) /\ alternates held out = Some held').
Proof.
  induction rs as [|[code value] rs IH]; intros held held' s Hs Hf; cbn [deliver follows] in *.
  - injection Hf as <-. hoare. split; [done|]. exists []. by rewrite app_nil_r.
  - apply bind_Some in Hf as (h & H1 & H2). hoare. eapply ends_mono; [by eapply event_ok|]. intros u s1 (Hs1 & out1 & E1 & A1).
    eapply ends_mono; [by eapply IH|]. intros v s2 (Hs2 & out2 & E2 & A2). split; [done|]. exists (out1 ++ out2).
    rewrite E2, E1, fmap_app, <- app_assoc, alternates_app, A1. done.
Qed.

Definition keypad_zero : keypad := Keypad no_scan no_scan 0 [].
(** After [input_manager_init] and [input_event_unlock], with a callback that never asks for
    repeats. *)
Definition manager_started : input_manager_info := InputManager true (Some (fun _ => false)) 0 0 0 false [].

(** C25. Presses and releases alternate: whatever the matrix scans show, the messages that
    reach the application are one press and one release per stroke - a key goes down only
    when no key is down, only that key goes up, repeats are suppressed - and at the end the
    key that is down is the one of the last scan. *)
Theorem key_messages_alternate get_keycode evs : get_keycode no_scan = 0 ->
  ends (run_keypad get_keycode evs) keypad_zero (fun _ k =>
    ends (deliver (reports (kp_trace k))) manager_started (fun _ im =>
      exists out, messages (im_trace im) = key_value <$> out /\ alternates 0 out = Some (get_keycode (last_key_down k)))).
Proof.
  intros Hno. eapply ends_mono; [apply run_keypad_ok|].
  - constructor; [symmetry; exact Hno|done|done|done].
  - intros u k [Hst _ Hr _]. eapply ends_mono; [by apply (deliver_ok _ 0 (prev_stable_keycode k))|].
    intros v im (_ & out & E & A). exists out. by rewrite <- Hst.
Qed.
(** Two keys, decoded from the first scan word. *)
Definition two_keys (scan : list Z) : Z :=
  match scan with x :: _ => if x =? 0x102 then 2 else if x =? 0x400 then 3 else 0 | [] => 0 end.
Lemma key_messages_alternate_witness :
  ends (run_keypad two_keys [KeyInterrupt [0x102; 0; 0]; KeyInterrupt [0x102; 0; 0]; KeyInterrupt [0x400; 0; 0]; KeyTimer]) keypad_zero (fun _ k =>
    ends (deliver (reports (kp_trace k))) manager_started (fun _ im =>
      exists out, messages (im_trace im) = key_value <$> out /\ alternates 0 out = Some (two_keys (last_key_down k)))).
Proof. apply key_messages_alternate. reflexivity. Defined.

(** A key does not stick: as long as a key is down a poll timer runs, and when it expires
    without another interrupt the key is reported up. *)
Theorem held_key_released get_keycode evs : get_keycode no_scan = 0 ->
  ends (run_keypad get_keycode evs) keypad_zero (fun _ k => let held := get_keycode (last_key_down k) in held <> 0 ->
    armed (kp_trace k) /\
    ends (run_keypad_step get_keycode KeyTimer) k (fun _ k' =>
      prev_stable_keycode k' = 0 /\ reports (kp_trace k') = reports (kp_trace k) ++ [(held, KEY_VALUE_UP)])).
Proof.
  intros Hno. eapply ends_mono; [apply run_keypad_ok; constructor; [symmetry; exact Hno|done|done|done]|].
  intros u k [Hst Hs Hr Ht] held Hh. unfold held in *.
  assert (last_key_down k <> no_scan) as Hlast by (intros E; by rewrite E in Hh). split; [by apply Ht|].
  cbn [run_keypad_step]. unfold mxkeypad_acts_poll_new, mxkeypad_acts_scan_key_new, kp_emit. hoare. cbv zeta. hoare. rewrite Hs, Hno, Hst.
  rewrite (proj2 (Z.eqb_neq _ _) Hh), bool_decide_eq_false_2 by done. cbn [negb andb when]. hoare. cbn [Z.eqb negb when]. hoare.
  rewrite bool_decide_eq_true_2 by done. cbn [negb when]. hoare. cbn [set_field prev_stable_keycode kp_trace]. split; [done|].
  by rewrite reports_app.
Qed.
Lemma held_key_released_witness :
  ends (run_keypad two_keys [KeyInterrupt [0x102; 0; 0]]) keypad_zero (fun _ k => let held := two_keys (last_key_down k) in held <> 0 ->
    armed (kp_trace k) /\
    ends (run_keypad_step two_keys KeyTimer) k (fun _ k' =>
      prev_stable_keycode k' = 0 /\ reports (kp_trace k') = reports (kp_trace k) ++ [(held, KEY_VALUE_UP)])).
Proof. apply held_key_released. reflexivity. Defined.

(** ** The resistor ladder *)

(** The margin computed in single precision is a sixtieth of the battery's millivolts, rounded
    down, for every voltage the battery manager reports. *)
Lemma adc_margin bat_val : 0 <= bat_val < 3300 -> CONFIG_ADCKEY_VAL_MARGIN bat_val = bat_val / 60.
Proof.
  intros H. apply Z.eqb_eq. revert bat_val H. apply (forallb_range (fun b => CONFIG_ADCKEY_VAL_MARGIN b =? b / 60)).
  by vm_compute.
Qed.

Definition adc_reports (dev : Z) (t : list adckey_event) : list (Z * Z) :=
  omap (fun e => match e with AdcReported d c v => if d =? dev then Some (c, v) else None | _ => None end) t.
Lemma adc_reports_app dev t t' : adc_reports dev (t ++ t') = adc_reports dev t ++ adc_reports dev t'.
Proof. apply omap_app. Qed.

(** Every slot holds a device of the table. *)
Definition slot_ok (s : adckeys) (slot : adckey_dev) : Prop :=
  exists i, adev slot = Some i /\ 0 <= i < DEVICE_NUM_MAX /\ is_Some (adckey_datas s !! i).
Record ladder_ok (s : adckeys) : Prop := {
  lk_slots : Forall (slot_ok s) (adckey_devs s);
  lk_busy : length (busy s) = 2%nat;
  lk_data : forall i d, adckey_datas s !! i = Some d ->
    notify d = true /\ follows 0 (adc_reports i (adc_trace s)) = Some (adc_stable_keycode d)
}.

(** What does not touch devices, slots or reports. *)
Lemma ladder_ok_same s s' : ladder_ok s -> adckey_devs s' = adckey_devs s -> adckey_datas s' = adckey_datas s ->
  length (busy s') = length (busy s) -> (forall i, adc_reports i (adc_trace s') = adc_reports i (adc_trace s)) -> ladder_ok s'.
Proof.
  intros [H1 H2 H3] E1 E2 E3 E4. constructor; [|by rewrite E3|intros i d; rewrite E2, E4; apply H3].
  rewrite E1. eapply Forall_impl; [exact H1|]. intros slot. unfold slot_ok. by rewrite E2.
Qed.
(** One device's data and trace advance together. *)
Lemma ladder_ok_upd s s' dev d d' t : ladder_ok s -> adckey_devs s' = adckey_devs s ->
  adckey_datas s !! dev = Some d -> adckey_datas s' = <[dev := d']> (adckey_datas s) -> busy s' = busy s ->
  adc_trace s' = adc_trace s ++ t -> notify d' = true ->
  (forall i, i <> dev -> adc_reports i t = []) -> follows (adc_stable_keycode d) (adc_reports dev t) = Some (adc_stable_keycode d') ->
  ladder_ok s'.
Proof.
  intros [H1 H2 H3] E1 Hd E2 E3 E4 Hn Hother Hf. constructor; [|by rewrite E3|].
  - rewrite E1. eapply Forall_impl; [exact H1|]. intros slot (i & ? & ? & ?). exists i. split; [done|]. split; [done|]. rewrite E2.
    destruct (decide (i = dev)) as [->|]; [by rewrite lookup_insert_eq|by rewrite lookup_insert_ne].
  - intros i x. rewrite E2, E4, adc_reports_app, follows_app. destruct (decide (i = dev)) as [->|Hne].
    + rewrite lookup_insert_eq. intros [= <-]. split; [done|]. destruct (H3 _ _ Hd) as [_ ->]. exact Hf.
    + rewrite lookup_insert_ne by done. intros Hx. destruct (H3 _ _ Hx) as [? ->]. by rewrite Hother.
Qed.

Lemma clear_busy_ok slots : forall s, Forall (slot_ok s) slots -> length (busy s) = 2%nat ->
  ends (foldr (fun slot k => upd_device_busy clear_bit32 (adev slot);; k) (mret tt) slots) s (fun _ s' =>
    exists b, s' = s <| busy := b |> /\ length b = 2%nat).
Proof.
  induction slots as [|slot slots IH]; intros s Hs Hb; cbn [foldr].
  - hoare. exists (busy s). split; [by destruct s|done].
  - apply Forall_cons in Hs as [(i & Hi & Hr & Hd) Hs]. unfold upd_device_busy. rewrite Hi. hoare. eapply ends_lift; [reflexivity|]. hoare.
    assert (is_Some (upd_busy clear_bit32 i (busy s))) as [b Hub].
    { unfold upd_busy, DEVICE_NUM_MAX in *. destruct (rd_in_bound (busy s) (i / 32)) as [w ->]; [rewrite Hb; Z.to_euclidean_division_equations; lia|].
      cbn [mbind option_bind]. rewrite wr_in_bound by (rewrite Hb; Z.to_euclidean_division_equations; lia). by eexists. }
    eapply ends_lift; [exact Hub|]. hoare. unfold upd_busy in Hub. apply bind_Some in Hub as (w & _ & Hw%wr_Some_length).
    eapply ends_mono; [apply (IH (s <| busy := b |>)); [exact Hs|cbn; lia]|]. intros u s' (b' & -> & Hb'). by exists b'.
Qed.

Lemma upd_data_ok dev f s d : adckey_datas s !! dev = Some d ->
  ends (upd_data dev f) s (fun _ s' => s' = s <| adckey_datas := <[dev := f d]> (adckey_datas s) |>).
Proof.
  intros Hd. unfold upd_data. apply ends_modify. destruct s as [a b c e g h t]. cbn [adckey_datas] in *.
  change (Adckeys a (alter f dev b) c e g h t = Adckeys a (<[dev := f d]> b) c e g h t). f_equal. apply map_eq. intros i.
  destruct (decide (i = dev)) as [->|]; [by rewrite lookup_alter_eq, Hd, lookup_insert_eq|by rewrite lookup_alter_ne, lookup_insert_ne].
Qed.
Lemma trace_nil (s : adckeys) : s = s <| adc_trace ::= (fun t => t ++ []) |>.
Proof. destruct s as [a b c d e f t]. change (Adckeys a b c d e f t = Adckeys a b c d e f (t ++ [])). by rewrite app_nil_r. Qed.
Lemma trace_app (s : adckeys) t1 t2 :
  (s <| adc_trace ::= (fun t => t ++ t1) |>) <| adc_trace ::= (fun t => t ++ t2) |> = s <| adc_trace ::= (fun t => t ++ t1 ++ t2) |>.
Proof. destruct s as [a b c d e f t]. change (Adckeys a b c d e f ((t ++ t1) ++ t2) = Adckeys a b c d e f (t ++ t1 ++ t2)). by rewrite app_assoc. Qed.
Lemma report_sent dev c v s d : adckey_datas s !! dev = Some d -> notify d = true ->
  ends (adckey_acts_report_key_new dev c v) s (fun _ s' => s' = s <| adc_trace ::= (fun t => t ++ [AdcReported dev c v]) |>).
Proof.
  intros Hd Hn. unfold adckey_acts_report_key_new, get_data, adc_emit. hoare. eapply ends_lift; [exact Hd|]. rewrite Hn. cbn [when]. by hoare.
Qed.
(** The two reports of a change from the stable key [h] to [c]. *)
Lemma change_reported dev h c s d : adckey_datas s !! dev = Some d -> notify d = true ->
  ends (when (negb (h =? ADC_KEY_RESERVED) && negb (c =? h)) (adckey_acts_report_key_new dev h 0);;
        when (negb (c =? ADC_KEY_RESERVED)) (adckey_acts_report_key_new dev c 1)) s (fun _ s' =>
    exists t, s' = s <| adc_trace ::= (fun t0 => t0 ++ t) |> /\ follows h (adc_reports dev t) = Some c /\
      forall i, i <> dev -> adc_reports i t = []).
Proof.
  intros Hd Hn. unfold ADC_KEY_RESERVED. hoare.
  eapply (ends_mono _ _ (fun _ s1 => exists t h', s1 = s <| adc_trace ::= (fun t0 => t0 ++ t) |> /\ follows h (adc_reports dev t) = Some h' /\
    (h' = 0 \/ h' = c) /\ forall i, i <> dev -> adc_reports i t = [])).
  - apply ends_when; intros Hb.
    + apply andb_true_iff in Hb as [Hb%negb_true_iff%Z.eqb_neq _]. eapply ends_mono; [by eapply report_sent|]. intros u s1 ->.
      exists [AdcReported dev h 0], 0. split; [done|]. cbn. rewrite Z.eqb_refl. cbn [follows]. rewrite follow_up by done.
      split; [done|]. split; [by left|]. intros i Hi. by rewrite (proj2 (Z.eqb_neq _ _)) by done.
    + exists [], h. split; [apply trace_nil|]. split; [done|]. split; [|done].
      apply andb_false_iff in Hb as [Hb%negb_false_iff%Z.eqb_eq|Hb%negb_false_iff%Z.eqb_eq]; auto.
  - intros u s1 (t & h' & -> & Hf & Hh & Ho). apply ends_when; intros Hb.
    + apply negb_true_iff, Z.eqb_neq in Hb. eapply ends_mono; [by apply (report_sent _ _ _ _ d)|]. intros v s2 ->.
      exists (t ++ [AdcReported dev c 1]). split; [apply trace_app|].
      rewrite adc_reports_app, follows_app, Hf. cbn. rewrite Z.eqb_refl. cbn [follows]. rewrite follow_down by done. split; [done|].
      intros i Hi. rewrite adc_reports_app, Ho by done. cbn. by rewrite (proj2 (Z.eqb_neq _ _)) by done.
    + apply negb_false_iff, Z.eqb_eq in Hb. exists t. split; [done|]. split; [|done]. rewrite Hf. f_equal. destruct Hh; congruence.
Qed.

Lemma poll_slot_ok bat_val adcval dev s : ladder_ok s -> is_Some (adckey_datas s !! dev) ->
  ends (poll_slot bat_val adcval dev) s (fun _ s' => ladder_ok s' /\ adckey_devs s' = adckey_devs s /\
    forall i, is_Some (adckey_datas s !! i) -> is_Some (adckey_datas s' !! i)).
Proof.
  intros Hs [d Hd]. destruct (lk_data _ Hs _ _ Hd) as [Hn Hf].
  unfold poll_slot, adckey_acts_get_keycode_new, adc_emit. hoare. set (c := keycode_of _ _ _).
  set (s0 := (s <| adc_trace ::= _ |>) <| key_maps ::= _ |>).
  assert (ladder_ok s0) as Hs0.
  { apply (ladder_ok_same s); try done. intros i. unfold s0. cbn [set_field adc_trace]. rewrite adc_reports_app. cbn. apply app_nil_r. }
  eapply (ends_mono _ _ (fun _ s1 => ladder_ok s1 /\ adckey_devs s1 = adckey_devs s /\ adckey_datas s1 = adckey_datas s)).
  { apply ends_when; intros _; [apply ends_modify|done]. split; [|done]. by apply (ladder_ok_same s0). }
  intros u s1 (Hs1 & E1 & E2). unfold get_data. hoare. rewrite E2. eapply ends_lift; [exact Hd|].
  destruct (_ && _) eqn:Hidle.
  { hoare. eapply (ends_mono _ _ (fun _ s' => ladder_ok s' /\ adckey_devs s' = adckey_devs s1 /\ adckey_datas s' = adckey_datas s1)).
    - set (s2 := s1 <| no_key_cnt ::= _ |>). assert (ladder_ok s2) as Hs2 by (by apply (ladder_ok_same s1)).
      apply ends_when; intros _; [|done]. unfold clear_busy. hoare.
      eapply ends_mono; [apply clear_busy_ok; [exact (lk_slots _ Hs2)|exact (lk_busy _ Hs2)]|].
      intros v s3 (b & -> & Hb). split; [|done]. apply (ladder_ok_same s2); try done. cbn. rewrite Hb. symmetry. exact (lk_busy _ Hs2).
    - intros v s' (H & E3 & E4). split; [done|]. rewrite E3, E1, E4, E2. split; [done|]. done. }
  assert (forall i x, is_Some (adckey_datas s !! i) -> is_Some (<[dev := x]> (adckey_datas s1) !! i)) as Hkeep.
  { intros i x Hi. rewrite E2. destruct (decide (i = dev)) as [->|]; [by rewrite lookup_insert_eq|by rewrite lookup_insert_ne]. }
  assert (adckey_datas s1 !! dev = Some d) as Hd1 by (by rewrite E2).
  destruct (c =? prev_keycode d).
  - hoare. eapply ends_mono; [by apply upd_data_ok|]. intros v s2 ->. set (d2 := d <| scan_count ::= _ |>).
    apply ends_when; intros _.
    + apply ends_bind_assoc. eapply ends_mono; [apply (change_reported dev (adc_stable_keycode d) c _ d2); [cbn; by rewrite lookup_insert_eq|exact Hn]|].
      intros w s3 (t & -> & Ht & Ho). eapply ends_mono; [apply (upd_data_ok _ _ _ d2); cbn; by rewrite lookup_insert_eq|].
      intros x s4 ->. split; [|split; [exact E1|]].
      * eapply (ladder_ok_upd s1 _ dev d (d2 <| adc_stable_keycode := c |> <| scan_count := 0 |>) t Hs1); try done.
        cbn [set_field adckey_datas]. by rewrite insert_insert_eq.
      * intros i Hi. cbn [set_field adckey_datas]. rewrite insert_insert_eq. by apply Hkeep.
    + split; [|split; [exact E1|intros i Hi; by apply Hkeep]].
      by eapply (ladder_ok_upd s1 _ dev d d2 [] Hs1); try done; cbn [set_field adc_trace]; rewrite ?app_nil_r.
  - eapply ends_mono; [by apply upd_data_ok|]. intros v s2 ->. split; [|split; [exact E1|intros i Hi; by apply Hkeep]].
    eapply (ladder_ok_upd s1 _ dev d _ [] Hs1); try done; cbn [set_field adc_trace]; by rewrite ?app_nil_r.
Qed.

Lemma poll_slots_ok bat_val sample slots : forall s, ladder_ok s -> Forall (slot_ok s) slots ->
  ends (poll_slots bat_val sample slots) s (fun _ s' => ladder_ok s' /\ adckey_devs s' = adckey_devs s).
Proof.
  induction slots as [|slot slots IH]; intros s Hs Hsl; cbn [poll_slots]; hoare; [done|].
  apply Forall_cons in Hsl as [(i & Hi & Hr & Hd) Hsl].
  eapply (ends_mono _ _ (fun _ s1 => ladder_ok s1 /\ adckey_devs s1 = adckey_devs s /\ Forall (slot_ok s1) slots)).
  - apply ends_when; intros _; [|done]. rewrite Hi. hoare. eapply ends_lift; [reflexivity|].
    eapply ends_mono; [by apply poll_slot_ok|]. intros u s1 (H1 & H2 & H3). split_and!; [done..|].
    eapply Forall_impl; [exact Hsl|]. intros sl (j & ? & ? & Hj). exists j. split; [done|]. split; [done|]. by apply H3.
  - intros u s1 (H1 & H2 & H3). eapply ends_mono; [by apply IH|]. intros v s2 [? E]. by rewrite E.
Qed.

Fixpoint run_polls (polls : list (Z * (Z -> Z))) : M adckeys unit :=
  match polls with [] => mret tt | (bat_val, sample) :: polls => adckey_acts_poll_new bat_val sample;; run_polls polls end.

(** The debounced keys are well bracketed: whatever the converter and the battery show,
    every device's reports press one key at a time - repeats of the key that is down, its
    release before another press - and the key that is down is the device's stable one. *)
Theorem adckey_reports_bracketed polls : forall s, ladder_ok s ->
  ends (run_polls polls) s (fun _ s' => forall dev d, adckey_datas s' !! dev = Some d ->
    follows 0 (adc_reports dev (adc_trace s')) = Some (adc_stable_keycode d)).
Proof.
  induction polls as [|[bat_val sample] polls IH]; intros s Hs; cbn [run_polls]; hoare.
  - intros dev d Hd. by destruct (lk_data _ Hs _ _ Hd).
  - unfold adckey_acts_poll_new. hoare. eapply ends_mono; [apply poll_slots_ok; [done|exact (lk_slots _ Hs)]|].
    intros u s1 [H1 _]. by apply IH.
Qed.

(** One device, entry 7 of the device table, in both slots' pointers; one key below 300 mV. *)
Definition one_ladder (second : option Z) : adckeys :=
  Adckeys [AdckeyDev (Some 7) true; AdckeyDev second false] {[7 := AdckeyData 0 0 0 true]} [AdckeyMap 100 0 21] 0 true [128; 0] [].
Lemma adckey_reports_bracketed_witness :
  ends (run_polls [(3000, fun _ => 310); (3000, fun _ => 310); (3000, fun _ => 900)]) (one_ladder (Some 7)) (fun _ s' => forall dev d,
    adckey_datas s' !! dev = Some d -> follows 0 (adc_reports dev (adc_trace s')) = Some (adc_stable_keycode d)).
Proof.
  apply adckey_reports_bracketed. constructor; [|reflexivity|].
  - repeat (apply Forall_cons; split; [exists 7; split; [reflexivity|split; [vm_compute; split; congruence|by eexists]]|]). by apply Forall_nil.
  - intros i d Hd. cbn [one_ladder adckey_datas] in Hd. apply lookup_singleton_Some in Hd as [<- <-]. by split.
Defined.

(** *** Two defects *)

(** When the only slot in use has been idle for eight polls, the busy flag of the other
    slot's device, a null pointer, is cleared. *)
Lemma idle_poll_clears_null_device : run_polls (replicate 7 (3000, fun _ => 900)) (one_ladder None) <> None /\
  run_polls (replicate 8 (3000, fun _ => 900)) (one_ladder None) = None.
Proof. split; vm_compute; [discriminate|reflexivity]. Qed.
(** Two samples of a key count as consecutive whatever number of idle polls lies between. *)
Lemma debounce_counts_across_gaps :
  (fun s => adc_trace s.2) <$> run_polls ([(3000, fun _ => 310)] ++ replicate 5 (3000, fun _ => 900) ++ [(3000, fun _ => 310)]) (one_ladder (Some 7)) =
  Some (replicate 7 (AdcRead 7) ++ [AdcReported 7 21 1]).
Proof. vm_compute. reflexivity. Qed.

(** Closing does not return a handle: with the two handles there are, a third open runs on a
    null pointer although both were closed. *)
Lemma adckey_handles_leak devices dev_name d :
  binding devices dev_name = Some d ->
  let unused := KeyHandle None false false in
  let open := adckey_device_open devices dev_name in
  (open;; adckey_device_close 0;; open;; adckey_device_close 1) (KeyHal unused [unused; unused] []) <> None /\
  (open;; adckey_device_close 0;; open;; adckey_device_close 1;; open) (KeyHal unused [unused; unused] []) = None.
Proof. intros Hd. unfold adckey_device_open. rewrite Hd. by split; vm_compute. Qed.
