(* ===== verification/Rmc.v ===== *)
(** * The voice remote control (samples/voice_rcu/src/peripheral_rmc)

    The application: its state machine ([system_app_sm.c]), the actions and the link's
    callbacks ([system_app_ble.c]), timers, keys, voice, battery and the main loop; with the
    HID service it reports through ([gatt/hid/hog.c]).  Calls of other components - the
    host, LEDs, delayed work, the infrared service, the message queue - are recorded in the
    order they are made, and what they answer is decided by the parameter [host] from the
    calls made so far.  Configured as in [rmc_atb1109_ft.h]: without infrared learning, with
    the search key as voice key. *)
From S2P Require Import Prelude Gatt Keys.

(** ** Constants *)
Definition RMC_STATES_IDLE : Z := 0.
Definition RMC_STATES_ADVERTISING : Z := 1.
Definition RMC_STATES_CONNECTED : Z := 2.
Definition RMC_SM_ACT_NONE : Z := 0.
Definition RMC_SM_ACT_ADV : Z := 1.
Definition RMC_SM_ACT_DIRECT_ADV : Z := 2.
Definition RMC_SM_ACT_STOP_ADV : Z := 3.
Definition RMC_SM_ACT_DISCONNECT_CONN : Z := 4.
Definition RMC_SM_ACT_SENDKEY : Z := 5.
Definition RMC_SM_ACT_CONNECTED : Z := 6.
Definition RMC_MSG_INPUT_KEY : Z := 0.
Definition RMC_MSG_BLE_CONNECTED : Z := 1.
Definition RMC_MSG_BLE_SEC_CONNECTED : Z := 2.
Definition RMC_MSG_BLE_INPUT_ENABLED : Z := 3.
Definition RMC_MSG_BLE_USER_DISCONNECTED : Z := 4.
Definition RMC_MSG_BLE_NON_USER_DISCONNECTED : Z := 5.
Definition RMC_MSG_TIMER_ADV_TIMEOUT : Z := 6.
Definition RMC_MSG_TIMER_DIRECT_ADV_TIMEOUT : Z := 7.
Definition RMC_MSG_TIMER_NO_ACT_TIMEOUT : Z := 8.
Definition RMC_MSG_TIMER_SEC_TIMEOUT : Z := 9.
Definition RMC_MSG_RECONN_FAIL : Z := 10.
Definition RMC_MSG_POWER_UP : Z := 11.
Definition RMC_MSG_CLEAR_PIAR_KEY : Z := 12.
Definition RMC_MSG_LOW_POWER : Z := 13.
Definition RMC_NUM_MSGS : Z := 14.

Definition ID_ADV_TIMEOUT : Z := 0.
Definition ID_DIRECT_ADV_TIMEOUT : Z := 1.
Definition ID_NO_ACT_TIMEOUT : Z := 2.
Definition ID_ADC_BATTERY_TIMEOUT : Z := 3.
Definition ID_PAIR_COMB_KEY_TIMEOUT : Z := 4.
Definition ID_HCI_MODE_COMB_KEY_TIMEOUT : Z := 5.
Definition ID_RMC_SEC_TIMEOUT : Z := 6.
Definition rmcTimeoutValue : list Z := [30 * 1000; 2 * 1000; 5 * 60 * 1000; 3 * 60 * 1000; 3 * 1000; 5 * 1000; 6 * 1000].

Definition REMOTE_KEY_SEARCH : Z := 0x0221.
Definition REMOTE_KEY_VOICE_COMMAND : Z := REMOTE_KEY_SEARCH.
Definition REMOTE_KEY_VOICE_COMMAND_END : Z := 0xcccc.
Definition REMOTE_COMB_KEY_OK_BACK : Z := 0xcb00.
Definition REMOTE_COMB_KEY_TEST_ONE : Z := 0xcb01.
Definition REMOTE_COMB_KEY_TEST_TWO : Z := 0xcb02.
Definition REMOTE_COMB_KEY_TEST_THREE : Z := 0xcb03.
Definition REMOTE_COMB_KEY_TEST_FOUR : Z := 0xcb04.
Definition REMOTE_COMB_KEY_HCI_MODE : Z := 0xcb05.
Definition KEY_RESERVED : Z := 0xFF.

Definition MAX_RECONN_TIMES : Z := 3.
Definition HIDAPP_REMOTE_REPORT_ID : Z := 1.
Definition HIDAPP_VOICE_REPORT_ID : Z := 5.
Definition HIDAPP_MOUSE_REPORT_ID : Z := 3.
Definition HIDAPP_VOICE_INPUT_REPORT_LEN : Z := 20.
Definition HID_REPORT_TYPE_INPUT : Z := 0x01.
Definition HID_REPORT_TYPE_OUTPUT : Z := 0x02.
Definition HID_REPORT_TYPE_FEATURE : Z := 0x03.
Definition HID_KEYBOARD_BOOT_ID : Z := 0xFF.
Definition HID_MOUSE_BOOT_ID : Z := 0xFE.
Definition HID_MAX_REPORT_LEN : Z := 32.
Definition BT_GATT_CCC_NOTIFY : Z := 1.
Definition BT_ATT_ERR_INVALID_OFFSET : Z := 0x07.
Definition BT_HCI_ERR_REMOTE_USER_TERM_CONN : Z := 0x13.
Definition BT_ADDR_LE_RANDOM : Z := 0x01.
Definition REBOOT_TYPE_GOTO_DTM : Z := 0x1200.
Definition REBOOT_TYPE_GOTO_APP : Z := 0x1400.
Definition EIO : Z := 5.
Definition VERY_LOW_BATT_VAL : Z := 1800.
Definition LOW_BATT_VAL : Z := 2000.
Definition FULL_BATT_VAL : Z := 3250.
Definition BLE_PAIRING : Z := 0.
Definition BLE_PAIRED : Z := 1.
Definition BLE_PAIRING_TIMEOUT : Z := 2.

(** ** Events and state *)
Inductive rmc_event :=
| AdvStop
| AdvStart (directed : option (list Z)) (err : Z)
| HidNotify (attr : Z) (data : list Z) (err : Z)
| Disconnect | CccCleared | StorageCleared (err : Z)
| TimerStart (id ms : Z) | TimerStop (id : Z)
| PairLed (state : Z) | ButtonLed (on : bool) | IrLed | LowPowerLed
| IrSend (code down : Z)
| Message (type value : Z)
| Recording (on : bool) | EncoderInit (codec : Z) | PcmFreed
| AdcBinding (found : Z) | AdcRead (value : Z) | FlashBinding (found : Z) | FlashDisabled | BatteryNotified
| WakeLock (held : bool) | BtEnable (err : Z) | ServicesRegistered | CccLoaded | Reboot (type : Z) | OtaEvent (value : Z).
#[export] Instance rmc_event_dec : EqDecision rmc_event.
Proof. solve_decision. Defined.
(** msg.type *)
Definition MSG_KEY_INPUT : Z := 1.
Definition MSG_LOW_POWER : Z := 2.
Definition MSG_BLE_STATE : Z := 3.
Definition MSG_AUDIO_INPUT : Z := 4.
Definition MSG_APP_TIMER : Z := 5.
Definition MSG_OTA_EVENT : Z := 6.

Record hid_app_cb_t := HidAppCb {
  pconn : bool;                              (* not NULL *)
  direct_addr : list Z;                      (* type and six bytes *)
  reconn_times : Z; enter_pairing_mode : Z; rmc_term_conn_flag : Z; rmc_security_ready_flag : Z
}.
#[export] Instance eta_cb : EtaRecord hid_app_cb_t := fun r =>
  HidAppCb (pconn r) (direct_addr r) (reconn_times r) (enter_pairing_mode r) (rmc_term_conn_flag r) (rmc_security_ready_flag r).
Definition BT_ADDR_LE_ANY : list Z := [0; 0; 0; 0; 0; 0; 0].

Record audio_cb_t := AudioCb {
  codec : Z; sample_len : Z; send_start_flag : Z; send_stop_flag : Z; need_drop_buffer_count : Z; encoder_init_flag : Z
}.
#[export] Instance eta_audio : EtaRecord audio_cb_t := fun r =>
  AudioCb (codec r) (sample_len r) (send_start_flag r) (send_stop_flag r) (need_drop_buffer_count r) (encoder_init_flag r).

Record rmc := Rmc {
  rmc_status : Z;                            (* g_rmc_cb *)
  hid_app_cb : hid_app_cb_t;
  hids_ccc_table : list (Z * Z);             (* handle, value *)
  audio_cb : audio_cb_t;
  encode_out_buffer : list Z;                (* u8_t [80] *)
  bt_ready_flag : Z; overlay_ready_flag : Z;
  pending_key : Z; comb_key_code : Z;
  pair_comb_key_timer_start : Z; hci_mode_comb_key_timer_start : Z;
  previous_ir_key_code : Z;
  ad_name : string;                          (* the complete name in [ad] *)
  batt_val : Z; batt_level : Z;
  ota_need_reset : Z;
  log : list rmc_event
}.
#[export] Instance eta_rmc : EtaRecord rmc := fun r =>
  Rmc (rmc_status r) (hid_app_cb r) (hids_ccc_table r) (audio_cb r) (encode_out_buffer r) (bt_ready_flag r)
    (overlay_ready_flag r) (pending_key r) (comb_key_code r) (pair_comb_key_timer_start r)
    (hci_mode_comb_key_timer_start r) (previous_ir_key_code r) (ad_name r) (batt_val r) (batt_level r)
    (ota_need_reset r) (log r).
#[local] Abbreviation RM := (M rmc).

Definition emit (e : rmc_event) : RM unit := modify (fun s => s <| log ::= (fun t => t ++ [e]) |>).
Definition upd_cb (f : hid_app_cb_t -> hid_app_cb_t) : RM unit := modify (fun s => s <| hid_app_cb ::= f |>).
Definition upd_audio (f : audio_cb_t -> audio_cb_t) : RM unit := modify (fun s => s <| audio_cb ::= f |>).
Definition get_cb : RM hid_app_cb_t := gets hid_app_cb.

(** ** The HID service *)
Definition HID_KEYBOARD_BOOT_IN_HDL : Z := 9.
Definition HID_KEYBOARD_BOOT_IN_CH_CCC_HDL : Z := 10.
Definition HID_KEYBOARD_BOOT_OUT_HDL : Z := 12.
Definition HID_MOUSE_BOOT_IN_HDL : Z := 14.
Definition HID_MOUSE_BOOT_IN_CH_CCC_HDL : Z := 15.
Definition HID_INPUT_REPORT_1_HDL : Z := 17.
Definition HID_INPUT_REPORT_1_CH_CCC_HDL : Z := 18.
Definition HID_INPUT_REPORT_2_HDL : Z := 21.
Definition HID_INPUT_REPORT_2_CH_CCC_HDL : Z := 22.
Definition HID_INPUT_REPORT_3_HDL : Z := 25.
Definition HID_INPUT_REPORT_3_CH_CCC_HDL : Z := 26.
Definition HID_OUTPUT_REPORT_HDL : Z := 29.
Definition HID_FEATURE_REPORT_HDL : Z := 32.

Definition hids_ccc_init : list (Z * Z) :=
  [(HID_KEYBOARD_BOOT_IN_CH_CCC_HDL, 0); (HID_MOUSE_BOOT_IN_CH_CCC_HDL, 0); (HID_INPUT_REPORT_1_CH_CCC_HDL, 0);
   (HID_INPUT_REPORT_2_CH_CCC_HDL, 0); (HID_INPUT_REPORT_3_CH_CCC_HDL, 0)].
Fixpoint set_ccc (handle value : Z) (t : list (Z * Z)) : list (Z * Z) :=
  match t with
  | [] => []
  | e :: t => if e.1 =? handle then (e.1, value) :: t else e :: set_ccc handle value t
  end.
Definition hid_set_ccc_table_value (handle value : Z) : RM unit := modify (fun s => s <| hids_ccc_table ::= set_ccc handle value |>).
Definition hid_get_ccc_table_value (handle : Z) (t : list (Z * Z)) : Z :=
  match list_find (fun e => e.1 = handle) t with Some (_, e) => e.2 | None => 0 end.
Definition hid_ccc_is_enabled (handle : Z) (t : list (Z * Z)) : bool := hid_get_ccc_table_value handle t =? BT_GATT_CCC_NOTIFY.
(** The boot reports, entries 0 and 1, are not looked at. *)
Definition all_hid_ccc_is_enabled (t : list (Z * Z)) : bool := forallb (fun e => e.2 =? BT_GATT_CCC_NOTIFY) (drop 2 t).
(** The attribute and the value; the table's values are u8_t. *)
Definition hid_ccc_changed (handle value : Z) : RM unit := hid_set_ccc_table_value handle (u8 value).

(** type, id, handle *)
Definition hid_app_report_id_set : list (Z * Z * Z) :=
  [(HID_REPORT_TYPE_INPUT, HIDAPP_REMOTE_REPORT_ID, HID_INPUT_REPORT_1_HDL);
   (HID_REPORT_TYPE_INPUT, HIDAPP_VOICE_REPORT_ID, HID_INPUT_REPORT_2_HDL);
   (HID_REPORT_TYPE_OUTPUT, HIDAPP_VOICE_REPORT_ID, HID_OUTPUT_REPORT_HDL);
   (HID_REPORT_TYPE_FEATURE, HIDAPP_VOICE_REPORT_ID, HID_FEATURE_REPORT_HDL);
   (HID_REPORT_TYPE_INPUT, HIDAPP_MOUSE_REPORT_ID, HID_INPUT_REPORT_3_HDL);
   (HID_REPORT_TYPE_INPUT, HID_KEYBOARD_BOOT_ID, HID_KEYBOARD_BOOT_IN_HDL);
   (HID_REPORT_TYPE_OUTPUT, HID_KEYBOARD_BOOT_ID, HID_KEYBOARD_BOOT_OUT_HDL);
   (HID_REPORT_TYPE_INPUT, HID_MOUSE_BOOT_ID, HID_MOUSE_BOOT_IN_HDL)].
Definition hid_get_report_handle (type id : Z) : Z :=
  match list_find (fun e => e.1 = (type, id)) hid_app_report_id_set with Some (_, e) => e.2 | None => 0 end.

(** The write handlers; the application registers no callbacks. *)
Definition write_report_value (len offset : Z) : Z :=
  if HID_MAX_REPORT_LEN <? offset + len then - BT_ATT_ERR_INVALID_OFFSET else len.
Definition write_ctrl_point (len offset : Z) : Z := if 1 <? offset + len then - BT_ATT_ERR_INVALID_OFFSET else len.
Definition write_protocol_mode (len offset : Z) : Z := if 1 <? offset + len then - BT_ATT_ERR_INVALID_OFFSET else len.

Section Rmc.
Context (host : list rmc_event -> Z).
(** bt_storage->read of the stored keys: the peer's address, if complete keys were read. *)
Context (stored_addr : list rmc_event -> option (list Z)).
(** KEY_MAPS of the board's header: key, HID code, infrared code. *)
Context (acts_key_maps : list (Z * Z * Z)).
(** CONFIG_USE_UNDIRECT_ADV_FOR_RECONN; the codec's library. *)
Context (undirected_reconn : bool) (encode_init_func : Z -> Z) (encode_func : list Z -> list Z).

(** A call that is recorded with the answer it got. *)
Definition call (e : Z -> rmc_event) : RM Z := s ← get; let err := host (log s) in emit (e err);; mret err.

Definition bt_gatt_notify (attr : Z) (data : list Z) : RM Z := call (HidNotify attr data).
Definition hid_send_input_report (report_id : Z) (data : list Z) : RM Z :=
  let handle := hid_get_report_handle HID_REPORT_TYPE_INPUT report_id in
  s ← get;
  if negb (handle =? 0) && hid_ccc_is_enabled (handle + 1) (hids_ccc_table s) then bt_gatt_notify handle data
  else mret (- EIO).
Definition link_ready : RM bool := c ← get_cb; mret (pconn c && truthy (rmc_security_ready_flag c)).
Definition hid_app_remote_report_event (button : Z) : RM Z :=
  ready ← link_ready;
  if ready : bool then hid_send_input_report HIDAPP_REMOTE_REPORT_ID [Z.land button 0xFF; Z.land (Z.shiftr button 8) 0xFF; 0]
  else mret (- EIO).
Definition hid_app_voice_report_event (buffer : list Z) : RM Z :=
  ready ← link_ready;
  if ready : bool then hid_send_input_report HIDAPP_VOICE_REPORT_ID buffer else mret (- EIO).

(** ** Timers and small calls *)
Definition rmc_timer_start (id : Z) : RM unit := ms ← lift (rd rmcTimeoutValue id); emit (TimerStart id ms).
Definition rmc_timer_stop (id : Z) : RM unit := ms ← lift (rd rmcTimeoutValue id); emit (TimerStop id).
Definition pair_led_indication (st : Z) : RM unit := emit (PairLed st).
Definition rmc_sm_state_is_activing : RM bool := s ← get; mret (negb (rmc_status s =? RMC_STATES_CONNECTED)).
Definition rmc_security_ready : RM bool := c ← get_cb; mret (truthy (rmc_security_ready_flag c)).
Definition working : RM bool := activing ← rmc_sm_state_is_activing; ready ← rmc_security_ready; mret (negb activing && ready).

(** ** Keys *)
Definition mapped (f : Z * Z * Z -> Z) (code : Z) : Z :=
  match list_find (fun m => m.1.1 = code) acts_key_maps with Some (_, m) => f m | None => KEY_RESERVED end.
Definition acts_get_ble_keycode (code : Z) : Z := mapped (fun m => m.1.2) code.
Definition acts_get_ir_keycode (code : Z) : Z := mapped snd code.
Definition down (key_value : Z) : bool := truthy (Z.land key_value KEY_TYPE_DOWN).

Definition send_ir_keycode (key_value : Z) : RM unit :=
  let ir_key_code := acts_get_ir_keycode (Z.land key_value 0xFFFF) in
  if ir_key_code =? KEY_RESERVED then mret tt
  else
    connected ← working;
    if negb (connected : bool) then
      if down key_value then
        s ← get;
        when (negb (previous_ir_key_code s =? ir_key_code)) (emit IrLed);;
        emit (IrSend ir_key_code 1);;
        modify (fun s => s <| previous_ir_key_code := ir_key_code |>)
      else
        emit (IrSend ir_key_code 0);;
        modify (fun s => s <| previous_ir_key_code := KEY_RESERVED |>)
    else
      s ← get;
      when (truthy (host (log s)))            (* irc_device_state_get *)
        (emit (IrSend ir_key_code 0);; modify (fun s => s <| previous_ir_key_code := KEY_RESERVED |>)).

Definition send_ble_keycode (key_value : Z) : RM unit :=
  connected ← working;
  if negb (connected : bool) then modify (fun s => s <| pending_key := key_value |>)
  else
    let ble_key_code := acts_get_ble_keycode (Z.land key_value 0xFFFF) in
    if ble_key_code =? KEY_RESERVED then mret tt
    else
      modify (fun s => s <| pending_key := 0 |>);;
      ret ← hid_app_remote_report_event (if down key_value then ble_key_code else 0);
      mret tt.

Definition send_pending_keycode : RM unit :=
  s ← get;
  let key_value := pending_key s in
  if down key_value then send_ble_keycode key_value
  else
    let ble_key_code := acts_get_ble_keycode (Z.land key_value 0xFFFF) in
    if ble_key_code =? KEY_RESERVED then mret tt
    else
      ret ← hid_app_remote_report_event ble_key_code;
      ret ← hid_app_remote_report_event 0;
      mret tt.

(** ** Voice *)
Definition audio_send_flag (button : Z) (clear : audio_cb_t -> audio_cb_t) : RM unit :=
  ret ← hid_app_remote_report_event button;
  if negb (ret =? 0) then mret tt
  else
    ret ← hid_app_remote_report_event 0;
    when (ret =? 0) (upd_audio clear).
Definition audio_send_start_flag : RM unit :=
  s ← get;
  when (truthy (encoder_init_flag (audio_cb s)))
    (emit (EncoderInit (codec (audio_cb s)));;
     upd_audio (fun a => a <| sample_len := encode_init_func (codec a) |> <| encoder_init_flag := 0 |>));;
  s ← get;
  when (truthy (send_start_flag (audio_cb s))) (audio_send_flag REMOTE_KEY_VOICE_COMMAND (fun a => a <| send_start_flag := 0 |>)).
Definition audio_send_stop_flag : RM unit :=
  s ← get;
  when (truthy (send_stop_flag (audio_cb s))) (audio_send_flag REMOTE_KEY_VOICE_COMMAND_END (fun a => a <| send_stop_flag := 0 |>)).
Definition audio_need_drop_buffer : RM bool :=
  s ← get;
  if truthy (need_drop_buffer_count (audio_cb s)) then
    upd_audio (fun a => a <| need_drop_buffer_count := u8 (need_drop_buffer_count a - 1) |>);; mret true
  else mret false.
Definition pcm_buffer_free : RM unit := emit PcmFreed.

Definition le16 (w : Z) : list Z := [u8 w; u8 (Z.shiftr w 8)].
(** Writes the words at a byte offset of the output buffer. *)
Definition store_words (off : Z) (ws buf : list Z) : option (list Z) :=
  let bs := ws ≫= le16 in
  if Z.of_nat (length buf) <? off + Z.of_nat (length bs) then None
  else Some (take (Z.to_nat off) buf ++ bs ++ drop (Z.to_nat off + length bs) buf).
(** The samples not yet encoded, the offset in the output and the last frame's length. *)
Fixpoint encode_loop (times : nat) (sample_len : Z) (pcm : list Z) (out_off out_len : Z) (buf : list Z) : option (Z * list Z) :=
  match times with
  | O => Some (out_len, buf)
  | S times =>
      if (sample_len <? 0) || (Z.of_nat (length pcm) <? sample_len) then None
      else
        let ws := encode_func (take (Z.to_nat sample_len) pcm) in
        buf ← store_words out_off ws buf;
        let out_len := Z.of_nat (length ws) in
        encode_loop times sample_len (drop (Z.to_nat sample_len) pcm) (out_off + 2 * out_len) out_len buf
  end.
Definition audio_encode (pcm : list Z) : RM Z :=
  s ← get;
  let n := sample_len (audio_cb s) in
  if n =? 0 then ub
  else
    let times := u8 (Z.quot (u16 (2 * Z.of_nat (length pcm))) (n * 2)) in
    '(out_len, buf) ← lift (encode_loop (Z.to_nat times) n pcm 0 0 (encode_out_buffer s));
    modify (fun s => s <| encode_out_buffer := buf |>);;
    mret (u16 (u16 out_len * times * 2)).
(** [for (i = 0; i < out_len; i = i+20)]; the report is twenty bytes of the buffer. *)
Fixpoint send_frames (fuel : nat) (i out_len : Z) : RM unit :=
  if i <? out_len then
    match fuel with
    | O => ub
    | S fuel =>
        s ← get;
        let report := take 20 (drop (Z.to_nat i) (encode_out_buffer s)) in
        if Nat.ltb (length report) 20 then ub
        else ret ← hid_app_voice_report_event report; send_frames fuel (i + 20) out_len
    end
  else mret tt.
Definition system_audio_event_handle (pcm : list Z) : RM unit :=
  activing ← rmc_sm_state_is_activing;
  if activing : bool then pcm_buffer_free
  else
    audio_send_start_flag;;
    drop_it ← audio_need_drop_buffer;
    if drop_it : bool then pcm_buffer_free
    else
      out_len ← audio_encode pcm;
      pcm_buffer_free;;
      send_frames 4 0 out_len;;
      audio_send_stop_flag.
Definition start_audio_capture : RM unit :=
  s ← get;
  if overlay_ready_flag s =? 0 then mret tt
  else
    upd_audio (fun a => a <| encoder_init_flag := 1 |> <| send_start_flag := 1 |> <| send_stop_flag := 0 |>
                          <| need_drop_buffer_count := 4 |>);;
    emit (Recording true).
Definition stop_audio_capture : RM unit :=
  s ← get;
  if overlay_ready_flag s =? 0 then mret tt
  else upd_audio (fun a => a <| send_stop_flag := 1 |> <| send_start_flag := 0 |>);; emit (Recording false).

(** ** Battery *)
Definition very_low_power_handler : RM unit :=
  found ← call FlashBinding;
  if found =? 0 then mret tt else emit FlashDisabled;; emit (Message MSG_LOW_POWER 0).
Definition update_battry_value : RM unit :=
  found ← call AdcBinding;
  if found =? 0 then mret tt
  else
    adc ← call AdcRead;
    modify (fun s => s <| batt_val := u16 (Z.quot (u16 adc * 3600) 1024) |>);;
    s ← get;
    when (batt_val s <=? LOW_BATT_VAL) (emit LowPowerLed);;
    when (batt_val s <=? VERY_LOW_BATT_VAL) very_low_power_handler;;
    modify (fun s => s <| batt_val ::= (fun v =>
      if v <=? VERY_LOW_BATT_VAL then VERY_LOW_BATT_VAL else if FULL_BATT_VAL <=? v then FULL_BATT_VAL else v) |>);;
    modify (fun s => s <| batt_level := u8 (Z.quot ((batt_val s - VERY_LOW_BATT_VAL) * 100) (FULL_BATT_VAL - VERY_LOW_BATT_VAL)) |>).

(** ** The state machine and its actions *)
Definition rmc_State_table : list (list (Z * Z)) :=
  [[(RMC_STATES_ADVERTISING, RMC_SM_ACT_DIRECT_ADV); (RMC_STATES_CONNECTED, RMC_MSG_BLE_CONNECTED);
    (RMC_STATES_CONNECTED, RMC_SM_ACT_SENDKEY); (RMC_STATES_CONNECTED, RMC_SM_ACT_NONE);
    (RMC_STATES_IDLE, RMC_SM_ACT_NONE); (RMC_STATES_IDLE, RMC_SM_ACT_DIRECT_ADV);
    (RMC_STATES_IDLE, RMC_SM_ACT_STOP_ADV); (RMC_STATES_ADVERTISING, RMC_SM_ACT_DIRECT_ADV);
    (RMC_STATES_IDLE, RMC_SM_ACT_NONE); (RMC_STATES_IDLE, RMC_SM_ACT_NONE);
    (RMC_STATES_IDLE, RMC_SM_ACT_NONE); (RMC_STATES_ADVERTISING, RMC_SM_ACT_DIRECT_ADV);
    (RMC_STATES_ADVERTISING, RMC_SM_ACT_ADV); (RMC_STATES_IDLE, RMC_SM_ACT_NONE)];
   [(RMC_STATES_ADVERTISING, RMC_SM_ACT_NONE); (RMC_STATES_CONNECTED, RMC_SM_ACT_CONNECTED);
    (RMC_STATES_CONNECTED, RMC_SM_ACT_SENDKEY); (RMC_STATES_CONNECTED, RMC_SM_ACT_NONE);
    (RMC_STATES_IDLE, RMC_SM_ACT_NONE); (RMC_STATES_IDLE, RMC_SM_ACT_NONE);
    (RMC_STATES_IDLE, RMC_SM_ACT_STOP_ADV); (RMC_STATES_ADVERTISING, RMC_SM_ACT_DIRECT_ADV);
    (RMC_STATES_IDLE, RMC_SM_ACT_STOP_ADV); (RMC_STATES_IDLE, RMC_SM_ACT_NONE);
    (RMC_STATES_IDLE, RMC_SM_ACT_NONE); (RMC_STATES_ADVERTISING, RMC_SM_ACT_DIRECT_ADV);
    (RMC_STATES_ADVERTISING, RMC_SM_ACT_ADV); (RMC_STATES_IDLE, RMC_SM_ACT_STOP_ADV)];
   [(RMC_STATES_CONNECTED, RMC_SM_ACT_NONE); (RMC_STATES_CONNECTED, RMC_SM_ACT_NONE);
    (RMC_STATES_CONNECTED, RMC_SM_ACT_SENDKEY); (RMC_STATES_CONNECTED, RMC_SM_ACT_NONE);
    (RMC_STATES_IDLE, RMC_SM_ACT_NONE); (RMC_STATES_ADVERTISING, RMC_SM_ACT_DIRECT_ADV);
    (RMC_STATES_CONNECTED, RMC_SM_ACT_STOP_ADV); (RMC_STATES_CONNECTED, RMC_SM_ACT_NONE);
    (RMC_STATES_IDLE, RMC_SM_ACT_DISCONNECT_CONN); (RMC_STATES_IDLE, RMC_SM_ACT_DISCONNECT_CONN);
    (RMC_STATES_IDLE, RMC_SM_ACT_NONE); (RMC_STATES_ADVERTISING, RMC_SM_ACT_DIRECT_ADV);
    (RMC_STATES_CONNECTED, RMC_SM_ACT_NONE); (RMC_STATES_IDLE, RMC_SM_ACT_DISCONNECT_CONN)]].
Definition rmc_sm_init : RM unit := modify (fun s => s <| rmc_status := RMC_STATES_IDLE |>).

Definition bt_addr_le_is_rpa (addr : list Z) : bool :=
  match addr with
  | [type; _; _; _; _; _; b5] => (type =? BT_ADDR_LE_RANDOM) && (Z.land b5 0xc0 =? 0x40)
  | _ => false
  end.
Definition is_paired : RM bool :=
  s ← get;
  if negb (bool_decide (direct_addr (hid_app_cb s) = BT_ADDR_LE_ANY)) then mret true
  else
    match stored_addr (log s) with
    | Some addr =>
        if negb (bool_decide (addr = BT_ADDR_LE_ANY)) && negb (bt_addr_le_is_rpa addr) then
          upd_cb (fun c => c <| direct_addr := addr |>);; mret true
        else mret false
    | None => mret false
    end.

Definition rmc_sm_act_none : RM unit := mret tt.
Definition rmc_sm_act_start_adv : RM unit :=
  c ← get_cb;
  if pconn c then mret tt
  else
    emit AdvStop;;
    err ← call (AdvStart None);
    if truthy err then mret tt
    else
      pair_led_indication BLE_PAIRING;;
      upd_cb (fun c => c <| enter_pairing_mode := 1 |>);;
      rmc_timer_stop ID_DIRECT_ADV_TIMEOUT;;
      rmc_timer_start ID_ADV_TIMEOUT.
Definition leave_pairing (led : Z) : RM unit :=
  c ← get_cb;
  when (enter_pairing_mode c =? 1) (upd_cb (fun c => c <| enter_pairing_mode := 0 |>);; pair_led_indication led).
Definition rmc_sm_act_connected : RM unit := leave_pairing BLE_PAIRED.
Definition rmc_sm_act_start_direct_adv (rmc_sm_execute : Z -> RM unit) : RM unit :=
  paired ← is_paired;
  c ← get_cb;
  if (paired : bool) && (reconn_times c <? MAX_RECONN_TIMES) then
    emit AdvStop;;
    err ← call (AdvStart (if undirected_reconn then None else Some (direct_addr c)));
    if truthy err then mret tt
    else upd_cb (fun c => c <| reconn_times := u8 (reconn_times c + 1) |>);; rmc_timer_start ID_DIRECT_ADV_TIMEOUT
  else
    upd_cb (fun c => c <| reconn_times := 0 |>);;
    s ← get;
    if pair_comb_key_timer_start s =? 0 then rmc_sm_execute RMC_MSG_RECONN_FAIL
    else rmc_sm_execute RMC_MSG_CLEAR_PIAR_KEY.
Definition rmc_sm_act_stop_adv : RM unit := emit AdvStop;; leave_pairing BLE_PAIRING_TIMEOUT.
Definition rmc_sm_act_disconnect_conn : RM unit :=
  c ← get_cb;
  when (pconn c) (emit Disconnect;; upd_cb (fun c => c <| rmc_term_conn_flag := 1 |>)).
Definition rmc_sm_act_send_key : RM unit := send_pending_keycode.

Definition rmc_act_set (rmc_sm_execute : Z -> RM unit) : list (RM unit) :=
  [rmc_sm_act_none; rmc_sm_act_start_adv; rmc_sm_act_start_direct_adv rmc_sm_execute; rmc_sm_act_stop_adv;
   rmc_sm_act_disconnect_conn; rmc_sm_act_send_key; rmc_sm_act_connected].
(** Starting the reconnection runs the machine again, with another event: [depth] bounds it. *)
Fixpoint sm_execute (depth : nat) (evt : Z) : RM unit :=
  match depth with
  | O => ub
  | S depth =>
      s ← get;
      row ← lift (rd rmc_State_table (rmc_status s));
      '(next, action) ← lift (rd row evt);
      modify (fun s => s <| rmc_status := next |>);;
      act_func ← lift (rd (rmc_act_set (sm_execute depth)) action);
      act_func
  end.
Definition rmc_sm_execute (evt : Z) : RM unit := sm_execute 2 evt.

Definition device_name (code : Z) (name : string) : string :=
  if code =? REMOTE_COMB_KEY_OK_BACK then "CubieBLE1"%string
  else if code =? REMOTE_COMB_KEY_TEST_ONE then "BLE_RMC_TEST_1"%string
  else if code =? REMOTE_COMB_KEY_TEST_TWO then "BLE_RMC_TEST_2"%string
  else if code =? REMOTE_COMB_KEY_TEST_THREE then "BLE_RMC_TEST_3"%string
  else if code =? REMOTE_COMB_KEY_TEST_FOUR then "BLE_RMC_TEST_4"%string else name.
Definition set_sd_data : RM unit :=
  modify (fun s => s <| ad_name ::= device_name (comb_key_code s) |> <| comb_key_code := REMOTE_COMB_KEY_OK_BACK |>).
Definition rmc_clear_pair_info : RM unit :=
  set_sd_data;;
  emit CccCleared;;
  err ← call StorageCleared;
  if truthy err then mret tt else upd_cb (fun c => c <| direct_addr := BT_ADDR_LE_ANY |>).

(** ** Callbacks of the host *)
Definition connected (err : Z) : RM unit :=
  if truthy err then mret tt
  else
    upd_cb (fun c => c <| pconn := true |>);;
    emit (Message MSG_BLE_STATE RMC_MSG_BLE_CONNECTED);;
    leave_pairing BLE_PAIRED;;
    update_battry_value;;
    rmc_timer_start ID_ADC_BATTERY_TIMEOUT;;
    rmc_timer_start ID_RMC_SEC_TIMEOUT.
Definition disconnected (reason : Z) : RM unit :=
  upd_cb (fun c => c <| pconn := false |>);;
  when (reason =? BT_HCI_ERR_REMOTE_USER_TERM_CONN) (upd_cb (fun c => c <| rmc_term_conn_flag := 1 |>));;
  s ← get;
  let by_user := truthy (rmc_term_conn_flag (hid_app_cb s)) in
  when by_user (upd_cb (fun c => c <| rmc_term_conn_flag := 0 |>));;
  emit (Message MSG_BLE_STATE (if truthy (pair_comb_key_timer_start s) then RMC_MSG_BLE_NON_USER_DISCONNECTED
                               else if by_user then RMC_MSG_BLE_USER_DISCONNECTED else RMC_MSG_BLE_NON_USER_DISCONNECTED));;
  rmc_timer_stop ID_ADC_BATTERY_TIMEOUT;;
  upd_cb (fun c => c <| rmc_security_ready_flag := 0 |>);;
  when (truthy (ota_need_reset s)) (emit (Reboot REBOOT_TYPE_GOTO_APP)).
Definition security_changed : RM unit :=
  paired ← is_paired;
  s ← get;
  if (paired : bool) && negb (all_hid_ccc_is_enabled (hids_ccc_table s)) then
    rmc_clear_pair_info;; rmc_sm_execute RMC_MSG_CLEAR_PIAR_KEY
  else
    rmc_timer_stop ID_RMC_SEC_TIMEOUT;;
    upd_cb (fun c => c <| rmc_security_ready_flag := 1 |>);;
    emit (Message MSG_BLE_STATE RMC_MSG_BLE_SEC_CONNECTED).
Definition hid_app_ready_update : RM bool :=
  s ← get; mret (all_hid_ccc_is_enabled (hids_ccc_table s) && truthy (rmc_security_ready_flag (hid_app_cb s))).
Definition hid_app_remote_report_channel_enable : RM unit :=
  c ← get_cb; when (pconn c) (emit (Message MSG_BLE_STATE RMC_MSG_BLE_INPUT_ENABLED)).
Definition bt_ready (err : Z) : RM unit :=
  emit (WakeLock false);;
  if truthy err then mret tt
  else
    upd_cb (fun _ => HidAppCb false BT_ADDR_LE_ANY 0 0 0 0);;
    emit ServicesRegistered;;
    emit CccLoaded;;
    rmc_sm_execute RMC_MSG_POWER_UP;;
    modify (fun s => s <| bt_ready_flag := 1 |> <| overlay_ready_flag := 1 |>).

(** ** Messages *)
Definition system_ble_event_handle (ble_event : Z) : RM unit :=
  upd_cb (fun c => c <| reconn_times := 0 |>);; rmc_sm_execute ble_event.
Definition system_app_timer_event_handle (timer_event : Z) : RM unit :=
  if timer_event =? ID_ADV_TIMEOUT then rmc_sm_execute RMC_MSG_TIMER_ADV_TIMEOUT
  else if timer_event =? ID_DIRECT_ADV_TIMEOUT then rmc_sm_execute RMC_MSG_TIMER_DIRECT_ADV_TIMEOUT
  else if timer_event =? ID_NO_ACT_TIMEOUT then rmc_sm_execute RMC_MSG_TIMER_NO_ACT_TIMEOUT
  else if timer_event =? ID_ADC_BATTERY_TIMEOUT then
    activing ← rmc_sm_state_is_activing;
    when (negb activing) (update_battry_value;; emit BatteryNotified;; rmc_timer_start ID_ADC_BATTERY_TIMEOUT)
  else if timer_event =? ID_PAIR_COMB_KEY_TIMEOUT then rmc_clear_pair_info;; rmc_sm_execute RMC_MSG_CLEAR_PIAR_KEY
  else if timer_event =? ID_HCI_MODE_COMB_KEY_TIMEOUT then emit (Reboot REBOOT_TYPE_GOTO_DTM)
  else if timer_event =? ID_RMC_SEC_TIMEOUT then rmc_sm_execute RMC_MSG_TIMER_SEC_TIMEOUT
  else mret tt.
Definition check_rmc_timer (timer_id : Z) : RM unit := emit (Message MSG_APP_TIMER timer_id).

Definition is_comb_key (code : Z) : bool :=
  bool_decide (code ∈ [REMOTE_COMB_KEY_OK_BACK; REMOTE_COMB_KEY_TEST_ONE; REMOTE_COMB_KEY_TEST_TWO;
                       REMOTE_COMB_KEY_TEST_THREE; REMOTE_COMB_KEY_TEST_FOUR]).
Definition is_need_deliver_to_app (event : Z) : RM bool :=
  let app_key_code := acts_get_ble_keycode (Z.land event 0xFFFF) in
  if app_key_code =? REMOTE_KEY_VOICE_COMMAND then
    connected ← working;
    when connected (if down event then audio_send_start_flag else audio_send_stop_flag);;
    mret false
  else if is_comb_key app_key_code then
    (if down event then
       rmc_timer_start ID_PAIR_COMB_KEY_TIMEOUT;;
       modify (fun s => s <| comb_key_code := app_key_code |> <| pair_comb_key_timer_start := 1 |>)
     else
       rmc_timer_stop ID_PAIR_COMB_KEY_TIMEOUT;;
       modify (fun s => s <| pair_comb_key_timer_start := 0 |>));;
    mret false
  else if app_key_code =? REMOTE_COMB_KEY_HCI_MODE then
    (if down event then
       rmc_timer_start ID_HCI_MODE_COMB_KEY_TIMEOUT;;
       modify (fun s => s <| hci_mode_comb_key_timer_start := 1 |>)
     else
       rmc_timer_stop ID_HCI_MODE_COMB_KEY_TIMEOUT;;
       modify (fun s => s <| hci_mode_comb_key_timer_start := 0 |>));;
    mret false
  else
    s ← get;
    when (truthy (pair_comb_key_timer_start s))
      (rmc_timer_stop ID_PAIR_COMB_KEY_TIMEOUT;; modify (fun s => s <| pair_comb_key_timer_start := 0 |>));;
    when (truthy (hci_mode_comb_key_timer_start s))
      (rmc_timer_stop ID_HCI_MODE_COMB_KEY_TIMEOUT;; modify (fun s => s <| hci_mode_comb_key_timer_start := 0 |>));;
    mret true.
Definition system_input_event_handle (key_event : Z) : RM unit :=
  rmc_sm_execute RMC_MSG_INPUT_KEY;;
  deliver ← is_need_deliver_to_app key_event;
  when deliver (send_ble_keycode key_event).
(** In the input manager's context, when a key changes. *)
Definition _system_key_event_cb (key_value : Z) : RM unit :=
  (if down key_value then
     emit (ButtonLed true);;
     when (acts_get_ble_keycode (Z.land key_value 0xFFFF) =? REMOTE_KEY_VOICE_COMMAND) start_audio_capture
   else when (truthy (Z.land key_value KEY_TYPE_UP))
     (emit (ButtonLed false);;
      when (acts_get_ble_keycode (Z.land key_value 0xFFFF) =? REMOTE_KEY_VOICE_COMMAND) stop_audio_capture));;
  send_ir_keycode key_value.
Definition is_need_report_hold (key_code : Z) : bool := false.

(** One pass of the main loop with a message; a voice message carries the samples of its
    buffer instead of a value. *)
Definition handle_msg (type value : Z) (pcm : list Z) : RM unit :=
  if type =? MSG_KEY_INPUT then
    rmc_timer_start ID_NO_ACT_TIMEOUT;;
    s ← get;
    when (truthy (bt_ready_flag s)) (system_input_event_handle value)
  else if type =? MSG_BLE_STATE then system_ble_event_handle value
  else if type =? MSG_AUDIO_INPUT then rmc_timer_start ID_NO_ACT_TIMEOUT;; system_audio_event_handle pcm
  else if type =? MSG_APP_TIMER then system_app_timer_event_handle value
  else if type =? MSG_OTA_EVENT then rmc_timer_start ID_NO_ACT_TIMEOUT;; emit (OtaEvent value)
  else if type =? MSG_LOW_POWER then rmc_sm_execute RMC_MSG_LOW_POWER
  else mret tt.
Definition audio_init : RM unit := upd_audio (fun _ => AudioCb 10 0 0 0 0 0).
Definition system_app_init : RM unit := rmc_sm_init;; audio_init;; update_battry_value.
(** Up to the main loop; the result is whether it is entered. *)
Definition app_start : RM bool :=
  system_app_init;;
  emit (WakeLock true);;
  err ← call BtEnable;
  if truthy err then emit (WakeLock false);; mret false
  else rmc_timer_start ID_NO_ACT_TIMEOUT;; mret true.
End Rmc.

(** KEY_MAPS of [rmc_atb1109_ft.h]: key, HID code, infrared code. *)
Definition ft_key_maps : list (Z * Z * Z) :=
  [(2, REMOTE_KEY_VOICE_COMMAND, 0x4e); (3, 0x00e9, 0x14); (4, 0x00ea, 0x10); (5, 0x0030, 0x18);
   (6, 0x0045, 0x15); (7, 0x0043, 0x16); (8, 0x0041, 0x55); (9, 0x0044, 0x47); (10, 0x0042, 0x46);
   (11, 0x0224, 0x40); (12, 0x0223, 0x4f); (13, REMOTE_COMB_KEY_OK_BACK, KEY_RESERVED);
   (14, REMOTE_COMB_KEY_HCI_MODE, KEY_RESERVED)].
(** The static initialisers. *)
Definition rmc_zero : rmc :=
  Rmc 0 (HidAppCb false BT_ADDR_LE_ANY 0 0 0 0) hids_ccc_init (AudioCb 0 0 0 0 0 0) (replicate 80 0) 0 0 0
    REMOTE_COMB_KEY_OK_BACK 0 0 KEY_RESERVED "CubieBLE1"%string 3000 100 0 [].
