(* ===== verification/RmcSpec.v ===== *)
(** * The remote control application: no undefined behaviour, and reports only on a secured link

    The application driven by the messages it posted itself, by the keys, by the expiry of
    the timers it started and by the host's callbacks ([enabled]), in any order; each handler
    runs to its end before the next.  The invariant [rmc_ok] carries the state machine's
    range, the encoder's frame length, the validity of posted messages and the link's
    security along every such run. *)
From S2P Require Import Prelude Gatt Keys Rmc.

Create HintDb rmc discriminated.

(** ** Composing preservation proofs *)
Section Keeps.
Context {S : Type} (inv : S -> Prop).
Definition keeps {A} (m : M S A) (s : S) : Prop := inv s -> ends m s (fun _ s' => inv s').
Lemma keep_ret {A} (a : A) s : keeps (mret a) s.
Proof. exact (fun H => H). Qed.
Lemma keep_bind {A B} (m : M S A) (k : A -> M S B) s :
  keeps m s -> (forall a s', keeps (k a) s') -> keeps (m ≫= k) s.
Proof. intros H1 H2 H. apply ends_bind. eapply ends_mono; [by apply H1|]. intros a s' Hs. by apply H2. Qed.
Lemma keeps_get {A} (k : S -> M S A) s : keeps (k s) s -> keeps (get ≫= k) s.
Proof. exact (fun H => H). Qed.
Lemma keeps_gets {A B} (f : S -> A) (k : A -> M S B) s : keeps (k (f s)) s -> keeps (gets f ≫= k) s.
Proof. exact (fun H => H). Qed.
Lemma keeps_modify (f : S -> S) s : (inv s -> inv (f s)) -> keeps (modify f) s.
Proof. exact (fun H => H). Qed.
Lemma keep_when b (m : M S unit) s : (b = true -> keeps m s) -> keeps (when b m) s.
Proof. destruct b; [intros H; by apply H|intros _; apply (keep_ret tt)]. Qed.
Lemma keeps_if {A} (b : bool) (m1 m2 : M S A) s :
  (b = true -> keeps m1 s) -> (b = false -> keeps m2 s) -> keeps (if b then m1 else m2) s.
Proof. destruct b; intros H1 H2; [by apply H1|by apply H2]. Qed.
Lemma keep_lift {A B} (o : option A) (k : A -> M S B) s :
  (inv s -> exists a, o = Some a /\ keeps (k a) s) -> keeps (lift o ≫= k) s.
Proof. intros H Hi. destruct (H Hi) as (a & -> & Hk). by apply Hk. Qed.
Lemma keeps_inv {A} (m : M S A) s : (inv s -> keeps m s) -> keeps m s.
Proof. intros H Hi. by apply H. Qed.
End Keeps.

(** ** Traces *)
(** Whether the trace ends on a secured link, by the messages the link's callbacks post. *)
Definition link_step (secure : bool) (e : rmc_event) : bool :=
  match e with
  | Message type value =>
      if negb (type =? MSG_BLE_STATE) then secure
      else if value =? RMC_MSG_BLE_SEC_CONNECTED then true
      else if (value =? RMC_MSG_BLE_USER_DISCONNECTED) || (value =? RMC_MSG_BLE_NON_USER_DISCONNECTED) then false
      else secure
  | _ => secure
  end.
Definition secured (t : list rmc_event) : bool := fold_left link_step t false.
Definition reports_secured (t : list rmc_event) : Prop :=
  forall before attr data err after, t = before ++ HidNotify attr data err :: after -> secured before = true.
Definition message_ok (e : rmc_event) : Prop :=
  match e with Message type value => type <> MSG_AUDIO_INPUT /\ (type = MSG_BLE_STATE -> 0 <= value < RMC_NUM_MSGS) | _ => True end.
Definition is_report (e : rmc_event) : bool := match e with HidNotify _ _ _ => true | _ => false end.

Lemma secured_app t e : secured (t ++ [e]) = link_step (secured t) e.
Proof. unfold secured. by rewrite fold_left_app. Qed.
Lemma reports_secured_app t e :
  reports_secured t -> (is_report e = true -> secured t = true) -> reports_secured (t ++ [e]).
Proof.
  intros H He before attr data err after Heq.
  destruct after as [|x after _] using rev_ind.
  - apply app_inj_tail in Heq as [-> ->]. by apply He.
  - rewrite app_comm_cons, app_assoc in Heq. apply app_inj_tail in Heq as [-> _]. by eapply H.
Qed.

(** ** The application in its environment *)
Inductive app_input :=
| InMsg (type value : Z) (pcm : list Z)      (* the main loop takes a message *)
| InTimer (id : Z)                           (* a delayed work runs *)
| InKey (key_value : Z)                      (* the input manager reports a key *)
| InConnected (err : Z) | InDisconnected (reason : Z) | InSecurity | InReady (err : Z)
| InCcc (handle value : Z) | InChannel.

Section Runs.
Context (host : list rmc_event -> Z) (stored_addr : list rmc_event -> option (list Z)).
Context (acts_key_maps : list (Z * Z * Z)) (undirected_reconn : bool).
Context (encode_init_func : Z -> Z) (encode_func : list Z -> list Z).

Definition run (i : app_input) : M rmc unit :=
  match i with
  | InMsg type value pcm => handle_msg host stored_addr acts_key_maps undirected_reconn encode_init_func encode_func type value pcm
  | InTimer id => check_rmc_timer id
  | InKey key_value => _system_key_event_cb host acts_key_maps key_value
  | InConnected err => connected host err
  | InDisconnected reason => disconnected reason
  | InSecurity => security_changed host stored_addr acts_key_maps undirected_reconn
  | InReady err => bt_ready host stored_addr acts_key_maps undirected_reconn err
  | InCcc handle value => hid_ccc_changed handle value
  | InChannel => hid_app_remote_report_channel_enable
  end.
(** Of the application's own messages only posted ones arrive; key and update messages come
    from other threads, and voice buffers, of at most 640 bytes, once a recording was started. *)
Definition enabled (i : app_input) (s : rmc) : Prop :=
  match i with
  | InMsg type value pcm =>
      type = MSG_KEY_INPUT \/ type = MSG_OTA_EVENT \/ Message type value ∈ log s \/
      type = MSG_AUDIO_INPUT /\ Recording true ∈ log s /\ Z.of_nat (length pcm) <= 320
  | InTimer id => exists ms, TimerStart id ms ∈ log s
  | _ => True
  end.
Inductive reachable : rmc -> Prop :=
| reach_start s : app_start host rmc_zero = Some (true, s) -> reachable s
| reach_step s i s' : reachable s -> enabled i s -> run i s = Some (tt, s') -> reachable s'.
End Runs.

(** ** The invariant *)
(** What the application needs of the encoder: frames of [n] samples become [w] words, and a
    buffer of 640 bytes of samples becomes at most the 80 bytes of the output buffer. *)
Record encoder_fits (encode_init_func : Z -> Z) (encode_func : list Z -> list Z) (n w : Z) : Prop := {
  ef_init : encode_init_func 10 = n;
  ef_pos : 0 < n;
  ef_words : forall frame, Z.of_nat (length frame) = n -> Z.of_nat (length (encode_func frame)) = w;
  ef_room : 2 * w * (320 / n) <= 80
}.
Record cb_ok (c : hid_app_cb_t) : Prop := {
  co_reconn : 0 <= reconn_times c <= MAX_RECONN_TIMES;
  co_flag : rmc_security_ready_flag c = 0 \/ rmc_security_ready_flag c = 1
}.
Record rmc_ok (n : Z) (s : rmc) : Prop := {
  ro_status : 0 <= rmc_status s < 3;
  ro_cb : cb_ok (hid_app_cb s);
  ro_buffer : length (encode_out_buffer s) = 80%nat;
  ro_codec : codec (audio_cb s) = 10;
  ro_voice : Recording true ∈ log s -> truthy (encoder_init_flag (audio_cb s)) = true \/ sample_len (audio_cb s) = n;
  ro_secure : rmc_security_ready_flag (hid_app_cb s) = 1 -> secured (log s) = true;
  ro_reports : reports_secured (log s);
  ro_messages : Forall message_ok (log s)
}.

Section Ok.
Context (host : list rmc_event -> Z) (stored_addr : list rmc_event -> option (list Z)).
Context (acts_key_maps : list (Z * Z * Z)) (undirected_reconn : bool).
Context (encode_init_func : Z -> Z) (encode_func : list Z -> list Z) (n w : Z).
Hypothesis fits : encoder_fits encode_init_func encode_func n w.
#[local] Abbreviation ok := (rmc_ok n).
#[local] Abbreviation K := (keeps (rmc_ok n)).

(** An event that is neither a report, a message about the link's security nor a recording. *)
Definition benign (e : rmc_event) : Prop :=
  is_report e = false /\ message_ok e /\ (forall b, link_step b e = b) /\ e <> Recording true.
Lemma ok_emit e s :
  (is_report e = true -> secured (log s) = true) -> message_ok e -> (forall b, link_step b e = b) -> e <> Recording true ->
  K (emit e) s.
Proof.
  intros Hr Hm Hl Hn. apply keeps_modify. destruct s as [? ? ? ? ? ? ? ? ? ? ? ? ? ? ? ? t]. intros [].
  split; try done; cbn -[secured]; cbn -[secured] in *.
  - intros [H|H%list_elem_of_singleton]%elem_of_app; [auto|done].
  - intros H. rewrite secured_app, Hl. auto.
  - by apply reports_secured_app.
  - apply Forall_app. auto.
Qed.
Lemma k_emit e s : benign e -> K (emit e) s.
Proof. intros (Hr & Hm & Hl & Hn). apply ok_emit; try done. by rewrite Hr. Qed.
Lemma k_call e s : (forall z, benign (e z)) -> K (call host e) s.
Proof.
  intros He. unfold call. apply keeps_get. apply keep_bind; [by apply k_emit|]. intros. apply keep_ret.
Qed.
Lemma k_upd_cb f s :
  (forall c, cb_ok c -> cb_ok (f c) /\ (rmc_security_ready_flag (f c) = 1 -> rmc_security_ready_flag c = 1)) ->
  K (upd_cb f) s.
Proof.
  intros Hf. apply keeps_modify. intros []. destruct (Hf _ ro_cb0) as [Hc Hs]. split; try done. cbn. auto.
Qed.
Lemma k_get_cb {A} (k : hid_app_cb_t -> M rmc A) s : K (k (hid_app_cb s)) s -> K (get_cb ≫= k) s.
Proof. exact (fun H => H). Qed.
Lemma k_upd_audio f s :
  (forall a, codec (f a) = codec a /\
     (truthy (encoder_init_flag a) = true \/ sample_len a = n -> truthy (encoder_init_flag (f a)) = true \/ sample_len (f a) = n)) ->
  K (upd_audio f) s.
Proof.
  intros Hf. apply keeps_modify. intros []. destruct (Hf (audio_cb s)) as [Hc Hs].
  split; try done; cbn; [by rewrite Hc|auto].
Qed.

Ltac benign := split; [done|split; [cbn; first [done|split; [discriminate|first [done|intros; lia|intros; discriminate]]]|split; [by intros []|done]]].
Ltac keep1 :=
  lazymatch goal with
  | |- keeps _ (mret _) _ => apply keep_ret
  | |- keeps _ (emit _) _ => apply k_emit; benign
  | |- keeps _ (call _ _) _ => apply k_call; intros; benign
  | |- keeps _ (get ≫= _) _ => apply keeps_get
  | |- keeps _ (get_cb ≫= _) _ => apply k_get_cb
  | |- keeps _ (when _ _) _ => apply keep_when; intros
  | |- keeps _ (if _ then _ else _) _ => apply keeps_if; intros
  | |- keeps _ (upd_cb _) _ => apply k_upd_cb; intros ? []; split; [split; cbn; auto|cbn; auto]; try done
  | |- keeps _ (upd_audio _) _ => apply k_upd_audio; intros ?; split; [done|cbn; auto]
  | |- keeps _ (modify _) _ => apply keeps_modify; intros []; by split
  | |- keeps _ (_ ≫= _) _ => apply keep_bind; [|intros ? ?]
  | |- keeps _ _ _ => solve [eauto with rmc]
  end; cbv beta.
Ltac keep := repeat keep1.
#[local] Hint Constants Opaque : rmc.

Lemma k_timer_start id s : 0 <= id < 7 -> K (rmc_timer_start id) s.
Proof.
  intros Hid. apply keep_lift. intros _. destruct (rd_in_bound rmcTimeoutValue id) as [ms ->]; [done|].
  exists ms. split; [done|]. keep.
Qed.
Lemma k_timer_stop id s : 0 <= id < 7 -> K (rmc_timer_stop id) s.
Proof.
  intros Hid. apply keep_lift. intros _. destruct (rd_in_bound rmcTimeoutValue id) as [ms ->]; [done|].
  exists ms. split; [done|]. keep.
Qed.
#[local] Hint Extern 1 (keeps _ (rmc_timer_start _) _) => (apply k_timer_start; done) : rmc.
#[local] Hint Extern 1 (keeps _ (rmc_timer_stop _) _) => (apply k_timer_stop; done) : rmc.
Lemma k_pair_led st s : K (pair_led_indication st) s.
Proof. unfold pair_led_indication. keep. Qed.
Lemma k_leave_pairing led s : K (leave_pairing led) s.
Proof. unfold leave_pairing, pair_led_indication. keep. Qed.
#[local] Hint Resolve k_pair_led k_leave_pairing : rmc.
Lemma k_send_input_report id data s :
  rmc_security_ready_flag (hid_app_cb s) = 1 -> K (hid_send_input_report host id data) s.
Proof.
  intros Hf. unfold hid_send_input_report. apply keeps_get. apply keeps_if; intros _; [|keep].
  unfold bt_gatt_notify, call. apply keeps_get, keep_bind; [|intros; keep].
  apply keeps_inv. intros Hok. apply ok_emit; try done. intros _. by apply (ro_secure _ _ Hok).
Qed.
Lemma k_link_ready {A} (k : bool -> M rmc A) s :
  (forall b : bool, (b = true -> rmc_security_ready_flag (hid_app_cb s) = 1) -> K (k b) s) -> K (link_ready ≫= k) s.
Proof.
  intros H Hok. apply (H (pconn (hid_app_cb s) && truthy (rmc_security_ready_flag (hid_app_cb s)))); [|done].
  intros [_ Hf]%andb_true_iff. by destruct (co_flag _ (ro_cb _ _ Hok)) as [E|E]; rewrite E in *.
Qed.
Lemma k_voice_report data s : K (hid_app_voice_report_event host data) s.
Proof. apply k_link_ready. intros b Hb. keep. by apply k_send_input_report, Hb. Qed.
Lemma k_remote_report button s : K (hid_app_remote_report_event host button) s.
Proof. apply k_link_ready. intros b Hb. keep. by apply k_send_input_report, Hb. Qed.
#[local] Hint Resolve k_voice_report k_remote_report : rmc.

Lemma k_working {A} (k : bool -> M rmc A) s : (forall b, K (k b) s) -> K (working ≫= k) s.
Proof. intros H. exact (H _). Qed.
Lemma k_ir key s : K (send_ir_keycode host acts_key_maps key) s.
Proof. unfold send_ir_keycode. keep1; [keep|]. apply k_working. intros b. keep. Qed.
Lemma k_ble key s : K (send_ble_keycode host acts_key_maps key) s.
Proof. unfold send_ble_keycode. apply k_working. intros b. keep. Qed.
#[local] Hint Resolve k_ir k_ble : rmc.
Lemma k_pending s : K (send_pending_keycode host acts_key_maps) s.
Proof. unfold send_pending_keycode. keep. Qed.
#[local] Hint Resolve k_pending : rmc.

(** ** Voice *)
Lemma k_send_flag button clear s :
  (forall a, codec (clear a) = codec a /\ encoder_init_flag (clear a) = encoder_init_flag a /\ sample_len (clear a) = sample_len a) ->
  K (audio_send_flag host button clear) s.
Proof.
  intros Hc. unfold audio_send_flag. keep. apply k_upd_audio. intros x. by destruct (Hc x) as (-> & -> & ->).
Qed.
Lemma k_start_flag s : K (audio_send_start_flag host encode_init_func) s.
Proof.
  unfold audio_send_start_flag. keep1. apply keep_bind; [|intros; keep; by apply k_send_flag].
  keep1. keep1; [keep|]. apply keeps_modify. intros []. split; try done. cbn. intros _. right.
  rewrite ro_codec0. apply fits.
Qed.
Lemma k_stop_flag s : K (audio_send_stop_flag host) s.
Proof. unfold audio_send_stop_flag. keep. by apply k_send_flag. Qed.
#[local] Hint Resolve k_start_flag k_stop_flag : rmc.
Lemma k_drop s : K audio_need_drop_buffer s.
Proof. unfold audio_need_drop_buffer. keep. Qed.
#[local] Hint Resolve k_drop : rmc.

(** The bytes that whole frames at the start of the samples encode to. *)
Fixpoint encoded (times : nat) (pcm : list Z) : list Z :=
  match times with
  | O => []
  | S times => (encode_func (take (Z.to_nat n) pcm) ≫= le16) ++ encoded times (drop (Z.to_nat n) pcm)
  end.
Lemma length_le16s ws : Z.of_nat (length (ws ≫= le16)) = 2 * Z.of_nat (length ws).
Proof. induction ws as [|x ws IH]; [done|]. rewrite bind_cons, length_app. cbn [length le16]. lia. Qed.
Lemma frame_words pcm : n <= Z.of_nat (length pcm) -> Z.of_nat (length (encode_func (take (Z.to_nat n) pcm))) = w.
Proof. intros H. apply fits. rewrite length_take. pose proof (ef_pos _ _ _ _ fits). lia. Qed.
Lemma length_encoded times pcm :
  n * Z.of_nat times <= Z.of_nat (length pcm) -> Z.of_nat (length (encoded times pcm)) = 2 * w * Z.of_nat times.
Proof.
  pose proof (ef_pos _ _ _ _ fits). revert pcm. induction times as [|times IH]; intros pcm Hl; cbn [encoded]; [cbn; lia|].
  rewrite length_app, Nat2Z.inj_add, length_le16s, frame_words, IH; [lia| |nia]. rewrite length_drop. nia.
Qed.
Lemma encode_loop_ok times pcm off out_len buf :
  length buf = 80%nat -> n * Z.of_nat times <= Z.of_nat (length pcm) -> 0 <= off -> off + 2 * w * Z.of_nat times <= 80 ->
  encode_loop encode_func times n pcm off out_len buf
  = Some (if Nat.eqb times 0 then out_len else w,
          take (Z.to_nat off) buf ++ encoded times pcm ++ drop (Z.to_nat off + length (encoded times pcm)) buf).
Proof.
  pose proof (ef_pos _ _ _ _ fits) as Hn.
  revert pcm off out_len buf. induction times as [|times IH]; intros pcm off out_len buf Hb Hl Ho Hr; cbn [encode_loop encoded Nat.eqb].
  { cbn [length app]. by rewrite Nat.add_0_r, take_drop. }
  assert (Hw : n <= Z.of_nat (length pcm)) by nia. pose proof (frame_words pcm Hw) as Hf.
  case_cmp; [lia|]. case_cmp; [lia|]. cbn [orb]. unfold store_words.
  pose proof (length_le16s (encode_func (take (Z.to_nat n) pcm))) as Hbs. case_cmp; [nia|]. cbn [mbind option_bind]. rewrite Hf.
  set (bs := encode_func (take (Z.to_nat n) pcm) ≫= le16) in *.
  assert (Hbn : length bs = Z.to_nat (2 * w)) by lia.
  rewrite IH; [| |rewrite length_drop; nia|lia|nia].
  2: { rewrite !length_app, length_take, length_drop, Hb. lia. }
  f_equal. f_equal; [by destruct times|].
  replace (Z.to_nat (off + 2 * w)) with (Z.to_nat off + length bs)%nat by lia.
  rewrite (app_assoc _ bs). rewrite take_app_length' by (rewrite length_app, length_take; lia).
  rewrite drop_app_ge by (rewrite length_app, length_take; lia).
  rewrite drop_drop, <-!app_assoc, !length_app, length_take. do 4 f_equal. lia.
Qed.

Definition frames (pcm : list Z) : Z := Z.of_nat (length pcm) / n.
Lemma frames_fit pcm (times := u8 (frames pcm)) : Z.of_nat (length pcm) <= 320 ->
  0 <= times /\ n * times <= Z.of_nat (length pcm) /\ 0 <= 2 * w * times <= 80.
Proof.
  intros Hl. pose proof (ef_pos _ _ _ _ fits) as Hn. pose proof (ef_room _ _ _ _ fits) as Hr.
  assert (Hw : 0 <= w).
  { rewrite <-(ef_words _ _ _ _ fits (replicate (Z.to_nat n) 0)); [lia|]. rewrite length_replicate. lia. }
  assert (Hf : 0 <= frames pcm <= 320 / n) by (unfold frames; split; [apply Z.div_pos|apply Z.div_le_mono]; lia).
  assert (Ht : 0 <= times <= frames pcm).
  { unfold times, u8. pose proof (Z.mod_le (frames pcm) (2 ^ 8)). pose proof (Z.mod_pos_bound (frames pcm) (2 ^ 8)). lia. }
  assert (n * frames pcm <= Z.of_nat (length pcm)) by (unfold frames; apply Z.mul_div_le; lia).
  split; [lia|]. split; nia.
Qed.
(** The whole buffer is encoded, frame by frame, to the start of the output buffer. *)
Lemma audio_encode_eq pcm s (times := u8 (frames pcm)) :
  sample_len (audio_cb s) = n -> length (encode_out_buffer s) = 80%nat -> Z.of_nat (length pcm) <= 320 ->
  let bytes := encoded (Z.to_nat times) pcm in
  audio_encode encode_func pcm s
  = Some (Z.of_nat (length bytes), s <| encode_out_buffer := bytes ++ drop (length bytes) (encode_out_buffer s) |>).
Proof.
  intros Hs Hb Hl bytes. destruct (frames_fit pcm Hl) as (Ht & Hn & Hw). fold times in Ht, Hn, Hw.
  pose proof (ef_pos _ _ _ _ fits) as Hpos. unfold audio_encode. munfold. rewrite Hs.
  replace (n =? 0) with false by (symmetry; apply Z.eqb_neq; lia).
  rewrite u16_small by lia. rewrite Z.quot_div_nonneg, (Z.mul_comm 2), Z.div_mul_cancel_r by lia. fold (frames pcm) times.
  rewrite encode_loop_ok by (rewrite ?Z2Nat.id; lia).
  assert (Hlen : Z.of_nat (length bytes) = 2 * w * times) by (unfold bytes; rewrite length_encoded; rewrite Z2Nat.id; lia).
  fold bytes. cbn [mbind option_bind]. rewrite Hlen. f_equal. f_equal.
  destruct (Nat.eqb_spec (Z.to_nat times) 0) as [Hz|Hz].
  - replace times with 0 by lia. change (u16 0) with 0. rewrite !Z.mul_0_l, !Z.mul_0_r. done.
  - rewrite (u16_small w) by nia. rewrite u16_small by nia. lia.
Qed.
Lemma k_send_frames fuel k out_len s :
  0 <= k -> out_len <= 80 -> out_len - 20 * k <= 20 * Z.of_nat fuel -> K (send_frames host fuel (20 * k) out_len) s.
Proof.
  revert k s. induction fuel as [|fuel IH]; intros k s Hk Ho Hf; cbn [send_frames].
  { case_cmp; [lia|keep]. }
  keep; [|replace (20 * k + 20) with (20 * (k + 1)) by lia; apply IH; lia].
  intros Hok. exfalso. pose proof (ro_buffer _ _ Hok).
  revert H0. rewrite Nat.ltb_lt, length_take, length_drop. apply Z.ltb_lt in H. lia.
Qed.
Lemma ends_and {S A} (m : M S A) s P Q : ends m s P -> ends m s Q -> ends m s (fun a s' => P a s' /\ Q a s').
Proof. unfold ends. by destruct (m s) as [[a s']|]. Qed.
(** A report changes nothing but the trace. *)
Lemma remote_report_frame button s (Q : Z -> rmc -> Prop) :
  (forall r t, Q r (s <| log := t |>)) -> ends (hid_app_remote_report_event host button) s Q.
Proof.
  intros HQ. assert (Hs : forall r, Q r s) by (intros r; specialize (HQ r (log s)); by destruct s).
  unfold hid_app_remote_report_event, link_ready, get_cb. hoare. destruct (_ && _); hoare; [|apply Hs].
  unfold hid_send_input_report. hoare. destruct (_ && _); [|apply Hs]. apply HQ.
Qed.
Lemma start_flag_len s :
  Recording true ∈ log s -> rmc_ok n s -> ends (audio_send_start_flag host encode_init_func) s (fun _ s' => sample_len (audio_cb s') = n).
Proof.
  intros Hr Hok. unfold audio_send_start_flag. hoare. apply ends_mono with (P := fun _ s' => sample_len (audio_cb s') = n).
  - apply ends_when; intros He.
    + hoare. cbn. rewrite (ro_codec _ _ Hok). apply fits.
    + destruct (ro_voice _ _ Hok Hr) as [H|H]; [congruence|done].
  - intros [] s1 Hs1. hoare. apply ends_when; intros _; [|done]. unfold audio_send_flag. hoare.
    apply remote_report_frame. intros r t. destruct (negb _); hoare; [done|].
    apply remote_report_frame. intros r' t'. by apply ends_when.
Qed.

Lemma drop_len s : sample_len (audio_cb s) = n -> ends audio_need_drop_buffer s (fun _ s' => sample_len (audio_cb s') = n).
Proof. intros Hn. unfold audio_need_drop_buffer. hoare. by destruct (truthy _). Qed.
Lemma k_encode pcm s :
  sample_len (audio_cb s) = n -> Z.of_nat (length pcm) <= 320 -> rmc_ok n s ->
  ends (audio_encode encode_func pcm) s (fun out_len s' => rmc_ok n s' /\ out_len <= 80).
Proof.
  intros Hs Hl Hok. unfold ends. rewrite audio_encode_eq by (done || apply Hok).
  destruct (frames_fit pcm Hl) as (Ht & Hn & Hw).
  pose proof (length_encoded (Z.to_nat (u8 (frames pcm))) pcm) as He. rewrite Z2Nat.id in He by done. specialize (He Hn).
  split; [|lia]. destruct Hok. split; try done. cbn. rewrite length_app, length_drop, ro_buffer0. lia.
Qed.
(** A buffer arrives only after a recording was started. *)
Lemma k_audio pcm s :
  Recording true ∈ log s -> Z.of_nat (length pcm) <= 320 ->
  K (system_audio_event_handle host encode_init_func encode_func pcm) s.
Proof.
  intros Hr Hl Hok. unfold system_audio_event_handle, rmc_sm_state_is_activing. hoare.
  destruct (negb _); [by apply k_emit|]. hoare.
  eapply ends_mono; [apply ends_and; [by apply k_start_flag|by apply start_flag_len]|].
  intros [] s1 [Hok1 Hn1]. hoare.
  eapply ends_mono; [apply ends_and; [by apply k_drop|by apply drop_len]|].
  intros b s2 [Hok2 Hn2]. destruct b; [by apply k_emit|]. hoare.
  eapply ends_mono; [by apply k_encode|]. intros out_len s3 [Hok3 Ho]. revert Hok3.
  fold (K (pcm_buffer_free;; send_frames host 4 0 out_len;; audio_send_stop_flag host) s3). unfold pcm_buffer_free. keep.
  apply (k_send_frames 4 0); lia.
Qed.
Lemma k_start_capture s : K start_audio_capture s.
Proof.
  unfold start_audio_capture. keep1. keep1; [keep|]. intros Hok. hoare. unfold emit. hoare.
  destruct s as [? ? ? ? ? ? ? ? ? ? ? ? ? ? ? ? t], Hok. split; try done; cbn -[secured]; cbn -[secured] in *; auto.
  - intros Hf. rewrite secured_app. auto.
  - by apply reports_secured_app.
  - apply Forall_app. split; [done|by repeat constructor].
Qed.
Lemma k_stop_capture s : K stop_audio_capture s.
Proof. unfold stop_audio_capture. keep. Qed.
#[local] Hint Resolve k_start_capture k_stop_capture : rmc.

(** ** Battery *)
Lemma k_very_low s : K (very_low_power_handler host) s.
Proof. unfold very_low_power_handler. keep. Qed.
#[local] Hint Resolve k_very_low : rmc.
Lemma k_battery s : K (update_battry_value host) s.
Proof. unfold update_battry_value. keep. Qed.
#[local] Hint Resolve k_battery : rmc.

(** ** The state machine *)
Lemma k_is_paired s : K (is_paired stored_addr) s.
Proof. unfold is_paired. keep1. keep1; [keep|]. destruct (stored_addr _); keep. Qed.
#[local] Hint Resolve k_is_paired : rmc.
Lemma k_start_adv s : K (rmc_sm_act_start_adv host) s.
Proof. unfold rmc_sm_act_start_adv. keep. Qed.
Lemma k_reconnect directed s : reconn_times (hid_app_cb s) < MAX_RECONN_TIMES ->
  K (emit AdvStop;; err ← call host (AdvStart directed);
     if truthy err then mret tt
     else upd_cb (fun c => c <| reconn_times := u8 (reconn_times c + 1) |>);; rmc_timer_start ID_DIRECT_ADV_TIMEOUT) s.
Proof.
  intros Hr Hok. hoare.
  eapply ends_mono; [apply ends_and with (Q := fun _ s' => hid_app_cb s' = hid_app_cb s); [by apply k_emit|done]|].
  intros [] s1 [Hok1 Hs1]. hoare.
  eapply ends_mono; [apply ends_and with (Q := fun _ s' => hid_app_cb s' = hid_app_cb s1); [apply k_call; [intros; benign|done]|done]|].
  intros err s2 [Hok2 Hs2]. destruct (truthy err); [done|]. revert Hok2. fold (K (upd_cb (fun c => c <| reconn_times := u8 (reconn_times c + 1) |>);; rmc_timer_start ID_DIRECT_ADV_TIMEOUT) s2).
  apply keep_bind; [|intros; keep]. apply keeps_modify. rewrite <-Hs1, <-Hs2 in Hr. intros []. split; try done.
  destruct ro_cb0. split; [|done]. cbn. unfold MAX_RECONN_TIMES in *. rewrite u8_small; lia.
Qed.
Lemma k_start_direct_adv exec s :
  (forall evt s', evt = RMC_MSG_RECONN_FAIL \/ evt = RMC_MSG_CLEAR_PIAR_KEY -> K (exec evt) s') ->
  K (rmc_sm_act_start_direct_adv host stored_addr undirected_reconn exec) s.
Proof.
  intros Hx. unfold rmc_sm_act_start_direct_adv. keep1; [keep|]. keep1.
  keep1; [apply andb_true_iff in H as [_ Ht%Z.ltb_lt]; by apply k_reconnect|].
  apply keep_bind; [|intros; keep; by (apply Hx; auto)].
  apply k_upd_cb. intros c []. split; [|done]. split; [by cbn|done].
Qed.
Lemma k_stop_adv s : K rmc_sm_act_stop_adv s.
Proof. unfold rmc_sm_act_stop_adv. keep. Qed.
Lemma k_disconnect s : K rmc_sm_act_disconnect_conn s.
Proof. unfold rmc_sm_act_disconnect_conn. keep. Qed.
#[local] Hint Resolve k_start_adv k_stop_adv k_disconnect : rmc.

Lemma rd_Forall {A} (P : A -> Prop) l i x : Forall P l -> rd l i = Some x -> P x.
Proof. unfold rd. intros Hl. case_cmp; [|done]. by apply Forall_lookup_1. Qed.
Definition row_ok (row : list (Z * Z)) : Prop := length row = 14%nat /\ Forall (fun e => 0 <= e.1 < 3 /\ 0 <= e.2 < 7) row.
#[local] Instance row_ok_dec row : Decision (row_ok row).
Proof. unfold row_ok. apply _. Defined.
Lemma table_lookup st evt : 0 <= st < 3 -> 0 <= evt < RMC_NUM_MSGS ->
  exists row next action, rd rmc_State_table st = Some row /\ rd row evt = Some (next, action) /\ 0 <= next < 3 /\ 0 <= action < 7.
Proof.
  intros Hs He. assert (Ht : Forall row_ok rmc_State_table) by (apply (bool_decide_unpack _); by vm_compute).
  destruct (rd_in_bound rmc_State_table st Hs) as [row Hrow].
  destruct (rd_Forall _ _ _ _ Ht Hrow) as [Hl Hr].
  destruct (rd_in_bound row evt) as [[next action] Hrd]; [by rewrite Hl|].
  destruct (rd_Forall _ _ _ _ Hr Hrd). by exists row, next, action.
Qed.
Lemma k_action exec action s :
  (forall evt s', evt = RMC_MSG_RECONN_FAIL \/ evt = RMC_MSG_CLEAR_PIAR_KEY -> K (exec evt) s') -> 0 <= action < 7 ->
  K (act_func ← lift (rd (rmc_act_set host stored_addr acts_key_maps undirected_reconn exec) action); act_func) s.
Proof.
  intros Hx Ha. apply keep_lift. intros _.
  destruct (rd_in_bound (rmc_act_set host stored_addr acts_key_maps undirected_reconn exec) action Ha) as [act Hact].
  exists act. split; [done|]. revert s. refine (rd_Forall (fun act => forall s, K act s) _ _ _ _ Hact).
  unfold rmc_act_set. repeat (apply Forall_cons; split; [intros s|]); [| | | | | | |apply Forall_nil]; try solve [eauto with rmc].
  - apply keep_ret.
  - by apply k_start_direct_adv.
  - apply k_pending.
  - apply k_leave_pairing.
Qed.
Lemma k_sm_step exec depth evt s :
  (forall evt s', evt = RMC_MSG_RECONN_FAIL \/ evt = RMC_MSG_CLEAR_PIAR_KEY ->
     K (sm_execute host stored_addr acts_key_maps undirected_reconn depth evt) s') ->
  exec = sm_execute host stored_addr acts_key_maps undirected_reconn (S depth) -> 0 <= evt < RMC_NUM_MSGS -> K (exec evt) s.
Proof.
  intros Hx -> He. cbn [sm_execute]. keep1. apply keeps_inv. intros Hok.
  destruct (table_lookup _ _ (ro_status _ _ Hok) He) as (row & next & action & Hrow & Hrd & Hn & Ha).
  rewrite Hrow. apply keep_lift. intros _. exists row. split; [done|]. rewrite Hrd.
  apply keep_lift. intros _. eexists. split; [done|]. cbv beta iota.
  apply keep_bind; [|intros; by apply k_action]. apply keeps_modify. intros []. by split.
Qed.
(** The actions run by RECONN_FAIL and CLEAR_PIAR_KEY do not run the machine again. *)
Lemma inner_action st evt row next action :
  evt = RMC_MSG_RECONN_FAIL \/ evt = RMC_MSG_CLEAR_PIAR_KEY ->
  rd rmc_State_table st = Some row -> rd row evt = Some (next, action) -> action = RMC_SM_ACT_NONE \/ action = RMC_SM_ACT_ADV.
Proof.
  intros He Hr. revert next action.
  refine (rd_Forall (fun row => forall next action, rd row evt = Some (next, action) -> action = RMC_SM_ACT_NONE \/ action = RMC_SM_ACT_ADV) _ _ _ _ Hr).
  unfold rmc_State_table. rewrite !Forall_cons. split_and!; [intros next action..|by apply Forall_nil];
    destruct He as [-> | ->]; intros [= <- <-]; auto.
Qed.
Lemma k_sm evt s : 0 <= evt < RMC_NUM_MSGS -> K (rmc_sm_execute host stored_addr acts_key_maps undirected_reconn evt) s.
Proof.
  apply (k_sm_step _ 1); [|done]. clear evt s. intros evt s He. unfold rmc_sm_execute. cbn [sm_execute]. keep1.
  apply keeps_inv. intros Hok.
  assert (Hb : 0 <= evt < RMC_NUM_MSGS) by (destruct He as [-> | ->]; done).
  destruct (table_lookup _ _ (ro_status _ _ Hok) Hb) as (row & next & action & Hrow & Hrd & Hn & Ha).
  pose proof (inner_action _ _ _ _ _ He Hrow Hrd) as Hact.
  rewrite Hrow. apply keep_lift. intros _. exists row. split; [done|]. rewrite Hrd.
  apply keep_lift. intros _. eexists. split; [done|]. cbv beta iota.
  apply keep_bind; [apply keeps_modify; intros []; by split|]. intros _ s'.
  destruct Hact as [-> | ->]; apply keep_lift; intros _; eexists; (split; [done|]); [apply keep_ret|apply k_start_adv].
Qed.
#[local] Hint Extern 1 (keeps _ (rmc_sm_execute _ _ _ _ _) _) => (apply k_sm; done) : rmc.

Lemma k_clear_pair s : K (rmc_clear_pair_info host) s.
Proof. unfold rmc_clear_pair_info, set_sd_data. keep. Qed.
#[local] Hint Resolve k_clear_pair : rmc.

(** ** Callbacks *)
Lemma k_connected err s : K (connected host err) s.
Proof. unfold connected. keep. Qed.
(** Callbacks that change the link's security and announce it in one go. *)
Lemma ok_link s s' es :
  rmc_ok n s -> rmc_status s' = rmc_status s -> encode_out_buffer s' = encode_out_buffer s -> audio_cb s' = audio_cb s ->
  log s' = log s ++ es -> cb_ok (hid_app_cb s') ->
  Forall message_ok es -> Forall (fun e => is_report e = false /\ e <> Recording true) es ->
  (rmc_security_ready_flag (hid_app_cb s') = 1 -> secured (log s ++ es) = true) -> rmc_ok n s'.
Proof.
  intros [] Hs Hb Ha Hl Hc Hm Hr Hf. split; rewrite ?Hs, ?Hb, ?Ha, ?Hl; auto.
  - intros [H|H]%elem_of_app; [auto|]. by destruct (proj1 (Forall_forall _ _) Hr _ H).
  - clear Hm Hf Hl. induction es as [|e es IH] using rev_ind; [by rewrite app_nil_r|].
    apply Forall_app in Hr as [Hr [[He _] _]%Forall_cons]. rewrite app_assoc. apply reports_secured_app; [auto|by rewrite He].
  - by apply Forall_app.
Qed.
Lemma k_disconnected reason s : K (disconnected reason) s.
Proof.
  unfold disconnected. keep1; [keep|]. keep1; [keep|]. keep1. keep1; [keep|]. intros Hok. hoare. unfold emit at 1. hoare.
  unfold rmc_timer_stop. hoare. eapply ends_lift; [reflexivity|]. unfold emit at 1. hoare. unfold upd_cb. hoare.
  match goal with |- ends ?m ?s2 _ => enough (rmc_ok n s2) as Hok2; [apply (keep_when ok); [intros; keep|exact Hok2]|] end.
  destruct s'1. eapply (ok_link _ _ [_; _] Hok); cbn -[secured]; try done.
  - by rewrite <-app_assoc.
  - destruct (ro_cb _ _ Hok). by split; [|left].
  - apply Forall_cons; split; [|by repeat constructor]. split; [done|]. intros _. by repeat case_match.
  - by repeat constructor.
Qed.
Lemma k_security s : K (security_changed host stored_addr acts_key_maps undirected_reconn) s.
Proof.
  unfold security_changed. keep1; [keep|]. keep1. keep1; [keep|]. apply keep_bind; [keep|]. intros ? s1 Hok. hoare.
  unfold upd_cb, emit. hoare. eapply (ok_link _ _ [_] Hok); cbn -[secured]; try done.
  - destruct (ro_cb _ _ Hok). by split; [|right].
  - by repeat constructor.
  - by repeat constructor.
  - intros _. by rewrite secured_app.
Qed.
Lemma k_bt_ready err s : K (bt_ready host stored_addr acts_key_maps undirected_reconn err) s.
Proof.
  unfold bt_ready. keep.
Qed.
Lemma k_channel s : K hid_app_remote_report_channel_enable s.
Proof. unfold hid_app_remote_report_channel_enable. keep. Qed.
Lemma k_ccc handle value s : K (hid_ccc_changed handle value) s.
Proof. unfold hid_ccc_changed, hid_set_ccc_table_value. keep. Qed.

(** ** Messages *)
Lemma k_ble_event evt s : 0 <= evt < RMC_NUM_MSGS -> K (system_ble_event_handle host stored_addr acts_key_maps undirected_reconn evt) s.
Proof.
  intros He. unfold system_ble_event_handle. apply keep_bind; [|intros; by apply k_sm].
  apply k_upd_cb. intros c []. split; [|done]. split; [by cbn|done].
Qed.
Lemma k_timer id s : K (system_app_timer_event_handle host stored_addr acts_key_maps undirected_reconn id) s.
Proof. unfold system_app_timer_event_handle, rmc_sm_state_is_activing. keep. Qed.
Lemma k_deliver event s : K (is_need_deliver_to_app host acts_key_maps encode_init_func event) s.
Proof. unfold is_need_deliver_to_app. keep1; [apply k_working; intros b; keep|]. keep. Qed.
#[local] Hint Resolve k_timer k_deliver : rmc.
Lemma k_input event s :
  K (system_input_event_handle host stored_addr acts_key_maps undirected_reconn encode_init_func event) s.
Proof. unfold system_input_event_handle. keep. Qed.
#[local] Hint Resolve k_input : rmc.
Lemma k_key_event key s : K (_system_key_event_cb host acts_key_maps key) s.
Proof. unfold _system_key_event_cb. keep. Qed.

(** ** Runs *)
#[local] Abbreviation reachable := (reachable host stored_addr acts_key_maps undirected_reconn encode_init_func encode_func).
#[local] Abbreviation run := (run host stored_addr acts_key_maps undirected_reconn encode_init_func encode_func).
Lemma k_enable s :
  K (emit (WakeLock true);; err ← call host BtEnable;
     if truthy err then emit (WakeLock false);; mret false else rmc_timer_start ID_NO_ACT_TIMEOUT;; mret true) s.
Proof. keep. Qed.
Lemma started_ok : ends (app_start host) rmc_zero (fun _ s => rmc_ok n s).
Proof.
  unfold app_start, system_app_init, rmc_sm_init, audio_init, upd_audio. hoare.
  eapply ends_mono; [apply k_battery|intros [] s1 Hok; exact (k_enable s1 Hok)].
  split; try done; cbn.
  - by split; [|left].
  - by intros ?%elem_of_nil.
  - by intros [] *.
Qed.
Lemma k_message type value pcm s :
  enabled (InMsg type value pcm) s ->
  K (handle_msg host stored_addr acts_key_maps undirected_reconn encode_init_func encode_func type value pcm) s.
Proof.
  intros He. apply keeps_inv. intros Hok. unfold handle_msg.
  keep1; [keep|]. keep1; [apply k_ble_event|keep1; [|keep]].
  - apply Z.eqb_eq in H0 as ->. destruct He as [He|[He|[He|[He _]]]]; try discriminate.
    by apply (proj2 (proj1 (Forall_forall _ _) (ro_messages _ _ Hok) _ He)).
  - apply Z.eqb_eq in H1 as ->. destruct He as [He|[He|[He|(_ & Hr & Hl)]]]; try discriminate.
    { by destruct (proj1 (Forall_forall _ _) (ro_messages _ _ Hok) _ He). }
    intros _. hoare. eapply ends_mono; [apply ends_and with (Q := fun _ s' => Recording true ∈ log s')|].
    + by apply k_timer_start.
    + unfold rmc_timer_start. hoare. eapply ends_lift; [reflexivity|]. apply elem_of_app. by left.
    + intros [] s1 [Hok1 Hr1]. by apply k_audio.
Qed.
Lemma input_ok i s : enabled i s -> K (run i) s.
Proof.
  destruct i; intros He; cbn [run].
  - by apply k_message.
  - unfold check_rmc_timer. keep.
  - apply k_key_event.
  - apply k_connected.
  - apply k_disconnected.
  - apply k_security.
  - apply k_bt_ready.
  - apply k_ccc.
  - apply k_channel.
Qed.
Lemma reachable_ok s : reachable s -> rmc_ok n s.
Proof.
  induction 1 as [s Hs|s i s' _ IH He Hrun].
  - pose proof started_ok as H. unfold ends in H. by rewrite Hs in H.
  - pose proof (input_ok i s He IH) as H. unfold ends in H. by rewrite Hrun in H.
Qed.
End Ok.

(** ** Properties *)
(** C12. A HID report - a key or a piece of voice - leaves the remote control only while its
    link is secured: in every run, every notification is preceded by the security callback's
    announcement with no loss of the link in between. *)
Theorem reports_only_when_secured host stored_addr acts_key_maps undirected_reconn encode_init_func encode_func n w s :
  encoder_fits encode_init_func encode_func n w ->
  reachable host stored_addr acts_key_maps undirected_reconn encode_init_func encode_func s ->
  reports_secured (log s).
Proof. intros Hf Hr. apply (ro_reports n). by eapply reachable_ok. Qed.

(** C3. The application never runs into undefined behaviour: in every state it can reach,
    whatever message, key, timer or callback comes next, its handler ends, with the state
    machine's state inside its table, at most three reconnections counted, and every message
    it has posted one its own loop accepts. *)
Theorem app_never_stuck host stored_addr acts_key_maps undirected_reconn encode_init_func encode_func n w s i :
  encoder_fits encode_init_func encode_func n w ->
  reachable host stored_addr acts_key_maps undirected_reconn encode_init_func encode_func s -> enabled i s ->
  exists s', run host stored_addr acts_key_maps undirected_reconn encode_init_func encode_func i s = Some (tt, s') /\
    0 <= rmc_status s' < 3 /\ 0 <= reconn_times (hid_app_cb s') <= MAX_RECONN_TIMES /\ Forall message_ok (log s').
Proof.
  intros Hf Hr He.
  assert (Hk : ends (run host stored_addr acts_key_maps undirected_reconn encode_init_func encode_func i) s (fun _ s' => rmc_ok n s'))
    by (eapply input_ok; [done..|by eapply reachable_ok]).
  apply ends_inv in Hk as ([] & s' & Hrun & []). exists s'. split; [done|]. split; [done|]. by split; [apply ro_cb0|].
Qed.

(** ** A run, for the witnesses *)
Definition demo_host (t : list rmc_event) : Z := 0.
Definition demo_addr (t : list rmc_event) : option (list Z) := None.
Definition demo_init (codec : Z) : Z := 80.
Definition demo_encode (frame : list Z) : list Z := take 10 frame.
Definition demo_run : app_input -> M rmc unit := run demo_host demo_addr ft_key_maps false demo_init demo_encode.
Lemma demo_fits : encoder_fits demo_init demo_encode 80 10.
Proof. split; try done. intros frame Hf. unfold demo_encode. rewrite length_take. lia. Qed.
Definition enabledb (i : app_input) (s : rmc) : bool :=
  match i with
  | InMsg type value pcm =>
      bool_decide (type = MSG_KEY_INPUT \/ type = MSG_OTA_EVENT \/ Message type value ∈ log s \/
                   type = MSG_AUDIO_INPUT /\ Recording true ∈ log s /\ Z.of_nat (length pcm) <= 320)
  | InTimer id => existsb (fun e => match e with TimerStart id' _ => id' =? id | _ => false end) (log s)
  | _ => true
  end.
Lemma enabledb_sound i s : enabledb i s = true -> enabled i s.
Proof.
  destruct i; cbn; try done; [by apply bool_decide_eq_true_1|].
  intros (e & He & H)%existsb_exists. destruct e; try done. apply Z.eqb_eq in H as ->. exists ms. by apply list_elem_of_In.
Qed.
Fixpoint demo_exec (ins : list app_input) (s : rmc) : option rmc :=
  match ins with
  | [] => Some s
  | i :: ins => if enabledb i s then r ← demo_run i s; demo_exec ins r.2 else None
  end.
Definition demo_reachable := reachable demo_host demo_addr ft_key_maps false demo_init demo_encode.
Lemma demo_exec_reachable ins s s' : demo_reachable s -> demo_exec ins s = Some s' -> demo_reachable s'.
Proof.
  revert s. induction ins as [|i ins IH]; intros s Hs; cbn [demo_exec]; [by intros [= <-]|].
  destruct (enabledb i s) eqn:He; [apply enabledb_sound in He|done]. cbn. destruct (demo_run i s) as [[[] s1]|] eqn:Hi; [|done]. apply IH. by eapply reach_step.
Qed.
(** A host connects, subscribes, and secures the link; a key is pressed. *)
Definition demo_inputs : list app_input :=
  [InReady 0; InConnected 0; InMsg MSG_BLE_STATE RMC_MSG_BLE_CONNECTED []; InCcc 18 1; InCcc 22 1; InCcc 26 1;
   InSecurity; InMsg MSG_BLE_STATE RMC_MSG_BLE_SEC_CONNECTED []; InMsg MSG_KEY_INPUT (KEY_TYPE_DOWN + 3) []].

Definition demo_start : rmc := default rmc_zero (snd <$> app_start demo_host rmc_zero).
Definition demo_state : rmc := default rmc_zero (demo_exec demo_inputs demo_start).
Lemma demo_state_reachable : demo_reachable demo_state.
Proof.
  apply (demo_exec_reachable demo_inputs demo_start); [by apply reach_start; vm_compute|by vm_compute].
Qed.

Lemma reports_only_when_secured_witness :
  reports_secured (log demo_state) /\ existsb is_report (log demo_state) = true.
Proof.
  split; [|by vm_compute].
  exact (reports_only_when_secured _ _ _ _ _ _ _ _ _ demo_fits demo_state_reachable).
Defined.
Lemma app_never_stuck_witness :
  exists s', demo_run (InDisconnected 0x13) demo_state = Some (tt, s') /\
    0 <= rmc_status s' < 3 /\ 0 <= reconn_times (hid_app_cb s') <= MAX_RECONN_TIMES /\ Forall message_ok (log s').
Proof.
  exact (app_never_stuck _ _ _ _ _ _ _ _ _ (InDisconnected 0x13) demo_fits demo_state_reachable I).
Defined.
