(* ===== verification/RmcUse.v ===== *)
(** * The remote control application in use

    What a user sees: a key reaches the host as a press and a release; a key pressed without
    a link is kept and reported when the link is secured; voice is reported byte for byte as
    the encoder produced it; a lost link is re-advertised three times and then given up. *)
From S2P Require Import Prelude Gatt Keys Rmc RmcSpec.

(** ** Reports *)
Definition report_bytes (button : Z) : list Z := [Z.land button 0xFF; Z.land (Z.shiftr button 8) 0xFF; 0].
(** Connected, secured, and subscribed to a report's notifications. *)
Definition online (s : rmc) : Prop :=
  rmc_status s = RMC_STATES_CONNECTED /\ pconn (hid_app_cb s) = true /\ rmc_security_ready_flag (hid_app_cb s) = 1.
Definition subscribed (handle : Z) (s : rmc) : Prop := hid_ccc_is_enabled (handle + 1) (hids_ccc_table s) = true.
(** What notifications of an attribute carried. *)
Definition payload (attr : Z) (t : list rmc_event) : list Z :=
  t ≫= (fun e => match e with HidNotify attr' data _ => if attr' =? attr then data else [] | _ => [] end).
Lemma payload_app attr t1 t2 : payload attr (t1 ++ t2) = payload attr t1 ++ payload attr t2.
Proof. apply bind_app. Qed.

Section Use.
Context (host : list rmc_event -> Z) (stored_addr : list rmc_event -> option (list Z)).
Context (acts_key_maps : list (Z * Z * Z)) (undirected_reconn : bool).
Context (encode_init_func : Z -> Z) (encode_func : list Z -> list Z).
#[local] Abbreviation handle_msg := (handle_msg host stored_addr acts_key_maps undirected_reconn encode_init_func encode_func).
#[local] Abbreviation ble_code := (acts_get_ble_keycode acts_key_maps).

Definition add_log (e : rmc_event) (s : rmc) : rmc := s <| log ::= (fun t => t ++ [e]) |>.

Lemma remote_report_online button s :
  online s -> subscribed HID_INPUT_REPORT_1_HDL s ->
  hid_app_remote_report_event host button s
  = Some (host (log s), add_log (HidNotify HID_INPUT_REPORT_1_HDL (report_bytes button) (host (log s))) s).
Proof.
  intros (_ & Hc & Hf) Hs. unfold hid_app_remote_report_event, link_ready, get_cb. munfold. rewrite Hc, Hf. cbn [andb truthy negb].
  change (truthy 1) with true. unfold hid_send_input_report. munfold. cbv beta iota zeta. unfold subscribed in Hs.
  change (hid_get_report_handle HID_REPORT_TYPE_INPUT HIDAPP_REMOTE_REPORT_ID) with HID_INPUT_REPORT_1_HDL.
  by rewrite Hs.
Qed.
Lemma voice_report_online data s :
  online s -> subscribed HID_INPUT_REPORT_2_HDL s ->
  hid_app_voice_report_event host data s
  = Some (host (log s), add_log (HidNotify HID_INPUT_REPORT_2_HDL data (host (log s))) s).
Proof.
  intros (_ & Hc & Hf) Hs. unfold hid_app_voice_report_event, link_ready, get_cb. munfold. rewrite Hc, Hf. cbn [andb truthy negb].
  change (truthy 1) with true. unfold hid_send_input_report. munfold. cbv beta iota zeta. unfold subscribed in Hs.
  change (hid_get_report_handle HID_REPORT_TYPE_INPUT HIDAPP_VOICE_REPORT_ID) with HID_INPUT_REPORT_2_HDL.
  by rewrite Hs.
Qed.

(** ** Keys *)
(** A key that is neither the voice key nor a combination. *)
Definition plain_key (code : Z) : Prop :=
  ble_code code <> KEY_RESERVED /\ ble_code code <> REMOTE_KEY_VOICE_COMMAND /\ is_comb_key (ble_code code) = false /\
  ble_code code <> REMOTE_COMB_KEY_HCI_MODE.
Lemma deliver_plain key s :
  plain_key (Z.land key 0xFFFF) -> pair_comb_key_timer_start s = 0 -> hci_mode_comb_key_timer_start s = 0 ->
  is_need_deliver_to_app host acts_key_maps encode_init_func key s = Some (true, s).
Proof.
  intros (_ & Hv & Hc & Hh) Hp Hm. unfold is_need_deliver_to_app.
  destruct (Z.eqb_spec (ble_code (Z.land key 0xFFFF)) REMOTE_KEY_VOICE_COMMAND); [done|]. rewrite Hc.
  destruct (Z.eqb_spec (ble_code (Z.land key 0xFFFF)) REMOTE_COMB_KEY_HCI_MODE); [done|].
  munfold. by rewrite Hp, Hm.
Qed.
Lemma input_key_sm s st : (rmc_status s = st) -> st = RMC_STATES_ADVERTISING \/ st = RMC_STATES_CONNECTED ->
  rmc_sm_execute host stored_addr acts_key_maps undirected_reconn RMC_MSG_INPUT_KEY s = Some (tt, s <| rmc_status := st |>).
Proof. intros Hs [-> | ->]; unfold rmc_sm_execute; cbn [sm_execute]; munfold; by rewrite Hs. Qed.

Definition press (code : Z) : Z := Z.lor KEY_TYPE_DOWN code.
Definition release (code : Z) : Z := Z.lor KEY_TYPE_UP code.
Lemma land_code t code : 0 <= code < 0x10000 -> Z.land t 0xFFFF = 0 -> Z.land (Z.lor t code) 0xFFFF = code.
Proof. intros Hc Ht. rewrite Z.land_lor_distr_l, Ht. change 0xFFFF with (Z.ones 16). rewrite Z.land_ones by lia. by apply Z.mod_small. Qed.
Lemma key_fields code : 0 <= code < 0x10000 ->
  (Z.land (press code) 0xFFFF = code /\ down (press code) = true) /\ (Z.land (release code) 0xFFFF = code /\ down (release code) = false).
Proof.
  intros Hc. assert (Hd : Z.testbit code 29 = false).
  { rewrite <-(Z.mod_small code (2 ^ 16)) by done. by apply Z.mod_pow2_bits_high. }
  unfold down, press, release, KEY_TYPE_DOWN. change 0x20000000 with (2 ^ 29). rewrite !land_pow2_truthy by done.
  rewrite !Z.lor_spec, Hd. split; split; try done; by apply land_code.
Qed.
Lemma send_ble_online key s :
  online s -> subscribed HID_INPUT_REPORT_1_HDL s -> ble_code (Z.land key 0xFFFF) <> KEY_RESERVED ->
  send_ble_keycode host acts_key_maps key s
  = Some (tt, add_log (HidNotify HID_INPUT_REPORT_1_HDL (report_bytes (if down key then ble_code (Z.land key 0xFFFF) else 0)) (host (log s)))
                (s <| pending_key := 0 |>)).
Proof.
  intros Ho Hs Hk. pose proof Ho as (Hst & Hc & Hf). unfold send_ble_keycode, working, rmc_sm_state_is_activing, rmc_security_ready, get_cb.
  munfold. rewrite Hst, Hf. cbn -[acts_get_ble_keycode hid_app_remote_report_event].
  apply Z.eqb_neq in Hk. rewrite Hk. by rewrite remote_report_online.
Qed.

(** A message of a plain key, on a working link. *)
Definition idle_restart : rmc_event := TimerStart ID_NO_ACT_TIMEOUT 300000.
Definition after_key (key : Z) (s : rmc) : rmc :=
  add_log (HidNotify HID_INPUT_REPORT_1_HDL (report_bytes (if down key then ble_code (Z.land key 0xFFFF) else 0))
             (host (log s ++ [idle_restart])))
    (add_log idle_restart s <| rmc_status := RMC_STATES_CONNECTED |> <| pending_key := 0 |>).
Definition key_ready (s : rmc) : Prop :=
  online s /\ subscribed HID_INPUT_REPORT_1_HDL s /\ bt_ready_flag s = 1 /\
  pair_comb_key_timer_start s = 0 /\ hci_mode_comb_key_timer_start s = 0.
Lemma handle_key_online key s :
  key_ready s -> plain_key (Z.land key 0xFFFF) -> handle_msg MSG_KEY_INPUT key [] s = Some (tt, after_key key s).
Proof.
  intros (Ho & Hs & Hb & Hp & Hm) Hk. pose proof Ho as (Hst & _).
  unfold Rmc.handle_msg. cbn [Z.eqb MSG_KEY_INPUT Pos.eqb].
  change (rmc_timer_start ID_NO_ACT_TIMEOUT) with (emit idle_restart). unfold mbind, M_bind, emit, modify, get.
  set (s1 := _ <| log ::= _ |>). assert (Hb1 : bt_ready_flag s1 = 1) by done. rewrite Hb1. cbn [when truthy Z.eqb negb].
  unfold system_input_event_handle, mbind, M_bind.
  rewrite (input_key_sm s1 RMC_STATES_CONNECTED) by (try right; done). rewrite deliver_plain by done. unfold when.
  rewrite send_ble_online; [done|..]; [by destruct Ho as (_ & ?)|done|by apply Hk].
Qed.
Lemma after_key_ready key s : key_ready s -> key_ready (after_key key s).
Proof. intros ((_ & Ho) & Hr). by split. Qed.

(** ** Keys without a link *)
(** What a key's way through the application depends on, and the state machine leaves alone. *)
Definition untouched (s s' : rmc) : Prop :=
  rmc_security_ready_flag (hid_app_cb s') = rmc_security_ready_flag (hid_app_cb s) /\ pending_key s' = pending_key s /\
  pair_comb_key_timer_start s' = pair_comb_key_timer_start s /\ hci_mode_comb_key_timer_start s' = hci_mode_comb_key_timer_start s.
Lemma is_paired_ends s (Q : bool -> rmc -> Prop) :
  Q false s -> (forall addr, Q true (s <| hid_app_cb ::= (fun c => c <| direct_addr := addr |>) |>)) ->
  ends (is_paired stored_addr) s Q.
Proof.
  intros Hf Ht. unfold is_paired. hoare. destruct (negb _) eqn:E.
  - hoare. specialize (Ht (direct_addr (hid_app_cb s))). by destruct s as [? [] ? ? ? ? ? ? ? ? ? ? ? ? ? ? ?].
  - destruct (stored_addr _) as [addr|]; [|done]. destruct (_ && _); [|done]. unfold upd_cb. hoare. apply Ht.
Qed.
#[local] Abbreviation inner := (sm_execute host stored_addr acts_key_maps undirected_reconn 1).
Lemma start_adv_untouched s s0 : untouched s0 s -> ends (rmc_sm_act_start_adv host) s (fun _ s' => untouched s0 s').
Proof.
  intros Hu. unfold rmc_sm_act_start_adv, get_cb. hoare. destruct (pconn _); [done|]. unfold call. hoare.
  unfold emit. hoare. destruct (truthy _); [done|].
  unfold pair_led_indication, upd_cb, rmc_timer_stop, rmc_timer_start, emit. hoare.
  eapply ends_lift; [reflexivity|]. hoare. eapply ends_lift; [reflexivity|]. hoare. done.
Qed.
Lemma give_up_untouched s s0 :
  rmc_status s = RMC_STATES_ADVERTISING -> untouched s0 s ->
  ends (upd_cb (fun c => c <| reconn_times := 0 |>);; s ← get;
        if pair_comb_key_timer_start s =? 0 then inner RMC_MSG_RECONN_FAIL else inner RMC_MSG_CLEAR_PIAR_KEY) s
    (fun _ s' => untouched s0 s').
Proof.
  intros Hs Hu. unfold upd_cb. hoare. destruct (_ =? 0); cbn [sm_execute]; hoare.
  all: match goal with |- ends (lift (rd _ (rmc_status ?s1))) _ _ => change (rmc_status s1) with (rmc_status s); rewrite Hs end.
  all: eapply ends_lift; [reflexivity|]; hoare; eapply ends_lift; [reflexivity|]; cbv beta iota; hoare; eapply ends_lift; [reflexivity|].
  - done.
  - by apply start_adv_untouched.
Qed.
Lemma direct_adv_untouched s s0 :
  rmc_status s = RMC_STATES_ADVERTISING -> untouched s0 s ->
  ends (rmc_sm_act_start_direct_adv host stored_addr undirected_reconn inner) s (fun _ s' => untouched s0 s').
Proof.
  intros Hs Hu. unfold rmc_sm_act_start_direct_adv. hoare. apply is_paired_ends; [|intros addr]; cbn [andb]; unfold get_cb; hoare.
  - by apply give_up_untouched.
  - destruct (_ <? _); [|by apply give_up_untouched]. unfold call, emit. hoare. destruct (truthy _); [done|].
    unfold upd_cb, rmc_timer_start, emit. hoare. eapply ends_lift; [reflexivity|]. hoare. done.
Qed.
Lemma input_key_untouched s : 0 <= rmc_status s < 3 ->
  ends (rmc_sm_execute host stored_addr acts_key_maps undirected_reconn RMC_MSG_INPUT_KEY) s (fun _ s' => untouched s s').
Proof.
  intros Hs. assert (rmc_status s = 0 \/ rmc_status s = 1 \/ rmc_status s = 2) as [H|[H|H]] by lia.
  2, 3: unfold ends; rewrite (input_key_sm s _ H) by (unfold RMC_STATES_ADVERTISING, RMC_STATES_CONNECTED; lia); done.
  unfold rmc_sm_execute. cbn [sm_execute]. hoare. rewrite H. hoare. eapply ends_lift; [reflexivity|]. hoare. eapply ends_lift; [reflexivity|].
  cbv beta iota. hoare. eapply ends_lift; [reflexivity|]. by apply direct_adv_untouched.
Qed.
Lemma handle_key_offline key s :
  rmc_security_ready_flag (hid_app_cb s) = 0 -> 0 <= rmc_status s < 3 -> truthy (bt_ready_flag s) = true ->
  pair_comb_key_timer_start s = 0 -> hci_mode_comb_key_timer_start s = 0 -> plain_key (Z.land key 0xFFFF) ->
  ends (handle_msg MSG_KEY_INPUT key []) s (fun _ s' => pending_key s' = key).
Proof.
  intros Hf Hs Hb Hp Hm Hk. unfold Rmc.handle_msg. cbn [Z.eqb MSG_KEY_INPUT Pos.eqb].
  change (rmc_timer_start ID_NO_ACT_TIMEOUT) with (emit idle_restart). unfold emit. hoare.
  set (s1 := _ <| log ::= _ |>). change (bt_ready_flag s1) with (bt_ready_flag s). rewrite Hb. cbn [when].
  unfold system_input_event_handle. hoare. eapply ends_mono; [by apply (input_key_untouched s1)|].
  intros [] s2 (Hf2 & _ & Hp2 & Hm2). hoare. unfold ends.
  rewrite deliver_plain by (rewrite ?Hp2, ?Hm2; done). cbn [when]. unfold send_ble_keycode, working, rmc_sm_state_is_activing, rmc_security_ready, get_cb.
  munfold. rewrite Hf2. change (rmc_security_ready_flag (hid_app_cb s1)) with (rmc_security_ready_flag (hid_app_cb s)). rewrite Hf.
  change (truthy 0) with false. by rewrite andb_false_r.
Qed.
(** The link is secured: the state machine sends what is pending. *)
Lemma sec_connected_sends s : 0 <= rmc_status s < 3 ->
  handle_msg MSG_BLE_STATE RMC_MSG_BLE_SEC_CONNECTED [] s
  = send_pending_keycode host acts_key_maps
      (s <| hid_app_cb ::= (fun c => c <| reconn_times := 0 |>) |> <| rmc_status := RMC_STATES_CONNECTED |>).
Proof.
  intros Hs. unfold Rmc.handle_msg, system_ble_event_handle, rmc_sm_execute. cbn [Z.eqb MSG_KEY_INPUT MSG_BLE_STATE Pos.eqb sm_execute].
  unfold upd_cb. munfold. assert (rmc_status s = 0 \/ rmc_status s = 1 \/ rmc_status s = 2) as [H|[H|H]] by lia;
    match goal with |- context [rd rmc_State_table (rmc_status ?s1)] => change (rmc_status s1) with (rmc_status s); rewrite H end; done.
Qed.

(** A release that is pending - the key was let go before the link came up - is reported as a
    press and a release, and stays pending: every later securing of a link reports it again. *)
Lemma released_key_replayed code s :
  pending_key s = release code -> 0 <= code < 0x10000 -> ble_code code <> KEY_RESERVED -> 0 <= rmc_status s < 3 ->
  pconn (hid_app_cb s) = true -> rmc_security_ready_flag (hid_app_cb s) = 1 -> subscribed HID_INPUT_REPORT_1_HDL s ->
  exists e1 e2 s', handle_msg MSG_BLE_STATE RMC_MSG_BLE_SEC_CONNECTED [] s = Some (tt, s') /\
    log s' = log s ++ [HidNotify HID_INPUT_REPORT_1_HDL (report_bytes (ble_code code)) e1; HidNotify HID_INPUT_REPORT_1_HDL (report_bytes 0) e2] /\
    pending_key s' = release code.
Proof.
  intros Hp Hc Hk Hs Hpc Hf Hsub. destruct (key_fields code Hc) as [_ [Hr1 Hr2]]. apply Z.eqb_neq in Hk.
  rewrite sec_connected_sends by done. eexists _, _, _. unfold send_pending_keycode. munfold.
  set (s1 := s <| hid_app_cb ::= _ |> <| rmc_status := _ |>). change (pending_key s1) with (pending_key s). rewrite Hp, Hr1, Hr2, Hk.
  assert (Ho : online s1) by done. assert (Hs1 : subscribed HID_INPUT_REPORT_1_HDL s1) by done.
  rewrite (remote_report_online _ s1) by done. rewrite remote_report_online by done. split; [done|].
  split; [cbn -[report_bytes]; by rewrite <-app_assoc|done].
Qed.

(** ** Reconnection *)
(** One reconnection advertising. *)
Definition round (addr : list Z) : list rmc_event :=
  [AdvStop; AdvStart (if undirected_reconn then None else Some addr) 0; TimerStart ID_DIRECT_ADV_TIMEOUT 2000].
Definition retrying (addr : list Z) (k : Z) (t : list rmc_event) (s : rmc) : Prop :=
  direct_addr (hid_app_cb s) = addr /\ reconn_times (hid_app_cb s) = k /\ pair_comb_key_timer_start s = 0 /\ log s = t.
Context (all_well : forall t, host t = 0).
Lemma round_starts addr k t s exec :
  addr <> BT_ADDR_LE_ANY -> 0 <= k < MAX_RECONN_TIMES -> retrying addr k t s ->
  ends (rmc_sm_act_start_direct_adv host stored_addr undirected_reconn exec) s (fun _ s' =>
    retrying addr (k + 1) (t ++ round addr) s' /\ rmc_status s' = rmc_status s).
Proof.
  intros Ha Hk (Hd & Hr & Hp & Ht). unfold rmc_sm_act_start_direct_adv, is_paired, get_cb. hoare. rewrite Hd.
  rewrite bool_decide_eq_false_2 by done. cbn [negb]. hoare. rewrite Hr. replace (k <? MAX_RECONN_TIMES) with true by (symmetry; apply Z.ltb_lt; lia).
  cbn [andb]. unfold call, emit. hoare. rewrite all_well. cbn [truthy Z.eqb negb]. unfold upd_cb, rmc_timer_start, emit. hoare.
  eapply ends_lift; [reflexivity|]. hoare. split; [|done]. split; [done|]. split; [|split; [done|]].
  - cbn. rewrite Hr. apply u8_small. unfold MAX_RECONN_TIMES in Hk. lia.
  - cbn. by rewrite <-!app_assoc, Hd, Ht.
Qed.
Lemma round_over addr t s :
  addr <> BT_ADDR_LE_ANY -> rmc_status s = RMC_STATES_ADVERTISING -> retrying addr MAX_RECONN_TIMES t s ->
  ends (rmc_sm_act_start_direct_adv host stored_addr undirected_reconn inner) s (fun _ s' =>
    retrying addr 0 t s' /\ rmc_status s' = RMC_STATES_IDLE).
Proof.
  intros Ha Hs (Hd & Hr & Hp & Ht). unfold rmc_sm_act_start_direct_adv, is_paired, get_cb. hoare. rewrite Hd.
  rewrite bool_decide_eq_false_2 by done. cbn [negb]. hoare. rewrite Hr, Z.ltb_irrefl. cbn [andb]. unfold upd_cb. hoare.
  match goal with |- context [pair_comb_key_timer_start ?s1 =? 0] => change (pair_comb_key_timer_start s1) with (pair_comb_key_timer_start s) end.
  rewrite Hp. cbn [Z.eqb sm_execute]. hoare.
  match goal with |- context [rd _ (rmc_status ?s1)] => change (rmc_status s1) with (rmc_status s) end. rewrite Hs.
  eapply ends_lift; [reflexivity|]. hoare. eapply ends_lift; [reflexivity|]. cbv beta iota. hoare. by eapply ends_lift; [reflexivity|].
Qed.
(** The events that run the reconnection's action. *)
Lemma retry_event st evt addr k t s Q :
  rmc_status s = st -> retrying addr k t s ->
  (st = RMC_STATES_ADVERTISING /\ evt = RMC_MSG_TIMER_DIRECT_ADV_TIMEOUT \/
   st = RMC_STATES_CONNECTED /\ evt = RMC_MSG_BLE_NON_USER_DISCONNECTED) ->
  (forall s', retrying addr k t s' -> rmc_status s' = RMC_STATES_ADVERTISING ->
     ends (rmc_sm_act_start_direct_adv host stored_addr undirected_reconn inner) s' (fun _ => Q)) ->
  ends (rmc_sm_execute host stored_addr acts_key_maps undirected_reconn evt) s (fun _ => Q).
Proof.
  intros Hs Hr He HQ. unfold rmc_sm_execute. change 2%nat with (S 1). generalize dependent HQ.
  destruct He as [[-> ->]|[-> ->]]; intros HQ; cbn [sm_execute]; hoare; rewrite Hs; (eapply ends_lift; [reflexivity|]); hoare;
    (eapply ends_lift; [reflexivity|]); cbv beta iota; hoare; (eapply ends_lift; [reflexivity|]); by apply HQ.
Qed.
Definition direct_adv_timeout : M rmc unit := handle_msg MSG_APP_TIMER ID_DIRECT_ADV_TIMEOUT [].
Lemma timeout_round addr k t s :
  rmc_status s = RMC_STATES_ADVERTISING -> addr <> BT_ADDR_LE_ANY -> 0 <= k < MAX_RECONN_TIMES -> retrying addr k t s ->
  ends direct_adv_timeout s (fun _ s' => retrying addr (k + 1) (t ++ round addr) s' /\ rmc_status s' = RMC_STATES_ADVERTISING).
Proof.
  intros Hs Ha Hk Hr.
  apply (retry_event RMC_STATES_ADVERTISING RMC_MSG_TIMER_DIRECT_ADV_TIMEOUT addr k t s); [done..|by left|].
  intros s2 H2 <-. by apply round_starts.
Qed.
Lemma reconnection addr s :
  rmc_status s = RMC_STATES_CONNECTED -> direct_addr (hid_app_cb s) = addr -> addr <> BT_ADDR_LE_ANY -> pair_comb_key_timer_start s = 0 ->
  ends (handle_msg MSG_BLE_STATE RMC_MSG_BLE_NON_USER_DISCONNECTED [];; direct_adv_timeout;; direct_adv_timeout;; direct_adv_timeout) s
    (fun _ s' => log s' = log s ++ round addr ++ round addr ++ round addr /\ rmc_status s' = RMC_STATES_IDLE /\
                 reconn_times (hid_app_cb s') = 0).
Proof.
  intros Hs Hd Ha Hp. hoare.
  apply ends_mono with (P := fun _ s' => (retrying addr 1 (log s ++ round addr) s' /\ rmc_status s' = RMC_STATES_ADVERTISING)).
  { apply (retry_event RMC_STATES_CONNECTED RMC_MSG_BLE_NON_USER_DISCONNECTED addr 0 (log s)
             (s <| hid_app_cb ::= (fun c => c <| reconn_times := 0 |>) |>)); [done..|by right|].
    intros s2 H2 <-. by apply (round_starts addr 0). }
  intros [] s2 [H2 Hs2]. hoare. eapply ends_mono; [by apply (timeout_round addr 1)|]. intros [] s3 [H3 Hs3]. hoare.
  eapply ends_mono; [by apply (timeout_round addr 2)|]. intros [] s4 [H4 Hs4]. hoare.
  apply (retry_event RMC_STATES_ADVERTISING RMC_MSG_TIMER_DIRECT_ADV_TIMEOUT addr MAX_RECONN_TIMES _ s4 _ Hs4 H4); [by left|].
  intros s5 H5 Hs5. eapply ends_mono; [by eapply round_over|]. intros [] s6 [(_ & Hr6 & _ & Hl6) Hs6].
  split; [|done]. by rewrite Hl6, <-!app_assoc.
Qed.
(** An advertising that does not start leaves the machine advertising without a timer, and
    keys do not start another. *)
Lemma failed_start_sticks s :
  rmc_status s = RMC_STATES_ADVERTISING ->
  rmc_sm_execute host stored_addr acts_key_maps undirected_reconn RMC_MSG_INPUT_KEY s = Some (tt, s).
Proof. intros Hs. rewrite (input_key_sm s _ Hs) by (by left). rewrite <-Hs. by destruct s. Qed.

(** The table's entry for a connection in the idle state names the message, not the action:
    its number is that of the pairing advertising. *)
Lemma idle_connection_advertises s :
  rmc_status s = RMC_STATES_IDLE ->
  rmc_sm_execute host stored_addr acts_key_maps undirected_reconn RMC_MSG_BLE_CONNECTED s
  = rmc_sm_act_start_adv host (s <| rmc_status := RMC_STATES_CONNECTED |>).
Proof. intros Hs. unfold rmc_sm_execute. cbn [sm_execute]. munfold. by rewrite Hs. Qed.

(** ** Voice *)
Context (n w : Z) (fits : encoder_fits encode_init_func encode_func n w).
(** The stream is running: the start of the voice was reported, the first buffers dropped. *)
Definition streaming (s : rmc) : Prop :=
  online s /\ subscribed HID_INPUT_REPORT_2_HDL s /\ length (encode_out_buffer s) = 80%nat /\
  audio_cb s = AudioCb 10 n 0 0 0 0.
Lemma send_frames_payload fuel k bytes s :
  online s -> subscribed HID_INPUT_REPORT_2_HDL s -> length (encode_out_buffer s) = 80%nat ->
  (exists rest, encode_out_buffer s = bytes ++ rest) -> (20 | Z.of_nat (length bytes)) ->
  0 <= k -> Z.of_nat (length bytes) - 20 * k <= 20 * Z.of_nat fuel ->
  ends (send_frames host fuel (20 * k) (Z.of_nat (length bytes))) s (fun _ s' =>
    payload HID_INPUT_REPORT_2_HDL (log s') = payload HID_INPUT_REPORT_2_HDL (log s) ++ drop (Z.to_nat (20 * k)) bytes /\
    audio_cb s' = audio_cb s).
Proof.
  intros Ho Hs Hl (rest & Hr) (q & Hq). revert k s Ho Hs Hl Hr. induction fuel as [|fuel IH]; intros k s Ho Hs Hl Hr Hk Hf; cbn [send_frames].
  { case_cmp; [lia|]. hoare. rewrite drop_ge, app_nil_r by lia. done. }
  case_cmp; [|hoare; by rewrite drop_ge, app_nil_r by lia]. hoare.
  assert (Hb : take 20 (drop (Z.to_nat (20 * k)) (encode_out_buffer s)) = take 20 (drop (Z.to_nat (20 * k)) bytes)).
  { rewrite Hr, drop_app_le by lia. apply take_app_le. rewrite length_drop. lia. }
  assert (Hlen : length (take 20 (drop (Z.to_nat (20 * k)) bytes)) = 20%nat) by (rewrite length_take, length_drop; lia).
  rewrite Hb, Hlen. cbn [Nat.ltb Nat.leb]. hoare. unfold ends at 1. rewrite voice_report_online by done.
  replace (20 * k + 20) with (20 * (k + 1)) by lia. eapply ends_mono; [apply IH; try done; lia|].
  intros [] s' [Hp Ha]. split; [|done]. rewrite Hp. cbn [add_log]. unfold add_log. cbn [set_field log].
  rewrite payload_app, <-app_assoc. f_equal. unfold payload. rewrite bind_cons, app_nil_r, Z.eqb_refl.
  replace (Z.to_nat (20 * (k + 1))) with (Z.to_nat (20 * k) + 20)%nat by lia. by rewrite <-drop_drop, take_drop.
Qed.
Lemma start_flag_idle s : audio_cb s = AudioCb 10 n 0 0 0 0 -> audio_send_start_flag host encode_init_func s = Some (tt, s).
Proof. intros Ha. unfold audio_send_start_flag. munfold. by rewrite Ha; cbn; rewrite Ha. Qed.
Lemma stop_flag_idle s : audio_cb s = AudioCb 10 n 0 0 0 0 -> audio_send_stop_flag host s = Some (tt, s).
Proof. intros Ha. unfold audio_send_stop_flag. munfold. by rewrite Ha. Qed.
Lemma audio_streaming pcm s (bytes := encoded encode_func n (Z.to_nat (u8 (frames n pcm))) pcm) :
  streaming s -> Z.of_nat (length pcm) <= 320 -> (20 | Z.of_nat (length bytes)) ->
  ends (system_audio_event_handle host encode_init_func encode_func pcm) s (fun _ s' =>
    payload HID_INPUT_REPORT_2_HDL (log s') = payload HID_INPUT_REPORT_2_HDL (log s) ++ bytes /\ audio_cb s' = audio_cb s).
Proof.
  intros (Ho & Hs & Hb & Ha) Hl Hd. unfold system_audio_event_handle, rmc_sm_state_is_activing. hoare.
  destruct Ho as [Hst Ho]. rewrite Hst. cbn [Z.eqb negb Pos.eqb RMC_STATES_CONNECTED]. hoare. unfold ends at 1. rewrite start_flag_idle by done.
  hoare. unfold audio_need_drop_buffer. hoare. rewrite Ha. cbn [need_drop_buffer_count truthy Z.eqb negb]. hoare.
  unfold ends at 1. rewrite (audio_encode_eq _ _ _ _ fits) by (done || by rewrite Ha). cbv zeta. fold bytes. cbv iota beta. hoare.
  unfold pcm_buffer_free, emit. hoare.
  assert (Hlen : (length bytes <= 80)%nat).
  { unfold bytes. destruct (frames_fit _ _ _ _ fits pcm Hl) as (Ht & Hn & Hw).
    pose proof (length_encoded _ _ _ _ fits (Z.to_nat (u8 (frames n pcm))) pcm) as He. rewrite Z2Nat.id in He by done. specialize (He Hn). lia. }
  eapply ends_mono; [apply (send_frames_payload 4 0 bytes)|]; try done.
  - cbn. rewrite length_app, length_drop. lia.
  - by eexists.
  - lia.
  - intros [] s' [Hp Haf]. unfold ends. rewrite stop_flag_idle by (rewrite Haf; exact Ha). split; [|rewrite Haf; exact Ha]. rewrite Hp. cbn -[payload].
    by rewrite payload_app, app_nil_r.
Qed.
End Use.

(** A key reaches the host: on a secured, subscribed link a press and a release of a plain
    key are two HID reports, the key's HID code and then zero, with the idle timer restarted
    each time and no key left pending. *)
Theorem key_reaches_host host stored_addr acts_key_maps undirected_reconn encode_init_func encode_func code s :
  key_ready s -> 0 <= code < 0x10000 -> plain_key acts_key_maps code ->
  let handle := handle_msg host stored_addr acts_key_maps undirected_reconn encode_init_func encode_func MSG_KEY_INPUT in
  exists e1 e2 s', (handle (press code) [];; handle (release code) []) s = Some (tt, s') /\
    log s' = log s ++ [idle_restart; HidNotify HID_INPUT_REPORT_1_HDL (report_bytes (acts_get_ble_keycode acts_key_maps code)) e1;
                       idle_restart; HidNotify HID_INPUT_REPORT_1_HDL (report_bytes 0) e2] /\
    pending_key s' = 0.
Proof.
  intros Hs Hc Hk handle. destruct (key_fields code Hc) as [[Hp1 Hp2] [Hr1 Hr2]].
  eexists _, _, _. unfold mbind, M_bind, handle. rewrite handle_key_online by (done || by rewrite Hp1).
  rewrite handle_key_online by (by rewrite Hr1 || by apply after_key_ready). split; [done|].
  unfold after_key. rewrite Hp1, Hp2, Hr1, Hr2. split; [|done]. cbn -[report_bytes]. by rewrite <-!app_assoc.
Qed.


(** A frame that encodes to something leaves room for few frames: their count does not wrap. *)
Lemma frames_small encode_init_func encode_func n w pcm :
  encoder_fits encode_init_func encode_func n w -> 0 < w -> Z.of_nat (length pcm) <= 320 -> u8 (frames n pcm) = frames n pcm.
Proof.
  intros [] Hw Hl. apply u8_small. unfold frames. pose proof (Z.div_le_mono (Z.of_nat (length pcm)) 320 n). split; [apply Z.div_pos; lia|nia].
Qed.

(** Voice arrives as the encoder produced it: while the stream runs, the reports sent for a
    buffer of samples carry, in order and in pieces of twenty bytes, exactly the encoding of
    its frames - for every encoder whose frames fit the output buffer. *)
Theorem voice_reported_in_full host encode_init_func encode_func n w pcm s :
  let bytes := encoded encode_func n (Z.to_nat (frames n pcm)) pcm in
  encoder_fits encode_init_func encode_func n w -> 0 < w -> streaming n s ->
  Z.of_nat (length pcm) <= 320 -> (20 | Z.of_nat (length bytes)) ->
  exists s', system_audio_event_handle host encode_init_func encode_func pcm s = Some (tt, s') /\
    payload HID_INPUT_REPORT_2_HDL (log s') = payload HID_INPUT_REPORT_2_HDL (log s) ++ bytes /\ audio_cb s' = audio_cb s.
Proof.
  intros bytes Hf Hw Hs Hl Hd. unfold bytes in *. rewrite <-(frames_small _ _ _ _ _ Hf Hw Hl) in *.
  destruct (ends_inv _ _ _ (audio_streaming host encode_init_func encode_func n w Hf pcm s Hs Hl Hd)) as ([] & s' & H & Hp).
  by exists s'.
Qed.

(** A lost link is re-advertised and then given up: to a bonded host, three directed
    advertisings of two seconds each, and after the third timeout the machine is idle with its
    count cleared, until the next key. *)
Theorem reconnection_gives_up host stored_addr acts_key_maps undirected_reconn encode_init_func encode_func addr s :
  (forall t, host t = 0) ->
  rmc_status s = RMC_STATES_CONNECTED -> direct_addr (hid_app_cb s) = addr -> addr <> BT_ADDR_LE_ANY ->
  pair_comb_key_timer_start s = 0 ->
  let handle := handle_msg host stored_addr acts_key_maps undirected_reconn encode_init_func encode_func in
  let timeout := handle MSG_APP_TIMER ID_DIRECT_ADV_TIMEOUT [] in
  exists s', (handle MSG_BLE_STATE RMC_MSG_BLE_NON_USER_DISCONNECTED [];; timeout;; timeout;; timeout) s = Some (tt, s') /\
    log s' = log s ++ round undirected_reconn addr ++ round undirected_reconn addr ++ round undirected_reconn addr /\
    rmc_status s' = RMC_STATES_IDLE /\ reconn_times (hid_app_cb s') = 0.
Proof.
  intros Hh Hs Hd Ha Hp handle timeout.
  destruct (ends_inv _ _ _ (reconnection host stored_addr acts_key_maps undirected_reconn encode_init_func encode_func Hh addr s Hs Hd Ha Hp))
    as ([] & s' & H & Hq). by exists s'.
Qed.

(** ** Battery *)
Definition clamp (v : Z) : Z :=
  if v <=? VERY_LOW_BATT_VAL then VERY_LOW_BATT_VAL else if FULL_BATT_VAL <=? v then FULL_BATT_VAL else v.
Lemma clamp_range v : 1800 <= clamp v <= 3250.
Proof. unfold clamp, VERY_LOW_BATT_VAL, FULL_BATT_VAL. repeat case_cmp; lia. Qed.
Lemma very_low_frame host b s v : batt_val s = v -> ends (when b (very_low_power_handler host)) s (fun _ s' => batt_val s' = v).
Proof.
  intros Hv. apply ends_when; intros _; [|done]. unfold very_low_power_handler, call, emit. hoare. by destruct (_ =? 0).
Qed.
(** Every sample of the 10-bit converter gives a voltage within the battery's range and a
    percentage of it. *)
Lemma battery_scaled host s :
  host (log s) <> 0 -> 0 <= host (log s ++ [AdcBinding (host (log s))]) < 1024 ->
  ends (update_battry_value host) s (fun _ s' =>
    batt_val s' = clamp (host (log s ++ [AdcBinding (host (log s))]) * 3600 / 1024) /\
    batt_level s' = (batt_val s' - 1800) * 100 / 1450 /\ 0 <= batt_level s' <= 100).
Proof.
  intros Hf Ha. unfold update_battry_value, call. hoare. unfold emit at 1. hoare. apply Z.eqb_neq in Hf. rewrite Hf. hoare.
  unfold emit at 1. hoare. cbn [log set_field].
  set (adc := host _). assert (Hadc : 0 <= adc < 1024) by exact Ha.
  assert (Hv : u16 (Z.quot (u16 adc * 3600) 1024) = adc * 3600 / 1024).
  { rewrite (u16_small adc) by lia. rewrite Z.quot_div_nonneg by lia. apply u16_small.
    split; [apply Z.div_pos|apply Z.div_lt_upper_bound]; lia. }
  set (v := adc * 3600 / 1024) in *.
  apply ends_mono with (P := fun _ s' => batt_val s' = v); [by apply ends_when; intros _|]. intros [] s2 H2. hoare.
  eapply ends_mono; [by apply very_low_frame|]. intros [] s3 H3. hoare.
  pose proof (clamp_range v) as Hc. split; [|split].
  - cbn. by rewrite H3.
  - cbn. rewrite H3. fold (clamp v). unfold VERY_LOW_BATT_VAL, FULL_BATT_VAL. change (3250 - 1800) with 1450.
    rewrite Z.quot_div_nonneg by lia. apply u8_small. split; [apply Z.div_pos|apply Z.div_lt_upper_bound]; lia.
  - cbn. rewrite H3. fold (clamp v). unfold VERY_LOW_BATT_VAL, FULL_BATT_VAL. change (3250 - 1800) with 1450.
    rewrite Z.quot_div_nonneg by lia. rewrite u8_small; split; try (apply Z.div_pos; lia); (apply Z.div_lt_upper_bound + apply Z.div_le_upper_bound); lia.
Qed.

(** ** Witnesses *)
Definition demo_online : rmc := default rmc_zero (demo_exec (take 8 demo_inputs) demo_start).
Definition demo_offline : rmc := default rmc_zero (demo_exec [InReady 0] demo_start).
Lemma demo_plain : plain_key ft_key_maps 3.
Proof. split_and!; by vm_compute. Qed.
Lemma demo_online_ready : key_ready demo_online.
Proof. split_and!; by vm_compute. Qed.
Lemma key_reaches_host_witness :
  exists e1 e2 s',
    (handle_msg demo_host demo_addr ft_key_maps false demo_init demo_encode MSG_KEY_INPUT (press 3) [];;
     handle_msg demo_host demo_addr ft_key_maps false demo_init demo_encode MSG_KEY_INPUT (release 3) []) demo_online = Some (tt, s') /\
    log s' = log demo_online ++ [idle_restart; HidNotify HID_INPUT_REPORT_1_HDL (report_bytes (acts_get_ble_keycode ft_key_maps 3)) e1;
                       idle_restart; HidNotify HID_INPUT_REPORT_1_HDL (report_bytes 0) e2] /\
    pending_key s' = 0.
Proof.
  apply (key_reaches_host demo_host demo_addr ft_key_maps false demo_init demo_encode 3 demo_online);
    [apply demo_online_ready|lia|apply demo_plain].
Defined.
Definition demo_streaming : rmc := demo_online <| audio_cb := AudioCb 10 80 0 0 0 0 |>.
Lemma voice_reported_in_full_witness :
  exists s', system_audio_event_handle demo_host demo_init demo_encode (seqZ 0 320) demo_streaming = Some (tt, s') /\
    payload HID_INPUT_REPORT_2_HDL (log s')
      = payload HID_INPUT_REPORT_2_HDL (log demo_streaming) ++ encoded demo_encode 80 (Z.to_nat (frames 80 (seqZ 0 320))) (seqZ 0 320) /\
    audio_cb s' = audio_cb demo_streaming.
Proof.
  apply (voice_reported_in_full demo_host demo_init demo_encode 80 10 (seqZ 0 320) demo_streaming demo_fits);
    [lia|split_and!; by vm_compute|by vm_compute|by exists 4].
Defined.
Definition demo_bonded : rmc := demo_online <| hid_app_cb ::= (fun c => c <| direct_addr := [0; 1; 2; 3; 4; 5; 6] |>) |>.
Lemma reconnection_gives_up_witness :
  let handle := handle_msg demo_host demo_addr ft_key_maps false demo_init demo_encode in
  let timeout := handle MSG_APP_TIMER ID_DIRECT_ADV_TIMEOUT [] in
  exists s', (handle MSG_BLE_STATE RMC_MSG_BLE_NON_USER_DISCONNECTED [];; timeout;; timeout;; timeout) demo_bonded = Some (tt, s') /\
    log s' = log demo_bonded ++ round false [0; 1; 2; 3; 4; 5; 6] ++ round false [0; 1; 2; 3; 4; 5; 6] ++ round false [0; 1; 2; 3; 4; 5; 6] /\
    rmc_status s' = RMC_STATES_IDLE /\ reconn_times (hid_app_cb s') = 0.
Proof.
  apply (reconnection_gives_up demo_host demo_addr ft_key_maps false demo_init demo_encode [0; 1; 2; 3; 4; 5; 6] demo_bonded);
    [done|by vm_compute|by vm_compute|discriminate|by vm_compute].
Defined.
