(* ===== verification/CString.v ===== *)
(** * Strings of the C library

    A C string is the bytes of an object up to the first zero byte.  The functions below are
    the ones of <string.h>, <stdlib.h> and <ctype.h> that the modelled code calls; each reads
    byte by byte, and reading past the object is undefined ([None]). *)
From S2P Require Import Prelude.
From Stdlib Require Import Ascii String.
#[local] Open Scope Z_scope.

(** The bytes of a literal, without the terminator. *)
Definition chr (c : ascii) : Z := Z.of_N (N_of_ascii c).
Fixpoint str (s : string) : list Z :=
  match s with EmptyString => [] | String c s' => chr c :: str s' end.
(** The object a literal denotes. *)
Definition lit (s : string) : list Z := str s ++ [0].

(** The string an object holds. *)
Fixpoint cstr (b : list Z) : option (list Z) :=
  match b with
  | [] => None
  | c :: b' => if c =? 0 then Some [] else r ← cstr b'; Some (c :: r)
  end.
Definition strlen (b : list Z) : option Z := r ← cstr b; Some (Z.of_nat (List.length r)).

Fixpoint strcmp (a b : list Z) : option Z :=
  match a, b with
  | x :: a', y :: b' =>
      if x =? y then if x =? 0 then Some 0 else strcmp a' b' else Some (x - y)
  | _, _ => None
  end.
(** [n] characters at most. *)
Fixpoint strncmp (n : nat) (a b : list Z) : option Z :=
  match n with
  | O => Some 0
  | S n' =>
      match a, b with
      | x :: a', y :: b' =>
          if x =? y then if x =? 0 then Some 0 else strncmp n' a' b' else Some (x - y)
      | _, _ => None
      end
  end.

(** strchr and strstr return the offset in the object. *)
Fixpoint strchr (b : list Z) (c : Z) : option (option nat) :=
  match b with
  | [] => None
  | x :: b' =>
      if x =? c then Some (Some O)
      else if x =? 0 then Some None
      else r ← strchr b' c; Some (option_map S r)
  end.
(** Does the object start with the string [n]?  The comparison stops at the first
    difference, so it may look at a prefix only. *)
Fixpoint starts (b n : list Z) {struct n} : option bool :=
  match n, b with
  | [], _ => Some true
  | _ :: _, [] => None
  | y :: n', x :: b' => if x =? y then starts b' n' else Some false
  end.
Fixpoint strstr (b n : list Z) : option (option nat) :=
  match b with
  | [] => None
  | x :: b' =>
      p ← starts b n;
      if (p : bool) then Some (Some O)
      else if x =? 0 then Some None
      else r ← strstr b' n; Some (option_map S r)
  end.

Definition isspace (c : Z) : bool := (c =? 32) || ((9 <=? c) && (c <=? 13)).
Definition isprint (c : Z) : bool := (32 <=? c) && (c <? 127).
Definition isdigit (c : Z) : bool := (48 <=? c) && (c <=? 57).

(** atoi: white space, a sign, then digits up to the first other character. *)
Fixpoint atoi_digits (acc : Z) (b : list Z) : option Z :=
  match b with
  | [] => None
  | c :: b' => if isdigit c then atoi_digits (10 * acc + (c - 48)) b' else Some acc
  end.
Fixpoint skip_space (b : list Z) : list Z :=
  match b with c :: b' => if isspace c then skip_space b' else b | [] => [] end.
Definition atoi (b : list Z) : option Z :=
  match skip_space b with
  | [] => None
  | c :: b' =>
      if c =? 45 then option_map Z.opp (atoi_digits 0 b')
      else if c =? 43 then atoi_digits 0 b'
      else atoi_digits 0 (c :: b')
  end.

(** ** Facts *)
(** A string proper: no zero byte, so appending one makes an object that holds it. *)
Definition is_str (s : list Z) : Prop := Forall (fun c => c <> 0) s.

Lemma cstr_spec s rest : is_str s -> cstr (s ++ 0 :: rest) = Some s.
Proof.
  induction 1 as [|c s Hc _ IH]; [done|]. cbn [app cstr].
  destruct (Z.eqb_spec c 0); [done|]. by rewrite IH.
Qed.
Lemma cstr_inv b s : cstr b = Some s -> is_str s /\ exists rest, b = s ++ 0 :: rest.
Proof.
  revert s. induction b as [|c b IH]; intros s; [done|]. cbn [cstr].
  destruct (Z.eqb_spec c 0) as [->|Hc].
  - intros [= <-]. split; [constructor|by exists b].
  - destruct (cstr b) as [r|]; [|done]. intros [= <-].
    destruct (IH r eq_refl) as [Hr [rest ->]]. split; [by constructor|by exists rest].
Qed.
Lemma strlen_spec s rest : is_str s -> strlen (s ++ 0 :: rest) = Some (Z.of_nat (List.length s)).
Proof. intros H. unfold strlen. by rewrite cstr_spec. Qed.

Lemma strcmp_spec s t r1 r2 : is_str s -> is_str t ->
  exists v, strcmp (s ++ 0 :: r1) (t ++ 0 :: r2) = Some v /\ (v = 0 <-> s = t).
Proof.
  intros Hs Ht. revert t Ht. induction Hs as [|x s Hx Hs IH]; intros t Ht.
  - destruct Ht as [|y t Hy Ht]; cbn.
    + by exists 0.
    + destruct y as [|p|p]; [done|..]; (eexists; split; [reflexivity|split; [lia|done]]).
  - destruct Ht as [|y t Hy Ht]; cbn [app strcmp].
    + destruct (Z.eqb_spec x 0); [done|]. eexists; split; [reflexivity|split; [lia|done]].
    + destruct (Z.eqb_spec x y) as [->|].
      * destruct (Z.eqb_spec y 0); [done|]. destruct (IH t Ht) as (v & -> & Hv).
        exists v. split; [done|]. rewrite Hv. split; [by intros ->|by intros [= ->]].
      * eexists; split; [reflexivity|]. split; [lia|by intros [= -> ->]].
Qed.
Lemma strcmp_refl s r1 r2 : is_str s -> strcmp (s ++ 0 :: r1) (s ++ 0 :: r2) = Some 0.
Proof. intros H. destruct (strcmp_spec s s r1 r2 H H) as (v & -> & Hv). f_equal. by apply Hv. Qed.

Lemma strchr_absent s rest c : is_str s -> c <> 0 -> c ∉ s -> strchr (s ++ 0 :: rest) c = Some None.
Proof.
  intros Hs Hc. induction Hs as [|x s Hx Hs IH]; intros Hn.
  - cbn [app strchr]. destruct (Z.eqb_spec 0 c); [by subst|done].
  - apply not_elem_of_cons in Hn as [H1 H2]. cbn [app strchr].
    destruct (Z.eqb_spec x c); [by subst|]. destruct (Z.eqb_spec x 0); [done|]. by rewrite IH.
Qed.
Lemma strchr_first s rest c : is_str s -> c ∉ s -> strchr (s ++ c :: rest) c = Some (Some (List.length s)).
Proof.
  intros Hs. induction Hs as [|x s Hx Hs IH]; intros Hn.
  - cbn [app strchr]. by rewrite Z.eqb_refl.
  - apply not_elem_of_cons in Hn as [H1 H2]. cbn [app strchr].
    destruct (Z.eqb_spec x c); [by subst|]. destruct (Z.eqb_spec x 0); [done|]. by rewrite IH.
Qed.
Lemma is_str_check s : forallb (fun c => negb (c =? 0)) s = true -> is_str s.
Proof.
  intros H. apply Forall_forall. intros x Hx ->.
  by pose proof (proj1 (forallb_forall _ _) H 0 (proj1 (list_elem_of_In _ _) Hx)).
Qed.
