(* ===== verification/Loader.v ===== *)
(** * The second-stage loader (samples/voice_rcu/src/loader/main.c, startup/uart_adfu.c)

    The loader finds the partition table, picks an application and jumps to it when its
    checksums are right.  [machine] is what it works on: the flash, the memory, the
    registers that survive a reset and the flash mapping of the XIP build; [xip] chooses
    between the two builds.  The boot ROM's [brom_spi0_read] copies from the flash.
    [Jumped e] is a call of the application at [e], which does not come back. *)
From S2P Require Import Prelude CString Mmio Power.
From Stdlib Require Import Ascii.
#[local] Open Scope Z_scope.

Definition PARTITION_TABLE_ADDR : Z := 0x40004034.
Definition LOADER_REBOOT_REASON_MAGIC : Z := 0x544f4252.
Definition REBOOT_TYPE_GOTO_ADFU : Z := 0x1000.
Definition REBOOT_TYPE_GOTO_DTM : Z := 0x1200.
Definition REBOOT_TYPE_GOTO_APP : Z := 0x1400.
Definition KEY_ADFU : Z := 0xf0.
Definition KEY_DTM : Z := 0xf2.
Definition KEY_APP : Z := 0xf3.
Definition IMAGE_HDR_OFFSET : Z := 0xc0.
Definition IMAGE_HEADER_MAGIC : Z := 0x00425441.
Definition SPI0_LAUNCHER_LOADER_ADDR : Z := 0x20009ed4.
Definition PARTITION_TABLE_OFFSET : Z := 0xc00.
Definition PARTITION_TABLE_MAGIC : Z := 0x54504341.
Definition MAX_PARTITION_COUNT : Z := 15.
Definition SYSTEM_TYPE : Z := 2.
Definition DTM_TYPE : Z := 5.

Record reboot_reason := RebootReason { reason_magic : Z; reason_code : Z }.
Record image_header := ImageHeader {
  magic : Z; rom_start : Z; rom_end : Z; entry : Z; reserve0 : Z; reserve1 : Z;
  data_checksum : Z; hdr_checksum : Z }.
Record partition_entry := PartitionEntry {
  name : list Z; type : Z; flag : Z; offset : Z; seq : Z; reserve : Z; entry_offs : Z }.
Record partition_table := PartitionTable { pt_magic : Z; parts : list partition_entry }.

(** ** Little-endian fields of a memory *)
Definition half_at (m : Z -> Z) (a : Z) : Z := m a + m (a + 1) * 2 ^ 8.
Definition word_at (m : Z -> Z) (a : Z) : Z :=
  m a + m (a + 1) * 2 ^ 8 + m (a + 2) * 2 ^ 16 + m (a + 3) * 2 ^ 24.
(** The 32 bytes of a header, the 24 of a table entry, the table. *)
Definition header_at (m : Z -> Z) (a : Z) : image_header :=
  ImageHeader (word_at m a) (word_at m (a + 4)) (word_at m (a + 8)) (word_at m (a + 12))
    (word_at m (a + 16)) (word_at m (a + 20)) (word_at m (a + 24)) (word_at m (a + 28)).
Definition hdr_words (h : image_header) : list Z :=
  [magic h; rom_start h; rom_end h; entry h; reserve0 h; reserve1 h; data_checksum h; hdr_checksum h].
Definition entry_at (m : Z -> Z) (a : Z) : partition_entry :=
  PartitionEntry (m <$> seqZ a 8) (half_at m (a + 8)) (half_at m (a + 10)) (word_at m (a + 12))
    (s16 (half_at m (a + 16))) (half_at m (a + 18)) (word_at m (a + 20)).
Definition table_at (m : Z -> Z) (a : Z) : partition_table :=
  PartitionTable (word_at m a) ((fun i => entry_at m (a + 16 + 24 * i)) <$> seqZ 0 MAX_PARTITION_COUNT).

Inductive loader_event := Put (c : ascii) | SpicacheReset | AdfuServer | AdfuClose.
Record machine := Machine {
  nor : Z -> Z; ram : Z -> Z;
  part_table : partition_table;       (* a variable, or the constant linked into the XIP image *)
  rtc_bak1 : Z; reason : reboot_reason;
  addr0_entry : Z; mapping_addr1 : Z; addr1_entry : Z;
  console : list loader_event }.
#[export] Instance eta_machine : EtaRecord machine := fun r =>
  Machine (nor r) (ram r) (part_table r) (rtc_bak1 r) (reason r) (addr0_entry r) (mapping_addr1 r)
    (addr1_entry r) (console r).
Inductive outcome := Returned (ret : Z) | Jumped (e : Z) | Adfu.

Section Loader.
Context (xip : bool).
(** The byte the XIP hardware reads at a CPU address for the mapping (cpu address, flash
    address); the checksum of each flash line is its business. *)
Context (mapped : Z -> Z -> Z -> Z).

#[local] Abbreviation LD := (M machine).
Definition debug_uart_put_char (c : ascii) : LD unit := modify (fun s => s <| console ::= (fun t => t ++ [Put c]) |>).
Definition event (e : loader_event) : LD unit := modify (fun s => s <| console ::= (fun t => t ++ [e]) |>).

Definition brom_spi0_read (a len dst : Z) : LD unit := modify (fun s =>
  s <| ram ::= (fun r i => if (dst <=? i) && (i <? dst + len) then nor s (a + (i - dst)) else r i) |>).
(** What the CPU reads: the memory, or the flash through the mapping. *)
Definition cpu_mem (s : machine) : Z -> Z :=
  if xip then mapped (mapping_addr1 s) (addr1_entry s) else ram s.

Definition create_mapping (nor_addr cpu_addr : Z) : LD unit :=
  modify (fun s => s <| mapping_addr1 := cpu_addr |> <| addr1_entry := nor_addr |>).
Definition clear_mapping : LD unit :=
  modify (fun s => s <| mapping_addr1 := 0 |> <| addr1_entry := 0 |>).

Definition check_key : Z := KEY_APP.

Definition SPI0_XIP_CRC_ALIGN (x : Z) : Z := u32 (x * 34) / 32.

Definition get_partition_table : LD Z :=
  if xip then
    s ← get;
    if negb (pt_magic (part_table s) =? PARTITION_TABLE_MAGIC) then
      debug_uart_put_char "-"%char;; debug_uart_put_char "1"%char;; mret (-1)
    else
      put (s <| rtc_bak1 := SPI0_XIP_CRC_ALIGN (u32 (addr0_entry s + PARTITION_TABLE_OFFSET)) |>);;
      debug_uart_put_char "-"%char;;
      ret ← (if addr0_entry s =? 0 then debug_uart_put_char "F"%char;; mret 0
             else if addr0_entry s =? 0x1000 then debug_uart_put_char "S"%char;; mret 0
             else debug_uart_put_char "E"%char;; mret (-1));
      debug_uart_put_char "-"%char;; mret ret
  else
    s ← get;
    let loader_addr := word_at (ram s) SPI0_LAUNCHER_LOADER_ADDR in
    let partition_table_offset := u32 (loader_addr + PARTITION_TABLE_OFFSET) in
    put (s <| rtc_bak1 := partition_table_offset |>
           <| part_table := table_at (nor s) partition_table_offset |>);;
    s ← get;
    loader_addr ← (if negb (pt_magic (part_table s) =? PARTITION_TABLE_MAGIC) then
                     debug_uart_put_char "-"%char;; debug_uart_put_char "1"%char;; mret 0xffff
                   else mret loader_addr);
    debug_uart_put_char "-"%char;;
    ret ← (if loader_addr =? 0 then debug_uart_put_char "F"%char;; mret 0
           else if loader_addr =? 0x1000 then debug_uart_put_char "S"%char;; mret 0
           else debug_uart_put_char "E"%char;; mret (-1));
    debug_uart_put_char "-"%char;; mret ret.

(** strcmp against a name field that is not terminated runs past it. *)
Fixpoint find_part_in (l : list partition_entry) (nm : list Z) : option (option partition_entry) :=
  match l with
  | [] => Some None
  | e :: l' => c ← strcmp nm (name e); if c =? 0 then Some (Some e) else find_part_in l' nm
  end.
Definition find_part (nm : list Z) : LD (option partition_entry) :=
  s ← get; lift (find_part_in (parts (part_table s)) nm).

Definition better (ty : Z) (acc : Z * option partition_entry) (e : partition_entry) : Z * option partition_entry :=
  if type e =? ty then if acc.1 <? seq e then (seq e, Some e) else acc else acc.
Definition find_part_by_type (ty : Z) : LD (option partition_entry) :=
  s ← get; mret (fold_left (better ty) (parts (part_table s)) (-1, None)).2.

(** [for (...) cksum += *(pbuf + i)] over words [i .. i+n-1] of [base]. *)
Fixpoint sum_words (m : Z -> Z) (base i : Z) (n : nat) (cksum : Z) : Z :=
  match n with
  | O => cksum
  | S n' => sum_words m base (i + 1) n' (u32 (cksum + word_at m (base + 4 * i)))
  end.

Definition check_image_header (hdr : image_header) : LD Z :=
  if negb (magic hdr =? IMAGE_HEADER_MAGIC) then
    debug_uart_put_char "-"%char;; debug_uart_put_char "5"%char;; mret (-5)
  else
    let cksum := fold_left (fun c w => u32 (c + w)) (take 7 (hdr_words hdr)) 0x1234 in
    if negb (cksum =? hdr_checksum hdr) then
      debug_uart_put_char "-"%char;; debug_uart_put_char "6"%char;; mret (-6)
    else mret 0.

Definition image_cksum (m : Z -> Z) (data bytes_len : Z) : Z :=
  let cksum := sum_words m data 0 (Z.to_nat (IMAGE_HDR_OFFSET / 4)) 0x1234 in
  let i := (IMAGE_HDR_OFFSET + 32) / 4 in
  sum_words m data i (Z.to_nat (bytes_len - i)) cksum.
Definition check_image (hdr : image_header) (data : Z) : LD Z :=
  s ← get;
  let bytes_len := u32 (rom_end hdr - rom_start hdr) / 4 in
  if negb (image_cksum (cpu_mem s) data bytes_len =? data_checksum hdr) then
    debug_uart_put_char "-"%char;; debug_uart_put_char "7"%char;; mret (-7)
  else mret 0.

(** The header is a local variable of the caller: it is returned with the result. *)
Definition load_image (nor_phy_addr : Z) : LD (Z * image_header) :=
  if xip then
    let image_vaddr := 0x01f00000 in
    create_mapping nor_phy_addr image_vaddr;;
    s ← get;
    let hdr := header_at (cpu_mem s) (image_vaddr + IMAGE_HDR_OFFSET) in
    ret ← check_image_header hdr;
    ret ← (if truthy ret then mret ret
           else create_mapping nor_phy_addr (rom_start hdr);; check_image hdr (rom_start hdr));
    clear_mapping;;
    mret (ret, hdr)
  else
    s ← get;
    let img_hdr := header_at (nor s) (nor_phy_addr + IMAGE_HDR_OFFSET) in
    ret ← check_image_header img_hdr;
    if truthy ret then mret (ret, img_hdr) else
    brom_spi0_read nor_phy_addr (u32 (rom_end img_hdr - rom_start img_hdr)) (rom_start img_hdr);;
    ret ← check_image img_hdr (rom_start img_hdr);
    mret (ret, img_hdr).

Definition boot_app (nor_phy_addr : Z) : LD outcome :=
  '(ret, img_hdr) ← load_image nor_phy_addr;
  if truthy ret then debug_uart_put_char "-"%char;; debug_uart_put_char "9"%char;; mret (Returned (-9))
  else
    debug_uart_put_char "b"%char;;
    when xip (create_mapping nor_phy_addr (rom_start img_hdr));;
    mret (Jumped (entry img_hdr)).

Definition boot_app_by_name (app_name : list Z) : LD outcome :=
  part ← find_part app_name;
  match part with None => mret (Returned (-8)) | Some p => boot_app (offset p) end.
Definition boot_app_by_type (ty : Z) : LD outcome :=
  part ← find_part_by_type ty;
  match part with None => mret (Returned (-8)) | Some p => boot_app (offset p) end.

(** ** uart_adfu.c.  The UART protocol is in ROM: [uart_connect] answers the n-th attempt,
    [uart_open_ok] is whether the host opened the ADFU protocol. *)
Context (uart_connect : nat -> bool) (uart_open_ok : bool).
Definition UART_ADFU_RETRY_TIMES : nat := 1.
Fixpoint adfu_attempts (retry_times : nat) : Z :=
  match retry_times with
  | O => -1
  | S n => if uart_connect retry_times then if uart_open_ok then 0 else -1 else adfu_attempts n
  end.
(** [false]: the loader goes on; [true]: the server ran and the function spins. *)
Definition check_uart_adfu : LD bool :=
  if negb (adfu_attempts UART_ADFU_RETRY_TIMES =? 0) then mret false
  else when xip (event SpicacheReset);; event AdfuServer;; event AdfuClose;; mret true.

(** ** The reset entry.  [Returned] here is the endless loop at the end. *)
Definition main : LD outcome :=
  debug_uart_put_char "C"%char;; debug_uart_put_char "U"%char;; debug_uart_put_char "A"%char;;
  adfu ← check_uart_adfu;
  if (adfu : bool) then mret Adfu else
  let keycode := check_key in
  r ← gets reason;
  keycode ← (if reason_magic r =? LOADER_REBOOT_REASON_MAGIC then
               debug_uart_put_char "R"%char;;
               if reason_code r =? REBOOT_TYPE_GOTO_ADFU then debug_uart_put_char "U"%char;; mret KEY_ADFU
               else if reason_code r =? REBOOT_TYPE_GOTO_DTM then debug_uart_put_char "D"%char;; mret KEY_DTM
               else if reason_code r =? REBOOT_TYPE_GOTO_APP then debug_uart_put_char "A"%char;; mret KEY_APP
               else mret keycode
             else mret keycode);
  modify (fun s => s <| reason := RebootReason 0x55aa (reason_code (reason s)) |>);;
  e ← get_partition_table;
  if truthy e then mret (Returned 0) else
  if keycode =? KEY_ADFU then mret (Returned 0)
  else if keycode =? KEY_DTM then
    debug_uart_put_char "D"%char;;
    ret ← boot_app_by_type DTM_TYPE;
    match ret with
    | Returned r => when (truthy r) (debug_uart_put_char "-"%char);; mret ret
    | _ => mret ret
    end
  else
    debug_uart_put_char "A"%char;;
    ret ← boot_app_by_type SYSTEM_TYPE;
    match ret with
    | Returned r => when (truthy r) (debug_uart_put_char "-"%char);; mret ret
    | _ => mret ret
    end.
End Loader.

(** * Specification *)
(** The entry a type selects: the highest sequence number, the first of equals, and never a
    negative one. *)
Definition newest (ty : Z) (l : list partition_entry) (p : partition_entry) : Prop :=
  exists l1 l2, l = l1 ++ p :: l2 /\ type p = ty /\ 0 <= seq p /\
    Forall (fun q => type q = ty -> seq q < seq p) l1 /\
    Forall (fun q => type q = ty -> seq q <= seq p) l2.

Definition sum (l : list Z) : Z := fold_right Z.add 0 l.
Definition valid_header (h : image_header) : Prop :=
  magic h = IMAGE_HEADER_MAGIC /\ u32 (0x1234 + sum (take 7 (hdr_words h))) = hdr_checksum h.
Definition image_len (h : image_header) : Z := u32 (rom_end h - rom_start h).
(** The words the checksum covers: all but the header's and a trailing part word. *)
Definition data_words (m : Z -> Z) (a : Z) (h : image_header) : list Z :=
  (fun i => word_at m (a + 4 * i)) <$> (seqZ 0 48 ++ seqZ 56 (image_len h / 4 - 56)).
Definition valid_data (m : Z -> Z) (a : Z) (h : image_header) : Prop :=
  u32 (0x1234 + sum (data_words m a h)) = data_checksum h.

#[export] Instance valid_data_dec m a h : Decision (valid_data m a h).
Proof. unfold valid_data. apply _. Defined.
#[export] Instance valid_header_dec h : Decision (valid_header h).
Proof. unfold valid_header. apply _. Defined.

(** What runs when the application at flash address [a] is entered at [e]. *)
Definition running (xip : bool) (mapped : Z -> Z -> Z -> Z) (a e : Z) (s : machine) : Prop :=
  exists h, valid_header h /\ e = entry h /\
    if xip then h = header_at (mapped 0x01f00000 a) (0x01f00000 + IMAGE_HDR_OFFSET) /\
      valid_data (mapped (rom_start h) a) (rom_start h) h /\
      mapping_addr1 s = rom_start h /\ addr1_entry s = a
    else h = header_at (nor s) (a + IMAGE_HDR_OFFSET) /\ valid_data (ram s) (rom_start h) h /\
      forall i, 0 <= i < image_len h -> ram s (rom_start h + i) = nor s (a + i).

(** * Theorems *)
(** ** Selection *)
Lemma better_spec ty acc x :
  (type x = ty /\ acc.1 < seq x /\ better ty acc x = (seq x, Some x)) \/
  ((type x = ty -> seq x <= acc.1) /\ better ty acc x = acc).
Proof.
  unfold better. destruct (Z.eqb_spec (type x) ty); [|by right].
  destruct (Z.ltb_spec acc.1 (seq x)); [by left|right]. split; [lia|done].
Qed.
Lemma fold_better ty l k acc :
  let r := fold_left (better ty) l (k, acc) in
  (r = (k, acc) /\ Forall (fun q => type q = ty -> seq q <= k) l) \/
  (exists l1 p l2, l = l1 ++ p :: l2 /\ r = (seq p, Some p) /\ type p = ty /\ k < seq p /\
    Forall (fun q => type q = ty -> seq q < seq p) l1 /\ Forall (fun q => type q = ty -> seq q <= seq p) l2).
Proof.
  cbn zeta. induction l as [|x l IH] using rev_ind; [by left|]. rewrite fold_left_app. cbn [fold_left].
  destruct (better_spec ty (fold_left (better ty) l (k, acc)) x) as [(Hx & Hlt & ->)|(Hge & ->)];
    (destruct IH as [[E HF]|(l1 & p & l2 & -> & E & Hp & Hk & H1 & H2)]; rewrite E in *; cbn [fst] in *).
  - right. exists l, x, []. repeat split; try done.
    eapply Forall_impl; [exact HF|]. cbn beta. intros q Hq Ht. specialize (Hq Ht). lia.
  - right. exists (l1 ++ p :: l2), x, []. repeat split; try done; [lia|].
    apply Forall_app_2; [|apply Forall_cons_2; [lia|]]; (eapply Forall_impl; [eassumption|]); cbn beta; intros q Hq Ht;
      specialize (Hq Ht); lia.
  - left. split; [done|]. apply Forall_app_2; [done|]. by apply Forall_singleton.
  - right. exists l1, p, (l2 ++ [x]). rewrite <- app_assoc. repeat split; try done.
    apply Forall_app_2; [done|]. by apply Forall_singleton.
Qed.
Lemma select_newest ty l :
  match (fold_left (better ty) l (-1, None)).2 with
  | Some p => newest ty l p
  | None => Forall (fun q => type q = ty -> seq q < 0) l
  end.
Proof.
  destruct (fold_better ty l (-1) None) as [[-> HF]|(l1 & p & l2 & -> & -> & ? & ? & ? & ?)]; cbn [snd].
  - eapply Forall_impl; [exact HF|]. cbn beta. intros q Hq Ht. specialize (Hq Ht). lia.
  - exists l1, l2. repeat split; try done. lia.
Qed.

(** ** Checksums *)
Lemma u32_add_l c w : u32 (u32 c + w) = u32 (c + w).
Proof. unfold u32. by rewrite Z.add_mod_idemp_l. Qed.
Lemma fold_cksum l c : fold_left (fun c w => u32 (c + w)) l (u32 c) = u32 (c + sum l).
Proof.
  revert c. induction l as [|w l IH]; intros c; cbn [fold_left sum fold_right]; [by rewrite Z.add_0_r|].
  rewrite u32_add_l, IH. f_equal. fold (sum l). lia.
Qed.
Lemma sum_words_spec m base n : forall i c,
  sum_words m base i n (u32 c) = u32 (c + sum ((fun j => word_at m (base + 4 * j)) <$> seqZ i (Z.of_nat n))).
Proof.
  induction n as [|n IH]; intros i c; cbn [sum_words].
  - rewrite seqZ_nil by lia. cbn. by rewrite Z.add_0_r.
  - rewrite seqZ_cons by lia. rewrite u32_add_l, IH. cbn [fmap list_fmap sum fold_right]. replace (Z.pred (Z.of_nat (S n))) with (Z.of_nat n) by lia.
    f_equal. unfold sum. by rewrite Z.add_1_r, Z.add_assoc.
Qed.
Lemma sum_app l1 l2 : sum (l1 ++ l2) = sum l1 + sum l2.
Proof. induction l1 as [|x l IH]; [done|]. change (x + sum (l ++ l2) = x + sum l + sum l2). lia. Qed.
Lemma image_cksum_spec m a h : image_cksum m a (image_len h / 4) = u32 (0x1234 + sum (data_words m a h)).
Proof.
  unfold image_cksum. change 0x1234 with (u32 0x1234). rewrite !sum_words_spec.
  unfold data_words. rewrite fmap_app, sum_app. change (u32 4660) with 4660.
  change ((IMAGE_HDR_OFFSET + 32) / 4) with 56. change (Z.of_nat (Z.to_nat (IMAGE_HDR_OFFSET / 4))) with 48.
  destruct (Z.le_gt_cases 56 (image_len h / 4)).
  - rewrite Z2Nat.id by lia. by rewrite Z.add_assoc.
  - rewrite !(seqZ_nil 56) by lia. by rewrite Z.add_assoc.
Qed.

(** ** What the functions do *)
Definition kept (s s' : machine) : Prop :=
  nor s' = nor s /\ part_table s' = part_table s /\ reason s' = reason s.
Lemma kept_trans s1 s2 s3 : kept s1 s2 -> kept s2 s3 -> kept s1 s3.
Proof. intros (? & ? & ?) (? & ? & ?). repeat split; congruence. Qed.

Lemma check_image_header_spec h s :
  exists s', check_image_header h s = Some (if decide (magic h = IMAGE_HEADER_MAGIC) then
      if decide (u32 (0x1234 + sum (take 7 (hdr_words h))) = hdr_checksum h) then 0 else -6 else -5, s') /\
    kept s s' /\ ram s' = ram s /\ mapping_addr1 s' = mapping_addr1 s /\ addr1_entry s' = addr1_entry s.
Proof.
  unfold check_image_header. change 0x1234 with (u32 0x1234) at 1. rewrite fold_cksum. change (u32 4660) with 4660.
  destruct (Z.eqb_spec (magic h) IMAGE_HEADER_MAGIC) as [E|E];
    [rewrite decide_True by done|rewrite decide_False by done; by eexists].
  destruct (Z.eqb_spec (u32 (4660 + sum (take 7 (hdr_words h)))) (hdr_checksum h)) as [E'|E'];
    [rewrite decide_True by done|rewrite decide_False by done]; by eexists.
Qed.
Lemma check_image_spec xip mapped h a s :
  exists s', check_image xip mapped h a s =
      Some (if decide (valid_data (cpu_mem xip mapped s) a h) then 0 else -7, s') /\
    kept s s' /\ ram s' = ram s /\ mapping_addr1 s' = mapping_addr1 s /\ addr1_entry s' = addr1_entry s.
Proof.
  unfold check_image. munfold. fold (image_len h). rewrite image_cksum_spec.
  destruct (Z.eqb_spec (u32 (4660 + sum (data_words (cpu_mem xip mapped s) a h))) (data_checksum h)) as [E'|E'];
    [rewrite decide_True by done|rewrite decide_False by done]; by eexists.
Qed.
Lemma header_result h (d : Z) :
  (if decide (magic h = IMAGE_HEADER_MAGIC) then
     if decide (u32 (0x1234 + sum (take 7 (hdr_words h))) = hdr_checksum h) then d else -6 else -5) =
  if decide (valid_header h) then d else if decide (magic h = IMAGE_HEADER_MAGIC) then -6 else -5.
Proof. unfold valid_header. by repeat case_decide; intuition. Qed.

(** The image of [a] as the build's [load_image] sees it, in the memory it is loaded to. *)
Definition header_of (xip : bool) (mapped : Z -> Z -> Z -> Z) (f : Z -> Z) (a : Z) : image_header :=
  if xip then header_at (mapped 0x01f00000 a) (0x01f00000 + IMAGE_HDR_OFFSET)
  else header_at f (a + IMAGE_HDR_OFFSET).
Definition loaded (f r : Z -> Z) (a : Z) (h : image_header) : Z -> Z :=
  fun i => if (rom_start h <=? i) && (i <? rom_start h + image_len h) then f (a + (i - rom_start h)) else r i.

Lemma load_image_spec xip mapped a s :
  let h := header_of xip mapped (nor s) a in
  exists r s', load_image xip mapped a s = Some ((r, h), s') /\ kept s s' /\
    (r = 0 <-> valid_header h /\
      valid_data (if xip then mapped (rom_start h) a else loaded (nor s) (ram s) a h) (rom_start h) h) /\
    (xip = true -> mapping_addr1 s' = 0 /\ addr1_entry s' = 0 /\ ram s' = ram s) /\
    (xip = false -> valid_header h -> ram s' = loaded (nor s) (ram s) a h).
Proof.
  cbn zeta. unfold load_image, header_of. destruct xip.
  - unfold create_mapping, clear_mapping, cpu_mem. munfold. cbn [mapping_addr1 addr1_entry].
    match goal with |- context [check_image_header _ ?s1] => set (s1' := s1) end.
    change (mapping_addr1 s1') with 32505856. change (addr1_entry s1') with a.
    set (h := header_at (mapped 32505856 a) (32505856 + IMAGE_HDR_OFFSET)).
    destruct (check_image_header_spec h s1') as (s2 & -> & K2 & R2 & M2 & A2). rewrite header_result.
    destruct (decide (valid_header h)) as [V|V].
    + change (truthy 0) with false. cbv iota beta.
      match goal with |- context [check_image true mapped h ?x ?s3] => destruct (check_image_spec true mapped h x s3) as (s4 & -> & K4 & R4 & M4 & A4) end.
      eexists _, _. split; [reflexivity|]. split.
      { eapply kept_trans; [|eapply kept_trans; [exact K2|exact K4]]. done. }
      split; [|split; [|done]].
      * match goal with |- context [cpu_mem true mapped ?s3] => change (cpu_mem true mapped s3) with (mapped (rom_start h) a) end.
        case_decide; split; intros; intuition (done || lia).
      * intros _. repeat split. change (ram s4 = ram s). rewrite R4. exact R2.
    + assert (truthy (if decide (magic h = IMAGE_HEADER_MAGIC) then -6 else -5) = true) as -> by (by case_decide).
      eexists _, _. split; [reflexivity|]. split; [done|].
      split; [|split; [|done]]; [case_decide; split; intros; intuition (done || lia)|].
      intros _. repeat split. exact R2.
  - unfold brom_spi0_read. munfold. set (h := header_at (nor s) (a + IMAGE_HDR_OFFSET)).
    destruct (check_image_header_spec h s) as (s2 & -> & K2 & R2 & M2 & A2). rewrite header_result.
    destruct (decide (valid_header h)) as [V|V].
    + change (truthy 0) with false. cbv iota beta. fold (image_len h).
      match goal with |- context [check_image false mapped h ?x ?s3] => destruct (check_image_spec false mapped h x s3) as (s4 & -> & K4 & R4 & M4 & A4) end.
      eexists _, _. split; [reflexivity|]. split; [eapply kept_trans; [exact K2|exact K4]|].
      match goal with |- context [cpu_mem false mapped ?s3] =>
        change (cpu_mem false mapped s3) with (loaded (nor s2) (ram s2) a h); change (ram s3) with (loaded (nor s2) (ram s2) a h) in R4 end.
      destruct K2 as (N2 & _). rewrite N2, R2 in *.
      split; [|split; [done|done]]. case_decide; split; intros; intuition (done || lia).
    + assert (truthy (if decide (magic h = IMAGE_HEADER_MAGIC) then -6 else -5) = true) as -> by (by case_decide).
      eexists _, _. split; [reflexivity|]. split; [done|].
      split; [|done]. case_decide; split; intros; intuition (done || lia).
Qed.

Definition bootable (xip : bool) (mapped : Z -> Z -> Z -> Z) (f r : Z -> Z) (a : Z) : Prop :=
  let h := header_of xip mapped f a in
  valid_header h /\ valid_data (if xip then mapped (rom_start h) a else loaded f r a h) (rom_start h) h.
#[export] Instance bootable_dec xip mapped f r a : Decision (bootable xip mapped f r a).
Proof. unfold bootable. apply _. Defined.

Lemma loaded_image f r a h i : 0 <= i < image_len h -> loaded f r a h (rom_start h + i) = f (a + i).
Proof.
  intros Hi. unfold loaded. destruct (Z.leb_spec (rom_start h) (rom_start h + i)); [|lia].
  destruct (Z.ltb_spec (rom_start h + i) (rom_start h + image_len h)); [|lia]. cbn [andb]. f_equal. lia.
Qed.

Lemma boot_app_spec xip mapped a s :
  exists s', boot_app xip mapped a s =
      Some (if decide (bootable xip mapped (nor s) (ram s) a) then Jumped (entry (header_of xip mapped (nor s) a))
            else Returned (-9), s') /\ kept s s' /\
    (bootable xip mapped (nor s) (ram s) a -> running xip mapped a (entry (header_of xip mapped (nor s) a)) s').
Proof.
  unfold boot_app. destruct (load_image_spec xip mapped a s) as (r & s1 & E & K & Hr & Hx & Hn).
  munfold. rewrite E. cbv iota beta. fold (bootable xip mapped (nor s) (ram s) a) in Hr.
  destruct (decide (bootable _ _ _ _ _)) as [B|B].
  - replace r with 0 by (symmetry; by apply Hr). change (truthy 0) with false. cbv iota beta.
    destruct B as [V D]. unfold header_of in *. destruct xip;
      (eexists; split; [reflexivity|]; split; [exact K|]; intros _;
       eexists; split; [exact V|]; split; [reflexivity|]); [by repeat split|].
    change (nor (set_field _ s1)) with (nor s1). change (ram (set_field _ s1)) with (ram s1).
    destruct K as (-> & _). rewrite (Hn eq_refl V). split; [done|]. split; [exact D|].
    intros i Hi. by apply loaded_image.
  - assert (truthy r = true) as ->.
    { unfold truthy. destruct (Z.eqb_spec r 0) as [R|]; [by apply Hr in R|done]. }
    eexists. split; [reflexivity|]. by split.
Qed.

(** The partition table in use. *)
Definition table_of (xip : bool) (s : machine) : partition_table :=
  if xip then part_table s
  else table_at (nor s) (u32 (word_at (ram s) SPI0_LAUNCHER_LOADER_ADDR + PARTITION_TABLE_OFFSET)).
(** The table is there, and this loader is one of the two copies. *)
Definition good_table (xip : bool) (s : machine) : Prop :=
  pt_magic (table_of xip s) = PARTITION_TABLE_MAGIC /\
  let at_ := if xip then addr0_entry s else word_at (ram s) SPI0_LAUNCHER_LOADER_ADDR in at_ = 0 \/ at_ = 0x1000.
Lemma get_partition_table_spec xip s :
  exists r s', get_partition_table xip s = Some (r, s') /\ nor s' = nor s /\ ram s' = ram s /\
    reason s' = reason s /\ part_table s' = table_of xip s /\
    (r = 0 <-> good_table xip s).
Proof.
  unfold get_partition_table, good_table, table_of, debug_uart_put_char. munfold. destruct xip.
  - destruct (Z.eqb_spec (pt_magic (part_table s)) PARTITION_TABLE_MAGIC) as [E|E]; cbn [negb];
      [|eexists _, _; split; [reflexivity|]; repeat split; try done; by intros [? _]].
    cbv iota beta. destruct (Z.eqb_spec (addr0_entry s) 0); [|destruct (Z.eqb_spec (addr0_entry s) 4096)];
      (eexists _, _; split; [reflexivity|]; repeat split; try done; auto; by intros [_ [?|?]]).
  - cbn [part_table]. match goal with |- context [pt_magic ?t] => destruct (Z.eqb_spec (pt_magic t) PARTITION_TABLE_MAGIC) as [E|E] end;
      cbn [negb]; cbv iota beta;
      [|eexists _, _; split; [reflexivity|]; repeat split; try done; by intros [? _]].
    destruct (Z.eqb_spec (word_at (ram s) SPI0_LAUNCHER_LOADER_ADDR) 0);
      [|destruct (Z.eqb_spec (word_at (ram s) SPI0_LAUNCHER_LOADER_ADDR) 4096)];
      (eexists _, _; split; [reflexivity|]; repeat split; try done; auto; by intros [_ [?|?]]).
Qed.

(** The type of image a reset reason asks for; [None] asks for none. *)
Definition wants (r : reboot_reason) : option Z :=
  if reason_magic r =? LOADER_REBOOT_REASON_MAGIC then
    if reason_code r =? REBOOT_TYPE_GOTO_ADFU then None
    else if reason_code r =? REBOOT_TYPE_GOTO_DTM then Some DTM_TYPE else Some SYSTEM_TYPE
  else Some SYSTEM_TYPE.

Lemma newest_elem ty l p : newest ty l p -> p ∈ l /\ type p = ty.
Proof. intros (l1 & l2 & -> & Ht & _). split; [|done]. apply elem_of_app. right. by left. Qed.
Lemma newest_selected ty l p : newest ty l p -> (fold_left (better ty) l (-1, None)).2 = Some p.
Proof.
  intros (l1 & l2 & -> & Ht & Hs & H1 & H2). rewrite fold_left_app. cbn [fold_left].
  assert ((fold_left (better ty) l1 (-1, None)).1 < seq p) as Hlt.
  { destruct (fold_better ty l1 (-1) None) as [[-> _]|(k1 & q & k2 & -> & -> & Hq & _)]; cbn [fst]; [lia|].
    apply Forall_app in H1 as [_ H1]. apply Forall_cons in H1 as [H1 _]. auto. }
  destruct (better_spec ty (fold_left (better ty) l1 (-1, None)) p) as [(_ & _ & ->)|[Hge _]]; [|specialize (Hge Ht); lia].
  destruct (fold_better ty l2 (seq p) (Some p)) as [[-> _]|(k1 & q & k2 & -> & -> & Hq & Hk & _)]; [done|].
  apply Forall_app in H2 as [_ H2]. apply Forall_cons in H2 as [H2 _]. specialize (H2 Hq). lia.
Qed.

Lemma boot_app_by_type_spec xip mapped ty s :
  exists o s', boot_app_by_type xip mapped ty s = Some (o, s') /\ kept s s' /\
    match o with
    | Jumped e => exists p, newest ty (parts (part_table s)) p /\ running xip mapped (offset p) e s'
    | Returned r => truthy r = true /\
        forall p, newest ty (parts (part_table s)) p -> ~ bootable xip mapped (nor s) (ram s) (offset p)
    | Adfu => False
    end.
Proof.
  unfold boot_app_by_type, find_part_by_type. munfold. pose proof (select_newest ty (parts (part_table s))) as Hn.
  destruct (fold_left (better ty) _ _).2 as [p|] eqn:Ep.
  - destruct (boot_app_spec xip mapped (offset p) s) as (s' & -> & K & R). eexists _, _. split; [reflexivity|].
    split; [done|]. case_decide as B; [by eauto|]. split; [done|]. intros q Hq%newest_selected.
    rewrite Ep in Hq. by injection Hq as <-.
  - eexists _, _. split; [reflexivity|]. split; [done|]. split; [done|]. intros q Hq%newest_selected. congruence.
Qed.

Section Main.
Context (xip : bool) (mapped : Z -> Z -> Z -> Z) (s : machine).
(** How a run from [s] that is not taken over by a download host may end. *)
Definition booted (o : outcome) (s' : machine) : Prop :=
  reason_magic (reason s') <> LOADER_REBOOT_REASON_MAGIC /\ nor s' = nor s /\
  match o with
  | Jumped e => exists ty p, wants (reason s) = Some ty /\ good_table xip s /\
      newest ty (parts (table_of xip s)) p /\ running xip mapped (offset p) e s'
  | Returned _ => forall ty p, wants (reason s) = Some ty -> good_table xip s ->
      newest ty (parts (table_of xip s)) p -> ~ bootable xip mapped (nor s) (ram s) (offset p)
  | Adfu => False
  end.

Lemma ends_put_char c (s1 : machine) (Q : unit -> machine -> Prop) :
  Q tt (s1 <| console ::= (fun t => t ++ [Put c]) |>) -> ends (debug_uart_put_char c) s1 Q.
Proof. done. Qed.

Lemma boot_tail ty s1 :
  nor s1 = nor s -> ram s1 = ram s -> part_table s1 = table_of xip s -> reason_magic (reason s1) = 0x55aa ->
  wants (reason s) = Some ty -> good_table xip s ->
  ends (ret ← boot_app_by_type xip mapped ty;
    match ret with
    | Returned r => when (truthy r) (debug_uart_put_char "-"%char);; mret ret
    | _ => mret ret
    end) s1 booted.
Proof.
  intros N R T M W G. apply ends_bind. unfold ends at 1.
  destruct (boot_app_by_type_spec xip mapped ty s1) as (o & s' & -> & (N' & _ & M') & H).
  rewrite T, N, R in H.
  assert (reason_magic (reason s') <> LOADER_REBOOT_REASON_MAGIC) as M2 by (rewrite M', M; done).
  destruct o as [r|e|]; [|split; [done|]; split; [congruence|]; destruct H as (p & ? & ?); by exists ty, p|done].
  destruct H as [-> H]. cbn [when]. apply ends_bind, ends_put_char, ends_ret.
  split; [done|]. split; [cbn; congruence|]. intros ty' p Hw _ Hp. rewrite W in Hw. injection Hw as <-. auto.
Qed.

Lemma main_boots uart_connect uart_open_ok : adfu_attempts uart_connect uart_open_ok UART_ADFU_RETRY_TIMES <> 0 ->
  ends (main xip mapped uart_connect uart_open_ok) s booted.
Proof.
  intros Ha. unfold main, check_uart_adfu. apply Z.eqb_neq in Ha. rewrite Ha. cbn [negb].
  do 3 (apply ends_bind, ends_put_char). apply ends_bind, ends_ret. cbv iota beta.
  apply ends_bind, ends_gets. apply ends_bind.
  match goal with |- ends ?m ?s1 ?K => assert (forall k s2, nor s2 = nor s -> ram s2 = ram s -> part_table s2 = part_table s ->
    addr0_entry s2 = addr0_entry s ->
    wants (reason s) = (if k =? KEY_ADFU then None else if k =? KEY_DTM then Some DTM_TYPE else Some SYSTEM_TYPE) ->
    K k s2) as HK end.
  { intros k s2 N R T A W. apply ends_bind, ends_modify. apply ends_bind. unfold ends at 1.
    set (s3 := set_field _ s2).
    destruct (get_partition_table_spec xip s3) as (r & s4 & -> & N4 & R4 & M4 & T4 & G).
    assert (table_of xip s3 = table_of xip s) as ET.
    { unfold table_of. change (part_table s3) with (part_table s2). change (nor s3) with (nor s2).
      change (ram s3) with (ram s2). by rewrite T, N, R. }
    assert (good_table xip s3 <-> good_table xip s) as EG.
    { unfold good_table. rewrite ET. change (addr0_entry s3) with (addr0_entry s2).
      change (ram s3) with (ram s2). by rewrite A, R. }
    rewrite ET in T4. change (nor s3) with (nor s2) in N4. change (ram s3) with (ram s2) in R4.
    assert (reason_magic (reason s4) = 0x55aa) as M by (by rewrite M4).
    assert (reason_magic (reason s4) <> LOADER_REBOOT_REASON_MAGIC) as M' by (by rewrite M).
    destruct (truthy r) eqn:Er.
    { apply ends_ret. split; [done|]. split; [congruence|]. intros ty p _ Hg _. apply EG, G in Hg. by subst r. }
    assert (good_table xip s) as Hg by (apply EG, G; revert Er; unfold truthy; by destruct (Z.eqb_spec r 0)).
    destruct (k =? KEY_ADFU); [|destruct (k =? KEY_DTM)].
    - apply ends_ret. split; [done|]. split; [congruence|]. intros ty p Hw. congruence.
    - apply ends_bind, ends_put_char, boot_tail; cbn; congruence || done.
    - apply ends_bind, ends_put_char, boot_tail; cbn; congruence || done. }
  unfold wants in HK. change (reason (set_field _ _)) with (reason s) at 1.
  change (reason (set_field _ _)) with (reason s) in *.
  destruct (reason_magic (reason s) =? LOADER_REBOOT_REASON_MAGIC); [|by apply ends_ret, HK].
  apply ends_bind, ends_put_char.
  destruct (reason_code (reason s) =? REBOOT_TYPE_GOTO_ADFU); [by apply ends_bind, ends_put_char, ends_ret, HK|].
  destruct (reason_code (reason s) =? REBOOT_TYPE_GOTO_DTM); [by apply ends_bind, ends_put_char, ends_ret, HK|].
  destruct (reason_code (reason s) =? REBOOT_TYPE_GOTO_APP); [by apply ends_bind, ends_put_char, ends_ret, HK|].
  by apply ends_ret, HK.
Qed.
End Main.

(** ** A changed word is noticed *)
Definition bytes_ok (f : Z -> Z) : Prop := forall i, 0 <= f i < 256.
Lemma word_range f a : bytes_ok f -> 0 <= word_at f a < 2 ^ 32.
Proof. intros H. unfold word_at. pose proof (H a). pose proof (H (a + 1)). pose proof (H (a + 2)). pose proof (H (a + 3)). lia. Qed.
Lemma word_same f g a : (forall i, a <= i < a + 4 -> f i = g i) -> word_at f a = word_at g a.
Proof. intros H. unfold word_at. by rewrite !H by lia. Qed.
Lemma u32_cancel c x y : u32 (c + x) = u32 (c + y) -> 0 <= x < 2 ^ 32 -> 0 <= y < 2 ^ 32 -> x = y.
Proof.
  unfold u32. intros H Hx Hy. assert ((x - y) mod 2 ^ 32 = 0) as E.
  { replace (x - y) with ((c + x) - (c + y)) by lia. rewrite Zminus_mod, H, Z.sub_diag. done. }
  apply Z.mod_divide in E as [q Hq]; [|lia]. nia.
Qed.
Lemma sum_change (g g' : Z -> Z) k l : NoDup l -> k ∈ l -> (forall i, i ∈ l -> i <> k -> g' i = g i) ->
  exists c, sum (g <$> l) = c + g k /\ sum (g' <$> l) = c + g' k.
Proof.
  induction 1 as [|x l Hx Hl IH]; intros Hk Hg; [by apply elem_of_nil in Hk|].
  change (sum (g <$> x :: l)) with (g x + sum (g <$> l)). change (sum (g' <$> x :: l)) with (g' x + sum (g' <$> l)).
  apply elem_of_cons in Hk as [<-|Hk].
  - exists (sum (g <$> l)). replace (g' <$> l) with (g <$> l); [lia|].
    apply list_fmap_ext. intros i y Hy%list_elem_of_lookup_2. symmetry. apply Hg; [by right|by intros ->].
  - destruct (IH Hk) as (c & H1 & H2); [intros; apply Hg; [by right|done]|].
    exists (g x + c). rewrite H1, H2, (Hg x); [lia|left|by intros ->].
Qed.

Section Corruption.
Context (f g r : Z -> Z) (a k : Z).
Hypothesis (Hf : bytes_ok f) (Hg : bytes_ok g).
Hypothesis same : forall i, ~ (a + 4 * k <= i < a + 4 * k + 4) -> g i = f i.
Hypothesis changed : word_at g (a + 4 * k) <> word_at f (a + 4 * k).

Lemma word_elsewhere j : j <> k -> word_at g (a + 4 * j) = word_at f (a + 4 * j).
Proof using same. intros Hj. apply word_same. intros i Hi. apply same. lia. Qed.

Lemma header_words m : hdr_words (header_at m (a + IMAGE_HDR_OFFSET)) = (fun i => word_at m (a + 4 * i)) <$> seqZ 48 8.
Proof using.
  unfold hdr_words, header_at. cbn [magic rom_start rom_end entry reserve0 reserve1 data_checksum hdr_checksum].
  change (seqZ 48 8) with [48; 49; 50; 51; 52; 53; 54; 55]. cbn [fmap list_fmap].
  unfold IMAGE_HDR_OFFSET. rewrite <- !Z.add_assoc. reflexivity.
Qed.
Lemma header_same : ~ 48 <= k < 56 -> header_at g (a + IMAGE_HDR_OFFSET) = header_at f (a + IMAGE_HDR_OFFSET).
Proof using same. intros Hk. unfold header_at. f_equal; apply word_same; intros i Hi; apply same; unfold IMAGE_HDR_OFFSET in Hi; lia. Qed.

Lemma header_corrupted : 48 <= k < 56 ->
  valid_header (header_at f (a + IMAGE_HDR_OFFSET)) -> ~ valid_header (header_at g (a + IMAGE_HDR_OFFSET)).
Proof using Hf Hg changed same.
  intros Hk [M1 S1] [M2 S2]. rewrite header_words in S1, S2.
  assert (forall m, magic (header_at m (a + IMAGE_HDR_OFFSET)) = word_at m (a + 4 * 48)) as EM by done.
  assert (forall m, hdr_checksum (header_at m (a + IMAGE_HDR_OFFSET)) = word_at m (a + 4 * 55)) as EC.
  { intros m. cbn. unfold IMAGE_HDR_OFFSET. f_equal. lia. }
  rewrite EC, <- fmap_take in S1, S2. change (take 7 (seqZ 48 8)) with (seqZ 48 7) in *.
  rewrite EM in M1, M2. destruct (decide (k = 48)) as [Ek|N0]; [rewrite Ek in changed; congruence|].
  destruct (decide (k = 55)) as [Ek|N7].
  - apply changed. rewrite Ek, <- S1, <- S2. do 2 f_equal. f_equal. apply list_fmap_ext.
    intros i y Hy%list_elem_of_lookup_2%elem_of_seqZ. apply word_elsewhere. lia.
  - destruct (sum_change (fun i => word_at f (a + 4 * i)) (fun i => word_at g (a + 4 * i)) k (seqZ 48 7)) as (c & E1 & E2).
    { apply NoDup_seqZ. } { apply elem_of_seqZ. lia. } { intros i _ Hi. by apply word_elsewhere. }
    rewrite E1, Z.add_assoc in S1. rewrite E2, Z.add_assoc, (word_elsewhere 55) in S2 by lia.
    apply changed. eapply u32_cancel; [by rewrite S1, S2|by apply word_range..].
Qed.

Lemma data_corrupted h : 0 <= k < image_len h / 4 -> ~ 48 <= k < 56 ->
  valid_data (loaded f r a h) (rom_start h) h -> ~ valid_data (loaded g r a h) (rom_start h) h.
Proof using Hf Hg changed same.
  unfold valid_data, data_words. intros Hk Hh V1 V2.
  assert (forall m, word_at (loaded m r a h) (rom_start h + 4 * k) = word_at m (a + 4 * k)) as EK.
  { intros m. assert (4 * k + 4 <= image_len h) by (Z.to_euclidean_division_equations; lia).
    unfold word_at. rewrite <- !Z.add_assoc. by rewrite !loaded_image by lia. }
  destruct (sum_change (fun i => word_at (loaded f r a h) (rom_start h + 4 * i))
    (fun i => word_at (loaded g r a h) (rom_start h + 4 * i)) k (seqZ 0 48 ++ seqZ 56 (image_len h / 4 - 56))) as (c & E1 & E2).
  { apply NoDup_app. repeat split; try apply NoDup_seqZ. intros x Hx%elem_of_seqZ Hx'%elem_of_seqZ. lia. }
  { apply elem_of_app. rewrite !elem_of_seqZ. lia. }
  { intros i _ Hi. apply word_same. intros j Hj. unfold loaded. case_match; [|done]. apply same. lia. }
  rewrite E1, Z.add_assoc in V1. rewrite E2, Z.add_assoc in V2. rewrite EK in V1, V2.
  apply changed. eapply u32_cancel; [by rewrite V1, V2|by apply word_range..].
Qed.
End Corruption.

(** C4. after a reset the loader either serves a connected download host, or runs exactly the
    image the reset reason asks for: the one with the highest sequence number among the
    entries of that type in a good partition table, and only if its header and its data
    have the checksums they name; the image is then in memory (or mapped) as it is in the
    flash.  It stops only if there is no such image.  A reset reason is consumed. *)
Theorem loader_boots_newest_verified xip mapped uart_connect uart_open_ok s :
  if adfu_attempts uart_connect uart_open_ok UART_ADFU_RETRY_TIMES =? 0
  then uart_connect 1%nat = true /\ uart_open_ok = true /\
    ends (main xip mapped uart_connect uart_open_ok) s (fun o _ => o = Adfu)
  else ends (main xip mapped uart_connect uart_open_ok) s (booted xip mapped s).
Proof.
  destruct (Z.eqb_spec (adfu_attempts uart_connect uart_open_ok UART_ADFU_RETRY_TIMES) 0) as [E|E].
  - assert (uart_connect 1%nat = true /\ uart_open_ok = true) as [C O].
    { revert E. cbn. destruct (uart_connect 1%nat), uart_open_ok; done. }
    split; [done|]. split; [done|]. unfold main, check_uart_adfu. rewrite E. by destruct xip.
  - by apply main_boots.
Qed.

(** C26. an image that runs stops running when one of its words is changed, be it in the
    header or in the data: the loader refuses it. *)
Theorem corrupted_image_refused mapped a s f e s1 k :
  bytes_ok (nor s) -> bytes_ok f ->
  boot_app false mapped a s = Some (Jumped e, s1) ->
  let h := header_at (nor s) (a + IMAGE_HDR_OFFSET) in
  48 <= k < 56 \/ 0 <= k < image_len h / 4 ->
  (forall i, ~ (a + 4 * k <= i < a + 4 * k + 4) -> f i = nor s i) ->
  word_at f (a + 4 * k) <> word_at (nor s) (a + 4 * k) ->
  ends (boot_app false mapped a) (s <| nor := f |>) (fun o _ => o = Returned (-9)).
Proof.
  intros Hb Hf E h Hk Hsame Hch.
  destruct (boot_app_spec false mapped a s) as (s1' & E' & _). rewrite E in E'. case_decide as B; [|done]. clear E E'.
  destruct (boot_app_spec false mapped a (s <| nor := f |>)) as (s2 & E2 & _). unfold ends. rewrite E2.
  change (nor (s <| nor := f |>)) with f. change (ram (s <| nor := f |>)) with (ram s).
  rewrite decide_False; [done|]. intros [V2 D2]. destruct B as [V1 D1]. cbn [header_of] in *. fold h in V1, D1.
  destruct (decide (48 <= k < 56)) as [Hin|Hout].
  - by apply (header_corrupted (nor s) f a k Hb Hf Hsame Hch Hin V1).
  - rewrite (header_same (nor s) f a k Hsame Hout) in D2. fold h in D2.
    by apply (data_corrupted (nor s) f (ram s) a k Hb Hf Hsame Hch h ltac:(lia) Hout D1).
Qed.

(** ** A reboot request across the reset *)
(** The registers that survive the reset, after the stores of a driver's trace. *)
Definition reason_store (r : reboot_reason) (e : bus_event) : reboot_reason :=
  match e with
  | WrReg a v => if a =? REBOOT_REASON_ADDR then RebootReason v (reason_code r)
                 else if a =? REBOOT_REASON_ADDR + 4 then RebootReason (reason_magic r) v else r
  | _ => r
  end.
Definition reason_after (tr : list bus_event) (r : reboot_reason) : reboot_reason := fold_left reason_store tr r.


(** ** A flash with two applications, the second the newer one, and a test image *)
Definition demo_image (at_ e : Z) : list (Z * Z) :=
  let rs := 0x20000000 in let data := 0x1234 + 1 + 2 + 3 + 4 in
  let h := [IMAGE_HEADER_MAGIC; rs; rs + 240; e; 0; 0; data] in
  imap (fun i w => (at_ + IMAGE_HDR_OFFSET + 4 * Z.of_nat i, w)) (h ++ [u32 (0x1234 + sum h)] ++ [1; 2; 3; 4]).
Definition demo_entry (i ty off sq : Z) : list (Z * Z) :=
  let b := 0xc10 + 24 * i in [(b + 8, ty); (b + 12, off); (b + 16, sq)].
Definition demo_words : list (Z * Z) :=
  [(0xc00, PARTITION_TABLE_MAGIC)] ++ demo_entry 0 SYSTEM_TYPE 0x10000 0 ++ demo_entry 1 SYSTEM_TYPE 0x30000 1 ++
  demo_entry 2 DTM_TYPE 0x50000 0 ++
  demo_image 0x10000 0x20000101 ++ demo_image 0x30000 0x20000201 ++ demo_image 0x50000 0x20000301.
Fixpoint demo_word (l : list (Z * Z)) (a : Z) : Z :=
  match l with [] => 0 | (b, w) :: l' => if a =? b then w else demo_word l' a end.
Definition demo_nor (i : Z) : Z := u8 (Z.shiftr (demo_word demo_words (i / 4 * 4)) (8 * (i mod 4))).
Definition demo (r : reboot_reason) : machine :=
  Machine demo_nor (fun _ => 0) (PartitionTable 0 []) 0 r 0 0 0 [].
Definition demo_flipped (i : Z) : Z := if i =? 0x30000 + 4 * 58 then 7 else demo_nor i.

Lemma demo_nor_bytes : bytes_ok demo_nor.
Proof. intros i. apply u8_range. Qed.
Example demo_boots_newer : (fun o => fst <$> o) (main false (fun _ _ _ => 0) (fun _ => false) false (demo (RebootReason 0 0))) =
  Some (Jumped 0x20000201).
Proof. by vm_compute. Qed.

Lemma demo_runs : exists s1, boot_app false (fun _ _ _ => 0) 0x30000 (demo (RebootReason 0 0)) = Some (Jumped 0x20000201, s1).
Proof.
  destruct (boot_app_spec false (fun _ _ _ => 0) 0x30000 (demo (RebootReason 0 0))) as (s1 & -> & _). exists s1.
  rewrite decide_True; [|apply (bool_decide_unpack _); by vm_compute]. by vm_compute.
Qed.
Lemma corrupted_image_refused_witness :
  ends (boot_app false (fun _ _ _ => 0) 0x30000) ((demo (RebootReason 0 0)) <| nor := demo_flipped |>)
    (fun o _ => o = Returned (-9)).
Proof.
  destruct demo_runs as [s1 E].
  apply (corrupted_image_refused (fun _ _ _ => 0) 0x30000 (demo (RebootReason 0 0)) demo_flipped 0x20000201 s1 58 demo_nor_bytes).
  - intros i. unfold demo_flipped. destruct (i =? _); [lia|apply demo_nor_bytes].
  - exact E.
  - right. split; [done|by vm_compute].
  - intros i Hi. unfold demo_flipped. by destruct (Z.eqb_spec i (0x30000 + 4 * 58)); [lia|].
  - by vm_compute.
Defined.

