(* ===== verification/AtMisc.v ===== *)
(** * Conversions of the serial module (samples/ble_module: misc.c; bt_host_config_init.c)

    Sorting and averaging of signal strengths, classification of parameter strings, and
    device addresses as text and back. *)
From Stdlib Require Import Sorted.
From S2P Require Import Prelude CString Gatt.
#[local] Open Scope Z_scope.

Definition EINVAL : Z := 22.

(** ** misc.c *)
Definition is_hex_char (c : Z) : bool :=
  ((48 <=? c) && (c <=? 57)) || ((97 <=? c) && (c <=? 102)) || ((65 <=? c) && (c <=? 70)).
Definition is_decimal_char (c : Z) : bool := (48 <=? c) && (c <=? 57).
Definition is_hex_string (b : list Z) : option bool :=
  s ← cstr b; Some (negb (Nat.eqb (length s) 0) && forallb is_hex_char s).
Definition is_decimal_string (b : list Z) : option bool :=
  s ← cstr b; Some (negb (Nat.eqb (length s) 0) && forallb is_decimal_char s).

(** One pass moves the smallest of the first [n] entries to the end. *)
Fixpoint bubble_pass (A : list Z) (i : Z) (n : nat) : option (list Z) :=
  match n with
  | O => Some A
  | S n =>
      x ← rd A i; y ← rd A (i + 1);
      A ← (if x <? y then A ← wr A i y; wr A (i + 1) x else Some A);
      bubble_pass A (i + 1) n
  end.
Fixpoint bubble_passes (A : list Z) (n j : Z) (fuel : nat) : option (list Z) :=
  match fuel with
  | O => Some A
  | S fuel => A ← bubble_pass A 0 (Z.to_nat (n - 1 - j)); bubble_passes A n (j + 1) fuel
  end.
Definition bubble_sort (A : list Z) (n : Z) : option (list Z) := bubble_passes A n 0 (Z.to_nat (n - 1)).
(** The quotient of C; a count of zero divides by zero. *)
Definition average (array : list Z) (num : Z) : option Z :=
  if (num <=? 0) || (Z.of_nat (length array) <? num) then None
  else Some (Z.quot (foldr Z.add 0 (take (Z.to_nat num) array)) num).

(** An address is its type and six bytes, the least significant first. *)
Record bt_addr_le := BtAddrLe { addr_type : Z; addr_val : list Z }.
#[export] Instance bt_addr_le_dec : EqDecision bt_addr_le.
Proof. solve_decision. Defined.
Definition BT_ADDR_LE_PUBLIC : Z := 0.
Definition BT_ADDR_LE_ANY : bt_addr_le := BtAddrLe 0 [0; 0; 0; 0; 0; 0].

Definition hex_digit (n : Z) : Z := if n <? 10 then 48 + n else 55 + n.
Definition hex2 (v : Z) : list Z := [hex_digit (v / 16); hex_digit (v mod 16)].
(** snprintk(str, len, "%02X...", ...): the output cut to [len - 1] bytes, terminated. *)
Definition snprintk (len : Z) (out : list Z) : list Z := take (Z.to_nat (len - 1)) out.
Definition at_addr_le_to_str (addr : bt_addr_le) (len : Z) : list Z :=
  snprintk len (rev (addr_val addr) ≫= hex2).
Definition at_addr_le_to_str2 (addr : bt_addr_le) (len : Z) : list Z :=
  snprintk len (match rev (addr_val addr) with
                | [] => []
                | v :: vs => hex2 v ++ (vs ≫= (fun v => 58 :: hex2 v))
                end).

(** bt_host_config_init.c *)
Definition char2hex (c : Z) : option Z :=
  if (48 <=? c) && (c <=? 57) then Some (c - 48)
  else if (97 <=? c) && (c <=? 102) then Some (c - 97 + 10)
  else if (65 <=? c) && (c <=? 70) then Some (c - 65 + 10)
  else None.
(** [i] is the byte to fill, [j] the position; [val] the six bytes so far. *)
Fixpoint str2bt_loop (s : list Z) (i j : Z) (val : list Z) : option (Z * list Z) :=
  match s with
  | [] => Some (0, val)
  | c :: s' =>
      if (j mod 3 =? 0) && negb (c =? 58) then Some (- EINVAL, val)
      else if c =? 58 then str2bt_loop s' (i - 1) (j + 1) val
      else
        v ← rd val i;
        val ← wr val i (u8 (Z.shiftl v 4));
        match char2hex c with
        | None => Some (- EINVAL, val)
        | Some tmp =>
            v ← rd val i;
            val ← wr val i (Z.lor v tmp);
            str2bt_loop s' i (j + 1) val
        end
  end.
Definition str2bt_addr (b val : list Z) : option (Z * list Z) :=
  s ← cstr b;
  if negb (Z.of_nat (length s) =? 17) then Some (- EINVAL, val) else str2bt_loop s 5 1 val.

(** Twelve characters to "xx:xx:xx:xx:xx:xx" and to the address; [val] is what the caller's
    variable held. *)
Definition with_colons (str : list Z) : list Z :=
  match str with
  | [a; b; c; d; e; f; g; h; i; j; k; l] => [a; b; 58; c; d; 58; e; f; 58; g; h; 58; i; j; 58; k; l]
  | _ => []
  end.
Definition at_str_to_le_addr (len : Z) (val : list Z) (b : list Z) : option (list Z * bt_addr_le) :=
  if Nat.ltb (length b) 12 then None
  else
    let bt_addr_str := snprintk len (with_colons (take 12 b)) in
    '(_, val) ← str2bt_addr (bt_addr_str ++ [0]) val;
    Some (bt_addr_str, BtAddrLe BT_ADDR_LE_PUBLIC val).

(** * Theorems *)
(** ** Addresses as text *)
Lemma hex_digit_back n : 0 <= n < 16 -> char2hex (hex_digit n) = Some n /\ hex_digit n <> 58 /\ hex_digit n <> 0 /\
  is_hex_char (hex_digit n) = true /\ hex_digit n < 71.
Proof.
  intros Hn. unfold hex_digit, char2hex, is_hex_char. destruct (Z.ltb_spec n 10).
  - split_and!; try lia; repeat (case_cmp; try lia); cbn [andb]; f_equal; lia.
  - split_and!; try lia; repeat (case_cmp; try lia); cbn [andb orb]; try done; f_equal; lia.
Qed.
Definition is_byte (v : Z) : Prop := 0 <= v < 256.
Lemma nibbles_joined w v : is_byte v -> Z.lor (u8 (Z.shiftl (Z.lor (u8 (Z.shiftl w 4)) (v / 16)) 4)) (v mod 16) = v.
Proof.
  intros Hv. unfold is_byte in Hv.
  assert (forall a d, 0 <= d < 16 -> Z.lor (u8 (Z.shiftl a 4)) d = (a mod 16) * 16 + d) as J.
  { intros a d Hd. rewrite Z.shiftl_mul_pow2 by lia. unfold u8. change (2 ^ 8) with (16 * 2 ^ 4).
    rewrite Z.mul_mod_distr_r by lia. change (2 ^ 4) with 16.
    rewrite Z.lor_comm. replace (a mod 16 * 16) with (Z.shiftl (a mod 16) 4) by (by rewrite Z.shiftl_mul_pow2).
    rewrite lor_byte by lia. change (2 ^ 4) with 16. rewrite Z.shiftl_mul_pow2 by lia. lia. }
  rewrite !J by (Z.to_euclidean_division_equations; lia).
  Z.to_euclidean_division_equations; lia.
Qed.
Lemma loop_digit d s i j val : 0 <= d < 16 -> (j mod 3 = 1 \/ j mod 3 = 2) -> 0 <= i < Z.of_nat (length val) ->
  str2bt_loop (hex_digit d :: s) i j val =
  str2bt_loop s i (j + 1) (<[Z.to_nat i := Z.lor (u8 (Z.shiftl (nth (Z.to_nat i) val 0) 4)) d]> val).
Proof.
  intros Hd Hj Hi. destruct (hex_digit_back d Hd) as (E & N & _). cbn [str2bt_loop].
  destruct (Z.eqb_spec (j mod 3) 0); [lia|]. cbn [andb]. destruct (Z.eqb_spec (hex_digit d) 58); [done|]. rewrite E.
  assert (rd val i = Some (nth (Z.to_nat i) val 0)) as ->.
  { unfold rd. destruct (Z.leb_spec 0 i); [|lia]. destruct (lookup_lt_is_Some_2 val (Z.to_nat i)) as [x Ex]; [lia|].
    rewrite Ex. f_equal. symmetry. by apply nth_lookup_Some. }
  cbn [mbind option_bind]. rewrite wr_in_bound by done. cbn [mbind option_bind].
  assert (Z.to_nat i < length val)%nat as Hlt by lia.
  unfold rd at 1. destruct (Z.leb_spec 0 i); [|lia]. rewrite list_lookup_insert_eq by done.
  cbn [mbind option_bind]. rewrite wr_in_bound by (by rewrite length_insert). cbn [mbind option_bind].
  by rewrite list_insert_insert_eq.
Qed.
Lemma loop_byte v s i j val : is_byte v -> j mod 3 = 1 -> 0 <= i < Z.of_nat (length val) ->
  str2bt_loop (hex2 v ++ s) i j val = str2bt_loop s i (j + 2) (<[Z.to_nat i := v]> val).
Proof.
  intros Hv Hj Hi. unfold hex2, is_byte in *. cbn [app].
  rewrite loop_digit; [|Z.to_euclidean_division_equations; lia|by left|done].
  rewrite loop_digit; [|Z.to_euclidean_division_equations; lia|right; Z.to_euclidean_division_equations; lia|by rewrite length_insert].
  rewrite list_insert_insert_eq. replace (j + 1 + 1) with (j + 2) by lia. do 2 f_equal.
  rewrite nth_lookup, list_lookup_insert_eq by lia. cbn [default from_option]. by apply nibbles_joined.
Qed.
Lemma loop_colon s i j val : j mod 3 = 0 -> str2bt_loop (58 :: s) i j val = str2bt_loop s (i - 1) (j + 1) val.
Proof. intros Hj. cbn [str2bt_loop]. by rewrite andb_false_r. Qed.

Definition is_addr (v : list Z) : Prop := length v = 6%nat /\ Forall is_byte v.
Lemma hex2_str v : is_byte v -> is_str (hex2 v).
Proof.
  intros Hv. unfold is_byte in Hv. unfold hex2. repeat constructor; apply hex_digit_back; Z.to_euclidean_division_equations; lia.
Qed.
(** The text with colons reads back as the address, whatever the variable held. *)
Lemma str2bt_addr_text v val rest : is_addr v -> length val = 6%nat ->
  str2bt_addr (at_addr_le_to_str2 (BtAddrLe 0 v) 18 ++ 0 :: rest) val = Some (0, v).
Proof.
  intros [Hl Hv] Hval. destruct v as [|v0 [|v1 [|v2 [|v3 [|v4 [|v5 []]]]]]]; try done.
  do 6 (apply Forall_cons in Hv as [? Hv]).
  unfold str2bt_addr. change (at_addr_le_to_str2 _ 18) with
    (hex2 v5 ++ 58 :: hex2 v4 ++ 58 :: hex2 v3 ++ 58 :: hex2 v2 ++ 58 :: hex2 v1 ++ 58 :: hex2 v0 ++ []).
  rewrite cstr_spec by (repeat first [apply Forall_app_2; [by apply hex2_str|] | apply Forall_cons_2; [done|] | apply Forall_nil_2]).
  cbn [mbind option_bind]. change (Z.of_nat (length _) =? 17) with true. cbn [negb].
  do 5 (rewrite loop_byte; [|done|reflexivity|rewrite ?length_insert, Hval; lia]; rewrite loop_colon by reflexivity).
  rewrite loop_byte; [|done|reflexivity|rewrite ?length_insert, Hval; lia]. cbn [str2bt_loop]. do 2 f_equal.
  by destruct val as [|w0 [|w1 [|w2 [|w3 [|w4 [|w5 []]]]]]].
Qed.
Lemma at_str_to_le_addr_text v val rest : is_addr v -> length val = 6%nat ->
  at_str_to_le_addr 18 val (at_addr_le_to_str (BtAddrLe 0 v) 18 ++ 0 :: rest) =
  Some (at_addr_le_to_str2 (BtAddrLe 0 v) 18, BtAddrLe BT_ADDR_LE_PUBLIC v).
Proof.
  intros Hv Hval. pose proof (str2bt_addr_text v val [] Hv Hval) as E. destruct Hv as [Hl _].
  destruct v as [|v0 [|v1 [|v2 [|v3 [|v4 [|v5 []]]]]]]; try done.
  unfold at_str_to_le_addr. match goal with |- context [Nat.ltb ?n 12] => change (Nat.ltb n 12) with false end. cbv iota.
  match goal with |- context [snprintk 18 ?t] => change (snprintk 18 t) with (at_addr_le_to_str2 (BtAddrLe 0 [v0; v1; v2; v3; v4; v5]) 18) end.
  by rewrite E.
Qed.

(** ** Sorting: the largest first *)
Fixpoint bubbled (x : Z) (l : list Z) : list Z :=
  match l with [] => [x] | y :: l => if x <? y then y :: bubbled x l else x :: bubbled y l end.
Lemma bubbled_perm x l : bubbled x l ≡ₚ x :: l.
Proof.
  revert x. induction l as [|y l IH]; intros x; [done|]. cbn [bubbled]. destruct (x <? y); rewrite IH; [apply perm_swap|done].
Qed.
(** The pass leaves the smallest entry at the end. *)
Lemma bubbled_last x l : exists l' m, bubbled x l = l' ++ [m] /\ length l' = length l /\ Forall (fun z => m <= z) (x :: l).
Proof.
  revert x. induction l as [|y l IH]; intros x; [exists [], x; by repeat constructor|].
  cbn [bubbled]. destruct (Z.ltb_spec x y) as [Hxy|Hxy].
  - destruct (IH x) as (l' & m & -> & Hl & Hm). exists (y :: l'), m. cbn. split_and!; [done|lia|].
    apply Forall_cons in Hm as [? ?]. repeat (apply Forall_cons_2); [done|lia|done].
  - destruct (IH y) as (l' & m & -> & Hl & Hm). exists (x :: l'), m. cbn. split_and!; [done|lia|].
    apply Forall_cons in Hm as [? ?]. repeat (apply Forall_cons_2); [lia|done|done].
Qed.
Lemma bubble_pass_spec l : forall pre x suf,
  bubble_pass (pre ++ x :: l ++ suf) (Z.of_nat (length pre)) (length l) = Some (pre ++ bubbled x l ++ suf).
Proof.
  induction l as [|y l IH]; intros pre x suf; [done|]. cbn [length bubble_pass app].
  rewrite (rd_app_here pre _ x _ eq_refl).
  assert (forall z suf', pre ++ z :: suf' = (pre ++ [z]) ++ suf') as S by (intros; by rewrite <- app_assoc).
  assert (Z.of_nat (length pre) + 1 = Z.of_nat (length (pre ++ [x]))) as EL by (rewrite length_app; cbn; lia).
  rewrite (S x), (rd_app_here (pre ++ [x]) _ y _ EL). cbn [mbind option_bind bubbled].
  destruct (x <? y).
  - rewrite <- (S x), (wr_app_here pre _ x y _ eq_refl). cbn [mbind option_bind].
    rewrite (S y). replace (length (pre ++ [x])) with (length (pre ++ [y])) in EL by by rewrite !length_app.
    rewrite (wr_app_here (pre ++ [y]) _ y x _ EL). cbn [mbind option_bind]. rewrite EL, IH, <- app_assoc. done.
  - cbn [mbind option_bind]. rewrite EL, IH, <- app_assoc. done.
Qed.

Definition descending (l : list Z) : Prop := StronglySorted (fun x y => y <= x) l.
Lemma descending_cons_all m l : Forall (fun z => z <= m) l -> descending l -> descending (m :: l).
Proof. intros ? ?. by constructor. Qed.
(** With [P] still to be sorted and [Q] sorted and no larger behind it. *)
Lemma bubble_passes_spec k : forall P Q suf n j, length P = S k -> n - 1 - j = Z.of_nat k ->
  descending Q -> Forall (fun p => Forall (fun q => q <= p) Q) P ->
  exists R, bubble_passes (P ++ Q ++ suf) n j k = Some (R ++ suf) /\ R ≡ₚ P ++ Q /\ descending R.
Proof.
  induction k as [|k IH]; intros P Q suf n j HP Hj HQ HPQ.
  - destruct P as [|p [|]]; try done. exists (p :: Q). split; [done|]. split; [done|]. apply Forall_cons in HPQ as [? _].
    by apply descending_cons_all.
  - destruct P as [|x l]; [done|]. cbn [bubble_passes]. rewrite Hj, Nat2Z.id. injection HP as HP.
    rewrite <- HP. pose proof (bubble_pass_spec l [] x (Q ++ suf)) as E. cbn [app length] in E. change (Z.of_nat 0) with 0 in E. cbn [app]. rewrite E.
    cbn [mbind option_bind]. pose proof (bubbled_perm x l) as Perm. destruct (bubbled_last x l) as (l' & m & El & Hl' & Hm).
    rewrite El in *. assert (Forall (fun p => Forall (fun q => q <= p) (m :: Q)) (l' ++ [m])) as HF.
    { rewrite Perm. apply Forall_forall. intros p Hp. apply Forall_cons_2; [by apply (proj1 (Forall_forall _ _) Hm)|by apply (proj1 (Forall_forall _ _) HPQ)]. }
    destruct (IH l' (m :: Q) suf n (j + 1)) as (R & ER & PR & DR); [lia|lia| |by apply Forall_app in HF as [? _]|].
    { apply descending_cons_all; [|done]. apply Forall_app in HF as [_ HF]. apply Forall_cons in HF as [HF _].
      by apply Forall_cons in HF as [_ ?]. }
    exists R. rewrite <- app_assoc. split; [exact ER|]. split; [|done].
    rewrite PR. change (x :: l ++ Q) with ((x :: l) ++ Q). rewrite <- Perm, <- app_assoc. done.
Qed.
Lemma bubble_sort_spec A suf : A <> [] ->
  exists R, bubble_sort (A ++ suf) (Z.of_nat (length A)) = Some (R ++ suf) /\ R ≡ₚ A /\ descending R.
Proof.
  intros HA. destruct A as [|x A]; [done|]. unfold bubble_sort.
  replace (Z.to_nat (Z.of_nat (length (x :: A)) - 1)) with (length A) by (cbn; lia).
  destruct (bubble_passes_spec (length A) (x :: A) [] suf (Z.of_nat (length (x :: A))) 0) as (R & E & P & D);
    [done|cbn; lia|constructor|by apply Forall_forall; intros; constructor|].
  exists R. rewrite app_nil_r in P. by split.
Qed.
