(* ===== verification/AtLine.v ===== *)
(** * Command lines of the serial module (samples/ble_module: at/at_cmd.c)

    From bytes of the UART to argument vectors: the interrupt handler that collects lines in
    three buffers ([at_cmd_rx_isr]), the queue to the command thread, and the tokeniser
    [line2argv] in both of its configurations.  A read error of the UART, which stops it, is
    not an event of the model. *)
From S2P Require Import Prelude CString AtMisc.
#[local] Open Scope Z_scope.

Definition ARGC_MAX : Z := 10.
Definition AT_CMD_MAX_LINE_LEN : Z := 256.
Definition MAX_CMD_QUEUED : nat := 3.

(** ** The tokenisers.  An argument is the object a pointer of [argv] points to: the rest of
    the line from there on. *)
Fixpoint skip_blanks (b : list Z) : list Z :=
  match b with c :: b' => if c =? 32 then skip_blanks b' else b | [] => [] end.
Definition at_end (b : list Z) : option bool := c ← rd b 0; Some (c =? 0).

(** CONFIG_AT_CMD_NO_EQUAL_SIGN: name, command, length of the name, length of the parameter. *)
Definition at_cmds_hj : list (list Z * list Z * Z * Z) :=
  [(lit "AT", lit "", 2, 0); (lit "AT+ROLE", lit "ROLE", 7, 1); (lit "AT+INQ", lit "INQ", 6, 0);
   (lit "AT+CONN", lit "CONN", 7, 1); (lit "AT+CONA", lit "CONA", 7, 14);
   (lit "AT+AUTOCONN", lit "AUTOCONN", 11, 1); (lit "AT+CLEAR", lit "CLEAR", 8, 0);
   (lit "AT+RESET", lit "RESET", 8, 0); (lit "AT+DEFAULT", lit "DEFAULT", 10, 0);
   (lit "AT+NAME", lit "NAME", 7, 0xff); (lit "AT+LADDR", lit "LADDR", 8, 14);
   (lit "AT+DISCONNECT", lit "DISCONNECT", 13, 0); (lit "AT+OTA", lit "OTA", 5, 0)].

(** The first entry whose name occurs anywhere in the line, with the line from there on. *)
Fixpoint find_cmd (l : list (list Z * list Z * Z * Z)) (b : list Z)
    : option (option (list Z * list Z * list Z * Z * Z)) :=
  match l with
  | [] => Some None
  | (nm, cmd, cmd_len, param_len) :: l =>
      n ← cstr nm;
      o ← strstr b n;
      match o with
      | Some off => Some (Some (drop off b, nm, cmd, cmd_len, param_len))
      | None => find_cmd l b
      end
  end.
(** The count of the code and the arguments set so far. *)
Definition line2argv (line : list Z) : option (Z * list (list Z)) :=
  n ← strlen line;
  if n =? 0 then Some (0, [])
  else
    let b := skip_blanks line in
    e ← at_end b;
    if (e : bool) then Some (0, [])
    else
      c ← strcmp b (lit "AT");
      if c =? 0 then Some (1, [lit "AT"])
      else
        f ← find_cmd (drop 1 at_cmds_hj) b;
        match f with
        | None => Some (- EINVAL, [])
        | Some (str_cmd, nm, cmd, cmd_len, param_len) =>
            if negb (param_len =? 0) then
              n ← strlen str_cmd;
              if cmd_len <? n then Some (3, [lit "AT"; cmd; drop (Z.to_nat cmd_len) str_cmd])
              else Some (2, [lit "AT"; cmd])
            else
              c ← strcmp str_cmd nm;
              if c =? 0 then Some (2, [lit "AT"; cmd]) else Some (- EINVAL, [lit "AT"; cmd])
        end.

(** With the equal sign: the arguments are offsets into the line, which is cut up. *)
Inductive tokens := Tokens (argc : Z) (argv : list nat) (line : list Z).
Definition token (line : list Z) (p : nat) (argv : list nat) : option (tokens + (list Z * nat * list nat)) :=
  line ← wr line (Z.of_nat p) 0;
  let p := (p + 1 + (length (drop (p + 1) line) - length (skip_blanks (drop (p + 1) line))))%nat in
  e ← at_end (drop p line);
  if (e : bool) then Some (inl (Tokens (- EINVAL) argv line))
  else
    let argv := argv ++ [p] in
    if Z.of_nat (length argv) =? ARGC_MAX + 1 then Some (inl (Tokens (- EINVAL) argv line))
    else Some (inr (line, p, argv)).
(** The inner loop ends with a null pointer, which the outer loop's strchr then reads. *)
Fixpoint equal_tokens (fuel : nat) (line : list Z) (p : nat) (argv : list nat) : option tokens :=
  match fuel with
  | O => None
  | S fuel =>
      o ← strchr (drop p line) 61;
      match o with
      | None => None
      | Some k =>
          r ← token line (p + k) argv;
          match r with
          | inl t => Some t
          | inr (line, p, argv) => equal_tokens fuel line p argv
          end
      end
  end.
Definition line2argv_equal (line : list Z) : option tokens :=
  n ← strlen line;
  if n =? 0 then Some (Tokens 0 [] line)
  else
    let p := (length line - length (skip_blanks line))%nat in
    e ← at_end (drop p line);
    if (e : bool) then Some (Tokens 0 [] line)
    else
      o ← strchr (drop p line) 43;
      match o with
      | None => Some (Tokens 1 [p] line)
      | Some k =>
          r ← token line (p + k) [p];
          match r with
          | inl t => Some t
          | inr (line, p', argv) => equal_tokens 11 line p' argv
          end
      end.

(** ** Collecting lines.  The three buffers are named by their index; the two queues pass
    them between the interrupt handler and the command thread. *)
Record at_input := AtInput {
  at_cmd_buf : list (list Z);          (* the line of each buffer *)
  avail_queue : list nat; cmds_queue : list nat;
  input_cur : Z; input_cmd : option nat; cmd_queue_ref : Z;
  cmd : option nat }.                  (* the command thread's local variable *)
#[export] Instance eta_at_input : EtaRecord at_input := fun r =>
  AtInput (at_cmd_buf r) (avail_queue r) (cmds_queue r) (input_cur r) (input_cmd r) (cmd_queue_ref r) (cmd r).
#[local] Abbreviation IN := (M at_input).

Definition set_char (b : nat) (i : Z) (c : Z) : IN unit :=
  s ← get;
  line ← lift (at_cmd_buf s !! b);
  line ← lift (wr line i c);
  put (s <| at_cmd_buf := <[b := line]> (at_cmd_buf s) |>).
Definition get_char (b : nat) (i : Z) : IN Z :=
  s ← get; line ← lift (at_cmd_buf s !! b); lift (rd line i).

Definition at_cmd_rx_init : IN unit := modify (fun s => s <| input_cur := 0 |> <| input_cmd := None |>).
(** A carriage return before the line feed is cut off. *)
Definition strip_cr (b : nat) (input_cur : Z) : IN unit :=
  cr ← (if 0 <=? input_cur - 1 then c ← get_char b (input_cur - 1); mret (c =? 13) else mret false);
  when cr (set_char b (input_cur - 1) 0).
(** One byte of the loop; [false] when the handler returns. *)
Definition at_cmd_rx_byte (byte : Z) : IN bool :=
  s ← get;
  go ← (match input_cmd s with
        | Some _ => mret true
        | None =>
            match avail_queue s with
            | [] => mret false
            | b :: q =>
                put (s <| avail_queue := q |> <| input_cmd := Some b |> <| cmd_queue_ref ::= Z.add 1 |>);; mret true
            end
        end);
  if negb (go : bool) then mret false
  else
    s ← get;
    b ← lift (input_cmd s);
    if negb (isprint byte) then
      if byte =? 10 then
        set_char b (input_cur s) 0;;
        strip_cr b (input_cur s);;
        modify (fun s => s <| input_cur := 0 |> <| cmds_queue ::= (fun q => q ++ [b]) |>
                           <| cmd_queue_ref ::= Z.add (-1) |> <| input_cmd := None |>);;
        mret true
      else mret true
    else if input_cur s <? AT_CMD_MAX_LINE_LEN - 1 then
      set_char b (input_cur s) byte;;
      modify (fun s => s <| input_cur ::= (fun c => u8 (c + 1)) |>);; mret true
    else mret true.
(** The bytes pending at one interrupt; what is left unread stays in the UART. *)
Fixpoint at_cmd_rx_isr (pending : list Z) : IN (list Z) :=
  match pending with
  | [] => mret []
  | byte :: rest => go ← at_cmd_rx_byte byte; if (go : bool) then at_cmd_rx_isr rest else mret rest
  end.
(** The command thread's two queue calls: a line is taken, and given back when it is done. *)
Definition take_cmd : IN (option (list Z)) :=
  s ← get;
  match cmd s, cmds_queue s with
  | None, b :: q =>
      line ← lift (at_cmd_buf s !! b);
      put (s <| cmds_queue := q |> <| cmd := Some b |>);; mret (Some line)
  | _, _ => mret None
  end.
Definition give_cmd : IN unit := modify (fun s =>
  match cmd s with
  | Some b => s <| avail_queue ::= (fun a => a ++ [b]) |> <| cmd := None |>
  | None => s
  end).
Definition enter_into_at_cmd_mode : IN unit :=
  s ← get;
  put (s <| cmd_queue_ref := 0 |>);;
  (match input_cmd s with
   | Some b => if negb (cmd_queue_ref s =? 0) then
                 set_char b 0 0;; modify (fun s => s <| cmds_queue ::= (fun q => q ++ [b]) |>)
               else mret tt
   | None => mret tt
   end);;
  modify (fun s => s <| input_cur := 0 |> <| input_cmd := None |>).
Definition at_cmd_init (bufs : list (list Z)) : at_input :=
  AtInput bufs (seq 0 MAX_CMD_QUEUED) [] 0 None 0 None.

Inductive at_event := RxByte (byte : Z) | TakeCmd | GiveCmd | EnterCmdMode.
(** A step, with the line it hands to the command thread. *)
Definition at_step (e : at_event) : IN (option (list Z)) :=
  match e with
  | RxByte byte => at_cmd_rx_byte byte;; mret None
  | TakeCmd => line ← take_cmd; lift (match line with Some l => c ← cstr l; Some (Some c) | None => Some None end)
  | GiveCmd => give_cmd;; mret None
  | EnterCmdMode => enter_into_at_cmd_mode;; mret None
  end.

(** * Specification: a queue of lines with room for three *)
Record line_fifo := LineFifo { queued : list (list Z); partial : option (list Z); busy : bool }.
Definition used (a : line_fifo) : nat :=
  (length (queued a) + (if partial a is Some _ then 1 else 0) + (if busy a then 1 else 0))%nat.
(** What a byte does to the line being collected. *)
Definition spec_char (p : list Z) (byte : Z) (a : line_fifo) : line_fifo :=
  if isprint byte then LineFifo (queued a) (Some (if Nat.ltb (length p) 255 then p ++ [byte] else p)) (busy a)
  else if byte =? 10 then LineFifo (queued a ++ [p]) None (busy a)
  else LineFifo (queued a) (Some p) (busy a).
Definition spec_step (e : at_event) (a : line_fifo) : option (list Z) * line_fifo :=
  match e with
  | RxByte byte =>
      (None, match partial a with
             | Some p => spec_char p byte a
             | None => if Nat.ltb (used a) MAX_CMD_QUEUED then spec_char [] byte a else a
             end)
  | TakeCmd => match busy a, queued a with
               | false, l :: q => (Some l, LineFifo q (partial a) true)
               | _, _ => (None, a)
               end
  | GiveCmd => (None, LineFifo (queued a) (partial a) false)
  | EnterCmdMode => (None, match partial a with
                           | Some _ => LineFifo (queued a ++ [[]]) None (busy a)
                           | None => a
                           end)
  end.
(** The lines a sequence of events hands out. *)
Fixpoint at_run (es : list at_event) : IN (list (list Z)) :=
  match es with
  | [] => mret []
  | e :: es => o ← at_step e; ls ← at_run es; mret (match o with Some l => l :: ls | None => ls end)
  end.
Fixpoint spec_run (es : list at_event) (a : line_fifo) : list (list Z) * line_fifo :=
  match es with
  | [] => ([], a)
  | e :: es =>
      let '(o, a) := spec_step e a in let '(ls, a) := spec_run es a in
      (match o with Some l => l :: ls | None => ls end, a)
  end.

(** * Theorems *)
(** ** The handler implements the queue *)
Definition holds (bufs : list (list Z)) (b : nat) (l : list Z) : Prop :=
  is_str l /\ exists rest, bufs !! b = Some (l ++ 0 :: rest).
Record implements (s : at_input) (a : line_fifo) : Prop := {
  im_owned : avail_queue s ++ cmds_queue s ++ opt_list (input_cmd s) ++ opt_list (cmd s) ≡ₚ seq 0 MAX_CMD_QUEUED;
  im_bufs : length (at_cmd_buf s) = MAX_CMD_QUEUED /\ Forall (fun l => length l = 256%nat) (at_cmd_buf s);
  im_queue : Forall2 (holds (at_cmd_buf s)) (cmds_queue s) (queued a);
  im_partial : match input_cmd s, partial a with
    | Some b, Some p => exists rest, at_cmd_buf s !! b = Some (p ++ rest) /\ input_cur s = Z.of_nat (length p) /\
        (length p <= 255)%nat /\ Forall (fun c => isprint c = true) p /\ cmd_queue_ref s = 1
    | None, None => input_cur s = 0 /\ cmd_queue_ref s = 0
    | _, _ => False
    end;
  im_busy : busy a = match cmd s with Some _ => true | None => false end }.

Lemma holds_other bufs b b' l x : b <> b' -> holds bufs b l -> holds (<[b' := x]> bufs) b l.
Proof. intros Hb [Hl [rest E]]. split; [done|]. exists rest. by rewrite list_lookup_insert_ne. Qed.
Lemma holds_all_other bufs qs ls b' x : b' ∉ qs -> Forall2 (holds bufs) qs ls -> Forall2 (holds (<[b' := x]> bufs)) qs ls.
Proof.
  intros Hb. induction 1 as [|b l qs ls H _ IH]; [constructor|].
  apply not_elem_of_cons in Hb as [? ?]. constructor; [by apply holds_other|by apply IH].
Qed.
Lemma printable_is_str p : Forall (fun c => isprint c = true) p -> is_str p.
Proof. intros H. eapply Forall_impl; [exact H|]. by intros c Hc ->. Qed.

Section Owned.
Context (s : at_input) (a : line_fifo).
Hypothesis I : implements s a.

Lemma owned_nodup : NoDup (avail_queue s ++ cmds_queue s ++ opt_list (input_cmd s) ++ opt_list (cmd s)).
Proof using I. rewrite (im_owned _ _ I). apply NoDup_seq. Qed.
Lemma owned_lt b : b ∈ avail_queue s ++ cmds_queue s ++ opt_list (input_cmd s) ++ opt_list (cmd s) ->
  exists line, at_cmd_buf s !! b = Some line /\ length line = 256%nat.
Proof using I.
  rewrite (im_owned _ _ I), elem_of_seq. intros Hb. destruct (im_bufs _ _ I) as [Hl Hf].
  destruct (lookup_lt_is_Some_2 (at_cmd_buf s) b) as [line E]; [lia|]. exists line. split; [done|].
  by apply (Forall_lookup_1 _ _ _ _ Hf E).
Qed.
Lemma input_not_queued b : input_cmd s = Some b -> b ∉ cmds_queue s.
Proof using I.
  intros E. pose proof owned_nodup as Hn. rewrite E in Hn. apply NoDup_app in Hn as (_ & _ & Hn).
  apply NoDup_app in Hn as (_ & Hn & _). intros Hq. apply (Hn b Hq). apply elem_of_app. left. by left.
Qed.
Lemma avail_empty : avail_queue s = [] <-> used a = MAX_CMD_QUEUED.
Proof using I.
  pose proof (f_equal length (eq_refl (seq 0 MAX_CMD_QUEUED))) as _.
  pose proof (Permutation_length (im_owned _ _ I)) as L. rewrite !length_app, length_seq in L.
  pose proof (Forall2_length _ _ _ (im_queue _ _ I)) as Lq. pose proof (im_partial _ _ I) as Hp.
  pose proof (im_busy _ _ I) as Hb. unfold used, MAX_CMD_QUEUED in *.
  destruct (input_cmd s), (partial a), (cmd s); try done; cbn [opt_list length] in *; rewrite Hb;
    (split; [intros E; rewrite E in L; cbn in L; lia|intros; apply length_zero_iff_nil; lia]).
Qed.
End Owned.

Lemma rd_skip {A} (p rest : list A) i : 0 <= i < Z.of_nat (length p) -> rd (p ++ rest) i = rd p i.
Proof. intros Hi. unfold rd. destruct (Z.leb_spec 0 i); [|lia]. by rewrite lookup_app_l by lia. Qed.
Lemma wr_lookup_len (l l' : list Z) i c : wr l i c = Some l' -> length l' = length l.
Proof. apply wr_Some_length. Qed.

(** Carriage returns are not printable, so none is ever there to cut off. *)
Lemma strip_cr_printable p rest s b : Forall (fun c => isprint c = true) p ->
  at_cmd_buf s !! b = Some (p ++ rest) -> strip_cr b (Z.of_nat (length p)) s = Some (tt, s).
Proof.
  intros Hpr E. unfold strip_cr, get_char. munfold. destruct (Z.leb_spec 0 (Z.of_nat (length p) - 1)); [|done].
  rewrite E, rd_skip by lia. destruct (rd_in_bound p (Z.of_nat (length p) - 1)) as [c Ec]; [lia|]. rewrite Ec.
  unfold rd in Ec. destruct (Z.leb_spec 0 (Z.of_nat (length p) - 1)); [|done].
  apply (Forall_lookup_1 _ _ _ _ Hpr) in Ec. by destruct (Z.eqb_spec c 13) as [->|].
Qed.
(** One character into a buffer that is being filled. *)
Lemma rx_char s a b p byte : implements s a -> input_cmd s = Some b -> partial a = Some p ->
  exists s', at_cmd_rx_byte byte s = Some (true, s') /\ implements s' (spec_char p byte a).
Proof.
  intros I Eb Ep. destruct (owned_lt s a I b) as (line & El & Hl).
  { rewrite Eb. apply elem_of_app. right. apply elem_of_app. right. by left. }
  pose proof (im_partial _ _ I) as Hp. rewrite Eb, Ep in Hp. destruct Hp as (rest & E & Hc & Hlen & Hpr & Href).
  assert (line = p ++ rest) as -> by congruence. rewrite length_app in Hl.
  destruct rest as [|x rest]; [cbn in Hl; lia|].
  unfold at_cmd_rx_byte. munfold. rewrite Eb. cbn [negb]. rewrite Eb. unfold spec_char.
  pose proof (input_not_queued _ _ I b Eb) as Hnq.
  destruct (im_bufs _ _ I) as [Hb3 Hb256].
  assert (forall l, length l = 256%nat -> Forall (fun l => length l = 256%nat) (<[b := l]> (at_cmd_buf s))) as Hins.
  { intros l Hll. by apply Forall_insert. }
  destruct (isprint byte) eqn:Hpb; cbn [negb].
  - destruct (Z.ltb_spec (input_cur s) (AT_CMD_MAX_LINE_LEN - 1)) as [Hlt|Hge]; rewrite Hc in *; unfold AT_CMD_MAX_LINE_LEN in *.
    + destruct (Nat.ltb_spec (length p) 255); [|lia].
      unfold set_char. munfold. rewrite E, (wr_app_here p rest x byte _ eq_refl).
      eexists. split; [reflexivity|]. split; cbn -[seq].
      * by apply I.
      * rewrite length_insert. split; [done|]. apply Hins. rewrite length_app. cbn in *. lia.
      * apply holds_all_other; [done|]. apply I.
      * rewrite Eb. exists rest. split_and!.
        -- rewrite list_lookup_insert_eq; [by rewrite <- app_assoc|]. by apply lookup_lt_Some in E.
        -- rewrite length_app, u8_small by lia. rewrite Hc. cbn. lia.
        -- rewrite length_app. cbn. lia.
        -- apply Forall_app_2; [done|]. by apply Forall_singleton.
        -- done.
      * by apply I.
    + destruct (Nat.ltb_spec (length p) 255); [lia|]. eexists. split; [reflexivity|]. split; cbn -[seq]; try apply I.
      rewrite Eb. by exists (x :: rest).
  - destruct (byte =? 10).
    + unfold set_char. munfold. rewrite E, Hc, (wr_app_here p rest x 0 _ eq_refl).
      assert (Hb : (b < length (at_cmd_buf s))%nat) by by apply lookup_lt_Some in E.
      rewrite (strip_cr_printable p (0 :: rest)) by (done || by apply list_lookup_insert_eq).
      eexists. split; [reflexivity|]. split; cbn -[seq].
      * rewrite <- (im_owned _ _ I), Eb. cbn [opt_list app]. rewrite <- !app_assoc. cbn [app]. done.
      * rewrite length_insert. split; [done|]. apply Hins. rewrite length_app. cbn in *. lia.
      * apply Forall2_app; [apply holds_all_other; [done|]; apply I|]. constructor; [|constructor].
        split; [by apply printable_is_str|]. exists rest. by apply list_lookup_insert_eq.
      * split; [done|]. by rewrite Href.
      * by apply I.
    + eexists. split; [reflexivity|]. split; cbn -[seq]; try apply I. rewrite Eb. by exists (x :: rest).
Qed.

Lemma step_rx byte s a : implements s a ->
  exists s', at_step (RxByte byte) s = Some (None, s') /\ implements s' (spec_step (RxByte byte) a).2.
Proof.
  intros I. unfold at_step. munfold. cbn [spec_step snd].
  destruct (input_cmd s) as [b|] eqn:Eb, (partial a) as [p|] eqn:Ep; pose proof (im_partial _ _ I) as Hp;
    rewrite Eb, Ep in Hp; [|done..|].
  - destruct (rx_char s a b p byte I Eb Ep) as (s' & -> & I'). by eexists.
  - destruct Hp as [Hc Hr]. destruct (avail_queue s) as [|b q] eqn:Ea.
    + assert (used a = MAX_CMD_QUEUED) as -> by by apply (avail_empty s a I).
      unfold at_cmd_rx_byte. munfold. rewrite Eb, Ea. by eexists.
    + set (s1 := s <| avail_queue := q |> <| input_cmd := Some b |> <| cmd_queue_ref ::= Z.add 1 |>).
      assert (at_cmd_rx_byte byte s = at_cmd_rx_byte byte s1) as ->.
      { unfold at_cmd_rx_byte. munfold. rewrite Eb, Ea. reflexivity. }
      destruct (owned_lt s a I b) as (line & El & Hl); [rewrite Ea; by left|].
      assert (implements s1 (LineFifo (queued a) (Some []) (busy a))) as I1.
      { split; cbn -[seq]; try apply I.
        - rewrite <- (im_owned _ _ I), Ea, Eb. cbn [opt_list app]. rewrite (Permutation_middle q). f_equiv. by rewrite Permutation_middle.
        - exists line. rewrite Hr, Hc. cbn. repeat split; [done|lia|constructor]. }
      assert (used a <> MAX_CMD_QUEUED) as Hu by (intros H; apply (avail_empty s a I) in H; congruence).
      pose proof (Permutation_length (im_owned _ _ I)) as L. rewrite Ea, Eb, !length_app, length_seq in L.
      pose proof (Forall2_length _ _ _ (im_queue _ _ I)) as Lq. pose proof (im_busy _ _ I) as Hbz.
      assert (Nat.ltb (used a) MAX_CMD_QUEUED = true) as ->.
      { apply Nat.ltb_lt. unfold used, MAX_CMD_QUEUED in *. rewrite Ep, Hbz in *. destruct (cmd s); cbn in *; lia. }
      destruct (rx_char s1 _ b [] byte I1 eq_refl eq_refl) as (s' & -> & I'). by eexists.
Qed.

Lemma step_take s a : implements s a ->
  exists s', at_step TakeCmd s = Some ((spec_step TakeCmd a).1, s') /\ implements s' (spec_step TakeCmd a).2.
Proof.
  intros I. unfold at_step, take_cmd. munfold. cbn [spec_step].
  pose proof (im_busy _ _ I) as Hb. pose proof (im_queue _ _ I) as Hq. pose proof (im_owned _ _ I) as Ho. rewrite Hb.
  destruct (cmd s) as [w|] eqn:Ew; [by eexists|].
  destruct (cmds_queue s) as [|b qs] eqn:Ec, (queued a) as [|l ls]; try (by inversion Hq); [by eexists|].
  apply Forall2_cons in Hq as [[Hl [rest E]] Hq]. rewrite E, (cstr_spec l rest Hl).
  eexists. split; [reflexivity|]. split; cbn -[seq]; try apply I; [|done..].
  rewrite <- Ho. cbn [opt_list]. rewrite app_nil_r. cbn [app]. rewrite (app_assoc _ _ [b]), <- Permutation_cons_append.
  by rewrite Permutation_middle.
Qed.
Lemma step_give s a : implements s a ->
  exists s', at_step GiveCmd s = Some (None, s') /\ implements s' (spec_step GiveCmd a).2.
Proof.
  intros I. unfold at_step, give_cmd. munfold. eexists. split; [reflexivity|]. cbn [spec_step snd].
  destruct (cmd s) as [w|] eqn:Ew.
  - split; cbn -[seq]; try apply I; [|done]. rewrite <- (im_owned _ _ I), Ew. cbn [opt_list].
    rewrite !app_nil_r, <- app_assoc. cbn [app]. f_equiv. rewrite (app_assoc _ _ [w]). by rewrite <- Permutation_cons_append.
  - replace (LineFifo (queued a) (partial a) false) with a; [done|].
    pose proof (im_busy _ _ I) as Hb. rewrite Ew in Hb. destruct a; cbn in *; congruence.
Qed.
Lemma step_mode s a : implements s a ->
  exists s', at_step EnterCmdMode s = Some (None, s') /\ implements s' (spec_step EnterCmdMode a).2.
Proof.
  intros I. unfold at_step, enter_into_at_cmd_mode, set_char. munfold. cbn [spec_step snd].
  pose proof (im_partial _ _ I) as Hp. destruct (input_cmd s) as [b|] eqn:Eb, (partial a) as [p|] eqn:Ep; try done.
  - destruct Hp as (rest & E & Hc & Hlen & Hpr & Hr). rewrite Hr. cbn [Z.eqb negb at_cmd_buf set_field]. rewrite E.
    pose proof (input_not_queued _ _ I b Eb) as Hnq. destruct (im_bufs _ _ I) as [Hb3 Hb256].
    pose proof (Forall_lookup_1 _ _ _ _ Hb256 E) as Hl. assert (Hb : (b < length (at_cmd_buf s))%nat) by by apply lookup_lt_Some in E.
    destruct (p ++ rest) as [|x l]; [done|]. assert (wr (x :: l) 0 0 = Some (0 :: l)) as -> by exact (wr_app_here [] l x 0 0 eq_refl).
    eexists. split; [reflexivity|]. split; cbn -[seq].
    + rewrite <- (im_owned _ _ I), Eb. cbn [opt_list app]. rewrite <- !app_assoc. done.
    + rewrite length_insert. split; [done|]. apply Forall_insert; [done|]. by cbn in *.
    + apply Forall2_app; [apply holds_all_other; [done|]; apply I|]. constructor; [|constructor].
      split; [constructor|]. exists l. by apply list_lookup_insert_eq.
    + done.
    + by apply I.
  - eexists. split; [reflexivity|]. split; cbn -[seq]; try apply I.
    + rewrite <- (im_owned _ _ I), Eb. done.
    + by rewrite Ep.
Qed.

Lemma step_implements e s a : implements s a ->
  exists s', at_step e s = Some ((spec_step e a).1, s') /\ implements s' (spec_step e a).2.
Proof. destruct e; [apply step_rx|apply step_take|apply step_give|apply step_mode]. Qed.

Lemma run_implements es : forall s a, implements s a ->
  ends (at_run es) s (fun lines s' => lines = (spec_run es a).1 /\ implements s' (spec_run es a).2).
Proof.
  induction es as [|e es IH]; intros s a I; [by apply ends_ret|].
  cbn [at_run spec_run]. apply ends_bind. destruct (step_implements e s a I) as (s' & E & I').
  unfold ends at 1. rewrite E. apply ends_bind. eapply ends_mono; [by apply IH|]. intros ls s2 [-> H].
  apply ends_ret. destruct (spec_step e a) as [o a']. cbn [fst snd] in *. by destruct (spec_run es a').
Qed.
Lemma init_implements bufs : length bufs = 3%nat -> Forall (fun l => length l = 256%nat) bufs ->
  implements (at_cmd_init bufs) (LineFifo [] None false).
Proof. by split. Qed.

(** C13. whatever the order of received bytes, commands taken and returned, and changes to
    command mode, the line buffers behave as one queue of lines with room for three: every
    printable character of a line reaches the command thread, in order, up to 255 per line
    and as long as a buffer was free at the line's first character; no access leaves a
    buffer and no buffer is lost. *)
Theorem at_lines_refine es bufs : length bufs = 3%nat -> Forall (fun l => length l = 256%nat) bufs ->
  ends (at_run es) (at_cmd_init bufs) (fun lines s =>
    lines = (spec_run es (LineFifo [] None false)).1 /\
    avail_queue s ++ cmds_queue s ++ opt_list (input_cmd s) ++ opt_list (cmd s) ≡ₚ seq 0 MAX_CMD_QUEUED).
Proof.
  intros Hl Hf. eapply ends_mono; [by apply run_implements, init_implements|].
  intros ls s [-> I]. split; [done|apply I].
Qed.
Lemma at_lines_refine_witness :
  ends (at_run (RxByte <$> lit "AT")) (at_cmd_init (replicate 3 (replicate 256 0))) (fun lines s => lines = []).
Proof.
  eapply ends_mono; [apply (at_lines_refine (RxByte <$> lit "AT") (replicate 3 (replicate 256 0))); [done|repeat constructor]|].
  by intros lines s [-> _].
Defined.

(** ** A command that is typed is the command that is run *)
Lemma starts_absent u rest n : is_str u -> is_str n -> 43 ∉ u -> 43 ∈ n -> starts (u ++ 0 :: rest) n = Some false.
Proof.
  intros Hu. revert n. induction Hu as [|x u Hx Hu IH]; intros n Hn Hp Hin.
  - destruct Hn as [|y n Hy Hn]; [by apply elem_of_nil in Hin|]. by destruct y.
  - destruct Hn as [|y n Hy Hn]; [by apply elem_of_nil in Hin|]. cbn [app starts].
    apply not_elem_of_cons in Hp as [H1 H2]. destruct (Z.eqb_spec x y) as [->|]; [|done].
    apply IH; [done..|]. apply elem_of_cons in Hin as [?|?]; [by subst|done].
Qed.
Lemma strstr_absent u rest n : is_str u -> is_str n -> 43 ∉ u -> 43 ∈ n -> strstr (u ++ 0 :: rest) n = Some None.
Proof.
  intros Hu Hn. induction Hu as [|x u Hx Hu IH]; intros Hp Hin.
  - cbn [app strstr]. pose proof (starts_absent [] rest n ltac:(constructor) Hn ltac:(by apply not_elem_of_nil) Hin) as E.
    cbn [app] in E. by rewrite E.
  - pose proof (starts_absent (x :: u) rest n ltac:(by constructor) Hn Hp Hin) as E. cbn [app strstr] in *. rewrite E.
    cbn [mbind option_bind]. destruct (Z.eqb_spec x 0); [done|]. apply not_elem_of_cons in Hp as [_ Hp]. by rewrite IH.
Qed.
(** A name occurs in a line with a single plus sign at its start or not at all. *)
Lemma strstr_at u rest c b : is_str u -> 43 ∉ u -> starts (u ++ 0 :: rest) c = Some b ->
  is_str c -> strstr (str "AT+" ++ u ++ 0 :: rest) (str "AT+" ++ c) = Some (if b then Some 0%nat else None).
Proof.
  intros Hu Hp Hs Hc. change (str "AT+") with [65; 84; 43]. cbn [app strstr starts Z.eqb Pos.eqb]. rewrite Hs.
  cbn [mbind option_bind]. destruct b; [done|].
  assert (strstr (u ++ 0 :: rest) ([65; 84; 43] ++ c) = Some None) as E.
  { apply strstr_absent; [done| |done|]. { unfold is_str. cbn [app]. by do 3 (apply Forall_cons_2; [done|]). } { do 2 right. by left. } }
  cbn [app] in E. by rewrite E.
Qed.
Lemma not_plus (c : list Z) : bool_decide (43 ∈ c) = false -> 43 ∉ c.
Proof. by intros H%bool_decide_eq_false. Qed.
Definition chars_of (c : list Z) : bool := forallb (fun x => negb (x =? 0)) c && negb (bool_decide (43 ∈ c)).
Lemma chars_of_spec c : chars_of c = true -> is_str c /\ 43 ∉ c.
Proof.
  unfold chars_of. intros [H1 H2]%andb_prop. split; [|intros H; by rewrite bool_decide_true in H2].
  apply Forall_forall. intros x Hx ->. by pose proof (proj1 (forallb_forall _ _) H1 0 (proj1 (list_elem_of_In _ _) Hx)).
Qed.
Section FindCmd.
Context (c p rest : list Z).
Hypothesis (Hc : chars_of c = true) (Hp : is_str p) (Hplus : 43 ∉ p).
#[local] Abbreviation line := (str "AT+" ++ c ++ p ++ 0 :: rest).
Lemma find_cmd_step nm cmd cl pl l n b :
  cstr nm = Some (65 :: 84 :: 43 :: n) -> starts (c ++ p ++ 0 :: rest) n = Some b -> chars_of n = true ->
  find_cmd ((nm, cmd, cl, pl) :: l) line = if b then Some (Some (line, nm, cmd, cl, pl)) else find_cmd l line.
Proof using Hc Hp Hplus.
  intros En Hs Hn. cbn [find_cmd]. rewrite En. cbn [mbind option_bind].
  apply chars_of_spec in Hc as [Hc1 Hc2]. apply chars_of_spec in Hn as [Hn _]. rewrite !(app_assoc c).
  change (65 :: 84 :: 43 :: n) with (str "AT+" ++ n).
  rewrite (strstr_at (c ++ p) rest n b); [by destruct b|by apply Forall_app_2| |by rewrite <- app_assoc|done].
  intros [H|H]%elem_of_app; done.
Qed.
End FindCmd.

(** Each command is found by its own entry, whatever parameter follows. *)
Lemma find_cmd_own nm cmd cl pl p rest : (nm, cmd, cl, pl) ∈ drop 1 at_cmds_hj -> is_str p -> 43 ∉ p ->
  exists c, nm = (str "AT+" ++ c) ++ [0] /\ (pl <> 0 -> cl = Z.of_nat (length (str "AT+" ++ c))) /\ chars_of c = true /\
    find_cmd (drop 1 at_cmds_hj) (str "AT+" ++ c ++ p ++ 0 :: rest) =
    Some (Some (str "AT+" ++ c ++ p ++ 0 :: rest, nm, cmd, cl, pl)).
Proof.
  intros Hin Hp Hplus. cbn [drop at_cmds_hj] in *.
  repeat (apply elem_of_cons in Hin as [Hin|Hin]; [injection Hin as -> -> -> ->|]); [..|by apply elem_of_nil in Hin];
    (match goal with |- exists c, lit ?n = _ /\ _ => let c := eval vm_compute in (drop 3 (str n)) in exists c end;
     split; [reflexivity|]; split; [intros ?; reflexivity || done|]; split; [reflexivity|]; 
     repeat (erewrite find_cmd_step;
       [|reflexivity|exact Hp|exact Hplus|reflexivity..]; cbv iota); reflexivity).
Qed.

Lemma line2argv_own nm cmd cl pl p rest : (nm, cmd, cl, pl) ∈ drop 1 at_cmds_hj -> is_str p -> 43 ∉ p ->
  (pl = 0 -> p = []) -> exists n, cstr nm = Some n /\
  line2argv (n ++ p ++ 0 :: rest) =
    Some (if decide (p = []) then (2, [lit "AT"; cmd]) else (3, [lit "AT"; cmd; p ++ 0 :: rest])).
Proof.
  intros Hin Hp Hplus Hpl. destruct (find_cmd_own nm cmd cl pl p rest Hin Hp Hplus) as (c & -> & Hcl & Hc & E).
  apply chars_of_spec in Hc as [Hc _]. assert (is_str (str "AT+" ++ c)) as Hs.
  { unfold is_str. cbn [str app]. by do 3 (apply Forall_cons_2; [done|]). }
  assert (str "AT+" ++ c ++ p ++ 0 :: rest = ((str "AT+" ++ c) ++ p) ++ 0 :: rest) as Eapp by by rewrite <- !app_assoc.
  exists (str "AT+" ++ c). split; [by apply cstr_spec|]. rewrite <- app_assoc. unfold line2argv.
  assert (strlen (str "AT+" ++ c ++ p ++ 0 :: rest) = Some (Z.of_nat (length ((str "AT+" ++ c) ++ p)))) as ->.
  { rewrite Eapp. apply strlen_spec. by apply Forall_app_2. }
  cbn [mbind option_bind]. destruct (Z.eqb_spec (Z.of_nat (length ((str "AT+" ++ c) ++ p))) 0) as [H0|_];
    [rewrite !length_app in H0; cbn in H0; lia|].
  change (skip_blanks (str "AT+" ++ c ++ p ++ 0 :: rest)) with (str "AT+" ++ c ++ p ++ 0 :: rest).
  change (at_end (str "AT+" ++ c ++ p ++ 0 :: rest)) with (Some false).
  change (strcmp (str "AT+" ++ c ++ p ++ 0 :: rest) (lit "AT")) with (Some (43 - 0)). cbn [mbind option_bind].
  change (43 - 0 =? 0) with false. rewrite E. cbn [mbind option_bind].
  destruct (Z.eqb_spec pl 0) as [->|Hpl0]; cbn [negb].
  - rewrite (Hpl eq_refl). rewrite decide_True by done. cbn [app].
    assert (strcmp (str "AT+" ++ c ++ 0 :: rest) ((str "AT+" ++ c) ++ [0]) = Some 0) as ->; [|done].
    rewrite app_assoc. by apply strcmp_refl.
  - assert (strlen (str "AT+" ++ c ++ p ++ 0 :: rest) = Some (Z.of_nat (length ((str "AT+" ++ c) ++ p)))) as ->.
    { rewrite Eapp. apply strlen_spec. by apply Forall_app_2. }
    cbn [mbind option_bind]. rewrite (Hcl Hpl0). rewrite (length_app _ p).
    destruct (Z.ltb_spec (Z.of_nat (length (str "AT+" ++ c))) (Z.of_nat (length (str "AT+" ++ c) + length p))) as [Hlt|Hge].
    + rewrite decide_False by (intros ->; cbn in Hlt; lia). do 3 f_equal. rewrite Nat2Z.id, app_assoc. by rewrite drop_app_length.
    + rewrite decide_True; [done|]. apply length_zero_iff_nil. lia.
Qed.

(** Printable bytes fill the line being collected. *)
Lemma spec_run_app es1 es2 a : spec_run (es1 ++ es2) a =
  let '(l1, a1) := spec_run es1 a in let '(l2, a2) := spec_run es2 a1 in (l1 ++ l2, a2).
Proof.
  revert a. induction es1 as [|e es1 IH]; intros a; cbn [app spec_run]; [by destruct (spec_run es2 a)|].
  destruct (spec_step e a) as [o a1]. rewrite IH. destruct (spec_run es1 a1) as [l1 a2], (spec_run es2 a2) as [l2 a3]. by destruct o.
Qed.
Lemma spec_run_bytes l : forall p q b, Forall (fun c => isprint c = true) l -> (length p + length l <= 255)%nat ->
  spec_run (RxByte <$> l) (LineFifo q (Some p) b) = ([], LineFifo q (Some (p ++ l)) b).
Proof.
  induction l as [|c l IH]; intros p q b Hl Hlen; [by rewrite app_nil_r|]. apply Forall_cons in Hl as [Hc Hl].
  cbn [fmap list_fmap spec_run spec_step partial]. unfold spec_char. rewrite Hc.
  destruct (Nat.ltb_spec (length p) 255); [|cbn in Hlen; lia]. cbn [queued busy].
  rewrite (IH (p ++ [c])); [by rewrite <- app_assoc|done|]. rewrite length_app. cbn in *. lia.
Qed.

(** a command of the table that is typed with a parameter of printable characters
    (without a plus sign, and none where the command takes none) and ended by CR LF reaches
    the command thread as that line, and is split into "AT", that command and that
    parameter. *)
Theorem typed_command_parsed nm cmd cl pl p bufs :
  (nm, cmd, cl, pl) ∈ drop 1 at_cmds_hj -> Forall (fun c => isprint c = true) p -> 43 ∉ p ->
  (pl = 0 -> p = []) -> (length p <= 240)%nat ->
  length bufs = 3%nat -> Forall (fun l => length l = 256%nat) bufs ->
  exists n, cstr nm = Some n /\
  ends (at_run ((RxByte <$> n ++ p ++ [13; 10]) ++ [TakeCmd])) (at_cmd_init bufs) (fun lines _ =>
    lines = [n ++ p] /\
    line2argv ((n ++ p) ++ [0]) =
      Some (if decide (p = []) then (2, [lit "AT"; cmd]) else (3, [lit "AT"; cmd; p ++ [0]]))).
Proof.
  intros Hin Hp Hplus Hpl Hlen Hb3 Hb. pose proof (printable_is_str p Hp) as Hs.
  destruct (line2argv_own nm cmd cl pl p [] Hin Hs Hplus Hpl) as (n & En & El). exists n. split; [done|].
  eapply ends_mono; [by apply run_implements, init_implements|]. intros lines s [-> _]. rewrite <- app_assoc. split; [|exact El].
  assert (exists c n', n = c :: n' /\ Forall (fun c => isprint c = true) n /\ (length n <= 14)%nat) as (c & n' & -> & Hn & Hn').
  { cbn [drop at_cmds_hj] in Hin.
    repeat (apply elem_of_cons in Hin as [Hin|Hin]; [injection Hin as -> -> -> ->; injection En as <-|]); [..|by apply elem_of_nil in Hin];
      (eexists _, _; split; [reflexivity|]; split; [repeat (apply Forall_cons_2; [done|]); apply Forall_nil_2|cbn; lia]). }
  rewrite spec_run_app. change ((c :: n') ++ p ++ [13; 10]) with ([c] ++ (n' ++ p ++ [13; 10])).
  rewrite (app_assoc n'), !fmap_app, !spec_run_app. apply Forall_cons in Hn as [Hc Hn].
  cbn [fmap list_fmap spec_run spec_step partial used queued busy length Nat.add Nat.ltb Nat.leb MAX_CMD_QUEUED].
  unfold spec_char at 1. rewrite Hc. cbn [queued busy length Nat.ltb Nat.leb app].
  rewrite <- fmap_app, spec_run_app, spec_run_bytes; [|by apply Forall_app_2|rewrite length_app; cbn in *; lia]. reflexivity.
Qed.
Lemma typed_command_parsed_witness : exists n, cstr (lit "AT+NAME") = Some n /\
  ends (at_run ((RxByte <$> n ++ str "ZRS7" ++ [13; 10]) ++ [TakeCmd])) (at_cmd_init (replicate 3 (replicate 256 0))) (fun lines _ =>
    lines = [n ++ str "ZRS7"] /\ line2argv ((n ++ str "ZRS7") ++ [0]) = Some (3, [lit "AT"; lit "NAME"; str "ZRS7" ++ [0]])).
Proof.
  apply (typed_command_parsed (lit "AT+NAME") (lit "NAME") 7 255 (str "ZRS7") (replicate 3 (replicate 256 0))).
  - by apply (bool_decide_unpack _).
  - repeat constructor.
  - by apply (bool_decide_unpack _).
  - done.
  - cbn. lia.
  - done.
  - repeat constructor.
Defined.

(** With the equal sign no command is ever recognised: a line is refused, or the inner loop
    runs out of equal signs and its null pointer is searched for the next plus sign. *)
Definition argc_of (t : tokens) : Z := let 'Tokens argc _ _ := t in argc.
Lemma token_refused line p argv t : token line p argv = Some (inl t) -> argc_of t = - EINVAL.
Proof.
  unfold token. destruct (wr line (Z.of_nat p) 0) as [l'|]; cbn [mbind option_bind]; [|done].
  destruct (at_end _) as [[]|]; cbn [mbind option_bind]; [by intros [= <-]| |done].
  case_match; [by intros [= <-]|done].
Qed.
Lemma equal_tokens_refused fuel : forall line p argv t, equal_tokens fuel line p argv = Some t -> argc_of t = - EINVAL.
Proof.
  induction fuel as [|fuel IH]; intros line p argv t; cbn [equal_tokens]; [done|].
  destruct (strchr _ _) as [[k|]|]; cbn [mbind option_bind]; [|done..].
  destruct (token line (p + k) argv) as [[t'|[[l' p'] a']]|] eqn:E; cbn [mbind option_bind]; [|by apply IH|done].
  intros [= <-]. by apply token_refused in E.
Qed.
Lemma equal_sign_lines_refused line t : line2argv_equal line = Some t -> argc_of t <= 1.
Proof.
  unfold line2argv_equal. destruct (strlen line) as [n|]; cbn [mbind option_bind]; [|done].
  destruct (n =? 0); [by intros [= <-]|]. destruct (at_end _) as [[]|]; cbn [mbind option_bind]; [by intros [= <-]| |done].
  destruct (strchr _ _) as [[k|]|]; cbn [mbind option_bind]; [|by intros [= <-]|done].
  destruct (token _ _ _) as [[t'|[[l' p'] a']]|] eqn:E; cbn [mbind option_bind]; [| |done].
  - intros [= <-]. apply token_refused in E. rewrite E. done.
  - intros H%equal_tokens_refused. rewrite H. done.
Qed.
