(* ===== verification/Module.v ===== *)
(** * The serial module (samples/ble_module: at/at_cmd.c, app_ble.c, main.c, app_input.c)

    The commands, the link and the list of found devices.  What the module's UART sends, and
    the calls it makes into the host, the settings and the LEDs, are recorded in order; the
    answer a call gets is the parameter [host], a function of the calls made before it.
    Configured as in [autoconf_rmc.h]: QPPS profile, quick connection by fixed handles, no
    automatic reconnection, device names with the prefix "ZRS". *)
From S2P Require Import Prelude CString AtMisc AtLine FlashNor Nvram.
From stdpp Require Import strings.
#[local] Open Scope Z_scope.

(** ** Constants *)
Definition BLE_ROLE_SLAVE : Z := 0.
Definition BLE_ROLE_MASTER : Z := 1.
Definition INITIALIZED : Z := 0.
Definition READY : Z := 1.
Definition INQUIRING : Z := 4.
Definition ADVERTISING : Z := 5.
Definition CONNECTING : Z := 6.
Definition CONNECTED : Z := 7.
Definition RSSI_NUM : Z := 5.
Definition DEV_TOTAL : Z := 5.
Definition BLE_NAME_MAX_LEN : Z := 18.
Definition BLE_ADV_NAME_DFLT : string := "ZRS1000001".
Definition BLE_DEVICE_ADDR_DFLT : string := "11:22:33:44:55:66".
Definition BLE_TARGET_ADDR_DFLT : string := "00:00:00:00:00:00".
Definition CONFIG_DEVICE_NAME_PREFIX : string := "ZRS".
Definition BT_CONN_CONNECT_SCAN : Z := 1.
Definition BT_CONN_CONNECT : Z := 2.
Definition BT_CONN_CONNECTED : Z := 3.
Definition BT_LE_ADV_IND : Z := 0.
Definition BT_LE_ADV_SCAN_RSP : Z := 4.
Definition BT_DATA_NAME_SHORTENED : Z := 8.
Definition BT_DATA_NAME_COMPLETE : Z := 9.
Definition BT_ADDR_LE_STR_LEN : Z := 27.
Definition EALREADY : Z := 69.
Definition EIO : Z := 5.
Definition MSG_OTA_EVENT : Z := 2.
Definition MSG_SCAN_TIME_OUT : Z := 3.
Definition MSG_CREATE_LE_TIME_OUT : Z := 4.
Definition MSG_CONNECTED : Z := 5.
Definition MSG_DISCOVER_COMPLETE : Z := 6.
Definition MSG_DISCONNECT : Z := 8.
Definition MSG_DISCONNECTED : Z := 9.
Definition LED_STATE_IND_PIN : Z := 6.
Definition CONN_STATE_IND_PIN : Z := 7.
Definition CONN_INT_PIN : Z := 8.
Definition POWM_MODE_PIN : Z := 18.
Definition MOUDULE_SVC_HANDLE_START : Z := 16.
Definition MOUDULE_SVC_HANDLE_END : Z := 22.
Definition QPPS_TX_HDL : Z := 2.
Definition QPPS_RX_CH_CCC_HDL : Z := 6.

(** ** State *)
Record ble_dev := BleDev {
  d_addr : bt_addr_le; rssi_cur_index : Z; rssi : list Z; rssi_av : Z; rssi_cnt : Z; d_name : list Z }.
#[export] Instance eta_ble_dev : EtaRecord ble_dev := fun r =>
  BleDev (d_addr r) (rssi_cur_index r) (rssi r) (rssi_av r) (rssi_cnt r) (d_name r).
Definition dev_zero : ble_dev := BleDev BT_ADDR_LE_ANY 0 (replicate 5 0) 0 0 (replicate 18 0).

Record ble_params := BleParams {
  role : Z; auto_conn : Z; state : Z; dev_list : list ble_dev; dev_cnt : Z;
  targed_addr : bt_addr_le; adv_name : list Z; dev_addr : bt_addr_le }.
#[export] Instance eta_ble_params : EtaRecord ble_params := fun r =>
  BleParams (role r) (auto_conn r) (state r) (dev_list r) (dev_cnt r) (targed_addr r) (adv_name r) (dev_addr r).

Inductive mod_event :=
| Uart (out : list Z)
| AdvStop | AdvStart (name : list Z) (err : Z)
| ScanStart (active : bool) (err : Z) | ScanStop
| Host (f : string) (v : Z)
| ConnLookup (addr : bt_addr_le) (st : Z)          (* -1: there is none, else its state *)
| ConnState (conn st : Z) | ConnCreate (addr : bt_addr_le) (conn : Z) | ConnUnref (conn : Z)
| ConnDisconnect (conn err : Z)
| ScanTimer (ms : Z) | ScanTimerStop | CreateTimer (ms : Z)
| Message (type : Z)
| StorageCleared | NvramSet (key : string) (data : list Z)
| Led (pin on period : Z) | GpioRead (pin v : Z) | DeviceBusy (busy : bool)
| DataMode | CmdMode
| GattWrite (handle : Z) (data : list Z) (err : Z) | GattNotify (data : list Z) (err : Z)
| Subscribe (ccc_handle value_handle err : Z)
| SleepMs (ms : Z) | RebootApp | OtaEvent (value : Z) | WakeLock (held : bool) | ServicesRegistered.
#[export] Instance mod_event_dec : EqDecision mod_event.
Proof. solve_decision. Defined.

Record subscribe_params := SubscribeParams { ccc_handle : Z; value_handle : Z }.

Section Module.
Context {NS : Type} `{Nvram NS}.

Record module := Mod {
  ble_param : ble_params;
  pconn : option Z; work_state : Z;       (* app_cb *)
  conn_tmp : option Z;
  ad_name_live : bool; ad_name_len : Z;   (* the name of [ad]: the default, or [adv_name] *)
  module_handle : list Z; sub : subscribe_params;
  qpps_rx_ccc : Z; ota_need_reset : Z; bt_ready_flag : Z; overlay_ready_flag : Z;
  nv : NS; mlog : list mod_event }.
#[global] Instance eta_module : EtaRecord module := fun r =>
  Mod (ble_param r) (pconn r) (work_state r) (conn_tmp r) (ad_name_live r) (ad_name_len r) (module_handle r)
    (sub r) (qpps_rx_ccc r) (ota_need_reset r) (bt_ready_flag r) (overlay_ready_flag r) (nv r) (mlog r).
#[local] Abbreviation MO := (M module).

Context (host : list mod_event -> Z).
(** What lies behind an advertising report in the receive buffer. *)
Context (behind : list Z).

Definition emit (e : mod_event) : MO unit := modify (fun s => s <| mlog ::= (fun t => t ++ [e]) |>).
Definition call (e : Z -> mod_event) : MO Z := s ← get; let v := host (mlog s) in emit (e v);; mret v.
Definition get_bp : MO ble_params := gets ble_param.
Definition upd_bp (f : ble_params -> ble_params) : MO unit := modify (fun s => s <| ble_param ::= f |>).
Definition nvram_config_set_factory (key : string) (d : list Z) : MO unit :=
  modify (fun s => s <| nv ::= (fun n => (nvram_config_set key d n).2) |>);; emit (NvramSet key d).
Definition nvram_config_get_factory (key : string) (len : Z) : MO (Z * list Z) :=
  gets (fun s => nvram_config_get key len (nv s)).

Definition send_async_msg (msg_type : Z) : MO unit := emit (Message msg_type).

(** ** Responses *)
Definition at_cmd_port_print (b : list Z) : MO unit := s ← lift (cstr b); emit (Uart s).
Definition at_cmd_response (b : list Z) : MO unit := at_cmd_port_print b.
Definition CRLF : list Z := [13; 10].
Definition at_cmd_response_ok : MO unit := at_cmd_port_print (str "OK" ++ CRLF ++ [0]).
Definition at_cmd_response_error : MO unit := at_cmd_port_print (str "ERROR" ++ CRLF ++ [0]).
(** "+<name>=", the parameter, CR LF "OK" CR LF. *)
Definition at_cmd_echo (nm p : list Z) : MO unit :=
  at_cmd_response (nm ++ [0]);; at_cmd_response p;; at_cmd_response (CRLF ++ str "OK" ++ CRLF ++ [0]).
(** snprintf_rom(ret, len, ...) and the response; the output is cut to the buffer. *)
Definition at_cmd_printf (len : Z) (out : list Z) : MO unit := at_cmd_response (snprintk len out ++ [0]).
(** %d *)
Fixpoint decimal (fuel : nat) (n : Z) : list Z :=
  match fuel with
  | O => []
  | S fuel => (if n <? 10 then [] else decimal fuel (n / 10)) ++ [48 + n mod 10]
  end.
Definition fmt_d (n : Z) : list Z := if n <? 0 then 45 :: decimal 10 (- n) else decimal 10 n.

(** ** Advertising and scanning *)
Definition ble_state_update (st : Z) : MO unit := upd_bp (fun p => p <| state := st |>).
(** The name advertised: [ad] points to [adv_name] once a name was set. *)
Definition ad_data_set (data_len : Z) : MO Z :=
  modify (fun s => s <| ad_name_live := true |> <| ad_name_len := data_len |>);; mret 0.
Definition advertised_name (s : module) : list Z :=
  if ad_name_live s then take (Z.to_nat (ad_name_len s)) (adv_name (ble_param s)) else str "ZRS1020810".
Definition start_adv : MO unit :=
  emit AdvStop;;
  s ← get;
  err ← call (AdvStart (advertised_name s));
  if negb (err =? 0) then mret tt else ble_state_update ADVERTISING.
Definition start_scan (active : bool) : MO Z := call (ScanStart active).
Definition stop_scan : MO unit := emit ScanStop;; ble_state_update READY.
Definition bt_le_conn_lookup_addr (addr : bt_addr_le) : MO Z := call (ConnLookup addr).

Definition disconnect : MO unit :=
  s ← get;
  match pconn s with
  | Some c => err ← call (ConnDisconnect c); mret tt
  | None =>
      (match conn_tmp s with
       | Some c => err ← call (ConnDisconnect c); send_async_msg MSG_CREATE_LE_TIME_OUT
       | None => at_cmd_response (str "+DISCONNECTED" ++ CRLF ++ [0])
       end);;
      send_async_msg MSG_DISCONNECTED
  end.

(** ** Commands *)
Definition at_cmd_AT : MO unit := at_cmd_response_ok.
Definition switch_role (new_role : Z) : MO unit :=
  p ← get_bp;
  (if new_role =? BLE_ROLE_SLAVE then when (state p =? INQUIRING) stop_scan;; start_adv
   else when (state p =? ADVERTISING) (emit AdvStop));;
  p ← get_bp;
  when (state p =? CONNECTING) disconnect;;
  upd_bp (fun p => p <| role := b2z (truthy new_role) |>).
Definition at_cmd_role_set (p_para : list Z) : MO unit :=
  n ← lift (atoi p_para);
  let role' := u8 n in
  dec ← lift (is_decimal_string p_para);
  if negb dec || (negb (role' =? BLE_ROLE_SLAVE) && negb (role' =? BLE_ROLE_MASTER)) then at_cmd_response_error
  else
    p ← get_bp;
    when (negb (role' =? role p)) (switch_role role';; ble_state_update READY);;
    at_cmd_echo (str "+ROLE=") p_para;;
    nvram_config_set_factory "BT_ROLE" [role'].
Definition at_cmd_role_get : MO unit :=
  p ← get_bp; at_cmd_printf 30 (str "+ROLE=" ++ fmt_d (role p) ++ CRLF).

Definition at_scan_timer_handler : MO unit := send_async_msg MSG_SCAN_TIME_OUT.
Definition at_cmd_start_scan (time_out : Z) : MO unit :=
  err ← start_scan true;
  if truthy err && negb (err =? - EALREADY) then at_cmd_response_error
  else ble_state_update INQUIRING;; when (truthy time_out) (emit (ScanTimer (1000 * time_out))).
Definition at_cmd_inq : MO unit :=
  p ← get_bp;
  if negb (BLE_ROLE_MASTER =? role p) then at_cmd_response_error
  else
    at_cmd_response_ok;;
    upd_bp (fun p => p <| dev_list := replicate 5 dev_zero |> <| dev_cnt := 0 |>);;
    at_cmd_start_scan 1.

(** The two connection functions differ in the host function that makes the connection. *)
Definition conn_create (create : bt_addr_le -> MO (option Z)) (addr : bt_addr_le) : MO Z :=
  st ← bt_le_conn_lookup_addr addr;
  if ((st =? BT_CONN_CONNECT) || (st =? BT_CONN_CONNECTED)) then mret 0
  else
    s ← get;
    go ← (if 0 <=? st then mret true
          else match conn_tmp s with
               | None => mret true
               | Some c =>
                   cs ← call (ConnState c);
                   if cs =? BT_CONN_CONNECT_SCAN then emit (ConnUnref c);; mret true
                   else err ← call (ConnDisconnect c); mret false
               end);
    if negb (go : bool) then mret (-1)
    else
      c ← create addr;
      modify (fun s => s <| conn_tmp := c |>);;
      match c with
      | None => at_cmd_response_error;; mret (-1)
      | Some c => emit (ConnUnref c);; ble_state_update CONNECTING;; mret 0
      end.
Definition bt_conn_create_le (addr : bt_addr_le) : MO (option Z) :=
  c ← call (ConnCreate addr); mret (if c =? 0 then None else Some c).
Definition at_conn_create (addr : bt_addr_le) : MO Z := conn_create bt_conn_create_le addr.
(** The quick variant works on the host's connections and scanner, which answer [Host]. *)
Definition host_call (f : string) : MO Z := call (Host f).
Definition bt_le_scan_update_new (fast_scan : bool) : MO Z :=
  explicit ← host_call "BT_DEV_EXPLICIT_SCAN";
  if truthy explicit then mret 0
  else
    scanning ← host_call "BT_DEV_SCANNING";
    err ← (if truthy scanning then host_call "set_le_scan_enable(0)" else mret 0);
    if truthy err then mret err
    else
      conn ← host_call "bt_conn_lookup_state_le";
      if conn =? 0 then mret 0
      else
        emit (ConnUnref conn);;
        host_call (if fast_scan then "start_le_scan(passive, 0x60, 0x60)" else "start_le_scan(passive, 0x800, 0x12)").
Definition bt_conn_create_le_new (peer : bt_addr_le) : MO (option Z) :=
  valid ← host_call "bt_le_conn_params_valid";
  if valid =? 0 then mret None
  else
    explicit ← host_call "BT_DEV_EXPLICIT_SCAN";
    if truthy explicit then mret None
    else
      conn ← host_call "bt_conn_lookup_addr_le";
      if negb (conn =? 0) then
        st ← call (ConnState conn);
        if st =? BT_CONN_CONNECT_SCAN then
          scanning ← host_call "BT_DEV_SCANNING";
          (if truthy scanning then mret tt else (_ ← bt_le_scan_update_new true; mret tt));;
          emit (CreateTimer 1000);; mret (Some conn)
        else if (st =? BT_CONN_CONNECT) || (st =? BT_CONN_CONNECTED) then mret (Some conn)
        else emit (ConnUnref conn);; mret None
      else
        conn ← call (ConnCreate peer);               (* bt_conn_add_le *)
        if conn =? 0 then mret None
        else
          _ ← bt_le_scan_update_new true;
          emit (CreateTimer 1000);; mret (Some conn).
Definition at_cona_create (addr : bt_addr_le) : MO Z := conn_create bt_conn_create_le_new addr.

Definition stop_inquiry : MO unit :=
  p ← get_bp; when (state p =? INQUIRING) (emit ScanTimerStop;; stop_scan).
Definition at_cmd_conn_set (p_para : list Z) : MO unit :=
  n ← lift (atoi p_para);
  let dev_index := u8 (n - 1) in
  p ← get_bp;
  if negb (role p =? BLE_ROLE_MASTER) || (dev_cnt p =? 0) || (dev_cnt p <? dev_index) then at_cmd_response_error
  else
    stop_inquiry;;
    d ← lift (rd (dev_list p) dev_index);
    e ← at_conn_create (d_addr d);
    when (truthy e) at_cmd_response_error.
(** "0x" or "0X" and twelve hexadecimal digits. *)
Definition hex_param (p_para : list Z) : option bool :=
  c0 ← rd p_para 0;
  if negb (c0 =? 48) then Some false
  else
    c1 ← rd p_para 1;
    if negb (c1 =? 120) && negb (c1 =? 88) then Some false
    else
      let p_addr := drop 2 p_para in
      n ← strlen p_addr;
      if negb (n =? 12) then Some false else is_hex_string p_addr.
(** [val] is what the local variable [addr] held. *)
Definition at_cmd_cona_set (val : list Z) (p_para : list Z) : MO unit :=
  n ← lift (atoi p_para);
  p ← get_bp;
  if negb (role p =? BLE_ROLE_MASTER) then at_cmd_response_error
  else
    ok ← lift (hex_param p_para);
    if negb (ok : bool) then at_cmd_response_error
    else
      '(_, addr) ← lift (at_str_to_le_addr 18 val (drop 2 p_para));
      if bool_decide (addr = BT_ADDR_LE_ANY) then at_cmd_response_error
      else
        stop_inquiry;;
        e ← at_cona_create addr;
        when (truthy e) at_cmd_response_error.
Definition at_cmd_auto_conn_set (p_para : list Z) : MO unit :=
  n ← lift (atoi p_para);
  let auto := u8 n in
  p ← get_bp;
  dec ← lift (is_decimal_string p_para);
  if negb (role p =? BLE_ROLE_MASTER) || negb dec then at_cmd_response_error
  else if negb (auto =? 0) && negb (auto =? 1) then at_cmd_response_error
  else
    upd_bp (fun p => p <| auto_conn := auto |>);;
    at_cmd_echo (str "+AUTOCONN=") p_para;;
    nvram_config_set_factory "BT_AUTOCONN" [auto].
Definition at_cmd_auto_conn_get : MO unit :=
  p ← get_bp;
  if negb (role p =? BLE_ROLE_MASTER) then at_cmd_response_error
  else at_cmd_printf 30 (str "+AUTOCONN=" ++ fmt_d (auto_conn p) ++ CRLF).
Definition at_cmd_clear : MO unit :=
  at_cmd_response_ok;;
  emit StorageCleared;;
  upd_bp (fun p => p <| targed_addr := BT_ADDR_LE_ANY |>);;
  nvram_config_set_factory "BT_TGT_ADDR" (str BLE_TARGET_ADDR_DFLT).
Definition at_cmd_reset : MO unit := at_cmd_response_ok;; emit (SleepMs 100);; emit RebootApp.
Definition at_cmd_default : MO unit :=
  nvram_config_set_factory "BT_ADDR" (str BLE_DEVICE_ADDR_DFLT);;
  nvram_config_set_factory "BT_ROLE" [0];;
  nvram_config_set_factory "BT_AUTOCONN" [0];;
  nvram_config_set_factory "BT_NAME" (str BLE_ADV_NAME_DFLT);;
  nvram_config_set_factory "BT_TGT_ADDR" (str BLE_TARGET_ADDR_DFLT);;
  emit StorageCleared;;
  upd_bp (fun p => p <| targed_addr := BT_ADDR_LE_ANY |>);;
  at_cmd_response_ok.
(** memset, memcpy of [cp_len] bytes, terminator in the last byte. *)
Definition name_field (src : list Z) (cp_len : Z) : option (list Z) :=
  if Z.of_nat (length src) <? cp_len then None
  else b ← blit 0 (take (Z.to_nat cp_len) src) (replicate 18 0); wr b (BLE_NAME_MAX_LEN - 1) 0.
Definition at_cmd_adv_name_set (p_para : list Z) : MO unit :=
  len ← lift (strlen p_para);
  let cp_len := if BLE_NAME_MAX_LEN - 1 <? len then BLE_NAME_MAX_LEN - 1 else len in
  if len =? 0 then at_cmd_response_error
  else
    c ← lift (strncmp 3 p_para (lit CONFIG_DEVICE_NAME_PREFIX));
    if negb (c =? 0) then at_cmd_response_error
    else
      nm ← lift (name_field p_para cp_len);
      upd_bp (fun p => p <| adv_name := nm |>);;
      _ ← ad_data_set cp_len;
      at_cmd_echo (str "+NAME=") nm;;
      p ← get_bp;
      when (role p =? BLE_ROLE_SLAVE) start_adv;;
      nvram_config_set_factory "BT_NAME" (take (Z.to_nat cp_len) p_para).
Definition at_cmd_adv_name_get : MO unit :=
  p ← get_bp; s ← lift (cstr (adv_name p)); at_cmd_printf 30 (str "+NAME=" ++ s ++ CRLF).
Definition at_cmd_laddr_set (val : list Z) (p_para : list Z) : MO unit :=
  ok ← lift (hex_param p_para);
  if negb (ok : bool) then at_cmd_response_error
  else
    '(bt_addr_str, addr) ← lift (at_str_to_le_addr 18 val (drop 2 p_para));
    nvram_config_set_factory "BT_ADDR" bt_addr_str;;
    upd_bp (fun p => p <| dev_addr := addr |>);;
    at_cmd_echo (str "+LADDR=") p_para.
Definition at_cmd_laddr_get : MO unit :=
  p ← get_bp;
  at_cmd_printf 30 (str "+LADDR=0x" ++ at_addr_le_to_str (dev_addr p) 18 ++ CRLF).
Definition at_cmd_disconnect : MO unit := send_async_msg MSG_DISCONNECT;; at_cmd_response_ok.
Definition at_cmd_ota : MO unit :=
  upd_bp (fun p => p <| role := BLE_ROLE_SLAVE |>);; send_async_msg MSG_DISCONNECT;; at_cmd_response_ok.

(** name, set_cb, exec_cb *)
Definition at_cmd_commands (val : list Z) : list (list Z * option (list Z -> MO unit) * option (MO unit)) :=
  [(lit "ROLE", Some at_cmd_role_set, Some at_cmd_role_get);
   (lit "INQ", None, Some at_cmd_inq);
   (lit "CONN", Some at_cmd_conn_set, None);
   (lit "CONA", Some (at_cmd_cona_set val), None);
   (lit "AUTOCONN", Some at_cmd_auto_conn_set, Some at_cmd_auto_conn_get);
   (lit "CLEAR", None, Some at_cmd_clear);
   (lit "RESET", None, Some at_cmd_reset);
   (lit "DEFAULT", None, Some at_cmd_default);
   (lit "NAME", Some at_cmd_adv_name_set, Some at_cmd_adv_name_get);
   (lit "LADDR", Some (at_cmd_laddr_set val), Some at_cmd_laddr_get);
   (lit "DISCONNECT", None, Some at_cmd_disconnect);
   (lit "OTA", None, Some at_cmd_ota)].
Fixpoint find_command {A B} (l : list (list Z * A * B)) (command : list Z) : option (option (A * B)) :=
  match l with
  | [] => Some None
  | (nm, a, b) :: l => c ← strcmp command nm; if c =? 0 then Some (Some (a, b)) else find_command l command
  end.
(** The thread's dispatch on a command line's arguments. *)
Definition exec_cb (val : list Z) (argc : Z) (argv : list (list Z)) : MO unit :=
  match argv with
  | [] => at_cmd_response_error
  | first_string :: rest =>
      c0 ← lift (rd first_string 0);
      c ← lift (strcmp first_string (lit "AT"));
      if (c0 =? 0) || negb (c =? 0) then at_cmd_response_error
      else if argc =? 1 then at_cmd_response_ok
      else
        command ← lift (head rest);
        f ← lift (find_command (at_cmd_commands val) command);
        match f with
        | None => at_cmd_response_error
        | Some (set_cb, exec_cb) =>
            if argc =? 2 then default at_cmd_response_error exec_cb
            else if argc =? 3 then
              match set_cb with
              | Some f => param ← lift (head (tail rest)); f param
              | None => at_cmd_response_error
              end
            else mret tt
        end
  end.
Definition at_cmd_exec (val line : list Z) : MO Z :=
  '(argc, argv) ← lift (line2argv line);
  if argc <=? 0 then mret argc else exec_cb val argc argv;; mret argc.
(** One round of the command thread. *)
Definition at_cmd_handler (val line : list Z) : MO unit :=
  s ← get;
  match pconn s with
  | Some _ => mret tt
  | None => e ← at_cmd_exec val line; when (e <? 0) at_cmd_response_error
  end.

(** ** The list of found devices *)
Definition upd_dev (i : Z) (f : ble_dev -> option ble_dev) : MO unit :=
  p ← get_bp;
  d ← lift (rd (dev_list p) i);
  d ← lift (f d);
  l ← lift (wr (dev_list p) i d);
  upd_bp (fun p => p <| dev_list := l |>).
Fixpoint find_dev (l : list ble_dev) (n : nat) (i : Z) (addr : bt_addr_le) : Z :=
  match n, l with
  | S n, d :: l => if bool_decide (d_addr d = addr) then i else find_dev l n (i + 1) addr
  | _, _ => -1
  end.
Definition get_dev_index (p : ble_params) (addr : bt_addr_le) : Z :=
  find_dev (dev_list p) (Z.to_nat (dev_cnt p)) 0 addr.
Fixpoint index_of (l : list ble_dev) (n : nat) (i v : Z) : Z :=
  match n, l with
  | S n, d :: l => if v =? rssi_av d then i else index_of l n (i + 1) v
  | _, _ => -1
  end.
Fixpoint set_averages (l : list ble_dev) (n : nat) : option (list ble_dev) :=
  match n, l with
  | S n, d :: l => a ← average (rssi d) (rssi_cnt d); l ← set_averages l n; Some (d <| rssi_av := s8 a |> :: l)
  | O, l => Some l
  | S _, [] => None
  end.
Definition get_max_riss_dev_index : MO Z :=
  p ← get_bp;
  l ← lift (set_averages (dev_list p) (Z.to_nat (dev_cnt p)));
  upd_bp (fun p => p <| dev_list := l |>);;
  let rssis := (rssi_av <$> take (Z.to_nat (dev_cnt p)) l) ++ replicate (5 - Z.to_nat (dev_cnt p)) 0 in
  sorted ← lift (bubble_sort rssis (dev_cnt p));
  top ← lift (rd sorted 0);
  mret (index_of l (Z.to_nat (dev_cnt p)) 0 top).

(** [name] is a local buffer of BLE_NAME_MAX_LEN bytes. *)
Definition name_copy (name : list Z) : option (list Z) :=
  if Z.of_nat (length name) <? BLE_NAME_MAX_LEN then None
  else wr (take (Z.to_nat BLE_NAME_MAX_LEN) name) (BLE_NAME_MAX_LEN - 1) 0.
Definition add_scan_dev_list (addr : bt_addr_le) (rssi' : Z) (name : list Z) (name_len : Z) : MO bool :=
  p ← get_bp;
  let index := get_dev_index p addr in
  if index <? 0 then
    if dev_cnt p <? DEV_TOTAL - 1 then
      upd_dev (dev_cnt p) (fun d =>
        r ← wr (rssi d) (rssi_cnt d) rssi';
        Some (d <| d_addr := addr |> <| rssi := r |> <| rssi_cur_index := 0 |> <| rssi_cnt ::= (fun c => u8 (c + 1)) |>));;
      (if truthy name_len then upd_dev (dev_cnt p) (fun d => n ← name_copy name; Some (d <| d_name := n |>)) else mret tt);;
      upd_bp (fun p => p <| dev_cnt ::= (fun c => u8 (c + 1)) |>);;
      mret (truthy name_len)
    else mret false
  else
    upd_dev index (fun d =>
      let i := if s8 (rssi_cur_index d + 1) =? RSSI_NUM then 0 else s8 (rssi_cur_index d + 1) in
      r ← wr (rssi d) i rssi';
      Some (d <| rssi_cur_index := i |> <| rssi := r |>
              <| rssi_cnt ::= (fun c => if c <? RSSI_NUM then u8 (c + 1) else c) |>));;
    p ← get_bp;
    d ← lift (rd (dev_list p) index);
    n ← lift (strlen (d_name d));
    if truthy name_len && (n =? 0) then
      upd_dev index (fun d => n ← name_copy name; Some (d <| d_name := n |>));; mret true
    else mret false.

(** The advertising data is a list of length, type and value; [name] the buffer so far. *)
Fixpoint ad_parse (fuel : nat) (ad name : list Z) (name_len : Z) : option (bool * list Z) :=
  match fuel with
  | O => None
  | S fuel =>
      match ad with
      | len :: ad1 =>
          if Z.of_nat (length ad) <=? 1 then Some (false, name)
          else if len =? 0 then Some (false, name)
          else if (Z.of_nat (length ad1) <? len) || (Z.of_nat (length ad1) <? 1) then Some (false, name)
          else
            match ad1 with
            | [] => None
            | type :: ad2 =>
                hit ← (if (type =? BT_DATA_NAME_SHORTENED) || (type =? BT_DATA_NAME_COMPLETE)
                       then strstr (ad2 ++ behind) (str CONFIG_DEVICE_NAME_PREFIX) else Some None);
                match hit with
                | Some _ =>
                    let cp_len := if name_len <? len - 1 then name_len else len - 1 in
                    name ← blit 0 (take (Z.to_nat cp_len) ad2) name;
                    Some (true, name)
                | None => ad_parse fuel (drop (Z.to_nat (len - 1)) ad2) name name_len
                end
            end
      | [] => Some (false, name)
      end
  end.

Definition device_found (addr : bt_addr_le) (rssi' evtype : Z) (ad : list Z) : MO unit :=
  if negb (addr_type addr =? BT_ADDR_LE_PUBLIC) || (negb (evtype =? BT_LE_ADV_IND) && negb (evtype =? BT_LE_ADV_SCAN_RSP))
  then mret tt
  else
    '(hit, name) ← lift (ad_parse (S (length ad)) ad (replicate 18 0) (BLE_NAME_MAX_LEN - 1));
    if negb (hit : bool) then mret tt
    else
      nm ← lift (cstr name);
      get_name ← add_scan_dev_list addr rssi' name (Z.of_nat (length nm));
      p ← get_bp;
      when get_name (at_cmd_printf 50 (str "+INQ:" ++ fmt_d (dev_cnt p) ++ str " 0x" ++ at_addr_le_to_str addr BT_ADDR_LE_STR_LEN ++
        str " " ++ nm ++ str " " ++ fmt_d rssi' ++ CRLF));;
      if truthy (auto_conn p) then
        if dev_cnt p =? DEV_TOTAL then
          index ← get_max_riss_dev_index;
          when (0 <=? index) (at_cmd_conn_set [index + 48])
        else mret tt
      else when (dev_cnt p =? DEV_TOTAL) (emit (ScanTimer 10)).

(** ** Callbacks of the host *)
Definition enter_into_data_mode : MO unit := emit DataMode.
Definition enter_into_at_cmd_mode : MO unit := emit CmdMode.
Definition led_set_state (pin on period : Z) : MO unit := emit (Led pin on period).
Definition connected (conn : Z) (dst : bt_addr_le) (err : Z) : MO unit :=
  modify (fun s => s <| conn_tmp := None |>);;
  if truthy err then at_cmd_response_error
  else
    modify (fun s => s <| pconn := Some conn |> <| work_state := 1 |>);;
    enter_into_data_mode;;
    ble_state_update CONNECTED;;
    p ← get_bp;
    (if role p =? BLE_ROLE_SLAVE then at_cmd_printf 30 (str "+CONNECTED>>0x" ++ at_addr_le_to_str dst BT_ADDR_LE_STR_LEN ++ CRLF)
     else at_cmd_response (str "+CONNECTED" ++ CRLF ++ [0]));;
    when (BLE_ROLE_MASTER =? role p)
      (upd_bp (fun p => p <| targed_addr := dst |>);;
       nvram_config_set_factory "BT_TGT_ADDR" (at_addr_le_to_str2 dst BT_ADDR_LE_STR_LEN);;
       send_async_msg MSG_CONNECTED);;
    led_set_state LED_STATE_IND_PIN 0 300;;
    led_set_state LED_STATE_IND_PIN 1 0;;
    led_set_state CONN_STATE_IND_PIN 1 0.
Definition reset_subscribe_params : MO unit := modify (fun s => s <| sub ::= (fun p => SubscribeParams (ccc_handle p) 0) |>).
Definition disconnected : MO unit :=
  modify (fun s => s <| pconn := None |> <| work_state := 0 |> <| conn_tmp := None |>);;
  enter_into_at_cmd_mode;;
  at_cmd_response (str "+DISCONNECTED" ++ CRLF ++ [0]);;
  ble_state_update READY;;
  p ← get_bp;
  when (BLE_ROLE_MASTER =? role p) reset_subscribe_params;;   (* as slave: one-time advertising *)
  led_set_state LED_STATE_IND_PIN 0 0;;
  led_set_state LED_STATE_IND_PIN 1 300;;
  led_set_state CONN_STATE_IND_PIN 0 0;;
  s ← get;
  when (truthy (ota_need_reset s)) (emit RebootApp);;
  send_async_msg MSG_DISCONNECTED.

(** Settings replace the defaults; a buffer keeps what the settings do not overwrite. *)
Definition over (d b : list Z) : list Z := d ++ drop (length d) b.
Definition load_ble_cfg_from_nv (val : list Z) : MO unit :=
  upd_bp (fun p => p <| role := 0 |>);;
  p ← get_bp;
  nm ← lift (blit 0 (lit BLE_ADV_NAME_DFLT) (adv_name p));
  upd_bp (fun p => p <| adv_name := nm |>);;
  '(err, d) ← nvram_config_get_factory "BT_ROLE" 1;
  (if 0 <=? err then
     match d with
     | [r] => when ((r =? BLE_ROLE_SLAVE) || (r =? BLE_ROLE_MASTER)) (upd_bp (fun p => p <| role := r |>))
     | _ => ub
     end
   else mret tt);;
  '(err, d) ← nvram_config_get_factory "BT_AUTOCONN" 1;
  (if 0 <=? err then
     match d with
     | [a] => when ((a =? 0) || (a =? 1)) (upd_bp (fun p => p <| auto_conn := a |>))
     | _ => ub
     end
   else mret tt);;
  '(err, d) ← nvram_config_get_factory "BT_NAME" BLE_NAME_MAX_LEN;
  nm ← lift (wr (over d (replicate 18 0)) (BLE_NAME_MAX_LEN - 1) 0);
  (if 0 <=? err then
     upd_bp (fun p => p <| adv_name := nm |>);;
     n ← lift (strlen nm);
     _ ← ad_data_set n; mret tt
   else mret tt);;
  let bt_addr_str := lit BLE_DEVICE_ADDR_DFLT in
  '(err, d) ← nvram_config_get_factory "BT_ADDR" 17;
  when (err <? 0) (nvram_config_set_factory "BT_ADDR" (str BLE_DEVICE_ADDR_DFLT));;
  '(_, val) ← lift (str2bt_addr (over d bt_addr_str) val);
  upd_bp (fun p => p <| dev_addr := BtAddrLe BT_ADDR_LE_PUBLIC val |>);;
  '(err, d) ← nvram_config_get_factory "BT_TGT_ADDR" 17;
  '(_, val) ← lift (str2bt_addr (over d (lit BLE_TARGET_ADDR_DFLT)) val);
  upd_bp (fun p => p <| targed_addr := BtAddrLe BT_ADDR_LE_PUBLIC val |>).

Definition bt_ready (val : list Z) (err : Z) : MO unit :=
  emit (WakeLock false);;
  if truthy err then mret tt
  else
    modify (fun s => s <| pconn := None |> <| work_state := 0 |>);;
    emit ServicesRegistered;;
    load_ble_cfg_from_nv val;;
    enter_into_at_cmd_mode;;
    ble_state_update INITIALIZED;;
    modify (fun s => s <| bt_ready_flag := 1 |> <| overlay_ready_flag := 1 |>);;
    upd_bp (fun p => p <| role := BLE_ROLE_MASTER |>).       (* CONFIG_BLE_ROLE_MASTER *)

(** ** The data service of the peer *)
Definition quick_set_handles : MO unit :=
  modify (fun s => s <| module_handle := seqZ MOUDULE_SVC_HANDLE_START 7 |>).
Definition module_write (data : list Z) : MO Z :=
  s ← get;
  match pconn s with
  | None => mret (-1)
  | Some _ => h ← lift (rd (module_handle s) QPPS_TX_HDL); call (GattWrite h data)
  end.
Definition qpps_send_input_report (data : list Z) : MO Z :=
  s ← get; if qpps_rx_ccc s =? 0 then mret (- EIO) else call (GattNotify data).
Definition qpps_rx_ccc_cfg_changed (value : Z) : MO unit :=
  modify (fun s => s <| qpps_rx_ccc := if value =? 1 then 1 else 0 |>).
(** Writes of the peer go to the UART. *)
Definition act_data_send_data (data : list Z) : MO unit := emit (Uart data).
Definition write_qpps_tx (data : list Z) (offset : Z) : MO Z :=
  if 23 <? offset + Z.of_nat (length data) then mret (-7)
  else act_data_send_data data;; mret (Z.of_nat (length data)).
(** A notification, [None] when the peer's subscription ended. *)
Definition notify_func (data : option (list Z)) : MO bool :=
  match data with
  | Some d =>
      if bool_decide (d = str "AT+OTA") then
        upd_bp (fun p => p <| role := BLE_ROLE_SLAVE |>);; send_async_msg MSG_DISCONNECT;; mret true
      else when (negb (bool_decide (d = []))) (act_data_send_data d);; mret true
  | None => reset_subscribe_params;; mret false
  end.
Definition module_ccc_init : MO unit := modify (fun s => s <| sub := SubscribeParams 0 0 |>).
(** The subscription is volatile, so its handles are set every time. *)
Definition nofity_enable : MO unit :=
  s ← get;
  match pconn s with
  | None => mret tt
  | Some _ =>
      h ← lift (rd (module_handle s) QPPS_RX_CH_CCC_HDL);
      modify (fun s => s <| sub := SubscribeParams h 0 |>);;
      s ← get;
      when (truthy (value_handle (sub s))) (send_async_msg MSG_DISCONNECT);;
      modify (fun s => s <| sub := SubscribeParams h (u16 (h - 1)) |>);;
      err ← call (Subscribe h (u16 (h - 1)));
      when (truthy err) (send_async_msg MSG_DISCONNECT)
  end.

(** Twenty bytes at a time, up to the first error. *)
Fixpoint send_pieces (fuel : nat) (data : list Z) : MO Z :=
  match data with
  | [] => mret 0
  | _ =>
      match fuel with
      | O => ub
      | S fuel =>
          p ← get_bp;
          err ← (if role p =? BLE_ROLE_MASTER then module_write (take 20 data) else qpps_send_input_report (take 20 data));
          if truthy err then mret err else send_pieces fuel (drop 20 data)
      end
  end.
Definition ble_send_data (data : list Z) : MO Z :=
  s ← get; match pconn s with Some _ => send_pieces (length data) data | None => mret 0 end.

(** ** main.c and app_input.c *)
Definition create_le_timeout : MO unit := _ ← host_call "set_le_scan_enable(0)"; mret tt.
Definition handle_msg (type value : Z) : MO unit :=
  if type =? MSG_CONNECTED then quick_set_handles;; send_async_msg MSG_DISCOVER_COMPLETE
  else if type =? MSG_DISCOVER_COMPLETE then nofity_enable
  else if type =? MSG_SCAN_TIME_OUT then
    stop_scan;;
    at_cmd_response_ok;;
    p ← get_bp;
    if truthy (auto_conn p) then
      index ← get_max_riss_dev_index;
      when (0 <=? index) (at_cmd_conn_set [index + 49])
    else mret tt
  else if type =? MSG_CREATE_LE_TIME_OUT then create_le_timeout
  else if type =? MSG_DISCONNECT then disconnect
  else if type =? MSG_DISCONNECTED then p ← get_bp; when (role p =? BLE_ROLE_SLAVE) start_adv
  else if type =? MSG_OTA_EVENT then emit (OtaEvent value)
  else mret tt.
Definition input_handler (pins : Z) : MO unit :=
  if Z.testbit pins CONN_INT_PIN && Z.testbit pins POWM_MODE_PIN then mret tt
  else
    let pin := if pins =? 0 then -1 else Z.log2 (Z.land pins (- pins)) in
    if pin =? CONN_INT_PIN then send_async_msg MSG_DISCONNECT
    else if pin =? POWM_MODE_PIN then
      edge ← call (GpioRead pin);
      if edge =? 1 then emit (DeviceBusy true)
      else emit (DeviceBusy false);; send_async_msg MSG_DISCONNECT
    else mret tt.
Definition leds_status_reset : MO unit := led_set_state LED_STATE_IND_PIN 1 300;; led_set_state CONN_STATE_IND_PIN 0 0.
End Module.
Arguments module : clear implicits.
