(* ===== verification/ModuleScan.v ===== *)
(** * The serial module's list of found devices

    Whatever is received while scanning, the list keeps its form: at most four devices, each
    address once, each with one to five signal strengths.  The device that is connected to
    automatically is the first one with the largest average. *)
From S2P Require Import Prelude CString AtMisc AtLine FlashNor Nvram Module.
From Stdlib Require Import Sorted.
#[local] Open Scope Z_scope.

Definition name_ok (nm : list Z) : Prop := length nm = 18%nat /\ nm !! 17%nat = Some 0.
Definition is_s8 (r : Z) : Prop := -128 <= r < 128.
Record dev_ok (d : ble_dev) : Prop := {
  do_rssi : length (rssi d) = 5%nat;
  do_range : Forall is_s8 (rssi d);
  do_cnt : 1 <= rssi_cnt d <= 5;
  do_cur : 0 <= rssi_cur_index d < 5;
  do_full : rssi_cnt d < 5 -> rssi_cur_index d = rssi_cnt d - 1;
  do_name : name_ok (d_name d) }.
(** The list: [L] in use, the rest as the inquiry cleared it. *)
Record list_ok (p : ble_params) (L : list ble_dev) : Prop := {
  lo_list : dev_list p = L ++ replicate (5 - length L) dev_zero;
  lo_cnt : dev_cnt p = Z.of_nat (length L);
  lo_max : (length L <= 4)%nat;
  lo_dev : Forall dev_ok L;
  lo_once : NoDup (d_addr <$> L) }.

(** ** Reading a report *)
Lemma starts_total b n : 0 ∈ b -> is_str n -> is_Some (starts b n).
Proof.
  revert n. induction b as [|x b IH]; intros n Hb Hn; [by apply elem_of_nil in Hb|].
  destruct Hn as [|y n Hy Hn]; [by eexists|]. cbn [starts]. destruct (Z.eqb_spec x y) as [->|]; [|by eexists].
  apply IH; [|done]. apply elem_of_cons in Hb as [Hb|Hb]; [by subst|done].
Qed.
Lemma strstr_total b n : 0 ∈ b -> is_str n -> is_Some (strstr b n).
Proof.
  intros Hb Hn. induction b as [|x b IH]; [by apply elem_of_nil in Hb|]. cbn [strstr].
  destruct (starts_total (x :: b) n Hb Hn) as [[] ->]; cbn [mbind option_bind]; [by eexists|].
  destruct (Z.eqb_spec x 0); [by eexists|]. apply elem_of_cons in Hb as [Hb|Hb]; [by subst|].
  destruct (IH Hb) as [r ->]. by eexists.
Qed.
Lemma cstr_total b : 0 ∈ b -> is_Some (cstr b).
Proof.
  induction b as [|x b IH]; intros Hb; [by apply elem_of_nil in Hb|]. cbn [cstr].
  destruct (Z.eqb_spec x 0); [by eexists|]. apply elem_of_cons in Hb as [Hb|Hb]; [by subst|].
  destruct (IH Hb) as [r ->]. by eexists.
Qed.
Lemma name_ok_zero nm : name_ok nm -> 0 ∈ nm.
Proof. intros [_ H]. by apply list_elem_of_lookup_2 in H. Qed.
Lemma name_ok_init : name_ok (replicate 18 0).
Proof. done. Qed.
Lemma blit_name_ok d nm nm' : name_ok nm -> (length d <= 17)%nat -> blit 0 d nm = Some nm' -> name_ok nm'.
Proof.
  intros [Hl H17] Hd. unfold blit. case_match; [|done]. intros [= <-]. change (take (Z.to_nat 0) nm) with (@nil Z). cbn [app].
  split; [rewrite length_app, length_drop; lia|]. rewrite lookup_app_r by lia. rewrite lookup_drop.
  rewrite <- H17. f_equal. lia.
Qed.
Lemma ad_parse_total behind fuel : forall ad nm, 0 ∈ behind -> Forall is_byte ad -> name_ok nm -> (length ad < fuel)%nat ->
  exists hit nm', ad_parse behind fuel ad nm (BLE_NAME_MAX_LEN - 1) = Some (hit, nm') /\ name_ok nm'.
Proof.
  induction fuel as [|fuel IH]; intros ad nm Hb Had Hnm Hf; [lia|]. cbn [ad_parse].
  destruct ad as [|len ad1]; [by eexists _, _|]. apply Forall_cons in Had as [Hlen Had]. unfold is_byte in Hlen.
  case_match; [by eexists _, _|]. destruct (Z.eqb_spec len 0); [by eexists _, _|].
  destruct (Z.ltb_spec (Z.of_nat (length ad1)) len); [by eexists _, _|].
  destruct (Z.ltb_spec (Z.of_nat (length ad1)) 1); [by eexists _, _|]. cbn [orb].
  destruct ad1 as [|type ad2]; [cbn in *; lia|]. apply Forall_cons in Had as [_ Had].
  set (m := if (type =? BT_DATA_NAME_SHORTENED) || (type =? BT_DATA_NAME_COMPLETE) then _ else _).
  assert (is_Some m) as [hit ->].
  { unfold m. case_match; [|by eexists]. apply strstr_total; [apply elem_of_app; by right|by apply is_str_check]. }
  cbn [mbind option_bind]. destruct hit as [k|].
  - set (cp := if BLE_NAME_MAX_LEN - 1 <? len - 1 then BLE_NAME_MAX_LEN - 1 else len - 1).
    assert (0 <= cp <= 17 /\ cp <= len - 1) as Hcp by (unfold cp, BLE_NAME_MAX_LEN; destruct (Z.ltb_spec (18 - 1) (len - 1)); lia).
    assert (length (take (Z.to_nat cp) ad2) <= 17)%nat as Hl by (rewrite length_take; lia).
    destruct (blit_Some 0 (take (Z.to_nat cp) ad2) nm) as (nm' & E & _); [lia|destruct Hnm; lia|].
    rewrite E. eexists _, _. split; [reflexivity|]. by eapply blit_name_ok.
  - apply IH; [done|by apply Forall_drop|done|]. rewrite length_drop. cbn in Hf. lia.
Qed.

(** ** The list *)
Lemma find_dev_absent L tail i addr : addr ∉ (d_addr <$> L) -> find_dev (L ++ tail) (length L) i addr = -1.
Proof.
  revert i. induction L as [|d L IH]; intros i Hn; [by destruct tail|]. cbn [fmap list_fmap] in Hn.
  apply not_elem_of_cons in Hn as [H1 H2]. cbn [app length find_dev]. rewrite bool_decide_false by congruence. by apply IH.
Qed.
Lemma find_dev_found L tail i addr : addr ∈ (d_addr <$> L) ->
  exists j d, find_dev (L ++ tail) (length L) i addr = i + Z.of_nat j /\ L !! j = Some d /\ d_addr d = addr.
Proof.
  revert i. induction L as [|d L IH]; intros i Hi; [by apply elem_of_nil in Hi|]. cbn [fmap list_fmap] in Hi.
  cbn [app length find_dev]. case_bool_decide as E; [exists 0%nat, d; split; [lia|by split]|].
  apply elem_of_cons in Hi as [Hi|Hi]; [congruence|]. destruct (IH (i + 1) Hi) as (j & d' & -> & Hl & Hd).
  exists (S j), d'. split; [lia|by split].
Qed.

Section Scan.
Context {NS : Type} `{Nvram NS} (host : list mod_event -> Z).
#[local] Abbreviation MO := (M (module NS)).

(** Changing one device of the list. *)
Lemma ends_upd_entry i f d d' (s : module NS) (Q : unit -> module NS -> Prop) :
  dev_list (ble_param s) !! i = Some d -> f d = Some d' ->
  Q tt (s <| ble_param ::= (fun p => p <| dev_list := <[i := d']> (dev_list p) |>) |>) ->
  ends (upd_dev (Z.of_nat i) f) s Q.
Proof.
  intros Hd Hf HQ. unfold ends, upd_dev, get_bp, upd_bp. munfold.
  assert (i < length (dev_list (ble_param s)))%nat by by apply lookup_lt_Some in Hd.
  assert (rd (dev_list (ble_param s)) (Z.of_nat i) = Some d) as ->.
  { unfold rd. rewrite Nat2Z.id. by destruct (Z.leb_spec 0 (Z.of_nat i)); [|lia]. }
  cbv iota beta. rewrite Hf. rewrite wr_in_bound, Nat2Z.id by lia. done.
Qed.

Lemma list_ok_lookup p L : list_ok p L -> dev_list p !! length L = Some dev_zero.
Proof.
  intros [El _ Hm _ _]. rewrite El, lookup_app_r, Nat.sub_diag by lia. apply lookup_replicate_2. lia.
Qed.
Lemma name_copy_ok nm : name_ok nm -> name_copy nm = Some nm.
Proof.
  intros [Hl H17]. unfold name_copy. rewrite Hl. change (Z.of_nat 18 <? BLE_NAME_MAX_LEN) with false.
  change (Z.to_nat BLE_NAME_MAX_LEN) with 18%nat. rewrite take_ge by lia. rewrite wr_in_bound by (unfold BLE_NAME_MAX_LEN; lia).
  f_equal. change (Z.to_nat (BLE_NAME_MAX_LEN - 1)) with 17%nat. by apply list_insert_id.
Qed.

(** What a report does to a device that is known. *)
Definition heard (rssi' : Z) (nm : option (list Z)) (d : ble_dev) : ble_dev :=
  let i := if s8 (rssi_cur_index d + 1) =? RSSI_NUM then 0 else s8 (rssi_cur_index d + 1) in
  let d := d <| rssi_cur_index := i |> <| rssi := <[Z.to_nat i := rssi']> (rssi d) |>
             <| rssi_cnt ::= (fun c => if c <? RSSI_NUM then u8 (c + 1) else c) |> in
  match nm with Some nm => d <| d_name := nm |> | None => d end.
Lemma heard_ok rssi' nm d : is_s8 rssi' -> dev_ok d -> (forall n, nm = Some n -> name_ok n) -> dev_ok (heard rssi' nm d) /\ d_addr (heard rssi' nm d) = d_addr d.
Proof.
  intros Hs8 [Hr Hrg Hc Hu Hf Hn] Hnm. unfold heard, RSSI_NUM.
  assert (s8 (rssi_cur_index d + 1) = rssi_cur_index d + 1) as ->.
  { unfold s8, sext. rewrite Z.mod_small by lia. destruct (Z.ltb_spec (rssi_cur_index d + 1) (2 ^ (8 - 1))); lia. }
  split; [|by destruct nm]. destruct nm as [nm|]; split; cbn; rewrite ?length_insert; auto using Forall_insert;
    destruct (Z.eqb_spec (rssi_cur_index d + 1) 5), (Z.ltb_spec (rssi_cnt d) 5); rewrite ?u8_small by lia; lia.
Qed.

(** The list after a report: a known device is updated, a new one is appended while there
    are fewer than four. *)
Definition grown (addr : bt_addr_le) (L L' : list ble_dev) : Prop :=
  d_addr <$> L' = (d_addr <$> L) ++ (if bool_decide (addr ∈ d_addr <$> L) then [] else if Nat.ltb (length L) 4 then [addr] else []).
Definition scanned (addr : bt_addr_le) (L : list ble_dev) (s s' : module NS) : Prop :=
  (exists L', list_ok (ble_param s') L' /\ grown addr L L') /\ auto_conn (ble_param s') = auto_conn (ble_param s).

Lemma list_ok_update p L j d d' : list_ok p L -> L !! j = Some d -> dev_ok d' -> d_addr d' = d_addr d ->
  list_ok (p <| dev_list := <[j := d']> (dev_list p) |>) (<[j := d']> L) /\ (d_addr <$> <[j := d']> L) = d_addr <$> L.
Proof.
  intros [El Ec Hm Hd Hn] Hj Hd' Ha. assert (d_addr <$> <[j := d']> L = d_addr <$> L) as EA.
  { rewrite list_fmap_insert, Ha. apply list_insert_id. by rewrite list_lookup_fmap, Hj. }
  split; [|done]. split; cbn.
  - rewrite El, length_insert. rewrite insert_app_l by by apply lookup_lt_Some in Hj. done.
  - by rewrite length_insert.
  - by rewrite length_insert.
  - by apply Forall_insert.
  - by rewrite EA.
Qed.

Lemma add_known addr r nm nl (s : module NS) L : is_s8 r -> list_ok (ble_param s) L -> name_ok nm -> addr ∈ (d_addr <$> L) ->
  ends (add_scan_dev_list addr r nm nl) s (fun _ s' => scanned addr L s s').
Proof.
  intros Hs8 Hok Hnm Hin. pose proof Hok as [El Ec Hm Hd Hn]. unfold add_scan_dev_list.
  apply ends_bind, ends_gets. cbv beta zeta. unfold get_dev_index. rewrite Ec, Nat2Z.id, El.
  destruct (find_dev_found L (replicate (5 - length L) dev_zero) 0 addr Hin) as (j & d & -> & Hj & <-).
  rewrite Z.add_0_l. destruct (Z.ltb_spec (Z.of_nat j) 0); [lia|].
  pose proof (Forall_lookup_1 _ _ _ _ Hd Hj) as Hdj. pose proof (lookup_lt_Some _ _ _ Hj) as Hlt.
  destruct (heard_ok r None d Hs8 Hdj) as [Hh Ha]; [done|].
  apply ends_bind. eapply ends_upd_entry with (d := d).
  - rewrite El. by rewrite lookup_app_l.
  - assert (0 <= (if s8 (rssi_cur_index d + 1) =? RSSI_NUM then 0 else s8 (rssi_cur_index d + 1)) < Z.of_nat (length (rssi d))) as Hi.
    { destruct Hdj as [Hr _ Hc Hu _ _]. rewrite Hr. unfold RSSI_NUM.
      assert (s8 (rssi_cur_index d + 1) = rssi_cur_index d + 1) as ->.
      { unfold s8, sext. rewrite Z.mod_small by lia. destruct (Z.ltb_spec (rssi_cur_index d + 1) (2 ^ (8 - 1))); lia. }
      destruct (Z.eqb_spec (rssi_cur_index d + 1) 5); lia. }
    cbv zeta. rewrite wr_in_bound by exact Hi. reflexivity.
  - change (d <| rssi_cur_index := _ |> <| rssi := _ |> <| rssi_cnt ::= _ |>) with (heard r None d).
    set (s1 := set_field _ s). destruct (list_ok_update (ble_param s) L j d _ Hok Hj Hh Ha) as [Hok1' HA1].
    assert (list_ok (ble_param s1) (<[j := heard r None d]> L)) as Hok1 by exact Hok1'.
    apply ends_bind, ends_gets. pose proof Hok1 as [El1 _ _ _ _].
    assert ((<[j := heard r None d]> L) !! j = Some (heard r None d)) as Hj1 by by apply list_lookup_insert_eq.
    assert (dev_list (ble_param s1) !! j = Some (heard r None d)) as Hd1.
    { rewrite El1, lookup_app_l by (by rewrite length_insert). done. }
    apply ends_bind, (ends_lift _ (heard r None d)).
    { unfold rd. rewrite Nat2Z.id. by destruct (Z.leb_spec 0 (Z.of_nat j)); [|lia]. }
    destruct (cstr_total (d_name (heard r None d))) as [n En]; [apply name_ok_zero, (do_name _ Hh)|].
    apply ends_bind, (ends_lift _ (Z.of_nat (length n))); [unfold strlen; by rewrite En|].
    assert (grown (d_addr d) L (<[j := heard r None d]> L)) as Hg.
    { unfold grown. rewrite HA1, bool_decide_true by done. by rewrite app_nil_r. }
    destruct (truthy nl && (Z.of_nat (length n) =? 0)); [|by apply ends_ret; split; [by eexists|]].
    apply ends_bind. eapply ends_upd_entry; [exact Hd1|rewrite name_copy_ok by done; reflexivity|].
    destruct (list_ok_update (ble_param s1) _ j (heard r None d) (heard r None d <| d_name := nm |>) Hok1 Hj1) as [Hok2 HA2];
      [|done|apply ends_ret; split; [|done]].
    { destruct Hh. by split. }
    eexists. split; [exact Hok2|]. unfold grown in *. by rewrite HA2.
Qed.

Lemma new_dev_ok addr r nm : is_s8 r -> (forall n, nm = Some n -> name_ok n) ->
  let d := dev_zero <| d_addr := addr |> <| rssi := <[0%nat := r]> (rssi dev_zero) |> <| rssi_cur_index := 0 |> <| rssi_cnt ::= (fun c => u8 (c + 1)) |> in
  dev_ok (match nm with Some n => d <| d_name := n |> | None => d end).
Proof.
  intros Hr Hn. destruct nm; split; cbn; try lia; auto; try (intros; rewrite u8_small by lia; lia); try done;
    (apply Forall_cons_2; [done|]); unfold is_s8; repeat (apply Forall_cons_2; [lia|]); apply Forall_nil_2.
Qed.

Lemma list_ok_append p L d : list_ok p L -> (length L < 4)%nat -> dev_ok d -> d_addr d ∉ (d_addr <$> L) ->
  list_ok (p <| dev_list := <[length L := d]> (dev_list p) |> <| dev_cnt ::= (fun c => u8 (c + 1)) |>) (L ++ [d]).
Proof.
  intros [El Ec Hm Hd Hn] Hlt Hdev Hnew. split; cbn.
  - rewrite El, insert_app_r_alt, Nat.sub_diag by lia. rewrite length_app, <- app_assoc. f_equal. cbn.
    by replace (5 - length L)%nat with (S (5 - (length L + 1))) by lia.
  - rewrite length_app, Ec, u8_small by lia. cbn. lia.
  - rewrite length_app. cbn. lia.
  - apply Forall_app_2; [done|]. by apply Forall_singleton.
  - rewrite fmap_app. apply NoDup_app. repeat split; [done| |apply NoDup_singleton].
    intros x Hx ->%list_elem_of_singleton. done.
Qed.

Lemma add_new addr r nm nl (s : module NS) L : is_s8 r -> list_ok (ble_param s) L -> name_ok nm -> addr ∉ (d_addr <$> L) ->
  ends (add_scan_dev_list addr r nm nl) s (fun _ s' => scanned addr L s s').
Proof.
  intros Hs8 Hok Hnm Hin. pose proof Hok as [El Ec Hm Hd Hn]. unfold add_scan_dev_list.
  apply ends_bind, ends_gets. cbv beta zeta. unfold get_dev_index. rewrite Ec, Nat2Z.id, El, find_dev_absent by done.
  change (-1 <? 0) with true. cbv iota. destruct (Z.ltb_spec (Z.of_nat (length L)) (DEV_TOTAL - 1)) as [Hlt|Hge]; unfold DEV_TOTAL in *.
  2: { apply ends_ret. split; [|done]. exists L. split; [done|]. unfold grown. rewrite bool_decide_false by done.
       destruct (Nat.ltb_spec (length L) 4); [lia|]. by rewrite app_nil_r. }
  assert (length L < 5)%nat as H5 by lia.
  assert (forall d, d_addr d = addr -> grown addr L (L ++ [d])) as Hg.
  { intros d <-. unfold grown. rewrite bool_decide_false by done. destruct (Nat.ltb_spec (length L) 4); [|lia]. by rewrite fmap_app. }
  apply ends_bind. eapply ends_upd_entry; [by apply list_ok_lookup|reflexivity|].
  set (d1 := dev_zero <| d_addr := addr |> <| rssi := _ |> <| rssi_cur_index := 0 |> <| rssi_cnt ::= _ |>).
  apply ends_bind. destruct (truthy nl).
  - eapply ends_upd_entry with (d := d1); [cbn; rewrite El; apply list_lookup_insert_eq; rewrite length_app, length_replicate; lia|rewrite name_copy_ok by done; reflexivity|].
    apply ends_bind, ends_modify, ends_ret. split; [|done]. exists (L ++ [d1 <| d_name := nm |>]). split; [|by apply Hg].
    pose proof (list_ok_append (ble_param s) L (d1 <| d_name := nm |>) Hok) as Ha. cbn in Ha |- *. rewrite list_insert_insert_eq.
    apply Ha; [lia| |done]. by apply (new_dev_ok addr r (Some nm)); [|intros n [= <-]].
  - apply ends_ret, ends_bind, ends_modify, ends_ret. split; [|done]. exists (L ++ [d1]). split; [|by apply Hg].
    pose proof (list_ok_append (ble_param s) L d1 Hok) as Ha. cbn in Ha |- *. apply Ha; [lia| |done].
    by apply (new_dev_ok addr r None).
Qed.

Lemma add_scan_dev_list_ok addr r nm nl (s : module NS) L : is_s8 r -> list_ok (ble_param s) L -> name_ok nm ->
  ends (add_scan_dev_list addr r nm nl) s (fun _ s' => scanned addr L s s').
Proof. intros. destruct (decide (addr ∈ d_addr <$> L)); [by apply add_known|by apply add_new]. Qed.

(** ** Reports and inquiries *)
Inductive scan_event := Inquire | Report (addr : bt_addr_le) (rssi' evtype : Z) (ad : list Z).
Definition scan_step (behind : list Z) (e : scan_event) : MO unit :=
  match e with
  | Inquire => at_cmd_inq host
  | Report addr r evtype ad => device_found host behind addr r evtype ad
  end.
Fixpoint scan_run (behind : list Z) (es : list scan_event) : MO unit :=
  match es with [] => mret tt | e :: es => scan_step behind e;; scan_run behind es end.
Definition report_ok (e : scan_event) : Prop :=
  match e with Inquire => True | Report _ r _ ad => is_s8 r /\ Forall is_byte ad end.

Lemma ends_printf len out (s : module NS) (Q : unit -> module NS -> Prop) :
  (forall e, Q tt (s <| mlog ::= (fun t => t ++ [e]) |>)) -> ends (at_cmd_printf len out) s Q.
Proof.
  intros HQ. unfold at_cmd_printf, at_cmd_response, at_cmd_port_print. apply ends_bind.
  destruct (cstr_total (snprintk len out ++ [0])) as [r Er]; [apply elem_of_app; right; by left|].
  apply (ends_lift _ r); [done|]. by apply ends_modify.
Qed.

Lemma ends_call e (s : module NS) (Q : Z -> module NS -> Prop) :
  Q (host (mlog s)) (s <| mlog ::= (fun t => t ++ [e (host (mlog s))]) |>) -> ends (call host e) s Q.
Proof. done. Qed.
Lemma ends_response b r (s : module NS) (Q : unit -> module NS -> Prop) : cstr b = Some r ->
  Q tt (s <| mlog ::= (fun t => t ++ [Uart r]) |>) -> ends (at_cmd_port_print b) s Q.
Proof. intros Hr HQ. unfold at_cmd_port_print. apply ends_bind, (ends_lift _ r); [done|]. by apply ends_modify. Qed.

Lemma start_scan_ok t (s : module NS) L : list_ok (ble_param s) L ->
  ends (at_cmd_start_scan host t) s (fun _ s' => list_ok (ble_param s') L).
Proof.
  intros Hok. unfold at_cmd_start_scan, start_scan. apply ends_bind, ends_call. case_match.
  - by apply (ends_response _ (str "ERROR" ++ CRLF)).
  - apply ends_bind, ends_modify. assert (forall st, list_ok ((ble_param s) <| state := st |>) L) as Hst.
    { intros st. destruct Hok. by split. }
    apply ends_when; [intros _; apply ends_modify|intros _]; apply Hst.
Qed.

Lemma scan_step_ok behind e (s : module NS) L : 0 ∈ behind -> report_ok e -> list_ok (ble_param s) L ->
  ends (scan_step behind e) s (fun _ s' => exists L', list_ok (ble_param s') L').
Proof.
  intros Hb He Hok. destruct e as [|addr r evtype ad]; cbn [scan_step].
  - unfold at_cmd_inq. apply ends_bind, ends_gets.
    destruct (negb _); [apply (ends_response _ (str "ERROR" ++ CRLF)); [done|]; by eexists|].
    apply ends_bind, (ends_response _ (str "OK" ++ CRLF)); [done|]. apply ends_bind, ends_modify.
    eapply ends_mono; [apply (start_scan_ok 1 _ [])|intros ? s1 Hs1; by exists []].
    split; cbn; [done|done|lia|constructor|constructor].
  - destruct He as [Hr Had]. unfold device_found. case_match; [apply ends_ret; by eexists|].
    destruct (ad_parse_total behind (S (length ad)) ad (replicate 18 0) Hb Had name_ok_init) as (hit & nm & E & Hnm); [lia|].
    apply ends_bind, (ends_lift _ (hit, nm)); [done|]. cbv iota beta. destruct hit; cbn [negb]; [|apply ends_ret; by eexists].
    destruct (cstr_total nm) as [c Ec]; [by apply name_ok_zero|]. apply ends_bind, (ends_lift _ c); [done|].
    apply ends_bind. eapply ends_mono; [by apply add_scan_dev_list_ok|]. intros got s1 [[L1 [Hok1 _]] _].
    apply ends_bind, ends_gets. apply ends_bind. pose proof Hok1 as [_ Ec1 Hm1 _ _].
    assert ((dev_cnt (ble_param s1) =? DEV_TOTAL) = false) as Hfull by (apply Z.eqb_neq; unfold DEV_TOTAL; lia).
    apply ends_when; [intros _; apply ends_printf; intros e|intros _]; rewrite Hfull;
      (destruct (truthy _); apply ends_ret; by exists L1).
Qed.

(** C23. inquiries and advertising reports of any content, in any order, keep the list of
    found devices well formed: it never exceeds four entries, names each address once and
    holds one to five signal strengths per device in its ring; and nothing is read or
    written out of bounds as long as a zero byte follows the reports in memory. *)
Theorem scan_list_wf behind es (s : module NS) L : 0 ∈ behind -> Forall report_ok es -> list_ok (ble_param s) L ->
  ends (scan_run behind es) s (fun _ s' => exists L', list_ok (ble_param s') L').
Proof.
  intros Hb Hes. revert s L. induction Hes as [|e es He _ IH]; intros s L Hok; [apply ends_ret; by exists L|].
  cbn [scan_run]. apply ends_bind. eapply ends_mono; [by eapply scan_step_ok|]. intros _ s1 [L1 Hok1]. by apply (IH s1 L1).
Qed.

(** ** The strongest device *)
Definition average_of (d : ble_dev) : Z := Z.quot (foldr Z.add 0 (take (Z.to_nat (rssi_cnt d)) (rssi d))) (rssi_cnt d).
Lemma sum_bound l : Forall is_s8 l -> -128 * Z.of_nat (length l) <= foldr Z.add 0 l <= 127 * Z.of_nat (length l).
Proof. unfold is_s8. induction 1 as [|x l Hx _ IH]; cbn [foldr length]; [lia|]. lia. Qed.
Lemma average_ok d : dev_ok d -> average (rssi d) (rssi_cnt d) = Some (average_of d) /\ s8 (average_of d) = average_of d.
Proof.
  intros [Hr Hrg Hc _ _ _]. unfold average. split.
  - destruct (Z.leb_spec (rssi_cnt d) 0); [lia|]. destruct (Z.ltb_spec (Z.of_nat (length (rssi d))) (rssi_cnt d)); [lia|]. done.
  - unfold average_of. assert (Forall is_s8 (take (Z.to_nat (rssi_cnt d)) (rssi d))) as Hb%sum_bound by by apply Forall_take.
    rewrite length_take in Hb. set (t := foldr Z.add 0 _) in *.
    assert (-128 <= Z.quot t (rssi_cnt d) < 128) as Hq by (Z.to_euclidean_division_equations; nia).
    unfold s8, sext. destruct (Z.lt_ge_cases (Z.quot t (rssi_cnt d)) 0).
    + assert (Z.quot t (rssi_cnt d) mod 2 ^ 8 = Z.quot t (rssi_cnt d) + 256) as ->.
      { symmetry. apply (Z.mod_unique _ _ (-1)); lia. }
      destruct (Z.ltb_spec (Z.quot t (rssi_cnt d) + 256) (2 ^ (8 - 1))); lia.
    + rewrite Z.mod_small by lia. destruct (Z.ltb_spec (Z.quot t (rssi_cnt d)) (2 ^ (8 - 1))); lia.
Qed.
Definition with_average (d : ble_dev) : ble_dev := d <| rssi_av := average_of d |>.
Lemma set_averages_ok L tail : Forall dev_ok L ->
  set_averages (L ++ tail) (length L) = Some ((with_average <$> L) ++ tail).
Proof.
  induction 1 as [|d L Hd _ IH]; [by destruct tail|]. cbn [app length set_averages]. destruct (average_ok d Hd) as [-> E].
  cbn [mbind option_bind]. rewrite IH. cbn [mbind option_bind]. by rewrite E.
Qed.
Lemma index_of_spec L tail v i : v ∈ (rssi_av <$> L) ->
  exists j d, index_of (L ++ tail) (length L) i v = i + Z.of_nat j /\ L !! j = Some d /\ rssi_av d = v /\
    forall k d', (k < j)%nat -> L !! k = Some d' -> rssi_av d' <> v.
Proof.
  revert i. induction L as [|d L IH]; intros i Hv; [by apply elem_of_nil in Hv|]. cbn [app length index_of].
  destruct (Z.eqb_spec v (rssi_av d)) as [->|Hne].
  - exists 0%nat, d. split; [lia|]. split; [done|]. split; [done|]. lia.
  - apply elem_of_cons in Hv as [Hv|Hv]; [congruence|]. destruct (IH (i + 1) Hv) as (j & d' & -> & Hj & Hd & Hf).
    exists (S j), d'. split; [lia|]. split; [done|]. split; [done|]. intros [|k] d'' Hk; cbn; [intros [= <-]; congruence|].
    apply Hf. lia.
Qed.

Lemma max_index_spec (s : module NS) L : list_ok (ble_param s) L -> L <> [] ->
  ends get_max_riss_dev_index s (fun index _ => exists i d, index = Z.of_nat i /\ L !! i = Some d /\
    forall k d', L !! k = Some d' -> average_of d' <= average_of d /\ ((k < i)%nat -> average_of d' < average_of d)).
Proof.
  intros [El Ec Hm Hd _] Hne. unfold get_max_riss_dev_index. apply ends_bind, ends_gets. rewrite El, Ec, Nat2Z.id.
  apply ends_bind. eapply ends_lift; [by apply set_averages_ok|]. apply ends_bind, ends_modify.
  replace (take (length L) ((with_average <$> L) ++ replicate (5 - length L) dev_zero)) with (with_average <$> L)
    by (rewrite <- (length_fmap with_average L), take_app_length; done).
  set (avs := rssi_av <$> (with_average <$> L)).
  assert (avs = average_of <$> L) as Ea by (unfold avs; by rewrite <- list_fmap_compose).
  assert (length L = length avs) as Hla by (rewrite Ea; by rewrite length_fmap). rewrite Hla at 2.
  destruct (bubble_sort_spec avs (replicate (5 - length L) 0)) as (R & E & P & D).
  { intros H0. rewrite H0 in Hla. by destruct L. }
  apply ends_bind. eapply ends_lift; [exact E|]. destruct R as [|top R].
  { apply Permutation_nil_l in P. rewrite <- P in Hla. by destruct L. }
  apply ends_bind, (ends_lift _ top); [done|]. apply ends_ret.
  assert (top ∈ avs) as Ht by (rewrite <- P; by left).
  pose proof (index_of_spec (with_average <$> L) (replicate (5 - length L) dev_zero) top 0 Ht) as Hidx.
  rewrite length_fmap in Hidx. destruct Hidx as (j & d & -> & Hj & Hv & Hf).
  rewrite list_lookup_fmap in Hj. destruct (L !! j) as [d0|] eqn:Ed; [|done]. injection Hj as <-. cbn in Hv.
  exists j, d0. split; [lia|]. split; [done|]. intros k d' Hk. rewrite Hv.
  assert (average_of d' <= top) as Hle.
  { assert (average_of d' ∈ avs) as Hin by (rewrite Ea; apply list_elem_of_fmap; exists d'; split; [done|by eapply list_elem_of_lookup_2]).
    rewrite <- P in Hin. apply elem_of_cons in Hin as [->|Hin]; [done|]. apply StronglySorted_inv in D as [_ D].
    by apply (proj1 (Forall_forall _ _) D). }
  split; [done|]. intros Hkj. assert (average_of d' <> top) as Hn; [|lia].
  apply (Hf k (with_average d') Hkj). by rewrite list_lookup_fmap, Hk.
Qed.

(** the device chosen for automatic connection is the first one whose average signal
    strength is the largest of all devices found. *)
Theorem strongest_device_chosen (s : module NS) L : list_ok (ble_param s) L -> L <> [] ->
  ends get_max_riss_dev_index s (fun index _ => exists i d, index = Z.of_nat i /\ L !! i = Some d /\
    forall k d', L !! k = Some d' -> average_of d' <= average_of d /\ ((k < i)%nat -> average_of d' < average_of d)).
Proof. apply max_index_spec. Qed.
End Scan.

(** ** An inquiry that finds two devices *)
Definition module_zero : module (gmap string (list Z)) :=
  Mod (BleParams 1 0 READY (replicate 5 dev_zero) 0 BT_ADDR_LE_ANY (replicate 18 0) BT_ADDR_LE_ANY)
    None 0 None false 10 (replicate 7 0) (SubscribeParams 0 0) 0 0 0 0 ∅ [].
Definition demo_dev (n : Z) : bt_addr_le := BtAddrLe 0 [n; 2; 3; 4; 5; 6].
Definition demo_ad (c : Z) : list Z := [2; 1; 6; 5; 9] ++ str "ZRS" ++ [c].
Definition demo_scan : list scan_event :=
  [Inquire; Report (demo_dev 1) (-50) 0 (demo_ad 49); Report (demo_dev 2) (-40) 0 (demo_ad 50);
   Report (demo_dev 1) (-60) 4 (demo_ad 49)].
Lemma module_zero_ok : list_ok (ble_param module_zero) [].
Proof. split; cbn; [done|done|lia|constructor|constructor]. Qed.
Example demo_scan_log : (fun r => mlog r.2) <$> scan_run (fun _ => 0) [0] demo_scan module_zero =
  Some [Uart (str "OK" ++ CRLF); ScanStart true 0; ScanTimer 1000;
        Uart (str "+INQ:1 0x060504030201 ZRS1 -50" ++ CRLF); Uart (str "+INQ:2 0x060504030202 ZRS2 -40" ++ CRLF)].
Proof. by vm_compute. Qed.
Lemma scan_list_wf_witness :
  ends (scan_run (fun _ => 0) [0] demo_scan) module_zero (fun _ s' => exists L', list_ok (ble_param s') L').
Proof.
  apply (scan_list_wf (fun _ => 0) [0] demo_scan module_zero []); [by left| |apply module_zero_ok].
  repeat (apply Forall_cons_2); try apply Forall_nil_2; (done || (split; [split; by vm_compute|]));
    repeat (apply Forall_cons_2; [split; by vm_compute|]); apply Forall_nil_2.
Defined.

Definition demo_found (n : Z) (l : list Z) : ble_dev := BleDev (demo_dev n) 1 l 0 2 (str "ZRS" ++ replicate 15 0).
Definition demo_list : list ble_dev := [demo_found 1 [-50; -60; 0; 0; 0]; demo_found 2 [-40; -44; 0; 0; 0]].
Definition module_found : module (gmap string (list Z)) :=
  module_zero <| ble_param ::= (fun p => p <| dev_list := demo_list ++ replicate 3 dev_zero |> <| dev_cnt := 2 |>) |>.
Lemma demo_list_ok : list_ok (ble_param module_found) demo_list.
Proof.
  split; cbn; [done|done|lia| |].
  - repeat (apply Forall_cons_2); try apply Forall_nil_2; split; cbn; try lia; try done; unfold is_s8;
      repeat (apply Forall_cons_2; [lia|]); apply Forall_nil_2.
  - apply NoDup_cons. split; [|apply NoDup_singleton]. by intros ?%list_elem_of_singleton.
Qed.
Lemma strongest_device_chosen_witness :
  ends get_max_riss_dev_index module_found (fun index _ => index = 1).
Proof.
  eapply ends_mono; [apply (strongest_device_chosen _ demo_list demo_list_ok); done|].
  intros index _ (i & d & -> & Hi & Hmax). destruct i as [|[|i]]; [|done|done].
  injection Hi as <-. destruct (Hmax 1%nat _ eq_refl) as [H _]. by vm_compute in H.
Defined.
