(* ===== verification/ModuleData.v ===== *)
(** * The serial module's data path (samples/ble_module: at/act_data.c, at/uart_pipe.c)

    From bytes of the UART to writes over the link: the interrupt handler and the timer that
    cut the stream into packets of at most twenty bytes, the two queues of sixty buffers, and
    the data thread, which also recognises commands in the stream.  An interrupt handler, a
    timer expiry and the thread's handling of one packet are steps; between them the steps of
    the others interleave. *)
From S2P Require Import Prelude CString AtMisc FlashNor Nvram Module.
From stdpp Require Import strings.
#[local] Open Scope Z_scope.

Definition ACT_DATA_MTU : Z := 20.
Definition DATA_QUEUED : nat := 60.

(** ** Receiving *)
Record act_rx := ActRx {
  data_buf : list (Z * list Z);       (* data_len and data of each buffer *)
  avail_queue : list nat; datas_queue : list nat;
  recv_buf : nat; recv_off : Z;
  send_partial_timer : bool;          (* running *)
  send_partial_timer_started : Z; rx_abort : Z;
  cur : option nat }.                 (* the data thread's packet *)
#[export] Instance eta_act_rx : EtaRecord act_rx := fun r =>
  ActRx (data_buf r) (avail_queue r) (datas_queue r) (recv_buf r) (recv_off r) (send_partial_timer r)
    (send_partial_timer_started r) (rx_abort r) (cur r).
#[local] Abbreviation RX := (M act_rx).

(** The callback; the offset is the variable it is given a pointer to. *)
Definition recv_cb (buf : nat) : RX nat :=
  s ← get;
  when ((0 <? recv_off s) && (send_partial_timer_started s =? 0))
    (modify (fun s => s <| send_partial_timer_started := 1 |> <| send_partial_timer := true |>));;
  s ← get;
  if (recv_off s <? ACT_DATA_MTU) && (rx_abort s =? 0) then mret buf
  else
    when (truthy (send_partial_timer_started s) && (rx_abort s =? 0)) (modify (fun s => s <| send_partial_timer := false |>));;
    modify (fun s => s <| send_partial_timer_started := 0 |> <| rx_abort := 0 |>);;
    s ← get;
    match avail_queue s with
    | [] => modify (fun s => s <| recv_off := 0 |>);; mret buf
    | new_buf :: q =>
        '(_, data) ← lift (data_buf s !! buf);
        put (s <| avail_queue := q |> <| data_buf ::= (fun l => <[buf := (u16 (recv_off s), data)]> l) |>
               <| datas_queue ::= (fun l => l ++ [buf]) |> <| recv_off := 0 |>);;
        mret new_buf
    end.
(** One interrupt, with the bytes the UART has; a read takes what fits. *)
Fixpoint act_data_rx_isr (fuel : nat) (fifo : list Z) : RX unit :=
  match fuel with
  | O => ub
  | S fuel =>
      s ← get;
      let avail := Z.to_nat (ACT_DATA_MTU - recv_off s) in
      let got := take avail fifo in
      match got with
      | [] => mret tt
      | _ =>
          '(n, data) ← lift (data_buf s !! recv_buf s);
          data ← lift (blit (recv_off s) got data);
          put (s <| data_buf ::= (fun l => <[recv_buf s := (n, data)]> l) |> <| recv_off ::= Z.add (Z.of_nat (length got)) |>);;
          buf ← recv_cb (recv_buf s);
          modify (fun s => s <| recv_buf := buf |>);;
          act_data_rx_isr fuel (drop avail fifo)
      end
  end.
Definition act_data_rx_abort : RX unit :=
  s ← get; buf ← recv_cb (recv_buf s); modify (fun s => s <| recv_buf := buf |>).
(** The timer is a one-shot timer: its handler runs when it was running. *)
Definition send_partial_handler : RX unit :=
  s ← get;
  when (send_partial_timer s)
    (modify (fun s => s <| send_partial_timer := false |> <| rx_abort := 1 |>);; act_data_rx_abort).
Definition enter_into_data_mode : RX unit := modify (fun s => s <| recv_off := 0 |>).
Definition act_data_init : act_rx :=
  ActRx (replicate DATA_QUEUED (0, replicate (Z.to_nat ACT_DATA_MTU) 0)) (seq 1 (DATA_QUEUED - 1)) [] 0 0 false 0 0 None.
(** The data thread's queue calls: a packet is taken, and its buffer cleared and given back. *)
Definition take_data : RX (option (list Z)) :=
  s ← get;
  match cur s, datas_queue s with
  | None, b :: q =>
      '(n, data) ← lift (data_buf s !! b);
      put (s <| datas_queue := q |> <| cur := Some b |>);; mret (Some (take (Z.to_nat n) data))
  | _, _ => mret None
  end.
Definition give_data : RX unit := modify (fun s =>
  match cur s with
  | Some b => s <| data_buf ::= (fun l => <[b := (0, replicate (Z.to_nat ACT_DATA_MTU) 0)]> l) |>
                <| avail_queue ::= (fun q => q ++ [b]) |> <| cur := None |>
  | None => s
  end).

(** ** Commands in the stream *)
Definition at_disconn_cmd : list Z := str "AT+DISCONNECT" ++ [13; 10; 0].
(** The position in the command, the new count, whether to disconnect, the bytes to drop. *)
Fixpoint disconn_loop (data : list Z) (len index cnt : Z) : option (Z * bool * Z) :=
  match data with
  | [] => Some (cnt, false, len)
  | d :: data =>
      c ← rd at_disconn_cmd index;
      if d =? c then
        let cnt := u8 (cnt + 1) in
        if cnt =? 15 then Some (0, true, len) else disconn_loop data len (u8 (index + 1)) cnt
      else if 9 <=? cnt then Some (0, true, len)
      else Some (0, false, 0)
  end.
Definition at_ota_cmd_str : list Z := str "AT+OTA" ++ [13; 10; 0].
(** [match_len] is not initialised: its value is what the stack held. *)
Fixpoint ota_loop (data : list Z) (i match_len : Z) : option bool :=
  match data with
  | [] => Some false
  | d :: data =>
      c ← rd at_ota_cmd_str i;
      if d =? c then
        let match_len := u8 (match_len + 1) in
        if match_len =? 8 then Some true else ota_loop data (i + 1) match_len
      else Some false
  end.
Fixpoint at_name_match (cmd data : list Z) : option bool :=
  match cmd, data with
  | c :: cmd, d :: data =>
      if d =? c then
        match cmd with
        | [] => Some true
        | _ => match data with [] => Some false | _ => at_name_match cmd data end
        end
      else Some false
  | _, _ => None
  end.
(** The first line feed, or carriage return if none was seen before. *)
Fixpoint name_end (r : bool) (data : list Z) (i : Z) : Z :=
  match data with
  | [] => i
  | d :: data => if (d =? 10) || (negb r && (d =? 13)) then i else name_end r data (i + 1)
  end.

Section Data.
Context {NS : Type} `{Nvram NS} (host : list mod_event -> Z).
(** What the stack held for [match_len]. *)
Context (stack : Z).
#[local] Abbreviation MO := (M (module NS)).

Record data_sys := DataSys {
  rx : act_rx; md : module NS;
  at_disconn_match_cnt : Z; ad_name : list Z; at_name_getting : bool; at_name_get_r : bool }.
#[global] Instance eta_data_sys : EtaRecord data_sys := fun r =>
  DataSys (rx r) (md r) (at_disconn_match_cnt r) (ad_name r) (at_name_getting r) (at_name_get_r r).
#[local] Abbreviation DS := (M data_sys).
Definition on_rx {A} (m : M act_rx A) : DS A := fun s =>
  match m (rx s) with Some (a, r) => Some (a, s <| rx := r |>) | None => None end.
Definition on_md {A} (m : MO A) : DS A := fun s =>
  match m (md s) with Some (a, r) => Some (a, s <| md := r |>) | None => None end.

Definition at_disconn_match (data : list Z) : DS Z :=
  s ← get;
  '(cnt, disconn, r) ← lift (disconn_loop data (u8 (Z.of_nat (length data))) (at_disconn_match_cnt s) (at_disconn_match_cnt s));
  modify (fun s => s <| at_disconn_match_cnt := cnt |>);;
  when disconn (on_md (send_async_msg MSG_DISCONNECT));;
  mret r.
Definition at_ota_match (data : list Z) : DS Z :=
  if Nat.ltb (length data) 7 then mret 0
  else
    hit ← lift (ota_loop data 0 stack);
    if (hit : bool) then on_md at_cmd_ota;; mret (u8 (Z.of_nat (length data))) else mret 0.

Definition at_name_set (name : list Z) : DS unit :=
  n ← lift (strlen name);
  let name_len := u8 n in
  let cp_len := if BLE_NAME_MAX_LEN - 1 <? name_len then BLE_NAME_MAX_LEN - 1 else name_len in
  nm ← lift (name_field name cp_len);
  on_md (upd_bp (fun p => p <| adv_name := nm |>);; nvram_config_set_factory "BT_NAME" (take (Z.to_nat cp_len) nm)).
Definition copy_name (name_len cp_len : Z) (data : list Z) : DS unit :=
  s ← get;
  nm ← lift (blit name_len (take (Z.to_nat cp_len) data) (ad_name s));
  nm ← lift (wr nm 30 0);
  put (s <| ad_name := nm |>).
Definition name_done : DS unit := modify (fun s => s <| at_name_getting := false |>).
Definition set_own_name : DS unit := s ← get; at_name_set (ad_name s).
Definition at_name_get (data : list Z) : DS Z :=
  s ← get;
  n ← lift (strlen (ad_name s));
  let name_len := u8 n in
  let len := Z.of_nat (length data) in
  let i := name_end (at_name_get_r s) data 0 in
  let cp_len := if i <? u8 (31 - name_len - 1) then i else u8 (31 - name_len - 1) in
  if i =? len then
    if at_name_get_r s then name_done;; set_own_name;; mret 0
    else
      copy_name name_len cp_len data;;
      when (cp_len =? 0) (name_done;; set_own_name);;
      mret i
  else
    copy_name name_len cp_len data;;
    d ← lift (rd data i);
    if d =? 13 then
      modify (fun s => s <| at_name_get_r := true |>);;
      if i <? len - 1 then
        d1 ← lift (rd data (i + 1));
        name_done;; set_own_name;;
        mret (if d1 =? 10 then i + 2 else i + 1)
      else mret (i + 1)
    else name_done;; set_own_name;; mret (i + 1).

(** The data thread's handling of one packet. *)
Definition data_start_slave (data : list Z) : DS Z :=
  s ← get;
  if negb (at_name_getting s) then
    if 7 <=? Z.of_nat (length data) then
      hit ← lift (at_name_match (str "AT+NAME") data);
      if (hit : bool) then
        modify (fun s => s <| at_name_getting := true |> <| at_name_get_r := false |> <| ad_name := replicate 31 0 |>);;
        r ← at_name_get (drop 7 data);
        mret (u8 (r + 7))
      else mret 0
    else mret 0
  else r ← at_name_get data; mret (u8 r).
Definition data_handler (data : list Z) : DS unit :=
  s ← get;
  match pconn (md s) with
  | None => mret tt
  | Some _ =>
      data_start ← (if role (ble_param (md s)) =? BLE_ROLE_SLAVE then data_start_slave data
                    else r ← at_ota_match data; if r =? 0 then at_disconn_match data else mret r);
      if data_start <? Z.of_nat (length data) then
        err ← on_md (ble_send_data host (drop (Z.to_nat data_start) data));
        when (err <? 0) (on_md (emit (SleepMs 100)))
      else mret tt
  end.

Inductive data_event := RxBytes (fifo : list Z) | PartialTimeout | HandlePacket | GivePacket | EnterDataMode.
Definition data_step (e : data_event) : DS unit :=
  match e with
  | RxBytes fifo => on_rx (act_data_rx_isr (S (length fifo)) fifo)
  | PartialTimeout => on_rx send_partial_handler
  | HandlePacket => p ← on_rx take_data; match p with Some data => data_handler data | None => mret tt end
  | GivePacket => on_rx give_data
  | EnterDataMode => on_rx enter_into_data_mode
  end.
Fixpoint data_run (es : list data_event) : DS unit :=
  match es with [] => mret tt | e :: es => data_step e;; data_run es end.
End Data.
Arguments data_sys : clear implicits.

(** * Specification: a queue of packets with room for fifty-nine *)
Record packets := Packets { ready : list (list Z); part : list Z; taken : option (list Z); timer : bool; lost : nat }.
Definition room (a : packets) : bool :=
  Nat.ltb ((length (ready a)) + (if taken a is Some _ then 1 else 0)) (DATA_QUEUED - 1).
Definition spec_flush (p : list Z) (a : packets) : packets :=
  if room a then Packets (ready a ++ [p]) [] (taken a) false (lost a)
  else Packets (ready a) [] (taken a) false (lost a + length p).
Definition spec_byte (a : packets) (byte : Z) : packets :=
  let p := part a ++ [byte] in
  if Nat.eqb (length p) 20 then spec_flush p a else Packets (ready a) p (taken a) true (lost a).
Definition spec_packets (e : data_event) (a : packets) : packets :=
  match e with
  | RxBytes fifo => foldl spec_byte a fifo
  | PartialTimeout => if timer a then spec_flush (part a) a else a
  | HandlePacket => match taken a, ready a with
                    | None, p :: q => Packets q (part a) (Some p) (timer a) (lost a)
                    | _, _ => a
                    end
  | GivePacket => Packets (ready a) (part a) None (timer a) (lost a)
  | EnterDataMode => Packets (ready a) [] (taken a) (timer a) (lost a + length (part a))
  end.
(** The packet a step hands to the thread. *)
Definition spec_handed (e : data_event) (a : packets) : option (list Z) :=
  match e, taken a, ready a with HandlePacket, None, p :: _ => Some p | _, _, _ => None end.

Definition packet_at (bufs : list (Z * list Z)) (b : nat) (p : list Z) : Prop :=
  exists rest, bufs !! b = Some (Z.of_nat (length p), p ++ rest).
(** Buffer ownership, with [p] in the buffer being filled. *)
Record holding (s : act_rx) (a : packets) (p : list Z) : Prop := {
  ho_owned : avail_queue s ++ datas_queue s ++ (recv_buf s :: opt_list (cur s)) ≡ₚ seq 0 DATA_QUEUED;
  ho_bufs : length (data_buf s) = DATA_QUEUED;
  ho_sizes : Forall (fun x => length x.2 = 20%nat) (data_buf s);
  ho_queue : Forall2 (packet_at (data_buf s)) (datas_queue s) (ready a);
  ho_part : exists n rest, data_buf s !! recv_buf s = Some (n, p ++ rest) /\ recv_off s = Z.of_nat (length p);
  ho_taken : match cur s, taken a with Some _, Some _ | None, None => True | _, _ => False end }.
Record collects (s : act_rx) (a : packets) : Prop := {
  co_hold : holding s a (part a);
  co_lt : (length (part a) < 20)%nat;
  co_timer : send_partial_timer s = timer a /\ send_partial_timer_started s = b2z (timer a) /\ rx_abort s = 0;
  co_runs : part a <> [] -> timer a = true }.

Lemma packet_other bufs b b' p x : b <> b' -> packet_at bufs b p -> packet_at (<[b' := x]> bufs) b p.
Proof. intros Hb [rest E]. exists rest. by rewrite list_lookup_insert_ne. Qed.
Lemma packets_other bufs qs ls b' x : b' ∉ qs -> Forall2 (packet_at bufs) qs ls -> Forall2 (packet_at (<[b' := x]> bufs)) qs ls.
Proof.
  intros Hb. induction 1 as [|b l qs ls H _ IH]; [constructor|].
  apply not_elem_of_cons in Hb as [? ?]. constructor; [by apply packet_other|by apply IH].
Qed.

Section Owned.
Context (s : act_rx) (a : packets) (p : list Z).
Hypothesis I : holding s a p.

Lemma data_nodup : NoDup (avail_queue s ++ datas_queue s ++ (recv_buf s :: opt_list (cur s))).
Proof using I. rewrite (ho_owned _ _ _ I). apply NoDup_seq. Qed.
Lemma recv_not_queued : recv_buf s ∉ datas_queue s.
Proof using I.
  intros Hq. pose proof data_nodup as Hn. apply NoDup_app in Hn as (_ & _ & Hn).
  apply NoDup_app in Hn as (_ & Hn & _). apply (Hn _ Hq). by left.
Qed.
Lemma cur_not_used b : cur s = Some b -> (b ∉ datas_queue s) /\ b <> recv_buf s.
Proof using I.
  intros E. pose proof data_nodup as Hn. rewrite E in Hn. apply NoDup_app in Hn as (_ & _ & Hn).
  apply NoDup_app in Hn as (_ & Hn & Hc). split.
  - intros Hq. apply (Hn _ Hq). right. by left.
  - intros ->. apply NoDup_cons in Hc as [Hc _]. apply Hc. by left.
Qed.
Lemma data_lt b : b ∈ avail_queue s ++ datas_queue s ++ (recv_buf s :: opt_list (cur s)) ->
  exists n d, data_buf s !! b = Some (n, d) /\ length d = 20%nat.
Proof using I.
  rewrite (ho_owned _ _ _ I), elem_of_seq. intros Hb. destruct (lookup_lt_is_Some_2 (data_buf s) b) as [[n d] E].
  { rewrite (ho_bufs _ _ _ I). lia. }
  exists n, d. split; [done|]. exact (Forall_lookup_1 _ _ _ _ (ho_sizes _ _ _ I) E).
Qed.
Lemma avail_room : room a = match avail_queue s with [] => false | _ => true end.
Proof using I.
  pose proof (Permutation_length (ho_owned _ _ _ I)) as L. rewrite !length_app, length_seq in L. cbn [length] in L.
  pose proof (Forall2_length _ _ _ (ho_queue _ _ _ I)) as Lq. pose proof (ho_taken _ _ _ I) as Ht.
  unfold room, DATA_QUEUED in *.
  destruct (avail_queue s), (cur s), (taken a); try done; cbn [length opt_list] in *;
    [apply Nat.ltb_ge|apply Nat.ltb_ge|apply Nat.ltb_lt|apply Nat.ltb_lt]; lia.
Qed.
Lemma held_short : (length p <= 20)%nat.
Proof using I.
  destruct (ho_part _ _ _ I) as (n & rest & E & _). pose proof (Forall_lookup_1 _ _ _ _ (ho_sizes _ _ _ I) E) as L.
  cbn in L. rewrite length_app in L. lia.
Qed.
End Owned.

(** A packet is complete: the buffer is queued if there is another one, else filled again. *)
Definition complete (s : act_rx) : Prop :=
  (recv_off s = 20 /\ rx_abort s = 0) \/ (rx_abort s = 1 /\ send_partial_timer_started s = 1 /\ send_partial_timer s = false).
Lemma recv_cb_complete b s : complete s ->
  recv_cb b s =
    let s' := s <| send_partial_timer := false |> <| send_partial_timer_started := 0 |> <| rx_abort := 0 |> <| recv_off := 0 |> in
    match avail_queue s, data_buf s !! b with
    | [], _ => Some (b, s')
    | nb :: q, Some (_, data) =>
        Some (nb, s' <| avail_queue := q |> <| data_buf := <[b := (u16 (recv_off s), data)]> (data_buf s) |>
                     <| datas_queue := datas_queue s ++ [b] |>)
    | _, None => None
    end.
Proof.
  destruct s as [bufs av dq rb off tm st ab cu]. intros [[? ?]|(? & ? & ?)]; cbn in *; subst; unfold recv_cb; munfold.
  - destruct st, av as [|nb q]; try reflexivity; destruct (bufs !! b) as [[n d]|] eqn:E; cbn; rewrite E; reflexivity.
  - destruct (0 <? off) eqn:Eo; cbn; rewrite Eo; cbn; rewrite ?andb_false_r; destruct av as [|nb q]; try reflexivity;
      destruct (bufs !! b) as [[n d]|] eqn:E; cbn; rewrite ?E; reflexivity.
Qed.
Lemma flush_ok s a p : holding s a p -> complete s ->
  exists b s', recv_cb (recv_buf s) s = Some (b, s') /\ collects (s' <| recv_buf := b |>) (spec_flush p a).
Proof.
  intros I Hf. rewrite recv_cb_complete by done. cbv zeta. pose proof (held_short s a p I) as Hs.
  pose proof (avail_room s a p I) as Hr. unfold spec_flush. rewrite Hr. pose proof (recv_not_queued s a p I) as Hnq.
  pose proof (data_lt s a p I) as Hlt. destruct I as [Ho Hb Hz Hq (n & rest & E & Hoff) Ht].
  assert (u16 (recv_off s) = Z.of_nat (length p)) as Hu by (rewrite Hoff; apply u16_small; lia).
  destruct (avail_queue s) as [|nb q] eqn:Ea.
  - eexists _, _. split; [reflexivity|]. split; cbn -[seq replicate]; [|lia|done|done].
    split; cbn -[seq replicate]; try done; [by rewrite Ea|]. exists n, (p ++ rest). done.
  - rewrite E. eexists _, _. split; [reflexivity|]. destruct (Hlt nb) as (m & d & End & Hd); [by left|].
    assert (nb <> recv_buf s) as Hne.
    { intros ->. pose proof (NoDup_seq 0 DATA_QUEUED) as Hn. rewrite <- Ho in Hn. cbn [app] in Hn.
      apply NoDup_cons in Hn as [Hn _]. apply Hn. rewrite !elem_of_app, elem_of_cons. auto. }
    assert (recv_buf s < length (data_buf s))%nat as Hrb by by apply lookup_lt_Some in E.
    split; cbn -[seq replicate]; [|lia|done|done]. split; cbn -[seq replicate].
    + rewrite <- Ho. cbn [app]. rewrite <- !app_assoc. cbn [app]. by rewrite perm_swap, <- !Permutation_middle.
    + by rewrite length_insert.
    + apply Forall_insert; [done|]. exact (Forall_lookup_1 _ _ _ _ Hz E).
    + apply Forall2_app; [by apply packets_other|]. constructor; [|constructor]. exists rest. rewrite Hu. by rewrite list_lookup_insert_eq.
    + exists m, d. by rewrite list_lookup_insert_ne.
    + done.
Qed.

(** Bytes of an interrupt that leave the packet incomplete. *)
Lemma keep_ok s a p : holding s a p -> (length p < 20)%nat -> p <> [] -> rx_abort s = 0 ->
  send_partial_timer s = timer a -> send_partial_timer_started s = b2z (timer a) ->
  exists s', recv_cb (recv_buf s) s = Some (recv_buf s, s') /\
    collects (s' <| recv_buf := recv_buf s |>) (Packets (ready a) p (taken a) true (lost a)).
Proof.
  intros I Hl Hp Hab Htm Hst. assert (recv_cb (recv_buf s) s = Some (recv_buf s, s <| send_partial_timer := true |> <| send_partial_timer_started := 1 |>)) as ->.
  { destruct I as [_ _ _ _ (n & rest & _ & Hoff) _]. destruct s as [bufs av dq rb off tm st ab cu]. cbn in *. subst.
    assert (0 < length p)%nat by (destruct p; [done|cbn; lia]). unfold recv_cb. munfold. destruct (timer a); cbn;
      (destruct (Z.ltb_spec 0 (Z.of_nat (length p))); [|lia]); cbn; unfold ACT_DATA_MTU;
      (destruct (Z.ltb_spec (Z.of_nat (length p)) 20); [done|lia]). }
  eexists. split; [reflexivity|]. split; cbn -[seq]; [|done|done|done].
  destruct I. by split.
Qed.

Lemma blit_here p g rest : (length g <= length rest)%nat ->
  blit (Z.of_nat (length p)) g (p ++ rest) = Some (p ++ g ++ drop (length g) rest).
Proof.
  intros Hg. unfold blit. rewrite length_app, Nat2Z.id. destruct (Z.leb_spec 0 (Z.of_nat (length p))); [|lia].
  destruct (Z.leb_spec (Z.of_nat (length p) + Z.of_nat (length g)) (Z.of_nat (length p + length rest))); [|lia]. cbn [andb]. f_equal.
  rewrite take_app_length, drop_app, drop_ge by lia. cbn [app]. do 3 f_equal. lia.
Qed.
Lemma bytes_kept g : forall a, g <> [] -> (length (part a) + length g < 20)%nat ->
  foldl spec_byte a g = Packets (ready a) (part a ++ g) (taken a) true (lost a).
Proof.
  induction g as [|b g IH]; intros a Hg Hl; [done|]. cbn [foldl]. unfold spec_byte at 2.
  destruct (Nat.eqb_spec (length (part a ++ [b])) 20) as [E|_]; [rewrite length_app in E; cbn in *; lia|].
  destruct g as [|c g]; [done|]. rewrite IH; cbn [part ready taken lost]; [by rewrite <- app_assoc|done|rewrite length_app; cbn in *; lia].
Qed.
Lemma bytes_flushed g a : g <> [] -> (length (part a) + length g = 20)%nat ->
  foldl spec_byte a g = spec_flush (part a ++ g) a.
Proof.
  intros Hg Hl. destruct (exists_last Hg) as (g' & b & ->). rewrite foldl_snoc. rewrite length_app in Hl. cbn in Hl.
  destruct g' as [|c g'].
  - cbn. unfold spec_byte. destruct (Nat.eqb_spec (length (part a ++ [b])) 20) as [_|E]; [done|]. rewrite length_app in E. cbn in *. lia.
  - rewrite bytes_kept by (done || (cbn in *; lia)). unfold spec_byte. cbn [part ready taken lost].
    destruct (Nat.eqb_spec (length ((part a ++ c :: g') ++ [b])) 20) as [_|E]; [by rewrite <- app_assoc|].
    rewrite !length_app in E. cbn in *. lia.
Qed.

Lemma write_holding s a g n rest : collects s a -> data_buf s !! recv_buf s = Some (n, part a ++ rest) ->
  (length g <= length rest)%nat ->
  holding (s <| data_buf ::= (fun l => <[recv_buf s := (n, part a ++ g ++ drop (length g) rest)]> l) |>
             <| recv_off ::= Z.add (Z.of_nat (length g)) |>) a (part a ++ g).
Proof.
  intros [I _ _ _] E Hg. pose proof (recv_not_queued _ _ _ I) as Hnq. destruct I as [Ho Hb Hz Hq (n' & rest' & E' & Hoff) Ht].
  pose proof (Forall_lookup_1 _ _ _ _ Hz E) as L. cbn in L. rewrite length_app in L.
  split; cbn -[seq]; [done|by rewrite length_insert| |by apply packets_other| |done].
  - apply Forall_insert; [done|]. cbn. rewrite !length_app, length_drop. lia.
  - exists n, (drop (length g) rest). split; [|rewrite length_app; lia].
    rewrite list_lookup_insert_eq by (by apply lookup_lt_Some in E). by rewrite <- app_assoc.
Qed.

Lemma isr_ok fuel : forall fifo s a, collects s a -> (length fifo < fuel)%nat ->
  exists s', act_data_rx_isr fuel fifo s = Some (tt, s') /\ collects s' (foldl spec_byte a fifo).
Proof.
  induction fuel as [|fuel IH]; intros fifo s a C Hf; [lia|]. cbn [act_data_rx_isr]. munfold.
  destruct (ho_part _ _ _ (co_hold _ _ C)) as (n & rest & E & Hoff). pose proof (co_lt _ _ C) as Hlt. rewrite Hoff. unfold ACT_DATA_MTU.
  replace (Z.to_nat (20 - Z.of_nat (length (part a)))) with (20 - length (part a))%nat by lia.
  pose proof (Forall_lookup_1 _ _ _ _ (ho_sizes _ _ _ (co_hold _ _ C)) E) as L. cbn in L. rewrite length_app in L.
  remember (20 - length (part a))%nat as k eqn:Hk. destruct (take k fifo) as [|b g] eqn:Eg.
  { destruct fifo as [|b fifo]; [by exists s|]. by replace k with (S (k - 1)) in Eg by lia. }
  set (got := b :: g) in *. assert (length got <= length rest)%nat as Hg by (rewrite <- Eg, length_take; lia).
  rewrite E. cbv iota beta. rewrite blit_here by done.
  pose proof (write_holding s a got n rest C E Hg) as Hw. set (s1 := s <| data_buf ::= _ |> <| recv_off ::= _ |>) in *.
  destruct (co_timer _ _ C) as (Ht1 & Ht2 & Ht3). change (recv_buf s) with (recv_buf s1).
  assert (got <> []) as Hgne by done.
  destruct (decide (length (part a ++ got) = 20)%nat) as [H20|H20].
  - destruct (flush_ok s1 a _ Hw) as (nb & s2 & -> & C2).
    { left. split; [|done]. destruct (ho_part _ _ _ Hw) as (? & ? & _ & ->). lia. }
    assert (foldl spec_byte a fifo = foldl spec_byte (spec_flush (part a ++ got) a) (drop k fifo)) as ->.
    { rewrite <- (take_drop k fifo) at 1. rewrite Eg, foldl_app. f_equal. apply bytes_flushed; [done|]. rewrite length_app in H20. lia. }
    apply IH; [done|]. rewrite length_drop. assert (0 < length fifo)%nat by (destruct fifo; [by rewrite take_nil in Eg|cbn; lia]). lia.
  - assert (length (part a ++ got) < 20)%nat as Hlt2 by (pose proof (held_short _ _ _ Hw); lia).
    destruct (keep_ok s1 a _ Hw) as (s2 & -> & C2); [done|by destruct (part a)|done..|].
    assert (length got = length fifo) as Hall.
    { rewrite length_app, <- Eg, length_take in Hlt2. rewrite <- Eg, length_take. lia. }
    assert (got = fifo) as Efifo by (rewrite <- Eg; apply take_ge; rewrite <- Eg, length_take in Hall; lia).
    assert (foldl spec_byte a fifo = Packets (ready a) (part a ++ got) (taken a) true (lost a)) as ->.
    { rewrite <- Efifo. apply bytes_kept; [done|]. rewrite length_app in Hlt2. lia. }
    rewrite (drop_ge fifo) by (rewrite <- Eg, length_take in Hall; lia). by apply (IH [] _ _ C2); cbn in *; lia.
Qed.

(** ** Every step *)
Definition rx_step (e : data_event) : RX (option (list Z)) :=
  match e with
  | RxBytes fifo => act_data_rx_isr (S (length fifo)) fifo;; mret None
  | PartialTimeout => send_partial_handler;; mret None
  | HandlePacket => take_data
  | GivePacket => give_data;; mret None
  | EnterDataMode => enter_into_data_mode;; mret None
  end.
Lemma timeout_ok s a : collects s a ->
  exists s', send_partial_handler s = Some (tt, s') /\ collects s' (spec_packets PartialTimeout a).
Proof.
  intros C. destruct (co_timer _ _ C) as (Ht1 & Ht2 & Ht3). unfold send_partial_handler, act_data_rx_abort. munfold. rewrite Ht1. cbn [spec_packets].
  destruct (timer a) eqn:Et; [|by exists s].
  set (s1 := s <| send_partial_timer := false |> <| rx_abort := 1 |>).
  destruct (flush_ok s1 a (part a)) as (nb & s2 & E & C2).
  - destruct (co_hold _ _ C). by split.
  - right. cbn. by rewrite Ht2.
  - change (recv_buf s) with (recv_buf s1). rewrite E. by eexists.
Qed.
Lemma take_ok s a : collects s a ->
  exists s', take_data s = Some (spec_handed HandlePacket a, s') /\ collects s' (spec_packets HandlePacket a).
Proof.
  intros C. pose proof (co_hold _ _ C) as I. unfold take_data. munfold. cbn [spec_packets spec_handed].
  pose proof (ho_queue _ _ _ I) as Hq. pose proof (ho_taken _ _ _ I) as Ht. pose proof (ho_owned _ _ _ I) as Ho.
  destruct (cur s) as [b|] eqn:Ec, (taken a) as [p|] eqn:Et; try done; [by exists s|].
  destruct (datas_queue s) as [|b q] eqn:Eq, (ready a) as [|p ps] eqn:Er; try (by inversion Hq); [by exists s|].
  apply Forall2_cons in Hq as [[rest E] Hq]. rewrite E. eexists. split; [by rewrite Nat2Z.id, take_app_length|].
  split; cbn -[seq]; [|apply C..]. destruct I as [_ Hb Hz _ Hp _]. split; cbn -[seq]; try done.
  rewrite <- Ho. cbn [opt_list app]. by rewrite perm_swap, <- Permutation_middle.
Qed.
Lemma give_ok s a : collects s a ->
  exists s', give_data s = Some (tt, s') /\ collects s' (spec_packets GivePacket a).
Proof.
  intros C. pose proof (co_hold _ _ C) as I. unfold give_data. munfold. eexists. split; [reflexivity|]. cbn [spec_packets].
  pose proof (ho_taken _ _ _ I) as Ht. destruct (cur s) as [b|] eqn:Ec, (taken a) as [p|] eqn:Et; try done.
  - destruct (cur_not_used _ _ _ I b Ec) as [Hnq Hnr]. destruct (data_lt _ _ _ I b) as (n & d & E & Hd).
    { rewrite Ec. rewrite !elem_of_app, elem_of_cons. right. right. right. by left. }
    destruct I as [Ho Hb Hz Hq (n' & rest & Ep & Hoff) _]. split; cbn -[seq replicate]; [|apply C..]. split; cbn -[seq replicate].
    + rewrite <- Ho, Ec. cbn [opt_list app]. rewrite <- app_assoc. cbn [app]. f_equiv. by rewrite Permutation_middle, perm_swap, <- Permutation_middle.
    + by rewrite length_insert.
    + by apply Forall_insert.
    + by apply packets_other.
    + exists n', rest. by rewrite list_lookup_insert_ne.
    + done.
  - replace (Packets (ready a) (part a) None (timer a) (lost a)) with a; [done|]. destruct a; cbn in *; by subst.
Qed.
Lemma mode_ok s a : collects s a ->
  exists s', enter_into_data_mode s = Some (tt, s') /\ collects s' (spec_packets EnterDataMode a).
Proof.
  intros C. pose proof (co_hold _ _ C) as I. eexists. split; [reflexivity|]. cbn [spec_packets].
  split; cbn -[seq]; [|lia|apply C|done]. destruct I as [Ho Hb Hz Hq (n' & rest & Ep & Hoff) Ht]. split; cbn -[seq]; try done.
  by exists n', (part a ++ rest).
Qed.
Lemma rx_step_ok e s a : collects s a ->
  exists s', rx_step e s = Some (spec_handed e a, s') /\ collects s' (spec_packets e a).
Proof.
  intros C. destruct e as [fifo| | | |].
  - destruct (isr_ok (S (length fifo)) fifo s a C) as (s' & E & C'); [lia|]. unfold rx_step. munfold. rewrite E. by eexists.
  - destruct (timeout_ok s a C) as (s' & E & C'). unfold rx_step. munfold. rewrite E. by eexists.
  - by apply take_ok.
  - destruct (give_ok s a C) as (s' & E & C'). unfold rx_step. munfold. rewrite E. by eexists.
  - destruct (mode_ok s a C) as (s' & E & C'). unfold rx_step. munfold. rewrite E. by eexists.
Qed.
Definition no_packets : packets := Packets [] [] None false 0.
Lemma init_collects : collects act_data_init no_packets.
Proof.
  split; cbn; [|lia|done|done]. split; cbn; [|done| |constructor|by exists 0, (replicate 20 0)|done].
  - by apply (bool_decide_unpack _).
  - by apply (Forall_replicate _ 60%nat (0, replicate 20 0)).
Qed.

(** ** Packets handed to the thread *)
Fixpoint rx_run (es : list data_event) : RX (list (list Z)) :=
  match es with
  | [] => mret []
  | e :: es => o ← rx_step e; ps ← rx_run es; mret (opt_list o ++ ps)
  end.
Fixpoint spec_packets_run (es : list data_event) (a : packets) : list (list Z) * packets :=
  match es with
  | [] => ([], a)
  | e :: es => let '(ps, a') := spec_packets_run es (spec_packets e a) in (opt_list (spec_handed e a) ++ ps, a')
  end.
Lemma rx_run_collects es : forall s a, collects s a ->
  ends (rx_run es) s (fun ps s' => ps = (spec_packets_run es a).1 /\ collects s' (spec_packets_run es a).2).
Proof.
  induction es as [|e es IH]; intros s a C; [by apply ends_ret|]. cbn [rx_run spec_packets_run]. apply ends_bind.
  destruct (rx_step_ok e s a C) as (s' & E & C'). unfold ends at 1. rewrite E. apply ends_bind.
  eapply ends_mono; [by apply (IH s')|]. intros ps s'' [-> C'']. apply ends_ret.
  by destruct (spec_packets_run es (spec_packets e a)).
Qed.
(** C14. whatever the order of interrupts, timer expiries and the thread's calls, the data
    thread is handed exactly the packets of the abstract queue: the stream cut after twenty
    bytes or at a timer expiry, with room for fifty-nine packets that are not given back;
    a packet completed without room is dropped as a whole. *)
Theorem data_packets_refine es :
  ends (rx_run es) act_data_init (fun ps s' => ps = (spec_packets_run es no_packets).1 /\ collects s' (spec_packets_run es no_packets).2).
Proof. apply rx_run_collects, init_collects. Qed.

(** The stream through the abstract queue. *)
Definition pending (a : packets) : list Z := concat (ready a) ++ part a.
Definition bytes_in (e : data_event) : list Z := match e with RxBytes fifo => fifo | _ => [] end.
Definition handed_bytes (o : option (list Z)) : list Z := match o with Some p => p | None => [] end.
Lemma flush_stream p a : exists n, lost (spec_flush p a) = (lost a + n)%nat /\
  keeps_order (pending (spec_flush p a)) (concat (ready a) ++ p) n.
Proof.
  unfold spec_flush. destruct (room a); cbn.
  - exists 0%nat. split; [lia|]. unfold pending. cbn. rewrite concat_app. cbn. rewrite !app_nil_r. apply keeps_order_refl.
  - exists (length p). split; [done|]. unfold pending. cbn. rewrite app_nil_r. split; [by apply sublist_inserts_r|rewrite length_app; lia].
Qed.
Lemma byte_stream b a : exists n, lost (spec_byte a b) = (lost a + n)%nat /\ keeps_order (pending (spec_byte a b)) (pending a ++ [b]) n.
Proof.
  unfold spec_byte. case_match.
  - destruct (flush_stream (part a ++ [b]) a) as (n & E & K). exists n. split; [done|]. unfold pending at 2. by rewrite <- app_assoc.
  - exists 0%nat. cbn. split; [lia|]. unfold pending. cbn. rewrite <- app_assoc. apply keeps_order_refl.
Qed.
Lemma bytes_stream fifo : forall a, exists n, lost (foldl spec_byte a fifo) = (lost a + n)%nat /\
  keeps_order (pending (foldl spec_byte a fifo)) (pending a ++ fifo) n.
Proof.
  induction fifo as [|b fifo IH]; intros a; cbn [foldl].
  - exists 0%nat. split; [lia|]. rewrite app_nil_r. apply keeps_order_refl.
  - destruct (IH (spec_byte a b)) as (n & E & K). destruct (byte_stream b a) as (m & E2 & K2).
    exists (n + m)%nat. split; [lia|]. eapply keeps_order_trans; [exact K|].
    change (b :: fifo) with ([b] ++ fifo). rewrite (app_assoc _ [b]), <- (Nat.add_0_r m). by apply keeps_order_app, keeps_order_refl.
Qed.
Lemma step_stream e a : exists n, lost (spec_packets e a) = (lost a + n)%nat /\
  keeps_order (handed_bytes (spec_handed e a) ++ pending (spec_packets e a)) (pending a ++ bytes_in e) n.
Proof.
  assert (keeps_order (pending a) (pending a ++ []) 0) as Hid by (rewrite app_nil_r; apply keeps_order_refl).
  destruct e as [fifo| | | |]; cbn [spec_packets spec_handed handed_bytes bytes_in app].
  - apply bytes_stream.
  - destruct (timer a); [|exists 0%nat; split; [lia|exact Hid]]. rewrite app_nil_r. by apply flush_stream.
  - exists 0%nat. destruct (taken a), (ready a) as [|p q] eqn:E; cbn [handed_bytes app]; (split; [cbn; lia|]); try exact Hid.
    unfold pending. rewrite E. cbn. rewrite !app_nil_r, <- app_assoc. apply keeps_order_refl.
  - exists 0%nat. split; [cbn; lia|exact Hid].
  - exists (length (part a)). split; [done|]. unfold pending. cbn. rewrite !app_nil_r. split; [by apply sublist_inserts_r|rewrite length_app; lia].
Qed.

(** ** From UART to UART *)
Definition link_writes (t : list mod_event) : list (list Z) :=
  omap (fun e => match e with GattWrite _ d 0 => Some d | _ => None end) t.
Definition uart_out (t : list mod_event) : list Z :=
  t ≫= (fun e => match e with Uart d => d | _ => [] end).
Lemma link_writes_app t1 t2 : link_writes (t1 ++ t2) = link_writes t1 ++ link_writes t2.
Proof. apply omap_app. Qed.

Section Cable.
Context {NS : Type} `{Nvram NS} (host : list mod_event -> Z) (stack : Z).
#[local] Abbreviation MO := (M (module NS)).

(** What the peer does with the writes of the link. *)
Fixpoint peer_receives (ws : list (list Z)) : MO unit :=
  match ws with [] => mret tt | w :: ws => _ ← write_qpps_tx w 0; peer_receives ws end.
Lemma peer_receives_ok ws : forall (s : module NS), Forall (fun w => (length w <= 20)%nat) ws ->
  ends (peer_receives ws) s (fun _ s' => mlog s' = mlog s ++ (Uart <$> ws)).
Proof.
  induction ws as [|w ws IH]; intros s Hw; cbn [peer_receives fmap list_fmap].
  - apply ends_ret. by rewrite app_nil_r.
  - apply Forall_cons in Hw as [Hl Hw]. apply ends_bind. unfold write_qpps_tx.
    destruct (Z.ltb_spec 23 (0 + Z.of_nat (length w))); [lia|]. unfold act_data_send_data, emit. hoare.
    eapply ends_mono; [by apply IH|]. intros _ s' ->. cbn. by rewrite <- app_assoc.
Qed.
Lemma uart_out_all ws : uart_out (Uart <$> ws) = concat ws.
Proof. unfold uart_out. induction ws as [|w ws IH]; [done|]. cbn. by rewrite <- IH. Qed.

Hypothesis host_ok : forall t, host t = 0.

(** A module that is connected as master and knows the peer's handles. *)
Definition linked (s : module NS) (c h : Z) : Prop :=
  pconn s = Some c /\ role (ble_param s) = BLE_ROLE_MASTER /\ rd (module_handle s) QPPS_TX_HDL = Some h.
Lemma log_nothing (s : module NS) : s <| mlog ::= (fun t => t ++ []) |> = s.
Proof. destruct s. unfold set_field. cbn. by rewrite app_nil_r. Qed.
Lemma log_more (s : module NS) t1 t2 :
  s <| mlog ::= (fun t => t ++ t1) |> <| mlog ::= (fun t => t ++ t2) |> = s <| mlog ::= (fun t => t ++ t1 ++ t2) |>.
Proof. destruct s. unfold set_field. cbn. by rewrite app_assoc. Qed.
Lemma send_pieces_ok fuel : forall data (s : module NS) c h, linked s c h -> (length data <= fuel)%nat ->
  ends (send_pieces host fuel data) s (fun r s' => r = 0 /\ exists ws, s' = s <| mlog ::= (fun t => t ++ ws) |> /\
    concat (link_writes ws) = data /\ Forall (fun w => (length w <= 20)%nat) (link_writes ws)).
Proof.
  induction fuel as [|fuel IH]; intros data s c h (Hc & Hr & Hh) Hl.
  { destruct data; [|cbn in Hl; lia]. apply ends_ret. split; [done|]. exists []. rewrite log_nothing. by repeat constructor. }
  destruct data as [|b data].
  { apply ends_ret. split; [done|]. exists []. rewrite log_nothing. by repeat constructor. }
  remember (b :: data) as l eqn:El. cbn [send_pieces]. rewrite El at 1. unfold get_bp. hoare. rewrite Hr. cbn [Z.eqb].
  change (BLE_ROLE_MASTER =? BLE_ROLE_MASTER) with true. cbv iota.
  unfold module_write, call, emit. hoare. rewrite Hc. eapply ends_bind, ends_lift; [exact Hh|]. hoare. rewrite host_ok.
  change (truthy 0) with false. cbv iota. set (s1 := s <| mlog ::= _ |>).
  eapply ends_mono; [apply (IH (drop 20 l) s1 c h); [done|rewrite length_drop; subst; cbn in *; lia]|].
  intros r s' [-> (ws & -> & Ec & Hf)]. split; [done|]. exists (GattWrite h (take 20 l) 0 :: ws). split; [|split].
  - unfold s1. by rewrite log_more.
  - change (concat (link_writes (GattWrite h (take 20 l) 0 :: ws))) with (take 20 l ++ concat (link_writes ws)). by rewrite Ec, take_drop.
  - change (link_writes (GattWrite h (take 20 l) 0 :: ws)) with (take 20 l :: link_writes ws). apply Forall_cons_2; [|done].
    rewrite length_take. lia.
Qed.

(** A packet that does not begin with the first letter of a command goes to the link. *)
Lemma handler_forwards data (s : data_sys NS) c h : linked (md s) c h -> at_disconn_match_cnt s = 0 ->
  Forall (fun b => b <> 65) data ->
  ends (data_handler host stack data) s (fun _ s' => exists ws,
    s' = s <| md ::= (fun m => m <| mlog ::= (fun t => t ++ ws) |>) |> /\
    concat (link_writes ws) = data /\ Forall (fun w => (length w <= 20)%nat) (link_writes ws)).
Proof.
  intros L Hcnt Hd. pose proof L as (Hc & Hr & Hh).
  assert (s = s <| md ::= (fun m => m <| mlog ::= (fun t => t ++ []) |>) |> /\ s <| at_disconn_match_cnt := 0 |> = s) as [Es Ecnt].
  { destruct s as [r m cnt nm g gr]. unfold set_field. cbn in *. split; [|by subst]. f_equal. symmetry. apply log_nothing. }
  unfold data_handler. hoare. rewrite Hc, Hr. change (BLE_ROLE_MASTER =? BLE_ROLE_SLAVE) with false. cbv iota.
  destruct data as [|b data].
  { apply ends_bind, ends_bind, ends_ret. cbv beta. change (0 =? 0) with true. cbv iota. unfold at_disconn_match. hoare.
    rewrite Hcnt. eapply ends_lift; [reflexivity|]. hoare. apply ends_when; [done|]. intros _. hoare.
    change (u8 (Z.of_nat (length [])) <? Z.of_nat (length [])) with false. cbv iota. hoare. exists []. rewrite Ecnt. by repeat constructor. }
  assert (b <> 65) as Hb by by apply Forall_cons in Hd as [? _].
  assert (ends (at_ota_match stack (b :: data)) s (fun r s' => r = 0 /\ s' = s)) as Hota.
  { unfold at_ota_match. case_match; [by apply ends_ret|]. apply ends_bind, (ends_lift _ false); [|by apply ends_ret].
    cbn [ota_loop]. change (rd at_ota_cmd_str 0) with (Some 65). cbn [mbind option_bind]. by destruct (Z.eqb_spec b 65). }
  apply ends_bind, ends_bind. eapply ends_mono; [exact Hota|]. intros r ? [-> ->]. change (0 =? 0) with true. cbv iota.
  unfold at_disconn_match. hoare. rewrite Hcnt. eapply (ends_lift _ (0, false, 0)).
  { cbn [disconn_loop]. change (rd at_disconn_cmd 0) with (Some 65). cbn [mbind option_bind]. by destruct (Z.eqb_spec b 65). }
  hoare. apply ends_when; [done|]. intros _. hoare. rewrite Ecnt.
  destruct (Z.ltb_spec 0 (Z.of_nat (length (b :: data)))); [|cbn in *; lia]. change (drop (Z.to_nat 0) (b :: data)) with (b :: data).
  assert (ends (on_md (ble_send_data host (b :: data))) s (fun r s' => r = 0 /\ exists ws, s' = s <| md ::= (fun m => m <| mlog ::= (fun t => t ++ ws) |>) |> /\
    concat (link_writes ws) = b :: data /\ Forall (fun w => (length w <= 20)%nat) (link_writes ws))) as Hs.
  { unfold on_md, ends, ble_send_data. pose proof (send_pieces_ok (length (b :: data)) (b :: data) (md s) c h L (le_n _)) as Hp. munfold. rewrite Hc.
    unfold ends in Hp. destruct (send_pieces _ _ _ _) as [[r m]|]; [|done]. destruct Hp as [-> (ws & -> & Hws)]. split; [done|]. by exists ws. }
  apply ends_bind. eapply ends_mono; [exact Hs|]. intros r s' [-> Hws]. apply ends_when; [done|]. by intros _.
Qed.

(** The state of the whole: the abstract queue, and the writes so far. *)
Record flows (s0 s : data_sys NS) (a : packets) (ws : list mod_event) (c h : Z) : Prop := {
  fl_rx : collects (rx s) a;
  fl_log : mlog (md s) = mlog (md s0) ++ ws;
  fl_link : linked (md s) c h;
  fl_cnt : at_disconn_match_cnt s = 0;
  fl_clean : Forall (fun b => b <> 65) (pending a);
  fl_short : Forall (fun w => (length w <= 20)%nat) (link_writes ws) }.

Lemma clean_step e a : Forall (fun b => b <> 65) (pending a) -> Forall (fun b => b <> 65) (bytes_in e) ->
  Forall (fun b => b <> 65) (handed_bytes (spec_handed e a)) /\ Forall (fun b => b <> 65) (pending (spec_packets e a)).
Proof.
  intros Ha He. apply Forall_app. destruct (step_stream e a) as (n & _ & Hsub & _).
  apply Forall_forall. intros b Hb. eapply sublist_submseteq, elem_of_submseteq in Hsub; [|exact Hb].
  exact (proj1 (Forall_forall _ _) (Forall_app_2 _ _ _ Ha He) b Hsub).
Qed.
Lemma step_splits e s s' o : rx_step e (rx s) = Some (o, s') ->
  data_step host stack e s = match o with
    | Some p => data_handler host stack p (s <| rx := s' |>)
    | None => Some (tt, s <| rx := s' |>)
    end.
Proof.
  destruct e as [fifo| | | |]; unfold rx_step, data_step, on_rx; munfold; intros E.
  - destruct (act_data_rx_isr _ _ _) as [[[] r]|]; [|done]. by injection E as <- <-.
  - destruct (send_partial_handler _) as [[[] r]|]; [|done]. by injection E as <- <-.
  - rewrite E. by destruct o.
  - destruct (give_data _) as [[[] r]|]; [|done]. by injection E as <- <-.
  - destruct (enter_into_data_mode _) as [[[] r]|]; [|done]. by injection E as <- <-.
Qed.
Lemma flows_step e s0 s a ws c h : flows s0 s a ws c h -> Forall (fun b => b <> 65) (bytes_in e) ->
  ends (data_step host stack e) s (fun _ s' => exists ws',
    flows s0 s' (spec_packets e a) (ws ++ ws') c h /\ concat (link_writes ws') = handed_bytes (spec_handed e a)).
Proof.
  intros [C El L Hcnt Hcl Hsh] He. destruct (clean_step e a Hcl He) as [Hh Hp].
  destruct (rx_step_ok e (rx s) a C) as (r & Er & C').
  assert (forall s' ws', s' = s <| rx := r |> <| md ::= (fun m => m <| mlog ::= (fun t => t ++ ws') |>) |> ->
    Forall (fun w => (length w <= 20)%nat) (link_writes ws') -> flows s0 s' (spec_packets e a) (ws ++ ws') c h) as Hflow.
  { intros s' ws' -> Hw. split; cbn; [done|by rewrite El, <- app_assoc|exact L|done|done|].
    rewrite link_writes_app. by apply Forall_app_2. }
  unfold ends. rewrite (step_splits e s r _ Er). destruct (spec_handed e a) as [p|].
  - fold (ends (data_handler host stack p) (s <| rx := r |>) (fun _ s' => exists ws',
      flows s0 s' (spec_packets e a) (ws ++ ws') c h /\ concat (link_writes ws') = p)).
    eapply ends_mono; [by apply (handler_forwards p _ c h)|]. intros _ s' (ws' & -> & Hc & Hw). exists ws'. split; [by apply Hflow|done].
  - exists []. split; [|done]. apply Hflow; [|constructor].
    destruct s. unfold set_field. cbn. f_equal. symmetry. apply log_nothing.
Qed.
Lemma flows_run es : forall s0 s a ws c h, flows s0 s a ws c h -> Forall (fun b => b <> 65) (es ≫= bytes_in) ->
  ends (data_run host stack es) s (fun _ s' => exists ws' a' n, a' = (spec_packets_run es a).2 /\
    flows s0 s' a' (ws ++ ws') c h /\ lost a' = (lost a + n)%nat /\
    keeps_order (concat (link_writes ws') ++ pending a') (pending a ++ (es ≫= bytes_in)) n).
Proof.
  induction es as [|e es IH]; intros s0 s a ws c h F He.
  - apply ends_ret. exists [], a, 0%nat. rewrite app_nil_r. split; [done|]. split; [done|]. split; [lia|].
    cbn. rewrite app_nil_r. apply keeps_order_refl.
  - rewrite bind_cons in *. apply Forall_app in He as [He Hes]. cbn [data_run spec_packets_run]. apply ends_bind.
    eapply ends_mono; [by apply (flows_step e s0 s a ws c h)|]. intros _ s1 (w1 & F1 & E1).
    eapply ends_mono; [by apply (IH s0 s1 _ _ c h F1)|]. intros _ s2 (w2 & a2 & n & -> & F2 & Hl & K).
    destruct (step_stream e a) as (m & Hm & K1). destruct (spec_packets_run es (spec_packets e a)) as [ps a2] eqn:Er.
    exists (w1 ++ w2), a2, (n + m)%nat. split; [done|]. rewrite (assoc_L (++)). split; [exact F2|]. cbn in *. split; [lia|].
    rewrite link_writes_app, concat_app, E1, <- app_assoc.
    eapply keeps_order_trans; [apply (keeps_order_app _ _ _ _ 0 n (keeps_order_refl (handed_bytes (spec_handed e a))) K)|].
    rewrite !(app_assoc _ _ (es ≫= bytes_in)), <- (Nat.add_0_r m). apply keeps_order_app; [exact K1|apply keeps_order_refl].
Qed.

End Cable.

(** ** On concrete input *)
Definition linked_module (r : Z) : module (gmap string (list Z)) :=
  Mod (BleParams r 0 CONNECTED (replicate 5 dev_zero) 0 BT_ADDR_LE_ANY (replicate 18 0) BT_ADDR_LE_ANY)
    (Some 1) 1 None false 10 (seqZ MOUDULE_SVC_HANDLE_START 7) (SubscribeParams 22 21) 1 0 1 1 ∅ [].
Definition started (r : Z) : data_sys (gmap string (list Z)) :=
  DataSys act_data_init (linked_module r) 0 (replicate 31 0) false false.
Definition demo_data : list data_event :=
  [RxBytes (str "the quick brown"); RxBytes (str " fox jumps"); HandlePacket; PartialTimeout; GivePacket; HandlePacket].
Definition demo_result (es : list data_event) (r : Z) : option (list mod_event * list Z) :=
  match data_run (fun _ => 0) 0 es (started r) with
  | Some (_, s) => Some (mlog (md s), adv_name (ble_param (md s)))
  | None => None
  end.
(** A packet that is only the beginning of the disconnect command is kept back, and lost when
    the next one does not continue it. *)
Example command_prefix_lost : demo_result
    [RxBytes (str "A"); PartialTimeout; HandlePacket; GivePacket; RxBytes (str "hello"); PartialTimeout; HandlePacket] 1 =
  Some ([GattWrite 18 (str "hello") 0], replicate 18 0).
Proof. by vm_compute. Qed.
(** The OTA command is recognised by a counter that nothing initialises. *)
Lemma ota_match_uninitialised : ota_loop (str "AT+OTA" ++ [13; 10]) 0 0 = Some true /\
  ota_loop (str "AT+OTA" ++ [13; 10]) 0 9 = Some false /\ ota_loop (str "AT+NAME") 0 5 = Some true.
Proof. by vm_compute. Qed.
(** The name command in the stream of a slave; what follows it in the packet is data. *)
Example stream_name_set : demo_result
    [RxBytes (str "AT+NAMEZRS12" ++ [13; 10] ++ str "data"); PartialTimeout; HandlePacket] 0 =
  Some ([NvramSet "BT_NAME" (str "ZRS12"); GattNotify (str "data") 0], str "ZRS12" ++ replicate 13 0).
Proof. by vm_compute. Qed.
