(* ===== verification/ModuleUse.v ===== *)
(** * The serial module in use: its settings across a restart, and its corners

    The settings a host types are stored and read back at the next start, over any settings
    store that keeps its laws.  Then the places where the module does something else than it
    seems to mean. *)
From S2P Require Import Prelude CString AtMisc AtLine FlashNor Nvram Module ModuleScan.
From stdpp Require Import strings.
#[local] Open Scope Z_scope.

(** What the store may hold for each of the module's keys. *)
Definition addr_text (d : list Z) : Prop := exists v, is_addr v /\ d = at_addr_le_to_str2 (BtAddrLe 0 v) 18.
Definition setting_ok (key : string) (d : list Z) : Prop :=
  if decide (key ∈ ["BT_ROLE"; "BT_AUTOCONN"]) then length d = 1%nat
  else if decide (key ∈ ["BT_ADDR"; "BT_TGT_ADDR"]) then addr_text d
  else if decide (key = "BT_NAME") then is_str d /\ (length d <= 17)%nat
  else True.

Section Settings.
Context {NS : Type} `{NVL : NvramLaws NS} (host : list mod_event -> Z).
#[local] Abbreviation MO := (M (module NS)).
Definition settings_ok (n : NS) : Prop := forall key d, nv_view n key = Some d -> setting_ok key d.

(** A command that stores one setting. *)
Definition stores (s s' : module NS) (key : string) (d : list Z) : Prop :=
  nv s' = (nvram_config_set key d (nv s)).2 /\ role (ble_param s') = role (ble_param s) /\ pconn s' = pconn s.
Lemma stores_ok s s' key d : stores s s' key d -> 0 <= (nvram_config_set key d (nv s)).1 -> setting_ok key d ->
  settings_ok (nv s) -> settings_ok (nv s') /\ nv_view (nv s') key = Some d.
Proof using NVL.
  intros (-> & _ & _) Hs Hd Hok. split; [|by apply nv_set_ok]. intros k d' Hv. destruct (decide (k = key)) as [->|Hne].
  - rewrite nv_set_ok in Hv by done. by injection Hv as <-.
  - rewrite nv_set_other in Hv by done. by apply Hok.
Qed.
Lemma stores_keeps s s' key d k : stores s s' key d -> k <> key -> nv_view (nv s') k = nv_view (nv s) k.
Proof using NVL. intros (-> & _ & _) Hk. by apply nv_set_other. Qed.

Lemma ends_echo nm p c (s : module NS) (Q : unit -> module NS -> Prop) : is_str nm -> cstr p = Some c ->
  (forall log, Q tt (s <| mlog := log |>)) -> ends (at_cmd_echo nm p) s Q.
Proof using.
  intros Hn Hp HQ. unfold at_cmd_echo, at_cmd_response, at_cmd_port_print, emit.
  apply ends_bind, ends_bind, (ends_lift _ nm); [by apply cstr_spec|]. apply ends_modify.
  apply ends_bind, ends_bind, (ends_lift _ c); [done|]. apply ends_modify.
  apply ends_bind, (ends_lift _ (CRLF ++ str "OK" ++ CRLF)); [done|]. apply ends_modify.
  eapply eq_ind; [apply (HQ (((mlog s ++ [Uart nm]) ++ [Uart c]) ++ [Uart (CRLF ++ str "OK" ++ CRLF)]))|].
  by destruct s.
Qed.

Lemma hex_param_text v rest : is_addr v ->
  hex_param (str "0x" ++ at_addr_le_to_str (BtAddrLe 0 v) 18 ++ 0 :: rest) = Some true.
Proof using.
  intros [Hl Hv]. destruct v as [|v0 [|v1 [|v2 [|v3 [|v4 [|v5 []]]]]]]; try done. do 6 (apply Forall_cons in Hv as [? Hv]).
  assert (forall w, is_byte w -> is_str (hex2 w) /\ forallb is_hex_char (hex2 w) = true) as Hh.
  { intros w Hw. split; [by apply hex2_str|]. unfold is_byte in Hw. unfold hex2. cbn [forallb].
    destruct (hex_digit_back (w / 16)) as (_ & _ & _ & -> & _); [Z.to_euclidean_division_equations; lia|].
    destruct (hex_digit_back (w mod 16)) as (_ & _ & _ & -> & _); [Z.to_euclidean_division_equations; lia|done]. }
  unfold hex_param. change (at_addr_le_to_str _ 18) with (hex2 v5 ++ hex2 v4 ++ hex2 v3 ++ hex2 v2 ++ hex2 v1 ++ hex2 v0).
  set (t := hex2 v5 ++ _). assert (is_str t /\ forallb is_hex_char t = true) as [Ht Hx].
  { unfold t. split; [repeat (apply Forall_app_2; [by apply Hh|]); by apply Hh|]. rewrite !forallb_app.
    pose proof (fun w Hw => proj2 (Hh w Hw)) as Hx. by rewrite !Hx by done. }
  cbn [str app]. change (rd (chr _ :: chr _ :: t ++ 0 :: rest) 0) with (Some 48). change (rd (chr _ :: chr _ :: t ++ 0 :: rest) 1) with (Some 120).
  cbn [mbind option_bind]. change (negb (48 =? 48)) with false. change (negb (120 =? 120) && negb (120 =? 88)) with false. cbv iota.
  change (drop 2 (chr _ :: chr _ :: t ++ 0 :: rest)) with (t ++ 0 :: rest). rewrite strlen_spec by done. cbn [mbind option_bind].
  change (negb (Z.of_nat (length t) =? 12)) with false. cbv iota. unfold is_hex_string. rewrite cstr_spec by done. cbn [mbind option_bind].
  by rewrite Hx.
Qed.

Lemma laddr_stores val v (s : module NS) : is_addr v -> length val = 6%nat ->
  ends (at_cmd_laddr_set val (str "0x" ++ at_addr_le_to_str (BtAddrLe 0 v) 18 ++ [0])) s (fun _ s' =>
    stores s s' "BT_ADDR" (at_addr_le_to_str2 (BtAddrLe 0 v) 18)).
Proof using.
  intros Hv Hval. unfold at_cmd_laddr_set. apply ends_bind. eapply ends_lift; [by apply hex_param_text|]. cbn [negb].
  apply ends_bind. change (drop 2 (str "0x" ++ at_addr_le_to_str (BtAddrLe 0 v) 18 ++ [0])) with (at_addr_le_to_str (BtAddrLe 0 v) 18 ++ [0]).
  eapply ends_lift; [by apply at_str_to_le_addr_text|]. cbv iota. unfold nvram_config_set_factory, upd_bp, emit. hoare.
  destruct (cstr_total (str "0x" ++ at_addr_le_to_str (BtAddrLe 0 v) 18 ++ [0])) as [c Hc]; [rewrite !elem_of_app; right; right; by left|].
  eapply ends_echo; [by apply is_str_check|exact Hc|]. intros log. by split.
Qed.
Lemma name_stores nm (s : module NS) : is_str nm -> (length nm <= 17)%nat -> role (ble_param s) = BLE_ROLE_MASTER ->
  (exists rest, nm = str "ZRS" ++ rest) ->
  ends (at_cmd_adv_name_set host (nm ++ [0])) s (fun _ s' => stores s s' "BT_NAME" nm).
Proof using.
  intros Hs Hl Hr [rest Er]. unfold at_cmd_adv_name_set. apply ends_bind. eapply ends_lift; [by apply strlen_spec|].
  assert (0 < length nm)%nat by (rewrite Er; cbn; lia).
  destruct (Z.ltb_spec (BLE_NAME_MAX_LEN - 1) (Z.of_nat (length nm))); [unfold BLE_NAME_MAX_LEN in *; lia|].
  destruct (Z.eqb_spec (Z.of_nat (length nm)) 0); [lia|]. apply ends_bind, (ends_lift _ 0); [by rewrite Er|].
  change (negb (0 =? 0)) with false. cbv iota. rewrite Nat2Z.id, take_app_length.
  assert (exists f, name_field (nm ++ [0]) (Z.of_nat (length nm)) = Some f /\ 0 ∈ f) as (f & Ef & Hz).
  { unfold name_field. rewrite length_app. destruct (Z.ltb_spec (Z.of_nat (length nm + length [0])) (Z.of_nat (length nm))); [lia|].
    rewrite Nat2Z.id, take_app_length. unfold blit. rewrite length_replicate. change (0 <=? 0) with true.
    destruct (Z.leb_spec (0 + Z.of_nat (length nm)) (Z.of_nat 18)); [|lia]. cbn [andb mbind option_bind].
    rewrite wr_in_bound by (rewrite !length_app, length_take, length_drop, length_replicate; unfold BLE_NAME_MAX_LEN; lia).
    eexists. split; [reflexivity|]. apply list_elem_of_lookup. exists (Z.to_nat (BLE_NAME_MAX_LEN - 1)). apply list_lookup_insert_eq.
    rewrite !length_app, length_take, length_drop, length_replicate. unfold BLE_NAME_MAX_LEN. lia. }
  apply ends_bind, (ends_lift _ f); [done|]. unfold upd_bp, ad_data_set, get_bp. hoare.
  destruct (cstr_total f Hz) as [c Hc]. eapply ends_echo; [by apply is_str_check|exact Hc|]. intros log. hoare. cbn. rewrite Hr.
  apply ends_when; [done|]. intros _. by split.
Qed.
Lemma auto_conn_stores (a : bool) (s : module NS) : role (ble_param s) = BLE_ROLE_MASTER ->
  ends (at_cmd_auto_conn_set [48 + b2z a; 0]) s (fun _ s' => stores s s' "BT_AUTOCONN" [b2z a]).
Proof using.
  intros Hr. unfold at_cmd_auto_conn_set. apply ends_bind, (ends_lift _ (b2z a)); [by destruct a|]. unfold get_bp. hoare.
  apply (ends_lift _ true); [by destruct a|]. rewrite Hr. change (negb (BLE_ROLE_MASTER =? BLE_ROLE_MASTER) || negb true) with false.
  cbv iota. replace (negb (u8 (b2z a) =? 0) && negb (u8 (b2z a) =? 1)) with false by by destruct a. unfold upd_bp. hoare.
  eapply (ends_echo _ _ [48 + b2z a]); [by apply is_str_check|by destruct a|]. intros log. unfold nvram_config_set_factory, emit. hoare.
  by destruct a.
Qed.

(** ** Reading the settings at the start *)
Lemma text_length v : is_addr v -> length (at_addr_le_to_str2 (BtAddrLe 0 v) 18) = 17%nat.
Proof using. intros [Hl _]. by destruct v as [|v0 [|v1 [|v2 [|v3 [|v4 [|v5 []]]]]]]. Qed.
Lemma text_inj v w : is_addr v -> is_addr w -> at_addr_le_to_str2 (BtAddrLe 0 v) 18 = at_addr_le_to_str2 (BtAddrLe 0 w) 18 -> v = w.
Proof using.
  intros Hv Hw E. pose proof (str2bt_addr_text v (replicate 6 0) [] Hv eq_refl) as E1.
  rewrite E, (str2bt_addr_text w (replicate 6 0) [] Hw eq_refl) in E1. by injection E1.
Qed.
Lemma load_addr key dflt w n val : settings_ok n -> key ∈ ["BT_ADDR"; "BT_TGT_ADDR"] -> is_addr w ->
  dflt = at_addr_le_to_str2 (BtAddrLe 0 w) 18 ++ [0] -> length val = 6%nat ->
  exists err d v, nvram_config_get key 17 n = (err, d) /\ is_addr v /\ str2bt_addr (over d dflt) val = Some (0, v) /\
    forall v', is_addr v' -> nv_view n key = Some (at_addr_le_to_str2 (BtAddrLe 0 v') 18) -> v = v' /\ 0 <= err.
Proof using NVL.
  intros Hok Hk Hw -> Hval. destruct (nv_view n key) as [d|] eqn:Ev.
  - assert (addr_text d) as (v & Hv & ->).
    { specialize (Hok key d Ev). unfold setting_ok in Hok. rewrite decide_False in Hok; [by rewrite decide_True in Hok|].
      intros Hin. apply elem_of_cons in Hk as [->|Hk]; [by apply (bool_decide_pack _) in Hin|].
      apply list_elem_of_singleton in Hk as ->. by apply (bool_decide_pack _) in Hin. }
    pose proof (text_length v Hv) as L. eexists _, _, v. split; [apply (nv_get_some key 17 n _ Ev); lia|]. split; [done|]. split.
    + unfold over. rewrite drop_app, drop_ge by (rewrite L, text_length by done; lia). rewrite L, text_length by done.
      cbn [app Nat.sub drop]. by apply str2bt_addr_text.
    + intros v' Hv' [= E]. split; [by apply text_inj|]. lia.
  - destruct (nv_get_none key 17 n Ev) as [He Hd]. destruct (nvram_config_get key 17 n) as [err d] eqn:E. cbn in *. subst d.
    exists err, [], w. split; [done|]. split; [done|]. split; [|done]. unfold over. cbn [length drop app]. by apply str2bt_addr_text.
Qed.
Lemma load_byte key n : settings_ok n -> key ∈ ["BT_ROLE"; "BT_AUTOCONN"] ->
  exists err d, nvram_config_get key 1 n = (err, d) /\ (0 <= err -> exists a, d = [a]) /\
    forall a, nv_view n key = Some [a] -> d = [a] /\ 0 <= err.
Proof using NVL.
  intros Hok Hk. destruct (nv_view n key) as [d|] eqn:Ev.
  - assert (length d = 1%nat) as L by (specialize (Hok key d Ev); unfold setting_ok in Hok; by rewrite decide_True in Hok).
    eexists _, d. split; [apply (nv_get_some key 1 n d Ev); lia|]. split; [intros _; destruct d as [|a []]; try done; by exists a|].
    intros a [= ->]. split; [done|lia].
  - destruct (nv_get_none key 1 n Ev) as [He Hd]. destruct (nvram_config_get key 1 n) as [err d]. cbn in *. subst d.
    exists err, []. split; [done|]. split; [lia|done].
Qed.
Definition padded (nm : list Z) : list Z := nm ++ replicate (18 - length nm) 0.
Lemma load_name n : settings_ok n ->
  exists err d f, nvram_config_get "BT_NAME" BLE_NAME_MAX_LEN n = (err, d) /\ wr (over d (replicate 18 0)) (BLE_NAME_MAX_LEN - 1) 0 = Some f /\
    0 ∈ f /\ forall nm, nv_view n "BT_NAME" = Some nm -> f = padded nm /\ 0 <= err.
Proof using NVL.
  intros Hok. assert (forall d, (length d <= 17)%nat -> is_str d -> wr (over d (replicate 18 0)) (BLE_NAME_MAX_LEN - 1) 0 = Some (padded d) /\ 0 ∈ padded d) as Hw.
  { intros d Hl Hs. unfold over, padded. rewrite drop_replicate.
    replace (18 - length d)%nat with (17 - length d + 1)%nat by lia. rewrite replicate_add, (app_assoc d). split.
    - apply wr_app_here. unfold BLE_NAME_MAX_LEN. rewrite length_app, length_replicate. lia.
    - rewrite elem_of_app. right. by left. }
  destruct (nv_view n "BT_NAME") as [d|] eqn:Ev.
  - assert (is_str d /\ (length d <= 17)%nat) as [Hs L] by (specialize (Hok _ d Ev); by cbn in Hok).
    destruct (Hw d L Hs) as [E H0]. eexists _, d, (padded d). split; [apply (nv_get_some _ BLE_NAME_MAX_LEN n d Ev); unfold BLE_NAME_MAX_LEN; lia|]. split; [done|]. split; [done|].
    intros nm [= ->]. split; [done|lia].
  - destruct (nv_get_none _ BLE_NAME_MAX_LEN n Ev) as [He Hd]. destruct (nvram_config_get "BT_NAME" BLE_NAME_MAX_LEN n) as [err d]. cbn in *. subst d.
    destruct (Hw []) as [E H0]; [cbn; lia|constructor|]. exists err, [], (padded []). by repeat split.
Qed.

(** What the start makes of the settings [n]. *)
Record configured (n : NS) (s : module NS) : Prop := {
  cf_addr : forall v, is_addr v -> nv_view n "BT_ADDR" = Some (at_addr_le_to_str2 (BtAddrLe 0 v) 18) ->
    dev_addr (ble_param s) = BtAddrLe BT_ADDR_LE_PUBLIC v;
  cf_target : forall v, is_addr v -> nv_view n "BT_TGT_ADDR" = Some (at_addr_le_to_str2 (BtAddrLe 0 v) 18) ->
    targed_addr (ble_param s) = BtAddrLe BT_ADDR_LE_PUBLIC v;
  cf_name : forall nm, nv_view n "BT_NAME" = Some nm -> adv_name (ble_param s) = padded nm /\ advertised_name s = nm;
  cf_auto : forall a : bool, nv_view n "BT_AUTOCONN" = Some [b2z a] -> auto_conn (ble_param s) = b2z a }.
Lemma default_ok n key d : settings_ok n -> setting_ok key d -> settings_ok (nvram_config_set key d n).2.
Proof using NVL.
  intros Hok Hd k d' Hv. destruct (decide (k = key)) as [->|Hne]; [|rewrite nv_set_other in Hv by done; by apply Hok].
  destruct (decide (0 <= (nvram_config_set key d n).1)).
  - rewrite nv_set_ok in Hv by done. by injection Hv as <-.
  - rewrite nv_set_fail in Hv by lia. by apply Hok.
Qed.
Definition default_addr : list Z := [102; 85; 68; 51; 34; 17].
Lemma default_addr_ok : is_addr default_addr /\ is_addr (replicate 6 0).
Proof using. split; (split; [done|]); repeat (apply Forall_cons_2; [unfold is_byte; lia|]); apply Forall_nil_2. Qed.
Lemma set_bool_ok err d (f : Z -> bool) (g : Z -> ble_params -> ble_params) (s : module NS) (Q : unit -> module NS -> Prop) :
  (0 <= err -> exists a, d = [a]) ->
  (forall a, d = [a] -> 0 <= err -> f a = true -> Q tt (s <| ble_param ::= g a |>)) ->
  ((err < 0 \/ exists a, d = [a] /\ f a = false) -> Q tt s) ->
  ends (if 0 <=? err then match d with [a] => when (f a) (upd_bp (g a)) | _ => ub end else mret tt) s Q.
Proof using.
  intros Hd HQ Hn. destruct (Z.leb_spec 0 err) as [He|He]; [|apply ends_ret; apply Hn; by left].
  destruct (Hd He) as [a ->]. apply ends_when; [intros Hf; apply ends_modify; by apply HQ|]. intros Hf. apply Hn. right. by exists a.
Qed.

Lemma load_ok val (s : module NS) : settings_ok (nv s) -> length (adv_name (ble_param s)) = 18%nat -> length val = 6%nat ->
  ends (load_ble_cfg_from_nv val) s (fun _ s' => settings_ok (nv s') /\ configured (nv s) s' /\ pconn s' = pconn s).
Proof using NVL.
  intros Hok Hname Hval. unfold load_ble_cfg_from_nv, get_bp, nvram_config_get_factory, upd_bp. hoare.
  destruct (blit_Some 0 (lit BLE_ADV_NAME_DFLT) (adv_name (ble_param s))) as (nm0 & E0 & L0 & _); [lia|rewrite Hname; done|].
  eapply ends_lift; [exact E0|]. hoare.
  set (s1 := s <| ble_param ::= _ |> <| ble_param ::= _ |>).
  destruct (load_byte "BT_ROLE" (nv s1) Hok) as (err & d & E & Hd & _); [by left|]. rewrite E. clear E. cbv iota. apply ends_bind.
  apply (ends_mono _ _ (fun _ s2 => nv s2 = nv s /\ pconn s2 = pconn s)); [by apply set_bool_ok|]. intros [] s2 [N2 P2]. hoare.
  destruct (load_byte "BT_AUTOCONN" (nv s2)) as (err2 & d2 & E & Hd2 & Hv2); [by rewrite N2|by right; left|]. rewrite E. clear E. cbv iota. apply ends_bind.
  apply (ends_mono _ _ (fun _ s3 => nv s3 = nv s /\ pconn s3 = pconn s /\ forall a : bool, nv_view (nv s) "BT_AUTOCONN" = Some [b2z a] -> auto_conn (ble_param s3) = b2z a)).
  { apply set_bool_ok; [done| |].
    - intros a Ed He _. split; [done|]. split; [done|]. intros b Hb. rewrite <- N2 in Hb. destruct (Hv2 _ Hb) as [Eb _].
      rewrite Ed in Eb. injection Eb as ->. done.
    - intros Hn. split; [done|]. split; [done|]. intros b Hb. rewrite <- N2 in Hb. destruct (Hv2 _ Hb) as [-> He].
      destruct Hn as [Hn|(a & [= <-] & Hf)]; [lia|by destruct b]. }
  intros [] s3 (N3 & P3 & A3). hoare.
  destruct (load_name (nv s3)) as (err3 & d3 & f & E & Ef & H0 & Hv3); [by rewrite N3|]. rewrite E. clear E. cbv iota.
  apply ends_bind. eapply ends_lift; [exact Ef|]. destruct (cstr_total f H0) as [c Hc].
  assert (forall nm, nv_view (nv s) "BT_NAME" = Some nm -> f = padded nm /\ c = nm /\ (length nm <= 18)%nat /\ 0 <= err3) as Hnm.
  { intros nm Hn. destruct (Hok _ nm Hn) as [Hstr Hlen]. rewrite <- N3 in Hn. destruct (Hv3 nm Hn) as [Ef' He]. subst f. split; [done|].
    unfold padded in Hc. replace (18 - length nm)%nat with (S (17 - length nm)) in Hc by lia. cbn [replicate] in Hc.
    rewrite cstr_spec in Hc by done. injection Hc as <-. split; [done|]. lia. }
  apply ends_bind. apply (ends_mono _ _ (fun _ s4 => nv s4 = nv s /\ pconn s4 = pconn s /\ auto_conn (ble_param s4) = auto_conn (ble_param s3) /\
    forall nm, nv_view (nv s) "BT_NAME" = Some nm -> adv_name (ble_param s4) = padded nm /\ advertised_name s4 = nm)).
  { destruct (Z.leb_spec 0 err3) as [He|He].
    - unfold ad_data_set. hoare. apply (ends_lift _ (Z.of_nat (length c))); [unfold strlen; by rewrite Hc|]. hoare.
      split; [done|]. split; [done|]. split; [done|]. intros nm Hn. destruct (Hnm nm Hn) as (-> & -> & Hl & _). split; [done|].
      unfold advertised_name. cbn. rewrite Nat2Z.id. unfold padded. by rewrite take_app_length.
    - apply ends_ret. split; [done|]. split; [done|]. split; [done|]. intros nm Hn. destruct (Hnm nm Hn) as (_ & _ & _ & ?). lia. }
  intros [] s4 (N4 & P4 & A4 & M4). hoare. destruct default_addr_ok as [Hda Hza].
  destruct (load_addr "BT_ADDR" (lit BLE_DEVICE_ADDR_DFLT) default_addr (nv s4) val) as (err4 & d4 & v4 & E & Hv4 & Es4 & Hx4);
    [by rewrite N4|by left|done|reflexivity|done|]. rewrite E. clear E. cbv iota.
  apply ends_bind. apply (ends_mono _ _ (fun _ s5 => ble_param s5 = ble_param s4 /\ advertised_name s5 = advertised_name s4 /\ pconn s5 = pconn s /\ settings_ok (nv s5) /\
    nv_view (nv s5) "BT_TGT_ADDR" = nv_view (nv s) "BT_TGT_ADDR")).
  { apply ends_when; intros _.
    - unfold nvram_config_set_factory, emit. hoare. split; [done|]. split; [done|]. split; [done|]. cbn. rewrite N4. split.
      + apply default_ok; [done|]. exists default_addr. by split.
      + by apply nv_set_other.
    - split; [done|]. split; [done|]. split; [done|]. rewrite N4. by split. }
  intros [] s5 (B5 & D5 & P5 & O5 & T5). apply ends_bind. eapply ends_lift; [exact Es4|]. cbv iota. hoare.
  set (s6 := s5 <| ble_param ::= _ |>). assert (length v4 = 6%nat) as L4 by by destruct Hv4.
  destruct (load_addr "BT_TGT_ADDR" (lit BLE_TARGET_ADDR_DFLT) (replicate 6 0) (nv s6) v4) as (err6 & d6 & v6 & E & Hv6 & Es6 & Hx6);
    [done|by right; left|done|reflexivity|done|]. rewrite E. clear E. cbv iota.
  apply ends_bind. eapply ends_lift; [exact Es6|]. cbv iota. hoare. split; [exact O5|]. split; [|exact P5]. split; cbn.
  - intros v Hv Hs. rewrite <- N4 in Hs. by destruct (Hx4 v Hv Hs) as [-> _].
  - intros v Hv Hs. rewrite <- T5 in Hs. by destruct (Hx6 v Hv Hs) as [-> _].
  - intros nm Hn. destruct (M4 nm Hn) as [Ea El]. rewrite B5. split; [done|]. rewrite <- El, <- D5. unfold advertised_name. cbn. done.
  - intros a Ha. rewrite B5. cbn. rewrite A4. by apply A3.
Qed.

Lemma bt_ready_ok val (s : module NS) : settings_ok (nv s) -> length (adv_name (ble_param s)) = 18%nat -> length val = 6%nat ->
  ends (bt_ready val 0) s (fun _ s' => settings_ok (nv s') /\ configured (nv s) s' /\ role (ble_param s') = BLE_ROLE_MASTER /\ pconn s' = None).
Proof using NVL.
  intros Hok Hname Hval. unfold bt_ready, emit. hoare. change (truthy 0) with false. cbv iota. hoare.
  eapply ends_mono; [by apply load_ok|]. cbv beta. intros [] s1 (Hok1 & [Ha Ht Hn Hc] & Hp). unfold enter_into_at_cmd_mode, ble_state_update, upd_bp, emit. hoare.
  split; [exact Hok1|]. split; [|by split]. split; cbn; [exact Ha|exact Ht|exact Hn|exact Hc].
Qed.

(** A command line with a parameter, through the command thread. *)
Lemma handler_runs val nm n cmd cl pl p f ex (s : module NS) Q : (nm, cmd, cl, pl) ∈ drop 1 at_cmds_hj -> cstr nm = Some n ->
  pl <> 0 -> is_str p -> 43 ∉ p -> p <> [] -> pconn s = None ->
  find_command (at_cmd_commands host val) cmd = Some (Some (Some f, ex)) ->
  ends (f (p ++ [0])) s Q -> ends (at_cmd_handler host val (n ++ p ++ [0])) s Q.
Proof using.
  intros Hin Hn Hpl Hs Hplus Hp Hc Hf HQ. destruct (line2argv_own nm cmd cl pl p [] Hin Hs Hplus) as (n' & En & El); [done|].
  rewrite Hn in En. injection En as <-. unfold at_cmd_handler. hoare. rewrite Hc. apply ends_bind.
  unfold at_cmd_exec. apply ends_bind. eapply ends_lift; [exact El|]. rewrite decide_False by done. cbv iota.
  change (3 <=? 0) with false. cbv iota. apply ends_bind. unfold exec_cb. apply ends_bind, (ends_lift _ 65); [done|].
  apply ends_bind, (ends_lift _ 0); [done|]. change ((65 =? 0) || negb (0 =? 0)) with false. change (3 =? 1) with false. cbv iota.
  apply ends_bind, (ends_lift _ cmd); [done|]. apply ends_bind. eapply ends_lift; [exact Hf|]. change (3 =? 2) with false. change (3 =? 3) with true. cbv iota.
  apply ends_bind, (ends_lift _ (p ++ [0])); [done|]. eapply ends_mono; [exact HQ|]. intros [] s' HQ'. hoare.
  by apply ends_when.
Qed.
Lemma text_no_plus v : is_addr v -> is_str (str "0x" ++ at_addr_le_to_str (BtAddrLe 0 v) 18) /\ 43 ∉ str "0x" ++ at_addr_le_to_str (BtAddrLe 0 v) 18.
Proof using.
  intros [Hl Hv]. destruct v as [|v0 [|v1 [|v2 [|v3 [|v4 [|v5 []]]]]]]; try done. do 6 (apply Forall_cons in Hv as [? Hv]).
  change (at_addr_le_to_str _ 18) with (hex2 v5 ++ hex2 v4 ++ hex2 v3 ++ hex2 v2 ++ hex2 v1 ++ hex2 v0).
  assert (forall w, is_byte w -> Forall (fun c => c <> 0 /\ c <> 43) (hex2 w)) as Hh.
  { intros w Hw. unfold is_byte in Hw. assert (forall d, 0 <= d < 16 -> hex_digit d <> 0 /\ hex_digit d <> 43) as Hd.
    { intros d Hd. unfold hex_digit. case_cmp; lia. }
    repeat (apply Forall_cons_2; [apply Hd; Z.to_euclidean_division_equations; lia|]). apply Forall_nil_2. }
  assert (Forall (fun c => c <> 0 /\ c <> 43) (str "0x" ++ hex2 v5 ++ hex2 v4 ++ hex2 v3 ++ hex2 v2 ++ hex2 v1 ++ hex2 v0)) as HF.
  { apply Forall_app_2; [by repeat constructor|]. repeat (apply Forall_app_2; [by apply Hh|]). by apply Hh. }
  split; [eapply Forall_impl; [exact HF|]; by intros c [? _]|]. intros Hin.
  by destruct (proj1 (Forall_forall _ _) HF _ Hin) as [_ ?].
Qed.

(** C17. the settings of the module survive a restart.  A module that is not connected, in
    the master role, is given an address, a name and the automatic connection over its
    serial port; at the next start, whatever the fresh module and its stack hold, it has
    that address, advertises that name and has that mode, over any settings store that
    keeps its laws and has room.  The role is the configured one, not the stored one. *)
Theorem settings_survive_restart val v nm rest (a : bool) (s : module NS) :
  is_addr v -> length val = 6%nat -> nm = str "ZRS" ++ rest -> is_str nm -> (length nm <= 17)%nat -> 43 ∉ nm ->
  role (ble_param s) = BLE_ROLE_MASTER -> pconn s = None -> settings_ok (nv s) ->
  (forall k d n, 0 <= (nvram_config_set k d n).1) ->
  ends (at_cmd_handler host val (str "AT+LADDR" ++ (str "0x" ++ at_addr_le_to_str (BtAddrLe 0 v) 18) ++ [0]);;
        at_cmd_handler host val (str "AT+NAME" ++ nm ++ [0]);;
        at_cmd_handler host val (str "AT+AUTOCONN" ++ [48 + b2z a] ++ [0])) s (fun _ s1 =>
    forall (fresh : module NS) val2, nv fresh = nv s1 -> length (adv_name (ble_param fresh)) = 18%nat -> length val2 = 6%nat ->
    ends (bt_ready val2 0) fresh (fun _ s2 =>
      dev_addr (ble_param s2) = BtAddrLe BT_ADDR_LE_PUBLIC v /\ advertised_name s2 = nm /\ auto_conn (ble_param s2) = b2z a /\
      role (ble_param s2) = BLE_ROLE_MASTER)).
Proof using NVL.
  intros Hv Hval Enm Hs Hl Hplus Hr Hp Hok Hroom. destruct (text_no_plus v Hv) as [Ht1 Ht2].
  apply ends_bind. eapply (handler_runs val (lit "AT+LADDR") _ (lit "LADDR") 8 14); [by apply (bool_decide_unpack _)|done|done|done|done|done|done|done|].
  rewrite <- app_assoc. eapply ends_mono; [by apply laddr_stores|]. intros [] s1 St1. pose proof St1 as (N1 & R1 & P1).
  destruct (stores_ok s s1 _ _ St1 (Hroom _ _ _)) as [Ok1 V1]; [by exists v|done|].
  apply ends_bind. eapply (handler_runs val (lit "AT+NAME") _ (lit "NAME") 7 255); [by apply (bool_decide_unpack _)|done|done|done|done|by rewrite Enm|by rewrite P1|done|].
  eapply ends_mono; [apply name_stores; [done|done|by rewrite R1|by exists rest]|]. intros [] s2 St2. pose proof St2 as (N2 & R2 & P2).
  destruct (stores_ok s1 s2 _ _ St2 (Hroom _ _ _)) as [Ok2 V2]; [by split|done|].
  eapply (handler_runs val (lit "AT+AUTOCONN") _ (lit "AUTOCONN") 11 1);
    [by apply (bool_decide_unpack _)|done|done|apply is_str_check; by destruct a|intros Hin%list_elem_of_singleton; by destruct a|done|by rewrite P2, P1|done|].
  eapply ends_mono; [apply auto_conn_stores; by rewrite R2, R1|]. intros [] s3 St3.
  destruct (stores_ok s2 s3 _ _ St3 (Hroom _ _ _)) as [Ok3 V3]; [done|done|].
  intros fresh val2 En Hn18 Hv6. eapply ends_mono; [apply bt_ready_ok; [by rewrite En|done|done]|].
  intros [] s4 (_ & [Ca _ Cn Cc] & Rr & _). rewrite En in *. split; [|split; [|split; [|exact Rr]]].
  - apply Ca; [done|]. by rewrite (stores_keeps _ _ _ _ _ St3), (stores_keeps _ _ _ _ _ St2).
  - apply Cn. by rewrite (stores_keeps _ _ _ _ _ St3).
  - by apply Cc.
Qed.
End Settings.

Lemma settings_survive_restart_witness :
  ends (at_cmd_handler (fun _ => 0) (replicate 6 7) (str "AT+LADDR" ++ (str "0x" ++ at_addr_le_to_str (BtAddrLe 0 [1; 2; 3; 4; 5; 254]) 18) ++ [0]);;
        at_cmd_handler (fun _ => 0) (replicate 6 7) (str "AT+NAME" ++ str "ZRS42" ++ [0]);;
        at_cmd_handler (fun _ => 0) (replicate 6 7) (str "AT+AUTOCONN" ++ [48 + b2z false] ++ [0])) module_zero (fun _ s1 =>
    ends (bt_ready (replicate 6 9) 0) (module_zero <| nv := nv s1 |>) (fun _ s2 =>
      dev_addr (ble_param s2) = BtAddrLe 0 [1; 2; 3; 4; 5; 254] /\ advertised_name s2 = str "ZRS42" /\ auto_conn (ble_param s2) = 0)).
Proof.
  eapply ends_mono; [apply (settings_survive_restart (fun _ => 0) (replicate 6 7) [1; 2; 3; 4; 5; 254] (str "ZRS42") (str "42") false module_zero)|].
  - split; [done|]. repeat (apply Forall_cons_2; [unfold is_byte; lia|]). apply Forall_nil_2.
  - done.
  - done.
  - by apply is_str_check.
  - cbn. lia.
  - by apply (bool_decide_unpack _).
  - done.
  - done.
  - intros key d. by cbn.
  - done.
  - intros [] s1 H. eapply ends_mono; [apply (H (module_zero <| nv := nv s1 |>) (replicate 6 9)); done|].
    intros [] s2 (Ha & Hn & Hc & _). by repeat split.
Defined.

(** ** Corners *)
Section Corners.
Context {NS : Type} `{Nvram NS} (host : list mod_event -> Z).

(** The automatic connection converts one character that no terminator follows, and so
    reads past it. *)
Lemma conn_set_unterminated c (s : module NS) : isdigit c = true -> at_cmd_conn_set host [c] s = None.
Proof.
  unfold isdigit. intros Hc. apply andb_true_iff in Hc as [H1%Z.leb_le H2%Z.leb_le]. unfold at_cmd_conn_set. munfold.
  assert (atoi [c] = None) as ->; [|done]. unfold atoi. cbn [skip_space]. unfold isspace.
  destruct (Z.eqb_spec c 32), (Z.leb_spec 9 c), (Z.leb_spec c 13); cbn [orb andb]; try lia.
  destruct (Z.eqb_spec c 45), (Z.eqb_spec c 43); try lia. cbn [atoi_digits]. unfold isdigit.
  destruct (Z.leb_spec 48 c), (Z.leb_spec c 57); try lia. done.
Qed.
Lemma auto_connect_undefined value (s : module NS) L : list_ok (ble_param s) L -> L <> [] -> auto_conn (ble_param s) <> 0 ->
  handle_msg host MSG_SCAN_TIME_OUT value s = None.
Proof.
  intros Hok HL Ha. unfold handle_msg. change (MSG_SCAN_TIME_OUT =? MSG_CONNECTED) with false.
  change (MSG_SCAN_TIME_OUT =? MSG_DISCOVER_COMPLETE) with false. change (MSG_SCAN_TIME_OUT =? MSG_SCAN_TIME_OUT) with true. cbv iota.
  set (s1 := s <| mlog ::= (fun t => t ++ [ScanStop]) |> <| ble_param ::= (fun p => p <| state := READY |>) |>
               <| mlog ::= (fun t => t ++ [Uart (str "OK" ++ CRLF)]) |>).
  assert (list_ok (ble_param s1) L) as Hok1 by by destruct Hok.
  destruct (ends_inv _ _ _ (max_index_spec s1 L Hok1 HL)) as (index & s2 & E & i & d & -> & Hi & _).
  assert (truthy (auto_conn (ble_param s1)) = true) as Ht by (unfold truthy; cbn; by destruct (Z.eqb_spec (auto_conn (ble_param s)) 0)).
  transitivity ((index ← get_max_riss_dev_index; when (0 <=? index) (at_cmd_conn_set host [index + 49])) s1).
  - unfold stop_scan, ble_state_update, upd_bp, emit, at_cmd_response_ok, at_cmd_port_print, get_bp. munfold.
    change (cstr (str "OK" ++ CRLF ++ [0])) with (Some (str "OK" ++ CRLF)). cbv beta iota.
    unfold emit, modify. cbv beta iota.
    match goal with |- context [truthy ?t] => replace (truthy t) with true by (symmetry; exact Ht) end. reflexivity.
  - unfold mbind, M_bind. rewrite E. destruct (Z.leb_spec 0 (Z.of_nat i)); [|lia]. cbn [when]. apply conn_set_unterminated.
    apply lookup_lt_Some in Hi. destruct Hok as [_ _ Hm _ _]. unfold isdigit. apply andb_true_iff. split; apply Z.leb_le; lia.
Qed.
End Corners.

(** The index of AT+CONN is compared with the number of devices one too far: with two
    devices found, the third, which is empty, is connected to. *)
Example conn_index_off_by_one :
  (fun r => mlog r.2) <$> at_cmd_conn_set (fun t => if decide (t = []) then -1 else 1) (str "3" ++ [0]) module_found =
  Some [ConnLookup BT_ADDR_LE_ANY (-1); ConnCreate BT_ADDR_LE_ANY 1; ConnUnref 1].
Proof. by vm_compute. Qed.
(** A role is cut to eight bits before it is checked. *)
Example role_accepts_256 :
  (fun r => (role (ble_param r.2), mlog r.2)) <$> at_cmd_role_set (fun _ => 0) (str "256" ++ [0]) (module_found <| ble_param ::= (fun p => p <| role := 0 |>) |>) =
  Some (0, [Uart (str "+ROLE="); Uart (str "256"); Uart (CRLF ++ str "OK" ++ CRLF); NvramSet "BT_ROLE" [0]]).
Proof. by vm_compute. Qed.
(** Switching to slave starts advertising, but the state is set to ready afterwards, so that
    switching back to master does not stop it. *)
Example role_switch_leaves_advertising :
  (fun r => (role (ble_param r.2), List.filter (fun e => match e with AdvStart _ _ | AdvStop => true | _ => false end) (mlog r.2))) <$>
    (at_cmd_role_set (fun _ => 0) (str "0" ++ [0]);; at_cmd_role_set (fun _ => 0) (str "1" ++ [0])) module_zero =
  Some (1, [AdvStop; AdvStart (str "ZRS1020810") 0]).
Proof. by vm_compute. Qed.
