(* ===== verification/Ancs.v ===== *)
(** * Notifications of a phone (samples/ancs: ancs_service.c, app_disc.c, ancs_service_disc.c, app_ble.c, main.c)

    The client of the Apple Notification Center Service: it discovers the service on the
    phone, stores the handles, subscribes, asks for the attributes of each notification and
    shows them.  Calls into the host, messages to the application's own loop and what is
    printed of a notification are recorded in order; the result of a call is the parameter
    [host], a function of the record so far.  UUIDs are compared by the host, and [printk]
    is its own: its format strings are interpreted by the parameter [format]. *)
From S2P Require Import Prelude CString FlashNor Nvram.
From stdpp Require Import strings.
#[local] Open Scope Z_scope.

(** ** Constants *)
Definition ANCS_NS_OFFSET_EVENT_ID : Z := 0.
Definition ANCS_NS_OFFSET_CAT_ID : Z := 2.
Definition ANCS_NS_OFFSET_NOTIF_UUID : Z := 4.
Definition ANCS_NS_NOTIF_UUID_SIZE : Z := 4.
Definition ANCS_DS_HDR_LEN : Z := 5.
Definition ANCS_MAX_NOTIF_ATT_LENGTH : Z := 20.
Definition ancs_event_id_notif_removed : Z := 2.
Definition ancs_cmd_get_notification_att : Z := 0.
Definition ancs_notif_att_id_title : Z := 1.
Definition ancs_notif_att_id_subtitle : Z := 2.
Definition ancs_notif_att_id_message : Z := 3.
Definition ancs_notif_att_id_message_size : Z := 4.
Definition ancs_notif_att_id_date : Z := 5.
Definition ds_decoder_hdr : Z := 0.
Definition ds_decoder_attrid : Z := 1.
Definition ds_decoder_attrlen : Z := 2.
Definition ds_decoder_attrdata : Z := 3.
Definition INVALID_ATT_HANDLE : Z := 0.
Definition BLE_CONN_OPEN_IND : Z := 1.
Definition BLE_CONN_SEC_OPEN_IND : Z := 2.
Definition BLE_CONN_CLOSE_IND : Z := 3.
Definition BLE_DISC_PRIM_SERV_IND : Z := 4.
Definition BLE_DISC_SERVICE_CHAR_IND : Z := 5.
Definition BLE_DISC_SERVICE_CHAR_DESC_IND : Z := 6.
Definition BLE_DISCOVERY_COMPELTE_IND : Z := 7.
Definition BT_GATT_DISCOVER_PRIMARY : Z := 0.
Definition BT_GATT_DISCOVER_SECONDARY : Z := 1.
Definition BT_GATT_DISCOVER_INCLUDE : Z := 2.
Definition BT_GATT_DISCOVER_CHARACTERISTIC : Z := 3.
Definition BT_GATT_DISCOVER_DESCRIPTOR : Z := 4.
Definition BT_GATT_ITER_STOP : Z := 0.
Definition BT_GATT_ITER_CONTINUE : Z := 1.
Definition BT_UUID_GATT_CCC_VAL : Z := 0x2902.
Definition NVM_SANITY_MAGIC : Z := 0xAB1B.

(** ** State *)
Inductive bt_uuid := Uuid16 (val : Z) | Uuid128 (val : list Z).
Record ancs_attribute_data_t := AncsAttributeData {
  attr_len : Z; pending_len : bool; rem_attr_len : Z; pending_attr_data : Z;
  decoder_state : Z; pending_cmd : Z; attr_id : Z }.
#[export] Instance eta_ancs_attribute_data : EtaRecord ancs_attribute_data_t := fun r =>
  AncsAttributeData (attr_len r) (pending_len r) (rem_attr_len r) (pending_attr_data r) (decoder_state r) (pending_cmd r) (attr_id r).
Record gatt_characteristic := GattCharacteristic {
  ch_start_handle : Z; ch_end_handle : Z; ch_uuid : bt_uuid; has_ccd : bool; ccd_handle : Z }.
#[export] Instance eta_gatt_characteristic : EtaRecord gatt_characteristic := fun r =>
  GattCharacteristic (ch_start_handle r) (ch_end_handle r) (ch_uuid r) (has_ccd r) (ccd_handle r).
Record gatt_service := GattService {
  start_handle : Z; end_handle : Z; uuid : bt_uuid; char_index : Z; char_data : list gatt_characteristic }.
#[export] Instance eta_gatt_service : EtaRecord gatt_service := fun r =>
  GattService (start_handle r) (end_handle r) (uuid r) (char_index r) (char_data r).
Record discovery_proc_t := DiscoveryProc { is_discovering : bool; service_index : Z; discovery_result : bool }.
#[export] Instance eta_discovery_proc : EtaRecord discovery_proc_t := fun r =>
  DiscoveryProc (is_discovering r) (service_index r) (discovery_result r).
Record discover_params_t := DiscoverParams { dp_uuid : option bt_uuid; dp_start : Z; dp_end : Z; dp_type : Z }.
#[export] Instance eta_discover_params : EtaRecord discover_params_t := fun r =>
  DiscoverParams (dp_uuid r) (dp_start r) (dp_end r) (dp_type r).
(** app_cb *)
Record app_cb_t := AppCb {
  pconn : option Z; remote_gatt_handles_present : bool; notif_configuring : bool; app_state : Z;
  auth_failure : bool; bonded : bool; bonded_bd_addr : list Z }.
#[export] Instance eta_app_cb : EtaRecord app_cb_t := fun r =>
  AppCb (pconn r) (remote_gatt_handles_present r) (notif_configuring r) (app_state r) (auth_failure r) (bonded r) (bonded_bd_addr r).

Inductive ancs_event :=
| Label (id : Z)                          (* the name of an attribute *)
| Show (text : list Z)                    (* a piece of its text *)
| Discover (p : discover_params_t) (err : Z)
| Write (handle : Z) (data : list Z) (err : Z)
| Subscribe (ccc_handle value_handle err : Z)
| AncsMsg (conn : Z) | BleMsg (event_code status : Z)
| AdvStart (err : Z) | Security (err : Z) | NvramSet (key : string) (data : list Z)
| ServicesRegistered | WakeLockReleased | RebootApp.

(** The service that is looked for. *)
Definition ANCS_UUID : bt_uuid :=
  Uuid128 [0xD0; 0x00; 0x2D; 0x12; 0x1E; 0x4B; 0x0F; 0xA4; 0x99; 0x4E; 0xCE; 0xB5; 0x31; 0xF4; 0x05; 0x79].
Definition g_disc_ancs_char : list gatt_characteristic :=
  [GattCharacteristic 0 0 (Uuid128 [0xBD; 0x1D; 0xA2; 0x99; 0xE6; 0x25; 0x58; 0x8C; 0xD9; 0x42; 0x01; 0x63; 0x0D; 0x12; 0xBF; 0x9F]) true 0;
   GattCharacteristic 0 0 (Uuid128 [0xD9; 0xD9; 0xAA; 0xFD; 0xBD; 0x9B; 0x21; 0x98; 0xA8; 0x49; 0xE1; 0x45; 0xF3; 0xD8; 0xD1; 0x69]) false 0;
   GattCharacteristic 0 0 (Uuid128 [0xFB; 0x7B; 0x7C; 0xCE; 0x6A; 0xB3; 0x44; 0xBE; 0xB5; 0x4B; 0xD6; 0x24; 0xE9; 0xC6; 0xEA; 0x22]) true 0].
Definition g_disc_ancs_service : gatt_service := GattService 0 0 ANCS_UUID 0 g_disc_ancs_char.

Section Ancs.
Context {NS : Type} `{NV : Nvram NS}.

Record ancs := AncsState {
  attribute_data : ancs_attribute_data_t; notif_attr_req : list Z; uuid_data : list Z; g_ancs_data : list Z;
  g_last_received_notification : Z; pending_flag : bool; write_params : Z * list Z;
  subscribe_params_ns : Z * Z; subscribe_params_nc : Z * Z;        (* ccc and value handle *)
  service : gatt_service; discovery : discovery_proc_t; discover_params : discover_params_t;
  service_is_found : bool; chrc_is_found : bool; chrc_dec_is_found : bool;
  app_cb : app_cb_t; ota_need_reset : Z; nv : NS; log : list ancs_event }.
#[global] Instance eta_ancs : EtaRecord ancs := fun r =>
  AncsState (attribute_data r) (notif_attr_req r) (uuid_data r) (g_ancs_data r) (g_last_received_notification r)
    (pending_flag r) (write_params r) (subscribe_params_ns r) (subscribe_params_nc r) (service r) (discovery r)
    (discover_params r) (service_is_found r) (chrc_is_found r) (chrc_dec_is_found r) (app_cb r) (ota_need_reset r) (nv r) (log r).
#[local] Abbreviation AN := (M ancs).

Context (host : list ancs_event -> Z) (format : list Z -> option (list Z)) (bt_uuid_cmp : bt_uuid -> bt_uuid -> Z).

Definition emit (e : ancs_event) : AN unit := modify (fun s => s <| log ::= (fun t => t ++ [e]) |>).
Definition call (e : Z -> ancs_event) : AN Z := s ← get; let v := host (log s) in emit (e v);; mret v.
Definition upd_ad (f : ancs_attribute_data_t -> ancs_attribute_data_t) : AN unit := modify (fun s => s <| attribute_data ::= f |>).

(** ** The data source: attributes of a notification, in fragments *)
(** printk with the text itself as the format string. *)
Definition printk_text : AN unit :=
  s ← get; t ← lift (cstr (g_ancs_data s)); o ← lift (format t); emit (Show o).
(** The text buffer is cleared and filled with [data_len] bytes and a terminator. *)
Definition copy_text (p_data : list Z) (count data_len : Z) : AN unit :=
  modify (fun s => s <| g_ancs_data := replicate 21 0 |>);;
  s ← get;
  b ← lift (blit 0 (take (Z.to_nat data_len) (drop (Z.to_nat count) p_data)) (g_ancs_data s));
  b ← lift (wr b data_len 0);
  put (s <| g_ancs_data := b |>).
Definition show_piece (p_data : list Z) (size_value count : Z) : AN Z :=
  s ← get;
  let data_len := u16 (size_value - count) in
  let pending := pending_attr_data (attribute_data s) in
  let data_len := if pending <? data_len then pending else data_len in
  copy_text p_data count data_len;;
  printk_text;;
  mret data_len.

(** One round of the decoder's loop: the new position and state, or the end. *)
Definition decode_attrid (p_data : list Z) (count : Z) : AN (Z * Z * bool) :=
  attrId ← lift (rd p_data count);
  upd_ad (fun a => a <| attr_id := attrId |>);;
  emit (Label attrId);;
  if attrId <=? ancs_notif_att_id_date then mret (u16 (count + 1), ds_decoder_attrlen, false)
  else upd_ad (fun a => a <| attr_id := 0xff |>);; mret (u16 (count + 1), ds_decoder_attrid, true).
Definition decode_attrlen (p_data : list Z) (size_value count : Z) : AN (Z * Z * bool) :=
  s ← get;
  b ← lift (rd p_data count);
  count ← (if pending_len (attribute_data s) then
             upd_ad (fun a => a <| attr_len := u16 (Z.lor (Z.shiftl b 8) (rem_attr_len a)) |> <| rem_attr_len := 0 |> <| pending_len := false |>);;
             mret (u16 (count + 1))
           else if count + 1 <? size_value then
             c ← lift (rd p_data (count + 1));
             upd_ad (fun a => a <| attr_len := Z.lor b (Z.shiftl c 8) |>);; mret (u16 (count + 2))
           else upd_ad (fun a => a <| rem_attr_len := b |> <| pending_len := true |>);; mret (u16 (count + 1)));
  s ← get;
  mret (count, if pending_len (attribute_data s) then ds_decoder_attrlen else ds_decoder_attrdata, false).
Definition decode_attrdata (p_data : list Z) (size_value count : Z) : AN (Z * Z * bool) :=
  s ← get;
  count ← (if truthy (pending_attr_data (attribute_data s)) then
             data_len ← show_piece p_data size_value count;
             upd_ad (fun a => a <| pending_attr_data ::= (fun p => u16 (p - data_len)) |>);; mret (u16 (count + data_len))
           else if 0 <? attr_len (attribute_data s) then
             data_len ← show_piece p_data size_value count;
             upd_ad (fun a => a <| pending_attr_data := u16 (attr_len a - data_len) |> <| attr_len := 0 |>);;
             mret (u16 (count + data_len))
           else mret count);
  s ← get;
  if (pending_attr_data (attribute_data s) =? 0) && (attr_len (attribute_data s) =? 0) then
    upd_ad (fun a => a <| attr_id := 0xff |>);; mret (count, ds_decoder_attrid, false)
  else mret (count, ds_decoder_attrdata, false).
Fixpoint parse_loop (fuel : nat) (p_data : list Z) (size_value count state : Z) (b_skip_reserved : bool) : AN (option Z) :=
  match fuel with
  | O => ub
  | S fuel =>
      if negb (count <? size_value) || b_skip_reserved then mret (Some state)
      else if state =? ds_decoder_hdr then
        c ← lift (rd p_data 0);
        if negb (c =? 0) then mret None else parse_loop fuel p_data size_value ANCS_DS_HDR_LEN ds_decoder_attrid false
      else if state =? ds_decoder_attrid then
        '(count, state, skip) ← decode_attrid p_data count; parse_loop fuel p_data size_value count state skip
      else if state =? ds_decoder_attrlen then
        '(count, state, skip) ← decode_attrlen p_data size_value count; parse_loop fuel p_data size_value count state skip
      else if state =? ds_decoder_attrdata then
        '(count, state, skip) ← decode_attrdata p_data size_value count; parse_loop fuel p_data size_value count state skip
      else parse_loop fuel p_data size_value count state b_skip_reserved
  end.
Definition ancs_parse_data (p_data : list Z) (size_value : Z) : AN bool :=
  s ← get;
  r ← parse_loop (S (3 * length p_data + 3)) p_data size_value 0 (decoder_state (attribute_data s)) false;
  match r with
  | Some state => upd_ad (fun a => a <| decoder_state := state |>);; mret true
  | None => mret false
  end.
Definition ancs_handle_data_source_data (notify_data : list Z) : AN bool :=
  s ← get;
  let a := attribute_data s in
  if pending_cmd a =? ancs_cmd_get_notification_att then
    b ← lift (rd notify_data 0);
    when ((b =? ancs_cmd_get_notification_att) && (pending_attr_data a =? 0) && (attr_len a =? 0) && negb (pending_len a) &&
          ((decoder_state a =? ds_decoder_hdr) || (decoder_state a =? ds_decoder_attrid)))
      (upd_ad (fun a => a <| decoder_state := ds_decoder_hdr |>));;
    _ ← ancs_parse_data notify_data (Z.of_nat (length notify_data)); mret true
  else
    t ← lift (cstr (drop 1 notify_data)); o ← lift (format t); emit (Show o);; mret true.
Definition ancs_clear_attribute_data : AN unit :=
  upd_ad (fun a => a <| decoder_state := ds_decoder_hdr |> <| attr_len := 0 |> <| pending_len := false |> <| rem_attr_len := 0 |> <| pending_attr_data := 0 |>).
Definition ancs_service_data_init : AN unit := ancs_clear_attribute_data.

(** ** The notification source: a notification was added, modified or removed *)
Definition ancs_handle_notification_source_data (conn : Z) (notify_data : list Z) : AN bool :=
  event ← lift (rd notify_data ANCS_NS_OFFSET_EVENT_ID);
  _ ← lift (rd notify_data 1);
  cat ← lift (rd notify_data ANCS_NS_OFFSET_CAT_ID);
  _ ← lift (rd notify_data 3);
  (if event =? ancs_event_id_notif_removed then mret tt
   else
     if Nat.ltb (length notify_data) 8 then ub
     else
       modify (fun s => s <| uuid_data := take 4 (drop (Z.to_nat ANCS_NS_OFFSET_NOTIF_UUID) notify_data) |>
                          <| g_last_received_notification := cat |>);;
       emit (AncsMsg conn));;
  mret true.

(** ** Requests *)
Definition char_at (i : Z) : AN gatt_characteristic := s ← get; lift (rd (char_data (service s)) i).
Definition get_ancs_notification_handle : AN Z := c ← char_at 0; mret (u16 (ch_start_handle c + 1)).
Definition get_ancs_notification_ccd_handle : AN Z := c ← char_at 0; mret (ccd_handle c).
Definition get_ancs_control_point_handle : AN Z := c ← char_at 1; mret (u16 (ch_start_handle c + 1)).
Definition get_ancs_data_source_handle : AN Z := c ← char_at 2; mret (u16 (ch_start_handle c + 1)).
Definition get_ancs_data_source_ccd_handle : AN Z := c ← char_at 2; mret (ccd_handle c).
Definition ancs_write_request (data : list Z) : AN bool :=
  h ← get_ancs_control_point_handle;
  modify (fun s => s <| write_params := (h, data) |>);;
  s ← get;
  (if negb (pending_flag s) then
     err ← call (Write h data);
     when (err =? 0) (modify (fun s => s <| pending_flag := true |>))
   else mret tt);;
  mret true.
Definition write_func : AN unit := modify (fun s => s <| pending_flag := false |> <| write_params := (0, []) |>).
Definition ancs_get_notification_attribute_cmd : AN unit :=
  s ← get;
  let cmd := ancs_cmd_get_notification_att :: uuid_data s ++
    [ancs_notif_att_id_title; 0x14; 0; ancs_notif_att_id_subtitle; 0x14; 0;
     ancs_notif_att_id_message; ancs_notif_att_id_message_size; ancs_notif_att_id_date] in
  b ← lift (blit 0 cmd (replicate 21 0));
  modify (fun s => s <| notif_attr_req := b |>);;
  _ ← ancs_write_request cmd;
  upd_ad (fun a => a <| pending_cmd := ancs_cmd_get_notification_att |>).
(** A notification for a subscription; its handles are found by its value handle. *)
Definition notify_func (conn value_handle : Z) (data : option (list Z)) : AN Z :=
  match data with
  | None =>
      modify (fun s =>
        (if (subscribe_params_ns s).2 =? value_handle then s <| subscribe_params_ns := ((subscribe_params_ns s).1, 0) |>
         else s <| subscribe_params_nc := ((subscribe_params_nc s).1, 0) |>));;
      mret BT_GATT_ITER_STOP
  | Some d =>
      ns ← get_ancs_notification_handle;
      ds ← get_ancs_data_source_handle;
      (if ns =? value_handle then _ ← ancs_handle_notification_source_data conn d; mret tt
       else if value_handle =? ds then _ ← ancs_handle_data_source_data d; mret tt
       else mret tt);;
      mret BT_GATT_ITER_CONTINUE
  end.
Definition configure_ancs_notifications : AN bool :=
  ccc ← get_ancs_notification_ccd_handle;
  h ← get_ancs_notification_handle;
  modify (fun s => s <| subscribe_params_ns := (ccc, h) |>);;
  err ← call (Subscribe ccc h); mret (truthy err).
Definition configure_ancs_data_source_notification : AN bool :=
  ccc ← get_ancs_data_source_ccd_handle;
  h ← get_ancs_data_source_handle;
  modify (fun s => s <| subscribe_params_nc := (ccc, h) |>);;
  err ← call (Subscribe ccc h); mret (truthy err).

(** ** Stored handles (little-endian halfwords) *)
Definition u16_bytes (v : Z) : list Z := [v mod 256; v / 256].
Definition bytes_u16 (d : list Z) (old : Z) : Z := match d with [a; b] => a + 256 * b | _ => old end.
Definition nv_set (key : string) (d : list Z) : AN unit :=
  modify (fun s => s <| nv ::= (fun n => (nvram_config_set key d n).2) |>);; emit (NvramSet key d).
Definition nv_get_u16 (key : string) (old : Z) : AN Z := gets (fun s => bytes_u16 (nvram_config_get key 2 (nv s)).2 old).
Definition char_key (index : nat) : string := nth index ["ancs_ch_h_0"; "ancs_ch_h_1"; "ancs_ch_h_2"] "".
Definition ccd_key (index : nat) : string := nth index ["ancs_ch_ccd_h_0"; "ancs_ch_ccd_h_1"; "ancs_ch_ccd_h_2"] "".
Fixpoint write_chars (index : nat) (l : list gatt_characteristic) : AN unit :=
  match l with
  | [] => mret tt
  | c :: l =>
      nv_set (char_key index) (u16_bytes (ch_start_handle c));;
      nv_set (ccd_key index) (u16_bytes (ccd_handle c));;
      write_chars (S index) l
  end.
Definition write_disc_ancs_service_handles_to_nvm : AN unit :=
  s ← get;
  nv_set "ancs_srv_s_h" (u16_bytes (start_handle (service s)));;
  nv_set "ancs_srv_e_h" (u16_bytes (end_handle (service s)));;
  write_chars 0 (char_data (service s)).
Fixpoint read_chars (index : nat) (l : list gatt_characteristic) : AN (list gatt_characteristic) :=
  match l with
  | [] => mret []
  | c :: l =>
      h ← nv_get_u16 (char_key index) (ch_start_handle c);
      ccd ← nv_get_u16 (ccd_key index) (ccd_handle c);
      l ← read_chars (S index) l;
      mret (c <| ch_start_handle := h |> <| ccd_handle := ccd |> :: l)
  end.
Definition read_disc_ancs_service_handles_from_nvm (handles_present : bool) : AN unit :=
  if handles_present then
    s ← get;
    a ← nv_get_u16 "ancs_srv_s_h" (start_handle (service s));
    b ← nv_get_u16 "ancs_srv_e_h" (end_handle (service s));
    l ← read_chars 0 (char_data (service s));
    modify (fun s => s <| service ::= (fun v => v <| start_handle := a |> <| end_handle := b |> <| char_data := l |>) |>)
  else mret tt.

(** ** Discovery.  The list of services has one entry. *)
Definition upd_sv (f : gatt_service -> gatt_service) : AN unit := modify (fun s => s <| service ::= f |>).
Definition upd_disc (f : discovery_proc_t -> discovery_proc_t) : AN unit := modify (fun s => s <| discovery ::= f |>).
Definition app_disc_send_msg_to_app (event_code status : Z) : AN unit := emit (BleMsg event_code status).
Definition bt_gatt_discover : AN Z := s ← get; call (Discover (discover_params s)).
Definition GattDiscoverPrimaryServiceByUuid (u : bt_uuid) : AN unit :=
  modify (fun s => s <| discover_params := DiscoverParams (Some u) 0x0001 0xffff BT_GATT_DISCOVER_PRIMARY |>);;
  _ ← bt_gatt_discover; mret tt.
Definition GattDiscoverServiceChar (a b : Z) : AN unit :=
  modify (fun s => s <| discover_params ::= (fun p => DiscoverParams (dp_uuid p) a b BT_GATT_DISCOVER_CHARACTERISTIC) |>);;
  _ ← bt_gatt_discover; mret tt.
Definition GattDiscoverAllCharDescriptors (a b : Z) : AN unit :=
  modify (fun s => s <| discover_params ::= (fun p => DiscoverParams (dp_uuid p) a b BT_GATT_DISCOVER_DESCRIPTOR) |>);;
  _ ← bt_gatt_discover; mret tt.
Definition discover_a_primary_service : AN unit := s ← get; GattDiscoverPrimaryServiceByUuid (uuid (service s)).
Definition start_gatt_database_discovery : AN unit :=
  upd_disc (fun d => d <| service_index := 0 |> <| is_discovering := true |> <| discovery_result := true |>);;
  discover_a_primary_service.
Definition stop_gatt_database_discovery : AN unit :=
  write_disc_ancs_service_handles_to_nvm;;
  upd_disc (fun d => d <| is_discovering := false |>);;
  s ← get;
  app_disc_send_msg_to_app BLE_DISCOVERY_COMPELTE_IND (b2z (discovery_result (discovery s))).
(** The next service of the list; there is none after the first. *)
Definition next_service : AN unit :=
  upd_disc (fun d => d <| service_index ::= (fun i => u16 (i + 1)) |>);;
  s ← get;
  if service_index (discovery s) =? 0 then discover_a_primary_service else stop_gatt_database_discovery.

Definition handle_discover_primary_service_ind (a b : Z) : AN unit :=
  upd_sv (fun v => v <| start_handle := a |> <| end_handle := b |> <| char_index := 0 |>).
Definition handle_service_discovery_primary_service_by_uuid_cfm (status : Z) : AN unit :=
  s ← get;
  if (status =? 0) && negb (start_handle (service s) =? INVALID_ATT_HANDLE) && negb (end_handle (service s) =? INVALID_ATT_HANDLE) then
    upd_sv (fun v => v <| char_index := 0xFFFF |>);;
    GattDiscoverServiceChar (start_handle (service s)) (end_handle (service s))
  else upd_disc (fun d => d <| discovery_result := false |>);; next_service.
Definition upd_char (i : Z) (f : gatt_characteristic -> gatt_characteristic) : AN unit :=
  s ← get;
  c ← lift (rd (char_data (service s)) i);
  l ← lift (wr (char_data (service s)) i (f c));
  upd_sv (fun v => v <| char_data := l |>).
Fixpoint find_char (l : list gatt_characteristic) (u : bt_uuid) (index : Z) : option Z :=
  match l with
  | [] => None
  | c :: l => if bt_uuid_cmp (ch_uuid c) u =? 0 then Some index else find_char l u (index + 1)
  end.
Definition handle_gatt_service_characteristic_declaration_info_ind (ind : bt_uuid) (handle : Z) : AN unit :=
  s ← get;
  match find_char (char_data (service s)) ind 0 with
  | None => mret tt
  | Some index =>
      upd_char index (fun c => c <| ch_start_handle := handle |> <| ch_end_handle := end_handle (service s) |>);;
      when (negb (char_index (service s) =? 0xFFFF)) (upd_char (char_index (service s)) (fun c => c <| ch_end_handle := u16 (handle - 2) |>));;
      upd_sv (fun v => v <| char_index := index |>)
  end.
Fixpoint first_ccd (l : list gatt_characteristic) (index : Z) : option Z :=
  match l with
  | [] => None
  | c :: l => if has_ccd c then Some index else first_ccd l (index + 1)
  end.
Definition discover_descriptor_of (index : Z) : AN unit :=
  c ← char_at index; GattDiscoverAllCharDescriptors (u16 (ch_start_handle c + 2)) (u16 (ch_start_handle c + 2)).
Definition handle_gatt_discover_service_characteristic_cfm (status : Z) : AN unit :=
  s ← get;
  let r := first_ccd (char_data (service s)) 0 in
  (match r with Some i => upd_sv (fun v => v <| char_index := i |>) | None => mret tt end);;
  go ← (if status =? 0 then
          c ← lift (rd (char_data (service s)) (default (Z.of_nat (length (char_data (service s)))) r));
          mret (negb (ch_start_handle c =? INVALID_ATT_HANDLE) && bool_decide (is_Some r))
        else mret false);
  if (go : bool) then discover_descriptor_of (default 0 r)
  else when (negb (status =? 0)) (upd_disc (fun d => d <| discovery_result := false |>));; next_service.
Definition handle_gatt_characteristic_descriptor_info_ind (attr_uuid : bt_uuid) (handle : Z) : AN unit :=
  s ← get;
  match attr_uuid with
  | Uuid16 v =>
      if v =? BT_UUID_GATT_CCC_VAL then upd_char (char_index (service s)) (fun c => c <| ccd_handle := handle |>) else mret tt
  | Uuid128 _ => mret tt
  end.
Definition handle_gatt_characteristic_descriptor_cfm (status : Z) : AN unit :=
  if status =? 0 then
    s ← get;
    let i := u16 (char_index (service s) + 1) in
    match first_ccd (drop (Z.to_nat i) (char_data (service s))) i with
    | Some i => upd_sv (fun v => v <| char_index := i |>);; discover_descriptor_of i
    | None => next_service
    end
  else upd_disc (fun d => d <| discovery_result := false |>);; stop_gatt_database_discovery.
Definition reset_discovered_handles_database : AN unit :=
  upd_sv (fun v => v <| start_handle := INVALID_ATT_HANDLE |> <| end_handle := INVALID_ATT_HANDLE |>
    <| char_data ::= fmap (fun c => c <| ch_start_handle := INVALID_ATT_HANDLE |> <| ch_end_handle := INVALID_ATT_HANDLE |> <| ccd_handle := INVALID_ATT_HANDLE |>) |>);;
  write_disc_ancs_service_handles_to_nvm.

(** The attribute found: its handle, its UUID, the UUID of the characteristic or the end of
    the service that its value names. *)
Inductive found := FService (handle end_handle : Z) | FChar (handle : Z) (u : bt_uuid) | FInclude (handle : Z) | FDescr (handle : Z) (u : bt_uuid).
Definition discover_func (attr : option found) : AN Z :=
  s ← get;
  let type := dp_type (discover_params s) in
  match attr with
  | None =>
      (if type =? BT_GATT_DISCOVER_PRIMARY then
         app_disc_send_msg_to_app BLE_DISC_PRIM_SERV_IND (b2z (negb (service_is_found s)));; modify (fun s => s <| service_is_found := false |>)
       else if type =? BT_GATT_DISCOVER_CHARACTERISTIC then
         app_disc_send_msg_to_app BLE_DISC_SERVICE_CHAR_IND (b2z (negb (chrc_is_found s)));; modify (fun s => s <| chrc_is_found := false |>)
       else if type =? BT_GATT_DISCOVER_DESCRIPTOR then
         app_disc_send_msg_to_app BLE_DISC_SERVICE_CHAR_DESC_IND (b2z (negb (chrc_dec_is_found s)));; modify (fun s => s <| chrc_dec_is_found := false |>)
       else mret tt);;
      modify (fun s => s <| discover_params := DiscoverParams None 0 0 0 |>);;
      mret BT_GATT_ITER_STOP
  | Some a =>
      (if (type =? BT_GATT_DISCOVER_SECONDARY) || (type =? BT_GATT_DISCOVER_PRIMARY) then
         match a with
         | FService h e => modify (fun s => s <| service_is_found := true |>);; handle_discover_primary_service_ind h e
         | _ => ub
         end
       else if type =? BT_GATT_DISCOVER_CHARACTERISTIC then
         match a with
         | FChar h u => modify (fun s => s <| chrc_is_found := true |>);; handle_gatt_service_characteristic_declaration_info_ind u h
         | _ => ub
         end
       else if type =? BT_GATT_DISCOVER_INCLUDE then mret tt
       else
         match a with
         | FDescr h u => modify (fun s => s <| chrc_dec_is_found := true |>);; handle_gatt_characteristic_descriptor_info_ind u h
         | _ => ub
         end);;
      mret BT_GATT_ITER_CONTINUE
  end.

(** ** The application *)
Definition upd_cb (f : app_cb_t -> app_cb_t) : AN unit := modify (fun s => s <| app_cb ::= f |>).
Definition app_ble_send_msg_to_app (event_code status : Z) : AN unit := emit (BleMsg event_code status).
Definition connected (conn err : Z) : AN unit :=
  if truthy err then mret tt
  else upd_cb (fun c => c <| pconn := Some conn |>);; _ ← call Security; app_ble_send_msg_to_app BLE_CONN_OPEN_IND err.
Definition disconnected (reason : Z) : AN unit :=
  upd_cb (fun c => c <| pconn := None |>);;
  app_ble_send_msg_to_app BLE_CONN_CLOSE_IND reason;;
  s ← get; when (truthy (ota_need_reset s)) (emit RebootApp).
Definition security_changed (level : Z) : AN unit := app_ble_send_msg_to_app BLE_CONN_SEC_OPEN_IND level.
Definition appConfigureNotifications (datasource : bool) : AN unit :=
  _ ← (if datasource then configure_ancs_data_source_notification else configure_ancs_notifications); mret tt.
Definition if_connected (m : AN unit) : AN unit :=
  s ← get; match pconn (app_cb s) with Some _ => m | None => mret tt end.
Definition app_ble_event_handle (event_code event_data : Z) : AN unit :=
  if event_code =? BLE_CONN_OPEN_IND then mret tt
  else if event_code =? BLE_CONN_SEC_OPEN_IND then if_connected start_gatt_database_discovery
  else if event_code =? BLE_CONN_CLOSE_IND then
    upd_cb (fun c => c <| notif_configuring := false |>);; ancs_service_data_init;; _ ← call AdvStart; mret tt
  else if event_code =? BLE_DISC_PRIM_SERV_IND then if_connected (handle_service_discovery_primary_service_by_uuid_cfm (u8 event_data))
  else if event_code =? BLE_DISC_SERVICE_CHAR_IND then if_connected (handle_gatt_discover_service_characteristic_cfm (u8 event_data))
  else if event_code =? BLE_DISC_SERVICE_CHAR_DESC_IND then if_connected (handle_gatt_characteristic_descriptor_cfm (u8 event_data))
  else if event_code =? BLE_DISCOVERY_COMPELTE_IND then
    if_connected (
      upd_cb (fun c => c <| remote_gatt_handles_present := true |>);;
      nv_set "disc_h_present" [1];;
      h ← get_ancs_notification_ccd_handle;
      if negb (h =? INVALID_ATT_HANDLE) then
        s ← get;
        when (negb (notif_configuring (app_cb s)))
          (upd_cb (fun c => c <| notif_configuring := true |>);; appConfigureNotifications true;; appConfigureNotifications false)
      else mret tt)
  else mret tt.
(** MSG_ANCS_SERVICE of the main loop. *)
Definition handle_ancs_msg : AN unit := if_connected ancs_get_notification_attribute_cmd.

Definition read_bool (key : string) (old : bool) : AN bool :=
  gets (fun s => match (nvram_config_get key 1 (nv s)).2 with [v] => truthy v | _ => old end).
Definition read_persistent_store : AN unit :=
  nvm_sanity ← nv_get_u16 "sanity" 0xffff;
  if nvm_sanity =? NVM_SANITY_MAGIC then
    s ← get;
    b ← read_bool "bond_flag" (bonded (app_cb s));
    upd_cb (fun c => c <| bonded := b |>);;
    (if (b : bool) then
       upd_cb (fun c => c <| bonded_bd_addr ::= (fun a => let d := (nvram_config_get "bond_bd_addr" 7 (nv s)).2 in d ++ drop (length d) a) |>)
     else mret tt);;
    h ← read_bool "disc_h_present" (remote_gatt_handles_present (app_cb s));
    upd_cb (fun c => c <| remote_gatt_handles_present := h |>);;
    read_disc_ancs_service_handles_from_nvm h
  else
    nv_set "sanity" (u16_bytes NVM_SANITY_MAGIC);;
    upd_cb (fun c => c <| bonded := false |>);;
    nv_set "bond_flag" [0];;
    upd_cb (fun c => c <| remote_gatt_handles_present := false |>);;
    nv_set "disc_h_present" [0];;
    read_disc_ancs_service_handles_from_nvm false.
Definition app_data_init : AN unit := upd_cb (fun c => c <| pconn := None |> <| auth_failure := false |>).
Definition bt_ready (err : Z) : AN unit :=
  emit WakeLockReleased;;
  if truthy err then mret tt
  else
    emit ServicesRegistered;;
    read_persistent_store;;
    app_data_init;;
    upd_cb (fun c => c <| app_state := 0 |>);;
    _ ← call AdvStart; mret tt.
End Ancs.
Arguments ancs : clear implicits.
