(* ===== verification/AncsShow.v ===== *)
(** * What a phone's notification shows (Ancs.v)

    The phone answers a request with the attributes of a notification, cut into fragments of
    at most twenty bytes wherever it likes.  What is shown is each attribute's name followed
    by its text. *)
From S2P Require Import Prelude CString FlashNor Nvram Gatt Ancs.
From stdpp Require Import strings.
#[local] Open Scope Z_scope.

(** ** Responses *)
Definition notif_attr : Type := Z * list Z.
Definition short (v : list Z) : Prop := Z.of_nat (length v) < 65536.
Definition is_text (v : list Z) : Prop := Forall (fun c => 0 < c < 256 /\ c <> 37) v.
Definition attr_ok (a : notif_attr) : Prop := 1 <= a.1 <= 5 /\ short a.2 /\ is_text a.2.
Definition len_bytes (v : list Z) : list Z := [Z.of_nat (length v) mod 256; Z.of_nat (length v) / 256].
Definition enc_attr (a : notif_attr) : list Z := a.1 :: len_bytes a.2 ++ a.2.
Definition response (notif_uuid : list Z) (attrs : list notif_attr) : list Z :=
  ancs_cmd_get_notification_att :: notif_uuid ++ (attrs ≫= enc_attr).
(** What is on the screen: names of attributes and characters. *)
Definition screen (t : list ancs_event) : list (Z + Z) :=
  t ≫= (fun e => match e with Label id => [inl id] | Show t => inr <$> t | _ => [] end).
Definition attr_shown (a : notif_attr) : list (Z + Z) := inl a.1 :: (inr <$> a.2).
(** The requests the phone has received. *)
Definition requests (t : list ancs_event) : list (Z * list Z) := omap (fun e => match e with Write h d 0 => Some (h, d) | _ => None end) t.
(** The events print [ts] and are no requests. *)
Definition prints (l : list ancs_event) (ts : list (Z + Z)) : Prop := screen l = ts /\ requests l = [].
Lemma requests_app t1 t2 : requests (t1 ++ t2) = requests t1 ++ requests t2.
Proof. apply omap_app. Qed.
Lemma screen_app t1 t2 : screen (t1 ++ t2) = screen t1 ++ screen t2.
Proof. unfold screen. by rewrite bind_app. Qed.

(** ** The decoder's position in the stream *)
Inductive pos := PAttr | PLen | PLen2 (lo : Z) | PData (n : nat) | PRest (n : nat).
Definition at_pos (p : pos) (st : Z) (a : ancs_attribute_data_t) : Prop :=
  match p with
  | PAttr => st = ds_decoder_attrid /\ attr_len a = 0 /\ pending_len a = false /\ pending_attr_data a = 0
  | PLen => st = ds_decoder_attrlen /\ attr_len a = 0 /\ pending_len a = false /\ pending_attr_data a = 0
  | PLen2 lo => st = ds_decoder_attrlen /\ attr_len a = 0 /\ pending_len a = true /\ pending_attr_data a = 0 /\ rem_attr_len a = lo
  | PData n => st = ds_decoder_attrdata /\ attr_len a = Z.of_nat n /\ pending_len a = false /\ pending_attr_data a = 0
  | PRest n => st = ds_decoder_attrdata /\ attr_len a = 0 /\ pending_len a = false /\ pending_attr_data a = Z.of_nat n
  end.
(** The last attribute is not empty; [after v]: what follows a text [v] of an attribute. *)
Fixpoint full (attrs : list notif_attr) : Prop :=
  match attrs with [] => True | [a] => a.2 <> [] | _ :: l => full l end.
Definition attrs_ok (attrs : list notif_attr) : Prop := Forall attr_ok attrs /\ full attrs.
Definition after (v : list Z) (attrs : list notif_attr) : Prop := attrs_ok attrs /\ (attrs = [] -> v <> []).
Lemma attrs_ok_cons b v attrs : attrs_ok ((b, v) :: attrs) -> attr_ok (b, v) /\ after v attrs.
Proof.
  intros [Hal Hf]. apply Forall_cons in Hal as [Ha Hal]. split; [done|]. destruct attrs as [|a attrs]; (split; [by split|]); [done|by intros].
Qed.
Lemma after_rest v w attrs : after v attrs -> w <> [] -> after w attrs.
Proof. intros [? _] ?. by split. Qed.
Lemma after_ok v attrs : after v attrs -> attrs_ok attrs.
Proof. by intros [? _]. Qed.

(** The bytes still to come and what they will show. *)
Inductive todo : pos -> list Z -> list (Z + Z) -> Prop :=
| todo_attr attrs : attrs_ok attrs -> todo PAttr (attrs ≫= enc_attr) (attrs ≫= attr_shown)
| todo_len v attrs : short v -> is_text v -> after v attrs ->
    todo PLen (len_bytes v ++ v ++ (attrs ≫= enc_attr)) ((inr <$> v) ++ (attrs ≫= attr_shown))
| todo_len2 v attrs : short v -> is_text v -> after v attrs ->
    todo (PLen2 (Z.of_nat (length v) mod 256)) (Z.of_nat (length v) / 256 :: v ++ (attrs ≫= enc_attr)) ((inr <$> v) ++ (attrs ≫= attr_shown))
| todo_data v attrs : short v -> is_text v -> after v attrs ->
    todo (PData (length v)) (v ++ (attrs ≫= enc_attr)) ((inr <$> v) ++ (attrs ≫= attr_shown))
| todo_rest v attrs : v <> [] -> short v -> is_text v -> after v attrs ->
    todo (PRest (length v)) (v ++ (attrs ≫= enc_attr)) ((inr <$> v) ++ (attrs ≫= attr_shown)).

Lemma len_bytes_ok v : short v ->
  Z.lor (Z.of_nat (length v) mod 256) (Z.shiftl (Z.of_nat (length v) / 256) 8) = Z.of_nat (length v) /\
  u16 (Z.lor (Z.shiftl (Z.of_nat (length v) / 256) 8) (Z.of_nat (length v) mod 256)) = Z.of_nat (length v).
Proof.
  unfold short. intros Hl. set (n := Z.of_nat (length v)) in *. assert (0 <= n < 65536) by lia.
  assert (Z.lor (n mod 256) (Z.shiftl (n / 256) 8) = n) as E.
  { rewrite lor_byte by (Z.to_euclidean_division_equations; lia). change (2 ^ 8) with 256.
    Z.to_euclidean_division_equations; lia. }
  split; [exact E|]. rewrite Z.lor_comm, E. by apply u16_small.
Qed.

Lemma ends_put {S} (s s' : S) (Q : unit -> S -> Prop) : Q tt s' -> ends (put s') s Q.
Proof. done. Qed.

Lemma ends_bind_eq {S A B} (m m' : M S A) (k : A -> M S B) s Q : m s = m' s -> ends (m' ≫= k) s Q -> ends (m ≫= k) s Q.
Proof. unfold ends, mbind, M_bind. by intros ->. Qed.

Section Show.
Context {NS : Type} `{Nvram NS} (host : list ancs_event -> Z) (format : list Z -> option (list Z)).
(** A format string without a percent sign is printed as it is. *)
Hypothesis format_plain : forall t, 37 ∉ t -> format t = Some t.

(** The decoder changes its own variables and the screen, nothing else. *)
Definition with_decoder (s : ancs NS) (a : ancs_attribute_data_t) (g : list Z) (l : list ancs_event) : ancs NS :=
  AncsState a (notif_attr_req s) (uuid_data s) g (g_last_received_notification s)
    (pending_flag s) (write_params s) (subscribe_params_ns s) (subscribe_params_nc s) (service s) (discovery s)
    (discover_params s) (service_is_found s) (chrc_is_found s) (chrc_dec_is_found s) (app_cb s) (ota_need_reset s) (nv s) (log s ++ l).
Definition moved (s s' : ancs NS) (ts : list (Z + Z)) : Prop := exists a g l,
  s' = with_decoder s a g l /\ prints l ts /\ pending_cmd a = pending_cmd (attribute_data s).
Lemma with_decoder_nothing s : with_decoder s (attribute_data s) (g_ancs_data s) [] = s.
Proof. destruct s. unfold with_decoder. cbn. rewrite app_nil_r. reflexivity. Qed.
Lemma with_decoder_twice s a1 g1 l1 a2 g2 l2 :
  with_decoder (with_decoder s a1 g1 l1) a2 g2 l2 = with_decoder s a2 g2 (l1 ++ l2).
Proof. unfold with_decoder. cbn. rewrite app_assoc. reflexivity. Qed.
Lemma moved_refl s : moved s s [].
Proof. exists (attribute_data s), (g_ancs_data s), []. rewrite with_decoder_nothing. by split_and!. Qed.
Lemma moved_trans s1 s2 s3 t1 t2 : moved s1 s2 t1 -> moved s2 s3 t2 -> moved s1 s3 (t1 ++ t2).
Proof.
  intros (a1 & g1 & l1 & -> & [<- Q1] & E1) (a2 & g2 & l2 & -> & [<- Q2] & E2). exists a2, g2, (l1 ++ l2). split; [apply with_decoder_twice|].
  split; [split; [apply screen_app|by rewrite requests_app, Q1, Q2]|]. etrans; [exact E2|exact E1].
Qed.

Lemma is_text_str v : is_text v -> is_str v /\ 37 ∉ v.
Proof.
  intros Hv. split; [eapply Forall_impl; [exact Hv|]; cbn; lia|]. intros Hin.
  by destruct (proj1 (Forall_forall _ _) Hv _ Hin).
Qed.
(** One piece of text. *)
Lemma show_piece_ok f size count t rest (s : ancs NS) n : drop (Z.to_nat count) f = t ++ rest ->
  pending_attr_data (attribute_data s) = n -> 0 <= n < 65536 ->
  0 <= count <= size -> size <= 20 -> Z.of_nat (length t) = Z.min n (size - count) -> is_text t ->
  ends (show_piece format f size count) s (fun r s' => r = Z.of_nat (length t) /\
    exists g, s' = with_decoder s (attribute_data s) g [Show t]).
Proof.
  intros Ed En Hn Hc H20 Hl Ht. unfold show_piece. hoare. rewrite En, (u16_small (size - count)) by lia.
  assert ((if n <? size - count then n else size - count) = Z.of_nat (length t)) as -> by (case_cmp; lia).
  destruct (is_text_str t Ht) as [Hs H37].
  unfold copy_text. hoare. rewrite Nat2Z.id, Ed, take_app_length.
  assert (blit 0 t (replicate 21 0) = Some (t ++ replicate (21 - length t) 0)) as Eb.
  { unfold blit. rewrite length_replicate. change (0 <=? 0) with true. destruct (Z.leb_spec (0 + Z.of_nat (length t)) (Z.of_nat 21)); [|lia].
    cbn [andb]. change (Z.to_nat 0) with 0%nat. rewrite Nat.add_0_l, drop_replicate. reflexivity. }
  eapply ends_lift; [exact Eb|]. hoare. replace (21 - length t)%nat with (S (20 - length t)) by lia. cbn [replicate].
  eapply ends_lift; [apply wr_app_here; reflexivity|]. apply ends_put. unfold printk_text. hoare.
  eapply ends_lift; [exact (cstr_spec t (replicate (20 - length t) 0) Hs)|]. hoare. eapply ends_lift; [by apply format_plain|].
  unfold emit. hoare. split; [reflexivity|]. exists (t ++ 0 :: replicate (20 - length t) 0). reflexivity.
Qed.

Lemma len_todo rest ts : todo PLen rest ts -> exists v attrs, short v /\ is_text v /\ after v attrs /\
  rest = len_bytes v ++ v ++ (attrs ≫= enc_attr) /\ ts = (inr <$> v) ++ (attrs ≫= attr_shown).
Proof. inversion 1; subst. by eexists _, _. Qed.
Lemma len2_todo lo rest ts : todo (PLen2 lo) rest ts -> exists v attrs, short v /\ is_text v /\ after v attrs /\
  lo = Z.of_nat (length v) mod 256 /\ rest = Z.of_nat (length v) / 256 :: v ++ (attrs ≫= enc_attr) /\ ts = (inr <$> v) ++ (attrs ≫= attr_shown).
Proof. inversion 1; subst. by eexists _, _. Qed.
Lemma data_todo n rest ts : todo (PData n) rest ts \/ todo (PRest n) rest ts -> exists v attrs, short v /\ is_text v /\ after v attrs /\
  n = length v /\ rest = v ++ (attrs ≫= enc_attr) /\ ts = (inr <$> v) ++ (attrs ≫= attr_shown).
Proof. intros [Ht|Ht]; inversion Ht; subst; by eexists _, _. Qed.


Lemma rest_nonempty n rest ts : todo (PRest n) rest ts -> (0 < n)%nat.
Proof. inversion 1 as [| | | |v attrs Hne]; subst. destruct v; [done|cbn; lia]. Qed.

Section Fragment.
Context (f more : list Z) (size : Z).
Hypothesis size_is : size = Z.of_nat (length f).
Hypothesis size_short : size <= 20.

Definition rank (p : pos) : Z := match p with PData _ => 1 | _ => 0 end.
(** The result of one round: less to do, and as much more on the screen. *)
Definition stepped (count : Z) (p : pos) (ts : list (Z + Z)) (s : ancs NS) (r : Z * Z * bool) (s' : ancs NS) : Prop :=
  let '(count', st, skip) := r in skip = false /\ 0 <= count' <= size /\ exists p' t1 t2,
    moved s s' t1 /\ at_pos p' st (attribute_data s') /\ todo p' (drop (Z.to_nat count') f ++ more) t2 /\ ts = t1 ++ t2 /\
    3 * (size - count') + rank p' < 3 * (size - count) + rank p.
Lemma drop_at count : 0 <= count < size -> exists b, rd f count = Some b /\ drop (Z.to_nat count) f = b :: drop (Z.to_nat (count + 1)) f.
Proof using size_is.
  intros Hc. destruct (rd_in_bound f count) as [b Eb]; [lia|]. exists b. split; [done|]. unfold rd in Eb.
  destruct (Z.leb_spec 0 count); [|lia]. rewrite (drop_S f b (Z.to_nat count)) by done. do 2 f_equal. lia.
Qed.
Lemma attr_cons b rest ts : todo PAttr (b :: rest) ts -> exists v attrs', attr_ok (b, v) /\ after v attrs' /\
  rest = len_bytes v ++ v ++ (attrs' ≫= enc_attr) /\ ts = inl b :: (inr <$> v) ++ (attrs' ≫= attr_shown).
Proof using.
  intros Ht. inversion Ht as [al Hal E0 E1 E2| | | |]. clear E0. destruct al as [|[id v] al]; [done|].
  rewrite bind_cons in E1. injection E1 as -> <-. apply attrs_ok_cons in Hal as [Ha Hal]. exists v, al. split; [done|]. split; [done|].
  split; reflexivity.
Qed.
Lemma step_attrid count ts (s : ancs NS) : 0 <= count < size -> at_pos PAttr ds_decoder_attrid (attribute_data s) ->
  todo PAttr (drop (Z.to_nat count) f ++ more) ts -> ends (decode_attrid f count) s (stepped count PAttr ts s).
Proof using size_is size_short.
  intros Hc (_ & A1 & A2 & A3) Ht. destruct (drop_at count Hc) as (b & Eb & Ed). rewrite Ed in Ht. cbn [app] in Ht.
  destruct (attr_cons _ _ _ Ht) as (v & attrs & (Hid & Hv & Htx) & Hal & Er & ->). cbn in Hid, Hv, Htx.
  unfold decode_attrid, upd_ad, emit. apply ends_bind. eapply ends_lift; [exact Eb|]. hoare.
  destruct (Z.leb_spec b ancs_notif_att_id_date); [|unfold ancs_notif_att_id_date in *; lia]. hoare.
  split; [done|]. rewrite u16_small by lia. split; [lia|]. exists PLen, [inl b], ((inr <$> v) ++ (attrs ≫= attr_shown)).
  split; [|split; [by split_and!|split; [|split; [done|cbn; lia]]]].
  - exists ((attribute_data s) <| attr_id := b |>), (g_ancs_data s), [Label b]. by split.
  - rewrite Er. by constructor.
Qed.
Lemma step_len_end count p ts (s : ancs NS) a c' st p' rest : 0 <= count < size -> 0 <= c' <= size ->
  pending_cmd a = pending_cmd (attribute_data s) -> at_pos p' st a -> drop (Z.to_nat c') f ++ more = rest -> todo p' rest ts ->
  3 * (size - c') + rank p' < 3 * (size - count) + rank p ->
  stepped count p ts s (c', st, false) (with_decoder s a (g_ancs_data s) []).
Proof using.
  intros Hc Hc' Ep Ha <- Ht Hm. split; [done|]. split; [done|]. exists p', [], ts. split; [by exists a, (g_ancs_data s), []|].
  split; [done|]. split; [done|]. by split.
Qed.
Lemma own_attrs (s : ancs NS) a : s <| attribute_data ::= a |> = with_decoder s (a (attribute_data s)) (g_ancs_data s) [].
Proof using. destruct s. unfold with_decoder, set_field. cbn. rewrite app_nil_r. reflexivity. Qed.
Lemma step_attrlen count p ts (s : ancs NS) : 0 <= count < size -> p = PLen \/ (exists lo, p = PLen2 lo) ->
  at_pos p ds_decoder_attrlen (attribute_data s) ->
  todo p (drop (Z.to_nat count) f ++ more) ts -> ends (decode_attrlen f size count) s (stepped count p ts s).
Proof using size_is size_short.
  intros Hc Hp Ha Ht. destruct (drop_at count Hc) as (b & Eb & Ed). rewrite Ed in Ht. cbn [app] in Ht.
  unfold decode_attrlen, upd_ad. hoare. eapply ends_lift; [exact Eb|]. destruct Hp as [->|[lo ->]].
  - destruct Ha as (_ & A1 & A2 & A3). rewrite A2. destruct (len_todo _ _ Ht) as (v & attrs & Hv & Htx & Hal & Er & ->).
    injection Er as Eb1 Er. destruct (len_bytes_ok v Hv) as [El _]. apply ends_bind. destruct (Z.ltb_spec (count + 1) size).
    + destruct (drop_at (count + 1)) as (c & Ec & Edc); [lia|]. rewrite Edc in Er. injection Er as -> Er. apply ends_bind.
      eapply ends_lift; [exact Ec|]. hoare. rewrite own_attrs. cbn [attribute_data with_decoder pending_len set_field]. rewrite u16_small by lia.
      subst b. rewrite A2. eapply (step_len_end count PLen _ s _ (count + 2) ds_decoder_attrdata (PData (length v)) _ Hc);
        [lia|reflexivity|by split_and!|reflexivity| |cbn; lia].
      replace (count + 2) with (count + 1 + 1) by lia. rewrite Er. by constructor.
    + hoare. rewrite own_attrs. cbn [attribute_data with_decoder pending_len set_field]. rewrite u16_small by lia. subst b.
      eapply (step_len_end count PLen _ s _ (count + 1) ds_decoder_attrlen (PLen2 _) _ Hc); [lia|reflexivity|by split_and!|reflexivity| |cbn; lia].
      rewrite Er. by constructor.
  - destruct Ha as (_ & A1 & A2 & A3 & A4). rewrite A2. destruct (len2_todo _ _ _ Ht) as (v & attrs & Hv & Htx & Hal & El & Er & ->).
    injection Er as Eb1 Er. destruct (len_bytes_ok v Hv) as [_ El2]. hoare. rewrite own_attrs. cbn [attribute_data with_decoder pending_len set_field].
    rewrite u16_small by lia. subst b. rewrite A4, El, El2.
    eapply (step_len_end count (PLen2 _) _ s _ (count + 1) ds_decoder_attrdata (PData (length v)) _ Hc); [lia|reflexivity|by split_and!|reflexivity| |cbn; lia].
    rewrite Er. by constructor.
Qed.
Lemma is_text_split k v : is_text v -> is_text (take k v) /\ is_text (drop k v).
Proof using. intros Hv. rewrite <- (take_drop k v) in Hv. by apply Forall_app in Hv. Qed.
Lemma with_decoder_attrs (s : ancs NS) a0 g l a :
  (with_decoder s a0 g l) <| attribute_data ::= a |> = with_decoder s (a a0) g l.
Proof using. reflexivity. Qed.
Lemma step_data count n ts (s : ancs NS) : 0 <= count < size -> at_pos (PData n) ds_decoder_attrdata (attribute_data s) ->
  todo (PData n) (drop (Z.to_nat count) f ++ more) ts -> ends (decode_attrdata format f size count) s (stepped count (PData n) ts s).
Proof using size_is size_short format_plain.
  intros Hc (_ & A1 & A2 & A3) Ht. destruct (data_todo n _ _ (or_introl Ht)) as (v & attrs & Hv & Htx & Hal & -> & Er & ->).
  unfold decode_attrdata, upd_ad. hoare. rewrite A3. change (truthy 0) with false. cbv iota. destruct (Z.ltb_spec 0 (attr_len (attribute_data s))).
  - hoare. eapply ends_mono; [apply (show_piece_ok f size count [] (drop (Z.to_nat count) f) s 0); [reflexivity|done|lia|lia|lia|cbn; lia|constructor]|].
    intros r s' [-> [g ->]]. change (Z.of_nat (length [])) with 0. hoare. rewrite with_decoder_attrs. cbn [attribute_data with_decoder pending_attr_data set_field].
    rewrite A1, Z.sub_0_r, Z.add_0_r in *. rewrite !u16_small by (unfold short in *; lia).
    destruct (Z.eqb_spec (Z.of_nat (length v)) 0); [lia|]. cbn [andb]. hoare. split; [done|]. split; [lia|].
    exists (PRest (length v)), [], ((inr <$> v) ++ (attrs ≫= attr_shown)). split; [by eexists _, g, [Show []]|].
    split; [by split_and!|]. split; [|split; [done|cbn; lia]]. rewrite Er. constructor; try done. intros ->. cbn in *. lia.
  - hoare. rewrite A3, A1. assert (v = []) as -> by (destruct v; [done|cbn in *; lia]). change (Z.of_nat (length [])) with 0. change (0 =? 0) with true. cbn [andb].
    hoare. rewrite own_attrs. split; [done|]. split; [lia|]. exists PAttr, [], (attrs ≫= attr_shown). split; [by eexists _, _, []|].
    split; [by split_and!|]. split; [|split; [done|cbn; lia]]. rewrite Er. constructor. by eapply after_ok.
Qed.
Lemma step_rest count n ts (s : ancs NS) : 0 <= count < size -> at_pos (PRest n) ds_decoder_attrdata (attribute_data s) ->
  todo (PRest n) (drop (Z.to_nat count) f ++ more) ts -> ends (decode_attrdata format f size count) s (stepped count (PRest n) ts s).
Proof using size_is size_short format_plain.
  intros Hc (_ & A1 & A2 & A3) Ht. destruct (data_todo n _ _ (or_intror Ht)) as (v & attrs & Hv & Htx & Hal & -> & Er & ->).
  assert (0 < length v)%nat as Hpos.
  { exact (rest_nonempty _ _ _ Ht). }
  unfold decode_attrdata, upd_ad. hoare. rewrite A3. unfold truthy. destruct (Z.eqb_spec (Z.of_nat (length v)) 0); [lia|]. cbn [negb].
  set (k := Z.to_nat (Z.min (Z.of_nat (length v)) (size - count))). destruct (is_text_split k v Htx) as [Hk1 Hk2].
  assert (length (drop (Z.to_nat count) f) = Z.to_nat (size - count)) as Hg by (rewrite length_drop; lia).
  assert (k <= length v)%nat as Hkv by lia. assert (length (take k v) = k) as Lk by (rewrite length_take; lia).
  assert (drop (Z.to_nat count) f = take k v ++ drop (Z.to_nat (count + Z.of_nat k)) f /\
    drop (Z.to_nat (count + Z.of_nat k)) f ++ more = drop k v ++ (attrs ≫= enc_attr)) as [Ed Em].
  { replace (Z.to_nat (count + Z.of_nat k)) with (Z.to_nat count + k)%nat by lia. rewrite <- drop_drop.
    set (g := drop (Z.to_nat count) f) in *. assert (take k g = take k v) as E1.
    { apply (f_equal (take k)) in Er. rewrite !take_app_le in Er by lia. done. }
    split; [by rewrite <- E1, take_drop|]. apply (f_equal (drop k)) in Er. by rewrite !drop_app_le in Er by lia. }
  hoare. eapply ends_mono; [apply (show_piece_ok f size count (take k v) _ s (Z.of_nat (length v)) Ed); [done|unfold short in *; lia|lia|lia|lia|done]|].
  intros r s' [-> [g ->]]. rewrite Lk. hoare. rewrite with_decoder_attrs. cbn [attribute_data with_decoder pending_attr_data attr_len set_field].
  rewrite A3, A1. unfold short in *. rewrite (u16_small (Z.of_nat (length v) - Z.of_nat k)), (u16_small (count + Z.of_nat k)) by lia. change (0 =? 0) with true.
  assert (attr_shown' : (inr <$> v : list (Z + Z)) = (inr <$> take k v) ++ (inr <$> drop k v)) by by rewrite <- fmap_app, take_drop.
  assert (screen [Show (take k v)] = inr <$> take k v) as Esc by (cbn; by rewrite app_nil_r).
  destruct (Z.eqb_spec (Z.of_nat (length v) - Z.of_nat k) 0) as [E0|E0]; cbn [andb]; hoare; (split; [done|]; split; [lia|]).
  - rewrite with_decoder_attrs. exists PAttr, (inr <$> v), (attrs ≫= attr_shown). assert (take k v = v) as Ev by (apply take_ge; lia).
    rewrite (drop_ge v) in Em by lia. cbn [app] in Em. split; [eexists _, g, [Show (take k v)]; split; [reflexivity|by rewrite <- Ev at 2]|].
    split; [split_and!; try done; cbn; by rewrite A3, E0|]. split; [rewrite Em; constructor; by eapply after_ok|]. split; [done|cbn; lia].
  - assert (drop k v <> []) as Hne by (intros E; apply (f_equal length) in E; rewrite length_drop in E; cbn in E; lia).
    exists (PRest (length (drop k v))), (inr <$> take k v), ((inr <$> drop k v) ++ (attrs ≫= attr_shown)).
    split; [by eexists _, g, [Show (take k v)]|]. split; [split_and!; try done; cbn; rewrite A3, length_drop, u16_small by lia; lia|].
    split; [rewrite Em; constructor; [done|unfold short; rewrite length_drop; lia|done|by eapply after_rest]|].
    split; [by rewrite attr_shown', <- app_assoc|cbn; lia].
Qed.

(** Where the decoder stands after the bytes of the fragment. *)
Definition arrived (ts : list (Z + Z)) (s : ancs NS) (r : option Z) (s' : ancs NS) : Prop := exists st' p' t1 t2,
  r = Some st' /\ moved s s' t1 /\ at_pos p' st' (attribute_data s') /\ todo p' more t2 /\ ts = t1 ++ t2.
Lemma loop_ok fuel : forall count p st ts (s : ancs NS), 0 <= count <= size -> at_pos p st (attribute_data s) ->
  todo p (drop (Z.to_nat count) f ++ more) ts -> 3 * (size - count) + rank p < Z.of_nat fuel ->
  ends (parse_loop format fuel f size count st false) s (arrived ts s).
Proof using size_is size_short format_plain.
  induction fuel as [|fuel IH]; intros count p st ts s Hc Hp Ht Hf; [destruct p; cbn in Hf; lia|]. cbn [parse_loop].
  destruct (Z.ltb_spec count size) as [Hlt|Hge]; cbn [negb orb].
  2: { apply ends_ret. exists st, p, [], ts. rewrite drop_ge in Ht by lia. split; [done|]. split; [apply moved_refl|]. by split. }
  assert (forall m : M (ancs NS) (Z * Z * bool), ends m s (stepped count p ts s) ->
    ends ('(count, state, skip) ← m; parse_loop format fuel f size count state skip) s (arrived ts s)) as Hstep.
  { intros m Hm. apply ends_bind. eapply ends_mono; [exact Hm|]. intros [[c1 st1] skip] s1 (-> & Hc1 & p1 & t1 & t2 & Hmv & Hp1 & Ht1 & -> & Hdec).
    eapply ends_mono; [apply (IH c1 p1 st1 t2 s1); [done|done|done|lia]|]. intros r s2 (st2 & p2 & t3 & t4 & -> & Hmv2 & Hp2 & Ht2 & ->).
    exists st2, p2, (t1 ++ t3), t4. split; [done|]. split; [by eapply moved_trans|]. split; [done|]. split; [done|]. by rewrite app_assoc. }
  destruct p; destruct Hp as (-> & Hp).
  - apply (Hstep (decode_attrid f count)). apply step_attrid; [lia|by split|done].
  - apply (Hstep (decode_attrlen f size count)). apply step_attrlen; [lia|by left|by split|done].
  - apply (Hstep (decode_attrlen f size count)). apply step_attrlen; [lia|right; by eexists|by split|done].
  - apply (Hstep (decode_attrdata format f size count)). apply step_data; [lia|by split|done].
  - apply (Hstep (decode_attrdata format f size count)). apply step_rest; [lia|by split|done].
Qed.
End Fragment.

(** The decoder between two fragments, and between two responses. *)
Definition reading (a : ancs_attribute_data_t) (p : pos) : Prop :=
  pending_cmd a = ancs_cmd_get_notification_att /\ at_pos p (decoder_state a) a.
Definition clean (a : ancs_attribute_data_t) : Prop :=
  pending_cmd a = ancs_cmd_get_notification_att /\ (decoder_state a = ds_decoder_hdr \/ decoder_state a = ds_decoder_attrid) /\
  attr_len a = 0 /\ pending_len a = false /\ pending_attr_data a = 0.
(** What a fragment does: [more] of the response is still to come. *)
Definition advanced (more : list Z) (ts : list (Z + Z)) (s s' : ancs NS) : Prop := exists p t1 t2,
  moved s s' t1 /\ reading (attribute_data s') p /\ todo p more t2 /\ ts = t1 ++ t2.
Lemma parse_ok f more p ts (s : ancs NS) count st : (length f <= 20)%nat -> 0 <= count <= Z.of_nat (length f) ->
  pending_cmd (attribute_data s) = ancs_cmd_get_notification_att -> at_pos p st (attribute_data s) -> todo p (drop (Z.to_nat count) f ++ more) ts ->
  forall fuel, 3 * Z.of_nat (length f) + 1 < Z.of_nat fuel ->
  ends (r ← parse_loop format fuel f (Z.of_nat (length f)) count st false;
        match r with
        | Some state => upd_ad (fun a => a <| decoder_state := state |>);; mret true
        | None => mret false
        end) s (fun _ => advanced more ts s).
Proof.
  intros Hl Hc Hcmd Hp Ht fuel Hf. apply ends_bind. eapply ends_mono.
  { apply (loop_ok f more (Z.of_nat (length f)) eq_refl ltac:(lia) fuel count p st ts s Hc Hp Ht). destruct p; cbn [rank]; lia. }
  intros r s1 (st1 & p1 & t1 & t2 & -> & Hm & Hp1 & Ht1 & ->). unfold upd_ad. hoare. destruct Hm as (a & g & l & -> & Hpr & Ea).
  rewrite with_decoder_attrs. exists p1, t1, t2. split; [by eexists _, g, l|]. split; [|by split]. split; [cbn; by rewrite Ea|].
  by destruct p1.
Qed.
Lemma next_fragment f more p ts (s : ancs NS) : (1 <= length f <= 20)%nat -> reading (attribute_data s) p -> todo p (f ++ more) ts ->
  ends (ancs_handle_data_source_data format f) s (fun _ => advanced more ts s).
Proof.
  intros Hl [Hcmd Hp] Ht. unfold ancs_handle_data_source_data. hoare. rewrite Hcmd. change (ancs_cmd_get_notification_att =? ancs_cmd_get_notification_att) with true.
  destruct f as [|b f]; [cbn in Hl; lia|]. cbv iota. apply ends_bind, (ends_lift _ b); [done|].
  apply ends_bind, ends_when.
  - intros Hreset. exfalso. apply andb_true_iff in Hreset as [Hr Hst]. apply andb_true_iff in Hr as [Hr _]. apply andb_true_iff in Hr as [Hr _].
    apply andb_true_iff in Hr as [Hb%Z.eqb_eq _]. apply orb_true_iff in Hst.
    destruct p; destruct Hp as (Est & _); rewrite Est in Hst; try by destruct Hst.
    destruct (attr_cons _ _ _ Ht) as (v & attrs & ([Hid _] & _) & _). cbn in Hid. unfold ancs_cmd_get_notification_att in Hb. lia.
  - intros _. apply ends_bind. unfold ancs_parse_data. apply ends_bind, ends_get.
    eapply ends_mono; [apply (parse_ok (b :: f) more p ts s 0); [lia|lia|done|done|done|lia]|].
    intros ? s' Hs'. by apply ends_ret.
Qed.
Lemma first_fragment f more notif_uuid attrs (s : ancs NS) : (5 <= length f <= 20)%nat -> length notif_uuid = 4%nat -> attrs_ok attrs ->
  clean (attribute_data s) -> f ++ more = response notif_uuid attrs ->
  ends (ancs_handle_data_source_data format f) s (fun _ => advanced more (attrs ≫= attr_shown) s).
Proof.
  intros Hl Hu Ha (Hcmd & Hst & A1 & A2 & A3) Er. unfold ancs_handle_data_source_data. hoare. rewrite Hcmd.
  change (ancs_cmd_get_notification_att =? ancs_cmd_get_notification_att) with true.
  assert (exists f', f = 0 :: f') as [f' Ef] by (destruct f; [cbn in Hl; lia|]; injection Er as -> _; by eexists).
  cbv iota. apply ends_bind, (ends_lift _ 0); [by rewrite Ef|]. apply ends_bind. rewrite A1, A2, A3.
  replace ((decoder_state (attribute_data s) =? ds_decoder_hdr) || (decoder_state (attribute_data s) =? ds_decoder_attrid)) with true
    by (destruct Hst as [-> | ->]; done).
  cbn [Z.eqb andb negb ancs_cmd_get_notification_att when]. unfold upd_ad at 1. apply ends_modify. rewrite own_attrs.
  apply ends_bind. unfold ancs_parse_data. apply ends_bind, ends_get. cbn [attribute_data with_decoder decoder_state set_field].
  set (s1 := with_decoder s _ _ _).
  assert (moved s s1 []) as Hm1 by by eexists _, _, [].
  assert (at_pos PAttr ds_decoder_attrid (attribute_data s1)) as Hp1 by by split_and!.
  assert (drop 5 f ++ more = attrs ≫= enc_attr) as Ed.
  { rewrite <- (drop_app_le f more) by lia. rewrite Er. unfold response. change (drop 5 (0 :: ?l)) with (drop 4 l).
    cbn [drop]. rewrite drop_app_le, drop_ge by lia. done. }
  subst f. assert (forall fuel, parse_loop format (S fuel) (0 :: f') (Z.of_nat (length (0 :: f'))) 0 ds_decoder_hdr false s1 =
    parse_loop format fuel (0 :: f') (Z.of_nat (length (0 :: f'))) 5 ds_decoder_attrid false s1) as Estep.
  { intros fuel. cbn [parse_loop]. destruct (Z.ltb_spec 0 (Z.of_nat (length (0 :: f')))); [done|lia]. }
  eapply (ends_bind_eq _ _ _ _ _ (Estep _)).
  eapply ends_mono; [apply (parse_ok (0 :: f') more PAttr (attrs ≫= attr_shown) s1 5 ds_decoder_attrid); [lia|lia|done|exact Hp1| |lia]|].
  - change (Z.to_nat 5) with 5%nat. rewrite Ed. by constructor.
  - intros ? s' (p & t1 & t2 & Hm & Hr & Ht & E). apply ends_ret. exists p, t1, t2. split; [|by split].
    exact (moved_trans _ _ _ _ _ Hm1 Hm).
Qed.


(** Connected, with handles that tell the characteristics apart. *)
Record ready (conn ns ds cp : Z) (s : ancs NS) : Prop := {
  re_conn : pconn (app_cb s) = Some conn;
  re_chars : exists c0 c1 c2 l, char_data (service s) = c0 :: c1 :: c2 :: l /\
    u16 (ch_start_handle c0 + 1) = ns /\ u16 (ch_start_handle c1 + 1) = cp /\ u16 (ch_start_handle c2 + 1) = ds;
  re_differ : ns <> ds }.
Lemma ready_moved conn ns ds cp (s s' : ancs NS) ts : moved s s' ts -> ready conn ns ds cp s -> ready conn ns ds cp s'.
Proof. intros (a & g & l & -> & _ & _) [Hc Hl Hd]. by split. Qed.
Fixpoint receive_fragments (conn ds : Z) (fs : list (list Z)) : M (ancs NS) unit :=
  match fs with [] => mret tt | f :: fs => _ ← notify_func format conn ds (Some f); receive_fragments conn ds fs end.
Lemma ends_handle get_handle i (s : ancs NS) c (Q : Z -> ancs NS -> Prop) : get_handle = (c ← char_at i; mret (u16 (ch_start_handle c + 1))) ->
  rd (char_data (service s)) i = Some c -> Q (u16 (ch_start_handle c + 1)) s -> ends get_handle s Q.
Proof. intros -> Hc HQ. unfold char_at. hoare. eapply ends_lift; [exact Hc|]. by hoare. Qed.
Lemma ends_source conn ns ds cp d (s : ancs NS) Q : ready conn ns ds cp s ->
  ends (ancs_handle_notification_source_data conn d) s (fun _ s' => Q BT_GATT_ITER_CONTINUE s') -> ends (notify_func format conn ns (Some d)) s Q.
Proof.
  intros [_ (c0 & c1 & c2 & l & El & E0 & E1 & E2) Hd] HQ. unfold notify_func. apply ends_bind.
  apply (ends_handle _ 0 _ c0); [done|by rewrite El|]. apply ends_bind. apply (ends_handle _ 2 _ c2); [done|by rewrite El|].
  rewrite E0, E2, Z.eqb_refl. apply ends_bind, ends_bind. eapply ends_mono; [exact HQ|]. intros b s' Hs. by hoare.
Qed.
Lemma ends_data conn ns ds cp d (s : ancs NS) Q : ready conn ns ds cp s ->
  ends (ancs_handle_data_source_data format d) s (fun _ s' => Q BT_GATT_ITER_CONTINUE s') -> ends (notify_func format conn ds (Some d)) s Q.
Proof.
  intros [_ (c0 & c1 & c2 & l & El & E0 & E1 & E2) Hd] HQ. unfold notify_func. apply ends_bind.
  apply (ends_handle _ 0 _ c0); [done|by rewrite El|]. apply ends_bind. apply (ends_handle _ 2 _ c2); [done|by rewrite El|].
  rewrite E0, E2, Z.eqb_refl. destruct (Z.eqb_spec ns ds); [done|]. apply ends_bind, ends_bind. eapply ends_mono; [exact HQ|]. intros b s' Hs. by hoare.
Qed.
Lemma rest_fragments conn ns ds cp fs : forall p ts (s : ancs NS), ready conn ns ds cp s ->
  Forall (fun f => (1 <= length f <= 20)%nat) fs -> reading (attribute_data s) p -> todo p (concat fs) ts ->
  ends (receive_fragments conn ds fs) s (fun _ => advanced [] ts s).
Proof.
  induction fs as [|f fs IH]; intros p ts s Hre Hf Hp Ht; cbn [receive_fragments concat] in *.
  - apply ends_ret. exists p, [], ts. split; [apply moved_refl|]. by split.
  - apply Forall_cons in Hf as [Hl Hf]. apply ends_bind, (ends_data conn ns ds cp); [done|].
    eapply ends_mono; [by apply (next_fragment f (concat fs) p ts s)|].
    intros ? s1 (p1 & t1 & t2 & Hm & Hr & Ht1 & ->). eapply ends_mono; [apply (IH p1 t2 s1); [by eapply ready_moved|done..]|].
    intros ? s2 (p2 & t3 & t4 & Hm2 & Hr2 & Ht2 & ->). exists p2, (t1 ++ t3), t4. split; [by eapply moved_trans|].
    split; [done|]. split; [done|]. by rewrite app_assoc.
Qed.
Lemma enc_nil attrs : attrs ≫= enc_attr = [] -> attrs = [].
Proof. by destruct attrs. Qed.
Lemma todo_end p ts : todo p [] ts -> p = PAttr /\ ts = [].
Proof.
  inversion 1 as [al Hal E1 E2 E3|v al Hv Ht Ha E1 E2|v al Hv Ht Ha E1 E2|v al Hv Ht Ha E1 E2|v al Hn Hv Ht Ha E1 E2]; try done.
  - by apply enc_nil in E2 as ->.
  - apply app_nil in E2 as [-> E2]. apply enc_nil in E2 as ->. destruct Ha as [_ Ha]. by destruct Ha.
  - by apply app_nil in E2 as [-> E2].
Qed.
Lemma end_clean ts (s s' : ancs NS) : advanced [] ts s s' -> moved s s' ts /\ clean (attribute_data s').
Proof.
  intros (p & t1 & t2 & Hm & [Hc Hp] & Ht & ->). apply todo_end in Ht as [-> ->]. rewrite app_nil_r. split; [done|].
  destruct Hp as (? & ? & ? & ?). split_and!; auto.
Qed.
Lemma response_shown conn ns ds cp fs notif_uuid attrs (s : ancs NS) : ready conn ns ds cp s -> clean (attribute_data s) ->
  length notif_uuid = 4%nat -> attrs_ok attrs -> concat fs = response notif_uuid attrs ->
  Forall (fun f => (1 <= length f <= 20)%nat) fs -> (5 <= length (default [] (head fs)))%nat ->
  ends (receive_fragments conn ds fs) s (fun _ s' => moved s s' (attrs ≫= attr_shown) /\ clean (attribute_data s')).
Proof.
  intros Hre Hcl Hu Ha Er Hf H5. destruct fs as [|f fs]; [done|]. apply Forall_cons in Hf as [Hl Hf]. cbn in H5. cbn [receive_fragments concat] in *.
  apply ends_bind, (ends_data conn ns ds cp); [done|].
  eapply ends_mono; [apply (first_fragment f (concat fs) notif_uuid attrs s); [lia|done..]|].
  intros ? s1 (p1 & t1 & t2 & Hm & Hr & Ht1 & E1). eapply ends_mono; [apply (rest_fragments conn ns ds cp fs p1 t2 s1); [by eapply ready_moved|done..]|].
  intros ? s2 [Hm2 Hc2]%end_clean. split; [|done]. rewrite E1. by eapply moved_trans.
Qed.

(** ** A session: the phone announces notifications and answers the requests *)
Hypothesis host_ok : forall t, host t = 0.
(** The request for the notification with this identifier. *)
Definition request (notif_uuid : list Z) : list Z :=
  ancs_cmd_get_notification_att :: notif_uuid ++
    [ancs_notif_att_id_title; 20; 0; ancs_notif_att_id_subtitle; 20; 0; ancs_notif_att_id_message; ancs_notif_att_id_message_size; ancs_notif_att_id_date].
(** Nothing is outstanding. *)
Definition idle (conn ns ds cp : Z) (s : ancs NS) : Prop :=
  ready conn ns ds cp s /\ pending_flag s = false /\ clean (attribute_data s).
Record notification := Notification { n_source : list Z; n_fragments : list (list Z); n_attrs : list notif_attr }.
(** Eight bytes or more, not a removal, answered in fragments of one to twenty bytes, the
    header in one piece. *)
Record notification_ok (n : notification) : Prop := {
  no_source : (8 <= length (n_source n))%nat;
  no_event : rd (n_source n) ANCS_NS_OFFSET_EVENT_ID <> Some ancs_event_id_notif_removed;
  no_attrs : attrs_ok (n_attrs n);
  no_answer : concat (n_fragments n) = response (take 4 (drop 4 (n_source n))) (n_attrs n);
  no_sizes : Forall (fun f => (1 <= length f <= 20)%nat) (n_fragments n);
  no_header : (5 <= length (default [] (head (n_fragments n))))%nat }.
Definition receive_notification (conn ns ds : Z) (n : notification) : M (ancs NS) unit :=
  _ ← notify_func format conn ns (Some (n_source n));
  handle_ancs_msg host;;
  write_func;;
  receive_fragments conn ds (n_fragments n).
Fixpoint receive_all (conn ns ds : Z) (l : list notification) : M (ancs NS) unit :=
  match l with [] => mret tt | n :: l => receive_notification conn ns ds n;; receive_all conn ns ds l end.


Lemma request_sent conn ns ds cp u (s : ancs NS) : ready conn ns ds cp s -> pending_flag s = false -> clean (attribute_data s) ->
  uuid_data s = u -> length u = 4%nat ->
  ends (handle_ancs_msg host) s (fun _ s' => ready conn ns ds cp s' /\ clean (attribute_data s') /\
    log s' = log s ++ [Write cp (request u) 0]).
Proof.
  intros [Hc (c0 & c1 & c2 & l & El & E0 & E1 & E2) Hd] Hfl Hcl Eu Hu. unfold handle_ancs_msg, if_connected. hoare. rewrite Hc.
  unfold ancs_get_notification_attribute_cmd. hoare. rewrite Eu. fold (request u).
  destruct u as [|u0 [|u1 [|u2 [|u3 []]]]]; try done. eapply ends_lift; [reflexivity|]. hoare.
  unfold ancs_write_request, call, emit, upd_ad. apply ends_bind. eapply (ends_handle _ 1 _ c1); [done|cbn; by rewrite El|]. rewrite E1. hoare.
  match goal with |- context [negb (pending_flag ?x)] => replace (pending_flag x) with false by (symmetry; exact Hfl) end.
  cbn [negb]. hoare. rewrite host_ok. change (0 =? 0) with true. cbn [when]. hoare. split; [split; [exact Hc|by exists c0, c1, c2, l|exact Hd]|].
  split; [|reflexivity]. destruct Hcl as (Hcmd & Hst & A1 & A2 & A3). split_and!; try done. 
Qed.
Lemma notification_session conn ns ds cp n (s : ancs NS) : idle conn ns ds cp s -> notification_ok n ->
  ends (receive_notification conn ns ds n) s (fun _ s' => idle conn ns ds cp s' /\ exists l,
    log s' = log s ++ [AncsMsg conn; Write cp (request (take 4 (drop 4 (n_source n)))) 0] ++ l /\ prints l (n_attrs n ≫= attr_shown)).
Proof.
  intros (Hre & Hfl & Hcl) [Hlen Hev Ha Er Hf H5]. set (u := take 4 (drop 4 (n_source n))) in *.
  assert (length u = 4%nat) as Hu by (unfold u; rewrite length_take, length_drop; lia).
  unfold receive_notification. apply ends_bind, (ends_source conn ns ds cp); [done|]. unfold ancs_handle_notification_source_data.
  assert (forall i, 0 <= i < 8 -> exists v, rd (n_source n) i = Some v) as Hrd by (intros i Hi; apply rd_in_bound; lia).
  destruct (Hrd 0) as [ev Eev]; [lia|]. destruct (Hrd 1) as [fl Efl]; [lia|]. destruct (Hrd 2) as [cat Ecat]; [lia|]. destruct (Hrd 3) as [cc Ecc]; [lia|].
  apply ends_bind. eapply ends_lift; [exact Eev|]. apply ends_bind. eapply ends_lift; [exact Efl|]. apply ends_bind. eapply ends_lift; [exact Ecat|].
  apply ends_bind. eapply ends_lift; [exact Ecc|]. destruct (Z.eqb_spec ev ancs_event_id_notif_removed) as [->|_]; [done|].
  destruct (Nat.ltb_spec (length (n_source n)) 8); [lia|]. unfold emit. hoare.
  change (Z.to_nat ANCS_NS_OFFSET_NOTIF_UUID) with 4%nat. fold u.
  set (s1 := s <| uuid_data := u |> <| g_last_received_notification := cat |> <| log ::= _ |>).
  eapply ends_mono; [apply (request_sent conn ns ds cp u s1); [by destruct Hre|done|done|done|done]|].
  intros [] s2 (Hre2 & Hcl2 & El2). unfold write_func. apply ends_bind, ends_modify.
  set (s3 := s2 <| pending_flag := false |> <| write_params := (0, []) |>).
  eapply ends_mono; [apply (response_shown conn ns ds cp _ u (n_attrs n) s3); [by destruct Hre2|done..]|].
  intros [] s4 [Hm Hcl4]. assert (ready conn ns ds cp s4) as Hre4 by (eapply ready_moved; [exact Hm|by destruct Hre2]).
  destruct Hm as (a & g & l & -> & Hpr & _). split; [by split_and!|]. exists l. split; [|done]. cbn. rewrite El2. cbn. by rewrite <- !app_assoc.
Qed.

End Show.

(** ** On concrete input *)
Definition demo_chars : list gatt_characteristic :=
  match g_disc_ancs_char with
  | [a; b; c] => [a <| ch_start_handle := 16 |> <| ccd_handle := 18 |>; b <| ch_start_handle := 20 |>; c <| ch_start_handle := 24 |> <| ccd_handle := 26 |>]
  | l => l
  end.
Definition ancs_start : ancs (gmap string (list Z)) :=
  AncsState (AncsAttributeData 0 false 0 0 ds_decoder_hdr 0 0) (replicate 21 0) [0; 0; 0; 0] (replicate 21 0) 0 false (0, [])
    (0, 0) (0, 0) g_disc_ancs_service (DiscoveryProc false 0 false) (DiscoverParams None 0 0 0) false false false
    (AppCb None false false 0 false false (replicate 7 0)) 0 ∅ [].
Definition ancs_linked : ancs (gmap string (list Z)) :=
  ancs_start <| app_cb ::= (fun c => c <| pconn := Some 1 |>) |>
    <| service := GattService 14 30 ANCS_UUID 0 demo_chars |>.
Definition demo_attrs : list notif_attr := [(1, str "Mum"); (3, str "Dinner is ready, come home"); (5, str "20180504T1830")].
Definition demo_answer : list Z := response [7; 0; 0; 0] demo_attrs.
Definition demo_notification : notification :=
  Notification [0; 2; 4; 1; 7; 0; 0; 0] [take 12 demo_answer; take 1 (drop 12 demo_answer); take 20 (drop 13 demo_answer); take 20 (drop 33 demo_answer); drop 53 demo_answer] demo_attrs.
Lemma demo_notification_ok : notification_ok demo_notification.
Proof.
  split; [cbn; lia|done| |reflexivity| |cbn; lia].
  - split; [|done]. repeat (apply Forall_cons_2); try apply Forall_nil_2; (split; [cbn; lia|split; [by vm_compute|]]);
      repeat (apply Forall_cons_2; [by vm_compute|]); apply Forall_nil_2.
  - repeat (apply Forall_cons_2; [cbn; lia|]). apply Forall_nil_2.
Qed.
Lemma ancs_linked_idle : idle 1 17 25 21 ancs_linked.
Proof. split; [split; [done|by eexists _, _, _, _|done]|]. split; [done|]. split_and!; auto. Qed.
Definition demo_screen (m : M (ancs (gmap string (list Z))) unit) : option (list (Z + Z) * list (Z * list Z)) :=
  match m ancs_linked with Some (_, s) => Some (screen (log s), requests (log s)) | None => None end.
(** When the last attribute is empty the decoder stays in its data state, so the header of the
    next response is not recognised: its first byte is taken for the attribute App ID, and
    the attributes are swallowed as its text. *)
Example empty_last_attribute_garbles :
  demo_screen (_ ← ancs_handle_data_source_data Some (response [7; 0; 0; 0] [(3, [])]);
               _ ← ancs_handle_data_source_data Some (response [8; 0; 0; 0] [(1, str "Mum")]); mret tt) = Some ([inl 3; inl 0], []).
Proof. by vm_compute. Qed.
(** A notification announced while a request is being written is never asked for. *)
Example request_lost_while_writing :
  demo_screen (_ ← notify_func Some 1 17 (Some [0; 2; 4; 1; 7; 0; 0; 0]); handle_ancs_msg (fun _ => 0);;
               _ ← notify_func Some 1 17 (Some [0; 2; 4; 1; 9; 0; 0; 0]); handle_ancs_msg (fun _ => 0);; write_func) =
  Some ([], [(21, request [7; 0; 0; 0])]).
Proof. by vm_compute. Qed.
(** A piece of more than twenty bytes, which a larger MTU allows, overruns the text buffer. *)
Example long_piece_overruns :
  demo_screen (_ ← ancs_handle_data_source_data Some (response [7; 0; 0; 0] [(1, replicate 21 65)]); mret tt) = None.
Proof. by vm_compute. Qed.
