(* ===== verification/AncsDisc.v ===== *)
(** * Discovery of the phone's service and its handles across a restart (Ancs.v)

    The phone's attributes are a table; the host answers a discovery with the attributes of
    the table in the range asked for, then with the end.  The main loop and the host take
    turns, as each waits for the other. *)
From S2P Require Import Prelude CString FlashNor Nvram Gatt Ancs AncsShow.
From stdpp Require Import strings.
#[local] Open Scope Z_scope.

#[export] Instance bt_uuid_dec : EqDecision bt_uuid.
Proof. solve_decision. Defined.

(** ** The phone *)
Record phone := Phone {
  ph_service : Z * Z;                   (* handle and end of the notification service *)
  ph_chars : list (Z * bt_uuid);        (* declarations: handle, UUID of the characteristic *)
  ph_descrs : list (Z * bt_uuid) }.     (* descriptors: handle and UUID *)
Definition in_range (p : discover_params_t) (a : Z * bt_uuid) : bool := (dp_start p <=? a.1) && (a.1 <=? dp_end p).
Definition answers (ph : phone) (p : discover_params_t) : list found :=
  if dp_type p =? BT_GATT_DISCOVER_PRIMARY then
    if bool_decide (dp_uuid p = Some ANCS_UUID) then [FService (ph_service ph).1 (ph_service ph).2] else []
  else if dp_type p =? BT_GATT_DISCOVER_CHARACTERISTIC then (fun a => FChar a.1 a.2) <$> List.filter (in_range p) (ph_chars ph)
  else (fun a => FDescr a.1 a.2) <$> List.filter (in_range p) (ph_descrs ph).

Section Disc.
Context {NS : Type} `{NV : Nvram NS} (host : list ancs_event -> Z) (bt_uuid_cmp : bt_uuid -> bt_uuid -> Z) (ph : phone).
#[local] Abbreviation AN := (M (ancs NS)).

Fixpoint report (l : list found) : AN unit :=
  match l with [] => _ ← discover_func bt_uuid_cmp None; mret tt | a :: l => _ ← discover_func bt_uuid_cmp (Some a); report l end.
Definition serve : AN unit := s ← get; report (answers ph (discover_params s)).
(** Who acts next: the host after a discovery was started, the main loop after a message. *)
Fixpoint turns (fuel : nat) : AN unit :=
  match fuel with
  | O => mret tt
  | S fuel =>
      s ← get;
      match last (log s) with
      | Some (Discover _ 0) => serve;; turns fuel
      | Some (BleMsg e v) => app_ble_event_handle host e v;; turns fuel
      | _ => mret tt
      end
  end.
End Disc.

(** ** Characteristics *)
Definition U0 : bt_uuid := Uuid128 [0xBD; 0x1D; 0xA2; 0x99; 0xE6; 0x25; 0x58; 0x8C; 0xD9; 0x42; 0x01; 0x63; 0x0D; 0x12; 0xBF; 0x9F].
Definition U1 : bt_uuid := Uuid128 [0xD9; 0xD9; 0xAA; 0xFD; 0xBD; 0x9B; 0x21; 0x98; 0xA8; 0x49; 0xE1; 0x45; 0xF3; 0xD8; 0xD1; 0x69].
Definition U2 : bt_uuid := Uuid128 [0xFB; 0x7B; 0x7C; 0xCE; 0x6A; 0xB3; 0x44; 0xBE; 0xB5; 0x4B; 0xD6; 0x24; 0xE9; 0xC6; 0xEA; 0x22].
(** The three characteristics with these handles. *)
Definition chars_are (h0 h1 h2 d0 d1 d2 : Z) (l : list gatt_characteristic) : Prop := exists e0 e1 e2,
  l = [GattCharacteristic h0 e0 U0 true d0; GattCharacteristic h1 e1 U1 false d1; GattCharacteristic h2 e2 U2 true d2].
(** The handle of the last declaration with this UUID. *)
Fixpoint declared (l : list (Z * bt_uuid)) (u : bt_uuid) (old : Z) : Z :=
  match l with [] => old | (h, v) :: l => declared l u (if decide (v = u) then h else old) end.
Lemma declared_absent l u old : u ∉ l.*2 -> declared l u old = old.
Proof.
  revert old. induction l as [|[h v] l IH]; intros old Hu; [done|]. cbn in *. apply not_elem_of_cons in Hu as [Hv Hu].
  rewrite decide_False by done. by apply IH.
Qed.
Lemma declared_once l u h old : NoDup (l.*2) -> (h, u) ∈ l -> declared l u old = h.
Proof.
  revert old. induction l as [|[k v] l IH]; intros old Hn Hin; [by apply elem_of_nil in Hin|].
  apply NoDup_cons in Hn as [Hv Hn]. apply elem_of_cons in Hin as [[= -> ->]|Hin]; cbn.
  - rewrite decide_True by done. by apply declared_absent.
  - by apply IH.
Qed.

Section Found.
Context {NS : Type} `{NV : Nvram NS} (host : list ancs_event -> Z) (bt_uuid_cmp : bt_uuid -> bt_uuid -> Z).
Hypothesis cmp_spec : forall u v, bt_uuid_cmp u v = 0 <-> u = v.
#[local] Abbreviation AN := (M (ancs NS)).

Lemma cmp_eqb u v : (bt_uuid_cmp u v =? 0) = bool_decide (u = v).
Proof using cmp_spec.
  destruct (Z.eqb_spec (bt_uuid_cmp u v) 0) as [E|E]; symmetry; [apply bool_decide_eq_true|apply bool_decide_eq_false]; by rewrite <- cmp_spec.
Qed.
(** The service while its characteristics are collected. *)
Record collecting (a b h0 h1 h2 d0 d1 d2 : Z) (v : gatt_service) : Prop := {
  cl_start : start_handle v = a; cl_end : end_handle v = b; cl_uuid : uuid v = ANCS_UUID;
  cl_chars : chars_are h0 h1 h2 d0 d1 d2 (char_data v);
  cl_index : char_index v = 0xFFFF \/ 0 <= char_index v < 3 }.
Lemma set_service (s : ancs NS) f g : s <| service ::= f |> <| service ::= g |> = s <| service := g (f (service s)) |>.
Proof. reflexivity. Qed.
Lemma upd_char_ok i f (s : ancs NS) c l (Q : unit -> ancs NS -> Prop) : rd (char_data (service s)) i = Some c ->
  wr (char_data (service s)) i (f c) = Some l -> Q tt (s <| service := (service s) <| char_data := l |> |>) -> ends (upd_char i f) s Q.
Proof.
  intros Hc Hl HQ. unfold upd_char, upd_sv. hoare. eapply ends_lift; [exact Hc|]. hoare. eapply ends_lift; [exact Hl|]. by hoare.
Qed.
Lemma end_handle_set i e h0 h1 h2 d0 d1 d2 l : 0 <= i < 3 -> chars_are h0 h1 h2 d0 d1 d2 l ->
  exists c l', rd l i = Some c /\ wr l i (c <| ch_end_handle := e |>) = Some l' /\ chars_are h0 h1 h2 d0 d1 d2 l'.
Proof.
  intros Hi (e0 & e1 & e2 & ->). assert (i = 0 \/ i = 1 \/ i = 2) as [-> | [-> | ->]] by lia;
    (eexists _, _; split; [reflexivity|]; split; [reflexivity|]; by eexists _, _, _).
Qed.
Lemma store_declaration index h a b h0 h1 h2 g0 g1 g2 d0 d1 d2 (s : ancs NS) c l : collecting a b h0 h1 h2 d0 d1 d2 (service s) ->
  rd (char_data (service s)) index = Some c ->
  wr (char_data (service s)) index (c <| ch_start_handle := h |> <| ch_end_handle := end_handle (service s) |>) = Some l ->
  chars_are g0 g1 g2 d0 d1 d2 l -> 0 <= index < 3 ->
  ends (upd_char index (fun c => c <| ch_start_handle := h |> <| ch_end_handle := end_handle (service s) |>);;
        when (negb (char_index (service s) =? 0xFFFF)) (upd_char (char_index (service s)) (fun c => c <| ch_end_handle := u16 (h - 2) |>));;
        upd_sv (fun v => v <| char_index := index |>)) s (fun _ s' => exists v, s' = s <| service := v |> /\
    collecting a b g0 g1 g2 d0 d1 d2 v).
Proof.
  intros [Ea Eb Eu Ec Ei] Hc Hl Hg Hi. apply ends_bind. eapply upd_char_ok; [exact Hc|exact Hl|].
  set (s1 := s <| service := _ |>). apply ends_bind, ends_when.
  - intros Hx. destruct (end_handle_set (char_index (service s)) (u16 (h - 2)) g0 g1 g2 d0 d1 d2 l) as (c' & l' & Hc' & Hl' & Hg'); [|done|].
    { destruct Ei as [Ei|]; [|done]. by rewrite Ei in Hx. }
    eapply upd_char_ok; [exact Hc'|exact Hl'|]. unfold upd_sv. hoare. eexists. split; [reflexivity|]. split; cbn; [done..|by right].
  - intros _. unfold upd_sv. hoare. eexists. split; [reflexivity|]. split; cbn; [done..|by right].
Qed.
Lemma declaration_ok u h a b h0 h1 h2 d0 d1 d2 (s : ancs NS) : collecting a b h0 h1 h2 d0 d1 d2 (service s) ->
  ends (handle_gatt_service_characteristic_declaration_info_ind bt_uuid_cmp u h) s (fun _ s' => exists v, s' = s <| service := v |> /\
    collecting a b (if decide (u = U0) then h else h0) (if decide (u = U1) then h else h1) (if decide (u = U2) then h else h2) d0 d1 d2 v).
Proof using cmp_spec.
  intros C. pose proof C as [_ _ _ (e0 & e1 & e2 & Ec) _]. unfold handle_gatt_service_characteristic_declaration_info_ind. hoare.
  assert (find_char bt_uuid_cmp (char_data (service s)) u 0 =
    if decide (u = U0) then Some 0 else if decide (u = U1) then Some 1 else if decide (u = U2) then Some 2 else None) as ->.
  { rewrite Ec. cbn [find_char ch_uuid]. rewrite !cmp_eqb. repeat (case_bool_decide; case_decide; try congruence); done. }
  assert (U0 <> U1 /\ U0 <> U2 /\ U1 <> U2) as (N1 & N2 & N3) by done.
  destruct (decide (u = U0)) as [->|]; [|destruct (decide (u = U1)) as [->|]; [|destruct (decide (u = U2)) as [->|]]].
  - rewrite !decide_False by done. eapply (store_declaration 0); [exact C|by rewrite Ec|by rewrite Ec|by eexists _, _, _|lia].
  - rewrite decide_False by done. eapply (store_declaration 1); [exact C|by rewrite Ec|by rewrite Ec|by eexists _, _, _|lia].
  - eapply (store_declaration 2); [exact C|by rewrite Ec|by rewrite Ec|by eexists _, _, _|lia].
  - apply ends_ret. exists (service s). split; [by destruct s|done].
Qed.

(** The host's report of a characteristic discovery. *)
Lemma report_chars l : forall a b h0 h1 h2 d0 d1 d2 (s : ancs NS), collecting a b h0 h1 h2 d0 d1 d2 (service s) ->
  dp_type (discover_params s) = BT_GATT_DISCOVER_CHARACTERISTIC -> (l <> [] \/ chrc_is_found s = true) ->
  ends (report bt_uuid_cmp ((fun x => FChar x.1 x.2) <$> l)) s (fun _ s' => exists v,
    s' = s <| service := v |> <| log ::= (fun t => t ++ [BleMsg BLE_DISC_SERVICE_CHAR_IND 0]) |> <| chrc_is_found := false |>
           <| discover_params := DiscoverParams None 0 0 0 |> /\
    collecting a b (declared l U0 h0) (declared l U1 h1) (declared l U2 h2) d0 d1 d2 v).
Proof using cmp_spec.
  induction l as [|[h u] l IH]; intros a b h0 h1 h2 d0 d1 d2 s C Ht Hf; cbn [fmap list_fmap report].
  - destruct Hf as [Hf|Hf]; [done|]. unfold discover_func, app_disc_send_msg_to_app, emit. hoare. rewrite Ht, Hf. cbn [Z.eqb Pos.eqb].
    hoare. exists (service s). split; [by destruct s|done].
  - apply ends_bind. unfold discover_func. hoare. rewrite Ht. cbn [Z.eqb Pos.eqb orb]. hoare.
    eapply ends_mono; [apply (declaration_ok u h a b h0 h1 h2 d0 d1 d2); exact C|]. intros [] s1 (v & -> & C1). hoare.
    eapply ends_mono; [eapply (IH a b); [exact C1|exact Ht|by right]|]. intros [] s2 (w & -> & C2). exists w. split; [by destruct s|].
    cbn [declared]. exact C2.
Qed.

(** ** The stages of a discovery *)
Hypothesis host_ok : forall t, host t = 0.
Record common (c : Z) (s : ancs NS) : Prop := {
  co_conn : pconn (app_cb s) = Some c; co_conf : notif_configuring (app_cb s) = false;
  co_index : service_index (discovery s) = 0;
  co_flags : service_is_found s = false /\ chrc_is_found s = false /\ chrc_dec_is_found s = false }.
Definition no_params : discover_params_t := DiscoverParams None 0 0 0.
Record stage (c : Z) (e : ancs_event) (p : discover_params_t) (P : gatt_service -> Prop) (s s' : ancs NS) : Prop := {
  st_common : common c s'; st_last : last (log s') = Some e; st_params : discover_params s' = p; st_service : P (service s');
  st_nv : nv s' = nv s }.
Ltac stage_done := split; [by split|cbn; by rewrite last_snoc|done|cbn|done].
Ltac stage_done_from Hp := split; [by split|cbn; by rewrite last_snoc|cbn; by rewrite Hp|cbn|done].

Lemma stage_start c lvl (s : ancs NS) (P : gatt_service -> Prop) : common c s -> uuid (service s) = ANCS_UUID -> P (service s) ->
  let p := DiscoverParams (Some ANCS_UUID) 1 0xffff BT_GATT_DISCOVER_PRIMARY in
  ends (app_ble_event_handle host BLE_CONN_SEC_OPEN_IND lvl) s (fun _ s' => stage c (Discover p 0) p P s s').
Proof using host_ok.
  intros [Hc Hf Hi Hfl] Hu HP p. unfold app_ble_event_handle, if_connected. cbn [Z.eqb Pos.eqb BLE_CONN_SEC_OPEN_IND BLE_CONN_OPEN_IND]. hoare. rewrite Hc.
  unfold start_gatt_database_discovery, upd_disc, discover_a_primary_service, GattDiscoverPrimaryServiceByUuid, bt_gatt_discover, call, emit. hoare.
  rewrite host_ok. change (uuid (service _)) with (uuid (service s)). rewrite Hu. stage_done. done.
Qed.
Lemma stage_primary c ph P (s : ancs NS) :
  let p := DiscoverParams (Some ANCS_UUID) 1 0xffff BT_GATT_DISCOVER_PRIMARY in
  common c s -> discover_params s = p -> P (service s) ->
  ends (serve bt_uuid_cmp ph) s (fun _ s' => stage c (BleMsg BLE_DISC_PRIM_SERV_IND 0) no_params
    (fun v => exists w, P w /\ v = w <| start_handle := (ph_service ph).1 |> <| end_handle := (ph_service ph).2 |> <| char_index := 0 |>) s s').
Proof using.
  intros p [Hc Hf Hi (F1 & F2 & F3)] Hp HP. unfold serve. hoare. rewrite Hp. unfold p, answers. cbn [dp_type dp_uuid Z.eqb BT_GATT_DISCOVER_PRIMARY].
  rewrite bool_decide_true by done. cbn [report]. apply ends_bind. unfold discover_func. hoare. rewrite Hp. cbn [dp_type Z.eqb BT_GATT_DISCOVER_PRIMARY BT_GATT_DISCOVER_SECONDARY orb p].
  unfold handle_discover_primary_service_ind, upd_sv, app_disc_send_msg_to_app, emit. hoare.
  change (discover_params (_ <| service ::= _ |>)) with (discover_params s). rewrite Hp. cbn [dp_type p Z.eqb BT_GATT_DISCOVER_PRIMARY]. hoare.
  stage_done. by exists (service s).
Qed.
Ltac enter ev Hc := unfold app_ble_event_handle, if_connected; cbn [Z.eqb Pos.eqb ev
    BLE_CONN_OPEN_IND BLE_CONN_SEC_OPEN_IND BLE_CONN_CLOSE_IND BLE_DISC_PRIM_SERV_IND BLE_DISC_SERVICE_CHAR_IND BLE_DISC_SERVICE_CHAR_DESC_IND BLE_DISCOVERY_COMPELTE_IND];
  hoare; rewrite Hc; change (u8 0) with 0.
Lemma stage_service c a b h0 h1 h2 d0 d1 d2 (s : ancs NS) : common c s -> discover_params s = no_params ->
  start_handle (service s) = a -> end_handle (service s) = b -> a <> 0 -> b <> 0 -> uuid (service s) = ANCS_UUID ->
  chars_are h0 h1 h2 d0 d1 d2 (char_data (service s)) ->
  let p := DiscoverParams None a b BT_GATT_DISCOVER_CHARACTERISTIC in
  ends (app_ble_event_handle host BLE_DISC_PRIM_SERV_IND 0) s (fun _ s' =>
    stage c (Discover p 0) p (collecting a b h0 h1 h2 d0 d1 d2) s s').
Proof using host_ok.
  intros [Hc Hf Hi Hfl] Hp Ea Eb Ha Hb Hu Hch p. enter BLE_DISC_PRIM_SERV_IND Hc.
  unfold handle_service_discovery_primary_service_by_uuid_cfm. hoare. rewrite Ea, Eb.
  destruct (Z.eqb_spec a INVALID_ATT_HANDLE), (Z.eqb_spec b INVALID_ATT_HANDLE); try done. cbn [Z.eqb negb andb].
  unfold upd_sv, GattDiscoverServiceChar, bt_gatt_discover, call, emit. hoare. rewrite host_ok.
  cbn [discover_params set_field]. rewrite Hp. stage_done_from Hp. split; cbn; [done..|by left].
Qed.
Lemma stage_chars c ph a b h0 h1 h2 d0 d1 d2 (s : ancs NS) :
  let p := DiscoverParams None a b BT_GATT_DISCOVER_CHARACTERISTIC in
  let l := List.filter (in_range p) (ph_chars ph) in
  common c s -> discover_params s = p -> collecting a b h0 h1 h2 d0 d1 d2 (service s) -> l <> [] ->
  ends (serve bt_uuid_cmp ph) s (fun _ s' => stage c (BleMsg BLE_DISC_SERVICE_CHAR_IND 0) no_params
    (collecting a b (declared l U0 h0) (declared l U1 h1) (declared l U2 h2) d0 d1 d2) s s').
Proof using cmp_spec.
  intros p l [Hc Hf Hi (F1 & F2 & F3)] Hp C Hl. unfold serve. hoare. rewrite Hp. unfold answers. cbn [dp_type p Z.eqb Pos.eqb BT_GATT_DISCOVER_CHARACTERISTIC BT_GATT_DISCOVER_PRIMARY].
  fold l. eapply ends_mono; [eapply (report_chars l a b); [exact C|by rewrite Hp|by left]|]. intros [] s' (v & -> & C'). stage_done. exact C'.
Qed.
Lemma stage_first_descr c a b h0 h1 h2 d0 d1 d2 (s : ancs NS) : common c s -> discover_params s = no_params ->
  collecting a b h0 h1 h2 d0 d1 d2 (service s) -> h0 <> 0 ->
  let p := DiscoverParams None (u16 (h0 + 2)) (u16 (h0 + 2)) BT_GATT_DISCOVER_DESCRIPTOR in
  ends (app_ble_event_handle host BLE_DISC_SERVICE_CHAR_IND 0) s (fun _ s' =>
    stage c (Discover p 0) p (fun v => collecting a b h0 h1 h2 d0 d1 d2 v /\ char_index v = 0) s s').
Proof using host_ok.
  intros [Hc Hf Hi Hfl] Hp [Ea Eb Eu (e0 & e1 & e2 & Ec) Ei] H0 p. enter BLE_DISC_SERVICE_CHAR_IND Hc.
  unfold handle_gatt_discover_service_characteristic_cfm. hoare. rewrite Ec. cbn [first_ccd has_ccd length default from_option id]. unfold upd_sv. hoare.
  cbn [Z.eqb]. apply ends_bind. eapply ends_lift; [reflexivity|]. hoare. cbn [ch_start_handle].
  destruct (Z.eqb_spec h0 INVALID_ATT_HANDLE); [done|]. rewrite bool_decide_true by by eexists. cbn [negb andb].
  unfold discover_descriptor_of, char_at, GattDiscoverAllCharDescriptors, bt_gatt_discover, call, emit. hoare. cbn [service char_data set_field]. rewrite Ec.
  eapply ends_lift; [reflexivity|]. hoare. rewrite host_ok. cbn [discover_params set_field ch_start_handle]. rewrite Hp. stage_done_from Hp.
  split; [|done]. split; cbn; [done..|by eexists _, _, _|by right].
Qed.
(** The descriptor of one characteristic. *)
Definition ccc_uuid : bt_uuid := Uuid16 BT_UUID_GATT_CCC_VAL.
Lemma ccd_set i x h0 h1 h2 d0 d1 d2 l : i = 0 \/ i = 2 -> chars_are h0 h1 h2 d0 d1 d2 l ->
  exists c l', rd l i = Some c /\ wr l i (c <| ccd_handle := x |>) = Some l' /\
    chars_are h0 h1 h2 (if i =? 0 then x else d0) d1 (if i =? 2 then x else d2) l'.
Proof using.
  intros [-> | ->] (e0 & e1 & e2 & ->); (eexists _, _; split; [reflexivity|]; split; [reflexivity|]; by eexists _, _, _).
Qed.
Lemma stage_descr c ph i x a b h0 h1 h2 d0 d1 d2 (s : ancs NS) : i = 0 \/ i = 2 ->
  let p := DiscoverParams None x x BT_GATT_DISCOVER_DESCRIPTOR in
  common c s -> discover_params s = p -> collecting a b h0 h1 h2 d0 d1 d2 (service s) -> char_index (service s) = i ->
  List.filter (in_range p) (ph_descrs ph) = [(x, ccc_uuid)] ->
  ends (serve bt_uuid_cmp ph) s (fun _ s' => stage c (BleMsg BLE_DISC_SERVICE_CHAR_DESC_IND 0) no_params
    (fun v => collecting a b h0 h1 h2 (if i =? 0 then x else d0) d1 (if i =? 2 then x else d2) v /\ char_index v = i) s s').
Proof using.
  intros Hi p [Hc Hf Hx (F1 & F2 & F3)] Hp [Ea Eb Eu Ec Ei] Hci Hd. unfold serve. hoare. rewrite Hp. unfold answers. cbn [dp_type p Z.eqb Pos.eqb BT_GATT_DISCOVER_CHARACTERISTIC BT_GATT_DISCOVER_PRIMARY BT_GATT_DISCOVER_DESCRIPTOR].
  rewrite Hd. cbn [fmap list_fmap report fst snd]. apply ends_bind. unfold discover_func. hoare. rewrite Hp.
  cbn [dp_type p Z.eqb Pos.eqb orb BT_GATT_DISCOVER_SECONDARY BT_GATT_DISCOVER_INCLUDE BT_GATT_DISCOVER_CHARACTERISTIC BT_GATT_DISCOVER_PRIMARY BT_GATT_DISCOVER_DESCRIPTOR]. hoare.
  unfold handle_gatt_characteristic_descriptor_info_ind, ccc_uuid. hoare. rewrite Z.eqb_refl.
  match goal with |- context [upd_char (char_index (service ?t))] => replace (char_index (service t)) with i by (symmetry; exact Hci) end.
  destruct (ccd_set i x _ _ _ _ _ _ _ Hi Ec) as (ch & l & Hrd & Hwr & Hl). eapply upd_char_ok; [exact Hrd|exact Hwr|].
  unfold app_disc_send_msg_to_app, emit. hoare. match goal with |- context [dp_type (discover_params ?t)] => change (discover_params t) with (discover_params s) end. rewrite Hp.
  cbn [dp_type p Z.eqb Pos.eqb orb BT_GATT_DISCOVER_SECONDARY BT_GATT_DISCOVER_INCLUDE BT_GATT_DISCOVER_CHARACTERISTIC BT_GATT_DISCOVER_PRIMARY BT_GATT_DISCOVER_DESCRIPTOR]. hoare.
  stage_done. split; [by split|done].
Qed.
Lemma stage_next_descr c a b h0 h1 h2 d0 d1 d2 (s : ancs NS) : common c s -> discover_params s = no_params ->
  collecting a b h0 h1 h2 d0 d1 d2 (service s) -> char_index (service s) = 0 ->
  let p := DiscoverParams None (u16 (h2 + 2)) (u16 (h2 + 2)) BT_GATT_DISCOVER_DESCRIPTOR in
  ends (app_ble_event_handle host BLE_DISC_SERVICE_CHAR_DESC_IND 0) s (fun _ s' =>
    stage c (Discover p 0) p (fun v => collecting a b h0 h1 h2 d0 d1 d2 v /\ char_index v = 2) s s').
Proof using host_ok.
  intros [Hc Hf Hi Hfl] Hp [Ea Eb Eu (e0 & e1 & e2 & Ec) Ei] Hx p. enter BLE_DISC_SERVICE_CHAR_DESC_IND Hc.
  unfold handle_gatt_characteristic_descriptor_cfm. cbn [Z.eqb]. hoare. rewrite Hx. change (u16 (0 + 1)) with 1. rewrite Ec. change (Z.to_nat 1) with 1%nat.
  cbn [drop first_ccd has_ccd]. change (1 + 1) with 2. unfold upd_sv. hoare.
  unfold discover_descriptor_of, char_at, GattDiscoverAllCharDescriptors, bt_gatt_discover, call, emit. hoare. cbn [service char_data set_field]. rewrite Ec.
  eapply ends_lift; [reflexivity|]. hoare. rewrite host_ok. cbn [discover_params set_field ch_start_handle]. rewrite Hp. stage_done_from Hp.
  split; [|done]. split; cbn; [done..|by eexists _, _, _|by right].
Qed.

(** ** The end of the discovery, and what is stored *)
Context {NVL : NvramLaws NS}.
Hypothesis room : forall k d n, 0 <= (nvram_config_set k d n).1.
Lemma set_view k d n k' : nv_view (nvram_config_set k d n).2 k' = if decide (k' = k) then Some d else nv_view n k'.
Proof using room. case_decide; subst; [by apply nv_set_ok|by apply nv_set_other]. Qed.
(** The store holds these handles. *)
Record stored (a b h0 h1 h2 d0 d1 d2 : Z) (n : NS) : Prop := {
  so_start : nv_view n "ancs_srv_s_h" = Some (u16_bytes a); so_end : nv_view n "ancs_srv_e_h" = Some (u16_bytes b);
  so_h0 : nv_view n "ancs_ch_h_0" = Some (u16_bytes h0); so_d0 : nv_view n "ancs_ch_ccd_h_0" = Some (u16_bytes d0);
  so_h1 : nv_view n "ancs_ch_h_1" = Some (u16_bytes h1); so_d1 : nv_view n "ancs_ch_ccd_h_1" = Some (u16_bytes d1);
  so_h2 : nv_view n "ancs_ch_h_2" = Some (u16_bytes h2); so_d2 : nv_view n "ancs_ch_ccd_h_2" = Some (u16_bytes d2) }.
Lemma stage_complete c a b h0 h1 h2 d0 d1 d2 (s : ancs NS) : common c s -> collecting a b h0 h1 h2 d0 d1 d2 (service s) -> char_index (service s) = 2 ->
  ends (app_ble_event_handle host BLE_DISC_SERVICE_CHAR_DESC_IND 0) s (fun _ s' => exists v,
    last (log s') = Some (BleMsg BLE_DISCOVERY_COMPELTE_IND v) /\ app_cb s' = app_cb s /\ service s' = service s /\
    stored a b h0 h1 h2 d0 d1 d2 (nv s') /\ nv_view (nv s') "sanity" = nv_view (nv s) "sanity").
Proof using host_ok room.
  intros [Hc Hf Hi Hfl] [Ea Eb Eu (e0 & e1 & e2 & Ec) Ei] Hx. enter BLE_DISC_SERVICE_CHAR_DESC_IND Hc.
  unfold handle_gatt_characteristic_descriptor_cfm. cbn [Z.eqb]. hoare. rewrite Hx. change (u16 (2 + 1)) with 3. rewrite Ec. change (Z.to_nat 3) with 3%nat.
  cbn [drop first_ccd]. unfold next_service, upd_disc. hoare. cbn [discovery service_index set_field]. rewrite Hi. change (u16 (0 + 1)) with 1. cbn [Z.eqb].
  unfold stop_gatt_database_discovery, write_disc_ancs_service_handles_to_nvm, nv_set, emit, upd_disc, app_disc_send_msg_to_app. hoare.
  cbn [service set_field]. rewrite Ec. cbn [write_chars]. unfold nv_set, emit. hoare. eexists. cbn [log set_field app_cb service nv]. rewrite last_snoc.
  split; [reflexivity|]. split; [done|]. split; [done|]. rewrite Ea, Eb. cbn [ch_start_handle ccd_handle char_key ccd_key nth].
  split; [split|]; rewrite !set_view; reflexivity.
Qed.
Lemma stage_configure c v a b h0 h1 h2 d0 d1 d2 (s : ancs NS) : pconn (app_cb s) = Some c -> notif_configuring (app_cb s) = false ->
  collecting a b h0 h1 h2 d0 d1 d2 (service s) -> d0 <> 0 -> stored a b h0 h1 h2 d0 d1 d2 (nv s) ->
  ends (app_ble_event_handle host BLE_DISCOVERY_COMPELTE_IND v) s (fun _ s' => exists t,
    log s' = t ++ [Subscribe d2 (u16 (h2 + 1)) 0; Subscribe d0 (u16 (h0 + 1)) 0] /\ pconn (app_cb s') = Some c /\ service s' = service s /\
    subscribe_params_ns s' = (d0, u16 (h0 + 1)) /\ subscribe_params_nc s' = (d2, u16 (h2 + 1)) /\
    stored a b h0 h1 h2 d0 d1 d2 (nv s') /\ nv_view (nv s') "sanity" = nv_view (nv s) "sanity" /\ nv_view (nv s') "disc_h_present" = Some [1]).
Proof using host_ok room.
  intros Hc Hf [Ea Eb Eu (e0 & e1 & e2 & Ec) Ei] Hd Hst. enter BLE_DISCOVERY_COMPELTE_IND Hc.
  unfold upd_cb, nv_set, emit, get_ancs_notification_ccd_handle, char_at. hoare. cbn [service set_field]. rewrite Ec.
  eapply ends_lift; [reflexivity|]. hoare. cbn [ccd_handle]. destruct (Z.eqb_spec d0 INVALID_ATT_HANDLE); [done|]. cbn [negb]. hoare.
  match goal with |- context [notif_configuring (app_cb ?t)] => replace (notif_configuring (app_cb t)) with false by (symmetry; exact Hf) end. cbn [negb when].
  unfold upd_cb, appConfigureNotifications, configure_ancs_data_source_notification, configure_ancs_notifications, get_ancs_data_source_ccd_handle, get_ancs_data_source_handle,
    get_ancs_notification_ccd_handle, get_ancs_notification_handle, char_at, call, emit. hoare. cbn [service set_field]. rewrite Ec.
  do 2 (eapply ends_lift; [reflexivity|]; hoare; cbn [service set_field ccd_handle ch_start_handle]; rewrite ?Ec).
  rewrite !host_ok. hoare. cbn [service set_field]. rewrite ?Ec.
  do 2 (eapply ends_lift; [reflexivity|]; hoare; cbn [service set_field ccd_handle ch_start_handle]; rewrite ?Ec).
  rewrite !host_ok. hoare. eexists. cbn [log set_field]. rewrite <- (app_assoc _ [_]). split; [reflexivity|].
  split; [done|]. split; [done|]. split; [done|]. split; [done|]. cbn [nv set_field]. destruct Hst.
  split; [split; by rewrite set_view, decide_False by done|]. by rewrite !set_view.
Qed.

(** ** The next start *)
Definition is_handle (v : Z) : Prop := 0 <= v < 65536.
Lemma u16_bytes_back v old : is_handle v -> bytes_u16 (u16_bytes v) old = v.
Proof using. intros Hv. unfold is_handle in Hv. unfold u16_bytes. cbn. Z.to_euclidean_division_equations; lia. Qed.
Lemma ends_get_u16 key old v (s : ancs NS) (Q : Z -> ancs NS -> Prop) : nv_view (nv s) key = Some (u16_bytes v) -> is_handle v ->
  Q v s -> ends (nv_get_u16 key old) s Q.
Proof using NVL.
  intros Hk Hv HQ. unfold nv_get_u16. apply ends_gets. rewrite (nv_get_some key 2 (nv s) _ Hk) by (cbn; lia). cbn [snd].
  by rewrite u16_bytes_back.
Qed.
Lemma handles_restored a b h0 h1 h2 d0 d1 d2 x0 x1 x2 y0 y1 y2 (s : ancs NS) : Forall is_handle [a; b; h0; h1; h2; d0; d1; d2] ->
  stored a b h0 h1 h2 d0 d1 d2 (nv s) -> nv_view (nv s) "sanity" = Some (u16_bytes NVM_SANITY_MAGIC) -> nv_view (nv s) "disc_h_present" = Some [1] ->
  chars_are x0 x1 x2 y0 y1 y2 (char_data (service s)) ->
  ends (bt_ready host 0) s (fun _ s' => start_handle (service s') = a /\ end_handle (service s') = b /\
    chars_are h0 h1 h2 d0 d1 d2 (char_data (service s'))).
Proof using NVL.
  intros HF [S1 S2 S3 S4 S5 S6 S7 S8] Hsan Hpres (e0 & e1 & e2 & Ec). repeat (apply Forall_cons in HF as [? HF]).
  unfold bt_ready, emit. hoare. change (truthy 0) with false. cbv iota. hoare. unfold read_persistent_store. apply ends_bind.
  eapply ends_get_u16; [exact Hsan|unfold is_handle, NVM_SANITY_MAGIC; lia|]. rewrite Z.eqb_refl. unfold read_bool, upd_cb. hoare.
  set (s1 := _ <| app_cb ::= _ |>).
  apply (ends_mono _ _ (fun _ s' => service s' = service s /\ nv s' = nv s)); [by case_match; [apply ends_modify|apply ends_ret]|]. intros [] s2 [V2 N2]. hoare.
  rewrite N2. rewrite (nv_get_some "disc_h_present" 1 (nv s) _ Hpres) by (cbn; lia). cbn [snd]. change (truthy 1) with true. cbn [read_disc_ancs_service_handles_from_nvm].
  hoare. cbn [service set_field]. rewrite V2, Ec.
  do 2 (eapply ends_get_u16; [cbn [nv set_field]; rewrite N2; eassumption|done|]; hoare). cbn [read_chars char_key ccd_key nth].
  do 3 (do 2 (hoare; eapply ends_get_u16; [cbn [nv set_field]; rewrite N2; eassumption|done|])).
  hoare. unfold app_data_init, upd_cb, call, emit. hoare. cbn [service set_field start_handle end_handle char_data]. split; [done|]. split; [done|]. by eexists _, _, _.
Qed.

(** ** Taking turns *)
Lemma turns_host fuel ph p (s : ancs NS) Q : last (log s) = Some (Discover p 0) ->
  ends (serve bt_uuid_cmp ph) s (fun _ s' => ends (turns host bt_uuid_cmp ph fuel) s' Q) -> ends (turns host bt_uuid_cmp ph (S fuel)) s Q.
Proof using. intros Hl HQ. cbn [turns]. hoare. rewrite Hl. by apply ends_bind. Qed.
Lemma turns_msg fuel ph e v (s : ancs NS) Q : last (log s) = Some (BleMsg e v) ->
  ends (app_ble_event_handle host e v) s (fun _ s' => ends (turns host bt_uuid_cmp ph fuel) s' Q) -> ends (turns host bt_uuid_cmp ph (S fuel)) s Q.
Proof using. intros Hl HQ. cbn [turns]. hoare. rewrite Hl. by apply ends_bind. Qed.

(** A phone with the service at [a] to [b] and in it the three characteristics, declared at
    these handles among any others, two of them with a client configuration behind their
    value. *)
Record serves (ph : phone) (a b h0 h1 h2 : Z) : Prop := {
  sv_service : ph_service ph = (a, b);
  sv_handles : 0 < a /\ a <= h0 /\ a <= h1 /\ a <= h2 /\ h0 + 2 <= b /\ h1 + 1 <= b /\ h2 + 2 <= b /\ b < 65536;
  sv_differ : h0 <> h2;
  sv_once : NoDup ((ph_chars ph).*2);
  sv_chars : (h0, U0) ∈ ph_chars ph /\ (h1, U1) ∈ ph_chars ph /\ (h2, U2) ∈ ph_chars ph;
  sv_ccc : forall h, h = h0 \/ h = h2 -> List.filter (fun d => d.1 =? h + 2) (ph_descrs ph) = [(h + 2, ccc_uuid)] }.
Lemma declared_in_range ph p h u old : NoDup ((ph_chars ph).*2) -> (h, u) ∈ ph_chars ph -> in_range p (h, u) = true ->
  declared (List.filter (in_range p) (ph_chars ph)) u old = h /\ List.filter (in_range p) (ph_chars ph) <> [].
Proof using.
  intros Hn Hin Hr. assert ((h, u) ∈ List.filter (in_range p) (ph_chars ph)) as Hin'.
  { apply list_elem_of_In, filter_In. by rewrite <- list_elem_of_In. }
  split; [|by intros E; rewrite E in Hin'; apply elem_of_nil in Hin']. apply declared_once; [|done].
  clear Hin Hin' Hr. induction (ph_chars ph) as [|x l IH]; [constructor|]. apply NoDup_cons in Hn as [Hx Hn]. cbn [List.filter]. 
  destruct (in_range p x); [|by apply IH]. cbn. apply NoDup_cons. split; [|by apply IH]. intros Hx'. apply Hx.
  apply list_elem_of_fmap in Hx' as (y & Ey & Hy). apply list_elem_of_fmap. exists y. split; [done|].
  apply list_elem_of_In, filter_In in Hy as [Hy _]. by apply list_elem_of_In.
Qed.
Lemma filter_at l x : List.filter (in_range (DiscoverParams None x x BT_GATT_DISCOVER_DESCRIPTOR)) l = List.filter (fun d => d.1 =? x) l.
Proof using.
  apply filter_ext. intros d. unfold in_range. cbn. destruct (Z.leb_spec x d.1), (Z.leb_spec d.1 x), (Z.eqb_spec d.1 x); cbn; lia || done.
Qed.

(** C18. Discovery configures the service, and its handles survive a restart.  When the link
    to a phone that has the service is secured, the turns of host and main loop end with the
    module subscribed to the data source and the notification source at the phone's
    handles; and a module that starts again with the same store knows all handles. *)
Theorem discovery_configures ph a b h0 h1 h2 x0 x1 x2 y0 y1 y2 c lvl (s : ancs NS) : serves ph a b h0 h1 h2 -> common c s ->
  uuid (service s) = ANCS_UUID -> chars_are x0 x1 x2 y0 y1 y2 (char_data (service s)) -> is_handle y1 ->
  nv_view (nv s) "sanity" = Some (u16_bytes NVM_SANITY_MAGIC) ->
  ends (app_ble_event_handle host BLE_CONN_SEC_OPEN_IND lvl;; turns host bt_uuid_cmp ph 20) s (fun _ s' =>
    (exists t, log s' = t ++ [Subscribe (h2 + 2) (h2 + 1) 0; Subscribe (h0 + 2) (h0 + 1) 0]) /\
    ready c (h0 + 1) (h2 + 1) (h1 + 1) s' /\
    forall fresh : ancs NS, nv fresh = nv s' -> chars_are 0 0 0 0 0 0 (char_data (service fresh)) ->
      ends (bt_ready host 0) fresh (fun _ s2 => start_handle (service s2) = a /\ end_handle (service s2) = b /\
        chars_are h0 h1 h2 (h0 + 2) y1 (h2 + 2) (char_data (service s2)))).
Proof using cmp_spec host_ok room NVL.
  intros [Esv Hr Hdf Hon (Hc0 & Hc1 & Hc2) Hccc] C Hu Hch Hy Hsan. apply ends_bind.
  eapply ends_mono; [apply (stage_start c lvl s (fun v => v = service s)); done|]. intros ? s1 [C1 L1 P1 V1 N1].
  eapply turns_host; [exact L1|]. eapply ends_mono; [apply (stage_primary c ph (fun v => v = service s)); [exact C1|exact P1|exact V1]|].
  intros ? s2 [C2 L2 P2 (w & -> & V2) N2]. rewrite Esv in V2. cbn in V2.
  eapply turns_msg; [exact L2|]. eapply ends_mono.
  { apply (stage_service c a b x0 x1 x2 y0 y1 y2); [done|done|by rewrite V2|by rewrite V2|lia|lia|by rewrite V2|by rewrite V2]. }
  intros ? s3 [C3 L3 P3 V3 N3].
  assert (forall h u old, a <= h <= b -> (h, u) ∈ ph_chars ph ->
    declared (List.filter (in_range (DiscoverParams None a b BT_GATT_DISCOVER_CHARACTERISTIC)) (ph_chars ph)) u old = h /\
    List.filter (in_range (DiscoverParams None a b BT_GATT_DISCOVER_CHARACTERISTIC)) (ph_chars ph) <> []) as Hdecl.
  { intros h u old Hh Hin. apply declared_in_range; [done|done|]. unfold in_range. cbn. apply andb_true_iff. split; apply Z.leb_le; lia. }
  eapply turns_host; [exact L3|]. eapply ends_mono.
  { eapply (stage_chars c ph a b); [exact C3|exact P3|exact V3|]. by apply (Hdecl h0 U0 0); [lia|]. }
  intros ? s4 [C4 L4 P4 V4 N4].
  rewrite (proj1 (Hdecl h0 U0 _ ltac:(lia) Hc0)), (proj1 (Hdecl h1 U1 _ ltac:(lia) Hc1)), (proj1 (Hdecl h2 U2 _ ltac:(lia) Hc2)) in V4.
  eapply turns_msg; [exact L4|]. eapply ends_mono; [eapply (stage_first_descr c a b h0); [exact C4|exact P4|exact V4|lia]|].
  intros ? s5 [C5 L5 P5 [V5 I5] N5]. rewrite (u16_small (h0 + 2)) in * by lia.
  eapply turns_host; [exact L5|]. eapply ends_mono.
  { eapply (stage_descr c ph 0 (h0 + 2) a b); [by left|exact C5|exact P5|exact V5|exact I5|]. rewrite filter_at. apply Hccc. by left. }
  intros ? s6 [C6 L6 P6 [V6 I6] N6]. cbn [Z.eqb] in V6.
  eapply turns_msg; [exact L6|]. eapply ends_mono; [eapply (stage_next_descr c a b h0 h1 h2); [exact C6|exact P6|exact V6|exact I6]|].
  intros ? s7 [C7 L7 P7 [V7 I7] N7]. rewrite (u16_small (h2 + 2)) in * by lia.
  eapply turns_host; [exact L7|]. eapply ends_mono.
  { eapply (stage_descr c ph 2 (h2 + 2) a b); [by right|exact C7|exact P7|exact V7|exact I7|]. rewrite filter_at. apply Hccc. by right. }
  intros ? s8 [C8 L8 P8 [V8 I8] N8]. cbn [Z.eqb Pos.eqb] in V8.
  eapply turns_msg; [exact L8|]. eapply ends_mono; [eapply (stage_complete c a b); [exact C8|exact V8|exact I8]|].
  intros ? s9 (v & L9 & A9 & V9 & St9 & N9).
  eapply turns_msg; [exact L9|]. eapply ends_mono.
  { eapply (stage_configure c v a b h0 h1 h2 (h0 + 2) y1 (h2 + 2)); [rewrite A9; by destruct C8|rewrite A9; by destruct C8|by rewrite V9|lia|exact St9]. }
  intros ? s10 (t & E10 & A10 & V10 & _ & _ & St10 & N10 & Pr10).
  rewrite (u16_small (h0 + 1)), (u16_small (h2 + 1)) in E10 by lia. cbn [turns]. hoare. rewrite E10.
  change [Subscribe (h2 + 2) (h2 + 1) 0; Subscribe (h0 + 2) (h0 + 1) 0] with ([Subscribe (h2 + 2) (h2 + 1) 0] ++ [Subscribe (h0 + 2) (h0 + 1) 0]) at 1.
  rewrite (app_assoc t), last_snoc. hoare. split; [by exists t|]. pose proof V8 as [_ _ _ (e0 & e1 & e2 & Ec) _]. split.
  - split; [done| |lia]. rewrite V10, V9, Ec. eexists _, _, _, []. split; [reflexivity|]. split_and!; apply u16_small; lia.
  - intros fresh En Hfr. eapply handles_restored; [|by rewrite En| | |exact Hfr].
    + unfold is_handle in *. repeat (apply Forall_cons_2; [lia|]). apply Forall_nil_2.
    + by rewrite En, N10, N9, N8, N7, N6, N5, N4, N3, N2, N1.
    + by rewrite En.
Qed.
End Found.

(** ** On a concrete phone *)
Definition demo_cmp (u v : bt_uuid) : Z := if decide (u = v) then 0 else 1.
Lemma demo_cmp_spec u v : demo_cmp u v = 0 <-> u = v.
Proof. unfold demo_cmp. by case_decide. Qed.
(** Its control point comes first; a characteristic of its own is in between. *)
Definition demo_phone : phone :=
  Phone (14, 30) [(16, U1); (18, U0); (21, Uuid16 0x2A00); (24, U2)] [(20, ccc_uuid); (22, Uuid16 0x2901); (26, ccc_uuid)].
Definition ancs_connected : ancs (gmap string (list Z)) :=
  ancs_start <| app_cb ::= (fun c => c <| pconn := Some 1 |>) |> <| nv := <["sanity" := u16_bytes NVM_SANITY_MAGIC]> ∅ |>.
Lemma map_room k d (n : gmap string (list Z)) : 0 <= (nvram_config_set k d n).1.
Proof. done. Qed.
Lemma demo_phone_serves : serves demo_phone 14 30 18 16 24.
Proof.
  split; [done|lia|done| | |by intros h [-> | ->]].
  - by apply (bool_decide_unpack _).
  - split; [right; left|split; [left|right; right; right; left]].
Qed.
Lemma discovery_configures_witness :
  ends (app_ble_event_handle (fun _ => 0) BLE_CONN_SEC_OPEN_IND 2;; turns (fun _ => 0) demo_cmp demo_phone 20) ancs_connected (fun _ s' =>
    (exists t, log s' = t ++ [Subscribe 26 25 0; Subscribe 20 19 0]) /\ ready 1 19 25 17 s' /\
    ends (bt_ready (fun _ => 0) 0) (ancs_start <| nv := nv s' |>) (fun _ s2 => chars_are 18 16 24 20 0 26 (char_data (service s2)))).
Proof.
  eapply ends_mono; [apply (discovery_configures (fun _ => 0) demo_cmp demo_cmp_spec (fun _ => eq_refl) map_room demo_phone 14 30 18 16 24 0 0 0 0 0 0 1 2 ancs_connected)|].
  - exact demo_phone_serves.
  - by split.
  - done.
  - by eexists _, _, _.
  - unfold is_handle. lia.
  - by apply lookup_insert_eq.
  - intros ? s' (Hsub & Hre & Hres). split; [exact Hsub|]. split; [exact Hre|].
    eapply ends_mono; [apply (Hres (ancs_start <| nv := nv s' |>)); [done|by eexists _, _, _]|]. by intros ? s2 (_ & _ & ?).
Defined.
(** The result of a discovery is not looked at: after a phone without the service, the module
    subscribes at the handles of the phone before. *)
Example stale_handles_subscribed :
  (match (app_ble_event_handle (fun _ => 0) BLE_CONN_SEC_OPEN_IND 2;; turns (fun _ => 0) demo_cmp (Phone (0, 0) [] []) 20)
     (ancs_connected <| service := GattService 14 30 ANCS_UUID 0 demo_chars |>) with
   | Some (_, s) => last (log s)
   | None => None
   end) = Some (Subscribe 18 17 0).
Proof. by vm_compute. Qed.
