(* ===== verification/AudioIn.v ===== *)
(** * Voice capture (ext/lib/actions/hal/audioin_hal.c, drivers/audio/audio_in_acts.c)

    The microphone's samples are written by DMA into buffers of a pool of five; at half of a
    block the handler provides the buffer for the next block, at its end the full one goes
    to the application as a message.  The pool's library and the ROM's audio driver are not
    in the sources: the pool is the class [PcmPool]; of the driver only the DMA target is
    kept, which [dma_full] fills.  A buffer that is returned twice is undefined behaviour. *)
From S2P Require Import Prelude MsgManager.
#[local] Open Scope Z_scope.

Definition PCMBUF_IP_HF : Z := 4.
Definition PCMBUF_IP_FU : Z := 8.
Definition MSG_AUDIO_INPUT : Z := 4.

(** ** The pool: net_buf_alloc and net_buf_unref on [pcm_pool] *)
Class PcmPool (P : Type) := {
  pcm_alloc : P -> option Z * P;
  pcm_unref : Z -> P -> P;
  pcm_used : P -> Z -> bool;
  pcm_size : Z                              (* buf->size *)
}.
Class PcmPoolLaws (P : Type) `{PcmPool P} := {
  pp_some : forall p b p', pcm_alloc p = (Some b, p') ->
    pcm_used p b = false /\ forall c, pcm_used p' c = (c =? b) || pcm_used p c;
  pp_none : forall p p', pcm_alloc p = (None, p') -> forall c, pcm_used p' c = pcm_used p c;
  pp_unref : forall b p c, pcm_used (pcm_unref b p) c = negb (c =? b) && pcm_used p c;
  pp_size : 0 <= pcm_size
}.

Inductive capture_event :=
| DmaConfig (buf : Z) | DmaTransfer (buf : Z)
| AudioStart (sample_rate : Z) | AudioStop
| NoBuffer                                 (* alloc failed at the start of a record *)
| DropBuffer | SendFailed                  (* the warnings of the handler *)
| Encoded (data : list Z)                  (* what the application was given *)
| ResetAudio | DeviceBusy (busy : bool).

Section Capture.
Context {Q : Type} {MQ : MsgQueue Q} {P : Type} {PP : PcmPool P}.

Record capture := Capture {
  opened : bool;                           (* the static pointer [audioin] is set *)
  sample_rate : Z; rofs : Z; pcm_off : Z; running : bool;
  working_net_buf : option Z; completed_net_buf : option Z; pcm_pool : bool;
  pool : P; msgs : Q;
  buf_len : gmap Z Z; buf_mem : gmap Z (list Z);
  dma : option (Z * Z);                    (* the buffer being filled and the next one *)
  held : option Z;                         (* the application's message *)
  clog : list capture_event }.
#[global] Instance eta_capture : EtaRecord capture := fun r =>
  Capture (opened r) (sample_rate r) (rofs r) (pcm_off r) (running r) (working_net_buf r) (completed_net_buf r)
    (pcm_pool r) (pool r) (msgs r) (buf_len r) (buf_mem r) (dma r) (held r) (clog r).
#[local] Abbreviation CP := (M capture).

Definition emit (e : capture_event) : CP unit := modify (fun s => s <| clog ::= (fun t => t ++ [e]) |>).
Definition buf_alloc : CP (option Z) :=
  s ← get;
  if negb (pcm_pool s) then ub
  else
    let '(b, p) := pcm_alloc (pool s) in
    put (s <| pool := p |> <| buf_len ::= (fun l => match b with Some b => <[b := 0]> l | None => l end) |>);; mret b.
Definition buf_unref (b : Z) : CP unit :=
  s ← get; if pcm_used (pool s) b then put (s <| pool ::= pcm_unref b |>) else ub.
(** net_buf_add asserts that there is room. *)
Definition net_buf_add (b n : Z) : CP unit :=
  s ← get;
  let len := default 0 (buf_len s !! b) in
  if len + n <=? pcm_size then put (s <| buf_len ::= <[b := len + n]> |>) else ub.

(** ** drivers/audio: the target of the DMA *)
Definition audio_in_pcmbuf_config (b : Z) : CP unit := modify (fun s => s <| dma := Some (b, b) |>);; emit (DmaConfig b).
Definition audio_in_pcmbuf_transfer_config (b : Z) : CP unit :=
  modify (fun s => s <| dma ::= (fun d => match d with Some (a, _) => Some (a, b) | None => None end) |>);; emit (DmaTransfer b).
Definition acts_audio_in_enable : CP unit := s ← get; emit (AudioStart (sample_rate s));; emit (DeviceBusy true).
Definition acts_audio_in_disable : CP unit :=
  modify (fun s => s <| dma := None |>);; emit AudioStop;; emit ResetAudio;; emit (DeviceBusy false).

(** ** audioin_hal.c *)
Definition audio_pcm_buf_cbk (pending : Z) : CP unit :=
  s ← get;
  if negb (opened s) || negb (running s) then mret tt
  else if truthy (Z.land pending PCMBUF_IP_HF) || truthy (Z.land pending PCMBUF_IP_FU) then
    if truthy (Z.land pending PCMBUF_IP_HF) then
      b ← buf_alloc;
      match b with
      | None => modify (fun s => s <| completed_net_buf := None |>)
      | Some b =>
          audio_in_pcmbuf_transfer_config b;;
          modify (fun s => s <| completed_net_buf := working_net_buf s |> <| working_net_buf := Some b |>)
      end
    else
      match completed_net_buf s with
      | None => emit DropBuffer
      | Some b =>
          net_buf_add b pcm_size;;
          s ← get;
          let '(r, q) := mq_send (AppMsg 0 MSG_AUDIO_INPUT 0 0 b 0) K_NO_WAIT (msgs s) in
          put (s <| msgs := q |>);;
          if (r : bool) then mret tt else emit SendFailed;; buf_unref b
      end
  else mret tt.
Definition audioin_start_record : CP Z :=
  b ← buf_alloc;
  match b with
  | None => emit NoBuffer;; mret (-1)
  | Some b =>
      audio_in_pcmbuf_config b;;
      modify (fun s => s <| working_net_buf := Some b |> <| completed_net_buf := None |>);;
      acts_audio_in_enable;;
      modify (fun s => s <| pcm_off := 0 |> <| running := true |> <| rofs := 0 |>);;
      mret 0
  end.
Definition release (b : option Z) : CP unit := match b with Some b => buf_unref b | None => mret tt end.
Definition audioin_stop_record : CP Z :=
  modify (fun s => s <| running := false |>);;
  acts_audio_in_disable;;
  s ← get;
  when (pcm_pool s)
    (release (working_net_buf s);; modify (fun s => s <| working_net_buf := None |>);;
     release (completed_net_buf s);; modify (fun s => s <| completed_net_buf := None |>));;
  modify (fun s => s <| rofs := 0 |> <| pcm_off := 0 |>);;
  mret 0.
Definition audioin_device_open (found : bool) (rate : Z) : CP bool :=
  if found then modify (fun s => s <| opened := true |> <| sample_rate := rate |>);; mret true else mret false.
Definition audioin_device_close : CP unit :=
  s ← get;
  if opened s then modify (fun s => s <| pcm_pool := false |> <| opened := false |>) else ub.

(** ** The DMA: an interrupt at half of the block and one at its end.  The block's samples
    are then in the buffer, and the next target is taken. *)
Definition dma_half : CP unit :=
  s ← get; match dma s with Some _ => audio_pcm_buf_cbk PCMBUF_IP_HF | None => mret tt end.
Definition dma_full (block : list Z) : CP unit :=
  s ← get;
  match dma s with
  | Some (a, b) => put (s <| buf_mem ::= <[a := block]> |> <| dma := Some (b, b) |>);; audio_pcm_buf_cbk PCMBUF_IP_FU
  | None => mret tt
  end.

(** ** The application takes a message, uses the buffer and frees it (system_app_audio.c). *)
Definition app_receive : CP unit :=
  s ← get;
  match held s with
  | Some _ => mret tt
  | None =>
      let '(m, q) := mq_recv 0 (msgs s) in
      put (s <| msgs := q |> <| held := match m with Some m => if type m =? MSG_AUDIO_INPUT then Some (value m) else None | None => None end |>)
  end.
Definition pcm_buffer_free : CP unit := s ← get; release (held s);; modify (fun s => s <| held := None |>).
Definition app_encode : CP unit :=
  s ← get;
  match held s with
  | Some b => d ← lift (buf_mem s !! b); emit (Encoded (take (Z.to_nat (default 0 (buf_len s !! b))) d));; pcm_buffer_free
  | None => mret tt
  end.

Inductive capture_step := Half | Full (block : list Z) | Receive | Encode | Other (m : app_msg).
Definition capture_do (e : capture_step) : CP unit :=
  match e with
  | Half => dma_half
  | Full block => dma_full block
  | Receive => app_receive
  | Encode => app_encode
  | Other m => modify (fun s => s <| msgs ::= (fun q => (mq_send m K_NO_WAIT q).2) |>)
  end.
Fixpoint capture_run (es : list capture_step) : CP unit :=
  match es with [] => mret tt | e :: es => capture_do e;; capture_run es end.
End Capture.
Arguments capture : clear implicits.

(** * Theorems *)
Section CaptureSpec.
Context {Q : Type} {MQ : MsgQueue Q} {P : Type} {PP : PcmPool P} {PL : PcmPoolLaws P}.
#[local] Abbreviation cap := (capture Q P).

(** The buffers the application has not freed yet, the first first. *)
Definition audio_bufs (l : list app_msg) : list Z := l ≫= (fun m => if type m =? MSG_AUDIO_INPUT then [value m] else []).
Definition waiting (s : cap) : list Z := opt_list (held s) ++ audio_bufs (mq_view (msgs s)).
(** [half]: between the interrupt at half of a block and the one at its end. *)
Definition filling (half : bool) (s : cap) : list Z :=
  opt_list (working_net_buf s) ++ (if half then opt_list (completed_net_buf s) else []).
Definition owners (half : bool) (s : cap) : list Z := filling half s ++ waiting s.

Definition encoded (t : list capture_event) : list (list Z) := t ≫= (fun e => match e with Encoded d => [d] | _ => [] end).
Definition losses (t : list capture_event) : nat :=
  length (t ≫= (fun e => match e with DropBuffer | SendFailed => [tt] | _ => [] end)).
Lemma encoded_app t u : encoded (t ++ u) = encoded t ++ encoded u.
Proof. apply bind_app. Qed.
Lemma losses_app t u : losses (t ++ u) = (losses t + losses u)%nat.
Proof. unfold losses. by rewrite bind_app, length_app. Qed.

Definition holds_block (s : cap) (b : Z) (d : list Z) : Prop :=
  buf_mem s !! b = Some d /\ buf_len s !! b = Some pcm_size /\ Z.of_nat (length d) = pcm_size.
Record recording (half : bool) (old : list capture_event) (blocks : list (list Z)) (s : cap) : Prop := {
  rc_on : opened s = true /\ running s = true /\ pcm_pool s = true;
  rc_queue : mq_ok (msgs s);
  rc_dma : exists w, working_net_buf s = Some w /\ dma s = Some (default w (if half then completed_net_buf s else None), w);
  rc_len : forall b, b ∈ filling half s -> buf_len s !! b = Some 0;
  rc_nodup : NoDup (owners half s);
  rc_used : forall b, pcm_used (pool s) b = true <-> b ∈ owners half s;
  rc_data : exists t ds, clog s = old ++ t /\ Forall2 (holds_block s) (waiting s) ds /\
    keeps_order (encoded t ++ ds) blocks (losses t) }.

(** The blocks waiting are untouched by a change to other buffers. *)
Lemma blocks_other (s s' : cap) l ds : Forall2 (holds_block s) l ds ->
  (forall b, b ∈ l -> buf_mem s' !! b = buf_mem s !! b /\ buf_len s' !! b = buf_len s !! b) -> Forall2 (holds_block s') l ds.
Proof.
  intros H. induction H as [|b d l ds (Hm & Hl & Hd) _ IH]; intros E; constructor.
  - destruct (E b) as [Em El]; [by left|]. unfold holds_block. by rewrite Em, El.
  - apply IH. intros c Hc. apply E. by right.
Qed.
Lemma audio_bufs_app l k : audio_bufs (l ++ k) = audio_bufs l ++ audio_bufs k.
Proof. apply bind_app. Qed.
Lemma data_events s s' old blocks t' :
  (exists t ds, clog s = old ++ t /\ Forall2 (holds_block s) (waiting s) ds /\ keeps_order (encoded t ++ ds) blocks (losses t)) ->
  clog s' = clog s ++ t' -> waiting s' = waiting s -> encoded t' = [] -> losses t' = 0%nat ->
  (forall b, b ∈ waiting s -> buf_mem s' !! b = buf_mem s !! b /\ buf_len s' !! b = buf_len s !! b) ->
  exists t ds, clog s' = old ++ t /\ Forall2 (holds_block s') (waiting s') ds /\ keeps_order (encoded t ++ ds) blocks (losses t).
Proof.
  intros (t & ds & El & F & K) El' Ew Ee Elo Hsame. exists (t ++ t'), ds. rewrite El', El, Ew, encoded_app, losses_app, Ee, Elo, app_nil_r, Nat.add_0_r, app_assoc.
  split; [done|]. split; [by eapply blocks_other|done].
Qed.

(** What [buf_alloc] does. *)
Lemma alloc_ok (s : cap) (R : option Z -> cap -> Prop) : pcm_pool s = true ->
  (forall p', (forall c, pcm_used p' c = pcm_used (pool s) c) -> R None (s <| pool := p' |> <| buf_len ::= (fun l => l) |>)) ->
  (forall b p', pcm_used (pool s) b = false -> (forall c, pcm_used p' c = (c =? b) || pcm_used (pool s) c) ->
     R (Some b) (s <| pool := p' |> <| buf_len ::= (fun l => <[b := 0]> l) |>)) ->
  ends buf_alloc s R.
Proof.
  intros Hp Hn Hs. unfold buf_alloc. hoare. rewrite Hp. cbn [negb].
  destruct (pcm_alloc (pool s)) as [[b|] p'] eqn:E; unfold ends; munfold; cbn -[set_field].
  - destruct (pp_some _ _ _ E). by apply Hs.
  - apply Hn. by apply (pp_none _ _ E).
Qed.

(** [recording] from its owners as lists. *)
Lemma recording_intro (half : bool) old blocks (s : cap) (w : Z) (fs ws : list Z) (t : list capture_event) (ds : list (list Z)) :
  opened s = true /\ running s = true /\ pcm_pool s = true -> mq_ok (msgs s) ->
  working_net_buf s = Some w -> dma s = Some (default w (if half then completed_net_buf s else None), w) ->
  filling half s = fs -> waiting s = ws -> (forall b, b ∈ fs -> buf_len s !! b = Some 0) -> NoDup (fs ++ ws) ->
  (forall b, pcm_used (pool s) b = true <-> b ∈ fs ++ ws) ->
  clog s = old ++ t -> Forall2 (holds_block s) ws ds -> keeps_order (encoded t ++ ds) blocks (losses t) ->
  recording half old blocks s.
Proof. intros ? ? ? ? <- <- ? ? ? ? ? ?. split; try done; [by exists w|by exists t, ds]. Qed.
Lemma half_ok old blocks (s : cap) : recording false old blocks s -> ends dma_half s (fun _ => recording true old blocks).
Proof.
  intros [(Ho & Hr & Hp) Hq (w & Ew & Ed) Hl Hn Hu (t & ds & El & F & K)]. unfold dma_half. hoare. rewrite Ed.
  unfold audio_pcm_buf_cbk. hoare. rewrite Ho, Hr. cbn [negb orb]. change (Z.land PCMBUF_IP_HF PCMBUF_IP_HF) with 4. cbn [truthy Z.eqb negb orb].
  apply ends_bind, alloc_ok; [done| |]; unfold owners, filling in *; rewrite Ew in *; cbn in Hl, Hn, Hu.
  - intros p' Eu. apply ends_modify. apply (recording_intro _ _ _ _ w [w] (waiting s) t ds); try done; cbn; rewrite ?Ew; try done.
    + unfold filling. cbn. by rewrite Ew.
    + intros b. by rewrite Eu, Hu.
  - intros b p' Ef Eu. unfold audio_in_pcmbuf_transfer_config, emit. hoare.
    assert (b ∉ w :: waiting s) as Hb by (rewrite <- Hu; congruence).
    apply (recording_intro _ _ _ _ b [b; w] (waiting s) (t ++ [DmaTransfer b]) ds); try done; cbn; rewrite ?Ew, ?Ed; try done.
    + intros c Hc. apply elem_of_cons in Hc as [->|Hc]; [by rewrite lookup_insert_eq|].
      rewrite lookup_insert_ne; [by apply Hl|]. intros ->. apply Hb. apply list_elem_of_singleton in Hc as ->. by left.
    + by constructor.
    + intros c. rewrite Eu, elem_of_cons. destruct (Z.eqb_spec c b) as [->|Hc]; cbn; [by split; [left|]|]. rewrite Hu. tauto.
    + by rewrite El, <- app_assoc.
    + eapply blocks_other; [exact F|]. intros c Hc. cbn. split; [done|]. rewrite lookup_insert_ne; [done|]. intros ->. apply Hb. by right.
    + rewrite encoded_app, losses_app. cbn. by rewrite app_nil_r, Nat.add_0_r.
Qed.

(** At the end of a block: what is known of its buffer [c] and the next one, [w]. *)
Lemma completed_facts old blocks (s : cap) w c block : recording true old blocks s ->
  working_net_buf s = Some w -> completed_net_buf s = Some c ->
  (c <> w /\ (c ∉ waiting s) /\ (w ∉ waiting s) /\ NoDup (waiting s)) /\ (buf_len s !! c = Some 0 /\ buf_len s !! w = Some 0) /\
  (forall b, pcm_used (pool s) b = true <-> b = w \/ b = c \/ b ∈ waiting s) /\
  (forall ds, Forall2 (holds_block s) (waiting s) ds ->
    Forall2 (holds_block (s <| buf_mem ::= <[c := block]> |> <| buf_len ::= <[c := pcm_size]> |>)) (waiting s) ds).
Proof.
  intros [_ _ _ Hl Hn Hu _] Ew Ec. unfold owners, filling in *. rewrite Ew, Ec in *. cbn in Hl, Hn, Hu.
  apply NoDup_cons in Hn as [Hw Hn]. apply NoDup_cons in Hn as [Hcw Hn]. apply not_elem_of_cons in Hw as [Hne Hw].
  split; [by repeat split|]. split; [split; apply Hl; [by right; left|by left]|]. split.
  - intros b. by rewrite Hu, !elem_of_cons.
  - intros ds F. eapply blocks_other; [exact F|]. intros b Hin. cbn. rewrite !lookup_insert_ne; [done| |]; by intros ->.
Qed.
Definition block_done (s : cap) (c w : Z) (block : list Z) : cap :=
  s <| buf_mem ::= <[c := block]> |> <| dma := Some (w, w) |> <| buf_len ::= <[c := pcm_size]> |>.
Lemma block_sent old blocks (s : cap) w c block q : recording true old blocks s ->
  working_net_buf s = Some w -> completed_net_buf s = Some c -> Z.of_nat (length block) = pcm_size ->
  mq_ok q -> mq_view q = mq_view (msgs s) ++ [AppMsg 0 MSG_AUDIO_INPUT 0 0 c 0] ->
  recording false old (blocks ++ [block]) ((block_done s c w block) <| msgs := q |>).
Proof.
  intros R Ew Ec Hb Hq Ev. destruct (completed_facts _ _ _ _ _ block R Ew Ec) as ((Hne & Hc & Hw & Hn) & [Elc Elw] & Hu & HF).
  pose proof R as [Hon _ _ _ _ _ (t & ds & El & F & K)].
  apply (recording_intro _ _ _ _ w [w] (waiting s ++ [c]) t (ds ++ [block])); try done.
  - unfold filling. cbn. by rewrite Ew.
  - unfold waiting. cbn. by rewrite Ev, audio_bufs_app, app_assoc.
  - intros b Hin. apply list_elem_of_singleton in Hin as ->. cbn. by rewrite lookup_insert_ne.
  - apply NoDup_cons. rewrite not_elem_of_app, list_elem_of_singleton. split; [split; [done|by intros ->]|].
    apply NoDup_app. split; [exact Hn|]. split; [|apply NoDup_singleton]. intros b Hin Hin2. by apply list_elem_of_singleton in Hin2 as ->.
  - intros b. cbn. rewrite Hu, elem_of_cons, elem_of_app, list_elem_of_singleton. tauto.
  - apply Forall2_app; [by apply HF|]. constructor; [|constructor]. split; cbn; [|split; [|done]]; by rewrite lookup_insert_eq.
  - rewrite app_assoc, <- (Nat.add_0_r (losses t)). by apply keeps_order_app, keeps_order_refl.
Qed.
Lemma block_refused old blocks (s : cap) w c block q : recording true old blocks s ->
  working_net_buf s = Some w -> completed_net_buf s = Some c -> mq_ok q -> mq_view q = mq_view (msgs s) ->
  recording false old (blocks ++ [block])
    ((block_done s c w block) <| msgs := q |> <| clog ::= (fun t => t ++ [SendFailed]) |> <| pool ::= pcm_unref c |>).
Proof.
  intros R Ew Ec Hq Ev. destruct (completed_facts _ _ _ _ _ block R Ew Ec) as ((Hne & Hc & Hw & Hn) & [Elc Elw] & Hu & HF).
  pose proof R as [Hon _ _ _ _ _ (t & ds & El & F & K)].
  apply (recording_intro _ _ _ _ w [w] (waiting s) (t ++ [SendFailed]) ds); try done.
  - unfold filling. cbn. by rewrite Ew.
  - unfold waiting. cbn. by rewrite Ev.
  - intros b Hin. apply list_elem_of_singleton in Hin as ->. cbn. by rewrite lookup_insert_ne.
  - by apply NoDup_cons.
  - intros b. cbn. rewrite pp_unref, elem_of_cons. destruct (Z.eqb_spec b c) as [->|Hbc]; cbn; [|rewrite Hu; tauto].
    split; [done|]. by intros [->|Hin].
  - cbn. by rewrite El, <- app_assoc.
  - by apply HF.
  - rewrite encoded_app, losses_app. cbn. rewrite app_nil_r. by apply keeps_order_lost.
Qed.

(** The end of a block: it waits for the application, or is lost. *)
Lemma full_ok old blocks (s : cap) block : recording true old blocks s -> Z.of_nat (length block) = pcm_size ->
  ends (dma_full block) s (fun _ => recording false old (blocks ++ [block])).
Proof.
  intros R Hb. pose proof R as [(Ho & Hr & Hp) Hq (w & Ew & Ed) Hl Hn Hu (t & ds & El & F & K)]. unfold dma_full. hoare. rewrite Ed.
  apply ends_bind. unfold ends at 1, put. cbv beta iota. unfold audio_pcm_buf_cbk. hoare. cbn [opened running set_field]. rewrite Ho, Hr. cbn [negb orb].
  change (Z.land PCMBUF_IP_FU PCMBUF_IP_HF) with 0. change (Z.land PCMBUF_IP_FU PCMBUF_IP_FU) with 8. cbn [truthy Z.eqb negb orb completed_net_buf set_field].
  destruct (completed_net_buf s) as [c|] eqn:Ec; cbn [default].
  - destruct (completed_facts _ _ _ _ _ block R Ew Ec) as (_ & [Elc _] & Hu' & _).
    apply ends_bind. unfold net_buf_add. hoare. cbn [buf_len set_field]. rewrite Elc. cbn [default]. rewrite Z.add_0_l, Z.leb_refl.
    unfold ends at 1, put. cbv beta iota. hoare. cbn [msgs set_field].
    pose proof (mq_send_ok (AppMsg 0 MSG_AUDIO_INPUT 0 0 c 0) K_NO_WAIT (msgs s) Hq) as Hq'.
    pose proof (mq_send_view (AppMsg 0 MSG_AUDIO_INPUT 0 0 c 0) K_NO_WAIT (msgs s) Hq) as Ev.
    destruct (mq_send _ _ _) as [r q]. cbn [fst snd] in Hq', Ev. apply ends_bind. unfold ends at 1, put. cbv beta iota. destruct r.
    + apply ends_ret. by apply block_sent.
    + rewrite app_nil_r in Ev. unfold emit. hoare. unfold buf_unref. hoare. cbn [pool set_field]. rewrite (proj2 (Hu' c)) by (by right; left).
      by apply block_refused.
  - unfold emit. apply ends_modify. unfold owners, filling in *. rewrite Ew, Ec in *.
    apply (recording_intro _ _ _ _ w [w] (waiting s) (t ++ [DropBuffer]) ds); try done.
    + unfold filling. cbn. by rewrite Ew.
    + cbn. by rewrite El, <- app_assoc.
    + eapply blocks_other; [exact F|]. intros b Hin. cbn. split; [|done]. apply NoDup_cons in Hn as [Hw _]. rewrite lookup_insert_ne; [done|]. by intros ->.
    + rewrite encoded_app, losses_app. cbn. rewrite app_nil_r. by apply keeps_order_lost.
Qed.

(** The application's side: the owners stay, until it frees a buffer. *)
Lemma receive_ok half old blocks (s : cap) : recording half old blocks s -> ends app_receive s (fun _ => recording half old blocks).
Proof.
  intros R. pose proof R as [Hon Hq (w & Ew & Ed) Hl Hn Hu (t & ds & El & F & K)]. unfold app_receive. hoare. unfold owners, waiting in *.
  destruct (held s) as [b|] eqn:Eh; [by apply ends_ret|].
  cbn [opt_list app] in *. destruct (mq_recv_view 0 (msgs s) Hq) as [Er Ev]. pose proof (mq_recv_ok 0 (msgs s) Hq) as Hq'.
  destruct (mq_recv 0 (msgs s)) as [m q]. cbn [fst snd] in *. unfold ends, put.
  assert (opt_list (match m with Some m => if type m =? MSG_AUDIO_INPUT then Some (value m) else None | None => None end) ++ audio_bufs (mq_view q)
          = audio_bufs (mq_view (msgs s))) as Ewt.
  { rewrite Er, Ev. destruct (mq_view (msgs s)) as [|m' l]; [done|]. unfold audio_bufs. cbn [head tail]. rewrite bind_cons. by destruct (type m' =? MSG_AUDIO_INPUT). }
  by apply (recording_intro _ _ _ _ w (filling half s) (audio_bufs (mq_view (msgs s))) t ds).
Qed.
Lemma other_ok half old blocks (s : cap) m : type m <> MSG_AUDIO_INPUT ->
  recording half old blocks s -> ends (capture_do (Other m)) s (fun _ => recording half old blocks).
Proof.
  intros Hm [Hon Hq (w & Ew & Ed) Hl Hn Hu (t & ds & El & F & K)]. cbn [capture_do]. apply ends_modify.
  apply (recording_intro _ _ _ _ w (filling half s) (waiting s) t ds); try done.
  - by apply mq_send_ok.
  - unfold waiting. cbn. rewrite mq_send_view by done. f_equal. rewrite audio_bufs_app.
    assert (audio_bufs [m] = []) as E by (cbn; by destruct (Z.eqb_spec (type m) MSG_AUDIO_INPUT)).
    destruct (mq_send m K_NO_WAIT (msgs s)).1; by rewrite ?E, app_nil_r.
Qed.
Lemma encode_ok half old blocks (s : cap) : recording half old blocks s -> ends app_encode s (fun _ => recording half old blocks).
Proof.
  intros R. pose proof R as [Hon Hq (w & Ew & Ed) Hl Hn Hu (t & ds & El & F & K)]. unfold app_encode. hoare. unfold owners, waiting in *.
  destruct (held s) as [b|] eqn:Eh; [|by apply ends_ret]. cbn [opt_list app] in *.
  inversion F as [|? d ? ds' (Hm & Hlen & Hd) F' E1 E2]; subst. apply ends_bind, (ends_lift _ d); [done|].
  rewrite Hlen. change (default 0 (Some pcm_size)) with pcm_size. rewrite take_ge by lia. unfold emit. hoare. unfold pcm_buffer_free. hoare. cbn [held set_field]. rewrite Eh.
  unfold release. unfold buf_unref. hoare. cbn [pool set_field].
  assert (b ∈ filling half s ++ b :: audio_bufs (mq_view (msgs s))) as Hb by (apply elem_of_app; right; by left).
  rewrite (proj2 (Hu b) Hb). unfold ends at 1, put. cbv beta iota. apply ends_modify.
  apply NoDup_app in Hn as (Hn1 & Hn2 & Hn3). apply NoDup_cons in Hn3 as [Hn3 Hn4].
  apply (recording_intro _ _ _ _ w (filling half s) (audio_bufs (mq_view (msgs s))) (t ++ [Encoded d]) ds'); try done.
  - apply NoDup_app. split; [done|]. split; [|done]. intros c Hc Hc'. apply (Hn2 c Hc). by right.
  - intros c. cbn. rewrite pp_unref. destruct (Z.eqb_spec c b) as [->|Hc]; cbn.
    + split; [done|]. intros [Hin|Hin]%elem_of_app; [destruct (Hn2 b Hin); by left|done].
    + rewrite Hu, !elem_of_app, elem_of_cons. tauto.
  - cbn. by rewrite El, <- app_assoc.
  - rewrite encoded_app, losses_app. cbn. by rewrite Nat.add_0_r, <- app_assoc.
Qed.

(** The interrupts alternate; the blocks have the size of a buffer, and other messages are of
    other types. *)
Fixpoint schedule (half : bool) (es : list capture_step) : Prop :=
  match es with
  | [] => True
  | Half :: es => half = false /\ schedule true es
  | Full block :: es => half = true /\ Z.of_nat (length block) = pcm_size /\ schedule false es
  | Other m :: es => type m <> MSG_AUDIO_INPUT /\ schedule half es
  | _ :: es => schedule half es
  end.
Definition blocks_of (es : list capture_step) : list (list Z) := es ≫= (fun e => match e with Full b => [b] | _ => [] end).
Lemma run_ok es : forall half old blocks (s : cap), recording half old blocks s -> schedule half es ->
  ends (capture_run es) s (fun _ s' => exists half', recording half' old (blocks ++ blocks_of es) s').
Proof.
  induction es as [|e es IH]; intros half old blocks s R Hs; cbn [capture_run].
  { apply ends_ret. exists half. cbn. by rewrite app_nil_r. }
  apply ends_bind. destruct e as [|block| | |m]; cbn [schedule] in Hs.
  - destruct Hs as [-> Hs]. eapply ends_mono; [by apply half_ok|]. intros [] s1 R1. by apply (IH true).
  - destruct Hs as (-> & Hb & Hs). eapply ends_mono; [by apply full_ok|]. intros [] s1 R1.
    eapply ends_mono; [by apply (IH false)|]. intros [] s2 [h R2]. exists h. by rewrite <- app_assoc in R2.
  - eapply ends_mono; [by apply receive_ok|]. intros [] s1 R1. by apply (IH half).
  - eapply ends_mono; [by apply encode_ok|]. intros [] s1 R1. by apply (IH half).
  - destruct Hs as [Hm Hs]. eapply ends_mono; [by apply other_ok|]. intros [] s1 R1. by apply (IH half).
Qed.

(** Before a recording: the device is open, no buffer of the pool is in use. *)
Record ready_to_record (s : cap) : Prop := {
  rr_open : opened s = true /\ pcm_pool s = true;
  rr_queue : mq_ok (msgs s);
  rr_waiting : waiting s = [];
  rr_pool : forall b, pcm_used (pool s) b = false }.
Lemma start_ok (s : cap) : ready_to_record s ->
  ends audioin_start_record s (fun r s' =>
    if r =? 0 then recording false (clog s ++ opt_list (DmaConfig <$> working_net_buf s') ++ [AudioStart (sample_rate s); DeviceBusy true]) [] s'
    else ready_to_record s').
Proof.
  intros [[Ho Hp] Hq Hw Hu]. unfold audioin_start_record. apply ends_bind, alloc_ok; [done| |].
  - intros p' Eu. unfold emit. hoare. cbn. split; try done. intros b. cbn. by rewrite Eu.
  - intros b p' _ Eu. unfold audio_in_pcmbuf_config, acts_audio_in_enable, emit. hoare. cbn -[set_field].
    apply (recording_intro _ _ _ _ b [b] [] [] []); try done; cbn.
    + intros c Hc. apply list_elem_of_singleton in Hc as ->. by rewrite lookup_insert_eq.
    + apply NoDup_singleton.
    + intros c. rewrite Eu, Hu, orb_false_r, list_elem_of_singleton. apply Z.eqb_eq.
    + by rewrite app_nil_r, <- !app_assoc.
Qed.

(** C32. The application gets what the microphone recorded.  From the start of a recording,
    whatever the order of interrupts, of other messages and of the application's taking
    and freeing of buffers, nothing is undefined; the blocks it was given, followed by
    those waiting for it, are the recorded blocks in order and unchanged, except as many as
    there were warnings; and exactly the buffers being filled or waiting are in use. *)
Theorem voice_captured_in_order (s : cap) es : ready_to_record s -> schedule false es ->
  ends (r ← audioin_start_record; when (r =? 0) (capture_run es);; mret r) s (fun r s' => r = 0 ->
    exists t half ds, clog s' = clog s ++ t /\ Forall2 (holds_block s') (waiting s') ds /\
      keeps_order (encoded t ++ ds) (blocks_of es) (losses t) /\
      NoDup (owners half s') /\ forall b, pcm_used (pool s') b = true <-> b ∈ owners half s').
Proof.
  intros Hs He. apply ends_bind. eapply ends_mono; [by apply start_ok|]. intros r s1 H1.
  destruct (Z.eqb_spec r 0) as [->|Hr]; cbn [when].
  - apply ends_bind. eapply ends_mono; [apply (run_ok es false _ [] s1 H1 He)|].
    intros [] s2 [half [_ _ _ _ Hn Hu (t & ds & El & F & K)]]. apply ends_ret. intros _.
    eexists (_ ++ t), half, ds. rewrite El, <- app_assoc. split; [done|]. split; [done|]. rewrite encoded_app, losses_app.
    by destruct (working_net_buf s1).
  - apply ends_bind, ends_ret, ends_ret. done.
Qed.

Lemma release_ok b (s : cap) (R : unit -> cap -> Prop) :
  (forall c, b = Some c -> pcm_used (pool s) c = true) ->
  (forall p, (forall c, pcm_used p c = negb (bool_decide (b = Some c)) && pcm_used (pool s) c) -> R tt (s <| pool := p |>)) ->
  ends (release b) s R.
Proof.
  intros Hb HR. destruct b as [b|]; cbn [release].
  - unfold buf_unref. hoare. rewrite Hb by done. unfold ends, put. apply (HR (pcm_unref b (pool s))). intros c. rewrite pp_unref.
    f_equal. f_equal. destruct (Z.eqb_spec c b) as [->|Hc]; [by rewrite bool_decide_eq_true_2|]. symmetry. apply bool_decide_eq_false_2. congruence.
  - apply ends_ret. destruct s. by apply (HR pool0).
Qed.
(** Stopping in the second half of a block gives back the two buffers being filled, and what
    waits stays usable. *)
Lemma stop_in_second_half old blocks (s : cap) : recording true old blocks s ->
  ends audioin_stop_record s (fun _ s' => running s' = false /\ waiting s' = waiting s /\
    forall b, pcm_used (pool s') b = true <-> b ∈ waiting s).
Proof.
  intros [(Ho & Hr & Hp) Hq (w & Ew & Ed) Hl Hn Hu _]. unfold owners, filling in *. rewrite Ew in *. cbn in Hu, Hn.
  apply NoDup_cons in Hn as [Hw Hn]. apply NoDup_app in Hn as (_ & Hn & _).
  unfold audioin_stop_record, acts_audio_in_disable, emit. hoare. set (s1 := set_field _ _).
  assert (pool s1 = pool s /\ waiting s1 = waiting s /\ running s1 = false /\ working_net_buf s1 = Some w /\
          completed_net_buf s1 = completed_net_buf s /\ pcm_pool s1 = true) as (Ep & Ewt & Er & Ew1 & Ec1 & Hp1) by done.
  clearbody s1. rewrite Hp1, Ew1, Ec1, <- Ewt in *. rewrite <- Ep in Hu. cbn [when]. apply ends_bind, release_ok.
  { intros c [= <-]. apply Hu. by left. }
  intros p1 E1. hoare. apply release_ok; cbn [pool set_field].
  - intros c Ec. rewrite E1, (proj2 (Hu c)); [|rewrite Ec; by right; left]. rewrite bool_decide_eq_false_2; [done|].
    intros [= ->]. apply Hw. rewrite Ec. by left.
  - intros p2 E2. hoare. split; [exact Er|]. split; [done|]. intros b. cbn. rewrite E2, E1, !andb_true_iff, !negb_true_iff, !bool_decide_eq_false, Hu.
    rewrite elem_of_cons, elem_of_app. destruct (completed_net_buf s) as [c|]; cbn [opt_list] in *.
    + rewrite list_elem_of_singleton. specialize (Hn c). split; [intros (H1 & H2 & H3); destruct H3 as [->|[->|H3]]; congruence || done|].
      intros Hb. split; [intros [= ->]; apply Hn; [by left|done]|]. split; [intros [= ->]; apply Hw; by apply elem_of_app; right|by right; right].
    + split; [intros (_ & H2 & [->|[Hb|Hb]]); [done|by apply not_elem_of_nil in Hb|done]|].
      intros Hb. split; [done|]. split; [intros [= ->]; apply Hw; by apply elem_of_app; right|by right; right].
Qed.
End CaptureSpec.

(** ** On concrete input: a pool of five buffers of four bytes *)
Definition pool_free (used : list Z) : list Z := filter (fun b => b ∉ used) [1; 2; 3; 4; 5].
#[export] Instance list_pool : PcmPool (list Z) := {
  pcm_alloc used := match pool_free used with [] => (None, used) | b :: _ => (Some b, b :: used) end;
  pcm_unref b used := filter (fun c => c <> b) used;
  pcm_used used b := bool_decide (b ∈ used);
  pcm_size := 4 }.
#[export] Instance list_pool_laws : PcmPoolLaws (list Z).
Proof.
  split; cbn -[pool_free]; [| | |done].
  - intros used b used' E. destruct (pool_free used) as [|b' l] eqn:F; [done|]. injection E as -> <-. split.
    + apply bool_decide_eq_false_2. assert (b ∈ pool_free used) as Hb by (rewrite F; set_solver). by apply list_elem_of_filter in Hb as [Hb _].
    + intros c. destruct (Z.eqb_spec c b) as [->|Hc]; [by apply bool_decide_eq_true_2; left|]. cbn.
      apply bool_decide_ext. rewrite elem_of_cons. tauto.
  - intros used used' E c. destruct (pool_free used); [by injection E as <-|done].
  - intros b used c. destruct (Z.eqb_spec c b) as [->|Hc]; cbn.
    + apply bool_decide_eq_false_2. rewrite list_elem_of_filter. tauto.
    + apply bool_decide_ext. rewrite list_elem_of_filter. tauto.
Qed.
Import MsgManager.Pools.
Definition demo_capture : capture Pools.pools (list Z) :=
  Capture true 8 0 0 false None None true [] Pools.pools_init ∅ ∅ None None [].
Definition demo_steps : list capture_step :=
  [Half; Full [1; 1; 1; 1]; Half; Receive; Full [2; 2; 2; 2]; Encode; Receive; Encode; Half; Full [3; 3; 3; 3]].
Lemma demo_ready : ready_to_record demo_capture.
Proof. split; [done|apply Pools.pools_init_ok|by vm_compute|done]. Qed.
Lemma voice_captured_in_order_witness : ready_to_record demo_capture /\ schedule false demo_steps /\
  ends (r ← audioin_start_record; when (r =? 0) (capture_run demo_steps);; mret r) demo_capture (fun r s' =>
    r = 0 -> exists t half ds, clog s' = [] ++ t /\ Forall2 (holds_block s') (waiting s') ds /\
      keeps_order (encoded t ++ ds) [[1; 1; 1; 1]; [2; 2; 2; 2]; [3; 3; 3; 3]] (losses t) /\
      NoDup (owners half s') /\ forall b, pcm_used (pool s') b = true <-> b ∈ owners half s').
Proof.
  split; [apply demo_ready|]. split; [by repeat split|].
  apply (voice_captured_in_order demo_capture demo_steps); [apply demo_ready|by repeat split].
Defined.
(** The first two blocks were encoded; the third waits. *)
Example demo_encoded :
  (fun r => (encoded (clog r.2), waiting r.2)) <$> (r ← audioin_start_record; capture_run demo_steps) demo_capture =
  Some ([[1; 1; 1; 1]; [2; 2; 2; 2]], [3]).
Proof. by vm_compute. Qed.
(** Stopping after the end of a block frees the buffer that was just sent: its message then
    names a free buffer, and its handling frees it again. *)
Example stop_frees_sent_buffer :
  (fun r => (waiting r.2, pool r.2)) <$>
    (audioin_start_record;; capture_run [Half; Full [1; 1; 1; 1]];; audioin_stop_record) demo_capture = Some ([1], []) /\
  (audioin_start_record;; capture_run [Half; Full [1; 1; 1; 1]];; audioin_stop_record;; capture_run [Receive; Encode]) demo_capture = None.
Proof. by vm_compute. Qed.
(** Starting twice loses the first buffer for good. *)
Example second_start_leaks :
  (fun r => pool r.2) <$> (audioin_start_record;; audioin_start_record;; audioin_stop_record) demo_capture = Some [1].
Proof. by vm_compute. Qed.
