(* ===== verification/Hrs.v ===== *)
(** * The heart rate service (samples/bluetooth/gatt/hrs.c)

    A timer measures the interval between beats every second and another the energy spent;
    the main loop notifies the rate, the energy and as many of the stored intervals as fit
    into a packet of the default size.  [hrm_parse] is a reader of the measurement
    characteristic; [spec] keeps what has been measured without any encoding, and the
    service is shown to notify exactly what [spec] says. *)
From S2P Require Import Prelude Gatt.
#[local] Open Scope Z_scope.

Definition HRM_INITIAL_VALUE : Z := 100.
Definition HRM_MAX_VALUE : Z := 280.
Definition HRM_FLAG_MASK_HR_VALUE_16BIT : Z := Z.shiftl 1 0.
Definition HRM_FLAG_MASK_SENSOR_CONTACT_DETECTED : Z := Z.shiftl 1 1.
Definition HRM_FLAG_MASK_SENSOR_CONTACT_SUPPORTED : Z := Z.shiftl 1 2.
Definition HRM_FLAG_MASK_EXPENDED_ENERGY_REPRESENT : Z := Z.shiftl 1 3.
Definition HRM_FLAG_MASK_RR_INTERVAL_REPRESENT : Z := Z.shiftl 1 4.
Definition BT_HRS_BODY_SENSOR_LOCATION_FINGER : Z := 3.
Definition BT_HRS_BODY_SENSOR_LOCATION_FOOT : Z := 6.
Definition BT_HRS_CONTROL_POINT_RESERVED : Z := 0.
Definition BT_HRS_CONTROL_POINT_RESET_ENERGY_EXPENDED : Z := 1.
Definition HRS_ERR_CONTROL_POINT_NOT_SUPPORT : Z := 0x80.
Definition BT_HRS_MAX_BUFFERED_RR_INTERVALS : Z := 20.
Definition BT_GATT_HRM_MAX_SIZE : Z := 45.
Definition OPCODE_LENGTH : Z := 1.
Definition HANDLE_LENGTH : Z := 2.
Definition BLE_L2CAP_MTU_DEF : Z := 23.
Definition MAX_HRM_LEN : Z := BLE_L2CAP_MTU_DEF - OPCODE_LENGTH - HANDLE_LENGTH.
Definition MIN_ENERGY_EXPENDED : Z := 0.
Definition MAX_ENERGY_EXPENDED : Z := 65535.
Definition ENERGY_EXPENDED_INCREMENT : Z := 10.
Definition MIN_RR_INTERVAL : Z := 100.
Definition MAX_RR_INTERVAL : Z := 500.
Definition RR_INTERVAL_INCREMENT : Z := 1.
Definition BT_GATT_CCC_NOTIFY : Z := 1.
Definition BT_ATT_ERR_INVALID_OFFSET : Z := 0x07.

(** ** The simulated sensor: a triangle between two bounds *)
Record sensorsim_cfg := SimCfg { sim_min : Z; sim_max : Z; incr : Z; start_at_max : bool }.
Record sensorsim_state := Sim { current_val : Z; is_increasing : bool }.
Definition sensorsim_init (c : sensorsim_cfg) : sensorsim_state :=
  if start_at_max c then Sim (sim_max c) false else Sim (sim_min c) true.
Definition sensorsim_increment (s : sensorsim_state) (c : sensorsim_cfg) : sensorsim_state :=
  if incr c <? u32 (sim_max c - current_val s) then Sim (u32 (current_val s + incr c)) (is_increasing s)
  else Sim (sim_max c) false.
Definition sensorsim_decrement (s : sensorsim_state) (c : sensorsim_cfg) : sensorsim_state :=
  if incr c <? u32 (current_val s - sim_min c) then Sim (u32 (current_val s - incr c)) (is_increasing s)
  else Sim (sim_min c) true.
Definition sensorsim_measure (s : sensorsim_state) (c : sensorsim_cfg) : Z * sensorsim_state :=
  let s := if is_increasing s then sensorsim_increment s c else sensorsim_decrement s c in
  (current_val s, s).

(** ** The service *)
Record bt_gatt_hrm := Hrm {
  flags : Z; hrm_value : Z; energy_expended : Z; rr_interval : list Z; rr_interval_count : Z }.
#[export] Instance eta_hrm : EtaRecord bt_gatt_hrm := fun r =>
  Hrm (flags r) (hrm_value r) (energy_expended r) (rr_interval r) (rr_interval_count r).
Record bt_gatt_hrs := Hrs {
  hrm : bt_gatt_hrm; body_sensor_location : Z; heart_rate_control_point : Z;
  is_heart_rate_value_format_uint16 : bool; is_sensor_contact_detected : bool; is_sensor_contact_supported : bool;
  is_energy_expended_present : bool; is_rr_interval_present : bool;
  (* the other variables of the file *)
  simulate_hrm : Z; heartrate : Z;
  energy_cfg : sensorsim_cfg; energy_sim : sensorsim_state; rr_cfg : sensorsim_cfg; rr_sim : sensorsim_state }.
#[export] Instance eta_hrs : EtaRecord bt_gatt_hrs := fun r =>
  Hrs (hrm r) (body_sensor_location r) (heart_rate_control_point r) (is_heart_rate_value_format_uint16 r)
    (is_sensor_contact_detected r) (is_sensor_contact_supported r) (is_energy_expended_present r) (is_rr_interval_present r)
    (simulate_hrm r) (heartrate r) (energy_cfg r) (energy_sim r) (rr_cfg r) (rr_sim r).

(** The rest of the intervals, from the [i]-th on, until the packet is full. *)
Fixpoint encode_rr (n : nat) (i : Z) (h : bt_gatt_hrm) (out : list Z) : option (list Z * Z * list Z) :=
  match n with
  | O => Some (out, i, rr_interval h)
  | S n =>
      if MAX_HRM_LEN <? Z.of_nat (length out) + 2 then
        rest ← slice (rr_interval h) i (rr_interval_count h - i);
        rr ← store (rr_interval h) 0 rest;
        Some (out, i, rr)
      else v ← rd (rr_interval h) i; encode_rr n (i + 1) h (out ++ u16_encode v)
  end.
(** [encoded_buffer] is full of zeros; its first byte is written last. *)
Definition hrm_encode (g : bt_gatt_hrs) (energy_expended_included : bool) : option (list Z * bt_gatt_hrm) :=
  let h := hrm g in
  let '(f, value) :=
    if 0xff <? hrm_value h then (Z.lor (flags h) HRM_FLAG_MASK_HR_VALUE_16BIT, u16_encode (hrm_value h))
    else (Z.land (flags h) (Z.lnot HRM_FLAG_MASK_HR_VALUE_16BIT), [hrm_value h]) in
  let energy :=
    if energy_expended_included then if is_energy_expended_present g then u16_encode (energy_expended h) else []
    else [0; 0] in
  let f := if 0 <? rr_interval_count h then Z.lor f HRM_FLAG_MASK_RR_INTERVAL_REPRESENT else f in
  '(out, i, rr) ← encode_rr (Z.to_nat (rr_interval_count h)) 0 h ([0] ++ value ++ energy);
  out ← fits BT_GATT_HRM_MAX_SIZE out;
  Some (<[0%nat := f]> out, h <| flags := f |> <| rr_interval := rr |> <| rr_interval_count := u16 (rr_interval_count h - i) |>).

Section Handlers.
Context (answer : nat -> Z).
#[local] Abbreviation HM := (M (server bt_gatt_hrs)).
Definition upd_hrm (f : bt_gatt_hrm -> bt_gatt_hrm) : HM unit := upd_svc (fun g => g <| hrm ::= f |>).

Definition hrmc_ccc_cfg_changed (value : Z) : HM unit :=
  upd_svc (fun g => g <| simulate_hrm := if value =? BT_GATT_CCC_NOTIFY then 1 else 0 |>).
Definition read_blsc : HM (list Z) := g ← get_svc; mret [body_sensor_location g].
Definition write_ctrl_point (buf : list Z) (offset : Z) : HM Z :=
  c ← lift (rd buf 0);
  if negb (c =? BT_HRS_CONTROL_POINT_RESET_ENERGY_EXPENDED) then mret (- HRS_ERR_CONTROL_POINT_NOT_SUPPORT)
  else if 1 <? offset + Z.of_nat (length buf) then mret (- BT_ATT_ERR_INVALID_OFFSET)
  else
    g ← get_svc;
    v ← lift (store [heart_rate_control_point g] offset buf);
    v ← lift (rd v 0);
    upd_svc (fun g => g <| heart_rate_control_point := v |>);;
    upd_hrm (fun h => h <| energy_expended := 0 |>);;
    mret (Z.of_nat (length buf)).

Definition bt_hrs_rr_interval_timer_handler : HM unit :=
  g ← get_svc;
  if is_rr_interval_present g then
    let '(v, sim) := sensorsim_measure (rr_sim g) (rr_cfg g) in
    upd_svc (fun g => g <| rr_sim := sim |>);;
    let h := hrm g in
    (if rr_interval_count h =? BT_HRS_MAX_BUFFERED_RR_INTERVALS then
       rest ← lift (slice (rr_interval h) 1 (BT_HRS_MAX_BUFFERED_RR_INTERVALS - 1));
       rr ← lift (store (rr_interval h) 0 rest);
       upd_hrm (fun h => h <| rr_interval := rr |> <| rr_interval_count := u16 (rr_interval_count h - 1) |>)
     else mret tt);;
    g ← get_svc;
    rr ← lift (wr (rr_interval (hrm g)) (rr_interval_count (hrm g)) (u16 v));
    upd_hrm (fun h => h <| rr_interval := rr |> <| rr_interval_count := u16 (rr_interval_count h + 1) |>)
  else mret tt.
Definition bt_hrs_energy_expended_timer_handler : HM unit :=
  g ← get_svc;
  if is_energy_expended_present g then
    let '(v, sim) := sensorsim_measure (energy_sim g) (energy_cfg g) in
    upd_svc (fun g => g <| energy_sim := sim |>);;
    upd_hrm (fun h => h <| energy_expended := u16 (energy_expended h + u16 v) |>)
  else mret tt.
Definition timer_init : HM unit :=
  emit (TimerInit "bt_hrs_rr_interval_timer");; emit (TimerStart "bt_hrs_rr_interval_timer" 1 1);;
  emit (TimerInit "bt_hrs_energy_expended_timer");; emit (TimerStart "bt_hrs_energy_expended_timer" 2 2).
Definition sensor_simulator_init : HM unit :=
  let e := SimCfg MIN_ENERGY_EXPENDED MAX_ENERGY_EXPENDED ENERGY_EXPENDED_INCREMENT false in
  let r := SimCfg MIN_RR_INTERVAL MAX_RR_INTERVAL RR_INTERVAL_INCREMENT false in
  upd_svc (fun g => g <| energy_cfg := e |> <| energy_sim := sensorsim_init e |> <| rr_cfg := r |> <| rr_sim := sensorsim_init r |>).

Definition flag_if (b : bool) (mask f : Z) : Z := if b then Z.lor f mask else f.
Definition hrs_init (blsc : Z) : HM unit :=
  let fmt16 := false in let detected := true in let supported := true in let energy := true in let rr := true in
  let f := flag_if rr HRM_FLAG_MASK_RR_INTERVAL_REPRESENT (flag_if energy HRM_FLAG_MASK_EXPENDED_ENERGY_REPRESENT
    (flag_if supported HRM_FLAG_MASK_SENSOR_CONTACT_SUPPORTED (flag_if detected HRM_FLAG_MASK_SENSOR_CONTACT_DETECTED
    (flag_if fmt16 HRM_FLAG_MASK_HR_VALUE_16BIT 0)))) in
  upd_svc (fun g => Hrs (Hrm f HRM_INITIAL_VALUE 0 (replicate 20 0) 0)
    (if blsc <=? BT_HRS_BODY_SENSOR_LOCATION_FOOT then blsc else BT_HRS_BODY_SENSOR_LOCATION_FINGER)
    BT_HRS_CONTROL_POINT_RESERVED fmt16 detected supported energy rr
    (simulate_hrm g) (heartrate g) (energy_cfg g) (energy_sim g) (rr_cfg g) (rr_sim g));;
  emit (ServiceRegister "hrs_svc");;
  sensor_simulator_init;;
  timer_init.

Definition hrs_notify : HM unit :=
  g ← get_svc;
  if negb (truthy (simulate_hrm g)) then mret tt
  else
    let r := u16 (heartrate g + 1) in
    let r := if r =? HRM_MAX_VALUE then HRM_INITIAL_VALUE else r in
    upd_svc (fun g => g <| heartrate := r |>);;
    upd_hrm (fun h => h <| hrm_value := r |>);;
    g ← get_svc;
    '(buf, h) ← lift (hrm_encode g (is_energy_expended_present g));
    upd_hrm (fun _ => h);;
    _ ← bt_gatt_notify answer 2 buf;
    mret tt.

(** Whatever enters the service: its timers, the main loop's second, and the peer's writes. *)
Inductive hrs_event := RrTick | EnergyTick | Second | Subscribe (value : Z) | ControlPoint (buf : list Z) (offset : Z).
Definition hrs_step (e : hrs_event) : HM unit :=
  match e with
  | RrTick => bt_hrs_rr_interval_timer_handler
  | EnergyTick => bt_hrs_energy_expended_timer_handler
  | Second => hrs_notify
  | Subscribe v => hrmc_ccc_cfg_changed v
  | ControlPoint buf off => _ ← write_ctrl_point buf off; mret tt
  end.
Fixpoint hrs_run (es : list hrs_event) : HM unit :=
  match es with [] => mret tt | e :: es => hrs_step e;; hrs_run es end.
End Handlers.

(** The variables at power on. *)
Definition hrs_zero : bt_gatt_hrs :=
  Hrs (Hrm 0 0 0 (replicate 20 0) 0) 0 0 false false false false false 0 254
    (SimCfg 0 0 0 false) (Sim 0 false) (SimCfg 0 0 0 false) (Sim 0 false).

(** * Theorems *)

(** ** The simulated sensor stays between its bounds. *)
Definition sim_ok (c : sensorsim_cfg) (s : sensorsim_state) : Prop := sim_min c <= current_val s <= sim_max c.
Definition cfg_ok (c : sensorsim_cfg) : Prop := 0 <= sim_min c <= sim_max c /\ sim_max c < 2 ^ 32 /\ 0 <= incr c.
Lemma sensor_in_bounds c s : cfg_ok c -> sim_ok c s ->
  let '(v, s') := sensorsim_measure s c in v = current_val s' /\ sim_ok c s'.
Proof.
  intros (H1 & H2 & H3) Hs. unfold sensorsim_measure, sensorsim_increment, sensorsim_decrement, sim_ok in *.
  destruct (is_increasing s); case_cmp; cbn [current_val]; (split; [done|]); try lia; rewrite u32_small in * by lia; rewrite u32_small by lia; lia.
Qed.
Lemma sensor_starts_in_bounds c : cfg_ok c -> sim_ok c (sensorsim_init c).
Proof. intros (H1 & H2 & H3). unfold sensorsim_init, sim_ok. destruct (start_at_max c); cbn; lia. Qed.

(** ** The reader of a measurement *)
Record measurement := Meas { m_rate : Z; m_energy : Z; m_rr : list Z }.
Fixpoint p_u16s (b : list Z) : option (list Z) :=
  match b with
  | b0 :: b1 :: b => l ← p_u16s b; Some (Z.lor b0 (Z.shiftl b1 8) :: l)
  | [_] => None
  | [] => Some []
  end.
Definition hrm_parse (b : list Z) : option measurement :=
  '(f, b) ← p_u8 b;
  '(v, b) ← (if Z.testbit f 0 then p_u16 b else p_u8 b);
  '(e, b) ← p_if (Z.testbit f 3) 0 p_u16 b;
  l ← (if Z.testbit f 4 then p_u16s b else Some []);
  Some (Meas v e l).

Lemma p_u16s_encode l : Forall in_u16 l -> p_u16s (l ≫= u16_encode) = Some l.
Proof.
  induction 1 as [|v l Hv Hl IH]; [done|]. rewrite bind_cons. pose proof (u16_roundtrip v (l ≫= u16_encode) Hv) as R.
  rewrite u16_encode_digits in *. cbn [app p_u16s] in *. rewrite IH. cbn [mbind option_bind]. unfold u16_decode in R.
  revert R. rd_cells. intros [= ->]. done.
Qed.
Lemma encoded_u16s_length l : length (l ≫= u16_encode) = (2 * length l)%nat.
Proof. induction l as [|v l IH]; [done|]. rewrite bind_cons, length_app, IH, u16_encode_length. cbn. lia. Qed.

(** ** A packet takes as many intervals as fit; the others move to the front. *)
Lemma slice_pending (l : list Z) (i c : nat) : (i <= c <= length l)%nat ->
  slice l (Z.of_nat i) (Z.of_nat c - Z.of_nat i) = Some (drop i (take c l)).
Proof.
  intros H. unfold slice. rewrite !(proj2 (Z.leb_le _ _)) by lia. cbn [andb]. rewrite Nat2Z.id.
  replace (Z.to_nat (Z.of_nat c - Z.of_nat i)) with (c - i)%nat by lia. rewrite firstn_skipn_comm. by replace (i + (c - i))%nat with c by lia.
Qed.
Lemma store_front (l bs : list Z) : (length bs <= length l)%nat -> store l 0 bs = Some (bs ++ drop (length bs) l).
Proof. intros H. unfold store. rewrite !(proj2 (Z.leb_le _ _)) by lia. done. Qed.
Lemma encode_rr_ok h (p : list Z) : rr_interval_count h = Z.of_nat (length p) ->
  take (length p) (rr_interval h) = p -> (length p <= length (rr_interval h))%nat ->
  forall n i k out, (i + n = length p)%nat -> Z.of_nat (length out) + 2 * Z.of_nat k <= MAX_HRM_LEN < Z.of_nat (length out) + 2 * Z.of_nat k + 2 ->
  exists arr, encode_rr n (Z.of_nat i) h out = Some (out ++ (take k (drop i p) ≫= u16_encode), Z.of_nat (i + k `min` n), arr) /\
    length arr = length (rr_interval h) /\ take (length p - (i + k `min` n)) arr = drop (i + k `min` n) p.
Proof.
  intros Hc Hp Hl. induction n as [|n IH]; intros i k out Hi Hk; cbn [encode_rr].
  { exists (rr_interval h). rewrite drop_ge, take_nil, Nat.min_0_r, Nat.add_0_r by lia. cbn [mbind list_bind]. rewrite app_nil_r.
    replace (length p - i)%nat with 0%nat by lia. by rewrite (drop_ge p) by lia. }
  destruct (Z.ltb_spec MAX_HRM_LEN (Z.of_nat (length out) + 2)) as [Hfull|Hroom].
  - assert (k = 0%nat) as -> by lia. rewrite Hc, slice_pending by lia. rewrite Hp. cbn [mbind option_bind].
    rewrite store_front by (rewrite length_drop; lia). cbn [mbind option_bind]. eexists. rewrite take_0, Nat.min_0_l, Nat.add_0_r. cbn [mbind list_bind].
    rewrite app_nil_r. split; [done|]. split; [rewrite length_app, !length_drop; lia|]. rewrite take_app_le by (rewrite length_drop; lia).
    apply take_ge. rewrite length_drop. lia.
  - destruct (lookup_lt_is_Some_2 p i) as [v Hv]; [lia|]. unfold rd. rewrite (proj2 (Z.leb_le 0 _)) by lia. rewrite Nat2Z.id.
    rewrite <- Hp in Hv at 1. rewrite lookup_take_lt in Hv by lia. rewrite Hv. cbn [mbind option_bind].
    replace (Z.of_nat i + 1) with (Z.of_nat (S i)) by lia.
    destruct k as [|k]; [lia|].
    destruct (IH (S i) k (out ++ u16_encode v)) as (arr & E & L & T); [lia|rewrite length_app, u16_encode_length; lia|].
    exists arr. rewrite E. replace (i + S k `min` S n)%nat with (S i + k `min` n)%nat by lia. split; [|done].
    assert (drop i p = v :: drop (S i) p) as ->.
    { apply drop_S. rewrite <- Hp, lookup_take_lt by lia. done. }
    cbn [take]. by rewrite bind_cons, <- app_assoc.
Qed.

(** ** What the service promises: the measurements, without their encoding *)
Record spec := Spec {
  sp_sub : bool; sp_rate : Z; sp_energy : Z; sp_pending : list Z;      (* intervals not yet sent *)
  sp_rr : sensorsim_state; sp_en : sensorsim_state; sp_sent : list measurement;
  sp_measured : list Z }.                                             (* all intervals so far *)
#[export] Instance eta_spec : EtaRecord spec := fun r =>
  Spec (sp_sub r) (sp_rate r) (sp_energy r) (sp_pending r) (sp_rr r) (sp_en r) (sp_sent r) (sp_measured r).
Definition the_rr_cfg : sensorsim_cfg := SimCfg 100 500 1 false.
Definition the_energy_cfg : sensorsim_cfg := SimCfg 0 65535 10 false.
(** A rate above 255 takes two bytes and leaves room for seven intervals instead of eight. *)
Definition room (rate : Z) : nat := if 255 <? rate then 7 else 8.
Definition spec_step (e : hrs_event) (a : spec) : spec :=
  match e with
  | RrTick =>
      let '(v, rr) := sensorsim_measure (sp_rr a) the_rr_cfg in
      a <| sp_rr := rr |> <| sp_measured ::= (fun l => l ++ [v]) |>
        <| sp_pending ::= (fun p => (if decide (length p = 20%nat) then drop 1 p else p) ++ [v]) |>
  | EnergyTick =>
      let '(v, en) := sensorsim_measure (sp_en a) the_energy_cfg in a <| sp_en := en |> <| sp_energy ::= (fun e => u16 (e + v)) |>
  | Second =>
      if sp_sub a then
        let r := if sp_rate a + 1 =? 280 then 100 else sp_rate a + 1 in
        a <| sp_rate := r |> <| sp_pending ::= drop (room r) |>
          <| sp_sent ::= (fun l => l ++ [Meas r (sp_energy a) (take (room r) (sp_pending a))]) |>
      else a
  | Subscribe v => a <| sp_sub := (v =? 1) |>
  | ControlPoint buf off => if decide (buf = [1] /\ off = 0) then a <| sp_energy := 0 |> else a
  end.
Definition spec_start : spec := Spec false 254 0 [] (Sim 100 true) (Sim 0 true) [] [].
Definition spec_run (es : list hrs_event) : spec := foldl (fun a e => spec_step e a) spec_start es.

Definition notified (t : list gatt_event) : list (list Z) := t ≫= (fun e => match e with Notify 2 d _ => [d] | _ => [] end).
(** A write has at least one byte. *)
Definition write_ok (e : hrs_event) : Prop := match e with ControlPoint buf off => buf <> [] /\ 0 <= off | _ => True end.

(** The encoding of [a] in the variables. *)
Record encodes (g : bt_gatt_hrs) (a : spec) : Prop := {
  en_present : is_rr_interval_present g = true /\ is_energy_expended_present g = true;
  en_cfg : rr_cfg g = the_rr_cfg /\ energy_cfg g = the_energy_cfg;
  en_sim : rr_sim g = sp_rr a /\ energy_sim g = sp_en a;
  en_sim_ok : sim_ok the_rr_cfg (sp_rr a) /\ sim_ok the_energy_cfg (sp_en a);
  en_sub : truthy (simulate_hrm g) = sp_sub a;
  en_rate : heartrate g = sp_rate a /\ 100 <= sp_rate a < 280;
  en_energy : energy_expended (hrm g) = sp_energy a /\ in_u16 (sp_energy a);
  en_flags : Z.testbit (flags (hrm g)) 3 = true /\ Z.testbit (flags (hrm g)) 4 = true;
  en_pending : length (rr_interval (hrm g)) = 20%nat /\ (length (sp_pending a) <= 20)%nat /\
    rr_interval_count (hrm g) = Z.of_nat (length (sp_pending a)) /\
    take (length (sp_pending a)) (rr_interval (hrm g)) = sp_pending a /\ Forall in_u16 (sp_pending a) }.
Definition refines (s : server bt_gatt_hrs) (a : spec) : Prop :=
  encodes (svc s) a /\ hrm_parse <$> notified (events s) = Some <$> sp_sent a /\
  Forall (fun b => (length b <= 20)%nat) (notified (events s)).

(** A measurement that was encoded is read back, and the rest of the intervals stays. *)
Lemma encode_parse g a : encodes g a ->
  exists b h, hrm_encode (g <| hrm ::= (fun h => h <| hrm_value := sp_rate a |>) |>) true = Some (b, h) /\
    hrm_parse b = Some (Meas (sp_rate a) (sp_energy a) (take (room (sp_rate a)) (sp_pending a))) /\
    (length b <= 20)%nat /\ encodes (g <| hrm := h |>) (a <| sp_pending ::= drop (room (sp_rate a)) |>).
Proof.
  intros [[Hrr Hen] Hcfg Hsim Hsok Hsub [Hrate Hr] [He Hein] [F3 F4] (L20 & Lp & Hc & Ht & Hu)]. set (r := sp_rate a) in *.
  set (h0 := (hrm g) <| hrm_value := r |>). set (p := sp_pending a) in *.
  set (value := if 0xff <? r then u16_encode r else [r]).
  assert (Z.of_nat (length ([0] ++ value ++ u16_encode (sp_energy a))) + 2 * Z.of_nat (room r) <= MAX_HRM_LEN <
          Z.of_nat (length ([0] ++ value ++ u16_encode (sp_energy a))) + 2 * Z.of_nat (room r) + 2) as Hroom.
  { change MAX_HRM_LEN with 20. unfold value, room. rewrite !length_app, u16_encode_length. by destruct (255 <? r). }
  destruct (encode_rr_ok h0 p Hc Ht ltac:(cbn; lia) (length p) 0 (room r) _ eq_refl Hroom) as (arr & E & La & Ta).
  rewrite drop_0 in E. rewrite Nat.add_0_l in *. change (length (rr_interval h0)) with (length (rr_interval (hrm g))) in La.
  set (f := if 0xff <? r then Z.lor (flags (hrm g)) HRM_FLAG_MASK_HR_VALUE_16BIT else Z.land (flags (hrm g)) (Z.lnot HRM_FLAG_MASK_HR_VALUE_16BIT)).
  set (f' := if 0 <? Z.of_nat (length p) then Z.lor f HRM_FLAG_MASK_RR_INTERVAL_REPRESENT else f).
  assert (Z.testbit f' 0 = (0xff <? r) /\ Z.testbit f' 3 = true /\ Z.testbit f' 4 = true) as (T0 & T3 & T4).
  { unfold f', f. destruct (0 <? _), (255 <? r); rewrite ?Z.lor_spec, ?Z.land_spec, ?Z.lnot_spec, ?F3, ?F4 by lia; rewrite ?orb_true_r, ?andb_false_r; done. }
  assert (in_u16 r) as Hru by (unfold in_u16; lia).
  set (body := (value ++ u16_encode (sp_energy a)) ++ (take (room r) p ≫= u16_encode)).
  exists (f' :: body), (h0 <| flags := f' |> <| rr_interval := arr |> <| rr_interval_count := Z.of_nat (length (drop (room r) p)) |>).
  assert (length (f' :: body) <= 20)%nat as Lb.
  { unfold body. cbn [length]. rewrite length_app, encoded_u16s_length, length_take. change MAX_HRM_LEN with 20 in Hroom.
    rewrite length_app in Hroom. cbn [length] in Hroom. lia. }
  split; [|split; [|split; [exact Lb|]]].
  - unfold hrm_encode. cbn [hrm set_field hrm_value flags rr_interval_count energy_expended is_energy_expended_present]. rewrite Hen, Hc, He, Nat2Z.id. fold h0.
    replace (if 255 <? r then _ else _) with (f, value) by (unfold f, value; by destruct (255 <? r)). fold f'.
    change ([0] ++ value ++ u16_encode (sp_energy a)) with (0 :: value ++ u16_encode (sp_energy a)) in *. change (Z.of_nat 0) with 0 in E. rewrite E. cbn [mbind option_bind].
    unfold fits. rewrite (proj2 (Z.leb_le _ _)) by (cbn [length] in *; unfold body in Lb; rewrite <- app_comm_cons; cbn [length]; unfold BT_GATT_HRM_MAX_SIZE; lia).
    cbn [mbind option_bind].
    assert (u16 (Z.of_nat (length p) - Z.of_nat (room r `min` length p)) = Z.of_nat (length (drop (room r) p))) as -> by (rewrite length_drop, u16_small; lia). done.
  - unfold hrm_parse, p_if, body. cbn [p_u8 mbind option_bind]. rewrite T0, T3, T4, <- app_assoc. unfold value.
    destruct (255 <? r); [rewrite p_u16_encode by done|rewrite p_u8_cons]; cbn [mbind option_bind]; rewrite p_u16_encode by done; cbn [mbind option_bind];
      rewrite p_u16s_encode by (by apply Forall_take); done.
  - split; try done. split; [cbn; lia|]. cbn. fold p. rewrite length_drop. split; [lia|]. split; [done|]. split; [|by apply Forall_drop].
    replace (length p - room r)%nat with (length p - room r `min` length p)%nat by lia. rewrite Ta.
    destruct (Nat.le_ge_cases (room r) (length p)); [by rewrite Nat.min_l by done|]. by rewrite Nat.min_r, !drop_ge by lia.
Qed.

(** Steps that notify nothing. *)
Lemma refines_quiet (s : server bt_gatt_hrs) a g' a' : refines s a -> encodes g' a' -> sp_sent a' = sp_sent a ->
  refines (Server g' (calls s) (events s)) a'.
Proof. intros (_ & H1 & H2) He Hs. unfold refines. cbn. by rewrite Hs. Qed.

(** The new interval is appended, the oldest given up when there is no room. *)
Lemma append_pending (l p : list Z) v : length l = 20%nat -> (length p < 20)%nat -> take (length p) l = p ->
  exists l', wr l (Z.of_nat (length p)) v = Some l' /\ length l' = 20%nat /\ take (length (p ++ [v])) l' = p ++ [v].
Proof.
  intros Hl Hp Ht. destruct (split_at l (length p)) as (l1 & l2 & -> & E1); [lia|]. rewrite take_app_length' in Ht by done. subst l1.
  rewrite length_app in Hl. destruct l2 as [|x l2]; [cbn in Hl; lia|]. exists (p ++ v :: l2). rewrite (wr_app_here p l2 x v) by done. split; [done|].
  rewrite !length_app. cbn [length] in *. split; [lia|]. change (v :: l2) with ([v] ++ l2). rewrite app_assoc. apply take_app_length'. rewrite length_app. done.
Qed.
Lemma shift_pending (l : list Z) : length l = 20%nat -> exists l', slice l 1 (BT_HRS_MAX_BUFFERED_RR_INTERVALS - 1) = Some (drop 1 l) /\
  store l 0 (drop 1 l) = Some l' /\ length l' = 20%nat /\ take 19 l' = drop 1 l.
Proof.
  intros Hl. do 20 (destruct l as [|? l]; [discriminate Hl|]). destruct l; [|discriminate Hl]. eexists. split; [reflexivity|]. by split.
Qed.

Lemma rr_tick_ok s a : refines s a -> ends bt_hrs_rr_interval_timer_handler s (fun _ s' => refines s' (spec_step RrTick a)).
Proof.
  intros R. pose proof R as [[[Hrr Hen] [Hrc Hec] [Hrs Hes] [Ok1 Ok2] Hsub Hrate He HF (L20 & Lp & Hc & Ht & Hu)] _].
  unfold bt_hrs_rr_interval_timer_handler. gatt. rewrite Hrr, Hrs, Hrc. cbn [spec_step].
  pose proof (sensor_in_bounds the_rr_cfg (sp_rr a) ltac:(by repeat split) Ok1) as HB. destruct (sensorsim_measure (sp_rr a) the_rr_cfg) as [v sim].
  destruct HB as [-> Hok]. set (v := current_val sim) in *. assert (in_u16 v) as Hv by (unfold sim_ok, the_rr_cfg in Hok; cbn in Hok; unfold in_u16, v; lia).
  rewrite (u16_small v) by exact Hv. gatt. rewrite Hc. change BT_HRS_MAX_BUFFERED_RR_INTERVALS with 20. set (p := sp_pending a) in *.
  assert (exists rr q, (if decide (length p = 20%nat) then drop 1 p else p) = q /\ (length q < 20)%nat /\ Forall in_u16 q /\ length rr = 20%nat /\ take (length q) rr = q /\
    forall (R : unit -> server bt_gatt_hrs -> Prop) s0, hrm (svc s0) = hrm (svc s) ->
      R tt (Server ((svc s0) <| hrm ::= (fun h => h <| rr_interval := rr |> <| rr_interval_count := Z.of_nat (length q) |>) |>) (calls s0) (events s0)) ->
      ends (if Z.of_nat (length p) =? 20 then
              rest ← lift (slice (rr_interval (hrm (svc s))) 1 (20 - 1)); rr ← lift (store (rr_interval (hrm (svc s))) 0 rest);
              upd_hrm (fun h => h <| rr_interval := rr |> <| rr_interval_count := u16 (rr_interval_count h - 1) |>)
            else mret tt) s0 R) as (rr & q & Eq & Lq & Uq & Lrr & Tq & Hstep).
  { destruct (Z.eqb_spec (Z.of_nat (length p)) 20) as [E|E].
    - destruct (shift_pending _ L20) as (l' & E1 & E2 & E3 & E4). exists l', (drop 1 p). rewrite decide_True, length_drop by lia.
      assert (p = rr_interval (hrm (svc s))) as Ep by (rewrite <- Ht; apply take_ge; lia).
      split; [done|]. split; [lia|]. split; [by apply Forall_drop|]. split; [done|]. split; [replace (length p - 1)%nat with 19%nat by lia; by rewrite Ep|].
      intros R0 s0 Es0 HR. eapply ends_bind, ends_lift; [exact E1|]. eapply ends_bind, ends_lift; [exact E2|]. unfold upd_hrm. gatt.
      revert HR. unfold set_field. cbv beta. rewrite Es0, Hc. rewrite (u16_small (Z.of_nat (length p) - 1)) by lia. by replace (Z.of_nat (length p) - 1) with (Z.of_nat (length p - 1)) by lia.
    - exists (rr_interval (hrm (svc s))), p. rewrite decide_False by lia. split; [done|]. split; [lia|]. do 3 (split; [done|]).
      intros R0 s0 Es0 HR. gatt. revert HR. unfold set_field. cbv beta. rewrite Es0, <- Hc. destruct s0 as [g0 n0 t0]. cbn in *. rewrite <- Es0. by destruct g0 as [[]]. }
  apply Hstep; [done|]. cbn [svc calls events]. gatt.
  cbn [hrm set_field rr_interval rr_interval_count]. destruct (append_pending rr q v Lrr Lq Tq) as (l' & E1 & E2 & E3).
  eapply ends_lift; [exact E1|]. unfold upd_hrm. gatt. eapply refines_quiet; [exact R| |done].
  split; try done. cbn. fold p. rewrite Eq. split; [done|]. rewrite length_app. cbn [length]. split; [lia|]. split; [rewrite u16_small; lia|].
  split; [by rewrite length_app in E3|]. apply Forall_app. split; [done|by apply Forall_singleton].
Qed.
Lemma energy_tick_ok s a : refines s a -> ends bt_hrs_energy_expended_timer_handler s (fun _ s' => refines s' (spec_step EnergyTick a)).
Proof.
  intros R. pose proof R as [[[Hrr Hen] [Hrc Hec] [Hrs Hes] [Ok1 Ok2] Hsub Hrate [He Hei] HF Hp] _].
  unfold bt_hrs_energy_expended_timer_handler. gatt. rewrite Hen, Hes, Hec. cbn [spec_step].
  pose proof (sensor_in_bounds the_energy_cfg (sp_en a) ltac:(by repeat split) Ok2) as HB. destruct (sensorsim_measure (sp_en a) the_energy_cfg) as [v sim].
  destruct HB as [-> Hok]. unfold upd_hrm. gatt. rewrite (u16_small (current_val sim)) by (unfold sim_ok, the_energy_cfg in Hok; cbn in Hok; lia).
  eapply refines_quiet; [exact R| |done]. split; try done. cbn. rewrite He. split; [done|]. apply u16_range.
Qed.
Lemma second_ok answer s a : refines s a -> ends (hrs_notify answer) s (fun _ s' => refines s' (spec_step Second a)).
Proof.
  intros R. pose proof R as [E [HN HL]]. pose proof E as [[Hrr Hen] _ _ _ Hsub [Hrate Hr] _ _ _]. unfold hrs_notify. gatt. rewrite Hsub. cbn [spec_step].
  destruct (sp_sub a) eqn:Es; cbn [negb]; [|gatt; exact R]. rewrite Hrate, u16_small by lia. change HRM_MAX_VALUE with 280. change HRM_INITIAL_VALUE with 100.
  set (r := if sp_rate a + 1 =? 280 then 100 else sp_rate a + 1). assert (100 <= r < 280) as Hr' by (unfold r; case_cmp; lia). clearbody r.
  unfold upd_hrm. gatt.
  assert (encodes ((svc s) <| heartrate := r |>) (a <| sp_rate := r |>)) as E' by (destruct E; split; try done; by split).
  destruct (encode_parse _ _ E') as (b & h & Ee & Ep & Lb & En). cbn [sp_rate sp_energy sp_pending set_field is_energy_expended_present] in *. rewrite Hen.
  eapply ends_lift; [exact Ee|]. gatt.
  split; [|split]; cbn [svc events set_field sp_sent].
  - by destruct En; split.
  - unfold notified in *. rewrite bind_app, !fmap_app, HN. cbn. by rewrite Ep.
  - unfold notified in *. rewrite bind_app. apply Forall_app. split; [done|]. by apply Forall_singleton.
Qed.
Lemma control_point_ok s a buf off : refines s a -> buf <> [] -> 0 <= off ->
  ends (write_ctrl_point buf off) s (fun _ s' => refines s' (spec_step (ControlPoint buf off) a)).
Proof.
  intros R Hb Ho. pose proof R as [[? ? ? ? ? ? [He Hei] ? ?] _]. destruct buf as [|c buf]; [done|]. unfold write_ctrl_point. gatt. apply (ends_lift _ c); [done|].
  cbn [spec_step]. change BT_HRS_CONTROL_POINT_RESET_ENERGY_EXPENDED with 1. destruct (Z.eqb_spec c 1) as [->|Hc]; cbn [negb].
  - destruct (Z.ltb_spec 1 (off + Z.of_nat (length (1 :: buf)))) as [Hl|Hl]; cbn [length] in Hl.
    + gatt. rewrite decide_False; [done|]. intros [[= ->] ->]. cbn in Hl. lia.
    + assert (buf = [] /\ off = 0) as [-> ->] by (destruct buf; cbn [length] in Hl; [split; [done|lia]|lia]). rewrite decide_True by done.
      gatt. eapply ends_lift; [reflexivity|]. gatt. eapply ends_lift; [reflexivity|]. unfold upd_hrm. gatt.
      eapply refines_quiet; [exact R| |done]. by split.
  - gatt. rewrite decide_False; [done|]. by intros [[= ->] _].
Qed.

Lemma hrs_step_ok answer s a e : refines s a -> write_ok e -> ends (hrs_step answer e) s (fun _ s' => refines s' (spec_step e a)).
Proof.
  intros R Hw. destruct e as [| | |v|buf off]; cbn [hrs_step].
  - by apply rr_tick_ok.
  - by apply energy_tick_ok.
  - by apply second_ok.
  - unfold hrmc_ccc_cfg_changed. gatt. eapply refines_quiet; [exact R| |done]. destruct R as [[] _]. split; try done. cbn. unfold BT_GATT_CCC_NOTIFY. by destruct (v =? 1).
  - destruct Hw. gatt. eapply ends_mono; [by apply control_point_ok|]. intros r s' R'. by gatt.
Qed.
Lemma hrs_run_ok answer es : forall s a, refines s a -> Forall write_ok es ->
  ends (hrs_run answer es) s (fun _ s' => refines s' (foldl (fun a e => spec_step e a) a es)).
Proof.
  induction es as [|e es IH]; intros s a R Hw; cbn [hrs_run foldl]; [by gatt|]. apply Forall_cons in Hw as [He Hw]. apply ends_bind.
  eapply ends_mono; [by apply hrs_step_ok|]. intros [] s1 R1. by apply IH.
Qed.
(** Intervals leave in the order they were measured. *)
Lemma spec_in_order es : forall a, concat (m_rr <$> sp_sent a) ++ sp_pending a `sublist_of` sp_measured a ->
  let a' := foldl (fun a e => spec_step e a) a es in concat (m_rr <$> sp_sent a') ++ sp_pending a' `sublist_of` sp_measured a'.
Proof.
  induction es as [|e es IH]; intros a H; cbn [foldl]; [done|]. apply IH. destruct e as [| | |v|buf off]; cbn [spec_step].
  - destruct (sensorsim_measure _ _) as [v rr]. cbn. rewrite app_assoc. apply sublist_app; [|done].
    etrans; [|exact H]. apply sublist_app; [done|]. case_decide; [apply sublist_drop|done].
  - by destruct (sensorsim_measure _ _) as [v en].
  - destruct (sp_sub a); [|done]. cbn. by rewrite fmap_app, concat_app, <- app_assoc; cbn; rewrite app_nil_r, take_drop.
  - done.
  - by case_decide.
Qed.

(** C37. A heart rate monitor reports what was measured.  After the initialisation, whatever
    the timers, the main loop and the peer's writes do, every notification fits the
    default packet, and its reader gets exactly the measurements of the specification: the
    rate, the energy since the last reset and the intervals in the order they were measured,
    of which only the oldest are given up when twenty are waiting. *)
Theorem heart_rate_reported answer loc es : Forall write_ok es ->
  ends (hrs_init loc;; hrs_run answer es) (Server hrs_zero 0 []) (fun _ s' =>
    hrm_parse <$> notified (events s') = Some <$> sp_sent (spec_run es) /\
    Forall (fun b => (length b <= 20)%nat) (notified (events s')) /\
    concat (m_rr <$> sp_sent (spec_run es)) ++ sp_pending (spec_run es) `sublist_of` sp_measured (spec_run es)).
Proof.
  intros Hw. apply ends_bind. unfold hrs_init, sensor_simulator_init, timer_init. gatt.
  eapply ends_mono; [apply (hrs_run_ok answer es _ spec_start); [|done]|].
  - split; [|done]. split; try done. cbn. split_and!; try done; lia.
  - intros [] s' [_ [H1 H2]]. split; [exact H1|]. split; [exact H2|]. by apply (spec_in_order es spec_start).
Qed.
Definition demo_day : list hrs_event :=
  [RrTick; RrTick; Subscribe 1; Second; EnergyTick; Second; ControlPoint [1] 0; RrTick; Second].
Lemma heart_rate_reported_witness : Forall write_ok demo_day /\
  ends (hrs_init 1;; hrs_run (fun _ => 0) demo_day) (Server hrs_zero 0 []) (fun _ s' =>
    hrm_parse <$> notified (events s') = [Some (Meas 255 0 [101; 102]); Some (Meas 256 10 []); Some (Meas 257 0 [103])] /\
    Forall (fun b => (length b <= 20)%nat) (notified (events s')) /\ [101; 102; 103] `sublist_of` [101; 102; 103]).
Proof.
  assert (Forall write_ok demo_day) as Hw by (unfold demo_day; repeat (apply Forall_cons; split; [done|]); done).
  split; [exact Hw|]. apply (heart_rate_reported (fun _ => 0) 1 demo_day Hw).
Defined.
(** Without the energy two zero bytes take its place, which a reader takes for an interval. *)
Example absent_energy_misread :
  (fun r => hrm_parse r.1) <$> hrm_encode (hrs_zero <| hrm := Hrm (Z.lor 16 0) 70 0 (100 :: replicate 19 0) 1 |>) false =
  Some (Some (Meas 70 0 [0; 100])).
Proof. by vm_compute. Qed.
(** An empty write reads a byte that is not there. *)
Example empty_write_undefined : write_ctrl_point [] 0 (Server hrs_zero 0 []) = None.
Proof. done. Qed.
