(* ===== verification/Epb.v ===== *)
(** * The embedded protocol buffers of the WeChat transport (epb.c)

    Packing writes tags and values into a buffer as long as there is room; unpacking searches
    a message for a tag.  A packer is a state of type [epb] over the object it writes into; a
    message to unpack is the object from its first byte on, [data], and a length, [len], so
    that a read past the message is told from one past the object.  [wire] is the format: the
    fields of a message, encoded one after the other. *)
From S2P Require Import Prelude Gatt.
#[local] Open Scope Z_scope.

Definition WIRETYPE_VARINT : Z := 0.
Definition WIRETYPE_FIXED64 : Z := 1.
Definition WIRETYPE_LENGTH_DELIMITED : Z := 2.
Definition WIRETYPE_FIXED32 : Z := 5.
Definition CONTINUOUS_MASK : Z := 0x80.
Definition WIRETYPE_MASK : Z := 0x07.
Definition continues (b : Z) : bool := truthy (Z.land b CONTINUOUS_MASK).

Definition sizeof_tag (tag : Z) : Z := if Z.land tag 0xff00 =? 0 then 1 else 2.

(** ** Unpacking *)
Definition epb_get_wire_type (tag : Z) : Z :=
  if truthy (Z.shiftr tag 8) then Z.land (Z.shiftr tag 8) WIRETYPE_MASK else Z.land tag WIRETYPE_MASK.

(** The number of bytes used, or -1; the value if it was stored. *)
Fixpoint varint_loop (fuel : nat) (data : list Z) (len offset p_value : Z) : option (Z * option Z) :=
  match fuel with
  | O => None
  | S fuel =>
      b ← rd data (offset - 1);
      if continues b then
        if len <=? offset then Some (-1, None)
        else if 5 <=? offset then Some (offset, Some p_value)
        else
          b ← rd data offset;
          varint_loop fuel data len (offset + 1) (Z.lor p_value (u32 (Z.shiftl (Z.land b 0x7F) (offset * 7))))
      else Some (offset, Some p_value)
  end.
Definition epb_get_varint32_bits (data : list Z) (len : Z) : option (Z * option Z) :=
  b ← rd data 0; varint_loop 5 data len 1 (Z.land b 0x7F).

(** Where an int overflows the behaviour is undefined. *)
Definition int_add (a b : Z) : option Z := if (-2 ^ 31 <=? a + b) && (a + b <? 2 ^ 31) then Some (a + b) else None.

Fixpoint skip_varint (fuel : nat) (data : list Z) (len offset : Z) : option Z :=
  match fuel with
  | O => None
  | S fuel => b ← rd data offset; if continues b && (offset + 1 <? len) then skip_varint fuel data len (offset + 1) else Some (offset + 1)
  end.
Definition epb_get_value_length (data : list Z) (len wire_type : Z) : option Z :=
  if wire_type =? WIRETYPE_VARINT then skip_varint (S (Z.to_nat len)) data len 0
  else if wire_type =? WIRETYPE_FIXED64 then Some 8
  else if wire_type =? WIRETYPE_LENGTH_DELIMITED then
    '(ret, l) ← epb_get_varint32_bits data len; int_add ret (s32 (default 0 l))
  else if wire_type =? WIRETYPE_FIXED32 then Some 4
  else Some (-1).

(** The bytes of a tag are put one after the other, without the later ones' top bit. *)
Fixpoint tag_loop (fuel : nat) (data : list Z) (len offset p_tag : Z) : option (Z * Z) :=
  match fuel with
  | O => None
  | S fuel =>
      b ← rd data (offset - 1);
      if continues b && (offset <? len) then
        b ← rd data offset;
        tag_loop fuel data len (offset + 1) (Z.lor (u32 (Z.shiftl p_tag 8)) (Z.land b 0x7f))
      else Some (p_tag, offset)
  end.
Fixpoint find_loop (fuel : nat) (data : list Z) (len tag offset : Z) : option Z :=
  match fuel with
  | O => None
  | S fuel =>
      if offset <? len then
        b ← rd data offset;
        '(p_tag, offset) ← tag_loop (S (Z.to_nat len)) data len (offset + 1) b;
        if p_tag =? tag then Some offset
        else
          ret ← epb_get_value_length (drop (Z.to_nat offset) data) (len - offset) (epb_get_wire_type (u16 p_tag));
          if ret <? 0 then find_loop fuel data len tag (offset + 1)
          else offset ← int_add offset ret; find_loop fuel data len tag offset
      else Some (-1)
  end.
(** Every round takes at least the first byte of a tag. *)
Definition epb_get_tag_value_offset (data : list Z) (len tag : Z) : option Z := find_loop (S (Z.to_nat len)) data len tag 0.

Definition epb_get_fixed32_bits (data : list Z) (len : Z) : option Z := if len <? 4 then Some 0 else u32_decode data.

Record unpack := Unpack { unpack_buf : list Z; unpack_len : Z }.
Definition epb_unpack_init (buf : list Z) (len : Z) : unpack := Unpack buf len.
Definition value_offset (e : unpack) (tag : Z) : option Z := epb_get_tag_value_offset (unpack_buf e) (unpack_len e) tag.
Definition at_offset (e : unpack) (offset : Z) : list Z := drop (Z.to_nat offset) (unpack_buf e).

Definition epb_has_tag (e : unpack) (tag : Z) : option bool := o ← value_offset e tag; Some (negb (o <? 0)).
Definition epb_get_uint32 (e : unpack) (tag : Z) : option Z :=
  o ← value_offset e tag;
  if o <? 0 then Some 0 else '(_, v) ← epb_get_varint32_bits (at_offset e o) (unpack_len e - o); Some (default 0 v).
Definition epb_get_int32 (e : unpack) (tag : Z) : option Z := s32 <$> epb_get_uint32 e tag.
Definition epb_get_sint32 (e : unpack) (tag : Z) : option Z :=
  v ← epb_get_uint32 e tag;
  Some (s32 (if truthy (Z.land v 1) then u32 (u32 (- Z.shiftr v 1) - 1) else Z.shiftr v 1)).
Definition epb_get_bool (e : unpack) (tag : Z) : option bool := truthy <$> epb_get_uint32 e tag.
Definition epb_get_enum (e : unpack) (tag : Z) : option Z := s32 <$> epb_get_uint32 e tag.
(** A pointer into the message, as its position, and a length; [None] inside is NULL.  The
    length is not initialised when the varint is cut off. *)
Definition epb_get_bytes (e : unpack) (tag : Z) : option (option (Z * Z)) :=
  o ← value_offset e tag;
  if o <? 0 then Some None
  else '(n, l) ← epb_get_varint32_bits (at_offset e o) (unpack_len e - o); l ← l; Some (Some (o + n, s32 l)).
Definition epb_get_string : unpack -> Z -> option (option (Z * Z)) := epb_get_bytes.
Definition epb_get_message : unpack -> Z -> option (option (Z * Z)) := epb_get_bytes.
Definition epb_get_fixed32 (e : unpack) (tag : Z) : option Z :=
  o ← value_offset e tag; if o <? 0 then Some 0 else epb_get_fixed32_bits (at_offset e o) (unpack_len e - o).
Definition epb_get_sfixed32 (e : unpack) (tag : Z) : option Z := s32 <$> epb_get_fixed32 e tag.

(** ** Packing *)
Record epb := Epb { pack_buf : list Z; buf_len : Z; buf_offset : Z }.
#[export] Instance eta_epb : EtaRecord epb := fun r => Epb (pack_buf r) (buf_len r) (buf_offset r).
#[local] Abbreviation PK := (M epb).
Definition epb_pack_init (buf : list Z) (len : Z) : epb := Epb buf len 0.
Definition epb_get_packed_size (e : epb) : Z := buf_offset e.
Definition epb_pack_buf_remain (e : epb) : Z := buf_len e - buf_offset e.

(** memcpy to the write position, if it fits; the number of bytes or -1. *)
Definition epb_put (bs : list Z) : PK Z :=
  e ← get;
  if Z.of_nat (length bs) <=? epb_pack_buf_remain e then
    b ← lift (store (pack_buf e) (buf_offset e) bs);
    put (e <| pack_buf := b |> <| buf_offset ::= Z.add (Z.of_nat (length bs)) |>);;
    mret (Z.of_nat (length bs))
  else mret (-1).
Definition tag_bytes (tag : Z) : list Z :=
  if sizeof_tag tag =? 2 then [Z.land 0xff (Z.shiftr tag 8); Z.land 0xff tag] else [Z.land 0xff tag].
Definition epb_pack_tag (tag : Z) : PK Z := epb_put (tag_bytes tag).

Fixpoint pack_loop (n : nat) (i : nat) (value : Z) (buf : list Z) : list Z :=
  match n with
  | O => take i buf
  | S n =>
      let buf := <[i := Z.land value 0x7f]> buf in
      let buf := match i with O => buf | S j => alter (fun b => Z.lor b 0x80) j buf end in
      let value := Z.shiftr value 7 in
      if value =? 0 then take (S i) buf else pack_loop n (S i) value buf
  end.
Definition varint_bytes (value : Z) : list Z := pack_loop 5 0 value (replicate 5 0).
Definition epb_pack_varint32_bits (value : Z) : PK Z := epb_put (varint_bytes value).
Definition epb_set_fixed32_bits (value : Z) : PK Z := epb_put (u32_encode value).
(** [len] bytes of the object [data] points to. *)
Definition epb_pack_length_delimited (data : list Z) (len : Z) : PK Z := bs ← lift (slice data 0 len); epb_put bs.

(** if (ret < 0) return ret; len += ret; *)
Definition then_put (m k : PK Z) : PK Z := r ← m; if r <? 0 then mret r else r' ← k; if r' <? 0 then mret r' else mret (r + r').
Definition epb_set_uint32 (tag value : Z) : PK Z := then_put (epb_pack_tag tag) (epb_pack_varint32_bits value).
Definition epb_set_int32 (tag value : Z) : PK Z := epb_set_uint32 tag (u32 value).
Definition epb_set_sint32 (tag value : Z) : PK Z := epb_set_uint32 tag (Z.lxor (u32 (Z.shiftl value 1)) (u32 (Z.shiftr value 31))).
Definition epb_set_bool (tag : Z) (value : bool) : PK Z := epb_set_uint32 tag (b2z value).
Definition epb_set_enum (tag value : Z) : PK Z := epb_set_uint32 tag (u32 value).
Definition epb_set_bytes (tag : Z) (data : list Z) (length : Z) : PK Z :=
  then_put (epb_pack_tag tag) (then_put (epb_pack_varint32_bits (u32 length)) (epb_pack_length_delimited data length)).
Definition epb_set_string : Z -> list Z -> Z -> PK Z := epb_set_bytes.
Definition epb_set_message : Z -> list Z -> Z -> PK Z := epb_set_bytes.
Definition epb_set_fixed32 (tag value : Z) : PK Z := then_put (epb_pack_tag tag) (epb_set_fixed32_bits value).
Definition epb_set_sfixed32 (tag value : Z) : PK Z := epb_set_fixed32 tag (u32 value).

Fixpoint size_loop (n : nat) (value : Z) : Z :=
  match n with O => 0 | S n => let value := Z.shiftr value 7 in if value =? 0 then 1 else 1 + size_loop n value end.
Definition epb_varint32_pack_size (tag value : Z) (is_signed : bool) : Z :=
  let value := if is_signed then Z.lxor (u32 (Z.shiftl value 1)) (Z.shiftr value 31) else value in
  sizeof_tag tag + size_loop 5 value.
Definition epb_fixed32_pack_size (tag : Z) : Z := sizeof_tag tag + 4.
Definition epb_length_delimited_pack_size (tag len : Z) : Z := epb_varint32_pack_size tag (u32 len) false + len.

(** * Theorems *)

(** ** The format *)
Fixpoint varint (n : nat) (v : Z) : list Z :=
  match n with
  | O => []
  | S n => if v <? 128 then [v] else (v mod 128 + 128) :: varint n (v / 128)
  end.
(** A 32-bit number takes at most five bytes. *)
Definition to_varint (v : Z) : list Z := varint 5 v.
Inductive field := FVarint (tag v : Z) | FBytes (tag : Z) (bs : list Z) | FFixed (tag v : Z).
Definition tag_of (f : field) : Z := match f with FVarint t _ | FBytes t _ | FFixed t _ => t end.
Definition payload (f : field) : list Z :=
  match f with
  | FVarint _ v => to_varint v
  | FBytes _ bs => to_varint (Z.of_nat (length bs)) ++ bs
  | FFixed _ v => u32_encode v
  end.
Definition wire (f : field) : list Z := tag_bytes (tag_of f) ++ payload f.
Definition message (fs : list field) : list Z := fs ≫= wire.

(** A tag is a field number times eight plus the wire type, as a varint whose bytes are put
    one after the other. *)
Definition tag_ok (tag wire_type : Z) : Prop :=
  (0 <= tag < 128 \/ 0x8000 <= tag < 0x10000 /\ tag mod 256 < 128) /\ epb_get_wire_type tag = wire_type.
Definition field_ok (f : field) : Prop :=
  match f with
  | FVarint t v => tag_ok t WIRETYPE_VARINT /\ 0 <= v < 2 ^ 32
  | FBytes t bs => tag_ok t WIRETYPE_LENGTH_DELIMITED /\ Z.of_nat (length bs) < 2 ^ 31
  | FFixed t v => tag_ok t WIRETYPE_FIXED32 /\ 0 <= v < 2 ^ 32
  end.
Definition tag_okb (t w : Z) : bool :=
  ((0 <=? t) && (t <? 128) || (0x8000 <=? t) && (t <? 0x10000) && (t mod 256 <? 128)) && (epb_get_wire_type t =? w).
Definition field_okb (f : field) : bool :=
  match f with
  | FVarint t v => tag_okb t WIRETYPE_VARINT && (0 <=? v) && (v <? 2 ^ 32)
  | FBytes t bs => tag_okb t WIRETYPE_LENGTH_DELIMITED && (Z.of_nat (length bs) <? 2 ^ 31)
  | FFixed t v => tag_okb t WIRETYPE_FIXED32 && (0 <=? v) && (v <? 2 ^ 32)
  end.
Lemma field_okb_ok fs : forallb field_okb fs = true -> Forall field_ok fs.
Proof.
  intros H. apply Forall_forall. intros f Hf. apply list_elem_of_In in Hf. pose proof (proj1 (forallb_forall _ _) H f Hf) as E.
  destruct f as [t v|t bs|t v]; cbn [field_okb] in E; unfold tag_okb in E; unfold field_ok, tag_ok;
    rewrite ?andb_true_iff, ?orb_true_iff, ?andb_true_iff, ?Z.leb_le, ?Z.ltb_lt, ?Z.eqb_eq in E; intuition lia.
Qed.
(** The first field with a tag. *)
Definition lookup_field (tag : Z) (fs : list field) : option field := find (fun f => tag_of f =? tag) fs.

(** ** Varints *)
Lemma land_7f v : Z.land v 0x7f = v mod 128.
Proof. change 0x7f with (Z.ones 7). by rewrite Z.land_ones. Qed.
Lemma continues_high b : 0 <= b < 256 -> continues b = (128 <=? b).
Proof.
  intros Hb. apply (fun H => proj1 (Bool.eqb_true_iff _ _) (forallb_range (fun b => Bool.eqb (continues b) (128 <=? b)) 256 H b Hb)). by vm_compute.
Qed.
Lemma shiftr_7 v : Z.shiftr v 7 = v / 128.
Proof. by rewrite Z.shiftr_div_pow2. Qed.
Lemma lor_80 b : 0 <= b < 128 -> Z.lor b 0x80 = b + 128.
Proof. intros Hb. change 0x80 with (Z.shiftl 1 7). by rewrite lor_byte by lia. Qed.

Lemma varint_cons n v : varint (S n) v = if v <? 128 then [v] else (v mod 128 + 128) :: varint n (v / 128).
Proof. done. Qed.
Lemma varint_length n v : 0 <= v < 128 ^ Z.of_nat n -> (1 <= length (varint n v) <= n)%nat \/ n = 0%nat.
Proof.
  revert v. induction n as [|n IH]; intros v Hv; [by right|]. left. cbn [varint]. case_cmp; cbn [length]; [lia|].
  destruct (IH (v / 128)) as [Hn| ->]; [|lia|cbn in Hv; lia]. rewrite Nat2Z.inj_succ, Z.pow_succ_r in Hv by lia.
  split; [apply Z.div_pos; lia|apply Z.div_lt_upper_bound; lia].
Qed.
Lemma to_varint_length v : 0 <= v < 2 ^ 32 -> (1 <= length (to_varint v) <= 5)%nat.
Proof. intros Hv. destruct (varint_length 5 v) as [H|H]; [cbn; lia|done|done]. Qed.
Lemma varint_bytes_in_range n v : 0 <= v -> Forall (fun b => 0 <= b < 256) (varint n v).
Proof.
  revert v. induction n as [|n IH]; intros v Hv; cbn [varint]; [done|]. pose proof (Z.mod_pos_bound v 128 eq_refl).
  case_cmp; repeat constructor; try lia. apply IH, Z.div_pos; lia.
Qed.

(** The packing loop, unrolled: it stops when the rest is zero, which is when what it had left
    was below 128. *)
Lemma div_128_zero v : 0 <= v -> (v / 128 =? 0) = (v <? 128).
Proof. intros Hv. destruct (Z.ltb_spec v 128); [by rewrite Z.div_small|]. apply Z.eqb_neq. assert (1 <= v / 128) by (apply Z.div_le_lower_bound; lia). lia. Qed.
Lemma varint_bytes_ok v : 0 <= v < 2 ^ 32 -> varint_bytes v = to_varint v.
Proof.
  intros Hv. unfold varint_bytes, to_varint. cbn [pack_loop varint replicate]. rewrite !shiftr_7, !land_7f.
  cbn [insert list_insert alter list_alter take].
  assert (forall x, 0 <= x -> 0 <= x / 128 /\ 0 <= x mod 128 < 128) as Hd by (intros x Hx; split; [apply Z.div_pos; lia|by apply Z.mod_pos_bound]).
  pose proof (Hd v ltac:(lia)) as [H1 M0]. set (v1 := v / 128) in *. pose proof (Hd v1 H1) as [H2 M1]. set (v2 := v1 / 128) in *.
  pose proof (Hd v2 H2) as [H3 M2]. set (v3 := v2 / 128) in *. pose proof (Hd v3 H3) as [H4 M3]. set (v4 := v3 / 128) in *.
  assert (v4 < 128) as H5 by (unfold v4, v3, v2, v1; rewrite !Z.div_div by lia; apply Z.div_lt_upper_bound; lia).
  unfold v1 at 1, v2 at 1, v3 at 1, v4 at 1. rewrite !div_128_zero by lia. fold v1 v2 v3 v4. rewrite !lor_80 by done.
  destruct (Z.ltb_spec v 128); [by rewrite Z.mod_small by lia|]. destruct (Z.ltb_spec v1 128); [by rewrite (Z.mod_small v1) by lia|].
  destruct (Z.ltb_spec v2 128); [by rewrite (Z.mod_small v2) by lia|]. destruct (Z.ltb_spec v3 128); [by rewrite (Z.mod_small v3) by lia|].
  destruct (Z.ltb_spec v4 128); [|lia]. rewrite (Z.mod_small v4) by lia. by destruct (v4 / 128 =? 0).
Qed.

(** A byte of a varint, its last or an earlier one. *)
Lemma continues_last v : 0 <= v < 128 -> continues v = false.
Proof. intros Hv. rewrite continues_high by lia. apply Z.leb_gt. lia. Qed.
Lemma continues_first v : 0 <= v -> continues (v mod 128 + 128) = true.
Proof. intros Hv. pose proof (Z.mod_pos_bound v 128 eq_refl). rewrite continues_high by lia. apply Z.leb_le. lia. Qed.
Lemma digit_bits v : Z.land (v mod 128 + 128) 0x7f = v mod 128.
Proof. rewrite land_7f. rewrite <- (Z.mul_1_l 128) at 2. by rewrite Z.mod_add, Z.mod_mod by lia. Qed.

Lemma varint_loop_ok n : forall k fuel lo w pre rest len, length pre = k -> (k + S n <= 5)%nat -> (S n <= fuel)%nat ->
  0 <= w < 128 ^ Z.of_nat (S n) -> 0 <= lo < 2 ^ (7 * Z.of_nat k) -> lo + w * 2 ^ (7 * Z.of_nat k) < 2 ^ 32 ->
  Z.of_nat (k + length (varint (S n) w)) <= len ->
  varint_loop fuel (pre ++ varint (S n) w ++ rest) len (Z.of_nat k + 1) (lo + w mod 128 * 2 ^ (7 * Z.of_nat k)) =
  Some (Z.of_nat (k + length (varint (S n) w)), Some (lo + w * 2 ^ (7 * Z.of_nat k))).
Proof.
  induction n as [|n IH]; intros k fuel lo w pre rest len Hk Hn Hf Hw Hlo Hv Hl; (destruct fuel as [|fuel]; [lia|]); cbn [varint_loop]; rewrite Z.add_simpl_r;
    rewrite varint_cons in Hl |- *; destruct (Z.ltb_spec w 128) as [Hs|Hs]; try (exfalso; cbn in Hw; lia).
  1, 2: cbn [app]; rewrite (rd_app_here _ _ _ (Z.of_nat k)) by lia; cbn [mbind option_bind]; rewrite continues_last, Z.mod_small by lia; f_equal; f_equal; cbn [length]; lia.
  cbn [app length] in *. rewrite (rd_app_here _ _ _ (Z.of_nat k)) by lia. cbn [mbind option_bind]. rewrite continues_first by lia.
  assert (0 <= w / 128 < 128 ^ Z.of_nat (S n)) as Hw'.
  { rewrite (Nat2Z.inj_succ (S n)), Z.pow_succ_r in Hw by lia. split; [apply Z.div_pos; lia|apply Z.div_lt_upper_bound; lia]. }
  assert (1 <= length (varint (S n) (w / 128)))%nat as Hl1 by (destruct (varint_length (S n) (w / 128) Hw'); [lia|done]).
  rewrite !(proj2 (Z.leb_gt _ _)) by lia.
  set (P := 2 ^ (7 * Z.of_nat k)) in *. assert (0 < P) by (apply Z.pow_pos_nonneg; lia).
  assert (2 ^ (7 * Z.of_nat (S k)) = 128 * P) as EP by (unfold P; rewrite Nat2Z.inj_succ, Z.mul_succ_r, Z.pow_add_r by lia; change (2 ^ 7) with 128; lia).
  pose proof (Z.mod_pos_bound w 128 eq_refl) as Hm. pose proof (Z.div_mod w 128 ltac:(lia)) as Ew.
  change (w mod 128 + 128 :: varint (S n) (w / 128) ++ rest) with ([w mod 128 + 128] ++ (varint (S n) (w / 128) ++ rest)). rewrite app_assoc.
  set (pre' := pre ++ [w mod 128 + 128]). assert (length pre' = S k) as Hk' by (unfold pre'; rewrite length_app; cbn; lia).
  replace (Z.of_nat k + 1) with (Z.of_nat (S k)) by lia.
  assert (exists b, rd (pre' ++ varint (S n) (w / 128) ++ rest) (Z.of_nat (S k)) = Some b /\ Z.land b 127 = (w / 128) mod 128) as (b & -> & Eb).
  { cbn [varint]. destruct (Z.ltb_spec (w / 128) 128); cbn [app]; rewrite rd_app_here by (by rewrite Hk'); eexists; (split; [done|]); [by rewrite land_7f|apply digit_bits]. }
  cbn [mbind option_bind]. rewrite Eb. pose proof (Z.mod_pos_bound (w / 128) 128 eq_refl) as Hm2. pose proof (Z.mod_le (w / 128) 128 ltac:(lia) eq_refl) as Hm3.
  rewrite Z.shiftl_mul_pow2, (Z.mul_comm (Z.of_nat (S k)) 7), EP by lia. rewrite u32_small by nia.
  replace ((w / 128) mod 128 * (128 * P)) with (Z.shiftl ((w / 128) mod 128) (7 * Z.of_nat (S k))) by (rewrite Z.shiftl_mul_pow2, EP by lia; done).
  rewrite lor_byte by (rewrite ?EP; nia).
  rewrite (IH (S k) fuel (lo + w mod 128 * P) (w / 128) pre' rest len); try done; try lia; rewrite ?EP; try nia.
  f_equal. f_equal; [lia|]. f_equal. nia.
Qed.
Lemma get_varint_ok v rest len : 0 <= v < 2 ^ 32 -> Z.of_nat (length (to_varint v)) <= len ->
  epb_get_varint32_bits (to_varint v ++ rest) len = Some (Z.of_nat (length (to_varint v)), Some v).
Proof.
  intros Hv Hl. unfold epb_get_varint32_bits.
  assert (exists b, rd (to_varint v ++ rest) 0 = Some b /\ Z.land b 127 = v mod 128) as (b & -> & Eb).
  { unfold to_varint. cbn [varint]. destruct (v <? 128); eexists; (split; [reflexivity|]); [by rewrite land_7f|apply digit_bits]. }
  cbn [mbind option_bind]. rewrite Eb. pose proof (varint_loop_ok 4 0 5 0 v [] rest len) as H. cbn [Z.of_nat Nat.add length app Z.mul] in H.
  rewrite Z.mul_1_r, Z.add_0_l, Z.mul_1_r in H. by apply H; unfold to_varint in *; lia.
Qed.
Lemma skip_varint_ok n : forall k fuel w pre rest len, length pre = k -> (length (varint (S n) w) <= fuel)%nat -> 0 <= w < 128 ^ Z.of_nat (S n) ->
  Z.of_nat (k + length (varint (S n) w)) <= len ->
  skip_varint fuel (pre ++ varint (S n) w ++ rest) len (Z.of_nat k) = Some (Z.of_nat (k + length (varint (S n) w))).
Proof.
  induction n as [|n IH]; intros k fuel w pre rest len Hk Hf Hw Hl; rewrite varint_cons in Hl, Hf |- *; destruct (Z.ltb_spec w 128) as [Hs|Hs]; try (exfalso; cbn in Hw; lia);
    (destruct fuel as [|fuel]; [cbn in Hf; lia|]); cbn [skip_varint].
  1, 2: cbn [app length]; rewrite (rd_app_here _ _ _ (Z.of_nat k)) by lia; cbn [mbind option_bind]; rewrite continues_last by lia; cbn [andb]; f_equal; lia.
  cbn [app length] in *. rewrite (rd_app_here _ _ _ (Z.of_nat k)) by lia. cbn [mbind option_bind]. rewrite continues_first by lia.
  assert (0 <= w / 128 < 128 ^ Z.of_nat (S n)) as Hw'.
  { rewrite (Nat2Z.inj_succ (S n)), Z.pow_succ_r in Hw by lia. split; [apply Z.div_pos; lia|apply Z.div_lt_upper_bound; lia]. }
  assert (1 <= length (varint (S n) (w / 128)))%nat as Hl1 by (destruct (varint_length (S n) (w / 128) Hw'); [lia|done]).
  rewrite (proj2 (Z.ltb_lt _ _)) by lia. cbn [andb]. replace (Z.of_nat k + 1) with (Z.of_nat (S k)) by lia.
  change (w mod 128 + 128 :: varint (S n) (w / 128) ++ rest) with ([w mod 128 + 128] ++ (varint (S n) (w / 128) ++ rest)). rewrite app_assoc.
  rewrite IH; try done; try lia; [f_equal; lia|rewrite length_app; cbn; lia].
Qed.

(** ** Tags *)
Lemma sizeof_tag_ok tag wt : tag_ok tag wt -> sizeof_tag tag = if tag <? 128 then 1 else 2.
Proof.
  intros [[Ht|[Ht _]] _]; unfold sizeof_tag.
  - rewrite (proj2 (Z.ltb_lt _ _)) by lia.
    pose proof (forallb_range (fun t => Z.land t 0xff00 =? 0) 128 ltac:(by vm_compute) tag Ht) as E. by rewrite E.
  - rewrite (proj2 (Z.ltb_ge _ _)) by lia. destruct (Z.eqb_spec (Z.land tag 0xff00) 0) as [E|]; [|done]. exfalso.
    assert (Z.testbit (Z.land tag 0xff00) 15 = true) as T; [|by rewrite E, Z.bits_0 in T].
    rewrite Z.land_spec, andb_true_r. apply Z.testbit_true; [lia|]. replace (tag / 2 ^ 15) with 1; [done|]. Z.to_euclidean_division_equations; lia.
Qed.
Lemma tag_bytes_ok tag wt : tag_ok tag wt ->
  tag_bytes tag = (if tag <? 128 then [tag] else [tag / 256; tag mod 256]) /\ 0 <= tag < 65536 /\ u16 tag = tag.
Proof.
  intros H. assert (0 <= tag < 65536) as Hr by (destruct H as [Ht _]; lia). split; [|split; [done|by apply u16_small]].
  unfold tag_bytes. rewrite (sizeof_tag_ok _ _ H). rewrite !(Z.land_comm 255). change 255 with (Z.ones 8). rewrite !Z.land_ones, Z.shiftr_div_pow2 by lia.
  change (2 ^ 8) with 256. destruct (Z.ltb_spec tag 128); cbn [Z.eqb Pos.eqb]; [by rewrite Z.mod_small by lia|].
  rewrite (Z.mod_small (tag / 256)); [done|]. Z.to_euclidean_division_equations; lia.
Qed.
Lemma tag_loop_ok tag wt pre rest len fuel : tag_ok tag wt -> (2 <= fuel)%nat -> Z.of_nat (length pre + length (tag_bytes tag)) <= len ->
  exists b, rd (pre ++ tag_bytes tag ++ rest) (Z.of_nat (length pre)) = Some b /\
    tag_loop fuel (pre ++ tag_bytes tag ++ rest) len (Z.of_nat (length pre) + 1) b = Some (tag, Z.of_nat (length pre + length (tag_bytes tag))).
Proof.
  intros H Hf Hl. destruct (tag_bytes_ok tag wt H) as (E & Hr & _). destruct H as [Ht _]. rewrite E in *. destruct fuel as [|[|fuel]]; [lia..|].
  destruct (Z.ltb_spec tag 128); cbn [app length] in *.
  - exists tag. rewrite (rd_app_here pre rest tag (Z.of_nat (length pre))) by done. split; [done|]. cbn [tag_loop].
    rewrite !Z.add_simpl_r. rewrite (rd_app_here pre rest tag (Z.of_nat (length pre))) by done. cbn [mbind option_bind]. rewrite continues_last by lia. cbn [andb]. f_equal. f_equal. lia.
  - assert (128 <= tag / 256 < 256 /\ 0 <= tag mod 256 < 128) as [Hhi Hlo] by (Z.to_euclidean_division_equations; lia). exists (tag / 256).
    rewrite (rd_app_here pre _ _ (Z.of_nat (length pre))) by done. split; [done|]. cbn [tag_loop].
    rewrite !Z.add_simpl_r, (rd_app_here pre (tag mod 256 :: rest) _ (Z.of_nat (length pre))) by done. cbn [mbind option_bind].
    rewrite continues_high, (proj2 (Z.leb_le _ _)), (proj2 (Z.ltb_lt _ _)) by lia. cbn [andb].
    change (tag / 256 :: tag mod 256 :: rest) with ([tag / 256] ++ (tag mod 256 :: rest)). rewrite app_assoc, (rd_app_here (pre ++ [tag / 256]) rest _ (Z.of_nat (length pre) + 1)) by (rewrite length_app; cbn; lia).
    cbn [mbind option_bind]. rewrite ?Z.add_simpl_r, ?(rd_app_here (pre ++ [tag / 256]) rest _ (Z.of_nat (length pre) + 1)) by (rewrite length_app; cbn; lia).
    cbn [mbind option_bind]. rewrite continues_last by lia. cbn [andb]. f_equal. f_equal; [|lia].
    rewrite land_7f, Z.shiftl_mul_pow2, u32_small by lia. rewrite (Z.mod_small (tag mod 256)) by lia.
    rewrite Z.lor_comm. change (tag / 256 * 2 ^ 8) with (tag / 256 * 2 ^ 8). rewrite <- Z.shiftl_mul_pow2, lor_byte by lia. Z.to_euclidean_division_equations; lia.
Qed.

(** ** Values *)
Lemma s32_small z : 0 <= z < 2 ^ 31 -> s32 z = z.
Proof. intros Hz. unfold s32, sext. rewrite Z.mod_small by lia. by rewrite (proj2 (Z.ltb_lt _ _)) by (cbn; lia). Qed.
Lemma value_length_ok f rest len : field_ok f -> Z.of_nat (length (payload f)) <= len < 2 ^ 31 ->
  epb_get_value_length (payload f ++ rest) len (epb_get_wire_type (u16 (tag_of f))) = Some (Z.of_nat (length (payload f))).
Proof.
  intros Hf Hl. destruct f as [t v|t bs|t v]; destruct Hf as [Ht Hv]; cbn [tag_of payload] in *;
    destruct (tag_bytes_ok _ _ Ht) as (_ & _ & ->); rewrite (proj2 Ht); cbn [epb_get_value_length].
  - unfold epb_get_value_length. rewrite Z.eqb_refl. pose proof (skip_varint_ok 4 0 (S (Z.to_nat len)) v [] rest len) as H. cbn [app Nat.add] in H.
    unfold to_varint in *. apply H; [done|lia|cbn; lia|lia].
  - unfold epb_get_value_length. cbn [Z.eqb WIRETYPE_LENGTH_DELIMITED WIRETYPE_VARINT WIRETYPE_FIXED64 Pos.eqb]. rewrite length_app in *. rewrite <- app_assoc, get_varint_ok by lia.
    cbn [mbind option_bind]. change (default 0 (Some (Z.of_nat (length bs)))) with (Z.of_nat (length bs)). rewrite s32_small by lia.
    unfold int_add. rewrite (proj2 (Z.leb_le _ _)), (proj2 (Z.ltb_lt _ _)) by lia. cbn [andb]. f_equal. lia.
  - done.
Qed.

(** ** The search for a tag *)
Fixpoint position (tag : Z) (fs : list field) : option nat :=
  match fs with
  | [] => None
  | f :: fs => if tag_of f =? tag then Some (length (tag_bytes tag)) else Nat.add (length (wire f)) <$> position tag fs
  end.
Lemma field_tag_ok f : field_ok f -> exists wt, tag_ok (tag_of f) wt.
Proof. destruct f; intros [H _]; eauto. Qed.
Lemma tag_bytes_length tag wt : tag_ok tag wt -> (1 <= length (tag_bytes tag) <= 2)%nat.
Proof. intros H. destruct (tag_bytes_ok _ _ H) as [-> _]. destruct (tag <? 128); cbn; lia. Qed.
Lemma message_cons f fs : message (f :: fs) = wire f ++ message fs.
Proof. apply bind_cons. Qed.
Lemma message_app fs gs : message (fs ++ gs) = message fs ++ message gs.
Proof. apply bind_app. Qed.
Lemma find_loop_ok tag fs : forall pre rest fuel len, Forall field_ok fs -> (length (message fs) < fuel)%nat ->
  len = Z.of_nat (length pre + length (message fs)) -> len < 2 ^ 31 ->
  find_loop fuel (pre ++ message fs ++ rest) len tag (Z.of_nat (length pre)) =
  Some (match position tag fs with Some n => Z.of_nat (length pre + n) | None => -1 end).
Proof.
  induction fs as [|f fs IH]; intros pre rest fuel len Hok Hf Hlen Hmax; (destruct fuel as [|fuel]; [lia|]); cbn [find_loop position].
  { cbn in Hlen. rewrite (proj2 (Z.ltb_ge _ _)) by lia. done. }
  apply Forall_cons in Hok as [Hfo Hok]. destruct (field_tag_ok f Hfo) as [wt Ht]. pose proof (tag_bytes_length _ _ Ht) as Htl.
  rewrite message_cons, length_app in *. unfold wire in *. rewrite length_app in *. rewrite (proj2 (Z.ltb_lt _ _)) by lia. rewrite <- !app_assoc.
  destruct (tag_loop_ok (tag_of f) wt pre (payload f ++ message fs ++ rest) len (S (Z.to_nat len)) Ht) as (b & E1 & E2); [lia|lia|].
  rewrite E1. cbn [mbind option_bind]. rewrite E2. cbn [mbind option_bind]. destruct (Z.eqb_spec (tag_of f) tag) as [<-|Hne]; [done|].
  rewrite Nat2Z.id, app_assoc, (drop_app_length' (pre ++ tag_bytes (tag_of f))) by (by rewrite length_app).
  rewrite value_length_ok by (done || lia). cbn [mbind option_bind]. rewrite (proj2 (Z.ltb_ge _ _)) by lia.
  unfold int_add. rewrite (proj2 (Z.leb_le _ _)), (proj2 (Z.ltb_lt _ _)) by lia. cbn [andb mbind option_bind].
  rewrite app_assoc. set (pre' := (pre ++ tag_bytes (tag_of f)) ++ payload f).
  assert (length pre' = length pre + (length (tag_bytes (tag_of f)) + length (payload f)))%nat as Hp by (unfold pre'; rewrite !length_app; lia).
  replace (Z.of_nat (length pre + length (tag_bytes (tag_of f))) + Z.of_nat (length (payload f))) with (Z.of_nat (length pre')) by lia.
  rewrite (IH pre' rest fuel len) by (done || lia). destruct (position tag fs); cbn; [|done]. f_equal. lia.
Qed.
Lemma position_lookup tag fs rest : match lookup_field tag fs with
  | Some f => exists n rest', position tag fs = Some n /\ (n + length (payload f) <= length (message fs))%nat /\
      drop n (message fs ++ rest) = payload f ++ rest' /\ tag_of f = tag /\ f ∈ fs
  | None => position tag fs = None end.
Proof.
  induction fs as [|f fs IH]; [done|]. unfold lookup_field in *. cbn [find position]. destruct (Z.eqb_spec (tag_of f) tag) as [<-|Hne].
  - exists (length (tag_bytes (tag_of f))), (message fs ++ rest). rewrite message_cons. unfold wire. rewrite <- !app_assoc, !length_app.
    split; [done|]. split; [lia|]. split; [by apply drop_app_length'|]. split; [done|]. by left.
  - destruct (find (fun f => tag_of f =? tag) fs) as [g|]; [|by rewrite IH].
    destruct IH as (n & rest' & E1 & E2 & E3 & E4 & E5). exists (length (wire f) + n)%nat, rest'. rewrite E1, message_cons, <- app_assoc, length_app.
    split; [done|]. split; [lia|]. split; [|by split; [|right]]. rewrite <- drop_drop, drop_app_length' by done. done.
Qed.

(** A message in a larger object. *)
Record holds (e : unpack) (fs : list field) : Prop := {
  ho_ok : Forall field_ok fs;
  ho_len : unpack_len e = Z.of_nat (length (message fs)) /\ unpack_len e < 2 ^ 31;
  ho_buf : exists rest, unpack_buf e = message fs ++ rest }.
Lemma value_offset_ok e fs tag : holds e fs -> match lookup_field tag fs with
  | Some f => exists o rest', value_offset e tag = Some o /\ 0 <= o /\ at_offset e o = payload f ++ rest' /\
      Z.of_nat (length (payload f)) <= unpack_len e - o /\ field_ok f /\ tag_of f = tag
  | None => value_offset e tag = Some (-1) end.
Proof.
  intros [Hok [Hl Hmax] [rest Hb]]. unfold value_offset, epb_get_tag_value_offset, at_offset. rewrite Hb.
  pose proof (find_loop_ok tag fs [] rest (S (Z.to_nat (unpack_len e))) (unpack_len e) Hok ltac:(lia) ltac:(done) Hmax) as E. cbn [app length Nat.add] in E. change (Z.of_nat 0) with 0 in E.
  pose proof (position_lookup tag fs rest) as P. destruct (lookup_field tag fs) as [f|]; [|by rewrite E, P].
  destruct P as (n & rest' & E1 & E2 & E3 & E4 & E5). exists (Z.of_nat n), rest'. rewrite E, E1, Nat2Z.id. split; [done|]. split; [lia|]. split; [done|].
  split; [lia|]. split; [|done]. by eapply Forall_forall in Hok.
Qed.

(** *** What the accessors return: the first field with the tag, or a default *)
Lemma has_tag_ok e fs tag : holds e fs -> epb_has_tag e tag = Some (bool_decide (is_Some (lookup_field tag fs))).
Proof.
  intros H. pose proof (value_offset_ok e fs tag H) as V. unfold epb_has_tag. destruct (lookup_field tag fs) as [f|].
  - destruct V as (o & r & -> & Ho & _). cbn. rewrite (proj2 (Z.ltb_ge _ _)) by lia. done.
  - by rewrite V.
Qed.
Lemma uint32_absent e fs tag : holds e fs -> lookup_field tag fs = None -> epb_get_uint32 e tag = Some 0.
Proof. intros H E. pose proof (value_offset_ok e fs tag H) as V. rewrite E in V. unfold epb_get_uint32. by rewrite V. Qed.
Lemma uint32_ok e fs tag v : holds e fs -> lookup_field tag fs = Some (FVarint tag v) -> epb_get_uint32 e tag = Some v.
Proof.
  intros H E. pose proof (value_offset_ok e fs tag H) as V. rewrite E in V. destruct V as (o & r & Eo & Ho & Ea & El & [Ht Hv] & _).
  unfold epb_get_uint32. rewrite Eo. cbn [mbind option_bind]. rewrite (proj2 (Z.ltb_ge _ _)) by lia. rewrite Ea. cbn [payload] in *. by rewrite get_varint_ok.
Qed.
Lemma fixed32_ok e fs tag v : holds e fs -> lookup_field tag fs = Some (FFixed tag v) -> epb_get_fixed32 e tag = Some v.
Proof.
  intros H E. pose proof (value_offset_ok e fs tag H) as V. rewrite E in V. destruct V as (o & r & Eo & Ho & Ea & El & [Ht Hv] & _).
  unfold epb_get_fixed32. rewrite Eo. cbn [mbind option_bind]. rewrite (proj2 (Z.ltb_ge _ _)) by lia. rewrite Ea. cbn [payload] in *.
  unfold epb_get_fixed32_bits. rewrite (proj2 (Z.ltb_ge _ _)) by (cbn in El; lia). by apply u32_roundtrip.
Qed.
Lemma bytes_absent e fs tag : holds e fs -> lookup_field tag fs = None -> epb_get_bytes e tag = Some None.
Proof. intros H E. pose proof (value_offset_ok e fs tag H) as V. rewrite E in V. unfold epb_get_bytes. by rewrite V. Qed.
Lemma bytes_ok e fs tag bs : holds e fs -> lookup_field tag fs = Some (FBytes tag bs) ->
  exists p, epb_get_bytes e tag = Some (Some (p, Z.of_nat (length bs))) /\ 0 <= p /\ p + Z.of_nat (length bs) <= unpack_len e /\
    exists rest, at_offset e p = bs ++ rest.
Proof.
  intros H E. pose proof (value_offset_ok e fs tag H) as V. rewrite E in V. destruct V as (o & r & Eo & Ho & Ea & El & [Ht Hv] & _).
  unfold epb_get_bytes. rewrite Eo. cbn [mbind option_bind]. rewrite (proj2 (Z.ltb_ge _ _)) by lia. rewrite Ea. cbn [payload] in *. rewrite length_app in El.
  rewrite <- app_assoc, get_varint_ok by lia. cbn [mbind option_bind]. eexists. split; [by rewrite s32_small by lia|]. split; [lia|]. split; [lia|].
  exists r. unfold at_offset in *. rewrite Z2Nat.inj_add, <- drop_drop, Ea, Nat2Z.id by lia. rewrite <- app_assoc. by apply drop_app_length'.
Qed.

Lemma bytes_slice e fs tag bs : holds e fs -> lookup_field tag fs = Some (FBytes tag bs) ->
  exists p, epb_get_bytes e tag = Some (Some (p, Z.of_nat (length bs))) /\ slice (unpack_buf e) p (Z.of_nat (length bs)) = Some bs.
Proof.
  intros H E. destruct (bytes_ok e fs tag bs H E) as (p & E1 & Hp & Hl & rest & E2). exists p. split; [done|].
  destruct H as [_ [Hlen _] [r Hr]]. unfold at_offset in E2. unfold slice. rewrite !(proj2 (Z.leb_le _ _)) by (try rewrite Hr, length_app; lia).
  cbn [andb]. by rewrite E2, Nat2Z.id, take_app_length.
Qed.

(** ** Packing appends the encoding, if there is room *)
Record packed (e : epb) (bs : list Z) : Prop := {
  pk_off : buf_offset e = Z.of_nat (length bs);
  pk_buf : exists free, pack_buf e = bs ++ free;
  pk_room : buf_offset e <= buf_len e <= Z.of_nat (length (pack_buf e)) }.
Definition same_object (e e' : epb) : Prop := buf_len e' = buf_len e /\ length (pack_buf e') = length (pack_buf e).
(** [m] appends [bs] and returns its length, or -1. *)
Definition packs (m : PK Z) (bs : list Z) : Prop := forall e pre, packed e pre -> ends m e (fun r e' =>
  same_object e e' /\ if Z.of_nat (length (pre ++ bs)) <=? buf_len e then r = Z.of_nat (length bs) /\ packed e' (pre ++ bs) else r = -1).
Lemma packs_put bs : packs (epb_put bs) bs.
Proof.
  intros e pre [Ho [free Eb] Hr]. unfold epb_put, epb_pack_buf_remain. hoare. rewrite Ho. rewrite length_app.
  destruct (Z.leb_spec (Z.of_nat (length bs)) (buf_len e - Z.of_nat (length pre))) as [Hl|Hl].
  - rewrite (proj2 (Z.leb_le _ _)) by lia. rewrite Eb, length_app in *. eapply ends_bind, ends_lift.
    { unfold store. rewrite length_app, !(proj2 (Z.leb_le _ _)) by lia. cbn [andb]. rewrite Nat2Z.id, take_app_length' by done. reflexivity. }
    apply ends_bind. unfold ends at 1, put. apply ends_ret. unfold same_object. cbn. rewrite Eb, !length_app, length_drop, length_app. split; [split; [done|lia]|]. split; [done|].
    split; cbn; [rewrite length_app; lia| |].
    + exists (drop (length pre + length bs) (pre ++ free)). by rewrite app_assoc.
    + rewrite !length_app, length_drop, length_app. lia.
  - rewrite (proj2 (Z.leb_gt _ _)) by lia. hoare. by split.
Qed.
Lemma packs_then m k a b : packs m a -> packs k b -> packs (then_put m k) (a ++ b).
Proof.
  intros Hm Hk e pre He. unfold then_put. apply ends_bind. eapply ends_mono; [by apply Hm|]. intros r e1 [[S1 S2] H1].
  destruct (Z.leb_spec (Z.of_nat (length (pre ++ a))) (buf_len e)).
  - destruct H1 as [-> He1]. rewrite (proj2 (Z.ltb_ge _ _)) by lia. apply ends_bind. eapply ends_mono; [by apply Hk|]. intros r2 e2 [[S3 S4] H2].
    rewrite <- app_assoc, S1 in H2. destruct (Z.leb_spec (Z.of_nat (length (pre ++ a ++ b))) (buf_len e)).
    + destruct H2 as [-> He2]. rewrite (proj2 (Z.ltb_ge _ _)) by lia. apply ends_ret. unfold same_object. rewrite S3, S4, S1, S2. split; [done|]. split; [rewrite length_app; lia|done].
    + subst r2. cbn. apply ends_ret. unfold same_object. by rewrite S3, S4, S1, S2.
  - subst r. cbn. apply ends_ret. split; [by split|]. rewrite (proj2 (Z.leb_gt _ _)); [done|]. rewrite !length_app in *. lia.
Qed.
Lemma packs_uint32 tag v : 0 <= v < 2 ^ 32 -> packs (epb_set_uint32 tag v) (wire (FVarint tag v)).
Proof. intros Hv. apply packs_then; [apply packs_put|]. unfold epb_pack_varint32_bits. rewrite varint_bytes_ok by done. apply packs_put. Qed.
Lemma packs_fixed32 tag v : packs (epb_set_fixed32 tag v) (wire (FFixed tag v)).
Proof. apply packs_then; apply packs_put. Qed.
Lemma packs_bytes tag data len : 0 <= len <= Z.of_nat (length data) -> len < 2 ^ 31 ->
  packs (epb_set_bytes tag data len) (wire (FBytes tag (take (Z.to_nat len) data))).
Proof.
  intros Hl Hm. assert (Z.of_nat (length (take (Z.to_nat len) data)) = len) as El by (rewrite length_take; lia).
  apply packs_then; [apply packs_put|]. cbn [payload]. rewrite El. apply packs_then.
  - unfold epb_pack_varint32_bits. rewrite u32_small, varint_bytes_ok by lia. apply packs_put.
  - intros e pre He. unfold epb_pack_length_delimited. eapply ends_bind, ends_lift; [|by apply packs_put].
    unfold slice. rewrite !(proj2 (Z.leb_le _ _)) by lia. done.
Qed.
(** Signed numbers are folded: 0, -1, 1, -2, ... *)
Definition zigzag (v : Z) : Z := if v <? 0 then - 2 * v - 1 else 2 * v.
Lemma lxor_ones x : 0 <= x < 2 ^ 32 -> Z.lxor x (Z.ones 32) = Z.ones 32 - x.
Proof.
  intros Hx. assert (x + Z.lxor x (Z.ones 32) = Z.ones 32) as E; [|lia]. rewrite Z.add_nocarry_lxor, <- Z.lxor_assoc, Z.lxor_nilpotent; [done|].
  apply Z.bits_inj'. intros i Hi. rewrite Z.land_spec, Z.lxor_spec, Z.bits_0. destruct (Z.lt_ge_cases i 32).
  - rewrite Z.ones_spec_low by lia. by destruct (Z.testbit x i).
  - rewrite <- (Z.mod_small x (2 ^ 32)), Z.mod_pow2_bits_high by lia. done.
Qed.
Lemma packs_sint32 tag v : - 2 ^ 31 <= v < 2 ^ 31 -> packs (epb_set_sint32 tag v) (wire (FVarint tag (zigzag v))).
Proof.
  intros Hv. unfold epb_set_sint32. replace (Z.lxor _ _) with (zigzag v); [apply packs_uint32; unfold zigzag; case_cmp; lia|].
  rewrite Z.shiftl_mul_pow2, Z.shiftr_div_pow2 by lia. unfold zigzag, u32. destruct (Z.ltb_spec v 0).
  - replace (v / 2 ^ 31) with (-1) by (Z.to_euclidean_division_equations; lia). change (-1 mod 2 ^ 32) with (Z.ones 32).
    rewrite lxor_ones by (apply Z.mod_pos_bound; lia). rewrite <- (Z.mod_add _ 1), (Z.mod_small (v * 2 ^ 1 + _)) by lia. change (Z.ones 32) with (2 ^ 32 - 1). lia.
  - rewrite (Z.div_small v), Z.lxor_0_r, Z.mod_small by lia. lia.
Qed.
Lemma sint32_ok e fs tag v : - 2 ^ 31 <= v < 2 ^ 31 -> holds e fs -> lookup_field tag fs = Some (FVarint tag (zigzag v)) -> epb_get_sint32 e tag = Some v.
Proof.
  intros Hv H E. unfold epb_get_sint32. rewrite (uint32_ok e fs tag _ H E). cbn [mbind option_bind]. change 1 with (2 ^ 0) at 1. rewrite land_pow2_truthy, Z.bit0_odd by lia.
  f_equal. rewrite Z.shiftr_div_pow2 by lia. unfold zigzag. destruct (Z.ltb_spec v 0).
  - replace (- 2 * v - 1) with (1 + 2 * (- v - 1)) by lia. rewrite Z.odd_add_mul_2. cbn [Z.odd]. replace ((1 + 2 * (- v - 1)) / 2 ^ 1) with (- v - 1) by (Z.to_euclidean_division_equations; lia).
    unfold s32, sext, u32. rewrite Zminus_mod_idemp_l, Z.mod_mod by lia. replace (- (- v - 1) - 1) with v by lia. rewrite <- (Z.mod_add v 1), Z.mod_small by lia. case_cmp; lia.
  - rewrite <- (Z.add_0_l (2 * v)), Z.odd_add_mul_2. cbn [Z.odd]. replace ((0 + 2 * v) / 2 ^ 1) with v by (Z.to_euclidean_division_equations; lia). apply s32_small; lia.
Qed.

(** ** The sizes computed in advance *)
Lemma size_loop_ok n v : 0 <= v -> size_loop n v = Z.of_nat (length (varint n v)).
Proof.
  revert v. induction n as [|n IH]; intros v Hv; cbn [size_loop varint]; [done|]. rewrite shiftr_7, div_128_zero by done.
  destruct (v <? 128); [done|]. rewrite IH by (apply Z.div_pos; lia). cbn [length]. lia.
Qed.
Lemma wire_size f : field_ok f -> Z.of_nat (length (wire f)) =
  match f with FVarint t v => epb_varint32_pack_size t v false | FBytes t bs => epb_length_delimited_pack_size t (Z.of_nat (length bs)) | FFixed t _ => epb_fixed32_pack_size t end.
Proof.
  intros Hf. unfold wire. rewrite length_app, Nat2Z.inj_add.
  assert (Z.of_nat (length (tag_bytes (tag_of f))) = sizeof_tag (tag_of f)) as ->.
  { destruct (field_tag_ok f Hf) as [wt H]. destruct (tag_bytes_ok _ _ H) as [-> _]. rewrite (sizeof_tag_ok _ _ H). by destruct (_ <? 128). }
  destruct f as [t v|t bs|t v]; destruct Hf as [Ht Hv]; cbn [tag_of payload];
    unfold epb_length_delimited_pack_size, epb_varint32_pack_size, epb_fixed32_pack_size; rewrite ?u32_small, ?size_loop_ok by lia; fold (to_varint v) || idtac; unfold to_varint; rewrite ?length_app; cbn; lia.
Qed.

(** C21. Unpacking finds what a message says.  In any message of well-formed fields, wherever
    it lies in memory, the search is defined and the accessors return the first field with
    the tag: its number, or a pointer to exactly its bytes; without such a field the default. *)
Theorem message_unpacked e fs tag : holds e fs ->
  epb_has_tag e tag = Some (bool_decide (is_Some (lookup_field tag fs))) /\
  match lookup_field tag fs with
  | Some (FVarint _ v) => epb_get_uint32 e tag = Some v
  | Some (FBytes _ bs) => exists p, epb_get_bytes e tag = Some (Some (p, Z.of_nat (length bs))) /\ slice (unpack_buf e) p (Z.of_nat (length bs)) = Some bs
  | Some (FFixed _ v) => epb_get_fixed32 e tag = Some v
  | None => epb_get_uint32 e tag = Some 0 /\ epb_get_bytes e tag = Some None
  end.
Proof.
  intros H. split; [by apply has_tag_ok|].
  assert (forall f, lookup_field tag fs = Some f -> tag_of f = tag) as Ht.
  { intros f E. pose proof (value_offset_ok e fs tag H) as V. rewrite E in V. by destruct V as (? & ? & _ & _ & _ & _ & _ & ?). }
  destruct (lookup_field tag fs) as [[t v|t bs|t v]|] eqn:E; try (pose proof (Ht _ eq_refl) as Et; cbn in Et; subst t).
  - by eapply uint32_ok.
  - destruct (bytes_slice e fs tag bs H E) as (p & E1 & E2). by exists p.
  - by eapply fixed32_ok.
  - split; [by eapply uint32_absent|by eapply bytes_absent].
Qed.
Definition demo_fields : list field := [FVarint 0x08 300; FBytes 0x12 [1; 2; 3]; FVarint 0x8001 5; FFixed 0x1d 7].
Lemma message_unpacked_witness : let e := epb_unpack_init (message demo_fields ++ [9; 9]) (Z.of_nat (length (message demo_fields))) in
  holds e demo_fields /\ epb_get_bytes e 0x12 = Some (Some (5, 3)) /\
  (epb_has_tag e 0x12 = Some true /\ exists p, epb_get_bytes e 0x12 = Some (Some (p, 3)) /\ slice (unpack_buf e) p 3 = Some [1; 2; 3]).
Proof.
  assert (holds (epb_unpack_init (message demo_fields ++ [9; 9]) (Z.of_nat (length (message demo_fields)))) demo_fields) as H.
  { split; [by apply field_okb_ok|done|by eexists]. }
  split; [exact H|]. split; [by vm_compute|]. apply (message_unpacked _ demo_fields 0x12 H).
Defined.
(** A message that was cut off or lies: the length it gives is believed, beyond the message
    and even beyond the object; a length that is cut off itself is not initialised. *)
Example length_believed : epb_get_bytes (epb_unpack_init [0x0a; 100] 2) 0x0a = Some (Some (2, 100)).
Proof. by vm_compute. Qed.
Example length_uninitialised : epb_get_bytes (epb_unpack_init [0x0a; 0x80] 2) 0x0a = None.
Proof. by vm_compute. Qed.
(** The value after a tag at the end is read past the message. *)
Example tag_at_the_end : epb_has_tag (epb_unpack_init [0x08] 1) 0x12 = None.
Proof. by vm_compute. Qed.
(** The size of a signed number is computed with the wrong shift: too small a buffer for the
    smallest one, too large for the others. *)
Example signed_size_wrong : epb_varint32_pack_size 0x08 (u32 (- 2 ^ 31)) true = 2 /\ length (wire (FVarint 0x08 (zigzag (- 2 ^ 31)))) = 6%nat /\
  epb_varint32_pack_size 0x08 (u32 (-1)) true = 6 /\ length (wire (FVarint 0x08 (zigzag (-1)))) = 2%nat.
Proof. by vm_compute. Qed.
