(* ===== verification/EpbMm.v ===== *)
(** * The messages of the WeChat transport (epb_MmBp.c) and their memory (mem_manager.c)

    Requests are packed field by field into a buffer whose size is computed before; responses
    are unpacked into structures of the memory pool.  The pool is the number of its free
    blocks; a structure is a value, and a string in it is a position and a length in the
    message, as the pointers of the code are.  An optional field of a structure is an option
    for the flag and the value together. *)
From S2P Require Import Prelude Gatt Epb.
#[local] Open Scope Z_scope.

(** ** The memory pool *)
Definition MEM_POOL_BUF_NUM : Z := 10.
Definition MEM_POOL_BUF_SIZE : Z := 96.
Record mem_pool := MemPool { blocks_free : Z }.
#[export] Instance eta_mem_pool : EtaRecord mem_pool := fun r => MemPool (blocks_free r).
#[local] Abbreviation MM := (M mem_pool).
Definition mem_init : MM unit := put (MemPool MEM_POOL_BUF_NUM).
(** Whether there is a block. *)
Definition mem_malloc (size : Z) : MM bool :=
  s ← get;
  if size =? 0 then mret false
  else if 0 <? blocks_free s then put (MemPool (blocks_free s - 1));; mret true
  else mret false.
Definition mem_free (block : bool) : MM unit :=
  s ← get;
  if block then if blocks_free s <? MEM_POOL_BUF_NUM then put (MemPool (blocks_free s + 1)) else ub
  else mret tt.
(** malloc and the memset of what it returned. *)
Definition new : MM unit := b ← mem_malloc 1; if (b : bool) then mret tt else ub.
Definition delete : MM unit := mem_free true.

(** ** The tags *)
Definition TAG_BaseResponse_ErrCode : Z := 0x08.
Definition TAG_BaseResponse_ErrMsg : Z := 0x12.
Definition TAG_AuthRequest_BaseRequest : Z := 0x0a.
Definition TAG_AuthRequest_Md5DeviceTypeAndDeviceId : Z := 0x12.
Definition TAG_AuthRequest_ProtoVersion : Z := 0x18.
Definition TAG_AuthRequest_AuthProto : Z := 0x20.
Definition TAG_AuthRequest_AuthMethod : Z := 0x28.
Definition TAG_AuthRequest_AesSign : Z := 0x32.
Definition TAG_AuthRequest_MacAddress : Z := 0x3a.
Definition TAG_AuthRequest_TimeZone : Z := 0x52.
Definition TAG_AuthRequest_Language : Z := 0x5a.
Definition TAG_AuthRequest_DeviceName : Z := 0x62.
Definition TAG_AuthResponse_BaseResponse : Z := 0x0a.
Definition TAG_AuthResponse_AesSessionKey : Z := 0x12.
Definition TAG_InitRequest_BaseRequest : Z := 0x0a.
Definition TAG_InitRequest_RespFieldFilter : Z := 0x12.
Definition TAG_InitRequest_Challenge : Z := 0x1a.
Definition TAG_InitResponse_BaseResponse : Z := 0x0a.
Definition TAG_InitResponse_UserIdHigh : Z := 0x10.
Definition TAG_InitResponse_UserIdLow : Z := 0x18.
Definition TAG_InitResponse_ChalleangeAnswer : Z := 0x20.
Definition TAG_InitResponse_InitScence : Z := 0x28.
Definition TAG_InitResponse_AutoSyncMaxDurationSecond : Z := 0x30.
Definition TAG_InitResponse_UserNickName : Z := 0x5a.
Definition TAG_InitResponse_PlatformType : Z := 0x60.
Definition TAG_InitResponse_Model : Z := 0x6a.
Definition TAG_InitResponse_Os : Z := 0x72.
Definition TAG_InitResponse_Time : Z := 0x78.
Definition TAG_InitResponse_TimeZone : Z := 0x8001.
Definition TAG_InitResponse_TimeString : Z := 0x8a01.
Definition TAG_SendDataRequest_BaseRequest : Z := 0x0a.
Definition TAG_SendDataRequest_Data : Z := 0x12.
Definition TAG_SendDataRequest_Type : Z := 0x18.
Definition TAG_SendDataResponse_BaseResponse : Z := 0x0a.
Definition TAG_SendDataResponse_Data : Z := 0x12.
Definition TAG_RecvDataPush_BasePush : Z := 0x0a.
Definition TAG_RecvDataPush_Data : Z := 0x12.
Definition TAG_RecvDataPush_Type : Z := 0x18.
Definition TAG_SwitchViewPush_BasePush : Z := 0x0a.
Definition TAG_SwitchViewPush_SwitchViewOp : Z := 0x10.
Definition TAG_SwitchViewPush_ViewId : Z := 0x18.
Definition TAG_SwitchBackgroudPush_BasePush : Z := 0x0a.
Definition TAG_SwitchBackgroudPush_SwitchBackgroundOp : Z := 0x10.

(** ** Requests *)
Record bytes := Bytes { data : list Z; len : Z }.
Record AuthRequest := {
  md5_device_type_and_device_id : option bytes; proto_version : Z; auth_proto : Z; auth_method : Z; aes_sign : option bytes;
  mac_address : option bytes; time_zone : option bytes; language : option bytes; device_name : option bytes }.
Record InitRequest := { resp_field_filter : option bytes; challenge : option bytes }.
Record SendDataRequest := { send_data : bytes; send_type : option Z }.

Definition epb_base_request_pack_size : Z := 0.
(** malloc(0) is NULL, nothing is packed, and NULL is freed. *)
Definition set_base_request (tag : Z) : M epb Z := epb_set_message tag [] epb_base_request_pack_size.
Definition opt_size (tag : Z) (b : option bytes) : Z := match b with Some b => epb_length_delimited_pack_size tag (len b) | None => 0 end.
(** ret = m; if (ret < 0) return ret; *)
Definition try (m k : M epb Z) : M epb Z := r ← m; if r <? 0 then mret r else k.
Definition try_opt {A} (o : option A) (m : A -> M epb Z) (k : M epb Z) : M epb Z := match o with Some a => try (m a) k | None => k end.
Definition set_bytes (tag : Z) (b : bytes) : M epb Z := epb_set_bytes tag (data b) (len b).
Definition packed_size : M epb Z := gets epb_get_packed_size.

Definition epb_auth_request_pack_size (r : AuthRequest) : Z :=
  epb_length_delimited_pack_size TAG_AuthRequest_BaseRequest epb_base_request_pack_size
  + opt_size TAG_AuthRequest_Md5DeviceTypeAndDeviceId (md5_device_type_and_device_id r)
  + epb_varint32_pack_size TAG_AuthRequest_ProtoVersion (u32 (proto_version r)) false
  + epb_varint32_pack_size TAG_AuthRequest_AuthProto (u32 (auth_proto r)) false
  + epb_varint32_pack_size TAG_AuthRequest_AuthMethod (u32 (auth_method r)) false
  + opt_size TAG_AuthRequest_AesSign (aes_sign r) + opt_size TAG_AuthRequest_MacAddress (mac_address r)
  + opt_size TAG_AuthRequest_TimeZone (time_zone r) + opt_size TAG_AuthRequest_Language (language r)
  + opt_size TAG_AuthRequest_DeviceName (device_name r).
Definition epb_pack_auth_request (r : AuthRequest) : M epb Z :=
  try (set_base_request TAG_AuthRequest_BaseRequest)
  (try_opt (md5_device_type_and_device_id r) (set_bytes TAG_AuthRequest_Md5DeviceTypeAndDeviceId)
  (try (epb_set_int32 TAG_AuthRequest_ProtoVersion (proto_version r))
  (try (epb_set_int32 TAG_AuthRequest_AuthProto (auth_proto r))
  (try (epb_set_enum TAG_AuthRequest_AuthMethod (auth_method r))
  (try_opt (aes_sign r) (set_bytes TAG_AuthRequest_AesSign)
  (try_opt (mac_address r) (set_bytes TAG_AuthRequest_MacAddress)
  (try_opt (time_zone r) (set_bytes TAG_AuthRequest_TimeZone)
  (try_opt (language r) (set_bytes TAG_AuthRequest_Language)
  (try_opt (device_name r) (set_bytes TAG_AuthRequest_DeviceName)
  packed_size))))))))).

Definition epb_init_request_pack_size (r : InitRequest) : Z :=
  epb_length_delimited_pack_size TAG_InitRequest_BaseRequest epb_base_request_pack_size
  + opt_size TAG_InitRequest_RespFieldFilter (resp_field_filter r) + opt_size TAG_InitRequest_Challenge (challenge r).
Definition epb_pack_init_request (r : InitRequest) : M epb Z :=
  try (set_base_request TAG_InitRequest_BaseRequest)
  (try_opt (resp_field_filter r) (set_bytes TAG_InitRequest_RespFieldFilter)
  (try_opt (challenge r) (set_bytes TAG_InitRequest_Challenge)
  packed_size)).

Definition epb_send_data_request_pack_size (r : SendDataRequest) : Z :=
  epb_length_delimited_pack_size TAG_SendDataRequest_BaseRequest epb_base_request_pack_size
  + epb_length_delimited_pack_size TAG_SendDataRequest_Data (len (send_data r))
  + match send_type r with Some t => epb_varint32_pack_size TAG_SendDataRequest_Type (u32 t) false | None => 0 end.
Definition epb_pack_send_data_request (r : SendDataRequest) : M epb Z :=
  try (set_base_request TAG_SendDataRequest_BaseRequest)
  (try (set_bytes TAG_SendDataRequest_Data (send_data r))
  (try_opt (send_type r) (epb_set_enum TAG_SendDataRequest_Type)
  packed_size)).

(** ** Responses *)
Definition view : Type := Z * Z.                     (* a pointer into the message and a length *)
Record BaseResponse := { err_code : Z; err_msg : option view }.
Record AuthResponse := { auth_base : BaseResponse; aes_session_key : view }.
Record InitResponse := {
  init_base : BaseResponse; user_id_high : Z; user_id_low : Z; challeange_answer : option Z; init_scence : option Z;
  auto_sync_max_duration_second : option Z; user_nick_name : option view; platform_type : option Z; model : option view;
  os : option view; time : option Z; init_time_zone : option Z; time_string : option view }.
Record SendDataResponse := { sent_base : BaseResponse; sent_data : option view }.
Record RecvDataPush := { push_data : view; push_type : option Z }.
Record SwitchViewPush := { switch_view_op : Z; view_id : Z }.
Record SwitchBackgroudPush := { switch_background_op : Z }.

(** if (epb_has_tag(...)) { value = get(...); has = true; } *)
Definition get_opt {A} (e : unpack) (tag : Z) (g : option A) : MM (option A) :=
  h ← lift (epb_has_tag e tag); if (h : bool) then v ← lift g; mret (Some v) else mret None.
(** A pointer that is not NULL. *)
Definition get_view (e : unpack) (tag : Z) : option view := v ← epb_get_bytes e tag; v.
(** if (!epb_has_tag(...)) return NULL; *)
Definition require {A} (e : unpack) (tag : Z) (k : MM (option A)) : MM (option A) :=
  h ← lift (epb_has_tag e tag); if (h : bool) then k else mret None.

Definition epb_unpack_base_response (buf : list Z) (buf_len : Z) : MM (option BaseResponse) :=
  let e := epb_unpack_init buf buf_len in
  require e TAG_BaseResponse_ErrCode
  (new;;
   c ← lift (epb_get_int32 e TAG_BaseResponse_ErrCode);
   m ← get_opt e TAG_BaseResponse_ErrMsg (get_view e TAG_BaseResponse_ErrMsg);
   mret (Some {| err_code := c; err_msg := m |})).
Definition epb_unpack_base_response_free : MM unit := delete.
Definition epb_unpack_base_push (buf : list Z) (buf_len : Z) : MM unit := new.
Definition epb_unpack_base_push_free : MM unit := delete.
(** The nested base response; without one the structure around it is freed. *)
Definition unpack_base {A} (e : unpack) (tag : Z) (k : BaseResponse -> MM (option A)) : MM (option A) :=
  '(p, l) ← lift (get_view e tag);
  b ← epb_unpack_base_response (at_offset e p) l;
  match b with None => delete;; mret None | Some b => k b end.

Definition epb_unpack_auth_response (buf : list Z) (buf_len : Z) : MM (option AuthResponse) :=
  let e := epb_unpack_init buf buf_len in
  require e TAG_AuthResponse_BaseResponse
  (require e TAG_AuthResponse_AesSessionKey
  (new;;
   unpack_base e TAG_AuthResponse_BaseResponse (fun b =>
   k ← lift (get_view e TAG_AuthResponse_AesSessionKey);
   mret (Some {| auth_base := b; aes_session_key := k |})))).
Definition epb_unpack_auth_response_free : MM unit := epb_unpack_base_response_free;; delete.

Definition epb_unpack_init_response (buf : list Z) (buf_len : Z) : MM (option InitResponse) :=
  let e := epb_unpack_init buf buf_len in
  require e TAG_InitResponse_BaseResponse
  (require e TAG_InitResponse_UserIdHigh
  (require e TAG_InitResponse_UserIdLow
  (new;;
   unpack_base e TAG_InitResponse_BaseResponse (fun b =>
   hi ← lift (epb_get_uint32 e TAG_InitResponse_UserIdHigh);
   lo ← lift (epb_get_uint32 e TAG_InitResponse_UserIdLow);
   ca ← get_opt e TAG_InitResponse_ChalleangeAnswer (epb_get_uint32 e TAG_InitResponse_ChalleangeAnswer);
   sc ← get_opt e TAG_InitResponse_InitScence (epb_get_enum e TAG_InitResponse_InitScence);
   au ← get_opt e TAG_InitResponse_AutoSyncMaxDurationSecond (epb_get_uint32 e TAG_InitResponse_AutoSyncMaxDurationSecond);
   un ← get_opt e TAG_InitResponse_UserNickName (get_view e TAG_InitResponse_UserNickName);
   pt ← get_opt e TAG_InitResponse_PlatformType (epb_get_enum e TAG_InitResponse_PlatformType);
   mo ← get_opt e TAG_InitResponse_Model (get_view e TAG_InitResponse_Model);
   o ← get_opt e TAG_InitResponse_Os (get_view e TAG_InitResponse_Os);
   ti ← get_opt e TAG_InitResponse_Time (epb_get_int32 e TAG_InitResponse_Time);
   tz ← get_opt e TAG_InitResponse_TimeZone (epb_get_int32 e TAG_InitResponse_TimeZone);
   ts ← get_opt e TAG_InitResponse_TimeString (get_view e TAG_InitResponse_TimeString);
   mret (Some {| init_base := b; user_id_high := hi; user_id_low := lo; challeange_answer := ca; init_scence := sc;
     auto_sync_max_duration_second := au; user_nick_name := un; platform_type := pt; model := mo; os := o; time := ti;
     init_time_zone := tz; time_string := ts |}))))).
Definition epb_unpack_init_response_free : MM unit := epb_unpack_base_response_free;; delete.

Definition epb_unpack_send_data_response (buf : list Z) (buf_len : Z) : MM (option SendDataResponse) :=
  let e := epb_unpack_init buf buf_len in
  require e TAG_SendDataResponse_BaseResponse
  (new;;
   unpack_base e TAG_SendDataResponse_BaseResponse (fun b =>
   d ← get_opt e TAG_SendDataResponse_Data (get_view e TAG_SendDataResponse_Data);
   mret (Some {| sent_base := b; sent_data := d |}))).
Definition epb_unpack_send_data_response_free : MM unit := epb_unpack_base_response_free;; delete.

(** The nested push has no fields: its pointer is read, nothing more. *)
Definition unpack_push (e : unpack) (tag : Z) : MM unit :=
  '(p, l) ← lift (get_view e tag); epb_unpack_base_push (at_offset e p) l.
Definition epb_unpack_recv_data_push (buf : list Z) (buf_len : Z) : MM (option RecvDataPush) :=
  let e := epb_unpack_init buf buf_len in
  require e TAG_RecvDataPush_BasePush
  (require e TAG_RecvDataPush_Data
  (new;;
   unpack_push e TAG_RecvDataPush_BasePush;;
   d ← lift (get_view e TAG_RecvDataPush_Data);
   t ← get_opt e TAG_RecvDataPush_Type (epb_get_enum e TAG_RecvDataPush_Type);
   mret (Some {| push_data := d; push_type := t |}))).
Definition epb_unpack_recv_data_push_free : MM unit := epb_unpack_base_push_free;; delete.
Definition epb_unpack_switch_view_push (buf : list Z) (buf_len : Z) : MM (option SwitchViewPush) :=
  let e := epb_unpack_init buf buf_len in
  require e TAG_SwitchViewPush_BasePush
  (require e TAG_SwitchViewPush_SwitchViewOp
  (require e TAG_SwitchViewPush_ViewId
  (new;;
   unpack_push e TAG_SwitchViewPush_BasePush;;
   o ← lift (epb_get_enum e TAG_SwitchViewPush_SwitchViewOp);
   i ← lift (epb_get_enum e TAG_SwitchViewPush_ViewId);
   mret (Some {| switch_view_op := o; view_id := i |})))).
Definition epb_unpack_switch_view_push_free : MM unit := epb_unpack_base_push_free;; delete.
Definition epb_unpack_switch_backgroud_push (buf : list Z) (buf_len : Z) : MM (option SwitchBackgroudPush) :=
  let e := epb_unpack_init buf buf_len in
  require e TAG_SwitchBackgroudPush_BasePush
  (require e TAG_SwitchBackgroudPush_SwitchBackgroundOp
  (new;;
   unpack_push e TAG_SwitchBackgroudPush_BasePush;;
   o ← lift (epb_get_enum e TAG_SwitchBackgroudPush_SwitchBackgroundOp);
   mret (Some {| switch_background_op := o |}))).
Definition epb_unpack_switch_backgroud_push_free : MM unit := epb_unpack_base_push_free;; delete.

(** * Theorems *)

(** ** Requests *)
Definition content (b : bytes) : list Z := take (Z.to_nat (len b)) (data b).
Definition bytes_fit (b : bytes) : Prop := 0 <= len b <= Z.of_nat (length (data b)) /\ len b < 2 ^ 31.
Definition opt_fit (o : option bytes) : Prop := match o with Some b => bytes_fit b | None => True end.
Definition opt_bytes (tag : Z) (o : option bytes) : list field := match o with Some b => [FBytes tag (content b)] | None => [] end.

Inductive request := Auth (r : AuthRequest) | Init (r : InitRequest) | SendData (r : SendDataRequest).
Definition pack_request (q : request) : M epb Z :=
  match q with Auth r => epb_pack_auth_request r | Init r => epb_pack_init_request r | SendData r => epb_pack_send_data_request r end.
Definition request_size (q : request) : Z :=
  match q with Auth r => epb_auth_request_pack_size r | Init r => epb_init_request_pack_size r | SendData r => epb_send_data_request_pack_size r end.
Definition request_fields (q : request) : list field :=
  match q with
  | Auth r =>
      [FBytes 0x0a []] ++ opt_bytes 0x12 (md5_device_type_and_device_id r) ++ [FVarint 0x18 (u32 (proto_version r))] ++
      [FVarint 0x20 (u32 (auth_proto r))] ++ [FVarint 0x28 (u32 (auth_method r))] ++ opt_bytes 0x32 (aes_sign r) ++
      opt_bytes 0x3a (mac_address r) ++ opt_bytes 0x52 (time_zone r) ++ opt_bytes 0x5a (language r) ++ opt_bytes 0x62 (device_name r)
  | Init r => [FBytes 0x0a []] ++ opt_bytes 0x12 (resp_field_filter r) ++ opt_bytes 0x1a (challenge r)
  | SendData r => [FBytes 0x0a []] ++ [FBytes 0x12 (content (send_data r))] ++
      match send_type r with Some t => [FVarint 0x18 (u32 t)] | None => [] end
  end.
Definition request_fit (q : request) : Prop :=
  match q with
  | Auth r => opt_fit (md5_device_type_and_device_id r) /\ opt_fit (aes_sign r) /\ opt_fit (mac_address r) /\ opt_fit (time_zone r) /\
      opt_fit (language r) /\ opt_fit (device_name r)
  | Init r => opt_fit (resp_field_filter r) /\ opt_fit (challenge r)
  | SendData r => bytes_fit (send_data r)
  end.

(** [k] appends [bs] and returns the size of all, or -1. *)
Definition fills (k : M epb Z) (bs : list Z) : Prop := forall e pre, packed e pre -> ends k e (fun r e' =>
  same_object e e' /\ if Z.of_nat (length (pre ++ bs)) <=? buf_len e then r = Z.of_nat (length (pre ++ bs)) /\ packed e' (pre ++ bs) else r = -1).
Lemma fills_end : fills packed_size [].
Proof.
  intros e pre H. unfold packed_size. hoare. rewrite app_nil_r. destruct H as [Ho Hb Hr]. split; [done|]. rewrite (proj2 (Z.leb_le _ _)) by lia. by split.
Qed.
Lemma fills_try m k a b : packs m a -> fills k b -> fills (try m k) (a ++ b).
Proof.
  intros Hm Hk e pre He. unfold try. apply ends_bind. eapply ends_mono; [by apply Hm|]. intros r e1 [[S1 S2] H1].
  destruct (Z.leb_spec (Z.of_nat (length (pre ++ a))) (buf_len e)).
  - destruct H1 as [-> He1]. rewrite (proj2 (Z.ltb_ge _ _)) by lia. eapply ends_mono; [by apply Hk|]. intros r2 e2 [[S3 S4] H2].
    rewrite <- app_assoc, S1 in H2. unfold same_object. by rewrite S3, S4, S1, S2.
  - subst r. cbn. apply ends_ret. split; [by split|]. rewrite (proj2 (Z.leb_gt _ _)); [done|]. rewrite !length_app in *. lia.
Qed.
Lemma packs_int32 tag v : packs (epb_set_int32 tag v) (message [FVarint tag (u32 v)]).
Proof. unfold message. rewrite bind_cons. cbn [mbind list_bind]. rewrite app_nil_r. apply packs_uint32, u32_range. Qed.
Lemma packs_field tag b : bytes_fit b -> packs (set_bytes tag b) (message [FBytes tag (content b)]).
Proof. intros [Hl Hm]. unfold message. rewrite bind_cons. cbn [mbind list_bind]. rewrite app_nil_r. by apply packs_bytes. Qed.
Lemma packs_base tag : packs (set_base_request tag) (message [FBytes tag []]).
Proof. apply (packs_field tag (Bytes [] 0)). by split. Qed.
Lemma fills_opt tag o k fs : opt_fit o -> fills k (message fs) -> fills (try_opt o (set_bytes tag) k) (message (opt_bytes tag o ++ fs)).
Proof. destruct o as [b|]; intros Ho Hk; [|done]. rewrite message_app. by apply fills_try, Hk; apply packs_field. Qed.
Lemma fills_field m k f fs : packs m (message [f]) -> fills k (message fs) -> fills (try m k) (message ([f] ++ fs)).
Proof. rewrite message_app. apply fills_try. Qed.

Lemma request_fills q : request_fit q -> fills (pack_request q) (message (request_fields q)).
Proof.
  destruct q as [r|r|r]; cbn [request_fit pack_request request_fields].
  - intros (H1 & H2 & H3 & H4 & H5 & H6). apply fills_field; [apply packs_base|]. apply fills_opt; [done|].
    do 3 (apply fills_field; [apply packs_int32|]). do 4 (apply fills_opt; [done|]).
    rewrite <- (app_nil_r (opt_bytes _ _)). apply fills_opt; [done|]. apply fills_end.
  - intros (H1 & H2). apply fills_field; [apply packs_base|]. apply fills_opt; [done|]. rewrite <- (app_nil_r (opt_bytes 0x1a _)). apply fills_opt; [done|]. apply fills_end.
  - intros H. apply fills_field; [apply packs_base|]. apply fills_field; [by apply packs_field|]. destruct (send_type r) as [t|]; cbn [try_opt]; [|apply fills_end].
    rewrite <- (app_nil_r [FVarint _ _]). apply fills_field; [apply packs_int32|]. apply fills_end.
Qed.
Lemma fits_length b : bytes_fit b -> Z.of_nat (length (content b)) = len b.
Proof. intros [H _]. unfold content. rewrite length_take. lia. Qed.
Lemma opt_field_ok tag o : tag_okb tag 2 = true -> opt_fit o -> Forall field_ok (opt_bytes tag o).
Proof.
  intros Ht Ho. destruct o as [b|]; [|done]. apply field_okb_ok. cbn [opt_bytes forallb field_okb]. change WIRETYPE_LENGTH_DELIMITED with 2.
  rewrite Ht, fits_length by done. destruct Ho. by rewrite (proj2 (Z.ltb_lt _ _)) by lia.
Qed.
Lemma varint_field_ok tag v : tag_okb tag 0 = true -> Forall field_ok [FVarint tag (u32 v)].
Proof.
  intros Ht. apply field_okb_ok. cbn [forallb field_okb]. change WIRETYPE_VARINT with 0. pose proof (u32_range v).
  by rewrite Ht, (proj2 (Z.leb_le _ _)), (proj2 (Z.ltb_lt _ _)) by lia.
Qed.
Lemma request_fields_ok q : request_fit q -> Forall field_ok (request_fields q).
Proof.
  destruct q as [r|r|r]; cbn [request_fit request_fields]; intros H; destruct_and?;
    repeat (apply Forall_app; split); try (by apply opt_field_ok); try (by apply varint_field_ok); try (by apply field_okb_ok).
  - by apply (opt_field_ok 0x12 (Some _)).
  - destruct (send_type r); [by apply varint_field_ok|done].
Qed.
Lemma message_one f : field_ok f -> Z.of_nat (length (message [f])) =
  match f with FVarint t v => epb_varint32_pack_size t v false | FBytes t bs => epb_length_delimited_pack_size t (Z.of_nat (length bs)) | FFixed t _ => epb_fixed32_pack_size t end.
Proof. intros H. rewrite <- wire_size by done. unfold message. rewrite bind_cons. cbn [mbind list_bind]. by rewrite app_nil_r. Qed.
Lemma opt_message_size tag o : tag_okb tag 2 = true -> opt_fit o -> Z.of_nat (length (message (opt_bytes tag o))) = opt_size tag o.
Proof.
  intros Ht Ho. pose proof (opt_field_ok tag o Ht Ho) as F. destruct o as [b|]; [|done]. cbn [opt_bytes opt_size] in *.
  rewrite Forall_singleton in F. rewrite message_one by exact F. by rewrite fits_length.
Qed.
Lemma request_size_ok q : request_fit q -> Z.of_nat (length (message (request_fields q))) = request_size q.
Proof.
  intros H. pose proof (request_fields_ok q H) as F.
  destruct q as [r|r|r]; cbn [request_fit request_fields request_size] in *; destruct_and?; rewrite !message_app in *; rewrite !length_app, !Nat2Z.inj_add;
    unfold epb_auth_request_pack_size, epb_init_request_pack_size, epb_send_data_request_pack_size; rewrite ?opt_message_size by done;
    repeat match goal with |- context [message [FVarint ?t (u32 ?v)]] => rewrite (message_one (FVarint t (u32 v))) by (apply Forall_singleton; by apply varint_field_ok) end;
    rewrite (message_one (FBytes 0x0a [])) by (apply Forall_singleton; by apply field_okb_ok); cbn [length]; change (Z.of_nat 0) with 0; unfold epb_base_request_pack_size;
    change TAG_AuthRequest_BaseRequest with 0x0a; change TAG_InitRequest_BaseRequest with 0x0a; change TAG_SendDataRequest_BaseRequest with 0x0a; try lia.
  - unfold TAG_AuthRequest_Md5DeviceTypeAndDeviceId, TAG_AuthRequest_ProtoVersion, TAG_AuthRequest_AuthProto, TAG_AuthRequest_AuthMethod, TAG_AuthRequest_AesSign, TAG_AuthRequest_MacAddress, TAG_AuthRequest_TimeZone, TAG_AuthRequest_Language, TAG_AuthRequest_DeviceName. lia.
  - unfold TAG_InitRequest_RespFieldFilter, TAG_InitRequest_Challenge. lia.
  - rewrite message_one by (apply Forall_singleton; by apply (opt_field_ok 0x12 (Some _))). rewrite fits_length by done. unfold TAG_SendDataRequest_Data, TAG_SendDataRequest_Type.
    destruct (send_type r) as [t|]; [rewrite message_one by (apply Forall_singleton; by apply varint_field_ok)|change (Z.of_nat (length (message []))) with 0]; lia.
Qed.

(** C29. A request needs exactly the size computed for it.  Packed into a buffer of at least
    that size it is the encoding of its fields, which the accessors read back; packed into a
    smaller one it is refused with -1; in no case is anything written past the buffer. *)
Theorem requests_packed_exactly q buf n : request_fit q -> 0 <= n <= Z.of_nat (length buf) -> request_size q < 2 ^ 31 ->
  ends (pack_request q) (epb_pack_init buf n) (fun r e' => length (pack_buf e') = length buf /\
    if request_size q <=? n then r = request_size q /\ take (Z.to_nat r) (pack_buf e') = message (request_fields q) /\
      holds (epb_unpack_init (pack_buf e') r) (request_fields q)
    else r = -1).
Proof.
  intros Hq Hn Hs. pose proof (request_size_ok q Hq) as Es. eapply ends_mono.
  { apply (request_fills q Hq _ []). split; [done|by exists buf|cbn; lia]. }
  intros r e' [[_ S2] H]. cbn [app pack_buf buf_len epb_pack_init] in *. rewrite Es in H. split; [done|].
  destruct (Z.leb_spec (request_size q) n); [|done]. destruct H as [-> [_ [free Hb] _]]. split; [done|]. rewrite Hb.
  assert (Z.to_nat (request_size q) = length (message (request_fields q))) as El by lia. split; [by rewrite El, take_app_length|].
  split; [by apply request_fields_ok|cbn; lia|by exists free].
Qed.
Definition demo_auth : AuthRequest := {|
  md5_device_type_and_device_id := None; proto_version := 0x010004; auth_proto := 1; auth_method := 2; aes_sign := None;
  mac_address := Some (Bytes [1; 2; 3; 4; 5; 6] 6); time_zone := None; language := None; device_name := Some (Bytes [7; 8] 2) |}.
Lemma requests_packed_exactly_witness : request_fit (Auth demo_auth) /\ request_size (Auth demo_auth) = 22 /\
  ends (pack_request (Auth demo_auth)) (epb_pack_init (replicate 30 0) 25) (fun r e' => length (pack_buf e') = 30%nat /\
    r = 22 /\ take (Z.to_nat r) (pack_buf e') = message (request_fields (Auth demo_auth)) /\
    holds (epb_unpack_init (pack_buf e') r) (request_fields (Auth demo_auth))).
Proof.
  assert (request_fit (Auth demo_auth)) as H by (repeat split; vm_compute; congruence). split; [exact H|]. split; [by vm_compute|].
  exact (requests_packed_exactly (Auth demo_auth) (replicate 30 0) 25 H ltac:(cbn; lia) ltac:(by vm_compute)).
Defined.

(** ** Responses *)
(** What a message says under a tag of wire type 0, and under one of wire type 2. *)
Definition num (tag : Z) (fs : list field) : option Z := match lookup_field tag fs with Some (FVarint _ v) => Some v | _ => None end.
Definition str (tag : Z) (fs : list field) : option (list Z) := match lookup_field tag fs with Some (FBytes _ bs) => Some bs | _ => None end.
Definition shows (e : unpack) (v : view) (bs : list Z) : Prop := slice (unpack_buf e) v.1 v.2 = Some bs.

Lemma lookup_kind e fs tag f : holds e fs -> lookup_field tag fs = Some f -> tag_of f = tag /\
  match f with FVarint _ _ => epb_get_wire_type tag = 0 | FBytes _ _ => epb_get_wire_type tag = 2 | FFixed _ _ => epb_get_wire_type tag = 5 end.
Proof.
  intros H E. pose proof (value_offset_ok e fs tag H) as V. rewrite E in V. destruct V as (? & ? & _ & _ & _ & _ & Hf & <-).
  split; [done|]. destruct f as [t v|t bs|t v]; by destruct Hf as [[_ ?] _].
Qed.
Lemma has_num e fs tag : holds e fs -> epb_get_wire_type tag = 0 -> epb_has_tag e tag = Some (bool_decide (is_Some (num tag fs))).
Proof.
  intros H Hw. rewrite (has_tag_ok e fs tag H). f_equal. apply bool_decide_ext. unfold num. destruct (lookup_field tag fs) as [f|] eqn:E; [|done].
  destruct (lookup_kind e fs tag f H E) as [_ K]. destruct f; rewrite Hw in K; [|done..]. by split; eauto.
Qed.
Lemma get_num e fs tag v : holds e fs -> num tag fs = Some v -> epb_get_uint32 e tag = Some v.
Proof.
  intros H. unfold num. destruct (lookup_field tag fs) as [[t w|t bs|t w]|] eqn:E; try done. intros [= ->].
  pose proof (lookup_kind e fs tag _ H E) as [Et _]. cbn in Et. subst t. by eapply uint32_ok.
Qed.
Lemma has_str e fs tag : holds e fs -> epb_get_wire_type tag = 2 -> epb_has_tag e tag = Some (bool_decide (is_Some (str tag fs))).
Proof.
  intros H Hw. rewrite (has_tag_ok e fs tag H). f_equal. apply bool_decide_ext. unfold str. destruct (lookup_field tag fs) as [f|] eqn:E; [|done].
  destruct (lookup_kind e fs tag f H E) as [_ K]. destruct f; rewrite Hw in K; try done.
Qed.
Lemma get_str e fs tag bs : holds e fs -> str tag fs = Some bs -> exists v, get_view e tag = Some v /\ shows e v bs /\
  v.2 = Z.of_nat (length bs) /\ exists rest, at_offset e v.1 = bs ++ rest.
Proof.
  intros H. unfold str. destruct (lookup_field tag fs) as [[t w|t b|t w]|] eqn:E; try done. intros [= ->].
  pose proof (lookup_kind e fs tag _ H E) as [Et _]. cbn in Et. subst t.
  destruct (bytes_ok e fs tag bs H E) as (p & E1 & _ & _ & R). destruct (bytes_slice e fs tag bs H E) as (p' & E2 & E3). rewrite E1 in E2. injection E2 as <-.
  exists (p, Z.of_nat (length bs)). unfold get_view. rewrite E1. done.
Qed.

(** Hoare rules of the accessors. *)
Section Rules.
Context (e : unpack) (fs : list field) (H : holds e fs).
Lemma ends_require_num {A} tag (k : MM (option A)) s R : epb_get_wire_type tag = 0 ->
  (num tag fs = None -> R None s) -> (forall v, num tag fs = Some v -> ends k s R) -> ends (require e tag k) s R.
Proof using H.
  intros Hw Hn Hs. unfold require. eapply ends_bind, ends_lift; [by apply has_num|]. destruct (num tag fs) as [v|] eqn:E; case_bool_decide as B.
  - by eapply Hs. - by destruct B. - by destruct B. - apply ends_ret. by apply Hn.
Qed.
Lemma ends_require_str {A} tag (k : MM (option A)) s R : epb_get_wire_type tag = 2 ->
  (str tag fs = None -> R None s) -> (forall v, str tag fs = Some v -> ends k s R) -> ends (require e tag k) s R.
Proof using H.
  intros Hw Hn Hs. unfold require. eapply ends_bind, ends_lift; [by apply has_str|]. destruct (str tag fs) as [v|] eqn:E; case_bool_decide as B.
  - by eapply Hs. - by destruct B. - by destruct B. - apply ends_ret. by apply Hn.
Qed.
Lemma ends_opt_num (f : Z -> Z) tag g s (R : option Z -> mem_pool -> Prop) : epb_get_wire_type tag = 0 ->
  (forall v, epb_get_uint32 e tag = Some v -> g = Some (f v)) -> R (f <$> num tag fs) s -> ends (get_opt e tag g) s R.
Proof using H.
  intros Hw Hg HR. unfold get_opt. eapply ends_bind, ends_lift; [by apply has_num|]. destruct (num tag fs) as [v|] eqn:E; case_bool_decide as B.
  - eapply ends_bind, ends_lift; [apply Hg; by eapply get_num|]. done.
  - by destruct B. - by destruct B. - by apply ends_ret.
Qed.
Lemma ends_opt_str tag s (R : option view -> mem_pool -> Prop) : epb_get_wire_type tag = 2 ->
  (forall v, option_Forall2 (shows e) v (str tag fs) -> R v s) -> ends (get_opt e tag (get_view e tag)) s R.
Proof using H.
  intros Hw HR. unfold get_opt. eapply ends_bind, ends_lift; [by apply has_str|]. destruct (str tag fs) as [bs|] eqn:E; case_bool_decide as B.
  - destruct (get_str e fs tag bs H E) as (v & E1 & E2 & _). eapply ends_bind, ends_lift; [exact E1|]. apply ends_ret, HR. by constructor.
  - by destruct B. - by destruct B. - apply ends_ret, HR. constructor.
Qed.
End Rules.
Lemma ends_new n (R : unit -> mem_pool -> Prop) : 0 < n -> R tt (MemPool (n - 1)) -> ends new (MemPool n) R.
Proof. intros Hn HR. unfold new, mem_malloc. hoare. cbn. rewrite (proj2 (Z.ltb_lt _ _)) by lia. by apply ends_bind. Qed.
Lemma ends_delete n (R : unit -> mem_pool -> Prop) : n < 10 -> R tt (MemPool (n + 1)) -> ends delete (MemPool n) R.
Proof. intros Hn HR. unfold delete, mem_free. hoare. cbn [blocks_free]. change MEM_POOL_BUF_NUM with 10. by rewrite (proj2 (Z.ltb_lt _ _)) by lia. Qed.

Definition base_says (e : unpack) (fs : list field) (b : BaseResponse) : Prop :=
  Some (err_code b) = s32 <$> num 0x08 fs /\ option_Forall2 (shows e) (err_msg b) (str 0x12 fs).
Lemma base_response_ok e fs n : holds e fs -> 0 < n ->
  ends (epb_unpack_base_response (unpack_buf e) (unpack_len e)) (MemPool n) (fun r s =>
    match num 0x08 fs with Some _ => exists b, r = Some b /\ base_says e fs b /\ s = MemPool (n - 1) | None => r = None /\ s = MemPool n end).
Proof.
  intros H Hn. unfold epb_unpack_base_response. replace (epb_unpack_init (unpack_buf e) (unpack_len e)) with e by (by destruct e).
  apply (ends_require_num e fs H); change TAG_BaseResponse_ErrCode with 0x08; [done|by intros ->|]. intros v E. rewrite E. apply ends_bind, ends_new; [done|].
  eapply ends_bind, ends_lift. { unfold epb_get_int32. by rewrite (get_num e fs _ v H E). }
  apply ends_bind, (ends_opt_str e fs H); [done|]. intros m Hm. apply ends_ret. eexists. split; [done|]. split; [|done]. split; [cbn; by rewrite E|done].
Qed.
(** A nested message. *)
Definition nested (tag : Z) (fs bfs : list field) : Prop := str tag fs = Some (message bfs) /\ Forall field_ok bfs.
Lemma nested_holds e fs tag bfs : holds e fs -> nested tag fs bfs ->
  exists p l, get_view e tag = Some (p, l) /\ holds (Unpack (at_offset e p) l) bfs.
Proof.
  intros H [Hs Hb]. destruct (get_str e fs tag _ H Hs) as ([p l] & E1 & _ & E2 & R). exists p, l. split; [done|]. cbn in E2, R. split; [done| |done].
  cbn. split; [done|]. destruct H as [Hok [Hl Hm] _]. unfold str in Hs. destruct (lookup_field tag fs) as [[| |]|] eqn:E; try done. injection Hs as ->.
  unfold lookup_field in E. apply find_some in E as [E _]. apply list_elem_of_In in E. eapply Forall_forall in Hok; [|exact E]. cbn in Hok. lia.
Qed.
Definition nested_says (e : unpack) (tag : Z) (bfs : list field) (b : BaseResponse) : Prop :=
  exists p l, get_view e tag = Some (p, l) /\ base_says (Unpack (at_offset e p) l) bfs b.
Lemma ends_unpack_base {A} e fs tag bfs n (k : BaseResponse -> MM (option A)) R : holds e fs -> nested tag fs bfs -> 0 < n < 10 ->
  (num 0x08 bfs = None -> R None (MemPool (n + 1))) ->
  (forall b, is_Some (num 0x08 bfs) -> nested_says e tag bfs b -> ends (k b) (MemPool (n - 1)) R) ->
  ends (unpack_base e tag k) (MemPool n) R.
Proof.
  intros H Hb Hn HN HS. destruct (nested_holds e fs tag bfs H Hb) as (p & l & E & Hh). unfold unpack_base. eapply ends_bind, ends_lift; [exact E|]. cbv iota.
  apply ends_bind. eapply ends_mono; [apply (base_response_ok _ bfs n Hh); lia|]. intros r s P. cbn [unpack_buf unpack_len] in P.
  destruct (num 8 bfs) as [v|].
  - destruct P as (b & -> & Hs & ->). apply HS; [done|]. by exists p, l.
  - destruct P as [-> ->]. apply ends_bind, ends_delete; [lia|]. apply ends_ret. by apply HN.
Qed.
Lemma ends_lift_view {A} e fs tag bs (k : view -> MM A) s R : holds e fs -> str tag fs = Some bs ->
  (forall v, shows e v bs -> ends (k v) s R) -> ends (v ← lift (get_view e tag); k v) s R.
Proof. intros H E Hk. destruct (get_str e fs tag bs H E) as (v & E1 & E2 & _). eapply ends_bind, ends_lift; [exact E1|]. by apply Hk. Qed.

Lemma auth_response_ok e fs bfs n : holds e fs -> nested 0x0a fs bfs -> 1 < n <= 10 ->
  ends (epb_unpack_auth_response (unpack_buf e) (unpack_len e)) (MemPool n) (fun r s =>
    match str 0x12 fs, num 0x08 bfs with
    | Some key, Some _ => exists x, r = Some x /\ nested_says e 0x0a bfs (auth_base x) /\ shows e (aes_session_key x) key /\ s = MemPool (n - 2)
    | _, _ => r = None /\ s = MemPool n end).
Proof.
  intros H Hb Hn. unfold epb_unpack_auth_response. replace (epb_unpack_init (unpack_buf e) (unpack_len e)) with e by (by destruct e).
  change TAG_AuthResponse_BaseResponse with 0x0a. apply (ends_require_str e fs H); [done|intros E; by rewrite (proj1 Hb) in E|]. intros bs _.
  apply (ends_require_str e fs H); change TAG_AuthResponse_AesSessionKey with 0x12; [done|by intros ->|]. intros key Ek. rewrite Ek. apply ends_bind, ends_new; [lia|].
  apply (ends_unpack_base e fs 0x0a bfs (n - 1)); try done; [lia| |].
  - intros ->. by rewrite Z.sub_add.
  - intros b [v ->] Hs. apply (ends_lift_view e fs _ key); try done. intros kv Hk. apply ends_ret. eexists. split; [done|]. split; [done|]. split; [done|]. f_equal. lia.
Qed.

(** What a response to the initialisation says, field by field. *)
Record init_says (e : unpack) (fs bfs : list field) (x : InitResponse) : Prop := {
  is_base : nested_says e 0x0a bfs (init_base x);
  is_user : Some (user_id_high x) = num 0x10 fs /\ Some (user_id_low x) = num 0x18 fs;
  is_answer : challeange_answer x = num 0x20 fs;
  is_scence : init_scence x = s32 <$> num 0x28 fs;
  is_sync : auto_sync_max_duration_second x = num 0x30 fs;
  is_nick : option_Forall2 (shows e) (user_nick_name x) (str 0x5a fs);
  is_platform : platform_type x = s32 <$> num 0x60 fs;
  is_model : option_Forall2 (shows e) (model x) (str 0x6a fs);
  is_os : option_Forall2 (shows e) (os x) (str 0x72 fs);
  is_time : time x = s32 <$> num 0x78 fs /\ init_time_zone x = s32 <$> num 0x8001 fs;
  is_string : option_Forall2 (shows e) (time_string x) (str 0x8a01 fs) }.
Lemma uint_opt e tag : forall v, epb_get_uint32 e tag = Some v -> epb_get_uint32 e tag = Some (id v).
Proof. done. Qed.
Lemma int_opt e tag : forall v, epb_get_uint32 e tag = Some v -> epb_get_int32 e tag = Some (s32 v).
Proof. intros v E. unfold epb_get_int32. by rewrite E. Qed.
Lemma init_response_ok e fs bfs n : holds e fs -> nested 0x0a fs bfs -> 1 < n <= 10 ->
  ends (epb_unpack_init_response (unpack_buf e) (unpack_len e)) (MemPool n) (fun r s =>
    match num 0x10 fs, num 0x18 fs, num 0x08 bfs with
    | Some _, Some _, Some _ => exists x, r = Some x /\ init_says e fs bfs x /\ s = MemPool (n - 2)
    | _, _, _ => r = None /\ s = MemPool n end).
Proof.
  intros H Hb Hn. unfold epb_unpack_init_response. replace (epb_unpack_init (unpack_buf e) (unpack_len e)) with e by (by destruct e).
  change TAG_InitResponse_BaseResponse with 0x0a. change TAG_InitResponse_UserIdHigh with 0x10. change TAG_InitResponse_UserIdLow with 0x18.
  apply (ends_require_str e fs H); [done|intros E; by rewrite (proj1 Hb) in E|]. intros bs _.
  apply (ends_require_num e fs H); [done|by intros ->|]. intros hi Ehi. rewrite Ehi.
  apply (ends_require_num e fs H); [done|by intros ->|]. intros lo Elo. rewrite Elo. apply ends_bind, ends_new; [lia|].
  apply (ends_unpack_base e fs 0x0a bfs (n - 1)); try done; [lia|intros ->; by rewrite Z.sub_add|].
  intros b [v ->] Hs. eapply ends_bind, ends_lift; [by eapply get_num|]. eapply ends_bind, ends_lift; [by eapply get_num|].
  apply ends_bind, (ends_opt_num e fs H id); [done|by apply uint_opt|]. apply ends_bind, (ends_opt_num e fs H s32); [done|by apply int_opt|].
  apply ends_bind, (ends_opt_num e fs H id); [done|by apply uint_opt|]. apply ends_bind, (ends_opt_str e fs H); [done|]. intros nick Hnick.
  apply ends_bind, (ends_opt_num e fs H s32); [done|by apply int_opt|]. apply ends_bind, (ends_opt_str e fs H); [done|]. intros mo Hmo.
  apply ends_bind, (ends_opt_str e fs H); [done|]. intros o Ho. do 2 (apply ends_bind, (ends_opt_num e fs H s32); [done|by apply int_opt|]).
  apply ends_bind, (ends_opt_str e fs H); [done|]. intros ts Hts. apply ends_ret. eexists. split; [done|]. split; [|f_equal; lia].
  split; cbn; rewrite ?option_fmap_id, ?Ehi, ?Elo; done.
Qed.
Lemma send_data_response_ok e fs bfs n : holds e fs -> nested 0x0a fs bfs -> 1 < n <= 10 ->
  ends (epb_unpack_send_data_response (unpack_buf e) (unpack_len e)) (MemPool n) (fun r s =>
    match num 0x08 bfs with
    | Some _ => exists x, r = Some x /\ nested_says e 0x0a bfs (sent_base x) /\ option_Forall2 (shows e) (sent_data x) (str 0x12 fs) /\ s = MemPool (n - 2)
    | None => r = None /\ s = MemPool n end).
Proof.
  intros H Hb Hn. unfold epb_unpack_send_data_response. replace (epb_unpack_init (unpack_buf e) (unpack_len e)) with e by (by destruct e).
  change TAG_SendDataResponse_BaseResponse with 0x0a. apply (ends_require_str e fs H); [done|intros E; by rewrite (proj1 Hb) in E|]. intros bs _.
  apply ends_bind, ends_new; [lia|]. apply (ends_unpack_base e fs 0x0a bfs (n - 1)); try done; [lia|intros ->; by rewrite Z.sub_add|].
  intros b [v ->] Hs. apply ends_bind, (ends_opt_str e fs H); [done|]. intros d Hd. apply ends_ret. eexists. split; [done|]. split; [done|]. split; [done|f_equal; lia].
Qed.
Lemma recv_data_push_ok e fs n : holds e fs -> is_Some (str 0x0a fs) -> 1 < n <= 10 ->
  ends (epb_unpack_recv_data_push (unpack_buf e) (unpack_len e)) (MemPool n) (fun r s =>
    match str 0x12 fs with
    | Some d => exists x, r = Some x /\ shows e (push_data x) d /\ push_type x = s32 <$> num 0x18 fs /\ s = MemPool (n - 2)
    | None => r = None /\ s = MemPool n end).
Proof.
  intros H [bs Hb] Hn. unfold epb_unpack_recv_data_push. replace (epb_unpack_init (unpack_buf e) (unpack_len e)) with e by (by destruct e).
  change TAG_RecvDataPush_BasePush with 0x0a. change TAG_RecvDataPush_Data with 0x12. apply (ends_require_str e fs H); [done|intros E; by rewrite Hb in E|]. intros bs' _.
  apply (ends_require_str e fs H); [done|by intros ->|]. intros d Ed. rewrite Ed. apply ends_bind, ends_new; [lia|]. apply ends_bind.
  unfold unpack_push. apply (ends_lift_view e fs _ bs); try done. intros [p l] _. unfold epb_unpack_base_push. apply ends_new; [lia|].
  apply (ends_lift_view e fs _ d); try done. intros v Hv. apply ends_bind, (ends_opt_num e fs H s32); [done|by apply int_opt|]. apply ends_ret.
  eexists. split; [done|]. split; [done|]. split; [done|f_equal; lia].
Qed.
