(* ===== verification/Airsync.v ===== *)
(** * The WeChat transport (samples/bluetooth/airsync)

    [wechat_service.c] carries bytes over a characteristic of twenty-byte indications,
    [wechat_protocol.c] wraps messages into packets with a fixed header, and [main.c] puts the
    fragments of a packet together and walks through the handshake.  The host is a
    parameter: [answer] is what it returns to the n-th call.  An indication that it accepted
    is confirmed while the sender waits for it.  The main loop and the receive thread share
    the status under a mutex; each entry below runs as one step. *)
From S2P Require Import Prelude Gatt CString Epb EpbMm.
#[local] Open Scope Z_scope.

Definition CHALLENAGE_LENGTH : Z := 4.
Definition challeange : list Z := [0x11; 0x22; 0x33; 0x44].
Definition PROTO_VERSION : Z := 0x010004.
Definition AUTH_PROTO : Z := 1.
Definition EAM_macNoEncrypt : Z := 2.
Definition AUTH_METHOD : Z := EAM_macNoEncrypt.
Definition MAC_ADDRESS_LENGTH : Z := 6.
Definition DEVICE_ID : list Z := lit "gh_f716795d7c6b_2dc366b1844b914e".
Definition EDDT_wxDeviceHtmlChatView : Z := 10001.
Definition CMD_AUTH : Z := 1.
Definition CMD_INIT : Z := 2.
Definition CMD_SENDDAT : Z := 3.
Definition ECI_req_auth : Z := 10001.
Definition ECI_req_sendData : Z := 10002.
Definition ECI_req_init : Z := 10003.
Definition ECI_resp_auth : Z := 20001.
Definition ECI_resp_sendData : Z := 20002.
Definition ECI_resp_init : Z := 20003.
Definition ECI_push_recvData : Z := 30001.
Definition ECI_push_switchView : Z := 30002.
Definition ECI_push_switchBackgroud : Z := 30003.
Definition errorCodeUnpackAuthResp : Z := -0x9990.
Definition errorCodeUnpackInitResp : Z := -0x9991.
Definition errorCodeUnpackSendDataResp : Z := -0x9992.
Definition errorCodeUnpackRecvDataPush : Z := -0x9994.
Definition errorCodeUnpackSwitchViewPush : Z := -0x9995.
Definition errorCodeUnpackSwitchBackgroundPush : Z := -0x9996.
Definition RX_PKT_CACHE_LEN : Z := 384.
Definition WECHAT_MAX_PKT : Z := 20.
Definition BT_GATT_CCC_INDICATE : Z := 2.
(** sizeof(cmd_fix_head_t) *)
Definition fix_head_len : Z := 8.

(** ** crc32.c *)
Fixpoint crc_rounds (n : nat) (c : Z) : Z :=
  match n with O => c | S n => crc_rounds n (if truthy (Z.land c 1) then Z.lxor 0xedb88320 (Z.shiftr c 1) else Z.shiftr c 1) end.
Definition crc_table (index : Z) : Z := crc_rounds 8 index.
Definition DO1 (crc b : Z) : Z := Z.lxor (crc_table (Z.land (Z.lxor crc b) 0xff)) (Z.shiftr crc 8).
(** The loop over eight bytes and the loop over the rest. *)
Definition wechat_crc32 (crc : Z) (buf : list Z) : Z := Z.lxor (foldl DO1 (Z.lxor crc 0xffffffff) buf) 0xffffffff.

(** ** wechat_protocol.c *)
Record wxbt_state := Wxbt {
  wechats_switch_state : bool; auth_state : bool; init_state : bool; send_data_seq : Z; push_data_seq : Z; seq : Z;
  wx_bond_addr : list Z; pool : mem_pool }.
#[export] Instance eta_wxbt : EtaRecord wxbt_state := fun r =>
  Wxbt (wechats_switch_state r) (auth_state r) (init_state r) (send_data_seq r) (push_data_seq r) (seq r) (wx_bond_addr r) (pool r).
#[local] Abbreviation WM := (M wxbt_state).
Definition in_pool {A} (m : M mem_pool A) : WM A := fun s => match m (pool s) with Some (a, p) => Some (a, s <| pool := p |>) | None => None end.
Definition wx_set_mac_address (mac_addr : list Z) : WM unit := a ← lift (slice mac_addr 0 6); modify (fun s => s <| wx_bond_addr := a |>).

Definition be16 (v : Z) : list Z := [u8 (Z.shiftr v 8); u8 v].
Definition fix_head (length cmd seq : Z) : list Z := [0xFE; 1] ++ be16 (u16 length) ++ be16 cmd ++ be16 (u16 seq).
Definition auth_request (s : wxbt_state) : AuthRequest := {|
  md5_device_type_and_device_id := None; proto_version := PROTO_VERSION; auth_proto := AUTH_PROTO; auth_method := AUTH_METHOD;
  aes_sign := None; mac_address := Some (Bytes (wx_bond_addr s) MAC_ADDRESS_LENGTH); time_zone := None; language := None;
  device_name := Some (Bytes DEVICE_ID (Z.of_nat (length DEVICE_ID))) |}.
Definition init_request : InitRequest := {| resp_field_filter := None; challenge := Some (Bytes challeange CHALLENAGE_LENGTH) |}.
Definition send_request (msg : bytes) : SendDataRequest := {| send_data := msg; send_type := Some EDDT_wxDeviceHtmlChatView |}.
(** One case of the switch: a block is allocated and the message packed behind the place of
    the header.  Every byte that is sent is written, so the block's old content does not
    matter.  The block if all went well, and the length. *)
Definition produce (size : Z) (pack : M epb Z) (cmd : Z) : WM (option (list Z) * Z) :=
  let len := size + fix_head_len in
  b ← in_pool (mem_malloc len);
  if negb b then mret (None, len)
  else
    '(r, e) ← lift (pack (epb_pack_init (replicate (Z.to_nat (MEM_POOL_BUF_SIZE - fix_head_len)) 0) (len - fix_head_len)));
    if r <? 0 then in_pool (mem_free true);; mret (None, len)
    else
      s ← get;
      mret (Some (fix_head len cmd (seq s) ++ pack_buf e), len).
Definition data_produce_func_send (cmd : Z) (msg : bytes) : WM (option (list Z) * Z) :=
  modify (fun s => s <| seq := u16 (seq s + 1) |>);;
  s ← get;
  if cmd =? CMD_AUTH then produce (epb_auth_request_pack_size (auth_request s)) (epb_pack_auth_request (auth_request s)) ECI_req_auth
  else if cmd =? CMD_INIT then produce (epb_init_request_pack_size init_request) (epb_pack_init_request init_request) ECI_req_init
  else if cmd =? CMD_SENDDAT then
    r ← produce (epb_send_data_request_pack_size (send_request msg)) (epb_pack_send_data_request (send_request msg)) ECI_req_sendData;
    when (bool_decide (is_Some r.1)) (modify (fun s => s <| send_data_seq := u16 (send_data_seq s + 1) |>));;
    mret r
  else ub.                                   (* *data is not initialised *)

(** The code's value is read from the response after it was freed. *)
Definition freed_err_code : WM Z := ub.
Definition be16_at (b : list Z) (i : Z) : option Z := hi ← rd b i; lo ← rd b (i + 1); Some (hi * 256 + lo).
Definition data_consume_func_rec (obj : list Z) (len : Z) : WM (Z * option (list Z)) :=
  head ← lift (slice obj 0 fix_head_len);
  n ← lift (be16_at head 2);
  cmd ← lift (be16_at head 4);
  if len <? n then mret (0, None)
  else
    let body := drop 8 obj in
    let body_len := s32 (u32 (n - fix_head_len)) in
    if cmd =? ECI_resp_auth then
      r ← in_pool (epb_unpack_auth_response body body_len);
      match r with
      | None => mret (errorCodeUnpackAuthResp, None)
      | Some r =>
          if err_code (auth_base r) =? 0 then
            modify (fun s => s <| auth_state := true |>);; in_pool epb_unpack_auth_response_free;; mret (n, None)
          else in_pool epb_unpack_auth_response_free;; c ← freed_err_code; mret (c, None)
      end
    else if cmd =? ECI_resp_init then
      r ← in_pool (epb_unpack_init_response body body_len);
      match r with
      | None => mret (errorCodeUnpackInitResp, None)
      | Some r =>
          if err_code (init_base r) =? 0 then
            (match challeange_answer r with
             | Some a => when (wechat_crc32 0 challeange =? a) (modify (fun s => s <| init_state := true |>))
             | None => modify (fun s => s <| init_state := true |>)
             end);;
            modify (fun s => s <| wechats_switch_state := true |>);;
            in_pool epb_unpack_init_response_free;; mret (n, None)
          else in_pool epb_unpack_init_response_free;; c ← freed_err_code; mret (c, None)
      end
    else if cmd =? ECI_resp_sendData then
      r ← in_pool (epb_unpack_send_data_response body body_len);
      match r with
      | None => mret (errorCodeUnpackSendDataResp, None)
      | Some r =>
          if err_code (sent_base r) =? 0 then in_pool epb_unpack_send_data_response_free;; mret (n, None)
          else in_pool epb_unpack_send_data_response_free;; c ← freed_err_code; mret (c, None)
      end
    else if cmd =? ECI_push_recvData then
      r ← in_pool (epb_unpack_recv_data_push body body_len);
      match r with
      | None => mret (errorCodeUnpackRecvDataPush, None)
      | Some r =>
          raw ← lift (slice body (push_data r).1 (push_data r).2);      (* print_buffer *)
          in_pool epb_unpack_recv_data_push_free;;
          modify (fun s => s <| push_data_seq := u16 (push_data_seq s + 1) |>);;
          mret (n, Some raw)
      end
    else if cmd =? ECI_push_switchView then
      modify (fun s => s <| wechats_switch_state ::= negb |>);;
      r ← in_pool (epb_unpack_switch_view_push body body_len);
      match r with
      | None => mret (errorCodeUnpackSwitchViewPush, None)
      | Some _ => in_pool epb_unpack_switch_view_push_free;; mret (n, None)
      end
    else if cmd =? ECI_push_switchBackgroud then
      r ← in_pool (epb_unpack_switch_backgroud_push body body_len);
      match r with
      | None => mret (errorCodeUnpackSwitchBackgroundPush, None)
      | Some _ => in_pool epb_unpack_switch_backgroud_push_free;; mret (n, None)
      end
    else mret (n, None).

(** ** main.c and wechat_service.c *)
Inductive airsync_proto_status :=
| PROTO_STATUS_CAN_NOT_IND | PROTO_STATUS_IDLE | PROTO_STATUS_AUTH_SENDING | PROTO_STATUS_AUTH_RSP_RECEIVED
| PROTO_STATUS_INIT_SENDING | PROTO_STATUS_INIT_RSP_RECEIVED | PROTO_STATUS_SEND_OR_RECV.
#[export] Instance airsync_proto_status_dec : EqDecision airsync_proto_status.
Proof. solve_decision. Defined.
Inductive airsync_event :=
| Indicated (data : list Z) (err : Z) | Advertise (on : bool) (err : Z) | Registered (err : Z) | Disconnect (err : Z) | Pushed (raw : list Z) | Slept (ms : Z).

Record airsync_priv := Airsync {
  proto_status : airsync_proto_status; pkt_cache : list Z; cached_len : Z;
  g_indicating : Z; g_cur_conn : bool; g_manufacturer_data : list Z; callbacks_set : bool;
  wx : wxbt_state; calls : nat; alog : list airsync_event }.
#[export] Instance eta_airsync : EtaRecord airsync_priv := fun r =>
  Airsync (proto_status r) (pkt_cache r) (cached_len r) (g_indicating r) (g_cur_conn r) (g_manufacturer_data r) (callbacks_set r)
    (wx r) (calls r) (alog r).

Section Transport.
Context (answer : nat -> Z) (local_addr : Z + list Z).           (* bt_le_oob_get_local: an error or the address *)
#[local] Abbreviation AM := (M airsync_priv).
Definition in_wx {A} (m : WM A) : AM A := fun s => match m (wx s) with Some (a, w) => Some (a, s <| wx := w |>) | None => None end.
Definition note (e : airsync_event) : AM unit := modify (fun s => s <| alog ::= (fun t => t ++ [e]) |>).
Definition host (e : Z -> airsync_event) : AM Z := s ← get; let err := answer (calls s) in put (s <| calls ::= S |>);; note (e err);; mret err.

Definition __indicate_cb (err : Z) : AM unit := modify (fun s => s <| g_indicating := 0 |>).
Definition __send_and_wait (data : list Z) : AM unit :=
  ret ← host (Indicated data);
  when (ret =? 0) (modify (fun s => s <| g_indicating := 1 |>));;
  s ← get;
  when (truthy (g_indicating s)) (note (Slept 100);; __indicate_cb 0).
Fixpoint send_loop (fuel : nat) (buf : list Z) (len sent : Z) : AM Z :=
  match fuel with
  | O => ub
  | S fuel =>
      if WECHAT_MAX_PKT <? len then
        d ← lift (slice buf sent WECHAT_MAX_PKT);
        __send_and_wait d;;
        send_loop fuel buf (len - WECHAT_MAX_PKT) (sent + WECHAT_MAX_PKT)
      else if 0 <? len then
        d ← lift (slice buf sent len);
        __send_and_wait (d ++ replicate (Z.to_nat (WECHAT_MAX_PKT - len)) 0);;
        mret len
      else mret len
  end.
(** NULL is no object. *)
Definition wechat_send_data (buf : option (list Z)) (len : Z) : AM Z := send_loop (S (Z.to_nat len)) (default [] buf) len 0.
Definition wechat_advertise (on : bool) : AM Z := host (Advertise on).
Definition connected (err : Z) : AM unit := modify (fun s => s <| g_cur_conn := (err =? 0) |>).
Definition disconnected : AM unit := modify (fun s => s <| g_cur_conn := false |>);; _ ← wechat_advertise true; mret tt.
Definition wechat_init : AM Z :=
  modify (fun s => s <| callbacks_set := true |>);;
  match local_addr with
  | inl err => mret err
  | inr a =>
      v ← lift (slice a 0 6);
      modify (fun s => s <| g_manufacturer_data ::= (fun m => take 2 m ++ rev v) |>);;
      host Registered
  end.
(** While it waits the host reports the end of the connection; without that it never returns. *)
Definition wechat_disconnect : AM unit :=
  s ← get;
  when (g_cur_conn s)
    (err ← host Disconnect;
     if err =? 0 then note (Slept 100);; disconnected else ub).
Definition rd_ch_read_cb : AM (list Z) := s ← get; lift (slice (g_manufacturer_data s) 2 6).

(** The part of airsync_proto_recv_cb after the packet was looked at. *)
Definition after_consume (buf : list Z) (ret : Z) (raw : option (list Z)) : AM Z :=
  let len := Z.of_nat (length buf) in
  s ← get;
  if ret =? 0 then
    (if cached_len s =? 0 then
       c ← lift (store (pkt_cache s) 0 buf);
       modify (fun s => s <| pkt_cache := c |> <| cached_len := u16 len |>)
     else mret tt);;
    mret len
  else if ret <? 0 then modify (fun s => s <| cached_len := 0 |>);; mret ret
  else
    (if ret <? cached_len s then
       let rest := cached_len s - ret in
       if ret <? rest then ub                  (* memcpy between overlapping regions *)
       else
         d ← lift (slice (pkt_cache s) ret rest);
         c ← lift (store (pkt_cache s) 0 d);
         modify (fun s => s <| pkt_cache := c |> <| cached_len := rest |>)
     else modify (fun s => s <| cached_len := 0 |>));;
    match proto_status s with
    | PROTO_STATUS_AUTH_SENDING => modify (fun s => s <| proto_status := PROTO_STATUS_AUTH_RSP_RECEIVED |>)
    | PROTO_STATUS_INIT_SENDING => modify (fun s => s <| proto_status := PROTO_STATUS_INIT_RSP_RECEIVED |>)
    | PROTO_STATUS_SEND_OR_RECV => match raw with Some r => note (Pushed r) | None => mret tt end
    | _ => mret tt
    end;;
    mret len.
Definition airsync_proto_recv_cb (buf : list Z) : AM Z :=
  let len := Z.of_nat (length buf) in
  s ← get;
  if (0 <? cached_len s) && (RX_PKT_CACHE_LEN <? cached_len s + len) then
    modify (fun s => s <| cached_len := 0 |>);; mret len
  else
    '(ret, raw) ←
      (if 0 <? cached_len s then
         c ← lift (store (pkt_cache s) (cached_len s) buf);
         modify (fun s => s <| pkt_cache := c |> <| cached_len := u16 (cached_len s + len) |>);;
         s ← get;
         in_wx (data_consume_func_rec (pkt_cache s) (cached_len s))
       else in_wx (data_consume_func_rec buf len));
    after_consume buf ret raw.
Definition wr_ch_write_cb (buf : list Z) : AM Z :=
  s ← get; when (callbacks_set s) (_ ← airsync_proto_recv_cb buf; mret tt);; mret (Z.of_nat (length buf)).
Definition airsync_proto_ind_status_cb (onoff : bool) : AM unit :=
  modify (fun s => s <| proto_status := if onoff then PROTO_STATUS_IDLE else PROTO_STATUS_CAN_NOT_IND |>);;
  in_wx (in_pool mem_init);;
  modify (fun s => s <| cached_len := 0 |>).
Definition ind_ch_ccc_cfg_changed (value : Z) : AM unit :=
  modify (fun s => s <| g_indicating := 0 |>);;
  s ← get; when (callbacks_set s) (airsync_proto_ind_status_cb (value =? BT_GATT_CCC_INDICATE)).

(** Produce, send and free. *)
Definition send_cmd (cmd : Z) (msg : bytes) : AM unit :=
  '(buf, len) ← in_wx (data_produce_func_send cmd msg);
  _ ← wechat_send_data buf len;
  in_wx (in_pool (mem_free (bool_decide (is_Some buf)))).
Definition no_msg : bytes := Bytes [] 0.
Definition airsync_proto_handle : AM unit :=
  s ← get;
  match proto_status s with
  | PROTO_STATUS_IDLE => modify (fun s => s <| proto_status := PROTO_STATUS_AUTH_SENDING |>);; send_cmd CMD_AUTH no_msg
  | PROTO_STATUS_AUTH_RSP_RECEIVED => modify (fun s => s <| proto_status := PROTO_STATUS_INIT_SENDING |>);; send_cmd CMD_INIT no_msg
  | PROTO_STATUS_INIT_RSP_RECEIVED =>
      modify (fun s => s <| proto_status := PROTO_STATUS_SEND_OR_RECV |>);; send_cmd CMD_SENDDAT (Bytes [0x11; 0x22; 0x33; 0x44] 4)
  | _ => note (Slept 100)
  end.
Definition bt_ready (err : Z) : AM unit :=
  if truthy err then mret tt
  else
    match local_addr with
    | inl _ => mret tt
    | inr a =>
        v ← lift (slice a 0 6);
        in_wx (wx_set_mac_address (rev v));;
        err ← wechat_init;
        if truthy err then mret tt
        else
          err ← wechat_advertise true;
          if truthy err then mret tt
          else modify (fun s => s <| proto_status := PROTO_STATUS_CAN_NOT_IND |> <| cached_len := 0 |>)
    end.
End Transport.

(** * Theorems *)

(** ** Packets *)
(** A message behind its header. *)
Definition packet (cmd sq : Z) (fs : list field) : list Z := fix_head (fix_head_len + Z.of_nat (length (message fs))) cmd sq ++ message fs.
Definition packet_length (fs : list field) : Z := fix_head_len + Z.of_nat (length (message fs)).
Lemma packet_size cmd sq fs : Z.of_nat (length (packet cmd sq fs)) = packet_length fs.
Proof. unfold packet, packet_length. rewrite length_app. change (length (fix_head _ _ _)) with 8%nat. unfold fix_head_len. lia. Qed.
Lemma be16_sum v : 0 <= v < 65536 -> u8 (Z.shiftr v 8) * 256 + u8 v = v.
Proof. intros Hv. rewrite Z.shiftr_div_pow2 by lia. unfold u8. Z.to_euclidean_division_equations; lia. Qed.

(** What the start of an object says. *)
Record header (obj : list Z) (n cmd : Z) : Prop := {
  hd_slice : exists h, slice obj 0 fix_head_len = Some h /\ be16_at h 2 = Some n /\ be16_at h 4 = Some cmd }.
Lemma header_app c rest n cmd : (8 <= length c)%nat -> header (c ++ rest) n cmd -> forall rest', header (c ++ rest') n cmd.
Proof.
  intros Hc [(h & H1 & H2)] rest'. split. exists h. split; [|done]. rewrite <- H1. unfold slice, fix_head_len.
  rewrite !length_app, !(proj2 (Z.leb_le _ _)) by lia. cbn [andb]. change (Z.to_nat 0) with 0%nat. change (Z.to_nat 8) with 8%nat. rewrite !drop_0. by rewrite !take_app_le by lia.
Qed.
Lemma packet_header cmd sq fs rest : 0 <= cmd < 65536 -> packet_length fs < 65536 -> header (packet cmd sq fs ++ rest) (packet_length fs) cmd.
Proof.
  intros Hc Hl. unfold packet. fold (packet_length fs). set (n := packet_length fs) in *. assert (0 <= n) by (unfold n, packet_length, fix_head_len; lia). clearbody n.
  split. exists (fix_head n cmd sq). split.
  - rewrite <- app_assoc. unfold slice, fix_head_len. rewrite length_app. change (length (fix_head _ _ _)) with 8%nat. by rewrite !(proj2 (Z.leb_le _ _)) by lia.
  - assert (forall a b c d e f g h : Z, be16_at [a; b; c; d; e; f; g; h] 2 = Some (c * 256 + d) /\ be16_at [a; b; c; d; e; f; g; h] 4 = Some (e * 256 + f)) as E by done.
    unfold fix_head, be16. cbn [app]. destruct (E 0xFE 1 (u8 (Z.shiftr (u16 n) 8)) (u8 (u16 n)) (u8 (Z.shiftr cmd 8)) (u8 cmd) (u8 (Z.shiftr (u16 sq) 8)) (u8 (u16 sq))) as [-> ->].
    by rewrite u16_small, !be16_sum by lia.
Qed.
Lemma drop_packet cmd sq fs rest : drop 8 (packet cmd sq fs ++ rest) = message fs ++ rest.
Proof. unfold packet. by rewrite <- app_assoc. Qed.
(** As long as something is missing nothing happens. *)
Lemma consume_incomplete c n cmd l w : header c n cmd -> l < n -> data_consume_func_rec c l w = Some ((0, None), w).
Proof.
  intros [(h & E1 & E2 & E3)] Hl. unfold data_consume_func_rec. munfold. rewrite E1, E2, E3. by rewrite (proj2 (Z.ltb_lt _ _)) by lia.
Qed.

(** A complete packet [p] takes the protocol's state from [w] to [w'], wherever it lies. *)
Definition accepted (p : list Z) (w : wxbt_state) (raw : option (list Z)) (w' : wxbt_state) : Prop :=
  (exists cmd, header p (Z.of_nat (length p)) cmd) /\ (8 <= length p)%nat /\
  forall rest l, Z.of_nat (length p) <= l -> data_consume_func_rec (p ++ rest) l w = Some ((Z.of_nat (length p), raw), w').

(** ** The replies the handshake waits for *)
Definition pool_ready (w : wxbt_state) : Prop := exists n, pool w = MemPool n /\ 1 < n <= 10.
Definition success (fs bfs : list field) : Prop := nested 0x0a fs bfs /\ num 0x08 bfs = Some 0.
Lemma success_code e fs bfs b : success fs bfs -> nested_says e 0x0a bfs b -> err_code b = 0.
Proof. intros [_ H] (p & l & _ & [Hc _]). rewrite H in Hc. by injection Hc as ->. Qed.
Lemma message_holds fs rest : Forall field_ok fs -> packet_length fs < 65536 ->
  holds (Unpack (message fs ++ rest) (s32 (u32 (packet_length fs - fix_head_len)))) fs.
Proof.
  intros Hf Hl. unfold packet_length, fix_head_len in *. replace (8 + Z.of_nat (length (message fs)) - 8) with (Z.of_nat (length (message fs))) by lia.
  rewrite u32_small, s32_small by lia. split; [done|cbn; lia|by eexists].
Qed.
(** Running an unpacking function in the protocol's pool. *)
Lemma in_pool_ends {A} (m : M mem_pool A) (w : wxbt_state) n (P : A -> mem_pool -> Prop) : pool w = MemPool n -> ends m (MemPool n) P ->
  exists a p, in_pool m w = Some (a, w <| pool := p |>) /\ P a p.
Proof. intros E H. apply ends_inv in H as (a & p & H1 & H2). exists a, p. unfold in_pool. by rewrite E, H1. Qed.
Lemma free_two w n : pool w = MemPool (n - 2) -> n <= 10 -> in_pool (epb_unpack_base_response_free;; delete) w = Some (tt, w <| pool := MemPool n |>).
Proof.
  intros E Hn. unfold in_pool, epb_unpack_base_response_free, delete, mem_free. rewrite E. munfold. cbn [blocks_free]. change MEM_POOL_BUF_NUM with 10.
  rewrite (proj2 (Z.ltb_lt _ _)) by lia. cbn [blocks_free]. rewrite (proj2 (Z.ltb_lt _ _)) by lia. by replace (n - 2 + 1 + 1) with n by lia.
Qed.
Lemma auth_reply_accepted sq fs bfs key w : Forall field_ok fs -> success fs bfs -> str 0x12 fs = Some key -> packet_length fs < 65536 -> pool_ready w ->
  accepted (packet ECI_resp_auth sq fs) w None (w <| auth_state := true |>).
Proof.
  intros Hf Hb Hk Hl (n & Ep & Hn). split; [|split].
  - exists ECI_resp_auth. rewrite packet_size. rewrite <- (app_nil_r (packet _ _ _)). by apply packet_header.
  - pose proof (packet_size ECI_resp_auth sq fs). unfold packet_length, fix_head_len in *. lia.
  - intros rest l Hll. rewrite packet_size in *. destruct (packet_header ECI_resp_auth sq fs rest ltac:(done) Hl) as [(h & E1 & E2 & E3)].
    unfold data_consume_func_rec. unfold mbind, M_bind, lift. rewrite E1, E2, E3. rewrite (proj2 (Z.ltb_ge _ _)) by done. cbn [Z.eqb ECI_resp_auth Pos.eqb]. rewrite drop_packet.
    pose proof (message_holds fs rest Hf Hl) as Hh. pose proof (auth_response_ok _ fs bfs n Hh (proj1 Hb) Hn) as E. cbn [unpack_buf unpack_len] in E. rewrite Hk, (proj2 Hb) in E.
    destruct (in_pool_ends _ w n _ Ep E) as (a & p & -> & x & -> & Hx & _ & ->). cbv iota beta. rewrite (success_code _ fs bfs _ Hb Hx). cbn [Z.eqb].
    unfold modify, epb_unpack_auth_response_free. rewrite (free_two _ n) by (done || lia). unfold mret, M_ret. f_equal. f_equal. destruct w. cbn in *. by rewrite Ep.
Qed.
Lemma init_reply_accepted sq fs bfs w : Forall field_ok fs -> success fs bfs -> is_Some (num 0x10 fs) -> is_Some (num 0x18 fs) ->
  (num 0x20 fs = None \/ num 0x20 fs = Some (wechat_crc32 0 challeange)) -> packet_length fs < 65536 -> pool_ready w ->
  accepted (packet ECI_resp_init sq fs) w None (w <| init_state := true |> <| wechats_switch_state := true |>).
Proof.
  intros Hf Hb [hi Hhi] [lo Hlo] Hc Hl (n & Ep & Hn). split; [|split].
  - exists ECI_resp_init. rewrite packet_size. rewrite <- (app_nil_r (packet _ _ _)). by apply packet_header.
  - pose proof (packet_size ECI_resp_init sq fs). unfold packet_length, fix_head_len in *. lia.
  - intros rest l Hll. rewrite packet_size in *. destruct (packet_header ECI_resp_init sq fs rest ltac:(done) Hl) as [(h & E1 & E2 & E3)].
    unfold data_consume_func_rec. unfold mbind, M_bind, lift. rewrite E1, E2, E3. rewrite (proj2 (Z.ltb_ge _ _)) by done. cbn [Z.eqb ECI_resp_init ECI_resp_auth Pos.eqb]. rewrite drop_packet.
    pose proof (message_holds fs rest Hf Hl) as Hh. pose proof (init_response_ok _ fs bfs n Hh (proj1 Hb) Hn) as E. cbn [unpack_buf unpack_len] in E. rewrite Hhi, Hlo, (proj2 Hb) in E.
    destruct (in_pool_ends _ w n _ Ep E) as (a & p & -> & x & -> & [Hx _ Ha _ _ _ _ _ _ _ _] & ->). cbv iota beta. rewrite (success_code _ fs bfs _ Hb Hx), Ha. cbn [Z.eqb].
    unfold epb_unpack_init_response_free.
    destruct Hc as [-> | ->]; [|rewrite Z.eqb_refl; cbn [when]]; unfold modify; rewrite (free_two _ n) by (done || lia); unfold mret, M_ret; f_equal; f_equal; destruct w; cbn in *; by rewrite Ep.
Qed.

(** ** Fragments *)
Fixpoint writes (frags : list (list Z)) : M airsync_priv unit :=
  match frags with [] => mret tt | f :: frags => _ ← wr_ch_write_cb f; writes frags end.
Definition next_status (st : airsync_proto_status) : airsync_proto_status :=
  match st with PROTO_STATUS_AUTH_SENDING => PROTO_STATUS_AUTH_RSP_RECEIVED | PROTO_STATUS_INIT_SENDING => PROTO_STATUS_INIT_RSP_RECEIVED | st => st end.
(** The state after a packet: [m] is what is left in the cache's memory. *)
Definition received (s : airsync_priv) (raw : option (list Z)) (w' : wxbt_state) (m : list Z) : airsync_priv :=
  let s := s <| pkt_cache := m |> <| cached_len := 0 |> <| wx := w' |> <| proto_status := next_status (proto_status s) |> in
  match proto_status s, raw with PROTO_STATUS_SEND_OR_RECV, Some r => s <| alog ::= (fun t => t ++ [Pushed r]) |> | _, _ => s end.
(** The cache holds the first bytes [c] of a packet. *)
Record collecting (s : airsync_priv) (c : list Z) : Prop := {
  co_len : cached_len s = Z.of_nat (length c);
  co_size : length (pkt_cache s) = 384%nat;
  co_cache : exists rest, pkt_cache s = c ++ rest }.

Lemma store_behind (c rest f : list Z) : (length c + length f <= length (c ++ rest))%nat ->
  store (c ++ rest) (Z.of_nat (length c)) f = Some (c ++ f ++ drop (length f) rest).
Proof.
  intros H. unfold store. rewrite !(proj2 (Z.leb_le _ _)) by lia. cbn [andb]. rewrite Nat2Z.id, take_app_length.
  by rewrite <- drop_drop, drop_app_length.
Qed.
Lemma in_wx_run {A} (m : M wxbt_state A) s a w : m (wx s) = Some (a, w) -> in_wx m s = Some (a, s <| wx := w |>).
Proof. intros E. unfold in_wx. by rewrite E. Qed.

Lemma after_done buf ret raw s : 0 < ret -> cached_len s <= ret -> ends (after_consume buf ret raw) s (fun _ s' => s' = received s raw (wx s) (pkt_cache s)).
Proof.
  intros H0 Hc. unfold after_consume. hoare. rewrite (proj2 (Z.eqb_neq _ _)), (proj2 (Z.ltb_ge ret 0)), (proj2 (Z.ltb_ge ret _)) by lia. hoare.
  destruct s as [st c l gi cn md cb w n t]. destruct st; try (by hoare). by destruct raw.
Qed.
(** What a fragment [f] does after [c]: the packet is looked at in its own buffer or in the
    cache, and the state it leaves is judged. *)
Lemma fragment_seen c f s ret raw w' (Q : Z -> airsync_priv -> Prop) : collecting s c -> (length c + length f <= 384)%nat ->
  (forall rest, data_consume_func_rec ((c ++ f) ++ rest) (Z.of_nat (length (c ++ f))) (wx s) = Some ((ret, raw), w')) ->
  (forall m, length m = 384%nat -> (c <> [] -> exists r, m = (c ++ f) ++ r) ->
     ends (after_consume f ret raw) (s <| pkt_cache := m |> <| cached_len := if decide (c = []) then 0 else Z.of_nat (length (c ++ f)) |> <| wx := w' |>) Q) ->
  ends (airsync_proto_recv_cb f) s Q.
Proof.
  intros [Hcl Hsz [rest Hc]] Hmax Hd H. unfold airsync_proto_recv_cb. hoare. rewrite Hcl. change RX_PKT_CACHE_LEN with 384.
  rewrite (proj2 (Z.ltb_ge 384 _)), andb_false_r by lia. apply ends_bind. destruct (decide (c = [])) as [->|Hne].
  - change (0 <? Z.of_nat (length [])) with false. cbv iota. specialize (H (pkt_cache s) Hsz ltac:(done)). cbn [app] in *. specialize (Hd []). rewrite app_nil_r in Hd.
    unfold ends at 1. rewrite (in_wx_run _ _ _ _ Hd). cbv beta iota. destruct s; cbn in *; by subst.
  - rewrite (proj2 (Z.ltb_lt 0 _)) by (destruct c; cbn; [done|lia]). rewrite Hc. eapply ends_bind, ends_lift; [apply store_behind; rewrite <- Hc, Hsz; lia|].
    hoare. cbn [pkt_cache cached_len set_field]. rewrite Hcl.
    replace (u16 (Z.of_nat (length c) + Z.of_nat (length f))) with (Z.of_nat (length (c ++ f))) by (rewrite length_app, u16_small; lia).
    unfold ends at 1. rewrite app_assoc. erewrite in_wx_run by apply Hd. cbv beta iota. apply (H ((c ++ f) ++ drop (length f) rest)); [|by eexists].
    rewrite !length_app, length_drop. rewrite Hc, length_app in Hsz. lia.
Qed.
Lemma last_fragment c f s p raw w' : collecting s c -> callbacks_set s = true -> c ++ f = p -> (length p <= 384)%nat ->
  accepted p (wx s) raw w' -> ends (wr_ch_write_cb f) s (fun _ s' => exists m, s' = received s raw w' m /\ length m = 384%nat).
Proof.
  intros Hc Hcb Hp Hmax (_ & H8 & Hacc). unfold wr_ch_write_cb. hoare. rewrite Hcb. cbn [when]. apply ends_bind. hoare.
  apply (fragment_seen c f s (Z.of_nat (length p)) raw w'); [done|rewrite <- length_app, Hp; lia|rewrite Hp; intros rest; by apply Hacc|].
  intros m Hm _. eapply ends_mono; [apply after_done; [lia|cbn; case_decide; [lia|by rewrite Hp]]|]. intros r s' ->. hoare. exists m. split; [|done]. by destruct s.
Qed.
Lemma more_fragments c f s p : collecting s c -> callbacks_set s = true -> (8 <= length (c ++ f))%nat -> (length (c ++ f) < length p <= 384)%nat ->
  (exists rest, p = (c ++ f) ++ rest) -> (exists cmd, header p (Z.of_nat (length p)) cmd) ->
  ends (wr_ch_write_cb f) s (fun _ s' => exists m, s' = s <| pkt_cache := m |> <| cached_len := Z.of_nat (length (c ++ f)) |> /\ collecting s' (c ++ f)).
Proof.
  intros Hc Hcb H8 Hl [rest Hp] [cmd Hh]. unfold wr_ch_write_cb. hoare. rewrite Hcb. cbn [when]. apply ends_bind. hoare. rewrite length_app in Hl, H8.
  apply (fragment_seen c f s 0 None (wx s)); [done|lia| |].
  - intros r. eapply consume_incomplete; [eapply header_app; [rewrite length_app; lia|rewrite <- Hp; exact Hh]|rewrite length_app; lia].
  - intros m Hm Hcm. unfold after_consume. hoare. cbn [Z.eqb cached_len set_field]. apply ends_bind. destruct (decide (c = [])) as [->|Hne].
    + cbn [Z.eqb app length] in *. cbn [pkt_cache set_field]. eapply ends_bind, ends_lift; [apply (store_behind [] m f); cbn [app length]; lia|]. hoare. eexists.
      split; [rewrite u16_small by lia; by destruct s|]. split; cbn; [rewrite u16_small; lia|rewrite length_app, length_drop; lia|by eexists].
    + rewrite (proj2 (Z.eqb_neq _ _)) by (destruct c; [done|cbn [length app]; lia]). hoare. exists m. split; [by destruct s|]. destruct (Hcm Hne) as [r ->].
      split; [done|done|by exists r].
Qed.
(** A packet may be cut anywhere behind its header. *)
Lemma fragments_ok p raw w' frags : forall c s, collecting s c -> callbacks_set s = true -> c ++ concat frags = p -> (length p <= 384)%nat ->
  accepted p (wx s) raw w' -> frags <> [] -> Forall (fun f => f <> []) frags -> (8 <= length (c ++ hd [] frags))%nat ->
  ends (writes frags) s (fun _ s' => exists m, s' = received s raw w' m /\ length m = 384%nat).
Proof.
  induction frags as [|f frags IH]; intros c s Hc Hcb Hp Hmax Hacc Hne Hf H8; [done|]. cbn [writes hd] in *. apply Forall_cons in Hf as [Hf1 Hf]. apply ends_bind.
  destruct frags as [|g frags].
  - cbn [concat] in Hp. rewrite app_nil_r in Hp. eapply ends_mono; [by eapply last_fragment|]. intros r s' H. by hoare.
  - cbn [concat] in Hp. rewrite app_assoc in Hp. assert (0 < length g)%nat as Hg by (apply Forall_cons in Hf as [Hg _]; destruct g; cbn; [done|lia]).
    pose proof (f_equal length Hp) as L. rewrite !length_app in L.
    eapply ends_mono; [apply (more_fragments c f s p); try done; [rewrite length_app; lia|by eexists|by destruct Hacc as [? _]]|].
    intros r s' (m & -> & Hc'). eapply ends_mono; [apply (IH (c ++ f)); try done; rewrite length_app; lia|].
    intros [] s2 (m2 & -> & Hm2). exists m2. split; [|done]. destruct s. done.
Qed.

(** C24. A packet of the phone may arrive in any pieces, as long as the first has the header:
    the fragments have the effect of the whole packet written at once, but for what is left
    behind in the cache. *)
Theorem fragments_reassembled p raw w' frags s : collecting s [] -> callbacks_set s = true -> (length p <= 384)%nat ->
  accepted p (wx s) raw w' -> concat frags = p -> Forall (fun f => f <> []) frags -> (8 <= length (hd [] frags))%nat ->
  ends (writes frags) s (fun _ s' => exists m m', s' = received s raw w' m /\ writes [p] s = Some (tt, received s raw w' m')).
Proof.
  intros Hc Hcb Hmax Hacc Hp Hf H8. assert (length p <> 0)%nat as Hl by (destruct Hacc as (_ & ? & _); lia).
  eapply ends_mono; [apply (fragments_ok p raw w' frags [] s); try done; by intros ->; subst p|]. intros [] s' (m & -> & _).
  pose proof (fragments_ok p raw w' [p] [] s Hc Hcb ltac:(cbn; by rewrite app_nil_r) Hmax Hacc ltac:(done)) as W.
  destruct (ends_inv _ _ _ (W ltac:(apply Forall_singleton; by intros ->) ltac:(destruct Hacc as (_ & ? & _); by cbn))) as ([] & s1 & E & m' & -> & _).
  by exists m, m'.
Qed.

(** ** Indications *)
Definition indicated (t : list airsync_event) : list (list Z) := t ≫= (fun e => match e with Indicated d _ => [d] | _ => [] end).
(** Twenty bytes each, the last one filled up with zeros. *)
Fixpoint pieces_of (n : nat) (l : list Z) : list (list Z) :=
  match n with
  | O => []
  | S n => if decide (20 < length l)%nat then take 20 l :: pieces_of n (drop 20 l) else match l with [] => [] | _ => [l ++ replicate (20 - length l) 0] end
  end.
Definition pieces (l : list Z) : list (list Z) := pieces_of (S (length l)) l.
(** Everything but the log and the number of calls. *)
Definition sent (ds : list (list Z)) (s s' : airsync_priv) : Prop :=
  proto_status s' = proto_status s /\ pkt_cache s' = pkt_cache s /\ cached_len s' = cached_len s /\ callbacks_set s' = callbacks_set s /\
  wx s' = wx s /\ g_indicating s' = 0 /\ indicated (alog s') = indicated (alog s) ++ ds.
Lemma sent_trans ds es s1 s2 s3 : sent ds s1 s2 -> sent es s2 s3 -> sent (ds ++ es) s1 s3.
Proof. intros (? & ? & ? & ? & ? & ? & E1) (? & ? & ? & ? & ? & ? & E2). unfold sent. rewrite E2, E1, app_assoc. by repeat split; congruence. Qed.
Section Sending.
Context (answer : nat -> Z) (Hok : forall n, answer n = 0).
Lemma indication_sent d s : ends (__send_and_wait answer d) s (fun _ => sent [d] s).
Proof using Hok.
  unfold __send_and_wait, host, note. hoare. apply ends_bind. unfold ends at 1, put. cbv beta iota. hoare. rewrite Hok. cbn [Z.eqb when]. hoare. cbn [g_indicating set_field truthy Z.eqb negb when].
  unfold __indicate_cb. hoare. unfold sent. split_and!; try done. unfold indicated. cbn [alog set_field]. by rewrite !bind_app, app_nil_r.
Qed.
Lemma send_loop_ok fuel : forall pre l rest s, (length l < fuel)%nat -> g_indicating s = 0 ->
  ends (send_loop answer fuel (pre ++ l ++ rest) (Z.of_nat (length l)) (Z.of_nat (length pre))) s (fun _ => sent (pieces_of fuel l) s).
Proof using Hok.
  induction fuel as [|fuel IH]; intros pre l rest s Hf Hg; [lia|]. cbn [send_loop pieces_of]. change WECHAT_MAX_PKT with 20.
  assert (forall k : nat, (k <= length l)%nat -> slice (pre ++ l ++ rest) (Z.of_nat (length pre)) (Z.of_nat k) = Some (take k l)) as Sl.
  { intros k Hk. unfold slice. rewrite !length_app, !(proj2 (Z.leb_le _ _)) by lia. cbn [andb]. by rewrite !Nat2Z.id, drop_app_length, take_app_le by lia. }
  destruct (Z.ltb_spec 20 (Z.of_nat (length l))) as [Hl|Hl].
  - rewrite decide_True by lia. eapply ends_bind, ends_lift; [apply (Sl 20%nat); lia|]. apply ends_bind. eapply ends_mono; [apply indication_sent|]. intros [] s1 S1.
    replace (Z.of_nat (length l) - 20) with (Z.of_nat (length (drop 20 l))) by (rewrite length_drop; lia).
    replace (Z.of_nat (length pre) + 20) with (Z.of_nat (length (pre ++ take 20 l))) by (rewrite length_app, length_take; lia).
    replace (pre ++ l ++ rest) with ((pre ++ take 20 l) ++ drop 20 l ++ rest) by (by rewrite <- (take_drop 20 l) at 3; rewrite <- !app_assoc).
    eapply ends_mono; [apply IH; [rewrite length_drop; lia|by destruct S1 as (_ & _ & _ & _ & _ & ? & _)]|]. intros r s2 S2. by apply (sent_trans [take 20 l] _ s s1 s2).
  - rewrite decide_False by lia. destruct l as [|b l].
    + cbn [length Z.of_nat Z.ltb Z.compare]. hoare. unfold sent. by rewrite app_nil_r.
    + rewrite (proj2 (Z.ltb_lt 0 _)) by (cbn; lia). eapply ends_bind, ends_lift; [apply Sl; lia|]. rewrite take_ge by lia.
      replace (Z.to_nat (20 - Z.of_nat (length (b :: l)))) with (20 - length (b :: l))%nat by lia. apply ends_bind. eapply ends_mono; [apply indication_sent|]. intros [] s1 S1. by hoare.
Qed.

(** ** One request of the main loop *)
Lemma request_packed q n : request_fit q -> n = request_size q -> 0 <= n <= 88 ->
  exists e rest, pack_request q (epb_pack_init (replicate 88 0) n) = Some (n, e) /\ pack_buf e = message (request_fields q) ++ rest.
Proof using.
  intros Hq -> Hn. pose proof (request_size_ok q Hq) as Es.
  pose proof (request_fills q Hq (epb_pack_init (replicate 88 0) (request_size q)) [] ltac:(split; [done|by eexists|cbn; lia])) as F.
  apply ends_inv in F as (r & e & E & _ & H). cbn [app] in H. rewrite (proj2 (Z.leb_le _ _)) in H by (cbn; lia). rewrite Es in H. destruct H as [-> [_ [rest Hb] _]].
  by exists e, rest.
Qed.
Lemma produce_ok q cmd w n : request_fit q -> 0 <= request_size q <= 88 -> pool w = MemPool n -> 0 < n ->
  exists rest, produce (request_size q) (pack_request q) cmd w =
    Some ((Some (packet cmd (seq w) (request_fields q) ++ rest), packet_length (request_fields q)), w <| pool := MemPool (n - 1) |>).
Proof using.
  intros Hq Hs Hp Hn. destruct (request_packed q _ Hq eq_refl Hs) as (e & rest & E & Hb). exists rest. unfold produce, in_pool, mem_malloc. munfold. rewrite Hp. cbn [blocks_free].
  change fix_head_len with 8. rewrite (proj2 (Z.eqb_neq (request_size q + 8) 0)), (proj2 (Z.ltb_lt 0 n)) by lia. cbn [negb].
  change (Z.to_nat (MEM_POOL_BUF_SIZE - 8)) with 88%nat. replace (request_size q + 8 - 8) with (request_size q) by lia. rewrite E. rewrite (proj2 (Z.ltb_ge _ _)) by lia.
  cbn [seq set_field]. rewrite Hb. unfold packet, packet_length. change fix_head_len with 8. rewrite (request_size_ok q Hq), (Z.add_comm 8), <- app_assoc. done.
Qed.
(** The request of a command. *)
Definition request_of (cmd : Z) (msg : bytes) (w : wxbt_state) : option (request * Z) :=
  if cmd =? CMD_AUTH then Some (Auth (auth_request w), ECI_req_auth)
  else if cmd =? CMD_INIT then Some (Init init_request, ECI_req_init)
  else if cmd =? CMD_SENDDAT then Some (SendData (send_request msg), ECI_req_sendData) else None.
Lemma send_cmd_ok cmd msg s q eci n : request_of cmd msg (wx s) = Some (q, eci) -> request_fit q -> 0 <= request_size q <= 88 ->
  pool (wx s) = MemPool n -> 0 < n <= 10 -> g_indicating s = 0 ->
  let sq := u16 (seq (wx s) + 1) in
  ends (send_cmd answer cmd msg) s (fun _ s' => exists k, sent (pieces (packet eci sq (request_fields q))) s (s' <| wx := wx s |>) /\
    wx s' = (wx s) <| seq := sq |> <| send_data_seq := k |>).
Proof using Hok.
  intros Hr Hq Hs Hp Hn Hg sq. set (w1 := (wx s) <| seq := sq |>).
  destruct (produce_ok q eci w1 n Hq Hs Hp ltac:(lia)) as [rest E]. change (seq w1) with sq in E.
  set (p := packet eci sq (request_fields q)) in *.
  assert (exists k, data_produce_func_send cmd msg (wx s) = Some ((Some (p ++ rest), packet_length (request_fields q)), w1 <| pool := MemPool (n - 1) |> <| send_data_seq := k |>)) as [k Ed].
  { unfold data_produce_func_send, request_of in *. munfold. fold sq. change (set_field (proj := seq) _ (wx s)) with w1.
    destruct (cmd =? CMD_AUTH); [injection Hr as <- <-; cbn [pack_request request_size] in E; exists (send_data_seq (wx s)); exact E|].
    destruct (cmd =? CMD_INIT); [injection Hr as <- <-; exists (send_data_seq (wx s)); exact E|].
    destruct (cmd =? CMD_SENDDAT); [|done]. injection Hr as <- <-. cbn [pack_request request_size] in E. rewrite E. cbn [fst]. rewrite bool_decide_eq_true_2 by done. by eexists. }
  unfold send_cmd. apply ends_bind. unfold ends at 1. rewrite (in_wx_run _ _ _ _ Ed). cbv beta iota. apply ends_bind. unfold wechat_send_data. cbn [default].
  unfold p at 1. rewrite <- (packet_size eci sq). fold p. rewrite Nat2Z.id. eapply ends_mono; [apply (send_loop_ok _ [] p rest); [lia|exact Hg]|].
  intros r s1 (S1 & S2 & S3 & S4 & S5 & S6 & S7). rewrite bool_decide_eq_true_2 by done. unfold ends, in_wx, in_pool, mem_free. munfold. rewrite S5. cbn [wx set_field pool blocks_free].
  change MEM_POOL_BUF_NUM with 10. rewrite (proj2 (Z.ltb_lt _ _)) by lia. exists k. split; [by repeat split|]. replace (n - 1 + 1) with n by lia. rewrite <- Hp. by destruct (wx s).
Qed.

(** ** The handshake *)
Record at_rest (st : airsync_proto_status) (s : airsync_priv) : Prop := {
  ar_status : proto_status s = st; ar_cache : collecting s []; ar_set : callbacks_set s = true; ar_ind : g_indicating s = 0;
  ar_pool : pool (wx s) = MemPool 10; ar_addr : length (wx_bond_addr (wx s)) = 6%nat }.
Definition next_seq (s : airsync_priv) : Z := u16 (seq (wx s) + 1).
(** A request went out, and nothing else changed that the handshake looks at. *)
Definition requested (ds : list (list Z)) (s s' : airsync_priv) : Prop :=
  indicated (alog s') = indicated (alog s) ++ ds /\ seq (wx s') = next_seq s /\ wx_bond_addr (wx s') = wx_bond_addr (wx s) /\
  auth_state (wx s') = auth_state (wx s) /\ init_state (wx s') = init_state (wx s).
Lemma handle_ok st st' cmd msg q eci s : at_rest st s ->
  airsync_proto_handle answer s = send_cmd answer cmd msg (s <| proto_status := st' |>) ->
  request_of cmd msg (wx s) = Some (q, eci) -> request_fit q -> 0 <= request_size q <= 88 ->
  ends (airsync_proto_handle answer) s (fun _ s' => at_rest st' s' /\ requested (pieces (packet eci (next_seq s) (request_fields q))) s s').
Proof using Hok.
  intros [Hst [C1 C2 C3] Hcb Hi Hp Ha] E Hr Hq Hs. unfold ends. rewrite E.
  eapply (ends_mono (send_cmd answer cmd msg) (s <| proto_status := st' |>)); [by apply (send_cmd_ok cmd msg _ q eci 10)|].
  intros [] s1 (k & (S1 & S2 & S3 & S4 & _ & S6 & S7) & S8). cbn [proto_status pkt_cache cached_len callbacks_set g_indicating alog wx set_field] in *. split.
  - split; [done| |by rewrite S4|done|by rewrite S8|by rewrite S8]. split; [by rewrite S3|by rewrite S2|by rewrite S2].
  - unfold requested. by rewrite S7, S8.
Qed.
(** A packet that comes in pieces. *)
Definition cut (p : list Z) (frags : list (list Z)) : Prop := concat frags = p /\ Forall (fun f => f <> []) frags /\ (8 <= length (hd [] frags))%nat.
Lemma reply_ok st p w' frags s : at_rest st s -> (length p <= 384)%nat -> cut p frags -> accepted p (wx s) None w' ->
  pool w' = pool (wx s) -> wx_bond_addr w' = wx_bond_addr (wx s) ->
  ends (writes frags) s (fun _ s' => at_rest (next_status st) s' /\ wx s' = w' /\ alog s' = alog s).
Proof using.
  intros [Hst Hc Hcb Hi Hp Ha] Hl (E & Hf & H8) Hacc Ep Ea.
  eapply ends_mono; [apply (fragments_ok p None w' frags [] s Hc Hcb E Hl Hacc); [intros ->; cbn in H8; lia|done|exact H8]|].
  intros [] s' (m & -> & Hm). unfold received. cbn [proto_status set_field]. rewrite Hst. destruct st; (split; [|done]); (split; [done|split; [done|done|by exists m]|done|done|by cbn; rewrite Ep|by cbn; rewrite Ea]).
Qed.
Definition auth_reply (fs : list field) : Prop :=
  Forall field_ok fs /\ (exists bfs, success fs bfs) /\ is_Some (str 0x12 fs) /\ packet_length fs <= 384.
Definition init_reply (fs : list field) : Prop :=
  Forall field_ok fs /\ (exists bfs, success fs bfs) /\ is_Some (num 0x10 fs) /\ is_Some (num 0x18 fs) /\
  (num 0x20 fs = None \/ num 0x20 fs = Some (wechat_crc32 0 challeange)) /\ packet_length fs <= 384.
Lemma subscribed s : length (pkt_cache s) = 384%nat -> callbacks_set s = true -> length (wx_bond_addr (wx s)) = 6%nat ->
  ends (ind_ch_ccc_cfg_changed BT_GATT_CCC_INDICATE) s (fun _ s' => at_rest PROTO_STATUS_IDLE s' /\ alog s' = alog s /\
    wx s' = (wx s) <| pool := MemPool 10 |>).
Proof using.
  intros Hc Hcb Ha. unfold ind_ch_ccc_cfg_changed. hoare. cbn [callbacks_set set_field]. rewrite Hcb. cbn [when]. unfold airsync_proto_ind_status_cb, in_wx, in_pool, mem_init. hoare.
  unfold ends, put. cbv beta iota. split; [|done]. split; try done. split; [done|done|]. by exists (pkt_cache s).
Qed.

Lemma auth_fits w : length (wx_bond_addr w) = 6%nat -> request_fit (Auth (auth_request w)).
Proof using. intros Ha. cbn. unfold opt_fit, bytes_fit. cbn. by rewrite Ha. Qed.
Lemma auth_ok s : at_rest PROTO_STATUS_IDLE s -> ends (airsync_proto_handle answer) s (fun _ s' => at_rest PROTO_STATUS_AUTH_SENDING s' /\
  requested (pieces (packet ECI_req_auth (next_seq s) (request_fields (Auth (auth_request (wx s)))))) s s').
Proof using Hok.
  intros H. apply (handle_ok PROTO_STATUS_IDLE _ CMD_AUTH no_msg); [done| |done|apply auth_fits, H|by vm_compute].
  unfold airsync_proto_handle. munfold. by rewrite (ar_status _ _ H).
Qed.
Lemma init_ok s : at_rest PROTO_STATUS_AUTH_RSP_RECEIVED s -> ends (airsync_proto_handle answer) s (fun _ s' => at_rest PROTO_STATUS_INIT_SENDING s' /\
  requested (pieces (packet ECI_req_init (next_seq s) (request_fields (Init init_request)))) s s').
Proof using Hok.
  intros H. apply (handle_ok PROTO_STATUS_AUTH_RSP_RECEIVED _ CMD_INIT no_msg); [done| |done|by vm_compute|by vm_compute].
  unfold airsync_proto_handle. munfold. by rewrite (ar_status _ _ H).
Qed.
Definition first_message : bytes := Bytes [0x11; 0x22; 0x33; 0x44] 4.
Lemma data_ok s : at_rest PROTO_STATUS_INIT_RSP_RECEIVED s -> ends (airsync_proto_handle answer) s (fun _ s' => at_rest PROTO_STATUS_SEND_OR_RECV s' /\
  requested (pieces (packet ECI_req_sendData (next_seq s) (request_fields (SendData (send_request first_message))))) s s').
Proof using Hok.
  intros H. apply (handle_ok PROTO_STATUS_INIT_RSP_RECEIVED _ CMD_SENDDAT first_message); [done| |done|by vm_compute|by vm_compute].
  unfold airsync_proto_handle. munfold. by rewrite (ar_status _ _ H).
Qed.

(** The phone subscribes, and answers the first two requests. *)
Definition handshake (frags1 frags2 : list (list Z)) : M airsync_priv unit :=
  ind_ch_ccc_cfg_changed BT_GATT_CCC_INDICATE;;
  airsync_proto_handle answer;; writes frags1;;
  airsync_proto_handle answer;; writes frags2;;
  airsync_proto_handle answer.
(** The pieces of the three requests, numbered one after the other. *)
Definition requests (w : wxbt_state) : list (list Z) :=
  let sq1 := u16 (seq w + 1) in let sq2 := u16 (sq1 + 1) in
  pieces (packet ECI_req_auth sq1 (request_fields (Auth (auth_request w)))) ++
  pieces (packet ECI_req_init sq2 (request_fields (Init init_request))) ++
  pieces (packet ECI_req_sendData (u16 (sq2 + 1)) (request_fields (SendData (send_request first_message)))).
Lemma auth_reply_ok sq fs frags s : at_rest PROTO_STATUS_AUTH_SENDING s -> auth_reply fs -> cut (packet ECI_resp_auth sq fs) frags ->
  ends (writes frags) s (fun _ s' => at_rest PROTO_STATUS_AUTH_RSP_RECEIVED s' /\ wx s' = (wx s) <| auth_state := true |> /\ alog s' = alog s).
Proof using.
  intros H (Hf & [bfs Hb] & [key Hk] & Hl) Hc. pose proof (packet_size ECI_resp_auth sq fs).
  eapply (reply_ok PROTO_STATUS_AUTH_SENDING (packet ECI_resp_auth sq fs)); [done|lia|exact Hc| |done|done].
  apply (auth_reply_accepted sq fs bfs key); try done; [lia|]. exists 10. split; [apply H|lia].
Qed.
Lemma init_reply_ok sq fs frags s : at_rest PROTO_STATUS_INIT_SENDING s -> init_reply fs -> cut (packet ECI_resp_init sq fs) frags ->
  ends (writes frags) s (fun _ s' => at_rest PROTO_STATUS_INIT_RSP_RECEIVED s' /\
    wx s' = (wx s) <| init_state := true |> <| wechats_switch_state := true |> /\ alog s' = alog s).
Proof using.
  intros H (Hf & [bfs Hb] & Hh & Hlo & Hch & Hl) Hc. pose proof (packet_size ECI_resp_init sq fs).
  eapply (reply_ok PROTO_STATUS_INIT_SENDING (packet ECI_resp_init sq fs)); [done|lia|exact Hc| |done|done].
  apply (init_reply_accepted sq fs bfs); try done; [lia|]. exists 10. split; [apply H|lia].
Qed.
End Sending.

(** C15. The handshake comes to its end.  From any state in which the service is set up, with a
    host that takes every indication, a phone that subscribes and sends the two replies cut
    into any pieces brings the device through the states to the one for data: it is
    authenticated and initialised, all blocks of the pool are free again, and exactly the
    three requests went out, in pieces of twenty bytes, with consecutive numbers. *)
Theorem handshake_completes answer sq1 sq2 fs1 fs2 frags1 frags2 s : (forall n, answer n = 0) ->
  callbacks_set s = true -> length (pkt_cache s) = 384%nat -> length (wx_bond_addr (wx s)) = 6%nat ->
  auth_reply fs1 -> cut (packet ECI_resp_auth sq1 fs1) frags1 -> init_reply fs2 -> cut (packet ECI_resp_init sq2 fs2) frags2 ->
  ends (handshake answer frags1 frags2) s (fun _ s' =>
    proto_status s' = PROTO_STATUS_SEND_OR_RECV /\ auth_state (wx s') = true /\ init_state (wx s') = true /\
    pool (wx s') = MemPool MEM_POOL_BUF_NUM /\ cached_len s' = 0 /\
    indicated (alog s') = indicated (alog s) ++ requests (wx s)).
Proof.
  intros Hok Hcb Hc Ha Hr1 Hc1 Hr2 Hc2. unfold handshake.
  apply ends_bind. eapply ends_mono; [by apply subscribed|]. intros [] s1 (R1 & L1 & W1).
  apply ends_bind. eapply ends_mono; [by apply auth_ok|]. intros [] s2 (R2 & L2 & Q2 & A2 & _).
  apply ends_bind. eapply ends_mono; [by eapply auth_reply_ok|]. intros [] s3 (R3 & W3 & L3).
  apply ends_bind. eapply ends_mono; [by apply init_ok|]. intros [] s4 (R4 & L4 & Q4 & A4 & S4 & I4).
  apply ends_bind. eapply ends_mono; [by eapply init_reply_ok|]. intros [] s5 (R5 & W5 & L5).
  eapply ends_mono; [by apply data_ok|]. intros [] s6 (R6 & L6 & Q6 & A6 & S6 & I6).
  split; [apply R6|]. rewrite S6, I6, W5. cbn [auth_state init_state set_field]. rewrite S4, W3. split_and!; try done; [apply R6|by destruct R6 as [_ [] _ _ _ _]|].
  rewrite L6, L5, L4, L3, L2, L1, <- !app_assoc. unfold next_seq. rewrite W5. cbn [seq set_field]. rewrite Q4. unfold next_seq. rewrite W3. cbn [seq set_field]. rewrite Q2.
  unfold next_seq. rewrite W1. cbn [seq set_field]. done.
Qed.

(** What the handshake asks for is there once the controller is up. *)
Lemma bt_ready_sets_up answer addr s : (forall n, answer n = 0) -> length addr = 6%nat ->
  ends (bt_ready answer (inr addr) 0) s (fun _ s' => callbacks_set s' = true /\ wx_bond_addr (wx s') = rev addr /\
    proto_status s' = PROTO_STATUS_CAN_NOT_IND /\ pkt_cache s' = pkt_cache s /\ In (Advertise true 0) (alog s')).
Proof.
  intros Hok Hl. unfold bt_ready. assert (forall a : list Z, length a = 6%nat -> slice a 0 6 = Some a) as Sl.
  { intros a Ha. unfold slice. rewrite Ha. cbn [Z.leb andb Z.compare Z.add Z.of_nat Pos.of_succ_nat Pos.succ Pos.compare Pos.compare_cont]. rewrite drop_0, take_ge by lia. done. }
  unfold ends, wechat_init, wechat_advertise, host, note, in_wx, wx_set_mac_address. munfold. change (truthy 0) with false. cbv iota.
  rewrite Sl by done. rewrite Sl by (by rewrite length_rev). rewrite !Hok. change (truthy 0) with false. cbv iota.
  cbv beta. rewrite Hok. change (truthy 0) with false. cbn. split; [done|]. split; [done|]. split; [done|]. split; [done|]. apply in_or_app. right. by left.
Qed.

(** A phone that answers, and a device whose service is set up. *)
Definition demo_base : list field := [FVarint 0x08 0].
Definition demo_auth_reply : list field := [FBytes 0x0a (message demo_base); FBytes 0x12 [1; 2; 3]].
Definition demo_init_reply : list field :=
  [FBytes 0x0a (message demo_base); FVarint 0x10 1; FVarint 0x18 2; FVarint 0x20 (wechat_crc32 0 challeange)].
Definition demo_state : airsync_priv :=
  Airsync PROTO_STATUS_CAN_NOT_IND (replicate 384 0) 0 0 true [] true (Wxbt false false false 0 0 0 [1; 2; 3; 4; 5; 6] (MemPool 10)) 0 [].
Lemma demo_base_ok fs : fs = demo_auth_reply \/ fs = demo_init_reply -> Forall field_ok fs /\ success fs demo_base.
Proof. by intros [-> | ->]; (split; [apply field_okb_ok; by vm_compute|]); (split; [split; [by vm_compute|apply field_okb_ok; by vm_compute]|done]). Qed.
Lemma demo_auth_reply_ok : auth_reply demo_auth_reply.
Proof. destruct (demo_base_ok demo_auth_reply) as [H1 H2]; [by left|]. split_and!; [done|by eexists|by eexists|by vm_compute]. Qed.
Lemma demo_init_reply_ok : init_reply demo_init_reply.
Proof. destruct (demo_base_ok demo_init_reply) as [H1 H2]; [by right|]. split_and!; [done|by eexists|by eexists|by eexists|by right; vm_compute|by vm_compute]. Qed.
(** In pieces of [n] bytes. *)
Fixpoint chop (fuel n : nat) (l : list Z) : list (list Z) :=
  match fuel, l with S fuel, _ :: _ => take n l :: chop fuel n (drop n l) | _, _ => [] end.
Lemma chop_nonempty fuel n l : (0 < n)%nat -> Forall (fun f => f <> []) (chop fuel n l).
Proof. intros Hn. revert l. induction fuel as [|fuel IH]; intros [|b l]; cbn [chop]; try by apply Forall_nil_2. apply Forall_cons_2; [|apply IH]. destruct n; [lia|done]. Qed.
Lemma fragments_reassembled_witness :
  let p := packet ECI_resp_auth 1 demo_auth_reply in
  accepted p (wx demo_state) None ((wx demo_state) <| auth_state := true |>) /\ length (chop 20 9 p) = 2%nat /\
  ends (writes (chop 20 9 p)) demo_state (fun _ s' => exists m m',
    s' = received demo_state None ((wx demo_state) <| auth_state := true |>) m /\
    writes [p] demo_state = Some (tt, received demo_state None ((wx demo_state) <| auth_state := true |>) m')).
Proof.
  intros p.
  assert (accepted p (wx demo_state) None ((wx demo_state) <| auth_state := true |>)) as H.
  { destruct demo_auth_reply_ok as (Hf & [bfs Hb] & [key Hk] & Hl). apply (auth_reply_accepted 1 _ bfs key); try done. exists 10. split; [done|lia]. }
  split; [exact H|]. split; [by vm_compute|].
  apply (fragments_reassembled p None _ (chop 20 9 p) demo_state); [split; [done|done|by eexists]|done|vm_compute; lia|exact H|by vm_compute| |vm_compute; lia].
  apply chop_nonempty; lia.
Defined.
Lemma handshake_completes_witness :
  let frags1 := chop 20 9 (packet ECI_resp_auth 1 demo_auth_reply) in
  let frags2 := chop 20 20 (packet ECI_resp_init 2 demo_init_reply) in
  ends (handshake (fun _ => 0) frags1 frags2) demo_state (fun _ s' =>
    proto_status s' = PROTO_STATUS_SEND_OR_RECV /\ auth_state (wx s') = true /\ init_state (wx s') = true /\
    pool (wx s') = MemPool 10 /\ cached_len s' = 0 /\ length (indicated (alog s')) = 6%nat).
Proof.
  intros frags1 frags2. eapply ends_mono.
  - apply (handshake_completes (fun _ => 0) 1 2 demo_auth_reply demo_init_reply frags1 frags2 demo_state);
      [done|by vm_compute|by vm_compute|done|exact demo_auth_reply_ok| |exact demo_init_reply_ok|].
    + split; [by vm_compute|]. split; [|vm_compute; lia]. apply chop_nonempty; lia.
    + split; [by vm_compute|]. split; [|vm_compute; lia]. apply chop_nonempty; lia.
  - intros [] s' (H1 & H2 & H3 & H4 & H5 & H6). split_and!; try done. rewrite H6. by vm_compute.
Defined.

(** ** The boundaries *)
(** The check value of the cyclic redundancy code. *)
Example crc_check : wechat_crc32 0 [0x31; 0x32; 0x33; 0x34; 0x35; 0x36; 0x37; 0x38; 0x39] = 0xcbf43926.
Proof. by vm_compute. Qed.
Definition demo_refusal : list Z := packet ECI_resp_auth 1 [FBytes 0x0a (message [FVarint 0x08 5]); FBytes 0x12 [1]].
(** A reply that refuses: its code is read after it was freed. *)
Example refusal_read_after_free : data_consume_func_rec demo_refusal (Z.of_nat (length demo_refusal)) (wx demo_state) = None.
Proof. by vm_compute. Qed.
(** A fragment shorter than the header is read beyond its end. *)
Example short_fragment : airsync_proto_recv_cb [0xFE; 1; 0; 12] demo_state = None.
Proof. by vm_compute. Qed.
(** A second packet behind the first in one write is dropped. *)
Example second_packet_lost :
  let p := packet ECI_resp_auth 1 demo_auth_reply in
  option_map (fun r => (auth_state (wx r.2), cached_len r.2)) (writes [p ++ demo_refusal] demo_state) = Some (true, 0).
Proof. by vm_compute. Qed.
(** A header of length 0 with a command the code does not know is kept for ever: every later
    fragment is put behind it, until the cache is full. *)
Example stuck_behind_zero_length :
  option_map (fun r => (cached_len r.2, auth_state (wx r.2))) (writes [[0xFE; 1; 0; 0; 0; 0; 0; 0]; packet ECI_resp_auth 1 demo_auth_reply] demo_state) = Some (25, false).
Proof. by vm_compute. Qed.
(** The handshake goes on whatever the packet was: a push is taken for the reply. *)
Example any_packet_goes_on :
  let p := packet ECI_push_switchBackgroud 1 [FBytes 0x0a []; FVarint 0x10 1] in
  option_map (fun r => (proto_status r.2, auth_state (wx r.2))) (writes [p] (demo_state <| proto_status := PROTO_STATUS_AUTH_SENDING |>)) =
  Some (PROTO_STATUS_AUTH_RSP_RECEIVED, false).
Proof. by vm_compute. Qed.
(** An indication the host does not take is skipped; the rest of the packet is sent. *)
Example chunk_skipped :
  option_map (fun r => (r.1, alog r.2)) (wechat_send_data (fun n => if bool_decide (n = O) then -12 else 0) (Some (replicate 25 7)) 25 demo_state) =
  Some (5, [Indicated (replicate 20 7) (-12); Indicated (replicate 5 7 ++ replicate 15 0) 0; Slept 100]).
Proof. by vm_compute. Qed.
