(* ===== verification/Timer.v ===== *)
(** * The peripheral timer (drivers/timer/timer_acts.c)

    A timer of the chip counts down from the value in its register and interrupts.  The
    driver turns durations into cycles, starts the timer, and in the interrupt calls the
    application back and starts the next period.  The clock's selection and divider are
    parameters, as is what the registers read as. *)
From S2P Require Import Prelude Mmio.

Definition CMU_TIMERCLK_TCSS : Z := 4.
Definition TIMER_CLK_SEL_32M : Z := Z.shiftl 0 CMU_TIMERCLK_TCSS.
Definition TIMER_CLK_SEL_32K : Z := Z.shiftl 1 CMU_TIMERCLK_TCSS.
Definition TIMER1_BASE : Z := 0x40004140.
Definition TIMER_CTRL_OFFSET : Z := 0x00.
Definition TIMER_VAL_OFFSET : Z := 0x04.
Definition TIMER_CTRL_ENABLE_MSK : Z := Z.shiftl 1 5.
Definition TIMER_CTRL_RELOAD_MSK : Z := Z.shiftl 1 2.
Definition TIMER_CTRL_TICKINT_MSK : Z := Z.shiftl 1 1.
Definition TIMER_CTRL_COUNTFLAG_MSK : Z := 1.
Definition MSEC_PER_SEC : Z := 1000.

(** struct acts_timer_data and the two fields of the configuration that change; a callback
    is a number. *)
Record acts_timer := ActsTimer { cb : option Z; user_data : Z; duration : Z; period : Z }.
#[export] Instance eta_acts_timer : EtaRecord acts_timer := fun r => ActsTimer (cb r) (user_data r) (duration r) (period r).
(** The other fields of struct acts_timer_config. *)
Record acts_timer_config := TimerConfig { base : Z; clk : Z; clk_id : Z; clk_reg : Z; div : Z; irq_num : Z }.

Section Driver.
Context (world : nat -> Z -> Z) (info : acts_timer_config).
#[local] Abbreviation TM := (M (driver acts_timer)).

Definition cycles_per_ms : Z := (if clk info =? TIMER_CLK_SEL_32M then 32000000 else 32000) / Z.shiftl 1 (div info) / MSEC_PER_SEC.
Definition _ms_to_cycle (ms : Z) : Z := u32 (u32 ms * cycles_per_ms).
Definition timer_reload (cnt : Z) : TM unit :=
  sys_write32 cnt (base info + TIMER_VAL_OFFSET);;
  let ctrl := Z.lor (Z.lor TIMER_CTRL_ENABLE_MSK TIMER_CTRL_TICKINT_MSK) TIMER_CTRL_RELOAD_MSK in
  _ ← sys_read32 world (base info + TIMER_CTRL_OFFSET);
  sys_write32 cnt (base info + TIMER_VAL_OFFSET);;
  sys_write32 ctrl (base info + TIMER_CTRL_OFFSET).
Definition timer_acts_start (d p : Z) : TM Z :=
  upd_dev (fun t => t <| duration := d |> <| period := p |>);;
  timer_reload (_ms_to_cycle d);; mret 0.
Definition timer_acts_stop : TM Z := sys_write32 0 (base info + TIMER_CTRL_OFFSET);; mret 0.
Definition timer_acts_isr : TM unit :=
  t ← get_dev;
  let period_in_cycle := _ms_to_cycle (period t) in
  val ← sys_read32 world (base info + TIMER_CTRL_OFFSET);
  sys_write32 (Z.lor val TIMER_CTRL_COUNTFLAG_MSK) (base info + TIMER_CTRL_OFFSET);;
  (if truthy (period t) then timer_reload period_in_cycle else sys_write32 0 (base info + TIMER_CTRL_OFFSET));;
  t ← get_dev;
  match cb t with Some c => log (Ext "callback" [c]) | None => mret tt end.
Definition timer_acts_callback_set (c : option Z) : TM unit := upd_dev (fun t => t <| cb := c |>).
Definition timer_acts_user_data_set (u : Z) : TM unit := upd_dev (fun t => t <| user_data := u |>).
Definition timer_acts_user_data_get : TM Z := t ← get_dev; mret (user_data t).
Definition timer_acts_init : TM Z :=
  let ctrl := Z.lor TIMER_CTRL_ENABLE_MSK TIMER_CTRL_TICKINT_MSK in
  log (ClockEnable (clk_id info));;
  sys_write32 (Z.lor (clk info) (div info)) (clk_reg info);;
  log (IrqEnable (irq_num info));;
  sys_write32 ctrl (base info + TIMER_CTRL_OFFSET);; mret 0.

(** What happens to a timer. *)
Inductive timer_step := Start (d p : Z) | Stop | Interrupt | SetCallback (c : option Z) | SetUserData (u : Z).
Definition timer_do (e : timer_step) : TM unit :=
  match e with
  | Start d p => _ ← timer_acts_start d p; mret tt
  | Stop => _ ← timer_acts_stop; mret tt
  | Interrupt => timer_acts_isr
  | SetCallback c => timer_acts_callback_set c
  | SetUserData u => timer_acts_user_data_set u
  end.
Fixpoint timer_run (es : list timer_step) : TM unit :=
  match es with [] => mret tt | e :: es => timer_do e;; timer_run es end.
End Driver.

(** * Theorems *)

(** ** What the registers say *)
(** The value and control registers, as the driver last wrote them. *)
Record timer_regs := Regs { val_reg : Z; ctrl_reg : Z }.
Definition reg_step (b : Z) (r : timer_regs) (e : bus_event) : timer_regs :=
  match e with
  | WrReg a v => if a =? b + TIMER_VAL_OFFSET then Regs v (ctrl_reg r) else if a =? b + TIMER_CTRL_OFFSET then Regs (val_reg r) v else r
  | _ => r
  end.
Definition regs_of (b : Z) (t : list bus_event) : timer_regs := foldl (reg_step b) (Regs 0 0) t.
Definition enabled (ctrl : Z) : bool :=
  Z.land ctrl (Z.lor TIMER_CTRL_ENABLE_MSK TIMER_CTRL_TICKINT_MSK) =? Z.lor TIMER_CTRL_ENABLE_MSK TIMER_CTRL_TICKINT_MSK.
(** The cycles to the next interrupt, if one is due. *)
Definition armed (b : Z) (t : list bus_event) : option Z :=
  let r := regs_of b t in if enabled (ctrl_reg r) then Some (val_reg r) else None.
Definition callbacks (t : list bus_event) : list Z :=
  t ≫= (fun e => match e with Ext "callback" [c] => [c] | _ => [] end).

(** ** The abstract timer *)
(** Milliseconds to the next interrupt, the period, the callback, and the calls made. *)
Record timer_spec := Spec { due : option Z; every : Z; who : option Z; called : list Z }.
Definition spec_step (t : timer_spec) (e : timer_step) : timer_spec :=
  match e with
  | Start d p => Spec (Some d) p (who t) (called t)
  | Stop => Spec None (every t) (who t) (called t)
  | Interrupt => Spec (if every t =? 0 then None else Some (every t)) (every t) (who t) (called t ++ default [] ((fun c => [c]) <$> who t))
  | SetCallback c => Spec (due t) (every t) c (called t)
  | SetUserData _ => t
  end.
Definition spec_run (t : timer_spec) (es : list timer_step) : timer_spec := foldl spec_step t es.

Record refines (info : acts_timer_config) (s : driver acts_timer) (t : timer_spec) : Prop := {
  rf_due : armed (base info) (trace s) = _ms_to_cycle info <$> due t;
  rf_every : period (dev s) = every t;
  rf_who : cb (dev s) = who t;
  rf_called : callbacks (trace s) = called t }.

Section Refinement.
Context (world : nat -> Z -> Z) (info : acts_timer_config).
Lemma regs_app t u : regs_of (base info) (t ++ u) = foldl (reg_step (base info)) (regs_of (base info) t) u.
Proof. apply foldl_app. Qed.
Lemma callbacks_app t u : callbacks (t ++ u) = callbacks t ++ callbacks u.
Proof. apply bind_app. Qed.
Lemma wr_val r v : reg_step (base info) r (WrReg (base info + TIMER_VAL_OFFSET) v) = Regs v (ctrl_reg r).
Proof. cbn. by rewrite Z.eqb_refl. Qed.
Lemma wr_ctrl r v : reg_step (base info) r (WrReg (base info + TIMER_CTRL_OFFSET) v) = Regs (val_reg r) v.
Proof. unfold reg_step, TIMER_VAL_OFFSET, TIMER_CTRL_OFFSET. rewrite Z.eqb_refl. by rewrite (proj2 (Z.eqb_neq _ _)) by lia. Qed.
Definition ctrl_on : Z := 38.
(** A reload arms the timer, whatever the registers read as. *)
Lemma reload_arms cnt s : 0 <= cnt < 2 ^ 32 ->
  ends (timer_reload world info cnt) s (fun _ s' => dev s' = dev s /\ callbacks (trace s') = callbacks (trace s) /\ armed (base info) (trace s') = Some cnt).
Proof.
  intros Hc. unfold timer_reload. bus. split; [done|]. split; [by rewrite !callbacks_app, !app_nil_r|].
  unfold armed. rewrite !regs_app. cbn [foldl]. rewrite wr_ctrl. cbn [ctrl_reg val_reg].
  change (enabled (u32 (Z.lor (Z.lor TIMER_CTRL_ENABLE_MSK TIMER_CTRL_TICKINT_MSK) TIMER_CTRL_RELOAD_MSK))) with true. cbv iota. rewrite wr_val. cbn [val_reg]. by rewrite u32_small.
Qed.
Lemma stop_disarms (s : driver acts_timer) : ends (sys_write32 0 (base info + TIMER_CTRL_OFFSET)) s (fun _ s' => dev s' = dev s /\ callbacks (trace s') = callbacks (trace s) /\ armed (base info) (trace s') = None).
Proof. bus. split; [done|]. split; [by rewrite callbacks_app, app_nil_r|]. unfold armed. rewrite regs_app. cbn [foldl]. by rewrite wr_ctrl. Qed.
Lemma ms_range ms : 0 <= _ms_to_cycle info ms < 2 ^ 32.
Proof. apply u32_range. Qed.
Lemma callback_called (s : driver acts_timer) t d : callbacks (trace s) = called t -> cb (dev s) = who t -> period (dev s) = every t ->
  armed (base info) (trace s) = _ms_to_cycle info <$> d ->
  ends (t ← get_dev; match cb t with Some c => log (Ext "callback" [c]) | None => mret tt end) s
    (fun _ s' => refines info s' (Spec d (every t) (who t) (called t ++ default [] ((fun c => [c]) <$> who t)))).
Proof.
  intros H1 H2 H3 H4. bus. rewrite H2. destruct (who t) as [c|] eqn:Ew; bus; (split; cbn [due every who called trace dev]; [|done|done|]).
  - unfold armed. by rewrite regs_app.
  - by rewrite callbacks_app, H1.
  - done.
  - by rewrite H1, app_nil_r.
Qed.
Lemma step_refines e s t : refines info s t -> ends (timer_do world info e) s (fun _ s' => refines info s' (spec_step t e)).
Proof.
  intros [Hd He Hw Hc]. destruct e as [d p| | |c|u]; cbn [timer_do spec_step].
  - unfold timer_acts_start. bus. eapply ends_mono; [apply reload_arms, ms_range|]. intros [] s' (E1 & E2 & E3). bus. split; cbn [due every who called]; [done|by rewrite E1|by rewrite E1|by rewrite E2].
  - unfold timer_acts_stop. apply ends_bind, ends_bind. eapply ends_mono; [apply stop_disarms|]. intros [] s' (E1 & E2 & E3). bus.
    split; cbn [due every who called]; [done|by rewrite E1|by rewrite E1|by rewrite E2].
  - unfold timer_acts_isr. bus. set (s1 := Driver _ _ _). assert (callbacks (trace s1) = called t) as H1 by (subst s1; cbn [trace]; by rewrite !callbacks_app, !app_nil_r).
    unfold truthy. rewrite He. destruct (every t =? 0); cbn [negb].
    + eapply ends_mono; [apply (stop_disarms s1)|]. intros [] s' (E1 & E2 & E3). by apply (callback_called s' t None); rewrite ?E1, ?E2.
    + eapply ends_mono; [apply (reload_arms _ s1), ms_range|]. intros [] s' (E1 & E2 & E3). by apply (callback_called s' t (Some _)); rewrite ?E1, ?E2.
  - unfold timer_acts_callback_set. bus. by split.
  - unfold timer_acts_user_data_set. bus. by split.
Qed.
End Refinement.

Definition timer1 : acts_timer_config := {| base := TIMER1_BASE; clk := TIMER_CLK_SEL_32M; clk_id := 21; clk_reg := 0x40002040; div := 0; irq_num := 1 |}.
Definition idle_timer : driver acts_timer := Driver (ActsTimer (Some 7) 0 0 0) 0 [].

(** ** Durations *)
(** Cycles are exact for as long as they fit the register; the 32 MHz clock of timer 1 allows
    134217 milliseconds. *)
Lemma ms_exact info ms : 0 <= ms -> 0 <= cycles_per_ms info -> ms * cycles_per_ms info < 2 ^ 32 -> ms < 2 ^ 32 -> _ms_to_cycle info ms = ms * cycles_per_ms info.
Proof. intros H0 H1 H2 H3. unfold _ms_to_cycle. rewrite (u32_small ms) by lia. apply u32_small. nia. Qed.
Example timer1_range ms : 0 <= ms <= 134217 -> _ms_to_cycle timer1 ms = 32000 * ms.
Proof. intros H. assert (cycles_per_ms timer1 = 32000) as E by done. rewrite ms_exact; rewrite ?E; lia. Qed.
(** A millisecond more wraps round: the interrupt comes after a quarter of a millisecond. *)
Example long_duration_wraps : _ms_to_cycle timer1 134218 = 8704.
Proof. done. Qed.
(** An interrupt that was pending when a periodic timer was stopped starts it again. *)
Example stopped_timer_restarts : spec_run (Spec None 0 None []) [Start 10 5; Stop; Interrupt] = Spec (Some 5) 5 None [].
Proof. done. Qed.
