(* ===== verification/HwIrc.v ===== *)
(** * The hardware infrared driver (drivers/irc/irc_acts.c)

    The controller sends a code by itself and interrupts at the end of each frame; the driver
    starts it when a key goes down, feeds it while the key is held, and switches it off
    afterwards.  With CONFIG_IRC_RX ([rx_built]) it also receives, in the mode USE_SOFT_MODE
    without USE_ANA_INPUT. *)
From S2P Require Import Prelude Mmio.

Definition IRC_REG_BASE : Z := 0x40010000.
Definition IRC_RX_CTL : Z := IRC_REG_BASE + 0x0000.
Definition IRC_RX_STA : Z := IRC_REG_BASE + 0x0004.
Definition IRC_RX_CC : Z := IRC_REG_BASE + 0x0008.
Definition IRC_RX_KDC : Z := IRC_REG_BASE + 0x000C.
Definition IRC_TX_CTL : Z := IRC_REG_BASE + 0x0100.
Definition IRC_TX_STA : Z := IRC_REG_BASE + 0x0104.
Definition IRC_TX_CC : Z := IRC_REG_BASE + 0x0108.
Definition IRC_TX_KDC : Z := IRC_REG_BASE + 0x010c.
Definition TC9012_MODE : Z := 0x00.
Definition NEC_MODE : Z := 0x01.
Definition IRC_CTRL_IIE : Z := Z.shiftl 1 2.
Definition IRC_CTRL_IRE : Z := Z.shiftl 1 3.
Definition IRC_CTRL_TX_RPC_EN : Z := Z.shiftl 1 4.
Definition IRC_CTRL_TX_MODE_FREQ : Z := Z.shiftl 3 5.
Definition IRC_CTRL_TX_MODE_EN : Z := Z.shiftl 1 8.
Definition IRC_CTRL_TX_RELEASE : Z := Z.shiftl 1 9.
Definition IRC_RX_CTRL_IIE : Z := Z.shiftl 1 2.
Definition IRC_RX_CTRL_IRE : Z := Z.shiftl 1 3.
Definition IRC_RX_UCMP : Z := 6.
Definition IRC_RX_IIP : Z := 2.
Definition IO_MFP_BASE : Z := 0x40016000.
Definition GPIO_REG_CTL (base pin : Z) : Z := base + 4 + pin * 4.
Definition GPIO_CTL_PADDRV_LEVEL (x : Z) : Z := Z.shiftl x 12.
Definition RX_CUSTOMER_CODE : Z := 0x7f80.
Definition RX_PROTOCOL : Z := NEC_MODE.
Definition IR_KEY_DOWN : Z := 1.

(** struct acts_irc_data, with the calls of the registered callback: code and value. *)
Record acts_irc_data := IrcData {
  busy : Z; key_state : Z; key_code : Z; pre_key_code : Z; old_mfp_ctl : Z; notify : bool; irc_rx_enable : Z;
  reported : list (Z * Z) }.
#[export] Instance eta_irc : EtaRecord acts_irc_data := fun r =>
  IrcData (busy r) (key_state r) (key_code r) (pre_key_code r) (old_mfp_ctl r) (notify r) (irc_rx_enable r) (reported r).
(** struct acts_irc_config, and the pins of the board. *)
Record acts_irc_config := IrcConfig {
  customer_code : Z; coding_mode : Z; clock_id : Z; reset_id : Z; rx_clock_id : Z; tx_pin : Z; rx_pin : Z }.

Section Driver.
Context (world : nat -> Z -> Z) (cfg : acts_irc_config) (rx_built : bool).
#[local] Abbreviation IM := (M (driver acts_irc_data)).
Definition IR_TX_IO_CTL : Z := GPIO_REG_CTL IO_MFP_BASE (tx_pin cfg).
Definition IR_RX_IO_CTL : Z := GPIO_REG_CTL IO_MFP_BASE (rx_pin cfg).
(** sys_write32(f (sys_read32(a)), a) *)
Definition rmw (a : Z) (f : Z -> Z) : IM unit := v ← sys_read32 world a; sys_write32 (f v) a.
Definition nec (mode : Z) : bool := (mode =? TC9012_MODE) || (mode =? NEC_MODE).
Definition encode_code (mode code : Z) : Z :=
  if nec mode then let c := Z.land code 0xFF in Z.lor (Z.shiftl (Z.lxor c 0xFF) 8) c else code.

Definition irc_acts_output_key (code value : Z) : IM Z :=
  let code := encode_code (coding_mode cfg) code in
  upd_dev (fun d => d <| key_state := u8 value |> <| key_code := code |>);;
  d ← get_dev;
  when ((key_state d =? IR_KEY_DOWN) && (busy d =? 0))
    (when (irc_rx_enable d =? 0)
       (log (DeviceBusy true);; log (ResetPeripheral (reset_id cfg));; log (ClockEnable (clock_id cfg)));;
     old ← sys_read32 world IR_TX_IO_CTL;
     upd_dev (fun d => d <| old_mfp_ctl := old |>);;
     sys_write32 (Z.lor 0x0E (GPIO_CTL_PADDRV_LEVEL 1)) IR_TX_IO_CTL;;
     sys_write32 (customer_code cfg) IRC_TX_CC;;
     sys_write32 code IRC_TX_KDC;;
     sys_write32 (Z.lor (Z.lor (coding_mode cfg) IRC_CTRL_IIE) IRC_CTRL_IRE) IRC_TX_CTL;;
     rmw IRC_TX_CTL (fun v => Z.lor (Z.lor v IRC_CTRL_TX_MODE_FREQ) IRC_CTRL_TX_MODE_EN);;
     rmw IRC_TX_CTL (fun v => Z.lor v IRC_CTRL_TX_RELEASE);;
     upd_dev (fun d => d <| busy := 1 |> <| pre_key_code := code |>));;
  mret 0.

Definition irc_input_acts_report_key (code value : Z) : IM unit :=
  d ← get_dev; when (notify d) (upd_dev (fun d => d <| reported ::= (fun l => l ++ [(u16 code, value)]) |>)).
(** The interrupt at the end of a frame. *)
Definition tx_done : IM unit :=
  d ← get_dev;
  (if key_state d =? IR_KEY_DOWN then
     (if negb (pre_key_code d =? key_code d) then sys_write32 (key_code d) IRC_TX_KDC
      else rmw IRC_TX_CTL (fun v => Z.lor v IRC_CTRL_TX_RPC_EN));;
     rmw IRC_TX_CTL (fun v => Z.lor v IRC_CTRL_TX_RELEASE);;
     upd_dev (fun d => d <| busy := 1 |>)
   else
     upd_dev (fun d => d <| busy := 0 |>);;
     sys_write32 0 IRC_TX_CTL;;
     sys_write32 (old_mfp_ctl d) IR_TX_IO_CTL;;
     when (irc_rx_enable d =? 0) (log (ClockDisable (clock_id cfg));; log (DeviceBusy false)));;
  upd_dev (fun d => d <| pre_key_code := key_code d |>);;
  sys_write32 1 IRC_TX_STA.
(** The interrupt at the end of a received frame. *)
Definition rx_done : IM unit :=
  sta ← sys_read32 world IRC_RX_STA;
  when (truthy (Z.land (Z.shiftr sta IRC_RX_IIP) 1))
    (sta ← sys_read32 world IRC_RX_STA;
     when (Z.land (Z.shiftr sta IRC_RX_UCMP) 1 =? 0)
       (cc ← sys_read32 world IRC_RX_CC;
        kdc ← sys_read32 world IRC_RX_KDC;
        let rx_cc := Z.shiftr cc 16 in
        let '(rx_cc, rx_kdc) := if nec RX_PROTOCOL then (Z.land rx_cc 0xFFFF, Z.land kdc 0xFF) else (rx_cc, kdc) in
        irc_input_acts_report_key rx_cc rx_kdc);;
     rmw IRC_RX_STA (fun v => v)).
Definition irc_acts_isr : IM unit :=
  sta ← sys_read32 world IRC_TX_STA;
  when (truthy (Z.land sta 1)) tx_done;;
  when rx_built rx_done.

Definition irc_input_acts_register_notify : IM unit := upd_dev (fun d => d <| notify := true |>).
Definition irc_input_acts_unregister_notify : IM unit := upd_dev (fun d => d <| notify := false |>).
Definition irc_input_acts_enable : IM unit :=
  log (ResetPeripheral (reset_id cfg));; log (ClockEnable (clock_id cfg));; log (ClockEnable (rx_clock_id cfg));;
  sys_write32 0x8f IR_RX_IO_CTL;;
  rmw IRC_RX_STA (fun v => v);;
  rmw IRC_RX_CTL (fun v => Z.lor (Z.lor v IRC_RX_CTRL_IIE) IRC_RX_CTRL_IRE);;
  rmw IRC_RX_CTL (fun v => Z.lor v (Z.shiftl 1 16));;
  rmw IRC_RX_CTL (fun v => Z.land v (Z.lnot (Z.shiftl 1 17)));;
  rmw IRC_RX_CTL (fun v => Z.lor v (Z.shiftl 1 20));;
  rmw IRC_RX_CTL (fun v => Z.lor v RX_PROTOCOL);;
  sys_write32 RX_CUSTOMER_CODE IRC_RX_CC;;
  log (DeviceBusy true);; upd_dev (fun d => d <| irc_rx_enable := 1 |>).
Definition irc_input_acts_disable : IM unit :=
  log (ClockDisable (rx_clock_id cfg));; log (ClockDisable (clock_id cfg));; log (ResetPeripheral (reset_id cfg));;
  sys_write32 0 IR_RX_IO_CTL;;
  upd_dev (fun d => d <| irc_rx_enable := 0 |>);; log (DeviceBusy false).
Definition irc_acts_init : IM Z := log (IrqEnable 23);; mret 0.

Inductive irc_step := Key (code value : Z) | Interrupt | RxEnable | RxDisable.
Definition irc_do (e : irc_step) : IM unit :=
  match e with
  | Key c v => _ ← irc_acts_output_key c v; mret tt
  | Interrupt => irc_acts_isr
  | RxEnable => irc_input_acts_enable
  | RxDisable => irc_input_acts_disable
  end.
Fixpoint irc_run (es : list irc_step) : IM unit := match es with [] => mret tt | e :: es => irc_do e;; irc_run es end.
End Driver.

(** * Theorems *)

(** ** One transmission *)
(** What a trace says about power and the output pin. *)
Definition own (pin : Z) (e : bus_event) : bool :=
  match e with
  | DeviceBusy _ | ResetPeripheral _ | ClockEnable _ | ClockDisable _ => true
  | RdReg a _ | WrReg a _ => a =? pin
  | _ => false
  end.
Definition owned (pin : Z) (t : list bus_event) : list bus_event := t ≫= (fun e => if own pin e then [e] else []).
(** The last value written to a register. *)
Definition last_write (a : Z) (t : list bus_event) : option Z :=
  foldl (fun o e => match e with WrReg b v => if b =? a then Some v else o | _ => o end) None t.
Definition drive : Z := Z.lor 0x0E (GPIO_CTL_PADDRV_LEVEL 1).
(** The pin reads as [v] before; the receiver keeps the clock on if it is enabled. *)
Definition opening (cfg : acts_irc_config) (rx : bool) (v : Z) : list bus_event :=
  (if rx then [] else [DeviceBusy true; ResetPeripheral (reset_id cfg); ClockEnable (clock_id cfg)]) ++
  [RdReg (IR_TX_IO_CTL cfg) v; WrReg (IR_TX_IO_CTL cfg) drive].
Definition closing (cfg : acts_irc_config) (rx : bool) (v : Z) : list bus_event :=
  WrReg (IR_TX_IO_CTL cfg) v :: (if rx then [] else [ClockDisable (clock_id cfg); DeviceBusy false]).
Definition transmission (cfg : acts_irc_config) (rx : bool) (v : Z) : list bus_event := opening cfg rx v ++ closing cfg rx v.

Section Transmissions.
Context (world : nat -> Z -> Z) (cfg : acts_irc_config) (Hpin : 0 <= tx_pin cfg < 32).
#[local] Abbreviation pin := (IR_TX_IO_CTL cfg).
Lemma owned_app t u : owned pin (t ++ u) = owned pin t ++ owned pin u.
Proof. apply bind_app. Qed.
Lemma not_pin a : (a <=? IRC_TX_KDC) = true -> (a =? pin) = false.
Proof using Hpin. intros H%Z.leb_le. unfold IR_TX_IO_CTL, GPIO_REG_CTL, IO_MFP_BASE, IRC_TX_KDC, IRC_REG_BASE in *. lia. Qed.
Lemma owned_rd a v t : (a <=? IRC_TX_KDC) = true -> owned pin (t ++ [RdReg a v]) = owned pin t.
Proof using Hpin. intros H. rewrite owned_app. cbn. by rewrite not_pin, app_nil_r. Qed.
Lemma owned_wr a v t : (a <=? IRC_TX_KDC) = true -> owned pin (t ++ [WrReg a v]) = owned pin t.
Proof using Hpin. intros H. rewrite owned_app. cbn. by rewrite not_pin, app_nil_r. Qed.
Lemma owned_own e t : own pin e = true -> owned pin (t ++ [e]) = owned pin t ++ [e].
Proof using. intros H. rewrite owned_app. cbn. by rewrite H. Qed.
Lemma last_write_app a t e : last_write a (t ++ [e]) = match e with WrReg b v => if b =? a then Some v else last_write a t | _ => last_write a t end.
Proof using. unfold last_write. by rewrite foldl_app. Qed.

Record bracketed (rx : bool) (s : driver acts_irc_data) : Prop := {
  bk_busy : busy (dev s) = 0 \/ busy (dev s) = 1;
  bk_rx : (irc_rx_enable (dev s) =? 0) = negb rx;
  bk_owned : exists vs, owned pin (trace s) = (vs ≫= transmission cfg rx) ++ (if busy (dev s) =? 0 then [] else opening cfg rx (old_mfp_ctl (dev s)));
  bk_code : busy (dev s) = 1 -> last_write IRC_TX_KDC (trace s) = Some (u32 (pre_key_code (dev s)));
  bk_off : busy (dev s) = 0 -> default 0 (last_write IRC_TX_CTL (trace s)) = 0;
  bk_old : 0 <= old_mfp_ctl (dev s) < 2 ^ 32 }.
(** Only accesses of the pin and power events count. *)
Ltac own_step :=
  first [rewrite owned_own by first [exact (eq_refl true) | exact (Z.eqb_refl _)] | rewrite owned_rd by (exact (eq_refl true)) | rewrite owned_wr by (exact (eq_refl true))].
Ltac own := repeat own_step.
Ltac last_step :=
  rewrite last_write_app; cbv beta iota zeta;
  try match goal with |- context [if ?a =? ?b then _ else _] =>
        first [rewrite (Z.eqb_refl a) | change (a =? b) with false | rewrite (not_pin a) by (exact (eq_refl true)) | rewrite (Z.eqb_sym a b), (not_pin b) by (exact (eq_refl true))] end.
Ltac last_value := repeat last_step.
Lemma key_ok rx code value s : bracketed rx s -> ends (irc_acts_output_key world cfg code value) s (fun _ => bracketed rx).
Proof using Hpin.
  intros [Hb Hr [vs Ho] Hc Hf Hold]. unfold irc_acts_output_key. bus.
  destruct ((u8 value =? IR_KEY_DOWN) && (busy (dev s) =? 0)) eqn:E; cbn [key_state busy irc_rx_enable set_field when]; rewrite E; cbn [when]; bus; [|by split; try exists vs].
  apply andb_true_iff in E as [_ E]. apply Z.eqb_eq in E. rewrite E in Ho. cbn [Z.eqb] in Ho. rewrite app_nil_r in Ho.
  cbn [irc_rx_enable set_field] in *. rewrite Hr. assert (forall v : Z, u32 v = v -> 0 <= v < 2 ^ 32) as R by (intros v <-; apply u32_range).
  destruct rx eqn:Erx; cbn [negb when]; bus; unfold rmw; bus; (split; cbn [dev trace busy irc_rx_enable old_mfp_ctl pre_key_code set_field Z.eqb]; [by right|exact Hr| | | |]).
  all: try (by subst; apply u32_range); try done.
  1, 3: exists vs; own; rewrite Ho, <- !app_assoc; done.
  all: intros _; last_value; done.
Qed.
Lemma tx_done_ok rx s : bracketed rx s -> busy (dev s) = 1 -> ends (tx_done world cfg) s (fun _ => bracketed rx).
Proof using Hpin.
  intros [_ Hr [vs Ho] Hc Hf Hold] B. rewrite B in Ho. cbn [Z.eqb] in Ho. specialize (Hc B). unfold tx_done. bus.
  destruct (key_state (dev s) =? IR_KEY_DOWN).
  - bus. destruct (Z.eqb_spec (pre_key_code (dev s)) (key_code (dev s))) as [Ek|Ek]; cbn [negb]; unfold rmw; bus;
      (split; cbn [dev trace busy irc_rx_enable old_mfp_ctl pre_key_code key_code set_field Z.eqb]; [by right|exact Hr| | |done|exact Hold]).
    1, 3: exists vs; own; exact Ho.
    all: intros _; last_value; first [done|by rewrite Hc, Ek].
  - bus. cbn [irc_rx_enable set_field]. rewrite Hr.
    destruct rx; cbn [negb when]; bus; (split; cbn [dev trace busy irc_rx_enable old_mfp_ctl pre_key_code key_code set_field Z.eqb]; [by left|exact Hr| |done| |exact Hold]).
    1, 3: exists (vs ++ [old_mfp_ctl (dev s)]); own; rewrite Ho, bind_app, u32_small by done; cbn; by rewrite ?app_nil_r, <- !app_assoc.
    all: intros _; last_value; done.
Qed.
Lemma rx_done_ok rx s : bracketed rx s -> ends (rx_done world) s (fun _ => bracketed rx).
Proof using Hpin.
  intros [Hb Hr [vs Ho] Hc Hf Hold].
  assert (forall d n t, busy d = busy (dev s) -> irc_rx_enable d = irc_rx_enable (dev s) -> pre_key_code d = pre_key_code (dev s) -> old_mfp_ctl d = old_mfp_ctl (dev s) ->
    owned (IR_TX_IO_CTL cfg) t = owned (IR_TX_IO_CTL cfg) (trace s) -> last_write IRC_TX_KDC t = last_write IRC_TX_KDC (trace s) -> last_write IRC_TX_CTL t = last_write IRC_TX_CTL (trace s) ->
    bracketed rx (Driver d n t)) as Same.
  { intros d n t E1 E2 E3 E4 E5 E6 E7. split; cbn [dev trace]; rewrite ?E1, ?E2, ?E3, ?E4, ?E5, ?E6, ?E7; try done. by exists vs. }
  unfold rx_done, rmw, irc_input_acts_report_key. bus. destruct (truthy _); cbn [when]; bus; [|apply Same; try done; [own|last_value|last_value]; done].
  destruct (Z.land _ 1 =? 0); cbn [when]; bus; [|apply Same; try done; [own|last_value|last_value]; done].
  change (nec RX_PROTOCOL) with true. cbv iota beta. bus. destruct (notify (dev s)); cbn [when]; bus; (apply Same; try done; [own|last_value|last_value]; done).
Qed.
(** ** Every order of keys and interrupts *)
(** An interrupt comes at the end of a frame, so only while the controller is sending. *)
Inductive reachable (rx_built : bool) (s0 : driver acts_irc_data) : driver acts_irc_data -> Prop :=
| reach_start : reachable rx_built s0 s0
| reach_key s code value s' : reachable rx_built s0 s -> irc_do world cfg rx_built (Key code value) s = Some (tt, s') -> reachable rx_built s0 s'
| reach_interrupt s s' : reachable rx_built s0 s -> busy (dev s) = 1 -> irc_do world cfg rx_built Interrupt s = Some (tt, s') -> reachable rx_built s0 s'.
Lemma interrupt_ok rx rx_built s : bracketed rx s -> busy (dev s) = 1 -> ends (irc_do world cfg rx_built Interrupt) s (fun _ => bracketed rx).
Proof using Hpin.
  intros H B. cbn [irc_do]. unfold irc_acts_isr. bus.
  assert (bracketed rx (Driver (dev s) (S (nreads s)) (trace s ++ [RdReg IRC_TX_STA v]))) as H'.
  { destruct H as [Hb Hr [vs Ho] Hc Hf Hold]. split; cbn [dev trace]; try done; [exists vs; own; exact Ho|intros X; last_value; by apply Hc|intros X; last_value; by apply Hf]. }
  eapply (ends_mono _ _ (fun _ => bracketed rx)).
  - destruct (truthy _); cbn [when]; [by apply tx_done_ok|by hoare].
  - intros [] s' Hs. destruct rx_built; cbn [when]; [by apply rx_done_ok|by hoare].
Qed.
Lemma key_step_ok rx rx_built code value s : bracketed rx s -> ends (irc_do world cfg rx_built (Key code value)) s (fun _ => bracketed rx).
Proof using Hpin. intros H. cbn [irc_do]. apply ends_bind. eapply ends_mono; [by apply key_ok|]. intros r s' Hs. by hoare. Qed.
Lemma reachable_bracketed rx rx_built s0 s : bracketed rx s0 -> reachable rx_built s0 s -> bracketed rx s.
Proof using Hpin.
  intros H0. induction 1 as [|s code value s' _ IH E|s s' _ IH B E]; [done| |].
  - pose proof (key_step_ok rx rx_built code value s IH) as X. unfold ends in X. by rewrite E in X.
  - pose proof (interrupt_ok rx rx_built s IH B) as X. unfold ends in X. by rewrite E in X.
Qed.
End Transmissions.

(** A driver that has not sent anything yet. *)
Definition unused (s : driver acts_irc_data) : Prop := trace s = [] /\ busy (dev s) = 0 /\ 0 <= old_mfp_ctl (dev s) < 2 ^ 32.
(** C36. Whatever keys go down and up and whenever frames end, whatever the registers read as:
    every transmission takes the device's busy flag, the clock and the pin once and gives
    them all back, the pin with the function it had before, and nothing in between or
    afterwards touches them; while a transmission goes on the code register holds the code
    that is repeated; and when none does the controller is off.  No step is undefined. *)
Theorem transmitter_bracketed world cfg rx_built s0 s : 0 <= tx_pin cfg < 32 -> unused s0 -> reachable world cfg rx_built s0 s ->
  let rx := negb (irc_rx_enable (dev s0) =? 0) in
  (exists vs, owned (IR_TX_IO_CTL cfg) (trace s) =
     (vs ≫= transmission cfg rx) ++ (if busy (dev s) =? 0 then [] else opening cfg rx (old_mfp_ctl (dev s)))) /\
  (busy (dev s) = 1 -> last_write IRC_TX_KDC (trace s) = Some (u32 (pre_key_code (dev s)))) /\
  (busy (dev s) = 0 -> default 0 (last_write IRC_TX_CTL (trace s)) = 0) /\
  (forall code value, is_Some (irc_do world cfg rx_built (Key code value) s)) /\
  (busy (dev s) = 1 -> is_Some (irc_do world cfg rx_built Interrupt s)).
Proof.
  intros Hp (Ht & Hb & Ho) Hr rx.
  assert (bracketed cfg rx s0) as H0.
  { split; rewrite ?Ht, ?Hb; try done; [by left|unfold rx; by rewrite negb_involutive|by exists []]. }
  pose proof (reachable_bracketed world cfg Hp rx rx_built s0 s H0 Hr) as H. pose proof H as [_ _ H1 H2 H3 _].
  split; [exact H1|]. split; [exact H2|]. split; [exact H3|]. split.
  - intros code value. destruct (ends_inv _ _ _ (key_step_ok world cfg Hp rx rx_built code value s H)) as (r & s' & -> & _). by eexists.
  - intros B. destruct (ends_inv _ _ _ (interrupt_ok world cfg Hp rx rx_built s H B)) as (r & s' & -> & _). by eexists.
Qed.
Definition demo_cfg : acts_irc_config :=
  {| customer_code := 0x7f80; coding_mode := NEC_MODE; clock_id := 31; reset_id := 31; rx_clock_id := 30; tx_pin := 5; rx_pin := 5 |}.
Definition demo_irc : driver acts_irc_data := Driver (IrcData 0 0 0 0 0 false 0 []) 0 [].
(** A frame has always just ended. *)
Definition demo_world (n : nat) (a : Z) : Z := if a =? IRC_TX_STA then 1 else 0x40.
Definition demo_after (e : irc_step) (s : driver acts_irc_data) : driver acts_irc_data :=
  match irc_do demo_world demo_cfg true e s with Some (_, s') => s' | None => s end.
Definition demo_sent : driver acts_irc_data := demo_after Interrupt (demo_after (Key 0x12 0) (demo_after Interrupt (demo_after (Key 0x12 1) demo_irc))).
Lemma demo_reachable : reachable demo_world demo_cfg true demo_irc demo_sent.
Proof.
  apply (reach_interrupt _ _ _ _ (demo_after (Key 0x12 0) (demo_after Interrupt (demo_after (Key 0x12 1) demo_irc)))); [|by vm_compute|by vm_compute].
  apply (reach_key _ _ _ _ (demo_after Interrupt (demo_after (Key 0x12 1) demo_irc)) 0x12 0); [|by vm_compute].
  apply (reach_interrupt _ _ _ _ (demo_after (Key 0x12 1) demo_irc)); [|by vm_compute|by vm_compute].
  apply (reach_key _ _ _ _ demo_irc 0x12 1); [|by vm_compute]. apply reach_start.
Qed.
Lemma transmitter_bracketed_witness : busy (dev demo_sent) = 0 /\
  owned (IR_TX_IO_CTL demo_cfg) (trace demo_sent) = transmission demo_cfg false 0x40 /\
  (exists vs, owned (IR_TX_IO_CTL demo_cfg) (trace demo_sent) =
     (vs ≫= transmission demo_cfg false) ++ (if busy (dev demo_sent) =? 0 then [] else opening demo_cfg false (old_mfp_ctl (dev demo_sent)))).
Proof.
  split; [by vm_compute|]. split; [by vm_compute|].
  apply (transmitter_bracketed demo_world demo_cfg true demo_irc demo_sent); [vm_compute; split; congruence|repeat split; vm_compute; congruence|exact demo_reachable].
Defined.

(** ** Codes and the receiver *)
(** The high byte of a code is the complement of the low one. *)
Lemma nec_code code : 0 <= code < 256 -> encode_code NEC_MODE code = 256 * (255 - code) + code.
Proof. intros H. apply Z.eqb_eq. by apply (forallb_range (fun c => encode_code NEC_MODE c =? 256 * (255 - c) + c) 256). Qed.
(** Switching the receiver off while a key is sent takes the clock from the transmitter and
    lets the chip go to sleep; the transmission counts as running. *)
Example receiver_stops_transmitter :
  let s := demo_after RxDisable (demo_after (Key 5 1) (demo_after RxEnable demo_irc)) in
  busy (dev s) = 1 /\ drop 4 (owned 0 (trace s)) = [ClockDisable 30; ClockDisable 31; ResetPeripheral 31; DeviceBusy false].
Proof. by vm_compute. Qed.
(** Switching the receiver on resets the controller under a transmission. *)
Example receiver_resets_transmitter :
  let s := demo_after RxEnable (demo_after (Key 5 1) demo_irc) in
  busy (dev s) = 1 /\ owned 0 (trace s) = [DeviceBusy true; ResetPeripheral 31; ClockEnable 31; ResetPeripheral 31; ClockEnable 31; ClockEnable 30; DeviceBusy true].
Proof. by vm_compute. Qed.
