(* ===== verification/AudioOut.v ===== *)
(** * Playback (hal/audio_out_hal.c, drivers/audio/audio_out_acts.c, system_app_audio-out.c)

    A recording is read from flash, decoded and played from a buffer of two halves.  While
    the DMA plays one half a work item fills the other: the interrupt at half of a block tells
    the DMA where the next block is, the one at its end turns the halves round and submits the
    work.  The DMA is part of the state: it plays the first part of its block until the
    interrupt at half of it, then the rest, and goes on with the block it was told.  The
    decoder is prebuilt: [decoder] is what it makes of the n-th frame.  The DMA takes every
    configuration (a refusal is only logged), and the flash reads without error. *)
From S2P Require Import Prelude Gatt Mmio.
#[local] Open Scope Z_scope.

Definition PCMBUF_IP_HF : Z := Z.shiftl 1 2.
Definition PCMBUF_IP_FU : Z := Z.shiftl 1 3.
Definition DISABLE : Z := 0.
Definition ENABLE : Z := 1.
Definition MASTER : Z := 0.
Definition MCLK_INT : Z := 0.
Definition OSR64 : Z := 0.
Definition I2S_FORMAT : Z := 0.
Definition FS_8K_I2S : Z := 8000.
Definition IO_MFP_BASE : Z := 0x40016000.
Definition IO22_CTL : Z := IO_MFP_BASE + 0x5C.
Definition IO23_CTL : Z := IO_MFP_BASE + 0x60.
Definition IO24_CTL : Z := IO_MFP_BASE + 0x64.
Definition IO25_CTL : Z := IO_MFP_BASE + 0x68.
Definition DAC_CONTROL_REGISTER_BASE : Z := 0x40015000.
Definition I2S_TX_CTL : Z := DAC_CONTROL_REGISTER_BASE + 0x00.
Definition I2S_TXFIFOCTL : Z := DAC_CONTROL_REGISTER_BASE + 0x08.
Definition CMU_ANALOG_BASE : Z := 0x40002100.
Definition AUDPLL_CTL : Z := CMU_ANALOG_BASE + 0x0004.
Definition CMU_AUDIOCLK : Z := 0x40002038.
Definition CLOCK_ID_I2STX : Z := 17.
Definition RESET_ID_AUDIO : Z := 16.

(** The handle, the application's variables and the DMA channel.  The queue holds buffers. *)
Record playback := Playback {
  opened : bool; sample_rate : Z; rofs : Z; pcm_off : Z; running : bool; pcm_buf : list Z; pcm_buf_len : Z; pcm_pool : bool; pcm_queue : option (list Z);
  put_pcm_work : bool; irq_cbk : bool;
  audio_file_offset : Z; audio_file_size : Z; audio_file_addr : Z; Bitstreamlen : Z; p_in_data : list Z; p_out_data : list Z; frames : nat;
  dma_on : bool; dma_cur : Z; dma_next : Z; dma_size : Z; heard : list Z }.
#[export] Instance eta_playback : EtaRecord playback := fun r =>
  Playback (opened r) (sample_rate r) (rofs r) (pcm_off r) (running r) (pcm_buf r) (pcm_buf_len r) (pcm_pool r) (pcm_queue r) (put_pcm_work r) (irq_cbk r)
    (audio_file_offset r) (audio_file_size r) (audio_file_addr r) (Bitstreamlen r) (p_in_data r) (p_out_data r) (frames r)
    (dma_on r) (dma_cur r) (dma_next r) (dma_size r) (heard r).

Section Playing.
Context (world : nat -> Z -> Z) (flash : Z -> Z) (decoder : nat -> list Z -> list Z) (decoder_init : Z) (flash_dev : bool).
#[local] Abbreviation PM := (M (driver playback)).
Definition rmw (a : Z) (f : Z -> Z) : PM unit := v ← sys_read32 world a; sys_write32 (f v) a.

(** ** audio_out_acts.c *)
Definition mfp_cfg_i2stx : PM unit :=
  let v := Z.lor (Z.shiftl 3 12) 10 in
  sys_write32 v IO22_CTL;; sys_write32 v IO23_CTL;; sys_write32 v IO24_CTL;; sys_write32 v IO25_CTL.
Definition i2stx0_if_init (mode_sel mclk_sel bclk_rat format_sel : Z) : PM unit :=
  sys_write32 0 I2S_TX_CTL;;
  rmw I2S_TX_CTL (fun v => Z.lor v (Z.shiftl mode_sel 7));;
  rmw I2S_TX_CTL (fun v => Z.lor v (Z.shiftl mclk_sel 6));;
  rmw I2S_TX_CTL (fun v => Z.lor v (Z.shiftl bclk_rat 3));;
  rmw I2S_TX_CTL (fun v => Z.lor v (Z.shiftl format_sel 1)).
Definition i2stx_if_op (operation : Z) : PM unit :=
  if negb (operation =? DISABLE) then rmw I2S_TX_CTL (fun v => Z.lor v 1) else rmw I2S_TX_CTL (fun v => Z.land v (Z.lnot 1)).
Definition i2stx0_clk_cfg (fs : Z) : PM unit :=
  log (ClockEnable CLOCK_ID_I2STX);;
  let CLKDIV := if negb (fs =? FS_8K_I2S) then 4 else 6 in
  sys_write32 0x16 AUDPLL_CTL;;
  rmw CMU_AUDIOCLK (fun v => Z.land v (Z.lnot (Z.shiftl 0xf 8)));;
  rmw CMU_AUDIOCLK (fun v => Z.lor v (Z.shiftl CLKDIV 8)).
Definition i2stx_fifo_cfg : PM unit := sys_write32 0x13 I2S_TXFIFOCTL.
Definition audio_out_pcmbuf_transfer_config (off cnt : Z) : PM unit := upd_dev (fun p => p <| dma_next := off |> <| dma_size := cnt |>).
Definition audio_out_pcmbuf_config (off cnt : Z) : PM unit :=
  upd_dev (fun p => p <| irq_cbk := true |> <| dma_cur := off |> <| dma_next := off |> <| dma_size := cnt |>).
Definition start_i2s_tx_dma : PM unit := upd_dev (fun p => p <| dma_on := true |>).
Definition stop_i2s_tx_dma : PM unit := upd_dev (fun p => p <| dma_on := false |>).
Definition audio_out_enable : PM unit :=
  mfp_cfg_i2stx;; i2stx0_clk_cfg FS_8K_I2S;; i2stx0_if_init MASTER MCLK_INT OSR64 I2S_FORMAT;; i2stx_fifo_cfg;;
  start_i2s_tx_dma;; i2stx_if_op ENABLE.
Definition audio_out_disable : PM unit := i2stx_if_op DISABLE;; stop_i2s_tx_dma.
Definition acts_audio_out_enable : PM unit := audio_out_enable;; log (DeviceBusy true).
Definition acts_audio_out_disable : PM unit := audio_out_disable;; log (ResetPeripheral RESET_ID_AUDIO);; log (DeviceBusy false).

(** ** audio_out_hal.c *)
Definition other_half (p : playback) : Z := Z.rem (pcm_off p + pcm_buf_len p ÷ 2) (pcm_buf_len p).
Definition audio_pcm_buf_cbk (pending : Z) : PM unit :=
  p ← get_dev;
  if negb (opened p) || negb (running p) then mret tt
  else if truthy (Z.land pending PCMBUF_IP_HF) || truthy (Z.land pending PCMBUF_IP_FU) then
    if truthy (Z.land pending PCMBUF_IP_HF) then
      if pcm_buf_len p =? 0 then ub else audio_out_pcmbuf_transfer_config (other_half p) (pcm_buf_len p ÷ 2)
    else
      upd_dev (fun p => p <| pcm_off := if truthy (pcm_off p) then 0 else pcm_buf_len p ÷ 2 |> <| put_pcm_work := true |>)
  else mret tt.
Definition audio_out_dma_isr (error_code : Z) : PM unit :=
  let pending := Z.lor (if error_code =? 1 then PCMBUF_IP_HF else 0) (if error_code =? 0 then PCMBUF_IP_FU else 0) in
  p ← get_dev; when (truthy pending && irq_cbk p) (audio_pcm_buf_cbk pending).
Definition audio_out_start_playback : PM Z :=
  p ← get_dev;
  audio_out_pcmbuf_config 0 (pcm_buf_len p ÷ 2);;
  audio_out_enable;;
  upd_dev (fun p => p <| pcm_off := 0 |> <| running := true |> <| rofs := 0 |>);;
  mret 0.
Definition audio_out_stop_playback : PM Z :=
  upd_dev (fun p => p <| running := false |>);;
  audio_out_disable;;
  log (ResetPeripheral RESET_ID_AUDIO);;
  upd_dev (fun p => p <| pcm_queue ::= fmap (fun _ => []) |> <| rofs := 0 |> <| pcm_off := 0 |>);;
  mret 0.
(** The handle is the driver's one; whether the device is found is the caller's. *)
Definition audio_out_device_open (found : bool) (rate : Z) : PM bool :=
  if negb found then mret false
  else upd_dev (fun p => p <| opened := true |> <| sample_rate := rate |> <| put_pcm_work := false |>);; mret true.
Definition audio_out_device_close : PM unit :=
  p ← get_dev;
  if negb (opened p) then ub else upd_dev (fun p => p <| pcm_pool := false |> <| pcm_queue := None |> <| opened := false |>).

(** ** system_app_audio-out.c *)
(** Each sample of two bytes is written twice. *)
Fixpoint convert_mono_to_stereo (n : nat) (p_in : list Z) : option (list Z) :=
  match n, p_in with
  | O, _ => Some []
  | S n, a :: b :: p_in => l ← convert_mono_to_stereo n p_in; Some (a :: b :: a :: b :: l)
  | S _, _ => None
  end.
Definition stop_audio_playback : PM unit := _ ← audio_out_stop_playback; upd_dev (fun p => p <| audio_file_offset := 0 |>).
Definition flash_bytes (a n : Z) : list Z := (fun i => flash (a + i)) <$> seqZ 0 n.
Fixpoint decode_loop (times : nat) (p_in_buffer p_out_buffer : Z) : PM unit :=
  match times with
  | O => mret tt
  | S times =>
      p ← get_dev;
      f ← lift (slice (p_in_data p) p_in_buffer (2 * Bitstreamlen p));
      let d := decoder (frames p) f in
      o ← lift (store (p_out_data p) p_out_buffer d);
      upd_dev (fun p => p <| p_out_data := o |> <| frames ::= S |>);;
      decode_loop times (p_in_buffer + 2 * Bitstreamlen p) (p_out_buffer + Z.of_nat (length d))
  end.
(** [off] is the place in the buffer that is to be filled. *)
Definition send_pcm_to_i2s (off p_out_len : Z) : PM unit :=
  p ← get_dev;
  if audio_file_offset p <? audio_file_size p then
    let read_len := p_out_len / 4 / 2 in
    when flash_dev
      (let cur_addr := Z.land (u32 (audio_file_addr p + audio_file_offset p)) 0xFFFFF in
       i ← lift (store (p_in_data p) 0 (flash_bytes cur_addr read_len));
       upd_dev (fun p => p <| p_in_data := i |>));;
    upd_dev (fun p => p <| audio_file_offset ::= (fun o => u32 (o + read_len)) |>);;
    (if Bitstreamlen p =? 0 then ub else decode_loop (Z.to_nat (u8 (read_len / (Bitstreamlen p * 2)))) 0 0);;
    p ← get_dev;
    st ← lift (convert_mono_to_stereo (Z.to_nat (p_out_len / 2 / 2)) (p_out_data p));
    b ← lift (store (pcm_buf p) off st);
    upd_dev (fun p => p <| pcm_buf := b |>)
  else stop_audio_playback.
Definition put_pcm_data : PM unit :=
  p ← get_dev;
  when (opened p && pcm_pool p)
    (if pcm_buf_len p =? 0 then ub else send_pcm_to_i2s (other_half p) (u16 (pcm_buf_len p ÷ 2))).
Definition start_audio_playback : PM unit :=
  upd_dev (fun p => p <| Bitstreamlen := u16 decoder_init |>);;
  p ← get_dev;
  if Bitstreamlen p =? 0 then mret tt
  else send_pcm_to_i2s 0 (u16 (pcm_buf_len p ÷ 2));; _ ← audio_out_start_playback; mret tt.

(** ** The DMA and the work queue *)
Definition play (off n : Z) : PM unit := p ← get_dev; d ← lift (slice (pcm_buf p) off n); upd_dev (fun p => p <| heard ::= (fun h => h ++ d) |>).
Definition dma_half : PM unit :=
  p ← get_dev;
  when (dma_on p) (play (dma_cur p) (dma_size p / 2);; audio_out_dma_isr 1).
Definition dma_full : PM unit :=
  p ← get_dev;
  when (dma_on p)
    (play (dma_cur p + dma_size p / 2) (dma_size p - dma_size p / 2);;
     upd_dev (fun p => p <| dma_cur := dma_next p |>);; audio_out_dma_isr 0).
Definition run_work : PM unit :=
  p ← get_dev;
  when (put_pcm_work p) (upd_dev (fun p => p <| put_pcm_work := false |>);; put_pcm_data).
Inductive play_step := Half | Full | Work.
Definition play_do (e : play_step) : PM unit := match e with Half => dma_half | Full => dma_full | Work => run_work end.
Fixpoint play_run (es : list play_step) : PM unit := match es with [] => mret tt | e :: es => play_do e;; play_run es end.
End Playing.

(** * Theorems *)
(** Every sample twice. *)
Fixpoint doubled (l : list Z) : list Z := match l with a :: b :: l => a :: b :: a :: b :: doubled l | _ => [] end.

Lemma convert_doubles n : forall l rest, length l = (2 * n)%nat -> convert_mono_to_stereo n (l ++ rest) = Some (doubled l).
Proof.
  induction n as [|n IH]; intros l rest Hl; [by destruct l|]. destruct l as [|a [|b l]]; [done|cbn in Hl; lia|].
  cbn [convert_mono_to_stereo app doubled]. rewrite IH by (cbn in Hl; lia). done.
Qed.
Lemma doubled_length n : forall l, length l = (2 * n)%nat -> length (doubled l) = (4 * n)%nat.
Proof. induction n as [|n IH]; intros l Hl; [by destruct l|]. destruct l as [|a [|b l]]; [done|cbn in Hl; lia|]. cbn [doubled length] in *. rewrite IH; lia. Qed.
Lemma slice_mid (a x b : list Z) : slice (a ++ x ++ b) (Z.of_nat (length a)) (Z.of_nat (length x)) = Some x.
Proof. unfold slice. rewrite !length_app, !(proj2 (Z.leb_le _ _)) by lia. cbn [andb]. by rewrite !Nat2Z.id, drop_app_length, take_app_length. Qed.
Lemma store_mid (a x y b : list Z) : length x = length y -> store (a ++ x ++ b) (Z.of_nat (length a)) y = Some (a ++ y ++ b).
Proof.
  intros H. unfold store. rewrite !length_app, !(proj2 (Z.leb_le _ _)) by lia. cbn [andb].
  by rewrite Nat2Z.id, take_app_length, <- drop_drop, drop_app_length, <- H, drop_app_length.
Qed.

Section Playback.
Context (world : nat -> Z -> Z) (flash : Z -> Z) (decoder : nat -> list Z -> list Z).
(** A frame of [2 * bl] bytes is decoded to four times as many; [times] frames fill a half. *)
Context (bl times : nat) (Hbl : 0 < Z.of_nat bl < 65536) (Htimes : (0 < times < 256)%nat) (Hsize : Z.of_nat (16 * bl * times) < 65536)
  (Hdec : forall n f, length f = (2 * bl)%nat -> length (decoder n f) = (8 * bl)%nat).
Definition read_len : nat := 2 * bl * times.
Definition half : nat := 16 * bl * times.
Fixpoint decoded (c n : nat) (x : list Z) : list Z :=
  match n with O => [] | S n => decoder c (take (2 * bl) x) ++ decoded (S c) n (drop (2 * bl) x) end.

Lemma decoded_length n : forall c x, length x = (2 * bl * n)%nat -> length (decoded c n x) = (8 * bl * n)%nat.
Proof using All.
  induction n as [|n IH]; intros c x Hx; cbn [decoded]; [cbn; lia|]. rewrite length_app, Hdec, IH; [lia| |]; rewrite ?length_drop, ?length_take; lia.
Qed.
Lemma decode_loop_ok n : forall s a x b a' y b', Bitstreamlen (dev s) = Z.of_nat bl -> p_in_data (dev s) = a ++ x ++ b -> length x = (2 * bl * n)%nat ->
  p_out_data (dev s) = a' ++ y ++ b' -> length y = (8 * bl * n)%nat ->
  ends (decode_loop decoder n (Z.of_nat (length a)) (Z.of_nat (length a'))) s (fun _ s' =>
    dev s' = (dev s) <| p_out_data := a' ++ decoded (frames (dev s)) n x ++ b' |> <| frames := (frames (dev s) + n)%nat |>).
Proof using All.
  induction n as [|n IH]; intros s a x b a' y b' Hb Hi Hx Ho Hy; cbn [decode_loop decoded].
  - bus. destruct y; [|cbn in Hy; lia]. cbn in Ho. rewrite Nat.add_0_r. cbn [app]. rewrite <- Ho. by destruct (dev s).
  - bus. rewrite Hb, Hi, Ho. assert (length (take (2 * bl) x) = (2 * bl)%nat) as L by (rewrite length_take; lia).
    pose proof (slice_mid a (take (2 * bl) x) (drop (2 * bl) x ++ b)) as Sl. rewrite (app_assoc (take _ _)), take_drop, L in Sl.
    replace (2 * Z.of_nat bl) with (Z.of_nat (2 * bl)) by lia. eapply ends_lift; [exact Sl|].
    set (d := decoder (frames (dev s)) (take (2 * bl) x)). assert (length d = (8 * bl)%nat) as Ld by (by apply Hdec).
    pose proof (store_mid a' (take (8 * bl) y) d (drop (8 * bl) y ++ b') ltac:(rewrite length_take; lia)) as St. rewrite (app_assoc (take _ y)), take_drop in St.
    eapply ends_bind, ends_lift; [exact St|].
    bus. replace (Z.of_nat (length a) + Z.of_nat (2 * bl)) with (Z.of_nat (length (a ++ take (2 * bl) x))) by (rewrite length_app; lia).
    replace (Z.of_nat (length a') + Z.of_nat (length d)) with (Z.of_nat (length (a' ++ d))) by (rewrite length_app; lia).
    set (s1 := Driver _ _ _).
    eapply ends_mono; [apply (IH s1 (a ++ take (2 * bl) x) (drop (2 * bl) x) b (a' ++ d) (drop (8 * bl) y) b'); subst s1; cbn [dev Bitstreamlen p_in_data p_out_data set_field]|].
    + done.
    + by rewrite Hi, <- !app_assoc, (app_assoc (take _ x)), take_drop.
    + rewrite length_drop. lia.
    + by rewrite <- app_assoc.
    + rewrite length_drop. lia.
    + intros [] s' ->. subst s1. cbn [dev frames set_field]. rewrite <- !app_assoc. replace (frames (dev s) + S n)%nat with (S (frames (dev s)) + n)%nat by lia. by destruct (dev s).
Qed.

(** The [i]-th part of the file that fills a half, decoded and doubled; [c] frames were decoded
    before the first. *)
Definition block (addr : Z) (c i : nat) : list Z :=
  doubled (decoded (c + i * times) times (flash_bytes flash (Z.land (u32 (addr + Z.of_nat (i * read_len))) 0xFFFFF) (Z.of_nat read_len))).
Lemma flash_bytes_length a n : length (flash_bytes flash a (Z.of_nat n)) = n.
Proof using. unfold flash_bytes. by rewrite length_fmap, length_seqZ, Nat2Z.id. Qed.
Lemma block_decoded c x : length x = read_len -> length (doubled (decoded c times x)) = half /\ length (decoded c times x) = (8 * bl * times)%nat.
Proof using All.
  intros Hx. pose proof (decoded_length times c x Hx) as L. split; [|exact L]. rewrite (doubled_length (4 * bl * times)); unfold half; lia.
Qed.
Lemma block_length addr c i : length (block addr c i) = half.
Proof using All. apply block_decoded, flash_bytes_length. Qed.
(** The position [i] of the file, and room for what is read and decoded. *)
Record at_block (addr : Z) (c i : nat) (p : playback) : Prop := {
  ab_offset : audio_file_offset p = Z.of_nat (i * read_len); ab_addr : audio_file_addr p = addr; ab_frames : frames p = (c + i * times)%nat;
  ab_bl : Bitstreamlen p = Z.of_nat bl; ab_in : (read_len <= length (p_in_data p))%nat; ab_out : (8 * bl * times <= length (p_out_data p))%nat }.
Lemma send_ok addr c i s a old b : at_block addr c i (dev s) -> Z.of_nat (i * read_len) < audio_file_size (dev s) -> Z.of_nat (S i * read_len) < 2 ^ 32 ->
  pcm_buf (dev s) = a ++ old ++ b -> length old = half ->
  ends (send_pcm_to_i2s world flash decoder true (Z.of_nat (length a)) (Z.of_nat half)) s (fun _ s' =>
    exists i' o', length i' = length (p_in_data (dev s)) /\ length o' = length (p_out_data (dev s)) /\
      dev s' = (dev s) <| pcm_buf := a ++ block addr c i ++ b |> <| audio_file_offset := Z.of_nat (S i * read_len) |>
        <| frames := (c + S i * times)%nat |> <| p_in_data := i' |> <| p_out_data := o' |>).
Proof using All.
  intros [Ho Ha Hf Hb Hi Hq] Hs Hmax Hbuf Hold. unfold send_pcm_to_i2s. bus. rewrite Ho, Ha, Hb, (proj2 (Z.ltb_lt _ _)) by done.
  replace (Z.of_nat half / 4 / 2) with (Z.of_nat read_len) by (unfold half, read_len; Z.to_euclidean_division_equations; lia).
  set (x := flash_bytes flash _ (Z.of_nat read_len)). assert (length x = read_len) as Hx by apply flash_bytes_length. cbn [when].
  pose proof (store_mid [] (take read_len (p_in_data (dev s))) x (drop read_len (p_in_data (dev s))) ltac:(rewrite length_take; lia)) as St.
  cbn [app length] in St. rewrite take_drop in St. apply ends_bind. eapply ends_bind, ends_lift; [exact St|]. bus.
  rewrite (proj2 (Z.eqb_neq _ _)) by lia.
  replace (Z.of_nat read_len / (Z.of_nat bl * 2)) with (Z.of_nat times) by (unfold read_len; Z.to_euclidean_division_equations; nia).
  rewrite u8_small, Nat2Z.id by lia. set (s1 := Driver _ _ _).
  eapply ends_mono; [apply (decode_loop_ok times s1 [] x (drop read_len (p_in_data (dev s))) [] (take (8 * bl * times) (p_out_data (dev s))) (drop (8 * bl * times) (p_out_data (dev s)))); subst s1; cbn [dev Bitstreamlen p_in_data p_out_data set_field app]; [exact Hb|done|done|by rewrite take_drop|rewrite length_take; lia]|].
  intros [] s' E. bus. rewrite E. subst s1. cbn [dev p_out_data pcm_buf frames set_field app]. rewrite Hf.
  destruct (block_decoded (c + i * times) x Hx) as [L1 L2].
  replace (Z.to_nat (Z.of_nat half / 2 / 2)) with (4 * bl * times)%nat by (unfold half; Z.to_euclidean_division_equations; lia).
  eapply ends_lift; [apply convert_doubles; rewrite L2; lia|]. eapply ends_bind, ends_lift; [rewrite Hbuf; apply store_mid; by rewrite L1|]. bus.
  exists (x ++ drop read_len (p_in_data (dev s))), (decoded (c + i * times) times x ++ drop (8 * bl * times) (p_out_data (dev s))).
  split; [rewrite length_app, length_drop; lia|]. split; [rewrite length_app, length_drop; lia|].
  rewrite E. unfold block. fold x. replace (c + S i * times)%nat with (c + i * times + times)%nat by lia.
  assert (u32 (Z.of_nat (i * read_len) + Z.of_nat read_len) = Z.of_nat (S i * read_len)) as Eo by (rewrite u32_small; lia).
  rewrite <- Eo, <- Ho. rewrite <- Hf. destruct (dev s). reflexivity.
Qed.

(** ** One block *)
Definition off (ev : bool) : Z := if ev then 0 else Z.of_nat half.
Definition layout (ev : bool) (cur oth : list Z) : list Z := if ev then cur ++ oth else oth ++ cur.
(** The DMA is at the start of [cur]; [h] was heard. *)
Record playing (ev : bool) (cur oth h : list Z) (p : playback) : Prop := {
  pl_on : opened p = true /\ pcm_pool p = true /\ running p = true /\ irq_cbk p = true /\ dma_on p = true;
  pl_size : pcm_buf_len p = 2 * Z.of_nat half /\ dma_size p = Z.of_nat half;
  pl_off : pcm_off p = off ev /\ dma_cur p = off ev;
  pl_buf : pcm_buf p = layout ev cur oth; pl_len : length cur = half /\ length oth = half;
  pl_heard : heard p = h }.
Definition same_file (p p' : playback) : Prop :=
  audio_file_size p' = audio_file_size p /\ forall addr c i, at_block addr c i p -> at_block addr c i p'.
Lemma half_pos : (0 < half)%nat.
Proof using All. unfold half. lia. Qed.
Lemma other_off ev p : pcm_off p = off ev -> pcm_buf_len p = 2 * Z.of_nat half -> other_half p = off (negb ev).
Proof using All.
  intros H1 H2. pose proof half_pos. unfold other_half. rewrite H1, H2. replace (2 * Z.of_nat half ÷ 2) with (Z.of_nat half) by (rewrite Z.quot_div_nonneg by lia; Z.to_euclidean_division_equations; lia).
  rewrite Z.rem_mod_nonneg by (destruct ev; cbn [off]; lia). destruct ev; cbn [off negb]; [apply Z.mod_small; lia|].
  replace (Z.of_nat half + Z.of_nat half) with (1 * (2 * Z.of_nat half)) by lia. by rewrite Z.mod_mul by lia.
Qed.
Lemma half_half : Z.of_nat half / 2 = Z.of_nat (8 * bl * times) /\ 2 * Z.of_nat half ÷ 2 = Z.of_nat half.
Proof using All. unfold half. rewrite Z.quot_div_nonneg by lia. split; Z.to_euclidean_division_equations; lia. Qed.
Lemma slice_layout ev cur oth (n m : nat) : length oth = half -> length cur = half -> (n + m <= half)%nat ->
  slice (layout ev cur oth) (off ev + Z.of_nat n) (Z.of_nat m) = Some (take m (drop n cur)).
Proof using All.
  intros Ho Hc Hn. unfold slice, layout, off. destruct ev; rewrite length_app, !(proj2 (Z.leb_le _ _)) by lia; cbn [andb]; rewrite Nat2Z.id.
  - replace (Z.to_nat (0 + Z.of_nat n)) with n by lia. rewrite drop_app_le, take_app_le by (rewrite ?length_drop; lia). done.
  - replace (Z.to_nat (Z.of_nat half + Z.of_nat n)) with (length oth + n)%nat by lia. by rewrite <- drop_drop, drop_app_length.
Qed.
Lemma block_played ev cur oth h s : playing ev cur oth h (dev s) ->
  ends (play_run world flash decoder true [Half; Full]) s (fun _ s' => playing (negb ev) oth cur (h ++ cur) (dev s') /\ put_pcm_work (dev s') = true /\ same_file (dev s) (dev s')).
Proof using All.
  intros [(O1 & O2 & O3 & O4 & O5) [Sz1 Sz2] [F1 F2] Hb [L1 L2] Hh]. destruct half_half as [E1 E2]. pose proof half_pos.
  cbn [play_run play_do]. unfold dma_half. bus. rewrite O5. cbn [when]. unfold play. bus. rewrite Hb, F2, Sz2, E1.
  pose proof (slice_layout ev cur oth 0 (8 * bl * times) L2 L1 ltac:(unfold half; lia)) as S1. rewrite Z.add_0_r, drop_0 in S1. eapply ends_lift; [exact S1|]. bus.
  unfold audio_out_dma_isr. bus. cbn [irq_cbk set_field]. rewrite O4. change (truthy (Z.lor (if 1 =? 1 then PCMBUF_IP_HF else 0) (if 1 =? 0 then PCMBUF_IP_FU else 0)) && true) with true. cbn [when].
  unfold audio_pcm_buf_cbk. bus. cbn [opened running pcm_buf_len set_field]. rewrite O1, O3. cbn [negb orb].
  change (truthy (Z.land (Z.lor (if 1 =? 1 then PCMBUF_IP_HF else 0) (if 1 =? 0 then PCMBUF_IP_FU else 0)) PCMBUF_IP_HF)) with true. cbn [orb]. rewrite Sz1, (proj2 (Z.eqb_neq _ _)) by lia.
  unfold audio_out_pcmbuf_transfer_config. bus. unfold dma_full. bus. cbn [dma_on set_field]. rewrite O5. cbn [when]. unfold play. bus. cbn [pcm_buf dma_cur dma_size set_field].
  rewrite Hb, F2, E2, E1.
  replace (Z.of_nat half - Z.of_nat (8 * bl * times)) with (Z.of_nat (8 * bl * times)) by (unfold half; lia).
  eapply ends_lift; [apply (slice_layout ev cur oth (8 * bl * times) (8 * bl * times) L2 L1); unfold half; lia|]. bus.
  unfold audio_out_dma_isr. bus. cbn [irq_cbk set_field]. rewrite O4. change (truthy (Z.lor (if 0 =? 1 then PCMBUF_IP_HF else 0) (if 0 =? 0 then PCMBUF_IP_FU else 0)) && true) with true. cbn [when].
  unfold audio_pcm_buf_cbk. bus. cbn [opened running set_field]. rewrite O1, O3. cbn [negb orb].
  change (truthy (Z.land (Z.lor (if 0 =? 1 then PCMBUF_IP_HF else 0) (if 0 =? 0 then PCMBUF_IP_FU else 0)) PCMBUF_IP_HF)) with false.
  change (truthy (Z.land (Z.lor (if 0 =? 1 then PCMBUF_IP_HF else 0) (if 0 =? 0 then PCMBUF_IP_FU else 0)) PCMBUF_IP_FU)) with true. cbn [orb]. bus.
  cbn [pcm_off pcm_buf_len dma_next set_field]. rewrite Sz1, E2, F1.
  rewrite (other_off ev) by done. replace (if truthy (off ev) then 0 else Z.of_nat half) with (off (negb ev)) by (destruct ev; cbn [off negb]; [done|unfold truthy; by rewrite (proj2 (Z.eqb_neq _ _)) by lia]).
  assert (take (8 * bl * times) cur ++ take (8 * bl * times) (drop (8 * bl * times) cur) = cur) as Ec.
  { rewrite (take_ge (drop _ _)) by (rewrite length_drop; unfold half in *; lia). apply take_drop. }
  split; [|split; [reflexivity|split; [reflexivity|intros a c i []; by split]]]. split; cbn [opened pcm_pool running irq_cbk dma_on pcm_buf_len dma_size pcm_off dma_cur pcm_buf heard set_field]; try done.
  - rewrite Hb. by destruct ev.
  - by rewrite Hh, <- app_assoc, Ec.
Qed.
Lemma work_fills addr c i ev cur oth h s : playing ev cur oth h (dev s) -> put_pcm_work (dev s) = true -> at_block addr c i (dev s) ->
  Z.of_nat (i * read_len) < audio_file_size (dev s) -> Z.of_nat (S i * read_len) < 2 ^ 32 ->
  ends (play_run world flash decoder true [Work]) s (fun _ s' => playing ev cur (block addr c i) h (dev s') /\ at_block addr c (S i) (dev s') /\
    audio_file_size (dev s') = audio_file_size (dev s)).
Proof using All.
  intros [(O1 & O2 & O3 & O4 & O5) [Sz1 Sz2] [F1 F2] Hb [L1 L2] Hh] Hw Hab Hs Hmax. destruct half_half as [E1 E2]. pose proof half_pos.
  cbn [play_run play_do]. unfold run_work. bus. rewrite Hw. cbn [when]. bus. unfold put_pcm_data. bus. cbn [opened pcm_pool pcm_buf_len set_field]. rewrite O1, O2. cbn [andb when].
  rewrite Sz1, (proj2 (Z.eqb_neq _ _)) by lia. rewrite E2, u16_small by (unfold half; lia). rewrite (other_off ev) by done.
  set (s1 := Driver _ _ _). assert (at_block addr c i (dev s1)) as Hab1 by (destruct Hab; by split).
  set (pre := if ev then cur else []). set (suf := if ev then [] else cur).
  assert (off (negb ev) = Z.of_nat (length pre)) as -> by (subst pre; destruct ev; cbn [off negb]; [by rewrite L1|done]).
  eapply ends_mono; [apply (send_ok addr c i s1 pre oth suf Hab1 Hs Hmax); [subst s1 pre suf; cbn [dev pcm_buf set_field]; rewrite Hb; destruct ev; cbn [layout app]; by rewrite ?app_nil_r|done]|].
  intros [] s' (i' & o' & Li & Lo & E). bus. destruct Hab as [A1 A2 A3 A4 A5 A6]. rewrite E. subst s1. cbn [dev p_in_data p_out_data set_field] in Li, Lo. split; [|split].
  - split; cbn [dev opened pcm_pool running irq_cbk dma_on pcm_buf_len dma_size pcm_off dma_cur pcm_buf heard set_field]; try done.
    + subst pre suf. destruct ev; cbn [layout app]; by rewrite ?app_nil_r.
    + split; [done|apply block_length].
  - split; cbn [dev audio_file_offset audio_file_addr frames Bitstreamlen p_in_data p_out_data set_field]; try done; lia.
  - done.
Qed.
Lemma work_stops ev cur oth h s : playing ev cur oth h (dev s) -> put_pcm_work (dev s) = true -> audio_file_size (dev s) <= audio_file_offset (dev s) ->
  ends (play_run world flash decoder true [Work]) s (fun _ s' => dma_on (dev s') = false /\ running (dev s') = false /\ put_pcm_work (dev s') = false /\ heard (dev s') = h).
Proof using All.
  intros [(O1 & O2 & O3 & O4 & O5) [Sz1 Sz2] [F1 F2] Hb [L1 L2] Hh] Hw Hs. pose proof half_pos.
  cbn [play_run play_do]. unfold run_work. bus. rewrite Hw. cbn [when]. bus. unfold put_pcm_data. bus. cbn [opened pcm_pool pcm_buf_len set_field]. rewrite O1, O2. cbn [andb when].
  rewrite Sz1, (proj2 (Z.eqb_neq _ _)) by lia. unfold send_pcm_to_i2s. bus. cbn [audio_file_offset audio_file_size set_field]. rewrite (proj2 (Z.ltb_ge _ _)) by done.
  unfold stop_audio_playback, audio_out_stop_playback, audio_out_disable, i2stx_if_op, stop_i2s_tx_dma, rmw. bus. by repeat split.
Qed.

(** ** The whole recording *)
Lemma play_run_app es es' s (Q : unit -> driver playback -> Prop) :
  ends (play_run world flash decoder true es) s (fun _ s' => ends (play_run world flash decoder true es') s' Q) -> ends (play_run world flash decoder true (es ++ es')) s Q.
Proof using.
  revert s. induction es as [|e es IH]; intros s H; cbn [app play_run] in *; [exact H|]. apply ends_inv in H as ([] & s1 & E & H).
  unfold mbind, M_bind in E. destruct (play_do world flash decoder true e s) as [[[] s2]|] eqn:E2; [|done].
  apply ends_bind. unfold ends at 1. rewrite E2. apply IH. unfold ends at 1. by rewrite E.
Qed.
(** The work is done before the next block ends. *)
Fixpoint rounds (n : nat) : list play_step := match n with O => [] | S n => [Half; Full; Work] ++ rounds n end.
Definition stopped (p : playback) : Prop := dma_on p = false /\ put_pcm_work p = false.
Lemma stopped_rounds n s : stopped (dev s) -> ends (play_run world flash decoder true (rounds n)) s (fun _ s' => s' = s).
Proof using.
  intros [H1 H2]. induction n as [|n IH]; cbn [rounds]; [by hoare|]. apply play_run_app.
  cbn [play_run play_do]. unfold dma_half, dma_full, run_work. bus. rewrite H1. cbn [when]. bus. rewrite H1. cbn [when]. bus. rewrite H2. cbn [when]. bus. exact IH.
Qed.
(** What a listener hears, block by block: [stale] is the second half's old content. *)
Definition heard_block (addr : Z) (c : nat) (stale : list Z) (j : nat) : list Z :=
  match j with O => block addr c 0 | S O => stale | S k => block addr c k end.
Section File.
Context (addr : Z) (c N : nat) (size : Z) (stale h0 : list Z) (HN : (0 < N)%nat)
  (Hfile : Z.of_nat ((N - 1) * read_len) < size <= Z.of_nat (N * read_len)) (Hmax : Z.of_nat (N * read_len) < 2 ^ 32).
#[local] Abbreviation e := (heard_block addr c stale).
#[local] Abbreviation stream j := (h0 ++ concat (e <$> seq 0 j)).
Lemma stream_next j : stream j ++ e j = stream (S j).
Proof using. by rewrite seq_S, fmap_app, concat_app, <- app_assoc, Nat.add_0_l; cbn [fmap list_fmap concat]; rewrite app_nil_r. Qed.
Lemma rounds_heard n : forall j ev s, (j < N)%nat -> playing ev (e j) (e (S j)) (stream j) (dev s) -> at_block addr c (S j) (dev s) -> audio_file_size (dev s) = size ->
  ends (play_run world flash decoder true (rounds n)) s (fun _ s' =>
    heard (dev s') = stream (Nat.min (j + n) N) /\ running (dev s') = bool_decide (j + n < N)%nat).
Proof using All.
  induction n as [|n IH]; intros j ev s Hj Hp Hab Hs; cbn [rounds].
  - bus. rewrite Nat.add_0_r, Nat.min_l, bool_decide_eq_true_2 by lia. destruct Hp as [(_ & _ & ? & _) _ _ _ _ ?]. done.
  - apply play_run_app. change [Half; Full; Work] with ([Half; Full] ++ [Work]). apply play_run_app.
    eapply ends_mono; [by apply block_played|]. intros [] s1 (Hp1 & Hw & Hs1 & Hab1). rewrite stream_next in Hp1. specialize (Hab1 _ _ _ Hab).
    destruct (decide (S j < N)%nat) as [Hlt|Hge].
    + eapply ends_mono; [apply (work_fills addr c (S j) _ _ _ _ s1 Hp1 Hw Hab1)|].
      * rewrite Hs1, Hs. assert (S j * read_len <= (N - 1) * read_len)%nat by (apply Nat.mul_le_mono_r; lia). lia.
      * assert (S (S j) * read_len <= N * read_len)%nat by (apply Nat.mul_le_mono_r; lia). lia.
      * intros [] s2 (Hp2 & Hab2 & Hs2). replace (j + S n)%nat with (S j + n)%nat by lia. apply (IH (S j) (negb ev) s2 Hlt); [exact Hp2|exact Hab2|by rewrite Hs2, Hs1].
    + assert (S j = N) as EN by lia.
      eapply ends_mono; [apply (work_stops _ _ _ _ s1 Hp1 Hw); destruct Hab1 as [-> _ _ _ _ _]; rewrite Hs1, Hs, EN; lia|].
      intros [] s2 (D1 & D2 & D3 & D4). eapply ends_mono; [by apply stopped_rounds|]. intros [] s3 ->. rewrite D4, D2, Nat.min_r, bool_decide_eq_false_2, <- EN by lia. done.
Qed.
Lemma start_plays s old : opened (dev s) = true -> pcm_pool (dev s) = true -> pcm_buf_len (dev s) = 2 * Z.of_nat half ->
  pcm_buf (dev s) = old ++ stale -> length old = half -> length stale = half -> heard (dev s) = h0 -> audio_file_size (dev s) = size ->
  audio_file_offset (dev s) = 0 -> audio_file_addr (dev s) = addr -> frames (dev s) = c -> (read_len <= length (p_in_data (dev s)))%nat ->
  (8 * bl * times <= length (p_out_data (dev s)))%nat ->
  ends (start_audio_playback world flash decoder (Z.of_nat bl) true) s (fun _ s' =>
    playing true (block addr c 0) stale h0 (dev s') /\ at_block addr c 1 (dev s') /\ audio_file_size (dev s') = size).
Proof using All.
  intros O1 O2 Sz Hb L1 L2 Hh Hs Ho Ha Hf Hi Hq. destruct half_half as [E1 E2]. pose proof half_pos.
  unfold start_audio_playback. bus. cbn [Bitstreamlen set_field]. rewrite u16_small by lia. rewrite (proj2 (Z.eqb_neq _ _)) by lia. cbn [pcm_buf_len set_field]. rewrite Sz, E2, u16_small by (unfold half; lia).
  set (s1 := Driver _ _ _). apply ends_bind.
  eapply ends_mono; [apply (send_ok addr c 0 s1 [] old stale)|].
  - split; subst s1; cbn [dev audio_file_offset audio_file_addr frames Bitstreamlen p_in_data p_out_data set_field]; try done. lia.
  - subst s1. cbn [dev audio_file_size set_field]. lia.
  - assert (1 * read_len <= N * read_len)%nat by (apply Nat.mul_le_mono_r; lia). lia.
  - done.
  - done.
  - intros [] s2 (i' & o' & Li & Lo & E). subst s1. cbn [dev p_in_data p_out_data set_field app] in *.
    unfold audio_out_start_playback. bus. rewrite E. cbn [pcm_buf_len set_field]. rewrite Sz, E2.
    unfold audio_out_pcmbuf_config, audio_out_enable, mfp_cfg_i2stx, i2stx0_clk_cfg, i2stx0_if_init, i2stx_fifo_cfg, start_i2s_tx_dma, i2stx_if_op, rmw.
    change (negb (FS_8K_I2S =? FS_8K_I2S)) with false. change (negb (ENABLE =? DISABLE)) with true. bus. rewrite E. split; [|split; [|exact Hs]].
    + split; cbn [opened pcm_pool running irq_cbk dma_on pcm_buf_len dma_size pcm_off dma_cur pcm_buf heard set_field]; try done. split; [apply block_length|done].
    + split; cbn [audio_file_offset audio_file_addr frames Bitstreamlen p_in_data p_out_data set_field]; try done; lia.
Qed.
End File.
End Playback.

(** The device is open, its buffer has the two halves, and the file is to be played from its
    start; [stale] is what the second half holds. *)
Record ready_to_play (bl times : nat) (stale : list Z) (p : playback) : Prop := {
  rp_open : opened p = true /\ pcm_pool p = true; rp_len : pcm_buf_len p = 2 * Z.of_nat (half bl times);
  rp_buf : exists old, pcm_buf p = old ++ stale /\ length old = half bl times; rp_stale : length stale = half bl times;
  rp_offset : audio_file_offset p = 0; rp_in : (read_len bl times <= length (p_in_data p))%nat; rp_out : (8 * bl * times <= length (p_out_data p))%nat }.
(** C33. Playing a recording of N blocks, with the work done before the next block ends, ends
    after N blocks, whatever the registers read as.  The first block is heard, then what the
    buffer's second half held before, then the second block and so on, each decoded once and
    in order, every sample on both channels; the last block of the file is never heard. *)
Theorem playback_heard world flash decoder bl times N n stale s : 0 < Z.of_nat bl < 65536 -> (0 < times < 256)%nat -> Z.of_nat (16 * bl * times) < 65536 ->
  (forall k f, length f = (2 * bl)%nat -> length (decoder k f) = (8 * bl)%nat) -> ready_to_play bl times stale (dev s) -> (0 < N)%nat ->
  Z.of_nat ((N - 1) * read_len bl times) < audio_file_size (dev s) <= Z.of_nat (N * read_len bl times) -> Z.of_nat (N * read_len bl times) < 2 ^ 32 ->
  ends (start_audio_playback world flash decoder (Z.of_nat bl) true;; play_run world flash decoder true (rounds n)) s (fun _ s' =>
    heard (dev s') = heard (dev s) ++ concat (heard_block flash decoder bl times (audio_file_addr (dev s)) (frames (dev s)) stale <$> seq 0 (Nat.min n N)) /\
    running (dev s') = bool_decide (n < N)%nat).
Proof.
  intros H1 H2 H3 H4 [[R1 R2] R3 (old & R4 & R5) R6 R7 R8 R9] H5 H6 H7. apply ends_bind.
  eapply ends_mono; [eapply (start_plays world flash decoder bl times); done|]. intros [] s1 (Hp & Hab & Hs).
  apply (rounds_heard world flash decoder bl times H1 H2 H3 H4 _ _ N _ stale (heard (dev s)) H5 H6 H7 n 0 true s1 H5); [by cbn; rewrite app_nil_r|done|done].
Qed.
Definition demo_decoder (n : nat) (f : list Z) : list Z := f ++ f ++ f ++ f.
Definition demo_player : driver playback :=
  Driver (Playback true 8 0 0 false (replicate 16 1 ++ replicate 16 9) 32 true None false false 0 6 0 0 [0; 0] (replicate 8 0) 0 false 0 0 0 []) 0 [].
Lemma playback_heard_witness :
  ends (start_audio_playback (fun _ _ => 0) (fun a => a) demo_decoder 1 true;; play_run (fun _ _ => 0) (fun a => a) demo_decoder true (rounds 3)) demo_player (fun _ s' =>
    heard (dev s') = concat (replicate 8 [0; 1]) ++ replicate 16 9 ++ concat (replicate 8 [2; 3]) /\ running (dev s') = false).
Proof.
  eapply ends_mono.
  - apply (playback_heard (fun _ _ => 0) (fun a => a) demo_decoder 1 1 3 3 (replicate 16 9) demo_player); try (vm_compute; split; congruence); try lia.
    + intros k f Hf. unfold demo_decoder. rewrite !length_app, Hf. lia.
    + split; try done; try (vm_compute; lia). by exists (replicate 16 1).
  - intros [] s' [E1 E2]. split; [by rewrite E1; vm_compute|by rewrite E2; vm_compute].
Defined.
(** If the work comes after the next block's end an old block is heard again. *)
Example late_work_repeats :
  option_map (fun r => heard (dev r.2)) ((start_audio_playback (fun _ _ => 0) (fun a => a) demo_decoder 1 true;;
    play_run (fun _ _ => 0) (fun a => a) demo_decoder true [Half; Full; Half; Full; Half; Full]) demo_player) =
  Some (concat (replicate 8 [0; 1]) ++ replicate 16 9 ++ concat (replicate 8 [0; 1])).
Proof. by vm_compute. Qed.
