(* ===== verification/Cscs.v ===== *)
(** * Cycling speed and cadence (samples/bluetooth/gatt/cscs.c)

    A peer sets the wheel counter and the sensor's location through the control point and is
    told the outcome; measurements come from a simulation, once a second.  The abstract
    control point is shared with the running service (Rscs). *)
From S2P Require Import Prelude Gatt.
#[local] Open Scope Z_scope.

Definition CSC_LOC_OTHER : Z := 0x00.
Definition CSC_LOC_FRONT_WHEEL : Z := 0x04.
Definition CSC_LOC_LEFT_CRANK : Z := 0x05.
Definition CSC_LOC_RIGHT_CRANK : Z := 0x06.
Definition CSC_LOC_REAR_WHEEL : Z := 0x0c.
Definition CSC_ERR_CCC_CONFIG : Z := 0x81.
Definition SC_CP_OP_SET_CWR : Z := 0x01.
Definition SC_CP_OP_UPDATE_LOC : Z := 0x03.
Definition SC_CP_OP_REQ_SUPP_LOC : Z := 0x04.
Definition SC_CP_OP_RESPONSE : Z := 0x10.
Definition SC_CP_RSP_SUCCESS : Z := 0x01.
Definition SC_CP_RSP_OP_NOT_SUPP : Z := 0x02.
Definition SC_CP_RSP_INVAL_PARAM : Z := 0x03.
Definition CSC_FEAT_WHEEL_REV : Z := Z.shiftl 1 0.
Definition CSC_FEAT_CRANK_REV : Z := Z.shiftl 1 1.
Definition CSC_FEAT_MULTI_SENSORS : Z := Z.shiftl 1 2.
Definition CSC_FEATURE : Z := Z.lor (Z.lor CSC_FEAT_WHEEL_REV CSC_FEAT_CRANK_REV) CSC_FEAT_MULTI_SENSORS.
Definition CSC_WHEEL_REV_DATA_PRESENT : Z := Z.shiftl 1 0.
Definition CSC_CRANK_REV_DATA_PRESENT : Z := Z.shiftl 1 1.
Definition BT_GATT_CCC_NOTIFY : Z := 1.
Definition BT_GATT_CCC_INDICATE : Z := 2.
Definition BT_ATT_ERR_INVALID_ATTRIBUTE_LEN : Z := 0x0d.
Definition supported_locations : list Z := [CSC_LOC_OTHER; CSC_LOC_FRONT_WHEEL; CSC_LOC_REAR_WHEEL; CSC_LOC_LEFT_CRANK; CSC_LOC_RIGHT_CRANK].

(** The service's variables; [i] and [rand_val] are those of the simulation. *)
Record csc := Csc {
  cwr : Z; sensor_location : Z; csc_simulate : bool; ctrl_point_configured : bool; lwet : Z; ccr : Z; lcet : Z; sim_i : Z; rand_val : Z }.
#[export] Instance eta_csc : EtaRecord csc := fun r =>
  Csc (cwr r) (sensor_location r) (csc_simulate r) (ctrl_point_configured r) (lwet r) (ccr r) (lcet r) (sim_i r) (rand_val r).
(** Little-endian fields of a packed structure. *)
Definition le32 (l : list Z) : option Z := match l with a :: b :: c :: d :: _ => Some (a + 256 * (b + 256 * (c + 256 * d))) | _ => None end.

Section Handlers.
Context (answer : nat -> Z).
#[local] Abbreviation CM := (M (server csc)).
Definition csc_meas_ccc_cfg_changed (value : Z) : CM unit := upd_svc (fun c => c <| csc_simulate := (value =? BT_GATT_CCC_NOTIFY) |>).
Definition ctrl_point_ccc_cfg_changed (value : Z) : CM unit := upd_svc (fun c => c <| ctrl_point_configured := (value =? BT_GATT_CCC_INDICATE) |>).
Definition read_location : CM (list Z) := c ← get_svc; mret [sensor_location c].
Definition read_csc_feature : CM (list Z) := mret (u16_encode CSC_FEATURE).
(** data is NULL for the empty list. *)
Definition ctrl_point_ind (req_op status : Z) (data : list Z) : CM unit :=
  _ ← bt_gatt_notify answer 9 ([SC_CP_OP_RESPONSE; req_op; status] ++ data); mret tt.
Definition write_ctrl_point (buf : list Z) : CM Z :=
  let len := Z.of_nat (length buf) in
  c ← get_svc;
  if negb (ctrl_point_configured c) then mret (- CSC_ERR_CCC_CONFIG)
  else if len =? 0 then mret (- BT_ATT_ERR_INVALID_ATTRIBUTE_LEN)
  else
    op ← lift (rd buf 0);
    if op =? SC_CP_OP_SET_CWR then
      (if negb (len =? 5) then ctrl_point_ind op SC_CP_RSP_INVAL_PARAM []
       else v ← lift (le32 (drop 1 buf)); upd_svc (fun c => c <| cwr := v |>);; ctrl_point_ind op SC_CP_RSP_SUCCESS []);;
      mret len
    else if op =? SC_CP_OP_UPDATE_LOC then
      (if negb (len =? 2) then ctrl_point_ind op SC_CP_RSP_INVAL_PARAM []
       else
         location ← lift (rd buf 1);
         if location =? sensor_location c then ctrl_point_ind op SC_CP_RSP_SUCCESS []
         else if existsb (fun l => l =? location) supported_locations then
           upd_svc (fun c => c <| sensor_location := location |>);; ctrl_point_ind op SC_CP_RSP_SUCCESS []
         else ctrl_point_ind op SC_CP_RSP_INVAL_PARAM []);;
      mret len
    else if op =? SC_CP_OP_REQ_SUPP_LOC then
      (if negb (len =? 1) then ctrl_point_ind op SC_CP_RSP_INVAL_PARAM []
       else ctrl_point_ind op SC_CP_RSP_SUCCESS supported_locations);;
      mret len
    else ctrl_point_ind op SC_CP_RSP_OP_NOT_SUPP [];; mret len.

Definition measurement_data (cwr lwet ccr lcet : Z) : list Z :=
  [Z.lor (if truthy cwr then CSC_WHEEL_REV_DATA_PRESENT else 0) (if truthy ccr then CSC_CRANK_REV_DATA_PRESENT else 0)] ++
  (if truthy cwr then u32_encode cwr ++ u16_encode lwet else []) ++
  (if truthy ccr then u16_encode ccr ++ u16_encode lcet else []).
Definition measurement_nfy (cwr lwet ccr lcet : Z) : CM unit := _ ← bt_gatt_notify answer 2 (measurement_data cwr lwet ccr lcet); mret tt.
Definition csc_simulation : CM unit :=
  upd_svc (fun c => c <| rand_val := if 1000 <? rand_val c then 1 else u32 (rand_val c + 1) |>);;
  c ← get_svc;
  let rand := rand_val c in
  let nfy_wheel := sim_i c mod 2 =? 0 in
  let nfy_crank := sim_i c mod 3 =? 0 in
  when nfy_wheel (upd_svc (fun c => c <| lwet := u16 (lwet c + 1050 + rand mod 50) |> <| cwr := u32 (cwr c + 2) |>));;
  when nfy_crank (upd_svc (fun c => c <| lcet := u16 (lcet c + 1000 + rand mod 50) |> <| ccr := u16 (ccr c + 1) |>));;
  c ← get_svc;
  measurement_nfy (if nfy_wheel then cwr c else 0) (if nfy_wheel then lwet c else 0) (if nfy_crank then ccr c else 0) (if nfy_crank then lcet c else 0);;
  when (sim_i c mod 64 =? 0) (upd_svc (fun c => c <| lcet := 0 |> <| lwet := 0 |> <| sim_i := 0 |>));;
  upd_svc (fun c => c <| sim_i := u8 (sim_i c + 1) |>).
Definition cscs_init : CM unit := emit (ServiceRegister "csc_svc").
Definition cscs_notify : CM unit := c ← get_svc; when (csc_simulate c) csc_simulation.
End Handlers.

(** * Theorems *)

(** ** The control point as the profile describes it *)
Record sc_sensor := ScSensor { total : Z; location : Z }.
(** The answer to a request, and the sensor behind it. *)
Definition sc_control_point (locations : list Z) (t : sc_sensor) (req : list Z) : list Z * sc_sensor :=
  match req with
  | [] => ([], t)
  | op :: arg =>
      let answer st data := [0x10; op; st] ++ data in
      let invalid := (answer 3 [], t) in
      if op =? 1 then
        match arg with [a; b; c; d] => (answer 1 [], ScSensor (a + 256 * (b + 256 * (c + 256 * d))) (location t)) | _ => invalid end
      else if op =? 3 then
        match arg with [l] => if decide (l = location t \/ l ∈ locations) then (answer 1 [], ScSensor (total t) l) else invalid | _ => invalid end
      else if op =? 4 then match arg with [] => (answer 1 locations, t) | _ => invalid end
      else (answer 2 [], t)
  end.
Definition sensor_of (c : csc) : sc_sensor := ScSensor (cwr c) (sensor_location c).
Lemma existsb_eqb l x : existsb (fun y => y =? x) l = bool_decide (x ∈ l).
Proof.
  apply eq_true_iff_eq. rewrite existsb_exists, bool_decide_eq_true. setoid_rewrite <- list_elem_of_In. split.
  - intros (y & H & E). apply Z.eqb_eq in E. by subst.
  - intros H. exists x. by rewrite Z.eqb_refl.
Qed.
(** Every request of a subscribed peer is answered as the profile says, once. *)
Lemma cscs_control_point_refines answer req s : ctrl_point_configured (svc s) = true -> req <> [] ->
  ends (write_ctrl_point answer req) s (fun r s' => r = Z.of_nat (length req) /\
    let '(a, t) := sc_control_point supported_locations (sensor_of (svc s)) req in
    events s' = events s ++ [Notify 9 a (answer (calls s))] /\ svc s' = (svc s) <| cwr := total t |> <| sensor_location := location t |>).
Proof.
  intros Hc Hr. destruct req as [|op arg]; [done|]. unfold write_ctrl_point, ctrl_point_ind. gatt. rewrite Hc. cbn [negb].
  rewrite (proj2 (Z.eqb_neq _ 0)) by (cbn [length]; lia). gatt. eapply ends_lift; [done|]. cbn [sc_control_point].
  change SC_CP_OP_SET_CWR with 1. change SC_CP_OP_UPDATE_LOC with 3. change SC_CP_OP_REQ_SUPP_LOC with 4.
  assert (svc s = (svc s) <| cwr := total (sensor_of (svc s)) |> <| sensor_location := location (sensor_of (svc s)) |>) as Same by (by destruct (svc s)).
  destruct (op =? 1) eqn:E1; [apply Z.eqb_eq in E1|destruct (op =? 3) eqn:E3; [apply Z.eqb_eq in E3|destruct (op =? 4) eqn:E4; [apply Z.eqb_eq in E4|]]]; subst.
  - destruct arg as [|a [|b [|c [|d [|e arg]]]]]; cbn [length]; [..|rewrite (proj2 (Z.eqb_neq _ _)) by lia]; cbn [negb Z.of_nat Z.eqb Pos.of_succ_nat Pos.succ Pos.eqb]; gatt; try (by split; [done|split]).
  - destruct arg as [|l [|e arg]]; cbn [length]; [| |rewrite (proj2 (Z.eqb_neq _ _)) by lia]; cbn [negb Z.of_nat Z.eqb Pos.of_succ_nat Pos.succ Pos.eqb]; gatt; try (by split; [done|split]).
    change (negb (Z.of_nat 2 =? 2)) with false. cbv iota. eapply ends_bind, ends_lift; [done|]. rewrite existsb_eqb. cbn [location sensor_of]. destruct (Z.eqb_spec l (sensor_location (svc s))) as [->|Hl].
    + gatt. rewrite decide_True by (by left). split; [done|]. split; [done|]. by destruct (svc s).
    + case_bool_decide as B; gatt.
      * rewrite decide_True by (by right). split; [done|]. split; [done|]. by destruct (svc s).
      * rewrite decide_False by (by intros [?|?]). by split; [done|split].
  - destruct arg as [|e arg]; cbn [length]; [|rewrite (proj2 (Z.eqb_neq _ _)) by lia]; cbn [negb Z.of_nat Z.eqb Pos.of_succ_nat Pos.succ Pos.eqb]; gatt; by split; [done|split].
  - gatt. by split; [done|split].
Qed.
(** Without a subscription, or with an empty request, nothing happens. *)
Lemma cscs_control_point_refused answer req s : ctrl_point_configured (svc s) = false \/ req = [] ->
  ends (write_ctrl_point answer req) s (fun r s' => r < 0 /\ s' = s).
Proof. intros [H | ->]; unfold write_ctrl_point; gatt; [rewrite H; by gatt|destruct (ctrl_point_configured (svc s)); by gatt]. Qed.

(** ** Measurements *)
(** What a collector reads: the wheel's and the crank's counter and time. *)
Definition csc_parse (b : list Z) : option (option (Z * Z) * option (Z * Z)) :=
  '(f, b) ← p_u8 b;
  let pair (p : list Z -> option (Z * list Z)) b := '(x, b) ← p b; '(t, b) ← p_u16 b; Some (Some (x, t), b) in
  '(w, b) ← p_if (Z.testbit f 0) None (pair p_u32) b;
  '(c, b) ← p_if (Z.testbit f 1) None (pair p_u16) b;
  match b with [] => Some (w, c) | _ => None end.
Lemma csc_measurement_roundtrip w tw c tc : 0 <= w < 2 ^ 32 -> in_u16 tw -> in_u16 c -> in_u16 tc ->
  csc_parse (measurement_data w tw c tc) = Some (if truthy w then Some (w, tw) else None, if truthy c then Some (c, tc) else None).
Proof.
  intros Hw Htw Hc Htc. unfold csc_parse, measurement_data. rewrite p_u8_cons. cbn [mbind option_bind].
  set (f := Z.lor _ _). assert (Z.testbit f 0 = truthy w) as -> by (subst f; by destruct (truthy w), (truthy c)).
  assert (Z.testbit f 1 = truthy c) as -> by (subst f; by destruct (truthy w), (truthy c)).
  pose proof (p_u16_encode tw [] Htw) as P1. pose proof (p_u16_encode tc [] Htc) as P2. rewrite app_nil_r in P1, P2.
  destruct (truthy w); destruct (truthy c); unfold p_if; rewrite ?app_nil_r, <- ?app_assoc; cbn [app];
    rewrite ?p_u32_encode by done; cbn [mbind option_bind]; rewrite ?p_u16_encode by done; rewrite ?P1; cbn [mbind option_bind]; rewrite ?p_u16_encode by done; cbn [mbind option_bind];
    rewrite ?P2; done.
Qed.
