(* ===== verification/Rscs.v ===== *)
(** * Running speed and cadence (samples/bluetooth/gatt/rscs.c)

    The same control point as the cycling service's, answered by indications of which one is
    under way at a time, from a response object with room for one byte of data; and
    measurements from a simulation. *)
From S2P Require Import Prelude Gatt Cscs.
#[local] Open Scope Z_scope.

Definition RSCS_ERR_IN_PROGRESS : Z := 0x80.
Definition RSCS_ERR_CCC_CONFIG : Z := 0x81.
Definition RSC_MEAS_FLAG_INSTANTANEOUS_STRIDE_LENGTH_PRESENT : Z := Z.shiftl 1 0.
Definition RSC_MEAS_FLAG_TOTAL_DISTANCE_PRESENT : Z := Z.shiftl 1 1.
Definition RSC_MEAS_FLAG_WALKING_STATUS_BITS : Z := 0.
Definition RSC_MEAS_FLAG_RUNNING_STATUS_BITS : Z := Z.shiftl 1 2.
Definition RSC_SENSOR_LOCAL_OTHER : Z := 0x00.
Definition RSC_SENSOR_LOCAL_TOP_OF_SHOE : Z := 0x01.
Definition RSC_SENSOR_LOCAL_IN_SHOE : Z := 0x02.
Definition RSC_SENSOR_LOCAL_HIP : Z := 0x03.
Definition RSC_SENSOR_LOCAL_CHEST : Z := 0x0e.
Definition RSC_FEATURE_INSTANTANEOUS_STRIDE_LENGTH_MEASUREMENT_SUPPORTED : Z := Z.shiftl 1 0.
Definition RSC_FEATURE_TOTAL_DISTANCE_MEASUREMENT_SUPPORTED : Z := Z.shiftl 1 1.
Definition RSC_FEATURE_WALKING_OR_RUNNING_STATUS_SUPPORTED : Z := Z.shiftl 1 2.
Definition RSC_FEATURE_MULTI_SENSOR_LOCATIONS_SUPPORTED : Z := Z.shiftl 1 4.
Definition MAX_SC_CTRL_POINT_DATA_LEN : Z := 1.
Definition rsc_locations : list Z :=
  [RSC_SENSOR_LOCAL_OTHER; RSC_SENSOR_LOCAL_TOP_OF_SHOE; RSC_SENSOR_LOCAL_IN_SHOE; RSC_SENSOR_LOCAL_HIP; RSC_SENSOR_LOCAL_CHEST].

Record rscs_rsc_measurement := RscMeas {
  flag : Z; instantaneous_speed : Z; instantaneous_cadence : Z; instantaneous_stride_length : Z; total_distance : Z }.
#[export] Instance eta_rsc_meas : EtaRecord rscs_rsc_measurement := fun r =>
  RscMeas (flag r) (instantaneous_speed r) (instantaneous_cadence r) (instantaneous_stride_length r) (total_distance r).
(** struct bt_gatt_rscs, the other variables and the response's data. *)
Record bt_gatt_rscs := RscsState {
  rsc_meas : rscs_rsc_measurement; rsc_meas_ccc : Z; rsc_feature : Z; rsc_location : Z; sc_control_point_ccc : Z;
  curr_total_distance : Z; ctrl_point_indicating : Z; resp_data : list Z; walking : bool; cnt : Z }.
#[export] Instance eta_rscs : EtaRecord bt_gatt_rscs := fun r =>
  RscsState (rsc_meas r) (rsc_meas_ccc r) (rsc_feature r) (rsc_location r) (sc_control_point_ccc r)
    (curr_total_distance r) (ctrl_point_indicating r) (resp_data r) (walking r) (cnt r).

Section Handlers.
Context (answer : nat -> Z).
#[local] Abbreviation RM := (M (server bt_gatt_rscs)).
Definition upd_meas (f : rscs_rsc_measurement -> rscs_rsc_measurement) : RM unit := upd_svc (fun r => r <| rsc_meas ::= f |>).
Definition rscs_rsc_meas_ccc_cfg_changed (value : Z) : RM unit := upd_svc (fun r => r <| rsc_meas_ccc := b2z (value =? BT_GATT_CCC_NOTIFY) |>).
Definition rscs_sc_ctrl_point_ccc_cfg_changed (value : Z) : RM unit :=
  upd_svc (fun r => r <| sc_control_point_ccc := b2z (value =? BT_GATT_CCC_INDICATE) |>).
Definition rscs_sensor_location_read : RM (list Z) := r ← get_svc; mret [rsc_location r].
Definition rscs_rsc_feature_read : RM (list Z) := r ← get_svc; mret (u16_encode (rsc_feature r)).
Definition ctrl_point_indicate_rsp : RM unit := upd_svc (fun r => r <| ctrl_point_indicating := 0 |>).
(** The data is copied into the response, and as much of it is sent. *)
Definition rsc_ctrl_point_ind (req_op status : Z) (data : list Z) : RM unit :=
  r ← get_svc;
  d ← lift (store (resp_data r) 0 data);
  upd_svc (fun r => r <| resp_data := d |>);;
  sent ← lift (slice d 0 (Z.of_nat (length data)));
  err ← bt_gatt_indicate answer 9 ([SC_CP_OP_RESPONSE; req_op; status] ++ sent);
  when (err =? 0) (upd_svc (fun r => r <| ctrl_point_indicating := 1 |>)).
Definition rscs_sc_ctrl_point_write (buf : list Z) : RM Z :=
  let len := Z.of_nat (length buf) in
  r ← get_svc;
  if negb (truthy (sc_control_point_ccc r)) then mret (- RSCS_ERR_CCC_CONFIG)
  else if len =? 0 then mret (- BT_ATT_ERR_INVALID_ATTRIBUTE_LEN)
  else if truthy (ctrl_point_indicating r) then mret (- RSCS_ERR_IN_PROGRESS)
  else
    op ← lift (rd buf 0);
    if op =? SC_CP_OP_SET_CWR then
      (if negb (len =? 5) then rsc_ctrl_point_ind op SC_CP_RSP_INVAL_PARAM []
       else v ← lift (le32 (drop 1 buf)); upd_meas (fun m => m <| total_distance := v |>);; rsc_ctrl_point_ind op SC_CP_RSP_SUCCESS []);;
      mret len
    else if op =? SC_CP_OP_UPDATE_LOC then
      (if negb (len =? 2) then rsc_ctrl_point_ind op SC_CP_RSP_INVAL_PARAM []
       else
         l ← lift (rd buf 1);
         if l =? rsc_location r then rsc_ctrl_point_ind op SC_CP_RSP_SUCCESS []
         else if existsb (fun k => k =? l) rsc_locations then
           upd_svc (fun r => r <| rsc_location := l |>);; rsc_ctrl_point_ind op SC_CP_RSP_SUCCESS []
         else rsc_ctrl_point_ind op SC_CP_RSP_INVAL_PARAM []);;
      mret len
    else if op =? SC_CP_OP_REQ_SUPP_LOC then
      (if negb (len =? 1) then rsc_ctrl_point_ind op SC_CP_RSP_INVAL_PARAM []
       else rsc_ctrl_point_ind op SC_CP_RSP_SUCCESS rsc_locations);;
      mret len
    else rsc_ctrl_point_ind op SC_CP_RSP_OP_NOT_SUPP [];; mret len.

Definition rsc_measurement_simulation : RM unit :=
  r ← get_svc;
  let f := Z.lor (Z.lor RSC_MEAS_FLAG_INSTANTANEOUS_STRIDE_LENGTH_PRESENT RSC_MEAS_FLAG_TOTAL_DISTANCE_PRESENT)
    (if walking r then RSC_MEAS_FLAG_WALKING_STATUS_BITS else RSC_MEAS_FLAG_RUNNING_STATUS_BITS) in
  if truthy (Z.land f RSC_MEAS_FLAG_RUNNING_STATUS_BITS) then
    upd_meas (fun m => RscMeas f 1152 250 100 (u32 (total_distance m + 50)))
  else upd_meas (fun m => RscMeas f 384 110 75 (u32 (total_distance m + 15))).
Definition rsc_data (m : rscs_rsc_measurement) (distance : Z) : list Z :=
  [flag m] ++ u16_encode (instantaneous_speed m) ++ [instantaneous_cadence m] ++
  (if truthy (Z.land (flag m) RSC_MEAS_FLAG_INSTANTANEOUS_STRIDE_LENGTH_PRESENT) then u16_encode (instantaneous_stride_length m) else []) ++
  (if truthy (Z.land (flag m) RSC_MEAS_FLAG_TOTAL_DISTANCE_PRESENT) then u32_encode distance else []).
(** The buffer has the size of the packed measurement. *)
Definition rsc_measurement_notify : RM unit :=
  r ← get_svc;
  if truthy (rsc_meas_ccc r) then
    buf ← lift (fits 10 (rsc_data (rsc_meas r) (curr_total_distance r)));
    _ ← bt_gatt_notify answer 2 buf; mret tt
  else mret tt.
(** cnt overflows after two billion seconds. *)
Definition rscs_timer_handler : RM unit :=
  rsc_measurement_simulation;;
  r ← get_svc;
  upd_svc (fun r => r <| cnt ::= (fun n => n + 1) |>);;
  when (Z.rem (cnt r) 3 =? 0) (upd_svc (fun r => r <| curr_total_distance := total_distance (rsc_meas r) |>));;
  rsc_measurement_notify.
Definition rscs_timer_init : RM unit := emit (TimerInit "rscs_timer");; emit (TimerStart "rscs_timer" 1 1).
Definition rscs_init : RM unit :=
  let f := Z.lor (Z.lor (Z.lor RSC_FEATURE_INSTANTANEOUS_STRIDE_LENGTH_MEASUREMENT_SUPPORTED RSC_FEATURE_TOTAL_DISTANCE_MEASUREMENT_SUPPORTED)
    RSC_FEATURE_WALKING_OR_RUNNING_STATUS_SUPPORTED) RSC_FEATURE_MULTI_SENSOR_LOCATIONS_SUPPORTED in
  upd_svc (fun r => r <| rsc_feature := f |> <| rsc_location := RSC_SENSOR_LOCAL_IN_SHOE |>);;
  emit (ServiceRegister "rscs_svc");; rscs_timer_init.
End Handlers.

(** * Theorems *)
Definition rsc_sensor (r : bt_gatt_rscs) : sc_sensor := ScSensor (total_distance (rsc_meas r)) (rsc_location r).
(** The state after an answer that the host took or not. *)
Definition answered (err : Z) (t : sc_sensor) (r : bt_gatt_rscs) : bt_gatt_rscs :=
  let r := r <| rsc_meas ::= (fun m => m <| total_distance := total t |>) |> <| rsc_location := location t |> in
  if err =? 0 then r <| ctrl_point_indicating := 1 |> else r.
#[local] Ltac told Told s t := eapply ends_mono; [apply (Told _ _ t); [done|done|cbn [svc]; by destruct (svc s) as [[]]]|]; intros [] ? [? ?]; by gatt.
Lemma store_nil b : store b 0 [] = Some b.
Proof.
  unfold store. cbn [length]. rewrite (proj2 (Z.leb_le (0 + Z.of_nat 0) (Z.of_nat (length b)))) by lia. cbn [Z.leb Z.compare andb Z.to_nat Nat.add app].
  by rewrite take_0, drop_0.
Qed.
Lemma slice_nil b : slice b 0 0 = Some [].
Proof. unfold slice. rewrite (proj2 (Z.leb_le (0 + 0) (Z.of_nat (length b)))) by lia. done. Qed.
Lemma ind_without_data answer op st s : ends (rsc_ctrl_point_ind answer op st []) s (fun _ s' =>
  events s' = events s ++ [Indicate 9 [0x10; op; st] (answer (calls s))] /\
  svc s' = if answer (calls s) =? 0 then (svc s) <| ctrl_point_indicating := 1 |> else svc s).
Proof.
  unfold rsc_ctrl_point_ind. gatt. eapply ends_lift; [apply store_nil|]. gatt. eapply ends_lift; [apply slice_nil|]. gatt.
  destruct (answer (calls s) =? 0); cbn [when]; gatt; (split; [done|by destruct (svc s)]).
Qed.
(** Every request but the one for the locations is answered as the profile says; the next one
    is turned away until the peer has confirmed the answer. *)
Lemma rscs_control_point_refines answer req s : truthy (sc_control_point_ccc (svc s)) = true -> ctrl_point_indicating (svc s) = 0 -> req <> [] -> req <> [4] ->
  ends (rscs_sc_ctrl_point_write answer req) s (fun r s' => r = Z.of_nat (length req) /\
    let '(a, t) := sc_control_point rsc_locations (rsc_sensor (svc s)) req in
    events s' = events s ++ [Indicate 9 a (answer (calls s))] /\ svc s' = answered (answer (calls s)) t (svc s)).
Proof.
  intros Hc Hi Hr H4. destruct req as [|op arg]; [done|]. unfold rscs_sc_ctrl_point_write. gatt. rewrite Hc, Hi. cbn [negb].
  rewrite (proj2 (Z.eqb_neq _ 0)) by (cbn [length]; lia). change (truthy 0) with false. cbv iota. gatt. eapply ends_lift; [done|]. cbn [sc_control_point].
  change SC_CP_OP_SET_CWR with 1. change SC_CP_OP_UPDATE_LOC with 3. change SC_CP_OP_REQ_SUPP_LOC with 4.
  assert (forall st s1 t, calls s1 = calls s -> events s1 = events s -> svc s1 = (svc s) <| rsc_meas ::= (fun m => m <| total_distance := total t |>) |> <| rsc_location := location t |> ->
    ends (rsc_ctrl_point_ind answer op st []) s1 (fun _ s' => events s' = events s ++ [Indicate 9 [0x10; op; st] (answer (calls s))] /\
      svc s' = answered (answer (calls s)) t (svc s))) as Told.
  { intros st s1 t E1 E2 E3. eapply ends_mono; [apply ind_without_data|]. intros [] s' [H1 H2]. rewrite H1, H2, E1, E2, E3. by split. }
  assert (svc s = (svc s) <| rsc_meas ::= (fun m => m <| total_distance := total (rsc_sensor (svc s)) |>) |> <| rsc_location := location (rsc_sensor (svc s)) |>) as Same by (by destruct (svc s) as [[]]).
  destruct (op =? 1) eqn:E1; [apply Z.eqb_eq in E1|destruct (op =? 3) eqn:E3; [apply Z.eqb_eq in E3|destruct (op =? 4) eqn:E4; [apply Z.eqb_eq in E4|]]]; subst.
  - destruct arg as [|a [|b [|c [|d [|e arg]]]]]; cbn [length]; [..|rewrite (proj2 (Z.eqb_neq _ _)) by lia]; cbn [negb Z.of_nat Z.eqb Pos.of_succ_nat Pos.succ Pos.eqb]; gatt;
      try told Told s (rsc_sensor (svc s)).
    change (negb (Z.of_nat 5 =? 5)) with false. cbv iota. eapply ends_bind, ends_lift; [done|]. unfold upd_meas. gatt.
    told Told s (ScSensor (a + 256 * (b + 256 * (c + 256 * d))) (rsc_location (svc s))).
  - destruct arg as [|l [|e arg]]; cbn [length]; [| |rewrite (proj2 (Z.eqb_neq _ _)) by lia]; cbn [negb Z.of_nat Z.eqb Pos.of_succ_nat Pos.succ Pos.eqb]; gatt;
      try told Told s (rsc_sensor (svc s)).
    change (negb (Z.of_nat 2 =? 2)) with false. cbv iota. eapply ends_bind, ends_lift; [done|]. rewrite existsb_eqb. cbn [location rsc_sensor].
    destruct (Z.eqb_spec l (rsc_location (svc s))) as [->|Hl].
    + rewrite decide_True by (by left). told Told s (rsc_sensor (svc s)).
    + case_bool_decide as B; gatt.
      * rewrite decide_True by (by right). told Told s (ScSensor (total_distance (rsc_meas (svc s))) l).
      * rewrite decide_False by (by intros [?|?]). told Told s (rsc_sensor (svc s)).
  - destruct arg as [|e arg]; [done|]. cbn [length]. rewrite (proj2 (Z.eqb_neq _ _)) by lia. cbn [negb]. gatt. told Told s (rsc_sensor (svc s)).
  - gatt. told Told s (rsc_sensor (svc s)).
Qed.
(** A request is turned away, and nothing happens, while the answer to the one before is not
    confirmed, without a subscription, and when it is empty. *)
Lemma rscs_control_point_refused answer req s : truthy (sc_control_point_ccc (svc s)) = false \/ req = [] \/ truthy (ctrl_point_indicating (svc s)) = true ->
  ends (rscs_sc_ctrl_point_write answer req) s (fun r s' => r < 0 /\ s' = s).
Proof.
  intros H. unfold rscs_sc_ctrl_point_write. gatt. destruct (truthy (sc_control_point_ccc (svc s))); cbn [negb]; [|by gatt].
  destruct req as [|op arg]; [by gatt|]. rewrite (proj2 (Z.eqb_neq _ 0)) by (cbn [length]; lia).
  destruct H as [H|[H | ->]]; [done|done|]. by gatt.
Qed.
(** The request for the locations copies five bytes into the one of the response. *)
Lemma rscs_locations_overflow answer s : truthy (sc_control_point_ccc (svc s)) = true -> ctrl_point_indicating (svc s) = 0 -> length (resp_data (svc s)) = Z.to_nat MAX_SC_CTRL_POINT_DATA_LEN ->
  rscs_sc_ctrl_point_write answer [4] s = None.
Proof.
  intros Hc Hi Hl. destruct s as [r n ev]. destruct r as [? ? ? ? c ? i [|x [|y d]] ? ?]; try discriminate Hl. cbn [svc sc_control_point_ccc ctrl_point_indicating] in Hc, Hi. subst.
  destruct c; [discriminate Hc|reflexivity|reflexivity].
Qed.

(** ** Measurements *)
(** What a collector reads: speed and cadence, stride and distance if present, running. *)
Definition rsc_parse (b : list Z) : option (Z * Z * option Z * option Z * bool) :=
  let some (p : list Z -> option (Z * list Z)) b := '(x, b) ← p b; Some (Some x, b) in
  '(f, b) ← p_u8 b;
  '(v, b) ← p_u16 b;
  '(c, b) ← p_u8 b;
  '(l, b) ← p_if (Z.testbit f 0) None (some p_u16) b;
  '(d, b) ← p_if (Z.testbit f 1) None (some p_u32) b;
  match b with [] => Some (v, c, l, d, Z.testbit f 2) | _ => None end.
Lemma rsc_measurement_roundtrip f v c l d : in_u16 v -> in_u16 l -> 0 <= d < 2 ^ 32 -> forall total,
  rsc_parse (rsc_data (RscMeas f v c l total) d) =
    Some (v, c, if Z.testbit f 0 then Some l else None, if Z.testbit f 1 then Some d else None, Z.testbit f 2).
Proof.
  intros Hv Hl Hd total. unfold rsc_parse, rsc_data. cbn [flag instantaneous_speed instantaneous_cadence instantaneous_stride_length].
  unfold RSC_MEAS_FLAG_INSTANTANEOUS_STRIDE_LENGTH_PRESENT, RSC_MEAS_FLAG_TOTAL_DISTANCE_PRESENT. rewrite !Z.shiftl_1_l, !land_pow2_truthy by done.
  rewrite p_u8_cons. cbn [mbind option_bind]. rewrite p_u16_encode by done. cbn [mbind option_bind]. rewrite p_u8_cons. cbn [mbind option_bind].
  pose proof (p_u16_encode l [] Hl) as P1. pose proof (p_u32_encode d [] Hd) as P2. rewrite app_nil_r in P1, P2.
  destruct (Z.testbit f 0); destruct (Z.testbit f 1); cbn [p_if app mbind option_bind];
    rewrite ?app_nil_r, ?p_u16_encode by done; cbn [mbind option_bind]; rewrite ?P1, ?P2; done.
Qed.
